(* ===== verification/_CoqProject ===== *)
-Q . S2P
Prelude.v
SlotVec.v
CircBuf.v
Transaction.v
KkcSock.v
KkcAddr.v
MsgId.v
Messages.v
Queue.v
Msg.v
ProxyMsg.v
ProxyFile.v
ProxyReal.v
ProxyLink.v
NpmParams.v
CcfsFilter.v
Effect.v
World.v
Task.v
TaskOps.v
Migcom.v
Migman.v
TaskExec.v
Delivery.v
TaskLife.v
Frames.v
Shutdown.v
Methods.v
Typing.v
TaskNew.v
CkptKernel.v
CkptArch.v
Ckpt.v
CkptOps.v
CkptCom.v
CkptImage.v
CkptWrite.v
CkptSave.v
CkptRead.v
CkptFiles.v
CkptAreas.v
CkptRestart.v
CkptRound.v
CkptExample.v
Rpc.v
RpcCall.v
CtlFs.v
CtlPath.v
CtlTree.v
CtlFile.v
Man.v
Nodes.v
ManStop.v
Listen.v
ProxyIoctl.v
ProxyServer.v
ProxyClient.v
ProxyCall.v
ProxyOpen.v
ProxyFs.v
ProxyName.v
ProxyClone.v
ProxyTask.v
Netlink.v
Director.v
DirectorMsg.v
DirectorApi.v
DirectorServe.v
DirectorCall.v
DirectorDecide.v
DirectorFail.v
DirectorTx.v
DirectorSend.v
CcfsPage.v
Ccfs.v
CcfsRefs.v
CcfsDir.v
CcfsLife.v
CcfsRun.v
CcfsPrefetch.v
