(* ===== verification/Prelude.v ===== *)
(** Clondike: a verification development of the kernel side of the cluster.

    * The program

    Clondike makes Linux processes migrate between the nodes of a cluster.  Its kernel
    modules (src/src) are:

    - KKC (src/src/kkc), the kernel-to-kernel communication library: sockets addressed
      by strings such as [tcp:10.0.0.1:54321];
    - TCMI (src/src/tcmi), the migration core: a slot vector and a message queue (lib),
      messages, transactions and a receiving thread per connection (comm), managers,
      tasks, checkpoints, remote system calls and a control file system;
    - ProxyFS (src/src/proxyfs), which keeps terminals and pipes of a migrated process
      working: the server on the home node has the real files, the client on the other
      node has proxy files, and data travels in both directions through circular buffers
      and messages with confirmations;
    - CCFS (src/src/ccfs), a caching file system, and the director interface
      (src/src/director), which hands decisions to a user-space process through netlink; the
      library of that process is src/userspace/director-api.

    How the modelled parts interact: a sender builds a message with a constructor of its
    class, gives it a transaction, and sends its frame through a KKC socket; the thread
    of tcmi_comm.c on the other side asks the factory for an empty message of the
    received id, lets it receive itself and delivers it to the transaction it answers or
    to the queue of the receiver; the waiting sender wakes up, or its timer expires.
    A connection of two nodes is a migration manager on each of them: it hands the
    messages of a process to the task of that process (a shadow on the home node, a guest
    on the other) and handles the rest in a thread.  A task is a queue of methods and a
    queue of messages, which its process works off in migration mode; methods and messages
    make the process checkpoint, execute, send, migrate or exit.
    ProxyFS has its own framing over non-blocking KKC sockets.

    * The files

    - Prelude: C integers as [Z] with the conversions written out ([u32[z]], [s32[z]]),
      memory images of integers, lists with [Z] lengths, tactics and hint databases.
    - SlotVec: src/src/tcmi/lib/tcmi_slot.h, tcmi_slotvec.h, tcmi_slotvec.c.
      State: the slots, the lists of used and unused slots, the lock.
    - CircBuf: src/src/proxyfs/buffer.h, buffer.c.  State: base, read and write pointer,
      full flag and memory of a circular buffer; the abstract view is a bounded queue.
    - Transaction: src/src/tcmi/comm/tcmi_transaction.h, .c.  State: a heap of
      transactions, the table they are found in, and their timers.
    - KkcSock: src/src/kkc/kkc_sock.h, kkc_sock.c, kkc_sock_tcp.c (send, receive and the
      transfer loop).  The TCP stack of the kernel is the class [Kernel], with the
      documented laws of [kernel_sendmsg] and [kernel_recvmsg]; the class [Sock] is what
      KKC promises to its clients, and the TCP socket over any [Kernel] is an instance.
    - KkcAddr: src/src/kkc/kkc.c, kkc_arch.h and the address functions of kkc_sock_tcp.c.
    - MsgId: src/src/tcmi/comm/tcmi_messages_id.h, tcmi_messages_dsc.h and
      tcmi_msg_factory.c: ids, descriptor tables, the factory.
    - Messages: the contents, and the send and receive operations, of the message classes
      src/src/tcmi/comm/tcmi_*_msg.c, tcmi_*_procmsg.c, proved against [Sock].
    - Queue: src/src/tcmi/lib/tcmi_queue.h.
    - Msg: src/src/tcmi/comm/tcmi_msg.c, tcmi_msg.h, tcmi_procmsg.c, tcmi_comm.c and the
      constructors of the classes: message objects, their transactions, delivery, and the
      receiving thread.
    - ProxyMsg: src/src/proxyfs/proxyfs_msg.c, proxyfs_peer.c and the receiving loop of
      proxyfs_task.c: framing over a non-blocking socket.
    - ProxyFile: src/src/proxyfs/proxyfs_file.c, the data path of proxyfs_proxy_file.c,
      proxyfs_generic_proxy_file.c and proxyfs_pipe_proxy_file.c, the parent part of
      proxyfs_real_file.c, and the messages that proxyfs_task.c handles and makes.
    - ProxyReal: proxyfs_real_file.h, proxyfs_generic_real_file.c, proxyfs_tty_real_file.c,
      proxyfs_pipe_real_file.c and the round of proxyfs_server.c over its files.  The
      files of the kernel are the class [Vfs].
    - ProxyLink: client and server together, as a step relation over the operations of
      the two files above, with every outcome of allocations and accesses to user memory.

    - NpmParams: src/src/tcmi/migration/tcmi_npm_params.h, .c: the block of argument and
      environment strings of an intercepted execve.
    - CcfsFilter: src/src/ccfs/filter.c, filter.h: the name filter of CCFS.
    - CcfsPage: src/src/ccfs/mmap.c, read_write.c: pages of CCFS.  The lower file is the class
      [Lower].
    - Ccfs: src/src/ccfs/main.c, super.c, inode.c, dentry.c, file.c: dentries and inodes over those
      of a lower file system, which is the class [LowerFs].  CcfsRefs (the invariant on references
      and its rules), CcfsDir (directory operations), CcfsLife (lookup and release), CcfsRun
      (sequences of operations, cached links and attributes): the theorems.
    - CcfsPrefetch: src/src/ccfs/prefetcher.c.
    - Effect: the monad of the following files (state, fault, halt of the current process)
      with its weakest preconditions.
    - World: the state of a node: tasks, method wrappers, messages, managers, processes,
      other counted objects, and the answers of the kernel and of other threads; access
      to them and the rules for it.
    - Task: src/src/tcmi/task/tcmi_method_wrapper.h, tcmi_task.h, tcmi_task.c, and the
      constructors of both task classes.
    - TaskOps: tcmi_taskhelper.h, tcmi_shadowtask.c, tcmi_guesttask.c.
    - Migcom: src/src/tcmi/migration/tcmi_migcom.c.
    - Migman: src/src/tcmi/manager/tcmi_migman.c, tcmi_ccnmigman.c, tcmi_penmigman.c.
    - TaskExec, Delivery, TaskLife, Frames, Shutdown, Methods, Typing, TaskNew: the
      theorems about those four files; Frames has the parts of the state an operation
      leaves alone.
    - CkptKernel: the process, the checkpoint file, and the kernel functions that the
      checkpointing code calls, as the class [Kernel] with its documented laws.
    - CkptArch: the registers and threads of src/src/arch, for an x86-64 node.
    - Ckpt, CkptOps, CkptCom: src/src/tcmi/ckpt: the object, its header and limits; open
      files, memory descriptor and areas; processor state, directory, signals, execve
      parameters, and tcmi_ckptcom.c itself.
    - CkptImage (the bytes of a checkpoint), CkptWrite, CkptSave (writing), CkptRead,
      CkptFiles, CkptAreas, CkptRestart (reading), CkptRound (both), CkptExample: the
      theorems about checkpoints.
    - Rpc: src/src/tcmi/syscall and tcmi_rpcresp_procmsg.c: hooks, call tables and procedures
      of remote system calls.  The system calls of the home node are the class [Home].
    - RpcCall: a remote system call end to end, over the sockets of KkcSock and the messages
      of Messages.
    - CtlFs: src/src/tcmi/ctlfs: entries, directories, files and symbolic links of the control
      file system, over a dentry cache.  CtlPath (paths and link texts), CtlTree (reference
      counts) and CtlFile (reading and writing, links) have its theorems.
    - Man: src/src/tcmi/manager/tcmi_man.c, src/src/tcmi/lib/tcmi_sock.c and
      src/src/kkc/kkc_sock_sleeper.h: what the two managers of a node share, the sockets they
      show in the control file system, and the sleepers on listening sockets.
    - Nodes: tcmi_ccnman.c, tcmi_penman.c: listening, accepting and connecting; the hooks of
      src/src/tcmi/migration/tcmi_mighooks.c and of fork, which call the managers.
    - ManStop, Listen: the theorems about the managers.
    - ProxyIoctl: proxyfs_ioctl.h, proxyfs_ioctl_table.c: direction and size of the ioctl
      commands, and the binary search for them.
    - ProxyServer: the server of ProxyFS, its state and what it does with a message:
      proxyfs_server.c, opening, closing, duplicating of proxyfs_real_file.c and its classes.
    - ProxyClient: the client: proxyfs_client.c, the calls of proxyfs_proxy_file.c that wait
      for the server, and open, release, fsync and ioctl of proxyfs_fs.c.  What other threads
      do while a process sleeps is an argument of the call.
    - ProxyCall (a call of the client answered by the server: close, fsync, ioctl), ProxyOpen
      (opening, and closing again), ProxyFs (the loops of read and write in proxyfs_fs.c),
      ProxyName (names of files and their lookup), ProxyClone (proxyfs_helper.h: the files of
      a child after a fork), ProxyTask (the loop of the client's thread and the loss of a
      connection): definitions and theorems.
    - Netlink: the codes of src/src/director/netlink/msgs.h and what the director interface uses of
      netlink; the layout of attributes is the class [Nla], with the format of the kernel as an
      instance.
    - Director, DirectorMsg: the kernel side of the director interface, src/src/director: the
      transactions of genl_ext.c, the channel of comm.c, the messages, and director.c.
    - DirectorApi: the user-space library, src/userspace/director-api.  The director itself is a
      state and the callbacks it registered.
    - DirectorServe (contents of requests, handlers), DirectorCall (a transaction over both sides),
      DirectorDecide (the calls of the migration code end to end), DirectorTx (transactions under
      any interleaving), DirectorSend (messages of the director to other nodes), DirectorFail (lost
      requests, a director that is gone, late responses): the theorems about the interface.

    Definitions have the names of the C functions, types and constants.  An object that C
    mutates is a record passed in and returned; an address is a [Z] where identity
    matters.  Results of allocators, of user-memory accesses and of the kernel are
    arguments.  [None] as a result is a fault (freed memory, an access outside an object,
    a lock taken twice) or, where the comment says so, fuel that ran out.

    * What is shown

    - Containers: the slot vector keeps its lists exact under any sequence of operations
      of its users; the circular buffer refines a bounded byte
      queue; the message queue is a FIFO.
    - Transactions: in every interleaving of operations and timer expiries, completions and
      aborts of transactions that were not started included, the reference counts (with the
      references that such an early end drops or loses), the table and the timers agree;
      operations on a held transaction are safe; the states follow the documented machine; a
      running transaction ends.
    - Transport: the KKC loops send and receive everything, however the kernel cuts the
      stream, or fail; addresses survive printing and parsing.
    - Messages: every class round-trips through its wire format; everything a sender
      constructs is accepted by the receiver's factory as the same class; the receiving
      thread turns a stream of frames into the same messages in order; a response
      completes the transaction it answers; the result of a synchronous request on every
      branch.
    - ProxyFS: frames are reassembled from pieces of any size; and, end to end, for any
      interleaving of tasks, users and transport and any failed allocations, the real file gets a
      prefix of what the client's processes wrote, they read a prefix of what was read from the
      real file, and the receiver's buffer never overflows; only a chunk whose message cannot be
      allocated is left out, and stays unconfirmed.  Pipes are atomic as POSIX says, and no process
      passes memory that it cannot access: the error of such a read is confirmed as data.
      Opening and closing a file over both nodes gives back every reference; a blocking write
      ends against a peer that takes data, and never ends for 0 bytes or unreadable memory; an
      ioctl reaches the device without its argument; the name of a file is looked up as its
      identifier; a forked child gets files of its own with the sharing of its parent; a close
      survives the loss of the connection, with data that was not sent as well, an open does not.
    - Tasks: the exit code of a migrated process reaches its shadow, end to end; method
      wrappers are counted exactly through everything a task can process; the type tag of a
      process agrees with its task in every reachable state; constructors are all or
      nothing; the strings of an execve survive their copies.
    - Managers: messages reach the tasks they name, and only tasks of their own manager, and
      responses the transactions they answer; a connection that is stopped, killed and
      disconnected in any order is released once, and its thread, on both kinds of node, ends
      without touching what it released and without waiting to be stopped.
    - Checkpoints: what is saved on one node is restored on another one -- limits, files with
      their sharing and positions, memory, registers except flags and segments, thread area,
      directory, signals -- and the parameters of an execve reach [do_execve] there, as far as
      their 8-bit counters go; both over any kernels whose functions keep their documented laws
      and do not fail, into a process with at most its standard input open.  References to user
      pages are taken and never given back.
    - Remote system calls: each call that passes integers, and wait4, is the call of the home
      node with the same arguments, and leaves nothing behind; what the guest sees of the
      result is stated, errors included.
    - Control file system: through any sequence of operations, allocation failures included,
      the count of every entry is the number of references to it, and one that nobody holds for a
      file that was freed since its data could not be allocated, and nothing is touched after
      it was freed; a symbolic link reads as a path that leads to its target; a method may
      detach its own file.
    - Managers of a node: stopping the migration managers ends, with none left connected, when each
      of them is past its set-up (one that is not makes the loop spin); in any
      interleaving of requests with the manager's thread every listening has exactly the
      reference of its slot and one sleeper; stopping all of them releases everything.
    - Director: what the migration code asks or tells the director reaches the callbacks exactly, and
      their answers the code, over both sides of the channel; responses reach the request they
      answer under any interleaving of both halves of their receipt in which no caller gives up
      between the two; messages of the director reach the handler in the kernel; and
      what happens to requests that are too large and when the director is gone.
    - CCFS: the name filter is equivalent to the declarative meaning of its patterns; references to
      the lower file system are exact through any sequence of operations, when lookups have memory,
      files can be opened at least for reading and renames stay in a directory; what the write of a
      piece stores, aligned to pages and not, in a writable lower file and in one that the file
      system opened for reading only; what is cached is never refreshed.
    - Where the code does not do what it means to, the theorem says what it does instead:
      stale responses, transactions that end before they were started, failed allocations,
      wrapped sizes, oversized messages, confirmed read errors, lost chunks, positions that
      are not advanced, full buffers taken for the end of a file.

    * Fuel

    Recursion that is not structural takes fuel, and the theorems give the amount that is
    enough: 3 for the circular buffer (a wrapped buffer has two chunks), the number of
    bytes for the KKC loops (each call transfers at least one), one more than the bytes
    that arrived for the receiving loop of a peer and for the pipe's write loop, 3 rounds
    for sending a full write buffer of 8192 bytes in messages of 4064, the number of dentries
    for the release of a directory chain, 2 * count + 1 rounds for writing count bytes to a
    migrated file (of two rounds one moves a byte), 2 rounds of the director's loop and 3 reads for
    one request (a buffer of ten pages is doubled at most once), the connected managers for
    stopping them, the listenings for stopping those.  The receiving thread, which never ends by itself, runs a
    given list of rounds.

    * What is not modelled

    The registration of hooks with the kernel, mounting and the module entry points of TCMI and
    its control file system; of ProxyFS the start-up of threads, accepting connections, wait
    queues, superblocks and attributes; of CCFS mounting and its options, the start of the prefetcher
    and the operations that only forward to a lower file; the director's policy (Ruby) and its
    binding; the i386 side of the architecture code; glue to the kernel (modules, VFS, wait queues) and debug output.
    Spinlocks and semaphores are modelled where the code depends on them (slot vector, queue),
    and otherwise make an operation atomic.

    The order of further work: mounting of CCFS, accepting connections in ProxyFS. *)

From Stdlib Require Import ZArith Lia.
From stdpp Require Export base numbers option decidable sets list.

Declare Scope clon_scope.
Delimit Scope clon_scope with clon.
Open Scope Z_scope.

(** * Machine integers

    A C integer is a [Z]; a conversion to a [w]-bit type is written out. *)

(** Conversion to an unsigned [w]-bit type. *)
Definition uwrap (w z : Z) : Z := z mod 2 ^ w.

(** Conversion to a signed (two's complement) [w]-bit type. *)
Definition swrap (w z : Z) : Z :=
  if uwrap w z <? 2 ^ (w - 1) then uwrap w z else uwrap w z - 2 ^ w.

Notation "'u8[' z ]" := (uwrap 8 z) (format "u8[ z ]") : clon_scope.
Notation "'u16[' z ]" := (uwrap 16 z) (format "u16[ z ]") : clon_scope.
Notation "'u32[' z ]" := (uwrap 32 z) (format "u32[ z ]") : clon_scope.
Notation "'u64[' z ]" := (uwrap 64 z) (format "u64[ z ]") : clon_scope.
Notation "'s8[' z ]" := (swrap 8 z) (format "s8[ z ]") : clon_scope.
Notation "'s16[' z ]" := (swrap 16 z) (format "s16[ z ]") : clon_scope.
Notation "'s32[' z ]" := (swrap 32 z) (format "s32[ z ]") : clon_scope.
Notation "'s64[' z ]" := (swrap 64 z) (format "s64[ z ]") : clon_scope.
Open Scope clon_scope.

(** The value ranges of the unsigned and signed [w]-bit types. *)
Definition urange (w z : Z) : Prop := 0 <= z < 2 ^ w.
Definition srange (w z : Z) : Prop := - 2 ^ (w - 1) <= z < 2 ^ (w - 1).

Global Instance urange_dec w z : Decision (urange w z).
Proof. unfold urange. apply _. Defined.
Global Instance srange_dec w z : Decision (srange w z).
Proof. unfold srange. apply _. Defined.

(** * Error numbers (include/asm-generic/errno*.h) *)

Definition ENOENT : Z := 2.
Definition EINTR : Z := 4.
Definition EBADF : Z := 9.
Definition EAGAIN : Z := 11.
Definition ENOMEM : Z := 12.
Definition EACCES : Z := 13.
Definition EFAULT : Z := 14.
Definition EINVAL : Z := 22.
Definition EPIPE : Z := 32.
Definition ETIME : Z := 62.
Definition ECONNRESET : Z := 104.

(** * Tactics *)

Create HintDb clon discriminated.

(** Case analysis on an innermost scrutinee of an [if] or [match] of the goal. *)
Ltac case_goal :=
  match goal with
  | |- context [match ?x with _ => _ end] =>
      lazymatch x with
      | context [match _ with _ => _ end] => fail
      | _ => destruct x eqn:?
      end
  end.

(** The same in a hypothesis. *)
Ltac case_hyp H :=
  match type of H with
  | context [match ?x with _ => _ end] => destruct x eqn:?
  end.

(** Turn boolean comparisons of the context into propositions. *)
Ltac bool_hyps :=
  repeat match goal with
  | H : (_ <? _) = true |- _ => apply Z.ltb_lt in H
  | H : (_ <? _) = false |- _ => apply Z.ltb_ge in H
  | H : (_ <=? _) = true |- _ => apply Z.leb_le in H
  | H : (_ <=? _) = false |- _ => apply Z.leb_gt in H
  | H : (_ =? _) = true |- _ => apply Z.eqb_eq in H
  | H : (_ =? _) = false |- _ => apply Z.eqb_neq in H
  | H : (_ && _)%bool = true |- _ => apply andb_prop in H as [? ?]
  | H : (_ || _)%bool = false |- _ => apply orb_false_elim in H as [? ?]
  | H : negb _ = true |- _ => apply negb_true_iff in H
  | H : negb _ = false |- _ => apply negb_false_iff in H
  end.

(** Arithmetic after turning boolean tests into propositions. *)
Ltac blia := bool_hyps; lia.

(** * Lemmas on machine integers *)

Section wrap.
Context (w : Z).
Hypothesis w_pos : 0 < w.

Lemma pow_half : 2 ^ w = 2 * 2 ^ (w - 1).
Proof. rewrite <- Z.pow_succ_r by lia. f_equal. lia. Qed.

Lemma uwrap_range z : urange w (uwrap w z).
Proof. unfold urange, uwrap. apply Z.mod_pos_bound. apply Z.pow_pos_nonneg; lia. Qed.

Lemma uwrap_id z : urange w z -> uwrap w z = z.
Proof. unfold urange, uwrap. intros. apply Z.mod_small. lia. Qed.

Lemma swrap_range z : srange w (swrap w z).
Proof.
  unfold srange, swrap. pose proof (uwrap_range z) as H. unfold urange in H.
  pose proof pow_half. case_goal; bool_hyps; lia.
Qed.

Lemma swrap_id z : srange w z -> swrap w z = z.
Proof.
  unfold srange, swrap, uwrap. intros H. pose proof pow_half as Hp.
  destruct (Z_lt_dec z 0).
  - replace (z mod 2 ^ w) with (z + 2 ^ w).
    2: { rewrite <- (Z.mod_add z 1) by lia. rewrite Z.mod_small; lia. }
    case_goal; blia.
  - rewrite Z.mod_small by lia. case_goal; blia.
Qed.

Lemma uwrap_uwrap z : uwrap w (uwrap w z) = uwrap w z.
Proof. apply uwrap_id, uwrap_range. Qed.

Lemma swrap_uwrap z : swrap w (uwrap w z) = swrap w z.
Proof. unfold swrap. rewrite uwrap_uwrap. done. Qed.
End wrap.

(** * Little-endian representation

    The memory image of an integer field of [n] bytes, as the sources put it on
    the wire by sending [sizeof(field)] bytes starting at [&field]. *)

Fixpoint le_bytes (n : nat) (z : Z) : list Z :=
  match n with
  | O => []
  | S m => z mod 256 :: le_bytes m (z / 256)
  end.

Fixpoint le_value (bs : list Z) : Z :=
  match bs with
  | [] => 0
  | b :: bs' => b + 256 * le_value bs'
  end.

(** A list of bytes. *)
Definition is_byte (b : Z) : Prop := 0 <= b < 256.
Definition is_bytes (bs : list Z) : Prop := Forall is_byte bs.

Global Instance is_byte_dec b : Decision (is_byte b).
Proof. unfold is_byte. apply _. Defined.
Global Instance is_bytes_dec bs : Decision (is_bytes bs).
Proof. unfold is_bytes. apply _. Defined.

Lemma le_bytes_length n z : length (le_bytes n z) = n.
Proof. revert z. induction n; intros; simpl; auto. Qed.

Lemma le_bytes_is_bytes n z : is_bytes (le_bytes n z).
Proof.
  revert z. induction n as [|n IH]; intros; simpl; constructor; [|apply IH].
  apply Z.mod_pos_bound. lia.
Qed.

Lemma le_value_le_bytes n z : le_value (le_bytes n z) = z mod 2 ^ (8 * Z.of_nat n).
Proof.
  revert z. induction n as [|n IH]; intros z; simpl le_bytes; simpl le_value.
  - rewrite Z.mod_1_r. done.
  - rewrite IH. replace (8 * Z.of_nat (S n)) with (8 + 8 * Z.of_nat n) by lia.
    rewrite Z.pow_add_r by lia. change (2 ^ 8) with 256.
    rewrite (Z.rem_mul_r z 256) by lia. done.
Qed.

Lemma le_value_range bs :
  is_bytes bs -> 0 <= le_value bs < 2 ^ (8 * Z.of_nat (length bs)).
Proof.
  induction 1 as [|b bs Hb _ IH]; simpl le_value; simpl length; [lia|].
  replace (8 * Z.of_nat (S (length bs))) with (8 + 8 * Z.of_nat (length bs)) by lia.
  rewrite Z.pow_add_r by lia. change (2 ^ 8) with 256. unfold is_byte in Hb. lia.
Qed.

Lemma le_bytes_le_value bs : is_bytes bs -> le_bytes (length bs) (le_value bs) = bs.
Proof.
  induction 1 as [|b bs Hb _ IH]; [done|]. unfold is_byte in Hb.
  simpl. f_equal.
  - rewrite Z.mul_comm, Z.mod_add, Z.mod_small by lia. done.
  - replace ((b + 256 * le_value bs) / 256) with (le_value bs); [done|].
    rewrite Z.mul_comm, Z.div_add, Z.div_small by lia. lia.
Qed.

Lemma is_bytes_app bs cs : is_bytes (bs ++ cs) <-> is_bytes bs /\ is_bytes cs.
Proof. apply Forall_app. Qed.

Lemma is_bytes_take n bs : is_bytes bs -> is_bytes (take n bs).
Proof. apply Forall_take. Qed.

Lemma is_bytes_drop n bs : is_bytes bs -> is_bytes (drop n bs).
Proof. apply Forall_drop. Qed.

#[export] Hint Resolve le_bytes_is_bytes is_bytes_take is_bytes_drop : clon.

(** * Lists indexed by [Z] *)

(** Length of a buffer as the C code sees it. *)
Definition zlen {A} (l : list A) : Z := Z.of_nat (length l).
Definition ztake {A} (n : Z) (l : list A) : list A := take (Z.to_nat n) l.
Definition zdrop {A} (n : Z) (l : list A) : list A := drop (Z.to_nat n) l.

Section zlists.
Context {A : Type}.
Implicit Types l k : list A.

Lemma zlen_nonneg l : 0 <= zlen l.
Proof. unfold zlen. lia. Qed.
Lemma zlen_nil : zlen (@nil A) = 0.
Proof. done. Qed.
Lemma zlen_cons x l : zlen (x :: l) = 1 + zlen l.
Proof. unfold zlen. simpl length. lia. Qed.
Lemma zlen_app l k : zlen (l ++ k) = zlen l + zlen k.
Proof. unfold zlen. rewrite length_app. lia. Qed.
Lemma zlen_ztake n l : zlen (ztake n l) = Z.min (Z.max 0 n) (zlen l).
Proof. unfold zlen, ztake. rewrite length_take. lia. Qed.
Lemma zlen_zdrop n l : zlen (zdrop n l) = Z.max 0 (zlen l - Z.max 0 n).
Proof. unfold zlen, zdrop. rewrite length_drop. lia. Qed.
Lemma zlen_replicate n (x : A) : 0 <= n -> zlen (replicate (Z.to_nat n) x) = n.
Proof. unfold zlen. rewrite length_replicate. lia. Qed.
Lemma ztake_app_le n l k : n <= zlen l -> ztake n (l ++ k) = ztake n l.
Proof. unfold zlen, ztake. intros. apply take_app_le. lia. Qed.
Lemma ztake_app_eq l k : ztake (zlen l) (l ++ k) = l.
Proof. unfold zlen, ztake. rewrite Nat2Z.id. apply take_app_length. Qed.
Lemma zdrop_app_eq l k : zdrop (zlen l) (l ++ k) = k.
Proof. unfold zlen, zdrop. rewrite Nat2Z.id. apply drop_app_length. Qed.
Lemma ztake_all n l : zlen l <= n -> ztake n l = l.
Proof. unfold zlen, ztake. intros. apply take_ge. lia. Qed.
Lemma zdrop_all n l : zlen l <= n -> zdrop n l = [].
Proof. unfold zlen, zdrop. intros. apply drop_ge. lia. Qed.
Lemma ztake_0 n l : n <= 0 -> ztake n l = [].
Proof. unfold ztake. intros. replace (Z.to_nat n) with O by lia. done. Qed.
Lemma zdrop_0 n l : n <= 0 -> zdrop n l = l.
Proof. unfold zdrop. intros. replace (Z.to_nat n) with O by lia. done. Qed.
Lemma ztake_zdrop n l : ztake n l ++ zdrop n l = l.
Proof. apply take_drop. Qed.
Lemma zdrop_zdrop n m l : 0 <= n -> 0 <= m -> zdrop n (zdrop m l) = zdrop (m + n) l.
Proof. unfold zdrop. intros. rewrite drop_drop. f_equal. lia. Qed.
Lemma ztake_ztake_le n m l : n <= m -> ztake n (ztake m l) = ztake n l.
Proof. unfold ztake. intros. rewrite take_take. f_equal. lia. Qed.
End zlists.

Lemma zlen_le_bytes n z : zlen (le_bytes n z) = Z.of_nat n.
Proof. unfold zlen. by rewrite le_bytes_length. Qed.

Create Rewrite HintDb zlen.
#[export] Hint Rewrite @zlen_nil @zlen_cons @zlen_app @zlen_ztake @zlen_zdrop : zlen.

(** Arithmetic about buffer lengths. *)
Ltac zlen_lia :=
  autorewrite with zlen in *;
  repeat match goal with
  | l : list _ |- _ => lazymatch goal with
      | H : 0 <= zlen l |- _ => fail
      | _ => pose proof (zlen_nonneg l) end
  end; blia.

(** * Intrusive lists

    [list_head]/[hlist] nodes are identified by their address.  A node is in at
    most one position of at most one list, so unlinking it is the removal of
    its identifier. *)

Definition list_del {A} `{EqDecision A} (x : A) (l : list A) : list A :=
  filter (fun y => y <> x) l.

Section list_del.
Context {A : Type} `{EqDecision A}.
Implicit Types (x y : A) (l : list A).

Lemma elem_of_list_del x y l : y ∈ list_del x l <-> y ∈ l /\ y <> x.
Proof. unfold list_del. rewrite list_elem_of_filter. tauto. Qed.

Lemma NoDup_list_del x l : NoDup l -> NoDup (list_del x l).
Proof. apply list.NoDup_filter. Qed.

Lemma list_del_notin x l : x ∉ l -> list_del x l = l.
Proof.
  unfold list_del. induction l as [|y l IH]; intros Hn; [done|].
  rewrite filter_cons_True by set_solver. f_equal. apply IH. set_solver.
Qed.

Lemma list_del_app x l k : list_del x (l ++ k) = list_del x l ++ list_del x k.
Proof. apply list.filter_app. Qed.

Lemma list_del_head x l : x ∉ l -> list_del x (x :: l) = l.
Proof. intros. unfold list_del. rewrite filter_cons_False by tauto. by apply list_del_notin. Qed.
End list_del.

(** * Reachability of a step relation *)

Section star.
Context {St : Type} (step : St -> St -> Prop).

Inductive star : St -> St -> Prop :=
| star_refl s : star s s
| star_step s1 s2 s3 : star s1 s2 -> step s2 s3 -> star s1 s3.

(** Rule induction: an inductive invariant holds in every reachable state. *)
Lemma star_invariant (I : St -> Prop) :
  (forall s s', I s -> step s s' -> I s') ->
  forall s s', I s -> star s s' -> I s'.
Proof. intros Hstep s s' Hs. induction 1; eauto. Qed.
End star.

(** * Memory blocks

    A block of memory is its list of bytes; reads outside it give 0. *)

Definition znth (l : list Z) (i : Z) : Z := nth (Z.to_nat i) l 0.

(** [memcpy] of [d] to offset [off] of the block [m]. *)
Definition blit (off : Z) (d m : list Z) : list Z :=
  ztake off m ++ d ++ zdrop (off + zlen d) m.

(** The list of the values [f lo], ..., [f (lo + n - 1)]. *)
Fixpoint ztab (f : Z -> Z) (lo : Z) (n : nat) : list Z :=
  match n with O => [] | S n => f lo :: ztab f (lo + 1) n end.

Section blocks.
Implicit Types l k d m : list Z.

Lemma zext l k :
  zlen l = zlen k -> (forall i, 0 <= i < zlen l -> znth l i = znth k i) -> l = k.
Proof.
  unfold zlen, znth. intros Hlen H. apply (nth_ext _ _ 0 0); [lia|].
  intros n Hn. specialize (H (Z.of_nat n) ltac:(lia)). by rewrite Nat2Z.id in H.
Qed.

Lemma znth_app l k i :
  0 <= i -> znth (l ++ k) i = if i <? zlen l then znth l i else znth k (i - zlen l).
Proof.
  unfold znth, zlen. intros Hi. case_goal; bool_hyps.
  - apply app_nth1. lia.
  - rewrite app_nth2 by lia. f_equal. lia.
Qed.

Lemma znth_ztake n l i : 0 <= i < n -> znth (ztake n l) i = znth l i.
Proof.
  unfold znth, ztake. intros. destruct (decide (Z.to_nat i < length l)%nat).
  - rewrite <- (take_drop (Z.to_nat n) l) at 2. rewrite app_nth1; [done|].
    rewrite length_take. lia.
  - rewrite !nth_overflow; try rewrite length_take; lia.
Qed.

Lemma znth_zdrop n l i : 0 <= i -> 0 <= n -> znth (zdrop n l) i = znth l (n + i).
Proof.
  unfold znth, zdrop. intros. destruct (decide (Z.to_nat n <= length l)%nat).
  - rewrite <- (take_drop (Z.to_nat n) l) at 2. rewrite app_nth2; rewrite length_take; [|lia].
    f_equal. lia.
  - rewrite drop_ge by lia. rewrite (nth_overflow l) by lia. by destruct (Z.to_nat i).
Qed.

Lemma zlen_blit off d m : 0 <= off -> off + zlen d <= zlen m -> zlen (blit off d m) = zlen m.
Proof. unfold blit. intros. zlen_lia. Qed.

Lemma znth_blit off d m i :
  0 <= off -> off + zlen d <= zlen m -> 0 <= i ->
  znth (blit off d m) i =
  if (off <=? i) && (i <? off + zlen d) then znth d (i - off) else znth m i.
Proof.
  intros Ho Hl Hi. unfold blit. pose proof (zlen_nonneg d). pose proof (zlen_nonneg m).
  rewrite znth_app, zlen_ztake by lia. rewrite Z.min_l, Z.max_r by lia.
  destruct (i <? off) eqn:E1; bool_hyps.
  - rewrite znth_ztake by lia. replace (off <=? i) with false by lia. done.
  - replace (off <=? i) with true by lia. simpl. rewrite znth_app by lia.
    replace (i <? off + zlen d) with (i - off <? zlen d) by lia.
    case_goal; bool_hyps; [done|]. rewrite znth_zdrop by lia. f_equal. lia.
Qed.

Lemma zlen_ztab f lo n : zlen (ztab f lo n) = Z.of_nat n.
Proof. revert lo. induction n; intros; simpl; [done|]. rewrite zlen_cons, IHn. lia. Qed.

Lemma znth_ztab f lo n i : 0 <= i < Z.of_nat n -> znth (ztab f lo n) i = f (lo + i).
Proof.
  revert lo i. induction n as [|n IH]; intros lo i Hi; [lia|]. simpl.
  destruct (Z.eq_dec i 0) as [->|].
  - unfold znth. simpl. f_equal. lia.
  - change (f lo :: ztab f (lo + 1) n) with ([f lo] ++ ztab f (lo + 1) n).
    rewrite znth_app by lia. change (zlen [f lo]) with 1. replace (i <? 1) with false by lia.
    rewrite IH by lia. f_equal. lia.
Qed.
End blocks.
