(* ===== verification/SlotVec.v ===== *)
(** Slots and slot vectors (src/src/tcmi/lib/tcmi_slot.h, tcmi_slotvec.h,
    tcmi_slotvec.c): the container behind the transaction table, the task table
    and the manager's table of migration managers.

    A slot is addressed by its offset in the vector ([nat], the pointer
    [&vec->slots[i]]); a node by its address ([Z]).  The two intrusive lists
    of slots keep slot pointers in list order.  The spinlock is a flag of the
    vector: an operation that takes it returns [None] when it is already
    taken (the caller would spin). *)

From S2P Require Import Prelude.

Record tcmi_slot := mk_slot {
  index : Z;                 (* u_int *)
  head : list Z              (* struct hlist_head *)
}.

Record tcmi_slotvec := mk_slotvec {
  slots : list tcmi_slot;
  slot_count : Z;
  hashmsk : option Z;        (* [None]: memory never written *)
  unused_slots : list nat;
  used_slots : list nat;
  ref_count : Z;
  s_lock : bool
}.

Section fields.
Implicit Type v : tcmi_slotvec.
Definition set_slots (f : list tcmi_slot -> list tcmi_slot) v :=
  mk_slotvec (f (slots v)) (slot_count v) (hashmsk v) (unused_slots v) (used_slots v)
    (ref_count v) (s_lock v).
Definition set_lists (un us : list nat) v :=
  mk_slotvec (slots v) (slot_count v) (hashmsk v) un us (ref_count v) (s_lock v).
Definition set_lock (b : bool) v :=
  mk_slotvec (slots v) (slot_count v) (hashmsk v) (unused_slots v) (used_slots v)
    (ref_count v) b.
Definition set_ref (n : Z) v :=
  mk_slotvec (slots v) (slot_count v) (hashmsk v) (unused_slots v) (used_slots v) n
    (s_lock v).
Definition set_hashmsk (m : Z) v :=
  mk_slotvec (slots v) (slot_count v) (Some m) (unused_slots v) (used_slots v)
    (ref_count v) (s_lock v).
End fields.

(** The items of the slot at offset [i]. *)
Definition items (v : tcmi_slotvec) (i : nat) : list Z :=
  match slots v !! i with Some s => head s | None => [] end.

(** ** The slot *)

Definition tcmi_slot_init (i : Z) (v : tcmi_slotvec) : tcmi_slotvec :=
  let p := length (slots v) in
  set_lists (unused_slots v ++ [p]) (used_slots v)
    (set_slots (fun ss => ss ++ [mk_slot i []]) v).

Definition tcmi_slot_empty (v : tcmi_slotvec) (self : nat) : bool :=
  match items v self with [] => true | _ => false end.

Definition tcmi_slot_index (v : tcmi_slotvec) (self : nat) : option Z :=
  index <$> slots v !! self.

Definition tcmi_slot_lock (v : tcmi_slotvec) : option tcmi_slotvec :=
  if s_lock v then None else Some (set_lock true v).

Definition tcmi_slot_unlock (v : tcmi_slotvec) : tcmi_slotvec := set_lock false v.

(** [list_move] to the head, or to the tail, of one of the two lists. *)
Definition move_used (self : nat) (v : tcmi_slotvec) : tcmi_slotvec :=
  set_lists (list_del self (unused_slots v)) (self :: list_del self (used_slots v)) v.

Definition tcmi_slot_move_unused (self : nat) (v : tcmi_slotvec) : tcmi_slotvec :=
  set_lists (self :: list_del self (unused_slots v)) (list_del self (used_slots v)) v.

(** [hlist_add_head] of an initialised node. *)
Definition hlist_add_head (node : Z) (self : nat) (v : tcmi_slotvec) : tcmi_slotvec :=
  set_slots (alter (fun s => mk_slot (index s) (node :: head s)) self) v.

(** [hlist_del_init] unlinks the node from the list it is in, whichever that
    is; an unhashed node is left alone. *)
Definition hlist_del_init (node : Z) (v : tcmi_slotvec) : tcmi_slotvec :=
  set_slots (fmap (fun s => mk_slot (index s) (list_del node (head s)))) v.

Definition tcmi_slot_insert (self : nat) (node : Z) (v : tcmi_slotvec)
    : option tcmi_slotvec :=
  v1 ← tcmi_slot_lock v;
  let v2 := hlist_add_head node self v1 in
  let v3 := move_used self v2 in
  Some (tcmi_slot_unlock v3).

Definition __tcmi_slot_remove (self : nat) (node : Z) (v : tcmi_slotvec) : tcmi_slotvec :=
  let v1 := hlist_del_init node v in
  if tcmi_slot_empty v1 self then tcmi_slot_move_unused self v1 else v1.

Definition tcmi_slot_remove (self : option nat) (node : Z) (v : tcmi_slotvec)
    : option tcmi_slotvec :=
  match self with
  | None => Some v
  | Some self =>
      if s_lock v then Some (__tcmi_slot_remove self node v)
      else
        v1 ← tcmi_slot_lock v;
        Some (tcmi_slot_unlock (__tcmi_slot_remove self node v1))
  end.

Definition tcmi_slot_remove_safe (self : option nat) (node : Z) (v : tcmi_slotvec)
    : option tcmi_slotvec :=
  match self with
  | None => Some v
  | Some self =>
      v1 ← tcmi_slot_lock v;
      let found := bool_decide (node ∈ items v1 self) in
      Some (tcmi_slot_unlock (if found then __tcmi_slot_remove self node v1 else v1))
  end.

(** The [find_first] and [remove_first] macros leave [object] alone when the
    slot is empty. *)
Definition tcmi_slot_find_first (object : option Z) (slot : nat) (v : tcmi_slotvec)
    : option Z :=
  match items v slot with n :: _ => Some n | [] => object end.

Definition tcmi_slot_remove_first (object : option Z) (slot : nat) (v : tcmi_slotvec)
    : option Z * tcmi_slotvec :=
  match items v slot with
  | n :: _ => (Some n, __tcmi_slot_remove slot n v)
  | [] => (object, v)
  end.

(** ** The slot vector *)

(** The initialisation loop, from [i] for [n] more slots. *)
Fixpoint init_slots (n : nat) (i : Z) (v : tcmi_slotvec) : tcmi_slotvec :=
  match n with
  | O => v
  | S n => init_slots n (i + 1) (tcmi_slot_init i v)
  end.

(** [kvec] and [kslots] tell whether the two allocations succeed. *)
Definition tcmi_slotvec_new (kvec kslots : bool) (size : Z) : option tcmi_slotvec :=
  if negb kvec then None
  else if negb kslots then None
  else Some (init_slots (Z.to_nat size) 0 (mk_slotvec [] size None [] [] 1 false)).

Definition tcmi_slotvec_hnew (kvec kslots : bool) (order : Z) : option tcmi_slotvec :=
  v ← tcmi_slotvec_new kvec kslots u32[Z.shiftl 1 order];
  Some (set_hashmsk u32[slot_count v - 1] v).

Definition tcmi_slotvec_get (v : tcmi_slotvec) : tcmi_slotvec := set_ref (ref_count v + 1) v.

(** [None]: the last reference is gone and the vector is freed. *)
Definition tcmi_slotvec_put (v : tcmi_slotvec) : option tcmi_slotvec :=
  if ref_count v - 1 =? 0 then None else Some (set_ref (ref_count v - 1) v).

Definition tcmi_slotvec_at (v : tcmi_slotvec) (i : Z) : option nat :=
  if i <? slot_count v then Some (Z.to_nat i) else None.

Definition tcmi_slotvec_reserve_empty (v : tcmi_slotvec) : option (option nat * tcmi_slotvec) :=
  v1 ← tcmi_slot_lock v;
  Some (match unused_slots v1 with
        | [] => (None, tcmi_slot_unlock v1)
        | p :: _ =>
            (Some p, tcmi_slot_unlock
               (set_lists (list_del p (unused_slots v1)) (list_del p (used_slots v1)) v1))
        end).

Definition tcmi_slotvec_insert_at (v : tcmi_slotvec) (i : Z) (node : Z)
    : option (option nat * tcmi_slotvec) :=
  match tcmi_slotvec_at v i with
  | Some slot => v1 ← tcmi_slot_insert slot node v; Some (Some slot, v1)
  | None => Some (None, v)
  end.

Definition tcmi_slotvec_insert_at_empty (v : tcmi_slotvec) (node : Z)
    : option (option nat * tcmi_slotvec) :=
  r ← tcmi_slotvec_reserve_empty v;
  match r with
  | (Some slot, v1) => v2 ← tcmi_slot_insert slot node v1; Some (Some slot, v2)
  | (None, v1) => Some (None, v1)
  end.

Definition tcmi_slotvec_empty (v : tcmi_slotvec) : bool :=
  match used_slots v with [] => true | _ => false end.

Definition tcmi_slotvec_remove_one_entry (v : tcmi_slotvec) : option Z * tcmi_slotvec :=
  match used_slots v with
  | slot :: _ => tcmi_slot_remove_first None slot v
  | [] => (None, v)
  end.

(** ** Well-formedness *)

(** All nodes of the vector, slot by slot. *)
Definition nodes (v : tcmi_slotvec) : list Z := slots v ≫= head.

Record slotvec_wf (v : tcmi_slotvec) : Prop := {
  wf_count : zlen (slots v) = slot_count v;
  wf_index : forall i s, slots v !! i = Some s -> index s = Z.of_nat i;
  wf_nodup : NoDup (unused_slots v ++ used_slots v);
  wf_range : forall i, i ∈ unused_slots v ++ used_slots v -> (i < length (slots v))%nat;
  wf_unused : forall i, i ∈ unused_slots v -> items v i = [];
  wf_used : forall i, i ∈ used_slots v <-> items v i <> [];
  wf_nodes : NoDup (nodes v)
}.

(** ** Effect of the primitives on the contents *)

Lemma items_set_lists un us v i : items (set_lists un us v) i = items v i.
Proof. done. Qed.
Lemma items_set_lock b v i : items (set_lock b v) i = items v i.
Proof. done. Qed.

Lemma items_out v i : (length (slots v) <= i)%nat -> items v i = [].
Proof. intros. unfold items. rewrite lookup_ge_None_2; done. Qed.

Lemma items_hlist_add_head n i v j :
  (i < length (slots v))%nat ->
  items (hlist_add_head n i v) j = if decide (j = i) then n :: items v i else items v j.
Proof.
  intros Hi. unfold items, hlist_add_head. simpl. case_decide as Hji.
  - subst. rewrite list_lookup_alter_eq.
    destruct (lookup_lt_is_Some_2 _ _ Hi) as [s ->]. done.
  - rewrite list_lookup_alter_ne by done. done.
Qed.

Lemma items_hlist_del_init n v j :
  items (hlist_del_init n v) j = list_del n (items v j).
Proof.
  unfold items, hlist_del_init. simpl. rewrite list_lookup_fmap.
  destruct (slots v !! j); done.
Qed.

Lemma nodes_hlist_del_init n v : nodes (hlist_del_init n v) = list_del n (nodes v).
Proof.
  unfold nodes, hlist_del_init. simpl. induction (slots v) as [|s ss IH]; [done|].
  simpl. rewrite list_del_app. f_equal. apply IH.
Qed.

Lemma nodes_hlist_add_head n i v :
  (i < length (slots v))%nat -> nodes (hlist_add_head n i v) ≡ₚ n :: nodes v.
Proof.
  unfold nodes, hlist_add_head. simpl. revert i.
  induction (slots v) as [|s ss IH]; intros [|i] Hi; simpl in *; try lia; [done|].
  etransitivity; [apply Permutation_app_head, (IH i); lia|].
  symmetry. apply Permutation_middle.
Qed.

Lemma elem_of_nodes n v : n ∈ nodes v <-> exists i, n ∈ items v i.
Proof.
  unfold nodes. rewrite list_elem_of_bind. split.
  - intros (s & Hn & Hs). apply list_elem_of_lookup in Hs as [i Hi].
    exists i. unfold items. rewrite Hi. done.
  - unfold items. intros [i Hn]. destruct (slots v !! i) as [s|] eqn:E; [|set_solver].
    eauto using list_elem_of_lookup_2.
Qed.

(** A node is in one slot only. *)
Lemma items_disjoint v n i j :
  NoDup (nodes v) -> n ∈ items v i -> n ∈ items v j -> i = j.
Proof.
  unfold nodes, items. revert i j. induction (slots v) as [|s ss IH]; intros i j Hd Hi Hj.
  { rewrite lookup_nil in Hi. set_solver. }
  simpl in Hd. apply NoDup_app in Hd as (_ & Hx & Hd).
  assert (Hin : forall k, n ∈ match ss !! k with Some s => head s | None => [] end ->
                n ∈ ss ≫= head).
  { intros k. destruct (ss !! k) as [s'|] eqn:E; [|set_solver]. rewrite list_elem_of_bind.
    eauto using list_elem_of_lookup_2. }
  destruct i as [|i], j as [|j]; simpl in *; [done| | |].
  - destruct (Hx n Hi). eauto.
  - destruct (Hx n Hj). eauto.
  - f_equal. eauto.
Qed.

(** Only the slots, their count and the two lists matter. *)
Lemma slotvec_wf_ext v v' :
  slots v' = slots v -> slot_count v' = slot_count v ->
  unused_slots v' = unused_slots v -> used_slots v' = used_slots v ->
  slotvec_wf v -> slotvec_wf v'.
Proof.
  destruct v, v'; simpl; intros; subst. destruct H3. split; simpl in *; auto.
Qed.

(** ** Every operation preserves well-formedness *)

Lemma wf_set_lock b v : slotvec_wf v -> slotvec_wf (set_lock b v).
Proof. by apply slotvec_wf_ext. Qed.
Lemma wf_set_ref n v : slotvec_wf v -> slotvec_wf (set_ref n v).
Proof. by apply slotvec_wf_ext. Qed.
Lemma wf_set_hashmsk n v : slotvec_wf v -> slotvec_wf (set_hashmsk n v).
Proof. by apply slotvec_wf_ext. Qed.

#[export] Hint Resolve wf_set_lock wf_set_ref wf_set_hashmsk : clon.

(** The initialisation loop in closed form. *)
Lemma init_slots_spec n v :
  init_slots n (zlen (slots v)) v =
  set_lists (unused_slots v ++ seq (length (slots v)) n) (used_slots v)
    (set_slots (fun ss => ss ++ ((fun k => mk_slot (Z.of_nat k) []) <$> seq (length ss) n)) v).
Proof.
  revert v. induction n as [|n IH]; intros v; simpl.
  - unfold set_lists, set_slots. simpl. rewrite !app_nil_r. by destruct v.
  - replace (zlen (slots v) + 1) with (zlen (slots (tcmi_slot_init (zlen (slots v)) v))).
    2: { simpl. rewrite zlen_app. done. }
    rewrite IH. unfold set_lists, set_slots, tcmi_slot_init. simpl.
    rewrite length_app. simpl. rewrite <- !app_assoc. simpl.
    replace (length (slots v) + 1)%nat with (S (length (slots v))) by lia. done.
Qed.

Lemma wf_new kvec kslots size v :
  0 <= size -> tcmi_slotvec_new kvec kslots size = Some v ->
  slotvec_wf v /\ s_lock v = false /\ slot_count v = size /\ nodes v = [] /\
  unused_slots v = seq 0 (Z.to_nat size) /\ ref_count v = 1.
Proof.
  intros Hsz. unfold tcmi_slotvec_new. destruct kvec, kslots; simpl; try done.
  intros [= <-].
  pose proof (init_slots_spec (Z.to_nat size) (mk_slotvec [] size None [] [] 1 false)) as E.
  simpl in E. change (zlen (@nil tcmi_slot)) with 0 in E. rewrite E. clear E.
  set (n := Z.to_nat size).
  assert (Hit : forall i : nat, match ((fun k => mk_slot (Z.of_nat k) []) <$> seq 0 n) !! i with
     Some s => head s | None => [] end = []).
  { intros i. rewrite list_lookup_fmap. destruct (seq 0 n !! i); done. }
  assert (Hnd : ((fun k => mk_slot (Z.of_nat k) []) <$> seq 0 n) ≫= head = []).
  { generalize 0%nat. clear. induction n; intros m; simpl; auto. }
  split; [|unfold nodes; simpl; auto].
  split; unfold items, nodes; simpl.
  - unfold zlen. rewrite length_fmap, length_seq. lia.
  - intros i s. rewrite list_lookup_fmap. intros H. apply fmap_Some in H as (k & Hk & ->).
    apply lookup_seq in Hk as [-> _]. done.
  - rewrite app_nil_r. apply NoDup_seq.
  - intros i. rewrite app_nil_r, length_fmap, length_seq, elem_of_seq. lia.
  - intros. apply Hit.
  - intros i. rewrite Hit. set_solver.
  - rewrite Hnd. constructor.
Qed.

Lemma wf_insert_body self node v :
  (self < length (slots v))%nat -> node ∉ nodes v -> slotvec_wf v ->
  slotvec_wf (move_used self (hlist_add_head node self v)).
Proof.
  intros Hs Hn [Wc Wi Wd Wr Wu Wus Wn].
  assert (Hlen : length (alter (fun s => mk_slot (index s) (node :: head s)) self (slots v))
                 = length (slots v)) by apply length_alter.
  split; simpl; try rewrite Hlen.
  - unfold zlen in *. rewrite Hlen. done.
  - intros i s. rewrite list_lookup_alter. case_decide.
    + intros H1. apply fmap_Some in H1 as (s' & ? & ->). subst. simpl. eauto.
    + eauto.
  - apply NoDup_app in Wd as (H1 & H2 & H3).
    apply NoDup_app. split; [by apply NoDup_list_del|]. split.
    + intros x. rewrite elem_of_cons, !elem_of_list_del. clear Wus. naive_solver.
    + apply NoDup_cons. rewrite elem_of_list_del. split; [tauto|]. by apply NoDup_list_del.
  - intros i. rewrite elem_of_app, elem_of_cons, !elem_of_list_del.
    intros [[H _]|[->|[H _]]]; [| |]; auto; apply Wr; set_solver.
  - intros i. rewrite elem_of_list_del. intros [H1 H2].
    unfold move_used. rewrite items_set_lists, items_hlist_add_head by done.
    rewrite decide_False by done. auto.
  - intros i. rewrite elem_of_cons, elem_of_list_del.
    unfold move_used. rewrite items_set_lists, items_hlist_add_head by done. rewrite Wus.
    case_decide; subst; naive_solver.
  - change (NoDup (nodes (hlist_add_head node self v))).
    rewrite nodes_hlist_add_head by done. by apply NoDup_cons.
Qed.

Lemma wf_remove_body self node v :
  (self < length (slots v))%nat -> node ∈ items v self \/ node ∉ nodes v ->
  slotvec_wf v -> slotvec_wf (__tcmi_slot_remove self node v).
Proof.
  intros Hs Hn [Wc Wi Wd Wr Wu Wus Wn]. unfold __tcmi_slot_remove, tcmi_slot_empty.
  assert (Hother : forall i, i <> self -> list_del node (items v i) = items v i).
  { intros i Hi. apply list_del_notin. intros Hin. destruct Hn as [Hn|Hn].
    - destruct Hi. eauto using items_disjoint.
    - apply Hn, elem_of_nodes. eauto. }
  rewrite items_hlist_del_init.
  assert (Hidx : forall i s, ((fun s => mk_slot (index s) (list_del node (head s))) <$> slots v)
     !! i = Some s -> index s = Z.of_nat i).
  { intros i s. rewrite list_lookup_fmap. intros H. apply fmap_Some in H as (k & ? & ->).
    simpl. eauto. }
  assert (Hnd : NoDup (nodes (hlist_del_init node v))).
  { rewrite nodes_hlist_del_init. by apply NoDup_list_del. }
  assert (Hlen : length (slots (hlist_del_init node v)) = length (slots v)) by apply length_fmap.
  destruct (list_del node (items v self)) as [|x xs] eqn:E.
  - apply NoDup_app in Wd as (H1 & H2 & H3). split; auto.
    + simpl. unfold zlen in *. rewrite length_fmap. done.
    + simpl. apply NoDup_cons. rewrite elem_of_app, !elem_of_list_del. split; [tauto|].
      apply NoDup_app. split_and!; auto using NoDup_list_del.
      intros i. rewrite !elem_of_list_del. naive_solver.
    + intros i. simpl. rewrite length_fmap, elem_of_cons, elem_of_app, !elem_of_list_del.
      intros [->|[[? _]|[? _]]]; [done| |]; apply Wr; set_solver.
    + intros i. simpl. rewrite elem_of_cons, elem_of_list_del. unfold tcmi_slot_move_unused.
      rewrite items_set_lists, items_hlist_del_init. intros [->|[H ?]]; [done|].
      rewrite Hother by done. auto.
    + intros i. simpl. rewrite elem_of_list_del. unfold tcmi_slot_move_unused.
      rewrite items_set_lists, items_hlist_del_init, Wus.
      destruct (decide (i = self)) as [->|]; [rewrite E; tauto|]. rewrite Hother by done. tauto.
  - assert (Hself : items v self <> []) by (intros H; rewrite H in E; done).
    split; auto.
    + simpl. unfold zlen in *. rewrite length_fmap. done.
    + simpl. rewrite length_fmap. done.
    + intros i Hi. simpl in Hi. rewrite items_hlist_del_init, Wu; done.
    + intros i. simpl. rewrite items_hlist_del_init, Wus.
      destruct (decide (i = self)) as [->|]; [rewrite E; done|]. rewrite Hother by done. tauto.
Qed.

Lemma wf_reserve_body p v :
  items v p = [] -> slotvec_wf v ->
  slotvec_wf (set_lists (list_del p (unused_slots v)) (list_del p (used_slots v)) v).
Proof.
  intros Hp [Wc Wi Wd Wr Wu Wus Wn]. apply NoDup_app in Wd as (H1 & H2 & H3).
  split; auto; simpl.
  - apply NoDup_app. split_and!; auto using NoDup_list_del.
    intros i. rewrite !elem_of_list_del. naive_solver.
  - intros i. rewrite elem_of_app, !elem_of_list_del. intros [[? _]|[? _]]; apply Wr; set_solver.
  - intros i. rewrite elem_of_list_del, items_set_lists. naive_solver.
  - intros i. rewrite elem_of_list_del, items_set_lists, Wus. naive_solver.
Qed.

Lemma wf_move_unused self v :
  (self < length (slots v))%nat -> items v self = [] -> slotvec_wf v ->
  slotvec_wf (tcmi_slot_move_unused self v).
Proof.
  intros Hs He [Wc Wi Wd Wr Wu Wus Wn]. apply NoDup_app in Wd as (H1 & H2 & H3).
  split; auto; simpl.
  - apply NoDup_cons. rewrite elem_of_app, !elem_of_list_del. split; [tauto|].
    apply NoDup_app. split_and!; auto using NoDup_list_del.
    intros i. rewrite !elem_of_list_del. naive_solver.
  - intros i. rewrite elem_of_cons, elem_of_app, !elem_of_list_del.
    intros [->|[[? _]|[? _]]]; [done| |]; apply Wr; set_solver.
  - intros i. rewrite elem_of_cons, elem_of_list_del. intros [->|[? _]]; [done|]. by apply Wu.
  - intros i. rewrite elem_of_list_del. rewrite Wus. naive_solver.
Qed.

(** ** Functional behaviour *)

Lemma slot_insert_unlocked self node v :
  s_lock v = false ->
  tcmi_slot_insert self node v =
  Some (set_lock false (move_used self (hlist_add_head node self (set_lock true v)))).
Proof. intros H. unfold tcmi_slot_insert, tcmi_slot_lock. rewrite H. done. Qed.

(** Everything a caller of [tcmi_slot_insert] relies on. *)
Lemma slot_insert_spec self node v :
  slotvec_wf v -> s_lock v = false -> (self < length (slots v))%nat -> node ∉ nodes v ->
  exists v', tcmi_slot_insert self node v = Some v' /\ slotvec_wf v' /\ s_lock v' = false /\
    items v' self = node :: items v self /\
    (forall j, j <> self -> items v' j = items v j) /\
    self ∈ used_slots v' /\ nodes v' ≡ₚ node :: nodes v /\
    slot_count v' = slot_count v /\ hashmsk v' = hashmsk v.
Proof.
  intros Hwf Hl Hs Hn. rewrite slot_insert_unlocked by done.
  eexists. split; [reflexivity|]. split.
  { apply wf_set_lock, wf_insert_body; auto with clon. }
  split; [done|]. rewrite items_set_lock. unfold move_used. rewrite items_set_lists.
  rewrite items_hlist_add_head by done. rewrite decide_True by done.
  split; [done|]. split.
  { intros j Hj. rewrite items_set_lock, items_set_lists, items_hlist_add_head by done.
    rewrite decide_False by done. done. }
  split; [simpl; set_solver|]. split; [|done].
  change (nodes (hlist_add_head node self v) ≡ₚ node :: nodes v).
  by apply nodes_hlist_add_head.
Qed.

Lemma items_slot_remove self node v j :
  items (__tcmi_slot_remove self node v) j = list_del node (items v j).
Proof.
  unfold __tcmi_slot_remove. case_goal; [unfold tcmi_slot_move_unused; rewrite items_set_lists|];
    apply items_hlist_del_init.
Qed.

Lemma nodes_slot_remove self node v :
  nodes (__tcmi_slot_remove self node v) = list_del node (nodes v).
Proof. unfold __tcmi_slot_remove. rewrite <- nodes_hlist_del_init. case_goal; done. Qed.

(** Taking a node out of its slot. *)
Lemma slot_remove_node v slot n :
  slotvec_wf v -> n ∈ items v slot ->
  slotvec_wf (__tcmi_slot_remove slot n v) /\ nodes v ≡ₚ n :: nodes (__tcmi_slot_remove slot n v) /\
  s_lock (__tcmi_slot_remove slot n v) = s_lock v.
Proof.
  intros Hwf Hn. split_and!.
  - apply wf_remove_body; auto. destruct (decide (slot < length (slots v))%nat) as [|Hout]; [done|].
    rewrite items_out in Hn by lia. by apply elem_of_nil in Hn.
  - rewrite nodes_slot_remove.
    assert (n ∈ nodes v) as Hin by (apply elem_of_nodes; eauto).
    apply list_elem_of_split in Hin as (l1 & l2 & Hsp).
    pose proof (wf_nodes _ Hwf) as Hd. rewrite Hsp in Hd |- *.
    apply NoDup_app in Hd as (H1 & H2 & H3). apply NoDup_cons in H3 as [H3 H4].
    rewrite list_del_app, list_del_head by done. rewrite list_del_notin by set_solver.
    symmetry. apply Permutation_middle.
  - unfold __tcmi_slot_remove. case_goal; done.
Qed.

(** Taking the first entry out of a used slot. *)
Lemma remove_one_entry_spec v :
  slotvec_wf v -> used_slots v <> [] ->
  exists n v', tcmi_slotvec_remove_one_entry v = (Some n, v') /\ slotvec_wf v' /\
    nodes v ≡ₚ n :: nodes v' /\ s_lock v' = s_lock v.
Proof.
  intros Hwf Hu. unfold tcmi_slotvec_remove_one_entry, tcmi_slot_remove_first.
  destruct (used_slots v) as [|slot us] eqn:E; [done|].
  assert (Hslot : slot ∈ used_slots v) by (rewrite E; set_solver).
  pose proof (proj1 (wf_used _ Hwf slot) Hslot) as Hne.
  destruct (items v slot) as [|n ns] eqn:Ei; [done|].
  exists n, (__tcmi_slot_remove slot n v). split; [done|]. apply slot_remove_node; [done|]. rewrite Ei. set_solver.
Qed.

Lemma reserve_empty_spec v :
  slotvec_wf v -> s_lock v = false ->
  match unused_slots v with
  | [] => tcmi_slotvec_reserve_empty v = Some (None, v)
  | p :: _ => exists v', tcmi_slotvec_reserve_empty v = Some (Some p, v') /\
      slotvec_wf v' /\ s_lock v' = false /\ items v p = [] /\
      (p ∉ unused_slots v') /\ (p ∉ used_slots v') /\
      (p < length (slots v'))%nat /\ slots v' = slots v /\
      slot_count v' = slot_count v /\ hashmsk v' = hashmsk v
  end.
Proof.
  intros Hwf Hl. unfold tcmi_slotvec_reserve_empty, tcmi_slot_lock. rewrite Hl. simpl.
  destruct (unused_slots v) as [|p un] eqn:E; simpl.
  - unfold tcmi_slot_unlock, set_lock. simpl. do 2 f_equal. destruct v. simpl in *. by subst.
  - assert (Hp : p ∈ unused_slots v) by (rewrite E; set_solver).
    pose proof (wf_unused _ Hwf p Hp) as He. rewrite <- E.
    eexists. split; [reflexivity|]. split.
    { apply wf_set_lock, (wf_reserve_body p (set_lock true v)); auto with clon. }
    simpl. rewrite !elem_of_list_del. split_and!; auto; try tauto.
    apply (wf_range _ Hwf). set_solver.
Qed.

(** The operations of the users of a slot vector.  Guards: a node is inserted
    only when it is in no slot, removed through the slot that holds it (or when
    it is in none), and [tcmi_slot_move_unused] gives back an empty slot. *)
Inductive slotvec_op : tcmi_slotvec -> tcmi_slotvec -> Prop :=
| op_insert_at v i node r v' :
    0 <= i -> node ∉ nodes v ->
    tcmi_slotvec_insert_at v i node = Some (r, v') -> slotvec_op v v'
| op_insert_at_empty v node r v' :
    node ∉ nodes v -> tcmi_slotvec_insert_at_empty v node = Some (r, v') -> slotvec_op v v'
| op_reserve v r v' : tcmi_slotvec_reserve_empty v = Some (r, v') -> slotvec_op v v'
| op_release v p :
    (p < length (slots v))%nat -> items v p = [] -> slotvec_op v (tcmi_slot_move_unused p v)
| op_remove v p node v' :
    (p < length (slots v))%nat -> node ∈ items v p \/ node ∉ nodes v ->
    tcmi_slot_remove (Some p) node v = Some v' -> slotvec_op v v'
| op_remove_safe v p node v' :
    (p < length (slots v))%nat ->
    tcmi_slot_remove_safe (Some p) node v = Some v' -> slotvec_op v v'
| op_remove_one v : slotvec_op v (tcmi_slotvec_remove_one_entry v).2
| op_lock v v' : tcmi_slot_lock v = Some v' -> slotvec_op v v'
| op_unlock v : slotvec_op v (tcmi_slot_unlock v)
| op_get v : slotvec_op v (tcmi_slotvec_get v)
| op_put v v' : tcmi_slotvec_put v = Some v' -> slotvec_op v v'.

Lemma wf_slot_insert self node v v' :
  (self < length (slots v))%nat -> node ∉ nodes v -> slotvec_wf v ->
  tcmi_slot_insert self node v = Some v' -> slotvec_wf v'.
Proof.
  intros Hs Hn Hwf. unfold tcmi_slot_insert, tcmi_slot_lock. destruct (s_lock v); [done|].
  intros [= <-]. apply wf_set_lock, wf_insert_body; auto with clon.
Qed.

Lemma slotvec_op_wf v v' : slotvec_wf v -> slotvec_op v v' -> slotvec_wf v'.
Proof.
  intros Hwf Hop. destruct Hop as [v i node r v' Hi Hn H|v node r v' Hn H|v r v' H|v p Hp He|
    v p node v' Hp Hn H|v p node v' Hp H|v|v v' H|v|v|v v' H].
  - unfold tcmi_slotvec_insert_at, tcmi_slotvec_at in H. case_hyp H; [|by simplify_eq].
    destruct (i <? slot_count v) eqn:El; simplify_eq/=.
    apply bind_Some in H as (v1 & H & ?). simplify_eq/=.
    apply (wf_slot_insert (Z.to_nat i) node v); auto.
    pose proof (wf_count _ Hwf) as Hc. unfold zlen in Hc. blia.
  - unfold tcmi_slotvec_insert_at_empty in H. destruct (s_lock v) eqn:El.
    { unfold tcmi_slotvec_reserve_empty, tcmi_slot_lock in H. by rewrite El in H. }
    pose proof (reserve_empty_spec v Hwf El) as Hr.
    destruct (unused_slots v) as [|p un]; [rewrite Hr in H; by simplify_eq/=|].
    destruct Hr as (v1 & Hr & Hwf1 & Hl1 & He & ? & ? & Hp & Hsl & _). rewrite Hr in H. simpl in H.
    apply bind_Some in H as (v2 & H & ?). simplify_eq/=.
    apply (wf_slot_insert p node v1); auto. unfold nodes. by rewrite Hsl.
  - destruct (s_lock v) eqn:El.
    { unfold tcmi_slotvec_reserve_empty, tcmi_slot_lock in H. by rewrite El in H. }
    pose proof (reserve_empty_spec v Hwf El) as Hr.
    destruct (unused_slots v) as [|p un]; [rewrite Hr in H; by simplify_eq|].
    destruct Hr as (v1 & Hr & Hwf1 & _). rewrite Hr in H. by simplify_eq.
  - by apply wf_move_unused.
  - unfold tcmi_slot_remove, tcmi_slot_lock in H.
    destruct (s_lock v); simplify_eq/=; [by apply wf_remove_body|].
    apply wf_set_lock, wf_remove_body; auto with clon.
  - unfold tcmi_slot_remove_safe, tcmi_slot_lock in H. destruct (s_lock v); simplify_eq/=.
    apply wf_set_lock. case_bool_decide; auto with clon.
    apply wf_remove_body; auto with clon.
  - destruct (used_slots v) eqn:E.
    + unfold tcmi_slotvec_remove_one_entry. by rewrite E.
    + destruct (remove_one_entry_spec v Hwf) as (n' & v' & -> & ? & _); [by rewrite E|done].
  - unfold tcmi_slot_lock in H. destruct (s_lock v); simplify_eq. auto with clon.
  - by apply wf_set_lock.
  - by apply wf_set_ref.
  - unfold tcmi_slotvec_put in H. case_hyp H; simplify_eq. auto with clon.
Qed.

(** ** Properties *)

(** C14: A slot vector made by [tcmi_slotvec_hnew] stays well-formed under any
    sequence of its operations: the two slot lists are disjoint and without
    duplicates, the used list holds exactly the slots that have an item, every
    unused slot is empty, and no node is linked twice. *)
Theorem slotvec_reachable_wf kvec kslots order v0 v :
  tcmi_slotvec_hnew kvec kslots order = Some v0 -> star slotvec_op v0 v -> slotvec_wf v.
Proof.
  intros H0 Hs. apply bind_Some in H0 as (vn & Hn & ?). simplify_eq.
  apply wf_new in Hn as (Hwf & _); [|apply uwrap_range; lia].
  apply (star_invariant slotvec_op slotvec_wf slotvec_op_wf _ _ (wf_set_hashmsk _ _ Hwf) Hs).
Qed.

(** [tcmi_slotvec_insert_at] with a valid index puts the node in front of
    that slot's items, changes no other slot, lists the slot as used and
    returns it; with an index outside the vector it returns NULL and changes
    nothing. *)
Theorem insert_at_spec v i node :
  slotvec_wf v -> s_lock v = false -> 0 <= i -> node ∉ nodes v ->
  if i <? slot_count v
  then exists v', tcmi_slotvec_insert_at v i node = Some (Some (Z.to_nat i), v') /\
       slotvec_wf v' /\ s_lock v' = false /\
       items v' (Z.to_nat i) = node :: items v (Z.to_nat i) /\
       (forall j, j <> Z.to_nat i -> items v' j = items v j) /\
       Z.to_nat i ∈ used_slots v'
  else tcmi_slotvec_insert_at v i node = Some (None, v).
Proof.
  intros Hwf Hl Hi Hn. unfold tcmi_slotvec_insert_at, tcmi_slotvec_at.
  destruct (i <? slot_count v) eqn:E; [|done].
  destruct (slot_insert_spec (Z.to_nat i) node v) as (v' & Hv & ?); auto.
  { pose proof (wf_count _ Hwf) as Hc. unfold zlen in Hc. blia. }
  exists v'. rewrite Hv. simpl. intuition.
Qed.

(** [tcmi_slotvec_insert_at_empty] stores the node alone in a slot that was
    unused, or returns NULL without a change when no slot is unused; it never
    adds to a slot that already has an item. *)
Theorem insert_at_empty_spec v node :
  slotvec_wf v -> s_lock v = false -> node ∉ nodes v ->
  match unused_slots v with
  | [] => tcmi_slotvec_insert_at_empty v node = Some (None, v)
  | p :: _ => exists v', tcmi_slotvec_insert_at_empty v node = Some (Some p, v') /\
      slotvec_wf v' /\ items v p = [] /\ items v' p = [node] /\
      (forall j, j <> p -> items v' j = items v j) /\ p ∉ unused_slots v'
  end.
Proof.
  intros Hwf Hl Hn. pose proof (reserve_empty_spec v Hwf Hl) as Hr.
  unfold tcmi_slotvec_insert_at_empty. destruct (unused_slots v) as [|p un].
  { by rewrite Hr. }
  destruct Hr as (v1 & Hr & Hwf1 & Hl1 & He & Hnu & _ & Hp & Hsl & _).
  destruct (slot_insert_spec p node v1) as (v' & Hv & Hwf' & _ & Hi & Ho & Hu & _); auto.
  { unfold nodes. by rewrite Hsl. }
  assert (Hit : forall j, items v1 j = items v j) by (intros; unfold items; by rewrite Hsl).
  exists v'. rewrite Hr. simpl. rewrite Hv. simpl. rewrite Hi, Hit, He. split_and!; auto.
  - intros j Hj. rewrite Ho by done. apply Hit.
  - intros Hin. pose proof (wf_unused _ Hwf' p Hin) as Hx. rewrite Hi in Hx. done.
Qed.

(** Removing a node right after it was inserted gives every slot the items
    it had before. *)
Theorem remove_insert v self node v1 :
  slotvec_wf v -> s_lock v = false -> (self < length (slots v))%nat -> node ∉ nodes v ->
  tcmi_slot_insert self node v = Some v1 ->
  exists v2, tcmi_slot_remove (Some self) node v1 = Some v2 /\ slotvec_wf v2 /\
    forall j, items v2 j = items v j.
Proof.
  intros Hwf Hl Hs Hn H1.
  destruct (slot_insert_spec self node v) as (v' & Hv & Hwf' & Hl' & Hi & Ho & _); auto.
  rewrite H1 in Hv. injection Hv as <-.
  assert (Hs1 : (self < length (slots v1))%nat).
  { rewrite slot_insert_unlocked in H1 by done. injection H1 as <-. simpl. by rewrite length_alter. }
  assert (Hdel : forall j, list_del node (items v1 j) = items v j).
  { assert (Hni : forall j, node ∉ items v j).
    { intros j Hj. apply Hn, elem_of_nodes. eauto. }
    intros j. destruct (decide (j = self)) as [->|Hj].
    - rewrite Hi. by apply list_del_head.
    - rewrite Ho by done. by apply list_del_notin. }
  unfold tcmi_slot_remove, tcmi_slot_lock. rewrite Hl'. simpl.
  eexists. split; [done|]. split.
  - apply wf_set_lock, wf_remove_body; auto with clon. left. rewrite items_set_lock, Hi. set_solver.
  - intros j. unfold tcmi_slot_unlock. rewrite items_set_lock, items_slot_remove. apply Hdel.
Qed.

(** *** Witnesses *)

Definition ex_vec : tcmi_slotvec :=
  mk_slotvec [mk_slot 0 [7]; mk_slot 1 []; mk_slot 2 [9; 8]; mk_slot 3 []] 4 (Some 3)
    [3%nat; 1%nat] [2%nat; 0%nat] 1 false.

Lemma ex_vec_wf : slotvec_wf ex_vec.
Proof.
  split; [done| | | | | |].
  - intros i s. do 4 (destruct i as [|i]; [by intros [= <-]|]). done.
  - by apply (bool_decide_unpack _).
  - intros i. simpl. rewrite !elem_of_cons, elem_of_nil. lia.
  - intros i. simpl. rewrite !elem_of_cons, elem_of_nil. intros [->|[->|[]]]; done.
  - intros i. simpl. rewrite !elem_of_cons, elem_of_nil.
    destruct i as [|[|[|[|i]]]]; unfold items; simpl; split; try done; try lia; auto.
  - by apply (bool_decide_unpack _).
Qed.

Lemma slotvec_reachable_wf_witness :
  slotvec_wf (mk_slotvec [mk_slot 0 []; mk_slot 1 [5]] 2 (Some 1) [0%nat] [1%nat] 1 false).
Proof.
  apply (slotvec_reachable_wf true true 1
    (mk_slotvec [mk_slot 0 []; mk_slot 1 []] 2 (Some 1) [0%nat; 1%nat] [] 1 false)); [reflexivity|].
  eapply star_step; [apply star_refl|].
  apply (op_insert_at _ 1 5 (Some 1%nat)); [lia|vm_compute; set_solver|reflexivity].
Defined.

Lemma insert_at_spec_witness :
  (exists v', tcmi_slotvec_insert_at ex_vec 2 4 = Some (Some 2%nat, v') /\ items v' 2 = [4; 9; 8])
  /\ tcmi_slotvec_insert_at ex_vec 4 4 = Some (None, ex_vec).
Proof.
  split.
  - destruct (insert_at_spec ex_vec 2 4 ex_vec_wf) as (v' & ? & _ & _ & ? & _);
      [reflexivity|lia|vm_compute; set_solver|]. by exists v'.
  - apply (insert_at_spec ex_vec 4 4 ex_vec_wf); [reflexivity|lia|vm_compute; set_solver].
Defined.

Lemma insert_at_empty_spec_witness :
  exists v', tcmi_slotvec_insert_at_empty ex_vec 4 = Some (Some 3%nat, v') /\ items v' 3 = [4].
Proof.
  destruct (insert_at_empty_spec ex_vec 4 ex_vec_wf) as (v' & ? & _ & _ & ? & _);
    [reflexivity|vm_compute; set_solver|]. by exists v'.
Defined.

Lemma remove_insert_witness :
  exists v1 v2, tcmi_slot_insert 1 4 ex_vec = Some v1 /\
    tcmi_slot_remove (Some 1%nat) 4 v1 = Some v2 /\ items v2 1 = [].
Proof.
  destruct (tcmi_slot_insert 1 4 ex_vec) as [v1|] eqn:E; [|discriminate E].
  destruct (remove_insert ex_vec 1 4 v1 ex_vec_wf) as (v2 & ? & _ & Hi);
    [reflexivity|simpl; lia|vm_compute; set_solver|done|].
  exists v1, v2. split_and!; auto; apply (Hi 1%nat).
Defined.
