(* ===== verification/CircBuf.v ===== *)
(** The circular byte buffer of proxyfs (src/src/proxyfs/buffer.h, buffer.c).

    A buffer keeps a base address, a read and a write pointer into its memory
    and a flag that tells a full buffer from an empty one.  Pointers are
    addresses in [Z]; [mem] is the memory block at [buf].  The recursive
    read and write take fuel: [None] means that it ran out.  The abstract
    view of a buffer is the queue of bytes it holds ([contents]); the
    operations are shown to be the queue operations. *)

From S2P Require Import Prelude.

Record circ_buf := mk_circ {
  buf : Z;
  write : Z;
  read : Z;
  full : Z;
  size : Z;
  mem : list Z
}.

Definition CIRC_BUF_USE_VMALLOC : Z := Z.shiftl 4 10.

(** [addr] is the result of [vmalloc]/[kmalloc], 0 for NULL, and [garbage] what
    the memory holds then.  The first component is the return value. *)
Definition circ_buf_init (self : circ_buf) (addr : Z) (garbage : list Z) (sz : Z)
    : Z * circ_buf :=
  if addr =? 0 then (-1, mk_circ 0 (write self) (read self) (full self) (size self) (mem self))
  else (0, mk_circ addr addr addr 0 sz garbage).

(** Which deallocator [circ_buf_destroy] calls, and the structure after it. *)
Definition circ_buf_destroy (self : circ_buf) : bool * circ_buf :=
  (CIRC_BUF_USE_VMALLOC <=? size self, mk_circ (buf self) 0 0 (full self) 0 []).

Definition circ_buf_get_read_size (self : circ_buf) : Z :=
  if read self <? write self then u32[write self - read self]
  else if (write self <? read self) || negb (full self =? 0)
  then u32[buf self + size self - read self]
  else 0.

Definition circ_buf_get_read_addr (self : circ_buf) : Z := read self.

Definition circ_buf_get_write_size (self : circ_buf) : Z :=
  if read self <? write self then u32[buf self + size self - write self]
  else if write self <? read self then u32[read self - write self]
  else if negb (full self =? 0) then 0
  else u32[buf self + size self - write self].

Definition circ_buf_get_write_addr (self : circ_buf) : Z := write self.

Definition circ_buf_adjust_read_ptr (self : circ_buf) (count : Z) : circ_buf :=
  if 0 <? count then
    let r := read self + count in
    let r := if (buf self + size self <=? r) || (r <? buf self) then r - size self else r in
    mk_circ (buf self) (write self) r 0 (size self) (mem self)
  else self.

Definition circ_buf_adjust_write_ptr (self : circ_buf) (count : Z) : circ_buf :=
  if 0 <? count then
    let w := write self + count in
    let w := if (buf self + size self <=? w) || (w <? buf self) then w - size self else w in
    mk_circ (buf self) w (read self) (if w =? read self then 1 else full self)
      (size self) (mem self)
  else self.

Definition circ_buf_free_space (self : circ_buf) : Z :=
  if read self <? write self then u32[size self - (write self - read self)]
  else if write self <? read self then u32[read self - write self]
  else if negb (full self =? 0) then 0
  else size self.

Definition circ_buf_count (self : circ_buf) : Z := u32[size self - circ_buf_free_space self].

(** [memcpy] to, and from, an address inside the buffer's memory. *)
Definition mem_write (self : circ_buf) (addr : Z) (d : list Z) : circ_buf :=
  mk_circ (buf self) (write self) (read self) (full self) (size self)
    (blit (addr - buf self) d (mem self)).
Definition mem_read (self : circ_buf) (addr n : Z) : list Z :=
  ztake n (zdrop (addr - buf self) (mem self)).

(** [d] is the caller's memory from [buf] on. *)
Fixpoint circ_buf_write (fuel : nat) (self : circ_buf) (d : list Z) (count : Z)
    : option (Z * circ_buf) :=
  match fuel with
  | O => None
  | S fuel =>
      let wrs := circ_buf_get_write_size self in
      if negb (wrs =? 0) then
        if count <? wrs then
          let c := mem_write self (circ_buf_get_write_addr self) (ztake count d) in
          Some (count, circ_buf_adjust_write_ptr c count)
        else
          let c := mem_write self (circ_buf_get_write_addr self) (ztake wrs d) in
          let c := circ_buf_adjust_write_ptr c wrs in
          r ← circ_buf_write fuel c (zdrop wrs d) u32[count - wrs];
          Some (s32[wrs + r.1], r.2)
      else Some (0, self)
  end.

(** User memory from an address on: its readable prefix.  [__copy_from_user]
    returns how many bytes it could not copy and pads with zeros. *)
Definition __copy_from_user (src : list Z) (n : Z) : Z * list Z :=
  if n <=? zlen src then (0, ztake n src)
  else (n - zlen src, src ++ replicate (Z.to_nat (n - zlen src)) 0).

Fixpoint circ_buf_write_user (fuel : nat) (self : circ_buf) (d : list Z) (count : Z)
    : option (Z * circ_buf) :=
  match fuel with
  | O => None
  | S fuel =>
      let wrs := circ_buf_get_write_size self in
      if negb (wrs =? 0) then
        if count <? wrs then
          let '(rest, bytes) := __copy_from_user d count in
          let c := mem_write self (circ_buf_get_write_addr self) bytes in
          if negb (rest =? 0) then Some (- EFAULT, c)
          else Some (count, circ_buf_adjust_write_ptr c count)
        else
          let '(rest, bytes) := __copy_from_user d wrs in
          let c := mem_write self (circ_buf_get_write_addr self) bytes in
          if negb (rest =? 0) then Some (- EFAULT, c)
          else
            let c := circ_buf_adjust_write_ptr c wrs in
            r ← circ_buf_write_user fuel c (zdrop wrs d) u32[count - wrs];
            Some (s32[wrs + r.1], r.2)
      else Some (0, self)
  end.

(** The result: return value, bytes stored from the caller's [buf] on, buffer. *)
Fixpoint circ_buf_read (fuel : nat) (self : circ_buf) (count : Z)
    : option (Z * list Z * circ_buf) :=
  match fuel with
  | O => None
  | S fuel =>
      let maximum_size := circ_buf_count self in
      let count := if maximum_size <? count then maximum_size else count in
      let rs := circ_buf_get_read_size self in
      if negb (rs =? 0) then
        if count <? rs then
          Some (count, mem_read self (circ_buf_get_read_addr self) count,
                circ_buf_adjust_read_ptr self count)
        else
          let d := mem_read self (circ_buf_get_read_addr self) rs in
          let c := circ_buf_adjust_read_ptr self rs in
          '(r, d', c') ← circ_buf_read fuel c u32[count - rs];
          Some (s32[rs + r], d ++ d', c')
      else Some (0, [], self)
  end.

(** [lim] is the number of writable bytes of user memory from [buf] on:
    [__copy_to_user] stores that many and returns how many it could not. *)
Definition __copy_to_user (lim : Z) (d : list Z) : Z * list Z :=
  if zlen d <=? lim then (0, d) else (zlen d - lim, ztake lim d).

Fixpoint circ_buf_read_user (fuel : nat) (self : circ_buf) (lim count : Z)
    : option (Z * list Z * circ_buf) :=
  match fuel with
  | O => None
  | S fuel =>
      let maximum_size := circ_buf_count self in
      let count := if maximum_size <? count then maximum_size else count in
      let rs := circ_buf_get_read_size self in
      if negb (rs =? 0) then
        if count <? rs then
          let '(rest, d) := __copy_to_user lim (mem_read self (circ_buf_get_read_addr self) count) in
          if negb (rest =? 0) then Some (- EFAULT, d, self)
          else Some (count, d, circ_buf_adjust_read_ptr self count)
        else
          let '(rest, d) := __copy_to_user lim (mem_read self (circ_buf_get_read_addr self) rs) in
          if negb (rest =? 0) then Some (- EFAULT, d, self)
          else
            let c := circ_buf_adjust_read_ptr self rs in
            '(r, d', c') ← circ_buf_read_user fuel c (lim - rs) u32[count - rs];
            Some (s32[rs + r], d ++ d', c')
      else Some (0, [], self)
  end.

Definition circ_buf_look_at (fuel : nat) (self : circ_buf) (count offset : Z)
    : option (Z * list Z * circ_buf) :=
  let read0 := read self in
  let full0 := full self in
  let c := circ_buf_adjust_read_ptr self u32[offset] in
  '(rs, d, c) ← circ_buf_read fuel c count;
  Some (rs, d, mk_circ (buf c) (write c) read0 full0 (size c) (mem c)).

(** ** Abstraction *)

Record circ_wf (c : circ_buf) : Prop := {
  cw_base : 0 < buf c;
  cw_size : 0 < size c < 2 ^ 31;
  cw_mem : zlen (mem c) = size c;
  cw_read : buf c <= read c < buf c + size c;
  cw_write : buf c <= write c < buf c + size c;
  cw_full : full c = 0 \/ (full c <> 0 /\ read c = write c)
}.

(** Number of bytes held, and where the [i]-th of them is. *)
Definition amount (c : circ_buf) : Z :=
  if read c <? write c then write c - read c
  else if write c <? read c then size c - (read c - write c)
  else if full c =? 0 then 0 else size c.

Definition ring_pos (c : circ_buf) (i : Z) : Z :=
  let p := read c - buf c + i in if p <? size c then p else p - size c.

Definition contents (c : circ_buf) : list Z :=
  ztab (fun i => znth (mem c) (ring_pos c i)) 0 (Z.to_nat (amount c)).

(** ** Size functions on well-formed buffers *)

Lemma u32_id z : 0 <= z < 2 ^ 32 -> u32[z] = z.
Proof. intros. apply uwrap_id. unfold urange. lia. Qed.

Lemma s32_id z : 0 <= z < 2 ^ 31 -> s32[z] = z.
Proof. intros. apply swrap_id; [lia|]. unfold srange. lia. Qed.

(** Split on the order of the two pointers and the full flag. *)
Ltac circ_cases H :=
  destruct H as [? [? ?] ? ? ? ?];
  repeat first [case_goal | progress bool_hyps]; rewrite ?u32_id; try lia.

Section sizes.
Context (c : circ_buf).
Hypothesis Hwf : circ_wf c.

Lemma amount_range : 0 <= amount c <= size c.
Proof. unfold amount. circ_cases Hwf. Qed.

Lemma free_space_spec : circ_buf_free_space c = size c - amount c.
Proof. unfold circ_buf_free_space, amount. circ_cases Hwf. Qed.

Lemma count_spec : circ_buf_count c = amount c.
Proof.
  unfold circ_buf_count. rewrite free_space_spec.
  pose proof amount_range. destruct Hwf. rewrite u32_id; lia.
Qed.

Lemma write_size_spec :
  circ_buf_get_write_size c = if write c <? read c then read c - write c
    else if amount c =? size c then 0 else buf c + size c - write c.
Proof.
  unfold circ_buf_get_write_size, amount. destruct Hwf as [? [? ?] ? ? ? ?].
  destruct (read c <? write c) eqn:?, (write c <? read c) eqn:?, (full c =? 0) eqn:?;
    cbv [negb orb]; rewrite ?u32_id by blia; repeat case_goal; blia.
Qed.

Lemma read_size_spec :
  circ_buf_get_read_size c = if read c <? write c then write c - read c
    else if amount c =? 0 then 0 else buf c + size c - read c.
Proof.
  unfold circ_buf_get_read_size, amount. destruct Hwf as [? [? ?] ? ? ? ?].
  destruct (read c <? write c) eqn:?, (write c <? read c) eqn:?, (full c =? 0) eqn:?;
    cbv [negb orb]; rewrite ?u32_id by blia; repeat case_goal; blia.
Qed.
End sizes.

Lemma zlen_contents c : circ_wf c -> zlen (contents c) = amount c.
Proof. intros H. unfold contents. rewrite zlen_ztab. pose proof (amount_range c H). lia. Qed.

Lemma znth_contents c i :
  0 <= i < amount c -> znth (contents c) i = znth (mem c) (ring_pos c i).
Proof. intros. unfold contents. rewrite znth_ztab by lia. f_equal. Qed.

(** ** One chunk *)

(** Storing [d] at the write pointer and advancing it appends [d]. *)
Section write_chunk.
Context (c : circ_buf) (d : list Z).
Hypothesis Hwf : circ_wf c.
Hypothesis Hd : zlen d <= circ_buf_get_write_size c.
Let c' := circ_buf_adjust_write_ptr (mem_write c (write c) d) (zlen d).

Lemma write_chunk_room :
  0 <= write c - buf c /\ write c - buf c + zlen d <= zlen (mem c) /\
  amount c + zlen d <= size c.
Proof.
  revert Hd. rewrite write_size_spec by done. pose proof (amount_range c Hwf) as Ha.
  revert Ha. unfold amount. destruct Hwf as [? [? ?] ? ? ? ?]. pose proof (zlen_nonneg d).
  repeat case_goal; blia.
Qed.

Lemma write_chunk_wf : circ_wf c'.
Proof.
  destruct write_chunk_room as (Ho & Hl & Hs). subst c'.
  unfold circ_buf_adjust_write_ptr. destruct (0 <? zlen d) eqn:E; bool_hyps.
  - destruct Hwf as [? [? ?] ? ? ? ?]. split; simpl; try rewrite zlen_blit by done; auto.
    + repeat case_goal; blia.
    + revert Hs. unfold amount. repeat case_goal; blia.
  - destruct Hwf. split; simpl; try rewrite zlen_blit by done; auto.
Qed.

Lemma write_chunk_amount : amount c' = amount c + zlen d.
Proof.
  destruct write_chunk_room as (Ho & Hl & _). subst c'. revert Hd.
  rewrite write_size_spec by done. pose proof (amount_range c Hwf) as Ha. revert Ha.
  unfold circ_buf_adjust_write_ptr, amount. pose proof (zlen_nonneg d).
  destruct Hwf as [? [? ?] ? ? ? ?].
  destruct (0 <? zlen d) eqn:E; simpl; repeat case_goal; blia.
Qed.

Lemma write_chunk_contents : contents c' = contents c ++ d.
Proof.
  pose proof write_chunk_wf as Hwf'. pose proof write_chunk_amount as Ha.
  destruct write_chunk_room as (Ho & Hl & Hs). pose proof (zlen_nonneg d).
  apply zext; rewrite ?zlen_app, !zlen_contents, Ha by done; [done|]. intros i Hi.
  rewrite znth_contents, znth_app, zlen_contents by (done || lia).
  assert (Hpos : ring_pos c' i = ring_pos c i).
  { subst c'. unfold ring_pos, circ_buf_adjust_write_ptr. destruct (0 <? zlen d); done. }
  assert (Hmem : mem c' = blit (write c - buf c) d (mem c)).
  { subst c'. unfold circ_buf_adjust_write_ptr. destruct (0 <? zlen d); done. }
  assert (Hp : 0 <= ring_pos c i).
  { unfold ring_pos. destruct Hwf as [? [? ?] ? ? ? ?]. case_goal; blia. }
  rewrite Hpos, Hmem, znth_blit by done. clear Hpos Hmem Hp Hwf' Ha.
  pose proof Hd as Hd'. rewrite write_size_spec in Hd' by done.
  destruct (i <? amount c) eqn:E1.
  - rewrite znth_contents by blia. destruct (_ && _) eqn:E2; [|done]. exfalso.
    revert Hi E1 E2 Hd'. unfold ring_pos, amount. destruct Hwf as [? [? ?] ? ? ? ?].
    repeat case_goal; intros; blia.
  - destruct (_ && _) eqn:E2.
    + f_equal. revert Hi E1 E2 Hd'. unfold ring_pos, amount.
      destruct Hwf as [? [? ?] ? ? ? ?]. repeat case_goal; intros; blia.
    + exfalso. apply andb_false_iff in E2. rewrite Z.leb_gt, Z.ltb_ge in E2.
      revert Hi E1 E2 Hd'. unfold ring_pos, amount. destruct Hwf as [? [? ?] ? ? ? ?].
      repeat case_goal; intros; blia.
Qed.
End write_chunk.

(** Bytes stored in the free space but not yet claimed are not seen. *)
Lemma mem_write_free c d :
  circ_wf c -> zlen d <= circ_buf_get_write_size c ->
  contents (mem_write c (write c) d) = contents c.
Proof.
  intros Hwf Hd. pose proof (write_chunk_contents c d Hwf Hd) as Hc.
  pose proof (write_chunk_amount c d Hwf Hd) as Ha. pose proof (zlen_nonneg d).
  pose proof (amount_range c Hwf).
  transitivity (ztake (amount c) (contents c ++ d)).
  2: { rewrite ztake_app_le by (rewrite zlen_contents; done || lia).
       apply ztake_all. rewrite zlen_contents; done || lia. }
  rewrite <- Hc. apply zext.
  { rewrite zlen_ztake. unfold contents at 1 2. rewrite !zlen_ztab, Ha.
    change (amount (mem_write c (write c) d)) with (amount c). lia. }
  unfold contents at 1. rewrite zlen_ztab.
  change (amount (mem_write c (write c) d)) with (amount c). intros i Hi.
  rewrite znth_ztake by lia. rewrite (znth_contents (mem_write c (write c) d)) by
    (change (amount (mem_write c (write c) d)) with (amount c); lia).
  rewrite znth_contents by lia.
  unfold circ_buf_adjust_write_ptr. by case_goal.
Qed.

(** Advancing the read pointer by [k] drops the [k] oldest bytes. *)
Section read_chunk.
Context (c : circ_buf) (k : Z).
Hypothesis Hwf : circ_wf c.
Hypothesis Hk : 0 <= k <= amount c.
Let c' := circ_buf_adjust_read_ptr c k.

Lemma read_chunk_wf : circ_wf c'.
Proof.
  subst c'. unfold circ_buf_adjust_read_ptr. pose proof (amount_range c Hwf).
  destruct Hwf as [? [? ?] ? ? ? ?]. case_goal; [|by split].
  split; simpl; auto. repeat case_goal; blia.
Qed.

Lemma read_chunk_amount : amount c' = amount c - k.
Proof.
  subst c'. pose proof (amount_range c Hwf) as Ha. revert Ha Hk.
  unfold circ_buf_adjust_read_ptr, amount. destruct Hwf as [? [? ?] ? ? ? ?].
  destruct (0 <? k) eqn:E; simpl; repeat case_goal; blia.
Qed.

Lemma read_chunk_contents : contents c' = zdrop k (contents c).
Proof.
  pose proof read_chunk_wf as Hwf'. pose proof read_chunk_amount as Ha.
  apply zext; rewrite ?zlen_zdrop, !zlen_contents, Ha by done; [lia|]. intros i Hi.
  rewrite znth_zdrop by lia. rewrite !znth_contents by lia.
  assert (Hm : mem c' = mem c).
  { subst c'. unfold circ_buf_adjust_read_ptr. by case_goal. }
  rewrite Hm. f_equal. subst c'. unfold circ_buf_adjust_read_ptr, ring_pos.
  pose proof (amount_range c Hwf). destruct Hwf as [? [? ?] ? ? ? ?].
  destruct (0 <? k) eqn:E; simpl; repeat case_goal; blia.
Qed.

Lemma read_chunk_bytes :
  k <= circ_buf_get_read_size c -> mem_read c (read c) k = ztake k (contents c).
Proof.
  rewrite read_size_spec by done. intros Hs. unfold mem_read.
  pose proof (amount_range c Hwf) as Ha.
  assert (Hr : read c - buf c + k <= size c).
  { revert Hs. unfold amount in *. destruct Hwf as [? [? ?] ? ? ? ?].
    repeat case_goal; blia. }
  destruct Hwf as [? [? ?] ? ? ? ?].
  apply zext; rewrite !zlen_ztake, ?zlen_zdrop, ?zlen_contents by done; [lia|]. intros i Hi.
  rewrite !znth_ztake, znth_zdrop, znth_contents by lia.
  f_equal. unfold ring_pos. case_goal; blia.
Qed.
End read_chunk.

(** The contiguous part is not more than there is, and when it is all there is
    the rest is empty. *)
Lemma read_size_le c : circ_wf c -> 0 <= circ_buf_get_read_size c <= amount c.
Proof.
  intros Hwf. rewrite read_size_spec by done. pose proof (amount_range c Hwf) as Ha.
  revert Ha. unfold amount. destruct Hwf as [? [? ?] ? ? ? ?]. repeat case_goal; blia.
Qed.

Lemma read_size_0 c : circ_wf c -> circ_buf_get_read_size c = 0 <-> amount c = 0.
Proof.
  intros Hwf. rewrite read_size_spec by done. pose proof (amount_range c Hwf) as Ha.
  revert Ha. unfold amount. destruct Hwf as [? [? ?] ? ? ? ?]. repeat case_goal; blia.
Qed.

Lemma write_size_le c : circ_wf c -> 0 <= circ_buf_get_write_size c <= size c - amount c.
Proof.
  intros Hwf. rewrite write_size_spec by done. pose proof (amount_range c Hwf) as Ha.
  revert Ha. unfold amount. destruct Hwf as [? [? ?] ? ? ? ?]. repeat case_goal; blia.
Qed.

Lemma write_size_0 c : circ_wf c -> circ_buf_get_write_size c = 0 <-> amount c = size c.
Proof.
  intros Hwf. rewrite write_size_spec by done. pose proof (amount_range c Hwf) as Ha.
  revert Ha. unfold amount. destruct Hwf as [? [? ?] ? ? ? ?]. repeat case_goal; blia.
Qed.

(** How many more chunks a write, or a read, needs: the recursion is at most
    three deep. *)
Definition wdepth (c : circ_buf) : nat :=
  if circ_buf_get_write_size c =? 0 then 1
  else if circ_buf_get_write_size c =? size c - amount c then 2 else 3.
Definition rdepth (c : circ_buf) : nat :=
  if circ_buf_get_read_size c =? 0 then 1
  else if circ_buf_get_read_size c =? amount c then 2 else 3.

Lemma wdepth_chunk c d :
  circ_wf c -> zlen d = circ_buf_get_write_size c -> zlen d <> 0 ->
  (wdepth (circ_buf_adjust_write_ptr (mem_write c (write c) d) (zlen d)) < wdepth c)%nat.
Proof.
  intros Hwf Hd Hd0.
  pose proof (write_chunk_wf c d Hwf ltac:(lia)) as Hwf'.
  pose proof (write_chunk_amount c d Hwf ltac:(lia)) as Ha.
  pose proof (write_size_le _ Hwf') as Hle'. pose proof (write_size_0 _ Hwf') as H0'.
  set (c' := circ_buf_adjust_write_ptr _ _) in *.
  assert (Hs' : size c' = size c).
  { subst c'. unfold circ_buf_adjust_write_ptr. by case_goal. }
  unfold wdepth. rewrite <- Hd, Hs'. replace (zlen d =? 0) with false by lia.
  destruct (zlen d =? size c - amount c) eqn:E1; bool_hyps.
  { replace (circ_buf_get_write_size c' =? 0) with true by lia. lia. }
  assert (Hmain : circ_buf_get_write_size c' = size c - amount c').
  { assert (Hb : buf c' = buf c /\ read c' = read c).
    { subst c'. unfold circ_buf_adjust_write_ptr. by case_goal. }
    destruct Hb as [Hb Hr]. rewrite write_size_spec by done. rewrite Ha.
    assert (Hw : write c' = if (buf c + size c <=? write c + zlen d) then write c + zlen d - size c
                            else write c + zlen d).
    { subst c'. unfold circ_buf_adjust_write_ptr. destruct Hwf. pose proof (zlen_nonneg d).
      replace (0 <? zlen d) with true by lia. simpl.
      replace (write c + zlen d <? buf c) with false by lia. by rewrite orb_false_r. }
    rewrite Hb, Hr, Hs', Hw. revert Hd E1. rewrite write_size_spec by done.
    unfold amount. destruct Hwf as [? [? ?] ? ? ? ?]. repeat case_goal; blia. }
  destruct (circ_buf_get_write_size c' =? 0); [lia|].
  replace (circ_buf_get_write_size c' =? size c - amount c') with true by lia. lia.
Qed.

Lemma rdepth_chunk c :
  circ_wf c -> circ_buf_get_read_size c <> 0 ->
  (rdepth (circ_buf_adjust_read_ptr c (circ_buf_get_read_size c)) < rdepth c)%nat.
Proof.
  intros Hwf H0. pose proof (read_size_le _ Hwf) as Hle.
  set (k := circ_buf_get_read_size c) in *.
  pose proof (read_chunk_wf c k Hwf ltac:(lia)) as Hwf'.
  pose proof (read_chunk_amount c k Hwf ltac:(lia)) as Ha.
  pose proof (read_size_0 _ Hwf') as H0'.
  unfold rdepth. fold k. replace (k =? 0) with false by lia.
  destruct (k =? amount c) eqn:E1; bool_hyps.
  { replace (circ_buf_get_read_size (circ_buf_adjust_read_ptr c k) =? 0) with true by lia. lia. }
  assert (Hmain : circ_buf_get_read_size (circ_buf_adjust_read_ptr c k) = amount c - k).
  { rewrite read_size_spec, Ha by done. subst k. revert H0 E1. rewrite read_size_spec by done.
    unfold amount, circ_buf_adjust_read_ptr. destruct Hwf as [? [? ?] ? ? ? ?].
    repeat case_goal; simpl in *; repeat case_goal; blia. }
  destruct (_ =? 0); [lia|]. rewrite Hmain, Ha, Z.eqb_refl. lia.
Qed.

Lemma wdepth_le_3 c : (wdepth c <= 3)%nat.
Proof. unfold wdepth. repeat case_goal; lia. Qed.
Lemma rdepth_le_3 c : (rdepth c <= 3)%nat.
Proof. unfold rdepth. repeat case_goal; lia. Qed.
Lemma wdepth_pos c : (1 <= wdepth c)%nat.
Proof. unfold wdepth. repeat case_goal; lia. Qed.
Lemma rdepth_pos c : (1 <= rdepth c)%nat.
Proof. unfold rdepth. repeat case_goal; lia. Qed.

Lemma write_refines fuel c d count :
  circ_wf c -> (wdepth c <= fuel)%nat -> 0 <= count <= zlen d -> count < 2 ^ 31 ->
  exists c', circ_buf_write fuel c d count = Some (Z.min count (size c - amount c), c') /\
    circ_wf c' /\ buf c' = buf c /\ size c' = size c /\
    contents c' = contents c ++ ztake (size c - amount c) (ztake count d).
Proof.
  revert c d count. induction fuel as [|fuel IH]; intros c d count Hwf Hf Hc Hmax.
  { pose proof (wdepth_pos c). lia. }
  simpl. pose proof (write_size_le _ Hwf) as Hle. pose proof (write_size_0 _ Hwf) as H0.
  pose proof (amount_range _ Hwf) as Ham.
  destruct (circ_buf_get_write_size c =? 0) eqn:E; bool_hyps; simpl.
  { exists c. rewrite Z.min_r, (ztake_0 (size c - amount c)), app_nil_r by lia.
    split_and!; auto. do 2 f_equal. lia. }
  unfold circ_buf_get_write_addr.
  destruct (count <? circ_buf_get_write_size c) eqn:E2; bool_hyps.
  - assert (Hz : zlen (ztake count d) = count) by (rewrite zlen_ztake; lia).
    set (d' := ztake count d) in *.
    assert (Hd' : zlen d' <= circ_buf_get_write_size c) by lia.
    pose proof (write_chunk_wf c d' Hwf Hd') as Hwf'.
    pose proof (write_chunk_contents c d' Hwf Hd') as Hc'. rewrite Hz in Hwf', Hc'.
    eexists. rewrite Z.min_l by lia. split; [done|]. split; [done|].
    split; [unfold circ_buf_adjust_write_ptr; by case_goal|].
    split; [unfold circ_buf_adjust_write_ptr; by case_goal|].
    rewrite Hc'. by rewrite ztake_all by lia.
  - set (wrs := circ_buf_get_write_size c) in *.
    assert (Hz : zlen (ztake wrs d) = wrs) by (rewrite zlen_ztake; lia).
    set (d' := ztake wrs d) in *.
    assert (Hd' : zlen d' <= circ_buf_get_write_size c) by (fold wrs; lia).
    pose proof (write_chunk_wf c d' Hwf Hd') as Hwf'.
    pose proof (write_chunk_amount c d' Hwf Hd') as Ha'.
    pose proof (write_chunk_contents c d' Hwf Hd') as Hc'.
    pose proof (wdepth_chunk c d' Hwf ltac:(fold wrs; lia) ltac:(lia)) as Hdep.
    rewrite Hz in *. set (c1 := circ_buf_adjust_write_ptr _ wrs) in *.
    assert (Hsz : size c1 = size c /\ buf c1 = buf c).
    { subst c1. unfold circ_buf_adjust_write_ptr. by case_goal. }
    destruct Hsz as [Hsz Hbuf].
    rewrite u32_id by lia.
    destruct (IH c1 (zdrop wrs d) (count - wrs)) as (c' & -> & Hw & Hb & Hs & Hcont); auto;
      [lia|rewrite zlen_zdrop; lia|lia|].
    exists c'. simpl. rewrite Hsz, Ha'. destruct Hwf as [? [? ?] ? ? ? ?].
    split; [rewrite s32_id by lia; do 2 f_equal; lia|]. split; [done|].
    split; [congruence|]. split; [congruence|].
    rewrite Hcont, Hc', Hsz, Ha', <- app_assoc. f_equal. subst d'.
    unfold ztake, zdrop in *. rewrite !take_take.
    rewrite <- (take_drop (Z.to_nat wrs) d) at 3. rewrite take_app.
    rewrite take_take, length_take. unfold zlen in *. f_equal; f_equal; lia.
Qed.

Lemma read_refines fuel c count :
  circ_wf c -> (rdepth c <= fuel)%nat -> 0 <= count < 2 ^ 32 ->
  exists c', circ_buf_read fuel c count =
      Some (Z.min count (amount c), ztake count (contents c), c') /\
    circ_wf c' /\ buf c' = buf c /\ size c' = size c /\ write c' = write c /\ mem c' = mem c /\
    contents c' = zdrop count (contents c).
Proof.
  revert c count. induction fuel as [|fuel IH]; intros c count Hwf Hf Hc.
  { pose proof (rdepth_pos c). lia. }
  simpl. rewrite count_spec by done. pose proof (read_size_le _ Hwf) as Hle.
  pose proof (read_size_0 _ Hwf) as H0. pose proof (zlen_contents _ Hwf) as Hlen.
  set (n := if amount c <? count then amount c else count).
  assert (Hn : n = Z.min count (amount c)) by (subst n; case_goal; blia).
  assert (Htake : ztake count (contents c) = ztake n (contents c)).
  { unfold ztake. rewrite <- (firstn_all (contents c)) at 1. rewrite take_take. f_equal.
    unfold zlen in Hlen. lia. }
  assert (Hdrop : zdrop count (contents c) = zdrop n (contents c)).
  { destruct (Z_le_dec count (amount c)); [f_equal; lia|].
    rewrite !zdrop_all by lia. done. }
  rewrite Htake, Hdrop, <- Hn. pose proof (amount_range _ Hwf). clearbody n.
  destruct (circ_buf_get_read_size c =? 0) eqn:E; bool_hyps; simpl.
  { exists c. replace n with 0 by lia. done. }
  unfold circ_buf_get_read_addr.
  assert (Hsame : forall k, let c' := circ_buf_adjust_read_ptr c k in
     buf c' = buf c /\ size c' = size c /\ write c' = write c /\ mem c' = mem c).
  { intros k. unfold circ_buf_adjust_read_ptr. by case_goal. }
  destruct (n <? circ_buf_get_read_size c) eqn:E2; bool_hyps.
  - exists (circ_buf_adjust_read_ptr c n). rewrite read_chunk_bytes by (done || lia).
    destruct (Hsame n) as (? & ? & ? & ?). split_and!; auto.
    + apply read_chunk_wf; [done|lia].
    + apply read_chunk_contents; [done|lia].
  - set (rs := circ_buf_get_read_size c) in *.
    pose proof (read_chunk_wf c rs Hwf ltac:(lia)) as Hwf'.
    pose proof (read_chunk_amount c rs Hwf ltac:(lia)) as Ha'.
    pose proof (read_chunk_contents c rs Hwf ltac:(lia)) as Hc'.
    pose proof (rdepth_chunk c Hwf ltac:(fold rs; lia)) as Hdep. fold rs in Hdep.
    destruct (Hsame rs) as (? & ? & ? & ?).
    rewrite read_chunk_bytes by (done || fold rs; lia).
    set (c1 := circ_buf_adjust_read_ptr c rs) in *.
    destruct Hwf as [? [? ?] ? ? ? ?]. rewrite u32_id by lia.
    destruct (IH c1 (n - rs)) as (c' & -> & Hw & Hb & Hs & Hwr & Hm & Hcont); auto; [lia|lia|].
    exists c'. simpl. rewrite Ha', s32_id by lia.
    rewrite Hcont, Hc'. split; [|split_and!; auto; try congruence].
    + do 2 f_equal; [f_equal; [lia|]]. unfold ztake, zdrop.
      rewrite <- (take_drop (Z.to_nat rs) (take (Z.to_nat n) (contents c))), take_take.
      rewrite skipn_firstn_comm. f_equal; [f_equal; lia|f_equal; lia].
    + rewrite zdrop_zdrop by lia. f_equal. lia.
Qed.

Lemma look_at_refines c count offset :
  circ_wf c -> 0 <= count < 2 ^ 32 -> 0 <= offset <= amount c ->
  circ_buf_look_at 3 c count offset =
  Some (Z.min count (amount c - offset), ztake count (zdrop offset (contents c)), c).
Proof.
  intros Hwf Hc Ho. unfold circ_buf_look_at.
  pose proof (amount_range _ Hwf) as Ha. pose proof (cw_size _ Hwf) as Hs.
  rewrite u32_id by lia.
  destruct (read_refines 3 (circ_buf_adjust_read_ptr c offset) count)
    as (c' & -> & _ & Hb & Hsz & Hw & Hm & _); auto using rdepth_le_3.
  { by apply read_chunk_wf. }
  simpl. rewrite Hb, Hsz, Hw, Hm. rewrite read_chunk_amount, read_chunk_contents by done.
  unfold circ_buf_adjust_read_ptr. destruct c. by case_goal.
Qed.

(** ** The abstract queue

    A bounded queue of bytes, and the operations the proxyfs files perform on
    their buffers.  An operation gives the value returned and the bytes
    delivered; [None] marks a call outside the documented contract. *)
Inductive buf_op :=
| OpWrite (d : list Z)
| OpRead (count : Z)
| OpLookAt (count offset : Z)
| OpSkip (count : Z).

Definition queue_op (cap : Z) (q : list Z) (o : buf_op) : option (Z * list Z * list Z) :=
  match o with
  | OpWrite d =>
      if zlen d <? 2 ^ 31 then
        let n := Z.min (zlen d) (cap - zlen q) in Some (n, [], q ++ ztake n d)
      else None
  | OpRead count =>
      if (0 <=? count) && (count <? 2 ^ 32) then
        Some (Z.min count (zlen q), ztake count q, zdrop count q)
      else None
  | OpLookAt count offset =>
      if (0 <=? count) && (count <? 2 ^ 32) && (0 <=? offset) && (offset <=? zlen q) then
        Some (Z.min count (zlen q - offset), ztake count (zdrop offset q), q)
      else None
  | OpSkip count =>
      if (0 <=? count) && (count <=? zlen q) then Some (count, [], zdrop count q) else None
  end.

Definition circ_op (c : circ_buf) (o : buf_op) : option (Z * list Z * circ_buf) :=
  match o with
  | OpWrite d => r ← circ_buf_write 3 c d (zlen d); Some (r.1, [], r.2)
  | OpRead count => circ_buf_read 3 c count
  | OpLookAt count offset => circ_buf_look_at 3 c count offset
  | OpSkip count => Some (count, [], circ_buf_adjust_read_ptr c count)
  end.

Fixpoint run {St} (step : St -> buf_op -> option (Z * list Z * St)) (s : St) (os : list buf_op)
    : option (list (Z * list Z) * St) :=
  match os with
  | [] => Some ([], s)
  | o :: os =>
      '(n, d, s') ← step s o;
      '(outs, s'') ← run step s' os;
      Some ((n, d) :: outs, s'')
  end.

Lemma circ_op_simulates c o n d q :
  circ_wf c -> queue_op (size c) (contents c) o = Some (n, d, q) ->
  exists c', circ_op c o = Some (n, d, c') /\ circ_wf c' /\ size c' = size c /\ contents c' = q.
Proof.
  intros Hwf. pose proof (zlen_contents c Hwf) as Hl. destruct o; cbn [circ_op queue_op]; rewrite ?Hl.
  - case_goal; [|done]. bool_hyps. intros [= <- <- <-].
    destruct (write_refines 3 c d0 (zlen d0)) as (c' & -> & Hwf' & _ & Hs & Hc);
      auto using wdepth_le_3; [zlen_lia|].
    exists c'. simpl. split_and!; auto. rewrite Hc. f_equal.
    rewrite (ztake_all (zlen d0)) by lia. unfold ztake.
    destruct (Z_le_dec (zlen d0) (size c - amount c)).
    + rewrite !take_ge; unfold zlen in *; try done; lia.
    + f_equal. lia.
  - case_goal; [|done]. bool_hyps. intros [= <- <- <-].
    destruct (read_refines 3 c count) as (c' & -> & Hwf' & _ & Hs & _ & _ & Hc);
      auto using rdepth_le_3. by exists c'.
  - case_goal; [|done]. bool_hyps. intros [= <- <- <-].
    rewrite look_at_refines by (done || lia). by exists c.
  - case_goal; [|done]. bool_hyps. intros [= <- <- <-].
    eexists. split; [done|]. split; [by apply read_chunk_wf|]. split.
    + unfold circ_buf_adjust_read_ptr. by case_goal.
    + by apply read_chunk_contents.
Qed.

(** C3: Every sequence of writes, reads, peeks and skips on a circular buffer
    behaves as on a bounded queue of bytes: the same counts are returned, the
    same bytes are delivered in the same order, the memory is never written
    outside the block, and three levels of recursion always suffice. *)
Theorem circ_buf_refines_queue c os outs q :
  circ_wf c -> run (queue_op (size c)) (contents c) os = Some (outs, q) ->
  exists c', run circ_op c os = Some (outs, c') /\ circ_wf c' /\ size c' = size c /\
    contents c' = q.
Proof.
  revert c outs. induction os as [|o os IH]; intros c outs Hwf; simpl.
  { intros [= <- <-]. by exists c. }
  intros H. apply bind_Some in H as ([[n d] q1] & H1 & H).
  apply bind_Some in H as ([outs' q2] & H2 & H). simplify_eq/=.
  destruct (circ_op_simulates c o n d q1 Hwf H1) as (c1 & -> & Hwf1 & Hs & Hc). simpl.
  rewrite <- Hc, <- Hs in H2. destruct (IH c1 outs' Hwf1 H2) as (c' & -> & ? & ? & ?).
  exists c'. simpl. split_and!; auto. congruence.
Qed.

(** A buffer made by [circ_buf_init] is well-formed and empty. *)
Lemma circ_init_wf c0 addr garbage sz :
  0 < addr -> 0 < sz < 2 ^ 31 -> zlen garbage = sz ->
  let c := (circ_buf_init c0 addr garbage sz).2 in circ_wf c /\ contents c = [].
Proof.
  intros ??? c. subst c. unfold circ_buf_init. replace (addr =? 0) with false by lia. simpl. split.
  - split; simpl; auto; lia.
  - unfold contents, amount. simpl. rewrite Z.ltb_irrefl. done.
Qed.

Lemma write_user_agrees fuel c d count :
  circ_wf c -> 0 <= count < 2 ^ 31 -> count <= zlen d ->
  circ_buf_write_user fuel c d count = circ_buf_write fuel c d count.
Proof.
  revert c d count. induction fuel as [|fuel IH]; intros c d count Hwf Hc Hd; simpl; [done|].
  pose proof (write_size_le _ Hwf) as Hle. unfold __copy_from_user.
  destruct (circ_buf_get_write_size c =? 0) eqn:E; [done|]. bool_hyps. cbn [negb].
  destruct (count <? circ_buf_get_write_size c) eqn:E1; bool_hyps.
  + replace (count <=? zlen d) with true by lia. done.
  + set (wrs := circ_buf_get_write_size c) in *.
    assert (Hz : zlen (ztake wrs d) = wrs) by (rewrite zlen_ztake; lia).
    replace (wrs <=? zlen d) with true by lia. cbn [negb Z.eqb].
    rewrite u32_id by lia. rewrite IH; auto; [|lia|rewrite zlen_zdrop; lia].
    pose proof (write_chunk_wf c (ztake wrs d) Hwf) as Hw. rewrite Hz in Hw.
    apply Hw. fold wrs. lia.
Qed.

Lemma read_user_agrees fuel c count lim :
  circ_wf c -> 0 <= count < 2 ^ 31 -> count <= lim ->
  circ_buf_read_user fuel c lim count = circ_buf_read fuel c count.
Proof.
  revert c count lim. induction fuel as [|fuel IH]; intros c count lim Hwf Hc Hl; simpl; [done|].
  pose proof (read_size_le _ Hwf) as Hle. rewrite count_spec by done.
  pose proof (amount_range _ Hwf). unfold __copy_to_user, circ_buf_get_read_addr.
  set (n := if amount c <? count then amount c else count).
  assert (Hn : 0 <= n <= count /\ n <= amount c) by (subst n; case_goal; blia). clearbody n.
  destruct (circ_buf_get_read_size c =? 0) eqn:E; [done|]. bool_hyps. cbn [negb].
  destruct (n <? circ_buf_get_read_size c) eqn:E1; bool_hyps;
    rewrite read_chunk_bytes by (done || lia); rewrite zlen_ztake, zlen_contents by done.
  + replace (_ <=? lim) with true by lia. done.
  + set (rs := circ_buf_get_read_size c) in *. replace (_ <=? lim) with true by lia.
    cbn [negb Z.eqb]. rewrite u32_id by lia. rewrite IH; auto; [|lia|lia].
    apply read_chunk_wf; [done|lia].
Qed.

(** When the source faults inside the second chunk of a user write, the bytes
    of the first chunk stay in the buffer, yet the returned number is that count
    minus [EFAULT]: neither the bytes stored nor an error code (the recursive
    call's error is added to the chunk's length). *)
Theorem write_user_second_chunk_fault c d count :
  circ_wf c -> count < 2 ^ 31 ->
  0 < circ_buf_get_write_size c <= zlen d ->
  zlen d < count -> zlen d < size c - amount c ->
  let wrs := circ_buf_get_write_size c in
  exists c', circ_buf_write_user 3 c d count = Some (wrs - EFAULT, c') /\
    contents c' = contents c ++ ztake wrs d.
Proof.
  intros Hwf Hmax Hw Hd Hf wrs. subst wrs.
  set (wrs := circ_buf_get_write_size c) in *.
  assert (Hz : zlen (ztake wrs d) = wrs) by (rewrite zlen_ztake; lia).
  pose proof (write_chunk_wf c (ztake wrs d) Hwf ltac:(fold wrs; lia)) as Hwf'.
  pose proof (write_chunk_amount c (ztake wrs d) Hwf ltac:(fold wrs; lia)) as Ha'.
  pose proof (write_chunk_contents c (ztake wrs d) Hwf ltac:(fold wrs; lia)) as Hc'.
  pose proof (wdepth_chunk c (ztake wrs d) Hwf ltac:(fold wrs; lia) ltac:(lia)) as Hdep.
  rewrite Hz in *. set (c1 := circ_buf_adjust_write_ptr _ wrs) in *.
  assert (Hs1 : size c1 = size c) by (subst c1; unfold circ_buf_adjust_write_ptr; by case_goal).
  assert (Hfree : circ_buf_get_write_size c1 = size c - amount c - wrs).
  { pose proof (write_size_0 _ Hwf') as H0. pose proof (wdepth_le_3 c). unfold wdepth in Hdep.
    fold wrs in Hdep. replace (wrs =? 0) with false in Hdep by lia.
    replace (wrs =? size c - amount c) with false in Hdep by lia.
    destruct (circ_buf_get_write_size c1 =? 0) eqn:E; bool_hyps; [lia|].
    destruct (circ_buf_get_write_size c1 =? size c1 - amount c1) eqn:E1; blia. }
  pose proof (cw_size _ Hwf) as Hsz. pose proof (amount_range _ Hwf) as Ham.
  remember 2%nat as fuel eqn:Hfuel.
  cbn [circ_buf_write_user]. fold wrs.
  replace (wrs =? 0) with false by lia. cbn [negb].
  replace (count <? wrs) with false by lia.
  unfold __copy_from_user at 1. replace (wrs <=? zlen d) with true by lia. cbn [negb Z.eqb].
  unfold circ_buf_get_write_addr. fold c1. subst fuel. cbn [circ_buf_write_user].
  rewrite Hfree. replace (size c - amount c - wrs =? 0) with false by lia. cbn [negb].
  rewrite u32_id by lia. unfold __copy_from_user.
  rewrite zlen_zdrop, (Z.max_r 0 wrs), Z.max_r by lia.
  assert (Hret : forall b, s32[wrs + - EFAULT] = wrs - EFAULT /\
    (zlen b <= size c - amount c - wrs ->
     contents (mem_write c1 (write c1) b) = contents c ++ ztake wrs d)).
  { intros b. split; [apply swrap_id; [lia|]; unfold srange, EFAULT; lia|].
    intros Hb. rewrite mem_write_free; [done|done|lia]. }
  destruct (count - wrs <? size c - amount c - wrs) eqn:E; bool_hyps;
    replace (_ <=? zlen d - wrs) with false by lia;
    replace (_ - (zlen d - wrs) =? 0) with false by lia; cbn [negb mbind option_bind fst snd];
    edestruct Hret as [-> Hcont]; (eexists; split; [reflexivity|]); apply Hcont;
    rewrite zlen_app, zlen_zdrop, zlen_replicate; lia.
Qed.

(** *** Witnesses *)

(** An 8-byte buffer at address 1000 that holds three bytes around the end. *)
Definition ex_circ : circ_buf := mk_circ 1000 1001 1006 0 8 [3; 0; 0; 0; 0; 0; 1; 2].

Lemma ex_circ_wf : circ_wf ex_circ.
Proof. split; simpl; auto; lia. Qed.

Lemma circ_buf_refines_queue_witness :
  exists c', run circ_op ex_circ [OpWrite [4; 5; 6; 7; 8; 9]; OpLookAt 2 1; OpRead 4; OpSkip 1] =
      Some ([(5, []); (2, [2; 3]); (4, [1; 2; 3; 4]); (1, [])], c') /\ contents c' = [6; 7; 8].
Proof.
  destruct (circ_buf_refines_queue ex_circ
    [OpWrite [4; 5; 6; 7; 8; 9]; OpLookAt 2 1; OpRead 4; OpSkip 1]
    [(5, []); (2, [2; 3]); (4, [1; 2; 3; 4]); (1, [])] [6; 7; 8] ex_circ_wf)
    as (c' & ? & _ & _ & ?); [vm_compute; reflexivity|]. exists c'. split; assumption.
Defined.

Definition ex_circ2 : circ_buf := mk_circ 1000 1006 1006 0 8 [0; 0; 0; 0; 0; 0; 0; 0].

Lemma ex_circ2_wf : circ_wf ex_circ2.
Proof. split; simpl; auto; lia. Qed.

Lemma write_user_second_chunk_fault_witness :
  exists c', circ_buf_write_user 3 ex_circ2 [1; 2; 3] 5 = Some (-12, c') /\ contents c' = [1; 2].
Proof.
  destruct (write_user_second_chunk_fault ex_circ2 [1; 2; 3] 5 ex_circ2_wf) as (c' & H1 & H2);
    [lia|by vm_compute|by vm_compute|by vm_compute|].
  exists c'. split; [exact H1|exact H2].
Defined.
