(* ===== verification/Transaction.v ===== *)
(** Transactions (src/src/tcmi/comm/tcmi_transaction.h, tcmi_transaction.c):
    the state machine that pairs a request with its response, with a timeout.

    Transactions live in a heap indexed by address; the same address is their
    node in the slot vector.  An operation returns [None] when it would touch
    freed memory or spin on the vector lock.  The handlers are atomic with
    respect to each other, as [t_lock] and [del_timer_sync] make them: the
    expiry of a timer is one more operation that may come at any moment. *)

From stdpp Require Import gmap.
From S2P Require Import Prelude SlotVec.

Inductive tcmi_trans_state :=
| TCMI_TRANSACTION_INIT
| TCMI_TRANSACTION_RUNNING
| TCMI_TRANSACTION_COMPLETE
| TCMI_TRANSACTION_ABORTED.

Global Instance tcmi_trans_state_eq_dec : EqDecision tcmi_trans_state.
Proof. solve_decision. Defined.

Definition TCMI_TRANSACTION_INVAL_ID : Z := 0.
Definition TCMI_TRANS_FLAGS_ANONYMOUS : Z := 1.
Definition TCMI_TRANS_FLAGS_EXPIRED : Z := 2.

Record tcmi_transaction := mk_trans {
  slot : option nat;
  id : Z;
  resp_id : Z;
  state : tcmi_trans_state;
  flags : Z;
  wq_wakeups : Z;            (* [wake_up] calls on [wq] *)
  timer_pending : bool;      (* the timer is queued *)
  timer_expires : Z;
  context : option Z;        (* NULL or the address of the response *)
  t_ref : Z
}.

Definition with_state (s : tcmi_trans_state) (t : tcmi_transaction) : tcmi_transaction :=
  mk_trans (slot t) (id t) (resp_id t) s (flags t) (wq_wakeups t) (timer_pending t)
    (timer_expires t) (context t) (t_ref t).
Definition with_timer (b : bool) (e : Z) (t : tcmi_transaction) : tcmi_transaction :=
  mk_trans (slot t) (id t) (resp_id t) (state t) (flags t) (wq_wakeups t) b e (context t) (t_ref t).
Definition with_context (c : option Z) (t : tcmi_transaction) : tcmi_transaction :=
  mk_trans (slot t) (id t) (resp_id t) (state t) (flags t) (wq_wakeups t) (timer_pending t)
    (timer_expires t) c (t_ref t).
Definition with_ref (n : Z) (t : tcmi_transaction) : tcmi_transaction :=
  mk_trans (slot t) (id t) (resp_id t) (state t) (flags t) (wq_wakeups t) (timer_pending t)
    (timer_expires t) (context t) n.

(** ** Accessors and flag helpers *)

Definition tcmi_transaction_get (t : tcmi_transaction) : tcmi_transaction :=
  with_ref (t_ref t + 1) t.

Definition tcmi_transaction_set_flags (f : Z) (t : tcmi_transaction) : tcmi_transaction :=
  mk_trans (slot t) (id t) (resp_id t) (state t) (Z.lor (flags t) f) (wq_wakeups t)
    (timer_pending t) (timer_expires t) (context t) (t_ref t).

Definition tcmi_transaction_is_complete (t : tcmi_transaction) : bool :=
  bool_decide (state t = TCMI_TRANSACTION_COMPLETE).
Definition tcmi_transaction_is_aborted (t : tcmi_transaction) : bool :=
  bool_decide (state t = TCMI_TRANSACTION_ABORTED).
Definition tcmi_transaction_is_running (t : tcmi_transaction) : bool :=
  bool_decide (state t = TCMI_TRANSACTION_RUNNING).
Definition tcmi_transaction_is_anon (t : tcmi_transaction) : bool :=
  negb (Z.land (flags t) TCMI_TRANS_FLAGS_ANONYMOUS =? 0).
Definition tcmi_transaction_is_expired (t : tcmi_transaction) : bool :=
  negb (Z.land (flags t) TCMI_TRANS_FLAGS_EXPIRED =? 0).
Definition tcmi_transaction_set_expired (t : tcmi_transaction) : tcmi_transaction :=
  tcmi_transaction_set_flags TCMI_TRANS_FLAGS_EXPIRED t.

Definition tcmi_transaction_notify_owner (t : tcmi_transaction) : tcmi_transaction :=
  mk_trans (slot t) (id t) (resp_id t) (state t) (flags t) (wq_wakeups t + 1)
    (timer_pending t) (timer_expires t) (context t) (t_ref t).

(** [None]: the caller still sleeps. *)
Definition tcmi_transaction_wait (t : tcmi_transaction) : option tcmi_trans_state :=
  if tcmi_transaction_is_aborted t || tcmi_transaction_is_complete t
  then Some (state t) else None.

(** The interruptible variant: a signal ends the sleep with an error. *)
Definition tcmi_transaction_wait_interruptible (signal : option Z) (t : tcmi_transaction)
    : option (Z + tcmi_trans_state) :=
  if tcmi_transaction_is_aborted t || tcmi_transaction_is_complete t
  then Some (inr (state t)) else inl <$> signal.

Definition tcmi_transaction_hash (trans_id hashmask : Z) : Z :=
  Z.land (Z.lxor (Z.shiftr trans_id 16) trans_id) hashmask.

(** ** The table of transactions *)

Record world := mk_world {
  transactions : tcmi_slotvec;
  heap : gmap Z tcmi_transaction;
  jiffies : Z
}.

Definition upd (p : Z) (t : tcmi_transaction) (w : world) : world :=
  mk_world (transactions w) (<[p := t]> (heap w)) (jiffies w).

(** The draws of [get_random_bytes]; [None] when all the given ones are the
    invalid id. *)
Fixpoint tcmi_transaction_gen_id (rnd : list Z) : option Z :=
  match rnd with
  | [] => None
  | r :: rnd => if u32[r] =? TCMI_TRANSACTION_INVAL_ID then tcmi_transaction_gen_id rnd
                else Some u32[r]
  end.

(** [addr] is the result of [kmalloc] ([None] is NULL).  The inner option is the
    returned pointer. *)
Definition tcmi_transaction_new (addr : option Z) (rnd : list Z) (resp timeout : Z) (w : world)
    : option (option Z * world) :=
  match addr with
  | None => Some (None, w)
  | Some p =>
      new_id ← tcmi_transaction_gen_id rnd;
      mask ← hashmsk (transactions w);
      let hash := tcmi_transaction_hash new_id mask in
      '(sl, v) ← tcmi_slotvec_insert_at (transactions w) hash p;
      match sl with
      | None => Some (None, mk_world v (heap w) (jiffies w))
      | Some s =>
          let t := mk_trans (Some s) new_id resp TCMI_TRANSACTION_INIT 0 0 false timeout None 1 in
          Some (Some p, mk_world v (<[p := t]> (heap w)) (jiffies w))
      end
  end.

Definition tcmi_transaction_put (self : option Z) (w : world) : option world :=
  match self with
  | None => Some w
  | Some p =>
      t ← heap w !! p;
      v ← tcmi_slot_lock (transactions w);
      if t_ref t - 1 =? 0 then
        v' ← tcmi_slot_remove (slot t) p v;
        Some (mk_world (tcmi_slot_unlock v') (delete p (heap w)) (jiffies w))
      else
        Some (mk_world (tcmi_slot_unlock v) (<[p := with_ref (t_ref t - 1) t]> (heap w)) (jiffies w))
  end.

Definition tcmi_transaction_start (p fl : Z) (w : world) : option (Z * world) :=
  t ← heap w !! p;
  if bool_decide (state t <> TCMI_TRANSACTION_INIT) then Some (- EINVAL, w)
  else
    let t := tcmi_transaction_get t in
    let t := tcmi_transaction_set_flags fl t in
    let t := with_timer (timer_pending t) (u64[timer_expires t + jiffies w]) t in
    let t := with_state TCMI_TRANSACTION_RUNNING t in
    let t := with_timer true (timer_expires t) t in     (* add_timer *)
    Some (0, upd p t w).

(** [del_timer_sync] and dropping the expiry flag: common head of [abort] and
    [complete].  The flag tells whether the timer's reference is to be put. *)
Definition drop_timer (t : tcmi_transaction) : bool * tcmi_transaction :=
  let t := with_timer false (timer_expires t) t in
  if tcmi_transaction_is_expired t then (false, t) else (true, tcmi_transaction_set_expired t).

Definition tcmi_transaction_abort (p : Z) (w : world) : option (option Z * world) :=
  t ← heap w !! p;
  let '(put_needed, t) := drop_timer t in
  let t := if tcmi_transaction_is_complete t then t
           else tcmi_transaction_notify_owner (with_state TCMI_TRANSACTION_ABORTED t) in
  let w := upd p t w in
  if put_needed : bool then
    w ← tcmi_transaction_put (Some p) w; Some (None, w)
  else Some (context t, w).

Definition tcmi_transaction_complete (p : Z) (ctx : option Z) (resp : Z) (w : world)
    : option (Z * world) :=
  t ← heap w !! p;
  let '(put_needed, t) := drop_timer t in
  let '(err, t) :=
    if negb (tcmi_transaction_is_running t) then (- EINVAL, t)
    else if resp_id t =? resp
         then (0, tcmi_transaction_notify_owner
                    (with_context ctx (with_state TCMI_TRANSACTION_COMPLETE t)))
         else (- EINVAL, tcmi_transaction_notify_owner
                    (with_state TCMI_TRANSACTION_ABORTED t)) in
  let w := upd p t w in
  if put_needed : bool then
    w ← tcmi_transaction_put (Some p) w; Some (err, w)
  else Some (err, w).

(** The timer fires only while it is queued. *)
Definition tcmi_transaction_timer (p : Z) (w : world) : option world :=
  t ← heap w !! p;
  let t := with_timer false (timer_expires t) t in
  let t := with_state TCMI_TRANSACTION_ABORTED t in
  let t := tcmi_transaction_set_expired t in
  let t := tcmi_transaction_notify_owner t in
  tcmi_transaction_put (Some p) (upd p t w).

(** The iterator leaves [tran] at the last entry when no entry matches. *)
Fixpoint find_tran (h : gmap Z tcmi_transaction) (ns : list Z) (trans_id : Z) (tran : option Z)
    : option (option Z) :=
  match ns with
  | [] => Some tran
  | n :: ns =>
      t ← h !! n;
      if id t =? trans_id then Some (Some n) else find_tran h ns trans_id (Some n)
  end.

Definition tcmi_transaction_lookup (trans_id : Z) (w : world) : option (option Z * world) :=
  mask ← hashmsk (transactions w);
  let hash := tcmi_transaction_hash trans_id mask in
  v ← tcmi_slot_lock (transactions w);
  match tcmi_slotvec_at v hash with
  | None => Some (None, mk_world (tcmi_slot_unlock v) (heap w) (jiffies w))
  | Some sl =>
      tran ← find_tran (heap w) (items v sl) trans_id None;
      match tran with
      | None => Some (None, mk_world (tcmi_slot_unlock v) (heap w) (jiffies w))
      | Some p =>
          t ← heap w !! p;
          Some (Some p, mk_world (tcmi_slot_unlock v)
                          (<[p := tcmi_transaction_get t]> (heap w)) (jiffies w))
      end
  end.

(** ** Invariants *)

(** The table and the heap agree: the hash mask selects a slot of the vector, the
    linked nodes are exactly the allocated transactions, and every transaction
    hangs in the slot its id hashes to. *)
Record table_ok (w : world) : Prop := {
  tk_wf : slotvec_wf (transactions w);
  tk_lock : s_lock (transactions w) = false;
  tk_mask : hashmsk (transactions w) = Some (slot_count (transactions w) - 1);
  tk_size : exists k, 0 <= k < 32 /\ slot_count (transactions w) = 2 ^ k;
  tk_nodes : forall p, p ∈ nodes (transactions w) <-> is_Some (heap w !! p);
  tk_slot : forall p t, heap w !! p = Some t ->
    let s := Z.to_nat (tcmi_transaction_hash (id t) (slot_count (transactions w) - 1)) in
    0 <= id t /\ slot t = Some s /\ p ∈ items (transactions w) s /\
    (s < length (slots (transactions w)))%nat
}.

(** Who holds the references of a transaction: [n] threads, and the timer while
    it is queued.  It is queued exactly while the transaction runs, and the
    expiry flag is set exactly when it ran and is over. *)
Definition trans_ok (n : Z) (t : tcmi_transaction) : Prop :=
  0 <= n /\ 1 <= t_ref t /\ t_ref t = n + (if timer_pending t then 1 else 0) /\
  timer_pending t = bool_decide (state t = TCMI_TRANSACTION_RUNNING) /\
  tcmi_transaction_is_expired t =
    (tcmi_transaction_is_complete t || tcmi_transaction_is_aborted t).

Definition refs_ok (o : Z -> Z) (w : world) : Prop :=
  forall p, match heap w !! p with Some t => trans_ok (o p) t | None => o p = 0 end.

Definition add_ref (p n : Z) (o : Z -> Z) : Z -> Z :=
  fun q => if decide (q = p) then o p + n else o q.

(** ** Table lemmas *)

Lemma expired_set t : tcmi_transaction_is_expired (tcmi_transaction_set_expired t) = true.
Proof.
  unfold tcmi_transaction_is_expired, tcmi_transaction_set_expired. simpl.
  apply negb_true_iff, Z.eqb_neq. intros H.
  assert (Z.testbit (Z.land (Z.lor (flags t) TCMI_TRANS_FLAGS_EXPIRED)
            TCMI_TRANS_FLAGS_EXPIRED) 1 = true) as Hb.
  { rewrite Z.land_spec, Z.lor_spec. by rewrite orb_true_r. }
  rewrite H in Hb. done.
Qed.

Lemma expired_set_flags fl t :
  Z.land fl TCMI_TRANS_FLAGS_EXPIRED = 0 ->
  tcmi_transaction_is_expired (tcmi_transaction_set_flags fl t) = tcmi_transaction_is_expired t.
Proof.
  intros H. unfold tcmi_transaction_is_expired. simpl.
  rewrite Z.land_lor_distr_l, H, Z.lor_0_r. done.
Qed.

Lemma hash_range i n k :
  0 <= i -> 0 <= k -> n = 2 ^ k -> 0 <= tcmi_transaction_hash i (n - 1) < n.
Proof.
  intros Hi Hk ->. unfold tcmi_transaction_hash.
  replace (2 ^ k - 1) with (Z.ones k) by (rewrite Z.ones_equiv; lia).
  rewrite Z.land_ones by done. apply Z.mod_pos_bound. by apply Z.pow_pos_nonneg; lia.
Qed.

Lemma table_ok_heap w p t t' :
  table_ok w -> heap w !! p = Some t -> slot t' = slot t -> id t' = id t ->
  table_ok (upd p t' w).
Proof.
  intros [] Hp Hs Hi. split; simpl; auto.
  - intros q. rewrite tk_nodes0. destruct (decide (q = p)) as [->|].
    + rewrite Hp, lookup_insert_eq. naive_solver.
    + by rewrite lookup_insert_ne.
  - intros q u. destruct (decide (q = p)) as [->|].
    + rewrite lookup_insert_eq. intros [= <-]. rewrite Hs, Hi. eauto.
    + rewrite lookup_insert_ne by done. eauto.
Qed.

Lemma set_lock_id v : s_lock v = false -> set_lock false v = v.
Proof. destruct v. simpl. by intros ->. Qed.

(** Dropping one reference, and the last one. *)
Lemma put_spec w p t :
  table_ok w -> heap w !! p = Some t ->
  exists w', tcmi_transaction_put (Some p) w = Some w' /\ table_ok w' /\
    jiffies w' = jiffies w /\
    heap w' = if t_ref t - 1 =? 0 then delete p (heap w)
              else <[p := with_ref (t_ref t - 1) t]> (heap w).
Proof.
  intros Hok Hp. simpl. rewrite Hp. simpl. pose proof Hok as Hok'. destruct Hok'.
  unfold tcmi_slot_lock. rewrite tk_lock0. simpl.
  destruct (t_ref t - 1 =? 0).
  - destruct (tk_slot0 _ _ Hp) as (Hid & Hs & Hin & Hlt). rewrite Hs. simpl.
    eexists. split; [reflexivity|]. split; [|done].
    set (s := Z.to_nat _) in *.
    assert (Hwf : slotvec_wf (__tcmi_slot_remove s p (set_lock true (transactions w)))).
    { apply wf_remove_body; auto with clon. }
    assert (Hcnt : slot_count (__tcmi_slot_remove s p (set_lock true (transactions w)))
                   = slot_count (transactions w)).
    { unfold __tcmi_slot_remove. by case_goal. }
    split; simpl; rewrite ?Hcnt; auto.
    + by apply wf_set_lock.
    + unfold __tcmi_slot_remove. by case_goal.
    + intros q.
      change (nodes (tcmi_slot_unlock ?v)) with (nodes v).
      rewrite nodes_slot_remove, elem_of_list_del.
      change (nodes (set_lock true (transactions w))) with (nodes (transactions w)).
      rewrite tk_nodes0, lookup_delete_is_Some. naive_solver.
    + intros q u. rewrite lookup_delete_Some. intros [Hne Hq].
      destruct (tk_slot0 _ _ Hq) as (? & ? & Hqi & Hql). split_and!; auto.
      * unfold tcmi_slot_unlock. rewrite items_set_lock, items_slot_remove, elem_of_list_del. auto.
      * unfold __tcmi_slot_remove. case_goal; simpl; by rewrite length_fmap.
  - eexists. split; [reflexivity|]. split; [|done].
    unfold tcmi_slot_unlock. change (set_lock false (set_lock true ?v)) with (set_lock false v).
    rewrite set_lock_id by done.
    apply (table_ok_heap w p t (with_ref (t_ref t - 1) t) Hok Hp); done.
Qed.

Arguments tcmi_transaction_put : simpl never.
Arguments tcmi_transaction_new : simpl never.

(** A table in which no transaction was completed or aborted before its start: [o p] threads hold
    the transaction at [p]. *)
Definition tinv (s : world * (Z -> Z)) : Prop := table_ok s.1 /\ refs_ok s.2 s.1.

(** Changing one transaction, with its owners. *)
Lemma refs_ok_insert o o' w p t :
  refs_ok o w -> (forall q, q <> p -> o' q = o q) -> trans_ok (o' p) t ->
  forall v j, refs_ok o' (mk_world v (<[p := t]> (heap w)) j).
Proof.
  intros H Ho Ht v j q. simpl. destruct (decide (q = p)) as [->|Hq].
  - by rewrite lookup_insert_eq.
  - rewrite lookup_insert_ne by done. rewrite Ho by done. apply H.
Qed.

Lemma refs_ok_delete o o' w p :
  refs_ok o w -> (forall q, q <> p -> o' q = o q) -> o' p = 0 ->
  forall v j, refs_ok o' (mk_world v (delete p (heap w)) j).
Proof.
  intros H Ho Ht v j q. simpl. destruct (decide (q = p)) as [->|Hq].
  - by rewrite lookup_delete_eq.
  - rewrite lookup_delete_ne by done. rewrite Ho by done. apply H.
Qed.

(** Changing a transaction and then dropping a reference to it. *)
Lemma refs_ok_put o o' w p t t' w' :
  table_ok w -> refs_ok o w -> heap w !! p = Some t -> slot t' = slot t -> id t' = id t ->
  (forall q, q <> p -> o' q = o q) -> 
  (t_ref t' = 1 -> o' p = 0) ->
  (t_ref t' <> 1 -> trans_ok (o' p) (with_ref (t_ref t' - 1) t')) ->
  tcmi_transaction_put (Some p) (upd p t' w) = Some w' ->
  table_ok w' /\ refs_ok o' w'.
Proof.
  intros Htk Hr Hp Hs Hi Ho H1 H2 Hput.
  destruct (put_spec (upd p t' w) p t') as (w2 & Hw2 & Htk' & Hj & Hh);
    [by apply (table_ok_heap w p t)|apply lookup_insert_eq|].
  rewrite Hput in Hw2. injection Hw2 as <-. split; [done|].
  intros q. rewrite Hh. simpl. pose proof (Hr q) as Hq.
  destruct (decide (q = p)) as [->|Hne].
  - destruct (t_ref t' - 1 =? 0) eqn:E; bool_hyps.
    + rewrite lookup_delete_eq. apply H1. lia.
    + rewrite lookup_insert_eq. apply H2. lia.
  - rewrite (Ho q Hne). destruct (t_ref t' - 1 =? 0).
    + rewrite lookup_delete_ne, lookup_insert_ne by done. done.
    + rewrite !lookup_insert_ne by done. done.
Qed.

Lemma gen_id_range rnd i : tcmi_transaction_gen_id rnd = Some i -> 0 < i < 2 ^ 32.
Proof.
  induction rnd as [|r rnd IH]; simpl; [done|]. case_goal; [done|]. intros [= <-]. bool_hyps.
  pose proof (uwrap_range 32 ltac:(lia) r) as H. unfold urange in H.
  unfold TCMI_TRANSACTION_INVAL_ID in *. lia.
Qed.

(** A new transaction never fails for want of a slot. *)
Lemma new_spec w p rnd i resp timeout :
  table_ok w -> heap w !! p = None -> tcmi_transaction_gen_id rnd = Some i ->
  exists w' s, tcmi_transaction_new (Some p) rnd resp timeout w = Some (Some p, w') /\
    table_ok w' /\ jiffies w' = jiffies w /\
    heap w' = <[p := mk_trans (Some s) i resp TCMI_TRANSACTION_INIT 0 0 false timeout None 1]> (heap w).
Proof.
  intros Hok Hp Hg. unfold tcmi_transaction_new. rewrite Hg. simpl.
  pose proof Hok as [Hwf Hl Hm (k & Hk & Hc) Hn Hs]. rewrite Hm. simpl.
  pose proof (gen_id_range _ _ Hg) as Hi.
  pose proof (hash_range i _ k ltac:(lia) ltac:(lia) Hc) as Hh.
  set (h := tcmi_transaction_hash i _) in *.
  assert (Hpn : p ∉ nodes (transactions w)).
  { rewrite Hn, Hp. by intros [? ?]. }
  unfold tcmi_slotvec_insert_at, tcmi_slotvec_at. replace (h <? _) with true by lia.
  assert (Hlt : (Z.to_nat h < length (slots (transactions w)))%nat).
  { pose proof (wf_count _ Hwf) as Hx. unfold zlen in Hx. lia. }
  destruct (slot_insert_spec (Z.to_nat h) p (transactions w))
    as (v' & -> & Hwf' & Hl' & Hin & Hot & Hus & Hnd & Hcnt & Hmsk); auto.
  simpl. eexists _, _. split; [reflexivity|]. split; [|done].
  split; simpl; rewrite ?Hcnt; auto.
  - by rewrite Hmsk.
  - eauto.
  - intros q. rewrite Hnd, elem_of_cons, Hn, lookup_insert_is_Some. naive_solver.
  - assert (Hlen : length (slots v') = length (slots (transactions w))).
    { pose proof (wf_count _ Hwf). pose proof (wf_count _ Hwf'). unfold zlen in *. lia. }
    intros q t. rewrite lookup_insert_Some. intros [[<- <-]|[Hne Hq]]; simpl; rewrite Hlen.
    + fold h. rewrite Hin. split_and!; auto; [lia|set_solver].
    + destruct (Hs _ _ Hq) as (? & Hsl & Hqi & Hql). split_and!; auto.
      set (sq := Z.to_nat (tcmi_transaction_hash (id t) _)) in *.
      destruct (decide (sq = Z.to_nat h)) as [E|E].
      * rewrite E, Hin, <- E. set_solver.
      * by rewrite Hot.
Qed.

(** What the loop over a slot finds: the first entry with the id, else the last
    entry, else the initial value. *)
Definition has_id (h : gmap Z tcmi_transaction) (i p : Z) : bool :=
  match h !! p with Some t => id t =? i | None => false end.

Lemma find_tran_spec h ns i cur :
  (forall n, n ∈ ns -> is_Some (h !! n)) ->
  find_tran h ns i cur =
  Some (match List.find (has_id h i) ns with
        | Some p => Some p
        | None => match last ns with Some p => Some p | None => cur end
        end).
Proof.
  revert cur. induction ns as [|n ns IH]; intros cur Hns; [done|]. simpl.
  destruct (Hns n ltac:(set_solver)) as [t Ht]. unfold has_id at 1. rewrite Ht. simpl.
  destruct (id t =? i); [done|]. rewrite IH by set_solver.
  destruct (List.find _ ns); [done|]. destruct ns as [|m ns]; [done|].
  change (last (n :: m :: ns)) with (last (m :: ns)).
  destruct (last (m :: ns)) eqn:E; [done|]. by apply last_None in E.
Qed.

Definition slot_of (w : world) (i : Z) : nat :=
  Z.to_nat (tcmi_transaction_hash i (slot_count (transactions w) - 1)).

Lemma items_in_heap w s n : table_ok w -> n ∈ items (transactions w) s -> is_Some (heap w !! n).
Proof. intros Hok Hn. apply (tk_nodes _ Hok), elem_of_nodes. eauto. Qed.

Lemma lookup_spec w i :
  table_ok w -> 0 <= i ->
  let ns := items (transactions w) (slot_of w i) in
  let found := match List.find (has_id (heap w) i) ns with
               | Some p => Some p | None => last ns end in
  match found with
  | None => tcmi_transaction_lookup i w = Some (None, w)
  | Some p => exists t, heap w !! p = Some t /\ p ∈ ns /\
      tcmi_transaction_lookup i w = Some (Some p, upd p (tcmi_transaction_get t) w)
  end.
Proof.
  intros Hok Hi ns found. pose proof Hok as [Hwf Hl Hm (k & Hk & Hc) Hn Hs].
  assert (Hdef : tcmi_transaction_lookup i w =
    match found with
    | None => Some (None, w)
    | Some p => t ← heap w !! p; Some (Some p, upd p (tcmi_transaction_get t) w)
    end).
  { unfold tcmi_transaction_lookup. rewrite Hm. simpl. unfold tcmi_slot_lock. rewrite Hl. simpl.
    pose proof (hash_range i _ k ltac:(lia) ltac:(lia) Hc) as Hh.
    unfold tcmi_slotvec_at. simpl.
    replace (tcmi_transaction_hash i (slot_count (transactions w) - 1) <?
             slot_count (transactions w)) with true by lia.
    rewrite items_set_lock. unfold tcmi_slot_unlock.
    change (set_lock false (set_lock true ?v)) with (set_lock false v).
    rewrite set_lock_id by done. fold (slot_of w i). fold ns.
    rewrite find_tran_spec by (intros n; apply items_in_heap; done). simpl.
    subst found. destruct (List.find _ ns); [done|]. destruct (last ns); [done|]. by destruct w. }
  assert (Hin : forall p, found = Some p -> p ∈ ns).
  { intros p. subst found. destruct (List.find _ ns) eqn:E.
    - intros [= ->]. apply List.find_some in E as [E _]. by apply list_elem_of_In.
    - apply last_Some_elem_of. }
  destruct found as [p|]; [|done].
  destruct (items_in_heap w _ p Hok (Hin p eq_refl)) as [t Ht].
  exists t. rewrite Hdef, Ht. auto.
Qed.

Lemma owned_alive o w p : refs_ok o w -> 0 < o p -> exists t, heap w !! p = Some t /\ trans_ok (o p) t.
Proof.
  intros H Ho. specialize (H p). destruct (heap w !! p) as [t|] eqn:E; [by exists t|lia].
Qed.

Ltac trans_solve :=
  unfold trans_ok, tcmi_transaction_is_complete, tcmi_transaction_is_aborted,
    tcmi_transaction_is_running in *; simpl in *;
  repeat case_bool_decide; simpl in *; split_and?; try done; try lia; try congruence.

(** [drop_timer] in a started transaction. *)
Lemma drop_timer_spec n t :
  trans_ok n t -> state t <> TCMI_TRANSACTION_INIT ->
  exists t', drop_timer t = (timer_pending t, t') /\
    slot t' = slot t /\ id t' = id t /\ state t' = state t /\ timer_pending t' = false /\
    tcmi_transaction_is_expired t' = true /\ t_ref t' = t_ref t /\
    resp_id t' = resp_id t /\ context t' = context t.
Proof.
  intros (Hn & Hr & Hr' & Hp & He) Hs. unfold drop_timer.
  change (tcmi_transaction_is_expired (with_timer ?a ?b ?t)) with (tcmi_transaction_is_expired t).
  assert (tcmi_transaction_is_expired t = negb (timer_pending t)) as Hx.
  { rewrite He, Hp. unfold tcmi_transaction_is_complete, tcmi_transaction_is_aborted.
    destruct (state t); done. }
  rewrite Hx. destruct (timer_pending t) eqn:E; simpl.
  - eexists. split; [done|]. rewrite expired_set. done.
  - eexists. split; [done|]. change (tcmi_transaction_is_expired (with_timer ?a ?b ?t))
      with (tcmi_transaction_is_expired t). by rewrite Hx.
Qed.

Definition is_final (s : tcmi_trans_state) : bool :=
  bool_decide (s = TCMI_TRANSACTION_COMPLETE) || bool_decide (s = TCMI_TRANSACTION_ABORTED).

(** Storing a finished transaction and giving back the timer's reference. *)
Lemma finish_inv o w p t t' w' :
  table_ok w -> refs_ok o w -> heap w !! p = Some t ->
  slot t' = slot t -> id t' = id t -> t_ref t' = t_ref t -> timer_pending t' = false ->
  tcmi_transaction_is_expired t' = true -> is_final (state t') = true ->
  (if timer_pending t then tcmi_transaction_put (Some p) (upd p t' w) = Some w'
   else w' = upd p t' w) ->
  tinv (w', o).
Proof.
  intros Htk Hr Hp Hs Hi Href Hpend Hexp Hfin Hput.
  pose proof (Hr p) as Ht. rewrite Hp in Ht.
  assert (Hok : forall r, 1 <= r -> r = o p -> trans_ok (o p) (with_ref r t')).
  { intros r Hr1 Hr2. unfold trans_ok. simpl. rewrite Hpend.
    change (tcmi_transaction_is_expired (with_ref r t')) with (tcmi_transaction_is_expired t').
    rewrite Hexp. unfold is_final, tcmi_transaction_is_complete, tcmi_transaction_is_aborted in *.
    simpl. destruct Ht as (? & _). destruct (state t'); simpl in *; split_and!; try done; lia. }
  destruct Ht as (Hn & Hr1 & Hr2 & _ & _). unfold tinv. simpl.
  destruct (timer_pending t).
  - apply (refs_ok_put o o w p t t'); auto.
    + lia.
    + intros. apply Hok; lia.
  - subst w'. split; [by apply (table_ok_heap w p t)|].
    apply (refs_ok_insert o); auto.
    replace t' with (with_ref (t_ref t') t') by (by destruct t'). apply Hok; lia.
Qed.

(** The same as a computation: it never fails, changes nothing else, and the
    transaction survives while some thread owns it. *)
Lemma settle_spec o w p t t' :
  tinv (w, o) -> heap w !! p = Some t ->
  slot t' = slot t -> id t' = id t -> t_ref t' = t_ref t -> timer_pending t' = false ->
  tcmi_transaction_is_expired t' = true -> is_final (state t') = true ->
  exists w', (if timer_pending t then tcmi_transaction_put (Some p) (upd p t' w)
              else Some (upd p t' w)) = Some w' /\ tinv (w', o) /\
    (forall q, q <> p -> heap w' !! q = heap w !! q) /\
    (0 < o p -> is_Some (heap w' !! p)) /\
    (forall t2, heap w' !! p = Some t2 -> state t2 = state t' /\ context t2 = context t').
Proof.
  intros [Htk Hr] Hp R1 R2 R3 R4 R5 R6. simpl in *. pose proof (Hr p) as Ht. rewrite Hp in Ht.
  destruct (put_spec (upd p t' w) p t') as (w2 & Hw2 & _ & _ & Hh);
    [by apply (table_ok_heap w p t)|apply lookup_insert_eq|].
  destruct (timer_pending t) eqn:Epend.
  - exists w2. split; [done|]. split.
    { apply (finish_inv o w p t t'); auto. by rewrite Epend. }
    rewrite Hh. split_and!.
    + intros q Hq. simpl. case_goal; by rewrite ?lookup_delete_ne, ?lookup_insert_ne.
    + intros Ho. destruct Ht as (_ & _ & Hrf & _). rewrite Epend, <- R3 in Hrf.
      replace (t_ref t' - 1 =? 0) with false by lia. rewrite lookup_insert_eq. eauto.
    + intros t2. case_goal; rewrite ?lookup_delete_eq, ?lookup_insert_eq; naive_solver.
  - exists (upd p t' w). split; [done|]. split.
    { apply (finish_inv o w p t t'); auto. by rewrite Epend. }
    simpl. split; [intros; by rewrite lookup_insert_ne|]. rewrite lookup_insert_eq. naive_solver.
Qed.

Lemma complete_effect o w p t ctx resp :
  tinv (w, o) -> heap w !! p = Some t -> state t <> TCMI_TRANSACTION_INIT ->
  exists r t' w', tcmi_transaction_complete p ctx resp w = Some (r, w') /\ tinv (w', o) /\
    (forall q, q <> p -> heap w' !! q = heap w !! q) /\
    (0 < o p -> is_Some (heap w' !! p)) /\
    (forall t2, heap w' !! p = Some t2 -> state t2 = state t' /\ context t2 = context t') /\
    if bool_decide (state t = TCMI_TRANSACTION_RUNNING) then
      if resp_id t =? resp
      then r = 0 /\ state t' = TCMI_TRANSACTION_COMPLETE /\ context t' = ctx
      else r = - EINVAL /\ state t' = TCMI_TRANSACTION_ABORTED /\ context t' = context t
    else r = - EINVAL /\ state t' = state t /\ context t' = context t.
Proof.
  intros Hinv Hp Hs. pose proof Hinv as [Htk Hr]. simpl in *.
  pose proof (Hr p) as Ht. rewrite Hp in Ht.
  destruct (drop_timer_spec _ _ Ht Hs) as (t1 & Hd & H1 & H2 & H3 & H4 & H5 & H6 & H7 & H8).
  unfold tcmi_transaction_complete. rewrite Hp. simpl. rewrite Hd.
  unfold tcmi_transaction_is_running. rewrite H3, H7.
  set (res := if negb (bool_decide (state t = TCMI_TRANSACTION_RUNNING)) then _ else _).
  assert (Hres : slot res.2 = slot t /\ id res.2 = id t /\ t_ref res.2 = t_ref t /\
     timer_pending res.2 = false /\ tcmi_transaction_is_expired res.2 = true /\
     is_final (state res.2) = true).
  { subst res. case_bool_decide; simpl; [case_goal; simpl; split_and!; auto|].
    split_and!; auto. rewrite H3. unfold is_final. destruct (state t); done. }
  destruct Hres as (R1 & R2 & R3 & R4 & R5 & R6).
  destruct (settle_spec o w p t res.2) as (w' & Hput & Hinv' & Hoth & Hlive & Hsame); auto.
  exists res.1, res.2, w'. split.
  { destruct res as [r t']. simpl in *. destruct (timer_pending t); [by rewrite Hput|].
    by injection Hput as ->. }
  split; [done|]. split; [done|]. split; [done|]. split; [done|].
  subst res. case_bool_decide; simpl; [case_goal|]; simpl; auto.
Qed.

(** Completion keeps the anonymous flag. *)
Lemma put_flags p w w' t2 :
  tcmi_transaction_put (Some p) w = Some w' -> heap w' !! p = Some t2 ->
  exists t, heap w !! p = Some t /\ flags t2 = flags t.
Proof.
  unfold tcmi_transaction_put. intros Hput H2.
  destruct (heap w !! p) as [t|] eqn:E; simpl in Hput; [|discriminate Hput].
  destruct (tcmi_slot_lock (transactions w)) as [v|]; simpl in Hput; [|discriminate Hput].
  destruct (t_ref t - 1 =? 0).
  - destruct (tcmi_slot_remove (slot t) p v); simpl in Hput; [|discriminate Hput].
    injection Hput as <-. simpl in H2. by rewrite lookup_delete_eq in H2.
  - injection Hput as <-. simpl in H2. rewrite lookup_insert_eq in H2. injection H2 as <-. by exists t.
Qed.

Lemma anon_set_expired fl :
  Z.land (Z.lor fl TCMI_TRANS_FLAGS_EXPIRED) TCMI_TRANS_FLAGS_ANONYMOUS =
  Z.land fl TCMI_TRANS_FLAGS_ANONYMOUS.
Proof. rewrite Z.land_lor_distr_l. apply Z.lor_0_r. Qed.

Lemma complete_anon p ctx resp w r w' t t2 :
  tcmi_transaction_complete p ctx resp w = Some (r, w') -> heap w !! p = Some t ->
  heap w' !! p = Some t2 -> tcmi_transaction_is_anon t2 = tcmi_transaction_is_anon t.
Proof.
  intros Hc Hp H2. unfold tcmi_transaction_complete in Hc. rewrite Hp in Hc. simpl in Hc.
  destruct (drop_timer t) as [put t1] eqn:Ed.
  assert (H1 : tcmi_transaction_is_anon t1 = tcmi_transaction_is_anon t).
  { unfold drop_timer in Ed. case_hyp Ed; injection Ed as <- <-; [done|].
    unfold tcmi_transaction_is_anon. simpl. by rewrite anon_set_expired. }
  set (res := if negb (tcmi_transaction_is_running t1) then _ else _) in Hc.
  assert (Hres : tcmi_transaction_is_anon res.2 = tcmi_transaction_is_anon t).
  { subst res. repeat case_goal; done. }
  clearbody res. destruct res as [err t3]. simpl in *. destruct put.
  - destruct (tcmi_transaction_put (Some p) (upd p t3 w)) as [w1|] eqn:Epu; [|done].
    injection Hc as <- <-. destruct (put_flags _ _ _ _ Epu H2) as (t4 & H4 & Hf).
    simpl in H4. rewrite lookup_insert_eq in H4. injection H4 as <-.
    unfold tcmi_transaction_is_anon in *. by rewrite Hf.
  - injection Hc as <- <-. simpl in H2. rewrite lookup_insert_eq in H2. by injection H2 as <-.
Qed.

Lemma abort_effect o w p t :
  tinv (w, o) -> heap w !! p = Some t -> state t <> TCMI_TRANSACTION_INIT ->
  exists t' w', tcmi_transaction_abort p w =
      Some (if bool_decide (state t = TCMI_TRANSACTION_RUNNING) then None else context t, w') /\
    tinv (w', o) /\ (forall q, q <> p -> heap w' !! q = heap w !! q) /\
    (0 < o p -> is_Some (heap w' !! p)) /\
    (forall t2, heap w' !! p = Some t2 -> state t2 = state t' /\ context t2 = context t') /\
    context t' = context t /\
    state t' = if bool_decide (state t = TCMI_TRANSACTION_COMPLETE)
               then TCMI_TRANSACTION_COMPLETE else TCMI_TRANSACTION_ABORTED.
Proof.
  intros Hinv Hp Hs. pose proof Hinv as [Htk Hr]. simpl in *.
  pose proof (Hr p) as Ht. rewrite Hp in Ht.
  destruct (drop_timer_spec _ _ Ht Hs) as (t1 & Hd & H1 & H2 & H3 & H4 & H5 & H6 & H7 & H8).
  unfold tcmi_transaction_abort. rewrite Hp. simpl. rewrite Hd.
  unfold tcmi_transaction_is_complete. rewrite H3.
  set (t' := if bool_decide (state t = TCMI_TRANSACTION_COMPLETE) then t1 else _).
  assert (Hres : slot t' = slot t /\ id t' = id t /\ t_ref t' = t_ref t /\
     timer_pending t' = false /\ tcmi_transaction_is_expired t' = true /\
     is_final (state t') = true /\ context t' = context t /\
     state t' = if bool_decide (state t = TCMI_TRANSACTION_COMPLETE)
                then TCMI_TRANSACTION_COMPLETE else TCMI_TRANSACTION_ABORTED).
  { subst t'. case_bool_decide as E; simpl; split_and!; auto; rewrite H3, E; done. }
  destruct Hres as (R1 & R2 & R3 & R4 & R5 & R6 & R7 & R8).
  destruct (settle_spec o w p t t') as (w' & Hput & Hinv' & Hoth & Hlive & Hsame); auto.
  exists t', w'. split; [|by auto 10].
  destruct Ht as (_ & _ & _ & <- & _).
  destruct (timer_pending t); [by rewrite Hput|]. injection Hput as ->. by rewrite R7.
Qed.

Lemma timer_effect o w p t :
  tinv (w, o) -> heap w !! p = Some t -> timer_pending t = true ->
  exists t' w', tcmi_transaction_timer p w = Some w' /\ tinv (w', o) /\
    (forall q, q <> p -> heap w' !! q = heap w !! q) /\
    (0 < o p -> is_Some (heap w' !! p)) /\
    (forall t2, heap w' !! p = Some t2 -> state t2 = state t' /\ context t2 = context t') /\
    context t' = context t /\ state t' = TCMI_TRANSACTION_ABORTED.
Proof.
  intros Hinv Hp Hpe. unfold tcmi_transaction_timer. rewrite Hp. cbn [mbind option_bind].
  set (t' := tcmi_transaction_notify_owner _).
  destruct (settle_spec o w p t t') as (w' & Hput & Hinv' & Hoth & Hlive & Hsame); try done.
  { apply expired_set. }
  exists t', w'. rewrite Hpe in Hput. simpl. auto 10.
Qed.

Lemma start_effect o w p t fl :
  tinv (w, o) -> heap w !! p = Some t -> Z.land fl TCMI_TRANS_FLAGS_EXPIRED = 0 ->
  exists r w', tcmi_transaction_start p fl w = Some (r, w') /\ tinv (w', o) /\
    (forall q, q <> p -> heap w' !! q = heap w !! q) /\
    if bool_decide (state t = TCMI_TRANSACTION_INIT)
    then r = 0 /\ exists t', heap w' !! p = Some t' /\ state t' = TCMI_TRANSACTION_RUNNING /\
         timer_pending t' = true /\ context t' = context t
    else r = - EINVAL /\ w' = w.
Proof.
  intros [Htk Hr] Hp Hfl. simpl in *. pose proof (Hr p) as Ht. rewrite Hp in Ht.
  unfold tcmi_transaction_start. rewrite Hp. simpl.
  destruct (decide (state t = TCMI_TRANSACTION_INIT)) as [E|E].
  - rewrite bool_decide_false by tauto. rewrite bool_decide_true by done.
    eexists _, _. split; [done|]. split; [split|].
    + by apply (table_ok_heap w p t).
    + apply (refs_ok_insert o); auto. simpl.
      destruct Ht as (Hn & H1 & H2 & H3 & H4). unfold trans_ok.
      unfold tcmi_transaction_is_complete, tcmi_transaction_is_aborted in *.
      rewrite E in *. simpl in *. rewrite H3 in H2. split_and!; try done; try lia.
      change (tcmi_transaction_is_expired (tcmi_transaction_set_flags fl t) = false).
      by rewrite expired_set_flags.
    + simpl. split; [intros; by rewrite lookup_insert_ne|]. rewrite lookup_insert_eq. eauto 10.
  - rewrite bool_decide_true, bool_decide_false by done.
    eexists _, _. split; [done|]. by split.
Qed.

Lemma lookup_inv o w p i w' :
  tinv (w, o) -> 0 <= i -> tcmi_transaction_lookup i w = Some (Some p, w') -> tinv (w', add_ref p 1 o).
Proof.
  intros [Htk Hr] Hi H. simpl in *. pose proof (lookup_spec w i Htk Hi) as Hl. simpl in Hl.
  destruct (match List.find _ _ with Some _ => _ | None => _ end) as [p'|]; [|rewrite Hl in H; done].
  destruct Hl as (t & Hp & _ & Hl). rewrite Hl in H. injection H as -> <-.
  pose proof (Hr p) as Ht. rewrite Hp in Ht. split; [by apply (table_ok_heap w p t)|].
  apply (refs_ok_insert o); auto; unfold add_ref; simpl.
  - intros. by rewrite decide_False.
  - rewrite decide_True by done. destruct Ht as (? & ? & ? & ? & ?).
    unfold trans_ok. simpl. split_and!; auto; lia.
Qed.

(** ** The operations as steps

    [held h p] is the number of references threads hold to the transaction at [p].  A thread works
    only on a transaction it holds a reference to, [kmalloc] returns an unused address, and the flags
    of a start do not include the expiry flag (the callers give the anonymous flag or none); apart
    from that any operation may come at any time, in any state of the transaction.

    The code completes and aborts a transaction as if it had been started.  [early h p] tells that
    this one was completed or aborted before its start: the reference dropped for the timer was
    then the caller's own.  If such a transaction is started later, the expiry flag that the early
    call left makes its completion keep the reference of the timer: [lost h p] counts it. *)
Record holders := mk_holders { held : Z -> Z; lost : Z -> Z; early : Z -> bool }.

Definition set_at {A} (p : Z) (a : A) (f : Z -> A) : Z -> A := fun q => if decide (q = p) then a else f q.

Definition hold (p n : Z) (h : holders) : holders := mk_holders (add_ref p n (held h)) (lost h) (early h).
Definition created (p : Z) (h : holders) : holders :=
  mk_holders (set_at p 1 (held h)) (set_at p 0 (lost h)) (set_at p false (early h)).

(** Whose reference goes when the timer of [t] is deleted by a completion or an abort. *)
Definition settled (p : Z) (t : tcmi_transaction) (h : holders) : holders :=
  match tcmi_transaction_is_expired t, timer_pending t with
  | false, true | true, false => h
  | false, false => mk_holders (add_ref p (-1) (held h)) (lost h) (set_at p true (early h))
  | true, true => mk_holders (held h) (add_ref p 1 (lost h)) (early h)
  end.

Inductive tstep : world * holders -> world * holders -> Prop :=
| ts_new p rnd resp timeout w h w' :
    heap w !! p = None ->
    tcmi_transaction_new (Some p) rnd resp timeout w = Some (Some p, w') ->
    tstep (w, h) (w', created p h)
| ts_new_null rnd resp timeout w h w' :
    tcmi_transaction_new None rnd resp timeout w = Some (None, w') -> tstep (w, h) (w', h)
| ts_start p fl r w h w' :
    0 < held h p -> Z.land fl TCMI_TRANS_FLAGS_EXPIRED = 0 ->
    tcmi_transaction_start p fl w = Some (r, w') -> tstep (w, h) (w', h)
| ts_lookup trans_id p w h w' :
    0 <= trans_id -> tcmi_transaction_lookup trans_id w = Some (Some p, w') ->
    tstep (w, h) (w', hold p 1 h)
| ts_lookup_null trans_id w h w' :
    0 <= trans_id -> tcmi_transaction_lookup trans_id w = Some (None, w') ->
    tstep (w, h) (w', h)
| ts_put p w h w' :
    0 < held h p -> tcmi_transaction_put (Some p) w = Some w' -> tstep (w, h) (w', hold p (-1) h)
| ts_complete p t ctx resp r w h w' :
    0 < held h p -> heap w !! p = Some t ->
    tcmi_transaction_complete p ctx resp w = Some (r, w') -> tstep (w, h) (w', settled p t h)
| ts_abort p t r w h w' :
    0 < held h p -> heap w !! p = Some t ->
    tcmi_transaction_abort p w = Some (r, w') -> tstep (w, h) (w', settled p t h)
| ts_timer p t w h w' :
    heap w !! p = Some t -> timer_pending t = true ->
    tcmi_transaction_timer p w = Some w' -> tstep (w, h) (w', h)
| ts_tick w h : tstep (w, h) (mk_world (transactions w) (heap w) (jiffies w + 1), h).

(** The holders of one transaction: as [trans_ok], with the lost reference of one that was
    completed before its start. *)
Definition held_ok (n l : Z) (e : bool) (t : tcmi_transaction) : Prop :=
  0 <= n /\ 0 <= l /\ 1 <= t_ref t /\ t_ref t = n + (if timer_pending t then 1 else 0) + l /\
  timer_pending t = bool_decide (state t = TCMI_TRANSACTION_RUNNING) /\
  (is_final (state t) = true -> tcmi_transaction_is_expired t = true) /\
  (e = false -> tcmi_transaction_is_expired t = is_final (state t)) /\
  (0 < l -> l = 1 /\ e = true /\ is_final (state t) = true).

Definition hinv (s : world * holders) : Prop :=
  table_ok s.1 /\
  forall p, match heap s.1 !! p with
            | Some t => held_ok (held s.2 p) (lost s.2 p) (early s.2 p) t
            | None => held s.2 p = 0
            end.

Lemma hinv_tinv w h : hinv (w, h) -> (forall p, early h p = false) -> tinv (w, held h).
Proof.
  intros [Htk Hh] He. split; [done|]. intros p. specialize (Hh p). simpl in *. rewrite (He p) in Hh.
  destruct (heap w !! p) as [t|]; [|done]. destruct Hh as (H1 & H2 & H3 & H4 & H5 & H6 & H7 & H8).
  assert (lost h p = 0) by (destruct (decide (0 < lost h p)) as [Hl|]; [destruct (H8 Hl) as (_ & ? & _); done|lia]).
  split_and!; try done; [lia|]. by apply H7.
Qed.

(** Changing one transaction, with its holders. *)
Definition agree_but (p : Z) (h h' : holders) : Prop :=
  forall q, q <> p -> held h' q = held h q /\ lost h' q = lost h q /\ early h' q = early h q.

Lemma agree_refl p h : agree_but p h h.
Proof. by intros q _. Qed.
#[local] Hint Resolve agree_refl : core.

Lemma hinv_upd w h h' p t t' :
  hinv (w, h) -> heap w !! p = Some t -> slot t' = slot t -> id t' = id t -> agree_but p h h' ->
  held_ok (held h' p) (lost h' p) (early h' p) t' -> hinv (upd p t' w, h').
Proof.
  intros [Htk Hh] Hp Hs Hi Ha Ht'. split; [by apply (table_ok_heap w p t)|]. intros q. simpl.
  destruct (decide (q = p)) as [->|Hq]; [by rewrite lookup_insert_eq|].
  rewrite lookup_insert_ne by done. destruct (Ha q Hq) as (-> & -> & ->). apply Hh.
Qed.

(** Changing a transaction and dropping a reference to it. *)
Lemma hinv_put w h h' p t t' :
  hinv (w, h) -> heap w !! p = Some t -> slot t' = slot t -> id t' = id t -> agree_but p h h' ->
  (t_ref t' = 1 -> held h' p = 0) ->
  (t_ref t' <> 1 -> held_ok (held h' p) (lost h' p) (early h' p) (with_ref (t_ref t' - 1) t')) ->
  exists w', tcmi_transaction_put (Some p) (upd p t' w) = Some w' /\ hinv (w', h') /\
    (forall q, q <> p -> heap w' !! q = heap w !! q) /\
    heap w' !! p = (if t_ref t' - 1 =? 0 then None else Some (with_ref (t_ref t' - 1) t')).
Proof.
  intros [Htk Hh] Hp Hs Hi Ha H1 H2.
  destruct (put_spec (upd p t' w) p t') as (w' & Hw & Htk' & _ & He);
    [by apply (table_ok_heap w p t)|apply lookup_insert_eq|].
  assert (Hq : forall q, q <> p -> heap w' !! q = heap w !! q).
  { intros q Hq. rewrite He. simpl. case_goal; by rewrite ?lookup_delete_ne, ?lookup_insert_ne. }
  assert (Hself : heap w' !! p = if t_ref t' - 1 =? 0 then None else Some (with_ref (t_ref t' - 1) t')).
  { rewrite He. case_goal; by rewrite ?lookup_delete_eq, ?lookup_insert_eq. }
  exists w'. split; [done|]. split; [|done]. split; [done|]. intros q. simpl. destruct (decide (q = p)) as [->|Hne].
  - rewrite Hself. destruct (t_ref t' - 1 =? 0) eqn:E; [apply H1|apply H2]; lia.
  - rewrite Hq by done. destruct (Ha q Hne) as (-> & -> & ->). apply Hh.
Qed.

(** Storing a transaction whose timer was deleted, with the put that the code finds needed. *)
Lemma settle_holders w h p t t' :
  hinv (w, h) -> 0 < held h p -> heap w !! p = Some t ->
  slot t' = slot t -> id t' = id t -> t_ref t' = t_ref t -> timer_pending t' = false ->
  tcmi_transaction_is_expired t' = true ->
  state t' <> TCMI_TRANSACTION_RUNNING -> (is_final (state t') = false -> state t = TCMI_TRANSACTION_INIT) ->
  exists w', (if tcmi_transaction_is_expired t then Some (upd p t' w)
              else tcmi_transaction_put (Some p) (upd p t' w)) = Some w' /\ hinv (w', settled p t h) /\
    (forall q, q <> p -> heap w' !! q = heap w !! q) /\
    (forall t2, heap w' !! p = Some t2 -> state t2 = state t' /\ context t2 = context t').
Proof.
  intros Hinv Ho Hp R1 R2 R3 R4 R5 R6 R7. pose proof (proj2 Hinv p) as Ht. simpl in Ht. rewrite Hp in Ht.
  destruct Ht as (Hn & Hl & H1 & H2 & H3 & H4 & H5 & H6).
  assert (Hrun : timer_pending t = true -> is_final (state t') = true /\ lost h p = 0).
  { intros Hpe. rewrite Hpe in H3. symmetry in H3. apply bool_decide_eq_true in H3. split.
    - destruct (is_final (state t')) eqn:E; [done|]. rewrite R7 in H3; done.
    - destruct (decide (0 < lost h p)) as [Hlp|]; [|lia]. destruct (H6 Hlp) as (_ & _ & Hf). by rewrite H3 in Hf. }
  assert (Hini : tcmi_transaction_is_expired t = false -> timer_pending t = false -> lost h p = 0).
  { intros He _. destruct (decide (0 < lost h p)) as [Hlp|]; [|lia]. destruct (H6 Hlp) as (_ & _ & Hf).
    by rewrite (H4 Hf) in He. }
  assert (Hok : forall n l e r, 0 <= n -> 1 <= r -> r = n + l -> (e = false -> is_final (state t') = true) ->
    (l = 0 \/ l = 1 /\ e = true /\ is_final (state t') = true) -> held_ok n l e (with_ref r t')).
  { intros n l e r Hn0 Hr1 Hrn He Hlc. unfold held_ok. simpl. rewrite R4.
    change (tcmi_transaction_is_expired (with_ref r t')) with (tcmi_transaction_is_expired t'). rewrite R5.
    rewrite bool_decide_eq_false_2 by done. split_and!; try done; [lia..| |].
    - intros ->. by rewrite He.
    - intros Hl0. destruct Hlc as [->|Hlc]; [lia|done]. }
  assert (Hother : forall q t2, q <> p -> heap (upd p t2 w) !! q = heap w !! q).
  { intros q t2 Hq. simpl. by rewrite lookup_insert_ne. }
  assert (Hfin : is_final (state t) = true -> is_final (state t') = true).
  { intros Hf. destruct (is_final (state t')) eqn:E; [done|]. by rewrite R7 in Hf. }
  assert (Hsome : with_ref (t_ref t') t' = t') by (by destruct t').
  unfold settled. destruct (tcmi_transaction_is_expired t) eqn:Ee; [|destruct (timer_pending t) eqn:Epe].
  - exists (upd p t' w). split; [done|]. split; [|split; [by intros; apply Hother|simpl; rewrite lookup_insert_eq; naive_solver]].
    destruct (timer_pending t) eqn:Epe.
    + destruct (Hrun eq_refl) as [Hft Hl0]. assert (He : early h p = true).
      { destruct (early h p); [done|]. symmetry in H3. apply bool_decide_eq_true in H3.
        specialize (H5 eq_refl). by rewrite H3 in H5. }
      eapply (hinv_upd w h); [done..| |]; simpl; unfold add_ref.
      * intros q Hq. simpl. by rewrite decide_False.
      * rewrite decide_True, <- Hsome, He by done. apply Hok; try done; try lia. right. split_and!; try done; lia.
    + eapply (hinv_upd w h); [done..|]. rewrite <- Hsome. apply Hok; try done; try lia.
      * intros He. apply Hfin; by rewrite <- H5.
      * destruct (decide (0 < lost h p)) as [Hlp|]; [right; destruct (H6 Hlp) as (? & ? & ?); auto|left; lia].
  - destruct (Hrun eq_refl) as [Hft Hl0].
    destruct (hinv_put w h h p t t') as (w' & Hw & Hi & Hq & Hs); [done..|lia| |].
    { intros _. apply Hok; try done; lia. }
    exists w'. split_and!; try done. rewrite Hs. case_goal; naive_solver.
  - specialize (Hini eq_refl eq_refl).
    destruct (hinv_put w h (mk_holders (add_ref p (-1) (held h)) (lost h) (set_at p true (early h))) p t t')
      as (w' & Hw & Hi & Hq & Hs); try done; simpl; unfold add_ref, set_at; rewrite ?decide_True by done.
    { intros q Hq. simpl. by rewrite !decide_False. }
    { lia. }
    { intros Hne. apply Hok; try done; try lia; try discriminate. }
    exists w'. split_and!; try done. rewrite Hs. case_goal; naive_solver.
Qed.

(** The transitions of the state machine: nothing, INIT to RUNNING or ABORTED, RUNNING to a
    final state; the context is set by the transition to COMPLETE only. *)
Definition evolves (t t' : tcmi_transaction) : Prop :=
  match state t, state t' with
  | TCMI_TRANSACTION_RUNNING, TCMI_TRANSACTION_COMPLETE => True
  | TCMI_TRANSACTION_INIT, TCMI_TRANSACTION_RUNNING
  | TCMI_TRANSACTION_INIT, TCMI_TRANSACTION_ABORTED
  | TCMI_TRANSACTION_RUNNING, TCMI_TRANSACTION_ABORTED => context t' = context t
  | s, s' => s' = s /\ context t' = context t
  end.

Lemma evolves_same t t' : state t' = state t -> context t' = context t -> evolves t t'.
Proof. unfold evolves. intros -> ->. by destruct (state t). Qed.

(** A step touches one transaction. *)
Definition only_at (q : Z) (w w' : world) : Prop :=
  (forall p, p <> q -> heap w' !! p = heap w !! p) /\
  (forall t t', heap w !! q = Some t -> heap w' !! q = Some t' -> evolves t t').

Lemma only_at_insert q w u u' v j :
  heap w !! q = Some u -> evolves u u' -> only_at q w (mk_world v (<[q := u']> (heap w)) j).
Proof.
  intros Hu He. split; simpl; [intros; by rewrite lookup_insert_ne|].
  intros t t'. rewrite lookup_insert_eq. naive_solver.
Qed.

Lemma only_at_same w v j q : only_at q w (mk_world v (heap w) j).
Proof. split; simpl; [done|]. intros ?? -> [= ->]. by apply evolves_same. Qed.

Lemma only_at_put w q t w' :
  table_ok w -> heap w !! q = Some t -> tcmi_transaction_put (Some q) w = Some w' ->
  only_at q w w'.
Proof.
  intros Htk Hq H. destruct (put_spec w q t Htk Hq) as (w2 & Hw2 & _ & _ & Hh).
  rewrite H in Hw2. injection Hw2 as <-. destruct w' as [v h j]. simpl in Hh. subst h.
  case_goal; [|by apply (only_at_insert q w t); [|apply evolves_same]].
  split; simpl; [intros; by rewrite lookup_delete_ne|]. intros ? t' _. by rewrite lookup_delete_eq.
Qed.

Lemma only_at_lookup w i r w' :
  table_ok w -> 0 <= i -> tcmi_transaction_lookup i w = Some (r, w') ->
  exists q, only_at q w w'.
Proof.
  intros Htk Hi H. pose proof (lookup_spec w i Htk Hi) as Hl. simpl in Hl.
  destruct (match List.find _ _ with Some _ => _ | None => _ end) as [q|].
  - destruct Hl as (u & Hu & _ & Hl). rewrite Hl in H. injection H as <- <-.
    exists q. by apply (only_at_insert q w u); [|apply evolves_same].
  - rewrite Hl in H. injection H as <- <-. exists 0. destruct w. apply only_at_same.
Qed.


(** [drop_timer] in any state. *)
Lemma drop_timer_any t :
  exists t', drop_timer t = (negb (tcmi_transaction_is_expired t), t') /\
    slot t' = slot t /\ id t' = id t /\ state t' = state t /\ timer_pending t' = false /\
    tcmi_transaction_is_expired t' = true /\ t_ref t' = t_ref t /\
    resp_id t' = resp_id t /\ context t' = context t.
Proof.
  unfold drop_timer.
  change (tcmi_transaction_is_expired (with_timer ?a ?b ?t)) with (tcmi_transaction_is_expired t).
  destruct (tcmi_transaction_is_expired t) eqn:E; simpl; eexists; (split; [done|]).
  - change (tcmi_transaction_is_expired (with_timer ?a ?b ?t)) with (tcmi_transaction_is_expired t). by rewrite E.
  - by rewrite expired_set.
Qed.

Lemma complete_held w h p t ctx resp :
  hinv (w, h) -> 0 < held h p -> heap w !! p = Some t ->
  exists r w', tcmi_transaction_complete p ctx resp w = Some (r, w') /\ hinv (w', settled p t h) /\ only_at p w w'.
Proof.
  intros Hinv Ho Hp. destruct (drop_timer_any t) as (t1 & Hd & H1 & H2 & H3 & H4 & H5 & H6 & H7 & H8).
  unfold tcmi_transaction_complete. rewrite Hp. simpl. rewrite Hd.
  unfold tcmi_transaction_is_running. rewrite H3, H7.
  set (res := if negb (bool_decide (state t = TCMI_TRANSACTION_RUNNING)) then _ else _).
  assert (Hres : slot res.2 = slot t /\ id res.2 = id t /\ t_ref res.2 = t_ref t /\
     timer_pending res.2 = false /\ tcmi_transaction_is_expired res.2 = true /\
     state res.2 <> TCMI_TRANSACTION_RUNNING /\
     (is_final (state res.2) = false -> state t = TCMI_TRANSACTION_INIT) /\ evolves t res.2).
  { subst res. unfold evolves. case_bool_decide as E; simpl; [case_goal; simpl; rewrite E; split_and!; auto; done|].
    rewrite H3, H8. split_and!; auto; destruct (state t); done. }
  destruct Hres as (R1 & R2 & R3 & R4 & R5 & R6 & R7 & R8).
  destruct (settle_holders w h p t res.2) as (w' & Hput & Hinv' & Hoth & Hsame); auto.
  exists res.1, w'. split_and!; [|done|].
  { destruct res as [r t']. simpl in *. destruct (tcmi_transaction_is_expired t); simpl; [|by rewrite Hput].
    by injection Hput as ->. }
  split; [done|]. intros t0 t2 Ht0 Ht2. rewrite Hp in Ht0. injection Ht0 as <-.
  destruct (Hsame _ Ht2) as [E1 E2]. unfold evolves. rewrite E1, E2. exact R8.
Qed.

Lemma abort_held w h p t :
  hinv (w, h) -> 0 < held h p -> heap w !! p = Some t ->
  exists r w', tcmi_transaction_abort p w = Some (r, w') /\ hinv (w', settled p t h) /\ only_at p w w'.
Proof.
  intros Hinv Ho Hp. destruct (drop_timer_any t) as (t1 & Hd & H1 & H2 & H3 & H4 & H5 & H6 & H7 & H8).
  unfold tcmi_transaction_abort. rewrite Hp. simpl. rewrite Hd.
  unfold tcmi_transaction_is_complete. rewrite H3.
  set (t' := if bool_decide (state t = TCMI_TRANSACTION_COMPLETE) then t1 else _).
  assert (Hres : slot t' = slot t /\ id t' = id t /\ t_ref t' = t_ref t /\
     timer_pending t' = false /\ tcmi_transaction_is_expired t' = true /\
     state t' <> TCMI_TRANSACTION_RUNNING /\
     (is_final (state t') = false -> state t = TCMI_TRANSACTION_INIT) /\ evolves t t').
  { subst t'. unfold evolves. case_bool_decide as E; simpl.
    - rewrite H3, E. split_and!; auto; done.
    - rewrite H8. split_and!; auto; try done. destruct (state t); done. }
  destruct Hres as (R1 & R2 & R3 & R4 & R5 & R6 & R7 & R8).
  destruct (settle_holders w h p t t') as (w' & Hput & Hinv' & Hoth & Hsame); auto.
  exists (if tcmi_transaction_is_expired t then context t' else None), w'. split_and!; [|done|].
  { destruct (tcmi_transaction_is_expired t); simpl; [|by rewrite Hput]. by injection Hput as ->. }
  split; [done|]. intros t0 t2 Ht0 Ht2. rewrite Hp in Ht0. injection Ht0 as <-.
  destruct (Hsame _ Ht2) as [E1 E2]. unfold evolves. rewrite E1, E2. exact R8.
Qed.

Lemma timer_held w h p t :
  hinv (w, h) -> heap w !! p = Some t -> timer_pending t = true ->
  exists w', tcmi_transaction_timer p w = Some w' /\ hinv (w', h) /\ only_at p w w'.
Proof.
  intros Hinv Hp Hpe. unfold tcmi_transaction_timer. rewrite Hp. cbn [mbind option_bind].
  set (t' := tcmi_transaction_notify_owner _).
  pose proof (proj2 Hinv p) as Ht. simpl in Ht. rewrite Hp in Ht.
  destruct Ht as (Hn & Hl & H1 & H2 & H3 & H4 & H5 & H6). rewrite Hpe in H2, H3.
  symmetry in H3. apply bool_decide_eq_true in H3.
  assert (Hl0 : lost h p = 0).
  { destruct (decide (0 < lost h p)) as [Hlp|]; [|lia]. destruct (H6 Hlp) as (_ & _ & Hf). by rewrite H3 in Hf. }
  destruct (hinv_put w h h p t t') as (w' & Hw & Hi & Hq & Hs); [done..| | |].
  - simpl. lia.
  - simpl. intros Hne. unfold held_ok. simpl. split_and!; try done; try lia; intros _; apply expired_set.
  - exists w'. split_and!; try done. split; [done|]. intros t0 t2 Ht0 Ht2. rewrite Hp in Ht0. injection Ht0 as <-.
    rewrite Hs in Ht2. case_hyp Ht2; [done|]. injection Ht2 as <-. unfold evolves. by rewrite H3.
Qed.

Lemma start_held w h p t fl :
  hinv (w, h) -> heap w !! p = Some t -> Z.land fl TCMI_TRANS_FLAGS_EXPIRED = 0 ->
  exists r w', tcmi_transaction_start p fl w = Some (r, w') /\ hinv (w', h) /\ only_at p w w'.
Proof.
  intros Hinv Hp Hfl. pose proof (proj2 Hinv p) as Ht. simpl in Ht. rewrite Hp in Ht.
  unfold tcmi_transaction_start. rewrite Hp. simpl. case_bool_decide as E.
  - exists (- EINVAL), w. split_and!; try done. destruct w. apply only_at_same.
  - eexists _, _. split; [done|]. destruct Ht as (Hn & Hl & H1 & H2 & H3 & H4 & H5 & H6).
    rewrite E in *. simpl in *. rewrite H3 in H2.
    assert (Hl0 : lost h p = 0).
    { destruct (decide (0 < lost h p)) as [Hlp|]; [|lia]. by destruct (H6 Hlp) as (_ & _ & Hf). }
    split.
    + eapply (hinv_upd w h h p t); [done..|]. unfold held_ok. simpl. split_and!; try done; try lia.
      intros He. change (tcmi_transaction_is_expired (tcmi_transaction_set_flags fl t) = false).
      rewrite expired_set_flags by done. by apply H5.
    + eapply only_at_insert; [done|]. unfold evolves. by rewrite E.
Qed.

Lemma lookup_held w h i r w' :
  hinv (w, h) -> 0 <= i -> tcmi_transaction_lookup i w = Some (r, w') ->
  hinv (w', match r with Some p => hold p 1 h | None => h end).
Proof.
  intros Hinv Hi H. pose proof (lookup_spec w i (proj1 Hinv) Hi) as Hl. simpl in Hl.
  destruct (match List.find _ _ with Some _ => _ | None => _ end) as [p|]; [|rewrite Hl in H; by injection H as <- <-].
  destruct Hl as (t & Hp & _ & Hl). rewrite Hl in H. injection H as <- <-.
  pose proof (proj2 Hinv p) as Ht. simpl in Ht. rewrite Hp in Ht.
  eapply (hinv_upd w h _ p t); [done..| |]; unfold hold, add_ref; simpl.
  - intros q Hq. simpl. by rewrite decide_False.
  - rewrite decide_True by done. destruct Ht as (? & ? & ? & ? & ? & ? & ? & ?). unfold held_ok. simpl. split_and!; auto; lia.
Qed.

Lemma held_alive w h p : hinv (w, h) -> 0 < held h p -> exists t, heap w !! p = Some t.
Proof. intros [_ Hh] Ho. specialize (Hh p). simpl in Hh. destruct (heap w !! p) as [t|]; [by exists t|lia]. Qed.

Lemma tstep_holds s s' : hinv s -> tstep s s' -> hinv s' /\ exists q, only_at q s.1 s'.1.
Proof.
  intros Hinv Hstep. destruct Hstep as [p rnd resp timeout w h w' Hf H|rnd resp timeout w h w' H|p fl r w h w' Ho Hfl H|
    i p w h w' Hi H|i w h w' Hi H|p w h w' Ho H|p t ctx resp r w h w' Ho Hp H|
    p t r w h w' Ho Hp H|p t w h w' Hp Hpe H|w h]; simpl.
  - assert (Hg : exists i, tcmi_transaction_gen_id rnd = Some i).
    { unfold tcmi_transaction_new in H. apply bind_Some in H as (i & ? & _). eauto. }
    destruct Hg as [i Hg].
    destruct (new_spec w p rnd i resp timeout (proj1 Hinv) Hf Hg) as (w2 & s & Hw2 & Htk2 & Hj & Hh).
    rewrite H in Hw2. injection Hw2 as <-. split.
    + split; [done|]. intros q. simpl. rewrite Hh. pose proof (proj2 Hinv q) as Hq. simpl in Hq. unfold set_at.
      destruct (decide (q = p)) as [->|]; [rewrite lookup_insert_eq|by rewrite lookup_insert_ne].
      unfold held_ok. simpl. split_and!; try done; lia.
    + exists p. split; [|congruence]. intros q Hq. rewrite Hh. by rewrite lookup_insert_ne.
  - injection H as <-. split; [done|]. exists 0. destruct w. apply only_at_same.
  - destruct (held_alive _ _ _ Hinv Ho) as (t & Hp).
    destruct (start_held w h p t fl Hinv Hp Hfl) as (r' & w2 & Hw2 & ? & ?).
    rewrite H in Hw2. injection Hw2 as _ ->. eauto.
  - split; [apply (lookup_held _ _ _ _ _ Hinv Hi H)|]. eapply only_at_lookup; [apply Hinv|done|exact H].
  - split; [apply (lookup_held _ _ _ _ _ Hinv Hi H)|]. eapply only_at_lookup; [apply Hinv|done|exact H].
  - destruct (held_alive _ _ _ Hinv Ho) as (t & Hp). pose proof (proj2 Hinv p) as Ht. simpl in Ht. rewrite Hp in Ht.
    destruct Ht as (H0 & H1 & H2 & H3 & H4 & H5 & H6 & H7).
    assert (Hself : upd p t w = w) by (unfold upd; rewrite insert_id by done; by destruct w).
    destruct (hinv_put w h (hold p (-1) h) p t t) as (w2 & Hw2 & Hi & _); try done; unfold hold, add_ref; simpl.
    + intros q Hq. simpl. by rewrite decide_False.
    + rewrite decide_True by done. destruct (timer_pending t); lia.
    + intros Hne. rewrite decide_True by done. unfold held_ok. simpl. split_and!; auto; lia.
    + rewrite Hself, H in Hw2. injection Hw2 as <-. split; [done|]. exists p. eapply only_at_put; [apply Hinv|done|done].
  - destruct (complete_held w h p t ctx resp Hinv Ho Hp) as (r' & w2 & Hw2 & ? & ?).
    rewrite H in Hw2. injection Hw2 as _ ->. eauto.
  - destruct (abort_held w h p t Hinv Ho Hp) as (r' & w2 & Hw2 & ? & ?). rewrite H in Hw2. injection Hw2 as _ ->. eauto.
  - destruct (timer_held w h p t Hinv Hp Hpe) as (w2 & Hw2 & ? & ?). rewrite H in Hw2. injection Hw2 as ->. eauto.
  - split; [|exists 0; apply only_at_same]. destruct Hinv as [Htk Hh]. split; [|done]. destruct Htk. by split.
Qed.

(** ** Properties *)

Definition no_holders : holders := mk_holders (fun _ => 0) (fun _ => 0) (fun _ => false).

Lemma initial_inv order v j :
  tcmi_slotvec_hnew true true order = Some v -> 0 <= order < 32 ->
  hinv (mk_world v ∅ j, no_holders).
Proof.
  intros H Ho. unfold tcmi_slotvec_hnew in H. apply bind_Some in H as (v0 & H0 & [= <-]).
  assert (Hp : 0 < 2 ^ order < 2 ^ 32).
  { split; [by apply Z.pow_pos_nonneg; lia|]. apply Z.pow_lt_mono_r; lia. }
  rewrite Z.shiftl_1_l, uwrap_id in H0 by (unfold urange; lia).
  apply wf_new in H0 as (Hwf & Hl & Hc & Hn & _); [|lia].
  split; simpl.
  - split; simpl; auto with clon.
    + rewrite Hc, uwrap_id by (unfold urange; lia). done.
    + rewrite Hc. eauto.
    + intros p. change (nodes (set_hashmsk ?m v0)) with (nodes v0). rewrite Hn, lookup_empty.
      split; [set_solver|by intros [? ?]].
    + intros p t. by rewrite lookup_empty.
  - intros p. simpl. by rewrite lookup_empty.
Qed.

Lemma reachable_inv order v j s :
  tcmi_slotvec_hnew true true order = Some v -> 0 <= order < 32 ->
  star tstep (mk_world v ∅ j, no_holders) s -> hinv s.
Proof.
  intros H Ho Hs. apply (star_invariant tstep hinv) with (2 := initial_inv order v j H Ho) in Hs; [done|].
  intros s1 s2 H1 H2. by apply (tstep_holds s1 s2).
Qed.



(** Every step of any operation moves a transaction along the edges of its
    state machine only: INIT to RUNNING or ABORTED, RUNNING to COMPLETE or ABORTED; in the
    two final states neither the state nor the context ever changes again, and
    the context is set only by completion. *)
Theorem transaction_state_machine s s' p t t' :
  hinv s -> tstep s s' -> heap s.1 !! p = Some t -> heap s'.1 !! p = Some t' -> evolves t t'.
Proof.
  intros Hinv Hstep Hp Hp'. destruct (tstep_holds s s' Hinv Hstep) as (_ & q & Hoth & Hq).
  destruct (decide (p = q)) as [->|Hne]; [by apply Hq|].
  rewrite Hoth in Hp' by done. simplify_eq. by apply evolves_same.
Qed.

(** [tcmi_transaction_complete] on a started transaction: it succeeds exactly
    when the transaction is running and the response id is the expected one, and
    then stores the context; a wrong response aborts a running transaction; an
    already finished one is left alone.  Nothing else in the table changes. *)
Theorem transaction_complete_spec o w p t ctx resp :
  tinv (w, o) -> 0 < o p -> heap w !! p = Some t -> state t <> TCMI_TRANSACTION_INIT ->
  exists r w' t', tcmi_transaction_complete p ctx resp w = Some (r, w') /\ tinv (w', o) /\
    heap w' !! p = Some t' /\ (forall q, q <> p -> heap w' !! q = heap w !! q) /\
    if bool_decide (state t = TCMI_TRANSACTION_RUNNING) then
      if resp_id t =? resp
      then r = 0 /\ state t' = TCMI_TRANSACTION_COMPLETE /\ context t' = ctx
      else r = - EINVAL /\ state t' = TCMI_TRANSACTION_ABORTED /\ context t' = context t
    else r = - EINVAL /\ state t' = state t /\ context t' = context t.
Proof.
  intros Hinv Ho Hp Hs.
  destruct (complete_effect o w p t ctx resp Hinv Hp Hs)
    as (r & t1 & w' & Hc & Hinv' & Hoth & Hlive & Hsame & Heff).
  destruct (Hlive Ho) as [t' Ht']. destruct (Hsame _ Ht') as [E1 E2].
  rewrite <- E1, <- E2 in Heff.
  exists r, w', t'. auto.
Qed.

(** A waiter on a started transaction cannot sleep forever: while it runs its
    timer is queued, and when the timer fires the transaction is ABORTED, which
    ends the wait; the waiter's reference keeps the transaction alive. *)
Theorem running_transaction_times_out o w p t :
  tinv (w, o) -> 0 < o p -> heap w !! p = Some t -> state t = TCMI_TRANSACTION_RUNNING ->
  timer_pending t = true /\
  exists w' t', tcmi_transaction_timer p w = Some w' /\ tinv (w', o) /\
    heap w' !! p = Some t' /\ tcmi_transaction_wait t' = Some TCMI_TRANSACTION_ABORTED.
Proof.
  intros Hinv Ho Hp Hs. pose proof Hinv as [_ Hr]. pose proof (Hr p) as Ht. simpl in Ht.
  rewrite Hp in Ht. destruct Ht as (_ & _ & _ & Hpe & _). rewrite Hs in Hpe.
  split; [done|].
  destruct (timer_effect o w p t Hinv Hp Hpe) as (t1 & w' & Hc & Hinv' & _ & Hlive & Hsame & _ & E).
  destruct (Hlive Ho) as [t' Ht']. destruct (Hsame _ Ht') as [E1 _].
  exists w', t'. split_and!; auto. unfold tcmi_transaction_wait, tcmi_transaction_is_aborted.
  by rewrite E1, E.
Qed.

(** A lookup whose id is in the table returns a transaction with that id and
    takes one reference to it. *)
Lemma lookup_finds w i p t :
  table_ok w -> 0 <= i -> heap w !! p = Some t -> id t = i ->
  exists p' t', tcmi_transaction_lookup i w = Some (Some p', upd p' (tcmi_transaction_get t') w) /\
    heap w !! p' = Some t' /\ id t' = i.
Proof.
  intros Htk Hi Hp Hid. pose proof (lookup_spec w i Htk Hi) as Hl. simpl in Hl.
  destruct (tk_slot _ Htk _ _ Hp) as (_ & _ & Hin & _). rewrite Hid in Hin. fold (slot_of w i) in Hin.
  destruct (List.find (has_id (heap w) i) (items (transactions w) (slot_of w i))) as [p'|] eqn:E.
  - destruct Hl as (t' & Hp' & _ & Hl). exists p', t'. split_and!; auto.
    apply List.find_some in E as [_ E]. unfold has_id in E. rewrite Hp' in E. blia.
  - exfalso. assert (has_id (heap w) i p = false) as Hf.
    { apply (List.find_none _ _ E). by apply list_elem_of_In. }
    unfold has_id in Hf. rewrite Hp in Hf. blia.
Qed.

(** A lookup whose id is not in the table does not return NULL when its slot
    is not empty: it returns, with a reference, the last transaction of the slot,
    which has a different id. *)
Lemma lookup_miss_returns_other w i :
  table_ok w -> 0 <= i -> (forall p t, heap w !! p = Some t -> id t <> i) ->
  items (transactions w) (slot_of w i) <> [] ->
  exists p t, tcmi_transaction_lookup i w = Some (Some p, upd p (tcmi_transaction_get t) w) /\
    heap w !! p = Some t /\ id t <> i.
Proof.
  intros Htk Hi Hno Hne. pose proof (lookup_spec w i Htk Hi) as Hl. simpl in Hl.
  destruct (List.find (has_id (heap w) i) (items (transactions w) (slot_of w i))) as [p'|] eqn:E.
  - exfalso. apply List.find_some in E as [_ E]. unfold has_id in E.
    destruct (heap w !! p') as [t|] eqn:Ep; [|done]. apply (Hno _ _ Ep). blia.
  - destruct (last _) as [p|] eqn:El; [|by apply last_None in El].
    destruct Hl as (t & Hp & _ & Hl). exists p, t. eauto.
Qed.

(** Aborting a transaction that was never started drops the reference of a
    timer that was never queued: the creator's only reference goes, and the
    transaction is freed under it. *)
Theorem abort_unstarted_frees o w p t :
  tinv (w, o) -> o p = 1 -> heap w !! p = Some t -> state t = TCMI_TRANSACTION_INIT ->
  exists w', tcmi_transaction_abort p w = Some (None, w') /\ heap w' !! p = None.
Proof.
  intros [Htk Hr] Ho Hp Hs. simpl in *. pose proof (Hr p) as Ht. rewrite Hp in Ht.
  destruct Ht as (_ & _ & Href & Hpe & He). rewrite Hs in Hpe. simpl in Hpe. rewrite Hpe in Href.
  unfold tcmi_transaction_is_complete, tcmi_transaction_is_aborted in He. rewrite Hs in He.
  unfold tcmi_transaction_abort. rewrite Hp. simpl. unfold drop_timer.
  change (tcmi_transaction_is_expired (with_timer ?a ?b ?t)) with (tcmi_transaction_is_expired t).
  rewrite He. simpl. unfold tcmi_transaction_is_complete. simpl. rewrite Hs. simpl.
  set (t' := tcmi_transaction_notify_owner _).
  destruct (put_spec (upd p t' w) p t') as (w' & Hw & _ & _ & Hh);
    [by apply (table_ok_heap w p t)|apply lookup_insert_eq|].
  exists w'. rewrite Hw. split; [done|]. rewrite Hh. simpl.
  replace (t_ref t - 1 =? 0) with true by lia. apply lookup_delete_eq.
Qed.

(** *** Witnesses: a table of two slots, a transaction at address 100. *)

Definition ex_v : tcmi_slotvec :=
  mk_slotvec [mk_slot 0 []; mk_slot 1 []] 2 (Some 1) [0%nat; 1%nat] [] 1 false.
Definition ex_w0 : world := mk_world ex_v ∅ 0.
Definition ex_w1 : world :=
  match tcmi_transaction_new (Some 100) [0; 5] 7 10 ex_w0 with Some r => r.2 | None => ex_w0 end.
Definition ex_w2 : world :=
  match tcmi_transaction_start 100 0 ex_w1 with Some r => r.2 | None => ex_w0 end.
Definition ex_h : holders := created 100 no_holders.
Definition ex_o : Z -> Z := held ex_h.

Lemma ex_reach1 : star tstep (ex_w0, no_holders) (ex_w1, ex_h).
Proof.
  eapply star_step; [apply star_refl|].
  apply (ts_new 100 [0; 5] 7 10); vm_compute; reflexivity.
Qed.

Lemma ex_reach2 : star tstep (ex_w0, no_holders) (ex_w2, ex_h).
Proof.
  eapply star_step; [apply ex_reach1|].
  apply (ts_start 100 0 0); vm_compute; reflexivity.
Qed.

Lemma ex_early p : early ex_h p = false.
Proof. unfold ex_h, created, set_at. simpl. by destruct (decide _). Qed.
Lemma ex_hinv2 : hinv (ex_w2, ex_h).
Proof. apply (reachable_inv 1 ex_v 0); [reflexivity|lia|apply ex_reach2]. Qed.
Lemma ex_inv1 : tinv (ex_w1, ex_o).
Proof. apply hinv_tinv; [|exact ex_early]. apply (reachable_inv 1 ex_v 0); [reflexivity|lia|apply ex_reach1]. Qed.
Lemma ex_inv2 : tinv (ex_w2, ex_o).
Proof. apply hinv_tinv; [exact ex_hinv2|exact ex_early]. Qed.

Definition ex_t2 : tcmi_transaction :=
  mk_trans (Some 1%nat) 5 7 TCMI_TRANSACTION_RUNNING 0 0 true 10 None 2.

Lemma ex_t2_in : heap ex_w2 !! 100 = Some ex_t2.
Proof. vm_compute. reflexivity. Qed.



Lemma transaction_state_machine_witness :
  exists t', heap (match tcmi_transaction_complete 100 (Some 3) 8 ex_w2 with
                   | Some r => r.2 | None => ex_w2 end) !! 100 = Some t' /\
    state t' = TCMI_TRANSACTION_ABORTED /\ evolves ex_t2 t'.
Proof.
  eexists. split; [vm_compute; reflexivity|]. split; [reflexivity|].
  eapply (transaction_state_machine (ex_w2, ex_h) (_, settled 100 ex_t2 ex_h) 100);
    [apply ex_hinv2| |apply ex_t2_in|simpl].
  - apply (ts_complete 100 ex_t2 (Some 3) 8 (- EINVAL) ex_w2 ex_h
      (match tcmi_transaction_complete 100 (Some 3) 8 ex_w2 with
       | Some r => r.2 | None => ex_w2 end)); [reflexivity|apply ex_t2_in|].
    vm_compute. reflexivity.
  - vm_compute. reflexivity.
Defined.

Lemma transaction_complete_spec_witness :
  exists w' t', tcmi_transaction_complete 100 (Some 3) 7 ex_w2 = Some (0, w') /\
    heap w' !! 100 = Some t' /\ state t' = TCMI_TRANSACTION_COMPLETE /\ context t' = Some 3.
Proof.
  destruct (transaction_complete_spec ex_o ex_w2 100 ex_t2 (Some 3) 7 ex_inv2)
    as (r & w' & t' & Hc & _ & Ht & _ & (-> & ? & ?)); [reflexivity|apply ex_t2_in|done|].
  exists w', t'. split_and!; assumption.
Defined.

Lemma running_transaction_times_out_witness :
  exists w' t', tcmi_transaction_timer 100 ex_w2 = Some w' /\ heap w' !! 100 = Some t' /\
    tcmi_transaction_wait t' = Some TCMI_TRANSACTION_ABORTED.
Proof.
  destruct (running_transaction_times_out ex_o ex_w2 100 ex_t2 ex_inv2)
    as (_ & w' & t' & H1 & _ & H2 & H3); [reflexivity|apply ex_t2_in|done|].
  exists w', t'. split_and!; assumption.
Defined.

(** Id 7 hashes to the slot of id 5. *)

Lemma abort_unstarted_frees_witness :
  exists w', tcmi_transaction_abort 100 ex_w1 = Some (None, w') /\ heap w' !! 100 = None.
Proof.
  apply (abort_unstarted_frees ex_o ex_w1 100
    (mk_trans (Some 1%nat) 5 7 TCMI_TRANSACTION_INIT 0 0 false 10 None 1) ex_inv1);
    [reflexivity|vm_compute; reflexivity|reflexivity].
Defined.

(** A completion that comes before the start is refused but marks the transaction as expired; when it
    is started and completed afterwards, nobody drops the reference of its timer: one thread
    holds the finished transaction and its count is two. *)
Definition ex_early_run : option (Z * Z * world) :=
  '(_, w) ← tcmi_transaction_lookup 5 ex_w1; '(r1, w) ← tcmi_transaction_complete 100 (Some 3) 7 w;
  '(_, w) ← tcmi_transaction_start 100 0 w; '(r2, w) ← tcmi_transaction_complete 100 (Some 3) 7 w; Some (r1, r2, w).
Example early_completion_loses_reference :
  exists w t, ex_early_run = Some (- EINVAL, 0, w) /\ heap w !! 100 = Some t /\
    state t = TCMI_TRANSACTION_COMPLETE /\ timer_pending t = false /\ t_ref t = 2.
Proof. eexists _, _. split; [vm_compute; reflexivity|]. split; [vm_compute; reflexivity|]. by vm_compute. Qed.
