(* ===== verification/KkcSock.v ===== *)
(** The kernel-to-kernel communication library (src/src/kkc): the generic
    socket with its transfer loop (kkc_sock.c), the TCP socket (kkc_sock_tcp.c)
    and the connection front end (kkc.c, kkc_arch.h).

    The kernel's TCP stack is a parameter, an instance of [Kernel] whose laws
    are the documented behaviour of [kernel_sendmsg]/[kernel_recvmsg] on a
    stream socket.  The class [Sock] is the interface the message layers are
    proved against; the TCP socket over any [Kernel] is an instance of it. *)

From S2P Require Import Prelude.

(** ** The kernel's stream socket *)

(** [outgoing]: the bytes accepted for sending so far; [incoming]: those that
    are still to be received; [up]: the connection works. *)
Class Kernel (K : Type) := {
  kernel_sendmsg : K -> list Z -> Z * K;
  kernel_recvmsg : K -> Z -> bool -> Z * list Z * K;
  outgoing : K -> list Z;
  incoming : K -> list Z;
  up : K -> Prop;
  (** a prefix of the data is accepted, or an error is returned *)
  sendmsg_law k b r k' : kernel_sendmsg k b = (r, k') ->
    r <= zlen b /\ outgoing k' = outgoing k ++ ztake r b /\ incoming k' = incoming k;
  (** a blocking send of some data makes progress or fails *)
  sendmsg_progress k b r k' : kernel_sendmsg k b = (r, k') -> 0 < zlen b -> r <> 0;
  (** at most the requested number of bytes is delivered, in stream order *)
  recvmsg_law k n dw r d k' : kernel_recvmsg k n dw = (r, d, k') -> 0 <= n ->
    r <= n /\ zlen d = Z.max 0 r /\ incoming k = d ++ incoming k' /\ outgoing k' = outgoing k;
  (** a working connection neither loses data nor fails *)
  up_sendmsg k b r k' : kernel_sendmsg k b = (r, k') -> up k -> 0 < zlen b -> 0 < r /\ up k';
  up_recvmsg k n r d k' : kernel_recvmsg k n false = (r, d, k') -> up k -> 0 < n ->
    incoming k <> [] -> 0 < r /\ up k'
}.

(** ** The TCP socket *)

Inductive kkc_sock_flags := KKC_SOCK_BLOCK | KKC_SOCK_NONBLOCK.

Definition is_block (f : kkc_sock_flags) : bool :=
  match f with KKC_SOCK_BLOCK => true | KKC_SOCK_NONBLOCK => false end.

Section tcp.
Context {K : Type} `{Kernel K}.

(** The flags are ignored: sending always blocks. *)
Definition kkc_sock_tcp_send (k : K) (b : list Z) (flags : kkc_sock_flags) : Z * K :=
  kernel_sendmsg k b.

(** End of stream is reported as 0 by the kernel and turned into an error. *)
Definition kkc_sock_tcp_recv (k : K) (buflen : Z) (flags : kkc_sock_flags) : Z * list Z * K :=
  let '(result, d, k) := kernel_recvmsg k buflen (negb (is_block flags)) in
  (if (result =? 0) && (0 <? buflen) then - ECONNRESET else result, d, k).
End tcp.

(** ** The transfer loop

    [method s buf len] transfers at most [len] bytes at address [buf]; the state
    [s] holds the socket and the caller's memory.  [None]: out of fuel. *)
Fixpoint kkc_sock_send_recv {St} (fuel : nat) (method : St -> Z -> Z -> Z * St)
    (s : St) (buf buflen error total : Z) : option (Z * St) :=
  if (0 <? buflen) && (0 <=? error) then
    match fuel with
    | O => None
    | S fuel =>
        let '(error, s) := method s buf buflen in
        kkc_sock_send_recv fuel method s (buf + error) (buflen - error) error (total + error)
    end
  else Some (if 0 <=? error then total else error, s).

(** ** The generic socket *)

Section sock.
Context {K : Type} `{Kernel K}.

(** The operation vector of a socket: [None] is a missing operation. *)
Record kkc_sock := mk_sock {
  op_send : option (K -> list Z -> kkc_sock_flags -> Z * K);
  op_recv : option (K -> Z -> kkc_sock_flags -> Z * list Z * K);
  ksock : K
}.

Definition tcp_sock (k : K) : kkc_sock := mk_sock (Some kkc_sock_tcp_send) (Some kkc_sock_tcp_recv) k.

Definition send_method (op : K -> list Z -> kkc_sock_flags -> Z * K) (b : list Z)
    (flags : kkc_sock_flags) (k : K) (buf len : Z) : Z * K :=
  op k (ztake len (zdrop buf b)) flags.

(** The received bytes are stored at [buf] of the caller's block. *)
Definition recv_method (op : K -> Z -> kkc_sock_flags -> Z * list Z * K)
    (flags : kkc_sock_flags) (s : K * list Z) (buf len : Z) : Z * (K * list Z) :=
  let '(r, d, k) := op s.1 len flags in (r, (k, blit buf d s.2)).

Definition kkc_sock_send (fuel : nat) (self : kkc_sock) (b : list Z) (flags : kkc_sock_flags)
    : option (Z * kkc_sock) :=
  match op_send self with
  | Some op =>
      '(r, k) ← kkc_sock_send_recv fuel (send_method op b flags) (ksock self) 0 (zlen b) 0 0;
      Some (r, mk_sock (op_send self) (op_recv self) k)
  | None => Some (0, self)
  end.

(** [m] is the memory at the caller's buffer, at least [buflen] bytes; the result
    has it after the call. *)
Definition kkc_sock_recv (fuel : nat) (self : kkc_sock) (m : list Z) (buflen : Z)
    (flags : kkc_sock_flags) : option (Z * list Z * kkc_sock) :=
  match op_recv self with
  | Some op =>
      match flags with
      | KKC_SOCK_BLOCK =>
          '(r, s) ← kkc_sock_send_recv fuel (recv_method op flags) (ksock self, m) 0 buflen 0 0;
          Some (r, s.2, mk_sock (op_send self) (op_recv self) s.1)
      | KKC_SOCK_NONBLOCK =>
          let '(r, s) := recv_method op flags (ksock self, m) 0 buflen in
          Some (r, s.2, mk_sock (op_send self) (op_recv self) s.1)
      end
  | None => Some (0, m, self)
  end.

End sock.

Arguments kkc_sock K : clear implicits.

(** *** Unfolding the loop *)

Section loop.
Context {St : Type} (method : St -> Z -> Z -> Z * St).

Lemma loop_done fuel s buf buflen error total :
  buflen <= 0 -> 0 <= error ->
  kkc_sock_send_recv fuel method s buf buflen error total = Some (total, s).
Proof.
  intros. destruct fuel; simpl; replace (0 <? buflen) with false by lia; simpl;
    by rewrite (proj2 (Z.leb_le 0 error)).
Qed.

Lemma loop_error fuel s buf buflen error total :
  error < 0 -> kkc_sock_send_recv fuel method s buf buflen error total = Some (error, s).
Proof.
  intros. destruct fuel; simpl; rewrite (proj2 (Z.leb_gt 0 error)), andb_false_r by lia; done.
Qed.

(** The last result matters only by its sign. *)
Lemma loop_error_irrel fuel s buf buflen error total :
  0 <= error -> kkc_sock_send_recv fuel method s buf buflen error total =
                kkc_sock_send_recv fuel method s buf buflen 0 total.
Proof. intros. destruct fuel; simpl; rewrite (proj2 (Z.leb_le 0 error)) by lia; done. Qed.

Lemma loop_step fuel s buf buflen total e s' :
  0 < buflen -> method s buf buflen = (e, s') ->
  kkc_sock_send_recv (S fuel) method s buf buflen 0 total =
  if 0 <=? e then kkc_sock_send_recv fuel method s' (buf + e) (buflen - e) 0 (total + e)
  else Some (e, s').
Proof.
  intros Hb Hm. simpl. replace (0 <? buflen) with true by lia. simpl. rewrite Hm.
  case_goal; bool_hyps; [by apply loop_error_irrel|by apply loop_error].
Qed.
End loop.

(** *** The loop terminates and transfers everything or fails *)

Section transfer.
Context {K : Type} `{Kernel K}.

Lemma send_loop b flags fuel k buf len :
  0 <= buf -> buf + len = zlen b -> 0 <= len -> (Z.to_nat len <= fuel)%nat ->
  exists r k', kkc_sock_send_recv fuel (send_method kkc_sock_tcp_send b flags) k buf len 0 buf
      = Some (r, k') /\ incoming k' = incoming k /\
    (r < 0 \/ r = zlen b /\ outgoing k' = outgoing k ++ zdrop buf b) /\
    (up k -> 0 <= r /\ up k').
Proof.
  revert k buf len. induction fuel as [|fuel IH]; intros k buf len Hb Hbl Hl Hf.
  all: destruct (Z.eq_dec len 0) as [->|Hl0]; [rewrite loop_done by lia; exists buf, k;
    rewrite (zdrop_all buf), app_nil_r by lia; split_and!; auto with lia|].
  { lia. }
  assert (Hlr : zlen (zdrop buf b) = len) by (rewrite zlen_zdrop; lia).
  destruct (kernel_sendmsg k (zdrop buf b)) as [r k1] eqn:Es.
  rewrite (loop_step _ _ _ _ _ _ r k1) by
    (lia || unfold send_method, kkc_sock_tcp_send; rewrite ztake_all by lia; exact Es).
  destruct (sendmsg_law _ _ _ _ Es) as (Hr & Ho & Hi).
  pose proof (sendmsg_progress _ _ _ _ Es ltac:(lia)) as Hp.
  destruct (0 <=? r) eqn:E; bool_hyps.
  - destruct (IH k1 (buf + r) (len - r)) as (r' & k' & -> & Hi' & Hres & Hup); [lia..|].
    exists r', k'. split_and!; [done|congruence| |].
    + destruct Hres as [?|[? Hout]]; [by left|right]. split; [done|].
      rewrite Hout, Ho, <- app_assoc. f_equal.
      rewrite <- (zdrop_zdrop r buf b) by lia. apply ztake_zdrop.
    + intros Hu. destruct (up_sendmsg _ _ _ _ Es Hu ltac:(lia)). auto.
  - exists r, k1. split_and!; auto with lia.
    intros Hu. destruct (up_sendmsg _ _ _ _ Es Hu ltac:(lia)). lia.
Qed.

Lemma blit_blit buf d1 d2 m :
  0 <= buf -> buf + zlen d1 + zlen d2 <= zlen m ->
  blit (buf + zlen d1) d2 (blit buf d1 m) = blit buf (d1 ++ d2) m.
Proof.
  intros Hb Hm. pose proof (zlen_nonneg d1). pose proof (zlen_nonneg d2).
  apply zext; rewrite ?zlen_blit, ?zlen_app by (rewrite ?zlen_blit, ?zlen_app; lia); [done|].
  intros i Hi.
  rewrite !znth_blit by (rewrite ?zlen_blit, ?zlen_app; lia). rewrite zlen_app.
  destruct (buf + zlen d1 <=? i) eqn:E1, (i <? buf + zlen d1 + zlen d2) eqn:E2,
    (buf <=? i) eqn:E3, (i <? buf + zlen d1) eqn:E4, (i <? buf + (zlen d1 + zlen d2)) eqn:E5;
    simpl; bool_hyps; try lia; try done; rewrite znth_app by lia; case_goal; bool_hyps; try lia;
    f_equal; lia.
Qed.

Lemma recv_loop fuel k m buf len :
  0 <= buf -> buf + len <= zlen m -> 0 <= len -> (Z.to_nat len <= fuel)%nat ->
  exists r k' m', kkc_sock_send_recv fuel (recv_method kkc_sock_tcp_recv KKC_SOCK_BLOCK) (k, m)
      buf len 0 buf = Some (r, (k', m')) /\ outgoing k' = outgoing k /\
    (r < 0 \/ r = buf + len /\ exists d, zlen d = len /\ incoming k = d ++ incoming k' /\
       m' = blit buf d m) /\
    (up k -> len <= zlen (incoming k) -> 0 <= r /\ up k').
Proof.
  revert k m buf len. induction fuel as [|fuel IH]; intros k m buf len Hb Hm Hl Hf.
  all: destruct (Z.eq_dec len 0) as [->|Hl0]; [rewrite loop_done by lia; exists buf, k, m;
    split_and!; auto with lia; right; split; [lia|]; exists []; split_and!; auto; unfold blit;
    rewrite zlen_nil, Z.add_0_r; by rewrite app_nil_l, ztake_zdrop|].
  { lia. }
  destruct (kernel_recvmsg k len false) as [[r d] k1] eqn:Es.
  destruct (recvmsg_law _ _ _ _ _ _ Es ltac:(lia)) as (Hr & Hd & Hi & Ho).
  assert (Hm1 : recv_method kkc_sock_tcp_recv KKC_SOCK_BLOCK (k, m) buf len =
     (if r =? 0 then - ECONNRESET else r, (k1, blit buf d m))).
  { unfold recv_method, kkc_sock_tcp_recv. simpl. rewrite Es.
    replace (0 <? len) with true by lia. by rewrite andb_true_r. }
  assert (Hup1 : up k -> len <= zlen (incoming k) -> 0 < r /\ up k1).
  { intros Hu Hin. apply (up_recvmsg _ _ _ _ _ Es Hu ltac:(lia)). intros E. rewrite E in Hin.
    change (zlen (@nil Z)) with 0 in Hin. lia. }
  erewrite loop_step by (lia || apply Hm1).
  destruct (0 <=? _) eqn:E; bool_hyps.
  - destruct (r =? 0) eqn:E0; bool_hyps; [unfold ECONNRESET in E; lia|].
    assert (Hdr : zlen d = r) by lia.
    destruct (IH k1 (blit buf d m) (buf + r) (len - r)) as (r' & k' & m' & -> & Ho' & Hres & Hup);
      [lia|rewrite zlen_blit; lia|lia|lia|].
    exists r', k', m'. split_and!; [done|congruence| |].
    + destruct Hres as [?|(? & d' & Hd' & Hi' & ->)]; [by left|right]. split; [lia|].
      exists (d ++ d'). rewrite zlen_app, Hi, Hi', <- app_assoc. split_and!; [lia|done|].
      rewrite <- Hdr. apply blit_blit; lia.
    + intros Hu Hin. destruct (Hup1 Hu Hin) as [_ Hu1]. apply Hup; [done|].
      rewrite Hi, zlen_app in Hin. lia.
  - exists (if r =? 0 then - ECONNRESET else r), k1, (blit buf d m).
    split_and!; auto with lia. intros Hu Hin. destruct (Hup1 Hu Hin). exfalso.
    case_hyp E; bool_hyps; lia.
Qed.
End transfer.

(** ** The interface of the message layers

    A socket as the message code sees it: [sk_send] hands over a whole buffer,
    [sk_recv] fills one.  Both either do all of it or return a negative error.
    [sk_sent] and [sk_pending] are the two byte streams. *)
Class Sock (S : Type) := {
  sk_send : S -> list Z -> Z * S;
  sk_recv : S -> Z -> Z * list Z * S;
  sk_sent : S -> list Z;
  sk_pending : S -> list Z;
  sk_up : S -> Prop;
  sk_send_all s b r s' : sk_send s b = (r, s') ->
    sk_pending s' = sk_pending s /\ (r < 0 \/ r = zlen b /\ sk_sent s' = sk_sent s ++ b);
  sk_send_up s b r s' : sk_send s b = (r, s') -> sk_up s -> 0 <= r /\ sk_up s';
  sk_recv_all s n r d s' : 0 <= n -> sk_recv s n = (r, d, s') ->
    sk_sent s' = sk_sent s /\
    (r < 0 \/ r = n /\ zlen d = n /\ sk_pending s = d ++ sk_pending s');
  sk_recv_up s n r d s' : 0 <= n -> sk_recv s n = (r, d, s') -> sk_up s ->
    n <= zlen (sk_pending s) -> 0 <= r /\ sk_up s';
  sk_recv_nonpos s n : n <= 0 -> sk_recv s n = (0, [], s)
}.

Section sock_lemmas.
Context {S : Type} `{Sock S}.

(** Sending, and receiving what is there, on a working connection. *)
Lemma send_up s b :
  sk_up s -> exists s', sk_send s b = (zlen b, s') /\ sk_up s' /\
    sk_sent s' = sk_sent s ++ b /\ sk_pending s' = sk_pending s.
Proof.
  intros Hu. destruct (sk_send s b) as [r s'] eqn:E.
  destruct (sk_send_all _ _ _ _ E) as [Hp Hr]. destruct (sk_send_up _ _ _ _ E Hu) as [H0 Hu'].
  destruct Hr as [?|[-> Hs]]; [lia|]. exists s'. auto.
Qed.

Lemma recv_up s n d rest :
  sk_up s -> sk_pending s = d ++ rest -> n = zlen d ->
  exists s', sk_recv s n = (n, d, s') /\ sk_up s' /\
    sk_pending s' = rest /\ sk_sent s' = sk_sent s.
Proof.
  intros Hu Hp ->. pose proof (zlen_nonneg d) as Hd. destruct (sk_recv s (zlen d)) as [[r d'] s'] eqn:E.
  destruct (sk_recv_all _ _ _ _ _ Hd E) as [Hs Hr].
  destruct (sk_recv_up _ _ _ _ _ Hd E Hu) as [H0 Hu'].
  { rewrite Hp, zlen_app. pose proof (zlen_nonneg rest). lia. }
  destruct Hr as [?|(-> & Hl & Hpend)]; [lia|]. rewrite Hp in Hpend.
  apply app_inj_1 in Hpend as [-> ->]; [eauto 10|]. unfold zlen in Hl. lia.
Qed.
End sock_lemmas.

Section tcp_instance.
Context {K : Type} `{Kernel K}.

Lemma tcp_send_spec k b flags :
  exists r k', kkc_sock_send (length b) (tcp_sock k) b flags = Some (r, tcp_sock k') /\
    incoming k' = incoming k /\
    (r < 0 \/ r = zlen b /\ outgoing k' = outgoing k ++ b) /\
    (up k -> r = zlen b /\ up k').
Proof.
  unfold kkc_sock_send. simpl.
  destruct (send_loop b flags (length b) k 0 (zlen b)) as (r & k' & -> & Hi & Hr & Hup);
    [lia|lia|apply zlen_nonneg|unfold zlen; lia|].
  exists r, k'. rewrite zdrop_0 in Hr by lia. split_and!; auto.
  intros Hu. destruct (Hup Hu). split; [|done]. destruct Hr as [?|[? _]]; lia.
Qed.

Lemma tcp_recv_spec k m buflen :
  0 <= buflen <= zlen m ->
  exists r m' k', kkc_sock_recv (Z.to_nat buflen) (tcp_sock k) m buflen KKC_SOCK_BLOCK
      = Some (r, m', tcp_sock k') /\ outgoing k' = outgoing k /\
    (r < 0 \/ r = buflen /\ zlen m' = zlen m /\
       incoming k = ztake buflen m' ++ incoming k') /\
    (up k -> buflen <= zlen (incoming k) -> r = buflen /\ up k').
Proof.
  intros Hb. unfold kkc_sock_recv. simpl.
  destruct (recv_loop (Z.to_nat buflen) k m 0 buflen) as (r & k' & m' & -> & Ho & Hr & Hup); [lia..|].
  exists r, m', k'. simpl. split_and!; auto.
  - destruct Hr as [?|(-> & d & Hd & Hi & ->)]; [by left|right]. split; [done|].
    rewrite zlen_blit by lia. split; [done|]. rewrite Hi. f_equal. unfold blit.
    rewrite (ztake_0 0) by lia. simpl. rewrite <- Hd. symmetry. apply ztake_app_eq.
  - intros Hu Hin. destruct (Hup Hu Hin). split; [|done]. destruct Hr as [?|[? _]]; lia.
Qed.
(** The TCP socket as a [Sock]. *)
Definition tcp_sk_send (k : K) (b : list Z) : Z * K :=
  match kkc_sock_send (length b) (tcp_sock k) b KKC_SOCK_BLOCK with
  | Some (r, s) => (r, ksock s)
  | None => (0, k)
  end.

Definition tcp_sk_recv (k : K) (n : Z) : Z * list Z * K :=
  match kkc_sock_recv (Z.to_nat n) (tcp_sock k) (replicate (Z.to_nat n) 0) n KKC_SOCK_BLOCK with
  | Some (r, m, s) => (r, m, ksock s)
  | None => (0, [], k)
  end.

#[export] Program Instance tcp_Sock : Sock K := {|
  sk_send := tcp_sk_send; sk_recv := tcp_sk_recv;
  sk_sent := outgoing; sk_pending := incoming; sk_up := up
|}.
Next Obligation.
  intros k b r k'. unfold tcp_sk_send.
  destruct (tcp_send_spec k b KKC_SOCK_BLOCK) as (r1 & k1 & -> & Hi & Hr & _).
  intros [= <- <-]. auto.
Qed.
Next Obligation.
  intros k b r k'. unfold tcp_sk_send.
  destruct (tcp_send_spec k b KKC_SOCK_BLOCK) as (r1 & k1 & -> & _ & _ & Hup).
  intros [= <- <-] Hu. destruct (Hup Hu). split; [zlen_lia|done].
Qed.
Next Obligation.
  intros k n r d k' Hn. unfold tcp_sk_recv.
  destruct (tcp_recv_spec k (replicate (Z.to_nat n) 0) n) as (r1 & m & k1 & -> & Ho & Hr & _);
    [rewrite zlen_replicate; lia|].
  intros [= <- <- <-]. split; [done|].
  destruct Hr as [?|(-> & Hm & Hi)]; [by left|right].
  rewrite zlen_replicate in Hm by lia. rewrite ztake_all in Hi by lia. auto.
Qed.
Next Obligation.
  intros k n r d k' Hn. unfold tcp_sk_recv.
  destruct (tcp_recv_spec k (replicate (Z.to_nat n) 0) n) as (r1 & m & k1 & -> & _ & _ & Hup);
    [rewrite zlen_replicate; lia|].
  intros [= <- <- <-] Hu Hin. destruct (Hup Hu Hin). split; [lia|done].
Qed.
Next Obligation.
  intros k n Hn. unfold tcp_sk_recv, kkc_sock_recv. simpl. rewrite loop_done by lia. simpl.
  by replace (Z.to_nat n) with O by lia.
Qed.

(** C11: [kkc_sock_send] on a TCP socket terminates within as many iterations as
    there are bytes, and then either all the bytes were handed to the kernel in
    order and their number is returned, or a negative error is returned; on a
    working connection it is never an error. *)
Theorem kkc_sock_send_all k b flags :
  exists r k', kkc_sock_send (length b) (tcp_sock k) b flags = Some (r, tcp_sock k') /\
    incoming k' = incoming k /\
    (r < 0 \/ r = zlen b /\ outgoing k' = outgoing k ++ b) /\
    (up k -> r = zlen b /\ up k').
Proof. apply tcp_send_spec. Qed.

(** C12: [kkc_sock_recv] in blocking mode on a TCP socket terminates within
    [buflen] iterations however the stream is cut into segments, and then either
    the buffer holds exactly the next [buflen] bytes of the stream, or a negative
    error is returned; when enough bytes arrive on a working connection it is
    never an error. *)
Theorem kkc_sock_recv_all k m buflen :
  0 <= buflen <= zlen m ->
  exists r m' k', kkc_sock_recv (Z.to_nat buflen) (tcp_sock k) m buflen KKC_SOCK_BLOCK
      = Some (r, m', tcp_sock k') /\ outgoing k' = outgoing k /\
    (r < 0 \/ r = buflen /\ zlen m' = zlen m /\
       incoming k = ztake buflen m' ++ incoming k') /\
    (up k -> buflen <= zlen (incoming k) -> r = buflen /\ up k').
Proof. apply tcp_recv_spec. Qed.
End tcp_instance.

(** ** A kernel that cuts the stream into segments

    [segs] gives the largest transfer of each successive call (1 when it is used
    up). *)
Record seg_kernel := mk_seg { sg_out : list Z; sg_in : list Z; sg_segs : list Z }.

Definition next_seg (k : seg_kernel) : Z := match sg_segs k with s :: _ => Z.max 1 s | [] => 1 end.

Definition seg_send (k : seg_kernel) (b : list Z) : Z * seg_kernel :=
  let n := Z.min (next_seg k) (zlen b) in
  (n, mk_seg (sg_out k ++ ztake n b) (sg_in k) (tail (sg_segs k))).

Definition seg_recv (k : seg_kernel) (n : Z) (dontwait : bool) : Z * list Z * seg_kernel :=
  let m := Z.min (Z.min (next_seg k) (Z.max 0 n)) (zlen (sg_in k)) in
  (m, ztake m (sg_in k), mk_seg (sg_out k) (zdrop m (sg_in k)) (tail (sg_segs k))).

Lemma next_seg_pos k : 1 <= next_seg k.
Proof. unfold next_seg. case_goal; lia. Qed.

#[export] Program Instance seg_Kernel : Kernel seg_kernel := {|
  kernel_sendmsg := seg_send; kernel_recvmsg := seg_recv;
  outgoing := sg_out; incoming := sg_in; up := fun _ => True
|}.
Next Obligation. intros k b r k' [= <- <-]. simpl. split; [lia|done]. Qed.
Next Obligation. intros k b r k' [= <- <-]. pose proof (next_seg_pos k). lia. Qed.
Next Obligation.
  intros k n dw r d k' [= <- <- <-] Hn. pose proof (next_seg_pos k).
  pose proof (zlen_nonneg (sg_in k)). simpl. rewrite zlen_ztake, ztake_zdrop. split_and!; try done; lia.
Qed.
Next Obligation. intros k b r k' [= <- <-]. pose proof (next_seg_pos k). lia. Qed.
Next Obligation.
  intros k n r d k' [= <- <- <-] _ Hn Hin. simpl in Hin. pose proof (next_seg_pos k).
  destruct (sg_in k) as [|x l] eqn:E; [done|]. rewrite zlen_cons.
  pose proof (zlen_nonneg l). split; [lia|done].
Qed.

Lemma kkc_sock_send_all_witness :
  exists k', kkc_sock_send 3 (tcp_sock (mk_seg [9] [] [2])) [1; 2; 3] KKC_SOCK_BLOCK =
    Some (3, tcp_sock k') /\ outgoing k' = [9; 1; 2; 3].
Proof.
  destruct (kkc_sock_send_all (mk_seg [9] [] [2]) [1; 2; 3] KKC_SOCK_BLOCK)
    as (r & k' & E & _ & [Hr|(Hr & Ho)] & Hup).
  - destruct Hup as [Hr' _]; [exact I|]. rewrite Hr' in Hr. discriminate Hr.
  - exists k'. rewrite Hr in E. split; [exact E|exact Ho].
Defined.

Lemma kkc_sock_recv_all_witness :
  exists m' k', kkc_sock_recv 5 (tcp_sock (mk_seg [] [1; 2; 3; 4; 5; 6] [2; 1])) [0; 0; 0; 0; 0] 5
    KKC_SOCK_BLOCK = Some (5, m', tcp_sock k') /\ [1; 2; 3; 4; 5; 6] = m' ++ incoming k'.
Proof.
  destruct (kkc_sock_recv_all (mk_seg [] [1; 2; 3; 4; 5; 6] [2; 1]) [0; 0; 0; 0; 0] 5)
    as (r & m' & k' & E & _ & [Hr|(-> & Hl & Hm)] & Hup);
    [vm_compute; split; congruence| |].
  - destruct Hup as [-> _]; [exact I|vm_compute; congruence|]. lia.
  - exists m', k'. split; [exact E|]. simpl in Hm. rewrite ztake_all in Hm; [exact Hm|].
    rewrite Hl. vm_compute. congruence.
Defined.
