(* ===== verification/KkcAddr.v ===== *)
(** Addresses of the communication library: parsing and printing of
    [a.b.c.d:p] (src/src/kkc/kkc_sock_tcp.c), the architecture prefix and the
    establishing of connections (kkc.c, kkc_arch.h).

    A C string is its list of characters without the terminating NUL. *)

From S2P Require Import Prelude.

Definition str := list Z.
Definition colon : Z := 58.
Definition dot : Z := 46.
Definition nul_free (s : str) : Prop := Forall (fun c => 0 < c < 256) s.

(** ** The C string functions used *)

Fixpoint strchr (s : str) (c : Z) : option nat :=
  match s with
  | [] => None
  | x :: s => if x =? c then Some O else S <$> strchr s c
  end.

(** [strncmp(s, t, n) == 0]. *)
Fixpoint strncmp_eq (s t : str) (n : nat) {struct n} : bool :=
  match n with
  | O => true
  | S n => match s, t with
           | [], [] => true
           | x :: s, y :: t => (x =? y) && strncmp_eq s t n
           | _, _ => false
           end
  end.

Definition is_digit (c : Z) : bool := (48 <=? c) && (c <=? 57).

(** [simple_strtoul] in base 10: the leading digits, modulo the word size. *)
Fixpoint strtoul_from (acc : Z) (s : str) : Z :=
  match s with
  | [] => acc
  | c :: s => if is_digit c then strtoul_from u64[10 * acc + (c - 48)] s else acc
  end.
Definition simple_strtoul (s : str) : Z := strtoul_from 0 s.

(** ["%u"] of [snprintf]: the decimal digits, most significant first. *)
Fixpoint dec_rev (fuel : nat) (n : Z) : str :=
  match fuel with
  | O => []
  | S fuel => (48 + n mod 10) :: if n <? 10 then [] else dec_rev fuel (n / 10)
  end.
Definition print_u (n : Z) : str := rev (dec_rev 20 n).

(** [snprintf] keeps at most [size - 1] characters. *)
Definition snprintf (size : Z) (s : str) : str := ztake (size - 1) s.

Definition htons (n : Z) : Z := le_value (rev (le_bytes 2 n)).
Definition ntohs (n : Z) : Z := htons n.

(** ** TCP addresses *)

Record sockaddr_in := mk_sin { sin_family : Z; sin_port : Z; s_addr : Z }.
Definition AF_INET : Z := 2.
Definition KKC_SOCK_MAX_ADDR_LENGTH : Z := 100.
Definition KKC_MAX_ARCH_LENGTH : Z := 20.

Section tcp_addr.
(** The kernel's conversion of a dotted quad to a network-order address. *)
Context (in_aton : str -> Z).

Definition kkc_sock_tcp_extract_addr (addr : str) (sin : sockaddr_in) : Z * sockaddr_in :=
  match strchr addr colon with
  | None => (- EINVAL, sin)
  | Some colon_pos =>
      if 15 <? Z.of_nat colon_pos then (- EINVAL, sin)
      else
        let tmp_ip := take colon_pos addr in
        let tmp_port := simple_strtoul (drop (S colon_pos) addr) in
        (0, mk_sin AF_INET (htons u16[tmp_port]) (in_aton tmp_ip))
  end.
End tcp_addr.

(** The address as the getters print it. *)
Definition print_ip (a : Z) : str :=
  let p := le_bytes 4 a in
  print_u (znth p 0) ++ [dot] ++ print_u (znth p 1) ++ [dot] ++ print_u (znth p 2) ++
  [dot] ++ print_u (znth p 3).

Definition print_addr (address : sockaddr_in) : str :=
  print_ip (s_addr address) ++ [colon] ++ print_u (ntohs (sin_port address)).

(** [getname] is the result of the socket's own operation: an error or an
    address.  The result is the return value and the caller's buffer. *)
Definition kkc_sock_tcp_getname (getname : Z + sockaddr_in) (size : Z) : Z * str :=
  match getname with
  | inl err => (err, [])
  | inr address => (0, snprintf size (print_addr address))
  end.

Definition tcp_prefix : str := [116; 99; 112; 58].

Definition kkc_sock_tcp_is_address_equal_to (getname : Z + sockaddr_in) (addr : option str)
    (addr_length : Z) : bool :=
  match addr, getname with
  | Some addr, inr address =>
      let name := snprintf KKC_SOCK_MAX_ADDR_LENGTH (tcp_prefix ++ print_addr address) in
      strncmp_eq addr name (Z.to_nat (Z.min addr_length (zlen name)))
  | _, _ => false
  end.

(** ** Architectures and connections *)

Section establish.
(** An architecture; [symbol_get] looks it up by the name of its symbol and takes
    a reference to its module. *)
Context {Arch Sk : Type} (symbol_get : str -> option Arch).

(** "kkc_arch_" *)
Definition KKC_ARCH_PREFIX_STR : str := [107; 107; 99; 95; 97; 114; 99; 104; 95].

Definition kkc_arch_get_by_name (arch_name : str) : option Arch :=
  let size := zlen KKC_ARCH_PREFIX_STR + 1 + KKC_MAX_ARCH_LENGTH in
  let sym := ztake (size - 1) KKC_ARCH_PREFIX_STR in
  symbol_get (ztake (size - 1) (sym ++ arch_name)).

(** The return value, the architecture and the extracted address. *)
Definition kkc_get_architecture (where_ : str) : Z * option Arch * str :=
  match strchr where_ colon with
  | None => (- EINVAL, None, [])
  | Some colon_pos =>
      if KKC_MAX_ARCH_LENGTH - 1 <? Z.of_nat colon_pos then (- EINVAL, None, [])
      else
        let arch_name := take colon_pos where_ in
        let addr := ztake (KKC_SOCK_MAX_ADDR_LENGTH - 1) (drop (S colon_pos) where_) in
        match kkc_arch_get_by_name arch_name with
        | None => (- EINVAL, None, addr)
        | Some arch => (0, Some arch, addr)
        end
  end.

(** [obj_new] is the architecture's constructor: a socket holds a reference of its
    own.  [method] is [kkc_sock_connect] or [kkc_sock_listen].  The result: return
    value, the socket handed to the caller, and the change of the number of
    references to the architecture's module. *)
Definition kkc_establish (obj_new : Arch -> option Sk) (method : Sk -> str -> Z) (where_ : str)
    : Z * option Sk * Z :=
  match kkc_get_architecture where_ with
  | (err, Some arch, addr) =>
      let refs := 1 in
      match obj_new arch with
      | None => (- ENOMEM, None, refs - 1)                          (* exit1 *)
      | Some sock =>
          let refs := refs + 1 in
          if negb (method sock addr =? 0)
          then (- ENOMEM, None, refs - 1 - 1)                        (* exit2, exit1 *)
          else (0, Some sock, refs - 1)
      end
  | (err, None, _) => (- ENOMEM, None, 0)
  end.

Definition kkc_connect (obj_new : Arch -> option Sk) (kkc_sock_connect : Sk -> str -> Z)
    (where_ : str) : Z * option Sk * Z := kkc_establish obj_new kkc_sock_connect where_.
Definition kkc_listen (obj_new : Arch -> option Sk) (kkc_sock_listen : Sk -> str -> Z)
    (where_ : str) : Z * option Sk * Z := kkc_establish obj_new kkc_sock_listen where_.
End establish.

(** ** Decimal numbers *)

Definition digits (s : str) : Prop := Forall (fun c => is_digit c = true) s.

Lemma dec_rev_digits fuel n : digits (dec_rev fuel n).
Proof.
  revert n. induction fuel as [|fuel IH]; intros n; simpl; [constructor|].
  constructor; [|case_goal; [constructor|apply IH]].
  unfold is_digit. pose proof (Z.mod_pos_bound n 10 ltac:(lia)). lia.
Qed.

Lemma strtoul_app s acc c :
  digits s -> is_digit c = true ->
  strtoul_from acc (s ++ [c]) = u64[10 * strtoul_from acc s + (c - 48)].
Proof.
  intros Hs Hc. revert acc. induction Hs as [|x s Hx _ IH]; intros acc; simpl.
  - by rewrite Hc.
  - by rewrite Hx, IH.
Qed.

Lemma strtoul_dec fuel n :
  0 <= n < 2 ^ 64 -> n < 10 ^ Z.of_nat fuel -> strtoul_from 0 (rev (dec_rev fuel n)) = n.
Proof.
  revert n. induction fuel as [|fuel IH]; intros n Hn Hf; [simpl in *; lia|].
  cbn [dec_rev]. pose proof (Z.mod_pos_bound n 10 ltac:(lia)) as Hm.
  assert (Hd : is_digit (48 + n mod 10) = true) by (unfold is_digit; lia).
  destruct (n <? 10) eqn:E; bool_hyps.
  - rewrite Z.mod_small in * by lia. cbn [rev app strtoul_from]. rewrite Hd.
    replace (10 * 0 + (48 + n - 48)) with n by lia. apply uwrap_id. unfold urange. lia.
  - cbn [rev]. rewrite strtoul_app; [|apply Forall_rev, dec_rev_digits|done].
    rewrite IH; [| |].
    + replace (10 * (n / 10) + (48 + n mod 10 - 48)) with n by
        (rewrite (Z.div_mod n 10) at 1 by lia; lia). apply uwrap_id. unfold urange. lia.
    + split; [apply Z.div_pos; lia|]. apply (Z.le_lt_trans _ n); [apply Z.div_le_upper_bound; lia|lia].
    + apply Z.div_lt_upper_bound; [lia|]. rewrite <- Z.pow_succ_r by lia.
      replace (Z.succ (Z.of_nat fuel)) with (Z.of_nat (S fuel)) by lia. done.
Qed.

Lemma strtoul_print n : 0 <= n < 2 ^ 64 -> simple_strtoul (print_u n) = n.
Proof. intros. apply strtoul_dec; [done|]. change (10 ^ Z.of_nat 20) with 100000000000000000000. lia. Qed.

Lemma print_u_digits n : digits (print_u n).
Proof. apply Forall_rev, dec_rev_digits. Qed.

Lemma print_u_length n : 0 <= n < 256 -> (length (print_u n) <= 3)%nat.
Proof.
  intros Hn. unfold print_u. rewrite length_rev. cbn [dec_rev].
  destruct (n <? 10) eqn:E1; bool_hyps; [simpl; lia|].
  destruct (n / 10 <? 10) eqn:E2; bool_hyps; [simpl; lia|].
  replace (n / 10 / 10 <? 10) with true; [simpl; lia|]. symmetry. apply Z.ltb_lt.
  rewrite Z.div_div by lia. apply Z.div_lt_upper_bound; lia.
Qed.

Lemma strchr_skip s t c : Forall (fun x => x <> c) s -> strchr (s ++ c :: t) c = Some (length s).
Proof.
  induction 1 as [|x s Hx _ IH]; simpl; [by rewrite Z.eqb_refl|].
  replace (x =? c) with false by lia. by rewrite IH.
Qed.

Lemma digits_not s c : digits s -> is_digit c = false -> Forall (fun x => x <> c) s.
Proof. intros Hs Hc. induction Hs; constructor; auto. congruence. Qed.

Lemma print_ip_no_colon a : Forall (fun x => x <> colon) (print_ip a).
Proof.
  unfold print_ip. cbv zeta.
  assert (forall n, Forall (fun x => x <> colon) (print_u n)) as Hp.
  { intros n. apply digits_not; [apply print_u_digits|done]. }
  assert (Forall (fun x => x <> colon) [dot]) as Hdot by (repeat constructor; done).
  rewrite !Forall_app. auto 10.
Qed.

Lemma print_ip_length a : (length (print_ip a) <= 15)%nat.
Proof.
  unfold print_ip. cbv zeta.
  assert (forall i, (length (print_u (znth (le_bytes 4 a) i)) <= 3)%nat) as Hp.
  { intros i. apply print_u_length. unfold znth. pose proof (le_bytes_is_bytes 4 a) as Hb.
    destruct (nth_in_or_default (Z.to_nat i) (le_bytes 4 a) 0) as [Hin| ->]; [|lia].
    unfold is_bytes in Hb. rewrite Forall_forall in Hb. apply list_elem_of_In in Hin.
    apply (Hb _ Hin). }
  rewrite !length_app. pose proof (Hp 0). pose proof (Hp 1). pose proof (Hp 2). pose proof (Hp 3).
  simpl (length [dot]). lia.
Qed.

Lemma htons_htons n : 0 <= n < 2 ^ 16 -> htons (htons n) = n.
Proof.
  intros Hn. unfold htons. simpl.
  assert (n = n mod 256 + 256 * (n / 256)) as E by (pose proof (Z.div_mod n 256); lia).
  assert (0 <= n / 256 < 256).
  { split; [apply Z.div_pos; lia|apply Z.div_lt_upper_bound; lia]. }
  pose proof (Z.mod_pos_bound n 256 ltac:(lia)).
  set (lo := n mod 256) in *. set (hi := n / 256) in *. rewrite (Z.mod_small hi) by lia.
  Z.to_euclidean_division_equations. lia.
Qed.

Lemma htons_range n : 0 <= htons n < 2 ^ 16.
Proof.
  unfold htons. apply (le_value_range (rev (le_bytes 2 n))). apply Forall_rev, le_bytes_is_bytes.
Qed.

(** ** Properties *)

(** An address printed by [kkc_sock_tcp_getname] into a buffer that holds it is
    parsed back by [kkc_sock_tcp_extract_addr] to the same IP address and port,
    given that [in_aton] reads a dotted quad. *)
Theorem addr_roundtrip in_aton address size sin :
  (forall a, 0 <= a < 2 ^ 32 -> in_aton (print_ip a) = a) ->
  sin_family address = AF_INET -> 0 <= s_addr address < 2 ^ 32 ->
  0 <= sin_port address < 2 ^ 16 -> zlen (print_addr address) < size ->
  exists name, kkc_sock_tcp_getname (inr address) size = (0, name) /\
    kkc_sock_tcp_extract_addr in_aton name sin = (0, address).
Proof.
  intros Haton Hf Ha Hp Hs. eexists. split; [reflexivity|].
  unfold snprintf. rewrite ztake_all by lia. unfold kkc_sock_tcp_extract_addr, print_addr.
  change ([colon] ++ ?x) with (colon :: x).
  rewrite strchr_skip by apply print_ip_no_colon.
  pose proof (print_ip_length (s_addr address)).
  replace (15 <? _) with false by lia. rewrite take_app_length.
  rewrite (cons_middle colon), app_assoc, drop_app_ge by (rewrite length_app; simpl; lia).
  rewrite length_app. simpl (length [colon]). replace (_ - _)%nat with O by lia.
  rewrite drop_0.
  pose proof (htons_range (sin_port address)) as Hr.
  unfold ntohs in *. rewrite strtoul_print by lia. rewrite uwrap_id by (unfold urange; lia).
  rewrite htons_htons, Haton by done. destruct address. simpl in *. by subst.
Qed.

(** [kkc_sock_tcp_is_address_equal_to] compares only the shorter of the two
    strings: an address whose port extends the socket's own port by more digits is
    taken for equal. *)
Theorem address_equal_is_prefix_test address extra :
  zlen (tcp_prefix ++ print_addr address) < KKC_SOCK_MAX_ADDR_LENGTH ->
  let addr := tcp_prefix ++ print_addr address ++ extra in
  kkc_sock_tcp_is_address_equal_to (inr address) (Some addr) (zlen addr) = true.
Proof.
  intros Hl addr. unfold kkc_sock_tcp_is_address_equal_to, snprintf.
  rewrite ztake_all by lia. subst addr. rewrite app_assoc.
  set (name := tcp_prefix ++ print_addr address) in *. rewrite zlen_app.
  pose proof (zlen_nonneg extra). rewrite Z.min_r by lia. unfold zlen. rewrite Nat2Z.id.
  clearbody name. clear. induction name as [|c name IH]; [done|]. simpl.
  by rewrite Z.eqb_refl, IH.
Qed.

(** [kkc_establish] returns 0 with a connected socket or an error with none; in
    every case the reference it took to the architecture is given back, so that
    only the socket's own reference remains. *)
Theorem kkc_establish_spec {Arch Sk} (symbol_get : str -> option Arch) obj_new
    (method : Sk -> str -> Z) where_ :
  match kkc_establish symbol_get obj_new method where_ with
  | (r, Some sock, refs) => r = 0 /\ refs = 1 /\ exists arch addr,
      kkc_get_architecture symbol_get where_ = (0, Some arch, addr) /\
      obj_new arch = Some sock /\ method sock addr = 0
  | (r, None, refs) => r < 0 /\ refs = 0
  end.
Proof.
  unfold kkc_establish, ENOMEM. destruct (kkc_get_architecture symbol_get where_) as [[err [arch|]] addr] eqn:E.
  - destruct (obj_new arch) as [sock|] eqn:En; [|lia].
    destruct (method sock addr =? 0) eqn:Em; bool_hyps; simpl; [|lia].
    split_and!; auto. exists arch, addr. split_and!; auto.
    unfold kkc_get_architecture in E. repeat case_hyp E; congruence.
  - lia.
Qed.

(** *** Witnesses *)

Definition ex_addr : sockaddr_in := mk_sin AF_INET (htons 54) (le_value [10; 0; 0; 1]).

(** A reader of dotted quads. *)
Fixpoint split_dots (cur s : str) : list str :=
  match s with
  | [] => [cur]
  | c :: s => if c =? dot then cur :: split_dots [] s else split_dots (cur ++ [c]) s
  end.
Definition quad_aton (s : str) : Z := le_value (simple_strtoul <$> split_dots [] s).

Lemma split_dots_skip s t cur :
  digits s -> split_dots cur (s ++ [dot] ++ t) = (cur ++ s) :: split_dots [] t.
Proof.
  intros Hs. revert cur. induction Hs as [|c s Hc Hs IH]; intros cur.
  - by rewrite app_nil_r.
  - simpl. destruct (c =? dot) eqn:E; bool_hyps; [by subst|].
    rewrite IH, <- app_assoc. done.
Qed.

Lemma split_dots_end s cur : digits s -> split_dots cur s = [cur ++ s].
Proof.
  intros Hs. revert cur. induction Hs as [|c s Hc Hs IH]; intros cur; simpl.
  - by rewrite app_nil_r.
  - destruct (c =? dot) eqn:E; bool_hyps; [by subst|]. rewrite IH, <- app_assoc. done.
Qed.

Lemma quad_aton_print a : 0 <= a < 2 ^ 32 -> quad_aton (print_ip a) = a.
Proof.
  intros Ha. unfold quad_aton, print_ip. cbv zeta.
  rewrite !split_dots_skip, split_dots_end by apply print_u_digits.
  pose proof (le_value_le_bytes 4 a) as E. rewrite Z.mod_small in E by (simpl; lia).
  simpl (_ <$> _). rewrite !strtoul_print; [exact E|..]; simpl; unfold znth; simpl;
    (split; [apply Z.mod_pos_bound; lia|]);
    (eapply Z.lt_trans; [apply Z.mod_pos_bound; lia|lia]).
Qed.

Lemma addr_roundtrip_witness :
  exists name, kkc_sock_tcp_getname (inr ex_addr) 100 = (0, name) /\
    kkc_sock_tcp_extract_addr quad_aton name ex_addr = (0, ex_addr).
Proof.
  apply addr_roundtrip; [apply quad_aton_print|reflexivity| | |]; vm_compute;
    try split; congruence.
Defined.

(** Port 54 is taken for port 5432. *)
Lemma address_equal_is_prefix_test_witness :
  kkc_sock_tcp_is_address_equal_to (inr ex_addr)
    (Some (tcp_prefix ++ print_addr ex_addr ++ [51; 50]))
    (zlen (tcp_prefix ++ print_addr ex_addr ++ [51; 50])) = true.
Proof. apply (address_equal_is_prefix_test ex_addr [51; 50]). vm_compute. reflexivity. Defined.
