(* ===== verification/MsgId.v ===== *)
(** Message identifiers, descriptors and the factory
    (src/src/tcmi/comm/tcmi_messages_id.h, tcmi_messages_dsc.h,
    tcmi_msg_factory.c, and [tcmi_msg_new_rx] of tcmi_msg.c).

    A 32-bit message id has two flag bits, a 14-bit group and a 16-bit index.
    The factory maps the id of an incoming message to the class whose
    constructor it calls. *)

From S2P Require Import Prelude.

(** ** Bit fields *)

Definition TCMI_MSG_INDEX_BITS : Z := 16.
Definition TCMI_MSG_GROUP_BITS : Z := 14.
Definition TCMI_MSG_FLG_BITS : Z := 2.
Definition TCMI_MSG_TYPE_BITS : Z := TCMI_MSG_GROUP_BITS + TCMI_MSG_INDEX_BITS.
Definition TCMI_MSG_INDEX_MSK : Z := Z.shiftl 1 TCMI_MSG_INDEX_BITS - 1.
Definition TCMI_MSG_INDEX (msg_id : Z) : Z := Z.land msg_id TCMI_MSG_INDEX_MSK.
Definition TCMI_MSG_GROUP_MSK : Z := Z.shiftl 1 TCMI_MSG_GROUP_BITS - 1.
Definition TCMI_MSG_GROUP (msg_id : Z) : Z :=
  Z.land (Z.shiftr msg_id TCMI_MSG_INDEX_BITS) TCMI_MSG_GROUP_MSK.
Definition TCMI_MSG_TYPE_MSK : Z := Z.shiftl 1 TCMI_MSG_TYPE_BITS - 1.
Definition TCMI_MSG_TYPE (msg_id : Z) : Z := Z.land msg_id TCMI_MSG_TYPE_MSK.
Definition TCMI_MSG_FLG_MSK : Z := Z.shiftl 1 TCMI_MSG_FLG_BITS - 1.
Definition TCMI_MSG_FLG (msg_id : Z) : Z :=
  Z.land (Z.shiftr msg_id TCMI_MSG_TYPE_BITS) TCMI_MSG_FLG_MSK.
Definition TCMI_MSG_FLG_SHIFT : Z := TCMI_MSG_TYPE_BITS.
Definition TCMI_MSG_SET_GRP (grp : Z) : Z := Z.shiftl grp TCMI_MSG_INDEX_BITS.
Definition TCMI_MSG_REGFLGS : Z := 0.
Definition TCMI_MSG_ERRFLGS : Z := 1.
Definition TCMI_MSG_FLG_SET_ERR (id : Z) : Z :=
  Z.lor id (Z.shiftl TCMI_MSG_ERRFLGS TCMI_MSG_FLG_SHIFT).

(** ** Groups and ids *)

Definition TCMI_MSG_GROUP_MIG : Z := 0.
Definition TCMI_MSG_GROUP_PROC : Z := 1.
Definition TCMI_MSG_GROUP_LAST : Z := 2.
Definition TCMI_MSG_GROUP_ANY : Z := 4294967295.

Definition TCMI_SKEL_MSG_ID : Z := TCMI_MSG_SET_GRP TCMI_MSG_GROUP_MIG.
Definition TCMI_SKELRESP_MSG_ID : Z := TCMI_SKEL_MSG_ID + 1.
Definition TCMI_AUTHENTICATE_MSG_ID : Z := TCMI_SKELRESP_MSG_ID + 1.
Definition TCMI_AUTHENTICATE_RESP_MSG_ID : Z := TCMI_AUTHENTICATE_MSG_ID + 1.
Definition TCMI_DISCONNECT_MSG_ID : Z := TCMI_AUTHENTICATE_RESP_MSG_ID + 1.
Definition TCMI_P_EMIGRATE_MSG_ID : Z := TCMI_DISCONNECT_MSG_ID + 1.
Definition TCMI_SIGNAL_MSG_ID : Z := TCMI_P_EMIGRATE_MSG_ID + 1.
Definition TCMI_GENERIC_USER_MSG_ID : Z := TCMI_SIGNAL_MSG_ID + 1.
Definition TCMI_LAST_MSG_ID : Z := TCMI_GENERIC_USER_MSG_ID + 1.

Definition TCMI_SKEL_PROCMSG_ID : Z := TCMI_MSG_SET_GRP TCMI_MSG_GROUP_PROC.
Definition TCMI_SKELRESP_PROCMSG_ID : Z := TCMI_SKEL_PROCMSG_ID + 1.
Definition TCMI_EXIT_PROCMSG_ID : Z := TCMI_SKELRESP_PROCMSG_ID + 1.
Definition TCMI_VFORK_DONE_PROCMSG_ID : Z := TCMI_EXIT_PROCMSG_ID + 1.
Definition TCMI_GUEST_STARTED_PROCMSG_ID : Z := TCMI_VFORK_DONE_PROCMSG_ID + 1.
Definition TCMI_PPM_P_MIGR_BACK_GUESTREQ_PROCMSG_ID : Z := TCMI_GUEST_STARTED_PROCMSG_ID + 1.
Definition TCMI_PPM_P_MIGR_BACK_SHADOWREQ_PROCMSG_ID : Z :=
  TCMI_PPM_P_MIGR_BACK_GUESTREQ_PROCMSG_ID + 1.
Definition TCMI_RPC_PROCMSG_ID : Z := TCMI_PPM_P_MIGR_BACK_SHADOWREQ_PROCMSG_ID + 1.
Definition TCMI_RPCRESP_PROCMSG_ID : Z := TCMI_RPC_PROCMSG_ID + 1.
Definition TCMI_LAST_PROCMSG_ID : Z := TCMI_RPCRESP_PROCMSG_ID + 1.

(** ** Classes and descriptors *)

Inductive msg_class :=
| C_SKEL_MSG | C_SKELRESP_MSG | C_AUTHENTICATE_MSG | C_AUTHENTICATE_RESP_MSG
| C_DISCONNECT_MSG | C_P_EMIGRATE_MSG | C_SIGNAL_MSG | C_GENERIC_USER_MSG
| C_SKEL_PROCMSG | C_SKELRESP_PROCMSG | C_EXIT_PROCMSG | C_VFORK_DONE_PROCMSG
| C_GUEST_STARTED_PROCMSG | C_MIGR_BACK_GUESTREQ_PROCMSG | C_MIGR_BACK_SHADOWREQ_PROCMSG
| C_RPC_PROCMSG | C_RPCRESP_PROCMSG
| C_ERR_MSG | C_ERR_PROCMSG.

Global Instance msg_class_eq_dec : EqDecision msg_class.
Proof. solve_decision. Defined.

(** The id a class's receiving constructor insists on; the two error classes
    accept any id. *)
Definition class_id (c : msg_class) : option Z :=
  match c with
  | C_SKEL_MSG => Some TCMI_SKEL_MSG_ID
  | C_SKELRESP_MSG => Some TCMI_SKELRESP_MSG_ID
  | C_AUTHENTICATE_MSG => Some TCMI_AUTHENTICATE_MSG_ID
  | C_AUTHENTICATE_RESP_MSG => Some TCMI_AUTHENTICATE_RESP_MSG_ID
  | C_DISCONNECT_MSG => Some TCMI_DISCONNECT_MSG_ID
  | C_P_EMIGRATE_MSG => Some TCMI_P_EMIGRATE_MSG_ID
  | C_SIGNAL_MSG => Some TCMI_SIGNAL_MSG_ID
  | C_GENERIC_USER_MSG => Some TCMI_GENERIC_USER_MSG_ID
  | C_SKEL_PROCMSG => Some TCMI_SKEL_PROCMSG_ID
  | C_SKELRESP_PROCMSG => Some TCMI_SKELRESP_PROCMSG_ID
  | C_EXIT_PROCMSG => Some TCMI_EXIT_PROCMSG_ID
  | C_VFORK_DONE_PROCMSG => Some TCMI_VFORK_DONE_PROCMSG_ID
  | C_GUEST_STARTED_PROCMSG => Some TCMI_GUEST_STARTED_PROCMSG_ID
  | C_MIGR_BACK_GUESTREQ_PROCMSG => Some TCMI_PPM_P_MIGR_BACK_GUESTREQ_PROCMSG_ID
  | C_MIGR_BACK_SHADOWREQ_PROCMSG => Some TCMI_PPM_P_MIGR_BACK_SHADOWREQ_PROCMSG_ID
  | C_RPC_PROCMSG => Some TCMI_RPC_PROCMSG_ID
  | C_RPCRESP_PROCMSG => Some TCMI_RPCRESP_PROCMSG_ID
  | C_ERR_MSG | C_ERR_PROCMSG => None
  end.

(** The receiving constructor of a class: the check of the id and the id stored in
    the new message. *)
Definition class_new_rx (kmalloc_ok : bool) (c : msg_class) (msg_id : Z) : option (msg_class * Z) :=
  match class_id c with
  | Some own =>
      if negb (msg_id =? own) then None
      else if negb kmalloc_ok then None else Some (c, own)
  | None => if negb kmalloc_ok then None else Some (c, TCMI_MSG_FLG_SET_ERR msg_id)
  end.

Record tcmi_msg_dsc := mk_dsc {
  dsc_msg_id : Z;
  dsc_new_rx : option msg_class;
  dsc_new_rx_err : option msg_class
}.

Definition mig_messages : list tcmi_msg_dsc :=
  [ mk_dsc TCMI_SKEL_MSG_ID (Some C_SKEL_MSG) None;
    mk_dsc TCMI_SKELRESP_MSG_ID (Some C_SKELRESP_MSG) (Some C_ERR_MSG);
    mk_dsc TCMI_AUTHENTICATE_MSG_ID (Some C_AUTHENTICATE_MSG) None;
    mk_dsc TCMI_AUTHENTICATE_RESP_MSG_ID (Some C_AUTHENTICATE_RESP_MSG) (Some C_ERR_MSG);
    mk_dsc TCMI_DISCONNECT_MSG_ID (Some C_DISCONNECT_MSG) None;
    mk_dsc TCMI_P_EMIGRATE_MSG_ID (Some C_P_EMIGRATE_MSG) None;
    mk_dsc TCMI_SIGNAL_MSG_ID (Some C_SIGNAL_MSG) None;
    mk_dsc TCMI_GENERIC_USER_MSG_ID (Some C_GENERIC_USER_MSG) None ].

Definition proc_messages : list tcmi_msg_dsc :=
  [ mk_dsc TCMI_SKEL_PROCMSG_ID (Some C_SKEL_PROCMSG) None;
    mk_dsc TCMI_SKELRESP_PROCMSG_ID (Some C_SKELRESP_PROCMSG) (Some C_ERR_PROCMSG);
    mk_dsc TCMI_EXIT_PROCMSG_ID (Some C_EXIT_PROCMSG) None;
    mk_dsc TCMI_VFORK_DONE_PROCMSG_ID (Some C_VFORK_DONE_PROCMSG) None;
    mk_dsc TCMI_GUEST_STARTED_PROCMSG_ID (Some C_GUEST_STARTED_PROCMSG) (Some C_ERR_PROCMSG);
    mk_dsc TCMI_PPM_P_MIGR_BACK_GUESTREQ_PROCMSG_ID (Some C_MIGR_BACK_GUESTREQ_PROCMSG)
      (Some C_ERR_PROCMSG);
    mk_dsc TCMI_PPM_P_MIGR_BACK_SHADOWREQ_PROCMSG_ID (Some C_MIGR_BACK_SHADOWREQ_PROCMSG)
      (Some C_ERR_PROCMSG);
    mk_dsc TCMI_RPC_PROCMSG_ID (Some C_RPC_PROCMSG) None;
    mk_dsc TCMI_RPCRESP_PROCMSG_ID (Some C_RPCRESP_PROCMSG) (Some C_ERR_PROCMSG) ].

Record tcmi_msg_group := mk_group { grp_dsc : list tcmi_msg_dsc; msg_count : Z }.

Definition msg_groups : list tcmi_msg_group :=
  [ mk_group mig_messages (TCMI_MSG_INDEX TCMI_LAST_MSG_ID);
    mk_group proc_messages (TCMI_MSG_INDEX TCMI_LAST_PROCMSG_ID) ].

(** ** Construction of received messages *)

Definition tcmi_msg_new_rx (kmalloc_ok : bool) (msg_id : Z) (dsc : tcmi_msg_dsc)
    : option (msg_class * Z) :=
  if negb (TCMI_MSG_TYPE msg_id =? TCMI_MSG_TYPE (dsc_msg_id dsc)) then None
  else if TCMI_MSG_FLG msg_id =? TCMI_MSG_REGFLGS then
    c ← dsc_new_rx dsc; class_new_rx kmalloc_ok c msg_id
  else if TCMI_MSG_FLG msg_id =? TCMI_MSG_ERRFLGS then
    c ← dsc_new_rx_err dsc; class_new_rx kmalloc_ok c msg_id
  else None.

(** An index outside the tables would read beyond an array; the guards of the
    factory are shown to exclude it, and the lookup gives NULL here. *)
Definition tcmi_msg_factory (kmalloc_ok : bool) (msg_id msg_group : Z) : option (msg_class * Z) :=
  let group_id := TCMI_MSG_GROUP msg_id in
  let index := TCMI_MSG_INDEX msg_id in
  if negb (group_id =? msg_group) && negb (msg_group =? TCMI_MSG_GROUP_ANY) then None
  else if negb ((group_id <? TCMI_MSG_GROUP_LAST) &&
                match msg_groups !! Z.to_nat group_id with
                | Some g => index <? msg_count g
                | None => false
                end) then None
  else
    g ← msg_groups !! Z.to_nat group_id;
    d ← grp_dsc g !! Z.to_nat index;
    tcmi_msg_new_rx kmalloc_ok msg_id d.

(** ** Lemmas on the bit fields *)

Lemma land_ones_mod z k : 0 <= k -> Z.land z (Z.shiftl 1 k - 1) = z mod 2 ^ k.
Proof.
  intros. rewrite Z.shiftl_1_l. replace (2 ^ k - 1) with (Z.ones k) by (rewrite Z.ones_equiv; lia).
  by apply Z.land_ones.
Qed.

Lemma index_mod z : TCMI_MSG_INDEX z = z mod 2 ^ 16.
Proof. apply land_ones_mod. done. Qed.
Lemma group_mod z : TCMI_MSG_GROUP z = z / 2 ^ 16 mod 2 ^ 14.
Proof. unfold TCMI_MSG_GROUP, TCMI_MSG_GROUP_MSK. rewrite land_ones_mod by done. by rewrite Z.shiftr_div_pow2. Qed.
Lemma type_mod z : TCMI_MSG_TYPE z = z mod 2 ^ 30.
Proof. apply land_ones_mod. done. Qed.
Lemma flg_mod z : TCMI_MSG_FLG z = z / 2 ^ 30 mod 2 ^ 2.
Proof. unfold TCMI_MSG_FLG, TCMI_MSG_FLG_MSK. rewrite land_ones_mod by done. by rewrite Z.shiftr_div_pow2. Qed.

Lemma set_err_regular z : 0 <= z < 2 ^ 30 -> TCMI_MSG_FLG_SET_ERR z = z + 2 ^ 30.
Proof.
  intros Hz. unfold TCMI_MSG_FLG_SET_ERR. change (Z.shiftl TCMI_MSG_ERRFLGS TCMI_MSG_FLG_SHIFT) with (2 ^ 30).
  symmetry. rewrite <- Z.add_lor_land. enough (Z.land z (2 ^ 30) = 0) by lia.
  apply Z.bits_inj'. intros n Hn. rewrite Z.land_spec, Z.pow2_bits_eqb, Z.bits_0 by lia.
  destruct (Z.eqb_spec 30 n) as [<-|]; [|by rewrite andb_false_r].
  rewrite andb_true_r. destruct (Z.eq_dec z 0) as [->|]; [apply Z.bits_0|].
  apply Z.bits_above_log2; [lia|]. apply Z.log2_lt_pow2; lia.
Qed.

Lemma id_decompose z :
  0 <= z < 2 ^ 32 ->
  z = TCMI_MSG_FLG z * 2 ^ 30 + TCMI_MSG_GROUP z * 2 ^ 16 + TCMI_MSG_INDEX z /\
  0 <= TCMI_MSG_FLG z < 4 /\ 0 <= TCMI_MSG_GROUP z < 2 ^ 14 /\ 0 <= TCMI_MSG_INDEX z < 2 ^ 16.
Proof.
  intros Hz. rewrite flg_mod, group_mod, index_mod.
  change (2 ^ 30) with 1073741824. change (2 ^ 16) with 65536. change (2 ^ 14) with 16384.
  change (2 ^ 2) with 4. change (2 ^ 32) with 4294967296 in Hz.
  Z.to_euclidean_division_equations. lia.
Qed.

(** The ids that pass the factory's range checks are the 17 message types, each
    with one of the four flag values. *)
Definition known_types : list Z :=
  dsc_msg_id <$> (mig_messages ++ proc_messages).

Lemma factory_known km z grp r :
  0 <= z < 2 ^ 32 -> tcmi_msg_factory km z grp = Some r ->
  exists f t, 0 <= f < 4 /\ t ∈ known_types /\ z = f * 2 ^ 30 + t.
Proof.
  intros Hz H. destruct (id_decompose z Hz) as (E & Hf & Hg & Hi).
  exists (TCMI_MSG_FLG z), (TCMI_MSG_GROUP z * 2 ^ 16 + TCMI_MSG_INDEX z).
  split; [done|]. split; [|lia]. unfold tcmi_msg_factory in H. clear E.
  destruct (negb (TCMI_MSG_GROUP z =? grp) && _); [done|].
  set (g := TCMI_MSG_GROUP z) in *. set (i := TCMI_MSG_INDEX z) in *. clearbody g i.
  destruct (negb (_ && _)) eqn:Eg; [done|]. clear H. bool_hyps.
  assert (g = 0 \/ g = 1) as [-> | ->] by (unfold TCMI_MSG_GROUP_LAST in *; lia).
  - assert (i < 8) by (simpl in *; bool_hyps; assumption).
    assert (i = 0 \/ i = 1 \/ i = 2 \/ i = 3 \/ i = 4 \/ i = 5 \/ i = 6 \/ i = 7) as Hc by lia.
    destruct_or! Hc; subst; vm_compute; set_solver.
  - assert (i < 9) by (simpl in *; bool_hyps; assumption).
    assert (i = 0 \/ i = 1 \/ i = 2 \/ i = 3 \/ i = 4 \/ i = 5 \/ i = 6 \/ i = 7 \/ i = 8) as Hc by lia.
    destruct_or! Hc; subst; vm_compute; set_solver.
Qed.

Definition is_resp_type (t : Z) : bool :=
  match List.find (fun d => dsc_msg_id d =? t) (mig_messages ++ proc_messages) with
  | Some d => match dsc_new_rx_err d with Some _ => true | None => false end
  | None => false
  end.

(** ** Properties *)

(** Whatever 32-bit id arrives, a message the factory builds is the right one:
    a regular id gives the class that owns this id, an error id gives an error
    message whose type has an error form, the id is kept, and the requested group
    is respected. *)
Theorem factory_sound km z grp c own :
  0 <= z < 2 ^ 32 -> tcmi_msg_factory km z grp = Some (c, own) ->
  own = z /\ (grp = TCMI_MSG_GROUP z \/ grp = TCMI_MSG_GROUP_ANY) /\
  ((TCMI_MSG_FLG z = TCMI_MSG_REGFLGS /\ class_id c = Some z) \/
   (TCMI_MSG_FLG z = TCMI_MSG_ERRFLGS /\ class_id c = None /\
    is_resp_type (TCMI_MSG_TYPE z) = true)).
Proof.
  intros Hz H. destruct (factory_known _ _ _ _ Hz H) as (f & t & Hf & Ht & Ez).
  assert (Hgrp : grp = TCMI_MSG_GROUP z \/ grp = TCMI_MSG_GROUP_ANY).
  { unfold tcmi_msg_factory in H. destruct (negb (_ =? grp) && _) eqn:E; [done|].
    apply andb_false_iff in E. rewrite !negb_false_iff, !Z.eqb_eq in E. destruct E as [E|E]; [left; congruence|right; congruence]. }
  assert (Hm : tcmi_msg_factory km z TCMI_MSG_GROUP_ANY = Some (c, own)).
  { revert H. unfold tcmi_msg_factory. rewrite Z.eqb_refl, andb_false_r.
    destruct (negb (_ =? grp) && _); [done|]. auto. }
  clear H. split; [|split; [done|]]; clear Hgrp; destruct km.
  all: assert (f = 0 \/ f = 1 \/ f = 2 \/ f = 3) as Hc by lia; clear Hf Hz.
  all: unfold known_types in Ht; cbn in Ht; rewrite !elem_of_cons, elem_of_nil in Ht.
  all: destruct_or! Hc; destruct_or! Ht; subst; vm_compute in Hm; try discriminate Hm;
    injection Hm as <- <-; vm_compute; auto.
Qed.

(** The factory builds every regular message class from its own id, in its own
    group or in any. *)
Lemma factory_complete c i :
  class_id c = Some i ->
  tcmi_msg_factory true i (TCMI_MSG_GROUP i) = Some (c, i) /\
  tcmi_msg_factory true i TCMI_MSG_GROUP_ANY = Some (c, i).
Proof. destruct c; intros [= <-]; vm_compute; done. Qed.

(** The error form of an id keeps its type, group and index, so that an error
    response completes the same transaction as the regular one. *)
Lemma err_id_same_type z :
  0 <= z < 2 ^ 30 ->
  TCMI_MSG_TYPE (TCMI_MSG_FLG_SET_ERR z) = TCMI_MSG_TYPE z /\
  TCMI_MSG_GROUP (TCMI_MSG_FLG_SET_ERR z) = TCMI_MSG_GROUP z /\
  TCMI_MSG_INDEX (TCMI_MSG_FLG_SET_ERR z) = TCMI_MSG_INDEX z /\
  TCMI_MSG_FLG (TCMI_MSG_FLG_SET_ERR z) = TCMI_MSG_ERRFLGS.
Proof.
  intros Hz. rewrite set_err_regular by done. rewrite !type_mod, !group_mod, !index_mod, flg_mod.
  unfold TCMI_MSG_ERRFLGS. change (2 ^ 30) with 1073741824 in *. change (2 ^ 16) with 65536.
  change (2 ^ 14) with 16384. change (2 ^ 2) with 4.
  Z.to_euclidean_division_equations. lia.
Qed.

(** *** Witnesses *)

Lemma factory_sound_witness :
  tcmi_msg_factory true 1073741825 TCMI_MSG_GROUP_MIG = Some (C_ERR_MSG, 1073741825) /\
  is_resp_type (TCMI_MSG_TYPE 1073741825) = true.
Proof.
  split; [reflexivity|].
  destruct (factory_sound true 1073741825 TCMI_MSG_GROUP_MIG C_ERR_MSG 1073741825)
    as (_ & _ & [[E _]|(_ & _ & H)]); [lia|reflexivity| |exact H].
  vm_compute in E. discriminate E.
Defined.
