(* ===== verification/Messages.v ===== *)
(** The contents of the protocol messages and how each class puts them on, and
    takes them off, a connection (src/src/tcmi/comm/tcmi_*_msg.c and
    tcmi_*_procmsg.c).

    Everything is proved against the socket interface [Sock].  A receive operation
    returns its C return value, the message with the fields filled so far and the
    socket; [km i n] tells whether the [i]-th allocation of the function, of [n]
    bytes, succeeds.  Integer fields travel as their little-endian memory image. *)

From S2P Require Import Prelude KkcSock MsgId.

(** ** Contents of the messages *)

Record tcmi_authenticate_msg := mk_auth {
  pen_id : Z; pen_arch : Z; auth_size : Z; auth_data : option (list Z)
}.

(** The three packed strings of [struct fs_mount_params]. *)
Definition TCMI_FS_MOUNT_LENGTH : Z := 80.
Definition TCMI_FS_MOUNT_OPTIONS_LENGTH : Z := 128.
Definition TCMI_FS_MOUNT_DEVICE_LENGTH : Z := 64.
Record fs_mount_params := mk_mount {
  mount_type : list Z; mount_options : list Z; mount_device : list Z
}.

Record tcmi_authenticate_resp_msg := mk_auth_resp {
  ccn_id : Z; ccn_arch : Z; mount_params : fs_mount_params; result_code : Z
}.

Record tcmi_p_emigrate_msg := mk_emigrate {
  reply_pid : Z; em_size : Z; exec_name_size : Z;
  euid : Z; egid : Z; fsuid : Z; fsgid : Z;
  exec_name : option (list Z); em_ckpt_name : option (list Z)
}.

Record tcmi_signal_msg := mk_signal { sig_pid : Z; sig_info : list Z }.

Record tcmi_generic_user_msg := mk_user {
  node_id : Z; user_size : Z; user_data : option (list Z)
}.

Record tcmi_guestreq_procmsg := mk_guestreq { gr_size : Z; gr_ckpt_name : option (list Z) }.

(** [elem_base]: the memory readable from each element pointer on. *)
Record tcmi_rpc_procmsg := mk_rpc {
  rpcnum : Z; nmemb : Z; elem_size : list Z; elem_base : list (list Z); free_data : bool
}.

Record tcmi_rpcresp_procmsg := mk_rpcresp {
  r_rpcnum : Z; r_nmemb : Z; rtn_code : Z;
  elem_free : list Z; r_elem_size : list Z; r_elem_base : list (list Z)
}.

Definition TCMI_RPCRESP_PROCMSG_DONTFREE : Z := 1.
Definition TCMI_RPCRESP_PROCMSG_KFREE : Z := 2.
Definition TCMI_RPCRESP_PROCMSG_VFREE : Z := 3.

Definition tcmi_rpc_procmsg_data_base (self : tcmi_rpc_procmsg) (i : Z) : option (list Z) :=
  if i <? nmemb self then elem_base self !! Z.to_nat i else None.
Definition tcmi_rpc_procmsg_data_size (self : tcmi_rpc_procmsg) (i : Z) : Z :=
  if i <? nmemb self then znth (elem_size self) i else 0.
Definition tcmi_rpcresp_procmsg_data_base (self : tcmi_rpcresp_procmsg) (i : Z) : option (list Z) :=
  if i <? r_nmemb self then r_elem_base self !! Z.to_nat i else None.
Definition tcmi_rpcresp_procmsg_data_size (self : tcmi_rpcresp_procmsg) (i : Z) : Z :=
  if i <? r_nmemb self then znth (r_elem_size self) i else 0.

(** The body of a message of any class. *)
Inductive msg_body :=
| B_skel_msg | B_skelresp_msg
| B_authenticate (m : tcmi_authenticate_msg)
| B_authenticate_resp (m : tcmi_authenticate_resp_msg)
| B_disconnect
| B_p_emigrate (m : tcmi_p_emigrate_msg)
| B_signal (m : tcmi_signal_msg)
| B_generic_user (m : tcmi_generic_user_msg)
| B_err (err_code : Z)
| B_proc (dst_pid enforce_migmode : Z) (b : proc_body)
with proc_body :=
| P_skel | P_skelresp
| P_exit (code : Z)
| P_vfork_done
| P_guest_started (guest_pid : Z)
| P_guestreq (m : tcmi_guestreq_procmsg)
| P_shadowreq
| P_rpc (m : tcmi_rpc_procmsg)
| P_rpcresp (m : tcmi_rpcresp_procmsg)
| P_err (err_code : Z).

Section wire.
Context {S : Type} `{Sock S}.
Context (km : nat -> Z -> bool).

(** ** Receiving *)

Definition tcmi_authenticate_msg_recv (self : tcmi_authenticate_msg) (s : S)
    : Z * tcmi_authenticate_msg * S :=
  let '(err, d, s) := sk_recv s 4 in
  if err <? 0 then (err, self, s) else
  let self := mk_auth (le_value d) (pen_arch self) (auth_size self) (auth_data self) in
  let '(err, d, s) := sk_recv s 4 in
  if err <? 0 then (err, self, s) else
  let self := mk_auth (pen_id self) (le_value d) (auth_size self) (auth_data self) in
  let '(err, d, s) := sk_recv s 4 in
  if err <? 0 then (err, self, s) else
  let self := mk_auth (pen_id self) (pen_arch self) (le_value d) (auth_data self) in
  if 0 <? auth_size self then
    if negb (km 0 (auth_size self))
    then (err, mk_auth (pen_id self) (pen_arch self) (auth_size self) None, s)
    else
      let '(err, d, s) := sk_recv s s32[auth_size self] in
      let self := mk_auth (pen_id self) (pen_arch self) (auth_size self) (Some d) in
      if err <? 0 then (err, self, s) else (0, self, s)
  else (0, mk_auth (pen_id self) (pen_arch self) (auth_size self) None, s).

Definition tcmi_authenticate_resp_msg_recv (self : tcmi_authenticate_resp_msg) (s : S)
    : Z * tcmi_authenticate_resp_msg * S :=
  let '(err, d, s) := sk_recv s 4 in
  if err <? 0 then (err, self, s) else
  let self := mk_auth_resp (le_value d) (ccn_arch self) (mount_params self) (result_code self) in
  let '(err, d, s) := sk_recv s 4 in
  if err <? 0 then (err, self, s) else
  let self := mk_auth_resp (ccn_id self) (le_value d) (mount_params self) (result_code self) in
  let '(err, d, s) := sk_recv s 1 in
  if err <? 0 then (err, self, s) else
  let self := mk_auth_resp (ccn_id self) (ccn_arch self) (mount_params self) s8[le_value d] in
  let '(err, d, s) := sk_recv s (TCMI_FS_MOUNT_LENGTH + TCMI_FS_MOUNT_OPTIONS_LENGTH +
                                 TCMI_FS_MOUNT_DEVICE_LENGTH) in
  if err <? 0 then (err, self, s) else
  let p := mk_mount (ztake TCMI_FS_MOUNT_LENGTH d)
             (ztake TCMI_FS_MOUNT_OPTIONS_LENGTH (zdrop TCMI_FS_MOUNT_LENGTH d))
             (zdrop (TCMI_FS_MOUNT_LENGTH + TCMI_FS_MOUNT_OPTIONS_LENGTH) d) in
  (0, mk_auth_resp (ccn_id self) (ccn_arch self) p (result_code self), s).

(** The bytes [i .. i + n - 1] of a packed structure. *)
Definition at_ (d : list Z) (i n : Z) : list Z := ztake n (zdrop i d).

Definition tcmi_p_emigrate_msg_recv (self : tcmi_p_emigrate_msg) (s : S)
    : Z * tcmi_p_emigrate_msg * S :=
  let '(err, d, s) := sk_recv s 20 in
  if err <? 0 then (err, self, s) else
  let self := mk_emigrate s32[le_value (at_ d 0 4)] s32[le_value (at_ d 4 4)]
    s32[le_value (at_ d 8 4)] s16[le_value (at_ d 12 2)] s16[le_value (at_ d 14 2)]
    s16[le_value (at_ d 16 2)] s16[le_value (at_ d 18 2)] (exec_name self) (em_ckpt_name self) in
  let names e c := mk_emigrate (reply_pid self) (em_size self) (exec_name_size self)
    (euid self) (egid self) (fsuid self) (fsgid self) e c in
  if negb (km 0 (em_size self)) then (err, names (exec_name self) None, s) else
  if negb (km 1 (exec_name_size self)) then (err, names None (em_ckpt_name self), s) else
  let '(err, c, s) := sk_recv s (em_size self) in
  if err <? 0 then (err, names (exec_name self) (Some c), s) else
  let '(err, e, s) := sk_recv s (exec_name_size self) in
  if err <? 0 then (err, names (Some e) (Some c), s) else
  (0, names (Some e) (Some c), s).

(** The result of the transfer is ignored. *)
Definition tcmi_signal_msg_recv (self : tcmi_signal_msg) (s : S) : Z * tcmi_signal_msg * S :=
  let '(err, d, s) := sk_recv s (4 + 128) in
  (0, mk_signal s32[le_value (at_ d 0 4)] (zdrop 4 d), s).

Definition tcmi_generic_user_msg_recv (self : tcmi_generic_user_msg) (s : S)
    : Z * tcmi_generic_user_msg * S :=
  let '(err, d, s) := sk_recv s 4 in
  if err <? 0 then (err, self, s) else
  let self := mk_user (le_value d) (user_size self) (user_data self) in
  let '(err, d, s) := sk_recv s 4 in
  if err <? 0 then (err, self, s) else
  let self := mk_user (node_id self) (le_value d) (user_data self) in
  if 0 <? user_size self then
    if negb (km 0 (user_size self)) then (err, mk_user (node_id self) (user_size self) None, s)
    else
      let '(err, d, s) := sk_recv s s32[user_size self] in
      let self := mk_user (node_id self) (user_size self) (Some d) in
      if err <? 0 then (err, self, s) else (0, self, s)
  else (0, mk_user (node_id self) (user_size self) None, s).

(** The four classes whose content is one 32-bit integer: [tcmi_err_msg],
    [tcmi_err_procmsg], [tcmi_exit_procmsg], [tcmi_guest_started_procmsg]. *)
Definition tcmi_err_msg_recv (s : S) : Z * Z * S :=
  let '(err, d, s) := sk_recv s 4 in (err, s32[le_value d], s).
Definition tcmi_err_procmsg_recv (s : S) : Z * Z * S :=
  let '(err, d, s) := sk_recv s 4 in (err, s32[le_value d], s).
Definition tcmi_exit_procmsg_recv (s : S) : Z * Z * S :=
  let '(err, d, s) := sk_recv s 4 in (err, s32[le_value d], s).
Definition tcmi_guest_started_procmsg_recv (s : S) : Z * Z * S :=
  let '(err, d, s) := sk_recv s 4 in (err, s32[le_value d], s).

Definition tcmi_ppm_p_migr_back_guestreq_procmsg_recv (self : tcmi_guestreq_procmsg) (s : S)
    : Z * tcmi_guestreq_procmsg * S :=
  let '(err, d, s) := sk_recv s 4 in
  if err <? 0 then (err, self, s) else
  let self := mk_guestreq s32[le_value d] (gr_ckpt_name self) in
  if negb (km 0 (gr_size self)) then (err, mk_guestreq (gr_size self) None, s) else
  let '(err, c, s) := sk_recv s (gr_size self) in
  let self := mk_guestreq (gr_size self) (Some c) in
  if err <? 0 then (err, self, s) else (0, self, s).

(** The array of 32-bit sizes in a block of [4 * n] bytes. *)
Fixpoint sizes_of (n : nat) (d : list Z) : list Z :=
  match n with
  | O => []
  | Datatypes.S n => le_value (ztake 4 d) :: sizes_of n (zdrop 4 d)
  end.

(** [for (data_size = 0, i = 0; i < nmemb; data_size += elem_size[i++])] with an
    [int] sum. *)
Definition data_size_of (sizes : list Z) : Z := foldl (fun acc x => s32[acc + x]) 0 sizes.

(** The element pointers: each starts where the previous element ends. *)
Fixpoint bases_of (sizes : list Z) (block : list Z) : list (list Z) :=
  match sizes with
  | [] => []
  | n :: sizes => block :: bases_of sizes (zdrop n block)
  end.

(** [None]: a NULL pointer returned by [kmalloc] is written through. *)
Definition tcmi_rpc_procmsg_recv (self : tcmi_rpc_procmsg) (s : S)
    : option (Z * tcmi_rpc_procmsg * S) :=
  let '(err, d, s) := sk_recv s 4 in
  if err <? 0 then Some (err, self, s) else
  let num := le_value (at_ d 0 2) in
  let n := le_value (at_ d 2 2) in
  if 0 <? n then
    if negb (km 0 (n * 4 + n * 8)) then None else
    let '(err, d, s) := sk_recv s (n * 4) in
    let sizes := sizes_of (Z.to_nat n) d in
    if err <? 0 then Some (err, mk_rpc num n sizes [] (free_data self), s) else
    let data_size := data_size_of sizes in
    if negb (km 1 data_size) then None else
    let '(err, block, s) := sk_recv s data_size in
    if err <? 0 then Some (err, mk_rpc num n sizes [block] (free_data self), s) else
    Some (0, mk_rpc num n sizes (bases_of sizes block) (free_data self), s)
  else Some (0, mk_rpc num n (elem_size self) (elem_base self) (free_data self), s).

Definition tcmi_rpcresp_procmsg_recv (self : tcmi_rpcresp_procmsg) (s : S)
    : option (Z * tcmi_rpcresp_procmsg * S) :=
  let '(err, d, s) := sk_recv s (2 + 2 + 8) in
  if err <? 0 then Some (err, self, s) else
  let num := le_value (at_ d 0 2) in
  let n := le_value (at_ d 2 2) in
  let rtn := s64[le_value (at_ d 4 8)] in
  if 0 <? n then
    if negb (km 0 (n * 4 + n * 8 + n * 1)) then None else
    let '(err, d, s) := sk_recv s (n * 4) in
    let sizes := sizes_of (Z.to_nat n) d in
    if err <? 0 then Some (err, mk_rpcresp num n rtn [] sizes [], s) else
    let data_size := data_size_of sizes in
    if negb (km 1 data_size) then None else
    let '(err, block, s) := sk_recv s data_size in
    if err <? 0
    then Some (err, mk_rpcresp num n rtn [TCMI_RPCRESP_PROCMSG_KFREE] sizes [block], s) else
    Some (0, mk_rpcresp num n rtn
               (TCMI_RPCRESP_PROCMSG_KFREE ::
                replicate (Z.to_nat (n - 1)) TCMI_RPCRESP_PROCMSG_DONTFREE)
               sizes (bases_of sizes block), s)
  else Some (0, mk_rpcresp num n rtn (elem_free self) (r_elem_size self) (r_elem_base self), s).

(** The blocks [tcmi_rpcresp_procmsg_free] releases, by element index; the array of
    sizes goes last. *)
Definition tcmi_rpcresp_procmsg_free (self : tcmi_rpcresp_procmsg) : list nat * bool :=
  if negb (r_nmemb self =? 0)
  then (filter (fun i => znth (elem_free self) (Z.of_nat i) = TCMI_RPCRESP_PROCMSG_KFREE \/
                         znth (elem_free self) (Z.of_nat i) = TCMI_RPCRESP_PROCMSG_VFREE)
          (seq 0 (Z.to_nat (r_nmemb self))), true)
  else ([], false).

(** Whether the data block, and the array of sizes, are released. *)
Definition tcmi_rpc_procmsg_free (self : tcmi_rpc_procmsg) : bool * bool :=
  if 0 <? nmemb self then (free_data self, true) else (false, false).

(** ** Sending *)

(** The memory a pointer gives access to; NULL gives none. *)
Definition deref (p : option (list Z)) : list Z := default [] p.

Definition tcmi_authenticate_msg_send (self : tcmi_authenticate_msg) (s : S) : Z * S :=
  let '(err, s) := sk_send s (le_bytes 4 (pen_id self)) in
  if err <? 0 then (err, s) else
  let '(err, s) := sk_send s (le_bytes 4 (pen_arch self)) in
  if err <? 0 then (err, s) else
  let '(err, s) := sk_send s (le_bytes 4 (auth_size self)) in
  if err <? 0 then (err, s) else
  if 0 <? auth_size self then
    let '(err, s) := sk_send s (ztake s32[auth_size self] (deref (auth_data self))) in
    if err <? 0 then (err, s) else (0, s)
  else (0, s).

Definition tcmi_authenticate_resp_msg_send (self : tcmi_authenticate_resp_msg) (s : S) : Z * S :=
  let '(err, s) := sk_send s (le_bytes 4 (ccn_id self)) in
  if err <? 0 then (err, s) else
  let '(err, s) := sk_send s (le_bytes 4 (ccn_arch self)) in
  if err <? 0 then (err, s) else
  let '(err, s) := sk_send s (le_bytes 1 (result_code self)) in
  if err <? 0 then (err, s) else
  let p := mount_params self in
  let '(err, s) := sk_send s (mount_type p ++ mount_options p ++ mount_device p) in
  if err <? 0 then (err, s) else (0, s).

(** The image of the packed structure [pid_and_size]. *)
Definition pid_and_size_bytes (self : tcmi_p_emigrate_msg) : list Z :=
  le_bytes 4 (reply_pid self) ++ le_bytes 4 (em_size self) ++ le_bytes 4 (exec_name_size self) ++
  le_bytes 2 (euid self) ++ le_bytes 2 (egid self) ++ le_bytes 2 (fsuid self) ++
  le_bytes 2 (fsgid self).

Definition tcmi_p_emigrate_msg_send (self : tcmi_p_emigrate_msg) (s : S) : Z * S :=
  let '(err, s) := sk_send s (pid_and_size_bytes self) in
  if err <? 0 then (err, s) else
  let '(err, s) := sk_send s (ztake (em_size self) (deref (em_ckpt_name self))) in
  if err <? 0 then (err, s) else
  let '(err, s) := sk_send s (ztake (exec_name_size self) (deref (exec_name self))) in
  if err <? 0 then (err, s) else (0, s).

Definition tcmi_signal_msg_send (self : tcmi_signal_msg) (s : S) : Z * S :=
  let '(err, s) := sk_send s (le_bytes 4 (sig_pid self) ++ sig_info self) in (0, s).

Definition tcmi_generic_user_msg_send (self : tcmi_generic_user_msg) (s : S) : Z * S :=
  let '(err, s) := sk_send s (le_bytes 4 (node_id self)) in
  if err <? 0 then (err, s) else
  let '(err, s) := sk_send s (le_bytes 4 (user_size self)) in
  if err <? 0 then (err, s) else
  if 0 <? user_size self then
    let '(err, s) := sk_send s (ztake s32[user_size self] (deref (user_data self))) in
    if err <? 0 then (err, s) else (0, s)
  else (0, s).

Definition tcmi_err_msg_send (err_code : Z) (s : S) : Z * S := sk_send s (le_bytes 4 err_code).
Definition tcmi_err_procmsg_send (err_code : Z) (s : S) : Z * S := sk_send s (le_bytes 4 err_code).
Definition tcmi_exit_procmsg_send (code : Z) (s : S) : Z * S := sk_send s (le_bytes 4 code).
Definition tcmi_guest_started_procmsg_send (guest_pid : Z) (s : S) : Z * S :=
  sk_send s (le_bytes 4 guest_pid).

Definition tcmi_ppm_p_migr_back_guestreq_procmsg_send (self : tcmi_guestreq_procmsg) (s : S) : Z * S :=
  let '(err, s) := sk_send s (le_bytes 4 (gr_size self)) in
  if err <? 0 then (err, s) else
  let '(err, s) := sk_send s (ztake (gr_size self) (deref (gr_ckpt_name self))) in
  if err <? 0 then (err, s) else (0, s).

(** The loop over the elements. *)
Fixpoint send_elems (sizes : list Z) (bases : list (list Z)) (s : S) : Z * S :=
  match sizes, bases with
  | n :: sizes, b :: bases =>
      let '(err, s) := sk_send s (ztake s32[n] b) in
      if err <? 0 then (err, s) else send_elems sizes bases s
  | _, _ => (0, s)
  end.

(** The memory image of the array of sizes. *)
Definition sizes_bytes (sizes : list Z) : list Z := sizes ≫= le_bytes 4.

Definition tcmi_rpc_procmsg_send (self : tcmi_rpc_procmsg) (s : S) : Z * S :=
  let '(err, s) := sk_send s (le_bytes 2 (rpcnum self) ++ le_bytes 2 (nmemb self)) in
  if err <? 0 then (err, s) else
  if 0 <? nmemb self then
    let '(err, s) := sk_send s (ztake (nmemb self * 4) (sizes_bytes (elem_size self))) in
    if err <? 0 then (err, s) else
    send_elems (ztake (nmemb self) (elem_size self)) (elem_base self) s
  else (0, s).

Definition tcmi_rpcresp_procmsg_send (self : tcmi_rpcresp_procmsg) (s : S) : Z * S :=
  let '(err, s) := sk_send s (le_bytes 2 (r_rpcnum self) ++ le_bytes 2 (r_nmemb self) ++
                              le_bytes 8 (rtn_code self)) in
  if err <? 0 then (err, s) else
  if 0 <? r_nmemb self then
    let '(err, s) := sk_send s (ztake (r_nmemb self * 4) (sizes_bytes (r_elem_size self))) in
    if err <? 0 then (err, s) else
    send_elems (ztake (r_nmemb self) (r_elem_size self)) (r_elem_base self) s
  else (0, s).

(** ** Dispatch by class *)

(** [tcmi_procmsg]'s own operations: destination and mode flag, then the specific
    message. *)
Definition proc_recv (b : proc_body) (s : S) : option (Z * proc_body * S) :=
  match b with
  | P_exit _ => let '(e, v, s) := tcmi_exit_procmsg_recv s in Some (e, P_exit v, s)
  | P_guest_started _ =>
      let '(e, v, s) := tcmi_guest_started_procmsg_recv s in Some (e, P_guest_started v, s)
  | P_err _ => let '(e, v, s) := tcmi_err_procmsg_recv s in Some (e, P_err v, s)
  | P_guestreq m =>
      let '(e, m, s) := tcmi_ppm_p_migr_back_guestreq_procmsg_recv m s in Some (e, P_guestreq m, s)
  | P_rpc m => '(e, m, s) ← tcmi_rpc_procmsg_recv m s; Some (e, P_rpc m, s)
  | P_rpcresp m => '(e, m, s) ← tcmi_rpcresp_procmsg_recv m s; Some (e, P_rpcresp m, s)
  | P_skel | P_skelresp | P_vfork_done | P_shadowreq => Some (0, b, s)
  end.

Definition proc_send (b : proc_body) (s : S) : Z * S :=
  match b with
  | P_exit v => tcmi_exit_procmsg_send v s
  | P_guest_started v => tcmi_guest_started_procmsg_send v s
  | P_err v => tcmi_err_procmsg_send v s
  | P_guestreq m => tcmi_ppm_p_migr_back_guestreq_procmsg_send m s
  | P_rpc m => tcmi_rpc_procmsg_send m s
  | P_rpcresp m => tcmi_rpcresp_procmsg_send m s
  | P_skel | P_skelresp | P_vfork_done | P_shadowreq => (0, s)
  end.

Definition tcmi_procmsg_recv (dst_pid migmode : Z) (b : proc_body) (s : S)
    : option (Z * msg_body * S) :=
  let '(err, d, s) := sk_recv s 4 in
  if err <? 0 then Some (err, B_proc dst_pid migmode b, s) else
  let dst_pid := s32[le_value d] in
  let '(err, d, s) := sk_recv s 1 in
  if err <? 0 then Some (err, B_proc dst_pid migmode b, s) else
  let migmode := le_value d in
  '(err, b, s) ← proc_recv b s;
  Some (err, B_proc dst_pid migmode b, s).

Definition tcmi_procmsg_send (dst_pid migmode : Z) (b : proc_body) (s : S) : Z * S :=
  let '(err, s) := sk_send s (le_bytes 4 dst_pid) in
  if err <? 0 then (err, s) else
  let '(err, s) := sk_send s (le_bytes 1 migmode) in
  if err <? 0 then (err, s) else proc_send b s.

(** [ops->recv] and [ops->send] of a message. *)
Definition ops_recv (b : msg_body) (s : S) : option (Z * msg_body * S) :=
  match b with
  | B_authenticate m =>
      let '(e, m, s) := tcmi_authenticate_msg_recv m s in Some (e, B_authenticate m, s)
  | B_authenticate_resp m =>
      let '(e, m, s) := tcmi_authenticate_resp_msg_recv m s in Some (e, B_authenticate_resp m, s)
  | B_p_emigrate m =>
      let '(e, m, s) := tcmi_p_emigrate_msg_recv m s in Some (e, B_p_emigrate m, s)
  | B_signal m => let '(e, m, s) := tcmi_signal_msg_recv m s in Some (e, B_signal m, s)
  | B_generic_user m =>
      let '(e, m, s) := tcmi_generic_user_msg_recv m s in Some (e, B_generic_user m, s)
  | B_err _ => let '(e, v, s) := tcmi_err_msg_recv s in Some (e, B_err v, s)
  | B_proc dst migmode b => tcmi_procmsg_recv dst migmode b s
  | B_skel_msg | B_skelresp_msg | B_disconnect => Some (0, b, s)
  end.

Definition ops_send (b : msg_body) (s : S) : Z * S :=
  match b with
  | B_authenticate m => tcmi_authenticate_msg_send m s
  | B_authenticate_resp m => tcmi_authenticate_resp_msg_send m s
  | B_p_emigrate m => tcmi_p_emigrate_msg_send m s
  | B_signal m => tcmi_signal_msg_send m s
  | B_generic_user m => tcmi_generic_user_msg_send m s
  | B_err v => tcmi_err_msg_send v s
  | B_proc dst migmode b => tcmi_procmsg_send dst migmode b s
  | B_skel_msg | B_skelresp_msg | B_disconnect => (0, s)
  end.
End wire.

(** ** The wire format *)

Definition elems (sizes : list Z) (bases : list (list Z)) : list (list Z) := zip_with ztake sizes bases.

Definition wire_proc (b : proc_body) : list Z :=
  match b with
  | P_exit v | P_guest_started v | P_err v => le_bytes 4 v
  | P_guestreq m => le_bytes 4 (gr_size m) ++ deref (gr_ckpt_name m)
  | P_rpc m =>
      le_bytes 2 (rpcnum m) ++ le_bytes 2 (nmemb m) ++
      (if 0 <? nmemb m then sizes_bytes (elem_size m) ++ concat (elems (elem_size m) (elem_base m))
       else [])
  | P_rpcresp m =>
      le_bytes 2 (r_rpcnum m) ++ le_bytes 2 (r_nmemb m) ++ le_bytes 8 (rtn_code m) ++
      (if 0 <? r_nmemb m then sizes_bytes (r_elem_size m) ++ concat (elems (r_elem_size m) (r_elem_base m))
       else [])
  | P_skel | P_skelresp | P_vfork_done | P_shadowreq => []
  end.

Definition wire (b : msg_body) : list Z :=
  match b with
  | B_authenticate m =>
      le_bytes 4 (pen_id m) ++ le_bytes 4 (pen_arch m) ++ le_bytes 4 (auth_size m) ++
      deref (auth_data m)
  | B_authenticate_resp m =>
      le_bytes 4 (ccn_id m) ++ le_bytes 4 (ccn_arch m) ++ le_bytes 1 (result_code m) ++
      mount_type (mount_params m) ++ mount_options (mount_params m) ++ mount_device (mount_params m)
  | B_p_emigrate m => pid_and_size_bytes m ++ deref (em_ckpt_name m) ++ deref (exec_name m)
  | B_signal m => le_bytes 4 (sig_pid m) ++ sig_info m
  | B_generic_user m => le_bytes 4 (node_id m) ++ le_bytes 4 (user_size m) ++ deref (user_data m)
  | B_err v => le_bytes 4 v
  | B_proc dst migmode b => le_bytes 4 dst ++ le_bytes 1 migmode ++ wire_proc b
  | B_skel_msg | B_skelresp_msg | B_disconnect => []
  end.

(** ** Well-formed messages

    Fields in the range of their C types, and pointers to as much memory as the
    size fields say; the receiver's allocations succeed. *)

Section wf.
Context (km : nat -> Z -> bool).

(** A sized buffer: NULL when the size is 0. *)
Definition buf_ok (n : Z) (p : option (list Z)) : Prop :=
  0 <= n < 2 ^ 31 /\
  if 0 <? n then km 0 n = true /\ exists d, p = Some d /\ zlen d = n else p = None.

(** A name: always allocated. *)
Definition name_ok (i : nat) (n : Z) (p : option (list Z)) : Prop :=
  0 <= n < 2 ^ 31 /\ km i n = true /\ exists d, p = Some d /\ zlen d = n.

Definition sum_sizes (sizes : list Z) : Z := foldr Z.add 0 sizes.

(** Every element has at least the bytes its size says. *)
Definition sized (sizes : list Z) (bases : list (list Z)) : Prop :=
  Forall2 (fun k b => 0 <= k < 2 ^ 31 /\ k <= zlen b) sizes bases.

Definition elems_ok (n : Z) (sizes : list Z) (bases : list (list Z)) : Prop :=
  0 <= n < 2 ^ 16 /\
  (0 < n -> zlen sizes = n /\ sized sizes bases /\ sum_sizes sizes < 2 ^ 31).

Definition wf_proc (b : proc_body) : Prop :=
  match b with
  | P_exit v | P_guest_started v | P_err v => srange 32 v
  | P_guestreq m => name_ok 0 (gr_size m) (gr_ckpt_name m)
  | P_rpc m =>
      urange 16 (rpcnum m) /\ elems_ok (nmemb m) (elem_size m) (elem_base m) /\
      (0 < nmemb m -> km 0 (nmemb m * 4 + nmemb m * 8) = true /\
                      km 1 (sum_sizes (elem_size m)) = true)
  | P_rpcresp m =>
      urange 16 (r_rpcnum m) /\ srange 64 (rtn_code m) /\
      elems_ok (r_nmemb m) (r_elem_size m) (r_elem_base m) /\
      (0 < r_nmemb m -> km 0 (r_nmemb m * 4 + r_nmemb m * 8 + r_nmemb m * 1) = true /\
                        km 1 (sum_sizes (r_elem_size m)) = true)
  | P_skel | P_skelresp | P_vfork_done | P_shadowreq => True
  end.

Definition wf_body (b : msg_body) : Prop :=
  match b with
  | B_authenticate m =>
      urange 32 (pen_id m) /\ urange 32 (pen_arch m) /\ buf_ok (auth_size m) (auth_data m)
  | B_authenticate_resp m =>
      urange 32 (ccn_id m) /\ urange 32 (ccn_arch m) /\ srange 8 (result_code m) /\
      zlen (mount_type (mount_params m)) = TCMI_FS_MOUNT_LENGTH /\
      zlen (mount_options (mount_params m)) = TCMI_FS_MOUNT_OPTIONS_LENGTH /\
      zlen (mount_device (mount_params m)) = TCMI_FS_MOUNT_DEVICE_LENGTH
  | B_p_emigrate m =>
      srange 32 (reply_pid m) /\ srange 16 (euid m) /\ srange 16 (egid m) /\
      srange 16 (fsuid m) /\ srange 16 (fsgid m) /\
      name_ok 0 (em_size m) (em_ckpt_name m) /\ name_ok 1 (exec_name_size m) (exec_name m)
  | B_signal m => srange 32 (sig_pid m) /\ zlen (sig_info m) = 128
  | B_generic_user m => urange 32 (node_id m) /\ buf_ok (user_size m) (user_data m)
  | B_err v => srange 32 v
  | B_proc dst migmode b => srange 32 dst /\ urange 8 migmode /\ wf_proc b
  | B_skel_msg | B_skelresp_msg | B_disconnect => True
  end.
End wf.

(** What a message says, apart from who owns which memory: the elements of an RPC
    message are the bytes its sizes select. *)
Definition norm_proc (b : proc_body) : proc_body :=
  match b with
  | P_rpc m =>
      if 0 <? nmemb m
      then P_rpc (mk_rpc (rpcnum m) (nmemb m) (elem_size m) (elems (elem_size m) (elem_base m)) false)
      else P_rpc (mk_rpc (rpcnum m) (nmemb m) [] [] false)
  | P_rpcresp m =>
      if 0 <? r_nmemb m
      then P_rpcresp (mk_rpcresp (r_rpcnum m) (r_nmemb m) (rtn_code m) [] (r_elem_size m)
                        (elems (r_elem_size m) (r_elem_base m)))
      else P_rpcresp (mk_rpcresp (r_rpcnum m) (r_nmemb m) (rtn_code m) [] [] [])
  | _ => b
  end.
Definition norm (b : msg_body) : msg_body :=
  match b with B_proc dst migmode b => B_proc dst migmode (norm_proc b) | _ => b end.

(** The RPC messages as they arrive in an object that held [m0]. *)
Definition rpc_received (m0 m : tcmi_rpc_procmsg) : tcmi_rpc_procmsg :=
  if 0 <? nmemb m
  then mk_rpc (rpcnum m) (nmemb m) (elem_size m)
    (bases_of (elem_size m) (concat (elems (elem_size m) (elem_base m)))) (free_data m0)
  else mk_rpc (rpcnum m) (nmemb m) (elem_size m0) (elem_base m0) (free_data m0).
Definition rpcresp_received (m0 m : tcmi_rpcresp_procmsg) : tcmi_rpcresp_procmsg :=
  if 0 <? r_nmemb m
  then mk_rpcresp (r_rpcnum m) (r_nmemb m) (rtn_code m)
    (TCMI_RPCRESP_PROCMSG_KFREE :: replicate (Z.to_nat (r_nmemb m - 1)) TCMI_RPCRESP_PROCMSG_DONTFREE)
    (r_elem_size m) (bases_of (r_elem_size m) (concat (elems (r_elem_size m) (r_elem_base m))))
  else mk_rpcresp (r_rpcnum m) (r_nmemb m) (rtn_code m) (elem_free m0) (r_elem_size m0) (r_elem_base m0).

(** Messages of the same class. *)
Definition same_class_proc (b b' : proc_body) : bool :=
  match b, b' with
  | P_skel, P_skel | P_skelresp, P_skelresp | P_exit _, P_exit _ | P_vfork_done, P_vfork_done
  | P_guest_started _, P_guest_started _ | P_guestreq _, P_guestreq _ | P_shadowreq, P_shadowreq
  | P_rpc _, P_rpc _ | P_rpcresp _, P_rpcresp _ | P_err _, P_err _ => true
  | _, _ => false
  end.
Definition same_class (b b' : msg_body) : bool :=
  match b, b' with
  | B_skel_msg, B_skel_msg | B_skelresp_msg, B_skelresp_msg
  | B_authenticate _, B_authenticate _ | B_authenticate_resp _, B_authenticate_resp _
  | B_disconnect, B_disconnect | B_p_emigrate _, B_p_emigrate _ | B_signal _, B_signal _
  | B_generic_user _, B_generic_user _ | B_err _, B_err _ => true
  | B_proc _ _ b, B_proc _ _ b' => same_class_proc b b'
  | _, _ => false
  end.

(** ** Field lemmas *)

Lemma field_u (n : nat) z : urange (8 * Z.of_nat n) z -> le_value (le_bytes n z) = z.
Proof. intros. rewrite le_value_le_bytes. apply uwrap_id. done. Qed.

Lemma field_s (n : nat) z :
  (0 < n)%nat -> srange (8 * Z.of_nat n) z -> swrap (8 * Z.of_nat n) (le_value (le_bytes n z)) = z.
Proof.
  intros Hn Hz. rewrite le_value_le_bytes. change (z mod 2 ^ ?w) with (uwrap w z).
  rewrite swrap_uwrap by lia. apply swrap_id; [lia|done].
Qed.

Lemma at_app_skip d1 d2 i n : zlen d1 <= i -> at_ (d1 ++ d2) i n = at_ d2 (i - zlen d1) n.
Proof.
  intros. unfold at_, zdrop, zlen in *. rewrite drop_app_ge by lia.
  f_equal. f_equal. lia.
Qed.

Lemma at_app_here d1 d2 n : n = zlen d1 -> at_ (d1 ++ d2) 0 n = d1.
Proof. intros ->. unfold at_. rewrite zdrop_0 by lia. apply ztake_app_eq. Qed.

Lemma at_all d n : n = zlen d -> at_ d 0 n = d.
Proof. intros ->. unfold at_. rewrite zdrop_0 by lia. apply ztake_all. lia. Qed.

Create Rewrite HintDb wire.
#[export] Hint Rewrite zlen_le_bytes : zlen.

(** ** Sequences of transfers on a working connection *)

Section transfers.
Context {S : Type} `{Sock S}.

(** [p] succeeds and puts exactly [d] on the stream. *)
Definition sends (p : S -> Z * S) (d : list Z) : Prop :=
  forall s, sk_up s -> exists r s', p s = (r, s') /\ 0 <= r /\ sk_up s' /\
    sk_sent s' = sk_sent s ++ d /\ sk_pending s' = sk_pending s.

(** [p] succeeds on a stream that starts with [d], takes exactly [d] off it and
    returns [b]. *)
Definition receives {B} (p : S -> option (Z * B * S)) (d : list Z) (b : B) : Prop :=
  forall s rest, sk_up s -> sk_pending s = d ++ rest ->
    exists r s', p s = Some (r, b, s') /\ 0 <= r /\ sk_up s' /\
      sk_pending s' = rest /\ sk_sent s' = sk_sent s.

Lemma sends_nil : sends (fun s => (0, s)) [].
Proof. intros s Hu. exists 0, s. rewrite app_nil_r. auto with lia. Qed.

Lemma sends_one b : sends (fun s => sk_send s b) b.
Proof.
  intros s Hu. destruct (send_up s b Hu) as (s' & -> & ?). exists (zlen b), s'.
  pose proof (zlen_nonneg b). tauto.
Qed.

Lemma sends_seq (b d : list Z) (k : S -> Z * S) :
  sends k d ->
  sends (fun s => let '(err, s) := sk_send s b in if err <? 0 then (err, s) else k s) (b ++ d).
Proof.
  intros Hk s Hu. destruct (send_up s b Hu) as (s1 & -> & Hu1 & Hs1 & Hp1).
  pose proof (zlen_nonneg b). replace (zlen b <? 0) with false by lia.
  destruct (Hk s1 Hu1) as (r & s' & -> & ? & ? & Hs & Hp). exists r, s'.
  rewrite Hs, Hs1, Hp, Hp1, <- app_assoc. auto.
Qed.

Lemma sends_last (b : list Z) :
  sends (fun s => let '(err, s) := sk_send s b in if err <? 0 then (err, s) else (0, s)) b.
Proof. pose proof (sends_seq b [] _ sends_nil) as Hs. by rewrite app_nil_r in Hs. Qed.

Lemma receives_ret {B} r (b : B) : 0 <= r -> receives (fun s => Some (r, b, s)) [] b.
Proof. intros Hr s rest Hu Hp. exists r, s. auto. Qed.

Lemma receives_ext {B} (p q : S -> option (Z * B * S)) d b :
  (forall s, p s = q s) -> receives q d b -> receives p d b.
Proof. intros E Hq s rest Hu Hp. rewrite E. by apply Hq. Qed.

Lemma receives_seq {B} n (d1 d2 : list Z) (e k : Z -> list Z -> S -> option (Z * B * S)) b :
  n = zlen d1 -> receives (k n d1) d2 b ->
  receives (fun s => let '(err, d, s) := sk_recv s n in
                     if err <? 0 then e err d s else k err d s) (d1 ++ d2) b.
Proof.
  intros Hn Hk s rest Hu Hp. rewrite <- app_assoc in Hp.
  destruct (recv_up s n d1 _ Hu Hp Hn) as (s1 & -> & Hu1 & Hp1 & Hs1).
  pose proof (zlen_nonneg d1). replace (n <? 0) with false by lia.
  destruct (Hk s1 rest Hu1 Hp1) as (r & s' & -> & ? & ? & ? & Hs). exists r, s'.
  rewrite Hs, Hs1. auto.
Qed.

(** A transfer whose result is not tested. *)
Lemma receives_any {B} n (d1 d2 : list Z) (k : Z -> list Z -> S -> option (Z * B * S)) b :
  n = zlen d1 -> receives (k n d1) d2 b ->
  receives (fun s => let '(err, d, s) := sk_recv s n in k err d s) (d1 ++ d2) b.
Proof.
  intros Hn Hk s rest Hu Hp. rewrite <- app_assoc in Hp.
  destruct (recv_up s n d1 _ Hu Hp Hn) as (s1 & -> & Hu1 & Hp1 & Hs1).
  destruct (Hk s1 rest Hu1 Hp1) as (r & s' & -> & ? & ? & ? & Hs). exists r, s'.
  rewrite Hs, Hs1. auto.
Qed.

Lemma receives_map {B C} (f : B -> C) (p : S -> option (Z * B * S)) d b :
  receives p d b ->
  receives (fun s => '(e, m, s) ← p s; Some (e, f m, s)) d (f b).
Proof.
  intros Hp s rest Hu Hpend. destruct (Hp s rest Hu Hpend) as (r & s' & -> & ?).
  exists r, s'. auto.
Qed.

(** A receive operation that cannot fault. *)
Definition tot {B} (p : S -> Z * B * S) : S -> option (Z * B * S) := fun s => Some (p s).

Lemma tot_seq {B} n (d1 d2 : list Z) (e k : Z -> list Z -> S -> Z * B * S) b :
  n = zlen d1 -> receives (tot (k n d1)) d2 b ->
  receives (tot (fun s => let '(err, d, s) := sk_recv s n in
                     if err <? 0 then e err d s else k err d s)) (d1 ++ d2) b.
Proof.
  intros Hn Hk. eapply receives_ext;
    [|exact (receives_seq n d1 d2 (fun err d s => Some (e err d s)) (fun err d s => Some (k err d s)) b Hn Hk)].
  intros s. unfold tot. destruct (sk_recv s n) as [[??]?]. by case_goal.
Qed.

Lemma tot_any {B} n (d1 d2 : list Z) (k : Z -> list Z -> S -> Z * B * S) b :
  n = zlen d1 -> receives (tot (k n d1)) d2 b ->
  receives (tot (fun s => let '(err, d, s) := sk_recv s n in k err d s)) (d1 ++ d2) b.
Proof.
  intros Hn Hk. eapply receives_ext;
    [|exact (receives_any n d1 d2 (fun err d s => Some (k err d s)) b Hn Hk)].
  intros s. unfold tot. by destruct (sk_recv s n) as [[??]?].
Qed.

Lemma tot_map {B C} (f : B -> C) (p : S -> Z * B * S) d b :
  receives (tot p) d b ->
  receives (fun s => let '(e, m, s) := p s in Some (e, f m, s)) d (f b).
Proof.
  intros Hp. eapply receives_ext; [|exact (receives_map f _ _ _ Hp)].
  intros s. unfold tot. simpl. by destruct (p s) as [[??]?].
Qed.
End transfers.

(** ** Arrays of sized elements *)

Lemma sum_sizes_nonneg sizes : Forall (fun k => 0 <= k) sizes -> 0 <= sum_sizes sizes.
Proof. induction 1; simpl; lia. Qed.

Lemma data_size_of_acc sizes acc :
  Forall (fun k => 0 <= k) sizes -> 0 <= acc -> acc + sum_sizes sizes < 2 ^ 31 ->
  foldl (fun acc x => s32[acc + x]) acc sizes = acc + sum_sizes sizes.
Proof.
  intros Hf. revert acc. induction Hf as [|k sizes Hk Hf IH]; intros acc Hacc Hb; [simpl; lia|].
  change (sum_sizes (k :: sizes)) with (k + sum_sizes sizes) in *.
  pose proof (sum_sizes_nonneg _ Hf). simpl.
  rewrite swrap_id by (unfold srange; change (2 ^ (32 - 1)) with (2 ^ 31); lia).
  rewrite IH by lia. lia.
Qed.

Lemma data_size_of_sum sizes :
  Forall (fun k => 0 <= k) sizes -> sum_sizes sizes < 2 ^ 31 -> data_size_of sizes = sum_sizes sizes.
Proof. intros. unfold data_size_of. rewrite data_size_of_acc; auto; lia. Qed.

Lemma sizes_bytes_cons k sizes : sizes_bytes (k :: sizes) = le_bytes 4 k ++ sizes_bytes sizes.
Proof. done. Qed.

Lemma zlen_sizes_bytes sizes : zlen (sizes_bytes sizes) = zlen sizes * 4.
Proof.
  induction sizes as [|k sizes IH]; [done|].
  rewrite sizes_bytes_cons, zlen_app, zlen_le_bytes, zlen_cons, IH. lia.
Qed.

Lemma sizes_of_bytes sizes :
  Forall (urange 32) sizes -> sizes_of (length sizes) (sizes_bytes sizes) = sizes.
Proof.
  induction 1 as [|k sizes Hk Hf IH]; [done|]. rewrite sizes_bytes_cons.
  cbn [length sizes_of]. change 4 with (zlen (le_bytes 4 k)) at 1 2.
  rewrite ztake_app_eq, zdrop_app_eq, IH, (field_u 4) by exact Hk. done.
Qed.

Lemma sized_nonneg sizes bases : sized sizes bases -> Forall (fun k => 0 <= k) sizes.
Proof. induction 1 as [|k b ks bs [? ?] _ IH]; constructor; [lia|auto]. Qed.

Lemma sized_u32 sizes bases : sized sizes bases -> Forall (urange 32) sizes.
Proof.
  induction 1 as [|k b ks bs [? ?] _ IH]; constructor; [|auto].
  unfold urange. lia.
Qed.

Lemma zlen_concat_elems sizes bases : sized sizes bases -> zlen (concat (elems sizes bases)) = sum_sizes sizes.
Proof.
  induction 1 as [|k b ks bs [? ?] _ IH]; [done|].
  change (elems (k :: ks) (b :: bs)) with (ztake k b :: elems ks bs).
  change (sum_sizes (k :: ks)) with (k + sum_sizes ks).
  cbn [concat]. rewrite zlen_app, zlen_ztake, IH. lia.
Qed.

(** The element pointers computed from the sizes cut the block into the elements. *)
Lemma bases_of_concat sizes bases :
  sized sizes bases ->
  elems sizes (bases_of sizes (concat (elems sizes bases))) = elems sizes bases.
Proof.
  induction 1 as [|k b ks bs [? ?] _ IH]; [done|].
  change (elems (k :: ks) (b :: bs)) with (ztake k b :: elems ks bs).
  cbn [concat bases_of]. set (rest := concat (elems ks bs)) in *.
  assert (Hk : zlen (ztake k b) = k) by (rewrite zlen_ztake; lia).
  change (elems (k :: ks) (?x :: ?y)) with (ztake k x :: elems ks y).
  f_equal.
  - rewrite <- Hk at 1. apply ztake_app_eq.
  - rewrite <- Hk at 1. rewrite zdrop_app_eq. apply IH.
Qed.

Lemma sends_elems {S} `{Sock S} sizes bases :
  sized sizes bases -> sends (send_elems sizes bases) (concat (elems sizes bases)).
Proof.
  induction 1 as [|k b ks bs [? ?] _ IH]; [apply sends_nil|].
  simpl. rewrite swrap_id by (lia || unfold srange; change (2 ^ (32 - 1)) with (2 ^ 31); lia).
  by apply sends_seq.
Qed.

(** ** Each class sends its wire format *)

Ltac send_step := refine (sends_seq _ _ _ _).

Section sending.
Context {S : Type} `{Sock S} (km : nat -> Z -> bool).

Lemma buf_bytes n p : buf_ok km n p -> ztake s32[n] (deref p) = deref p.
Proof.
  intros [Hn Hp]. apply ztake_all. rewrite swrap_id by (unfold srange; lia).
  destruct (0 <? n); [destruct Hp as (_ & d & -> & <-); done|]. subst p. simpl. zlen_lia.
Qed.

Lemma buf_empty n p : buf_ok km n p -> (0 <? n) = false -> deref p = [].
Proof. intros [Hn Hp] E. rewrite E in Hp. by subst p. Qed.

Lemma name_bytes i n p : name_ok km i n p -> ztake n (deref p) = deref p.
Proof. intros (Hn & _ & d & -> & <-). apply ztake_all. simpl. lia. Qed.

Lemma sends_sized_tail n p :
  buf_ok km n p ->
  sends (fun s : S => if 0 <? n then
    let '(err, s) := sk_send s (ztake s32[n] (deref p)) in
    if err <? 0 then (err, s) else (0, s) else (0, s)) (deref p).
Proof.
  intros Hb. destruct (0 <? n) eqn:E.
  - rewrite (buf_bytes _ _ Hb). apply sends_last.
  - rewrite (buf_empty _ _ Hb E). apply sends_nil.
Qed.

(** The common tail of the RPC request and response. *)
Lemma sends_elements n sizes bases :
  elems_ok n sizes bases ->
  sends (fun s : S => if 0 <? n then
    let '(err, s) := sk_send s (ztake (n * 4) (sizes_bytes sizes)) in
    if err <? 0 then (err, s) else send_elems (ztake n sizes) bases s else (0, s))
    (if 0 <? n then sizes_bytes sizes ++ concat (elems sizes bases) else []).
Proof.
  intros [Hn He]. destruct (0 <? n) eqn:E; [|apply sends_nil].
  destruct He as (Hl & Hs & _); [blia|].
  rewrite ztake_all by (rewrite zlen_sizes_bytes; lia). rewrite ztake_all by lia.
  apply sends_seq. by apply sends_elems.
Qed.

Lemma proc_send_wire b : wf_proc km b -> sends (S := S) (proc_send b) (wire_proc b).
Proof.
  destruct b; unfold proc_send; cbn [wire_proc wf_proc]; intros Hwf; try apply sends_nil; try apply sends_one.
  - unfold tcmi_ppm_p_migr_back_guestreq_procmsg_send. rewrite (name_bytes _ _ _ Hwf).
    send_step. apply sends_last.
  - rewrite app_assoc. send_step. apply sends_elements. tauto.
  - rewrite !app_assoc. rewrite <- (app_assoc (le_bytes 2 _)). send_step. apply sends_elements. tauto.
Qed.

Lemma ops_send_wire b : wf_body km b -> sends (S := S) (ops_send b) (wire b).
Proof.
  destruct b; unfold ops_send; cbn [wire wf_body]; intros Hwf; try apply sends_nil; try apply sends_one.
  - repeat send_step. apply sends_sized_tail. tauto.
  - repeat send_step. apply sends_last.
  - destruct Hwf as (_ & _ & _ & _ & _ & Hc & He). unfold tcmi_p_emigrate_msg_send.
    rewrite (name_bytes _ _ _ Hc), (name_bytes _ _ _ He). repeat send_step. apply sends_last.
  - intros s Hu. destruct (sends_one (le_bytes 4 (sig_pid m) ++ sig_info m) s Hu)
      as (r & s' & E & _ & ?). unfold tcmi_signal_msg_send. rewrite E. exists 0, s'. auto with lia.
  - repeat send_step. apply sends_sized_tail. tauto.
  - do 2 send_step. apply proc_send_wire. tauto.
Qed.
End sending.

(** ** Each class receives it back *)

Section receiving.
Context {S : Type} `{Sock S} (km : nat -> Z -> bool).

(** An integer field, then the rest. *)
Ltac recv_step := refine (tot_seq _ _ _ _ _ _ _ _); [rewrite ?zlen_app, ?zlen_le_bytes; done|].
(** The fields of a packed structure. *)
Ltac at_fields := repeat match goal with
  | |- context [at_ (le_bytes ?k ?x ++ ?d) 0 ?n] =>
      rewrite (at_app_here (le_bytes k x) d n) by (by rewrite zlen_le_bytes)
  | |- context [at_ (le_bytes ?k ?x) 0 ?n] =>
      rewrite (at_all (le_bytes k x) n) by (by rewrite zlen_le_bytes)
  | |- context [at_ (le_bytes ?k ?x ++ ?d) ?i ?n] =>
      let j := eval vm_compute in (i - Z.of_nat k) in
      replace (at_ (le_bytes k x ++ d) i n) with (at_ d j n)
        by (rewrite (at_app_skip (le_bytes k x)) by (by rewrite zlen_le_bytes); by rewrite zlen_le_bytes)
  end.
Ltac recv_end := refine (receives_ret _ _ _); lia.

Lemma auth_recv m0 m :
  wf_body km (B_authenticate m) ->
  receives (S := S) (tot (tcmi_authenticate_msg_recv km m0)) (wire (B_authenticate m)) m.
Proof.
  intros (Hi & Ha & [Hs Hb]). unfold tcmi_authenticate_msg_recv. cbn [wire].
  do 3 recv_step. rewrite !(field_u 4) by (done || unfold urange; lia).
  cbn [auth_size pen_id pen_arch]. destruct m as [i a n p]; simpl in *.
  destruct (0 <? n) eqn:E.
  - destruct Hb as (-> & d & -> & Hl). cbn [negb]. rewrite <- (app_nil_r (deref _)).
    refine (tot_seq _ _ _ _ _ _ _ _); [rewrite swrap_id by (unfold srange; lia); done|]. recv_end.
  - subst p. recv_end.
Qed.

Lemma auth_resp_recv m0 m :
  wf_body km (B_authenticate_resp m) ->
  receives (S := S) (tot (tcmi_authenticate_resp_msg_recv m0)) (wire (B_authenticate_resp m)) m.
Proof.
  intros (Hi & Ha & Hr & Ht & Ho & Hd). unfold tcmi_authenticate_resp_msg_recv. cbn [wire].
  do 3 recv_step. rewrite (field_s 1) by (lia || done). rewrite !(field_u 4) by done.
  destruct m as [i a [t o d] r]; simpl in *.
  rewrite <- (app_nil_r (t ++ _)). refine (tot_seq _ _ _ _ _ _ _ _); [rewrite !zlen_app; lia|].
  rewrite <- Ho, <- Ht, ztake_app_eq, zdrop_app_eq, ztake_app_eq.
  rewrite app_assoc, <- zlen_app, zdrop_app_eq. recv_end.
Qed.

Lemma emigrate_recv m0 m :
  wf_body km (B_p_emigrate m) ->
  receives (S := S) (tot (tcmi_p_emigrate_msg_recv km m0)) (wire (B_p_emigrate m)) m.
Proof.
  intros (Hp & H1 & H2 & H3 & H4 & (Hs & Hk0 & c & Hc & Hcl) & (Hn & Hk1 & e & He & Hel)).
  unfold tcmi_p_emigrate_msg_recv. cbn [wire].
  refine (tot_seq _ _ _ _ _ _ _ _); [done|].
  unfold pid_and_size_bytes.
  at_fields.
  rewrite !(field_s 4), !(field_s 2) by (lia || done || unfold srange; lia).
  cbn [em_size exec_name_size reply_pid euid egid fsuid fsgid exec_name em_ckpt_name].
  destruct m; simpl in *; subst. rewrite Hk0, Hk1. cbn [negb].
  refine (tot_seq _ _ _ _ _ _ _ _); [done|]. rewrite <- (app_nil_r e).
  refine (tot_seq _ _ _ _ _ _ _ _); [by rewrite app_nil_r|]. rewrite app_nil_r. recv_end.
Qed.

Lemma signal_recv m0 m :
  wf_body km (B_signal m) ->
  receives (S := S) (tot (tcmi_signal_msg_recv m0)) (wire (B_signal m)) m.
Proof.
  intros (Hp & Hl). unfold tcmi_signal_msg_recv. cbn [wire]. rewrite <- (app_nil_r (_ ++ _)).
  refine (tot_any _ _ _ _ _ _ _); [rewrite zlen_app, zlen_le_bytes; lia|].
  at_fields. rewrite (field_s 4) by (lia || done).
  change 4 with (zlen (le_bytes 4 (sig_pid m))). rewrite zdrop_app_eq. destruct m. recv_end.
Qed.

Lemma user_recv m0 m :
  wf_body km (B_generic_user m) ->
  receives (S := S) (tot (tcmi_generic_user_msg_recv km m0)) (wire (B_generic_user m)) m.
Proof.
  intros (Hi & [Hs Hb]). unfold tcmi_generic_user_msg_recv. cbn [wire].
  do 2 recv_step. rewrite !(field_u 4) by (done || unfold urange; lia).
  cbn [user_size node_id]. destruct m as [i n p]; simpl in *.
  destruct (0 <? n) eqn:E.
  - destruct Hb as (-> & d & -> & Hl). cbn [negb]. rewrite <- (app_nil_r (deref _)).
    refine (tot_seq _ _ _ _ _ _ _ _); [rewrite swrap_id by (unfold srange; lia); done|]. recv_end.
  - subst p. recv_end.
Qed.

(** The classes that carry one integer. *)
Lemma int_recv v :
  srange 32 v ->
  receives (S := S) (tot (fun s => let '(err, d, s) := sk_recv s 4 in (err, s32[le_value d], s)))
    (le_bytes 4 v) v.
Proof.
  intros Hv. rewrite <- (app_nil_r (le_bytes 4 v)).
  refine (tot_any _ _ _ _ _ _ _); [done|]. rewrite (field_s 4) by (lia || done). recv_end.
Qed.

Lemma guestreq_recv m0 m :
  wf_proc km (P_guestreq m) ->
  receives (S := S) (tot (tcmi_ppm_p_migr_back_guestreq_procmsg_recv km m0)) (wire_proc (P_guestreq m)) m.
Proof.
  intros (Hs & Hk0 & c & Hc & Hcl). unfold tcmi_ppm_p_migr_back_guestreq_procmsg_recv.
  cbn [wire_proc]. recv_step. rewrite (field_s 4) by (lia || unfold srange; lia).
  destruct m; simpl in *; subst. rewrite Hk0. cbn [negb]. rewrite <- (app_nil_r c).
  refine (tot_seq _ _ _ _ _ _ _ _); [by rewrite app_nil_r|]. rewrite app_nil_r. recv_end.
Qed.

(** The array of elements is rebuilt from the sizes and one data block. *)
Lemma receives_elements {B} n sizes bases (a1 : list Z -> list (list Z) -> B)
    (e0 : Z -> list Z -> S -> option (Z * B * S))
    (e1 : list Z -> Z -> list Z -> S -> option (Z * B * S)) (need : bool) :
  elems_ok n sizes bases -> 0 < n -> need = true -> km 1 (sum_sizes sizes) = true ->
  receives (S := S) (fun s =>
    if negb need then None else
    let '(err, d, s) := sk_recv s (n * 4) in
    if err <? 0 then e0 err d s else
    if negb (km 1 (data_size_of (sizes_of (Z.to_nat n) d))) then None else
    let '(err, block, s) := sk_recv s (data_size_of (sizes_of (Z.to_nat n) d)) in
    if err <? 0 then e1 d err block s else
    Some (0, a1 (sizes_of (Z.to_nat n) d) (bases_of (sizes_of (Z.to_nat n) d) block), s))
    (sizes_bytes sizes ++ concat (elems sizes bases))
    (a1 sizes (bases_of sizes (concat (elems sizes bases)))).
Proof.
  intros [Hn He] Hpos -> Hkm. destruct (He Hpos) as (Hl & Hs & Hsum). cbn [negb].
  refine (receives_seq _ _ _ _ _ _ _ _); [rewrite zlen_sizes_bytes; lia|].
  replace (Z.to_nat n) with (length sizes) by (unfold zlen in Hl; lia).
  rewrite (sizes_of_bytes _ (sized_u32 _ _ Hs)).
  rewrite (data_size_of_sum _ (sized_nonneg _ _ Hs) Hsum), Hkm. cbn [negb].
  rewrite <- (app_nil_r (concat (elems sizes bases))) at 1.
  refine (receives_seq _ _ _ _ _ _ _ _); [by rewrite zlen_concat_elems|]. recv_end.
Qed.

Lemma rpc_received_recv m0 m :
  wf_proc km (P_rpc m) ->
  receives (S := S) (tcmi_rpc_procmsg_recv km m0) (wire_proc (P_rpc m)) (rpc_received m0 m).
Proof.
  intros (Hr & He & Hk). assert (Hn : urange 16 (nmemb m)) by (destruct He; unfold urange; lia).
  unfold tcmi_rpc_procmsg_recv, rpc_received. cbn [wire_proc]. rewrite app_assoc.
  refine (receives_seq _ _ _ _ _ _ _ _); [by rewrite zlen_app, !zlen_le_bytes|].
  at_fields. rewrite !(field_u 2) by done. destruct (0 <? nmemb m) eqn:E; [|recv_end].
  destruct Hk as [Hk0 Hk1]; [blia|].
  refine (receives_elements _ _ _
    (fun sizes bases => mk_rpc (rpcnum m) (nmemb m) sizes bases (free_data m0)) _ _ _ He _ Hk0 Hk1).
  blia.
Qed.

Lemma rpc_recv m0 m :
  wf_proc km (P_rpc m) ->
  exists m', receives (S := S) (tcmi_rpc_procmsg_recv km m0) (wire_proc (P_rpc m)) m' /\
    norm_proc (P_rpc m') = norm_proc (P_rpc m).
Proof.
  intros Hwf. exists (rpc_received m0 m). split; [by apply rpc_received_recv|]. destruct Hwf as (_ & [_ He] & _).
  unfold rpc_received. destruct (0 <? nmemb m) eqn:E; cbn [norm_proc nmemb]; rewrite E; [|done].
  cbn [rpcnum elem_size elem_base]. rewrite bases_of_concat; [done|apply He; blia].
Qed.

Lemma rpcresp_received_recv m0 m :
  wf_proc km (P_rpcresp m) ->
  receives (S := S) (tcmi_rpcresp_procmsg_recv km m0) (wire_proc (P_rpcresp m)) (rpcresp_received m0 m).
Proof.
  intros (Hr & Hc & He & Hk). assert (Hn : urange 16 (r_nmemb m)) by (destruct He; unfold urange; lia).
  unfold tcmi_rpcresp_procmsg_recv, rpcresp_received. cbn [wire_proc].
  rewrite !app_assoc. rewrite <- (app_assoc (le_bytes 2 _)).
  refine (receives_seq _ _ _ _ _ _ _ _); [by rewrite !zlen_app, !zlen_le_bytes|].
  at_fields. rewrite !(field_u 2) by done. rewrite (field_s 8) by (lia || done).
  destruct (0 <? r_nmemb m) eqn:E; [|recv_end].
  destruct Hk as [Hk0 Hk1]; [blia|].
  refine (receives_elements _ _ _
    (fun sizes bases => mk_rpcresp (r_rpcnum m) (r_nmemb m) (rtn_code m) _ sizes bases)
    _ _ _ He _ Hk0 Hk1).
  blia.
Qed.

Lemma rpcresp_recv m0 m :
  wf_proc km (P_rpcresp m) ->
  exists m', receives (S := S) (tcmi_rpcresp_procmsg_recv km m0) (wire_proc (P_rpcresp m)) m' /\
    norm_proc (P_rpcresp m') = norm_proc (P_rpcresp m).
Proof.
  intros Hwf. exists (rpcresp_received m0 m). split; [by apply rpcresp_received_recv|].
  destruct Hwf as (_ & _ & [_ He] & _).
  unfold rpcresp_received. destruct (0 <? r_nmemb m) eqn:E; cbn [norm_proc r_nmemb]; rewrite E; [|done].
  cbn [r_rpcnum r_elem_size r_elem_base rtn_code]. rewrite bases_of_concat; [done|apply He; blia].
Qed.

Lemma proc_recv_wire b0 b :
  wf_proc km b -> same_class_proc b0 b = true ->
  exists b', receives (S := S) (proc_recv km b0) (wire_proc b) b' /\ norm_proc b' = norm_proc b.
Proof.
  intros Hwf Hc. destruct b0, b; try discriminate Hc; unfold proc_recv;
    try (eexists; split; [|reflexivity];
         first [refine (receives_ret _ _ _); lia
               |refine (tot_map _ _ _ _ _); first [by apply int_recv|by apply guestreq_recv]]).
  - destruct (rpc_recv m m0 Hwf) as (m' & Hm & Hn). exists (P_rpc m'). split; [|done].
    exact (receives_map P_rpc _ _ _ Hm).
  - destruct (rpcresp_recv m m0 Hwf) as (m' & Hm & Hn). exists (P_rpcresp m'). split; [|done].
    exact (receives_map P_rpcresp _ _ _ Hm).
Qed.

Lemma ops_recv_wire b0 b :
  wf_body km b -> same_class b0 b = true ->
  exists b', receives (S := S) (ops_recv km b0) (wire b) b' /\ norm b' = norm b.
Proof.
  intros Hwf Hc. destruct b0, b; try discriminate Hc; unfold ops_recv;
    try (eexists; split; [|reflexivity];
         first [refine (receives_ret _ _ _); lia|refine (tot_map _ _ _ _ _)];
         first [by apply auth_recv|by apply auth_resp_recv|by apply emigrate_recv
               |by apply signal_recv|by apply user_recv|by apply int_recv]).
  destruct Hwf as (Hd & Hm & Hwf).
  destruct (proc_recv_wire b0 b Hwf Hc) as (b' & Hb & Hn).
  exists (B_proc dst_pid0 enforce_migmode0 b'). split; [|simpl; by rewrite Hn].
  unfold tcmi_procmsg_recv. cbn [wire].
  refine (receives_seq _ _ _ _ _ _ _ _); [done|].
  refine (receives_seq _ _ _ _ _ _ _ _); [done|].
  rewrite (field_s 4), (field_u 1) by (lia || done).
  exact (receives_map (B_proc dst_pid0 enforce_migmode0) _ _ _ Hb).
Qed.
End receiving.

(** ** The codec *)

(** C4: Every message class round trips: the send operation of a well-formed
    message succeeds on a working connection and puts exactly the bytes of its wire
    format on the stream, and the receive operation of a message object of the
    same class, whatever that object held before, succeeds on a stream that starts
    with these bytes, takes exactly them off the stream and rebuilds a message
    with the same contents. *)
Theorem message_codec_roundtrip {S} `{Sock S} km b b0 (s1 s2 : S) rest :
  wf_body km b -> same_class b0 b = true -> sk_up s1 -> sk_up s2 ->
  sk_pending s2 = wire b ++ rest ->
  (exists r s1', ops_send b s1 = (r, s1') /\ 0 <= r /\ sk_up s1' /\
     sk_sent s1' = sk_sent s1 ++ wire b) /\
  (exists r b' s2', ops_recv km b0 s2 = Some (r, b', s2') /\ 0 <= r /\ sk_up s2' /\
     sk_pending s2' = rest /\ norm b' = norm b).
Proof.
  intros Hwf Hc Hu1 Hu2 Hp. split.
  - destruct (ops_send_wire km b Hwf s1 Hu1) as (r & s' & ? & ? & ? & ? & _). eauto 10.
  - destruct (ops_recv_wire km b0 b Hwf Hc) as (b' & Hr & Hn).
    destruct (Hr s2 rest Hu2 Hp) as (r & s' & ? & ? & ? & ? & _). eauto 10.
Qed.

(** ** Ownership of the received memory *)

Lemma filter_false {A} (P : A -> Prop) `{forall x, Decision (P x)} l :
  Forall (fun x => ~ P x) l -> filter P l = [].
Proof. induction 1; [done|]. by rewrite filter_cons_False. Qed.

(** The ownership table of a received response: only the first element is freed. *)
Lemma kfree_table_only_first n rpcnum rtn sizes bases :
  0 < n ->
  tcmi_rpcresp_procmsg_free
    (mk_rpcresp rpcnum n rtn
       (TCMI_RPCRESP_PROCMSG_KFREE :: replicate (Z.to_nat (n - 1)) TCMI_RPCRESP_PROCMSG_DONTFREE)
       sizes bases) = ([0%nat], true).
Proof.
  intros Hn. unfold tcmi_rpcresp_procmsg_free. cbn [r_nmemb elem_free].
  replace (n =? 0) with false by lia. cbn [negb]. f_equal.
  destruct (Z.to_nat n) as [|k] eqn:Ek; [lia|]. cbn [seq].
  rewrite filter_cons_True by (left; done). f_equal. apply filter_false.
  apply Forall_forall. intros i Hi%elem_of_seq. unfold znth. rewrite Nat2Z.id.
  destruct i as [|i]; [lia|]. cbn [nth].
  rewrite (nth_lookup_Some _ _ _ TCMI_RPCRESP_PROCMSG_DONTFREE).
  - vm_compute. intros [[=]|[=]].
  - apply lookup_replicate. split; [done|lia].
Qed.

(** The data of a received RPC response is allocated as one block, and when the
    message is released exactly that block is freed, once, however many elements
    point into it, together with the array of sizes. *)
Theorem rpcresp_received_freed_once {S} `{Sock S} km m0 (s s' : S) m' :
  tcmi_rpcresp_procmsg_recv km m0 s = Some (0, m', s') -> 0 < r_nmemb m' ->
  tcmi_rpcresp_procmsg_free m' = ([0%nat], true).
Proof.
  unfold tcmi_rpcresp_procmsg_recv. intros Hr Hn.
  repeat case_hyp Hr; simplify_eq; cbn [r_nmemb] in *;
    bool_hyps; try lia; by apply kfree_table_only_first.
Qed.

(** A failed allocation of the payload is not reported: the receive operation of
    the authentication message then returns the positive byte count of the last
    transfer, which its callers take for success, with no data in the message and
    with the payload still unread on the stream, in front of the next message. *)
Theorem authenticate_alloc_failure_desyncs {S} `{Sock S} km m0 id arch n (s : S) rest :
  urange 32 id -> urange 32 arch -> 0 < n < 2 ^ 32 -> km 0%nat n = false -> sk_up s ->
  sk_pending s = le_bytes 4 id ++ le_bytes 4 arch ++ le_bytes 4 n ++ rest ->
  exists s', tcmi_authenticate_msg_recv km m0 s = (4, mk_auth id arch n None, s') /\
    sk_up s' /\ sk_pending s' = rest.
Proof.
  intros Hi Ha Hn Hk Hu Hp. unfold tcmi_authenticate_msg_recv.
  destruct (recv_up s 4 _ _ Hu Hp) as (s1 & -> & Hu1 & Hp1 & _); [done|].
  cbn [Z.ltb Z.compare].
  destruct (recv_up s1 4 _ _ Hu1 Hp1) as (s2 & -> & Hu2 & Hp2 & _); [done|].
  destruct (recv_up s2 4 _ _ Hu2 Hp2) as (s3 & -> & Hu3 & Hp3 & _); [done|].
  cbn [Z.ltb Z.compare auth_size pen_id pen_arch].
  rewrite !(field_u 4) by (done || unfold urange; lia).
  replace (0 <? n) with true by lia. rewrite Hk. cbn [negb]. eauto.
Qed.

Lemma bases_of_bounded sizes block (i : nat) :
  (i < length sizes)%nat -> exists b, bases_of sizes block !! i = Some b /\ zlen b <= zlen block.
Proof.
  revert block i. induction sizes as [|k sizes IH]; intros block i Hi; simpl in *; [lia|].
  destruct i as [|i]; [exists block; split; [done|lia]|].
  destruct (IH (zdrop k block) i) as (b & Hb & Hl); [lia|]. exists b. split; [done|].
  rewrite zlen_zdrop in Hl. pose proof (zlen_nonneg block). lia.
Qed.

(** The receiver of an RPC request adds the announced element sizes in a signed
    32-bit [int] and allocates and reads only that many bytes: when the sum wraps,
    the message is accepted with return value 0, the stream continues right after the
    short block, and every element pointer gives access to at most the block,
    whatever size the message announces for the element. *)
Theorem rpc_recv_wrapped_sizes {S} `{Sock S} km m0 num sizes block (s : S) rest :
  urange 16 num -> 0 < zlen sizes < 2 ^ 16 -> Forall (urange 32) sizes ->
  zlen block = data_size_of sizes ->
  km 0%nat (zlen sizes * 4 + zlen sizes * 8) = true -> km 1%nat (zlen block) = true -> sk_up s ->
  sk_pending s = le_bytes 2 num ++ le_bytes 2 (zlen sizes) ++ sizes_bytes sizes ++ block ++ rest ->
  exists m' s', tcmi_rpc_procmsg_recv km m0 s = Some (0, m', s') /\ sk_pending s' = rest /\
    (forall i, 0 <= i < zlen sizes ->
       tcmi_rpc_procmsg_data_size m' i = znth sizes i /\
       exists b, tcmi_rpc_procmsg_data_base m' i = Some b /\ zlen b <= zlen block).
Proof.
  intros Hnum Hn Hf Hb Hk0 Hk1 Hu Hp. rewrite app_assoc in Hp.
  unfold tcmi_rpc_procmsg_recv.
  destruct (recv_up s 4 _ _ Hu Hp) as (s1 & -> & Hu1 & Hp1 & _).
  { by rewrite zlen_app, !zlen_le_bytes. }
  cbn [Z.ltb Z.compare]. rewrite at_app_here by (by rewrite zlen_le_bytes).
  rewrite at_app_skip by (by rewrite zlen_le_bytes). rewrite zlen_le_bytes, at_all by done.
  rewrite !(field_u 2) by (done || unfold urange; lia).
  replace (0 <? zlen sizes) with true by lia. rewrite Hk0. cbn [negb].
  destruct (recv_up s1 (zlen sizes * 4) _ _ Hu1 Hp1) as (s2 & -> & Hu2 & Hp2 & _).
  { by rewrite zlen_sizes_bytes. }
  replace (zlen sizes * 4 <? 0) with false by lia.
  replace (Z.to_nat (zlen sizes)) with (length sizes) by (unfold zlen; lia).
  rewrite (sizes_of_bytes _ Hf), <- Hb, Hk1. cbn [negb].
  destruct (recv_up s2 (zlen block) _ _ Hu2 Hp2 eq_refl) as (s3 & -> & Hu3 & Hp3 & _).
  pose proof (zlen_nonneg block). replace (zlen block <? 0) with false by lia.
  eexists _, s3. split_and!; [done..|]. intros i Hi.
  unfold tcmi_rpc_procmsg_data_size, tcmi_rpc_procmsg_data_base. cbn [nmemb elem_size elem_base].
  replace (i <? zlen sizes) with true by lia. split; [done|].
  apply bases_of_bounded. unfold zlen in Hi. lia.
Qed.

(** ** Witnesses *)

(** An RPC request with two elements, sent in segments of at most 3 bytes. *)
Definition ex_rpc : msg_body :=
  B_proc 77 0 (P_rpc (mk_rpc 5 2 [2; 3] [[1; 2]; [3; 4; 5; 9]] false)).
Definition ex_blank : msg_body := B_proc 0 0 (P_rpc (mk_rpc 0 0 [] [] true)).

Lemma message_codec_roundtrip_witness :
  exists b', ops_recv (fun _ _ => true) ex_blank (mk_seg [] (wire ex_rpc ++ [42]) [3; 2])
    = Some (0, b', mk_seg [] [42] []) /\ norm b' = norm ex_rpc.
Proof.
  destruct (message_codec_roundtrip (fun _ _ => true) ex_rpc ex_blank (mk_seg [] [] [])
    (mk_seg [] (wire ex_rpc ++ [42]) [3; 2]) [42]) as [_ (r & b' & s2 & E & _ & _ & _ & Hn)].
  - cbn. unfold srange, urange, elems_ok, sum_sizes. cbn.
    split_and!; try lia; try (split; reflexivity); intros _.
    split_and!; [reflexivity| |lia]. repeat constructor; cbn; lia || unfold zlen; simpl; lia.
  - reflexivity.
  - exact I.
  - exact I.
  - reflexivity.
  - exists b'. split; [|exact Hn]. vm_compute in E. vm_compute. injection E as _ Eb _.
    rewrite <- Eb. reflexivity.
Defined.

Definition ex_resp_stream : list Z :=
  le_bytes 2 7 ++ le_bytes 2 2 ++ le_bytes 8 0 ++ sizes_bytes [1; 2] ++ [10; 20; 30].

Lemma rpcresp_received_freed_once_witness :
  exists m' s', tcmi_rpcresp_procmsg_recv (fun _ _ => true) (mk_rpcresp 0 0 0 [] [] [])
      (mk_seg [] ex_resp_stream []) = Some (0, m', s') /\
    tcmi_rpcresp_procmsg_free m' = ([0%nat], true).
Proof.
  eexists _, _. split; [vm_compute; reflexivity|].
  apply (rpcresp_received_freed_once (fun _ _ => true) (mk_rpcresp 0 0 0 [] [] [])
           (mk_seg [] ex_resp_stream []) (mk_seg [] [] [])).
  - vm_compute. reflexivity.
  - reflexivity.
Defined.

Lemma authenticate_alloc_failure_desyncs_witness :
  exists s', tcmi_authenticate_msg_recv (fun _ _ => false) (mk_auth 0 0 0 None)
      (mk_seg [] (le_bytes 4 1 ++ le_bytes 4 2 ++ le_bytes 4 3 ++ [7; 8; 9]) [])
    = (4, mk_auth 1 2 3 None, s') /\ sk_up s' /\ sk_pending s' = [7; 8; 9].
Proof.
  apply authenticate_alloc_failure_desyncs;
    [split; reflexivity || discriminate.. | reflexivity | exact I | reflexivity].
Defined.

(** Two elements of 4294967295 and 9 bytes: 8 bytes are read. *)
Lemma rpc_recv_wrapped_sizes_witness :
  exists m' s', tcmi_rpc_procmsg_recv (fun _ _ => true) (mk_rpc 0 0 [] [] true)
      (mk_seg [] (le_bytes 2 3 ++ le_bytes 2 2 ++ sizes_bytes [4294967295; 9] ++
                  [1; 2; 3; 4; 5; 6; 7; 8] ++ [42]) [])
    = Some (0, m', s') /\ sk_pending s' = [42] /\ tcmi_rpc_procmsg_data_size m' 0 = 4294967295.
Proof.
  destruct (rpc_recv_wrapped_sizes (fun _ _ => true) (mk_rpc 0 0 [] [] true) 3 [4294967295; 9]
    [1; 2; 3; 4; 5; 6; 7; 8] (mk_seg [] (le_bytes 2 3 ++ le_bytes 2 2 ++
      sizes_bytes [4294967295; 9] ++ [1; 2; 3; 4; 5; 6; 7; 8] ++ [42]) []) [42])
    as (m' & s' & E & Hp & Hi).
  - split; reflexivity || discriminate.
  - split; reflexivity.
  - repeat constructor; discriminate.
  - reflexivity.
  - reflexivity.
  - reflexivity.
  - exact I.
  - reflexivity.
  - exists m', s'. destruct (Hi 0) as [Hs _]; [split; [discriminate|reflexivity]|].
    split; [exact E|]. split; [exact Hp|exact Hs].
Defined.
