(* ===== verification/Queue.v ===== *)
(** The message queue (src/src/tcmi/lib/tcmi_queue.h): a reference counted FIFO of
    linked elements with a wait queue.

    Elements are identified by their address.  [sleepers] counts the exclusive
    waiters on [wq]; [wake_up] releases one of them. *)

From S2P Require Import Prelude.

Inductive tcmi_queue_type := TCMI_QUEUE_STATIC | TCMI_QUEUE_DYNAMIC.

Record tcmi_queue := mk_queue {
  q_lock : bool;
  queue : list Z;
  q_ref : Z;
  q_type : tcmi_queue_type;
  sleepers : nat
}.

Definition tcmi_queue_init : tcmi_queue := mk_queue false [] 1 TCMI_QUEUE_STATIC 0.

Definition tcmi_queue_new (kmalloc_ok : bool) : option tcmi_queue :=
  if negb kmalloc_ok then None
  else let q := tcmi_queue_init in
       Some (mk_queue (q_lock q) (queue q) (q_ref q) TCMI_QUEUE_DYNAMIC (sleepers q)).

Definition tcmi_queue_get (self : option tcmi_queue) : option tcmi_queue :=
  match self with
  | None => None
  | Some q => Some (mk_queue (q_lock q) (queue q) (q_ref q + 1) (q_type q) (sleepers q))
  end.

(** Returns the queue and whether its memory was released. *)
Definition tcmi_queue_put (self : option tcmi_queue) : option tcmi_queue * bool :=
  match self with
  | None => (None, false)
  | Some q =>
      let q' := mk_queue (q_lock q) (queue q) (q_ref q - 1) (q_type q) (sleepers q) in
      if q_ref q - 1 =? 0 then
        match q_type q with
        | TCMI_QUEUE_STATIC => (Some q', false)
        | TCMI_QUEUE_DYNAMIC => (None, true)
        end
      else (Some q', false)
  end.

(** [None]: the caller spins on its own lock. *)
Definition tcmi_queue_lock (q : tcmi_queue) : option tcmi_queue :=
  if q_lock q then None else Some (mk_queue true (queue q) (q_ref q) (q_type q) (sleepers q)).
Definition tcmi_queue_unlock (q : tcmi_queue) : tcmi_queue :=
  mk_queue false (queue q) (q_ref q) (q_type q) (sleepers q).

Definition tcmi_queue_empty (q : tcmi_queue) : bool :=
  match queue q with [] => true | _ => false end.

Definition __tcmi_queue_add (q : tcmi_queue) (element : Z) : tcmi_queue :=
  mk_queue (q_lock q) (queue q ++ [element]) (q_ref q) (q_type q) (pred (sleepers q)).

Definition tcmi_queue_add (q : tcmi_queue) (element : Z) : option tcmi_queue :=
  q ← tcmi_queue_lock q; Some (tcmi_queue_unlock (__tcmi_queue_add q element)).

Definition __tcmi_queue_remove (q : tcmi_queue) : option Z * tcmi_queue :=
  if tcmi_queue_empty q then (None, q)
  else match queue q with
       | element :: rest => (Some element, mk_queue (q_lock q) rest (q_ref q) (q_type q) (sleepers q))
       | [] => (None, q)
       end.

Definition tcmi_queue_remove (q : tcmi_queue) : option (option Z * tcmi_queue) :=
  q ← tcmi_queue_lock q;
  let '(element, q) := __tcmi_queue_remove q in
  Some (element, tcmi_queue_unlock q).

(** [None]: the caller goes to sleep; [signal] is the pending signal's error. *)
Definition tcmi_queue_wait_on_empty_interruptible (signal : option Z) (q : tcmi_queue)
    : option Z * tcmi_queue :=
  if negb (tcmi_queue_empty q) then (Some 0, q)
  else match signal with
       | Some e => (Some e, q)
       | None => (None, mk_queue (q_lock q) (queue q) (q_ref q) (q_type q) (S (sleepers q)))
       end.

(** ** The queue is a FIFO, and nobody sleeps beside a waiting element *)

(** The calls other threads make. *)
Inductive qop := Q_add (e : Z) | Q_remove | Q_wait (signal : option Z).

(** Runs a sequence of calls, collecting what the removes return. *)
Fixpoint run_queue (ops : list qop) (q : tcmi_queue) (out : list (option Z))
    : option (list (option Z) * tcmi_queue) :=
  match ops with
  | [] => Some (out, q)
  | Q_add e :: ops => q ← tcmi_queue_add q e; run_queue ops q out
  | Q_remove :: ops => '(r, q) ← tcmi_queue_remove q; run_queue ops q (out ++ [r])
  | Q_wait signal :: ops =>
      let '(_, q) := tcmi_queue_wait_on_empty_interruptible signal q in run_queue ops q out
  end.

(** The specification: a list. *)
Fixpoint run_fifo (ops : list qop) (l : list Z) (out : list (option Z)) : list (option Z) * list Z :=
  match ops with
  | [] => (out, l)
  | Q_add e :: ops => run_fifo ops (l ++ [e]) out
  | Q_remove :: ops => run_fifo ops (tail l) (out ++ [head l])
  | Q_wait _ :: ops => run_fifo ops l out
  end.

Definition added (ops : list qop) : list Z := omap (fun o => match o with Q_add e => Some e | _ => None end) ops.

Lemma run_fifo_order ops l out :
  omap id (run_fifo ops l out).1 ++ (run_fifo ops l out).2 = omap id out ++ l ++ added ops.
Proof.
  revert l out. induction ops as [|[e| |sg] ops IH]; intros l out.
  - simpl. by rewrite app_nil_r.
  - cbn [run_fifo]. rewrite IH. unfold added. simpl. by rewrite <- app_assoc.
  - cbn [run_fifo]. rewrite IH, omap_app. unfold added. simpl. destruct l; simpl;
      rewrite <- ?app_assoc; simpl; [by rewrite app_nil_l || done|done].
  - cbn [run_fifo]. rewrite IH. done.
Qed.

Lemma run_queue_fifo ops q out :
  q_lock q = false ->
  exists q', run_queue ops q out = Some ((run_fifo ops (queue q) out).1, q') /\
    queue q' = (run_fifo ops (queue q) out).2 /\ q_lock q' = false.
Proof.
  revert q out. induction ops as [|[e| |sg] ops IH]; intros q out Hl.
  - exists q. done.
  - cbn [run_queue run_fifo]. unfold tcmi_queue_add, tcmi_queue_lock. rewrite Hl. simpl. by apply IH.
  - cbn [run_queue run_fifo]. unfold tcmi_queue_remove, tcmi_queue_lock, __tcmi_queue_remove,
      tcmi_queue_empty. rewrite Hl. simpl. destruct (queue q) as [|x l] eqn:Eq; simpl.
    + rewrite <- Eq. by apply (IH (mk_queue false (queue q) (q_ref q) (q_type q) (sleepers q))).
    + by apply (IH (mk_queue false l (q_ref q) (q_type q) (sleepers q))).
  - cbn [run_queue run_fifo]. unfold tcmi_queue_wait_on_empty_interruptible.
    destruct (negb (tcmi_queue_empty q)); [by apply IH|]. destruct sg; [by apply IH|].
    exact (IH (mk_queue (q_lock q) (queue q) (q_ref q) (q_type q) (S (sleepers q))) out Hl).
Qed.

(** Any sequence of additions, removals and waits on a fresh queue behaves as
    on a plain list: no call spins on the queue's lock, the removed elements
    followed by the ones still queued are exactly the added elements in the order of
    their addition, and a removal returns NULL only on an empty queue. *)
Theorem queue_is_fifo ops :
  exists out q', run_queue ops tcmi_queue_init [] = Some (out, q') /\ q_lock q' = false /\
    (out, queue q') = run_fifo ops [] [] /\ omap id out ++ queue q' = added ops.
Proof.
  destruct (run_queue_fifo ops tcmi_queue_init [] eq_refl) as (q' & Hr & Hq & Hl).
  eexists _, q'. split_and!; [exact Hr|done|rewrite Hq; symmetry; exact (surjective_pairing (run_fifo ops [] []))|].
  rewrite Hq. exact (run_fifo_order ops [] []).
Qed.
