(* ===== verification/Msg.v ===== *)
(** Messages as objects (src/src/tcmi/comm/tcmi_msg.h, tcmi_msg.c, tcmi_procmsg.c
    and the constructors of the message classes): construction for receiving and
    for sending, reference counts, sending with a transaction, receiving, delivery,
    and the receiving thread of a connection (tcmi_comm.c).

    The class of a message, that is its operations table, is the constructor of its
    [body].  Messages are identified by their address when they are queued or
    attached to a transaction. *)

From stdpp Require Import gmap.
From S2P Require Import Prelude SlotVec Transaction KkcSock MsgId Messages Queue.

Record tcmi_msg := mk_msg {
  msg_id : Z;
  trans_req : Z;
  trans_resp : Z;
  transaction : option Z;
  m_ref : Z;
  body : msg_body
}.

Definition tcmi_msg_init_shared (id : Z) (b : msg_body) : Z * tcmi_msg :=
  (0, mk_msg id TCMI_TRANSACTION_INVAL_ID TCMI_TRANSACTION_INVAL_ID None 1 b).

Definition tcmi_msg_init_rx (id : Z) (b : msg_body) : Z * tcmi_msg := tcmi_msg_init_shared id b.

(** [trans]: a transaction vector is given.  [addr] and [rnd] are the allocation
    and the random draws of [tcmi_transaction_new]. *)
Definition tcmi_msg_init_tx (addr : option Z) (rnd : list Z) (id : Z) (b : msg_body) (trans : bool)
    (resp_msg_id timeout resp_trans_id : Z) (w : world) : option (Z * tcmi_msg * world) :=
  let '(_, self) := tcmi_msg_init_shared id b in
  let self := mk_msg (msg_id self) (trans_req self) resp_trans_id (transaction self) (m_ref self)
                (body self) in
  if trans then
    '(tran, w) ← tcmi_transaction_new addr rnd (TCMI_MSG_TYPE resp_msg_id) timeout w;
    match tran with
    | None => Some (-1, self, w)
    | Some p =>
        t ← heap w !! p;
        Some (0, mk_msg (msg_id self) (Transaction.id t) (trans_resp self) (Some p) (m_ref self)
                   (body self), w)
    end
  else Some (0, self, w).

Definition tcmi_msg_get (self : tcmi_msg) : tcmi_msg :=
  mk_msg (msg_id self) (trans_req self) (trans_resp self) (transaction self) (m_ref self + 1) (body self).

(** *** The custom free operations: the memory blocks they release.  [kfree(NULL)]
    does nothing. *)

Definition kfree (p : option (list Z)) : list (list Z) := match p with Some b => [b] | None => [] end.

Definition tcmi_authenticate_msg_send_free (m : tcmi_authenticate_msg) : list (list Z) :=
  kfree (auth_data m).
Definition tcmi_generic_user_msg_send_free (m : tcmi_generic_user_msg) : list (list Z) :=
  kfree (user_data m).
Definition tcmi_p_emigrate_msg_free (m : tcmi_p_emigrate_msg) : list (list Z) :=
  kfree (em_ckpt_name m) ++ kfree (exec_name m).
Definition tcmi_ppm_p_migr_back_guestreq_procmsg_free (m : tcmi_guestreq_procmsg) : list (list Z) :=
  kfree (gr_ckpt_name m).

Definition tcmi_procmsg_free (b : proc_body) : list (list Z) :=
  match b with
  | P_guestreq m => tcmi_ppm_p_migr_back_guestreq_procmsg_free m
  | P_rpc m =>
      let '(data, sizes) := tcmi_rpc_procmsg_free m in
      (if data : bool then kfree (elem_base m !! 0%nat) else []) ++
      (if sizes : bool then [elem_size m] else [])
  | P_rpcresp m =>
      let '(idx, table) := tcmi_rpcresp_procmsg_free m in
      (idx ≫= fun i => kfree (r_elem_base m !! i)) ++ (if table : bool then [r_elem_size m] else [])
  | _ => []
  end.

Definition ops_free (b : msg_body) : list (list Z) :=
  match b with
  | B_authenticate m => tcmi_authenticate_msg_send_free m
  | B_generic_user m => tcmi_generic_user_msg_send_free m
  | B_p_emigrate m => tcmi_p_emigrate_msg_free m
  | B_proc _ _ b => tcmi_procmsg_free b
  | _ => []
  end.

(** [None] in the result: the message was destroyed; the custom free operation
    released the listed blocks and the transaction reference was put. *)
Definition tcmi_msg_put (self : option tcmi_msg) (w : world)
    : option (option tcmi_msg * list (list Z) * world) :=
  match self with
  | None => Some (None, [], w)
  | Some self =>
      if m_ref self - 1 =? 0
      then w ← tcmi_transaction_put (transaction self) w; Some (None, ops_free (body self), w)
      else Some (Some (mk_msg (msg_id self) (trans_req self) (trans_resp self) (transaction self)
                         (m_ref self - 1) (body self)), [], w)
  end.

Definition tcmi_msg_errid (self : tcmi_msg) : Z := TCMI_MSG_FLG_SET_ERR (msg_id self).
Definition tcmi_msg_req_id (self : tcmi_msg) : Z := trans_req self.

(** ** Constructors for receiving

    [mem] is the result of [kmalloc]: NULL, or memory with arbitrary contents. *)

(** The common shape: id check, allocation, initialisation. *)
Definition checked_rx {A} (own msg_id : Z) (mem : option A) (b : A -> msg_body) : option tcmi_msg :=
  if negb (msg_id =? own) then None else
  m ← mem;
  let '(err, msg) := tcmi_msg_init_rx own (b m) in
  if negb (err =? 0) then None else Some msg.

(** Uninitialised memory of each class. *)
Record garbage := mk_garbage {
  g_auth : tcmi_authenticate_msg; g_auth_resp : tcmi_authenticate_resp_msg;
  g_emigrate : tcmi_p_emigrate_msg; g_signal : tcmi_signal_msg; g_user : tcmi_generic_user_msg;
  g_int : Z; g_guestreq : tcmi_guestreq_procmsg; g_rpc : tcmi_rpc_procmsg;
  g_rpcresp : tcmi_rpcresp_procmsg; g_pid : Z; g_migmode : Z
}.

Section rx.
Context (mem : option garbage) (msg_id : Z).

Definition tcmi_skel_msg_new_rx : option tcmi_msg :=
  checked_rx TCMI_SKEL_MSG_ID msg_id mem (fun _ => B_skel_msg).
Definition tcmi_skelresp_msg_new_rx : option tcmi_msg :=
  checked_rx TCMI_SKELRESP_MSG_ID msg_id mem (fun _ => B_skelresp_msg).
Definition tcmi_authenticate_msg_new_rx : option tcmi_msg :=
  checked_rx TCMI_AUTHENTICATE_MSG_ID msg_id mem (fun g => B_authenticate (g_auth g)).
Definition tcmi_authenticate_resp_msg_new_rx : option tcmi_msg :=
  checked_rx TCMI_AUTHENTICATE_RESP_MSG_ID msg_id mem (fun g => B_authenticate_resp (g_auth_resp g)).
Definition tcmi_disconnect_msg_new_rx : option tcmi_msg :=
  checked_rx TCMI_DISCONNECT_MSG_ID msg_id mem (fun _ => B_disconnect).
Definition tcmi_p_emigrate_msg_new_rx : option tcmi_msg :=
  checked_rx TCMI_P_EMIGRATE_MSG_ID msg_id mem (fun g => B_p_emigrate (g_emigrate g)).
Definition tcmi_signal_msg_new_rx : option tcmi_msg :=
  checked_rx TCMI_SIGNAL_MSG_ID msg_id mem (fun g => B_signal (g_signal g)).
Definition tcmi_generic_user_msg_new_rx : option tcmi_msg :=
  checked_rx TCMI_GENERIC_USER_MSG_ID msg_id mem (fun g => B_generic_user (g_user g)).

(** [tcmi_procmsg_init_rx]: destination and mode flag stay uninitialised. *)
Definition tcmi_procmsg_init_rx (b : garbage -> proc_body) (g : garbage) : msg_body :=
  B_proc (g_pid g) (g_migmode g) (b g).

Definition tcmi_skel_procmsg_new_rx : option tcmi_msg :=
  checked_rx TCMI_SKEL_PROCMSG_ID msg_id mem (tcmi_procmsg_init_rx (fun _ => P_skel)).
Definition tcmi_skelresp_procmsg_new_rx : option tcmi_msg :=
  checked_rx TCMI_SKELRESP_PROCMSG_ID msg_id mem (tcmi_procmsg_init_rx (fun _ => P_skelresp)).
Definition tcmi_exit_procmsg_new_rx : option tcmi_msg :=
  checked_rx TCMI_EXIT_PROCMSG_ID msg_id mem (tcmi_procmsg_init_rx (fun g => P_exit (g_int g))).
Definition tcmi_vfork_done_procmsg_new_rx : option tcmi_msg :=
  checked_rx TCMI_VFORK_DONE_PROCMSG_ID msg_id mem (tcmi_procmsg_init_rx (fun _ => P_vfork_done)).
Definition tcmi_guest_started_procmsg_new_rx : option tcmi_msg :=
  checked_rx TCMI_GUEST_STARTED_PROCMSG_ID msg_id mem
    (tcmi_procmsg_init_rx (fun g => P_guest_started (g_int g))).
Definition tcmi_ppm_p_migr_back_guestreq_procmsg_new_rx : option tcmi_msg :=
  checked_rx TCMI_PPM_P_MIGR_BACK_GUESTREQ_PROCMSG_ID msg_id mem
    (tcmi_procmsg_init_rx (fun g => P_guestreq (g_guestreq g))).
Definition tcmi_ppm_p_migr_back_shadowreq_procmsg_new_rx : option tcmi_msg :=
  checked_rx TCMI_PPM_P_MIGR_BACK_SHADOWREQ_PROCMSG_ID msg_id mem
    (tcmi_procmsg_init_rx (fun _ => P_shadowreq)).
Definition tcmi_rpc_procmsg_new_rx : option tcmi_msg :=
  checked_rx TCMI_RPC_PROCMSG_ID msg_id mem
    (tcmi_procmsg_init_rx (fun g => let m := g_rpc g in
       P_rpc (mk_rpc (rpcnum m) (nmemb m) (elem_size m) (elem_base m) true))).
Definition tcmi_rpcresp_procmsg_new_rx : option tcmi_msg :=
  checked_rx TCMI_RPCRESP_PROCMSG_ID msg_id mem
    (tcmi_procmsg_init_rx (fun g => let m := g_rpcresp g in
       P_rpcresp (mk_rpcresp (r_rpcnum m) (r_nmemb m) (rtn_code m) [] (r_elem_size m) (r_elem_base m)))).

(** The error classes accept any id and extend it with the error flag. *)
Definition tcmi_err_msg_new_rx : option tcmi_msg :=
  g ← mem;
  let '(err, msg) := tcmi_msg_init_rx (TCMI_MSG_FLG_SET_ERR msg_id) (B_err (g_int g)) in
  if negb (err =? 0) then None else Some msg.
Definition tcmi_err_procmsg_new_rx : option tcmi_msg :=
  g ← mem;
  let '(err, msg) := tcmi_msg_init_rx (TCMI_MSG_FLG_SET_ERR msg_id)
    (tcmi_procmsg_init_rx (fun g => P_err (g_int g)) g) in
  if negb (err =? 0) then None else Some msg.

(** The constructor a descriptor names. *)
Definition class_ctor (c : msg_class) : option tcmi_msg :=
  match c with
  | C_SKEL_MSG => tcmi_skel_msg_new_rx
  | C_SKELRESP_MSG => tcmi_skelresp_msg_new_rx
  | C_AUTHENTICATE_MSG => tcmi_authenticate_msg_new_rx
  | C_AUTHENTICATE_RESP_MSG => tcmi_authenticate_resp_msg_new_rx
  | C_DISCONNECT_MSG => tcmi_disconnect_msg_new_rx
  | C_P_EMIGRATE_MSG => tcmi_p_emigrate_msg_new_rx
  | C_SIGNAL_MSG => tcmi_signal_msg_new_rx
  | C_GENERIC_USER_MSG => tcmi_generic_user_msg_new_rx
  | C_SKEL_PROCMSG => tcmi_skel_procmsg_new_rx
  | C_SKELRESP_PROCMSG => tcmi_skelresp_procmsg_new_rx
  | C_EXIT_PROCMSG => tcmi_exit_procmsg_new_rx
  | C_VFORK_DONE_PROCMSG => tcmi_vfork_done_procmsg_new_rx
  | C_GUEST_STARTED_PROCMSG => tcmi_guest_started_procmsg_new_rx
  | C_MIGR_BACK_GUESTREQ_PROCMSG => tcmi_ppm_p_migr_back_guestreq_procmsg_new_rx
  | C_MIGR_BACK_SHADOWREQ_PROCMSG => tcmi_ppm_p_migr_back_shadowreq_procmsg_new_rx
  | C_RPC_PROCMSG => tcmi_rpc_procmsg_new_rx
  | C_RPCRESP_PROCMSG => tcmi_rpcresp_procmsg_new_rx
  | C_ERR_MSG => tcmi_err_msg_new_rx
  | C_ERR_PROCMSG => tcmi_err_procmsg_new_rx
  end.

(** The message object the factory returns. *)
Definition factory_msg (msg_group : Z) : option tcmi_msg :=
  '(c, _) ← tcmi_msg_factory (bool_decide (is_Some mem)) msg_id msg_group; class_ctor c.
End rx.

(** ** Constructors for sending *)

(** What the outside decides during a constructor: the allocation of the message,
    of its [i]-th buffer, and the two inputs of [tcmi_transaction_new]. *)
Record tx_env := mk_env {
  e_msg : bool; e_buf : nat -> Z -> bool; e_addr : option Z; e_rnd : list Z
}.

Section tx.
Context (HZ : Z) (e : tx_env).

Definition TCMI_DEFAULT_MSG_TIMEOUT : Z := 60 * HZ.
Definition TCMI_P_EMIGRATE_MSGTIMEOUT : Z := 10 * HZ.
Definition TCMI_RPC_PROCMSGTIMEOUT : Z := 10 * 60 * HZ.
Definition TCMI_SIGNAL_MSGTIMEOUT : Z := 5 * HZ.
Definition TCMI_SKEL_MSGTIMEOUT : Z := 5 * HZ.
Definition TCMI_SKEL_PROCMSGTIMEOUT : Z := 5 * HZ.

(** The common tail: initialise, or release everything and return NULL.  [None]
    is NULL in the inner option. *)
Definition init_or_free (id : Z) (b : msg_body) (trans : bool) (resp timeout resp_trans : Z)
    (w : world) : option (option tcmi_msg * world) :=
  '(err, msg, w) ← tcmi_msg_init_tx (e_addr e) (e_rnd e) id b trans resp timeout resp_trans w;
  if negb (err =? 0) then Some (None, w) else Some (Some msg, w).

(** [tcmi_procmsg_init_tx] with the same tail. *)
Definition tcmi_procmsg_init_tx (id : Z) (b : proc_body) (dst_pid enforce_migmode : Z) (trans : bool)
    (resp timeout resp_trans : Z) (w : world) : option (option tcmi_msg * world) :=
  init_or_free id (B_proc dst_pid enforce_migmode b) trans resp timeout resp_trans w.

Definition NULL_tx (w : world) : option (option tcmi_msg * world) := Some (None, w).

Definition tcmi_skel_msg_new_tx (trans : bool) (w : world) :=
  if negb (e_msg e) then NULL_tx w else
  init_or_free TCMI_SKEL_MSG_ID B_skel_msg trans TCMI_SKELRESP_MSG_ID TCMI_SKEL_MSGTIMEOUT
    TCMI_TRANSACTION_INVAL_ID w.

Definition tcmi_skelresp_msg_new_tx (trans_id : Z) (w : world) :=
  if negb (e_msg e) then NULL_tx w else
  init_or_free TCMI_SKELRESP_MSG_ID B_skelresp_msg false 0 0 trans_id w.

Definition tcmi_authenticate_msg_new_tx (trans : bool) (pen_id pen_arch : Z) (auth_data : list Z)
    (size : Z) (w : world) :=
  if negb (e_msg e) then NULL_tx w else
  if (0 <? size) && negb (e_buf e 0 size) then NULL_tx w else
  let data := if 0 <? size then Some (ztake size auth_data) else None in
  init_or_free TCMI_AUTHENTICATE_MSG_ID (B_authenticate (mk_auth pen_id pen_arch u32[size] data))
    trans TCMI_AUTHENTICATE_RESP_MSG_ID TCMI_DEFAULT_MSG_TIMEOUT TCMI_TRANSACTION_INVAL_ID w.

Definition tcmi_authenticate_resp_msg_new_tx (trans_id ccn_id ccn_arch result_code : Z)
    (mount_params : fs_mount_params) (w : world) :=
  if negb (e_msg e) then NULL_tx w else
  init_or_free TCMI_AUTHENTICATE_RESP_MSG_ID
    (B_authenticate_resp (mk_auth_resp ccn_id ccn_arch mount_params result_code)) false 0 0 trans_id w.

Definition tcmi_disconnect_msg_new_tx (w : world) :=
  if negb (e_msg e) then NULL_tx w else
  init_or_free TCMI_DISCONNECT_MSG_ID B_disconnect false 0 0 TCMI_TRANSACTION_INVAL_ID w.

(** A C string without its terminator. *)
Definition strcpy (s : list Z) : list Z := s ++ [0].

Definition tcmi_p_emigrate_msg_new_tx (trans : bool) (reply_pid : Z) (exec_name ckpt_name : list Z)
    (euid egid fsuid fsgid : Z) (w : world) :=
  if negb (e_msg e) then NULL_tx w else
  let size := s32[zlen ckpt_name + 1] in
  let exec_name_size := s32[zlen exec_name + 1] in
  if negb (e_buf e 0 size) then NULL_tx w else
  if negb (e_buf e 1 exec_name_size) then NULL_tx w else
  init_or_free TCMI_P_EMIGRATE_MSG_ID
    (B_p_emigrate (mk_emigrate reply_pid size exec_name_size euid egid fsuid fsgid
                     (Some (strcpy exec_name)) (Some (strcpy ckpt_name))))
    trans TCMI_GUEST_STARTED_PROCMSG_ID TCMI_P_EMIGRATE_MSGTIMEOUT TCMI_TRANSACTION_INVAL_ID w.

(** [mem]: the contents of the fresh memory, which the constructor leaves. *)
Definition tcmi_signal_msg_new_tx (mem : tcmi_signal_msg) (trans : bool) (w : world) :=
  if negb (e_msg e) then NULL_tx w else
  init_or_free TCMI_SIGNAL_MSG_ID (B_signal mem) trans 0 TCMI_SIGNAL_MSGTIMEOUT
    TCMI_TRANSACTION_INVAL_ID w.

Definition tcmi_signal_msg_new (mem : tcmi_signal_msg) (pid : Z) (info : list Z) (w : world)
    : option (option tcmi_msg * world) :=
  match tcmi_signal_msg_new_tx mem false w with
  | Some (Some m, w) =>
      Some (Some (mk_msg (msg_id m) (trans_req m) (trans_resp m) (transaction m) (m_ref m)
                    (B_signal (mk_signal pid info))), w)
  | r => r
  end.

Definition tcmi_generic_user_msg_new_tx (node_id : Z) (user_data : list Z) (size : Z) (w : world) :=
  if negb (e_msg e) then NULL_tx w else
  if (0 <? size) && negb (e_buf e 0 size) then NULL_tx w else
  let data := if 0 <? size then Some (ztake size user_data) else None in
  init_or_free TCMI_GENERIC_USER_MSG_ID (B_generic_user (mk_user node_id u32[size] data))
    false 0 0 TCMI_TRANSACTION_INVAL_ID w.

Definition tcmi_err_msg_new_tx (msg_id trans_id err_code : Z) (w : world) :=
  if negb (e_msg e) then NULL_tx w else
  init_or_free (TCMI_MSG_FLG_SET_ERR msg_id) (B_err err_code) false 0 0 trans_id w.

Definition tcmi_err_procmsg_new_tx (msg_id trans_id err_code dst_pid : Z) (w : world) :=
  if negb (e_msg e) then NULL_tx w else
  tcmi_procmsg_init_tx (TCMI_MSG_FLG_SET_ERR msg_id) (P_err err_code) dst_pid 0 false 0 0 trans_id w.

Definition tcmi_skel_procmsg_new_tx (trans : bool) (dst_pid : Z) (w : world) :=
  if negb (e_msg e) then NULL_tx w else
  tcmi_procmsg_init_tx TCMI_SKEL_PROCMSG_ID P_skel dst_pid 0 trans TCMI_SKELRESP_PROCMSG_ID
    TCMI_SKEL_PROCMSGTIMEOUT TCMI_TRANSACTION_INVAL_ID w.

Definition tcmi_skelresp_procmsg_new_tx (trans_id dst_pid : Z) (w : world) :=
  if negb (e_msg e) then NULL_tx w else
  tcmi_procmsg_init_tx TCMI_SKELRESP_PROCMSG_ID P_skelresp dst_pid 0 false 0 0 trans_id w.

Definition tcmi_exit_procmsg_new_tx (dst_pid code : Z) (w : world) :=
  if negb (e_msg e) then NULL_tx w else
  tcmi_procmsg_init_tx TCMI_EXIT_PROCMSG_ID (P_exit code) dst_pid 0 false 0 0
    TCMI_TRANSACTION_INVAL_ID w.

Definition tcmi_vfork_done_procmsg_new_tx (dst_pid : Z) (w : world) :=
  if negb (e_msg e) then NULL_tx w else
  tcmi_procmsg_init_tx TCMI_VFORK_DONE_PROCMSG_ID P_vfork_done dst_pid 0 false 0 0
    TCMI_TRANSACTION_INVAL_ID w.

Definition tcmi_guest_started_procmsg_new_tx (trans_id dst_pid guest_pid : Z) (w : world) :=
  if negb (e_msg e) then NULL_tx w else
  tcmi_procmsg_init_tx TCMI_GUEST_STARTED_PROCMSG_ID (P_guest_started guest_pid) dst_pid 0 false 0 0
    trans_id w.

Definition tcmi_ppm_p_migr_back_guestreq_procmsg_new_tx (dst_pid : Z) (ckpt_name : list Z) (w : world) :=
  if negb (e_msg e) then NULL_tx w else
  let size := s32[zlen ckpt_name + 1] in
  if negb (e_buf e 0 size) then NULL_tx w else
  tcmi_procmsg_init_tx TCMI_PPM_P_MIGR_BACK_GUESTREQ_PROCMSG_ID
    (P_guestreq (mk_guestreq size (Some (strcpy ckpt_name)))) dst_pid 0 false 0 0
    TCMI_TRANSACTION_INVAL_ID w.

Definition tcmi_ppm_p_migr_back_shadowreq_procmsg_new_tx (dst_pid : Z) (w : world) :=
  if negb (e_msg e) then NULL_tx w else
  tcmi_procmsg_init_tx TCMI_PPM_P_MIGR_BACK_SHADOWREQ_PROCMSG_ID P_shadowreq dst_pid 1 false 0 0
    TCMI_TRANSACTION_INVAL_ID w.

Definition tcmi_rpc_procmsg_new_tx (mem : tcmi_rpc_procmsg) (trans : bool) (dst_pid : Z) (w : world) :=
  if negb (e_msg e) then NULL_tx w else
  tcmi_procmsg_init_tx TCMI_RPC_PROCMSG_ID
    (P_rpc (mk_rpc (rpcnum mem) (nmemb mem) (elem_size mem) (elem_base mem) false)) dst_pid 0 trans
    TCMI_RPCRESP_PROCMSG_ID TCMI_RPC_PROCMSGTIMEOUT TCMI_TRANSACTION_INVAL_ID w.

Definition tcmi_rpcresp_procmsg_new_tx (mem : tcmi_rpcresp_procmsg) (trans_id dst_pid : Z) (w : world) :=
  if negb (e_msg e) then NULL_tx w else
  tcmi_procmsg_init_tx TCMI_RPCRESP_PROCMSG_ID
    (P_rpcresp (mk_rpcresp (r_rpcnum mem) 0 (rtn_code mem) [] (r_elem_size mem) (r_elem_base mem)))
    dst_pid 0 false 0 0 trans_id w.
End tx.

(** ** Sending and receiving *)

Definition ERESTARTSYS : Z := 512.

Section io.
Context {S : Type} `{Sock S}.

(** [lock] is the result of taking the socket lock: 0, or an error when a signal
    interrupts the wait. *)
Definition tcmi_msg_send (lock : Z) (self : tcmi_msg) (fl : Z) (w : world) (s : S)
    : option (Z * world * S) :=
  '(err, w) ← match transaction self with
              | Some p => tcmi_transaction_start p fl w
              | None => Some (0, w)
              end;
  if negb (err =? 0) then Some (err, w, s) else
  if negb (lock =? 0) then Some (lock, w, s) else
  let '(err, s) := sk_send s (le_bytes 4 (msg_id self)) in
  if err <? 0 then Some (err, w, s) else
  let '(err, s) := sk_send s (le_bytes 4 (trans_req self) ++ le_bytes 4 (trans_resp self)) in
  if err <? 0 then Some (err, w, s) else
  let '(err, s) := ops_send (body self) s in
  Some (Z.min err 0, w, s).

Definition tcmi_msg_send_anonymous (lock : Z) (self : tcmi_msg) (w : world) (s : S)
    : option (Z * world * S) :=
  tcmi_msg_send lock self TCMI_TRANS_FLAGS_ANONYMOUS w s.

(** While the caller sleeps the other threads turn the table into [others w];
    [signal] is the error of a signal that arrives meanwhile.  The second component of
    the result is the response.  [None]: the caller sleeps on. *)
Definition tcmi_msg_send_and_receive (lock : Z) (others : world -> world) (signal : option Z)
    (self : tcmi_msg) (w : world) (s : S) : option (Z * option Z * world * S) :=
  '(err, w, s) ← tcmi_msg_send lock self 0 w s;
  match transaction self with
  | None => Some (err, None, w, s)
  | Some p =>
      if err <? 0 then Some (err, None, w, s) else
      let w := others w in
      t ← heap w !! p;
      ret ← tcmi_transaction_wait_interruptible signal t;
      match ret with
      | inr TCMI_TRANSACTION_ABORTED => Some (err, None, w, s)
      | inr TCMI_TRANSACTION_COMPLETE => Some (err, context t, w, s)
      | inr _ => None
      | inl e => '(resp, w) ← tcmi_transaction_abort p w; Some (e, resp, w, s)
      end
  end.

(** [None]: a NULL pointer is written through (see [ops_recv]). *)
Definition tcmi_msg_recv (km : nat -> Z -> bool) (lock : Z) (self : tcmi_msg) (s : S)
    : option (Z * tcmi_msg * S) :=
  if negb (lock =? 0) then Some (lock, self, s) else
  let '(err, d, s) := sk_recv s 8 in
  if err <? 0 then Some (err, self, s) else
  '(err, b, s) ← ops_recv km (body self) s;
  Some (err, mk_msg (msg_id self) (le_value (ztake 4 d)) (le_value (zdrop 4 d)) (transaction self)
               (m_ref self) b, s).
End io.

(** ** Delivery *)

(** [self_addr] is the address of the message. *)
Definition tcmi_msg_deliver (self_addr : Z) (self : tcmi_msg) (requests : tcmi_queue) (w : world)
    : option (Z * tcmi_msg * tcmi_queue * world) :=
  if trans_resp self =? TCMI_TRANSACTION_INVAL_ID then
    q ← tcmi_queue_add requests self_addr; Some (0, self, q, w)
  else
    '(tran, w) ← tcmi_transaction_lookup (trans_resp self) w;
    match tran with
    | None => Some (-1, self, requests, w)
    | Some p =>
        let self := mk_msg (msg_id self) (trans_req self) (trans_resp self) (Some p) (m_ref self)
                      (body self) in
        '(err, w) ← tcmi_transaction_complete p (Some self_addr) (TCMI_MSG_TYPE (msg_id self)) w;
        if negb (err =? 0) then Some (- EINVAL, self, requests, w) else
        t ← heap w !! p;
        if tcmi_transaction_is_anon t then
          q ← tcmi_queue_add requests self_addr; Some (0, self, q, w)
        else Some (0, self, requests, w)
    end.

(** ** The receiving thread *)

Section comm.
Context {S D : Type} `{Sock S}.

(** What the outside decides in each round: whether the thread is asked to stop, the
    memory of the message, the allocations of the receive operation and the socket
    lock. *)
Record round := mk_round {
  should_stop : bool; rd_mem : option garbage; rd_km : nat -> Z -> bool; rd_lock : Z
}.

(** The loop of [tcmi_comm_thread]; [deliver] is the subscribed object's method, which
    says whether it keeps the message.  The result holds the last error, the object, the
    messages that were discarded, the messages that were left allocated when the loop
    broke, and the socket.  One round of [rounds] per iteration; the thread goes on when
    they are used up. *)
Fixpoint tcmi_comm_thread (rounds : list round) (msg_group : Z) (deliver : D -> tcmi_msg -> Z * D)
    (err : Z) (obj : D) (discarded : list tcmi_msg) (s : S)
    : option (Z * D * list tcmi_msg * list tcmi_msg * S) :=
  match rounds with
  | [] => Some (err, obj, discarded, [], s)
  | rd :: rounds =>
      if should_stop rd then Some (err, obj, discarded, [], s) else
      let '(err, d, s) := sk_recv s 4 in
      if err <? 0 then Some (err, obj, discarded, [], s) else
      match factory_msg (rd_mem rd) (le_value d) msg_group with
      | None => Some (err, obj, discarded, [], s)
      | Some m =>
          '(err, m, s) ← tcmi_msg_recv (rd_km rd) (rd_lock rd) m s;
          if err <? 0 then Some (err, obj, discarded, [m], s) else
          let '(r, obj) := deliver obj m in
          tcmi_comm_thread rounds msg_group deliver err obj
            (if r <? 0 then discarded ++ [m] else discarded) s
      end
  end.
End comm.

(** ** Frames on the wire *)

Definition class_of (b : msg_body) : msg_class :=
  match b with
  | B_skel_msg => C_SKEL_MSG | B_skelresp_msg => C_SKELRESP_MSG
  | B_authenticate _ => C_AUTHENTICATE_MSG | B_authenticate_resp _ => C_AUTHENTICATE_RESP_MSG
  | B_disconnect => C_DISCONNECT_MSG | B_p_emigrate _ => C_P_EMIGRATE_MSG
  | B_signal _ => C_SIGNAL_MSG | B_generic_user _ => C_GENERIC_USER_MSG | B_err _ => C_ERR_MSG
  | B_proc _ _ P_skel => C_SKEL_PROCMSG | B_proc _ _ P_skelresp => C_SKELRESP_PROCMSG
  | B_proc _ _ (P_exit _) => C_EXIT_PROCMSG | B_proc _ _ P_vfork_done => C_VFORK_DONE_PROCMSG
  | B_proc _ _ (P_guest_started _) => C_GUEST_STARTED_PROCMSG
  | B_proc _ _ (P_guestreq _) => C_MIGR_BACK_GUESTREQ_PROCMSG
  | B_proc _ _ P_shadowreq => C_MIGR_BACK_SHADOWREQ_PROCMSG
  | B_proc _ _ (P_rpc _) => C_RPC_PROCMSG | B_proc _ _ (P_rpcresp _) => C_RPCRESP_PROCMSG
  | B_proc _ _ (P_err _) => C_ERR_PROCMSG
  end.

(** The id of a message is one the receiver's factory maps to the message's class. *)
Definition decodable (msg_group : Z) (m : tcmi_msg) : Prop :=
  urange 32 (msg_id m) /\
  tcmi_msg_factory true (msg_id m) msg_group = Some (class_of (body m), msg_id m).

Definition frame (m : tcmi_msg) : list Z :=
  le_bytes 4 (msg_id m) ++ (le_bytes 4 (trans_req m) ++ le_bytes 4 (trans_resp m)) ++ wire (body m).

(** What a message says: its id, its transaction ids and its contents. *)
Definition same_msg (m m' : tcmi_msg) : Prop :=
  msg_id m' = msg_id m /\ trans_req m' = trans_req m /\ trans_resp m' = trans_resp m /\
  norm (body m') = norm (body m) /\ transaction m' = None /\ m_ref m' = 1.

Lemma same_class_of b b' : class_of b = class_of b' -> same_class b b' = true.
Proof.
  destruct b as [| | | | | | | | |? ? []], b' as [| | | | | | | | |? ? []]; simpl; intros [=]; done.
Qed.

Lemma class_ctor_spec g c z own :
  class_new_rx true c z = Some (c, own) ->
  exists b, class_ctor (Some g) z c = Some (mk_msg own 0 0 None 1 b) /\ class_of b = c.
Proof.
  unfold class_new_rx.
  destruct c; cbn [class_id class_ctor negb]; intros E; try (case_hyp E; [discriminate E|]);
    injection E as <-;
    unfold tcmi_skel_msg_new_rx, tcmi_skelresp_msg_new_rx, tcmi_authenticate_msg_new_rx,
      tcmi_authenticate_resp_msg_new_rx, tcmi_disconnect_msg_new_rx, tcmi_p_emigrate_msg_new_rx,
      tcmi_signal_msg_new_rx, tcmi_generic_user_msg_new_rx, tcmi_skel_procmsg_new_rx,
      tcmi_skelresp_procmsg_new_rx, tcmi_exit_procmsg_new_rx, tcmi_vfork_done_procmsg_new_rx,
      tcmi_guest_started_procmsg_new_rx, tcmi_ppm_p_migr_back_guestreq_procmsg_new_rx,
      tcmi_ppm_p_migr_back_shadowreq_procmsg_new_rx, tcmi_rpc_procmsg_new_rx,
      tcmi_rpcresp_procmsg_new_rx, checked_rx;
    try match goal with H : negb _ = false |- _ => rewrite H end;
    eexists; split; reflexivity.
Qed.

Lemma class_new_rx_class km c0 z c own : class_new_rx km c0 z = Some (c, own) -> c0 = c.
Proof. unfold class_new_rx. intros E. repeat case_hyp E; congruence. Qed.

Lemma factory_ctor km z grp c own :
  tcmi_msg_factory km z grp = Some (c, own) -> class_new_rx km c z = Some (c, own).
Proof.
  unfold tcmi_msg_factory. intros E.
  destruct (negb _ && negb _); [done|]. destruct (negb (_ && _)); [done|].
  destruct (msg_groups !! _) as [g|]; [|done]. cbn [mbind option_bind] in E.
  destruct (grp_dsc g !! _) as [d|]; [|done]. cbn [mbind option_bind] in E.
  unfold tcmi_msg_new_rx in E. destruct (negb _); [done|].
  destruct (_ =? TCMI_MSG_REGFLGS); [|destruct (_ =? TCMI_MSG_ERRFLGS); [|done]].
  - destruct (dsc_new_rx d) as [c0|]; [|done]. cbn [mbind option_bind] in E.
    by rewrite <- (class_new_rx_class _ _ _ _ _ E) at 1.
  - destruct (dsc_new_rx_err d) as [c0|]; [|done]. cbn [mbind option_bind] in E.
    by rewrite <- (class_new_rx_class _ _ _ _ _ E) at 1.
Qed.

Lemma factory_msg_spec g m grp :
  decodable grp m ->
  exists b, factory_msg (Some g) (msg_id m) grp = Some (mk_msg (msg_id m) 0 0 None 1 b) /\
    same_class b (body m) = true.
Proof.
  intros [_ Hf]. unfold factory_msg. rewrite bool_decide_eq_true_2 by (by exists g). rewrite Hf.
  cbn [mbind option_bind].
  destruct (class_ctor_spec g _ _ _ (factory_ctor _ _ _ _ _ Hf)) as (b & Hc & Hb).
  exists b. split; [exact Hc|]. by apply same_class_of.
Qed.

(** ** Sending and receiving a message *)

Section travel.
Context {S : Type} `{Sock S}.

Lemma send_frame m w (s : S) km fl w1 :
  wf_body km (body m) -> sk_up s ->
  match transaction m with
  | Some p => tcmi_transaction_start p fl w = Some (0, w1)
  | None => w1 = w
  end ->
  exists s', tcmi_msg_send 0 m fl w s = Some (0, w1, s') /\ sk_up s' /\
    sk_sent s' = sk_sent s ++ frame m /\ sk_pending s' = sk_pending s.
Proof.
  intros Hwf Hu Hw. unfold tcmi_msg_send.
  assert (Hst : match transaction m with
    | Some p => tcmi_transaction_start p fl w | None => Some (0, w) end = Some (0, w1)).
  { destruct (transaction m); [done|by subst]. }
  rewrite Hst. clear Hst Hw. cbn [mbind option_bind negb Z.eqb].
  destruct (send_up s (le_bytes 4 (msg_id m)) Hu) as (s1 & -> & Hu1 & Hs1 & Hp1).
  rewrite zlen_le_bytes. cbn [Z.ltb Z.compare Z.of_nat].
  destruct (send_up s1 (le_bytes 4 (trans_req m) ++ le_bytes 4 (trans_resp m)) Hu1)
    as (s2 & -> & Hu2 & Hs2 & Hp2).
  rewrite zlen_app, !zlen_le_bytes. cbn [Z.ltb Z.compare Z.of_nat Z.add].
  destruct (ops_send_wire km (body m) Hwf s2 Hu2) as (r & s3 & -> & Hr & Hu3 & Hs3 & Hp3).
  exists s3. rewrite Z.min_r by lia. split_and!; [done..| |congruence].
  rewrite Hs3, Hs2, Hs1. unfold frame. by rewrite <- !app_assoc.
Qed.

Lemma recv_msg g km m grp (s : S) rest :
  decodable grp m -> urange 32 (trans_req m) -> urange 32 (trans_resp m) -> wf_body km (body m) ->
  sk_up s -> sk_pending s = frame m ++ rest ->
  exists s1 m0 r m' s', sk_recv s 4 = (4, le_bytes 4 (msg_id m), s1) /\
    factory_msg (Some g) (msg_id m) grp = Some m0 /\
    tcmi_msg_recv km 0 m0 s1 = Some (r, m', s') /\ 0 <= r /\ same_msg m m' /\
    sk_up s' /\ sk_pending s' = rest.
Proof.
  intros Hd Hq Hp Hwf Hu Hpend. unfold frame in Hpend. rewrite <- app_assoc in Hpend.
  destruct (recv_up s 4 _ _ Hu Hpend) as (s1 & E1 & Hu1 & Hp1 & _); [done|].
  destruct (factory_msg_spec g m grp Hd) as (b & Hb & Hc).
  rewrite <- app_assoc in Hp1.
  destruct (recv_up s1 8 _ _ Hu1 Hp1) as (s2 & E2 & Hu2 & Hp2 & _).
  { by rewrite zlen_app, !zlen_le_bytes. }
  destruct (ops_recv_wire km b (body m) Hwf Hc) as (b' & Hr & Hn).
  destruct (Hr s2 rest Hu2 Hp2) as (r & s' & E3 & Hr0 & Hu' & Hp' & _).
  eexists s1, _, r, _, s'. split_and!; [exact E1|exact Hb| |done| |done..].
  - unfold tcmi_msg_recv. cbn [negb Z.eqb]. rewrite E2. cbn [Z.ltb Z.compare body].
    rewrite E3. cbn [mbind option_bind]. reflexivity.
  - unfold same_msg. cbn [msg_id trans_req trans_resp body transaction m_ref].
    change 4 with (zlen (le_bytes 4 (trans_req m))) at 1 2.
    rewrite ztake_app_eq, zdrop_app_eq, !(field_u 4) by done. done.
Qed.
End travel.

(** The messages the subscribed object refuses. *)
Fixpoint rejected {D} (deliver : D -> tcmi_msg -> Z * D) (obj : D) (ms : list tcmi_msg) : list tcmi_msg :=
  match ms with
  | [] => []
  | m :: ms => let '(r, obj) := deliver obj m in
               if r <? 0 then m :: rejected deliver obj ms else rejected deliver obj ms
  end.

(** A message and the round in which it arrives undisturbed. *)
Definition arrives (msg_group : Z) (m : tcmi_msg) (rd : round) : Prop :=
  decodable msg_group m /\ urange 32 (trans_req m) /\ urange 32 (trans_resp m) /\
  wf_body (rd_km rd) (body m) /\ should_stop rd = false /\ rd_mem rd <> None /\ rd_lock rd = 0.

(** ** Delivery and transactions *)

(** The heap after taking a reference, for the transaction itself. *)
Lemma lookup_unique w i p t :
  table_ok w -> 0 <= i -> heap w !! p = Some t -> Transaction.id t = i ->
  (forall q u, heap w !! q = Some u -> Transaction.id u = i -> q = p) ->
  tcmi_transaction_lookup i w = Some (Some p, upd p (tcmi_transaction_get t) w).
Proof.
  intros Htk Hi Hp Hid Huniq.
  destruct (lookup_finds w i p t Htk Hi Hp Hid) as (p' & t' & Hl & Hp' & Hi').
  pose proof (Huniq _ _ Hp' Hi') as ->. rewrite Hp in Hp'. by injection Hp' as ->.
Qed.

(** Completing the transaction a lookup returned. *)
Lemma deliver_found addr m q w o p t :
  tinv (w, o) -> trans_resp m <> TCMI_TRANSACTION_INVAL_ID -> 0 <= trans_resp m ->
  tcmi_transaction_lookup (trans_resp m) w = Some (Some p, upd p (tcmi_transaction_get t) w) ->
  heap w !! p = Some t -> state t = TCMI_TRANSACTION_RUNNING -> q_lock q = false ->
  exists r m' q' w' t', tcmi_msg_deliver addr m q w = Some (r, m', q', w') /\
    transaction m' = Some p /\ tinv (w', add_ref p 1 o) /\ heap w' !! p = Some t' /\
    (forall p', p' <> p -> heap w' !! p' = heap w !! p') /\
    if resp_id t =? TCMI_MSG_TYPE (msg_id m)
    then r = 0 /\ state t' = TCMI_TRANSACTION_COMPLETE /\ context t' = Some addr /\
         queue q' = queue q ++ (if tcmi_transaction_is_anon t then [addr] else [])
    else r = - EINVAL /\ state t' = TCMI_TRANSACTION_ABORTED /\ q' = q.
Proof.
  intros Hinv Hnz Hpos Hl Hp Hs Hq. unfold tcmi_msg_deliver.
  replace (trans_resp m =? TCMI_TRANSACTION_INVAL_ID) with false by (symmetry; by apply Z.eqb_neq).
  rewrite Hl. cbn [mbind option_bind msg_id trans_req trans_resp m_ref body].
  set (w1 := upd p (tcmi_transaction_get t) w).
  assert (Hinv1 : tinv (w1, add_ref p 1 o)) by (by apply (lookup_inv o w p (trans_resp m))).
  assert (Hp1 : heap w1 !! p = Some (tcmi_transaction_get t)) by apply lookup_insert_eq.
  destruct (complete_effect (add_ref p 1 o) w1 p (tcmi_transaction_get t) (Some addr)
    (TCMI_MSG_TYPE (msg_id m)) Hinv1 Hp1) as (r & t' & w' & Hc & Hinv' & Hoth & Hal & Hsame & Hres).
  { simpl. by rewrite Hs. }
  rewrite Hc. cbn [mbind option_bind]. destruct Hal as [t2 Ht2].
  { unfold add_ref. rewrite decide_True by done. destruct Hinv as [_ Hr]. specialize (Hr p). simpl in Hr.
    rewrite Hp in Hr. destruct Hr as (? & _). lia. }
  destruct (Hsame _ Ht2) as [Hs2 Hc2]. pose proof (complete_anon _ _ _ _ _ _ _ _ Hc Hp1 Ht2) as Han.
  assert (Hoth' : forall p', p' <> p -> heap w' !! p' = heap w !! p').
  { intros p' Hne. rewrite Hoth by done. simpl. by rewrite lookup_insert_ne. }
  cbn [state tcmi_transaction_get with_ref resp_id] in Hres. rewrite Hs in Hres. simpl in Hres.
  destruct (resp_id t =? TCMI_MSG_TYPE (msg_id m)).
  - destruct Hres as (-> & Hr2 & Hr3). cbn [negb Z.eqb]. rewrite Ht2. cbn [mbind option_bind].
    change (tcmi_transaction_is_anon (tcmi_transaction_get t)) with (tcmi_transaction_is_anon t) in Han.
    rewrite Han. destruct (tcmi_transaction_is_anon t).
    + unfold tcmi_queue_add, tcmi_queue_lock. rewrite Hq. cbn [mbind option_bind].
      eexists 0, _, _, w', t2. split; [reflexivity|]. simpl. split_and!; auto; congruence.
    + eexists 0, _, _, w', t2. split; [reflexivity|]. simpl. rewrite app_nil_r. split_and!; auto; congruence.
  - destruct Hres as (-> & Hr2 & Hr3). cbn [negb Z.eqb Z.opp EINVAL].
    eexists _, _, _, w', t2. split; [reflexivity|]. simpl. split_and!; auto; congruence.
Qed.

(** ** The constructors build decodable messages *)

(** A call of a sending constructor. *)
Inductive tx_call :=
| T_skel (trans : bool) | T_skelresp (trans_id : Z)
| T_authenticate (trans : bool) (pen_id pen_arch : Z) (data : list Z) (size : Z)
| T_authenticate_resp (trans_id ccn_id ccn_arch result_code : Z) (mp : fs_mount_params)
| T_disconnect
| T_p_emigrate (trans : bool) (reply_pid : Z) (exec_name ckpt_name : list Z) (euid egid fsuid fsgid : Z)
| T_signal (mem : tcmi_signal_msg) (pid : Z) (info : list Z)
| T_generic_user (node_id : Z) (data : list Z) (size : Z)
| T_err (msg_id trans_id err_code : Z)
| T_err_proc (msg_id trans_id err_code dst_pid : Z)
| T_skel_proc (trans : bool) (dst_pid : Z) | T_skelresp_proc (trans_id dst_pid : Z)
| T_exit (dst_pid code : Z) | T_vfork_done (dst_pid : Z)
| T_guest_started (trans_id dst_pid guest_pid : Z)
| T_guestreq (dst_pid : Z) (ckpt_name : list Z) | T_shadowreq (dst_pid : Z)
| T_rpc (mem : tcmi_rpc_procmsg) (trans : bool) (dst_pid : Z)
| T_rpcresp (mem : tcmi_rpcresp_procmsg) (trans_id dst_pid : Z).

Definition new_tx (HZ : Z) (e : tx_env) (c : tx_call) (w : world) : option (option tcmi_msg * world) :=
  match c with
  | T_skel tr => tcmi_skel_msg_new_tx HZ e tr w
  | T_skelresp i => tcmi_skelresp_msg_new_tx e i w
  | T_authenticate tr i a d n => tcmi_authenticate_msg_new_tx HZ e tr i a d n w
  | T_authenticate_resp t i a r mp => tcmi_authenticate_resp_msg_new_tx e t i a r mp w
  | T_disconnect => tcmi_disconnect_msg_new_tx e w
  | T_p_emigrate tr p x c u g fu fg => tcmi_p_emigrate_msg_new_tx HZ e tr p x c u g fu fg w
  | T_signal mem p i => tcmi_signal_msg_new HZ e mem p i w
  | T_generic_user i d n => tcmi_generic_user_msg_new_tx e i d n w
  | T_err i t c => tcmi_err_msg_new_tx e i t c w
  | T_err_proc i t c d => tcmi_err_procmsg_new_tx e i t c d w
  | T_skel_proc tr d => tcmi_skel_procmsg_new_tx HZ e tr d w
  | T_skelresp_proc t d => tcmi_skelresp_procmsg_new_tx e t d w
  | T_exit d c => tcmi_exit_procmsg_new_tx e d c w
  | T_vfork_done d => tcmi_vfork_done_procmsg_new_tx e d w
  | T_guest_started t d g => tcmi_guest_started_procmsg_new_tx e t d g w
  | T_guestreq d c => tcmi_ppm_p_migr_back_guestreq_procmsg_new_tx e d c w
  | T_shadowreq d => tcmi_ppm_p_migr_back_shadowreq_procmsg_new_tx e d w
  | T_rpc mem tr d => tcmi_rpc_procmsg_new_tx HZ e mem tr d w
  | T_rpcresp mem t d => tcmi_rpcresp_procmsg_new_tx e mem t d w
  end.

(** The error constructors are used with the id of a response, in their group. *)
Definition err_id_ok (c : tx_call) : bool :=
  match c with
  | T_err i _ _ => bool_decide (i = TCMI_SKELRESP_MSG_ID) || bool_decide (i = TCMI_AUTHENTICATE_RESP_MSG_ID)
  | T_err_proc i _ _ _ =>
      bool_decide (i = TCMI_SKELRESP_PROCMSG_ID) || bool_decide (i = TCMI_GUEST_STARTED_PROCMSG_ID) ||
      bool_decide (i = TCMI_PPM_P_MIGR_BACK_GUESTREQ_PROCMSG_ID) ||
      bool_decide (i = TCMI_PPM_P_MIGR_BACK_SHADOWREQ_PROCMSG_ID) ||
      bool_decide (i = TCMI_RPCRESP_PROCMSG_ID)
  | _ => true
  end.

(** The type of the response a request waits for. *)
Definition expects (c : tx_call) : option Z :=
  match c with
  | T_skel true => Some TCMI_SKELRESP_MSG_ID
  | T_authenticate true _ _ _ _ => Some TCMI_AUTHENTICATE_RESP_MSG_ID
  | T_p_emigrate true _ _ _ _ _ _ _ => Some TCMI_GUEST_STARTED_PROCMSG_ID
  | T_skel_proc true _ => Some TCMI_SKELRESP_PROCMSG_ID
  | T_rpc _ true _ => Some TCMI_RPCRESP_PROCMSG_ID
  | _ => None
  end.

Lemma new_transaction_init addr rnd resp timeout w p w' :
  tcmi_transaction_new addr rnd resp timeout w = Some (Some p, w') ->
  exists t, heap w' !! p = Some t /\ state t = TCMI_TRANSACTION_INIT /\ resp_id t = resp.
Proof.
  unfold tcmi_transaction_new. destruct addr as [a|]; [|discriminate].
  destruct (tcmi_transaction_gen_id rnd) as [i|]; [|discriminate]. cbn [mbind option_bind].
  destruct (hashmsk (transactions w)) as [mask|]; [|discriminate]. cbn [mbind option_bind].
  destruct (tcmi_slotvec_insert_at _ _ _) as [[[sl|] v]|]; cbn [mbind option_bind]; try discriminate.
  intros [= -> <-]. simpl. rewrite lookup_insert_eq. eauto.
Qed.

Lemma init_or_free_spec e i b (tr : bool) resp timeout rt w m w' :
  init_or_free e i b tr resp timeout rt w = Some (Some m, w') ->
  msg_id m = i /\ body m = b /\ m_ref m = 1 /\
  (if tr then exists p t, transaction m = Some p /\ heap w' !! p = Some t /\
     Transaction.id t = trans_req m /\ state t = TCMI_TRANSACTION_INIT /\
     resp_id t = TCMI_MSG_TYPE resp
   else transaction m = None /\ trans_req m = TCMI_TRANSACTION_INVAL_ID /\ w' = w).
Proof.
  unfold init_or_free, tcmi_msg_init_tx, tcmi_msg_init_shared. destruct tr.
  - destruct (tcmi_transaction_new _ _ _ _ _) as [[[p|] w1]|] eqn:En; cbn [mbind option_bind];
      [|discriminate..]. destruct (new_transaction_init _ _ _ _ _ _ _ En) as (t & Ht & Hs & Hr).
    rewrite Ht. cbn [mbind option_bind]. intros [= <- <-]. simpl. eauto 10.
  - cbn [mbind option_bind]. intros [= <- <-]. done.
Qed.

Ltac open_ctor Hn :=
  repeat match type of Hn with
  | (if ?c then _ else _) = _ => destruct c eqn:?; [discriminate Hn|]
  end.

(** Every constructor ends in [init_or_free] with the id of its class. *)
Lemma new_tx_ids HZ e c w m w' :
  new_tx HZ e c w = Some (Some m, w') -> err_id_ok c = true ->
  decodable TCMI_MSG_GROUP_ANY m.
Proof.
  intros Hn He. unfold decodable.
  destruct c; cbn [new_tx] in Hn;
    unfold tcmi_skel_msg_new_tx, tcmi_skelresp_msg_new_tx, tcmi_authenticate_msg_new_tx,
      tcmi_authenticate_resp_msg_new_tx, tcmi_disconnect_msg_new_tx, tcmi_p_emigrate_msg_new_tx,
      tcmi_signal_msg_new, tcmi_signal_msg_new_tx, tcmi_generic_user_msg_new_tx, tcmi_err_msg_new_tx,
      tcmi_err_procmsg_new_tx, tcmi_skel_procmsg_new_tx, tcmi_skelresp_procmsg_new_tx,
      tcmi_exit_procmsg_new_tx, tcmi_vfork_done_procmsg_new_tx, tcmi_guest_started_procmsg_new_tx,
      tcmi_ppm_p_migr_back_guestreq_procmsg_new_tx, tcmi_ppm_p_migr_back_shadowreq_procmsg_new_tx,
      tcmi_rpc_procmsg_new_tx, tcmi_rpcresp_procmsg_new_tx, tcmi_procmsg_init_tx, NULL_tx in Hn;
    open_ctor Hn.
  all: try (apply init_or_free_spec in Hn as (-> & -> & _);
            split; [split; [discriminate|reflexivity]|reflexivity]).
  - destruct (negb (e_msg e)); [discriminate Hn|].
    destruct (init_or_free _ _ _ _ _ _ _ _) as [[[m0|] w0]|] eqn:E; try discriminate Hn.
    injection Hn as <- <-. apply init_or_free_spec in E as (Ei & _). simpl. rewrite Ei.
    split; [split; [discriminate|reflexivity]|reflexivity].
  - apply init_or_free_spec in Hn as (-> & -> & _). cbn [err_id_ok] in He.
    apply orb_prop in He as [He|He]; apply bool_decide_eq_true in He; subst;
      (split; [split; [discriminate|reflexivity]|reflexivity]).
  - apply init_or_free_spec in Hn as (-> & -> & _). cbn [err_id_ok] in He.
    repeat apply orb_prop in He as [He|He]; apply bool_decide_eq_true in He; subst;
      (split; [split; [discriminate|reflexivity]|reflexivity]).
Qed.

(** A request gets its transaction, in its initial state and waiting for the right type. *)
Lemma new_tx_transaction HZ e c w m w' resp :
  new_tx HZ e c w = Some (Some m, w') -> expects c = Some resp ->
  exists p t, transaction m = Some p /\ heap w' !! p = Some t /\
    Transaction.id t = trans_req m /\ state t = TCMI_TRANSACTION_INIT /\
    resp_id t = TCMI_MSG_TYPE resp.
Proof.
  intros Hn He. destruct c; try destruct trans; try discriminate He; injection He as <-;
    cbn [new_tx] in Hn;
    unfold tcmi_skel_msg_new_tx, tcmi_authenticate_msg_new_tx, tcmi_p_emigrate_msg_new_tx,
      tcmi_skel_procmsg_new_tx, tcmi_rpc_procmsg_new_tx, tcmi_procmsg_init_tx, NULL_tx in Hn;
    open_ctor Hn; by apply init_or_free_spec in Hn as (_ & _ & _ & Hn).
Qed.


(** ** Properties *)

(** Whatever a sending constructor builds, the peer can decode: the factory maps
    the id of the message to the message's own class, for the error messages when they
    are built with the id of a response.  A request built with a transaction vector
    carries the id of a fresh transaction that waits for the type of its response. *)
Theorem constructed_messages_decodable HZ e c w m w' :
  new_tx HZ e c w = Some (Some m, w') -> err_id_ok c = true ->
  decodable TCMI_MSG_GROUP_ANY m /\
  (forall resp, expects c = Some resp ->
     exists p t, transaction m = Some p /\ heap w' !! p = Some t /\
       Transaction.id t = trans_req m /\ state t = TCMI_TRANSACTION_INIT /\
       resp_id t = TCMI_MSG_TYPE resp).
Proof.
  intros Hn He. split; [by eapply new_tx_ids|]. intros resp Hx. by eapply new_tx_transaction.
Qed.

(** C5: The receiving thread reads a stream of message frames one by one, whatever
    the transport does to the byte boundaries: every frame is turned into a message
    with the same id, transaction ids and contents, the messages are handed to the
    subscribed object in order, the ones it refuses are discarded, none is left
    allocated, and the stream is left exactly behind the last frame. *)
Theorem comm_thread_delivers {S D} `{Sock S} msg_group (deliver : D -> tcmi_msg -> Z * D)
    ms rounds err obj discarded (s : S) rest :
  Forall2 (arrives msg_group) ms rounds -> sk_up s ->
  sk_pending s = concat (frame <$> ms) ++ rest ->
  exists ms' r s', Forall2 same_msg ms ms' /\
    tcmi_comm_thread rounds msg_group deliver err obj discarded s =
      Some (r, foldl (fun o m => (deliver o m).2) obj ms',
            discarded ++ rejected deliver obj ms', [], s') /\
    sk_up s' /\ sk_pending s' = rest.
Proof.
  intros Hf. revert err obj discarded s.
  induction Hf as [|m rd ms rounds Ha Hf IH]; intros err obj discarded s Hu Hp.
  - exists [], err, s. simpl. rewrite app_nil_r. auto.
  - destruct Ha as (Hd & Hq & Hpp & Hwf & Hstop & Hmem & Hlock).
    destruct (rd_mem rd) as [g|] eqn:Eg; [|done].
    cbn [fmap list_fmap concat] in Hp. rewrite <- app_assoc in Hp.
    destruct (recv_msg g _ _ _ _ _ Hd Hq Hpp Hwf Hu Hp)
      as (s1 & m0 & r & m' & s2 & E1 & E2 & E3 & Hr & Hsame & Hu2 & Hp2).
    destruct (deliver obj m') as [rv obj'] eqn:Ed.
    destruct (IH r obj' (if rv <? 0 then discarded ++ [m'] else discarded) s2 Hu2 Hp2)
      as (ms' & r' & s' & Hms & Et & Hu' & Hp').
    exists (m' :: ms'), r', s'. split_and!; [by constructor| |done..].
    cbn [tcmi_comm_thread]. rewrite Hstop, E1. cbn [Z.ltb Z.compare].
    destruct Hd as [Hid _]. rewrite (field_u 4) by done. rewrite Eg, E2, Hlock, E3.
    cbn [mbind option_bind]. replace (r <? 0) with false by lia. rewrite Ed, Et.
    cbn [foldl rejected]. rewrite Ed. cbn [snd]. destruct (rv <? 0); [|done].
    by rewrite <- app_assoc.
Qed.

(** Sending a message: a request whose transaction was already used is refused
    with -EINVAL before a single byte is sent; otherwise, on a working connection,
    the transaction (if there is one) is running with its timer queued and exactly
    the frame of the message was appended to the stream. *)
Theorem msg_send_spec {S} `{Sock S} m fl w o km (s : S) :
  tinv (w, o) -> wf_body km (body m) -> sk_up s -> Z.land fl TCMI_TRANS_FLAGS_EXPIRED = 0 ->
  (forall p, transaction m = Some p -> 0 < o p) ->
  exists r w' s', tcmi_msg_send 0 m fl w s = Some (r, w', s') /\ tinv (w', o) /\
    ((r = - EINVAL /\ w' = w /\ s' = s /\
      exists p t, transaction m = Some p /\ heap w !! p = Some t /\ state t <> TCMI_TRANSACTION_INIT) \/
     (r = 0 /\ sk_up s' /\ sk_sent s' = sk_sent s ++ frame m /\
      forall p, transaction m = Some p -> exists t', heap w' !! p = Some t' /\
        state t' = TCMI_TRANSACTION_RUNNING /\ timer_pending t' = true)).
Proof.
  intros Hinv Hwf Hu Hfl Ho. destruct (transaction m) as [p|] eqn:Em.
  - destruct (owned_alive o w p) as (t & Hp & _); [apply Hinv|by apply Ho|].
    destruct (start_effect o w p t fl Hinv Hp Hfl) as (r & w' & Hst & Hinv' & _ & Hres).
    case_bool_decide as Hb.
    + destruct Hres as (-> & t' & Hp' & Hs' & Ht' & _).
      destruct (send_frame m w s km fl w' Hwf Hu) as (s' & Es & Hu' & Hss & _); [by rewrite Em|].
      exists 0, w', s'. split_and!; [done..|]. right. split_and!; [done..|].
      intros q [= <-]. eauto.
    + destruct Hres as (-> & ->). exists (- EINVAL), w, s.
      split_and!; [|done|left; eauto 10]. unfold tcmi_msg_send. rewrite Em, Hst. reflexivity.
  - destruct (send_frame m w s km fl w Hwf Hu) as (s' & Es & Hu' & Hss & _); [by rewrite Em|].
    exists 0, w, s'. split_and!; [done..|]. right. split_and!; [done..|]. intros q [=].
Qed.

(** A response reaches the request it answers: when the response transaction id
    of the message names exactly one running transaction and the message has the
    type this transaction expects, delivery succeeds, the transaction is complete
    with the message as its result, every other transaction is untouched, and the
    message is queued too exactly when the transaction is anonymous.  A message of
    another type is refused with -EINVAL and aborts the transaction. *)
Theorem deliver_response addr m q w o p t :
  tinv (w, o) -> trans_resp m <> TCMI_TRANSACTION_INVAL_ID -> 0 <= trans_resp m ->
  heap w !! p = Some t -> Transaction.id t = trans_resp m -> state t = TCMI_TRANSACTION_RUNNING ->
  (forall p' t', heap w !! p' = Some t' -> Transaction.id t' = trans_resp m -> p' = p) ->
  q_lock q = false ->
  exists r m' q' w' t', tcmi_msg_deliver addr m q w = Some (r, m', q', w') /\
    transaction m' = Some p /\ tinv (w', add_ref p 1 o) /\ heap w' !! p = Some t' /\
    (forall p', p' <> p -> heap w' !! p' = heap w !! p') /\
    if resp_id t =? TCMI_MSG_TYPE (msg_id m)
    then r = 0 /\ state t' = TCMI_TRANSACTION_COMPLETE /\ context t' = Some addr /\
         queue q' = queue q ++ (if tcmi_transaction_is_anon t then [addr] else [])
    else r = - EINVAL /\ state t' = TCMI_TRANSACTION_ABORTED /\ q' = q.
Proof.
  intros Hinv Hnz Hpos Hp Hid Hs Huniq Hq. apply (deliver_found addr m q w o p t); try assumption.
  apply lookup_unique; try assumption. apply Hinv.
Qed.

(** A response whose transaction is gone can end another request: when no
    transaction has the response's id but the slot the id hashes to is not empty,
    delivery takes the last transaction of that slot, and if it is running completes
    it with the wrong message when the types agree and aborts it otherwise. *)
Theorem stale_response_hits_other addr m q w o :
  tinv (w, o) -> trans_resp m <> TCMI_TRANSACTION_INVAL_ID -> 0 <= trans_resp m ->
  (forall p t, heap w !! p = Some t ->
     Transaction.id t <> trans_resp m /\ state t = TCMI_TRANSACTION_RUNNING) ->
  items (transactions w) (slot_of w (trans_resp m)) <> [] -> q_lock q = false ->
  exists p t r m' q' w' t', heap w !! p = Some t /\ Transaction.id t <> trans_resp m /\
    tcmi_msg_deliver addr m q w = Some (r, m', q', w') /\ heap w' !! p = Some t' /\
    if resp_id t =? TCMI_MSG_TYPE (msg_id m)
    then r = 0 /\ state t' = TCMI_TRANSACTION_COMPLETE /\ context t' = Some addr
    else r = - EINVAL /\ state t' = TCMI_TRANSACTION_ABORTED.
Proof.
  intros Hinv Hnz Hpos Hno Hne Hq.
  destruct (lookup_miss_returns_other w (trans_resp m)) as (p & t & Hl & Hp & Hid);
    [apply Hinv|done|intros p t Hp; by apply (Hno p t)|done|].
  destruct (deliver_found addr m q w o p t Hinv Hnz Hpos Hl Hp) as (r & m' & q' & w' & t' & H);
    [by apply (Hno p t)|done|].
  exists p, t, r, m', q', w', t'. destruct H as (Hd & _ & _ & Ht & _ & Hres).
  split_and!; try done. destruct (_ =? _); tauto.
Qed.

(** A synchronous request returns what the connection brought: after a successful
    send it sleeps as long as the transaction runs and no signal comes, returns the
    response attached to a completed transaction and no response for an aborted or timed
    out one; a signal that finds it still running aborts the transaction and returns the
    signal's error. *)
Theorem send_and_receive_result {S} `{Sock S} m w o w1 (s s1 : S) p others t signal :
  transaction m = Some p -> tcmi_msg_send 0 m 0 w s = Some (0, w1, s1) ->
  tinv (others w1, o) -> heap (others w1) !! p = Some t -> state t <> TCMI_TRANSACTION_INIT ->
  match state t, signal with
  | TCMI_TRANSACTION_COMPLETE, _ =>
      tcmi_msg_send_and_receive 0 others signal m w s = Some (0, context t, others w1, s1)
  | TCMI_TRANSACTION_ABORTED, _ =>
      tcmi_msg_send_and_receive 0 others signal m w s = Some (0, None, others w1, s1)
  | _, None => tcmi_msg_send_and_receive 0 others signal m w s = None
  | _, Some e => exists w2, tcmi_msg_send_and_receive 0 others signal m w s = Some (e, None, w2, s1) /\
      forall t2, heap w2 !! p = Some t2 -> state t2 = TCMI_TRANSACTION_ABORTED
  end.
Proof.
  intros Hm Hsend Hinv Hp Hs. unfold tcmi_msg_send_and_receive. rewrite Hsend.
  cbn [mbind option_bind]. rewrite Hm. cbn [Z.ltb Z.compare]. rewrite Hp. cbn [mbind option_bind].
  destruct (abort_effect o _ p t Hinv Hp Hs) as (t' & w2 & Hab & _ & _ & _ & Hsame & _ & Hst).
  unfold tcmi_transaction_wait_interruptible, tcmi_transaction_is_aborted, tcmi_transaction_is_complete.
  destruct (state t) eqn:Es; [done| |reflexivity|reflexivity].
  rewrite !bool_decide_eq_false_2 by done. destruct signal as [e|]; [|reflexivity].
  cbn [orb fmap option_fmap option_map mbind option_bind]. rewrite Hab.
  rewrite bool_decide_eq_true_2 by done. cbn [mbind option_bind].
  eexists. split; [reflexivity|]. intros t2 Ht2. destruct (Hsame _ Ht2) as [-> _]. exact Hst.
Qed.

(** ** Witnesses *)

Definition ex_garbage : garbage :=
  mk_garbage (mk_auth 0 0 0 None) (mk_auth_resp 0 0 (mk_mount [] [] []) 0)
    (mk_emigrate 0 0 0 0 0 0 0 None None) (mk_signal 0 []) (mk_user 0 0 None) 0
    (mk_guestreq 0 None) (mk_rpc 0 0 [] [] false) (mk_rpcresp 0 0 0 [] [] []) 0 0.
Definition ex_round : round := mk_round false (Some ex_garbage) (fun _ _ => true) 0.
Definition ex_exit : tcmi_msg := mk_msg TCMI_EXIT_PROCMSG_ID 0 0 None 1 (B_proc 42 0 (P_exit (-1))).
Definition ex_resp : tcmi_msg := mk_msg TCMI_SKELRESP_MSG_ID 0 5 None 1 B_skelresp_msg.
(** Collects the messages and refuses the ones that are responses. *)
Definition ex_deliver (l : list tcmi_msg) (m : tcmi_msg) : Z * list tcmi_msg :=
  (if trans_resp m =? 0 then 0 else -1, l ++ [m]).

Lemma constructed_messages_decodable_witness :
  exists m w', new_tx 100 (mk_env true (fun _ _ => true) (Some 300) [9]) (T_rpc (mk_rpc 1 0 [] [] true) true 7)
    ex_w0 = Some (Some m, w') /\ decodable TCMI_MSG_GROUP_ANY m.
Proof.
  eexists _, _. split; [vm_compute; reflexivity|].
  eapply (constructed_messages_decodable 100 (mk_env true (fun _ _ => true) (Some 300) [9])
            (T_rpc (mk_rpc 1 0 [] [] true) true 7) ex_w0); [vm_compute; reflexivity|reflexivity].
Defined.

Lemma comm_thread_delivers_witness :
  exists ms' r s', Forall2 same_msg [ex_exit; ex_resp] ms' /\
    tcmi_comm_thread [ex_round; ex_round] TCMI_MSG_GROUP_ANY ex_deliver 0 [] []
      (mk_seg [] (frame ex_exit ++ frame ex_resp ++ [77]) [3])
    = Some (r, foldl (fun o m => (ex_deliver o m).2) [] ms', [] ++ rejected ex_deliver [] ms', [], s') /\
    sk_up s' /\ sk_pending s' = [77].
Proof.
  apply (comm_thread_delivers TCMI_MSG_GROUP_ANY ex_deliver [ex_exit; ex_resp] [ex_round; ex_round] 0
           [] [] (mk_seg [] (frame ex_exit ++ frame ex_resp ++ [77]) [3]) [77]).
  - repeat constructor; try discriminate; try reflexivity.
  - exact I.
  - reflexivity.
Defined.

Definition ex_request : tcmi_msg := mk_msg TCMI_SKEL_MSG_ID 5 0 (Some 100) 1 B_skel_msg.

Lemma ex_owner p : transaction ex_request = Some p -> 0 < ex_o p.
Proof. intros [= <-]. reflexivity. Qed.

Lemma msg_send_spec_witness :
  exists s', tcmi_msg_send 0 ex_request 0 ex_w1 (mk_seg [] [] []) = Some (0, ex_w2, s') /\
    sk_sent s' = frame ex_request.
Proof.
  destruct (msg_send_spec ex_request 0 ex_w1 ex_o (fun _ _ => true) (mk_seg [] [] []) ex_inv1)
    as (r & w' & s' & E & _ & [(Er & _)|(Er & _ & Hs & _)]);
    [exact I|exact I|reflexivity|exact ex_owner| |]; rewrite Er in E.
  - vm_compute in E. discriminate E.
  - exists s'. split; [|exact Hs]. rewrite E. vm_compute in E. injection E as <- _. 
    vm_compute. reflexivity.
Defined.

Lemma ex_heap2 : heap ex_w2 = {[100 := ex_t2]}.
Proof. vm_compute. reflexivity. Qed.

Lemma ex_unique p t : heap ex_w2 !! p = Some t -> p = 100 /\ t = ex_t2.
Proof. rewrite ex_heap2, lookup_singleton_Some. intros [<- <-]. done. Qed.

Definition ex_answer (id : Z) : tcmi_msg := mk_msg 7 0 id None 1 (B_generic_user (mk_user 1 0 None)).

Lemma deliver_response_witness :
  exists m' q' w' t', tcmi_msg_deliver 900 (ex_answer 5) tcmi_queue_init ex_w2 =
      Some (0, m', q', w') /\ heap w' !! 100 = Some t' /\ context t' = Some 900.
Proof.
  destruct (deliver_response 900 (ex_answer 5) tcmi_queue_init ex_w2 ex_o 100 ex_t2 ex_inv2)
    as (r & m' & q' & w' & t' & E & _ & _ & Ht & _ & Er & _ & Hc & _);
    [discriminate|discriminate|exact ex_t2_in|reflexivity|reflexivity| |reflexivity|].
  - intros p t Hp _. apply (ex_unique p t Hp).
  - exists m', q', w', t'. rewrite Er in E. split; [exact E|split; assumption].
Defined.

Lemma stale_response_hits_other_witness :
  exists m' q' w' t', tcmi_msg_deliver 900 (ex_answer 7) tcmi_queue_init ex_w2 =
      Some (0, m', q', w') /\ heap w' !! 100 = Some t' /\ context t' = Some 900.
Proof.
  destruct (stale_response_hits_other 900 (ex_answer 7) tcmi_queue_init ex_w2 ex_o ex_inv2)
    as (p & t & r & m' & q' & w' & t' & Hp & _ & E & Ht & Hres);
    [discriminate|discriminate| |vm_compute; discriminate|reflexivity|].
  - intros p t Hp. destruct (ex_unique p t Hp) as [_ ->]. split; [discriminate|reflexivity].
  - destruct (ex_unique p t Hp) as [-> ->]. exists m', q', w', t'. destruct Hres as (Er & _ & Hc).
    rewrite Er in E. split; [exact E|split; assumption].
Defined.

Definition ex_others (w : world) : world :=
  match tcmi_transaction_complete 100 (Some 900) 7 w with Some r => r.2 | None => w end.

Lemma ex_inv3 : tinv (ex_others ex_w2, ex_o).
Proof.
  destruct (complete_effect ex_o ex_w2 100 ex_t2 (Some 900) 7 ex_inv2 ex_t2_in) as (r & t' & w' & Hc & Hi & _); [discriminate|].
  unfold ex_others. rewrite Hc. exact Hi.
Qed.

Lemma send_and_receive_result_witness :
  exists s1, tcmi_msg_send_and_receive 0 ex_others None ex_request ex_w1 (mk_seg [] [] []) =
    Some (0, Some 900, ex_others ex_w2, s1).
Proof.
  eexists.
  apply (send_and_receive_result ex_request ex_w1 ex_o ex_w2 (mk_seg [] [] []) (mk_seg (frame ex_request) [] [])
    100 ex_others (mk_trans (Some 1%nat) 5 7 TCMI_TRANSACTION_COMPLETE 2 1 false 10 (Some 900) 1) None).
  - reflexivity.
  - vm_compute. reflexivity.
  - exact ex_inv3.
  - vm_compute. reflexivity.
  - discriminate.
Defined.
