(* ===== verification/ProxyMsg.v ===== *)
(** ProxyFS messages and peers (src/src/proxyfs/proxyfs_msg.c, proxyfs_peer.c): the
    framing of file messages over a connection that is read without blocking, in
    pieces of any size.

    The socket is the TCP socket of [KkcSock] over any [Kernel].  [None] as a result
    stands for an access outside an object or buffer. *)

From S2P Require Import Prelude KkcSock.

(** ** Messages *)

Definition MSG_HDR_SIZE : Z := 32.
Definition MSG_MAGIC : Z := 518503102.     (* 0x1ee7babe *)
Definition MSG_MAX_SIZE : Z := Z.shiftl 4 10.

Definition MSG_OPEN : Z := 1.
Definition MSG_WRITE : Z := 3.
Definition MSG_IOCTL : Z := 4.
Definition MSG_CLOSE : Z := 5.
Definition MSG_FSYNC : Z := 6.
Definition MSG_READ_REQUEST : Z := 7.
Definition MSG_WRITE_RESP : Z := 301.

(** Four [unsigned long]s. *)
Record proxyfs_msg_header := mk_hdr { magic : Z; msg_num : Z; file_ident : Z; data_size : Z }.

(** [data] is the memory behind the data pointer; [msg_free]: [data] is freed with the
    message. *)
Record proxyfs_msg := mk_pmsg {
  header : proxyfs_msg_header; data : list Z; send_start : Z; msg_free : bool
}.

Definition header_bytes (h : proxyfs_msg_header) : list Z :=
  le_bytes 8 (magic h) ++ le_bytes 8 (msg_num h) ++ le_bytes 8 (file_ident h) ++ le_bytes 8 (data_size h).

(** The header at the start of a buffer. *)
Definition header_of (buf : list Z) : proxyfs_msg_header :=
  mk_hdr (le_value (ztake 8 buf)) (le_value (ztake 8 (zdrop 8 buf)))
    (le_value (ztake 8 (zdrop 16 buf))) (le_value (ztake 8 (zdrop 24 buf))).

(** The result is an [int]. *)
Definition proxyfs_msg_get_size (h : proxyfs_msg_header) : Z :=
  if negb (magic h =? MSG_MAGIC) then 0 else s32[data_size h + MSG_HDR_SIZE].

Definition proxyfs_msg_new_internal (kmalloc_ok : bool) (num ident size : Z) (data_ptr : list Z)
    (take_ownership : bool) : option proxyfs_msg :=
  if MSG_MAX_SIZE - MSG_HDR_SIZE <? size then None
  else if negb kmalloc_ok then None
  else Some (mk_pmsg (mk_hdr MSG_MAGIC num ident size) data_ptr 0 take_ownership).

Definition proxyfs_msg_new (kmalloc_ok : bool) (num ident size : Z) (data_ptr : list Z) :=
  proxyfs_msg_new_internal kmalloc_ok num ident size data_ptr false.

Definition proxyfs_msg_new_takeover_ownership (kmalloc_ok : bool) (num ident size : Z)
    (data_ptr : list Z) :=
  proxyfs_msg_new_internal kmalloc_ok num ident size data_ptr true.

(** The variable arguments are pairs of a size and a pointer, ended by a size of 0;
    a size is read as a [u_int32_t]. *)
Fixpoint compose_args (args : list (Z * list Z)) : list Z :=
  match args with
  | (n, p) :: args => if n =? 0 then [] else ztake n p ++ compose_args args
  | [] => []
  end.
Fixpoint compose_size (args : list (Z * list Z)) : Z :=
  match args with
  | (n, _) :: args => if n =? 0 then 0 else n + compose_size args
  | [] => 0
  end.

Definition proxyfs_msg_compose_new (kmalloc_msg kmalloc_data : bool) (num ident : Z)
    (args : list (Z * list Z)) : option proxyfs_msg :=
  if negb kmalloc_msg then None
  else if negb kmalloc_data then None
  else Some (mk_pmsg (mk_hdr MSG_MAGIC num ident (compose_size args)) (compose_args args) 0 true).

(** Whether the data is released with the message. *)
Definition proxyfs_msg_destroy (self : proxyfs_msg) : bool := msg_free self.

Section peer.
Context {K : Type} `{Kernel K}.

Definition with_start (n : Z) (m : proxyfs_msg) : proxyfs_msg :=
  mk_pmsg (header m) (data m) n (msg_free m).

(** The second half of [proxyfs_msg_real_send]: the data behind the header. *)
Definition send_data (self : proxyfs_msg) (k : K) : option (Z * proxyfs_msg * K) :=
  let msg_size := proxyfs_msg_get_size (header self) in
  if MSG_HDR_SIZE <=? send_start self then
    if send_start self =? msg_size then Some (1, self, k) else
    let b := ztake (msg_size - send_start self) (zdrop (send_start self - MSG_HDR_SIZE) (data self)) in
    '(result, s) ← kkc_sock_send (length b) (tcp_sock k) b KKC_SOCK_NONBLOCK;
    if 0 <? result then
      let self := with_start (send_start self + result) self in
      if send_start self =? msg_size then Some (1, self, ksock s) else Some (0, self, ksock s)
    else Some (result, self, ksock s)
  else Some (0, self, k).

(** [self + self->send_start] is the header only while [send_start] is 0. *)
Definition proxyfs_msg_real_send (self : proxyfs_msg) (k : K) : option (Z * proxyfs_msg * K) :=
  if send_start self <? MSG_HDR_SIZE then
    if 0 <? send_start self then None else
    let b := ztake (MSG_HDR_SIZE - send_start self) (header_bytes (header self)) in
    '(result, s) ← kkc_sock_send (length b) (tcp_sock k) b KKC_SOCK_NONBLOCK;
    if 0 <? result then send_data (with_start (send_start self + result) self) (ksock s)
    else Some (result, self, ksock s)
  else send_data self k.

(** ** Peers *)

Inductive proxyfs_peer_state := PEER_CREATED | PEER_CONNECTED | PEER_DISCONNECTED | PEER_DEAD.

(** [sock] is the kernel socket below the peer's KKC socket; [recv_buf] has
    [MSG_MAX_SIZE] bytes. *)
Record proxyfs_peer := mk_peer {
  sock : option K;
  recv_buf : list Z;
  recv_start : Z;
  msg_queue : list proxyfs_msg;
  p_ref : Z;
  p_state : proxyfs_peer_state
}.

(** [buf]: the result of [vmalloc]. *)
Definition proxyfs_peer_init (sk : option K) (buf : option (list Z)) : option proxyfs_peer :=
  b ← buf; Some (mk_peer sk b 0 [] 1 PEER_CREATED).

Definition proxyfs_peer_new (kmalloc_ok : bool) (sk : option K) (buf : option (list Z))
    : option proxyfs_peer :=
  if negb kmalloc_ok then None else proxyfs_peer_init sk buf.

Definition proxyfs_peer_get (self : proxyfs_peer) : proxyfs_peer :=
  mk_peer (sock self) (recv_buf self) (recv_start self) (msg_queue self) (p_ref self + 1) (p_state self).

(** [None]: the peer was freed. *)
Definition proxyfs_peer_put (self : proxyfs_peer) : option proxyfs_peer :=
  if p_ref self - 1 =? 0 then None
  else Some (mk_peer (sock self) (recv_buf self) (recv_start self) (msg_queue self) (p_ref self - 1)
               (p_state self)).

Definition proxyfs_peer_set_state (self : proxyfs_peer) (st : proxyfs_peer_state) : proxyfs_peer :=
  mk_peer (sock self) (recv_buf self) (recv_start self) (msg_queue self) (p_ref self) st.

Definition proxyfs_peer_send_msg (self : proxyfs_peer) (m : proxyfs_msg) : proxyfs_peer :=
  mk_peer (sock self) (recv_buf self) (recv_start self) (msg_queue self ++ [m]) (p_ref self) (p_state self).

Definition with_recv (buf : list Z) (start : Z) (k : K) (self : proxyfs_peer) : proxyfs_peer :=
  mk_peer (Some k) buf start (msg_queue self) (p_ref self) (p_state self).

(** The loop over the queue; returns what is left of it. *)
Fixpoint send_queue (q : list proxyfs_msg) (k : K) : option (list proxyfs_msg * K) :=
  match q with
  | [] => Some ([], k)
  | msg :: rest =>
      '(status, msg, k) ← proxyfs_msg_real_send msg k;
      if status =? 1 then send_queue rest k else Some (msg :: rest, k)
  end.

Definition proxyfs_peer_real_send (self : proxyfs_peer) : option proxyfs_peer :=
  match p_state self, sock self with
  | PEER_DISCONNECTED, _ | _, None => Some self
  | _, Some k =>
      '(q, k) ← send_queue (msg_queue self) k;
      Some (mk_peer (Some k) (recv_buf self) (recv_start self) q (p_ref self) (p_state self))
  end.

(** One non-blocking receive of [n] bytes at offset [recv_start] of the buffer; [None]:
    the bytes do not fit, or their number is negative. *)
Definition recv_at (self : proxyfs_peer) (k : K) (n : Z) : option (Z * proxyfs_peer) :=
  let m := zdrop (recv_start self) (recv_buf self) in
  if (n <? 0) || (zlen m <? n) then None else
  '(result, m, s) ← kkc_sock_recv 0 (tcp_sock k) m n KKC_SOCK_NONBLOCK;
  let buf := ztake (recv_start self) (recv_buf self) ++ m in
  let start := if 0 <? result then recv_start self + result else recv_start self in
  Some (result, with_recv buf start (ksock s) self).

Definition proxyfs_peer_real_recv (self : proxyfs_peer) : option (Z * proxyfs_peer) :=
  k ← sock self;
  '(result, self) ← (if recv_start self <? MSG_HDR_SIZE
                     then recv_at self k (MSG_HDR_SIZE - recv_start self)
                     else Some (0, self));
  if MSG_HDR_SIZE <=? recv_start self then
    let msg_size := proxyfs_msg_get_size (header_of (recv_buf self)) in
    if msg_size =? recv_start self then Some (1, self) else
    k ← sock self;
    '(result, self) ← recv_at self k (s32[msg_size - recv_start self]);
    if 0 <? result then
      if recv_start self =? proxyfs_msg_get_size (header_of (recv_buf self)) then Some (1, self)
      else Some (0, self)
    else Some (result, self)
  else Some (result, self).

Definition is_complete (self : proxyfs_peer) : bool :=
  (MSG_HDR_SIZE <=? recv_start self) &&
  (proxyfs_msg_get_size (header_of (recv_buf self)) =? recv_start self).

Definition proxyfs_peer_clear_msg (self : proxyfs_peer) : Z * proxyfs_peer :=
  if is_complete self
  then (0, mk_peer (sock self) (recv_buf self) 0 (msg_queue self) (p_ref self) (p_state self))
  else (-1, self).

(** The received message: its header and the data behind it. *)
Definition proxyfs_peer_get_msg (self : proxyfs_peer) : option (proxyfs_msg_header * list Z) :=
  if is_complete self
  then let h := header_of (recv_buf self) in
       Some (h, ztake (data_size h) (zdrop MSG_HDR_SIZE (recv_buf self)))
  else None.

(** [shutdown]: the result of shutting the socket down. *)
Definition proxyfs_peer_disconnect (shutdown : Z) (self : proxyfs_peer) : Z * proxyfs_peer :=
  match sock self, p_state self with
  | Some _, PEER_CONNECTED => (shutdown, proxyfs_peer_set_state self PEER_DISCONNECTED)
  | _, _ => (0, self)
  end.

(** [connected]: the result of [kkc_connect]. *)
Definition proxyfs_peer_connect (connected : Z * option K) (self : proxyfs_peer) : Z * proxyfs_peer :=
  let '(err, sk) := connected in
  if negb (err =? 0)
  then (-1, mk_peer None (recv_buf self) (recv_start self) (msg_queue self) (p_ref self) (p_state self))
  else (0, mk_peer sk (recv_buf self) (recv_start self) (msg_queue self) (p_ref self) PEER_CONNECTED).

Definition ECONNABORTED : Z := 103.

(** The loop of [proxyfs_task_recv_peers] for one peer.  [got] collects the messages
    handed to the message handler.  [None]: a faulting access, or out of fuel. *)
Fixpoint recv_peer (fuel : nat) (self : proxyfs_peer) (got : list (proxyfs_msg_header * list Z))
    : option (proxyfs_peer * list (proxyfs_msg_header * list Z)) :=
  match fuel with
  | O => None
  | S fuel =>
      '(recv_res, self) ← proxyfs_peer_real_recv self;
      if recv_res =? 1 then
        let got := match proxyfs_peer_get_msg self with Some m => got ++ [m] | None => got end in
        let '(_, self) := proxyfs_peer_clear_msg self in
        recv_peer fuel self got
      else if (recv_res =? - ECONNRESET) || (recv_res =? - ECONNABORTED)
      then Some (proxyfs_peer_set_state self PEER_DEAD, got)
      else Some (self, got)
  end.
End peer.

Arguments proxyfs_peer K : clear implicits.

(** ** Frames *)

(** A message as its receiver sees it: header and data. *)
Definition pmsg := (proxyfs_msg_header * list Z)%type.

Definition wf_pmsg (m : pmsg) : Prop :=
  magic m.1 = MSG_MAGIC /\ urange 64 (msg_num m.1) /\ urange 64 (file_ident m.1) /\
  data_size m.1 = zlen m.2 /\ zlen m.2 <= MSG_MAX_SIZE - MSG_HDR_SIZE.

Definition enc (m : pmsg) : list Z := header_bytes m.1 ++ m.2.

(** What a queued message stands for. *)
Definition content (m : proxyfs_msg) : pmsg := (header m, ztake (data_size (header m)) (data m)).

(** Sending has not started, or the header is out. *)
Definition wf_queued (m : proxyfs_msg) : Prop :=
  wf_pmsg (content m) /\ data_size (header m) <= zlen (data m) /\
  (send_start m = 0 \/ MSG_HDR_SIZE <= send_start m <= MSG_HDR_SIZE + data_size (header m)).

Lemma zlen_header h : zlen (header_bytes h) = MSG_HDR_SIZE.
Proof. unfold header_bytes. rewrite !zlen_app. unfold zlen. rewrite !le_bytes_length. done. Qed.

Lemma zlen_enc m : zlen (enc m) = MSG_HDR_SIZE + zlen m.2.
Proof. unfold enc. by rewrite zlen_app, zlen_header. Qed.

Lemma field8 z l : urange 64 z -> le_value (ztake 8 (le_bytes 8 z ++ l)) = z.
Proof.
  intros Hz. assert (E : 8 = zlen (le_bytes 8 z)) by (unfold zlen; by rewrite le_bytes_length).
  rewrite E, ztake_app_eq, le_value_le_bytes. by apply uwrap_id.
Qed.

Lemma zdrop_app_len {A} n (l k : list A) : n = zlen l -> zdrop n (l ++ k) = k.
Proof. intros ->. apply zdrop_app_eq. Qed.

Lemma header_of_bytes m l : wf_pmsg m -> header_of (header_bytes m.1 ++ l) = m.1.
Proof.
  intros (Hm & Hn & Hf & Hd & Hmax). unfold header_of, header_bytes.
  assert (E : forall z, zlen (le_bytes 8 z) = 8) by (intros; unfold zlen; by rewrite le_bytes_length).
  assert (Hs : urange 64 (data_size m.1)).
  { pose proof (zlen_nonneg m.2). rewrite Hd. unfold urange.
    change (MSG_MAX_SIZE - MSG_HDR_SIZE) with 4064 in Hmax. lia. }
  destruct m as [[mg num id sz] d]. cbn [fst magic msg_num file_ident data_size] in *.
  f_equal.
  - rewrite <- app_assoc. apply field8. by rewrite Hm.
  - rewrite <- app_assoc, zdrop_app_len by (by rewrite E). rewrite <- app_assoc. by apply field8.
  - rewrite (app_assoc (le_bytes 8 mg)), <- app_assoc, zdrop_app_len by (by rewrite zlen_app, !E).
    rewrite <- app_assoc. by apply field8.
  - rewrite (app_assoc (le_bytes 8 mg)), (app_assoc (_ ++ _)), <- app_assoc, zdrop_app_len
      by (by rewrite !zlen_app, !E). by apply field8.
Qed.

Lemma header_of_take n buf : MSG_HDR_SIZE <= n -> header_of (ztake n buf) = header_of buf.
Proof.
  intros Hn. unfold MSG_HDR_SIZE in Hn. unfold header_of.
  assert (E : forall i, 0 <= i <= 24 -> ztake 8 (zdrop i (ztake n buf)) = ztake 8 (zdrop i buf)).
  { intros i Hi. unfold ztake, zdrop. rewrite skipn_firstn_comm, take_take. f_equal. lia. }
  rewrite <- (zdrop_0 0 (ztake n buf)) at 1 by lia. rewrite !E by lia. by rewrite zdrop_0 by lia.
Qed.

Lemma get_size_wf m : wf_pmsg m -> proxyfs_msg_get_size m.1 = MSG_HDR_SIZE + zlen m.2.
Proof.
  intros (Hm & _ & _ & Hd & Hmax). unfold proxyfs_msg_get_size. rewrite Hm, Z.eqb_refl. simpl.
  rewrite Hd. pose proof (zlen_nonneg m.2). change (MSG_MAX_SIZE - MSG_HDR_SIZE) with 4064 in Hmax.
  unfold MSG_HDR_SIZE. rewrite swrap_id by (unfold srange; lia). lia.
Qed.

(** ** Sending *)

Section sending.
Context {K : Type} `{Kernel K}.

Lemma send_data_spec m (k : K) :
  wf_queued m -> MSG_HDR_SIZE <= send_start m ->
  exists r m' k', send_data m k = Some (r, m', k') /\ wf_queued m' /\ content m' = content m /\
    incoming k' = incoming k /\
    (up k -> r = 1 /\ up k' /\ outgoing k' = outgoing k ++ zdrop (send_start m - MSG_HDR_SIZE) (content m).2).
Proof.
  intros (Hwf & Hlen & Hst) Hge. pose proof Hwf as Hwf0. unfold send_data.
  replace (MSG_HDR_SIZE <=? send_start m) with true by lia.
  pose proof (get_size_wf _ Hwf) as Hsz. cbn [content fst snd] in Hsz. rewrite Hsz.
  destruct Hwf as (H1 & H2 & H3 & Hds & H4). cbn [content fst snd] in *.
  rewrite <- Hds in *. set (n := data_size (header m)) in *.
  assert (Hn0 : 0 <= n) by (rewrite Hds; apply zlen_nonneg).
  destruct Hst as [Hst|Hst]; [unfold MSG_HDR_SIZE in *; lia|].
  destruct (send_start m =? MSG_HDR_SIZE + n) eqn:E; bool_hyps.
  - exists 1, m, k. split_and!; [done| |done|done|].
    + split; [exact Hwf0|split; [done|by right]].
    + intros Hu. rewrite zdrop_all, app_nil_r by (rewrite <- Hds; lia). done.
  - set (b := ztake _ _).
    assert (Hb : b = zdrop (send_start m - MSG_HDR_SIZE) (ztake n (data m))).
    { subst b. unfold ztake, zdrop. rewrite skipn_firstn_comm. f_equal. lia. }
    assert (Hbl : zlen b = MSG_HDR_SIZE + n - send_start m) by (rewrite Hb, zlen_zdrop; lia).
    destruct (tcp_send_spec k b KKC_SOCK_NONBLOCK) as (r & k' & -> & Hi & Hr & Hup).
    cbn [mbind option_bind ksock tcp_sock with_start send_start].
    destruct (0 <? r) eqn:Er; bool_hyps.
    + assert (r = zlen b) as -> by (destruct Hr as [?|[? _]]; [lia|done]).
      replace (send_start m + zlen b =? MSG_HDR_SIZE + n) with true by lia.
      eexists 1, _, k'. split; [reflexivity|]. split_and!; [|done|done|].
      * split; [exact Hwf0|]. split; [done|]. right. simpl. fold n. lia.
      * intros Hu. destruct (Hup Hu) as [_ Hu']. destruct Hr as [?|[_ Ho]]; [lia|].
        split_and!; [done..|]. rewrite Ho. by rewrite Hb.
    + eexists r, m, k'. split; [reflexivity|]. split_and!; [|done|done|].
      * split; [exact Hwf0|]. split; [done|by right].
      * intros Hu. destruct (Hup Hu) as [Hr' _]. lia.
Qed.

Lemma real_send_spec m (k : K) :
  wf_queued m ->
  exists r m' k', proxyfs_msg_real_send m k = Some (r, m', k') /\ wf_queued m' /\ content m' = content m /\
    incoming k' = incoming k /\
    (up k -> send_start m = 0 -> r = 1 /\ up k' /\ outgoing k' = outgoing k ++ enc (content m)).
Proof.
  intros Hwf. pose proof Hwf as (Hm & Hlen & Hst). unfold proxyfs_msg_real_send.
  destruct (send_start m <? MSG_HDR_SIZE) eqn:E; bool_hyps.
  - assert (Hz : send_start m = 0) by (destruct Hst; lia). rewrite Hz. cbn [Z.ltb Z.compare].
    rewrite ztake_all by (rewrite zlen_header; lia).
    destruct (tcp_send_spec k (header_bytes (header m)) KKC_SOCK_NONBLOCK) as (r & k1 & -> & Hi & Hr & Hup).
    cbn [mbind option_bind ksock tcp_sock]. rewrite zlen_header in *.
    destruct (0 <? r) eqn:Er; bool_hyps.
    + destruct Hr as [?|[-> Ho]]; [lia|].
      assert (Hwf1 : wf_queued (with_start (0 + MSG_HDR_SIZE) m)).
      { split; [done|]. split; [done|]. right. simpl. destruct Hm as (_ & _ & _ & Hds & _). simpl in Hds.
        pose proof (zlen_nonneg (ztake (data_size (header m)) (data m))). lia. }
      destruct (send_data_spec _ k1 Hwf1) as (r' & m' & k' & E' & Hw' & Hc' & Hi' & Hup'); [simpl; lia|].
      exists r', m', k'. split_and!; [exact E'|done|done|congruence|].
      intros Hu _. destruct (Hup Hu) as [_ Hu1]. destruct (Hup' Hu1) as (-> & Hu' & Ho').
      split_and!; [done..|]. rewrite Ho', Ho. simpl send_start.
      replace (0 + MSG_HDR_SIZE - MSG_HDR_SIZE) with 0 by lia. rewrite zdrop_0 by lia.
      unfold enc. by rewrite <- app_assoc.
    + eexists r, m, k1. split; [reflexivity|]. split_and!; [done..|].
      intros Hu _. destruct (Hup Hu) as [Hr' _]. unfold MSG_HDR_SIZE in *. lia.
  - destruct (send_data_spec m k Hwf E) as (r & m' & k' & E' & Hw' & Hc' & Hi' & _).
    exists r, m', k'. split_and!; [done..|]. intros _ Hz. unfold MSG_HDR_SIZE in E. lia.
Qed.

Lemma send_queue_spec q (k : K) :
  Forall wf_queued q ->
  exists q' k', send_queue q k = Some (q', k') /\ Forall wf_queued q' /\ incoming k' = incoming k /\
    content <$> q' = drop (length q - length q') (content <$> q) /\ (length q' <= length q)%nat /\
    (up k -> Forall (fun m => send_start m = 0) q ->
       q' = [] /\ up k' /\ outgoing k' = outgoing k ++ concat (enc <$> (content <$> q))).
Proof.
  intros Hq. revert k. induction Hq as [|m q Hm Hq IH]; intros k.
  - exists [], k. simpl. rewrite app_nil_r. auto 10.
  - cbn [send_queue]. destruct (real_send_spec m k Hm) as (r & m' & k1 & -> & Hw & Hc & Hi & Hup).
    cbn [mbind option_bind]. destruct (r =? 1) eqn:Er; bool_hyps.
    + destruct (IH k1) as (q' & k' & -> & Hw' & Hi' & Hc' & Hl' & Hup').
      exists q', k'. split_and!; [done|done|congruence| |simpl; lia|].
      * cbn [length fmap list_fmap]. replace (S (length q) - length q')%nat with (S (length q - length q')) by lia.
        exact Hc'.
      * intros Hu Hall. inversion Hall as [|? ? Hz Hall']; subst.
        destruct (Hup Hu Hz) as (_ & Hu1 & Ho). destruct (Hup' Hu1 Hall') as (-> & Hu' & Ho').
        split_and!; [done..|]. rewrite Ho', Ho. simpl. by rewrite <- app_assoc.
    + exists (m' :: q), k1. split_and!; [done|by constructor|done| |done|].
      * cbn [length fmap list_fmap]. rewrite Nat.sub_diag, Hc. done.
      * intros Hu Hall. inversion Hall as [|? ? Hz Hall']; subst.
        destruct (Hup Hu Hz) as (-> & _). lia.
Qed.
End sending.

(** ** Receiving *)

Section receiving.
Context {K : Type} `{Kernel K}.
Implicit Types (self : proxyfs_peer K) (k : K).

(** The bytes of the current message received so far. *)
Definition partial self : list Z := ztake (recv_start self) (recv_buf self).

(** There is data for a non-blocking receive. *)
Definition delivers k : Prop := forall n, 0 < n -> 0 < (kernel_recvmsg k n true).1.1.

Lemma nb_recv k m n :
  0 < n <= zlen m ->
  exists r d k', kkc_sock_recv 0 (tcp_sock k) m n KKC_SOCK_NONBLOCK = Some (r, blit 0 d m, tcp_sock k') /\
    r <> 0 /\ (delivers k -> 0 < r) /\ r <= n /\ zlen d = Z.max 0 r /\ incoming k = d ++ incoming k' /\
    outgoing k' = outgoing k.
Proof.
  intros Hn. unfold kkc_sock_recv, recv_method. simpl. unfold kkc_sock_tcp_recv.
  destruct (kernel_recvmsg k n _) as [[r d] k'] eqn:E.
  destruct (recvmsg_law _ _ _ _ _ _ E ltac:(lia)) as (Hr & Hd & Hi & Ho).
  replace (0 <? n) with true by lia. rewrite andb_true_r.
  exists (if r =? 0 then - ECONNRESET else r), d, k'. split; [done|].
  assert (Hdl : delivers k -> 0 < r) by (intros D; specialize (D n ltac:(lia)); cbn [is_block negb] in E;
    by rewrite E in D).
  unfold ECONNRESET. destruct (r =? 0) eqn:E0; bool_hyps; split_and!; try done; try lia;
    intros D; specialize (Hdl D); lia.
Qed.

Lemma recv_at_spec self k n :
  0 < n -> 0 <= recv_start self -> recv_start self + n <= zlen (recv_buf self) ->
  exists r d buf' k', recv_at self k n = Some (r, with_recv buf' (recv_start self + zlen d) k' self) /\
    r <> 0 /\ (delivers k -> 0 < r) /\ r <= n /\ zlen d = Z.max 0 r /\ incoming k = d ++ incoming k' /\
    zlen buf' = zlen (recv_buf self) /\ ztake (recv_start self + zlen d) buf' = partial self ++ d.
Proof.
  intros Hn Hs Hfit. unfold recv_at.
  assert (Hm : zlen (zdrop (recv_start self) (recv_buf self)) = zlen (recv_buf self) - recv_start self)
    by (rewrite zlen_zdrop; lia).
  replace ((n <? 0) || (zlen (zdrop (recv_start self) (recv_buf self)) <? n)) with false by lia.
  destruct (nb_recv k (zdrop (recv_start self) (recv_buf self)) n) as (r & d & k' & -> & Hr0 & Hdel & Hr & Hd & Hi & _); [lia|].
  cbn [mbind option_bind ksock tcp_sock].
  eexists r, d, _, k'. split; [|split_and!; [done|done|done|done|done| |]].
  - replace (recv_start self + zlen d) with (if 0 <? r then recv_start self + r else recv_start self);
      [reflexivity|]. destruct (0 <? r) eqn:E; blia.
  - rewrite zlen_app, zlen_blit, zlen_ztake by lia. lia.
  - assert (Hp : zlen (partial self) = recv_start self) by (unfold partial; rewrite zlen_ztake; lia).
    unfold blit. rewrite (ztake_0 0) by lia. simpl app. fold (partial self).
    rewrite app_assoc. rewrite <- Hp at 1. rewrite <- zlen_app. apply ztake_app_eq.
Qed.

(** The peer is inside, or before, the first message of the rest [ms] of the stream;
    [future] are the bytes that have not arrived yet. *)
Definition rinv self k (ms : list pmsg) : Prop :=
  sock self = Some k /\ zlen (recv_buf self) = MSG_MAX_SIZE /\ 0 <= recv_start self <= MSG_MAX_SIZE /\
  (exists future, partial self ++ incoming k ++ future = concat (enc <$> ms)) /\
  match ms with
  | m :: _ => recv_start self < zlen (enc m)
  | [] => recv_start self = 0
  end.

Lemma partial_length self k ms : rinv self k ms -> zlen (partial self) = recv_start self.
Proof. intros (_ & Hb & Hs & _). unfold partial. rewrite zlen_ztake. lia. Qed.

(** A prefix of the stream of at least a header starts with the header of the first
    message. *)
Lemma prefix_header m ms p q :
  wf_pmsg m -> p ++ q = concat (enc <$> (m :: ms)) -> MSG_HDR_SIZE <= zlen p -> header_of p = m.1.
Proof.
  intros Hwf Hp Hl. cbn [fmap list_fmap concat] in Hp. unfold enc at 1 in Hp. rewrite <- app_assoc in Hp.
  rewrite <- (header_of_take (zlen p)) by done.
  replace (ztake (zlen p) p) with (ztake (zlen p) (p ++ q)) by (by rewrite ztake_app_eq, ztake_all).
  rewrite Hp, header_of_take by done. by apply header_of_bytes.
Qed.

(** A prefix of the stream as long as the first message is that message. *)
Lemma prefix_frame m ms p q :
  p ++ q = concat (enc <$> (m :: ms)) -> zlen p = zlen (enc m) ->
  p = enc m /\ q = concat (enc <$> ms).
Proof.
  intros Hp Hl. cbn [fmap list_fmap concat] in Hp. apply app_inj_1 in Hp; [done|].
  unfold zlen in Hl. lia.
Qed.

(** What a call of [proxyfs_peer_real_recv] did. *)
Definition recv_outcome (ms : list pmsg) self k (r : Z) (self' : proxyfs_peer K) : Prop :=
  exists k',
   (is_complete self' = false /\ rinv self' k' ms /\ zlen (incoming k') <= zlen (incoming k) /\
    (r = 1 \/ delivers k -> zlen (incoming k') < zlen (incoming k))) \/
   (exists m ms', ms = m :: ms' /\ r = 1 /\ proxyfs_peer_get_msg self' = Some m /\
      rinv (proxyfs_peer_clear_msg self').2 k' ms' /\ zlen (incoming k') < zlen (incoming k)).

(** At least the header of [m] is there. *)
Definition pinv self k (m : pmsg) (ms : list pmsg) : Prop :=
  sock self = Some k /\ zlen (recv_buf self) = MSG_MAX_SIZE /\
  MSG_HDR_SIZE <= recv_start self <= zlen (enc m) /\
  (exists future, partial self ++ incoming k ++ future = concat (enc <$> (m :: ms))).

Lemma enc_fits m : wf_pmsg m -> zlen (enc m) <= MSG_MAX_SIZE.
Proof. intros (_ & _ & _ & _ & Hm). rewrite zlen_enc. lia. Qed.

Lemma pinv_header self k m ms :
  wf_pmsg m -> pinv self k m ms -> header_of (recv_buf self) = m.1.
Proof.
  intros Hwf (_ & Hb & Hs & future & Hf). pose proof (enc_fits m Hwf).
  rewrite <- (header_of_take (recv_start self)) by lia.
  apply (prefix_header m ms _ _ Hwf Hf). unfold partial. rewrite zlen_ztake. lia.
Qed.

Lemma pinv_complete self k m ms :
  wf_pmsg m -> pinv self k m ms ->
  is_complete self = bool_decide (recv_start self = zlen (enc m)).
Proof.
  intros Hwf Hp. unfold is_complete. rewrite (pinv_header _ _ _ _ Hwf Hp), (get_size_wf _ Hwf).
  destruct Hp as (_ & _ & Hs & _). rewrite zlen_enc in *.
  replace (MSG_HDR_SIZE <=? recv_start self) with true by lia. cbn [andb].
  case_bool_decide; lia.
Qed.

Lemma pinv_rinv self k m ms :
  wf_pmsg m -> pinv self k m ms -> recv_start self <> zlen (enc m) -> rinv self k (m :: ms).
Proof.
  intros Hwf (Hk & Hb & Hs & Hf) Hne. pose proof (enc_fits m Hwf).
  unfold rinv, MSG_HDR_SIZE in *. cbv beta iota.
  split_and!; first [done|lia].
Qed.

Lemma pinv_done self k m ms :
  wf_pmsg m -> pinv self k m ms -> recv_start self = zlen (enc m) ->
  proxyfs_peer_get_msg self = Some m /\ rinv (proxyfs_peer_clear_msg self).2 k ms.
Proof.
  intros Hwf Hp Hs. pose proof (enc_fits m Hwf). pose proof (zlen_nonneg (enc m)).
  unfold proxyfs_peer_get_msg, proxyfs_peer_clear_msg.
  rewrite (pinv_complete _ _ _ _ Hwf Hp), bool_decide_eq_true_2 by done.
  rewrite (pinv_header _ _ _ _ Hwf Hp). destruct Hp as (Hk & Hb & _ & future & Hf).
  apply prefix_frame in Hf as [He Hrest]; [|unfold partial; rewrite zlen_ztake; lia]. split.
  - assert (Hd : data_size m.1 = zlen m.2) by apply Hwf.
    replace (ztake (data_size m.1) (zdrop MSG_HDR_SIZE (recv_buf self)))
      with (zdrop MSG_HDR_SIZE (partial self)).
    + rewrite He. unfold enc. rewrite zdrop_app_len by (by rewrite zlen_header). by destruct m.
    + unfold partial, ztake, zdrop. rewrite skipn_firstn_comm. f_equal.
      pose proof (zlen_nonneg m.2). rewrite Hs, zlen_enc, Hd. unfold MSG_HDR_SIZE. lia.
  - unfold rinv, MSG_MAX_SIZE in *. simpl in *. split_and!; try done; try lia.
    + exists future. by rewrite Hrest.
    + destruct ms as [|m' ms]; [done|]. rewrite zlen_enc. pose proof (zlen_nonneg m'.2).
      unfold MSG_HDR_SIZE. lia.
Qed.

Lemma with_recv_partial self buf start k : partial (with_recv buf start k self) = ztake start buf.
Proof. done. Qed.

(** The part of [proxyfs_peer_real_recv] behind the header. *)
Definition recv_body self : option (Z * proxyfs_peer K) :=
  let msg_size := proxyfs_msg_get_size (header_of (recv_buf self)) in
  if msg_size =? recv_start self then Some (1, self) else
  k ← sock self;
  '(result, self) ← recv_at self k (s32[msg_size - recv_start self]);
  if 0 <? result then
    if recv_start self =? proxyfs_msg_get_size (header_of (recv_buf self)) then Some (1, self)
    else Some (0, self)
  else Some (result, self).

Lemma recv_body_spec self k m ms :
  wf_pmsg m -> pinv self k m ms ->
  exists r self' k', recv_body self = Some (r, self') /\ pinv self' k' m ms /\
    zlen (incoming k') <= zlen (incoming k) /\
    (r = 1 <-> recv_start self' = zlen (enc m)) /\
    (recv_start self <> zlen (enc m) -> r = 1 \/ delivers k -> zlen (incoming k') < zlen (incoming k)).
Proof.
  intros Hwf Hp. unfold recv_body. rewrite (pinv_header _ _ _ _ Hwf Hp), (get_size_wf _ Hwf), <- zlen_enc.
  destruct (zlen (enc m) =? recv_start self) eqn:E; bool_hyps.
  { exists 1, self, k. split_and!; [done|done|lia| |congruence]. split; congruence. }
  pose proof Hp as (Hk & Hb & Hs & future & Hf). pose proof (enc_fits m Hwf) as Hfit.
  assert (Hmax : MSG_MAX_SIZE = 4096) by done. rewrite Hk. cbn [mbind option_bind].
  rewrite swrap_id by (unfold srange, MSG_HDR_SIZE in *; lia).
  destruct (recv_at_spec self k (zlen (enc m) - recv_start self))
    as (r & d & buf' & k' & -> & Hr0 & Hdel & Hr & Hd & Hi & Hb' & Ht); [unfold MSG_HDR_SIZE in *; lia..|].
  cbn [mbind option_bind]. set (self' := with_recv _ _ _ _).
  assert (Hp' : pinv self' k' m ms).
  { split_and!; [done|simpl; lia|simpl; lia..|]. exists future. unfold self'.
    rewrite with_recv_partial, Ht, <- Hf, Hi, <- !app_assoc. done. }
  rewrite (pinv_header _ _ _ _ Hwf Hp'), (get_size_wf _ Hwf), <- zlen_enc.
  assert (Hle : zlen (incoming k) = zlen d + zlen (incoming k')) by (by rewrite Hi, zlen_app).
  pose proof (zlen_nonneg d).
  change (recv_start self') with (recv_start self + zlen d).
  destruct (0 <? r) eqn:Er; bool_hyps; [destruct (_ =? _) eqn:E2; bool_hyps|].
  - exists 1, self', k'. split_and!; [done..|lia|done|lia].
  - exists 0, self', k'. split_and!; [done..|lia| |intros _ [?|D]; [lia|specialize (Hdel D); lia]]. split; [lia|]. simpl. lia.
  - exists r, self', k'. split_and!; [done..|lia| |intros _ [?|D]; [lia|specialize (Hdel D); lia]]. split; [lia|]. simpl. lia.
Qed.

Lemma real_recv_body self :
  MSG_HDR_SIZE <= recv_start self -> is_Some (sock self) ->
  proxyfs_peer_real_recv self = recv_body self.
Proof.
  intros Hs [k Hk]. unfold proxyfs_peer_real_recv. rewrite Hk. cbn [mbind option_bind].
  replace (recv_start self <? MSG_HDR_SIZE) with false by lia. cbn [mbind option_bind].
  replace (MSG_HDR_SIZE <=? recv_start self) with true by lia.
  unfold recv_body. rewrite Hk. reflexivity.
Qed.

(** Receiving while the header is incomplete. *)
Lemma recv_header_spec self k ms :
  Forall wf_pmsg ms -> rinv self k ms -> recv_start self < MSG_HDR_SIZE ->
  exists r self' k', recv_at self k (MSG_HDR_SIZE - recv_start self) = Some (r, self') /\
    sock self' = Some k' /\ zlen (incoming k') <= zlen (incoming k) /\
    (0 < r \/ delivers k -> zlen (incoming k') < zlen (incoming k)) /\
    (recv_start self' < MSG_HDR_SIZE -> rinv self' k' ms) /\
    (MSG_HDR_SIZE <= recv_start self' ->
       0 < r /\ exists m ms', ms = m :: ms' /\ pinv self' k' m ms').
Proof.
  intros Hwf Hr Hs. pose proof (partial_length _ _ _ Hr) as Hpl.
  destruct Hr as (Hk & Hb & Hs0 & (future & Hf) & Hm). assert (Hmax : MSG_MAX_SIZE = 4096) by done.
  assert (Hh : MSG_HDR_SIZE = 32) by done.
  destruct (recv_at_spec self k (MSG_HDR_SIZE - recv_start self))
    as (r & d & buf' & k' & -> & Hr0 & Hdel & Hr & Hd & Hi & Hb' & Ht); [lia..|].
  pose proof (zlen_nonneg d) as Hd0.
  assert (Hle : zlen (incoming k) = zlen d + zlen (incoming k')) by (by rewrite Hi, zlen_app).
  eexists r, _, k'. split; [reflexivity|]. cbn [with_recv sock recv_start].
  assert (Hf' : (partial self ++ d) ++ incoming k' ++ future = concat (enc <$> ms)).
  { rewrite <- Hf, Hi, <- !app_assoc. done. }
  split_and!; [done|lia|intros [?|D]; [lia|specialize (Hdel D); lia]| |].
  - intros Hlt. split_and!; [done|simpl; lia|simpl; lia..| |].
    + exists future. by rewrite with_recv_partial, Ht.
    + cbn [with_recv recv_start]. destruct ms as [|m ms].
      * destruct (partial self ++ d) eqn:E; [|done]. apply app_eq_nil in E as [_ ->]. rewrite zlen_nil. lia.
      * rewrite zlen_enc. pose proof (zlen_nonneg m.2). lia.
  - intros Hge. split; [lia|]. destruct ms as [|m ms].
    + exfalso. assert (Hz : zlen (partial self ++ d) = 0).
      { destruct (partial self ++ d); [done|discriminate Hf']. }
      rewrite zlen_app in Hz. lia.
    + exists m, ms. split; [done|]. split_and!; [done|simpl; lia|done| |].
      * cbn [with_recv recv_start]. rewrite zlen_enc. pose proof (zlen_nonneg m.2). lia.
      * exists future. by rewrite with_recv_partial, Ht.
Qed.

Lemma real_recv_spec self k ms :
  Forall wf_pmsg ms -> rinv self k ms ->
  exists r self', proxyfs_peer_real_recv self = Some (r, self') /\ recv_outcome ms self k r self'.
Proof.
  intros Hwf Hr. pose proof Hr as (Hk & _ & _ & _ & Hm).
  assert (Hbody : forall s1 k1 m ms', wf_pmsg m -> ms = m :: ms' -> pinv s1 k1 m ms' ->
      zlen (incoming k1) <= zlen (incoming k) ->
      (zlen (incoming k1) < zlen (incoming k) \/ (k1 = k /\ recv_start s1 <> zlen (enc m))) ->
      exists r self', recv_body s1 = Some (r, self') /\ recv_outcome ms self k r self').
  { intros s1 k1 m ms' Hwm -> Hp Hle Hlt.
    destruct (recv_body_spec s1 k1 m ms' Hwm Hp) as (r & self' & k' & E & Hp' & Hle' & Hiff & Hdec).
    exists r, self'. split; [done|]. exists k'. destruct (decide (recv_start self' = zlen (enc m))) as [Hd|Hd].
    - right. destruct (pinv_done _ _ _ _ Hwm Hp' Hd) as [Hg Hc]. exists m, ms'.
      split_and!; [done|tauto|done|done|].
      destruct Hlt as [Hlt|[-> E1]]; [lia|]. specialize (Hdec E1 ltac:(tauto)). lia.
    - left. split_and!; [|by apply pinv_rinv|lia|destruct Hlt as [Hlt|[-> E1]]; [lia|auto]].
      rewrite (pinv_complete _ _ _ _ Hwm Hp'). by apply bool_decide_eq_false_2. }
  destruct (Z_lt_dec (recv_start self) MSG_HDR_SIZE) as [Hs|Hs].
  - unfold proxyfs_peer_real_recv. rewrite Hk. cbn [mbind option_bind].
    replace (recv_start self <? MSG_HDR_SIZE) with true by lia.
    destruct (recv_header_spec self k ms Hwf Hr Hs)
      as (r & s1 & k1 & -> & Hk1 & Hle & Hlt & Hlow & Hhigh). cbn [mbind option_bind].
    destruct (MSG_HDR_SIZE <=? recv_start s1) eqn:E; bool_hyps.
    + destruct (Hhigh E) as (Hpos & m & ms' & -> & Hp). inversion Hwf; subst.
      apply (Hbody s1 k1 m ms'); auto.
    + exists r, s1. split; [done|]. exists k1. left. split_and!; [|by apply Hlow|lia|intros [->|]; apply Hlt; [left; lia|auto]].
      unfold is_complete. by replace (MSG_HDR_SIZE <=? recv_start s1) with false by lia.
  - rewrite real_recv_body by (lia || by rewrite Hk). destruct ms as [|m ms]; [unfold MSG_HDR_SIZE in Hs; lia|].
    inversion Hwf; subst. apply (Hbody self k m ms); auto; [|lia|right; split; [done|lia]].
    destruct Hr as (? & ? & ? & ? & ?). split_and!; [done|done|lia|lia|done].
Qed.

Lemma recv_peer_spec fuel self k ms got :
  Forall wf_pmsg ms -> rinv self k ms -> (Z.to_nat (zlen (incoming k)) < fuel)%nat ->
  exists self' k' ms1 ms2, recv_peer fuel self got = Some (self', got ++ ms1) /\
    ms = ms1 ++ ms2 /\ rinv self' k' ms2 /\ zlen (incoming k') <= zlen (incoming k) /\
    (delivers k -> zlen (incoming k') < zlen (incoming k)).
Proof.
  revert self k ms got. induction fuel as [|fuel IH]; intros self k ms got Hwf Hr Hf; [lia|].
  cbn [recv_peer]. destruct (real_recv_spec self k ms Hwf Hr) as (r & s1 & -> & k1 & Hout).
  cbn [mbind option_bind]. pose proof (zlen_nonneg (incoming k1)).
  destruct Hout as [(Hc & Hr1 & Hle & Hdec)|(m & ms' & -> & -> & Hg & Hr1 & Hdec)].
  - destruct (r =? 1) eqn:E; bool_hyps.
    + unfold proxyfs_peer_get_msg, proxyfs_peer_clear_msg. rewrite Hc.
      specialize (Hdec (or_introl E)).
      destruct (IH s1 k1 ms got) as (s' & k' & ms1 & ms2 & E' & ? & ? & ? & ?); [done|done|lia|].
      exists s', k', ms1, ms2. split_and!; try done; lia.
    + destruct (_ || _); [eexists _, k1, [], ms|exists s1, k1, [], ms]; rewrite app_nil_r;
        (split; [reflexivity|]; split; [done|]; split; [exact Hr1|split; [lia|auto]]).
  - cbn [Z.eqb Pos.eqb]. rewrite Hg. destruct (proxyfs_peer_clear_msg s1) as [z s2]. simpl in Hr1. cbv beta iota zeta.
    inversion Hwf; subst. destruct (IH s2 k1 ms' (got ++ [m])) as (s' & k' & ms1 & ms2 & E & -> & Hr2 & ? & ?);
      [done|done|lia|].
    exists s', k', (m :: ms1), ms2. rewrite <- app_assoc in E. split_and!; [exact E|done|done|lia|lia].
Qed.
End receiving.

(** ** Properties *)

(** C28: Reassembly: however the transport cuts the stream, a round of non-blocking
    receives from a peer terminates without touching memory outside the receive
    buffer, hands exactly the next messages of the stream, in order and unchanged, to
    the message handler, and leaves the peer inside, or right before, the first message
    that is not complete yet, so that the next round goes on from there.  A round that
    finds data at the socket consumes some. *)
Theorem recv_peer_reassembles {K} `{Kernel K} (self : proxyfs_peer K) k ms got :
  Forall wf_pmsg ms -> rinv self k ms ->
  exists self' k' ms1 ms2,
    recv_peer (S (Z.to_nat (zlen (incoming k)))) self got = Some (self', got ++ ms1) /\
    ms = ms1 ++ ms2 /\ rinv self' k' ms2 /\
    (delivers k -> zlen (incoming k') < zlen (incoming k)).
Proof.
  intros Hwf Hr. destruct (recv_peer_spec (S (Z.to_nat (zlen (incoming k)))) self k ms got)
    as (self' & k' & ms1 & ms2 & ? & ? & ? & ? & ?); [done|done|lia|]. eauto 10.
Qed.

(** Sending the queue of a peer never reads outside a message, keeps the messages
    that could not be sent, in order, and on a working connection puts the frames of
    all the queued messages on the stream, in order, and empties the queue. *)
Theorem peer_real_send_spec {K} `{Kernel K} (self : proxyfs_peer K) (k : K) :
  sock self = Some k -> p_state self <> PEER_DISCONNECTED -> Forall wf_queued (msg_queue self) ->
  exists self' k', proxyfs_peer_real_send self = Some self' /\ sock self' = Some k' /\
    Forall wf_queued (msg_queue self') /\ recv_buf self' = recv_buf self /\
    (exists n, content <$> msg_queue self' = drop n (content <$> msg_queue self)) /\
    (up k -> Forall (fun m => send_start m = 0) (msg_queue self) ->
       msg_queue self' = [] /\ up k' /\
       outgoing k' = outgoing k ++ concat (enc <$> (content <$> msg_queue self))).
Proof.
  intros Hk Hst Hq. destruct (send_queue_spec (msg_queue self) k Hq)
    as (q' & k' & E & Hw & _ & Hc & _ & Hup).
  assert (Hrs : proxyfs_peer_real_send self =
    Some (mk_peer (Some k') (recv_buf self) (recv_start self) q' (p_ref self) (p_state self))).
  { unfold proxyfs_peer_real_send. rewrite Hk, E. by destruct (p_state self). }
  eexists _, k'. split; [exact Hrs|]. split_and!; [done|done|done| |done]. eauto.
Qed.

(** C40: A header that announces more data than fits makes the peer receive beyond its
    buffer: [proxyfs_peer_real_recv] checks the size of an incoming message against
    nothing. *)
Theorem oversized_message_overflows {K} `{Kernel K} (self : proxyfs_peer K) (k : K) h :
  sock self = Some k -> zlen (recv_buf self) = MSG_MAX_SIZE -> recv_start self = MSG_HDR_SIZE ->
  header_of (recv_buf self) = h -> magic h = MSG_MAGIC ->
  MSG_MAX_SIZE - MSG_HDR_SIZE < data_size h < 2 ^ 31 - MSG_HDR_SIZE ->
  proxyfs_peer_real_recv self = None.
Proof.
  intros Hk Hb Hs Hh Hm Hd. rewrite real_recv_body by (lia || by rewrite Hk).
  unfold recv_body. rewrite Hh. unfold proxyfs_msg_get_size. rewrite Hm, Z.eqb_refl. cbn [negb].
  assert (MSG_MAX_SIZE = 4096) by done. assert (MSG_HDR_SIZE = 32) by done.
  rewrite swrap_id by (unfold srange; lia). rewrite Hs.
  replace (data_size h + MSG_HDR_SIZE =? MSG_HDR_SIZE) with false by lia.
  rewrite Hk. cbn [mbind option_bind]. rewrite swrap_id by (unfold srange; lia).
  unfold recv_at. rewrite zlen_zdrop, Hs, Hb.
  replace (_ || _) with true by lia. reflexivity.
Qed.

(** *** Witnesses *)

Definition ex_m1 : pmsg := (mk_hdr MSG_MAGIC MSG_WRITE 65541 3, [1; 2; 3]).
Definition ex_m2 : pmsg := (mk_hdr MSG_MAGIC MSG_CLOSE 65541 0, []).
(** The first message and 7 bytes of the second one have arrived. *)
Definition ex_in : seg_kernel := mk_seg [] (enc ex_m1 ++ ztake 7 (enc ex_m2)) [1; 30; 2; 2; 9].
Definition ex_peer : proxyfs_peer seg_kernel :=
  mk_peer (Some ex_in) (replicate 4096 0) 0 [] 1 PEER_CONNECTED.

Lemma ex_wf_pmsg : Forall wf_pmsg [ex_m1; ex_m2].
Proof. repeat constructor; vm_compute; congruence. Qed.

Lemma ex_rinv : rinv ex_peer ex_in [ex_m1; ex_m2].
Proof.
  unfold rinv. split; [reflexivity|]. split; [vm_compute; reflexivity|].
  split; [vm_compute; split; congruence|]. split; [|vm_compute; reflexivity].
  exists (zdrop 7 (enc ex_m2)). vm_compute. reflexivity.
Qed.

Lemma recv_peer_reassembles_witness :
  exists self' k' ms1 ms2,
    recv_peer (S (Z.to_nat (zlen (incoming ex_in)))) ex_peer [] = Some (self', ms1) /\
    [ex_m1; ex_m2] = ms1 ++ ms2 /\ rinv self' k' ms2 /\ zlen (incoming k') < zlen (incoming ex_in).
Proof.
  destruct (recv_peer_reassembles ex_peer ex_in [ex_m1; ex_m2] [] ex_wf_pmsg ex_rinv)
    as (self' & k' & ms1 & ms2 & E & Hms & Hr & Hp).
  exists self', k', ms1, ms2. split; [exact E|]. split; [exact Hms|]. split; [exact Hr|].
  apply Hp. intros n Hn. change (0 < Z.min (Z.min 1 (Z.max 0 n)) 42). lia.
Defined.

Definition ex_sender : proxyfs_peer seg_kernel :=
  mk_peer (Some (mk_seg [] [] [10])) [] 0
    [mk_pmsg ex_m1.1 ex_m1.2 0 true; mk_pmsg ex_m2.1 [] 0 false] 1 PEER_CONNECTED.

Lemma peer_real_send_spec_witness :
  exists self' k', proxyfs_peer_real_send ex_sender = Some self' /\ sock self' = Some k' /\
    msg_queue self' = [] /\ outgoing k' = enc ex_m1 ++ enc ex_m2.
Proof.
  destruct (peer_real_send_spec ex_sender (mk_seg [] [] [10]))
    as (self' & k' & E & Hk & _ & _ & _ & Hup);
    [reflexivity|discriminate| |].
  - repeat constructor; vm_compute; try congruence; left; reflexivity.
  - destruct Hup as (Hq & _ & Ho); [exact I|repeat constructor|].
    exists self', k'. split; [exact E|]. split; [exact Hk|]. split; [exact Hq|].
    rewrite Ho. reflexivity.
Defined.

(** A header that announces 5000 bytes. *)
Definition ex_big : proxyfs_peer seg_kernel :=
  mk_peer (Some (mk_seg [] [] []))
    (header_bytes (mk_hdr MSG_MAGIC MSG_WRITE 1 5000) ++ replicate 4064 0) 32 [] 1 PEER_CONNECTED.

Lemma oversized_message_overflows_witness : proxyfs_peer_real_recv ex_big = None.
Proof.
  apply (oversized_message_overflows ex_big (mk_seg [] [] []) (mk_hdr MSG_MAGIC MSG_WRITE 1 5000));
    [reflexivity|vm_compute; reflexivity|reflexivity|vm_compute; reflexivity|reflexivity|].
  vm_compute. split; reflexivity.
Defined.
