(* ===== verification/ProxyFile.v ===== *)
(** ProxyFS files (src/src/proxyfs/proxyfs_file.c, proxyfs_proxy_file.c,
    proxyfs_generic_proxy_file.c, proxyfs_pipe_proxy_file.c, proxyfs_real_file.c and the
    part of proxyfs_task.c that moves data between files and messages).

    A file has a write buffer, whose data is sent to the peer and kept until the peer
    confirms it, and a read buffer, which holds what the peer sent.  [None] as a result
    stands for the fuel of the buffer operations running out, which does not happen. *)

From S2P Require Import Prelude CircBuf KkcSock ProxyMsg.

Definition WRITE_BUF_SIZE : Z := Z.shiftl 2 12.
Definition READ_BUF_SIZE : Z := Z.shiftl 2 12.

Definition PROXYFS_FILE_OPENED : Z := 1.
Definition PROXYFS_FILE_DONT_EXISTS : Z := 2.
Definition PROXYFS_FILE_READ_EOF : Z := 4.
Definition PROXYFS_FILE_CAN_WRITE : Z := 8.
Definition PROXYFS_FILE_CAN_READ : Z := 16.
Definition PROXYFS_FILE_ALL_WRITTEN : Z := 32.
Definition PROXYFS_FILE_ALL_READ : Z := 64.
Definition PROXYFS_FILE_IN_SYSCALL : Z := 128.
Definition PROXYFS_FILE_CLOSED : Z := 256.
Definition PROXYFS_FILE_EPIPE : Z := 512.

Definition PROXYFS_FILE_RO_STATUS : Z :=
  Z.lor (Z.lor (Z.lor PROXYFS_FILE_CAN_WRITE PROXYFS_FILE_CAN_READ) PROXYFS_FILE_ALL_WRITTEN)
    PROXYFS_FILE_ALL_READ.
Definition PROXYFS_FILE_RW_STATUS : Z :=
  Z.lor (Z.lor (Z.lor (Z.lor (Z.lor PROXYFS_FILE_OPENED PROXYFS_FILE_DONT_EXISTS)
    PROXYFS_FILE_READ_EOF) PROXYFS_FILE_CLOSED) PROXYFS_FILE_EPIPE) PROXYFS_FILE_IN_SYSCALL.

(** The operation vectors [proxy_file_ops] and [real_file_ops]. *)
Inductive proxyfs_file_ops := proxy_file_ops | real_file_ops.

(** [file_ident16] and [file_owner_pid] are the fields of the file identifier; a peer is
    named by a number. *)
Record proxyfs_file_t := mk_file {
  file_ident16 : Z;
  file_owner_pid : Z;
  write_buf : circ_buf;
  read_buf : circ_buf;
  write_buf_unconfirmed : Z;
  read_was_requested : bool;
  state : Z;
  peer : option Z;
  ops : option proxyfs_file_ops
}.

Definition set_write_buf (c : circ_buf) (f : proxyfs_file_t) : proxyfs_file_t :=
  mk_file (file_ident16 f) (file_owner_pid f) c (read_buf f) (write_buf_unconfirmed f)
    (read_was_requested f) (state f) (peer f) (ops f).
Definition set_read_buf (c : circ_buf) (f : proxyfs_file_t) : proxyfs_file_t :=
  mk_file (file_ident16 f) (file_owner_pid f) (write_buf f) c (write_buf_unconfirmed f)
    (read_was_requested f) (state f) (peer f) (ops f).
Definition set_unconfirmed (n : Z) (f : proxyfs_file_t) : proxyfs_file_t :=
  mk_file (file_ident16 f) (file_owner_pid f) (write_buf f) (read_buf f) n
    (read_was_requested f) (state f) (peer f) (ops f).
Definition set_state (n : Z) (f : proxyfs_file_t) : proxyfs_file_t :=
  mk_file (file_ident16 f) (file_owner_pid f) (write_buf f) (read_buf f) (write_buf_unconfirmed f)
    (read_was_requested f) n (peer f) (ops f).

(** ** The base class *)

Definition proxyfs_file_get_status (self : proxyfs_file_t) (status : Z) : Z :=
  let bit (b : Z) (cond : bool) := if negb (Z.land status b =? 0) && cond then b else 0 in
  let rtn :=
    if negb (Z.land status PROXYFS_FILE_RO_STATUS =? 0) then
      Z.lor (Z.lor (Z.lor
        (bit PROXYFS_FILE_CAN_WRITE (negb (circ_buf_get_write_size (write_buf self) =? 0)))
        (bit PROXYFS_FILE_CAN_READ (negb (circ_buf_count (read_buf self) =? 0))))
        (bit PROXYFS_FILE_ALL_WRITTEN (circ_buf_get_read_size (write_buf self) =? 0)))
        (bit PROXYFS_FILE_ALL_READ (circ_buf_get_read_size (read_buf self) =? 0))
    else 0 in
  if negb (Z.land status PROXYFS_FILE_RW_STATUS =? 0)
  then Z.lor rtn (Z.land (state self) (Z.land status PROXYFS_FILE_RW_STATUS))
  else rtn.

(** The shift is on a [uint32_t]. *)
Definition proxyfs_file_get_file_ident (self : proxyfs_file_t) : Z :=
  u32[u32[Z.shiftl (file_owner_pid self) 16] + file_ident16 self].

Definition proxyfs_file_set_file_ident (self : proxyfs_file_t) (encoded_identifier : Z)
    : proxyfs_file_t :=
  let ident := u16[Z.land 65535 encoded_identifier] in
  mk_file ident u16[Z.shiftr u64[encoded_identifier - ident] 16] (write_buf self) (read_buf self)
    (write_buf_unconfirmed self) (read_was_requested self) (state self) (peer self) (ops self).

Definition proxyfs_file_set_status (self : proxyfs_file_t) (status : Z) : proxyfs_file_t :=
  set_state (Z.lor (state self) status) self.
Definition proxyfs_file_unset_status (self : proxyfs_file_t) (status : Z) : proxyfs_file_t :=
  set_state (Z.ldiff (state self) status) self.

Fixpoint proxyfs_file_find_in_list (ident : Z) (start : list proxyfs_file_t) : option proxyfs_file_t :=
  match start with
  | [] => None
  | file :: l =>
      if proxyfs_file_get_file_ident file =? ident then Some file
      else proxyfs_file_find_in_list ident l
  end.

(** [wmem] and [rmem]: the results of the two buffer allocations, address and contents. *)
Definition proxyfs_file_init (self : proxyfs_file_t) (wmem rmem : Z * list Z) : Z * proxyfs_file_t :=
  let '(r, w) := circ_buf_init (write_buf self) wmem.1 wmem.2 WRITE_BUF_SIZE in
  if negb (r =? 0) then (-1, set_write_buf w self) else
  let '(r, rd) := circ_buf_init (read_buf self) rmem.1 rmem.2 READ_BUF_SIZE in
  if negb (r =? 0) then (-1, set_read_buf rd (set_write_buf (circ_buf_destroy w).2 self))
  else (0, mk_file (file_ident16 self) (file_owner_pid self) w rd 0 false 0 None (ops self)).

(** The peer whose reference is given back comes second. *)
Definition proxyfs_file_destroy (self : proxyfs_file_t) : proxyfs_file_t * option Z :=
  (set_read_buf (circ_buf_destroy (read_buf self)).2
     (set_write_buf (circ_buf_destroy (write_buf self)).2 self), peer self).

(** The new file, the peer referenced and the peer released. *)
Definition proxyfs_file_set_peer (self : proxyfs_file_t) (p : option Z)
    : proxyfs_file_t * option Z * option Z :=
  (mk_file (file_ident16 self) (file_owner_pid self) (write_buf self) (read_buf self)
     (write_buf_unconfirmed self) (read_was_requested self) (state self) p (ops self),
   p, peer self).

Definition proxyfs_file_was_read_requested (self : proxyfs_file_t) : bool := read_was_requested self.
Definition proxyfs_file_mark_read_requested (self : proxyfs_file_t) : proxyfs_file_t :=
  mk_file (file_ident16 self) (file_owner_pid self) (write_buf self) (read_buf self)
    (write_buf_unconfirmed self) true (state self) (peer self) (ops self).

(** ** The two subclasses' view of the buffers *)

(** An empty message is the end of the file. *)
Definition proxyfs_proxy_file_write_from_peer (self : proxyfs_file_t) (d : list Z) (count : Z)
    : option (Z * proxyfs_file_t) :=
  if count =? 0 then Some (0, proxyfs_file_set_status self PROXYFS_FILE_READ_EOF)
  else '(lenght, c) ← circ_buf_write 3 (read_buf self) d u32[count];
       Some (lenght, set_read_buf c self).

Definition proxyfs_proxy_file_read_to_peer (self : proxyfs_file_t) (count : Z)
    : option (Z * list Z * proxyfs_file_t) :=
  '(lenght, d, c) ← circ_buf_look_at 3 (write_buf self) u32[count] (write_buf_unconfirmed self);
  let self := set_write_buf c self in
  Some (lenght, d, if 0 <? lenght then set_unconfirmed u64[write_buf_unconfirmed self + lenght] self
                   else self).

Definition proxyfs_proxy_file_submit_read_to_peer (self : proxyfs_file_t) (count : Z) : proxyfs_file_t :=
  set_unconfirmed u64[write_buf_unconfirmed self - count]
    (set_write_buf (circ_buf_adjust_read_ptr (write_buf self) u32[count]) self).

(** Total size, size of the first chunk and its address. *)
Definition proxyfs_proxy_file_write_buf_info (self : proxyfs_file_t) : Z * Z * Z :=
  (circ_buf_count (write_buf self), circ_buf_get_read_size (write_buf self),
   circ_buf_get_read_addr (write_buf self)).

Definition proxyfs_real_file_write_from_peer (self : proxyfs_file_t) (d : list Z) (count : Z)
    : option (Z * proxyfs_file_t) :=
  '(lenght, c) ← circ_buf_write 3 (read_buf self) d u32[count];
  Some (lenght, set_read_buf c self).

Definition proxyfs_real_file_read_to_peer (self : proxyfs_file_t) (count : Z)
    : option (Z * list Z * proxyfs_file_t) :=
  '(lenght, d, c) ← circ_buf_look_at 3 (write_buf self) u32[count] (write_buf_unconfirmed self);
  let self := set_write_buf c self in
  Some (lenght, d, if 0 <? lenght then set_unconfirmed u64[write_buf_unconfirmed self + lenght] self
                   else self).

Definition proxyfs_real_file_submit_read_to_peer (self : proxyfs_file_t) (count : Z) : proxyfs_file_t :=
  set_unconfirmed u64[write_buf_unconfirmed self - count]
    (set_write_buf (circ_buf_adjust_read_ptr (write_buf self) u32[count]) self).

Definition proxyfs_real_file_write_buf_info (self : proxyfs_file_t) : Z * Z * Z :=
  (circ_buf_count (write_buf self), circ_buf_get_read_size (write_buf self),
   circ_buf_get_read_addr (write_buf self)).

(** ** Virtual calls *)

Definition proxyfs_file_write_from_peer (self : proxyfs_file_t) (d : list Z) (count : Z) :=
  match ops self with
  | Some proxy_file_ops => proxyfs_proxy_file_write_from_peer self d count
  | Some real_file_ops => proxyfs_real_file_write_from_peer self d count
  | None => Some (0, self)
  end.

Definition proxyfs_file_read_to_peer (self : proxyfs_file_t) (count : Z) :=
  match ops self with
  | Some proxy_file_ops => proxyfs_proxy_file_read_to_peer self count
  | Some real_file_ops => proxyfs_real_file_read_to_peer self count
  | None => Some (0, [], self)
  end.

Definition proxyfs_file_submit_read_to_peer (self : proxyfs_file_t) (count : Z) :=
  match ops self with
  | Some proxy_file_ops => proxyfs_proxy_file_submit_read_to_peer self count
  | Some real_file_ops => proxyfs_real_file_submit_read_to_peer self count
  | None => self
  end.

(** The caller's variables keep what they held ([info]) when there is no method. *)
Definition proxyfs_file_write_buf_info (self : proxyfs_file_t) (info : Z * Z * Z) : Z * Z * Z :=
  match ops self with
  | Some proxy_file_ops => proxyfs_proxy_file_write_buf_info self
  | Some real_file_ops => proxyfs_real_file_write_buf_info self
  | None => info
  end.

(** ** User access on the client *)

Definition MSG_READ_REQUEST_RESP : Z := 701.
Definition PIPE_BUF : Z := 4096.

(** [user] is the readable part of the user's memory at [buf]. *)
Definition proxyfs_generic_proxy_file_write_user (access_ok : bool) (self : proxyfs_file_t)
    (user : list Z) (count : Z) : option (Z * proxyfs_file_t) :=
  if negb access_ok then Some (- EFAULT, self) else
  '(lenght, c) ← circ_buf_write_user 3 (write_buf self) user u32[count];
  Some (lenght, set_write_buf c self).

(** [lim]: how much of the user's memory at [buf] can be written.  The second component
    is what was stored there. *)
Definition proxyfs_generic_proxy_file_read_user (access_ok : bool) (self : proxyfs_file_t)
    (lim count : Z) : option (Z * list Z * proxyfs_file_t) :=
  if negb access_ok then Some (- EFAULT, [], self) else
  '(lenght, d, c) ← circ_buf_read_user 3 (read_buf self) lim u32[count];
  Some (lenght, d, set_read_buf c self).

(** A block is preceded by its size; a block of at most [PIPE_BUF] bytes is written
    whole or not at all, and the result then is the space needed, negated. *)
Definition proxyfs_pipe_proxy_file_write_user (access_ok : bool) (self : proxyfs_file_t)
    (user : list Z) (count : Z) : option (Z * proxyfs_file_t) :=
  if negb access_ok then Some (- EFAULT, self) else
  let write_size := circ_buf_free_space (write_buf self) in
  if write_size <? 2 * 4 then Some (- (2 * 4), self)
  else if (count <=? PIPE_BUF) && (write_size <? 4 + count) then Some (s32[- (4 + count)], self)
  else
    let write_size := u32[write_size - 4] in
    let write_size := if write_size <? count then write_size else u32[count] in
    '(_, c) ← circ_buf_write_user 3 (write_buf self) (le_bytes 4 write_size) 4;
    '(lenght, c) ← circ_buf_write_user 3 c user write_size;
    Some (lenght, set_write_buf c self).

(** The first read of a pipe asks the server to read at all.  [msg]: what the request
    returned, [None] when the message could not be allocated. *)
Definition proxyfs_pipe_proxy_file_read_user (access_ok : bool) (msg : option Z)
    (self : proxyfs_file_t) (lim count : Z) : option (Z * list Z * proxyfs_file_t) :=
  if negb access_ok then Some (- EFAULT, [], self) else
  let read_now (self : proxyfs_file_t) :=
    '(lenght, d, c) ← circ_buf_read_user 3 (read_buf self) lim u32[count];
    Some (lenght, d, set_read_buf c self) in
  if negb (proxyfs_file_was_read_requested self) then
    match msg with
    | Some msg_resp =>
        if negb (msg_resp =? MSG_READ_REQUEST_RESP) then Some (- EINTR, [], self)
        else read_now (proxyfs_file_mark_read_requested self)
    | None => read_now self
    end
  else read_now self.

(** The virtual method of a proxy file: [generic_proxy_file_ops] or [pipe_proxy_file_ops],
    with the outcome of the pipe's request. *)
Inductive proxyfs_proxy_file_ops := generic_proxy_file_ops | pipe_proxy_file_ops (msg : option Z).

Definition virtual_proxyfs_proxy_file_read_user (k : proxyfs_proxy_file_ops) (access_ok : bool)
    (self : proxyfs_file_t) (lim count : Z) : option (Z * list Z * proxyfs_file_t) :=
  match k with
  | generic_proxy_file_ops => proxyfs_generic_proxy_file_read_user access_ok self lim count
  | pipe_proxy_file_ops msg => proxyfs_pipe_proxy_file_read_user access_ok msg self lim count
  end.

Definition proxyfs_proxy_file_write_user (k : proxyfs_proxy_file_ops) (access_ok : bool)
    (self : proxyfs_file_t) (user : list Z) (count : Z) : option (Z * proxyfs_file_t) :=
  match k with
  | generic_proxy_file_ops => proxyfs_generic_proxy_file_write_user access_ok self user count
  | pipe_proxy_file_ops _ => proxyfs_pipe_proxy_file_write_user access_ok self user count
  end.

(** The result, read as a [u_int32_t], is sent to the server as a confirmation: the
    message for [proxyfs_client_send_message].  [None] is also the failed allocation of
    that message, which is queued without a test. *)
Definition proxyfs_proxy_file_read_user (k : proxyfs_proxy_file_ops) (access_ok kmalloc_ok : bool)
    (self : proxyfs_file_t) (lim count : Z) : option (Z * list Z * proxyfs_file_t * proxyfs_msg) :=
  '(r, d, self) ← virtual_proxyfs_proxy_file_read_user k access_ok self lim count;
  let read_count := u32[r] in
  msg ← proxyfs_msg_compose_new kmalloc_ok kmalloc_ok MSG_WRITE_RESP (proxyfs_file_get_file_ident self)
          [(4, le_bytes 4 read_count); (0, [])];
  Some (s32[read_count], d, self, msg).

(** ** The task: files and messages *)

(** Same as [proxyfs_file_find_in_list], over the list of the task. *)
Definition proxyfs_task_find_file (files : list proxyfs_file_t) (ident : Z) : option proxyfs_file_t :=
  proxyfs_file_find_in_list ident files.

(** Writing back the file that [proxyfs_task_find_file] returned a pointer to. *)
Fixpoint store_file (ident : Z) (f : proxyfs_file_t) (files : list proxyfs_file_t) : list proxyfs_file_t :=
  match files with
  | [] => []
  | g :: l => if proxyfs_file_get_file_ident g =? ident then f :: l else g :: store_file ident f l
  end.

(** [d] is the memory behind the header; the flag tells whether the task's own handler
    is called. *)
Definition proxyfs_task_handle_msg (files : list proxyfs_file_t) (h : proxyfs_msg_header) (d : list Z)
    : option (list proxyfs_file_t * bool) :=
  if msg_num h =? MSG_WRITE_RESP then
    match proxyfs_task_find_file files (file_ident h) with
    | Some file =>
        let data0 := le_value (ztake 4 d) in
        if data0 <=? 0 then Some (files, false)
        else Some (store_file (file_ident h) (proxyfs_file_submit_read_to_peer file data0) files, false)
    | None => Some (files, false)
    end
  else if msg_num h =? MSG_WRITE then
    match proxyfs_task_find_file files (file_ident h) with
    | Some file =>
        if 0 <=? data_size h then
          '(_, file) ← proxyfs_file_write_from_peer file d (data_size h);
          Some (store_file (file_ident h) file files, false)
        else Some (files, false)
    | None => Some (files, false)
    end
  else Some (files, true).

(** [kmalloc_buf], [kmalloc_msg]: whether the two allocations succeed.  The message is
    for the queue of the file's peer.  [info]: what the local variables held. *)
Definition proxyfs_task_send_write_buf (kmalloc_buf kmalloc_msg : bool) (info : Z * Z * Z)
    (file : proxyfs_file_t) : option (Z * proxyfs_file_t * option proxyfs_msg) :=
  match peer file with
  | None => Some (0, file, None)
  | Some _ =>
      let '(total_size, _, _) := proxyfs_file_write_buf_info file info in
      let send := u64[total_size - write_buf_unconfirmed file] in
      if send =? 0 then Some (0, file, None) else
      let res := if MSG_MAX_SIZE - MSG_HDR_SIZE <? send then - EAGAIN else 0 in
      let send := if MSG_MAX_SIZE - MSG_HDR_SIZE <? send then MSG_MAX_SIZE - MSG_HDR_SIZE else send in
      if negb kmalloc_buf then Some (- ENOMEM, file, None) else
      '(send, read_buffer, file) ← proxyfs_file_read_to_peer file send;
      if send =? 0 then Some (- ENOMEM, file, None) else
      match proxyfs_msg_new_takeover_ownership kmalloc_msg MSG_WRITE (proxyfs_file_get_file_ident file)
              send read_buffer with
      | None => Some (- ENOMEM, file, None)
      | Some msg => Some (res, file, Some msg)
      end
  end.

(** The loop of [proxyfs_task_send_buffers] on one file, with the outcomes of the
    allocations of each round; [None]: out of fuel. *)
Fixpoint send_buffer (fuel : nat) (mem_ok : nat -> bool * bool) (info : Z * Z * Z)
    (file : proxyfs_file_t) (sent : list proxyfs_msg) : option (proxyfs_file_t * list proxyfs_msg) :=
  match fuel with
  | O => None
  | S fuel =>
      '(res, file, msg) ← proxyfs_task_send_write_buf (mem_ok fuel).1 (mem_ok fuel).2 info file;
      let sent := match msg with Some m => sent ++ [m] | None => sent end in
      if res =? - EAGAIN then send_buffer fuel mem_ok info file sent else Some (file, sent)
  end.

(** All the files of the task; the messages of each go to its peer. *)
Fixpoint proxyfs_task_send_buffers (fuel : nat) (mem_ok : nat -> bool * bool) (info : Z * Z * Z)
    (files : list proxyfs_file_t) : option (list proxyfs_file_t * list (option Z * proxyfs_msg)) :=
  match files with
  | [] => Some ([], [])
  | proxy_file :: l =>
      '(f, sent) ← send_buffer fuel mem_ok info proxy_file [];
      '(l, sent') ← proxyfs_task_send_buffers fuel mem_ok info l;
      Some (f :: l, ((fun m => (peer proxy_file, m)) <$> sent) ++ sent')
  end.

(** ** Invariant *)

(** The data of the write buffer that has not been sent yet. *)
Definition unsent (f : proxyfs_file_t) : list Z := zdrop (write_buf_unconfirmed f) (contents (write_buf f)).

Record file_wf (f : proxyfs_file_t) : Prop := {
  fw_write : circ_wf (write_buf f);
  fw_wsize : size (write_buf f) = WRITE_BUF_SIZE;
  fw_read : circ_wf (read_buf f);
  fw_rsize : size (read_buf f) = READ_BUF_SIZE;
  fw_unconfirmed : 0 <= write_buf_unconfirmed f <= amount (write_buf f);
  fw_ops : is_Some (ops f)
}.

(** What none of the data operations changes. *)
Record keeps (f g : proxyfs_file_t) : Prop := {
  kp_ident : file_ident16 g = file_ident16 f;
  kp_pid : file_owner_pid g = file_owner_pid f;
  kp_peer : peer g = peer f;
  kp_ops : ops g = ops f
}.

Lemma keeps_refl f : keeps f f.
Proof. by split. Qed.

Lemma keeps_ident f g : keeps f g -> proxyfs_file_get_file_ident g = proxyfs_file_get_file_ident f.
Proof. intros []. unfold proxyfs_file_get_file_ident. congruence. Qed.

#[export] Hint Resolve keeps_refl : core.

Ltac kp := first [done | by split].

Lemma WRITE_BUF_SIZE_eq : WRITE_BUF_SIZE = 8192.
Proof. done. Qed.
Lemma READ_BUF_SIZE_eq : READ_BUF_SIZE = 8192.
Proof. done. Qed.

Lemma wbuf_amount f : file_wf f -> 0 <= amount (write_buf f) <= 8192.
Proof.
  intros [Hw Hs _ _ _ _]. pose proof (amount_range _ Hw). rewrite WRITE_BUF_SIZE_eq in Hs. lia.
Qed.
Lemma rbuf_amount f : file_wf f -> 0 <= amount (read_buf f) <= 8192.
Proof.
  intros [_ _ Hr Hs _ _]. pose proof (amount_range _ Hr). rewrite READ_BUF_SIZE_eq in Hs. lia.
Qed.

Lemma zlen_unsent f : file_wf f -> zlen (unsent f) = amount (write_buf f) - write_buf_unconfirmed f.
Proof.
  intros Hf. unfold unsent. rewrite zlen_zdrop, zlen_contents by apply Hf.
  pose proof (fw_unconfirmed _ Hf). lia.
Qed.

(** *** Data from the peer *)

Definition receive_spec (f : proxyfs_file_t) (d : list Z) (count : Z) (f' : proxyfs_file_t) : Prop :=
  file_wf f' /\ keeps f f' /\ write_buf f' = write_buf f /\
  write_buf_unconfirmed f' = write_buf_unconfirmed f /\
  contents (read_buf f') = contents (read_buf f) ++ ztake count d.

Lemma set_read_buf_wf f c :
  file_wf f -> circ_wf c -> size c = size (read_buf f) -> file_wf (set_read_buf c f).
Proof. intros [] ? E. split; try done. simpl. congruence. Qed.

Lemma buffer_receive f d count :
  file_wf f -> 0 <= count <= zlen d -> count <= READ_BUF_SIZE - amount (read_buf f) ->
  exists c, circ_buf_write 3 (read_buf f) d u32[count] = Some (count, c) /\
    receive_spec f d count (set_read_buf c f).
Proof.
  intros Hf Hd Hc. pose proof (rbuf_amount f Hf) as Ha. rewrite READ_BUF_SIZE_eq in Hc.
  rewrite u32_id by lia.
  destruct (write_refines 3 (read_buf f) d count) as (c & E & Hw & _ & Hs & Hcon);
    [apply Hf|apply wdepth_le_3|lia|lia|].
  pose proof (fw_rsize _ Hf) as Hsz. rewrite READ_BUF_SIZE_eq in Hsz. rewrite Hsz in *.
  exists c. rewrite E, Z.min_l by lia. split; [done|].
  split_and!; [by apply set_read_buf_wf; [|done|rewrite Hs, Hsz]|by split|done|done|].
  simpl. rewrite Hcon, (ztake_all (8192 - _)) by (rewrite zlen_ztake; lia). done.
Qed.

Lemma write_from_peer_spec f d count :
  file_wf f -> 0 <= count <= zlen d -> count <= READ_BUF_SIZE - amount (read_buf f) ->
  exists f', proxyfs_file_write_from_peer f d count = Some (count, f') /\ receive_spec f d count f'.
Proof.
  intros Hf Hd Hc. destruct (buffer_receive f d count Hf Hd Hc) as (c & E & Hr).
  destruct (fw_ops _ Hf) as [o Ho]. unfold proxyfs_file_write_from_peer. rewrite Ho. destruct o.
  - unfold proxyfs_proxy_file_write_from_peer. destruct (count =? 0) eqn:E0; bool_hyps.
    + rewrite E0. eexists. split; [done|]. rewrite E0 in *.
      destruct Hf. split_and!; [by split|by split|done|done|]. simpl. by rewrite ztake_0, app_nil_r by lia.
    + rewrite E. simpl. eauto.
  - unfold proxyfs_real_file_write_from_peer. rewrite E. simpl. eauto.
Qed.

(** *** Confirmations *)

Lemma submit_spec f n :
  file_wf f -> 0 <= n <= write_buf_unconfirmed f ->
  let f' := proxyfs_file_submit_read_to_peer f n in
  file_wf f' /\ keeps f f' /\ read_buf f' = read_buf f /\
  write_buf_unconfirmed f' = write_buf_unconfirmed f - n /\ unsent f' = unsent f.
Proof.
  intros Hf Hn. pose proof (wbuf_amount f Hf) as Ha. pose proof (fw_unconfirmed _ Hf) as Hu.
  assert (E : proxyfs_file_submit_read_to_peer f n =
    set_unconfirmed (write_buf_unconfirmed f - n) (set_write_buf (circ_buf_adjust_read_ptr (write_buf f) n) f)).
  { unfold proxyfs_file_submit_read_to_peer. destruct (fw_ops _ Hf) as [o ->].
    destruct o; unfold proxyfs_proxy_file_submit_read_to_peer, proxyfs_real_file_submit_read_to_peer;
      rewrite u32_id, (uwrap_id 64) by (unfold urange; lia); done. }
  rewrite E. pose proof (read_chunk_wf (write_buf f) n ltac:(apply Hf) ltac:(lia)) as Hw.
  pose proof (read_chunk_amount (write_buf f) n ltac:(apply Hf) ltac:(lia)) as Hm.
  pose proof (read_chunk_contents (write_buf f) n ltac:(apply Hf) ltac:(lia)) as Hc.
  split_and!; [|by split|done|done|].
  - destruct Hf. split; try done; simpl; [|lia].
    unfold circ_buf_adjust_read_ptr. by case_goal.
  - unfold unsent. simpl. rewrite Hc, zdrop_zdrop by lia. f_equal. lia.
Qed.

(** *** Sending *)

Lemma read_to_peer_spec f n :
  file_wf f -> 0 < n <= zlen (unsent f) ->
  exists f', proxyfs_file_read_to_peer f n = Some (n, ztake n (unsent f), f') /\
    file_wf f' /\ keeps f f' /\ read_buf f' = read_buf f /\ write_buf f' = write_buf f /\
    write_buf_unconfirmed f' = write_buf_unconfirmed f + n.
Proof.
  intros Hf Hn. pose proof (wbuf_amount f Hf) as Ha. pose proof (fw_unconfirmed _ Hf) as Hu.
  rewrite zlen_unsent in Hn by done.
  assert (E : circ_buf_look_at 3 (write_buf f) u32[n] (write_buf_unconfirmed f) =
    Some (n, ztake n (unsent f), write_buf f)).
  { rewrite u32_id by lia. rewrite look_at_refines by (apply Hf || lia). unfold unsent.
    by rewrite Z.min_l by lia. }
  exists (set_unconfirmed (write_buf_unconfirmed f + n) f). split_and!; [|destruct Hf; split; try done; simpl; lia|by split|done..].
  unfold proxyfs_file_read_to_peer. destruct (fw_ops _ Hf) as [o ->].
  destruct o; unfold proxyfs_proxy_file_read_to_peer, proxyfs_real_file_read_to_peer; rewrite E; simpl;
    replace (0 <? n) with true by lia; rewrite (uwrap_id 64) by (unfold urange; lia); by destruct f.
Qed.

(** The amount of data in the next message. *)
Definition next_size (f : proxyfs_file_t) : Z := Z.min (MSG_MAX_SIZE - MSG_HDR_SIZE) (zlen (unsent f)).

Lemma unsent_advance f f' n :
  file_wf f -> 0 <= n -> write_buf f' = write_buf f ->
  write_buf_unconfirmed f' = write_buf_unconfirmed f + n -> unsent f' = zdrop n (unsent f).
Proof.
  intros Hf Hn E1 E2. pose proof (fw_unconfirmed _ Hf). unfold unsent. rewrite E1, E2, zdrop_zdrop by lia.
  done.
Qed.

Lemma send_write_buf_idle kb km info f :
  file_wf f -> unsent f = [] -> proxyfs_task_send_write_buf kb km info f = Some (0, f, None).
Proof.
  intros Hf Hu. unfold proxyfs_task_send_write_buf. destruct (peer f); [|done].
  pose proof (zlen_unsent f Hf) as Hz. rewrite Hu, zlen_nil in Hz.
  unfold proxyfs_file_write_buf_info. destruct (fw_ops _ Hf) as [o ->].
  destruct o; simpl; rewrite count_spec by apply Hf; rewrite <- Hz; done.
Qed.

(** One message is cut off the data that is not sent yet. *)
Lemma send_write_buf_step kb km info f :
  file_wf f -> is_Some (peer f) -> unsent f <> [] ->
  exists f', write_buf_unconfirmed f' = write_buf_unconfirmed f + next_size f /\
    write_buf f' = write_buf f /\ file_wf f' /\ keeps f f' /\ read_buf f' = read_buf f /\ unsent f' = zdrop (next_size f) (unsent f) /\
    proxyfs_task_send_write_buf kb km info f =
      if negb kb then Some (- ENOMEM, f, None)
      else if negb km then Some (- ENOMEM, f', None)
      else Some (if MSG_MAX_SIZE - MSG_HDR_SIZE <? zlen (unsent f) then - EAGAIN else 0, f',
                 Some (mk_pmsg (mk_hdr MSG_MAGIC MSG_WRITE (proxyfs_file_get_file_ident f) (next_size f))
                         (ztake (next_size f) (unsent f)) 0 true)).
Proof.
  intros Hf [p Hp] Hu. pose proof (wbuf_amount f Hf) as Ha. pose proof (fw_unconfirmed _ Hf) as Hc.
  pose proof (zlen_unsent f Hf) as Hz.
  assert (Hpos : 0 < zlen (unsent f)).
  { destruct (unsent f); [done|]. rewrite zlen_cons. pose proof (zlen_nonneg l). lia. }
  assert (Hmax : MSG_MAX_SIZE - MSG_HDR_SIZE = 4064) by done.
  destruct (read_to_peer_spec f (next_size f) Hf) as (f' & E & Hf' & Hk & Hr & Hw & Hun);
    [unfold next_size; lia|].
  exists f'. split_and!; try done; [apply unsent_advance; auto; unfold next_size; lia|].
  unfold proxyfs_task_send_write_buf. rewrite Hp.
  assert (Ei : (proxyfs_file_write_buf_info f info).1.1 = amount (write_buf f)).
  { unfold proxyfs_file_write_buf_info. destruct (fw_ops _ Hf) as [o ->].
    destruct o; simpl; by rewrite count_spec by apply Hf. }
  destruct (proxyfs_file_write_buf_info f info) as [[t ?] ?]. simpl in Ei. rewrite Ei, <- Hz.
  rewrite uwrap_id by (unfold urange; lia). replace (zlen (unsent f) =? 0) with false by lia.
  replace (if MSG_MAX_SIZE - MSG_HDR_SIZE <? zlen (unsent f) then MSG_MAX_SIZE - MSG_HDR_SIZE
    else zlen (unsent f)) with (next_size f) by (unfold next_size; case_goal; blia).
  destruct kb; [|done]. cbn [negb]. rewrite E. cbn [mbind option_bind].
  replace (next_size f =? 0) with false by (unfold next_size; lia).
  unfold proxyfs_msg_new_takeover_ownership, proxyfs_msg_new_internal.
  replace (MSG_MAX_SIZE - MSG_HDR_SIZE <? next_size f) with false by (unfold next_size; lia).
  rewrite (keeps_ident _ _ Hk). by destruct km.
Qed.

(** *** User access *)

Lemma set_write_buf_wf f c b :
  file_wf f -> circ_wf c -> size c = size (write_buf f) ->
  contents c = contents (write_buf f) ++ b -> file_wf (set_write_buf c f).
Proof.
  intros Hf Hc Hs Hb. pose proof (zlen_contents _ Hc) as Hz. rewrite Hb, zlen_app, zlen_contents in Hz by apply Hf.
  pose proof (zlen_nonneg b). destruct Hf. split; try done; simpl; [congruence|lia].
Qed.

(** [b] was appended to the write buffer, nothing else changed. *)
Definition produced (f : proxyfs_file_t) (b : list Z) (f' : proxyfs_file_t) : Prop :=
  file_wf f' /\ keeps f f' /\ read_buf f' = read_buf f /\
  write_buf_unconfirmed f' = write_buf_unconfirmed f /\
  contents (write_buf f') = contents (write_buf f) ++ b.

(** [b] was taken from the read buffer. *)
Definition consumed_from (f : proxyfs_file_t) (b : list Z) (f' : proxyfs_file_t) : Prop :=
  file_wf f' /\ keeps f f' /\ write_buf f' = write_buf f /\
  write_buf_unconfirmed f' = write_buf_unconfirmed f /\
  contents (read_buf f) = b ++ contents (read_buf f').

Lemma buffer_produce f user count :
  file_wf f -> 0 <= count < 2 ^ 31 -> count <= zlen user ->
  exists c, circ_buf_write_user 3 (write_buf f) user count =
      Some (Z.min count (WRITE_BUF_SIZE - amount (write_buf f)), c) /\
    produced f (ztake (Z.min count (WRITE_BUF_SIZE - amount (write_buf f))) user) (set_write_buf c f).
Proof.
  intros Hf Hc Hu. rewrite write_user_agrees by (apply Hf || lia).
  destruct (write_refines 3 (write_buf f) user count) as (c & E & Hw & _ & Hs & Hcon);
    [apply Hf|apply wdepth_le_3|lia|lia|].
  pose proof (fw_wsize _ Hf) as Hsz. pose proof (wbuf_amount f Hf). rewrite WRITE_BUF_SIZE_eq in *.
  rewrite Hsz in *. exists c. split; [done|].
  replace (ztake (8192 - amount (write_buf f)) (ztake count user))
    with (ztake (Z.min count (8192 - amount (write_buf f))) user) in Hcon.
  2: { unfold ztake. rewrite take_take. f_equal. lia. }
  split_and!; [|by split|done|done|done]. eapply set_write_buf_wf; eauto. by rewrite Hs, Hsz.
Qed.

(** What a user's write adds to the write buffer: the data itself, or a framed block. *)
Definition written_bytes (k : proxyfs_proxy_file_ops) (r : Z) (user : list Z) : list Z :=
  match k with
  | generic_proxy_file_ops => ztake r user
  | pipe_proxy_file_ops _ => if r <? 0 then [] else le_bytes 4 r ++ ztake r user
  end.

Lemma generic_write_user_spec f user count :
  file_wf f -> 0 <= count < 2 ^ 31 -> count <= zlen user ->
  exists r f', proxyfs_generic_proxy_file_write_user true f user count = Some (r, f') /\
    r = Z.min count (WRITE_BUF_SIZE - amount (write_buf f)) /\ produced f (ztake r user) f'.
Proof.
  intros Hf Hc Hu. destruct (buffer_produce f user count Hf Hc Hu) as (c & E & Hp).
  unfold proxyfs_generic_proxy_file_write_user. cbn [negb]. rewrite u32_id, E by lia. simpl. eauto.
Qed.

Lemma pipe_write_user_spec f user count :
  file_wf f -> 0 <= count < 2 ^ 31 -> count <= zlen user ->
  exists r f', proxyfs_pipe_proxy_file_write_user true f user count = Some (r, f') /\
    produced f (if r <? 0 then [] else le_bytes 4 r ++ ztake r user) f' /\
    (0 <= r -> r = Z.min count (WRITE_BUF_SIZE - amount (write_buf f) - 4) /\
               (count <= PIPE_BUF -> r = count)).
Proof.
  intros Hf Hc Hu. pose proof (wbuf_amount f Hf) as Ha. pose proof (fw_wsize _ Hf) as Hs.
  unfold proxyfs_pipe_proxy_file_write_user. cbn [negb]. rewrite free_space_spec by apply Hf.
  assert (Hp0 : produced f [] f) by (split_and!; try done; by rewrite app_nil_r).
  rewrite Hs. assert (PIPE_BUF = 4096) by done. rewrite WRITE_BUF_SIZE_eq in *.
  destruct (8192 - amount (write_buf f) <? 2 * 4) eqn:E1; bool_hyps.
  { eexists _, f. split; [done|]. split; [done|lia]. }
  destruct ((count <=? PIPE_BUF) && _) eqn:E2; bool_hyps.
  { eexists _, f. split; [done|]. rewrite swrap_id by (unfold srange; lia).
    replace (- (4 + count) <? 0) with true by lia. split; [done|lia]. }
  rewrite !u32_id by lia.
  set (n := if _ <? count then _ else _).
  assert (Hn : n = Z.min count (8192 - amount (write_buf f) - 4)) by (subst n; case_goal; blia).
  assert (Hsm : count <= PIPE_BUF -> n = count) by (apply andb_false_iff in E2; rewrite Z.leb_gt, Z.ltb_ge in E2; lia).
  clearbody n. assert (Hl : zlen (le_bytes 4 n) = 4) by (unfold zlen; by rewrite le_bytes_length).
  destruct (buffer_produce f (le_bytes 4 n) 4 Hf) as (c1 & -> & Hp1); [lia|lia|].
  rewrite WRITE_BUF_SIZE_eq, Z.min_l, ztake_all in Hp1 by lia. cbn [mbind option_bind].
  pose proof Hp1 as (Hf1 & Hk1 & Hr1 & Hu1 & Hc1).
  assert (Ha1 : amount (write_buf (set_write_buf c1 f)) = amount (write_buf f) + 4).
  { rewrite <- !zlen_contents by (apply Hf || apply Hf1). rewrite Hc1, zlen_app. lia. }
  destruct (buffer_produce (set_write_buf c1 f) user n Hf1) as (c2 & E & Hp2); [lia|lia|].
  cbn [write_buf set_write_buf] in E, Ha1. rewrite E. cbn [mbind option_bind]. rewrite WRITE_BUF_SIZE_eq in *.
  rewrite Ha1, Z.min_l in * by lia. eexists n, _. split; [done|].
  replace (n <? 0) with false by lia. destruct Hp2 as (Hf2 & Hk2 & Hr2 & Hu2 & Hc2).
  cbn [write_buf set_write_buf] in Hc2, Ha1. rewrite Ha1, Z.min_l in Hc2 by lia.
  split; [|split; [lia|done]]. split_and!; [done|by split|done|done|].
  simpl in *. by rewrite Hc2, Hc1, <- app_assoc.
Qed.

Lemma proxy_write_user_spec k f user count :
  file_wf f -> 0 <= count < 2 ^ 31 -> count <= zlen user ->
  exists r f', proxyfs_proxy_file_write_user k true f user count = Some (r, f') /\
    produced f (written_bytes k r user) f' /\ r <= count.
Proof.
  intros Hf Hc Hu. destruct k; simpl.
  - destruct (generic_write_user_spec f user count Hf Hc Hu) as (r & f' & ? & -> & ?). eauto with lia.
  - destruct (pipe_write_user_spec f user count Hf Hc Hu) as (r & f' & ? & ? & Hr). exists r, f'.
    split_and!; try done. destruct (Z_lt_dec r 0); [lia|]. destruct Hr; lia.
Qed.

Lemma buffer_consume f lim count :
  file_wf f -> 0 <= count < 2 ^ 31 -> count <= lim ->
  exists c, circ_buf_read_user 3 (read_buf f) lim u32[count] =
      Some (Z.min count (amount (read_buf f)), ztake count (contents (read_buf f)), c) /\
    consumed_from f (ztake count (contents (read_buf f))) (set_read_buf c f).
Proof.
  intros Hf Hc Hl. rewrite u32_id, read_user_agrees by (apply Hf || lia).
  destruct (read_refines 3 (read_buf f) count) as (c & E & Hw & _ & Hs & _ & _ & Hcon);
    [apply Hf|apply rdepth_le_3|lia|].
  exists c. split; [done|]. split_and!; [by apply set_read_buf_wf|by split|done|done|].
  simpl. by rewrite Hcon, ztake_zdrop.
Qed.

(** The pipe's first read is answered, or was answered before. *)
Definition read_allowed (k : proxyfs_proxy_file_ops) (f : proxyfs_file_t) : Prop :=
  match k with
  | generic_proxy_file_ops => True
  | pipe_proxy_file_ops msg => read_was_requested f = true \/ msg = Some MSG_READ_REQUEST_RESP \/ msg = None
  end.

Lemma mark_consumed f b f' :
  consumed_from (proxyfs_file_mark_read_requested f) b f' -> consumed_from f b f'.
Proof. intros (Hf & [] & ? & ? & ?). split_and!; try done. Qed.

Lemma mark_wf f : file_wf f -> file_wf (proxyfs_file_mark_read_requested f).
Proof. intros []. by split. Qed.

Lemma virtual_read_user_spec k f lim count :
  file_wf f -> read_allowed k f -> 0 <= count < 2 ^ 31 -> count <= lim ->
  exists d f', virtual_proxyfs_proxy_file_read_user k true f lim count = Some (zlen d, d, f') /\
    d = ztake count (contents (read_buf f)) /\ consumed_from f d f'.
Proof.
  intros Hf Hk Hc Hl. eexists.
  assert (Hz : zlen (ztake count (contents (read_buf f))) = Z.min count (amount (read_buf f))).
  { rewrite zlen_ztake, zlen_contents by apply Hf. lia. }
  destruct (buffer_consume f lim count Hf Hc Hl) as (c & E & Hcon).
  destruct (buffer_consume (proxyfs_file_mark_read_requested f) lim count) as (c' & E' & Hcon');
    [by apply mark_wf|done|done|]. cbn [read_buf proxyfs_file_mark_read_requested] in E', Hcon'.
  destruct k as [|msg]; simpl.
  - unfold proxyfs_generic_proxy_file_read_user. cbn [negb]. rewrite E. simpl. rewrite <- Hz. eauto.
  - unfold proxyfs_pipe_proxy_file_read_user, proxyfs_file_was_read_requested. cbn [negb].
    rewrite E. cbn [read_buf proxyfs_file_mark_read_requested]. rewrite E'. cbn [mbind option_bind]. rewrite <- Hz.
    apply mark_consumed in Hcon'.
    destruct (read_was_requested f) eqn:Er; [cbn; eauto|].
    destruct Hk as [Hk|[->| ->]]; [congruence|cbn; eauto..].
Qed.

(** The confirmation of [n] bytes of the file [id]. *)
Definition resp_msg (id n : Z) : pmsg := (mk_hdr MSG_MAGIC MSG_WRITE_RESP id 4, le_bytes 4 n).

Lemma compose_resp num id n :
  proxyfs_msg_compose_new true true num id [(4, le_bytes 4 n); (0, [])] =
  Some (mk_pmsg (mk_hdr MSG_MAGIC num id 4) (le_bytes 4 n) 0 true).
Proof.
  unfold proxyfs_msg_compose_new. cbn [negb compose_size compose_args Z.eqb]. rewrite app_nil_r, ztake_all; [done|].
  unfold zlen. rewrite le_bytes_length. lia.
Qed.

Lemma proxy_read_user_spec k f lim count :
  file_wf f -> read_allowed k f -> 0 <= count < 2 ^ 31 -> count <= lim ->
  exists d f' msg, proxyfs_proxy_file_read_user k true true f lim count = Some (zlen d, d, f', msg) /\
    d = ztake count (contents (read_buf f)) /\ consumed_from f d f' /\
    content msg = resp_msg (proxyfs_file_get_file_ident f) (zlen d).
Proof.
  intros Hf Hk Hc Hl. destruct (virtual_read_user_spec k f lim count Hf Hk Hc Hl) as (d & f' & E & Hd & Hcon).
  pose proof (rbuf_amount f Hf).
  assert (Hz : 0 <= zlen d < 2 ^ 31).
  { pose proof (zlen_nonneg d). rewrite Hd, zlen_ztake, zlen_contents in * by apply Hf. lia. }
  unfold proxyfs_proxy_file_read_user. rewrite E. cbn [mbind option_bind].
  rewrite compose_resp. cbn [mbind option_bind]. eexists d, f', _. rewrite u32_id, s32_id by lia.
  split; [done|]. split; [done|]. split; [done|].
  rewrite (keeps_ident f f') by apply Hcon.
  unfold content, resp_msg. cbn [header data data_size]. rewrite ztake_all; [done|].
  unfold zlen. rewrite le_bytes_length. lia.
Qed.

(** *** Sending all of a buffer *)

Lemma msg_wf f n d :
  0 < n <= MSG_MAX_SIZE - MSG_HDR_SIZE -> zlen d = n -> urange 64 (proxyfs_file_get_file_ident f) ->
  wf_queued (mk_pmsg (mk_hdr MSG_MAGIC MSG_WRITE (proxyfs_file_get_file_ident f) n) d 0 true).
Proof.
  intros Hn Hd Hi. assert (MSG_MAX_SIZE - MSG_HDR_SIZE = 4064) by done.
  split; [|split; [simpl; lia|by left]]. unfold wf_pmsg, content. cbn [fst snd header data magic msg_num file_ident data_size].
  rewrite ztake_all by lia. split_and!; first [done|lia].
Qed.

Lemma ident_range f : urange 64 (proxyfs_file_get_file_ident f).
Proof.
  unfold proxyfs_file_get_file_ident. pose proof (uwrap_range 32 ltac:(lia) (u32[Z.shiftl (file_owner_pid f) 16] + file_ident16 f)).
  unfold urange in *. lia.
Qed.

Lemma send_buffer_spec fuel info f sent :
  file_wf f -> is_Some (peer f) ->
  (Z.to_nat (zlen (unsent f) / (MSG_MAX_SIZE - MSG_HDR_SIZE)) < fuel)%nat ->
  exists f' ms, send_buffer fuel (fun _ => (true, true)) info f sent = Some (f', sent ++ ms) /\
    file_wf f' /\ keeps f f' /\ read_buf f' = read_buf f /\ unsent f' = [] /\
    Forall wf_queued ms /\ concat (data <$> ms) = unsent f.
Proof.
  assert (Hmax : MSG_MAX_SIZE - MSG_HDR_SIZE = 4064) by done. rewrite Hmax.
  revert f sent. induction fuel as [|fuel IH]; intros f sent Hf Hp Hfuel; [lia|].
  cbn [send_buffer fst snd]. destruct (unsent f) as [|x u] eqn:Eu.
  { rewrite send_write_buf_idle by done. cbn [mbind option_bind]. exists f, []. rewrite app_nil_r.
    split_and!; try done. }
  rewrite <- Eu in *. assert (Hne : unsent f <> []) by (rewrite Eu; done).
  destruct (send_write_buf_step true true info f Hf Hp Hne) as (f1 & Hun & _ & Hf1 & Hk1 & Hr1 & Hu1 & ->).
  cbn [negb mbind option_bind]. rewrite Hmax.
  set (m := mk_pmsg _ _ _ _).
  assert (Hnext : next_size f = Z.min 4064 (zlen (unsent f))) by (unfold next_size; by rewrite Hmax).
  assert (Hpos : 0 < zlen (unsent f)) by (rewrite Eu, zlen_cons; pose proof (zlen_nonneg u); lia).
  assert (Hm : wf_queued m).
  { apply msg_wf; [lia| |apply ident_range]. rewrite zlen_ztake. lia. }
  destruct (4064 <? zlen (unsent f)) eqn:E; bool_hyps.
  - cbn [Z.eqb Z.opp EAGAIN Pos.eqb].
    destruct (IH f1 (sent ++ [m])) as (f' & ms & E' & Hf' & Hk' & Hr' & Hu' & Hms & Hd); [done| | |].
    { by rewrite (kp_peer _ _ Hk1). }
    { rewrite Hu1, zlen_zdrop, Hnext, Z.min_l by lia.
      replace (Z.max 0 (zlen (unsent f) - Z.max 0 4064)) with (zlen (unsent f) + (-1) * 4064) by lia.
      rewrite Z.div_add by lia. assert (1 <= zlen (unsent f) / 4064) by (apply Z.div_le_lower_bound; lia). lia. }
    change (- EAGAIN =? - EAGAIN) with true. cbv iota. rewrite E'.
    exists f', (m :: ms). rewrite <- app_assoc. split; [done|]. split; [done|].
    split; [destruct Hk1, Hk'; split; congruence|]. split; [congruence|]. split; [done|].
    split; [by constructor|]. cbn [fmap list_fmap concat]. rewrite Hd, Hu1. subst m. cbn [data].
    apply ztake_zdrop.
  - change (0 =? - EAGAIN) with false. cbv iota. exists f1, [m]. split; [done|]. split_and!; try done.
    + rewrite Hu1. apply zdrop_all. lia.
    + by constructor.
    + subst m. cbn. rewrite app_nil_r, ztake_all; [done|lia].
Qed.

(** *** Finding and storing files *)

Lemma find_ident files id f : proxyfs_task_find_file files id = Some f -> proxyfs_file_get_file_ident f = id.
Proof.
  unfold proxyfs_task_find_file. induction files as [|h l IH]; simpl; [done|].
  destruct (_ =? id) eqn:E; bool_hyps; [|done]. by intros [= <-].
Qed.

Lemma find_store_same files id f g :
  proxyfs_task_find_file files id = Some f -> keeps f g ->
  proxyfs_task_find_file (store_file id g files) id = Some g.
Proof.
  unfold proxyfs_task_find_file. intros Hf Hk. pose proof (find_ident _ _ _ Hf) as Hi.
  rewrite <- (keeps_ident _ _ Hk) in Hi. revert Hf. induction files as [|h l IH]; simpl; [done|].
  destruct (_ =? id) eqn:E; simpl; [by rewrite Hi, Z.eqb_refl|]. by rewrite E.
Qed.

Lemma find_store_other files id j f g :
  j <> id -> proxyfs_task_find_file files j = Some f -> keeps f g ->
  proxyfs_task_find_file (store_file j g files) id = proxyfs_task_find_file files id.
Proof.
  unfold proxyfs_task_find_file. intros Hne Hf Hk. pose proof (find_ident _ _ _ Hf) as Hi.
  rewrite <- (keeps_ident _ _ Hk) in Hi. revert Hf. induction files as [|h l IH]; simpl; [done|].
  destruct (_ =? j) eqn:E; simpl; bool_hyps.
  - intros [= ->]. rewrite Hi, E. by replace (j =? id) with false by lia.
  - intros Hf. by rewrite IH.
Qed.

(** ** Properties *)

(** A file identifier survives its encoding into the 32-bit number that messages and
    inodes carry, in both directions. *)
Theorem file_ident_roundtrip f e :
  urange 32 e -> urange 16 (file_ident16 f) -> urange 16 (file_owner_pid f) ->
  proxyfs_file_get_file_ident (proxyfs_file_set_file_ident f e) = e /\
  proxyfs_file_set_file_ident f (proxyfs_file_get_file_ident f) = f.
Proof.
  intros He Hi Hp. unfold urange in *.
  assert (Hset : forall e, 0 <= e < 2 ^ 32 ->
    u16[Z.land 65535 e] = e mod 2 ^ 16 /\ u16[Z.shiftr u64[e - e mod 2 ^ 16] 16] = e / 2 ^ 16).
  { intros z Hz. rewrite Z.land_comm. change 65535 with (Z.ones 16). rewrite Z.land_ones by lia.
    pose proof (Z.mod_pos_bound z (2 ^ 16) ltac:(lia)). pose proof (Z.mod_le z (2 ^ 16)).
    split; [apply uwrap_id; unfold urange; lia|].
    rewrite (uwrap_id 64) by (unfold urange; lia). rewrite Z.shiftr_div_pow2 by lia.
    replace (z - z mod 2 ^ 16) with (z / 2 ^ 16 * 2 ^ 16) by (pose proof (Z.div_mod z (2 ^ 16)); lia).
    rewrite Z.div_mul by lia. apply uwrap_id. unfold urange.
    split; [apply Z.div_pos; lia|apply Z.div_lt_upper_bound; lia]. }
  split.
  - unfold proxyfs_file_get_file_ident, proxyfs_file_set_file_ident. cbn [file_ident16 file_owner_pid].
    destruct (Hset e He) as [-> ->]. rewrite Z.shiftl_mul_pow2 by lia.
    pose proof (Z.div_mod e (2 ^ 16) ltac:(lia)). pose proof (Z.mod_pos_bound e (2 ^ 16) ltac:(lia)).
    rewrite (uwrap_id 32 (e / 2 ^ 16 * 2 ^ 16)), uwrap_id by (unfold urange; lia). lia.
  - assert (Hg : proxyfs_file_get_file_ident f = file_owner_pid f * 2 ^ 16 + file_ident16 f).
    { unfold proxyfs_file_get_file_ident. rewrite Z.shiftl_mul_pow2 by lia.
      by rewrite (uwrap_id 32 (file_owner_pid f * 2 ^ 16)), uwrap_id by (unfold urange; lia). }
    unfold proxyfs_file_set_file_ident. destruct (Hset (proxyfs_file_get_file_ident f)) as [E1 E2]; [lia|].
    rewrite E1, E2, Hg, Z.add_comm, Z.mod_add, Z.mod_small, Z.div_add, Z.div_small by lia.
    by destruct f.
Qed.

(** [proxyfs_task_send_buffers] on a file that has a peer: while memory lasts, three
    rounds are enough to put all the data that was not sent yet into messages that fit a
    peer's receive buffer, in order and without a gap, and nothing stays unsent. *)
Theorem send_buffer_drains info f :
  file_wf f -> is_Some (peer f) ->
  exists f' ms, send_buffer 3 (fun _ => (true, true)) info f [] = Some (f', ms) /\
    file_wf f' /\ keeps f f' /\ read_buf f' = read_buf f /\ unsent f' = [] /\
    Forall wf_queued ms /\ concat (data <$> ms) = unsent f.
Proof.
  intros Hf Hp. apply (send_buffer_spec 3 info f [] Hf Hp).
  pose proof (zlen_unsent f Hf). pose proof (wbuf_amount f Hf). pose proof (fw_unconfirmed _ Hf).
  change (MSG_MAX_SIZE - MSG_HDR_SIZE) with 4064.
  assert (zlen (unsent f) / 4064 < 3) by (apply Z.div_lt_upper_bound; lia). lia.
Qed.

(** When the message for a chunk of data cannot be allocated, the chunk is counted as
    sent although no message carries it: the following messages leave it out, and the
    peer can never confirm it. *)
Theorem unsent_chunk_is_lost info f :
  file_wf f -> is_Some (peer f) -> unsent f <> [] ->
  exists f', proxyfs_task_send_write_buf true false info f = Some (- ENOMEM, f', None) /\
    write_buf_unconfirmed f' = write_buf_unconfirmed f + next_size f /\ 0 < next_size f /\
    contents (write_buf f') = contents (write_buf f) /\
    unsent f' = zdrop (next_size f) (unsent f).
Proof.
  intros Hf Hp Hu. destruct (send_write_buf_step true false info f Hf Hp Hu)
    as (f' & H1 & Hw & Hf' & H2 & H3 & H4 & E). exists f'. split; [exact E|].
  split; [done|]. split.
  - destruct (unsent f) eqn:Eu; [done|]. unfold next_size. rewrite Eu, zlen_cons. pose proof (zlen_nonneg l).
    change (MSG_MAX_SIZE - MSG_HDR_SIZE) with 4064. lia.
  - by rewrite Hw.
Qed.

(** A read into memory that is not accessible changes nothing at the client, but its
    error code is sent to the server as a confirmation of 2^32 - EFAULT bytes, and the
    handler there moves the read pointer of the write buffer outside the buffer. *)
Theorem failed_read_is_confirmed k f lim count files g :
  proxyfs_task_find_file files (proxyfs_file_get_file_ident f) = Some g -> file_wf g ->
  exists msg h d files' g',
    proxyfs_proxy_file_read_user k false true f lim count = Some (- EFAULT, [], f, msg) /\
    content msg = (h, d) /\ proxyfs_task_handle_msg files h d = Some (files', false) /\
    proxyfs_task_find_file files' (proxyfs_file_get_file_ident f) = Some g' /\
    buf (write_buf g') + size (write_buf g') <= read (write_buf g').
Proof.
  intros Hg Hwf.
  assert (Hr : exists msg, proxyfs_proxy_file_read_user k false true f lim count = Some (- EFAULT, [], f, msg) /\
    content msg = resp_msg (proxyfs_file_get_file_ident f) (2 ^ 32 - EFAULT)).
  { unfold proxyfs_proxy_file_read_user.
    replace (virtual_proxyfs_proxy_file_read_user k false f lim count) with (Some (- EFAULT, @nil Z, f))
      by (by destruct k). cbn [mbind option_bind]. rewrite compose_resp. eexists. split; [done|]. done. }
  destruct Hr as (msg & Hr & Hm). eexists msg, _, _, _, _. split; [exact Hr|]. split; [exact Hm|].
  unfold proxyfs_task_handle_msg. cbn [msg_num file_ident]. rewrite Z.eqb_refl, Hg.
  replace (le_value (ztake 4 (le_bytes 4 (2 ^ 32 - EFAULT)))) with (2 ^ 32 - EFAULT) by (vm_compute; reflexivity).
  change (2 ^ 32 - EFAULT <=? 0) with false. cbv iota. split; [reflexivity|].
  split.
  { apply find_store_same with g; [done|]. unfold proxyfs_file_submit_read_to_peer.
    destruct (ops g) as [[]|]; by split. }
  unfold proxyfs_file_submit_read_to_peer. destruct (fw_ops _ Hwf) as [o ->].
  pose proof (cw_read _ (fw_write _ Hwf)) as Hrd. pose proof (fw_wsize _ Hwf) as Hs.
  rewrite WRITE_BUF_SIZE_eq in Hs. unfold proxyfs_proxy_file_submit_read_to_peer, proxyfs_real_file_submit_read_to_peer.
  set (n := u32[2 ^ 32 - EFAULT]). assert (Hn : n = 4294967282) by done. clearbody n.
  assert (E : forall c, buf (circ_buf_adjust_read_ptr c n) = buf c /\ size (circ_buf_adjust_read_ptr c n) = size c).
  { intros c. unfold circ_buf_adjust_read_ptr. by case_goal. }
  destruct (E (write_buf g)) as [Eb Es].
  assert (Hread : read (circ_buf_adjust_read_ptr (write_buf g) n) = read (write_buf g) + n - size (write_buf g)).
  { unfold circ_buf_adjust_read_ptr. replace (0 <? n) with true by lia. cbn [read].
    replace (_ || _) with true by lia. done. }
  destruct o; cbn; lia.
Qed.

(** *** Witnesses *)

(** A buffer with the given contents from its start. *)
Definition ex_buf (base : Z) (d : list Z) : circ_buf :=
  mk_circ base (base + zlen d) base 0 8192 (d ++ replicate (Z.to_nat (8192 - zlen d)) 0).

Lemma ex_buf_wf base d : 0 < base -> zlen d < 8192 -> circ_wf (ex_buf base d).
Proof.
  intros Hb Hd. pose proof (zlen_nonneg d).
  split; cbn [buf size mem read write full ex_buf]; try lia.
  rewrite zlen_app, zlen_replicate by lia. lia.
Qed.

Lemma ex_buf_amount base d : amount (ex_buf base d) = zlen d.
Proof.
  pose proof (zlen_nonneg d). unfold amount. cbn [read write full size ex_buf].
  destruct (base <? base + zlen d) eqn:E1; [lia|]. replace (base + zlen d <? base) with false by blia.
  cbn. blia.
Qed.

Definition ex_parent (o : proxyfs_file_ops) (w r : circ_buf) (unconf : Z) : proxyfs_file_t :=
  mk_file 5 1 w r unconf true 0 (Some 7) (Some o).

Lemma ex_parent_wf o w r u :
  circ_wf w -> size w = 8192 -> circ_wf r -> size r = 8192 -> 0 <= u <= amount w ->
  file_wf (ex_parent o w r u).
Proof. intros. split; done. Qed.

Definition ex_client : proxyfs_file_t :=
  ex_parent proxy_file_ops (ex_buf 1000 [1; 2; 3; 4; 5]) (ex_buf 20000 [9]) 2.

Lemma ex_client_wf : file_wf ex_client.
Proof.
  apply ex_parent_wf; try reflexivity; [by apply ex_buf_wf|by apply ex_buf_wf|]. by rewrite ex_buf_amount.
Qed.

Lemma file_ident_roundtrip_witness :
  proxyfs_file_get_file_ident (proxyfs_file_set_file_ident ex_client 131077) = 131077 /\
  proxyfs_file_set_file_ident ex_client 65541 = ex_client.
Proof.
  apply (file_ident_roundtrip ex_client 131077); unfold urange; vm_compute; split; congruence.
Defined.

Lemma send_buffer_drains_witness :
  exists f' ms, send_buffer 3 (fun _ => (true, true)) (0, 0, 0) ex_client [] = Some (f', ms) /\
    unsent f' = [] /\ concat (data <$> ms) = [3; 4; 5].
Proof.
  destruct (send_buffer_drains (0, 0, 0) ex_client ex_client_wf) as (f' & ms & E & _ & _ & _ & Hu & _ & Hd);
    [eexists; reflexivity|].
  exists f', ms. split; [exact E|]. split; [exact Hu|]. rewrite Hd. vm_compute. reflexivity.
Defined.

Lemma unsent_chunk_is_lost_witness :
  exists f', proxyfs_task_send_write_buf true false (0, 0, 0) ex_client = Some (- ENOMEM, f', None) /\
    write_buf_unconfirmed f' = 5 /\ unsent f' = [].
Proof.
  destruct (unsent_chunk_is_lost (0, 0, 0) ex_client ex_client_wf) as (f' & E & Hn & _ & _ & Hu);
    [eexists; reflexivity|vm_compute; discriminate|].
  exists f'. split; [exact E|]. split; [rewrite Hn; vm_compute; reflexivity|rewrite Hu; vm_compute; reflexivity].
Defined.

Lemma failed_read_is_confirmed_witness :
  exists msg h d files' g',
    proxyfs_proxy_file_read_user generic_proxy_file_ops false true ex_client 0 4 = Some (- EFAULT, [], ex_client, msg) /\
    content msg = (h, d) /\ proxyfs_task_handle_msg [ex_client] h d = Some (files', false) /\
    proxyfs_task_find_file files' 65541 = Some g' /\ 9192 <= read (write_buf g').
Proof.
  destruct (failed_read_is_confirmed generic_proxy_file_ops ex_client 0 4 [ex_client] ex_client eq_refl ex_client_wf)
    as (msg & h & d & files' & g' & E & Hm & Hh & Hg & Hr).
  exists msg, h, d, files', g'. split; [exact E|]. split; [exact Hm|]. split; [exact Hh|]. split; [exact Hg|].
  revert Hg Hh Hm Hr. vm_compute in E. injection E as <-. intros Hg Hh Hm. injection Hm as <- <-.
  vm_compute in Hh. injection Hh as <-. vm_compute in Hg. injection Hg as <-. vm_compute. intros H; exact H.
Defined.
