(* ===== verification/ProxyReal.v ===== *)
(** The server's files (src/src/proxyfs/proxyfs_real_file.c, .h, proxyfs_generic_real_file.c,
    proxyfs_tty_real_file.c, proxyfs_pipe_real_file.c) and the server's round over them
    (proxyfs_server.c).

    The kernel's files below are a parameter, an instance of [Vfs]. *)

From S2P Require Import Prelude CircBuf KkcSock ProxyMsg ProxyFile.

(** ** The kernel's files *)

(** [B] is the state of an open file except its position.  [sink]: what was written to
    it so far. *)
Class Vfs (B : Type) := {
  (** contents and position in; result, new position out *)
  vfs_write : B -> list Z -> Z -> Z * Z * B;
  (** count and position in; result, bytes stored, new position out *)
  vfs_read : B -> Z -> Z -> Z * list Z * Z * B;
  (** the line discipline's read; no position *)
  ldisc_read : B -> Z -> Z * list Z * B;
  (** [None]: the file has no poll operation *)
  f_op_poll : B -> option Z;
  sink : B -> list Z;
  (** at most what was asked for is written *)
  vfs_write_law b d pos r pos' b' : vfs_write b d pos = (r, pos', b') ->
    r <= zlen d /\ sink b' = sink b ++ ztake r d;
  (** at most what was asked for is read *)
  vfs_read_law b n pos r d pos' b' : vfs_read b n pos = (r, d, pos', b') -> 0 <= n ->
    r <= n /\ zlen d = Z.max 0 r /\ sink b' = sink b;
  ldisc_read_law b n r d b' : ldisc_read b n = (r, d, b') -> 0 <= n ->
    r <= n /\ zlen d = Z.max 0 r /\ sink b' = sink b
}.

Definition POLLIN : Z := 1.
Definition POLLOUT : Z := 4.
Definition POLLHUP : Z := 16.

(** The operation vectors of the three classes of real files. *)
Inductive proxyfs_real_file_ops := generic_real_file_ops | tty_real_file_ops | pipe_real_file_ops.

Section real.
Context {B : Type} `{Vfs B}.

(** [f_pos] and [f_body] are the open file; [write_counter] and [atomic_write] the
    fields of the pipe class; a shadow task is named by a number. *)
Record proxyfs_real_file := mk_real {
  parent : proxyfs_file_t;
  f_pos : Z;
  f_body : B;
  real_ops : option proxyfs_real_file_ops;
  shadow_list : list Z;
  write_counter : Z;
  atomic_write : bool
}.

Definition with_parent (p : proxyfs_file_t) (s : proxyfs_real_file) : proxyfs_real_file :=
  mk_real p (f_pos s) (f_body s) (real_ops s) (shadow_list s) (write_counter s) (atomic_write s).
Definition with_body (b : B) (s : proxyfs_real_file) : proxyfs_real_file :=
  mk_real (parent s) (f_pos s) b (real_ops s) (shadow_list s) (write_counter s) (atomic_write s).
Definition with_pos (pos : Z) (s : proxyfs_real_file) : proxyfs_real_file :=
  mk_real (parent s) pos (f_body s) (real_ops s) (shadow_list s) (write_counter s) (atomic_write s).
Definition with_counter (n : Z) (a : bool) (s : proxyfs_real_file) : proxyfs_real_file :=
  mk_real (parent s) (f_pos s) (f_body s) (real_ops s) (shadow_list s) n a.

(** The read and the write buffer of the parent class. *)
Definition rbuf (s : proxyfs_real_file) : circ_buf := read_buf (parent s).
Definition wbuf (s : proxyfs_real_file) : circ_buf := write_buf (parent s).
Definition with_rbuf (c : circ_buf) (s : proxyfs_real_file) := with_parent (set_read_buf c (parent s)) s.
Definition with_wbuf (c : circ_buf) (s : proxyfs_real_file) := with_parent (set_write_buf c (parent s)) s.

Definition proxyfs_real_file_poll_read (self : proxyfs_real_file) : Z :=
  match f_op_poll (f_body self) with
  | Some mask => if Z.land mask (Z.lor POLLIN POLLHUP) =? 0 then 0 else 1
  | None => -1
  end.
Definition proxyfs_real_file_poll_write (self : proxyfs_real_file) : Z :=
  match f_op_poll (f_body self) with
  | Some mask => if Z.land mask POLLOUT =? 0 then 0 else 1
  | None => -1
  end.

(** [kmalloc_ok]: whether the list element can be allocated. *)
Definition proxyfs_real_file_add_shadow (kmalloc_ok : bool) (self : proxyfs_real_file) (shadow : Z)
    : Z * proxyfs_real_file :=
  if negb kmalloc_ok then (- ENOMEM, self)
  else (0, mk_real (parent self) (f_pos self) (f_body self) (real_ops self) (shadow :: shadow_list self)
             (write_counter self) (atomic_write self)).

(** Only the first occurrence goes. *)
Fixpoint remove_first (x : Z) (l : list Z) : list Z :=
  match l with [] => [] | y :: l => if y =? x then l else y :: remove_first x l end.
Definition proxyfs_real_file_remove_shadow (self : proxyfs_real_file) (shadow : Z) : bool * proxyfs_real_file :=
  let l := remove_first shadow (shadow_list self) in
  (match l with [] => true | _ => false end,
   mk_real (parent self) (f_pos self) (f_body self) (real_ops self) l (write_counter self) (atomic_write self)).
Definition proxyfs_real_file_has_shadow (self : proxyfs_real_file) (shadow : Z) : bool :=
  existsb (Z.eqb shadow) (shadow_list self).

(** *** Writing to the real file *)

(** [vfs_write] of the first [n] bytes of the read buffer; the position is the caller's. *)
Definition write_chunk (self : proxyfs_real_file) (n pos : Z) : Z * Z * proxyfs_real_file :=
  let '(lenght, pos, b) := vfs_write (f_body self) (mem_read (rbuf self) (circ_buf_get_read_addr (rbuf self)) n) pos in
  (lenght, pos, with_body b self).

(** The [else] in front of the assignment makes the position be stored after a failed
    write only. *)
Definition proxyfs_generic_real_file_write (self : proxyfs_real_file) : Z * proxyfs_real_file :=
  let buf_data := circ_buf_get_read_size (rbuf self) in
  if negb (buf_data =? 0) then
    let '(lenght, pos, self) := write_chunk self buf_data (f_pos self) in
    if 0 <? lenght then
      let self := with_rbuf (circ_buf_adjust_read_ptr (rbuf self) lenght) self in
      let total := lenght in
      if lenght =? buf_data then
        let buf_data := circ_buf_get_read_size (rbuf self) in
        if negb (buf_data =? 0) then
          let '(lenght, pos, self) := write_chunk self buf_data pos in
          if 0 <? lenght
          then (total + lenght, with_rbuf (circ_buf_adjust_read_ptr (rbuf self) lenght) self)
          else (total, self)
        else (total, self)
      else (total, self)
    else (0, with_pos pos self)
  else (0, self).

(** The same text. *)
Definition proxyfs_tty_real_file_write (self : proxyfs_real_file) : Z * proxyfs_real_file :=
  proxyfs_generic_real_file_write self.

(** The loop of the pipe's write: a block is preceded by its size, and a block of at
    most [PIPE_BUF] bytes is written in one piece.  The number of readable bytes, which
    the code asks for in each round, is only printed.  [None]: out of fuel. *)
Fixpoint pipe_write_loop (fuel : nat) (self : proxyfs_real_file) (total : Z)
    : option (Z * proxyfs_real_file) :=
  match fuel with
  | O => None
  | S fuel =>
      if proxyfs_real_file_poll_write self <? 1 then Some (total, self) else
      let buf_data := circ_buf_get_read_size (rbuf self) in
      if buf_data =? 0 then Some (total, self)
      else if write_counter self =? 0 then
        '(r, hdr, c) ← circ_buf_look_at 3 (rbuf self) 4 0;
        let self := with_rbuf c self in
        if r =? 4 then
          let n := u32[le_value hdr] in
          let self := with_counter n (n <=? PIPE_BUF) self in
          let self := with_rbuf (circ_buf_adjust_read_ptr (rbuf self) 4) self in
          pipe_write_loop fuel self (total + 4)
        else Some (total, with_counter 0 (atomic_write self) self)
      else if atomic_write self then
        let total_available := circ_buf_count (rbuf self) in
        if total_available <? write_counter self then Some (total, self) else
        '(lenght, pos, self) ←
          (if buf_data <? write_counter self then
             '(_, atomic_buf, c) ← circ_buf_look_at 3 (rbuf self) (write_counter self) 0;
             let '(lenght, pos, b) := vfs_write (f_body self) atomic_buf (f_pos self) in
             Some (lenght, pos, with_body b (with_rbuf c self))
           else Some (write_chunk self (write_counter self) (f_pos self)));
        if 0 <? lenght then
          let self := with_pos pos (with_counter 0 (atomic_write self) self) in
          let self := with_rbuf (circ_buf_adjust_read_ptr (rbuf self) lenght) self in
          pipe_write_loop fuel self (total + lenght)
        else Some (total, self)
      else
        let buf_data := if write_counter self <? buf_data then write_counter self else buf_data in
        let '(lenght, pos, self) := write_chunk self buf_data (f_pos self) in
        if 0 <? lenght then
          let self := with_rbuf (circ_buf_adjust_read_ptr (rbuf self) lenght) self in
          let self := with_counter u32[write_counter self - lenght] (atomic_write self) (with_pos pos self) in
          pipe_write_loop fuel self (total + lenght)
        else Some (total, self)
  end.

(** As many rounds as there are bytes in the read buffer, and one. *)
Definition proxyfs_pipe_real_file_write (self : proxyfs_real_file) : option (Z * proxyfs_real_file) :=
  pipe_write_loop (S (Z.to_nat (circ_buf_count (rbuf self)))) self 0.

Definition proxyfs_real_file_write (self : proxyfs_real_file) : option (Z * proxyfs_real_file) :=
  match real_ops self with
  | Some generic_real_file_ops => Some (proxyfs_generic_real_file_write self)
  | Some tty_real_file_ops => Some (proxyfs_tty_real_file_write self)
  | Some pipe_real_file_ops => proxyfs_pipe_real_file_write self
  | None => Some (-1, self)
  end.

(** *** Reading from the real file *)

(** [vfs_read] of at most [n] bytes to the write pointer of the write buffer. *)
Definition read_chunk (self : proxyfs_real_file) (n pos : Z) : Z * Z * proxyfs_real_file :=
  let '(lenght, d, pos, b) := vfs_read (f_body self) n pos in
  (lenght, pos, with_body b (with_wbuf (mem_write (wbuf self) (circ_buf_get_write_addr (wbuf self)) d) self)).

(** The value returned is that of the last read. *)
Definition proxyfs_generic_real_file_read (self : proxyfs_real_file) : Z * proxyfs_real_file :=
  let buf_data := circ_buf_get_write_size (wbuf self) in
  if negb (buf_data =? 0) then
    let '(lenght, pos, self) := read_chunk self buf_data (f_pos self) in
    if 0 <? lenght then
      let self := with_wbuf (circ_buf_adjust_write_ptr (wbuf self) lenght) self in
      if lenght =? buf_data then
        let buf_data := circ_buf_get_write_size (wbuf self) in
        if negb (buf_data =? 0) then
          let '(lenght, pos, self) := read_chunk self buf_data pos in
          (lenght, with_pos pos (if 0 <? lenght
                                 then with_wbuf (circ_buf_adjust_write_ptr (wbuf self) lenght) self
                                 else self))
        else (lenght, with_pos pos self)
      else (lenght, with_pos pos self)
    else (lenght, with_pos pos self)
  else (0, self).

(** [proxyfs_tty_real_file_tty_read] to the write pointer of the write buffer.  It does
    not touch the position. *)
Definition tty_chunk (self : proxyfs_real_file) (n : Z) : Z * proxyfs_real_file :=
  let '(length, d, b) := ldisc_read (f_body self) n in
  (length, with_body b (with_wbuf (mem_write (wbuf self) (circ_buf_get_write_addr (wbuf self)) d) self)).

Definition proxyfs_tty_real_file_read (self : proxyfs_real_file) : Z * proxyfs_real_file :=
  if proxyfs_real_file_poll_read self <? 1 then (- EAGAIN, self) else
  let buf_data := circ_buf_get_write_size (wbuf self) in
  if negb (buf_data =? 0) then
    let '(length, self) := tty_chunk self buf_data in
    if 0 <? length then
      let self := with_wbuf (circ_buf_adjust_write_ptr (wbuf self) length) self in
      let total_read := length in
      if length =? buf_data then
        let buf_data := circ_buf_get_write_size (wbuf self) in
        if negb (buf_data =? 0) then
          let '(length, self) := tty_chunk self buf_data in
          if 0 <? length
          then (total_read + length, with_wbuf (circ_buf_adjust_write_ptr (wbuf self) length) self)
          else (total_read, self)
        else (total_read, self)
      else (total_read, self)
    else (0, self)
  else (0, self).

Definition proxyfs_pipe_real_file_read (self : proxyfs_real_file) : Z * proxyfs_real_file :=
  if negb (proxyfs_file_was_read_requested (parent self)) then (- EAGAIN, self) else
  if proxyfs_real_file_poll_read self <? 1 then (- EAGAIN, self) else
  if circ_buf_free_space (wbuf self) =? 0 then (- EAGAIN, self) else
  let buf_data := circ_buf_get_write_size (wbuf self) in
  if negb (buf_data =? 0) then
    let '(lenght, pos, self) := read_chunk self buf_data (f_pos self) in
    if 0 <? lenght then
      let total_read := lenght in
      let self := with_wbuf (circ_buf_adjust_write_ptr (wbuf self) lenght) self in
      if lenght =? buf_data then
        let buf_data := circ_buf_get_write_size (wbuf self) in
        if negb (buf_data =? 0) then
          if proxyfs_real_file_poll_read self =? 0 then (total_read, with_pos pos self) else
          let '(lenght, pos, self) := read_chunk self buf_data pos in
          if 0 <? lenght
          then (total_read + lenght,
                with_pos pos (with_wbuf (circ_buf_adjust_write_ptr (wbuf self) lenght) self))
          else (total_read, with_pos pos self)
        else (total_read, with_pos pos self)
      else (total_read, with_pos pos self)
    else (0, with_pos pos self)
  else (0, self).

Definition proxyfs_real_file_read (self : proxyfs_real_file) : Z * proxyfs_real_file :=
  match real_ops self with
  | Some generic_real_file_ops => proxyfs_generic_real_file_read self
  | Some tty_real_file_ops => proxyfs_tty_real_file_read self
  | Some pipe_real_file_ops => proxyfs_pipe_real_file_read self
  | None => (-1, self)
  end.

(** ** The server's round *)

(** The body of the loop in [proxyfs_server_read_and_write_real_files]: the file, [None]
    when it was closed and freed, and the messages for its peer.  [None] as a result: out
    of fuel, or a response that could not be allocated ([kmalloc_ok]) and is queued
    nevertheless. *)
Definition server_process_file (kmalloc_ok : bool) (real_file : proxyfs_real_file)
    : option (option proxyfs_real_file * list proxyfs_msg) :=
  let ident := proxyfs_file_get_file_ident (parent real_file) in
  let p := peer (parent real_file) in
  '(r, real_file) ← proxyfs_real_file_write real_file;
  let length := u32[r] in
  ms ← (if 0 <? length then
          match p with
          | Some _ => msg ← proxyfs_msg_compose_new kmalloc_ok kmalloc_ok MSG_WRITE_RESP ident
                              [(4, le_bytes 4 length); (0, [])];
                      Some [msg]
          | None => Some []
          end
        else Some []);
  if negb (proxyfs_file_get_status (parent real_file) PROXYFS_FILE_CLOSED =? 0) &&
     negb (proxyfs_file_get_status (parent real_file) PROXYFS_FILE_ALL_READ =? 0)
  then Some (None, ms)
  else
    match p with
    | Some _ =>
        if proxyfs_file_get_status (parent real_file) PROXYFS_FILE_READ_EOF =? 0 then
          let '(r, real_file) := proxyfs_real_file_read real_file in
          if r =? 0 then
            msg ← proxyfs_msg_compose_new kmalloc_ok kmalloc_ok MSG_WRITE ident [(0, [])];
            Some (Some (with_parent (proxyfs_file_set_status (parent real_file) PROXYFS_FILE_READ_EOF)
                          real_file), ms ++ [msg])
          else Some (Some real_file, ms)
        else Some (Some real_file, ms)
    | None => Some (Some real_file, ms)
    end.

(** All the files of the server. *)
Fixpoint proxyfs_server_read_and_write_real_files (kmalloc_ok : bool) (files : list proxyfs_real_file)
    : option (list proxyfs_real_file * list (option Z * proxyfs_msg)) :=
  match files with
  | [] => Some ([], [])
  | f :: l =>
      '(f', ms) ← server_process_file kmalloc_ok f;
      '(l', ms') ← proxyfs_server_read_and_write_real_files kmalloc_ok l;
      Some (match f' with Some f' => f' :: l' | None => l' end,
            ((fun m => (peer (parent f), m)) <$> ms) ++ ms')
  end.

(** Shadows of [current] go from all files; a file that loses its last one is closed. *)
Definition proxyfs_server_release_all (current : Z) (files : list proxyfs_real_file)
    : list proxyfs_real_file :=
  (fun f => let '(last, f) := proxyfs_real_file_remove_shadow f current in
     if last then with_parent (proxyfs_file_set_status (parent f) PROXYFS_FILE_CLOSED) f else f) <$> files.

(** ** Specifications *)

(** One way of the data: [b] was taken from the read buffer, [out] was written to the
    real file, and nothing else of the proxy file changed. *)
Definition wrote (s : proxyfs_real_file) (b out : list Z) (s' : proxyfs_real_file) : Prop :=
  consumed_from (parent s) b (parent s') /\ sink (f_body s') = sink (f_body s) ++ out /\
  real_ops s' = real_ops s /\ shadow_list s' = shadow_list s.

Definition fetched (s : proxyfs_real_file) (b : list Z) (s' : proxyfs_real_file) : Prop :=
  produced (parent s) b (parent s') /\ sink (f_body s') = sink (f_body s) /\
  real_ops s' = real_ops s /\ shadow_list s' = shadow_list s /\
  write_counter s' = write_counter s /\ atomic_write s' = atomic_write s.
End real.

Arguments proxyfs_real_file B : clear implicits.

Section specs.
Context {B : Type} `{Vfs B}.
Implicit Types s : proxyfs_real_file B.

Definition real_wf s : Prop :=
  file_wf (parent s) /\ urange 32 (write_counter s) /\
  (atomic_write s = true -> write_counter s <= PIPE_BUF).

Lemma consumed_refl f : file_wf f -> consumed_from f [] f.
Proof. intros Hf. split_and!; done. Qed.

Lemma consumed_trans f b g c h : consumed_from f b g -> consumed_from g c h -> consumed_from f (b ++ c) h.
Proof.
  intros (? & [] & ? & ? & E) (? & [] & ? & ? & E'). split_and!; [done|split; congruence|congruence..|].
  by rewrite E, E', app_assoc.
Qed.

Lemma produced_refl f : file_wf f -> produced f [] f.
Proof. intros Hf. split_and!; try done. by rewrite app_nil_r. Qed.

Lemma produced_trans f b g c h : produced f b g -> produced g c h -> produced f (b ++ c) h.
Proof.
  intros (? & [] & ? & ? & E) (? & [] & ? & ? & E'). split_and!; [done|split; congruence|congruence..|].
  by rewrite E', E, app_assoc.
Qed.

Lemma wrote_trans s b o s1 b1 o1 s2 : wrote s b o s1 -> wrote s1 b1 o1 s2 -> wrote s (b ++ b1) (o ++ o1) s2.
Proof.
  intros (? & E & ? & ?) (? & E' & ? & ?). split_and!; [by eapply consumed_trans| |congruence..].
  by rewrite E', E, app_assoc.
Qed.

Lemma fetched_trans s b s1 b1 s2 : fetched s b s1 -> fetched s1 b1 s2 -> fetched s (b ++ b1) s2.
Proof.
  intros (? & ? & ? & ? & ? & ?) (? & ? & ? & ? & ? & ?).
  split_and!; [by eapply produced_trans|congruence..].
Qed.

(** Dropping [n] bytes from the read buffer. *)
Lemma consume_chunk f n :
  file_wf f -> 0 <= n <= amount (read_buf f) ->
  consumed_from f (ztake n (contents (read_buf f))) (set_read_buf (circ_buf_adjust_read_ptr (read_buf f) n) f).
Proof.
  intros Hf Hn. split_and!; [|by split|done|done|].
  - apply set_read_buf_wf; [done|by apply read_chunk_wf; [apply Hf|]|].
    unfold circ_buf_adjust_read_ptr. by case_goal.
  - simpl. by rewrite read_chunk_contents, ztake_zdrop by (apply Hf || done).
Qed.

(** A write of the first [n] bytes of the read buffer. *)
Lemma write_chunk_spec s n pos :
  file_wf (parent s) -> 0 <= n <= circ_buf_get_read_size (rbuf s) ->
  exists lenght pos' b, write_chunk s n pos = (lenght, pos', with_body b s) /\ lenght <= n /\
    sink b = sink (f_body s) ++ ztake lenght (contents (rbuf s)).
Proof.
  intros Hf Hn. pose proof (read_size_le _ (fw_read _ Hf)) as Hle. unfold rbuf in *. unfold write_chunk.
  destruct (vfs_write _ _ _) as [[lenght pos'] b] eqn:E. apply vfs_write_law in E as [Hl Hs].
  unfold rbuf, circ_buf_get_read_addr in *. rewrite read_chunk_bytes in Hl, Hs by (apply Hf || lia).
  rewrite zlen_ztake, zlen_contents in Hl by apply Hf.
  exists lenght, pos', b. split; [done|]. split; [lia|]. rewrite Hs. f_equal.
  by rewrite ztake_ztake_le by lia.
Qed.

(** The state behind a successful write. *)
Lemma wrote_chunk s lenght b :
  file_wf (parent s) -> 0 <= lenght <= amount (rbuf s) ->
  sink b = sink (f_body s) ++ ztake lenght (contents (rbuf s)) ->
  let s' := with_rbuf (circ_buf_adjust_read_ptr (rbuf s) lenght) (with_body b s) in
  wrote s (ztake lenght (contents (rbuf s))) (ztake lenght (contents (rbuf s))) s'.
Proof. intros Hf Hl Hs. split_and!; [by apply consume_chunk|done..]. Qed.

(** The state behind a failed one. *)
Lemma wrote_nothing s lenght b :
  file_wf (parent s) -> lenght <= 0 -> sink b = sink (f_body s) ++ ztake lenght (contents (rbuf s)) ->
  wrote s [] [] (with_body b s).
Proof.
  intros Hf Hl Hs. split_and!; [by apply consumed_refl| |done..]. simpl. by rewrite Hs, ztake_0 by lia.
Qed.

Lemma wrote_with_pos s b o s' pos : wrote s b o s' -> wrote s b o (with_pos pos s').
Proof. done. Qed.

Lemma generic_write_spec s :
  file_wf (parent s) ->
  exists b, (proxyfs_generic_real_file_write s).1 = zlen b /\ wrote s b b (proxyfs_generic_real_file_write s).2.
Proof.
  intros Hf. unfold proxyfs_generic_real_file_write.
  pose proof (read_size_le _ (fw_read _ Hf)) as Hle. fold (rbuf s) in Hle.
  destruct (circ_buf_get_read_size (rbuf s) =? 0) eqn:E0; bool_hyps; cbn [negb].
  { exists []. split; [done|]. split_and!; [by apply consumed_refl|by rewrite app_nil_r|done..]. }
  destruct (write_chunk_spec s (circ_buf_get_read_size (rbuf s)) (f_pos s) Hf) as (l & pos & b & -> & Hl & Hs); [lia|].
  cbv iota. cbv beta zeta. destruct (0 <? l) eqn:El; bool_hyps.
  2: { exists []. split; [done|]. apply wrote_with_pos. by eapply wrote_nothing. }
  pose proof (wrote_chunk s l b Hf ltac:(lia) Hs) as Hw. cbv zeta in Hw.
  set (s1 := with_rbuf _ _) in *. set (d := ztake l (contents (rbuf s))) in *.
  assert (Hd : zlen d = l) by (unfold d; rewrite zlen_ztake, zlen_contents by apply Hf; fold (rbuf s); lia).
  assert (Hone : exists b0, l = zlen b0 /\ wrote s b0 b0 s1) by (exists d; by rewrite Hd).
  change (rbuf (with_body b s)) with (rbuf s). fold s1.
  destruct (l =? circ_buf_get_read_size (rbuf s)); [|done].
  destruct (circ_buf_get_read_size (rbuf s1) =? 0) eqn:E1; bool_hyps; cbn [negb]; [done|].
  pose proof Hw as ((Hf1 & _) & _). pose proof (read_size_le _ (fw_read _ Hf1)) as Hle1. fold (rbuf s1) in Hle1.
  destruct (write_chunk_spec s1 (circ_buf_get_read_size (rbuf s1)) pos Hf1) as (l2 & pos2 & b2 & -> & Hl2 & Hs2); [lia|].
  destruct (0 <? l2) eqn:El2; bool_hyps; cbn [fst snd].
  - pose proof (wrote_chunk s1 l2 b2 Hf1 ltac:(lia) Hs2) as Hw2. cbv zeta in Hw2.
    eexists. split; [|exact (wrote_trans _ _ _ _ _ _ _ Hw Hw2)].
    rewrite zlen_app, Hd, zlen_ztake, zlen_contents by apply Hf1. fold (rbuf s1). lia.
  - exists d. split; [done|]. rewrite <- (app_nil_r d) at 1 2. eapply wrote_trans; [exact Hw|].
    by eapply wrote_nothing.
Qed.

(** Storing [d] at the write pointer and advancing it. *)
Lemma produce_chunk f d :
  file_wf f -> zlen d <= circ_buf_get_write_size (write_buf f) ->
  let c := mem_write (write_buf f) (circ_buf_get_write_addr (write_buf f)) d in
  produced f d (set_write_buf (circ_buf_adjust_write_ptr c (zlen d)) f).
Proof.
  intros Hf Hd c. pose proof (write_chunk_wf _ d (fw_write _ Hf) Hd) as Hw.
  pose proof (write_chunk_contents _ d (fw_write _ Hf) Hd) as Hc. cbv zeta in Hw, Hc.
  split_and!; [|by split|done|done|exact Hc]. eapply set_write_buf_wf; [done|exact Hw| |exact Hc].
  unfold circ_buf_adjust_write_ptr. by case_goal.
Qed.

Lemma mem_write_nil c a : mem_write c a [] = c.
Proof.
  unfold mem_write, blit. rewrite zlen_nil, Z.add_0_r. simpl app. rewrite ztake_zdrop. by destruct c.
Qed.

Definition stored s (d : list Z) (b : B) : proxyfs_real_file B :=
  with_body b (with_wbuf (mem_write (wbuf s) (circ_buf_get_write_addr (wbuf s)) d) s).

(** What a read of at most [n] bytes left, by the sign of its result. *)
Definition read_outcome s (l : Z) (d : list Z) (b : B) : Prop :=
  if 0 <? l then zlen d = l /\ fetched s d (with_wbuf (circ_buf_adjust_write_ptr (wbuf (stored s d b)) l) (stored s d b))
  else d = [] /\ fetched s [] (stored s d b).

Lemma read_outcome_intro s n l d b :
  file_wf (parent s) -> n <= circ_buf_get_write_size (wbuf s) -> l <= n -> zlen d = Z.max 0 l ->
  sink b = sink (f_body s) -> read_outcome s l d b.
Proof.
  intros Hf Hn Hl Hd Hs. unfold read_outcome. destruct (0 <? l) eqn:E; bool_hyps.
  - assert (Hz : zlen d = l) by lia. split; [done|].
    pose proof (produce_chunk (parent s) d Hf ltac:(fold (wbuf s); lia)) as Hp. cbv zeta in Hp.
    rewrite Hz in Hp. split_and!; [exact Hp|done..].
  - assert (d = []) as -> by (destruct d; [done|]; rewrite zlen_cons in Hd; pose proof (zlen_nonneg d); lia).
    split; [done|]. split_and!; [|done..]. unfold stored. rewrite mem_write_nil.
    split_and!; [by destruct Hf|by split|done|done|]. simpl. by rewrite app_nil_r.
Qed.

Lemma read_chunk_spec s pos :
  file_wf (parent s) ->
  exists l d pos' b, read_chunk s (circ_buf_get_write_size (wbuf s)) pos = (l, pos', stored s d b) /\
    l <= circ_buf_get_write_size (wbuf s) /\ read_outcome s l d b.
Proof.
  intros Hf. pose proof (write_size_le _ (fw_write _ Hf)) as Hle. fold (wbuf s) in Hle. unfold read_chunk.
  destruct (vfs_read _ _ _) as [[[l d] pos'] b] eqn:E. apply vfs_read_law in E as (Hl & Hd & Hs); [|lia].
  exists l, d, pos', b. split; [done|]. split; [done|]. by apply (read_outcome_intro s (circ_buf_get_write_size (wbuf s))).
Qed.

Lemma tty_chunk_spec s :
  file_wf (parent s) ->
  exists l d b, tty_chunk s (circ_buf_get_write_size (wbuf s)) = (l, stored s d b) /\
    l <= circ_buf_get_write_size (wbuf s) /\ read_outcome s l d b.
Proof.
  intros Hf. pose proof (write_size_le _ (fw_write _ Hf)) as Hle. fold (wbuf s) in Hle. unfold tty_chunk.
  destruct (ldisc_read _ _) as [[l d] b] eqn:E. apply ldisc_read_law in E as (Hl & Hd & Hs); [|lia].
  exists l, d, b. split; [done|]. split; [done|]. by apply (read_outcome_intro s (circ_buf_get_write_size (wbuf s))).
Qed.

Lemma fetched_refl s : file_wf (parent s) -> fetched s [] s.
Proof. intros. split_and!; try done. by apply produced_refl. Qed.

Lemma fetched_with_pos s d s' pos : fetched s d s' -> fetched s d (with_pos pos s').
Proof. done. Qed.

Lemma fetched_wf s d s' : fetched s d s' -> file_wf (parent s').
Proof. by intros ((? & _) & _). Qed.

(** The result of a read is the number of bytes, or an error without any. *)
Definition counts (r : Z) (d : list Z) : Prop := r = zlen d \/ (r < 0 /\ d = []).

Lemma generic_read_spec s :
  file_wf (parent s) -> exists d, fetched s d (proxyfs_generic_real_file_read s).2.
Proof.
  intros Hf. unfold proxyfs_generic_real_file_read.
  destruct (_ =? 0) eqn:E0; cbn [negb]; [exists []; by apply fetched_refl|].
  destruct (read_chunk_spec s (f_pos s) Hf) as (l & d & pos & b & -> & Hl & Ho). cbv beta iota zeta.
  unfold read_outcome in Ho. destruct (0 <? l) eqn:El; [|destruct Ho; exists []; by apply fetched_with_pos].
  destruct Ho as [Hd Hw]. set (s1 := with_wbuf _ _) in *.
  destruct (l =? _); [|exists d; by apply fetched_with_pos].
  destruct (circ_buf_get_write_size (wbuf s1) =? 0) eqn:E1; cbn [negb]; [exists d; by apply fetched_with_pos|].
  destruct (read_chunk_spec s1 pos (fetched_wf _ _ _ Hw)) as (l2 & d2 & pos2 & b2 & -> & Hl2 & Ho2).
  cbv beta iota zeta. cbn [snd]. exists (d ++ d2). apply fetched_with_pos. eapply fetched_trans; [exact Hw|].
  unfold read_outcome in Ho2. destruct (0 <? l2); [apply Ho2|]. destruct Ho2 as [Ho2 Hw2]. by rewrite Ho2 in *.
Qed.

Lemma tty_read_spec s :
  file_wf (parent s) -> exists d, fetched s d (proxyfs_tty_real_file_read s).2 /\ counts (proxyfs_tty_real_file_read s).1 d.
Proof.
  intros Hf. unfold proxyfs_tty_real_file_read. destruct (_ <? 1).
  { exists []. split; [by apply fetched_refl|]. by right. }
  destruct (_ =? 0) eqn:E0; cbn [negb]; [exists []; split; [by apply fetched_refl|by left]|].
  destruct (tty_chunk_spec s Hf) as (l & d & b & -> & Hl & Ho). cbv beta iota zeta.
  unfold read_outcome in Ho. destruct (0 <? l) eqn:El; [|destruct Ho; exists []; by split; [|left]].
  destruct Ho as [Hd Hw]. set (s1 := with_wbuf _ _) in *.
  assert (Hone : exists d0, fetched s d0 s1 /\ counts l d0) by (exists d; split; [done|by left]).
  destruct (l =? _); [|done].
  destruct (circ_buf_get_write_size (wbuf s1) =? 0) eqn:E1; cbn [negb]; [done|].
  destruct (tty_chunk_spec s1 (fetched_wf _ _ _ Hw)) as (l2 & d2 & b2 & -> & Hl2 & Ho2).
  cbv beta iota zeta. unfold read_outcome in Ho2. exists (d ++ d2).
  destruct (0 <? l2); destruct Ho2 as [Hd2 Hw2]; cbn [fst snd].
  - split; [by eapply fetched_trans|]. left. rewrite zlen_app. lia.
  - subst d2. split; [by eapply fetched_trans|]. left. by rewrite app_nil_r.
Qed.

Lemma pipe_read_spec s :
  file_wf (parent s) -> exists d, fetched s d (proxyfs_pipe_real_file_read s).2 /\ counts (proxyfs_pipe_real_file_read s).1 d.
Proof.
  intros Hf. assert (Hag : exists d, fetched s d s /\ counts (- EAGAIN) d).
  { exists []. split; [by apply fetched_refl|]. by right. }
  unfold proxyfs_pipe_real_file_read. destruct (negb _); [done|]. destruct (_ <? 1); [done|].
  destruct (circ_buf_free_space _ =? 0); [done|].
  destruct (circ_buf_get_write_size _ =? 0) eqn:E0; cbn [negb]; [exists []; split; [by apply fetched_refl|by left]|].
  destruct (read_chunk_spec s (f_pos s) Hf) as (l & d & pos & b & -> & Hl & Ho). cbv beta iota zeta.
  unfold read_outcome in Ho. destruct (0 <? l) eqn:El.
  2: { destruct Ho. exists []. split; [by apply fetched_with_pos|by left]. }
  destruct Ho as [Hd Hw]. set (s1 := with_wbuf _ _) in *.
  assert (Hone : exists d0, fetched s d0 (with_pos pos s1) /\ counts l d0) by (exists d; split; [done|by left]).
  destruct (l =? _); [|done].
  destruct (circ_buf_get_write_size (wbuf s1) =? 0) eqn:E1; cbn [negb]; [done|].
  destruct (proxyfs_real_file_poll_read s1 =? 0); [done|].
  destruct (read_chunk_spec s1 pos (fetched_wf _ _ _ Hw)) as (l2 & d2 & pos2 & b2 & -> & Hl2 & Ho2).
  cbv beta iota zeta. unfold read_outcome in Ho2. exists (d ++ d2).
  destruct (0 <? l2); destruct Ho2 as [Hd2 Hw2]; cbn [fst snd].
  - split; [exact (fetched_trans _ _ _ _ _ Hw Hw2)|]. left. rewrite zlen_app. lia.
  - subst d2. split; [exact (fetched_trans _ _ _ _ _ Hw Hw2)|]. left. by rewrite app_nil_r.
Qed.

(** *** Pipes: the blocks and their sizes *)

(** Taking the sizes out of the stream: the bytes of an incomplete size, and what is left
    of the current block. *)
Definition dstate : Type := list Z * Z.
Definition dstep (st : dstate) (x : Z) : list Z * dstate :=
  let '(h, n) := st in
  if 0 <? n then ([x], (h, n - 1))
  else if zlen h =? 3 then ([], ([], u32[le_value (h ++ [x])])) else ([], (h ++ [x], 0)).
Fixpoint drun (st : dstate) (bs : list Z) : list Z * dstate :=
  match bs with
  | [] => ([], st)
  | x :: l => let '(o, st) := dstep st x in let '(o', st) := drun st l in (o ++ o', st)
  end.

Lemma drun_app st a b :
  drun st (a ++ b) = let '(o, st) := drun st a in let '(o', st) := drun st b in (o ++ o', st).
Proof.
  revert st. induction a as [|x a IH]; intros st; simpl; [by destruct (drun st b)|].
  destruct (dstep st x) as [o1 st1]. rewrite IH. destruct (drun st1 a) as [o2 st2].
  destruct (drun st2 b). by rewrite app_assoc.
Qed.

Lemma drun_body n d : zlen d <= n -> drun ([], n) d = (d, ([], n - zlen d)).
Proof.
  revert n. induction d as [|x d IH]; intros n Hn; simpl.
  - rewrite zlen_nil, Z.sub_0_r. done.
  - rewrite zlen_cons in Hn |- *. pose proof (zlen_nonneg d). replace (0 <? n) with true by lia.
    cbv beta iota. rewrite IH by lia. simpl. do 2 f_equal. lia.
Qed.

Lemma drun_header h : zlen h = 4 -> drun ([], 0) h = ([], ([], u32[le_value h])).
Proof.
  intros Hh. destruct h as [|a [|b [|c [|d [|e l]]]]]; try done.
  rewrite !zlen_cons in Hh. pose proof (zlen_nonneg l). lia.
Qed.

(** A block as the client frames it. *)
Lemma drun_frame n d : 0 <= n < 2 ^ 32 -> zlen d = n -> drun ([], 0) (le_bytes 4 n ++ d) = (d, ([], 0)).
Proof.
  intros Hn Hd. rewrite drun_app, drun_header by (unfold zlen; by rewrite le_bytes_length).
  rewrite le_value_le_bytes. change (8 * Z.of_nat 4) with 32. rewrite Z.mod_small, u32_id by lia.
  rewrite drun_body by lia. simpl. do 3 f_equal. lia.
Qed.

(** The bytes [b] were taken from the read buffer and their blocks, [out], written. *)
Definition pstep s (b out : list Z) s' : Prop :=
  wrote s b out s' /\ drun ([], write_counter s) b = (out, ([], write_counter s')) /\ real_wf s'.

Lemma pstep_refl s : real_wf s -> pstep s [] [] s.
Proof.
  intros Hs. split_and!; [|done|done]. split_and!; [by apply consumed_refl, Hs|by rewrite app_nil_r|done..].
Qed.

Lemma pstep_trans s b o s1 b1 o1 s2 : pstep s b o s1 -> pstep s1 b1 o1 s2 -> pstep s (b ++ b1) (o ++ o1) s2.
Proof.
  intros (Hw & Hd & _) (Hw1 & Hd1 & Hs2). split_and!; [by eapply wrote_trans| |done].
  by rewrite drun_app, Hd, Hd1.
Qed.

Lemma pstep_amount s b o s' : real_wf s -> pstep s b o s' -> amount (rbuf s) = zlen b + amount (rbuf s').
Proof.
  intros (Hf & _) ((Hc & _) & _ & Hf' & _). destruct Hc as (_ & _ & _ & _ & Hc). unfold rbuf.
  rewrite <- !zlen_contents by (apply Hf || apply Hf'). by rewrite Hc, zlen_app.
Qed.

(** A size is taken from the buffer. *)
Lemma pipe_header s :
  real_wf s -> write_counter s = 0 -> 4 <= amount (rbuf s) ->
  let n := u32[le_value (ztake 4 (contents (rbuf s)))] in
  let s1 := with_counter n (n <=? PIPE_BUF) s in
  let s' := with_rbuf (circ_buf_adjust_read_ptr (rbuf s1) 4) s1 in
  exists b, zlen b = 4 /\ pstep s b [] s'.
Proof.
  intros (Hf & Hwc & Hat) H0 Ha n s1 s'. exists (ztake 4 (contents (rbuf s))).
  assert (Hz : zlen (ztake 4 (contents (rbuf s))) = 4).
  { rewrite zlen_ztake, zlen_contents by apply Hf. lia. }
  split; [done|].
  assert (Hc : consumed_from (parent s) (ztake 4 (contents (rbuf s))) (parent s')) by (apply consume_chunk; [done|fold (rbuf s); lia]).
  split_and!; [split_and!; [done|by rewrite app_nil_r|done..]|by rewrite H0, drun_header|].
  split_and!; [apply Hc|apply uwrap_range; lia|]. simpl. lia.
Qed.

(** [l] bytes of the current block were written. *)
Lemma pipe_body s l b pos :
  real_wf s -> 0 < l <= write_counter s -> l <= amount (rbuf s) ->
  sink b = sink (f_body s) ++ ztake l (contents (rbuf s)) ->
  let s' := with_counter (write_counter s - l) (atomic_write s)
              (with_pos pos (with_rbuf (circ_buf_adjust_read_ptr (rbuf s) l) (with_body b s))) in
  exists d, zlen d = l /\ pstep s d d s'.
Proof.
  intros (Hf & Hwc & Hat) Hl Ha Hs s'. exists (ztake l (contents (rbuf s))).
  assert (Hz : zlen (ztake l (contents (rbuf s))) = l).
  { rewrite zlen_ztake, zlen_contents by apply Hf. lia. }
  split; [done|]. pose proof (wrote_chunk s l b Hf ltac:(lia) Hs) as Hw. cbv zeta in Hw.
  split_and!; [exact Hw|rewrite drun_body by lia; by rewrite Hz|].
  split_and!; [apply Hw|unfold urange in *; simpl; lia|]. simpl. intros E. specialize (Hat E). lia.
Qed.

(** Writes of at most [PIPE_BUF] bytes to a pipe are all or nothing. *)
Definition atomic_pipe : Prop := forall b d pos r pos' b',
  vfs_write b d pos = (r, pos', b') -> zlen d <= PIPE_BUF -> r <= 0 \/ r = zlen d.

(** The pipe always takes everything. *)
Definition ready : Prop :=
  (forall b, exists mask, f_op_poll b = Some mask /\ Z.land mask POLLOUT <> 0) /\
  (forall b d pos, 0 < zlen d -> (vfs_write b d pos).1.1 = zlen d).

(** Nothing can be written for want of data: the buffer is empty, or it has a part of a
    size, or a part of a block that must not be split. *)
Definition starved s : Prop :=
  amount (rbuf s) = 0 \/ (write_counter s = 0 /\ amount (rbuf s) < 4) \/
  (atomic_write s = true /\ amount (rbuf s) < write_counter s).

(** The outcome of one round of the loop: it is over, or a part of the buffer is done. *)
Definition pipe_round (fuel : nat) s total (res : option (Z * proxyfs_real_file B)) : Prop :=
  (exists s', res = Some (total, s') /\ pstep s [] [] s' /\ (ready -> starved s')) \/
  (exists b out s', 0 < zlen b /\ pstep s b out s' /\ res = pipe_write_loop fuel s' (total + zlen b)).

Lemma pstep_same s s' :
  real_wf s -> parent s' = parent s -> sink (f_body s') = sink (f_body s) -> real_ops s' = real_ops s ->
  shadow_list s' = shadow_list s -> write_counter s' = write_counter s -> atomic_write s' = atomic_write s ->
  pstep s [] [] s'.
Proof.
  intros Hs E1 E2 E3 E4 E5 E6. destruct Hs as (? & ? & ?). split_and!.
  - split_and!; [rewrite E1; by apply consumed_refl|by rewrite app_nil_r|done..].
  - by rewrite E5.
  - split_and!; [by rewrite E1|by rewrite E5|by rewrite E5, E6].
Qed.

Lemma look_at_start s n :
  file_wf (parent s) -> 0 <= n < 2 ^ 32 ->
  circ_buf_look_at 3 (rbuf s) n 0 = Some (Z.min n (amount (rbuf s)), ztake n (contents (rbuf s)), rbuf s).
Proof.
  intros Hf Hn. pose proof (rbuf_amount _ Hf) as Ha. fold (rbuf s) in Ha.
  rewrite look_at_refines by (apply Hf || lia). by rewrite Z.sub_0_r, zdrop_0 by lia.
Qed.

Lemma with_rbuf_id s : with_rbuf (rbuf s) s = s.
Proof. destruct s as [[]]. done. Qed.

Lemma ready_result b d pos l pos' b' :
  vfs_write b d pos = (l, pos', b') -> 0 < zlen d -> ready -> l = zlen d.
Proof. intros E Hd [_ Hr]. specialize (Hr b d pos Hd). by rewrite E in Hr. Qed.

(** The two ways to write an atomic block come to the same. *)
Lemma atomic_write_spec s :
  real_wf s -> atomic_pipe -> atomic_write s = true -> 0 < write_counter s <= amount (rbuf s) ->
  exists l pos b, (ready -> 0 < l) /\
    (if circ_buf_get_read_size (rbuf s) <? write_counter s then
       '(_, atomic_buf, c) ← circ_buf_look_at 3 (rbuf s) (write_counter s) 0;
       let '(lenght, pos, b) := vfs_write (f_body s) atomic_buf (f_pos s) in
       Some (lenght, pos, with_body b (with_rbuf c s))
     else Some (write_chunk s (write_counter s) (f_pos s))) = Some (l, pos, with_body b s) /\
    (l <= 0 /\ sink b = sink (f_body s) \/
     l = write_counter s /\ sink b = sink (f_body s) ++ ztake l (contents (rbuf s))).
Proof.
  intros (Hf & Hwc & Hat) Hpipe E Hn. specialize (Hat E). assert (HP : PIPE_BUF = 4096) by done.
  assert (Hz : zlen (ztake (write_counter s) (contents (rbuf s))) = write_counter s).
  { rewrite zlen_ztake, zlen_contents by apply Hf. lia. }
  destruct (_ <? _) eqn:Es; bool_hyps.
  - rewrite look_at_start by (done || unfold urange in Hwc; lia). cbn [mbind option_bind]. rewrite with_rbuf_id.
    destruct (vfs_write _ _ _) as [[l pos] b] eqn:Ew. exists l, pos, b.
    split; [intros Hrd; rewrite (ready_result _ _ _ _ _ _ Ew ltac:(lia) Hrd); lia|].
    split; [done|].
    pose proof (Hpipe _ _ _ _ _ _ Ew ltac:(lia)) as Hl. apply vfs_write_law in Ew as [_ Hs]. rewrite Hz in Hl.
    destruct Hl as [Hl|Hl]; [left; by rewrite Hs, ztake_0, app_nil_r by lia|right].
    split; [done|]. by rewrite Hs, ztake_ztake_le by lia.
  - unfold write_chunk, circ_buf_get_read_addr. rewrite read_chunk_bytes by (apply Hf || (fold (rbuf s); lia)).
    fold (rbuf s). destruct (vfs_write _ _ _) as [[l pos] b] eqn:Ew. exists l, pos, b.
    split; [intros Hrd; rewrite (ready_result _ _ _ _ _ _ Ew ltac:(lia) Hrd); lia|].
    split; [done|].
    pose proof (Hpipe _ _ _ _ _ _ Ew ltac:(lia)) as Hl. apply vfs_write_law in Ew as [_ Hs]. rewrite Hz in Hl.
    destruct Hl as [Hl|Hl]; [left; by rewrite Hs, ztake_0, app_nil_r by lia|right].
    split; [done|]. by rewrite Hs, ztake_ztake_le by lia.
Qed.

Lemma pipe_round_spec fuel s total :
  real_wf s -> atomic_pipe -> pipe_round fuel s total (pipe_write_loop (S fuel) s total).
Proof.
  intros Hs Hpipe. pose proof Hs as (Hf & Hwc & Hat). unfold urange in Hwc.
  assert (Hstop : (ready -> starved s) -> pipe_round fuel s total (Some (total, s)))
    by (intros Hst; left; eexists; split; [done|split; [by apply pstep_refl|done]]).
  pose proof (read_size_le _ (fw_read _ Hf)) as Hle. fold (rbuf s) in Hle.
  cbn [pipe_write_loop]. unfold proxyfs_real_file_poll_write. destruct (_ <? 1) eqn:Ep.
  { apply Hstop. intros [Hpl _]. destruct (Hpl (f_body s)) as (mask & E & Hm). rewrite E in Ep.
    destruct (_ =? 0) eqn:E1; blia. }
  clear Ep. destruct (circ_buf_get_read_size (rbuf s) =? 0) eqn:E0; bool_hyps.
  { apply Hstop. intros _. left. by apply read_size_0; [apply Hf|]. }
  destruct (write_counter s =? 0) eqn:Ec; bool_hyps.
  { rewrite look_at_start by (done || lia). cbn [mbind option_bind]. rewrite with_rbuf_id.
    destruct (Z.min 4 (amount (rbuf s)) =? 4) eqn:E4; bool_hyps.
    - destruct (pipe_header s Hs Ec ltac:(lia)) as (b & Hb & Hp). right. eexists b, [], _.
      split; [lia|]. split; [exact Hp|]. by rewrite Hb.
    - left. eexists. split; [done|]. split; [by apply pstep_same|]. intros _. right. left. simpl. split; [done|].
      change (amount (rbuf s) < 4). lia. }
  destruct (atomic_write s) eqn:Ea.
  - rewrite count_spec by apply Hf. fold (rbuf s). destruct (_ <? write_counter s) eqn:Et; bool_hyps.
    { apply Hstop. intros _. by right; right. }
    destruct (atomic_write_spec s Hs Hpipe Ea) as (l & pos & b & Hrd & -> & Hl); [lia|]. cbn [mbind option_bind].
    destruct (0 <? l) eqn:El; bool_hyps.
    + destruct Hl as [[? _]|[-> Hb]]; [lia|].
      destruct (pipe_body s (write_counter s) b pos Hs ltac:(lia) ltac:(lia) Hb) as (d & Hd & Hp).
      rewrite Z.sub_diag in Hp. right. eexists d, d, _. split; [lia|]. split; [exact Hp|]. by rewrite Hd.
    + destruct Hl as [[_ Hb]|[? _]]; [|lia]. left. eexists. split; [done|]. split; [by apply pstep_same|].
      intros Hready. specialize (Hrd Hready). lia.
  - set (n := if _ <? _ then _ else _). assert (Hn : n = Z.min (write_counter s) (circ_buf_get_read_size (rbuf s))).
    { subst n. case_goal; blia. } clearbody n.
    destruct (write_chunk_spec s n (f_pos s) Hf) as (l & pos & b & Ew & Hl & Hb); [lia|]. rewrite Ew.
    destruct (0 <? l) eqn:El; bool_hyps.
    + destruct (pipe_body s l b pos Hs ltac:(lia) ltac:(lia) Hb) as (d & Hd & Hp).
      right. eexists d, d, _. split; [lia|]. split; [exact Hp|]. rewrite Hd.
      cbn [write_counter with_rbuf with_parent with_body]. rewrite u32_id by lia. reflexivity.
    + left. eexists. split; [done|]. split.
      { apply pstep_same; try done. simpl. by rewrite Hb, ztake_0, app_nil_r by lia. }
      intros Hrd. exfalso. revert Ew. unfold write_chunk, circ_buf_get_read_addr.
      rewrite read_chunk_bytes by (apply Hf || (fold (rbuf s); lia)). fold (rbuf s).
      assert (Hz : zlen (ztake n (contents (rbuf s))) = n) by (rewrite zlen_ztake, zlen_contents by apply Hf; fold (rbuf s); lia).
      destruct (vfs_write _ _ _) as [[l' ?] ?] eqn:Ew. intros [= -> _ _].
      apply ready_result in Ew; [lia|lia|done].
Qed.

Lemma pipe_write_loop_spec fuel s total :
  real_wf s -> atomic_pipe -> (Z.to_nat (amount (rbuf s)) < fuel)%nat ->
  exists b out s', pipe_write_loop fuel s total = Some (total + zlen b, s') /\ pstep s b out s' /\
    (ready -> starved s').
Proof.
  intros Hs Hpipe. revert s total Hs. induction fuel as [|fuel IH]; intros s total Hs Hf; [lia|].
  destruct (pipe_round_spec fuel s total Hs Hpipe) as [(s' & -> & Hp)|(b & out & s' & Hb & Hp & ->)].
  - exists [], [], s'. rewrite zlen_nil, Z.add_0_r. done.
  - pose proof (pstep_amount _ _ _ _ Hs Hp) as Ha. pose proof Hp as (_ & _ & Hs').
    pose proof (amount_range _ (fw_read _ (proj1 Hs'))) as Hr. fold (rbuf s') in Hr.
    destruct (IH s' (total + zlen b) Hs') as (b1 & o1 & s1 & -> & Hp1 & Hst); [lia|].
    eexists _, _, s1. split; [|split; [by eapply pstep_trans|done]]. rewrite zlen_app. do 2 f_equal. lia.
Qed.

(** *** The server's round *)

(** What the write operation of the file's class did with the bytes [b]. *)
Definition real_step s (b out : list Z) s' : Prop :=
  match real_ops s with
  | Some pipe_real_file_ops => pstep s b out s'
  | _ => wrote s b out s' /\ out = b /\ real_wf s'
  end.

Lemma generic_keeps_counter s :
  write_counter (proxyfs_generic_real_file_write s).2 = write_counter s /\
  atomic_write (proxyfs_generic_real_file_write s).2 = atomic_write s.
Proof.
  unfold proxyfs_generic_real_file_write, write_chunk.
  repeat (case_goal || (destruct (vfs_write _ _ _) as [[? ?] ?])); done.
Qed.

Lemma real_write_spec s :
  real_wf s -> atomic_pipe -> is_Some (real_ops s) ->
  exists b out s', proxyfs_real_file_write s = Some (zlen b, s') /\ real_step s b out s' /\ wrote s b out s'.
Proof.
  intros Hs Hpipe [o Ho]. unfold proxyfs_real_file_write, real_step. rewrite Ho.
  assert (Hgen : exists b out s', Some (proxyfs_generic_real_file_write s) = Some (zlen b, s') /\
     (wrote s b out s' /\ out = b /\ real_wf s') /\ wrote s b out s').
  { destruct (generic_write_spec s (proj1 Hs)) as (b & E & Hw). exists b, b, (proxyfs_generic_real_file_write s).2.
    rewrite <- E. split; [by destruct (proxyfs_generic_real_file_write s)|].
    destruct (generic_keeps_counter s) as [E1 E2]. destruct Hs as (? & ? & ?).
    assert (real_wf (proxyfs_generic_real_file_write s).2) by (split_and!; [apply Hw|by rewrite E1|by rewrite E1, E2]).
    done. }
  destruct o; [exact Hgen|exact Hgen|]. unfold proxyfs_pipe_real_file_write.
  destruct (pipe_write_loop_spec (S (Z.to_nat (circ_buf_count (rbuf s)))) s 0 Hs Hpipe)
    as (b & out & s' & E & Hp & _); [rewrite count_spec by apply Hs; lia|].
  exists b, out, s'. split; [exact E|]. split; [exact Hp|apply Hp].
Qed.

Lemma real_read_spec s :
  file_wf (parent s) -> exists d, fetched s d (proxyfs_real_file_read s).2.
Proof.
  intros Hf. unfold proxyfs_real_file_read. destruct (real_ops s) as [[]|].
  - by apply generic_read_spec.
  - destruct (tty_read_spec s Hf) as (d & ? & _). eauto.
  - destruct (pipe_read_spec s Hf) as (d & ? & _). eauto.
  - exists []. by apply fetched_refl.
Qed.

(** The messages of a round: a confirmation of [n] bytes and the end of the file. *)
Definition round_msgs (id n : Z) (eof : bool) : list pmsg :=
  (if 0 <? n then [resp_msg id n] else []) ++
  (if eof then [(mk_hdr MSG_MAGIC MSG_WRITE id 0, [])] else []).

Lemma resp_content id n :
  content (mk_pmsg (mk_hdr MSG_MAGIC MSG_WRITE_RESP id 4) (le_bytes 4 n) 0 true) = resp_msg id n.
Proof.
  unfold content, resp_msg. cbn [header data data_size]. rewrite ztake_all; [done|].
  unfold zlen. rewrite le_bytes_length. lia.
Qed.

Lemma fetched_status s d s' st :
  fetched s d s' -> fetched s d (with_parent (proxyfs_file_set_status (parent s') st) s').
Proof.
  intros ((Hf & Hk & ? & ? & ?) & ? & ? & ? & ? & ?). split_and!; try done.
  split_and!; try done; [by destruct Hf|by destruct Hk].
Qed.

Lemma server_process_spec s :
  real_wf s -> atomic_pipe -> is_Some (real_ops s) -> is_Some (peer (parent s)) ->
  exists b out s1 res ms eof, server_process_file true s = Some (res, ms) /\
    real_step s b out s1 /\ wrote s b out s1 /\
    content <$> ms = round_msgs (proxyfs_file_get_file_ident (parent s)) (zlen b) eof /\
    match res with Some s2 => exists d, fetched s1 d s2 | None => True end.
Proof.
  intros Hs Hpipe Ho [p Hp]. unfold server_process_file.
  destruct (real_write_spec s Hs Hpipe Ho) as (b & out & s1 & -> & Hst & Hw). cbn [mbind option_bind].
  exists b, out, s1. assert (Hb : 0 <= zlen b <= 8192).
  { pose proof (zlen_nonneg b). destruct Hw as (Hc & _). destruct Hc as (Hf1 & _ & _ & _ & Hc).
    pose proof (rbuf_amount _ (proj1 Hs)) as Ha. rewrite <- zlen_contents, Hc, zlen_app in Ha by apply Hs.
    pose proof (zlen_nonneg (contents (read_buf (parent s1)))). lia. }
  rewrite u32_id, Hp, compose_resp by lia. set (id := proxyfs_file_get_file_ident (parent s)).
  set (m := mk_pmsg _ _ _ _).
  assert (Hms : exists ms, (if 0 <? zlen b then msg ← Some m; Some [msg] else Some []) = Some ms /\
     content <$> ms = if 0 <? zlen b then [resp_msg id (zlen b)] else []).
  { destruct (0 <? zlen b); eexists; (split; [done|]); [|done].
    change ([content m] = [resp_msg id (zlen b)]). subst m. by rewrite resp_content. }
  destruct Hms as (ms & -> & Hms). cbn [mbind option_bind].
  assert (Hf1 : file_wf (parent s1)) by apply Hw.
  destruct (_ && _).
  { exists None, ms, false. unfold round_msgs. by rewrite Hms, app_nil_r. }
  destruct (_ =? 0).
  - destruct (real_read_spec s1 Hf1) as (d & Hd). destruct (proxyfs_real_file_read s1) as [r s2]. simpl in Hd.
    destruct (r =? 0).
    + eexists _, _, true. split; [reflexivity|]. split; [done|]. split; [done|]. split.
      * rewrite fmap_app, Hms. done.
      * exists d. by apply fetched_status.
    + exists (Some s2), ms, false. unfold round_msgs. rewrite Hms, app_nil_r. eauto 10.
  - exists (Some s1), ms, false. unfold round_msgs. rewrite Hms, app_nil_r.
    split_and!; try done. exists []. by apply fetched_refl.
Qed.
End specs.

(** ** Properties *)

(** The pipe's write operation terminates, takes some bytes from the read buffer, and
    writes to the pipe exactly the blocks they contain, without the sizes and with the
    position in an unfinished block remembered for the next call; when the pipe takes
    everything, only a part of a size or of a block that must not be split stays behind. *)
Theorem pipe_write_deframes {B} `{Vfs B} (s : proxyfs_real_file B) :
  real_wf s -> atomic_pipe -> 
  exists b out s', proxyfs_pipe_real_file_write s = Some (zlen b, s') /\
    contents (rbuf s) = b ++ contents (rbuf s') /\
    drun ([], write_counter s) b = (out, ([], write_counter s')) /\
    sink (f_body s') = sink (f_body s) ++ out /\ real_wf s' /\ (ready -> starved s').
Proof.
  intros Hs Hpipe. unfold proxyfs_pipe_real_file_write.
  destruct (pipe_write_loop_spec (S (Z.to_nat (circ_buf_count (rbuf s)))) s 0 Hs Hpipe)
    as (b & out & s' & E & (Hw & Hd & Hs') & Hst); [rewrite count_spec by apply Hs; lia|].
  exists b, out, s'. split_and!; [exact E|apply Hw|done|apply Hw|done|done].
Qed.

(** After a successful write of a generic or terminal file its position is what it was
    before: the position that [vfs_write] returned is stored only when the write failed,
    so the next write of a seekable file goes to the same place. *)
Theorem successful_write_keeps_position {B} `{Vfs B} (s : proxyfs_real_file B) :
  0 < (proxyfs_generic_real_file_write s).1 ->
  f_pos (proxyfs_generic_real_file_write s).2 = f_pos s /\
  f_pos (proxyfs_tty_real_file_write s).2 = f_pos s.
Proof.
  assert (Hg : 0 < (proxyfs_generic_real_file_write s).1 -> f_pos (proxyfs_generic_real_file_write s).2 = f_pos s).
  { unfold proxyfs_generic_real_file_write, write_chunk.
    repeat (case_goal || (destruct (vfs_write _ _ _) as [[? ?] ?])); simpl; intros; try done; lia. }
  intros Hr. split; by apply Hg.
Qed.

(** A terminal that has input while the write buffer is full is taken for a terminal at
    the end of its input: nothing is read, the client is told that the file ended, and the
    server will not read from it again. *)
Theorem full_buffer_is_end_of_file {B} `{Vfs B} (s : proxyfs_real_file B) p :
  real_wf s -> real_ops s = Some tty_real_file_ops -> peer (parent s) = Some p ->
  amount (wbuf s) = WRITE_BUF_SIZE -> amount (rbuf s) = 0 -> proxyfs_real_file_poll_read s = 1 ->
  state (parent s) = 0 ->
  exists s' m, server_process_file true s = Some (Some s', [m]) /\
    content m = (mk_hdr MSG_MAGIC MSG_WRITE (proxyfs_file_get_file_ident (parent s)) 0, []) /\
    f_body s' = f_body s /\ wbuf s' = wbuf s /\
    proxyfs_file_get_status (parent s') PROXYFS_FILE_READ_EOF = PROXYFS_FILE_READ_EOF.
Proof.
  intros (Hf & _) Ho Hp Hfull Hempty Hpoll Hst. unfold server_process_file, proxyfs_real_file_write. rewrite Ho.
  assert (Ew : proxyfs_tty_real_file_write s = (0, s)).
  { unfold proxyfs_tty_real_file_write, proxyfs_generic_real_file_write, rbuf.
    rewrite (proj2 (read_size_0 _ (fw_read _ Hf))) by done. done. }
  rewrite Ew, Hp. cbn [mbind option_bind]. change (u32[0]) with 0. change (0 <? 0) with false.
  cbn [mbind option_bind]. unfold proxyfs_file_get_status at 1 2 3. rewrite Hst.
  assert (Er : proxyfs_real_file_read s = (0, s)).
  { unfold proxyfs_real_file_read. rewrite Ho. unfold proxyfs_tty_real_file_read. rewrite Hpoll.
    change (1 <? 1) with false. cbv iota. unfold wbuf.
    rewrite (proj2 (write_size_0 _ (fw_write _ Hf))) by (rewrite (fw_wsize _ Hf); exact Hfull). done. }
  rewrite Er. cbv iota zeta beta.
  eexists _, _. split; [reflexivity|]. split_and!; try done.
  unfold proxyfs_file_get_status. cbn [parent with_parent proxyfs_file_set_status set_state state].
  rewrite Hst. reflexivity.
Qed.

(** *** Witnesses *)

(** A file in memory: the bytes written, the input that is left, and how much one write
    takes at most, but a write of [PIPE_BUF] bytes is never split. *)
Record mem_file := mk_mem { m_sink : list Z; m_input : list Z; m_mask : Z }.

#[export] Program Instance mem_Vfs : Vfs mem_file := {|
  vfs_write b d pos := (zlen d, pos + zlen d, mk_mem (m_sink b ++ d) (m_input b) (m_mask b));
  vfs_read b n pos := let d := ztake n (m_input b) in
    (zlen d, d, pos + zlen d, mk_mem (m_sink b) (zdrop n (m_input b)) (m_mask b));
  ldisc_read b n := let d := ztake n (m_input b) in
    (zlen d, d, mk_mem (m_sink b) (zdrop n (m_input b)) (m_mask b));
  f_op_poll b := Some (Z.lor POLLOUT (m_mask b));
  sink := m_sink
|}.
Next Obligation. intros b d pos r pos' b' [= <- <- <-]. split; [lia|]. simpl. by rewrite ztake_all by lia. Qed.
Next Obligation.
  intros b n pos r d pos' b' [= <- <- <- <-] Hn. rewrite zlen_ztake. pose proof (zlen_nonneg (m_input b)).
  split_and!; try done; lia.
Qed.
Next Obligation.
  intros b n r d b' [= <- <- <-] Hn. rewrite zlen_ztake. pose proof (zlen_nonneg (m_input b)).
  split_and!; try done; lia.
Qed.

Lemma mem_atomic : atomic_pipe (B := mem_file).
Proof. intros b d pos r pos' b' [= <- <- <-] _. by right. Qed.

(** A pipe file whose read buffer has a block of 3 bytes and the size of the next one. *)
Definition ex_pipe : proxyfs_real_file mem_file :=
  mk_real (ex_parent real_file_ops (ex_buf 1000 []) (ex_buf 20000 [3; 0; 0; 0; 65; 66; 67; 9; 0]) 0)
    0 (mk_mem [] [] 0) (Some pipe_real_file_ops) [1] 0 false.

Lemma ex_pipe_wf : real_wf ex_pipe.
Proof.
  split; [|split; [split; reflexivity || discriminate|discriminate]].
  apply ex_parent_wf; try reflexivity; [by apply ex_buf_wf|by apply ex_buf_wf|]. by rewrite ex_buf_amount.
Qed.

Lemma pipe_write_deframes_witness :
  exists b out s', proxyfs_pipe_real_file_write ex_pipe = Some (zlen b, s') /\
    contents (rbuf ex_pipe) = b ++ contents (rbuf s') /\
    drun ([], 0) b = (out, ([], write_counter s')) /\ sink (f_body s') = out.
Proof.
  destruct (pipe_write_deframes ex_pipe ex_pipe_wf mem_atomic) as (b & out & s' & E & Hc & Hd & Hs & _ & _).
  exists b, out, s'. split; [exact E|]. split; [exact Hc|]. split; [exact Hd|exact Hs].
Defined.

Definition ex_generic : proxyfs_real_file mem_file :=
  mk_real (parent ex_pipe) 0 (mk_mem [] [] 0) (Some generic_real_file_ops) [1] 0 false.

Lemma successful_write_keeps_position_witness :
  (proxyfs_generic_real_file_write ex_generic).1 = 9 /\
  f_pos (proxyfs_generic_real_file_write ex_generic).2 = 0.
Proof.
  assert (E : (proxyfs_generic_real_file_write ex_generic).1 = 9) by (vm_compute; reflexivity).
  split; [exact E|]. apply (successful_write_keeps_position ex_generic). rewrite E. lia.
Defined.

(** A terminal with input, and a full write buffer. *)
Definition ex_full : circ_buf := mk_circ 1000 1000 1000 1 8192 (replicate (Z.to_nat 8192) 1).
Definition ex_tty : proxyfs_real_file mem_file :=
  mk_real (ex_parent real_file_ops ex_full (ex_buf 20000 []) 8192)
    0 (mk_mem [] [65] POLLIN) (Some tty_real_file_ops) [1] 0 false.

Lemma ex_tty_wf : real_wf ex_tty.
Proof.
  split; [|split; [split; reflexivity || discriminate|discriminate]].
  apply ex_parent_wf; try reflexivity; [|by apply ex_buf_wf|split; discriminate].
  split; cbn [buf size mem read write full ex_full]; try lia.
  by rewrite zlen_replicate by lia.
Qed.

Lemma full_buffer_is_end_of_file_witness :
  exists s' m, server_process_file true ex_tty = Some (Some s', [m]) /\
    content m = (mk_hdr MSG_MAGIC MSG_WRITE 65541 0, []) /\ m_input (f_body s') = [65].
Proof.
  destruct (full_buffer_is_end_of_file ex_tty 7 ex_tty_wf) as (s' & m & E & Hm & Hb & _);
    [reflexivity|reflexivity|reflexivity|reflexivity|reflexivity|reflexivity|].
  exists s', m. split; [exact E|]. split; [exact Hm|]. rewrite Hb. reflexivity.
Defined.
