(* ===== verification/ProxyLink.v ===== *)
(** The ProxyFS client and server together: the data path of proxied files, end to end.

    The client's task (src/src/proxyfs/proxyfs_client.c) has the proxy files, the server's
    (proxyfs_server.c) the real files.  [c2s] and [s2c] are the messages on their way in
    either direction: those in the queue of the sending peer, on the wire and in the
    receive buffer of the other peer, which [ProxyMsg] shows to be a reliable FIFO.  A
    step is one call of an operation of [ProxyFile] or [ProxyReal] by a task or by a user
    process, in any interleaving, with any outcome of its allocations and of its accesses to
    user memory; messages of all the files share the two queues. *)

From S2P Require Import Prelude CircBuf KkcSock ProxyMsg ProxyFile ProxyReal.

Section link.
Context {B : Type} `{Vfs B}.

(** ** Messages on their way *)

Definition is_msg (num id : Z) (m : pmsg) : bool := (msg_num m.1 =? num) && (file_ident m.1 =? id).

(** The data for file [id], and the number of bytes of it that are confirmed. *)
Fixpoint in_flight (id : Z) (q : list pmsg) : list Z :=
  match q with
  | [] => []
  | m :: q => (if is_msg MSG_WRITE id m then m.2 else []) ++ in_flight id q
  end.
Fixpoint acks (id : Z) (q : list pmsg) : Z :=
  match q with
  | [] => 0
  | m :: q => (if is_msg MSG_WRITE_RESP id m then le_value (ztake 4 m.2) else 0) + acks id q
  end.

Definition msg_ok (m : pmsg) : Prop :=
  (msg_num m.1 = MSG_WRITE -> data_size m.1 = zlen m.2) /\
  (msg_num m.1 = MSG_WRITE_RESP -> 0 <= le_value (ztake 4 m.2)).

Lemma in_flight_app id q r : in_flight id (q ++ r) = in_flight id q ++ in_flight id r.
Proof. induction q as [|m q IH]; simpl; [done|]. by rewrite IH, app_assoc. Qed.

Lemma acks_app id q r : acks id (q ++ r) = acks id q + acks id r.
Proof. induction q as [|m q IH]; simpl; [done|]. lia. Qed.

Lemma acks_nonneg id q : Forall msg_ok q -> 0 <= acks id q.
Proof.
  induction 1 as [|m q [_ Hm] _ IH]; simpl; [lia|]. unfold is_msg.
  destruct (msg_num m.1 =? MSG_WRITE_RESP) eqn:E; simpl; [|lia].
  apply Z.eqb_eq in E. specialize (Hm E). destruct (_ =? id); lia.
Qed.

(** ** The two tasks *)

(** The real files are found by the identifier of their parent part. *)
Fixpoint find_real (sf : list (proxyfs_real_file B)) (id : Z) : option (proxyfs_real_file B) :=
  match sf with
  | [] => None
  | r :: l => if proxyfs_file_get_file_ident (parent r) =? id then Some r else find_real l id
  end.
Fixpoint store_real (id : Z) (r : proxyfs_real_file B) (sf : list (proxyfs_real_file B)) :=
  match sf with
  | [] => []
  | q :: l => if proxyfs_file_get_file_ident (parent q) =? id then r :: l else q :: store_real id r l
  end.

Record link := mk_link {
  cf : list proxyfs_file_t;
  sf : list (proxyfs_real_file B);
  c2s : list pmsg;
  s2c : list pmsg
}.

(** What is visible of a step: data accepted from the user of file [id] ([user], stored
    as [b]), data given to the user, data read from the real file.  The client's or the
    server's task sent data of the file, and [n] bytes of it were counted as sent although no
    message carries them.  A process passed memory that it cannot access, or its first read of a
    pipe was interrupted. *)
Inductive label :=
| UserWrote (id : Z) (user b : list Z)
| UserRead (id : Z) (b : list Z)
| Fetched (id : Z) (b : list Z)
| ClientSent (id n : Z)
| ServerSent (id n : Z)
| BadAccess (id : Z)
| Tau.

(** Files of these identifiers are pipes. *)
Context (is_pipe : Z -> bool).

Definition ops_match (id : Z) (k : proxyfs_proxy_file_ops) : Prop :=
  match k with generic_proxy_file_ops => is_pipe id = false | pipe_proxy_file_ops _ => is_pipe id = true end.

Definition msg_list (m : option proxyfs_msg) : list pmsg :=
  match m with Some m => [content m] | None => [] end.

(** The bytes that become counted as sent, less those that the message carries. *)
Definition lost_bytes (a a' : proxyfs_file_t) (m : option proxyfs_msg) : Z :=
  write_buf_unconfirmed a' - write_buf_unconfirmed a - zlen (concat (snd <$> msg_list m)).

(** The conditions of a good read: the check of the address passes, all of the memory can be
    written, and a pipe may be read. *)
Definition read_fine (k : proxyfs_proxy_file_ops) (ok : bool) (a : proxyfs_file_t) (lim count : Z) : Prop :=
  ok = true /\ count <= lim /\ read_allowed k a.

(** [ok]: the check of the user's address; [kb], [km], [mem]: the allocations.  The system
    calls limit a count to less than 2^31.  A step that has no result, since the code uses a message
    that it could not allocate, does not return. *)
Inductive step : link -> label -> link -> Prop :=
| step_user_write l id k ok a user count n a' :
    proxyfs_task_find_file (cf l) id = Some a -> ops_match id k ->
    0 <= count < 2 ^ 31 -> (ok = true -> count <= zlen user) ->
    proxyfs_proxy_file_write_user k ok a user count = Some (n, a') ->
    step l (UserWrote id (ztake n user) (written_bytes k n user))
      (mk_link (store_file id a' (cf l)) (sf l) (c2s l) (s2c l))
| step_bad_write l id k a user count n a' :
    proxyfs_task_find_file (cf l) id = Some a -> ops_match id k ->
    0 <= count < 2 ^ 31 -> zlen user < count ->
    proxyfs_proxy_file_write_user k true a user count = Some (n, a') ->
    step l (BadAccess id) (mk_link (store_file id a' (cf l)) (sf l) (c2s l) (s2c l))
| step_user_read l id k ok mem a lim count n d a' msg :
    proxyfs_task_find_file (cf l) id = Some a -> ops_match id k ->
    0 <= count < 2 ^ 31 -> read_fine k ok a lim count ->
    proxyfs_proxy_file_read_user k ok mem a lim count = Some (n, d, a', msg) ->
    step l (UserRead id d) (mk_link (store_file id a' (cf l)) (sf l) (c2s l ++ [content msg]) (s2c l))
| step_bad_read l id k ok mem a lim count n d a' msg :
    proxyfs_task_find_file (cf l) id = Some a -> ops_match id k ->
    0 <= count < 2 ^ 31 -> ~ read_fine k ok a lim count ->
    proxyfs_proxy_file_read_user k ok mem a lim count = Some (n, d, a', msg) ->
    step l (BadAccess id) (mk_link (store_file id a' (cf l)) (sf l) (c2s l ++ [content msg]) (s2c l))
| step_client_send l id kb km a info res a' m :
    proxyfs_task_find_file (cf l) id = Some a ->
    proxyfs_task_send_write_buf kb km info a = Some (res, a', m) ->
    step l (ClientSent id (lost_bytes a a' m))
      (mk_link (store_file id a' (cf l)) (sf l) (c2s l ++ msg_list m) (s2c l))
| step_client_recv l m q files own :
    s2c l = m :: q -> proxyfs_task_handle_msg (cf l) m.1 m.2 = Some (files, own) ->
    step l Tau (mk_link files (sf l) (c2s l) q)
| step_server_send l id kb km r info res p' m :
    find_real (sf l) id = Some r ->
    proxyfs_task_send_write_buf kb km info (parent r) = Some (res, p', m) ->
    step l (ServerSent id (lost_bytes (parent r) p' m))
      (mk_link (cf l) (store_real id (with_parent p' r) (sf l)) (c2s l) (s2c l ++ msg_list m))
| step_server_recv l m q files own :
    c2s l = m :: q -> proxyfs_task_handle_msg (parent <$> sf l) m.1 m.2 = Some (files, own) ->
    step l Tau (mk_link (cf l) (zip_with with_parent files (sf l)) q (s2c l))
| step_server_round l id mem r r' ms b :
    find_real (sf l) id = Some r -> server_process_file mem r = Some (Some r', ms) ->
    contents (wbuf r') = contents (wbuf r) ++ b ->
    step l (Fetched id b) (mk_link (cf l) (store_real id r' (sf l)) (c2s l) (s2c l ++ (content <$> ms))).

Inductive run : link -> list label -> link -> Prop :=
| run_nil l : run l [] l
| run_snoc l tr l1 e l2 : run l tr l1 -> step l1 e l2 -> run l (tr ++ [e]) l2.

(** ** The histories of a file *)

Definition user_data (id : Z) (e : label) : list Z :=
  match e with UserWrote j u _ => if j =? id then u else [] | _ => [] end.
Definition stored_data (id : Z) (e : label) : list Z :=
  match e with UserWrote j _ b => if j =? id then b else [] | _ => [] end.
Definition read_data (id : Z) (e : label) : list Z :=
  match e with UserRead j b => if j =? id then b else [] | _ => [] end.
Definition fetched_data (id : Z) (e : label) : list Z :=
  match e with Fetched j b => if j =? id then b else [] | _ => [] end.

(** The bytes of the file that were lost on their way to the server, and to the client. *)
Definition lost_up (id : Z) (e : label) : Z :=
  match e with ClientSent j n => if j =? id then n else 0 | _ => 0 end.
Definition lost_down (id : Z) (e : label) : Z :=
  match e with ServerSent j n => if j =? id then n else 0 | _ => 0 end.
Definition lost (f : Z -> label -> Z) (id : Z) (tr : list label) : Z := foldr Z.add 0 (f id <$> tr).

Definition fine_access (e : label) : Prop := match e with BadAccess _ => False | _ => True end.

Lemma lost_snoc f id tr e : lost f id (tr ++ [e]) = lost f id tr + f id e.
Proof.
  unfold lost. rewrite fmap_app. induction (f id <$> tr) as [|x l IH]; cbn in *; lia.
Qed.

Definition hist (f : Z -> label -> list Z) (id : Z) (tr : list label) : list Z := concat (f id <$> tr).

Lemma hist_snoc f id tr e : hist f id (tr ++ [e]) = hist f id tr ++ f id e.
Proof. unfold hist. rewrite fmap_app, concat_app. simpl. by rewrite app_nil_r. Qed.

(** ** One direction of one file *)

(** [a] sends and [b] receives; [wr] was written to [a], [co] was taken from [b], and [n] bytes
    were lost.  What was lost is not written again, and the rest keeps its order. *)
Definition ahead (a b : proxyfs_file_t) (fwd : list pmsg) (id : Z) : list Z :=
  contents (read_buf b) ++ in_flight id fwd ++ unsent a.

Record dir (a b : proxyfs_file_t) (fwd bwd : list pmsg) (id : Z) (wr co : list Z) (n : Z) : Prop := {
  d_tx : file_wf a;
  d_rx : file_wf b;
  d_lost : 0 <= n;
  d_data : n = 0 -> wr = co ++ ahead a b fwd id;
  d_sub : co ++ ahead a b fwd id `sublist_of` wr;
  d_count : write_buf_unconfirmed a = acks id bwd + amount (read_buf b) + zlen (in_flight id fwd) + n
}.

Lemma dir_ext a b fwd bwd id wr co n a' b' fwd' bwd' wr' co' n' :
  dir a b fwd bwd id wr co n -> file_wf a' -> file_wf b' ->
  write_buf a' = write_buf a -> write_buf_unconfirmed a' = write_buf_unconfirmed a ->
  read_buf b' = read_buf b -> in_flight id fwd' = in_flight id fwd -> acks id bwd' = acks id bwd ->
  wr' = wr -> co' = co -> n' = n -> dir a' b' fwd' bwd' id wr' co' n'.
Proof.
  intros [? ? ? E1 E2 E3] ? ? Hw Hu Hr Hf Ha -> -> ->.
  assert (ahead a' b' fwd' id = ahead a b fwd id) as E by (unfold ahead, unsent; congruence).
  split; [done..| | |congruence]; by rewrite E.
Qed.

(** There is room in the receiver's buffer for all that is in flight. *)
Lemma dir_room a b fwd bwd id wr co n :
  dir a b fwd bwd id wr co n -> Forall msg_ok bwd ->
  amount (read_buf b) + zlen (in_flight id fwd) <= READ_BUF_SIZE.
Proof.
  intros [Ha Hb Hn _ _ Hc] Hok. pose proof (acks_nonneg id bwd Hok). pose proof (wbuf_amount a Ha).
  pose proof (fw_unconfirmed _ Ha). rewrite READ_BUF_SIZE_eq. lia.
Qed.

Lemma dir_produce a b fwd bwd id wr co n d a' :
  dir a b fwd bwd id wr co n -> produced a d a' -> dir a' b fwd bwd id (wr ++ d) co n.
Proof.
  intros [Ha Hb Hn Hd Hs Hc] (Ha' & _ & _ & Hu & Hw).
  assert (ahead a' b fwd id = ahead a b fwd id ++ d) as E.
  { unfold ahead. rewrite <- !app_assoc. do 2 f_equal. unfold unsent. rewrite Hu, Hw.
    pose proof (fw_unconfirmed _ Ha). pose proof (zlen_contents _ (fw_write _ Ha)) as Hz.
    unfold zdrop. rewrite drop_app_le; [done|]. unfold zlen in Hz. lia. }
  split; [done..| | |congruence]; rewrite E, app_assoc; [intros ->; by rewrite Hd|by apply sublist_app].
Qed.

Lemma dir_consume a b fwd bwd id wr co n d b' bwd' :
  dir a b fwd bwd id wr co n -> consumed_from b d b' -> acks id bwd' = acks id bwd + zlen d ->
  dir a b' fwd bwd' id wr (co ++ d) n.
Proof.
  intros [Ha Hb Hn Hd Hs Hc] (Hb' & _ & _ & _ & Hr) Hk.
  assert (co ++ ahead a b fwd id = (co ++ d) ++ ahead a b' fwd id) as E
    by (unfold ahead; by rewrite Hr, <- !app_assoc).
  rewrite E in Hd, Hs. split; [done..|].
  rewrite Hc, Hk. pose proof (zlen_contents _ (fw_read _ Hb)) as Hz. rewrite Hr, zlen_app in Hz.
  pose proof (zlen_contents _ (fw_read _ Hb')). lia.
Qed.

(** The sender's task makes a message, or fails to. *)
Lemma dir_send a b fwd bwd id wr co n kb km info res a' m :
  dir a b fwd bwd id wr co n -> is_Some (peer a) -> proxyfs_file_get_file_ident a = id ->
  proxyfs_task_send_write_buf kb km info a = Some (res, a', m) ->
  dir a' b (fwd ++ msg_list m) bwd id wr co (n + lost_bytes a a' m) /\ keeps a a' /\ read_buf a' = read_buf a /\
  Forall msg_ok (msg_list m) /\ (forall j, acks j (msg_list m) = 0) /\
  (forall j, j <> id -> in_flight j (msg_list m) = []).
Proof.
  intros Hdir Hp Hid E. pose proof Hdir as [Ha Hb Hn Hd Hs Hc].
  assert (Hno : forall fwd' n', fwd' = fwd ++ [] -> n' = n + lost_bytes a a None -> dir a b fwd' bwd id wr co n').
  { unfold lost_bytes. intros ? ? -> ->. cbn [msg_list fmap list_fmap concat]. rewrite app_nil_r, zlen_nil. by replace (n + _) with n by lia. }
  destruct (decide (unsent a = [])) as [Hu|Hu].
  { rewrite send_write_buf_idle in E by done. injection E as <- <- <-. split_and!; try done. by apply Hno. }
  destruct (send_write_buf_step kb km info a Ha Hp Hu) as (f' & Hun & Hw & Hf' & Hk & Hr & Hu' & E').
  rewrite E' in E. clear E'.
  assert (Hpos : 0 <= next_size a <= zlen (unsent a)).
  { unfold next_size. pose proof (zlen_nonneg (unsent a)). change (MSG_MAX_SIZE - MSG_HDR_SIZE) with 4064. lia. }
  destruct kb; cbn [negb] in E; [|injection E as <- <- <-; split_and!; try done; by apply Hno].
  destruct (decide (next_size a = 0)) as [Hz0|Hz0].
  { exfalso. unfold next_size in Hz0. change (MSG_MAX_SIZE - MSG_HDR_SIZE) with 4064 in Hz0.
    destruct (unsent a) as [|x u]; [done|]. rewrite zlen_cons in Hz0. pose proof (zlen_nonneg u). lia. }
  assert (Hz : zlen (ztake (next_size a) (unsent a)) = next_size a) by (rewrite zlen_ztake; lia).
  destruct km; cbn [negb] in E; injection E as <- <- <-; unfold lost_bytes; cbn [msg_list].
  2: { split_and!; try done. rewrite app_nil_r, Hun. cbn [fmap list_fmap concat]. rewrite zlen_nil. split; [done|done|lia|lia| |lia].
       etrans; [|exact Hs]. unfold ahead. rewrite Hu'. do 3 (apply sublist_app; [done|]).
       unfold zdrop. apply sublist_drop. }
  rewrite Hid, Hun.
  set (m := content _). assert (Hm : m = (mk_hdr MSG_MAGIC MSG_WRITE id (next_size a), ztake (next_size a) (unsent a))).
  { subst m. unfold content. cbn [header data data_size]. by rewrite ztake_ztake_le by lia. }
  assert (Hf : in_flight id [m] = ztake (next_size a) (unsent a)).
  { rewrite Hm. simpl. unfold is_msg. simpl. by rewrite Z.eqb_refl, app_nil_r. }
  assert (Hm2 : zlen (concat (snd <$> [m])) = next_size a) by (rewrite Hm; cbn; by rewrite app_nil_r).
  assert (E : ahead f' b (fwd ++ [m]) id = ahead a b fwd id).
  { unfold ahead. by rewrite in_flight_app, Hf, Hu', <- app_assoc, ztake_zdrop. }
  rewrite Hm2. replace (n + _) with n by lia. split_and!; [|done|done|..].
  { split; [done|done|done|by rewrite E|by rewrite E|]. rewrite in_flight_app, Hf, zlen_app, Hz, Hun, Hc. lia. }
  all: rewrite Hm; clear - Hz.
  - constructor; [|done]. split; simpl; [done|]. intros [=].
  - done.
  - intros j Hj. simpl. unfold is_msg. simpl. by replace (id =? j) with false by lia.
Qed.

(** The receiver's task handles a data message. *)
Lemma dir_recv a b m q bwd id wr co n :
  dir a b (m :: q) bwd id wr co n -> Forall msg_ok bwd -> is_msg MSG_WRITE id m = true -> msg_ok m ->
  exists b', proxyfs_file_write_from_peer b m.2 (data_size m.1) = Some (data_size m.1, b') /\
    dir a b' q bwd id wr co n /\ keeps b b' /\ write_buf b' = write_buf b /\
    write_buf_unconfirmed b' = write_buf_unconfirmed b.
Proof.
  intros Hdir Hok Hm [Hs _]. pose proof (dir_room _ _ _ _ _ _ _ _ Hdir Hok) as Hroom.
  pose proof Hdir as [Ha Hb Hn Hd Hsub Hc]. unfold ahead in Hd, Hsub. cbn [in_flight] in *.
  rewrite Hm in *. rewrite zlen_app in *.
  unfold is_msg in Hm. apply andb_true_iff in Hm as [Hw _]. apply Z.eqb_eq in Hw. rewrite (Hs Hw).
  pose proof (zlen_nonneg m.2). pose proof (zlen_nonneg (in_flight id q)).
  destruct (write_from_peer_spec b m.2 (zlen m.2) Hb) as (b' & E & Hb' & Hk & Hwb & Hu & Hr); [lia|lia|].
  rewrite ztake_all in Hr by lia. exists b'. split_and!; try done.
  split; [done|done|done|..]; unfold ahead; rewrite ?Hr, <- ?app_assoc; rewrite <- ?app_assoc in Hd; rewrite <- ?app_assoc in Hsub; [done|done|].
  rewrite Hc. rewrite <- !zlen_contents, Hr, zlen_app by (apply Hb || apply Hb'). lia.
Qed.

(** The sender's task handles a confirmation. *)
Lemma dir_ack a b fwd m q id wr co n :
  dir a b fwd (m :: q) id wr co n -> Forall msg_ok (m :: q) -> is_msg MSG_WRITE_RESP id m = true ->
  let a' := proxyfs_file_submit_read_to_peer a (le_value (ztake 4 m.2)) in
  dir a' b fwd q id wr co n /\ keeps a a' /\ read_buf a' = read_buf a.
Proof.
  intros Hdir Hok Hm a'. pose proof Hdir as [Ha Hb Hz Hd Hs Hc]. cbn [acks] in Hc. rewrite Hm in Hc.
  inversion Hok as [|? ? [_ Hn] Hq]; subst. pose proof (acks_nonneg id q Hq).
  pose proof (amount_range _ (fw_read _ Hb)). pose proof (zlen_nonneg (in_flight id fwd)).
  unfold is_msg in Hm. apply andb_true_iff in Hm as [E _]. apply Z.eqb_eq in E. specialize (Hn E).
  destruct (submit_spec a (le_value (ztake 4 m.2)) Ha) as (Ha' & Hk & Hr & Hu & Hun); [lia|].
  split_and!; try done. subst a'.
  split; [done|done|done|unfold ahead; by rewrite Hun|unfold ahead; by rewrite Hun|]. rewrite Hu, Hc. lia.
Qed.

(** *** The list of real files *)

Lemma find_real_parent l id :
  proxyfs_task_find_file (parent <$> l) id = parent <$> find_real l id.
Proof.
  unfold proxyfs_task_find_file. induction l as [|r l IH]; simpl; [done|]. by destruct (_ =? id).
Qed.

Lemma find_real_ident l id r : find_real l id = Some r -> proxyfs_file_get_file_ident (parent r) = id.
Proof.
  intros E. apply (find_ident (parent <$> l)). by rewrite find_real_parent, E.
Qed.

Lemma find_real_store_same l id r r' :
  find_real l id = Some r -> keeps (parent r) (parent r') -> find_real (store_real id r' l) id = Some r'.
Proof.
  intros E Hk. pose proof (find_real_ident _ _ _ E) as Hi. rewrite <- (keeps_ident _ _ Hk) in Hi.
  revert E. induction l as [|q l IH]; simpl; [done|].
  destruct (_ =? id) eqn:E; simpl; [by rewrite Hi, Z.eqb_refl|by rewrite E].
Qed.

Lemma find_real_store_other l id j r r' :
  j <> id -> find_real l j = Some r -> keeps (parent r) (parent r') ->
  find_real (store_real j r' l) id = find_real l id.
Proof.
  intros Hne E Hk. pose proof (find_real_ident _ _ _ E) as Hi. rewrite <- (keeps_ident _ _ Hk) in Hi.
  revert E. induction l as [|q l IH]; simpl; [done|]. destruct (_ =? j) eqn:E; simpl; bool_hyps.
  - intros [= ->]. rewrite Hi, E. by replace (j =? id) with false by lia.
  - intros Hf. by rewrite IH.
Qed.

Lemma with_parent_id (r : proxyfs_real_file B) : with_parent (parent r) r = r.
Proof. by destruct r. Qed.

Lemma zip_parents (l : list (proxyfs_real_file B)) : zip_with with_parent (parent <$> l) l = l.
Proof.
  induction l as [|r l IH]; [done|]. rewrite fmap_cons. cbn [zip_with]. by rewrite IH, with_parent_id.
Qed.

Lemma zip_store l id g r :
  find_real l id = Some r -> zip_with with_parent (store_file id g (parent <$> l)) l = store_real id (with_parent g r) l.
Proof.
  induction l as [|q l IH]; [done|]. rewrite fmap_cons. cbn [find_real store_file store_real].
  destruct (_ =? id) eqn:E; cbn [zip_with].
  - intros [= ->]. by rewrite zip_parents.
  - intros Hr. by rewrite IH, with_parent_id.
Qed.

(** ** The invariant *)

(** [co] is what the server's file took from its read buffer, and [sink0] what the real
    files held at the start. *)
Context (sink0 : Z -> list Z).

Definition sink_rel (id : Z) (r : proxyfs_real_file B) (co : list Z) : Prop :=
  exists out, sink (f_body r) = sink0 id ++ out /\
    if is_pipe id then drun ([], 0) co = (out, ([], write_counter r)) else out = co.

Definition framing (id : Z) (stored user : list Z) : Prop :=
  if is_pipe id then drun ([], 0) stored = (user, ([], 0)) else stored = user.

Definition kind_ok (id : Z) (r : proxyfs_real_file B) : Prop :=
  match real_ops r with
  | Some pipe_real_file_ops => is_pipe id = true
  | Some _ => is_pipe id = false
  | None => False
  end.

Record pair_inv (l : link) (tr : list label) (id : Z) (a : proxyfs_file_t) (r : proxyfs_real_file B) : Prop := {
  pi_peers : is_Some (peer a) /\ is_Some (peer (parent r));
  pi_wf : real_wf r;
  pi_kind : kind_ok id r;
  pi_c2s : exists co, dir a (parent r) (c2s l) (s2c l) id (hist stored_data id tr) co (lost lost_up id tr) /\ sink_rel id r co;
  pi_s2c : dir (parent r) a (s2c l) (c2s l) id (hist fetched_data id tr) (hist read_data id tr) (lost lost_down id tr);
  pi_framing : framing id (hist stored_data id tr) (hist user_data id tr)
}.

Definition both (id : Z) (l : link) (P : proxyfs_file_t -> proxyfs_real_file B -> Prop) : Prop :=
  match proxyfs_task_find_file (cf l) id, find_real (sf l) id with
  | Some a, Some r => P a r
  | None, None => True
  | _, _ => False
  end.

Record inv (l : link) (tr : list label) : Prop := {
  iv_c2s : Forall msg_ok (c2s l);
  iv_s2c : Forall msg_ok (s2c l);
  iv_pair id : both id l (pair_inv l tr id)
}.

(** A step that does not concern file [id]. *)
Record quiet (id : Z) (l : link) (e : label) (l' : link) : Prop := {
  q_data1 : in_flight id (c2s l') = in_flight id (c2s l);
  q_data2 : in_flight id (s2c l') = in_flight id (s2c l);
  q_acks1 : acks id (c2s l') = acks id (c2s l);
  q_acks2 : acks id (s2c l') = acks id (s2c l);
  q_hist f : In f [user_data; stored_data; read_data; fetched_data] -> f id e = [];
  q_lost : lost_up id e = 0 /\ lost_down id e = 0;
  q_client : proxyfs_task_find_file (cf l') id = proxyfs_task_find_file (cf l) id;
  q_server : find_real (sf l') id = find_real (sf l) id
}.

Lemma quiet_hist id l e l' f tr :
  quiet id l e l' -> In f [user_data; stored_data; read_data; fetched_data] ->
  hist f id (tr ++ [e]) = hist f id tr.
Proof. intros Hq Hf. by rewrite hist_snoc, (q_hist _ _ _ _ Hq f Hf), app_nil_r. Qed.

Lemma quiet_pair id l e l' tr a r :
  quiet id l e l' -> pair_inv l tr id a r -> pair_inv l' (tr ++ [e]) id a r.
Proof.
  intros Hq [Hp Hw Hk (co & Hd & Hs) Hd2 Hfr].
  assert (Hh : forall f, In f [user_data; stored_data; read_data; fetched_data] -> hist f id (tr ++ [e]) = hist f id tr)
    by (intros; by eapply quiet_hist).
  assert (Hl : lost lost_up id (tr ++ [e]) = lost lost_up id tr /\ lost lost_down id (tr ++ [e]) = lost lost_down id tr).
  { rewrite !lost_snoc. destruct (q_lost _ _ _ _ Hq) as [-> ->]. lia. }
  split; [done|done|done|..].
  - exists co. split; [|done]. apply (dir_ext _ _ _ _ _ _ _ _ _ _ _ _ _ _ _ Hd);
      [apply Hd|apply Hd|done|done|done|apply Hq|apply Hq|apply Hh; simpl; tauto|done|apply Hl].
  - apply (dir_ext _ _ _ _ _ _ _ _ _ _ _ _ _ _ _ Hd2);
      [apply Hd2|apply Hd2|done|done|done|apply Hq|apply Hq|apply Hh; simpl; tauto|apply Hh; simpl; tauto|apply Hl].
  - rewrite !Hh by (simpl; tauto). done.
Qed.

Lemma quiet_both id l e l' tr :
  quiet id l e l' -> both id l (pair_inv l tr id) -> both id l' (pair_inv l' (tr ++ [e]) id).
Proof.
  intros Hq. unfold both. rewrite (q_client _ _ _ _ Hq), (q_server _ _ _ _ Hq).
  destruct (proxyfs_task_find_file _ _), (find_real _ _); try done. by apply quiet_pair.
Qed.

(** A step of file [j]. *)
Lemma inv_step l e l' tr j a' r' :
  inv l tr -> Forall msg_ok (c2s l') -> Forall msg_ok (s2c l') ->
  (forall id, id <> j -> quiet id l e l') ->
  proxyfs_task_find_file (cf l') j = Some a' -> find_real (sf l') j = Some r' ->
  pair_inv l' (tr ++ [e]) j a' r' -> inv l' (tr ++ [e]).
Proof.
  intros Hi H1 H2 Hq Ha Hr Hp. split; [done|done|]. intros id. destruct (decide (id = j)) as [->|Hne].
  - unfold both. by rewrite Ha, Hr.
  - eapply quiet_both; [by apply Hq|apply Hi].
Qed.

(** A step of no file. *)
Lemma inv_quiet l e l' tr :
  inv l tr -> Forall msg_ok (c2s l') -> Forall msg_ok (s2c l') ->
  (forall id, is_Some (proxyfs_task_find_file (cf l) id) -> quiet id l e l') ->
  (forall id, proxyfs_task_find_file (cf l') id = proxyfs_task_find_file (cf l) id /\
              find_real (sf l') id = find_real (sf l) id) ->
  inv l' (tr ++ [e]).
Proof.
  intros Hi H1 H2 Hq Hs. split; [done|done|]. intros id. pose proof (iv_pair _ _ Hi id) as Hb.
  destruct (proxyfs_task_find_file (cf l) id) as [a|] eqn:Ea.
  - eapply quiet_both; [by apply Hq; rewrite Ea|done].
  - unfold both in *. destruct (Hs id) as [-> ->]. rewrite Ea in *. by destruct (find_real _ _).
Qed.

(** ** Every step preserves it *)

Lemma inv_client l tr id a :
  inv l tr -> proxyfs_task_find_file (cf l) id = Some a ->
  exists r, find_real (sf l) id = Some r /\ pair_inv l tr id a r.
Proof.
  intros Hi Ha. pose proof (iv_pair _ _ Hi id) as Hb. unfold both in Hb. rewrite Ha in Hb.
  destruct (find_real _ _) as [r|]; [eauto|done].
Qed.

Lemma inv_server l tr id r :
  inv l tr -> find_real (sf l) id = Some r ->
  exists a, proxyfs_task_find_file (cf l) id = Some a /\ pair_inv l tr id a r.
Proof.
  intros Hi Hr. pose proof (iv_pair _ _ Hi id) as Hb. unfold both in Hb. rewrite Hr in Hb.
  destruct (proxyfs_task_find_file _ _) as [a|]; [eauto|done].
Qed.

(** Only file [j] is concerned. *)
Definition about (j : Z) (e : label) : Prop :=
  forall id, id <> j ->
    (forall f, In f [user_data; stored_data; read_data; fetched_data] -> f id e = []) /\
    lost_up id e = 0 /\ lost_down id e = 0.
Definition msgs_of (j : Z) (ms : list pmsg) : Prop :=
  forall id, id <> j -> in_flight id ms = [] /\ acks id ms = 0.

Lemma about_label j e :
  match e with
  | UserWrote i _ _ | UserRead i _ | Fetched i _ | ClientSent i _ | ServerSent i _ | BadAccess i => i = j
  | Tau => True
  end -> about j e.
Proof.
  intros He id Hid. assert (Hj : (j =? id) = false) by lia. split.
  - intros f Hf. simpl in Hf. destruct e; subst; destruct Hf as [<-|[<-|[<-|[<-|[]]]]]; simpl; try done;
      by rewrite Hj.
  - destruct e; subst; simpl; rewrite ?Hj; done.
Qed.

Lemma msgs_of_nil j : msgs_of j [].
Proof. done. Qed.

Lemma quiet_client l e j a a' ms :
  proxyfs_task_find_file (cf l) j = Some a -> keeps a a' -> about j e -> msgs_of j ms ->
  forall id, id <> j -> quiet id l e (mk_link (store_file j a' (cf l)) (sf l) (c2s l ++ ms) (s2c l)).
Proof.
  intros Ha Hk He Hm id Hid. destruct (Hm id Hid) as [E1 E2].
  split; cbn [cf sf c2s s2c]; rewrite ?in_flight_app, ?acks_app, ?E1, ?E2, ?app_nil_r; try done; [lia|apply He, Hid|apply He, Hid|].
  eapply find_store_other; eauto.
Qed.

Lemma quiet_server l e j r r' ms :
  find_real (sf l) j = Some r -> keeps (parent r) (parent r') -> about j e -> msgs_of j ms ->
  forall id, id <> j -> quiet id l e (mk_link (cf l) (store_real j r' (sf l)) (c2s l) (s2c l ++ ms)).
Proof.
  intros Ha Hk He Hm id Hid. destruct (Hm id Hid) as [E1 E2].
  split; cbn [cf sf c2s s2c]; rewrite ?in_flight_app, ?acks_app, ?E1, ?E2, ?app_nil_r; try done; [lia|apply He, Hid|apply He, Hid|].
  eapply find_real_store_other; eauto.
Qed.

Lemma resp_effect id j n : 0 <= n < 2 ^ 32 ->
  in_flight id [resp_msg j n] = [] /\ acks id [resp_msg j n] = (if j =? id then n else 0) /\ msg_ok (resp_msg j n).
Proof.
  intros Hn. assert (E : le_value (ztake 4 (le_bytes 4 n)) = n).
  { rewrite ztake_all by (unfold zlen; rewrite le_bytes_length; lia). rewrite le_value_le_bytes.
    apply Z.mod_small. lia. }
  split; [done|]. unfold msg_ok. cbn [acks resp_msg fst snd msg_num]. rewrite E. unfold is_msg.
  cbn [fst msg_num file_ident]. rewrite Z.eqb_refl. simpl. split; [destruct (_ =? _); lia|]. split; [discriminate|lia].
Qed.

Lemma round_effect id j n eof : 0 <= n < 2 ^ 32 ->
  in_flight id (round_msgs j n eof) = [] /\ acks id (round_msgs j n eof) = (if j =? id then n else 0) /\
  Forall msg_ok (round_msgs j n eof).
Proof.
  intros Hn. destruct (resp_effect id j n Hn) as (E1 & E2 & E3). unfold round_msgs.
  assert (He : forall b : bool, let q : list pmsg := if b then [(mk_hdr MSG_MAGIC MSG_WRITE j 0, [])] else [] in
    in_flight id q = [] /\ acks id q = 0 /\ Forall msg_ok q).
  { intros []; cbv zeta; [|done]. split; [simpl; by case_goal|]. split; [done|]. constructor; [|done].
    split; simpl; done. }
  destruct (He eof) as (F1 & F2 & F3). rewrite in_flight_app, acks_app, F1, F2, Forall_app.
  destruct (0 <? n) eqn:E.
  - rewrite E1, E2. split_and!; [done|lia|by constructor|done].
  - split_and!; [done| |done|done]. simpl. destruct (_ =? _); blia.
Qed.

Lemma resp_msgs_of j n : 0 <= n < 2 ^ 32 -> msgs_of j [resp_msg j n].
Proof.
  intros Hn id Hid. destruct (resp_effect id j n Hn) as (E1 & E2 & _). split; [done|].
  rewrite E2. by replace (j =? id) with false by lia.
Qed.
Lemma round_msgs_of j n eof : 0 <= n < 2 ^ 32 -> msgs_of j (round_msgs j n eof).
Proof.
  intros Hn id Hid. destruct (round_effect id j n eof Hn) as (E1 & E2 & _). split; [done|].
  rewrite E2. by replace (j =? id) with false by lia.
Qed.

Lemma zlen_consumed f d f' : file_wf f -> consumed_from f d f' -> 0 <= zlen d < 2 ^ 32.
Proof.
  intros Hf (Hf' & _ & _ & _ & E). pose proof (rbuf_amount f Hf) as Ha.
  rewrite <- zlen_contents, E, zlen_app in Ha by apply Hf. pose proof (zlen_nonneg d).
  pose proof (zlen_nonneg (contents (read_buf f'))). lia.
Qed.

Lemma framing_snoc id k s u n user :
  ops_match id k -> n <= zlen user -> framing id s u -> zlen user < 2 ^ 32 \/ n < 2 ^ 31 ->
  framing id (s ++ written_bytes k n user) (u ++ ztake n user).
Proof.
  intros Hk Hn. unfold framing, written_bytes. destruct k; simpl in Hk; rewrite Hk; [intros -> _; done|].
  intros Hf Hl. rewrite drun_app, Hf. destruct (n <? 0) eqn:E; bool_hyps.
  - simpl. by rewrite ztake_0 by lia.
  - pose proof (zlen_nonneg user). rewrite drun_frame; [done|lia|rewrite zlen_ztake; lia].
Qed.

Ltac hist_simpl :=
  cbn [c2s s2c cf sf]; rewrite ?hist_snoc, ?lost_snoc;
  cbn [stored_data user_data read_data fetched_data lost_up lost_down];
  rewrite ?Z.eqb_refl, ?app_nil_r, ?Z.add_0_r.

(** A write that fails the check of the address changes nothing. *)
Lemma write_user_cases k ok a user count :
  file_wf a -> 0 <= count < 2 ^ 31 -> (ok = true -> count <= zlen user) ->
  exists n a', proxyfs_proxy_file_write_user k ok a user count = Some (n, a') /\
    produced a (written_bytes k n user) a' /\ n < 2 ^ 31 /\ n <= zlen user.
Proof.
  intros Ha Hc Hu. destruct ok.
  - destruct (proxy_write_user_spec k a user count Ha Hc (Hu eq_refl)) as (n & a' & E & Hp & Hn).
    specialize (Hu eq_refl). exists n, a'. split_and!; try done; lia.
  - exists (- EFAULT), a. pose proof (zlen_nonneg user). assert (- EFAULT < 0) by done.
    split_and!; [by destruct k| |lia|lia]. replace (written_bytes _ _ _) with (@nil Z).
    + split_and!; try done. by rewrite app_nil_r.
    + destruct k; [|done]. simpl. by rewrite ztake_0 by lia.
Qed.

Lemma inv_user_write l tr id k ok a user count n a' :
  inv l tr -> proxyfs_task_find_file (cf l) id = Some a -> ops_match id k ->
  0 <= count < 2 ^ 31 -> (ok = true -> count <= zlen user) ->
  proxyfs_proxy_file_write_user k ok a user count = Some (n, a') ->
  inv (mk_link (store_file id a' (cf l)) (sf l) (c2s l) (s2c l))
    (tr ++ [UserWrote id (ztake n user) (written_bytes k n user)]).
Proof.
  intros Hi Ha Hk Hc Hu E. destruct (inv_client _ _ _ _ Hi Ha) as (r & Hr & [Hp Hw Hkd (co & Hd & Hs) Hd2 Hfr]).
  destruct (write_user_cases k ok a user count (d_tx _ _ _ _ _ _ _ _ Hd) Hc Hu) as (n' & a1 & E' & Hpr & Hn & Hnu).
  rewrite E in E'. injection E' as <- <-. pose proof Hpr as (Ha' & Hkp & Hrb & Hun & _).
  pose proof (quiet_client l _ id a a' [] Ha Hkp
    (about_label id (UserWrote id (ztake n user) (written_bytes k n user)) eq_refl) (msgs_of_nil id)) as Hq.
  rewrite app_nil_r in Hq.
  eapply inv_step; [exact Hi|apply Hi|apply Hi|exact Hq|by eapply find_store_same|exact Hr|].
  split; hist_simpl.
  - destruct Hp. split; [by rewrite (kp_peer _ _ Hkp)|done].
  - done.
  - done.
  - exists co. split; [by eapply dir_produce|done].
  - apply (dir_ext _ _ _ _ _ _ _ _ _ _ _ _ _ _ _ Hd2); try done. apply Hd.
  - apply framing_snoc; [done|lia|done|lia].
Qed.

(** The confirmation of a read needs memory. *)
Lemma read_user_memory k ok mem a lim count x :
  proxyfs_proxy_file_read_user k ok mem a lim count = Some x -> mem = true.
Proof.
  unfold proxyfs_proxy_file_read_user. destruct (virtual_proxyfs_proxy_file_read_user _ _ _ _ _) as [[[r d] f]|]; [|done].
  by destruct mem.
Qed.

Lemma inv_user_read l tr id k ok mem a lim count n d a' msg :
  inv l tr -> proxyfs_task_find_file (cf l) id = Some a ->
  0 <= count < 2 ^ 31 -> read_fine k ok a lim count ->
  proxyfs_proxy_file_read_user k ok mem a lim count = Some (n, d, a', msg) ->
  inv (mk_link (store_file id a' (cf l)) (sf l) (c2s l ++ [content msg]) (s2c l)) (tr ++ [UserRead id d]).
Proof.
  intros Hi Ha Hc (-> & Hl & Hal) E. pose proof (read_user_memory _ _ _ _ _ _ _ E) as ->. destruct (inv_client _ _ _ _ Hi Ha) as (r & Hr & [Hp Hw Hkd (co & Hd & Hs) Hd2 Hfr]).
  pose proof (d_tx _ _ _ _ _ _ _ _ Hd) as Hwf.
  destruct (proxy_read_user_spec k a lim count Hwf Hal Hc Hl) as (d' & a1 & m & E' & _ & Hcn & Hm).
  rewrite E in E'. injection E' as -> <- <- <-. rewrite Hm. rewrite (find_ident _ _ _ Ha).
  pose proof (zlen_consumed _ _ _ Hwf Hcn) as Hz. pose proof Hcn as (Ha' & Hkp & Hwb & Hun & _).
  destruct (resp_effect id id (zlen d) Hz) as (R1 & R2 & R3). rewrite Z.eqb_refl in R2.
  eapply inv_step; [exact Hi| |apply Hi| |by eapply find_store_same|exact Hr|].
  - cbn [c2s]. apply Forall_app. split; [apply Hi|by constructor].
  - eapply quiet_client; eauto; [by apply about_label|by apply resp_msgs_of].
  - split; hist_simpl.
    + destruct Hp. split; [by rewrite (kp_peer _ _ Hkp)|done].
    + done.
    + done.
    + exists co. split; [|done]. apply (dir_ext _ _ _ _ _ _ _ _ _ _ _ _ _ _ _ Hd); try done; [apply Hd|].
      by rewrite in_flight_app, R1, app_nil_r.
    + eapply dir_consume; [exact Hd2|exact Hcn|]. by rewrite acks_app, R2.
    + done.
Qed.

Lemma inv_client_send l tr id kb km a info res a' m :
  inv l tr -> proxyfs_task_find_file (cf l) id = Some a ->
  proxyfs_task_send_write_buf kb km info a = Some (res, a', m) ->
  inv (mk_link (store_file id a' (cf l)) (sf l) (c2s l ++ msg_list m) (s2c l))
    (tr ++ [ClientSent id (lost_bytes a a' m)]).
Proof.
  intros Hi Ha E. destruct (inv_client _ _ _ _ Hi Ha) as (r & Hr & [Hp Hw Hkd (co & Hd & Hs) Hd2 Hfr]).
  destruct (dir_send _ _ _ _ _ _ _ _ _ _ _ _ _ _ Hd (proj1 Hp) (find_ident _ _ _ Ha) E) as (Hd' & Hkp & Hrb & Hok & Hk0 & Hf0).
  eapply inv_step; [exact Hi| |apply Hi| |by eapply find_store_same|exact Hr|].
  - cbn [c2s]. apply Forall_app. split; [apply Hi|done].
  - eapply quiet_client; eauto; [by apply about_label|]. intros i Hne. split; [by apply Hf0|apply Hk0].
  - split; hist_simpl.
    + destruct Hp. split; [by rewrite (kp_peer _ _ Hkp)|done].
    + done.
    + done.
    + by exists co.
    + apply (dir_ext _ _ _ _ _ _ _ _ _ _ _ _ _ _ _ Hd2); try done; [apply Hd2|apply Hd'|].
      by rewrite acks_app, Hk0, Z.add_0_r.
    + done.
Qed.

Lemma inv_server_send l tr id kb km r info res p' m :
  inv l tr -> find_real (sf l) id = Some r ->
  proxyfs_task_send_write_buf kb km info (parent r) = Some (res, p', m) ->
  inv (mk_link (cf l) (store_real id (with_parent p' r) (sf l)) (c2s l) (s2c l ++ msg_list m))
    (tr ++ [ServerSent id (lost_bytes (parent r) p' m)]).
Proof.
  intros Hi Hr E. destruct (inv_server _ _ _ _ Hi Hr) as (a & Ha & [Hp Hw Hkd (co & Hd & Hs) Hd2 Hfr]).
  destruct (dir_send _ _ _ _ _ _ _ _ _ _ _ _ _ _ Hd2 (proj2 Hp) (find_real_ident _ _ _ Hr) E) as (Hd' & Hkp & Hrb & Hok & Hk0 & Hf0).
  eapply inv_step; [exact Hi|apply Hi| | |exact Ha|by eapply find_real_store_same|].
  - cbn [s2c]. apply Forall_app. split; [apply Hi|done].
  - eapply quiet_server; eauto; [by apply about_label|]. intros i Hne. split; [by apply Hf0|apply Hk0].
  - split; hist_simpl.
    + destruct Hp. split; [done|simpl; by rewrite (kp_peer _ _ Hkp)].
    + destruct Hw as (_ & ? & ?). split_and!; [apply Hd'|done|done].
    + done.
    + exists co. split; [|done]. apply (dir_ext _ _ _ _ _ _ _ _ _ _ _ _ _ _ _ Hd); try done; [apply Hd|apply Hd'|].
      by rewrite acks_app, Hk0, Z.add_0_r.
    + done.
    + done.
Qed.

Lemma sink_rel_step id r co b out r1 :
  sink_rel id r co -> kind_ok id r -> real_step r b out r1 -> wrote r b out r1 -> sink_rel id r1 (co ++ b).
Proof.
  intros (o & E & Ho) Hk Hst (_ & Hs & _). exists (o ++ out). split; [by rewrite Hs, E, app_assoc|].
  unfold kind_ok, real_step in *. destruct (real_ops r) as [[]|]; [..|done]; rewrite Hk in *.
  - subst. destruct Hst as (_ & -> & _). done.
  - subst. destruct Hst as (_ & -> & _). done.
  - destruct Hst as (_ & Hd & _). by rewrite drun_app, Ho, Hd.
Qed.

Lemma real_step_wf r b out r1 : real_step r b out r1 -> real_wf r1.
Proof.
  unfold real_step. destruct (real_ops r) as [[]|]; [by intros (_ & _ & ?)|by intros (_ & _ & ?)| |by intros (_ & _ & ?)].
  by intros (_ & _ & ?).
Qed.

(** Without memory for a message, a round that needs none. *)
Lemma process_file_memory mem r x : server_process_file mem r = Some x -> server_process_file true r = Some x.
Proof.
  destruct mem; [done|]. unfold server_process_file.
  destruct (proxyfs_real_file_write r) as [[n r1]|]; [|done]. cbn [mbind option_bind].
  destruct (0 <? u32[n]), (peer (parent r)); try done; cbn [proxyfs_msg_compose_new mbind option_bind];
    destruct (_ && _); try done; destruct (_ =? 0); try done; destruct (proxyfs_real_file_read r1) as [k r2];
    by destruct (k =? 0).
Qed.

Lemma inv_server_round l tr id mem r r' ms b :
  atomic_pipe -> inv l tr -> find_real (sf l) id = Some r ->
  server_process_file mem r = Some (Some r', ms) -> contents (wbuf r') = contents (wbuf r) ++ b ->
  inv (mk_link (cf l) (store_real id r' (sf l)) (c2s l) (s2c l ++ (content <$> ms))) (tr ++ [Fetched id b]).
Proof.
  intros Hpipe Hi Hr E Hb. apply process_file_memory in E. destruct (inv_server _ _ _ _ Hi Hr) as (a & Ha & [Hp Hw Hkd (co & Hd & Hs) Hd2 Hfr]).
  assert (Hops : is_Some (real_ops r)) by (unfold kind_ok in Hkd; destruct (real_ops r); [eauto|done]).
  destruct (server_process_spec r Hw Hpipe Hops (proj2 Hp)) as (cb & out & r1 & res & ms' & eof & E' & Hst & Hwr & Hms & Hres).
  rewrite E in E'. injection E' as <- <-. destruct Hres as (d & Hft). rewrite Hms, (find_real_ident _ _ _ Hr).
  pose proof Hwr as (Hcn & Hsk & Hop & Hsh). pose proof Hft as (Hpr & Hsk2 & Hop2 & Hsh2 & Hwc2 & Hat2).
  pose proof (zlen_consumed _ _ _ (proj1 Hw) Hcn) as Hz. pose proof Hcn as (Hf1 & Hk1 & Hwb1 & Hun1 & _).
  pose proof Hpr as (Hf2 & Hk2 & Hrb2 & Hun2 & Hc2).
  assert (d = b) as ->. { unfold wbuf in Hb. rewrite Hc2, Hwb1 in Hb. by apply app_inv_head in Hb. }
  destruct (round_effect id id (zlen cb) eof Hz) as (R1 & R2 & R3). rewrite Z.eqb_refl in R2.
  assert (Hk : keeps (parent r) (parent r')) by (destruct Hk1, Hk2; split; congruence).
  eapply inv_step; [exact Hi|apply Hi| | |exact Ha|by eapply find_real_store_same|].
  - cbn [s2c]. apply Forall_app. split; [apply Hi|done].
  - eapply quiet_server; eauto; [by apply about_label|by apply round_msgs_of].
  - pose proof (real_step_wf _ _ _ _ Hst) as (_ & Hc1 & Ha1). split; hist_simpl.
    + destruct Hp. split; [done|by rewrite (kp_peer _ _ Hk)].
    + split_and!; [done|by rewrite Hwc2|by rewrite Hwc2, Hat2].
    + unfold kind_ok. by rewrite Hop2, Hop.
    + exists (co ++ cb). split.
      * eapply dir_ext; [eapply (dir_consume _ _ _ _ _ _ _ _ _ _ (s2c l ++ round_msgs id (zlen cb) eof) Hd Hcn)|..]; try done;
          [by rewrite acks_app, R2|apply Hd].
      * destruct (sink_rel_step id r co cb out r1 Hs Hkd Hst Hwr) as (o & Eo & Ho). exists o. by rewrite Hsk2, Hwc2.
    + eapply dir_produce; [|exact Hpr]. apply (dir_ext _ _ _ _ _ _ _ _ _ _ _ _ _ _ _ Hd2); try done; [apply Hd2|].
      by rewrite in_flight_app, R1, app_nil_r.
    + done.
Qed.

(** *** Receiving *)

(** What handling a message does to the files of a task. *)
Definition no_effect (files : list proxyfs_file_t) (m : pmsg) : Prop :=
  forall id, is_Some (proxyfs_task_find_file files id) -> in_flight id [m] = [] /\ acks id [m] = 0.

Lemma handle_cases files m files' own :
  msg_ok m -> proxyfs_task_handle_msg files m.1 m.2 = Some (files', own) ->
  (files' = files /\ no_effect files m) \/
  (exists f f', proxyfs_task_find_file files (file_ident m.1) = Some f /\
     files' = store_file (file_ident m.1) f' files /\
     ((is_msg MSG_WRITE_RESP (file_ident m.1) m = true /\
       f' = proxyfs_file_submit_read_to_peer f (le_value (ztake 4 m.2))) \/
      (is_msg MSG_WRITE (file_ident m.1) m = true /\
       exists n, proxyfs_file_write_from_peer f m.2 (data_size m.1) = Some (n, f')))).
Proof.
  intros [Hok1 Hok2] E. unfold proxyfs_task_handle_msg in E. unfold no_effect, in_flight, acks, is_msg.
  destruct (msg_num m.1 =? MSG_WRITE_RESP) eqn:E1.
  - destruct (proxyfs_task_find_file files _) as [f|] eqn:Ef.
    + destruct (_ <=? 0) eqn:E0; injection E as <- <-.
      * left. split; [done|]. apply Z.eqb_eq in E1. specialize (Hok2 E1). rewrite E1. intros id _. simpl.
        split; [done|]. destruct (_ =? id); blia.
      * right. eexists f, _. split; [done|]. split; [done|]. left. by rewrite Z.eqb_refl.
    + injection E as <- <-. left. split; [done|]. apply Z.eqb_eq in E1. rewrite E1. intros id Hid. simpl.
      split; [done|]. destruct (_ =? id) eqn:E2; [|done]. apply Z.eqb_eq in E2. subst id. rewrite Ef in Hid. by destruct Hid.
  - destruct (msg_num m.1 =? MSG_WRITE) eqn:E2.
    + apply Z.eqb_eq in E2. specialize (Hok1 E2). destruct (proxyfs_task_find_file files _) as [f|] eqn:Ef.
      * replace (0 <=? data_size m.1) with true in E by (pose proof (zlen_nonneg m.2); lia).
        destruct (proxyfs_file_write_from_peer f m.2 (data_size m.1)) as [[n f']|] eqn:Ew; [|done].
        cbn [mbind option_bind] in E. injection E as <- <-. right. exists f, f'. split; [done|]. split; [done|]. right.
        rewrite Z.eqb_refl. eauto.
      * injection E as <- <-. left. split; [done|]. intros id Hid. simpl. split; [|done].
        destruct (_ =? id) eqn:E3; [|done]. apply Z.eqb_eq in E3. subst id. rewrite Ef in Hid. by destruct Hid.
    + injection E as <- <-. left. split; [done|]. intros id _. done.
Qed.

(** A task never fails to handle a message. *)
Lemma handle_total files m :
  msg_ok m ->
  (forall f, proxyfs_task_find_file files (file_ident m.1) = Some f -> msg_num m.1 = MSG_WRITE ->
     is_Some (proxyfs_file_write_from_peer f m.2 (data_size m.1))) ->
  is_Some (proxyfs_task_handle_msg files m.1 m.2).
Proof.
  intros _ Hw. unfold proxyfs_task_handle_msg. destruct (_ =? MSG_WRITE_RESP).
  - destruct (proxyfs_task_find_file _ _); [|eauto]. case_goal; eauto.
  - destruct (_ =? MSG_WRITE) eqn:E; [|eauto]. apply Z.eqb_eq in E.
    destruct (proxyfs_task_find_file _ _) as [f|]; [|eauto]. destruct (_ <=? _); [|eauto].
    destruct (Hw f eq_refl E) as [[n f'] ->]. eauto.
Qed.

Lemma cons_other m q id :
  id <> file_ident m.1 -> in_flight id (m :: q) = in_flight id q /\ acks id (m :: q) = acks id q.
Proof.
  intros Hne. simpl. unfold is_msg. replace (file_ident m.1 =? id) with false by lia. rewrite !andb_false_r. done.
Qed.

Lemma cons_none m q id :
  in_flight id [m] = [] /\ acks id [m] = 0 -> in_flight id q = in_flight id (m :: q) /\ acks id q = acks id (m :: q).
Proof.
  intros [E1 E2]. change (m :: q) with ([m] ++ q). by rewrite in_flight_app, acks_app, E1, E2.
Qed.

Lemma cons_resp m q id j : is_msg MSG_WRITE_RESP j m = true -> in_flight id (m :: q) = in_flight id q.
Proof. simpl. unfold is_msg. intros [E _]%andb_true_iff. apply Z.eqb_eq in E. by rewrite E. Qed.

Lemma cons_write m q id j : is_msg MSG_WRITE j m = true -> acks id (m :: q) = acks id q.
Proof. simpl. unfold is_msg. intros [E _]%andb_true_iff. apply Z.eqb_eq in E. by rewrite E. Qed.

Lemma tau_hist id f : In f [user_data; stored_data; read_data; fetched_data] -> f id Tau = [].
Proof. intros [<-|[<-|[<-|[<-|[]]]]]; done. Qed.

Lemma inv_client_recv l tr m q files own :
  inv l tr -> s2c l = m :: q -> proxyfs_task_handle_msg (cf l) m.1 m.2 = Some (files, own) ->
  inv (mk_link files (sf l) (c2s l) q) (tr ++ [Tau]).
Proof.
  intros Hi Hq E. pose proof (iv_s2c _ _ Hi) as Hok. rewrite Hq in Hok. inversion Hok as [|? ? Hm Hokq]; subst.
  destruct (handle_cases _ _ _ _ Hm E) as [[-> Hno]|(a & a' & Ha & -> & Hcase)].
  { eapply inv_quiet; [exact Hi|apply Hi|done| |done]. intros id Hid.
    destruct (cons_none m q id (Hno id Hid)). split; cbn [c2s s2c cf sf]; rewrite ?Hq; try done. by apply tau_hist. }
  destruct (inv_client _ _ _ _ Hi Ha) as (r & Hr & [Hp Hw Hkd (co & Hd & Hs) Hd2 Hfr]). rewrite Hq in Hd, Hd2.
  set (id := file_ident m.1) in *.
  assert (Hres : keeps a a' /\ dir a' (parent r) (c2s l) q id (hist stored_data id tr) co (lost lost_up id tr) /\
            dir (parent r) a' q (c2s l) id (hist fetched_data id tr) (hist read_data id tr) (lost lost_down id tr)).
  { destruct Hcase as [[Hm1 ->]|[Hm1 (n & Hwp)]].
    - destruct (dir_ack _ _ _ _ _ _ _ _ _ Hd Hok Hm1) as (Hd' & Hk & Hrb). split; [done|]. split; [done|].
      apply (dir_ext _ _ _ _ _ _ _ _ _ _ _ _ _ _ _ Hd2); try done; [apply Hd2|apply Hd'|]. symmetry. by eapply cons_resp.
    - destruct (dir_recv _ _ _ _ _ _ _ _ _ Hd2 (iv_c2s _ _ Hi) Hm1 Hm) as (b' & E' & Hd' & Hk & Hwb & Hun).
      rewrite Hwp in E'. injection E' as _ <-. split; [done|]. split; [|done].
      apply (dir_ext _ _ _ _ _ _ _ _ _ _ _ _ _ _ _ Hd); try done; [apply Hd'|apply Hd|]. symmetry. by eapply cons_write. }
  destruct Hres as (Hk & Hd' & Hd2').
  eapply (inv_step l Tau _ tr id); [exact Hi|apply Hi|done| |by eapply find_store_same|exact Hr|].
  - intros i Hne. destruct (cons_other m q i Hne). split; cbn [c2s s2c cf sf]; rewrite ?Hq; try done.
    + by apply tau_hist.
    + eapply find_store_other; eauto.
  - split; hist_simpl; try done; [|by exists co]. destruct Hp. split; [by rewrite (kp_peer _ _ Hk)|done].
Qed.

Lemma inv_server_recv l tr m q files own :
  inv l tr -> c2s l = m :: q -> proxyfs_task_handle_msg (parent <$> sf l) m.1 m.2 = Some (files, own) ->
  inv (mk_link (cf l) (zip_with with_parent files (sf l)) q (s2c l)) (tr ++ [Tau]).
Proof.
  intros Hi Hq E. pose proof (iv_c2s _ _ Hi) as Hok. rewrite Hq in Hok. inversion Hok as [|? ? Hm Hokq]; subst.
  destruct (handle_cases _ _ _ _ Hm E) as [[-> Hno]|(p & p' & Hpf & -> & Hcase)].
  { rewrite zip_parents. eapply inv_quiet; [exact Hi|done|apply Hi| |done]. intros id [a Ha].
    destruct (inv_client _ _ _ _ Hi Ha) as (r & Hr & _).
    destruct (cons_none m q id (Hno id ltac:(by rewrite find_real_parent, Hr))).
    split; cbn [c2s s2c cf sf]; rewrite ?Hq; try done. by apply tau_hist. }
  set (id := file_ident m.1) in *. rewrite find_real_parent in Hpf.
  destruct (find_real (sf l) id) as [r|] eqn:Hr; [|done]. injection Hpf as <-. rewrite (zip_store _ _ _ _ Hr).
  destruct (inv_server _ _ _ _ Hi Hr) as (a & Ha & [Hp Hw Hkd (co & Hd & Hs) Hd2 Hfr]). rewrite Hq in Hd, Hd2.
  assert (Hres : keeps (parent r) p' /\ dir a p' q (s2c l) id (hist stored_data id tr) co (lost lost_up id tr) /\
            dir p' a (s2c l) q id (hist fetched_data id tr) (hist read_data id tr) (lost lost_down id tr)).
  { destruct Hcase as [[Hm1 ->]|[Hm1 (n & Hwp)]].
    - destruct (dir_ack _ _ _ _ _ _ _ _ _ Hd2 Hok Hm1) as (Hd' & Hk & Hrb). split; [done|]. split; [|done].
      apply (dir_ext _ _ _ _ _ _ _ _ _ _ _ _ _ _ _ Hd); try done; [apply Hd|apply Hd'|]. symmetry. by eapply cons_resp.
    - destruct (dir_recv _ _ _ _ _ _ _ _ _ Hd (iv_s2c _ _ Hi) Hm1 Hm) as (b' & E' & Hd' & Hk & Hwb & Hun).
      rewrite Hwp in E'. injection E' as _ <-. split; [done|]. split; [done|].
      apply (dir_ext _ _ _ _ _ _ _ _ _ _ _ _ _ _ _ Hd2); try done; [apply Hd'|apply Hd2|]. symmetry. by eapply cons_write. }
  destruct Hres as (Hk & Hd' & Hd2').
  eapply (inv_step l Tau _ tr id); [exact Hi|done|apply Hi| |exact Ha|by eapply find_real_store_same|].
  - intros i Hne. destruct (cons_other m q i Hne). split; cbn [c2s s2c cf sf]; rewrite ?Hq; try done.
    + by apply tau_hist.
    + eapply find_real_store_other; eauto.
  - split; hist_simpl; try done.
    + destruct Hp. split; [done|]. simpl. by rewrite (kp_peer _ _ Hk).
    + destruct Hw as (_ & ? & ?). split_and!; [apply Hd'|done|done].
    + by exists co.
Qed.

Lemma inv_preserved l tr e l' :
  atomic_pipe -> inv l tr -> step l e l' -> fine_access e -> inv l' (tr ++ [e]).
Proof.
  intros Hpipe Hi Hst He. destruct Hst.
  - by eapply inv_user_write.
  - done.
  - by eapply inv_user_read.
  - done.
  - by eapply inv_client_send.
  - by eapply inv_client_recv.
  - by eapply inv_server_send.
  - by eapply inv_server_recv.
  - by eapply inv_server_round.
Qed.

(** *** The start *)

Record fresh (f : proxyfs_file_t) : Prop := {
  fr_wf : file_wf f;
  fr_write : contents (write_buf f) = [];
  fr_read : contents (read_buf f) = [];
  fr_unconfirmed : write_buf_unconfirmed f = 0;
  fr_peer : is_Some (peer f)
}.

(** The same files are open on both sides, with empty buffers, and nothing is on its
    way. *)
Definition initial (l : link) : Prop :=
  c2s l = [] /\ s2c l = [] /\
  forall id, both id l (fun a r => fresh a /\ fresh (parent r) /\ real_wf r /\ kind_ok id r /\
                          write_counter r = 0 /\ sink (f_body r) = sink0 id).

Lemma fresh_dir a b id : fresh a -> fresh b -> dir a b [] [] id [] [] 0.
Proof.
  intros [Ha Hw _ Hu _] [Hb _ Hr _ _].
  assert (ahead a b [] id = []) as E by (unfold ahead, unsent; by rewrite Hr, Hw, Hu).
  split; [done|done|done|by rewrite E|by rewrite E|].
  - rewrite Hu. simpl. pose proof (zlen_contents _ (fw_read _ Hb)) as Hz. rewrite Hr in Hz.
    unfold zlen in *. simpl in *. lia.
Qed.

Lemma link_initial_inv l : initial l -> inv l [].
Proof.
  intros (E1 & E2 & Hb). split; [by rewrite E1|by rewrite E2|]. intros id. specialize (Hb id). unfold both in *.
  destruct (proxyfs_task_find_file _ _) as [a|], (find_real _ _) as [r|]; try done.
  destruct Hb as (Ha & Hr & Hw & Hk & Hc & Hs). split; try done.
  - split; [apply Ha|apply Hr].
  - exists []. split; [rewrite E1, E2; by apply fresh_dir|]. exists []. split; [by rewrite Hs, app_nil_r|].
    destruct (is_pipe id); [|done]. by rewrite Hc.
  - rewrite E1, E2. by apply fresh_dir.
  - unfold framing. by destruct (is_pipe id).
Qed.

Lemma run_inv l tr l' : atomic_pipe -> initial l -> run l tr l' -> Forall fine_access tr -> inv l' tr.
Proof.
  intros Hpipe Hi Hr. induction Hr; [by intros; apply link_initial_inv|].
  intros [Ht He]%Forall_app. rewrite Forall_singleton in He. eapply inv_preserved; eauto.
Qed.

(** What the real file got is a part of what the user wrote. *)
Lemma sink_part id r co stored user :
  sink_rel id r co -> framing id stored user ->
  exists out, sink (f_body r) = sink0 id ++ out /\ (is_pipe id = false -> out = co /\ stored = user) /\
    forall tail, stored = co ++ tail -> exists rest, user = out ++ rest /\ (tail = [] -> rest = []).
Proof.
  intros (out & Hs & Ho) Hf. exists out. split; [done|]. unfold framing in Hf. destruct (is_pipe id).
  - split; [done|]. intros tail ->. rewrite drun_app, Ho in Hf. destruct (drun _ tail) as [o st] eqn:E.
    injection Hf as <- _. exists o. split; [done|]. intros ->. simpl in E. by injection E.
  - subst. split; [done|]. intros tail ->. by exists tail.
Qed.

(** Nothing is on its way. *)
Lemma dir_quiescent a b fwd bwd id wr co n :
  dir a b fwd bwd id wr co n -> in_flight id fwd = [] -> unsent a = [] -> contents (read_buf b) = [] ->
  0 <= n /\ (n = 0 -> wr = co) /\ write_buf_unconfirmed a = acks id bwd + n.
Proof.
  intros [Ha Hb Hn Hd _ Hc] E1 E2 E3. rewrite <- zlen_contents, E1, E3, zlen_nil in Hc by apply Hb.
  split; [done|]. split; [|lia]. intros E. rewrite (Hd E). unfold ahead. by rewrite E1, E2, E3, app_nil_r.
Qed.

(** The head of a queue can be handled. *)
Lemma server_handles l tr m q :
  inv l tr -> c2s l = m :: q -> is_Some (proxyfs_task_handle_msg (parent <$> sf l) m.1 m.2).
Proof.
  intros Hi Eq. pose proof (iv_c2s _ _ Hi) as Hok. rewrite Eq in Hok. inversion Hok; subst.
  apply handle_total; [done|]. intros f Hf Hm. rewrite find_real_parent in Hf.
  destruct (find_real (sf l) (file_ident m.1)) as [rf|] eqn:Ef; [|done]. injection Hf as <-.
  destruct (inv_server _ _ _ _ Hi Ef) as (af & _ & [_ _ _ (co' & Hd' & _) _ _]). rewrite Eq in Hd'.
  destruct (dir_recv _ _ _ _ _ _ _ _ _ Hd') as (b' & -> & _); [apply Hi| |done|eauto].
  unfold is_msg. by rewrite Hm, !Z.eqb_refl.
Qed.

Lemma client_handles l tr m q :
  inv l tr -> s2c l = m :: q -> is_Some (proxyfs_task_handle_msg (cf l) m.1 m.2).
Proof.
  intros Hi Eq. pose proof (iv_s2c _ _ Hi) as Hok. rewrite Eq in Hok. inversion Hok; subst.
  apply handle_total; [done|]. intros f Hf Hm.
  destruct (inv_client _ _ _ _ Hi Hf) as (rf & _ & [_ _ _ _ Hd' _]). rewrite Eq in Hd'.
  destruct (dir_recv _ _ _ _ _ _ _ _ _ Hd') as (b' & -> & _); [apply Hi| |done|eauto].
  unfold is_msg. by rewrite Hm, !Z.eqb_refl.
Qed.
End link.

Arguments link B : clear implicits.

(** ** Properties *)


(** C13: Nothing gets stuck, and nothing is lost but chunks whose message could not be
    allocated: when no data of a file is on its way, the senders have nothing left to send and the
    receivers' buffers are empty, then, if no such chunk of the file was lost, everything the
    users wrote is in the real file, and everything read from the real file was read by the
    users; all data was confirmed up to the confirmations still on their way and the lost
    chunks, which stay unconfirmed for ever.  A message at the head of a queue can always be
    handled.  The runs are those of C1: any interleaving and any failed allocations, atomic pipes and no
    failed access to user memory. *)
Theorem quiescent_link_delivered_all {B} `{Vfs B} is_pipe sink0 (l0 l : link B) tr id a r :
  atomic_pipe -> initial is_pipe sink0 l0 -> run is_pipe l0 tr l -> Forall fine_access tr ->
  proxyfs_task_find_file (cf l) id = Some a -> find_real (sf l) id = Some r ->
  (in_flight id (c2s l) = [] -> unsent a = [] -> contents (rbuf r) = [] ->
     (lost lost_up id tr = 0 -> sink (f_body r) = sink0 id ++ hist user_data id tr) /\
     0 <= lost lost_up id tr /\ write_buf_unconfirmed a = acks id (s2c l) + lost lost_up id tr) /\
  (in_flight id (s2c l) = [] -> unsent (parent r) = [] -> contents (read_buf a) = [] ->
     (lost lost_down id tr = 0 -> hist read_data id tr = hist fetched_data id tr) /\
     0 <= lost lost_down id tr /\ write_buf_unconfirmed (parent r) = acks id (c2s l) + lost lost_down id tr) /\
  (forall m q, c2s l = m :: q -> is_Some (proxyfs_task_handle_msg (parent <$> sf l) m.1 m.2)) /\
  (forall m q, s2c l = m :: q -> is_Some (proxyfs_task_handle_msg (cf l) m.1 m.2)).
Proof.
  intros Hpipe Hin Hr Hf Ha Hre. pose proof (run_inv _ _ _ _ _ Hpipe Hin Hr Hf) as Hi.
  destruct (inv_client _ _ _ _ _ _ Hi Ha) as (r' & Er & [_ _ _ (co & Hd & Hs) Hd2 Hfr]).
  rewrite Hre in Er. injection Er as <-. split_and!.
  - intros E1 E2 E3. destruct (dir_quiescent _ _ _ _ _ _ _ _ Hd E1 E2 E3) as (Hn & Hall & Hc).
    split_and!; [|done|done]. intros E.
    destruct (sink_part _ _ _ _ _ _ _ Hs Hfr) as (out & -> & _ & Hpre).
    destruct (Hpre [] ltac:(rewrite app_nil_r; by apply Hall)) as (rest & -> & Ht).
    by rewrite Ht, app_nil_r.
  - intros E1 E2 E3. destruct (dir_quiescent _ _ _ _ _ _ _ _ Hd2 E1 E2 E3) as (Hn & Hall & Hc).
    split_and!; [|done|done]. intros E. symmetry. by apply Hall.
  - intros m q Eq. by eapply server_handles.
  - intros m q Eq. by eapply client_handles.
Qed.

(** *** Witnesses *)

(** A pipe, open on both sides; the user writes three bytes, and they get to the real
    pipe. *)
Definition ex_id : Z := 65541.
Definition ex_a0 : proxyfs_file_t := ex_parent proxy_file_ops (ex_buf 1000 []) (ex_buf 20000 []) 0.
Definition ex_r0 : proxyfs_real_file mem_file :=
  mk_real (ex_parent real_file_ops (ex_buf 40000 []) (ex_buf 60000 []) 0)
    0 (mk_mem [] [] 0) (Some pipe_real_file_ops) [1] 0 false.
Definition ex_l0 : link mem_file := mk_link [ex_a0] [ex_r0] [] [].
Definition ex_pipes (_ : Z) : bool := true.

Definition or_else {A} (d : A) (o : option A) : A := match o with Some x => x | None => d end.

Definition ex_user : list Z := [65; 66; 67].
Definition ex_w := or_else (0, ex_a0) (proxyfs_proxy_file_write_user (pipe_proxy_file_ops None) true ex_a0 ex_user 3).
Definition ex_l1 : link mem_file := mk_link (store_file ex_id ex_w.2 [ex_a0]) [ex_r0] [] [].
Definition ex_s := or_else (0, ex_a0, None) (proxyfs_task_send_write_buf true true (0, 0, 0) ex_w.2).
Definition ex_l2 : link mem_file :=
  mk_link (store_file ex_id ex_s.1.2 (cf ex_l1)) (sf ex_l1) ([] ++ msg_list ex_s.2) [].
Definition ex_msg : pmsg := hd (mk_hdr 0 0 0 0, []) (c2s ex_l2).
Definition ex_h := or_else ([], true) (proxyfs_task_handle_msg (parent <$> sf ex_l2) ex_msg.1 ex_msg.2).
Definition ex_l3 : link mem_file := mk_link (cf ex_l2) (zip_with with_parent ex_h.1 (sf ex_l2)) [] [].
Definition ex_r3 : proxyfs_real_file mem_file := or_else ex_r0 (find_real (sf ex_l3) ex_id).
Definition ex_p := or_else (None, []) (server_process_file true ex_r3).
Definition ex_r4 : proxyfs_real_file mem_file := or_else ex_r0 ex_p.1.
Definition ex_l4 : link mem_file :=
  mk_link (cf ex_l3) (store_real ex_id ex_r4 (sf ex_l3)) [] ([] ++ (content <$> ex_p.2)).
Definition ex_trace : list label :=
  [UserWrote ex_id ex_user (written_bytes (pipe_proxy_file_ops None) 3 ex_user);
   ClientSent ex_id 0; Tau; Fetched ex_id []].

Lemma ex_fresh o base base' : 0 < base -> 0 < base' -> fresh (ex_parent o (ex_buf base []) (ex_buf base' []) 0).
Proof.
  intros Hb Hb'. assert (Hc : forall x, contents (ex_buf x []) = []).
  { intros x. unfold contents. by rewrite ex_buf_amount. }
  split; [|apply Hc|apply Hc|done|by eexists].
  apply ex_parent_wf; try done; [by apply ex_buf_wf|by apply ex_buf_wf|by rewrite ex_buf_amount].
Qed.

Lemma ex_initial : initial ex_pipes (fun _ => []) ex_l0.
Proof.
  split; [done|]. split; [done|]. intros id. unfold both, proxyfs_task_find_file.
  cbn [cf sf ex_l0 proxyfs_file_find_in_list find_real].
  change (proxyfs_file_get_file_ident (parent ex_r0)) with (proxyfs_file_get_file_ident ex_a0).
  destruct (_ =? id); [|done].
  assert (Hr : fresh (parent ex_r0)) by (by apply ex_fresh).
  assert (Hw : real_wf ex_r0).
  { split; [apply Hr|]. split; [split; [discriminate|reflexivity]|discriminate]. }
  split_and!; try done. by apply ex_fresh.
Qed.

Lemma ex_run : run ex_pipes ex_l0 ex_trace ex_l4.
Proof.
  apply (run_snoc _ _ [_; _; Tau] ex_l3). 2: {
    apply (step_server_round _ ex_l3 ex_id true ex_r3 ex_r4 ex_p.2 []); vm_compute; reflexivity. }
  apply (run_snoc _ _ [_; _] ex_l2). 2: {
    apply (step_server_recv _ ex_l2 ex_msg [] ex_h.1 ex_h.2); vm_compute; reflexivity. }
  apply (run_snoc _ _ [_] ex_l1). 2: {
    apply (step_client_send _ ex_l1 ex_id true true ex_w.2 (0, 0, 0) ex_s.1.1 ex_s.1.2 ex_s.2); vm_compute; reflexivity. }
  apply (run_snoc _ _ [] ex_l0); [apply run_nil|].
  apply (step_user_write _ ex_l0 ex_id (pipe_proxy_file_ops None) true ex_a0 ex_user 3 3 ex_w.2);
    [vm_compute; reflexivity|reflexivity|lia|reflexivity || (vm_compute; discriminate)|vm_compute; reflexivity].
Qed.

Lemma ex_fine : Forall fine_access ex_trace.
Proof. repeat constructor. Qed.

Definition ex_a4 : proxyfs_file_t := or_else ex_a0 (proxyfs_task_find_file (cf ex_l4) ex_id).


Lemma quiescent_link_delivered_all_witness : sink (f_body ex_r4) = ex_user /\ write_buf_unconfirmed ex_a4 = 7.
Proof.
  destruct (quiescent_link_delivered_all ex_pipes (fun _ => []) ex_l0 ex_l4 ex_trace ex_id ex_a4 ex_r4
    mem_atomic ex_initial ex_run ex_fine) as (Hq & _);
    [vm_compute; reflexivity|vm_compute; reflexivity|].
  destruct Hq as (E1 & _ & E2); [reflexivity|vm_compute; reflexivity|vm_compute; reflexivity|].
  split; [exact (E1 eq_refl)|]. rewrite E2. vm_compute. reflexivity.
Defined.
