(* ===== verification/NpmParams.v ===== *)
(** Parameters of a non-preemptive migration (src/src/tcmi/migration/tcmi_npm_params.h,
    tcmi_npm_params.c): the strings of an intercepted execve are copied from user memory
    into one block, which is laid out as

      args pointers, NULL, args strings, envp pointers, NULL, envp strings

    and whose pointers are computed again wherever the block is read back.

    The block [npm_data] lies at the address [base]; a pointer into it is [base] plus an
    offset, stored in 8 bytes.  A write outside the block is [None].  The functions that
    access user memory are parameters, and [user_vec] says what they answer for an array
    of strings that is mapped and does not change meanwhile. *)

From S2P Require Import Prelude.

Definition E2BIG : Z := 7.
Definition PATH_MAX : Z := 4096.
Definition PAGE_SIZE : Z := 4096.
Definition MAX_ARG_PAGES : Z := 32.
Definition NPM_FILENAME_MAX : Z := PATH_MAX.
Definition NPM_DATA_SIZE_MAX : Z := PAGE_SIZE * MAX_ARG_PAGES.

Record tcmi_npm_params := mk_npm {
  file_name : list Z;
  argsc : Z;
  envpc : Z;
  args : Z;
  envp : Z;
  used_data_length : Z;
  npm_data : list Z
}.

Definition set_npm_data (d : list Z) (p : tcmi_npm_params) : tcmi_npm_params :=
  mk_npm (file_name p) (argsc p) (envpc p) (args p) (envp p) (used_data_length p) d.

Definition reserve_array_length (count : Z) : Z := (1 + count) * 8.

(** A store of the bytes [d] at offset [off] of a block. *)
Definition poke (off : Z) (d m : list Z) : option (list Z) :=
  if (0 <=? off) && (off + zlen d <=? zlen m) then Some (blit off d m) else None.

(** [strlen] of a string that starts at the head of [m]; [None]: it leaves the block. *)
Fixpoint strlen (m : list Z) : option Z :=
  match m with
  | [] => None
  | b :: m => if b =? 0 then Some 0 else n ← strlen m; Some (1 + n)
  end.

(** One of the two loops of [fixup_npm_params_pointers]: [n] pointers are still to be
    stored in the array at offset [arr], the next one at index [i]; the next string starts at
    offset [pos]. *)
Fixpoint fixup_array (base arr i : Z) (n : nat) (pos : Z) (d : list Z) : option (Z * list Z) :=
  match n with
  | O => d ← poke (arr + 8 * i) (le_bytes 8 0) d; Some (pos, d)
  | S n =>
      len ← strlen (zdrop pos d);
      d ← poke (arr + 8 * i) (le_bytes 8 (base + pos)) d;
      fixup_array base arr (i + 1) n (pos + (len + 1)) d
  end.

Definition fixup_npm_params_pointers (base : Z) (params : tcmi_npm_params)
    : option (Z * tcmi_npm_params) :=
  let pos := reserve_array_length (argsc params) in
  '(pos, d) ← fixup_array base 0 0 (Z.to_nat (argsc params)) pos (npm_data params);
  let envp := base + pos in
  '(_, d) ← fixup_array base pos 0 (Z.to_nat (envpc params))
              (pos + reserve_array_length (envpc params)) d;
  Some (0, mk_npm (file_name params) (argsc params) (envpc params) base envp
             (used_data_length params) d).

(** The kernel's access to user memory. *)
Record user_memory := mk_user_memory {
  get_user : Z -> option Z;               (** a pointer, [None] on a fault *)
  strnlen_user : Z -> Z -> Z;             (** with the terminator; 0 on a fault *)
  copy_from_user : Z -> Z -> Z * list Z   (** bytes not copied, and the bytes stored *)
}.

Section extract.
Context (u : user_memory).

Fixpoint count_loop (fuel : nat) (argv i max : Z) : option Z :=
  match fuel with
  | O => None
  | S fuel =>
      match get_user u argv with
      | None => Some (- EFAULT)
      | Some p =>
          if p =? 0 then Some i
          else if max <? i + 1 then Some (- E2BIG)
          else count_loop fuel (argv + 8) (i + 1) max
      end
  end.

(** [None]: out of fuel, which [count_total] excludes. *)
Definition count (argv max : Z) : option Z :=
  if negb (argv =? 0) then count_loop (S (Z.to_nat max)) argv 0 max else Some 0.

(** The loop of [copy_strings]: the result, the parameters, the remaining length. *)
Fixpoint copy_loop (n : nat) (i argv : Z) (params : tcmi_npm_params) (remaining : Z)
    : option (Z * tcmi_npm_params * Z) :=
  match n with
  | O => Some (0, params, remaining)
  | S n =>
      match get_user u (argv + 8 * i) with
      | None => Some (- EFAULT, params, remaining)
      | Some str =>
          let len := s32[strnlen_user u str remaining] in
          if len =? 0 then Some (- EFAULT, params, remaining) else
          if remaining <? len then Some (- E2BIG, params, remaining) else
          let '(err, bytes) := copy_from_user u str len in
          d ← poke (NPM_DATA_SIZE_MAX - remaining) bytes (npm_data params);
          let params := set_npm_data d params in
          if negb (err =? 0) then Some (- EFAULT, params, remaining) else
          copy_loop n (i + 1) argv params (remaining - len)
      end
  end.

Definition copy_strings (argc argv : Z) (params : tcmi_npm_params) (remaining_max_length : Z)
    : option (Z * tcmi_npm_params * Z) :=
  copy_loop (Z.to_nat argc) 0 argv params (remaining_max_length - reserve_array_length argc).

(** The part of [extract_tcmi_npm_params] after the strings were counted. *)
Definition extract_strings (base : Z) (params : tcmi_npm_params) (argv env : Z)
    : option (Z * option tcmi_npm_params) :=
  '(err, params, remaining) ← copy_strings (argsc params) argv params NPM_DATA_SIZE_MAX;
  if negb (err =? 0) then Some (err, Some params) else
  '(err, params, remaining) ← copy_strings (envpc params) env params remaining;
  if negb (err =? 0) then Some (err, Some params) else
  let params := mk_npm (file_name params) (argsc params) (envpc params) (args params)
                  (envp params) u32[NPM_DATA_SIZE_MAX - remaining] (npm_data params) in
  '(err, params) ← fixup_npm_params_pointers base params;
  Some (err, Some params).

(** [params]: the allocated structure, or NULL.  [filename] is without its terminator. *)
Definition extract_tcmi_npm_params (base : Z) (params : option tcmi_npm_params)
    (filename : list Z) (argv env : Z) : option (Z * option tcmi_npm_params) :=
  match params with
  | None => Some (- EINVAL, None)
  | Some params =>
      if NPM_FILENAME_MAX <? zlen filename + 1 then Some (- EINVAL, Some params) else
      name ← poke 0 (filename ++ [0]) (file_name params);
      ac ← count argv (NPM_DATA_SIZE_MAX / 8);
      ec ← count env (NPM_DATA_SIZE_MAX / 8);
      extract_strings base
        (mk_npm name u8[ac] u8[ec] (args params) (envp params) (used_data_length params)
           (npm_data params)) argv env
  end.
End extract.

(** ** Strings in user memory and in the block *)

(** The bytes of a C string. *)
Definition is_cstring (s : list Z) : Prop := Forall (fun b => 0 < b < 256) s.

(** What the kernel documents for a mapped string at [p] that nobody changes. *)
Definition user_string (u : user_memory) (p : Z) (s : list Z) : Prop :=
  is_cstring s /\ zlen s + 1 < 2 ^ 31 /\
  (forall n, zlen s + 1 <= n -> strnlen_user u p n = zlen s + 1) /\
  (forall n, n < zlen s + 1 -> 0 < strnlen_user u p n < 2 ^ 31 /\ n < strnlen_user u p n) /\
  copy_from_user u p (zlen s + 1) = (0, s ++ [0]).

(** A NULL-terminated array of strings at [argv]. *)
Fixpoint user_array (u : user_memory) (argv : Z) (ss : list (list Z)) : Prop :=
  match ss with
  | [] => get_user u argv = Some 0
  | s :: ss => (exists p, get_user u argv = Some p /\ p <> 0 /\ user_string u p s) /\
               user_array u (argv + 8) ss
  end.

(** An argument of execve: NULL stands for the empty array. *)
Definition user_vec (u : user_memory) (argv : Z) (ss : list (list Z)) : Prop :=
  (argv = 0 /\ ss = []) \/ (argv <> 0 /\ user_array u argv ss).

Definition strs (ss : list (list Z)) : list Z := ss ≫= fun s => s ++ [0].

(** The pointers of strings that lie one after the other from offset [pos]. *)
Fixpoint ptrs (base pos : Z) (ss : list (list Z)) : list Z :=
  match ss with
  | [] => []
  | s :: ss => le_bytes 8 (base + pos) ++ ptrs base (pos + (zlen s + 1)) ss
  end.

(** How a program reads such an array: the string at an offset, and the strings of the
    array at [off] up to the NULL pointer. *)
Fixpoint cstring (m : list Z) : option (list Z) :=
  match m with
  | [] => None
  | b :: m => if b =? 0 then Some [] else s ← cstring m; Some (b :: s)
  end.

Fixpoint read_vec (fuel : nat) (base : Z) (d : list Z) (off : Z) : option (list (list Z)) :=
  match fuel with
  | O => None
  | S fuel =>
      let p := le_value (ztake 8 (zdrop off d)) in
      if p =? 0 then Some []
      else s ← cstring (zdrop (p - base) d); ss ← read_vec fuel base d (off + 8); Some (s :: ss)
  end.

(** The bytes an array takes in the block. *)
Definition image_size (ss : list (list Z)) : Z := reserve_array_length (zlen ss) + zlen (strs ss).

Lemma strs_cons s ss : strs (s :: ss) = (s ++ [0]) ++ strs ss.
Proof. done. Qed.

Lemma zlen_ptrs base pos ss : zlen (ptrs base pos ss) = 8 * zlen ss.
Proof.
  revert pos. induction ss as [|s ss IH]; intros pos; [done|]. cbn [ptrs].
  rewrite zlen_app, IH, zlen_cons, zlen_le_bytes. lia.
Qed.

Lemma strs_take n ss : zlen (strs (take n ss)) <= zlen (strs ss).
Proof.
  revert n. induction ss as [|s ss IH]; intros [|n]; try (apply zlen_nonneg).
  change (take (S n) (s :: ss)) with (s :: take n ss). rewrite !strs_cons, !(zlen_app (s ++ [0])). specialize (IH n). lia.
Qed.

(** *** Stores *)

Lemma blit_app P d R : zlen d <= zlen R -> blit (zlen P) d (P ++ R) = P ++ d ++ zdrop (zlen d) R.
Proof.
  intros H. unfold blit. rewrite ztake_app_eq. do 2 f_equal.
  rewrite <- zdrop_zdrop by zlen_lia. by rewrite zdrop_app_eq.
Qed.

Lemma poke_app P d R :
  zlen d <= zlen R -> poke (zlen P) d (P ++ R) = Some (P ++ d ++ zdrop (zlen d) R).
Proof.
  intros H. unfold poke. rewrite zlen_app. pose proof (zlen_nonneg P).
  replace (0 <=? zlen P) with true by lia.
  replace (zlen P + zlen d <=? zlen P + zlen R) with true by lia. simpl.
  by rewrite blit_app.
Qed.

(** A store that replaces the part [U] of the block. *)
Lemma poke_at off P d U T :
  off = zlen P -> zlen d = zlen U -> poke off d (P ++ U ++ T) = Some (P ++ d ++ T).
Proof.
  intros -> H. rewrite poke_app by zlen_lia. rewrite H. by rewrite zdrop_app_eq.
Qed.

Lemma poke_outside off d m : zlen m < off + zlen d -> poke off d m = None.
Proof. intros H. unfold poke. replace (off + zlen d <=? zlen m) with false by lia. by rewrite andb_false_r. Qed.

Lemma strlen_string s T : is_cstring s -> strlen ((s ++ [0]) ++ T) = Some (zlen s).
Proof.
  induction 1 as [|b s Hb _ IH]; simpl; [done|]. replace (b =? 0) with false by lia.
  simpl in IH. rewrite IH. simpl. by rewrite zlen_cons.
Qed.

Lemma cstring_string s T : is_cstring s -> cstring ((s ++ [0]) ++ T) = Some s.
Proof.
  induction 1 as [|b s Hb _ IH]; simpl; [done|]. replace (b =? 0) with false by lia.
  simpl in IH. by rewrite IH.
Qed.

(** *** The pointers *)

Ltac apps := by rewrite <- ?app_assoc.

Lemma fixup_array_app base PRE W U M ss R i :
  Forall is_cstring ss -> zlen W = 8 * i -> zlen U = 8 * (zlen ss + 1) ->
  fixup_array base (zlen PRE) i (length ss) (zlen (PRE ++ W ++ U ++ M))
    (PRE ++ W ++ U ++ M ++ strs ss ++ R) =
  Some (zlen (PRE ++ W ++ U ++ M) + zlen (strs ss),
        PRE ++ W ++ ptrs base (zlen (PRE ++ W ++ U ++ M)) ss ++ le_bytes 8 0 ++ M ++ strs ss ++ R).
Proof.
  intros Hs. revert W U M i. induction Hs as [|s ss Hs _ IH]; intros W U M i HW HU.
  - cbn [length fixup_array ptrs].
    replace (PRE ++ W ++ U ++ M ++ strs [] ++ R) with ((PRE ++ W) ++ U ++ M ++ strs [] ++ R) by apps.
    rewrite (poke_at _ (PRE ++ W) _ U); [|zlen_lia|].
    2: { rewrite zlen_le_bytes. rewrite zlen_nil in HU. lia. }
    cbn [mbind option_bind]. rewrite Z.add_0_r. do 2 f_equal. apps.
  - cbn [length fixup_array ptrs]. rewrite zlen_cons in HU.
    set (pos := zlen (PRE ++ W ++ U ++ M)).
    assert (exists U1 U2, U = U1 ++ U2 /\ zlen U1 = 8 /\ zlen U2 = 8 * (zlen ss + 1)) as (U1 & U2 & -> & HU1 & HU2).
    { exists (ztake 8 U), (zdrop 8 U). pose proof (zlen_nonneg ss).
      rewrite ztake_zdrop, zlen_ztake, zlen_zdrop. split_and!; [done|lia|lia]. }
    assert (zdrop pos (PRE ++ W ++ (U1 ++ U2) ++ M ++ strs (s :: ss) ++ R)
            = (s ++ [0]) ++ strs ss ++ R) as ->.
    { replace (PRE ++ W ++ (U1 ++ U2) ++ M ++ strs (s :: ss) ++ R)
        with ((PRE ++ W ++ (U1 ++ U2) ++ M) ++ (s ++ [0]) ++ strs ss ++ R)
        by (rewrite strs_cons; apps).
      apply zdrop_app_eq. }
    rewrite strlen_string by done. cbn [mbind option_bind].
    replace (PRE ++ W ++ (U1 ++ U2) ++ M ++ strs (s :: ss) ++ R)
      with ((PRE ++ W) ++ U1 ++ U2 ++ M ++ strs (s :: ss) ++ R) by apps.
    rewrite (poke_at _ (PRE ++ W) _ U1); [|zlen_lia|rewrite zlen_le_bytes; lia].
    cbn [mbind option_bind].
    specialize (IH (W ++ le_bytes 8 (base + pos)) U2 (M ++ s ++ [0]) (i + 1)).
    rewrite strs_cons.
    replace ((PRE ++ W) ++ le_bytes 8 (base + pos) ++ U2 ++ M ++ ((s ++ [0]) ++ strs ss) ++ R)
      with (PRE ++ (W ++ le_bytes 8 (base + pos)) ++ U2 ++ (M ++ s ++ [0]) ++ strs ss ++ R)
      by apps.
    assert (zlen (PRE ++ (W ++ le_bytes 8 (base + pos)) ++ U2 ++ M ++ s ++ [0]) = pos + (zlen s + 1)) as Hpos.
    { subst pos. rewrite !zlen_app, zlen_le_bytes, zlen_cons, zlen_nil. lia. }
    rewrite Hpos in IH. rewrite IH; [|rewrite zlen_app, zlen_le_bytes; lia|done].
    f_equal. f_equal; [zlen_lia|]. by rewrite <- !app_assoc.
Qed.

(** The array the loop leaves is read back as the strings. *)
Lemma read_vec_ptrs base PRE M ss R pos :
  0 < base -> base + zlen (PRE ++ ptrs base pos ss ++ le_bytes 8 0 ++ M ++ strs ss ++ R) < 2 ^ 64 ->
  Forall is_cstring ss -> 
  pos = zlen (PRE ++ ptrs base pos ss ++ le_bytes 8 0 ++ M) ->
  read_vec (S (length ss)) base (PRE ++ ptrs base pos ss ++ le_bytes 8 0 ++ M ++ strs ss ++ R) (zlen PRE)
  = Some ss.
Proof.
  intros Hb Hmax Hs. revert PRE M pos Hmax. induction Hs as [|s ss Hs _ IH]; intros PRE M pos Hmax Hpos.
  - cbn [read_vec length ptrs]. rewrite zdrop_app_eq, app_nil_l.
    rewrite ztake_app_le by (by rewrite zlen_le_bytes). reflexivity.
  - change (S (length (s :: ss))) with (S (S (length ss))). cbn [read_vec].
    rewrite zdrop_app_eq. cbn [ptrs]. rewrite <- app_assoc.
    rewrite (ztake_app_le 8), ztake_all by (rewrite zlen_le_bytes; lia).
    cbn [ptrs] in Hpos, Hmax. rewrite strs_cons in *.
    assert (0 <= pos /\ base + pos < 2 ^ 64) as [? ?].
    { split; [rewrite Hpos; apply zlen_nonneg|].
      pose proof (zlen_nonneg (((s ++ [0]) ++ strs ss) ++ R)).
      rewrite !zlen_app in *. lia. }
    rewrite le_value_le_bytes, Z.mod_small by lia.
    replace (base + pos =? 0) with false by lia.
    replace (base + pos - base) with pos by lia.
    set (q := pos + (zlen s + 1)) in *.
    replace (zdrop pos (PRE ++ le_bytes 8 (base + pos) ++ ptrs base q ss ++ le_bytes 8 0 ++ M ++
       ((s ++ [0]) ++ strs ss) ++ R)) with ((s ++ [0]) ++ strs ss ++ R).
    2: { rewrite Hpos at 1.
         replace (PRE ++ le_bytes 8 (base + pos) ++ ptrs base q ss ++ le_bytes 8 0 ++ M ++ ((s ++ [0]) ++ strs ss) ++ R)
           with ((PRE ++ (le_bytes 8 (base + pos) ++ ptrs base q ss) ++ le_bytes 8 0 ++ M) ++ (s ++ [0]) ++ strs ss ++ R)
           by apps.
         by rewrite zdrop_app_eq. }
    rewrite cstring_string by done. cbn [mbind option_bind].
    specialize (IH (PRE ++ le_bytes 8 (base + pos)) (M ++ s ++ [0]) q).
    assert (zlen (PRE ++ le_bytes 8 (base + pos)) = zlen PRE + 8) as HP
      by (by rewrite zlen_app, zlen_le_bytes).
    rewrite HP in IH.
    replace ((PRE ++ le_bytes 8 (base + pos)) ++ ptrs base q ss ++ le_bytes 8 0 ++ (M ++ s ++ [0]) ++ strs ss ++ R)
      with (PRE ++ le_bytes 8 (base + pos) ++ ptrs base q ss ++ le_bytes 8 0 ++ M ++ ((s ++ [0]) ++ strs ss) ++ R)
      in IH by apps.
    cbn [read_vec] in IH. rewrite IH; [done| |].
    + rewrite <- !app_assoc in Hmax. rewrite <- !app_assoc. exact Hmax.
    + subst q. rewrite !zlen_app in Hpos. rewrite !zlen_app. change (zlen [0]) with 1. lia.
Qed.

(** The block holds the strings, whatever the pointer arrays contain. *)
Definition layout (p : tcmi_npm_params) (avs evs : list (list Z)) : Prop :=
  argsc p = zlen avs /\ envpc p = zlen evs /\ Forall is_cstring avs /\ Forall is_cstring evs /\
  exists A E R, npm_data p = A ++ strs avs ++ E ++ strs evs ++ R /\
    zlen A = reserve_array_length (zlen avs) /\ zlen E = reserve_array_length (zlen evs).

(** A program that gets [args] and [envp] sees these strings. *)
Definition sees (base : Z) (p : tcmi_npm_params) (avs evs : list (list Z)) : Prop :=
  read_vec (S (length avs)) base (npm_data p) (args p - base) = Some avs /\
  read_vec (S (length evs)) base (npm_data p) (envp p - base) = Some evs.

Lemma fixup_layout base p avs evs :
  layout p avs evs -> 0 < base -> base + zlen (npm_data p) < 2 ^ 64 ->
  exists p', fixup_npm_params_pointers base p = Some (0, p') /\ sees base p' avs evs /\
    layout p' avs evs /\ file_name p' = file_name p /\ used_data_length p' = used_data_length p /\
    zlen (npm_data p') = zlen (npm_data p).
Proof.
  intros (Ha & He & Hca & Hce & A & E & R & Hd & HA & HE) Hb Hmax.
  unfold fixup_npm_params_pointers. rewrite Ha, He, Hd.
  assert (forall l : list (list Z), Z.to_nat (zlen l) = length l) as Hnat by (intros; unfold zlen; lia).
  rewrite !Hnat.
  unfold reserve_array_length in *.
  pose proof (fixup_array_app base [] [] A [] avs (E ++ strs evs ++ R) 0 Hca eq_refl ltac:(lia)) as H1.
  rewrite !app_nil_r, !app_nil_l in H1. rewrite HA in H1.
  change (zlen (@nil Z)) with 0 in H1. rewrite H1. clear H1. cbn [mbind option_bind].
  set (d1 := ptrs base ((1 + zlen avs) * 8) avs ++ le_bytes 8 0 ++ strs avs).
  assert (zlen d1 = (1 + zlen avs) * 8 + zlen (strs avs)) as Hd1.
  { subst d1. rewrite !zlen_app, zlen_ptrs, zlen_le_bytes. lia. }
  pose proof (fixup_array_app base d1 [] E [] evs R 0 Hce eq_refl ltac:(lia)) as H2.
  rewrite !app_nil_r, !app_nil_l in H2. rewrite zlen_app, HE, Hd1 in H2.
  replace (ptrs base ((1 + zlen avs) * 8) avs ++ le_bytes 8 0 ++ strs avs ++ E ++ strs evs ++ R)
    with (d1 ++ E ++ strs evs ++ R) by (subst d1; apps).
  rewrite H2. cbn [mbind option_bind]. eexists. split; [done|]. clear H2.
  set (pos := (1 + zlen avs) * 8 + zlen (strs avs) + (1 + zlen evs) * 8).
  assert (zlen (d1 ++ ptrs base pos evs ++ le_bytes 8 0 ++ strs evs ++ R) = zlen (npm_data p)) as Hl.
  { rewrite Hd, !zlen_app, Hd1, zlen_ptrs, zlen_le_bytes, HA, HE. lia. }
  unfold sees, layout. cbn [npm_data args envp argsc envpc file_name used_data_length].
  rewrite Z.sub_diag. split_and!; try done.
  - subst d1. pose proof (read_vec_ptrs base [] [] avs (ptrs base pos evs ++ le_bytes 8 0 ++ strs evs ++ R)
      ((1 + zlen avs) * 8) Hb) as H3. rewrite !app_nil_l in H3. rewrite <- !app_assoc in Hl |- *.
    apply H3; [by rewrite Hl|done|]. rewrite app_nil_r, zlen_app, zlen_ptrs, zlen_le_bytes. lia.
  - replace (base + ((1 + zlen avs) * 8 + zlen (strs avs)) - base) with (zlen d1) by lia.
    pose proof (read_vec_ptrs base d1 [] evs R pos Hb) as H3. rewrite app_nil_l in H3.
    apply H3; [by rewrite Hl|done|].
    rewrite app_nil_r, !zlen_app, zlen_ptrs, zlen_le_bytes, Hd1. subst pos. lia.
  - exists (ptrs base ((1 + zlen avs) * 8) avs ++ le_bytes 8 0), (ptrs base pos evs ++ le_bytes 8 0), R.
    subst d1. rewrite !zlen_app, !zlen_ptrs, !zlen_le_bytes. unfold reserve_array_length.
    split_and!; [apps|lia|lia].
  - by rewrite <- Hd.
Qed.

(** *** Copying from user memory *)

Lemma count_array u argv ss fuel i max :
  user_array u argv ss -> i + zlen ss <= max -> (length ss < fuel)%nat ->
  count_loop u fuel argv i max = Some (i + zlen ss).
Proof.
  revert argv fuel i. induction ss as [|s ss IH]; intros argv [|fuel] i Hu Hm Hf; simpl in Hf; try lia.
  - cbn [count_loop]. simpl in Hu. rewrite Hu. simpl. f_equal. by rewrite zlen_nil, Z.add_0_r.
  - destruct Hu as [(p & Hp & Hp0 & _) Hu]. cbn [count_loop]. rewrite Hp.
    replace (p =? 0) with false by lia. rewrite zlen_cons in *.
    replace (max <? i + 1) with false by zlen_lia. rewrite IH; [f_equal; lia|done|lia|lia].
Qed.

(** The loop of [count] ends: the fuel is never used up. *)
Lemma count_total u argv max : 0 <= max -> is_Some (count u argv max).
Proof.
  intros Hm. unfold count. destruct (negb _); [|eauto].
  assert (forall fuel i a, 0 <= i <= max -> max - i < Z.of_nat fuel -> is_Some (count_loop u fuel a i max)) as H.
  { induction fuel as [|fuel IH]; intros i a Hi Hf; [lia|]. cbn [count_loop].
    repeat case_goal; eauto. bool_hyps. apply IH; lia. }
  apply H; lia.
Qed.

Lemma count_vec u argv ss max :
  user_vec u argv ss -> zlen ss <= max -> count u argv max = Some (zlen ss).
Proof.
  unfold count. intros [[-> ->]|[Hn Hu]] Hm; [done|].
  replace (argv =? 0) with false by lia. simpl negb. cbv iota.
  rewrite (count_array u argv ss); [done|done|lia|unfold zlen in Hm; lia].
Qed.

Lemma copy_loop_fits u n i argv ss p rem P R :
  user_array u (argv + 8 * i) ss -> (n <= length ss)%nat ->
  npm_data p = P ++ R -> zlen P = NPM_DATA_SIZE_MAX - rem -> zlen R = rem ->
  zlen (strs (take n ss)) <= rem ->
  copy_loop u n i argv p rem =
    Some (0, set_npm_data (P ++ strs (take n ss) ++ zdrop (zlen (strs (take n ss))) R) p,
          rem - zlen (strs (take n ss))).
Proof.
  revert i ss p rem P R. induction n as [|n IH]; intros i ss p rem P R Hu Hn Hd HP HR Hfit.
  - cbn [copy_loop]. change (strs (take 0 ss)) with (@nil Z). change (zlen (@nil Z)) with 0.
    cbn [app]. rewrite (zdrop_0 0 R) by lia. rewrite Z.sub_0_r, <- Hd. by destruct p.
  - destruct ss as [|s ss]; [simpl in Hn; lia|].
    destruct Hu as [(q & Hq & Hq0 & Hs & Hs31 & Hlen & _ & Hcopy) Hu].
    cbn [copy_loop]. rewrite Hq. change (take (S n) (s :: ss)) with (s :: take n ss) in *. rewrite strs_cons in *.
    assert (zlen (s ++ [0]) = zlen s + 1) as Hsl by (rewrite zlen_app; done).
    rewrite zlen_app in Hfit. pose proof (zlen_nonneg (strs (take n ss))). pose proof (zlen_nonneg s).
    rewrite Hlen by lia. rewrite swrap_id by (unfold srange; lia).
    replace (zlen s + 1 =? 0) with false by lia. replace (rem <? zlen s + 1) with false by lia.
    rewrite Hcopy. rewrite Hd, <- HP, poke_app by lia. cbn [mbind option_bind].
    replace (0 =? 0) with true by done. simpl negb. cbv iota.
    rewrite (IH (i + 1) ss _ (rem - (zlen s + 1)) (P ++ s ++ [0]) (zdrop (zlen (s ++ [0])) R));
      cbn [npm_data set_npm_data].
    + rewrite zdrop_zdrop by (try apply zlen_nonneg; lia).
      rewrite (zlen_app (s ++ [0]) (strs (take n ss))).
      f_equal. f_equal; [f_equal|rewrite Hsl; lia]. unfold set_npm_data. f_equal. apps.
    + by replace (argv + 8 * (i + 1)) with (argv + 8 * i + 8) by lia.
    + simpl in Hn. lia.
    + apps.
    + rewrite zlen_app. lia.
    + rewrite zlen_zdrop. lia.
    + lia.
Qed.

Lemma copy_loop_too_big u n i argv ss p rem P R :
  user_array u (argv + 8 * i) ss -> (n <= length ss)%nat ->
  npm_data p = P ++ R -> zlen P = NPM_DATA_SIZE_MAX - rem -> (zlen R = rem \/ rem < 0) ->
  rem < zlen (strs (take n ss)) -> (0 < n)%nat ->
  exists p' rem', copy_loop u n i argv p rem = Some (- E2BIG, p', rem').
Proof.
  revert i ss p rem P R. induction n as [|n IH]; intros i ss p rem P R Hu Hn Hd HP HR Hbig Hn0; [lia|].
  destruct ss as [|s ss]; [simpl in Hn; lia|].
  destruct Hu as [(q & Hq & Hq0 & Hs & Hs31 & Hlen & Hlong & Hcopy) Hu].
  cbn [copy_loop]. rewrite Hq. change (take (S n) (s :: ss)) with (s :: take n ss) in Hbig. rewrite strs_cons, zlen_app in Hbig.
  assert (zlen (s ++ [0]) = zlen s + 1) as Hsl by (rewrite zlen_app; done).
  destruct (Z_lt_dec rem (zlen s + 1)) as [Hlt|Hge].
  - destruct (Hlong rem Hlt) as [? ?]. rewrite swrap_id by (unfold srange; lia).
    replace (strnlen_user u q rem =? 0) with false by lia.
    replace (rem <? strnlen_user u q rem) with true by lia. eauto.
  - pose proof (zlen_nonneg s). destruct HR as [HR|]; [|lia].
    rewrite Hlen by lia. rewrite swrap_id by (unfold srange; lia).
    replace (zlen s + 1 =? 0) with false by lia. replace (rem <? zlen s + 1) with false by lia.
    rewrite Hcopy. rewrite Hd, <- HP, poke_app by lia. cbn [mbind option_bind].
    replace (0 =? 0) with true by done. simpl negb. cbv iota.
    assert (0 < n)%nat by (destruct n; [change (zlen (strs (take 0 ss))) with 0 in Hbig; lia|lia]).
    eapply (IH (i + 1) ss _ (rem - (zlen s + 1)) (P ++ s ++ [0]) (zdrop (zlen (s ++ [0])) R)); cbn [npm_data set_npm_data].
    + by replace (argv + 8 * (i + 1)) with (argv + 8 * i + 8) by lia.
    + simpl in Hn. lia.
    + apps.
    + rewrite zlen_app. lia.
    + left. rewrite zlen_zdrop. lia.
    + lia.
    + done.
Qed.

(** ** The exec parameters survive, up to the width of the counters *)

(** The strings that an 8-bit counter can count. *)
Definition counted (ss : list (list Z)) : list (list Z) := take (Z.to_nat u8[zlen ss]) ss.

(** The fresh memory of [vmalloc(sizeof(struct tcmi_npm_params))]. *)
Definition npm_memory (p : tcmi_npm_params) : Prop :=
  zlen (file_name p) = NPM_FILENAME_MAX /\ zlen (npm_data p) = NPM_DATA_SIZE_MAX.

Lemma u8_le n : 0 <= n -> 0 <= u8[n] <= n /\ u8[n] < 256.
Proof.
  intros. unfold uwrap. pose proof (Z.mod_pos_bound n (2 ^ 8) ltac:(lia)).
  pose proof (Z.mod_le n (2 ^ 8) ltac:(lia) ltac:(lia)). lia.
Qed.

Lemma zlen_counted ss : zlen (counted ss) = u8[zlen ss].
Proof.
  unfold counted. pose proof (u8_le (zlen ss) (zlen_nonneg ss)) as [? _].
  change (take (Z.to_nat u8[zlen ss]) ss) with (ztake u8[zlen ss] ss). rewrite zlen_ztake. lia.
Qed.

Lemma user_vec_cstrings u argv ss : user_vec u argv ss -> Forall is_cstring ss.
Proof.
  intros [[_ ->]|[_ H]]; [constructor|]. revert argv H.
  induction ss as [|s ss IH]; intros argv H; constructor.
  - by destruct H as [(p & _ & _ & Hs & _) _].
  - destruct H as [_ H]. by eapply IH.
Qed.

Lemma copy_strings_fits u argv ss p rem P R :
  user_vec u argv ss -> npm_data p = P ++ R -> zlen P = NPM_DATA_SIZE_MAX - rem -> zlen R = rem ->
  image_size (counted ss) <= rem ->
  exists A R', copy_strings u u8[zlen ss] argv p rem =
      Some (0, set_npm_data (P ++ A ++ strs (counted ss) ++ R') p, rem - image_size (counted ss)) /\
    zlen A = reserve_array_length u8[zlen ss] /\ zlen R' = rem - image_size (counted ss).
Proof.
  intros Hu Hd HP HR Hfit. unfold image_size in *. rewrite zlen_counted in *.
  pose proof (u8_le (zlen ss) (zlen_nonneg ss)) as [? _].
  pose proof (zlen_nonneg (strs (counted ss))).
  set (r := reserve_array_length u8[zlen ss]) in *.
  assert (0 <= r) by (unfold r, reserve_array_length; lia).
  exists (ztake r R), (zdrop (zlen (strs (counted ss))) (zdrop r R)).
  split_and!; [|rewrite zlen_ztake; lia|rewrite !zlen_zdrop; lia].
  unfold copy_strings. fold r. destruct Hu as [[-> ->]|[Hn Hu]].
  - change (counted []) with (@nil (list Z)). change (strs []) with (@nil Z).
    cbn [app]. rewrite (zdrop_0 (zlen [])) by done. rewrite ztake_zdrop, <- Hd.
    change (Z.to_nat u8[zlen (@nil (list Z))]) with O. cbn [copy_loop]. change (zlen (@nil Z)) with 0.
    rewrite Z.add_0_r. by destruct p.
  - rewrite (copy_loop_fits u _ 0 argv ss p (rem - r) (P ++ ztake r R) (zdrop r R));
      [|by rewrite Z.add_0_r|unfold zlen in *; lia|rewrite Hd, <- app_assoc, ztake_zdrop; done
       |rewrite zlen_app, zlen_ztake; lia|rewrite zlen_zdrop; lia|unfold counted in *; lia].
    fold (counted ss). f_equal. f_equal; [f_equal|lia]. unfold set_npm_data. f_equal. apps.
Qed.

Lemma copy_strings_too_big u argv ss p rem P R :
  user_vec u argv ss -> npm_data p = P ++ R -> zlen P = NPM_DATA_SIZE_MAX - rem -> zlen R = rem ->
  0 <= rem -> rem < image_size (counted ss) -> counted ss <> [] ->
  exists p' rem', copy_strings u u8[zlen ss] argv p rem = Some (- E2BIG, p', rem').
Proof.
  intros Hu Hd HP HR Hr Hbig Hne. unfold image_size in *. rewrite zlen_counted in *.
  pose proof (u8_le (zlen ss) (zlen_nonneg ss)) as [? _].
  assert (0 < u8[zlen ss]).
  { rewrite <- zlen_counted. destruct (counted ss); [done|]. rewrite zlen_cons. zlen_lia. }
  unfold copy_strings. set (r := reserve_array_length u8[zlen ss]) in *.
  assert (0 <= r) by (unfold r, reserve_array_length; lia).
  destruct Hu as [[-> ->]|[Hn Hu]]; [done|].
  destruct (Z_lt_dec rem r) as [Hlt|Hge].
  - (* even the pointers do not fit: the first string is refused *)
    destruct ss as [|s ss]; [done|]. destruct Hu as [(q & Hq & _ & _ & _ & _ & Hlong & _) _].
    destruct (Z.to_nat u8[zlen (s :: ss)]) as [|n] eqn:En; [lia|].
    cbn [copy_loop]. replace (argv + 8 * 0) with argv by lia. rewrite Hq.
    destruct (Hlong (rem - r) ltac:(zlen_lia)) as [? ?]. rewrite swrap_id by (unfold srange; lia).
    replace (strnlen_user u q (rem - r) =? 0) with false by lia.
    replace (rem - r <? strnlen_user u q (rem - r)) with true by lia. eauto.
  - apply (copy_loop_too_big u _ 0 argv ss p (rem - r) (P ++ ztake r R) (zdrop r R));
      [by rewrite Z.add_0_r|unfold zlen in *; lia|rewrite Hd, <- app_assoc, ztake_zdrop; done
       |rewrite zlen_app, zlen_ztake; lia|left; rewrite zlen_zdrop; lia|unfold counted in *; lia|lia].
Qed.

(** No room for the NULL pointer of an empty environment. *)
Lemma fixup_no_room base p avs A R :
  argsc p = zlen avs -> envpc p = 0 -> Forall is_cstring avs ->
  npm_data p = A ++ strs avs ++ R -> zlen A = reserve_array_length (zlen avs) -> zlen R < 8 ->
  fixup_npm_params_pointers base p = None.
Proof.
  intros Ha He Hc Hd HA HR. unfold fixup_npm_params_pointers. rewrite Ha, He, Hd, <- HA.
  replace (Z.to_nat (zlen avs)) with (length avs) by (unfold zlen; lia).
  unfold reserve_array_length in *.
  pose proof (fixup_array_app base [] [] A [] avs R 0 Hc eq_refl ltac:(lia)) as H. cbn [app] in H.
  rewrite app_nil_r in H. change (zlen (@nil Z)) with 0 in H. rewrite H.
  change (Z.to_nat 0) with O. cbn [mbind option_bind fixup_array]. rewrite poke_outside; [done|].
  rewrite !zlen_app, zlen_ptrs, !zlen_le_bytes. lia.
Qed.

(** The conditions on an execve whose strings can be read. *)
Record readable (u : user_memory) (base : Z) (params : tcmi_npm_params) (filename : list Z)
    (argv env : Z) (avs evs : list (list Z)) : Prop := {
  r_memory : npm_memory params;
  r_base : 0 < base /\ base + NPM_DATA_SIZE_MAX < 2 ^ 64;
  r_filename : is_cstring filename /\ zlen filename + 1 <= NPM_FILENAME_MAX;
  r_argv : user_vec u argv avs /\ zlen avs <= NPM_DATA_SIZE_MAX / 8;
  r_env : user_vec u env evs /\ zlen evs <= NPM_DATA_SIZE_MAX / 8
}.

Section readable.
Context {u : user_memory} {base : Z} {params : tcmi_npm_params} {filename : list Z}
  {argv env : Z} {avs evs : list (list Z)}.
Hypothesis HR : readable u base params filename argv env avs evs.

(** The structure after the file name was copied and the strings were counted. *)
Definition counted_params : tcmi_npm_params :=
  mk_npm ((filename ++ [0]) ++ zdrop (zlen (filename ++ [0])) (file_name params))
    u8[zlen avs] u8[zlen evs] (args params) (envp params) (used_data_length params) (npm_data params).

Lemma extract_counted :
  extract_tcmi_npm_params u base (Some params) filename argv env =
  extract_strings u base counted_params argv env.
Proof using HR.
  destruct HR as [[Hfn Hdata] _ [_ Hname] [Ha Hac] [He Hec]].
  unfold extract_tcmi_npm_params. replace (NPM_FILENAME_MAX <? zlen filename + 1) with false by lia.
  pose proof (poke_app [] (filename ++ [0]) (file_name params)) as Hp. cbn [app] in Hp.
  change (zlen (@nil Z)) with 0 in Hp. rewrite Hp by (rewrite zlen_app; change (zlen [0]) with 1; lia).
  cbn [mbind option_bind]. by rewrite (count_vec u argv avs), (count_vec u env evs) by done.
Qed.

Lemma image_size_nonneg ss : 8 <= image_size ss.
Proof.
  unfold image_size, reserve_array_length. pose proof (zlen_nonneg ss). pose proof (zlen_nonneg (strs ss)). lia.
Qed.

(** The args strings fit: what is left to do. *)
Lemma extract_args :
  image_size (counted avs) <= NPM_DATA_SIZE_MAX ->
  exists A R, zlen A = reserve_array_length u8[zlen avs] /\
    zlen R = NPM_DATA_SIZE_MAX - image_size (counted avs) /\
    let p := set_npm_data (A ++ strs (counted avs) ++ R) counted_params in
    extract_tcmi_npm_params u base (Some params) filename argv env =
    ('(err, params, remaining) ←
        copy_strings u u8[zlen evs] env p (NPM_DATA_SIZE_MAX - image_size (counted avs));
     if negb (err =? 0) then Some (err, Some params) else
     '(err, params) ← fixup_npm_params_pointers base
        (mk_npm (file_name params) (argsc params) (envpc params) (args params)
           (envp params) u32[NPM_DATA_SIZE_MAX - remaining] (npm_data params));
     Some (err, Some params)).
Proof using HR.
  intros Hfit. rewrite extract_counted. unfold extract_strings. destruct HR as [[_ Hdata] _ _ [Ha _] _].
  destruct (copy_strings_fits u argv avs counted_params NPM_DATA_SIZE_MAX [] (npm_data params))
    as (A & R & Hc & HA & HR'); [done|done|change (zlen (@nil Z)) with 0; lia|done|lia|].
  exists A, R. split_and!; [done|done|]. change (argsc counted_params) with u8[zlen avs].
  rewrite Hc. reflexivity.
Qed.
End readable.

Lemma extract_readable u base params filename argv env avs evs :
  readable u base params filename argv env avs evs ->
  image_size (counted avs) + image_size (counted evs) <= NPM_DATA_SIZE_MAX ->
  exists p, extract_tcmi_npm_params u base (Some params) filename argv env = Some (0, Some p) /\
    cstring (file_name p) = Some filename /\ sees base p (counted avs) (counted evs) /\
    layout p (counted avs) (counted evs) /\ npm_memory p /\
    used_data_length p = image_size (counted avs) + image_size (counted evs).
Proof.
  intros HR Hfit. pose proof (image_size_nonneg (counted avs)). pose proof (image_size_nonneg (counted evs)).
  destruct (extract_args HR ltac:(lia)) as (A & R & HA & HRl & ->).
  destruct HR as [[Hfn Hdata] [Hb Hmax] [Hcs Hname] [Ha _] [He _]].
  destruct (copy_strings_fits u env evs (set_npm_data (A ++ strs (counted avs) ++ R)
      (counted_params (params:=params) (filename:=filename) (avs:=avs) (evs:=evs)))
      (NPM_DATA_SIZE_MAX - image_size (counted avs))
      (A ++ strs (counted avs)) R) as (E & R' & -> & HE & HR').
  { done. } { cbn [npm_data set_npm_data]. apps. }
  { rewrite zlen_app, HA. unfold image_size. rewrite zlen_counted. lia. } { done. } { lia. }
  cbn [mbind option_bind]. change (negb (0 =? 0)) with false. cbv iota.
  set (p3 := mk_npm _ _ _ _ _ _ _).
  assert (zlen (npm_data p3) = NPM_DATA_SIZE_MAX) as Hlen3.
  { unfold p3. cbn [npm_data set_npm_data]. rewrite !zlen_app, HA, HE, HR'. unfold image_size.
    rewrite !zlen_counted. lia. }
  destruct (fixup_layout base p3 (counted avs) (counted evs)) as (p & -> & Hsee & Hlay & Hfile & Hused & Hlen);
    [|done|lia|].
  { unfold layout, p3. cbn. rewrite !zlen_counted. split_and!; try done;
      [by eapply Forall_take, user_vec_cstrings|by eapply Forall_take, user_vec_cstrings|].
    exists A, E, R'. split_and!; [apps|done|done]. }
  eexists. split; [done|]. unfold npm_memory. rewrite Hfile, Hused, Hlen.
  unfold p3, counted_params. cbn [file_name used_data_length set_npm_data].
  split_and!; [by apply cstring_string|done|done| |done|].
  - rewrite zlen_app, zlen_zdrop, !zlen_app. change (zlen [0]) with 1. zlen_lia.
  - rewrite uwrap_id; [lia|]. unfold urange. cbv [NPM_DATA_SIZE_MAX PAGE_SIZE MAX_ARG_PAGES] in *. lia.
Qed.

(** The parameters of an intercepted execve.  For mapped argument and environment arrays
    whose images fit in the block, the extraction succeeds, keeps the file name, and leaves a
    structure whose [args] and [envp] are NULL-terminated arrays of the same strings -- of the
    first [n mod 256] of them when there are [n], because the counters have 8 bits. *)
Theorem npm_params_roundtrip u base params filename argv env avs evs :
  readable u base params filename argv env avs evs ->
  image_size (counted avs) + image_size (counted evs) <= NPM_DATA_SIZE_MAX ->
  exists p, extract_tcmi_npm_params u base (Some params) filename argv env = Some (0, Some p) /\
    cstring (file_name p) = Some filename /\ sees base p (counted avs) (counted evs) /\
    layout p (counted avs) (counted evs) /\ npm_memory p /\
    used_data_length p = image_size (counted avs) + image_size (counted evs).
Proof. apply extract_readable. Qed.

(** Strings that do not fit.  The extraction then returns [-E2BIG] without writing outside
    the block, except when the environment is empty and less than 8 bytes are left for the
    NULL pointer that ends its array: that pointer is stored outside the structure. *)
Theorem npm_params_too_big u base params filename argv env avs evs :
  readable u base params filename argv env avs evs ->
  NPM_DATA_SIZE_MAX < image_size (counted avs) + image_size (counted evs) ->
  (counted evs = [] /\ NPM_DATA_SIZE_MAX - 8 < image_size (counted avs) <= NPM_DATA_SIZE_MAX /\
   extract_tcmi_npm_params u base (Some params) filename argv env = None) \/
  ((counted evs <> [] \/ NPM_DATA_SIZE_MAX < image_size (counted avs)) /\
   exists p, extract_tcmi_npm_params u base (Some params) filename argv env = Some (- E2BIG, Some p)).
Proof.
  intros HR Hbig. destruct (Z_lt_dec NPM_DATA_SIZE_MAX (image_size (counted avs))) as [Hlt|Hge].
  - right. split; [by right|]. rewrite (extract_counted HR). unfold extract_strings.
    destruct HR as [[_ Hdata] _ _ [Ha _] _].
    destruct (copy_strings_too_big u argv avs
      (counted_params (params:=params) (filename:=filename) (avs:=avs) (evs:=evs)) NPM_DATA_SIZE_MAX
      [] (npm_data params)) as (p' & rem' & Hc); [done|done|done|done|done|done| |].
    { intros E. rewrite E in Hlt. cbv in Hlt. discriminate. }
    change (argsc counted_params) with u8[zlen avs]. rewrite Hc. eexists. reflexivity.
  - destruct (extract_args HR ltac:(lia)) as (A & R & HA & HRl & ->).
    destruct HR as [_ _ _ [Ha _] [He _]]. set (p := set_npm_data _ _).
    assert (npm_data p = (A ++ strs (counted avs)) ++ R) as Hd by (unfold p; cbn [npm_data set_npm_data]; apps).
    assert (zlen (A ++ strs (counted avs)) = NPM_DATA_SIZE_MAX - (NPM_DATA_SIZE_MAX - image_size (counted avs))) as HP.
    { rewrite zlen_app, HA. unfold image_size. rewrite zlen_counted. lia. }
    destruct (counted evs) as [|e0 evs0] eqn:Eevs.
    + left. change (image_size []) with 8 in Hbig. split_and!; [done|lia|lia|].
      assert (u8[zlen evs] = 0) as E0 by (by rewrite <- zlen_counted, Eevs).
      rewrite E0. unfold copy_strings. change (Z.to_nat 0) with O. cbn [mbind option_bind copy_loop]. change (negb (0 =? 0)) with false.
      cbv iota. rewrite (fixup_no_room base _ (counted avs) A R); [done|by rewrite zlen_counted|done| |done| |lia].
      { by eapply Forall_take, user_vec_cstrings. } { by rewrite zlen_counted. }
    + right. split; [by left|].
      destruct (copy_strings_too_big u env evs p (NPM_DATA_SIZE_MAX - image_size (counted avs))
        (A ++ strs (counted avs)) R) as (p' & rem' & Hc); [done|done|done|done|lia|rewrite Eevs; lia|by rewrite Eevs|].
      rewrite Hc. eexists. reflexivity.
Qed.

(** *** Witnesses *)

(** [argv] at 1000 has one string, at 2000; [env] is NULL. *)
Definition ex_user (s : list Z) : user_memory := {|
  get_user a := if a =? 1000 then Some 2000 else if a =? 1008 then Some 0 else None;
  strnlen_user p n := if zlen s + 1 <=? n then zlen s + 1 else Z.max 1 (n + 1);
  copy_from_user p n := (0, s ++ [0])
|}.

Definition ex_params : tcmi_npm_params :=
  mk_npm (replicate (Z.to_nat NPM_FILENAME_MAX) 0) 0 0 0 0 0 (replicate (Z.to_nat NPM_DATA_SIZE_MAX) 0).

Lemma ex_readable s :
  is_cstring s -> zlen s + 1 < 2 ^ 31 -> readable (ex_user s) 4096 ex_params [47; 97] 1000 0 [s] [].
Proof.
  intros Hs Hl. pose proof (zlen_nonneg s). split.
  - split; apply zlen_replicate; done.
  - split; done.
  - split; [repeat constructor; lia|done].
  - split; [|done]. right. split; [done|]. split; [|done]. exists 2000. split_and!; [done|done|].
    split_and!; [done|done| | |done]; intros n Hn; simpl.
    + replace (zlen s + 1 <=? n) with true by lia. done.
    + replace (zlen s + 1 <=? n) with false by lia. lia.
  - split; [by left|done].
Qed.

Lemma npm_params_roundtrip_witness :
  exists p, extract_tcmi_npm_params (ex_user [108; 115]) 4096 (Some ex_params) [47; 97] 1000 0 = Some (0, Some p) /\
    sees 4096 p [[108; 115]] [].
Proof.
  destruct (npm_params_roundtrip (ex_user [108; 115]) 4096 ex_params [47; 97] 1000 0 [[108; 115]] [])
    as (p & E & _ & Hs & _); [apply ex_readable; [repeat constructor; lia|done]|vm_compute; congruence|].
  change (counted [[108; 115]]) with [[108; 115]] in Hs. change (counted []) with (@nil (list Z)) in Hs.
  exists p. split; [exact E|exact Hs].
Defined.

(** A string that leaves 3 bytes. *)
Definition ex_long : list Z := replicate (Z.to_nat (NPM_DATA_SIZE_MAX - 20)) 97.

Lemma zlen_ex_long : zlen ex_long = NPM_DATA_SIZE_MAX - 20.
Proof. by apply zlen_replicate. Qed.

Lemma npm_params_too_big_witness :
  extract_tcmi_npm_params (ex_user ex_long) 4096 (Some ex_params) [47; 97] 1000 0 = None.
Proof.
  assert (image_size (counted [ex_long]) = NPM_DATA_SIZE_MAX - 3) as Hi.
  { unfold image_size, counted. change (Z.to_nat u8[zlen [ex_long]]) with 1%nat. simpl take.
    rewrite strs_cons, app_nil_r, zlen_app, zlen_ex_long. done. }
  destruct (npm_params_too_big (ex_user ex_long) 4096 ex_params [47; 97] 1000 0 [ex_long] [])
    as [(_ & _ & E)|[[H|H] _]].
  - apply ex_readable; [apply Forall_replicate; lia|]. rewrite zlen_ex_long. done.
  - rewrite Hi. change (image_size (counted [])) with 8. lia.
  - exact E.
  - by destruct H.
  - rewrite Hi in H. lia.
Defined.
