(* ===== verification/CcfsFilter.v ===== *)
(** The name filter of the caching file system (src/src/ccfs/filter.h, filter.c): which files
    may be cached.  A filter is a list of patterns parsed from a mount option; a pattern is a
    name, a name with a leading [*], or the word OLD, which stands for files that were
    created before the filter and for directories.

    Names and patterns are lists of bytes.  Results of [kmalloc] and the current time are
    arguments. *)

From S2P Require Import Prelude.

Record timespec := mk_timespec { tv_sec : Z; tv_nsec : Z }.

(** [timespec_compare] of include/linux/time.h. *)
Definition timespec_compare (a b : timespec) : Z :=
  if tv_sec a <? tv_sec b then -1
  else if tv_sec b <? tv_sec a then 1
  else tv_nsec a - tv_nsec b.

(** [S_ISDIR] on the low 16 bits of a mode. *)
Definition S_IFMT : Z := 61440.
Definition S_IFDIR : Z := 16384.
Definition S_ISDIR (m : Z) : bool := Z.land m S_IFMT =? S_IFDIR.

Record filter_pattern := mk_pattern {
  pattern : option (list Z);
  pattern_length : Z;
  older_than : timespec
}.

(** [struct filter]: the patterns in the order of the list. *)
Definition filter : Type := list filter_pattern.

Definition create_filter (kmalloc_ok : bool) : option filter := if kmalloc_ok then Some [] else None.

(** The blocks that are released: the structures of the patterns, then the filter. *)
Inductive block := Pattern_struct (p : filter_pattern) | Pattern_string (s : list Z) | Filter_struct.

Definition destroy_filter (f : option filter) : list block :=
  match f with
  | None => []
  | Some patterns => map Pattern_struct patterns ++ [Filter_struct]
  end.

(** The blocks a filter consists of. *)
Definition owned (f : filter) : list block :=
  (f ≫= fun p => Pattern_struct p :: match pattern p with Some s => [Pattern_string s] | None => [] end)
  ++ [Filter_struct].

Definition OLD : list Z := [79; 76; 68].

(** [uninit]: the contents of the fresh memory.  The two booleans are the allocations. *)
Definition add_filter_pattern (km1 km2 : bool) (uninit : filter_pattern) (now : timespec)
    (f : filter) (pat : list Z) (len : Z) : Z * filter :=
  if negb km1 then (- ENOMEM, f) else
  if bool_decide (pat = OLD) then
    let p := mk_pattern None (pattern_length uninit) (mk_timespec (tv_sec now - 3600) (tv_nsec now)) in
    (0, p :: f)
  else if negb km2 then (- ENOMEM, f) else
    (0, mk_pattern (Some (ztake len pat)) len (older_than uninit) :: f).

(** [strsep(&definition, ":")]: the token and what is left. *)
Fixpoint strsep (s : list Z) : list Z * option (list Z) :=
  match s with
  | [] => ([], None)
  | c :: s => if c =? 58 then ([], Some s) else let '(t, r) := strsep s in (c :: t, r)
  end.

(** What the outside decides for the [i]-th pattern. *)
Record add_env := mk_add_env { ae_km1 : bool; ae_km2 : bool; ae_uninit : filter_pattern; ae_now : timespec }.

(** The loop of [parse_filter].  [None]: out of fuel. *)
Fixpoint parse_loop (fuel : nat) (env : nat -> add_env) (i : nat) (f : filter)
    (definition : option (list Z)) : option filter :=
  match definition with
  | None => Some f
  | Some s =>
      match fuel with
      | O => None
      | S fuel =>
          let '(p, rest) := strsep s in
          match p with
          | [] => parse_loop fuel env i f rest
          | _ =>
              let e := env i in
              let '(_, f) := add_filter_pattern (ae_km1 e) (ae_km2 e) (ae_uninit e) (ae_now e) f p (zlen p) in
              parse_loop fuel env (S i) f rest
          end
      end
  end.

Definition parse_filter (env : nat -> add_env) (f : filter) (definition : list Z) : option filter :=
  parse_loop (S (length definition)) env 0 f (Some definition).

(** The loop of [pattern_matches]: the result of a [return] in the loop, or the indices. *)
Fixpoint match_loop (fuel : nat) (pat name : list Z) (pattern_index name_index : Z) : bool :=
  match fuel with
  | O => name_index =? pattern_index
  | S fuel =>
      if (-1 <? name_index) && (-1 <? pattern_index) then
        if znth pat pattern_index =? 42 then true
        else if negb (znth pat pattern_index =? znth name name_index) then false
        else match_loop fuel pat name (pattern_index - 1) (name_index - 1)
      else name_index =? pattern_index
  end.

(** Each round lowers [name_index], so the length of the name is enough fuel. *)
Definition pattern_matches (p : filter_pattern) (name : list Z) (name_length : Z)
    (ctime : timespec) (umode : Z) : bool :=
  match pattern p with
  | None => S_ISDIR umode || (0 <? timespec_compare (older_than p) ctime)
  | Some pat => match_loop (Z.to_nat name_length) pat name (pattern_length p - 1) (name_length - 1)
  end.

Fixpoint filter_matches_loop (f : filter) (name : list Z) (name_length : Z) (ctime : timespec)
    (umode : Z) : bool :=
  match f with
  | [] => false
  | head :: f =>
      if pattern_matches head name name_length ctime umode then true
      else filter_matches_loop f name name_length ctime umode
  end.

Definition filter_matches (f : option filter) (name : list Z) (name_length : Z) (ctime : timespec)
    (umode : Z) : bool :=
  match f with
  | None => true
  | Some f => filter_matches_loop f name name_length ctime umode
  end.

(** ** What the filter means *)

(** The words between the colons. *)
Fixpoint words (s : list Z) : list (list Z) :=
  match s with
  | [] => [[]]
  | c :: s => if c =? 58 then [] :: words s
              else match words s with w :: ws => (c :: w) :: ws | [] => [[c]] end
  end.

(** The patterns of a definition: its non-empty words. *)
Definition patterns_of (s : list Z) : list (list Z) :=
  List.filter (fun w => negb (bool_decide (w = []))) (words s).

(** The part of a pattern after its last [*]. *)
Fixpoint after_star (p : list Z) : option (list Z) :=
  match p with
  | [] => None
  | c :: p => match after_star p with
              | Some s => Some s
              | None => if c =? 42 then Some p else None
              end
  end.

(** A name is matched by a pattern with a [*] when it ends with what follows the last [*]
    and something comes before; by another pattern when it is equal to it. *)
Definition glob (p name : list Z) : Prop :=
  match after_star p with
  | None => name = p
  | Some suffix => exists pre, pre <> [] /\ name = pre ++ suffix
  end.

(** What one word of a definition admits, in a filter parsed at the time [now]. *)
Definition admits (now : timespec) (w name : list Z) (ctime : timespec) (umode : Z) : Prop :=
  if bool_decide (w = OLD)
  then S_ISDIR umode = true \/
       0 < timespec_compare (mk_timespec (tv_sec now - 3600) (tv_nsec now)) ctime
  else glob w name.

(** *** Matching from the end *)

(** The loop on the reversed pattern and name. *)
Fixpoint rmatch (p n : list Z) : bool :=
  match n, p with
  | c :: n, d :: p => if d =? 42 then true else if negb (d =? c) then false else rmatch p n
  | [], [] => true
  | _, _ => false
  end.

Lemma znth_middle (l : list Z) x k : znth (l ++ x :: k) (zlen l) = x.
Proof.
  rewrite znth_app by apply zlen_nonneg. rewrite Z.ltb_irrefl, Z.sub_diag. done.
Qed.

Lemma match_loop_rev fuel p n sp sn :
  (length n <= fuel)%nat ->
  match_loop fuel (rev p ++ sp) (rev n ++ sn) (zlen p - 1) (zlen n - 1) = rmatch p n.
Proof.
  revert fuel p sp sn. induction n as [|c n IH]; intros fuel p sp sn Hf.
  - assert (match_loop fuel (rev p ++ sp) (rev [] ++ sn) (zlen p - 1) (zlen [] - 1) = (-1 =? zlen p - 1)) as ->
      by (by destruct fuel).
    destruct p as [|d p]; [done|]. cbn [rmatch]. rewrite zlen_cons. pose proof (zlen_nonneg p). lia.
  - destruct fuel as [|fuel]; [simpl in Hf; lia|]. cbn [match_loop rmatch].
    destruct p as [|d p].
    + rewrite zlen_cons. change (zlen (@nil Z) - 1) with (-1). change (-1 <? -1) with false.
      rewrite andb_false_r. cbv iota. pose proof (zlen_nonneg n). cbn [rmatch]. lia.
    + cbn [rmatch]. rewrite !zlen_cons. replace (1 + zlen n - 1) with (zlen n) by lia.
      replace (1 + zlen p - 1) with (zlen p) by lia.
      pose proof (zlen_nonneg n). pose proof (zlen_nonneg p).
      replace (-1 <? zlen n) with true by lia. replace (-1 <? zlen p) with true by lia. cbn [andb].
      cbn [rev]. rewrite <- !app_assoc. cbn [app].
      assert (forall l : list Z, zlen (rev l) = zlen l) as Hr by (intros; unfold zlen; by rewrite length_rev).
      rewrite <- (Hr p), <- (Hr n), !znth_middle, !Hr.
      destruct (d =? 42); [done|]. destruct (negb (d =? c)); [done|]. apply IH. simpl in Hf. lia.
Qed.

Lemma rmatch_iff p n :
  rmatch p n = true <->
  ((42 ∉ p) /\ n = p) \/ (exists s q, p = s ++ 42 :: q /\ (42 ∉ s) /\ exists pre, pre <> [] /\ n = s ++ pre).
Proof.
  revert p. induction n as [|c n IH]; intros [|d p]; cbn [rmatch].
  - split; [left; split; [set_solver|done]|done].
  - split; [done|]. intros [[_ ?]|(s & q & E & _ & pre & Hp & E2)]; [done|].
    symmetry in E2. by apply app_nil in E2 as [_ ->].
  - split; [done|]. intros [[_ ?]|(s & q & E & _)]; [done|]. by destruct s.
  - destruct (d =? 42) eqn:E42; bool_hyps.
    { subst d. split; [|done]. intros _. right. exists [], p.
      split_and!; [done|set_solver|]. by exists (c :: n). }
    destruct (negb (d =? c)) eqn:Edc; bool_hyps.
    + split; [done|]. intros [[_ ?]|(s & q & E & _ & pre & Hp & E2)]; [congruence|].
      destruct s as [|x s]; simpl in *; congruence.
    + subst d. rewrite IH. split.
      * intros [[H1 ->]|(s & q & -> & Hs & pre & Hp & ->)].
        -- left. split; [set_solver|done].
        -- right. exists (c :: s), q. split_and!; [done|set_solver|]. by exists pre.
      * intros [[H1 [= ->]]|(s & q & E & Hs & pre & Hp & E2)].
        -- left. split; [set_solver|done].
        -- destruct s as [|x s]; simpl in *; [congruence|]. injection E as [= <- ->].
           injection E2 as [= ->]. right. exists s, q. split_and!; [done|set_solver|by exists pre].
Qed.

Lemma after_star_spec p :
  match after_star p with
  | None => 42 ∉ p
  | Some s => (42 ∉ s) /\ exists q, p = q ++ 42 :: s
  end.
Proof.
  induction p as [|c p IH]; cbn [after_star]; [set_solver|].
  destruct (after_star p) as [s|].
  - destruct IH as [Hs [q ->]]. split; [done|]. by exists (c :: q).
  - destruct (c =? 42) eqn:E; bool_hyps; [subst; split; [done|by exists []]|set_solver].
Qed.

Lemma star_split (s s' q q' : list Z) :
  42 ∉ s -> 42 ∉ s' -> s ++ 42 :: q = s' ++ 42 :: q' -> s = s'.
Proof.
  revert s'. induction s as [|x s IH]; intros [|y s'] Hs Hs' E; simplify_eq/=; try set_solver.
  f_equal. apply IH; set_solver.
Qed.

Lemma rmatch_glob p name : rmatch (rev p) (rev name) = true <-> glob p name.
Proof.
  rewrite rmatch_iff. unfold glob. pose proof (after_star_spec p) as H.
  assert (forall x (l : list Z), x ∈ rev l <-> x ∈ l) as Hrev
    by (intros; rewrite !list_elem_of_In; symmetry; apply in_rev).
  destruct (after_star p) as [s|].
  - destruct H as [Hs [q ->]]. split.
    + intros [[Hn _]|(s' & q' & E & Hs' & pre & Hp & Hname)].
      { exfalso. apply Hn. rewrite Hrev. set_solver. }
      rewrite rev_app_distr in E. cbn [rev] in E. rewrite <- app_assoc in E. cbn [app] in E.
      assert (s' = rev s) as ->.
      { assert (42 ∉ rev s) as Hrs by (by rewrite Hrev).
        symmetry. by eapply star_split. }
      exists (rev pre). split; [intros E2; apply Hp; rewrite <- (rev_involutive pre), E2; done|].
      rewrite <- (rev_involutive name), Hname, rev_app_distr, rev_involutive. done.
    + intros (pre & Hp & ->). right. exists (rev s), (rev q). rewrite rev_app_distr. cbn [rev].
      rewrite <- app_assoc. split_and!; [done|by rewrite Hrev|]. exists (rev pre).
      split; [intros E; apply Hp; by rewrite <- (rev_involutive pre), E|]. by rewrite rev_app_distr.
  - split.
    + intros [[_ E]|(s & q & E & _)]; [by rewrite <- (rev_involutive name), E, rev_involutive|].
      exfalso. apply H. rewrite <- Hrev, E. set_solver.
    + intros ->. left. split; [by rewrite Hrev|done].
Qed.

Lemma pattern_matches_glob p len t name ctime umode :
  len = zlen p ->
  pattern_matches (mk_pattern (Some p) len t) name (zlen name) ctime umode = true <-> glob p name.
Proof.
  intros ->. unfold pattern_matches. cbn [pattern pattern_length].
  pose proof (match_loop_rev (Z.to_nat (zlen name)) (rev p) (rev name) [] []) as H.
  rewrite !rev_involutive, !app_nil_r in H.
  assert (forall l : list Z, zlen (rev l) = zlen l) as Hr by (intros; unfold zlen; by rewrite length_rev).
  rewrite !Hr in H. rewrite H; [apply rmatch_glob|]. rewrite length_rev. unfold zlen. lia.
Qed.

(** *** Parsing *)

Lemma strsep_words s :
  words s = (strsep s).1 :: match (strsep s).2 with Some r => words r | None => [] end.
Proof.
  induction s as [|c s IH]; cbn [words strsep]; [done|].
  destruct (c =? 58); [done|]. rewrite IH. destruct (strsep s) as [t r]. done.
Qed.

Lemma strsep_shorter s t r : strsep s = (t, Some r) -> (length r < length s)%nat.
Proof.
  revert t r. induction s as [|c s IH]; intros t r E; cbn [strsep] in E; [done|].
  destruct (c =? 58); [injection E as [= <- <-]; simpl; lia|].
  destruct (strsep s) as [t' r'] eqn:E'. injection E as [= <- ->]. simpl.
  specialize (IH _ _ eq_refl). lia.
Qed.

(** The pattern an allocation leaves for a word. *)
Definition stored (e : add_env) (w : list Z) : list filter_pattern :=
  (add_filter_pattern (ae_km1 e) (ae_km2 e) (ae_uninit e) (ae_now e) [] w (zlen w)).2.

Lemma add_filter_stored e f w :
  (add_filter_pattern (ae_km1 e) (ae_km2 e) (ae_uninit e) (ae_now e) f w (zlen w)).2 = stored e w ++ f.
Proof.
  unfold stored, add_filter_pattern. destruct (ae_km1 e), (ae_km2 e); cbn [negb]; try done;
    destruct (bool_decide _); done.
Qed.

(** The patterns of the words, the last one first. *)
Fixpoint stored_all (env : nat -> add_env) (i : nat) (ws : list (list Z)) (f : filter) : filter :=
  match ws with
  | [] => f
  | w :: ws => stored_all env (S i) ws (stored (env i) w ++ f)
  end.

Lemma parse_loop_stored fuel env i f s :
  (length s < fuel)%nat ->
  parse_loop fuel env i f (Some s) = Some (stored_all env i (patterns_of s) f).
Proof.
  revert env i f s. induction fuel as [|fuel IH]; intros env i f s Hf; [lia|].
  cbn [parse_loop]. unfold patterns_of. rewrite strsep_words.
  destruct (strsep s) as [t r] eqn:E. cbn [fst snd].
  assert (forall j g, parse_loop fuel env j g r =
            Some (stored_all env j (List.filter (fun w => negb (bool_decide (w = [])))
                     match r with Some r => words r | None => [] end) g)) as H.
  { intros j g. destruct r as [r|]; [|by destruct fuel].
    apply IH. apply strsep_shorter in E. lia. }
  destruct t as [|c t]; cbn [List.filter]; [apply H|].
  pose proof (add_filter_stored (env i) f (c :: t)) as Ha.
  destruct (add_filter_pattern _ _ _ _ f _ _) as [z g]. cbn [snd] in Ha. subst g. apply H.
Qed.

Lemma stored_matches e w p now name ctime umode :
  w <> [] -> ae_now e = now -> p ∈ stored e w ->
  pattern_matches p name (zlen name) ctime umode = true <-> admits now w name ctime umode.
Proof.
  intros Hw <-. unfold stored, add_filter_pattern, admits.
  destruct (negb (ae_km1 e)); [set_solver|]. destruct (bool_decide (w = OLD)).
  - cbn [snd]. rewrite list_elem_of_singleton. intros ->. unfold pattern_matches. cbn [pattern older_than].
    rewrite orb_true_iff, Z.ltb_lt. done.
  - destruct (negb (ae_km2 e)); [set_solver|]. cbn [snd]. rewrite list_elem_of_singleton. intros ->.
    rewrite ztake_all by lia. by apply pattern_matches_glob.
Qed.

Lemma filter_matches_exists f name len ctime umode :
  filter_matches_loop f name len ctime umode = true <->
  exists p, p ∈ f /\ pattern_matches p name len ctime umode = true.
Proof.
  induction f as [|h f IH]; cbn [filter_matches_loop].
  - split; [done|]. intros (p & H & _). set_solver.
  - destruct (pattern_matches h _ _ _ _) eqn:E.
    + split; [|done]. intros _. exists h. set_solver.
    + rewrite IH. split; intros (p & Hp & Hm); exists p; [set_solver|]. split; [|done].
      apply elem_of_cons in Hp as [->|]; [congruence|done].
Qed.

Lemma stored_all_elem env i ws f p :
  p ∈ stored_all env i ws f <-> p ∈ f \/ exists k w, ws !! k = Some w /\ p ∈ stored (env (i + k)%nat) w.
Proof.
  revert i f. induction ws as [|w ws IH]; intros i f; cbn [stored_all].
  - split; [by left|]. intros [?|(k & w & ? & _)]; [done|]. by rewrite lookup_nil in *.
  - rewrite IH, elem_of_app. split.
    + intros [[H|H]|(k & w' & Hk & Hp)]; [|by left|].
      * right. exists 0%nat, w. by rewrite Nat.add_0_r.
      * right. exists (S k), w'. split; [done|]. by replace (i + S k)%nat with (S i + k)%nat by lia.
    + intros [H|([|k] & w' & Hk & Hp)]; [by left; right| |].
      * injection Hk as [= ->]. rewrite Nat.add_0_r in Hp. by left; left.
      * right. exists k, w'. split; [done|]. by replace (S i + k)%nat with (i + S k)%nat by lia.
Qed.

(** C33: The filter is its definition.  Parsing a mount option always ends; a name matches the
    parsed filter only if a non-empty word of the option admits it, and, when no allocation
    failed, exactly then: a plain word admits itself, a word with a [*] admits the names that
    end with what follows its last [*] and are longer, and OLD admits directories and files
    older than an hour before the parsing. *)
Theorem filter_matches_definition env definition now name ctime umode :
  (forall i, ae_now (env i) = now) ->
  exists f, parse_filter env [] definition = Some f /\
    (filter_matches (Some f) name (zlen name) ctime umode = true ->
     exists w, w ∈ patterns_of definition /\ admits now w name ctime umode) /\
    ((forall i, ae_km1 (env i) = true /\ ae_km2 (env i) = true) ->
     (exists w, w ∈ patterns_of definition /\ admits now w name ctime umode) ->
     filter_matches (Some f) name (zlen name) ctime umode = true).
Proof.
  intros Hnow. exists (stored_all env 0 (patterns_of definition) []). unfold parse_filter.
  rewrite parse_loop_stored by lia. split; [done|].
  assert (forall w, w ∈ patterns_of definition -> w <> []) as Hne.
  { intros w Hw. apply list_elem_of_In, filter_In in Hw as [_ Hw]. by destruct w. }
  cbn [filter_matches]. split.
  - intros (p & Hp & Hm)%filter_matches_exists.
    apply stored_all_elem in Hp as [?|(k & w & Hk & Hp)]; [set_solver|].
    apply list_elem_of_lookup_2 in Hk. exists w. split; [done|].
    by eapply stored_matches; [apply Hne|apply Hnow|..].
  - intros Hkm (w & Hw & Ha). apply filter_matches_exists.
    apply list_elem_of_lookup_1 in Hw as Hk. destruct Hk as [k Hk].
    assert (exists p, p ∈ stored (env k) w) as [p Hp].
    { unfold stored, add_filter_pattern. destruct (Hkm k) as [-> ->]. cbn [negb].
      destruct (bool_decide _); eexists; apply list_elem_of_singleton; done. }
    exists p. split; [apply stored_all_elem; right; by exists k, w|].
    eapply stored_matches; [by apply Hne|apply Hnow|done|done].
Qed.

Definition ex_env : nat -> add_env := fun _ =>
  mk_add_env true true (mk_pattern None 0 (mk_timespec 0 0)) (mk_timespec 5000 0).

(** The option [*.c:Makefile], the name [a.c]. *)
Lemma filter_matches_definition_witness :
  exists f, parse_filter ex_env [] [42; 46; 99; 58; 77] = Some f /\
    filter_matches (Some f) [97; 46; 99] 3 (mk_timespec 0 0) 0 = true.
Proof.
  destruct (filter_matches_definition ex_env [42; 46; 99; 58; 77] (mk_timespec 5000 0) [97; 46; 99]
    (mk_timespec 0 0) 0 (fun _ => eq_refl)) as (f & Hf & _ & H).
  exists f. split; [exact Hf|]. apply H; [done|]. exists [42; 46; 99]. split; [set_solver|].
  unfold admits. simpl. exists [97]. done.
Defined.

(** The strings of the patterns. *)
Definition strings (p : filter_pattern) : list block :=
  match pattern p with Some s => [Pattern_string s] | None => [] end.

(** Destroying a filter releases the structures of the patterns and the filter, and nothing
    twice, but not the strings of the patterns: exactly those blocks are left. *)
Theorem destroy_filter_leaks f :
  Permutation (owned f) (destroy_filter (Some f) ++ (f ≫= strings)).
Proof.
  unfold owned, destroy_filter. rewrite <- app_assoc, (Permutation_app_comm [Filter_struct]), app_assoc.
  apply Permutation_app_tail. fold strings. induction f as [|p f IH]; [done|].
  rewrite !bind_cons. cbn [map app]. apply perm_skip. fold (strings p). rewrite IH, !app_assoc.
  apply Permutation_app_tail, Permutation_app_comm.
Qed.
