(* ===== verification/Effect.v ===== *)
(** Effectful code: a state monad whose computations may fault, leave their caller for good,
    or use up their fuel, with the rules to reason about it.

    The task and manager code works on many kernel objects through pointers.  A function of
    it becomes a computation [eff W A] on a world [W] that holds these objects. *)

From S2P Require Import Prelude.

(** Why a computation does not return to its caller. *)
Inductive stop :=
| Gone      (** the thread exited, was replaced by execve, or sleeps without being woken *)
| Running.  (** the fuel was used up: the loop goes on *)

Inductive outcome (W A : Type) :=
| Ret (a : A) (w : W)
| Stop (s : stop) (w : W)
| Fault.     (** an access through a NULL or dangling pointer *)
Arguments Ret {W A} a w.
Arguments Stop {W A} s w.
Arguments Fault {W A}.

Definition eff (W A : Type) : Type := W -> outcome W A.

#[export] Instance eff_ret {W} : MRet (eff W) := fun A a w => Ret a w.
#[export] Instance eff_bind {W} : MBind (eff W) := fun A B f m w =>
  match m w with
  | Ret a w' => f a w'
  | Stop s w' => Stop s w'
  | Fault => Fault
  end.

Section ops.
Context {W : Type}.

Definition gets {A} (f : W -> A) : eff W A := fun w => Ret (f w) w.
Definition modify (f : W -> W) : eff W unit := fun w => Ret () (f w).
Definition fault {A} : eff W A := fun _ => Fault.
Definition halt {A} (s : stop) : eff W A := fun w => Stop s w.
(** A pointer that must be valid. *)
Definition valid {A} (o : option A) : eff W A := match o with Some a => mret a | None => fault end.
Definition when (b : bool) (m : eff W unit) : eff W unit := if b then m else mret tt.
End ops.

(** The weakest precondition: [m] does not fault, what it returns satisfies [Q] and where it
    stops satisfies [G]. *)
Definition wp {W A} (m : eff W A) (Q : A -> W -> Prop) (G : stop -> W -> Prop) (w : W) : Prop :=
  match m w with
  | Ret a w' => Q a w'
  | Stop s w' => G s w'
  | Fault => False
  end.

(** The weakest liberal precondition: a fault is allowed. *)
Definition wlp {W A} (m : eff W A) (Q : A -> W -> Prop) (G : stop -> W -> Prop) (w : W) : Prop :=
  match m w with
  | Ret a w' => Q a w'
  | Stop s w' => G s w'
  | Fault => True
  end.

Section rules.
Context {W : Type}.
Implicit Types (w : W) (G : stop -> W -> Prop).

Lemma wp_ret {A} (a : A) Q G w : Q a w -> wp (mret a) Q G w.
Proof. done. Qed.
Lemma wp_bind {A B} (m : eff W A) (f : A -> eff W B) Q G w :
  wp m (fun a => wp (f a) Q G) G w -> wp (m ≫= f) Q G w.
Proof. unfold wp, mbind, eff_bind. by destruct (m w). Qed.
Lemma wp_mono {A} (m : eff W A) (Q Q' : A -> W -> Prop) (G G' : stop -> W -> Prop) w :
  wp m Q G w -> (forall a w', Q a w' -> Q' a w') -> (forall s w', G s w' -> G' s w') -> wp m Q' G' w.
Proof. unfold wp. destruct (m w); eauto. Qed.
Lemma wp_wlp {A} (m : eff W A) Q G w : wp m Q G w -> wlp m Q G w.
Proof. unfold wp, wlp. by destruct (m w). Qed.

Lemma wlp_ret {A} (a : A) (Q : A -> W -> Prop) G w : Q a w -> wlp (mret a) Q G w.
Proof. done. Qed.
Lemma wlp_bind {A B} (m : eff W A) (f : A -> eff W B) Q G w :
  wlp m (fun a => wlp (f a) Q G) G w -> wlp (m ≫= f) Q G w.
Proof. unfold wlp, mbind, eff_bind. by destruct (m w). Qed.
Lemma wlp_mono {A} (m : eff W A) (Q Q' : A -> W -> Prop) (G G' : stop -> W -> Prop) w :
  wlp m Q G w -> (forall a w', Q a w' -> Q' a w') -> (forall s w', G s w' -> G' s w') -> wlp m Q' G' w.
Proof. unfold wlp. destruct (m w); eauto. Qed.

(** [m] keeps an invariant, wherever it ends. *)
Definition keeps {A} (I : W -> Prop) (m : eff W A) : Prop :=
  forall w, I w -> wlp m (fun _ => I) (fun _ => I) w.

Lemma keeps_ret {A} I (a : A) : keeps I (mret a).
Proof. intros w H. exact H. Qed.
Lemma keeps_bind {A B} I (m : eff W A) (f : A -> eff W B) :
  keeps I m -> (forall a, keeps I (f a)) -> keeps I (m ≫= f).
Proof.
  intros Hm Hf w H. apply wlp_bind. eapply wlp_mono; [apply Hm, H|intros a w'; apply Hf|done].
Qed.
Lemma keeps_gets {A} I (f : W -> A) : keeps I (gets f).
Proof. intros w H. exact H. Qed.
Lemma keeps_modify I (f : W -> W) : (forall w, I w -> I (f w)) -> keeps I (modify f).
Proof. intros Hf w H. exact (Hf w H). Qed.
Lemma keeps_fault {A} I : keeps I (@fault W A).
Proof. intros w H. exact Logic.I. Qed.
Lemma keeps_halt {A} I s : keeps I (@halt W A s).
Proof. intros w H. exact H. Qed.
Lemma keeps_valid {A} I (o : option A) : keeps I (valid o).
Proof. destruct o; [apply keeps_ret|apply keeps_fault]. Qed.
Lemma keeps_when I b m : keeps I m -> keeps I (when b m).
Proof. intros Hm. destruct b; [exact Hm|apply keeps_ret]. Qed.
Lemma keeps_if {A} I (b : bool) (m m' : eff W A) : keeps I m -> keeps I m' -> keeps I (if b then m else m').
Proof. by destruct b. Qed.
Lemma keeps_option {A B} I (o : option B) (f : B -> eff W A) m :
  (forall b, keeps I (f b)) -> keeps I m -> keeps I (match o with Some b => f b | None => m end).
Proof. by destruct o. Qed.
End rules.

Create HintDb keeps discriminated.
#[export] Hint Resolve keeps_ret keeps_gets keeps_fault keeps_halt keeps_valid keeps_when keeps_if
  keeps_option : keeps.
#[export] Hint Resolve keeps_bind : keeps.

(** A computation that returns goes on with the next one. *)
Lemma bind_run {W A B} (m : eff W A) (f : A -> eff W B) (w : W) a w' : m w = Ret a w' -> (m ≫= f) w = f a w'.
Proof. intros Hm. unfold mbind, eff_bind. by rewrite Hm. Qed.
Lemma bind_assoc_run {W A D E} (m : eff W A) (k : A -> eff W D) (g : D -> eff W E) (u : W) :
  ((m ≫= k) ≫= g) u = (m ≫= fun a => k a ≫= g) u.
Proof. unfold mbind, eff_bind. by destruct (m u). Qed.
Lemma bind2_run {W A D E} (m : eff W A) (k : eff W D) (g : D -> eff W E) (u u' : W) d :
  (m;; k) u = Ret d u' -> (m ≫= fun _ => k ≫= g) u = g d u'.
Proof. unfold mbind, eff_bind. destruct (m u); [|done..]. by intros ->. Qed.
Ltac step H := rewrite (bind_run _ _ _ _ _ H).

(** Runs straight-line code symbolically. *)
Ltac run := cbv beta iota delta [mbind eff_bind mret eff_ret gets modify fault halt valid when wp].
