(* ===== verification/World.v ===== *)
(** The world of the task and manager code: the objects it reaches through pointers, and the
    answers of the kernel and of the other threads.

    The structures are those of src/src/tcmi/task/tcmi_task.h, tcmi_method_wrapper.h,
    src/src/tcmi/manager/tcmi_migman.h and the [tcmi] record the kernel patch adds to a
    process.  Objects are found by their address; an address that is not in its map is freed
    or was never allocated, and using it is a fault.  Control-fs entries, sockets and
    connections matter here only by their reference counts ([objs]). *)

From stdpp Require Import gmap.
From S2P Require Import Prelude Effect SlotVec Transaction KkcSock MsgId Messages Queue Msg.

(** ** Constants *)

Definition TCMI_TASK_KEEP_PUMPING : Z := 0.
Definition TCMI_TASK_MOVE_ME : Z := 1.
Definition TCMI_TASK_EXECVE_FAILED_KILL_ME : Z := 2.
Definition TCMI_TASK_KILL_ME : Z := 3.
Definition TCMI_TASK_LET_ME_GO : Z := 4.
Definition TCMI_TASK_REMOVE_AND_LET_ME_GO : Z := 5.

Definition SIGINT : Z := 2.
Definition SIGQUIT : Z := 3.
Definition SIGKILL : Z := 9.
Definition SIGTERM : Z := 15.
Definition SIGSTOP : Z := 19.
Definition SIGUNUSED : Z := 31.
Definition ESRCH : Z := 3.
Definition ENOEXEC : Z := 8.

(** ** Objects *)

(** The methods that are submitted to a task. *)
Inductive tcmi_method :=
| M_process_msg | M_send_message | M_emigrate_ppm_p | M_migrateback_ppm_p | M_emigrate_ppm_v
| M_migrateback_ppm_v | M_emigrate_npm | M_migrateback_npm | M_exit | M_execve
| M_mount_proxyfs | M_post_fork_set_tid.
#[export] Instance tcmi_method_eq : EqDecision tcmi_method.
Proof. solve_decision. Defined.

(** [wr_data]: the bytes of the argument, or NULL. *)
Record tcmi_method_wrapper := mk_wrapper {
  method : option tcmi_method;
  wr_data : option (list Z);
  wr_ref : Z
}.

Inductive tcmi_task_type := unresolved | shadow | shadow_detached | guest.
#[export] Instance tcmi_task_type_eq : EqDecision tcmi_task_type.
Proof. solve_decision. Defined.

(** The two operation tables. *)
Inductive tcmi_task_class := Shadowtask | Guesttask.

(** [t_trans]: the slot vector of the transactions with the transactions, [None] when it is
    freed.  [argv] and [envp]: the address and the contents of their blocks.  [ops] is the
    table of operations. *)
Record tcmi_task := mk_task {
  local_pid : Z;
  remote_pid : Z;
  t_migman : option Z;
  t_sock : option Z;
  method_queue : tcmi_queue;
  msg_queue : tcmi_queue;
  t_trans : option world;
  d_task : option Z;
  s_migman : option Z;
  f_remote_pid : option Z;
  f_remote_pid_rev : option Z;
  d_migman_root : option Z;
  exit_code : Z;
  t_ref : Z;
  t_context : Z;
  ckpt_pathname : option (list Z);
  argv : option (Z * list Z);
  t_envp : option (Z * list Z);
  execve_count : Z;
  picked_up : Z;
  picked_up_flag : Z;
  peer_lost : Z;
  ops : tcmi_task_class
}.

Inductive tcmi_migman_state_t :=
| TCMI_MIGMAN_INIT | TCMI_MIGMAN_CONNECTED | TCMI_MIGMAN_SHUTTING_DOWN | TCMI_MIGMAN_SHUT_DOWN.
#[export] Instance tcmi_migman_state_eq : EqDecision tcmi_migman_state_t.
Proof. solve_decision. Defined.

Inductive tcmi_migman_class := Ccnmigman | Penmigman.

(** [mm_file]: the file of the subclass, [f_load] or [f_mighome_all]; [mount_params] belongs to
    [struct tcmi_penmigman].  [mm_hashed]: the node is in its slot. *)
Record tcmi_migman := mk_migman {
  mm_tasks : tcmi_slotvec;
  ccn_id : Z;
  pen_id : Z;
  manager_slot : option nat;
  mm_hashed : bool;
  peer_arch_type : Z;
  mm_ref : Z;
  mm_queue : tcmi_queue;
  mm_trans : option world;
  mm_comm : option Z;
  mm_sock : option Z;
  msg_thread : option Z;
  mm_state : tcmi_migman_state_t;
  d_migman : option Z;
  d_conns : option Z;
  f_state : option Z;
  f_stop : option Z;
  f_kill : option Z;
  d_migproc : option Z;
  mm_symlink : option Z;
  mm_id : Z;
  mm_file : option Z;
  mount_params : option fs_mount_params;
  mm_ops : tcmi_migman_class
}.

(** A process: the [tcmi] record of the patch, the deliverable signals with their siginfo, its
    flags, its open files with the type bits of their inodes. *)
Record task_struct := mk_proc {
  mig_mode_handler : bool;
  p_task : option Z;
  task_type : tcmi_task_type;
  pending : list (Z * list Z);
  p_flags : Z;
  p_files : list (Z * Z);
  vfork_done : option Z;
  caught : list Z
}.

(** What leaves the modelled code. *)
Inductive event :=
| E_migrated_home (pid : Z)
| E_emigration_failed (pid : Z)
| E_immigration_confirmed (pid : Z)
| E_exec (path : list Z)
| E_exit (code : Z)
| E_closed (fd : Z)
| E_completed (c : Z)
| E_released (o : Z)
| E_sync_files
| E_unregistered (o : option Z)
| E_connected (slot : nat)
| E_disconnected (slot : nat) (remote_requested : bool)
| E_user_message (slot : nat) (data : list Z)
| E_mounted (dev : list Z)
| E_thread_stopped (t : Z)
| E_task_exit (pid code : Z)
| E_task_fork (res pid : Z)
| E_server_released
| E_server_duplicated (child : Z).

(** The answer to one question: a yes or no, a number, the inputs of a message constructor,
    the messages that other threads deliver during a sleep, what they do to the transactions,
    and the error of a signal that ends the sleep. *)
Record answer := mk_answer {
  a_ok : bool;
  a_num : Z;
  a_env : tx_env;
  a_msgs : list tcmi_msg;
  a_others : world -> world;
  a_sig : option Z;
  a_bytes : list Z
}.

Record kw (S : Type) := mk_kw {
  tasks : gmap Z tcmi_task;
  wraps : gmap Z tcmi_method_wrapper;
  msgs : gmap Z tcmi_msg;
  mans : gmap Z tcmi_migman;
  objs : gmap Z Z;
  procs : gmap Z task_struct;
  current : Z;
  socks : gmap Z S;
  next : Z;
  answers : nat -> answer;
  tick : nat;
  log : list event
}.
Arguments mk_kw {S}.
Arguments tasks {S}. Arguments wraps {S}. Arguments msgs {S}. Arguments mans {S}. Arguments objs {S}.
Arguments procs {S}. Arguments current {S}. Arguments socks {S}. Arguments next {S}.
Arguments answers {S}. Arguments tick {S}. Arguments log {S}.

Section setters.
Context {S : Type}.
Implicit Type w : kw S.

Definition set_tasks f w := mk_kw (f (tasks w)) (wraps w) (msgs w) (mans w) (objs w) (procs w)
  (current w) (socks w) (next w) (answers w) (tick w) (log w).
Definition set_wraps f w := mk_kw (tasks w) (f (wraps w)) (msgs w) (mans w) (objs w) (procs w)
  (current w) (socks w) (next w) (answers w) (tick w) (log w).
Definition set_msgs f w := mk_kw (tasks w) (wraps w) (f (msgs w)) (mans w) (objs w) (procs w)
  (current w) (socks w) (next w) (answers w) (tick w) (log w).
Definition set_mans f w := mk_kw (tasks w) (wraps w) (msgs w) (f (mans w)) (objs w) (procs w)
  (current w) (socks w) (next w) (answers w) (tick w) (log w).
Definition set_objs f w := mk_kw (tasks w) (wraps w) (msgs w) (mans w) (f (objs w)) (procs w)
  (current w) (socks w) (next w) (answers w) (tick w) (log w).
Definition set_procs f w := mk_kw (tasks w) (wraps w) (msgs w) (mans w) (objs w) (f (procs w))
  (current w) (socks w) (next w) (answers w) (tick w) (log w).
Definition set_socks (f : gmap Z S -> gmap Z S) w : kw S := mk_kw (tasks w) (wraps w) (msgs w) (mans w) (objs w) (procs w)
  (current w) (f (socks w)) (next w) (answers w) (tick w) (log w).
Definition set_next n w := mk_kw (tasks w) (wraps w) (msgs w) (mans w) (objs w) (procs w)
  (current w) (socks w) n (answers w) (tick w) (log w).
Definition set_tick n w := mk_kw (tasks w) (wraps w) (msgs w) (mans w) (objs w) (procs w)
  (current w) (socks w) (next w) (answers w) n (log w).
Definition set_log f w := mk_kw (tasks w) (wraps w) (msgs w) (mans w) (objs w) (procs w)
  (current w) (socks w) (next w) (answers w) (tick w) (f (log w)).
End setters.

(** Setters of single fields, where the code assigns one. *)
Definition t_with (t : tcmi_task) (mq : tcmi_queue) (gq : tcmi_queue) (tr : option world) (rc : Z) : tcmi_task :=
  mk_task (local_pid t) (remote_pid t) (t_migman t) (t_sock t) mq gq tr (d_task t) (s_migman t)
    (f_remote_pid t) (f_remote_pid_rev t) (d_migman_root t) (exit_code t) rc (t_context t)
    (ckpt_pathname t) (argv t) (t_envp t) (execve_count t) (picked_up t) (picked_up_flag t)
    (peer_lost t) (ops t).
Definition t_set_method_queue q t := t_with t q (msg_queue t) (t_trans t) (t_ref t).
Definition t_set_msg_queue q t := t_with t (method_queue t) q (t_trans t) (t_ref t).
Definition t_set_trans tr t := t_with t (method_queue t) (msg_queue t) tr (t_ref t).
Definition t_set_ref n t := t_with t (method_queue t) (msg_queue t) (t_trans t) n.
Definition t_scalars (t : tcmi_task) (lp rp ec cx xc pu puf pl : Z) : tcmi_task :=
  mk_task lp rp (t_migman t) (t_sock t) (method_queue t) (msg_queue t) (t_trans t) (d_task t)
    (s_migman t) (f_remote_pid t) (f_remote_pid_rev t) (d_migman_root t) ec (t_ref t) cx
    (ckpt_pathname t) (argv t) (t_envp t) xc pu puf pl (ops t).
Definition t_set_local_pid v t := t_scalars t v (remote_pid t) (exit_code t) (t_context t)
  (execve_count t) (picked_up t) (picked_up_flag t) (peer_lost t).
Definition t_set_exit_code v t := t_scalars t (local_pid t) (remote_pid t) v (t_context t)
  (execve_count t) (picked_up t) (picked_up_flag t) (peer_lost t).
Definition t_set_context v t := t_scalars t (local_pid t) (remote_pid t) (exit_code t) v
  (execve_count t) (picked_up t) (picked_up_flag t) (peer_lost t).
Definition t_set_execve_count v t := t_scalars t (local_pid t) (remote_pid t) (exit_code t)
  (t_context t) v (picked_up t) (picked_up_flag t) (peer_lost t).
Definition t_set_picked_up c v t := t_scalars t (local_pid t) (remote_pid t) (exit_code t)
  (t_context t) (execve_count t) c v (peer_lost t).
Definition t_set_peer_lost v t := t_scalars t (local_pid t) (remote_pid t) (exit_code t)
  (t_context t) (execve_count t) (picked_up t) (picked_up_flag t) v.
Definition t_set_remote (rp : Z) (rev : option Z) (t : tcmi_task) : tcmi_task :=
  mk_task (local_pid t) rp (t_migman t) (t_sock t) (method_queue t) (msg_queue t) (t_trans t)
    (d_task t) (s_migman t) (f_remote_pid t) rev (d_migman_root t) (exit_code t) (t_ref t)
    (t_context t) (ckpt_pathname t) (argv t) (t_envp t) (execve_count t) (picked_up t)
    (picked_up_flag t) (peer_lost t) (ops t).
Definition t_set_exec (c : option (list Z)) (a e : option (Z * list Z)) (t : tcmi_task) : tcmi_task :=
  mk_task (local_pid t) (remote_pid t) (t_migman t) (t_sock t) (method_queue t) (msg_queue t)
    (t_trans t) (d_task t) (s_migman t) (f_remote_pid t) (f_remote_pid_rev t) (d_migman_root t)
    (exit_code t) (t_ref t) (t_context t) c a e (execve_count t) (picked_up t) (picked_up_flag t)
    (peer_lost t) (ops t).

Definition mm_with (m : tcmi_migman) (ts : tcmi_slotvec) (rc : Z) (q : tcmi_queue) (tr : option world)
    (st : tcmi_migman_state_t) (h : bool) : tcmi_migman :=
  mk_migman ts (ccn_id m) (pen_id m) (manager_slot m) h (peer_arch_type m) rc q tr (mm_comm m)
    (mm_sock m) (msg_thread m) st (d_migman m) (d_conns m) (f_state m) (f_stop m) (f_kill m)
    (d_migproc m) (mm_symlink m) (mm_id m) (mm_file m) (mount_params m) (mm_ops m).
Definition mm_peer (cid pid arch : Z) (mp : option fs_mount_params) (m : tcmi_migman) : tcmi_migman :=
  mk_migman (mm_tasks m) cid pid (manager_slot m) (mm_hashed m) arch (mm_ref m) (mm_queue m) (mm_trans m)
    (mm_comm m) (mm_sock m) (msg_thread m) (mm_state m) (d_migman m) (d_conns m) (f_state m) (f_stop m)
    (f_kill m) (d_migproc m) (mm_symlink m) (mm_id m) (mm_file m) mp (mm_ops m).
Definition mm_set_tasks v m := mm_with m v (mm_ref m) (mm_queue m) (mm_trans m) (mm_state m) (mm_hashed m).
Definition mm_set_ref v m := mm_with m (mm_tasks m) v (mm_queue m) (mm_trans m) (mm_state m) (mm_hashed m).
Definition mm_set_queue v m := mm_with m (mm_tasks m) (mm_ref m) v (mm_trans m) (mm_state m) (mm_hashed m).
Definition mm_set_trans v m := mm_with m (mm_tasks m) (mm_ref m) (mm_queue m) v (mm_state m) (mm_hashed m).
Definition mm_set_state v m := mm_with m (mm_tasks m) (mm_ref m) (mm_queue m) (mm_trans m) v (mm_hashed m).

Definition p_with (p : task_struct) (h : bool) (t : option Z) (ty : tcmi_task_type)
    (pend : list (Z * list Z)) : task_struct :=
  mk_proc h t ty pend (p_flags p) (p_files p) (vfork_done p) (caught p).
Definition p_set_pending l p := p_with p (mig_mode_handler p) (p_task p) (task_type p) l.
Definition p_set_tcmi h t ty p := p_with p h t ty (pending p).
Definition p_set_flags v p :=
  mk_proc (mig_mode_handler p) (p_task p) (task_type p) (pending p) v (p_files p) (vfork_done p) (caught p).
Definition p_set_files v p :=
  mk_proc (mig_mode_handler p) (p_task p) (task_type p) (pending p) (p_flags p) v (vfork_done p) (caught p).
Definition p_set_vfork v p :=
  mk_proc (mig_mode_handler p) (p_task p) (task_type p) (pending p) (p_flags p) (p_files p) v (caught p).
Definition p_set_caught v p :=
  mk_proc (mig_mode_handler p) (p_task p) (task_type p) (pending p) (p_flags p) (p_files p) (vfork_done p) v.

(** ** Access *)

Section access.
Context {S : Type}.
Abbreviation M := (eff (kw S)).

Definition ask : M answer :=
  n ← gets tick; a ← gets answers; modify (set_tick (Datatypes.S n));; mret (a n).
(** A fresh address. *)
Definition fresh : M Z := n ← gets next; modify (set_next (n + 1));; mret n.
Definition emit (e : event) : M unit := modify (set_log (fun l => l ++ [e])).

Definition task (self : Z) : M tcmi_task := ts ← gets tasks; valid (ts !! self).
Definition upd_task (self : Z) (f : tcmi_task -> tcmi_task) : M unit :=
  t ← task self; modify (set_tasks (insert self (f t))).
Definition wrapper (p : Z) : M tcmi_method_wrapper := ws ← gets wraps; valid (ws !! p).
Definition message (p : Z) : M tcmi_msg := ms ← gets msgs; valid (ms !! p).
Definition migman (p : Z) : M tcmi_migman := ms ← gets mans; valid (ms !! p).
Definition upd_migman (p : Z) (f : tcmi_migman -> tcmi_migman) : M unit :=
  m ← migman p; modify (set_mans (insert p (f m))).
Definition process (pid : Z) : M task_struct := ps ← gets procs; valid (ps !! pid).
Definition upd_process (pid : Z) (f : task_struct -> task_struct) : M unit :=
  p ← process pid; modify (set_procs (insert pid (f p))).

(** Reference counted objects of other components. *)
Definition obj_get (o : option Z) : M unit :=
  match o with
  | None => mret tt
  | Some p => os ← gets objs; n ← valid (os !! p); modify (set_objs (insert p (n + 1)))
  end.
Definition obj_put (o : option Z) : M unit :=
  match o with
  | None => mret tt
  | Some p =>
      os ← gets objs; n ← valid (os !! p);
      if n - 1 =? 0 then modify (set_objs (delete p));; emit (E_released p)
      else modify (set_objs (insert p (n - 1)))
  end.
(** A constructor of such an object, which may fail. *)
Definition obj_new : M (option Z) :=
  a ← ask;
  if a_ok a then p ← fresh; modify (set_objs (insert p 1));; mret (Some p) else mret None.
End access.

(** ** Rules for the access operations *)

Section rules.
Context {S : Type}.
Implicit Types (w : kw S) (G : stop -> kw S -> Prop).

Lemma wp_ask Q G w : Q (answers w (tick w)) (set_tick (Datatypes.S (tick w)) w) -> wp ask Q G w.
Proof. done. Qed.
Lemma wp_gets {A} (f : kw S -> A) Q G w : Q (f w) w -> wp (gets f) Q G w.
Proof. done. Qed.
Lemma wp_modify f Q G w : Q tt (f w) -> wp (modify f) Q G w.
Proof. done. Qed.
Lemma wp_valid {A} (o : option A) a Q G w : o = Some a -> Q a w -> wp (valid o) Q G w.
Proof. by intros ->. Qed.
Lemma wp_fresh Q G w : Q (next w) (set_next (next w + 1) w) -> wp fresh Q G w.
Proof. done. Qed.
Lemma wp_emit e Q G w : Q tt (set_log (fun l => l ++ [e]) w) -> wp (emit e) Q G w.
Proof. done. Qed.
Lemma wp_task self t Q G w : tasks w !! self = Some t -> Q t w -> wp (task self) Q G w.
Proof. intros Hl HQ. unfold wp, task. run. by rewrite Hl. Qed.
Lemma wp_upd_task self t f Q G w :
  tasks w !! self = Some t -> Q tt (set_tasks (insert self (f t)) w) -> wp (upd_task self f) Q G w.
Proof. intros Hl HQ. unfold wp, upd_task, task. run. by rewrite Hl. Qed.
Lemma wp_wrapper p wr Q G w : wraps w !! p = Some wr -> Q wr w -> wp (wrapper p) Q G w.
Proof. intros Hl HQ. unfold wp, wrapper. run. by rewrite Hl. Qed.
Lemma wp_message p m Q G w : msgs w !! p = Some m -> Q m w -> wp (message p) Q G w.
Proof. intros Hl HQ. unfold wp, message. run. by rewrite Hl. Qed.
Lemma wp_migman p m Q G w : mans w !! p = Some m -> Q m w -> wp (migman p) Q G w.
Proof. intros Hl HQ. unfold wp, migman. run. by rewrite Hl. Qed.
Lemma wp_upd_migman p m f Q G w :
  mans w !! p = Some m -> Q tt (set_mans (insert p (f m)) w) -> wp (upd_migman p f) Q G w.
Proof. intros Hl HQ. unfold wp, upd_migman, migman. run. by rewrite Hl. Qed.
Lemma wp_process p m Q G w : procs w !! p = Some m -> Q m w -> wp (process p) Q G w.
Proof. intros Hl HQ. unfold wp, process. run. by rewrite Hl. Qed.
Lemma wp_upd_process p m f Q G w :
  procs w !! p = Some m -> Q tt (set_procs (insert p (f m)) w) -> wp (upd_process p f) Q G w.
Proof. intros Hl HQ. unfold wp, upd_process, process. run. by rewrite Hl. Qed.
End rules.

(** Projections of updated worlds. *)
Ltac proj := cbn [tasks wraps msgs mans objs procs current socks next answers tick log set_tasks set_wraps
  set_msgs set_mans set_objs set_procs set_socks set_next set_tick set_log].
Ltac lk := proj; first [eassumption | apply lookup_insert_eq | simplify_map_eq; reflexivity].

(** One step of straight-line code. *)
Ltac step :=
  lazymatch goal with
  | |- wp (mbind _ _) _ _ _ => apply wp_bind; step
  | |- wp (mret _) _ _ _ => apply wp_ret
  | |- wp ask _ _ _ => apply wp_ask
  | |- wp (gets _) _ _ _ => apply wp_gets
  | |- wp (modify _) _ _ _ => apply wp_modify
  | |- wp fresh _ _ _ => apply wp_fresh
  | |- wp (valid _) _ _ _ => eapply wp_valid; [first [reflexivity | eassumption]|]
  | |- wp (emit _) _ _ _ => apply wp_emit
  | |- wp (task _) _ _ _ => eapply wp_task; [lk|]
  | |- wp (upd_task _ _) _ _ _ => eapply wp_upd_task; [lk|]
  | |- wp (wrapper _) _ _ _ => eapply wp_wrapper; [lk|]
  | |- wp (message _) _ _ _ => eapply wp_message; [lk|]
  | |- wp (migman _) _ _ _ => eapply wp_migman; [lk|]
  | |- wp (upd_migman _ _) _ _ _ => eapply wp_upd_migman; [lk|]
  | |- wp (process _) _ _ _ => eapply wp_process; [lk|]
  | |- wp (upd_process _ _) _ _ _ => eapply wp_upd_process; [lk|]
  end; proj.

(** ** Example worlds *)

(** Every allocation succeeds, every result is 0. *)
Definition ex_ok : answer := mk_answer true 0 (mk_env true (fun _ _ => true) (Some 500) [7]) [] (fun w => w) None [].
Definition empty_kw {S} (next : Z) : kw S := mk_kw ∅ ∅ ∅ ∅ ∅ ∅ 0 ∅ next (fun _ => ex_ok) 0 [].
