(* ===== verification/Task.v ===== *)
(** Tasks (src/src/tcmi/task/tcmi_method_wrapper.h, tcmi_task.h, tcmi_task.c, and the parts of
    tcmi_taskhelper.h they call): a migrated process on its home node (shadow) or on the node
    it runs on (guest), with its queue of methods, its queue of messages, its transactions and
    the arguments of the execve that restarts it.

    The operation tables of shadow and guest are a parameter here ([ops_of]); the methods that
    other files submit are the parameter [run_other].  A message of a task belongs to the
    task's table of transactions. *)

From stdpp Require Import gmap.
From S2P Require Import Prelude Effect SlotVec Transaction KkcSock MsgId Messages Queue Msg NpmParams World.

Definition TRANSACTION_ORDER : Z := 8.

Section task.
Context {S : Type} `{Sock S} (HZ : Z).
Abbreviation M := (eff (kw S)).

(** ** Method wrappers *)

(** The memory that [kfree] returns on the failure of [vmalloc] was never visible. *)
Definition tcmi_method_wrapper_new (m : option tcmi_method) (data : option (list Z)) (size : Z)
    : M (option Z) :=
  a ← ask;
  if negb (a_ok a) then mret None else
  let store d := p ← fresh; modify (set_wraps (insert p (mk_wrapper m d 1)));; mret (Some p) in
  match data with
  | Some d =>
      if negb (size =? 0) then a ← ask; if negb (a_ok a) then mret None else store (Some (ztake size d))
      else store None
  | None => store None
  end.

Definition tcmi_method_wrapper_get (self : option Z) : M (option Z) :=
  match self with
  | None => mret None
  | Some p =>
      w ← wrapper p;
      modify (set_wraps (insert p (mk_wrapper (method w) (wr_data w) (wr_ref w + 1))));; mret (Some p)
  end.

(** [list_del_init(&self->node)]: out of whatever method queue it is in. *)
Definition unlink_wrapper (p : Z) (t : tcmi_task) : tcmi_task :=
  let q := method_queue t in
  t_set_method_queue (mk_queue (q_lock q) (list_del p (queue q)) (q_ref q) (q_type q) (sleepers q)) t.

Definition tcmi_method_wrapper_put (self : option Z) : M unit :=
  match self with
  | None => mret tt
  | Some p =>
      w ← wrapper p;
      if wr_ref w - 1 =? 0 then
        modify (set_tasks (fmap (unlink_wrapper p)));; modify (set_wraps (delete p))
      else modify (set_wraps (insert p (mk_wrapper (method w) (wr_data w) (wr_ref w - 1))))
  end.

Definition tcmi_method_wrapper_data (self : Z) : M (option (list Z)) := w ← wrapper self; mret (wr_data w).

(** ** Accessors of tcmi_task.h *)

Definition tcmi_task_get (self : option Z) : M (option Z) :=
  match self with
  | None => mret None
  | Some p => upd_task p (fun t => t_set_ref (t_ref t + 1) t);; mret (Some p)
  end.

Definition tcmi_task_exit_code (self : Z) : M Z := t ← task self; mret (exit_code t).
Definition tcmi_task_set_exit_code (self code : Z) : M unit := upd_task self (t_set_exit_code code).
Definition tcmi_task_context (self : Z) : M Z := t ← task self; mret (t_context t).
Definition tcmi_task_set_context (self ctx : Z) : M unit := upd_task self (t_set_context ctx).
Definition tcmi_task_ckpt_name (self : Z) : M (option (list Z)) := t ← task self; mret (ckpt_pathname t).
Definition tcmi_task_local_pid (self : Z) : M Z := t ← task self; mret (local_pid t).
Definition tcmi_task_remote_pid (self : Z) : M Z := t ← task self; mret (remote_pid t).
Definition tcmi_task_set_local_pid (self pid : Z) : M unit := upd_task self (t_set_local_pid pid).
Definition tcmi_task_get_execve_count (self : Z) : M Z := t ← task self; mret (execve_count t).
Definition tcmi_task_inc_execve_count (self : Z) : M unit :=
  upd_task self (fun t => t_set_execve_count s32[execve_count t + 1] t).

(** The previous entry of [f_remote_pid_rev] is overwritten. *)
Definition tcmi_task_set_remote_pid (self pid : Z) : M unit :=
  e ← obj_new; upd_task self (t_set_remote pid e).

Definition tcmi_task_pick_up (self : Z) : M unit :=
  upd_task self (fun t => t_set_picked_up (picked_up t + 1) 1 t).
Definition tcmi_task_picked_up (self : Z) : M bool := t ← task self; mret (0 <? picked_up_flag t).

Definition tcmi_task_hash (local_pid hashmask : Z) : Z := Z.land local_pid hashmask.

(** ** Signals *)

(** [force_sig]: a signal that is already pending is not queued again. *)
Definition force_sig (sig : Z) (pid : Z) : M unit :=
  upd_process pid (fun p =>
    if bool_decide (sig ∈ (pending p).*1) then p else p_set_pending (pending p ++ [(sig, [])]) p).

(** The process of a task, or NULL. *)
Definition tcmi_task_to_task_struct (self : Z) : M (option Z) :=
  t ← task self; ps ← gets procs;
  mret (match ps !! local_pid t with Some _ => Some (local_pid t) | None => None end).

(** [force_sig] on a NULL process is a fault. *)
Definition tcmi_task_signal_peer_lost (self : Z) : M unit :=
  upd_task self (t_set_peer_lost 1);;
  l ← tcmi_task_to_task_struct self; pid ← valid l; force_sig SIGKILL pid.

Definition tcmi_task_check_peer_lost (self err : Z) : M Z :=
  when (err =? - EPIPE) (tcmi_task_signal_peer_lost self);; mret err.

Definition tcmi_taskhelper_enter_mig_mode (t_task : Z) : M unit :=
  l ← tcmi_task_to_task_struct t_task;
  match l with
  | None => mret tt
  | Some pid => force_sig SIGUNUSED pid
  end.

(** ** Messages of a task *)

(** A constructor of Msg.v; the result is the address of the message, or NULL. *)
Definition new_msg (self : Z) (ctor : tx_env -> world -> option (option tcmi_msg * world)) : M (option Z) :=
  a ← ask; t ← task self;
  tw ← valid (t_trans t);
  '(m, tw) ← valid (ctor (a_env a) tw);
  upd_task self (t_set_trans (Some tw));;
  match m with
  | None => mret None
  | Some m => p ← fresh; modify (set_msgs (insert p m));; mret (Some p)
  end.

Definition msg_get (p : Z) : M unit := m ← message p; modify (set_msgs (insert p (tcmi_msg_get m))).

(** [tcmi_msg_put], on a message of the task [self]. *)
Definition msg_put (self : Z) (o : option Z) : M unit :=
  match o with
  | None => mret tt
  | Some p =>
      m ← message p;
      if m_ref m - 1 =? 0 then
        match transaction m with
        | None => mret tt
        | Some _ =>
            t ← task self; tw ← valid (t_trans t);
            tw ← valid (tcmi_transaction_put (transaction m) tw); upd_task self (t_set_trans (Some tw))
        end;;
        modify (set_msgs (delete p))
      else
        modify (set_msgs (insert p (mk_msg (msg_id m) (trans_req m) (trans_resp m) (transaction m)
                                      (m_ref m - 1) (body m))))
  end.

(** Sends on a socket; the answer holds the result of taking the socket's lock. *)
Definition msg_send_on (sock : option Z) (self : Z) (p : Z) : M Z :=
  a ← ask; m ← message p; t ← task self; sa ← valid sock; ss ← gets socks; s ← valid (ss !! sa);
  tw ← valid (t_trans t);
  '(err, tw, s) ← valid (tcmi_msg_send_anonymous (a_num a) m tw s);
  upd_task self (t_set_trans (Some tw));; modify (set_socks (insert sa s));; mret err.

Definition tcmi_task_send_anonymous_msg (self m : Z) : M Z :=
  t ← task self; msg_send_on (t_sock t) self m.

(** Stops when the caller sleeps for good. *)
Definition tcmi_task_send_and_receive_msg (self req : Z) : M (Z * option Z) :=
  a ← ask; m ← message req; t ← task self; sa ← valid (t_sock t); ss ← gets socks; s ← valid (ss !! sa);
  tw ← valid (t_trans t);
  match tcmi_msg_send_and_receive (a_num a) (a_others a) (a_sig a) m tw s with
  | None => halt Gone
  | Some (err, resp, tw, s) =>
      upd_task self (t_set_trans (Some tw));; modify (set_socks (insert sa s));; mret (err, resp)
  end.

(** ** Submitting methods *)

Definition tcmi_task_add_wrapper (self wr : Z) : M unit :=
  t ← task self; q ← valid (tcmi_queue_add (method_queue t) wr); upd_task self (t_set_method_queue q).

Definition tcmi_task_submit_method (self : Z) (m : tcmi_method) (data : option (list Z)) (size : Z) : M unit :=
  wr ← tcmi_method_wrapper_new (Some m) data size;
  match wr with
  | None => mret tt
  | Some wr => tcmi_task_add_wrapper self wr
  end.

(** The loop that empties a queue of wrappers; the queue has [n] elements. *)
Fixpoint flush_methods (n : nat) (self : Z) : M unit :=
  match n with
  | O => mret tt
  | Datatypes.S n =>
      t ← task self;
      let '(old_w, q) := __tcmi_queue_remove (method_queue t) in
      upd_task self (t_set_method_queue q);;
      tcmi_method_wrapper_put old_w;;
      flush_methods n self
  end.

Definition tcmi_task_flush_and_submit_method (self : Z) (m : tcmi_method) (data : option (list Z))
    (size : Z) : M unit :=
  wr ← tcmi_method_wrapper_new (Some m) data size;
  match wr with
  | None => mret tt
  | Some wr =>
      t ← task self; q ← valid (tcmi_queue_lock (method_queue t));
      upd_task self (t_set_method_queue q);;
      flush_methods (length (queue q)) self;;
      upd_task self (fun t => t_set_method_queue (__tcmi_queue_add (method_queue t) wr) t);;
      upd_task self (fun t => t_set_method_queue (tcmi_queue_unlock (method_queue t)) t)
  end.

(** ** The execve context *)

(** The length computation and the copies of [tcmi_task_copy_strings]: the strings are stored
    one after the other from [src_data], a pointer to each in the array. *)
Definition copy_sizes (src : list (list Z)) : Z * Z :=
  foldl (fun '(len, size) s => (u32[len + 1], u32[size + (zlen s + 1)])) (0, 0) src.

Fixpoint copy_array (base : Z) (src : list (list Z)) (new_src src_data : Z) (d : list Z) : option (list Z) :=
  match src with
  | [] => poke new_src (le_bytes 8 0) d
  | s :: src =>
      d ← poke src_data (s ++ [0]) d;
      d ← poke new_src (le_bytes 8 (base + src_data)) d;
      copy_array base src (new_src + 8) (src_data + (zlen s + 1)) d
  end.

(** [base] is the address of the block, whose fresh contents are [mem]. *)
Definition tcmi_task_copy_strings (base : option Z) (mem : Z -> list Z) (src : list (list Z))
    : option (Z * option (Z * list Z)) :=
  let '(src_len, src_size) := copy_sizes src in
  let src_len := u32[src_len + 1] in
  match base with
  | None => Some (- EINVAL, None)
  | Some base =>
      d ← copy_array base src 0 (8 * src_len) (mem (8 * src_len + src_size));
      Some (0, Some (base, d))
  end.

Definition tcmi_task_release_execve_context (self : Z) : M unit :=
  upd_task self (fun t => t_set_exec None (argv t) (t_envp t) t);;
  upd_task self (fun t => t_set_exec (ckpt_pathname t) None (t_envp t) t);;
  upd_task self (fun t => t_set_exec (ckpt_pathname t) (argv t) None t).

(** The copy of one array; the answer holds the contents of the fresh block. *)
Definition copy_strings_to (src : list (list Z)) : M (Z * option (Z * list Z)) :=
  a ← ask; p ← fresh;
  valid (tcmi_task_copy_strings (if a_ok a then Some p else None)
           (fun n => ztake n (a_bytes a) ++ replicate (Z.to_nat (n - zlen (a_bytes a))) 0) src).

Definition tcmi_task_prepare_execve (self : Z) (file : list Z) (argvs envs : list (list Z)) : M Z :=
  tcmi_task_release_execve_context self;;
  a ← ask;
  if negb (a_ok a) then mret (- ENOEXEC) else
  upd_task self (fun t => t_set_exec (Some file) (argv t) (t_envp t) t);;
  '(err, v) ← copy_strings_to argvs;
  upd_task self (fun t => t_set_exec (ckpt_pathname t) v (t_envp t) t);;
  if err <? 0 then
    upd_task self (fun t => t_set_exec None (argv t) (t_envp t) t);; mret (- ENOEXEC)
  else
  '(err, v) ← copy_strings_to envs;
  upd_task self (fun t => t_set_exec (ckpt_pathname t) (argv t) v t);;
  if err <? 0 then
    upd_task self (fun t => t_set_exec (ckpt_pathname t) None (t_envp t) t);;
    upd_task self (fun t => t_set_exec None (argv t) (t_envp t) t);; mret (- ENOEXEC)
  else mret 0.

(** ** Managers, as far as tasks use them *)

Definition tcmi_migman_get (self : option Z) : M (option Z) :=
  match self with
  | None => mret None
  | Some p => upd_migman p (fun m => mm_set_ref (mm_ref m + 1) m);; mret (Some p)
  end.

Definition tcmi_migman_add_task (self tsk : Z) : M Z :=
  m ← migman self; t ← task tsk; mask ← valid (hashmsk (mm_tasks m));
  let hash := tcmi_task_hash (local_pid t) mask in
  '(slot, v) ← valid (tcmi_slotvec_insert_at (mm_tasks m) hash tsk);
  upd_migman self (mm_set_tasks v);;
  mret (match slot with None => - EINVAL | Some _ => 0 end).

(** The manager pointer is dereferenced without a check. *)
Definition tcmi_migman_remove_task (self : option Z) (tsk : Z) : M Z :=
  p ← valid self; m ← migman p; t ← task tsk; mask ← valid (hashmsk (mm_tasks m));
  let hash := tcmi_task_hash (local_pid t) mask in
  match tcmi_slotvec_at (mm_tasks m) hash with
  | None => mret (- EINVAL)
  | Some slot =>
      v ← valid (tcmi_slot_remove (Some slot) tsk (mm_tasks m));
      upd_migman p (mm_set_tasks v);; mret 0
  end.

(** [tcmi_migman_put] of a manager that keeps a reference; the destruction of a manager is
    [migman_free], a parameter here (Migman.v). *)
Context (migman_free : Z -> M unit).

Definition tcmi_migman_put (self : option Z) : M Z :=
  match self with
  | None => mret 0
  | Some p =>
      m ← migman p;
      upd_migman p (mm_set_ref (mm_ref m - 1));;
      if mm_ref m - 1 =? 0 then migman_free p;; modify (set_mans (delete p));; mret 1 else mret 0
  end.

(** ** Life of a task *)

(** The memory of the task, whose fields are not yet set. *)
Definition blank_task (c : tcmi_task_class) : tcmi_task :=
  mk_task 0 0 None None tcmi_queue_init tcmi_queue_init None
    None None None None None 0 0 0 None None None 0 0 0 0 c.

(** The initial assignments of [tcmi_task_init], up to the queues. *)
Definition task_start (self local_pid : Z) (migman sock d_migman : option Z) : M unit :=
  upd_task self (fun t =>
    mk_task local_pid 0 migman sock tcmi_queue_init tcmi_queue_init (t_trans t) (d_task t) (s_migman t)
      (f_remote_pid t) None d_migman (exit_code t) (t_ref t) (t_context t) (ckpt_pathname t) (argv t)
      (t_envp t) 0 (picked_up t) (picked_up_flag t) 0 (ops t)).

(** Assignments to the entries. *)
Definition t_set_entries (v : option world) (d s f : option Z) (t : tcmi_task) : tcmi_task :=
  mk_task (local_pid t) (remote_pid t) (t_migman t) (t_sock t) (method_queue t) (msg_queue t) v d s f
    (f_remote_pid_rev t) (d_migman_root t) (exit_code t) (t_ref t) (t_context t) (ckpt_pathname t)
    (argv t) (t_envp t) (execve_count t) (picked_up t) (picked_up_flag t) (peer_lost t) (ops t).

(** [exit0]: of the error handling, and what the labels before it add. *)
Definition init_exit0 (self : Z) : M unit :=
  t ← task self; obj_put (t_sock t);; tcmi_migman_put (t_migman t);; mret tt.
Definition init_exit1 (self : Z) : M unit := upd_task self (t_set_trans None);; init_exit0 self.
Definition init_exit2 (self : Z) : M unit := t ← task self; obj_put (d_task t);; init_exit1 self.
Definition init_exit3 (self : Z) : M unit := t ← task self; obj_put (s_migman t);; init_exit2 self.
Definition init_exit4 (self : Z) : M unit := t ← task self; obj_put (f_remote_pid t);; init_exit3 self.

(** The last assignments. *)
Definition task_finish (self : Z) : M unit :=
  upd_task self (fun t =>
    mk_task (local_pid t) (remote_pid t) (t_migman t) (t_sock t) (method_queue t) (msg_queue t)
      (t_trans t) (d_task t) (s_migman t) (f_remote_pid t) (f_remote_pid_rev t) (d_migman_root t)
      0 1 (t_context t) None None None (execve_count t) 0 0 (peer_lost t) (ops t)).

(** [ops] is never NULL: both constructors pass a table. *)
Definition tcmi_task_init (self local_pid : Z) (migman sock d_migproc d_migman : option Z) : M Z :=
  tcmi_migman_get migman;; obj_get sock;;
  task_start self local_pid migman sock d_migman;;
  a ← ask; b ← ask;
  match tcmi_slotvec_hnew (a_ok a) (a_ok b) TRANSACTION_ORDER with
  | None => init_exit0 self;; mret (- ENOMEM)
  | Some v =>
      upd_task self (fun t => t_set_entries (Some (mk_world v ∅ (a_num a))) (d_task t) (s_migman t) (f_remote_pid t) t);;
      d ← obj_new;
      upd_task self (fun t => t_set_entries (t_trans t) d (s_migman t) (f_remote_pid t) t);;
      match d with
      | None => init_exit1 self;; mret (- EINVAL)
      | Some _ =>
          l ← obj_new;
          upd_task self (fun t => t_set_entries (t_trans t) (d_task t) l (f_remote_pid t) t);;
          match l with
          | None => init_exit2 self;; mret (- EINVAL)
          | Some _ =>
              f ← obj_new;
              upd_task self (fun t => t_set_entries (t_trans t) (d_task t) (s_migman t) f t);;
              match f with
              | None => init_exit3 self;; mret (- EINVAL)
              | Some _ =>
                  err ← match migman with
                        | Some m => tcmi_migman_add_task m self
                        | None => mret 0
                        end;
                  if negb (err =? 0) then init_exit4 self;; mret (- EINVAL)
                  else task_finish self;; mret 0
              end
          end
      end
  end.

(** The constructors of shadow and guest: allocate, initialise, or free the memory. *)
Definition task_new (c : tcmi_task_class) (local_pid : Z) (migman sock d_migproc d_migman : option Z)
    : M (option Z) :=
  a ← ask;
  if negb (a_ok a) then mret None else
  p ← fresh; modify (set_tasks (insert p (blank_task c)));;
  err ← tcmi_task_init p local_pid migman sock d_migproc d_migman;
  if err <? 0 then modify (set_tasks (delete p));; mret None else mret (Some p).

Definition tcmi_shadowtask_new := task_new Shadowtask.
Definition tcmi_guesttask_new := task_new Guesttask.

(** The loops of [tcmi_task_put] over the messages and the methods. *)
Fixpoint drain_msgs (n : nat) (self : Z) : M unit :=
  match n with
  | O => mret tt
  | Datatypes.S n =>
      t ← task self; '(m, q) ← valid (tcmi_queue_remove (msg_queue t));
      upd_task self (t_set_msg_queue q);; msg_put self m;; drain_msgs n self
  end.
Fixpoint drain_methods (n : nat) (self : Z) : M unit :=
  match n with
  | O => mret tt
  | Datatypes.S n =>
      t ← task self; '(w, q) ← valid (tcmi_queue_remove (method_queue t));
      upd_task self (t_set_method_queue q);; tcmi_method_wrapper_put w;; drain_methods n self
  end.

(** [ops->free]: empty for a shadow, missing for a guest. *)
Definition task_destroy (self : Z) : M unit :=
  t ← task self; obj_put (t_sock t);;
  emit (E_unregistered (f_remote_pid t));;
  obj_put (f_remote_pid t);; obj_put (s_migman t);; obj_put (d_task t);; obj_put (f_remote_pid_rev t);;
  upd_task self (t_set_trans None);;
  t ← task self; drain_msgs (length (queue (msg_queue t))) self;;
  t ← task self; drain_methods (length (queue (method_queue t))) self;;
  tcmi_task_release_execve_context self;;
  tcmi_migman_remove_task (t_migman t) self;;
  tcmi_migman_put (t_migman t);;
  modify (set_tasks (delete self)).

Definition tcmi_task_put (self : option Z) : M unit :=
  match self with
  | None => mret tt
  | Some self =>
      t ← task self; upd_task self (t_set_ref (t_ref t - 1));;
      when (t_ref t - 1 =? 0) (task_destroy self)
  end.

(** ** The operation tables *)

(** A missing entry is NULL. *)
Record tcmi_task_ops := mk_ops {
  o_process_msg : option (Z -> Z -> M Z);
  o_emigrate_ppm_p : option (Z -> M Z);
  o_migrateback_ppm_p : option (Z -> M Z);
  o_emigrate_ppm_v : option (Z -> M Z);
  o_migrateback_ppm_v : option (Z -> M Z);
  o_emigrate_npm : option (Z -> Z -> M Z);
  o_migrateback_npm : option (Z -> Z -> M Z);
  o_exit : option (Z -> Z -> M Z);
  o_execve : option (Z -> M Z);
  o_do_signal : option (Z -> Z -> list Z -> M Z);
  o_get_type : option tcmi_task_type
}.

Context (ops_of : tcmi_task_class -> tcmi_task_ops).
(** The methods of tcmi_guesttask.c and tcmi_migcom.c: task and wrapper. *)
Context (run_other : tcmi_method -> Z -> Z -> M Z).

Definition task_ops (self : Z) : M tcmi_task_ops := t ← task self; mret (ops_of (ops t)).

Definition tcmi_task_get_type (self : Z) : M tcmi_task_type :=
  o ← task_ops self; mret (default unresolved (o_get_type o)).

Definition tcmi_task_do_signal (self signr : Z) (info : list Z) : M Z :=
  t ← task self;
  if negb (peer_lost t =? 0) && (signr =? SIGKILL) then mret TCMI_TASK_KILL_ME else
  o ← task_ops self;
  match o_do_signal o with Some f => f self signr info | None => mret TCMI_TASK_KEEP_PUMPING end.

(** [dequeue_signal]: the kernel chooses one of the pending signals; 0 when there is none. *)
Definition dequeue_signal : M (Z * list Z) :=
  a ← ask; cur ← gets current; p ← process cur;
  match pending p with
  | [] => mret (0, [])
  | s0 :: _ =>
      let i := Z.to_nat (a_num a mod zlen (pending p)) in
      let s := default s0 (pending p !! i) in
      upd_process cur (p_set_pending (take i (pending p) ++ drop (Datatypes.S i) (pending p)));; mret s
  end.

(** The loop of [tcmi_taskhelper_do_signals]. *)
Fixpoint do_signals_loop (fuel : nat) (t_task res : Z) : M Z :=
  if negb (res =? TCMI_TASK_KEEP_PUMPING) then mret res else
  match fuel with
  | O => halt Running
  | Datatypes.S fuel =>
      '(signr, info) ← dequeue_signal;
      if signr =? 0 then mret res else
      res ← (if negb (signr =? SIGUNUSED) then tcmi_task_do_signal t_task signr info else mret res);
      do_signals_loop fuel t_task res
  end.

Definition tcmi_taskhelper_do_signals (fuel : nat) (t_task : Z) : M Z :=
  cur ← gets current; p ← process cur;
  match pending p with
  | [] => mret TCMI_TASK_KEEP_PUMPING
  | _ => do_signals_loop fuel t_task TCMI_TASK_KEEP_PUMPING
  end.

(** ** The methods *)

(** The messages that other threads deliver to the queue meanwhile. *)
Fixpoint arrive (self : Z) (ms : list tcmi_msg) : M unit :=
  match ms with
  | [] => mret tt
  | m :: ms =>
      p ← fresh; modify (set_msgs (insert p m));;
      t ← task self; q ← valid (tcmi_queue_add (msg_queue t) p); upd_task self (t_set_msg_queue q);;
      arrive self ms
  end.

(** [tcmi_queue_wait_on_empty_interruptible] on the message queue: the sleep ends with the
    first message or with a signal. *)
Definition wait_for_msg (self : Z) : M Z :=
  t ← task self;
  match tcmi_queue_wait_on_empty_interruptible None (msg_queue t) with
  | (Some r, _) => mret r
  | (None, _) =>
      a ← ask;
      match a_msgs a with
      | _ :: _ => arrive self (a_msgs a);; mret 0
      | [] => match a_sig a with Some e => mret e | None => halt Gone end
      end
  end.

(** [resubmit]: the label [exit0]. *)
Definition process_msg_exit0 (self wr res : Z) : M Z :=
  when (res =? TCMI_TASK_KEEP_PUMPING)
    (tcmi_method_wrapper_get (Some wr);; tcmi_task_add_wrapper self wr);; mret res.

Definition tcmi_task_process_msg (self wr : Z) : M Z :=
  d ← tcmi_method_wrapper_data wr;
  let wait_for_messages := match d with Some b => s32[le_value (ztake 4 b)] | None => 1 end in
  t ← task self;
  if (wait_for_messages =? 0) && tcmi_queue_empty (msg_queue t) then mret TCMI_TASK_KEEP_PUMPING else
  err ← wait_for_msg self;
  if err <? 0 then process_msg_exit0 self wr TCMI_TASK_KEEP_PUMPING else
  t ← task self; '(m, q) ← valid (tcmi_queue_remove (msg_queue t));
  upd_task self (t_set_msg_queue q);;
  match m with
  | None => process_msg_exit0 self wr TCMI_TASK_KEEP_PUMPING
  | Some m =>
      o ← task_ops self;
      res ← match o_process_msg o with Some f => f self m | None => mret TCMI_TASK_KEEP_PUMPING end;
      msg_put self (Some m);;
      process_msg_exit0 self wr res
  end.

(** The bytes of a [struct tcmi_msg], as far as they are read: it starts with the message id
    and the two transaction ids; [rest] stands for the pointers and counters. *)
Definition sizeof_tcmi_msg : Z := 56.
Definition msg_bytes (m : tcmi_msg) (rest : list Z) : list Z :=
  le_bytes 4 (msg_id m) ++ le_bytes 4 (trans_req m) ++ le_bytes 4 (trans_resp m) ++ rest.

Definition tcmi_task_send_message (self wr : Z) : M Z :=
  d ← tcmi_method_wrapper_data wr; b ← valid d;
  let resp := le_value (ztake 8 b) in
  send_res ← tcmi_task_send_anonymous_msg self resp;
  (if send_res =? - ERESTARTSYS then
     msg_get resp;; m ← message resp; a ← ask;
     tcmi_task_submit_method self M_send_message (Some (msg_bytes m (a_bytes a))) sizeof_tcmi_msg
   else mret tt);;
  msg_put self (Some resp);; mret TCMI_TASK_KEEP_PUMPING.

(** The six migration methods delegate to the table. *)
Definition call1 (sel : tcmi_task_ops -> option (Z -> M Z)) (self : Z) : M Z :=
  o ← task_ops self; match sel o with Some f => f self | None => mret TCMI_TASK_KEEP_PUMPING end.
Definition tcmi_task_emigrate_ppm_p (self wr : Z) : M Z := call1 o_emigrate_ppm_p self.
Definition tcmi_task_migrateback_ppm_p (self wr : Z) : M Z := call1 o_migrateback_ppm_p self.
Definition tcmi_task_emigrate_ppm_v (self wr : Z) : M Z := call1 o_emigrate_ppm_v self.
Definition tcmi_task_migrateback_ppm_v (self wr : Z) : M Z := call1 o_migrateback_ppm_v self.

(** The argument is a pointer that was copied into the wrapper. *)
Definition tcmi_task_emigrate_npm (self wr : Z) : M Z :=
  d ← tcmi_method_wrapper_data wr; b ← valid d;
  o ← task_ops self;
  match o_emigrate_npm o with Some f => f self (le_value (ztake 8 b)) | None => mret TCMI_TASK_KEEP_PUMPING end.

(** The argument is the structure itself; its pointer is [addr_of_data]. *)
Definition addr_of_data (d : option (list Z)) (wr : Z) : Z := match d with Some _ => wr | None => 0 end.
Definition tcmi_task_migrateback_npm (self wr : Z) : M Z :=
  d ← tcmi_method_wrapper_data wr; o ← task_ops self;
  match o_migrateback_npm o with Some f => f self (addr_of_data d wr) | None => mret TCMI_TASK_KEEP_PUMPING end.

Definition tcmi_task_exit (self wr : Z) : M Z :=
  d ← tcmi_method_wrapper_data wr;
  let code := match d with Some b => s64[le_value (ztake 8 b)] | None => 0 end in
  o ← task_ops self;
  match o_exit o with Some f => f self code | None => mret TCMI_TASK_REMOVE_AND_LET_ME_GO end.

(** A successful execve does not return: the answer is not negative.  The debug output reads
    [argv[0]] and [envp[0]]. *)
Definition tcmi_task_execve (self wr : Z) : M Z :=
  t ← task self; valid (argv t);; valid (t_envp t);;
  tcmi_method_wrapper_put (Some wr);;
  o ← task_ops self;
  err ← match o_execve o with Some f => f self | None => mret 0 end;
  if err <? 0 then mret TCMI_TASK_EXECVE_FAILED_KILL_ME else
  t ← task self; emit (E_exec (default [] (ckpt_pathname t)));;
  a ← ask;
  if a_num a <? 0 then mret TCMI_TASK_EXECVE_FAILED_KILL_ME else halt Gone.

Definition run_method (m : tcmi_method) (self wr : Z) : M Z :=
  match m with
  | M_process_msg => tcmi_task_process_msg self wr
  | M_send_message => tcmi_task_send_message self wr
  | M_emigrate_ppm_p => tcmi_task_emigrate_ppm_p self wr
  | M_migrateback_ppm_p => tcmi_task_migrateback_ppm_p self wr
  | M_emigrate_ppm_v => tcmi_task_emigrate_ppm_v self wr
  | M_migrateback_ppm_v => tcmi_task_migrateback_ppm_v self wr
  | M_emigrate_npm => tcmi_task_emigrate_npm self wr
  | M_migrateback_npm => tcmi_task_migrateback_npm self wr
  | M_exit => tcmi_task_exit self wr
  | M_execve => tcmi_task_execve self wr
  | M_mount_proxyfs | M_post_fork_set_tid => run_other m self wr
  end.

Definition tcmi_method_wrapper_call (self : option Z) (obj : Z) : M Z :=
  match self with
  | None => mret 0
  | Some p => w ← wrapper p; match method w with Some m => run_method m obj p | None => mret 0 end
  end.

(** ** The method pump *)

Fixpoint pump (fuel : nat) (self res : Z) : M Z :=
  t ← task self;
  if tcmi_queue_empty (method_queue t) || negb (res =? TCMI_TASK_KEEP_PUMPING) then mret res else
  match fuel with
  | O => halt Running
  | Datatypes.S f =>
      res ← tcmi_taskhelper_do_signals fuel self;
      if negb (res =? TCMI_TASK_KEEP_PUMPING) then mret res else
      t ← task self; '(w, q) ← valid (tcmi_queue_remove (method_queue t));
      upd_task self (t_set_method_queue q);;
      res ← tcmi_method_wrapper_call w self;
      when (negb (res =? TCMI_TASK_EXECVE_FAILED_KILL_ME)) (tcmi_method_wrapper_put w);;
      pump f self res
  end.

Definition tcmi_task_process_methods (fuel : nat) (self : Z) : M Z := pump fuel self TCMI_TASK_KEEP_PUMPING.

(** ** Delivery *)

Definition tcmi_procmsg_enforce_migmode (m : tcmi_msg) : Z :=
  match body m with B_proc _ migmode _ => migmode | _ => 0 end.

(** The message is read again after it was delivered. *)
Definition tcmi_task_deliver_msg (self m : Z) : M Z :=
  msg ← message m; t ← task self; tw ← valid (t_trans t);
  '(res, msg, q, tw) ← valid (tcmi_msg_deliver m msg (msg_queue t) tw);
  modify (set_msgs (insert m msg));;
  upd_task self (fun t => t_set_msg_queue q (t_set_trans (Some tw) t));;
  if negb (res =? 0) then mret res else
  msg ← message m;
  (if (TCMI_MSG_GROUP (msg_id msg) =? TCMI_MSG_GROUP_PROC) && negb (tcmi_procmsg_enforce_migmode msg =? 0) then
     t ← task self;
     when (tcmi_queue_empty (method_queue t))
       (tcmi_task_submit_method self M_process_msg (Some (le_bytes 4 0)) 4);;
     tcmi_taskhelper_enter_mig_mode self
   else mret tt);;
  mret 0.

Definition tcmi_task_migman_id (self : Z) : M Z :=
  t ← task self;
  match t_migman t with Some p => m ← migman p; mret (mm_id m) | None => mret u32[-1] end.
Definition tcmi_task_migman_slot_index (self : Z) : M Z :=
  t ← task self;
  match t_migman t with
  | Some p => m ← migman p; s ← valid (manager_slot m); mret (Z.of_nat s)
  | None => mret u32[-1]
  end.
Definition tcmi_task_show_remote_pid (self : Z) : M Z := tcmi_task_remote_pid self.
Definition tcmi_task_show_remote_pid_rev (self : Z) : M Z := tcmi_task_local_pid self.
End task.
