(* ===== verification/TaskOps.v ===== *)
(** Shadow and guest tasks (src/src/tcmi/task/tcmi_shadowtask.c, tcmi_guesttask.c) and the task
    helper (tcmi_taskhelper.h): attaching tasks to processes, notifying them, checkpointing and
    restarting, and what each kind of task does with messages, signals and migration methods.

    The remote system calls a shadow executes are the parameter [shadow_rpc]; checkpointing
    itself is an answer of the world. *)

From stdpp Require Import gmap.
From S2P Require Import Prelude Effect SlotVec Transaction KkcSock MsgId Messages Queue Msg NpmParams World Task.

Section taskops.
Context {S : Type} `{Sock S} (HZ : Z).
Abbreviation M := (eff (kw S)).
Context (migman_free : Z -> M unit).
(** [tcmi_rpc_call2(tcmi_shadow_rpc, ...)]: task and request; the response message or NULL. *)
Context (shadow_rpc : Z -> Z -> M (option Z)).

Abbreviation task_put := (tcmi_task_put migman_free).

(** ** The task helper *)

Definition tcmi_taskhelper_enter_mig_mode_exclusive (l_task t_task : Z) : M unit := force_sig SIGUNUSED l_task.

Definition tcmi_taskhelper_find_by_pid (pid : Z) : M (option Z) :=
  ps ← gets procs;
  match ps !! pid with
  | None => mret None
  | Some l =>
      if mig_mode_handler l then
        match p_task l with None => mret None | Some t => tcmi_task_get (Some t) end
      else mret None
  end.

Definition submit_by_priority (t_task : Z) (m : tcmi_method) (data : option (list Z)) (size priority : Z) : M unit :=
  if 0 <? priority then tcmi_task_flush_and_submit_method t_task m data size
  else tcmi_task_submit_method t_task m data size.

Definition tcmi_taskhelper_notify_by_pid (pid : Z) (m : tcmi_method) (data : option (list Z))
    (size priority : Z) : M Z :=
  t ← tcmi_taskhelper_find_by_pid pid;
  match t with
  | None => mret (- EINVAL)
  | Some t =>
      submit_by_priority t m data size priority;;
      tcmi_taskhelper_enter_mig_mode t;;
      task_put (Some t);; mret 0
  end.

(** The answer is the result of the timed wait; [a_ok]: the process picks the task up
    meanwhile.  An interrupted wait is not 0 either. *)
Definition tcmi_taskhelper_wait_for_pick_up_timeout (t_task : Z) : M Z :=
  a ← ask; when (a_ok a) (tcmi_task_pick_up t_task);;
  if negb (a_num a =? 0) then mret 0 else
  pid ← tcmi_task_local_pid t_task; ps ← gets procs;
  match ps !! pid with
  | None => mret (- ESRCH)
  | Some l =>
      if negb (bool_decide (p_task l = Some t_task)) then fault (* BUG_ON *) else
      up ← tcmi_task_picked_up t_task;
      if negb up then
        upd_process pid (p_set_tcmi false None (task_type l));;
        task_put (p_task l);; mret (- EINVAL)
      else task_put None;; mret 0
  end.

Definition tcmi_taskhelper_flush_signals (t_task : Z) : M unit :=
  cur ← gets current; upd_process cur (p_set_pending []).

(** The type that a table reports. *)
Definition class_type (c : tcmi_task_class) : tcmi_task_type :=
  match c with Shadowtask => shadow | Guesttask => guest end.

Definition tcmi_taskhelper_attach_exclusive (l_task t_task : Z) : M Z :=
  l ← process l_task;
  if mig_mode_handler l || bool_decide (is_Some (p_task l)) then mret (- EINVAL) else
  tcmi_task_get (Some t_task);; t ← task t_task;
  upd_process l_task (p_set_tcmi true (Some t_task) (class_type (ops t)));; mret 0.

Definition tcmi_taskhelper_attach (t_task : Z) : M Z :=
  pid ← tcmi_task_local_pid t_task; ps ← gets procs;
  match ps !! pid with
  | None => mret (- ESRCH)
  | Some _ => tcmi_taskhelper_attach_exclusive pid t_task
  end.

Definition __tcmi_taskhelper_detach (l_task : Z) : M (option Z) :=
  l ← process l_task;
  upd_process l_task
    (p_set_tcmi false None (if bool_decide (task_type l = shadow) then shadow_detached else task_type l));;
  mret (p_task l).

Definition tcmi_taskhelper_detach : M (option Z) := cur ← gets current; __tcmi_taskhelper_detach cur.

Definition tcmi_taskhelper_detach_by_pid (pid : Z) : M (option Z) :=
  ps ← gets procs;
  match ps !! pid with None => mret None | Some _ => __tcmi_taskhelper_detach pid end.

Definition tcmi_taskhelper_sanity_check : M (option Z) :=
  cur ← gets current; l ← process cur;
  match p_task l with
  | None => mret None
  | Some t => up ← tcmi_task_picked_up t; when (negb up) (tcmi_task_pick_up t);; mret (Some t)
  end.

(** The composed pathname, the opened file and the result of the checkpointing component are
    answers. *)
Definition tcmi_taskhelper_checkpoint (t_task : Z) (npm_params : Z) : M Z :=
  page ← ask;
  if negb (a_ok page) then mret (- EINVAL) else
  err ← tcmi_task_prepare_execve t_task (a_bytes page) [] [];
  if err <? 0 then mret (- EINVAL) else
  file ← ask;
  if negb (a_ok file) then mret (- EINVAL) else
  ckpt ← ask;
  if a_num ckpt <? 0 then mret (- EINVAL) else mret 0.

Definition tcmi_taskhelper_restart (t_task : Z) (ckpt_name : list Z) : M Z :=
  err ← tcmi_task_prepare_execve t_task ckpt_name [] [];
  if err <? 0 then mret (- EINVAL) else
  tcmi_task_flush_and_submit_method t_task M_execve None 0;; mret 0.

Definition PF_EXITING : Z := 4.
Definition is_flushed (mode : Z) : bool :=
  let t := Z.land mode 61440 in (t =? 32768) || (t =? 16384) || (t =? 8192) || (t =? 4096).

Fixpoint close_files (cur : Z) (fs : list (Z * Z)) : M unit :=
  match fs with
  | [] => mret tt
  | (fd, mode) :: fs =>
      when (is_flushed mode)
        (emit (E_closed fd);; upd_process cur (fun p => p_set_files (List.filter (fun f => negb (f.1 =? fd)) (p_files p)) p));;
      close_files cur fs
  end.

Definition tcmi_taskhelper_flushfiles : M unit :=
  cur ← gets current; p ← process cur;
  let old_flags := Z.land (p_flags p) PF_EXITING in
  upd_process cur (p_set_flags (Z.lor (p_flags p) PF_EXITING));;
  close_files cur (p_files p);;
  upd_process cur (p_set_flags old_flags).

Definition _NSIG : nat := 64.
Definition tcmi_taskhelper_catch_all_signals : M unit :=
  cur ← gets current;
  upd_process cur (p_set_caught
    (List.filter (fun i => negb (i =? SIGKILL) && negb (i =? SIGSTOP)) (map Z.of_nat (seq 1 (_NSIG - 1))))).

(** ** The shadow task *)

Definition tcmi_shadowtask_vfork_done (self : Z) : M unit :=
  cur ← gets current; p ← process cur;
  match vfork_done p with
  | Some c => upd_process cur (p_set_vfork None);; emit (E_completed c)
  | None => mret tt
  end.

Definition tcmi_shadowtask_process_ppm_p_migr_back_guestreq_procmsg (self m : Z) : M Z :=
  msg ← message m;
  ckpt_name ← match body msg with
              | B_proc _ _ (P_guestreq g) => n ← valid (gr_ckpt_name g); n ← valid (cstring n); mret n
              | _ => fault
              end;
  pid ← tcmi_task_local_pid self; emit (E_migrated_home pid);;
  err ← tcmi_taskhelper_restart self ckpt_name;
  if err <? 0 then mret TCMI_TASK_KILL_ME else mret TCMI_TASK_KEEP_PUMPING.

Definition shadow_process_rpc (self m : Z) : M Z :=
  resp ← shadow_rpc self m;
  match resp with
  | None => mret TCMI_TASK_KEEP_PUMPING
  | Some resp =>
      err ← tcmi_task_send_anonymous_msg self resp;
      tcmi_task_check_peer_lost self err;;
      (if negb (err =? 0) && (err =? - ERESTARTSYS) then
         msg_get resp;; r ← message resp; a ← ask;
         tcmi_task_submit_method self M_send_message (Some (msg_bytes r (a_bytes a))) sizeof_tcmi_msg
       else mret tt);;
      msg_put self (Some resp);; mret TCMI_TASK_KEEP_PUMPING
  end.

(** A message of the wrong class for its id cannot be received (Msg.v); reading its fields
    would be a fault. *)
Definition tcmi_shadowtask_process_msg (self m : Z) : M Z :=
  msg ← message m;
  if msg_id msg =? TCMI_RPC_PROCMSG_ID then shadow_process_rpc self m
  else if msg_id msg =? TCMI_EXIT_PROCMSG_ID then
    match body msg with
    | B_proc _ _ (P_exit code) => tcmi_task_set_exit_code self code;; mret TCMI_TASK_KILL_ME
    | _ => fault
    end
  else if msg_id msg =? TCMI_VFORK_DONE_PROCMSG_ID then
    tcmi_shadowtask_vfork_done self;; mret TCMI_TASK_KEEP_PUMPING
  else if msg_id msg =? TCMI_PPM_P_MIGR_BACK_GUESTREQ_PROCMSG_ID then
    tcmi_shadowtask_process_ppm_p_migr_back_guestreq_procmsg self m
  else if msg_id msg =? TCMI_GUEST_STARTED_PROCMSG_ID then
    match body msg with
    | B_proc _ _ (P_guest_started remote_pid) =>
        tcmi_task_set_remote_pid self remote_pid;; mret TCMI_TASK_KEEP_PUMPING
    | _ => fault
    end
  else mret TCMI_TASK_KEEP_PUMPING.

Definition tcmi_shadowtask_verify_migration (self : Z) (resp : option Z) : M Z :=
  match resp with
  | None => mret (- EINVAL)
  | Some r =>
      msg ← message r;
      if msg_id msg =? TCMI_GUEST_STARTED_PROCMSG_ID then
        match body msg with
        | B_proc _ _ (P_guest_started remote_pid) =>
            if remote_pid =? -1 then mret (- EINVAL)
            else tcmi_task_set_remote_pid self remote_pid;; mret 0
        | _ => fault
        end
      else mret (- EINVAL)
  end.

(** [exec_name], the credentials and, for a non-preemptive migration, the name of its file are
    answers; [npm_params] 0 is NULL. *)
Definition tcmi_shadowtask_emigrate_p (self npm_params : Z) : M Z :=
  name ← ask;
  err ← tcmi_taskhelper_checkpoint self npm_params;
  if err <? 0 then mret TCMI_TASK_REMOVE_AND_LET_ME_GO else
  pid ← tcmi_task_local_pid self; ckpt ← tcmi_task_ckpt_name self; ckpt ← valid ckpt;
  u1 ← ask; u2 ← ask; u3 ← ask; u4 ← ask;
  req ← new_msg self (fun e => tcmi_p_emigrate_msg_new_tx HZ e true pid (a_bytes name) ckpt
                                 (a_num u1) (a_num u2) (a_num u3) (a_num u4));
  match req with
  | None => mret TCMI_TASK_REMOVE_AND_LET_ME_GO
  | Some req =>
      '(err, resp) ← tcmi_task_send_and_receive_msg self req;
      tcmi_task_check_peer_lost self err;;
      if err <? 0 then msg_put self (Some req);; mret TCMI_TASK_REMOVE_AND_LET_ME_GO else
      err ← tcmi_shadowtask_verify_migration self resp;
      if err <? 0 then
        msg_put self resp;; msg_put self (Some req);; mret TCMI_TASK_REMOVE_AND_LET_ME_GO
      else
      tcmi_taskhelper_flushfiles;; tcmi_taskhelper_catch_all_signals;;
      tcmi_task_submit_method self M_process_msg None 0;;
      msg_put self (Some req);; msg_put self resp;;
      when (negb (npm_params =? 0)) (emit (E_released npm_params));;
      mret TCMI_TASK_KEEP_PUMPING
  end.

Definition tcmi_shadowtask_emigrate_ppm_p (self : Z) : M Z := tcmi_shadowtask_emigrate_p self 0.
Definition tcmi_shadowtask_emigrate_npm (self npm_params : Z) : M Z := tcmi_shadowtask_emigrate_p self npm_params.

Definition tcmi_shadowtask_migrateback_ppm_p (self : Z) : M Z :=
  rp ← tcmi_task_remote_pid self;
  msg ← new_msg self (fun e => tcmi_ppm_p_migr_back_shadowreq_procmsg_new_tx e rp);
  match msg with
  | None => mret TCMI_TASK_KEEP_PUMPING
  | Some m =>
      err ← tcmi_task_send_anonymous_msg self m; tcmi_task_check_peer_lost self err;;
      msg_put self (Some m);; mret TCMI_TASK_KEEP_PUMPING
  end.

Definition tcmi_shadowtask_execve (self : Z) : M Z :=
  tcmi_task_flush_and_submit_method self M_exit None 0;;
  tcmi_taskhelper_enter_mig_mode self;; mret 0.

(** The message is not put. *)
Definition tcmi_shadowtask_do_signal (self signr : Z) (info : list Z) : M Z :=
  rp ← tcmi_task_remote_pid self; a ← ask;
  msg ← new_msg self (fun e => tcmi_signal_msg_new HZ e (mk_signal (a_num a) (a_bytes a)) rp info);
  match msg with
  | None => mret TCMI_TASK_KEEP_PUMPING
  | Some m =>
      t ← task self; mp ← valid (t_migman t); mm ← migman mp;
      err ← msg_send_on (mm_sock mm) self m; tcmi_task_check_peer_lost self err;;
      mret TCMI_TASK_KEEP_PUMPING
  end.

Definition shadowtask_ops : @tcmi_task_ops S := {|
  o_process_msg := Some tcmi_shadowtask_process_msg;
  o_emigrate_ppm_p := Some tcmi_shadowtask_emigrate_ppm_p;
  o_migrateback_ppm_p := Some tcmi_shadowtask_migrateback_ppm_p;
  o_emigrate_ppm_v := None;
  o_migrateback_ppm_v := None;
  o_emigrate_npm := Some tcmi_shadowtask_emigrate_npm;
  o_migrateback_npm := None;
  o_exit := None;
  o_execve := Some tcmi_shadowtask_execve;
  o_do_signal := Some tcmi_shadowtask_do_signal;
  o_get_type := Some shadow
|}.

(** ** The guest task *)

Definition tcmi_migcom_migrate_home_ppm_p (pid : Z) : M Z :=
  tcmi_taskhelper_notify_by_pid pid M_migrateback_ppm_p None 0 1.

Definition tcmi_guesttask_process_p_emigrate_msg (self m : Z) : M Z :=
  msg ← message m;
  match body msg with
  | B_p_emigrate em =>
      tcmi_task_set_remote_pid self (reply_pid em);;
      ckpt ← valid (em_ckpt_name em); ckpt_name ← valid (cstring ckpt);
      err ← tcmi_taskhelper_restart self ckpt_name;
      rp ← tcmi_task_remote_pid self; lp ← tcmi_task_local_pid self;
      resp ← (if err <? 0
              then new_msg self (fun e => tcmi_err_procmsg_new_tx e TCMI_GUEST_STARTED_PROCMSG_ID
                                            (tcmi_msg_req_id msg) (- ENOEXEC) rp)
              else new_msg self (fun e => tcmi_guest_started_procmsg_new_tx e (tcmi_msg_req_id msg) rp lp));
      match resp with
      | None => mret TCMI_TASK_KILL_ME
      | Some r =>
          err ← tcmi_task_send_anonymous_msg self r; tcmi_task_check_peer_lost self err;;
          msg_put self (Some r);; mret TCMI_TASK_KEEP_PUMPING
      end
  | _ => fault
  end.

Definition tcmi_guesttask_process_msg (self m : Z) : M Z :=
  msg ← message m;
  if msg_id msg =? TCMI_P_EMIGRATE_MSG_ID then tcmi_guesttask_process_p_emigrate_msg self m
  else if msg_id msg =? TCMI_PPM_P_MIGR_BACK_SHADOWREQ_PROCMSG_ID then
    msg_put self (Some m);;
    lp ← tcmi_task_local_pid self; tcmi_migcom_migrate_home_ppm_p lp;; mret TCMI_TASK_KEEP_PUMPING
  else mret TCMI_TASK_KEEP_PUMPING.

Definition tcmi_guesttask_emigrate_p (self : Z) : M Z := mret TCMI_TASK_KEEP_PUMPING.

(** The request is not put on success. *)
Definition tcmi_guesttask_migrateback_p (self npm_params : Z) : M Z :=
  err ← tcmi_taskhelper_checkpoint self npm_params;
  if err <? 0 then mret (- EFAULT) else
  tcmi_taskhelper_flushfiles;;
  rp ← tcmi_task_remote_pid self; ckpt ← tcmi_task_ckpt_name self; ckpt ← valid ckpt;
  req ← new_msg self (fun e => tcmi_ppm_p_migr_back_guestreq_procmsg_new_tx e rp ckpt);
  match req with
  | None => mret (- EFAULT)
  | Some req =>
      err ← tcmi_task_send_anonymous_msg self req; tcmi_task_check_peer_lost self err;;
      if err <? 0 then msg_put self (Some req);; mret (- EFAULT) else
      lp ← tcmi_task_local_pid self; emit (E_migrated_home lp);; mret 0
  end.

Definition tcmi_guesttask_migrateback_ppm_p (self : Z) : M Z :=
  tcmi_guesttask_migrateback_p self 0;; mret TCMI_TASK_KILL_ME.

Definition tcmi_guesttask_migrateback_npm (self npm_params : Z) : M Z :=
  res ← tcmi_guesttask_migrateback_p self npm_params;
  if negb (res =? 0) then mret TCMI_TASK_REMOVE_AND_LET_ME_GO else mret TCMI_TASK_KILL_ME.

Definition tcmi_guesttask_exit (self code : Z) : M Z :=
  t ← task self; when (peer_lost t =? 0) (emit E_sync_files);;
  m ← new_msg self (fun e => tcmi_exit_procmsg_new_tx e (remote_pid t) s32[code]);
  match m with
  | None => mret TCMI_TASK_REMOVE_AND_LET_ME_GO
  | Some m =>
      tcmi_task_send_anonymous_msg self m;; msg_put self (Some m);; mret TCMI_TASK_REMOVE_AND_LET_ME_GO
  end.

Definition tcmi_guesttask_do_signal (self signr : Z) (info : list Z) : M Z :=
  when ((signr =? SIGKILL) || (signr =? SIGQUIT) || (signr =? SIGINT)) (tcmi_task_set_exit_code self signr);;
  mret TCMI_TASK_KEEP_PUMPING.

(** [BUG_ON(child == NULL)] on a successful fork. *)
Definition tcmi_guesttask_post_fork (self : Z) (child : option Z) (fork_result remote_child_pid : Z) : M Z :=
  m ← (if fork_result <? 0 then new_msg self (fun e => tcmi_exit_procmsg_new_tx e remote_child_pid s32[fork_result])
       else c ← valid child;
            tcmi_task_set_remote_pid c remote_child_pid;;
            rp ← tcmi_task_remote_pid c; lp ← tcmi_task_local_pid c;
            new_msg self (fun e => tcmi_guest_started_procmsg_new_tx e TCMI_TRANSACTION_INVAL_ID rp lp));
  match m with
  | None => mret (- EINVAL)
  | Some m => tcmi_task_send_anonymous_msg self m;; msg_put self (Some m);; mret 0
  end.

(** The answer: is the process a group leader, and the result of [proxyfs_clone_file_names].
    The store through [set_child_tid] goes to user memory. *)
Definition tcmi_guesttask_post_fork_set_tid (self wr : Z) : M Z :=
  a ← ask; cur ← gets current;
  when (a_ok a && negb (a_num a =? 0)) (force_sig SIGKILL cur);; mret TCMI_TASK_KEEP_PUMPING.

Definition guesttask_ops : @tcmi_task_ops S := {|
  o_process_msg := Some tcmi_guesttask_process_msg;
  o_emigrate_ppm_p := Some tcmi_guesttask_emigrate_p;
  o_migrateback_ppm_p := Some tcmi_guesttask_migrateback_ppm_p;
  o_emigrate_ppm_v := None;
  o_migrateback_ppm_v := None;
  o_emigrate_npm := None;
  o_migrateback_npm := Some tcmi_guesttask_migrateback_npm;
  o_exit := Some tcmi_guesttask_exit;
  o_execve := None;
  o_do_signal := Some tcmi_guesttask_do_signal;
  o_get_type := Some guest
|}.

Definition task_ops_of (c : tcmi_task_class) : @tcmi_task_ops S :=
  match c with Shadowtask => shadowtask_ops | Guesttask => guesttask_ops end.
End taskops.
