(* ===== verification/Migcom.v ===== *)
(** The migration component (src/src/tcmi/migration/tcmi_migcom.c): the migration mode handler,
    emigration, immigration, forks of migrated processes, and the entry points of the task
    helper that run the handler.

    Mounting, thread creation and the decisions of the director are answers of the world. *)

From stdpp Require Import gmap.
From S2P Require Import Prelude Effect SlotVec Transaction KkcSock MsgId Messages Queue Msg NpmParams World Task TaskOps.

Section migcom.
Context {S : Type} `{Sock S} (HZ : Z).
Abbreviation M := (eff (kw S)).
Context (migman_free : Z -> M unit) (shadow_rpc : Z -> Z -> M (option Z)).
Abbreviation task_put := (tcmi_task_put migman_free).

(** ** Mounting *)

(** [strrchr(buffer, ':')] and the [sprintf] behind it: the port of the peer is replaced. *)
Fixpoint last_colon (s : list Z) : option (list Z) :=
  match s with
  | [] => None
  | c :: s => match last_colon s with
              | Some p => Some (c :: p)
              | None => if c =? 58 then Some [] else None
              end
  end.
Definition proxyfs_device (arch peer : list Z) : option (list Z) :=
  p ← last_colon (arch ++ [58] ++ peer); Some (p ++ [58; 49; 49; 49; 50]).

(** Architecture and peer name of the socket are answers. *)
Definition mount_proxyfs (sock : option Z) : M Z :=
  cred ← ask;
  if negb (a_ok cred) then mret (- ENOMEM) else
  arch ← ask; peer ← ask;
  dev ← valid (proxyfs_device (a_bytes arch) (a_bytes peer));
  emit (E_mounted dev);; r ← ask; mret (a_num r).

Definition mount_local_procfs (sock : option Z) : M Z :=
  lookup ← ask;
  err ← (if negb (a_num lookup =? 0) then r ← ask; mret (a_num r) else mret 0);
  if negb (err =? 0) then mret err else r ← ask; mret (a_num r).

(** The socket pointer is an argument that was copied into the wrapper. *)
Definition tcmi_task_mount_proxyfs (self wr : Z) : M Z :=
  d ← tcmi_method_wrapper_data wr; b ← valid d;
  res ← mount_proxyfs (Some (le_value (ztake 8 b)));
  cur ← gets current;
  when (negb (res =? 0)) (force_sig SIGKILL cur);; mret TCMI_TASK_KEEP_PUMPING.

Definition run_other (m : tcmi_method) (self wr : Z) : M Z :=
  match m with
  | M_mount_proxyfs => tcmi_task_mount_proxyfs self wr
  | _ => tcmi_guesttask_post_fork_set_tid self wr
  end.

Abbreviation ops_of := (task_ops_of HZ migman_free shadow_rpc).
Abbreviation process_methods := (tcmi_task_process_methods ops_of run_other).

(** ** The migration mode handler *)

(** The loop that goes on while the task is moved between managers. *)
Fixpoint move_loop (moves fuel : nat) (tsk : Z) : M Z :=
  res ← process_methods fuel tsk;
  if negb (res =? TCMI_TASK_MOVE_ME) then mret res else
  match moves with O => halt Running | Datatypes.S moves => move_loop moves fuel tsk end.

Definition tcmi_migcom_mig_mode_handler (moves fuel : nat) : M unit :=
  t ← tcmi_taskhelper_sanity_check;
  match t with
  | None => mret tt
  | Some tsk =>
      res ← move_loop moves fuel tsk;
      if res =? TCMI_TASK_KILL_ME then
        tmp ← tcmi_taskhelper_detach;
        tmp_p ← valid tmp; exit_code ← tcmi_task_exit_code tmp_p;
        task_put tmp;; emit (E_exit exit_code);; halt Gone
      else if res =? TCMI_TASK_REMOVE_AND_LET_ME_GO then
        tmp ← tcmi_taskhelper_detach; task_put tmp
      else mret tt
  end.

Definition tcmi_taskhelper_run_mig_mode_handler (moves fuel : nat) : M Z :=
  cur ← gets current; p ← process cur;
  if negb (mig_mode_handler p) then mret (- EINVAL)
  else tcmi_migcom_mig_mode_handler moves fuel;; mret 0.

Definition tcmi_taskhelper_do_mig_mode (moves fuel : nat) (regs : Z) : M unit :=
  cur ← gets current; p ← process cur;
  match p_task p with
  | Some t =>
      when (mig_mode_handler p)
        (tcmi_task_set_context t regs;; tcmi_migcom_mig_mode_handler moves fuel)
  | None => mret tt
  end.

Definition tcmi_taskhelper_notify_current (moves fuel : nat) (m : tcmi_method)
    (data : option (list Z)) (size priority : Z) : M Z :=
  cur ← gets current; p ← process cur;
  match p_task p with
  | None => mret (- EINVAL)
  | Some t =>
      submit_by_priority t m data size priority;;
      ctx ← tcmi_task_context t; tcmi_taskhelper_do_mig_mode moves fuel ctx;; mret 0
  end.

(** ** Emigration *)

(** [err] is 0 from the start, so a failure is reported as 0 too. *)
Definition tcmi_migcom_emigrate_ccn_ppm_p (pid mgr : Z) : M Z :=
  mm ← migman mgr;
  s ← tcmi_shadowtask_new migman_free pid (Some mgr) (mm_sock mm) (d_migproc mm) (d_migman mm);
  match s with
  | None => mret 0
  | Some sh =>
      tcmi_task_submit_method sh M_emigrate_ppm_p None 0;;
      err ← tcmi_taskhelper_attach sh;
      if err <? 0 then task_put (Some sh);; mret 0 else
      tcmi_taskhelper_enter_mig_mode sh;;
      err ← tcmi_taskhelper_wait_for_pick_up_timeout migman_free sh;
      when (err <? 0) (emit (E_emigration_failed pid));;
      task_put (Some sh);; mret 0
  end.

Definition tcmi_migcom_emigrate_ccn_npm (moves fuel : nat) (pid mgr regs npm_params : Z) : M Z :=
  mm ← migman mgr;
  s ← tcmi_shadowtask_new migman_free pid (Some mgr) (mm_sock mm) (d_migproc mm) (d_migman mm);
  match s with
  | None => mret 0
  | Some sh =>
      tcmi_task_submit_method sh M_emigrate_npm (Some (le_bytes 8 npm_params)) 8;;
      err ← tcmi_taskhelper_attach sh;
      if err <? 0 then task_put (Some sh);; mret 0 else
      task_put (Some sh);;
      tcmi_migman_put migman_free (Some mgr);;
      tcmi_taskhelper_do_mig_mode moves fuel regs;;
      emit (E_emigration_failed pid);;
      tcmi_migman_get (Some mgr);; mret 0
  end.

(** ** Immigration *)

(** The error paths after the thread was started return the [err] of the last step that set
    it, which is 0 once the file system was ready. *)
Definition tcmi_migcom_immigrate (m mgr : Z) : M Z :=
  mm ← migman mgr; dir ← ask;
  if (a_num dir =? 0) && negb (a_ok dir) then mret (- EINVAL) else
  mnt ← ask;
  let err := if a_ok mnt then a_num mnt else - EINVAL in
  if a_ok mnt && negb (a_num mnt =? 0) then mret err else
  thr ← ask;
  if a_num thr <? 0 then mret err else
  let pid := a_num thr in
  modify (set_procs (insert pid (mk_proc false None unresolved [] 0 [] None [])));;
  fs ← ask;
  if negb (a_num fs =? 0) then mret (a_num fs) else
  g ← tcmi_guesttask_new migman_free pid (Some mgr) (mm_sock mm) (d_migproc mm) (d_migman mm);
  match g with
  | None => mret 0
  | Some gu =>
      msg_get m;;
      err ← tcmi_task_deliver_msg gu m;
      when (err <? 0) (msg_put gu (Some m));;
      tcmi_task_submit_method gu M_process_msg (Some (le_bytes 4 0)) 4;;
      err ← tcmi_taskhelper_attach gu;
      if err <? 0 then task_put (Some gu);; mret 0 else
      err ← tcmi_taskhelper_wait_for_pick_up_timeout migman_free gu;
      if err <? 0 then task_put (Some gu);; mret 0 else
      emit (E_immigration_confirmed pid);; task_put (Some gu);; mret 0
  end.

(** The thread that becomes the immigrated task. *)
Definition tcmi_migcom_migrated_task (moves fuel : nat) (sock : option Z) : M Z :=
  cred ← ask;
  if negb (a_ok cred) then mret (- ENOMEM) else
  emit (E_closed 0);; emit (E_closed 1);; emit (E_closed 2);;
  mnt ← ask;
  if a_ok mnt && negb (a_num mnt =? 0) then mret (a_num mnt) else
  err ← mount_proxyfs sock;
  err ← (if err =? 0 then mount_local_procfs sock else mret err);
  if negb (err =? 0) then mret err else
  ready ← ask;
  if negb (a_num ready =? 0) then mret (a_num ready) else
  err ← tcmi_taskhelper_run_mig_mode_handler moves fuel;
  if err <? 0 then mret 0 else mret 0.

(** ** Forks *)

Definition tcmi_migcom_guest_fork (child mgr : Z) : M Z :=
  mm ← migman mgr;
  g ← tcmi_guesttask_new migman_free child (Some mgr) (mm_sock mm) (d_migproc mm) (d_migman mm);
  match g with
  | None => mret (- EINVAL)
  | Some gu =>
      tcmi_task_submit_method gu M_mount_proxyfs (Some (le_bytes 8 (default 0 (mm_sock mm)))) 8;;
      tcmi_task_submit_method gu M_post_fork_set_tid None 0;;
      err ← tcmi_taskhelper_attach_exclusive child gu;
      if err <? 0 then task_put (Some gu);; mret (- EINVAL) else
      task_put (Some gu);;
      tcmi_taskhelper_enter_mig_mode_exclusive child gu;; mret 0
  end.

Definition tcmi_migcom_shadow_fork (child mgr : Z) : M Z :=
  mm ← migman mgr;
  s ← tcmi_shadowtask_new migman_free child (Some mgr) (mm_sock mm) (d_migproc mm) (d_migman mm);
  match s with
  | None => mret (- EINVAL)
  | Some sh =>
      tcmi_task_submit_method sh M_process_msg None 0;;
      err ← tcmi_taskhelper_attach_exclusive child sh;
      if err <? 0 then task_put (Some sh);; mret (- EINVAL) else
      task_put (Some sh);;
      tcmi_taskhelper_enter_mig_mode_exclusive child sh;; mret 0
  end.
End migcom.
