(* ===== verification/Migman.v ===== *)
(** The migration managers (src/src/tcmi/manager/tcmi_migman.h, tcmi_migman.c) and their two
    subclasses, tcmi_ccnmigman.c on the home node and tcmi_penmigman.c on the node that runs
    the processes: life cycle, shutdown, delivery of messages, the message thread and what
    each subclass does with a message.

    The director's decisions, allocations and control-fs entries are answers and objects of
    the world. *)

From stdpp Require Import gmap.
From S2P Require Import Prelude Effect SlotVec Transaction KkcSock MsgId Messages Queue Msg NpmParams World Task TaskOps Migcom.

Definition TASK_ORDER : Z := 9.
Definition UNKNOWN : Z := 0.

(** Assignments to the pointers of a manager. *)
Definition mm_set_ptrs (comm sock thr dm dc fs fst fk dp sl file : option Z) (m : tcmi_migman) : tcmi_migman :=
  mk_migman (mm_tasks m) (ccn_id m) (pen_id m) (manager_slot m) (mm_hashed m) (peer_arch_type m) (mm_ref m)
    (mm_queue m) (mm_trans m) comm sock thr (mm_state m) dm dc fs fst fk dp sl (mm_id m) file
    (mount_params m) (mm_ops m).
Definition mm_set_comm v m := mm_set_ptrs v (mm_sock m) (msg_thread m) (d_migman m) (d_conns m) (f_state m)
  (f_stop m) (f_kill m) (d_migproc m) (mm_symlink m) (mm_file m) m.
Definition mm_set_sock v m := mm_set_ptrs (mm_comm m) v (msg_thread m) (d_migman m) (d_conns m) (f_state m)
  (f_stop m) (f_kill m) (d_migproc m) (mm_symlink m) (mm_file m) m.
Definition mm_set_thread v m := mm_set_ptrs (mm_comm m) (mm_sock m) v (d_migman m) (d_conns m) (f_state m)
  (f_stop m) (f_kill m) (d_migproc m) (mm_symlink m) (mm_file m) m.
Definition mm_set_dirs dm dc dp m := mm_set_ptrs (mm_comm m) (mm_sock m) (msg_thread m) dm dc (f_state m)
  (f_stop m) (f_kill m) dp (mm_symlink m) (mm_file m) m.
Definition mm_set_files fs fst fk m := mm_set_ptrs (mm_comm m) (mm_sock m) (msg_thread m) (d_migman m)
  (d_conns m) fs fst fk (d_migproc m) (mm_symlink m) (mm_file m) m.
Definition mm_set_symlink v m := mm_set_ptrs (mm_comm m) (mm_sock m) (msg_thread m) (d_migman m) (d_conns m)
  (f_state m) (f_stop m) (f_kill m) (d_migproc m) v (mm_file m) m.
Definition mm_set_file v m := mm_set_ptrs (mm_comm m) (mm_sock m) (msg_thread m) (d_migman m) (d_conns m)
  (f_state m) (f_stop m) (f_kill m) (d_migproc m) (mm_symlink m) v m.

(** The memory of a manager before [tcmi_migman_init]. *)
Definition blank_migman (c : tcmi_migman_class) : tcmi_migman :=
  mk_migman (mk_slotvec [] 0 None [] [] 0 false) 0 0 None false 0 0 tcmi_queue_init None None None None
    TCMI_MIGMAN_INIT None None None None None None None 0 None None c.

Section free.
Context {S : Type} `{Sock S}.
Abbreviation M := (eff (kw S)).

(** ** State *)

Definition tcmi_migman_set_state (self : Z) (state : tcmi_migman_state_t) : M tcmi_migman_state_t :=
  m ← migman self; upd_migman self (mm_set_state state);; mret (mm_state m).

Definition tcmi_migman_change_state (self : Z) (old_state state : tcmi_migman_state_t) : M bool :=
  m ← migman self;
  if bool_decide (mm_state m = old_state) then upd_migman self (mm_set_state state);; mret true
  else mret false.

Definition tcmi_migman_states (s : tcmi_migman_state_t) : list Z :=
  match s with
  | TCMI_MIGMAN_INIT => [73; 110; 105; 116]
  | TCMI_MIGMAN_CONNECTED => [67; 111; 110; 110; 101; 99; 116; 101; 100]
  | TCMI_MIGMAN_SHUTTING_DOWN => [83; 104; 117; 116; 116; 105; 110; 103; 32; 100; 111; 119; 110]
  | TCMI_MIGMAN_SHUT_DOWN => [83; 104; 117; 116; 100; 111; 119; 110]
  end.
Definition TCMI_MIGMAN_STATE_LENGTH : Z := 40.
(** [strncpy] pads with zeros. *)
Definition tcmi_migman_show_state (self : Z) : M (list Z) :=
  m ← migman self;
  mret (ztake TCMI_MIGMAN_STATE_LENGTH (tcmi_migman_states (mm_state m) ++ replicate 40 0)).

Definition tcmi_migman_slot_index (self : Z) : M nat := m ← migman self; valid (manager_slot m).

(** ** Entries of the control file system *)

(** [tcmi_ctlfs_file_unregister] and the put of the entry. *)
Definition drop_file (f : option Z) : M unit := emit (E_unregistered f);; obj_put f.

(** [ops->init_ctlfs_files]: [f_load] of a CCN, [f_mighome_all] of a PEN. *)
Definition tcmi_ccnmigman_init_ctlfs_files (self : Z) : M Z :=
  f ← obj_new; upd_migman self (mm_set_file f);;
  mret (match f with None => - EINVAL | Some _ => 0 end).
Definition tcmi_penmigman_init_ctlfs_files (self : Z) : M Z :=
  f ← obj_new; upd_migman self (mm_set_file f);;
  mret (match f with None => - EINVAL | Some _ => 0 end).
Definition tcmi_ccnmigman_stop_ctlfs_files (self : Z) : M unit := m ← migman self; drop_file (mm_file m).
Definition tcmi_penmigman_stop_ctlfs_files (self : Z) : M unit := m ← migman self; drop_file (mm_file m).

(** Neither subclass has directories of its own. *)
Definition ops_init_ctlfs_files (self : Z) : M Z :=
  m ← migman self;
  match mm_ops m with
  | Ccnmigman => tcmi_ccnmigman_init_ctlfs_files self
  | Penmigman => tcmi_penmigman_init_ctlfs_files self
  end.
Definition ops_stop_ctlfs_files (self : Z) : M unit :=
  m ← migman self;
  match mm_ops m with
  | Ccnmigman => tcmi_ccnmigman_stop_ctlfs_files self
  | Penmigman => tcmi_penmigman_stop_ctlfs_files self
  end.

Definition tcmi_migman_init_ctlfs_dirs (self : Z) (migproc : option Z) : M Z :=
  dm ← obj_new; upd_migman self (fun m => mm_set_dirs dm (d_conns m) (d_migproc m) m);;
  match dm with
  | None => mret (- EINVAL)
  | Some _ =>
      dc ← obj_new; upd_migman self (mm_set_dirs dm dc None);;
      match dc with
      | None => obj_put dm;; mret (- EINVAL)
      | Some _ =>
          obj_get migproc;; upd_migman self (mm_set_dirs dm dc migproc);;
          match migproc with
          | None => obj_put dc;; obj_put dm;; mret (- EINVAL)
          | Some _ => mret 0
          end
      end
  end.

Definition tcmi_migman_init_ctlfs_files (self : Z) : M Z :=
  fs ← obj_new; upd_migman self (fun m => mm_set_files fs (f_stop m) (f_kill m) m);;
  match fs with
  | None => mret (- EINVAL)
  | Some _ =>
      fst ← obj_new; upd_migman self (fun m => mm_set_files fs fst (f_kill m) m);;
      match fst with
      | None => drop_file fs;; mret (- EINVAL)
      | Some _ =>
          fk ← obj_new; upd_migman self (mm_set_files fs fst fk);;
          match fk with
          | None => drop_file fst;; drop_file fs;; mret (- EINVAL)
          | Some _ =>
              err ← ops_init_ctlfs_files self;
              if negb (err =? 0) then drop_file fk;; drop_file fst;; drop_file fs;; mret (- EINVAL)
              else mret 0
          end
      end
  end.

Definition tcmi_migman_stop_ctlfs_dirs (self : Z) : M unit :=
  m ← migman self;
  obj_put (d_migman m);; obj_put (mm_symlink m);; obj_put (d_conns m);; obj_put (d_migproc m).

Definition tcmi_migman_stop_ctlfs_files (self : Z) : M unit :=
  ops_stop_ctlfs_files self;; m ← migman self;
  drop_file (f_stop m);; drop_file (f_kill m);; drop_file (f_state m).

(** The name, which the last colon of the peer's address ends, is not kept by the model. *)
Definition tcmi_migman_create_symlink (self : Z) : M Z :=
  l ← obj_new; upd_migman self (mm_set_symlink l);;
  mret (match l with None => - EINVAL | Some _ => 0 end).

(** ** The message thread's process *)

Definition tcmi_migman_start_thread (self : Z) : M Z :=
  a ← ask;
  if negb (a_ok a) then mret (- EINVAL) else
  p ← fresh;
  modify (set_procs (insert p (mk_proc false None unresolved [] 0 [] None [])));;
  upd_migman self (mm_set_thread (Some p));; mret 0.

Definition tcmi_migman_stop_thread (self : Z) : M unit :=
  m ← migman self;
  match msg_thread m with
  | None => mret tt
  | Some p =>
      force_sig SIGTERM p;; cur ← gets current;
      when (negb (p =? cur)) (emit (E_thread_stopped p))
  end.

(** ** Creation and destruction *)

(** A slot of managers holds one manager, so the first one of the slot is [self]. *)
Definition tcmi_migman_unhash (self : Z) : M unit :=
  m ← migman self;
  when (mm_hashed m)
    (upd_migman self (fun m => mm_with m (mm_tasks m) (mm_ref m) (mm_queue m) (mm_trans m) (mm_state m) false)).

(** [ops->free] is empty or missing.  The message queue is not emptied. *)
Definition tcmi_migman_free (self : Z) : M unit :=
  tcmi_migman_stop_thread self;;
  m ← migman self; obj_put (mm_comm m);;
  tcmi_migman_stop_ctlfs_files self;; tcmi_migman_stop_ctlfs_dirs self;;
  obj_put (mm_sock m);; tcmi_migman_unhash self;;
  upd_migman self (mm_set_trans None).

(** The error labels of [tcmi_migman_init]. *)
Definition mm_exit3 (self : Z) : M Z := m ← migman self; obj_put (mm_comm m);; mret (- EINVAL).
Definition mm_exit4 (self : Z) : M Z := tcmi_migman_stop_ctlfs_dirs self;; mm_exit3 self.
Definition mm_exit5 (self : Z) : M Z := tcmi_migman_stop_ctlfs_files self;; mm_exit4 self.
Definition mm_exit6 (self : Z) : M Z := m ← migman self; obj_put (mm_sock m);; mm_exit5 self.

Definition tcmi_migman_init (self : Z) (ccn pen arch : Z) (slot : option nat) (migproc : option Z) : M Z :=
  rnd ← ask;
  upd_migman self (fun m =>
    mk_migman (mm_tasks m) ccn pen slot (mm_hashed m) arch 1 tcmi_queue_init (mm_trans m) (mm_comm m)
      (mm_sock m) (msg_thread m) TCMI_MIGMAN_INIT (d_migman m) (d_conns m) (f_state m) (f_stop m)
      (f_kill m) (d_migproc m) (mm_symlink m) u32[a_num rnd] (mm_file m) (mount_params m) (mm_ops m));;
  a ← ask; b ← ask;
  match tcmi_slotvec_hnew (a_ok a) (a_ok b) TRANSACTION_ORDER with
  | None => mret (- EINVAL)
  | Some tv =>
      upd_migman self (mm_set_trans (Some (mk_world tv ∅ (a_num a))));;
      a ← ask; b ← ask;
      match tcmi_slotvec_hnew (a_ok a) (a_ok b) TASK_ORDER with
      | None => mret (- EINVAL)
      | Some v =>
          upd_migman self (mm_set_tasks v);;
          comm ← obj_new; upd_migman self (mm_set_comm comm);;
          match comm with
          | None => mret (- EINVAL)
          | Some _ =>
              err ← tcmi_migman_init_ctlfs_dirs self migproc;
              if err <? 0 then mm_exit3 self else
              err ← tcmi_migman_create_symlink self;
              if err <? 0 then mm_exit4 self else
              err ← tcmi_migman_init_ctlfs_files self;
              if err <? 0 then mm_exit4 self else
              s ← obj_new; upd_migman self (mm_set_sock s);;
              match s with
              | None => mm_exit5 self
              | Some _ =>
                  err ← tcmi_migman_start_thread self;
                  if err <? 0 then mm_exit6 self else mret 0
              end
          end
      end
  end.

Definition migman_new (c : tcmi_migman_class) (ccn pen : Z) (slot : option nat) (migproc : option Z)
    : M (option Z) :=
  a ← ask;
  if negb (a_ok a) then mret None else
  p ← fresh; modify (set_mans (insert p (blank_migman c)));;
  err ← tcmi_migman_init p ccn pen UNKNOWN slot migproc;
  if err <? 0 then modify (set_mans (delete p));; mret None else mret (Some p).

Definition tcmi_ccnmigman_new (ccn : Z) := migman_new Ccnmigman ccn 0.
Definition tcmi_penmigman_new (pen : Z) := migman_new Penmigman 0 pen.
End free.

Section migman.
Context {S : Type} `{Sock S} (HZ ARCH_CURRENT : Z).
Abbreviation M := (eff (kw S)).
Context (ccnman_mount_params : fs_mount_params).
Abbreviation mput := (tcmi_migman_put tcmi_migman_free).
Abbreviation tput := (tcmi_task_put tcmi_migman_free).

(** ** Messages of a manager *)

Definition mm_new_msg (self : Z) (ctor : tx_env -> world -> option (option tcmi_msg * world)) : M (option Z) :=
  a ← ask; m ← migman self;
  tw ← valid (mm_trans m);
  '(msg, tw) ← valid (ctor (a_env a) tw);
  upd_migman self (mm_set_trans (Some tw));;
  match msg with
  | None => mret None
  | Some msg => p ← fresh; modify (set_msgs (insert p msg));; mret (Some p)
  end.

Definition mm_msg_put (self : Z) (o : option Z) : M unit :=
  match o with
  | None => mret tt
  | Some p =>
      msg ← message p;
      if m_ref msg - 1 =? 0 then
        match transaction msg with
        | None => mret tt
        | Some _ =>
            m ← migman self; tw ← valid (mm_trans m);
            tw ← valid (tcmi_transaction_put (transaction msg) tw); upd_migman self (mm_set_trans (Some tw))
        end;;
        modify (set_msgs (delete p))
      else
        modify (set_msgs (insert p (mk_msg (msg_id msg) (trans_req msg) (trans_resp msg) (transaction msg)
                                      (m_ref msg - 1) (body msg))))
  end.

Definition mm_send (self p : Z) : M Z :=
  a ← ask; msg ← message p; m ← migman self; sa ← valid (mm_sock m); ss ← gets socks; s ← valid (ss !! sa);
  tw ← valid (mm_trans m);
  '(err, tw, s) ← valid (tcmi_msg_send_anonymous (a_num a) msg tw s);
  upd_migman self (mm_set_trans (Some tw));; modify (set_socks (insert sa s));; mret err.

(** ** Shutting down *)

Definition tcmi_migman_notify_peer_disconnect (self : Z) : M unit :=
  m ← mm_new_msg self tcmi_disconnect_msg_new_tx;
  match m with
  | None => mret tt
  | Some p => mm_send self p;; mm_msg_put self (Some p)
  end.

(** The tasks of a manager, in the order the loops visit them. *)
Definition tasks_of (v : tcmi_slotvec) : list Z := used_slots v ≫= items v.

Fixpoint for_tasks (f : Z -> M unit) (ts : list Z) : M unit :=
  match ts with [] => mret tt | t :: ts => f t;; for_tasks f ts end.
(** A loop over the tasks under the lock of the slot vector. *)
Definition for_each_task (self : Z) (f : Z -> M unit) : M unit :=
  m ← migman self; v ← valid (tcmi_slot_lock (mm_tasks m));
  upd_migman self (mm_set_tasks v);; for_tasks f (tasks_of v);;
  upd_migman self (fun m => mm_set_tasks (tcmi_slot_unlock (mm_tasks m)) m).

Definition tcmi_penmigman_migrate_all_home (self : Z) : M Z :=
  for_each_task self (fun t =>
    pid ← tcmi_task_local_pid t; tcmi_migcom_migrate_home_ppm_p tcmi_migman_free pid;; mret tt);;
  mret 0.

Definition tcmi_ccnmigman_stop (self : Z) (remote_requested : bool) : M unit :=
  s ← tcmi_migman_slot_index self; emit (E_disconnected s remote_requested).
Definition tcmi_penmigman_stop (self : Z) (remote_requested : bool) : M unit :=
  tcmi_penmigman_migrate_all_home self;;
  s ← tcmi_migman_slot_index self; emit (E_disconnected s remote_requested).
Definition ops_stop (self : Z) (remote_requested : bool) : M unit :=
  m ← migman self;
  match mm_ops m with
  | Ccnmigman => tcmi_ccnmigman_stop self remote_requested
  | Penmigman => tcmi_penmigman_stop self remote_requested
  end.

Definition tcmi_migman_stop_perform (self : Z) (remote_requested : bool) : M Z :=
  b ← tcmi_migman_change_state self TCMI_MIGMAN_CONNECTED TCMI_MIGMAN_SHUTTING_DOWN;
  if (b : bool) then
    ops_stop self remote_requested;;
    when (negb remote_requested) (tcmi_migman_notify_peer_disconnect self);;
    mput (Some self)
  else mret 0.

Definition tcmi_migman_stop (self : Z) : M unit := tcmi_migman_stop_perform self false;; mret tt.

Definition kill_all_tasks (self : Z) : M unit := for_each_task self tcmi_task_signal_peer_lost.

Definition tcmi_migman_kill (self : Z) : M Z :=
  kill_all_tasks self;;
  b ← tcmi_migman_change_state self TCMI_MIGMAN_CONNECTED TCMI_MIGMAN_SHUTTING_DOWN;
  if (b : bool) then mput (Some self) else mret 0.

Definition tcmi_migman_stop_request (self : Z) : M Z := tcmi_migman_stop self;; mret 0.
Definition tcmi_migman_kill_request (self : Z) : M Z := tcmi_migman_kill self;; mret 0.

(** ** Delivery *)

Definition tcmi_migman_deliver_msg (self m : Z) : M Z :=
  msg ← message m;
  if TCMI_MSG_GROUP (msg_id msg) =? TCMI_MSG_GROUP_PROC then
    match body msg with
    | B_proc dst_pid _ _ =>
        t ← tcmi_taskhelper_find_by_pid dst_pid;
        match t with
        | None => mret (- EINVAL)
        | Some t =>
            tid ← tcmi_task_migman_id t; mm ← migman self;
            if negb (tid =? mm_id mm) then tput (Some t);; mret (- EINVAL) else
            err ← tcmi_task_deliver_msg t m; tput (Some t);; mret err
        end
    | _ => fault
    end
  else
    mm ← migman self; tw ← valid (mm_trans mm);
    '(err, msg, q, tw) ← valid (tcmi_msg_deliver m msg (mm_queue mm) tw);
    modify (set_msgs (insert m msg));;
    upd_migman self (fun mm => mm_set_queue q (mm_set_trans (Some tw) mm));; mret err.

(** ** What a manager does with a message *)

Definition emit_user_message (self : Z) (d : option (list Z)) : M unit :=
  s ← tcmi_migman_slot_index self; emit (E_user_message s (default [] d)).

(** The director's verdict: an error of the call is [a_num], [a_ok] its acceptance. *)
Definition tcmi_ccnmigman_process_msg (self m : Z) : M unit :=
  msg ← message m;
  (if msg_id msg =? TCMI_AUTHENTICATE_MSG_ID then
     match body msg with
     | B_authenticate au =>
         s ← tcmi_migman_slot_index self; emit (E_connected s);; dir ← ask;
         if (a_num dir =? 0) && negb (a_ok dir) then mret tt else
         upd_migman self (fun mm => mm_peer (ccn_id mm) (Messages.pen_id au) (pen_arch au) (mount_params mm) mm);;
         mm ← migman self;
         resp ← mm_new_msg self (fun e => tcmi_authenticate_resp_msg_new_tx e (tcmi_msg_req_id msg) (ccn_id mm)
                                            ARCH_CURRENT 0 ccnman_mount_params);
         match resp with
         | None => mret tt
         | Some r =>
             mm_send self r;; mm_msg_put self (Some r);;
             tcmi_migman_set_state self TCMI_MIGMAN_CONNECTED;; mret tt
         end
     | _ => fault
     end
   else if msg_id msg =? TCMI_GENERIC_USER_MSG_ID then
     match body msg with B_generic_user u => emit_user_message self (user_data u) | _ => fault end
   else mret tt);;
  mm_msg_put self (Some m).

(** The result is the state after at most five seconds. *)
Definition tcmi_ccnmigman_auth_pen (self : Z) : M Z :=
  m ← migman self;
  mret (if bool_decide (mm_state m = TCMI_MIGMAN_CONNECTED) then 0 else - EINVAL).

(** [send_sig_info] on a process that exists. *)
Definition tcmi_penmigman_send_signal (pid : Z) (info : list Z) : M unit :=
  ps ← gets procs;
  match ps !! pid with
  | None => mret tt
  | Some _ =>
      let sig := s32[le_value (ztake 4 info)] in
      upd_process pid (fun p =>
        if bool_decide (sig ∈ (pending p).*1) then p else p_set_pending (pending p ++ [(sig, info)]) p)
  end.

Definition tcmi_penmigman_process_msg (self m : Z) : M unit :=
  msg ← message m;
  (if msg_id msg =? TCMI_AUTHENTICATE_RESP_MSG_ID then
     match body msg with
     | B_authenticate_resp r =>
         if result_code r =? 0 then
           upd_migman self (fun mm => mm_peer (Messages.ccn_id r) (pen_id mm) (ccn_arch r)
                                        (Some (Messages.mount_params r)) mm);;
           tcmi_migman_set_state self TCMI_MIGMAN_CONNECTED;; mret tt
         else mret tt
     | _ => fault
     end
   else if msg_id msg =? TCMI_MSG_FLG_SET_ERR TCMI_AUTHENTICATE_RESP_MSG_ID then mret tt
   else if msg_id msg =? TCMI_SIGNAL_MSG_ID then
     match body msg with
     | B_signal sm => tcmi_penmigman_send_signal (sig_pid sm) (sig_info sm)
     | _ => fault
     end
   else if msg_id msg =? TCMI_P_EMIGRATE_MSG_ID then
     match body msg with
     | B_p_emigrate em =>
         err ← tcmi_migcom_immigrate tcmi_migman_free m self;
         if err <? 0 then
           resp ← mm_new_msg self (fun e => tcmi_err_procmsg_new_tx e TCMI_GUEST_STARTED_PROCMSG_ID
                                              (tcmi_msg_req_id msg) (- EINVAL) (reply_pid em));
           match resp with None => mret tt | Some r => mm_send self r;; mret tt end
         else mret tt
     | _ => fault
     end
   else if msg_id msg =? TCMI_GENERIC_USER_MSG_ID then
     match body msg with B_generic_user u => emit_user_message self (user_data u) | _ => fault end
   else mret tt);;
  mm_msg_put self (Some m).

Definition ops_process_msg (self m : Z) : M unit :=
  mm ← migman self;
  match mm_ops mm with
  | Ccnmigman => tcmi_ccnmigman_process_msg self m
  | Penmigman => tcmi_penmigman_process_msg self m
  end.

(** An unset response pointer ([resp] is not initialised) is not followed: the request has a
    transaction. *)
Definition tcmi_penmigman_auth_ccn (self : Z) (auth_data : list Z) : M Z :=
  mm ← migman self;
  req ← mm_new_msg self (fun e => tcmi_authenticate_msg_new_tx HZ e true (pen_id mm) ARCH_CURRENT auth_data
                                    (zlen auth_data));
  match req with
  | None => mret tt
  | Some req =>
      a ← ask; msg ← message req; mm ← migman self; sa ← valid (mm_sock mm); ss ← gets socks;
      s ← valid (ss !! sa); tw ← valid (mm_trans mm);
      match tcmi_msg_send_and_receive (a_num a) (a_others a) (a_sig a) msg tw s with
      | None => halt Gone
      | Some (err, resp, tw, s) =>
          upd_migman self (mm_set_trans (Some tw));; modify (set_socks (insert sa s));;
          (if err <? 0 then mret tt else
           match resp with None => mret tt | Some r => tcmi_penmigman_process_msg self r end);;
          mm_msg_put self (Some req)
      end
  end;;
  mm ← migman self;
  mret (if bool_decide (mm_state mm = TCMI_MIGMAN_CONNECTED) then 0 else - EINVAL).

(** ** The message thread *)

Fixpoint mm_arrive (self : Z) (ms : list tcmi_msg) : M unit :=
  match ms with
  | [] => mret tt
  | m :: ms =>
      p ← fresh; modify (set_msgs (insert p m));;
      mm ← migman self; q ← valid (tcmi_queue_add (mm_queue mm) p); upd_migman self (mm_set_queue q);;
      mm_arrive self ms
  end.

Definition mm_wait_for_msg (self : Z) : M Z :=
  mm ← migman self;
  match tcmi_queue_wait_on_empty_interruptible None (mm_queue mm) with
  | (Some r, _) => mret r
  | (None, _) =>
      a ← ask;
      match a_msgs a with
      | _ :: _ => mm_arrive self (a_msgs a);; mret 0
      | [] => match a_sig a with Some e => mret e | None => halt Gone end
      end
  end.

(** [kthread_should_stop() || signal_pending(current)] *)
Definition should_stop : M bool :=
  a ← ask; cur ← gets current; p ← process cur;
  mret (negb (a_ok a) || bool_decide (pending p <> [])).

(** The macro [wait_on_should_stop]: an uninterruptible sleep until somebody calls [kthread_stop];
    the answer says whether anybody ever does. *)
Definition wait_on_should_stop : M unit := a ← ask; if a_ok a then halt Gone else mret tt.

(** The loop of the message thread; the result is [migman_freed].  A message with the disconnect
    id is not put. *)
Fixpoint mm_msg_loop (fuel : nat) (self : Z) (migman_freed : Z) : M Z :=
  stop ← should_stop;
  if (stop : bool) then mret migman_freed else
  match fuel with
  | O => halt Running
  | Datatypes.S fuel =>
      err ← mm_wait_for_msg self;
      if err <? 0 then mret migman_freed else
      mm ← migman self; '(m, q) ← valid (tcmi_queue_remove (mm_queue mm));
      upd_migman self (mm_set_queue q);;
      match m with
      | None => mm_msg_loop fuel self migman_freed
      | Some m =>
          msg ← message m;
          if msg_id msg =? TCMI_DISCONNECT_MSG_ID then
            freed ← tcmi_migman_stop_perform self true; mm_msg_loop fuel self freed
          else ops_process_msg self m;; mm_msg_loop fuel self migman_freed
      end
  end.

Definition tcmi_migman_msg_thread (fuel : nat) (self : Z) : M Z :=
  migman_freed ← mm_msg_loop fuel self 0; when (migman_freed =? 0) wait_on_should_stop;; mret 0.
End migman.

(** ** Example nodes: process 42 runs as the guest 50 on another node *)

Definition ex_trans : world := mk_world (mk_slotvec [] 0 (Some 255) [] [] 1 false) ∅ 0.
Definition ex_task (local remote : Z) (mq : list Z) (sock : option Z) (c : tcmi_task_class) : tcmi_task :=
  mk_task local remote (Some 30) sock (mk_queue false mq 1 TCMI_QUEUE_STATIC 0) tcmi_queue_init (Some ex_trans)
    None None None None None 0 1 0 None None None 0 0 0 0 c.
Definition ex_migman : tcmi_migman :=
  mm_set_ref 2 (mm_set_tasks (mk_slotvec [] 0 (Some 511) [] [] 1 false) (blank_migman Ccnmigman)).
Definition ex_guest_node : kw seg_kernel :=
  set_socks (fun _ => {[7 := mk_seg [] [] []]}) (set_wraps (fun _ => {[2 := mk_wrapper (Some M_exit) (Some (le_bytes 8 3)) 1]})
    (set_tasks (fun _ => {[1 := ex_task 50 42 [] (Some 7) Guesttask]}) (empty_kw 100))).
Definition ex_proc : task_struct := mk_proc true (Some 1) shadow [] 0 [] None [].
Definition ex_home_node : kw seg_kernel :=
  mk_kw {[1 := ex_task 42 50 [2] None Shadowtask]} {[2 := mk_wrapper (Some M_process_msg) None 1]} ∅
    {[30 := ex_migman]} ∅ {[42 := ex_proc]} 42 ∅ 100 (fun _ => ex_ok) 0 [].

