(* ===== verification/TaskExec.v ===== *)
(** The execve context of a task: [tcmi_task_copy_strings] and [tcmi_task_prepare_execve]
    (src/src/tcmi/task/tcmi_task.c) lay out argument blocks that an execve reads back as the
    strings they were made from, and a failed preparation leaves no context behind. *)

From stdpp Require Import gmap.
From S2P Require Import Prelude Effect SlotVec Transaction KkcSock MsgId Messages Queue Msg NpmParams World Task.

(** The block of an array: pointers, NULL, strings. *)
Definition exec_image (base : Z) (ss : list (list Z)) : list Z :=
  ptrs base (8 * (zlen ss + 1)) ss ++ le_bytes 8 0 ++ strs ss.

Lemma strs_len_cons s ss : zlen (strs (s :: ss)) = zlen s + 1 + zlen (strs ss).
Proof. rewrite strs_cons, !zlen_app. change (zlen [0]) with 1. lia. Qed.

Lemma zlen_split (U : list Z) n : 0 <= n <= zlen U -> exists U1 U2, U = U1 ++ U2 /\ zlen U1 = n /\ zlen U2 = zlen U - n.
Proof.
  intros Hn. exists (ztake n U), (zdrop n U). rewrite ztake_zdrop, zlen_ztake, zlen_zdrop. split_and!; [done|lia|lia].
Qed.

Lemma copy_array_app base ss W U M V R :
  zlen U = 8 * (zlen ss + 1) -> zlen V = zlen (strs ss) ->
  copy_array base ss (zlen W) (zlen (W ++ U ++ M)) (W ++ U ++ M ++ V ++ R) =
  Some (W ++ ptrs base (zlen (W ++ U ++ M)) ss ++ le_bytes 8 0 ++ M ++ strs ss ++ R).
Proof.
  revert W U M V. induction ss as [|s ss IH]; intros W U M V HU HV; cbn [copy_array ptrs].
  - rewrite (poke_at _ W _ U); [|done|by rewrite zlen_le_bytes, HU].
    assert (V = []) as -> by (destruct V; [done|]; rewrite zlen_cons in HV; pose proof (zlen_nonneg V); change (zlen (strs [])) with 0 in HV; lia).
    done.
  - rewrite zlen_cons in HU. rewrite strs_len_cons in HV. pose proof (zlen_nonneg ss).
    pose proof (zlen_nonneg s). pose proof (zlen_nonneg (strs ss)).
    destruct (zlen_split U 8) as (U1 & U2 & -> & HU1 & HU2); [lia|].
    destruct (zlen_split V (zlen s + 1)) as (V1 & V2 & -> & HV1 & HV2); [lia|].
    set (pos := zlen (W ++ (U1 ++ U2) ++ M)).
    replace (W ++ (U1 ++ U2) ++ M ++ (V1 ++ V2) ++ R) with ((W ++ (U1 ++ U2) ++ M) ++ V1 ++ V2 ++ R) by apps.
    rewrite (poke_at _ _ _ V1); [|done|rewrite zlen_app; change (zlen [0]) with 1; lia].
    cbn [mbind option_bind].
    replace ((W ++ (U1 ++ U2) ++ M) ++ (s ++ [0]) ++ V2 ++ R)
      with (W ++ U1 ++ U2 ++ M ++ (s ++ [0]) ++ V2 ++ R) by apps.
    rewrite (poke_at _ W _ U1); [|done|rewrite zlen_le_bytes; lia]. cbn [mbind option_bind].
    specialize (IH (W ++ le_bytes 8 (base + pos)) U2 (M ++ s ++ [0]) V2).
    assert (zlen ((W ++ le_bytes 8 (base + pos)) ++ U2 ++ M ++ s ++ [0]) = pos + (zlen s + 1)) as Hp.
    { subst pos. rewrite !zlen_app, zlen_le_bytes. change (zlen [0]) with 1. lia. }
    rewrite Hp, zlen_app, zlen_le_bytes in IH.
    replace (W ++ le_bytes 8 (base + pos) ++ U2 ++ M ++ (s ++ [0]) ++ V2 ++ R)
      with ((W ++ le_bytes 8 (base + pos)) ++ U2 ++ (M ++ s ++ [0]) ++ V2 ++ R) by apps.
    change (zlen W + 8) with (zlen W + Z.of_nat 8). rewrite IH by lia. f_equal. rewrite strs_cons. by rewrite <- !app_assoc.
Qed.

Lemma copy_sizes_from ss len size :
  foldl (fun '(len, size) s => (u32[len + 1], u32[size + (zlen s + 1)])) (u32[len], u32[size]) ss
  = (u32[len + zlen ss], u32[size + zlen (strs ss)]).
Proof.
  revert len size. induction ss as [|s ss IH]; intros len size.
  - cbn [foldl]. change (zlen (strs [])) with 0. change (zlen (@nil (list Z))) with 0. by rewrite !Z.add_0_r.
  - cbn [foldl]. rewrite strs_len_cons, zlen_cons.
    replace (u32[u32[len] + 1]) with (u32[len + 1]) by (unfold uwrap; by rewrite Zplus_mod_idemp_l).
    replace (u32[u32[size] + (zlen s + 1)]) with (u32[size + (zlen s + 1)]) by (unfold uwrap; by rewrite Zplus_mod_idemp_l).
    rewrite IH. do 2 f_equal; lia.
Qed.

(** The conditions under which the sizes do not wrap. *)
Definition exec_fits (base : Z) (ss : list (list Z)) : Prop :=
  Forall is_cstring ss /\ 0 < base /\ image_size ss < 2 ^ 32 /\ base + image_size ss < 2 ^ 64.

Lemma copy_strings_image base mem ss :
  image_size ss < 2 ^ 32 -> (forall n, 0 <= n -> zlen (mem n) = n) ->
  tcmi_task_copy_strings (Some base) mem ss = Some (0, Some (base, exec_image base ss)).
Proof.
  intros Hs Hm. unfold image_size, reserve_array_length in Hs. unfold tcmi_task_copy_strings, copy_sizes.
  pose proof (zlen_nonneg ss). pose proof (zlen_nonneg (strs ss)).
  change (0, 0) with (u32[0], u32[0]). rewrite copy_sizes_from, !Z.add_0_l.
  assert (forall z, 0 <= z < 2 ^ 32 -> u32[z] = z) as Hw by (intros z Hz; by apply uwrap_id).
  rewrite (Hw (zlen ss)), (Hw (zlen (strs ss))), (Hw (zlen ss + 1)) by lia.
  specialize (Hm (8 * (zlen ss + 1) + zlen (strs ss)) ltac:(lia)).
  destruct (zlen_split (mem (8 * (zlen ss + 1) + zlen (strs ss))) (8 * (zlen ss + 1)))
    as (U & V & Hmem & HU & HV); [lia|]. rewrite Hmem.
  pose proof (copy_array_app base ss [] U [] V []) as Hc. rewrite !app_nil_r, !app_nil_l in Hc.
  change (zlen (@nil Z)) with 0 in Hc. rewrite HU in Hc. rewrite Hc by lia. done.
Qed.

Lemma exec_image_reads base ss :
  exec_fits base ss -> read_vec (Datatypes.S (length ss)) base (exec_image base ss) 0 = Some ss.
Proof.
  intros (Hss & Hb & H32 & H64). unfold image_size, reserve_array_length in *.
  pose proof (read_vec_ptrs base [] [] ss [] (8 * (zlen ss + 1))) as Hr.
  rewrite !app_nil_r in Hr. cbn [app] in Hr.
  change (zlen (@nil Z)) with 0 in Hr. apply Hr; try done.
  - rewrite !zlen_app, zlen_ptrs, zlen_le_bytes. lia.
  - rewrite !zlen_app, zlen_ptrs, zlen_le_bytes. lia.
Qed.

Section prepare.
Context {S : Type}.
Implicit Type w : kw S.

(** What a block holds. *)
Definition holds (o : option (Z * list Z)) (ss : list (list Z)) : Prop :=
  exists base d, o = Some (base, d) /\ read_vec (Datatypes.S (length ss)) base d 0 = Some ss.

Lemma wp_copy_strings_to ss Q G w :
  exec_fits (next w) ss ->
  (forall err o, (if a_ok (answers w (tick w)) then err = 0 /\ holds o ss else err = - EINVAL /\ o = None) ->
     Q (err, o) (set_next (next w + 1) (set_tick (Datatypes.S (tick w)) w))) ->
  wp (copy_strings_to ss) Q G w.
Proof.
  intros Hf HQ. unfold copy_strings_to. step. step. destruct (a_ok _).
  - eapply wp_valid; [apply copy_strings_image; [apply Hf|]|].
    + intros n Hn. rewrite zlen_app, zlen_ztake. unfold zlen at 2. rewrite length_replicate. pose proof (zlen_nonneg (a_bytes (answers w (tick w)))). lia.
    + apply HQ. split; [done|]. eexists _, _. split; [done|]. by apply exec_image_reads.
  - eapply wp_valid; [unfold tcmi_task_copy_strings; by destruct (copy_sizes ss)|]. by apply HQ.
Qed.

Definition exec_context (t : tcmi_task) := (ckpt_pathname t, argv t, t_envp t).

(** Preparing an execve succeeds exactly when its three allocations do.  Then the task has
    the name of the checkpoint and two blocks from which execve reads back the given argument
    and environment strings; after a failure no part of an execve context, old or new, is left,
    so a later execve cannot use freed memory. *)
Theorem prepare_execve_context (self : Z) (file : list Z) (argvs envs : list (list Z)) (t : tcmi_task) w :
  tasks w !! self = Some t -> exec_fits (next w) argvs -> exec_fits (next w + 1) envs ->
  let ok i := a_ok (answers w (tick w + i)) in
  wp (tcmi_task_prepare_execve self file argvs envs)
    (fun r w' => exists t', tasks w' !! self = Some t' /\
       if ok 0%nat && ok 1%nat && ok 2%nat
       then r = 0 /\ ckpt_pathname t' = Some file /\ holds (argv t') argvs /\ holds (t_envp t') envs
       else r = - ENOEXEC /\ exec_context t' = (None, None, None))
    (fun _ _ => False) w.
Proof.
  intros Ht Ha He ok. unfold tcmi_task_prepare_execve, tcmi_task_release_execve_context.
  apply wp_bind. do 3 step. step. 
  replace (a_ok (answers w (tick w))) with (ok 0%nat) by (unfold ok; by rewrite Nat.add_0_r).
  destruct (ok 0%nat) eqn:E0; cbn [negb andb].
  2: { step. eexists. split; [lk|done]. }
  step. apply wp_bind, wp_copy_strings_to; [exact Ha|]. proj. fold (ok 1%nat).
  replace (Datatypes.S (tick w)) with (tick w + 1)%nat by lia. fold (ok 1%nat).
  intros err o Ho. step. destruct (ok 1%nat) eqn:E1; cbn [andb].
  2: { destruct Ho as [-> ->]. change (- EINVAL <? 0) with true. cbv iota. do 2 step. eexists. split; [lk|done]. }
  destruct Ho as [-> Ho]. cbn [Z.ltb Z.compare].
  apply wp_bind, wp_copy_strings_to; [exact He|]. proj.
  replace (Datatypes.S (tick w + 1)) with (tick w + 2)%nat by lia. fold (ok 2%nat).
  intros err o' Ho'. step. destruct (ok 2%nat) eqn:E2.
  2: { destruct Ho' as [-> ->]. change (- EINVAL <? 0) with true. cbv iota. do 3 step. eexists. split; [lk|done]. }
  destruct Ho' as [-> Ho']. change (0 <? 0) with false. cbv iota. step. eexists. split; [lk|done].
Qed.
End prepare.

Definition ex_exec_world : kw unit := set_tasks (fun _ => {[1 := blank_task Shadowtask]}) (empty_kw 4096).

Lemma prepare_execve_context_witness :
  exists r w', tcmi_task_prepare_execve 1 [47; 99] [[97]; [98; 99]] [[80]] ex_exec_world = Ret r w' /\ r = 0 /\
    exists t', tasks w' !! 1 = Some t' /\ holds (argv t') [[97]; [98; 99]] /\ holds (t_envp t') [[80]].
Proof.
  pose proof (prepare_execve_context 1 [47; 99] [[97]; [98; 99]] [[80]] (blank_task Shadowtask) ex_exec_world) as Hp.
  unfold wp in Hp. destruct (tcmi_task_prepare_execve 1 [47; 99] [[97]; [98; 99]] [[80]] ex_exec_world) as [r w'| |] eqn:E.
  - exists r, w'. split; [reflexivity|]. destruct Hp as (t' & Ht & -> & _ & Ha & He).
    + reflexivity.
    + split_and!; [repeat constructor|done..].
    + split_and!; [repeat constructor|done..].
    + split; [reflexivity|]. exists t'. auto.
  - exfalso. vm_compute in E. discriminate E.
  - exfalso. vm_compute in E. discriminate E.
Defined.
