(* ===== verification/Delivery.v ===== *)
(** Delivery of process messages: from the receiving thread through the manager
    (tcmi_migman.c) to the queue of the task (tcmi_task.c), and what the task's process does
    with an exit message (tcmi_shadowtask.c, tcmi_migcom.c). *)

From stdpp Require Import gmap.
From S2P Require Import Prelude Effect SlotVec Transaction KkcSock MsgId Messages Queue Msg NpmParams World Task TaskOps Migcom Migman.

Lemma t_ref_back t : t_set_ref (t_ref t + 1 - 1) (t_set_ref (t_ref t + 1) t) = t.
Proof. unfold t_set_ref, t_with; cbn. replace (t_ref t + 1 - 1) with (t_ref t) by lia. by destruct t. Qed.

(** An unlocked queue with the given elements. *)
Definition unlocked (q : tcmi_queue) (l : list Z) : Prop := q_lock q = false /\ queue q = l.

Lemma queue_add_unlocked q l e : unlocked q l -> exists q', tcmi_queue_add q e = Some q' /\ unlocked q' (l ++ [e]).
Proof.
  intros [Hl Hq]. unfold tcmi_queue_add, tcmi_queue_lock. rewrite Hl. cbn. eexists. split; [done|]. split; cbn; by rewrite ?Hq.
Qed.
Lemma queue_remove_unlocked q e l :
  unlocked q (e :: l) -> exists q', tcmi_queue_remove q = Some (Some e, q') /\ unlocked q' l.
Proof.
  intros [Hl Hq]. unfold tcmi_queue_remove, tcmi_queue_lock. rewrite Hl. cbn.
  unfold __tcmi_queue_remove, tcmi_queue_empty. cbn. rewrite Hq. cbn. eexists. split; [done|]. by split.
Qed.

Section delivery.
Context {S : Type} `{Sock S}.
Implicit Type w : kw S.

Lemma kw_tasks_id w : set_tasks (fun _ => tasks w) w = w.
Proof. by destruct w. Qed.

(** ** References of tasks *)

Lemma wp_task_get p t Q G w :
  tasks w !! p = Some t -> Q (Some p) (set_tasks (insert p (t_set_ref (t_ref t + 1) t)) w) ->
  wp (tcmi_task_get (Some p)) Q G w.
Proof. intros Ht HQ. unfold tcmi_task_get. step. by step. Qed.

(** Dropping a reference that is not the last one. *)
Lemma wp_task_put_more free p t Q G w :
  tasks w !! p = Some t -> 1 < t_ref t -> Q tt (set_tasks (insert p (t_set_ref (t_ref t - 1) t)) w) ->
  wp (tcmi_task_put free (Some p)) Q G w.
Proof.
  intros Ht Hr HQ. unfold tcmi_task_put. do 2 step. replace (t_ref t - 1 =? 0) with false by lia. exact HQ.
Qed.

(** The process of a pid, if a task is attached to it. *)
Definition attached w (pid : Z) : option Z :=
  l ← procs w !! pid; if mig_mode_handler l then p_task l else None.

Lemma wp_find_by_pid pid Q G w :
  match attached w pid with
  | None => Q None w
  | Some p => exists t, tasks w !! p = Some t /\ Q (Some p) (set_tasks (insert p (t_set_ref (t_ref t + 1) t)) w)
  end ->
  wp (tcmi_taskhelper_find_by_pid pid) Q G w.
Proof.
  unfold attached, tcmi_taskhelper_find_by_pid. intros HQ. step. destruct (procs w !! pid) as [l|]; [|exact HQ].
  cbn in HQ. destruct (mig_mode_handler l); [|exact HQ]. destruct (p_task l) as [p|]; [|exact HQ].
  destruct HQ as (t & Ht & HQ). by eapply wp_task_get.
Qed.

Lemma set_tasks_ref w p t t' :
  set_tasks (insert p t') (set_tasks (insert p t) w) = set_tasks (insert p t') w.
Proof. unfold set_tasks; cbn. by rewrite insert_insert_eq. Qed.
Lemma set_tasks_same w p t : tasks w !! p = Some t -> set_tasks (insert p t) w = w.
Proof. intros Ht. unfold set_tasks. rewrite insert_id by done. by destruct w. Qed.

(** The message of a request is added to the queue. *)
Lemma deliver_request (a : Z) (m : tcmi_msg) q l (tw : world) :
  trans_resp m = 0 -> unlocked q l ->
  exists q', tcmi_msg_deliver a m q tw = Some (0, m, q', tw) /\ unlocked q' (l ++ [a]).
Proof.
  intros Hr Hq. destruct (queue_add_unlocked q l a Hq) as (q' & Ha & Hq'). exists q'. split; [|done].
  unfold tcmi_msg_deliver. rewrite Hr. cbn. by rewrite Ha.
Qed.

(** Delivery changes at most the transaction pointer of the message. *)
Lemma deliver_same_msg (a : Z) (m : tcmi_msg) q (tw : world) r m' q' tw' :
  tcmi_msg_deliver a m q tw = Some (r, m', q', tw') -> body m' = body m /\ msg_id m' = msg_id m.
Proof.
  unfold tcmi_msg_deliver. intros Hd.
  repeat (case_match || (apply bind_Some in Hd as (? & ? & Hd))); simplify_eq; done.
Qed.

(** What a manager may assume of a task attached to a process: the task is alive, belongs to
    the process and to a live manager, its transaction table exists and its queues are
    unlocked. *)
Record task_ready w (pid : Z) (p : Z) (t : tcmi_task) (mp : Z) (mm : tcmi_migman) (l : list Z) : Prop := {
  tr_task : tasks w !! p = Some t;
  tr_ref : 1 <= t_ref t;
  tr_pid : local_pid t = pid;
  tr_man : t_migman t = Some mp;
  tr_mm : mans w !! mp = Some mm;
  tr_trans : is_Some (t_trans t);
  tr_queue : unlocked (msg_queue t) l;
  tr_methods : q_lock (method_queue t) = false
}.

(** ** Submitting a method and entering the migration mode *)

Lemma wp_wrapper_new m data size Q G w :
  Q None (set_tick (Datatypes.S (tick w)) w) ->
  Q None (set_tick (Datatypes.S (Datatypes.S (tick w))) w) ->
  (forall d k, Q (Some (next w)) (set_wraps (insert (next w) (mk_wrapper m d 1)) (set_next (next w + 1) (set_tick k w)))) ->
  wp (tcmi_method_wrapper_new m data size) Q G w.
Proof.
  intros H0 H1 H2. unfold tcmi_method_wrapper_new. step. destruct (a_ok _); cbn [negb]; [|exact H0].
  destruct data as [d|]; [|step; step; apply H2].
  destruct (negb (size =? 0)); [|step; step; apply H2].
  step. destruct (a_ok _); cbn [negb]; [|exact H1]. step; step; apply H2.
Qed.

(** Worlds that differ in the allocation counters and wrappers only. *)
Definition same_but_wrappers w w' : Prop :=
  msgs w' = msgs w /\ mans w' = mans w /\ objs w' = objs w /\ procs w' = procs w /\ current w' = current w /\
  socks w' = socks w /\ log w' = log w.

Lemma wp_submit_method self t m data size Q G w :
  tasks w !! self = Some t -> q_lock (method_queue t) = false ->
  (forall w', same_but_wrappers w w' -> tasks w' = tasks w -> Q tt w') ->
  (forall w' q, same_but_wrappers w w' -> queue q <> [] ->
     tasks w' = <[self := t_set_method_queue q t]> (tasks w) -> Q tt w') ->
  wp (tcmi_task_submit_method self m data size) Q G w.
Proof.
  intros Ht Hl H0 H1. unfold tcmi_task_submit_method. apply wp_bind, wp_wrapper_new.
  - apply H0; repeat split.
  - apply H0; repeat split.
  - intros d k. unfold tcmi_task_add_wrapper. step.
    destruct (queue_add_unlocked (method_queue t) (queue (method_queue t)) (next w)) as (q' & Ha & [_ Hq']); [by split|].
    apply wp_bind. eapply wp_valid; [exact Ha|]. step. eapply H1; [repeat split| |done].
    rewrite Hq'. intros Hn. by apply app_eq_nil in Hn as [_ ?].
Qed.

Lemma wp_enter_mig_mode self t pid l Q G w :
  tasks w !! self = Some t -> local_pid t = pid -> procs w !! pid = Some l ->
  (forall l', SIGUNUSED ∈ (pending l').*1 -> Q tt (set_procs (insert pid l') w)) ->
  wp (tcmi_taskhelper_enter_mig_mode self) Q G w.
Proof.
  intros Ht <- Hl HQ. unfold tcmi_taskhelper_enter_mig_mode, tcmi_task_to_task_struct. do 2 step.
  rewrite Hl. step. unfold force_sig. step. apply HQ.
  destruct (bool_decide _) eqn:E; [by apply bool_decide_eq_true in E|]. cbn. rewrite fmap_app. apply elem_of_app. right.
  by apply list_elem_of_singleton.
Qed.

(** ** Delivery to a task *)

(** The effect of a delivery: without urgency only the task's queue grows; otherwise the process
    also has a signal pending that makes it process its methods. *)
Definition received (urgent : bool) w w' (pid p : Z) (t : tcmi_task) (l : list Z) (m : Z) : Prop :=
  if urgent then
    (forall p', p' <> p -> tasks w' !! p' = tasks w !! p') /\ msgs w' = msgs w /\ mans w' = mans w /\
    (exists t', tasks w' !! p = Some t' /\ unlocked (msg_queue t') (l ++ [m]) /\ t_ref t' = t_ref t) /\
    exists l', procs w' !! pid = Some l' /\ SIGUNUSED ∈ (pending l').*1
  else exists q, unlocked q (l ++ [m]) /\ w' = set_tasks (insert p (t_set_msg_queue q t)) w.

Lemma t_trans_back t tw q : t_trans t = Some tw -> t_set_msg_queue q (t_set_trans (Some tw) t) = t_set_msg_queue q t.
Proof. destruct t. cbn. by intros ->. Qed.
Lemma set_msgs_same w p m : msgs w !! p = Some m -> set_msgs (insert p m) w = w.
Proof. intros Hm. unfold set_msgs. rewrite insert_id by done. by destruct w. Qed.

(** What follows the delivery of a message that enforces the migration mode. *)
Definition urged w w' (pid : Z) : Prop :=
  msgs w' = msgs w /\ mans w' = mans w /\ exists l', procs w' !! pid = Some l' /\ SIGUNUSED ∈ (pending l').*1.

Lemma wp_after_delivery self m msg pid mig b t Q G w :
  tasks w !! self = Some t -> local_pid t = pid -> q_lock (method_queue t) = false ->
  msgs w !! m = Some msg -> body msg = B_proc pid mig b -> TCMI_MSG_GROUP (msg_id msg) = TCMI_MSG_GROUP_PROC ->
  is_Some (procs w !! pid) ->
  (forall w', (if mig =? 0 then w' = w else urged w w' pid /\ exists t', tasks w' = <[self := t']> (tasks w) /\
       msg_queue t' = msg_queue t /\ t_trans t' = t_trans t /\ t_ref t' = t_ref t) -> Q 0 w') ->
  wp (msg ← message m;
      (if (TCMI_MSG_GROUP (msg_id msg) =? TCMI_MSG_GROUP_PROC) && negb (tcmi_procmsg_enforce_migmode msg =? 0) then
         t ← task self;
         when (tcmi_queue_empty (method_queue t)) (tcmi_task_submit_method self M_process_msg (Some (le_bytes 4 0)) 4);;
         tcmi_taskhelper_enter_mig_mode self
       else mret tt);;
      mret 0) Q G w.
Proof.
  intros Ht Hpid Hml Hm Hb Hg [pr Hpr] HQ. step.
  rewrite Hg, Z.eqb_refl. unfold tcmi_procmsg_enforce_migmode. rewrite Hb. cbn [andb].
  destruct (mig =? 0); cbn [negb]; [do 2 step; by apply HQ|]. apply wp_bind. step.
  assert (Hend : forall w' t', procs w' = procs w -> msgs w' = msgs w -> mans w' = mans w ->
    tasks w' = <[self:=t']> (tasks w) -> msg_queue t' = msg_queue t -> t_trans t' = t_trans t -> t_ref t' = t_ref t ->
    local_pid t' = pid -> wp (tcmi_taskhelper_enter_mig_mode self) (fun _ => wp (mret 0) Q G) G w').
  { intros w' t' Hp1 Hm1 Hn1 Ht1 Hq1 Htr1 Hr1 Hp2. eapply (wp_enter_mig_mode _ t');
      [rewrite Ht1; lk|exact Hp2|by rewrite Hp1|].
    intros l' Hl'. step. apply HQ. split; [|by exists t']. proj. split_and!; [done|done|].
    eexists. split; [lk|done]. }
  apply wp_bind. destruct (tcmi_queue_empty (method_queue t)); cbn [when].
  - eapply wp_submit_method; [lk|exact Hml| |]; proj.
    + intros w' (? & ? & ? & ? & ?) Ht'. eapply (Hend _ t); try done. rewrite Ht'. by rewrite insert_id.
    + intros w' q2 (? & ? & ? & ? & ?) _ Ht'. by eapply (Hend _ (t_set_method_queue q2 t)).
  - step. eapply (Hend _ t); try done. by rewrite insert_id.
Qed.

Lemma wp_task_deliver self m msg pid mig b t mp mm l Q G w :
  task_ready w pid self t mp mm l -> msgs w !! m = Some msg -> body msg = B_proc pid mig b ->
  trans_resp msg = 0 -> TCMI_MSG_GROUP (msg_id msg) = TCMI_MSG_GROUP_PROC -> is_Some (procs w !! pid) ->
  (forall w', received (negb (mig =? 0)) w w' pid self t l m -> Q 0 w') ->
  wp (tcmi_task_deliver_msg self m) Q G w.
Proof.
  intros [Ht _ Hpid _ _ [tw Htw] Hq Hml] Hm Hb Hr Hg Hpr HQ.
  unfold tcmi_task_deliver_msg. do 2 step. apply wp_bind. eapply wp_valid; [exact Htw|].
  destruct (deliver_request m msg (msg_queue t) l tw Hr Hq) as (q' & Hd & Hq').
  apply wp_bind. eapply wp_valid; [exact Hd|]. cbv beta iota. step. rewrite set_msgs_same by done. step.
  rewrite t_trans_back by done. cbn [negb Z.eqb].
  eapply (wp_after_delivery self m msg pid mig b (t_set_msg_queue q' t)); try done; [lk|].
  intros w' Hw'. apply HQ. destruct (mig =? 0); cbn [negb received].
  - subst w'. by exists q'.
  - destruct Hw' as ((Hms & Hmn & Hu) & t' & Ht' & Hq1 & Htr1 & Hr1). rewrite Ht'. proj. split_and!; try done.
    + intros p' Hp'. by rewrite !lookup_insert_ne.
    + exists t'. by rewrite lookup_insert_eq, Hq1, Hr1.
Qed.

(** The task's table has exactly one transaction with the id the response names, and it runs. *)
Definition awaited (t : tcmi_task) (msg : tcmi_msg) (tp : Z) (tr : tcmi_transaction) : Prop :=
  exists tw o, t_trans t = Some tw /\ tinv (tw, o) /\ 0 <= trans_resp msg /\
    heap tw !! tp = Some tr /\ Transaction.id tr = trans_resp msg /\ state tr = TCMI_TRANSACTION_RUNNING /\
    forall p' t', heap tw !! p' = Some t' -> Transaction.id t' = trans_resp msg -> p' = tp.

(** The effect of a response: the transaction gets the message and is complete, or is aborted by a
    message of the wrong type; only an anonymous transaction queues the message as well. *)
Definition answered (urgent : bool) w w' (r pid p : Z) (t : tcmi_task) (l : list Z) (m : Z) (msg : tcmi_msg)
    (tp : Z) (tr : tcmi_transaction) : Prop :=
  let right_type := Transaction.resp_id tr =? TCMI_MSG_TYPE (msg_id msg) in
  r = (if right_type then 0 else - EINVAL) /\
  (forall p', p' <> p -> tasks w' !! p' = tasks w !! p') /\ mans w' = mans w /\
  (exists msg', msgs w' = <[m := msg']> (msgs w) /\ body msg' = body msg /\ transaction msg' = Some tp) /\
  (exists t' tw tw' tr', tasks w' !! p = Some t' /\ t_ref t' = t_ref t /\ t_trans t = Some tw /\ t_trans t' = Some tw' /\
     (forall p', p' <> tp -> heap tw' !! p' = heap tw !! p') /\ heap tw' !! tp = Some tr' /\
     state tr' = (if right_type then TCMI_TRANSACTION_COMPLETE else TCMI_TRANSACTION_ABORTED) /\
     (right_type = true -> context tr' = Some m) /\
     queue (msg_queue t') = l ++ (if right_type && tcmi_transaction_is_anon tr then [m] else [])) /\
  if right_type && urgent then exists l', procs w' !! pid = Some l' /\ SIGUNUSED ∈ (pending l').*1
  else procs w' = procs w.

Lemma wp_task_answer self m msg pid mig b t mp mm l tp tr Q G w :
  task_ready w pid self t mp mm l -> msgs w !! m = Some msg -> body msg = B_proc pid mig b ->
  trans_resp msg <> 0 -> awaited t msg tp tr -> TCMI_MSG_GROUP (msg_id msg) = TCMI_MSG_GROUP_PROC ->
  is_Some (procs w !! pid) ->
  (forall r w', answered (negb (mig =? 0)) w w' r pid self t l m msg tp tr -> Q r w') ->
  wp (tcmi_task_deliver_msg self m) Q G w.
Proof.
  intros [Ht _ Hpid _ _ _ [Hql Hq] Hml] Hm Hb Hr (tw & o & Htw & Hinv & Hpos & Hp & Hid & Hrun & Huniq) Hg Hpr HQ.
  unfold tcmi_task_deliver_msg. do 2 step. apply wp_bind. eapply wp_valid; [exact Htw|].
  destruct (deliver_found m msg (msg_queue t) tw o tp tr) as (r & msg' & q' & tw' & tr' & Hd & Htr & _ & Hp' & Hoth & Hres); try done.
  { apply lookup_unique; try done. apply Hinv. }
  pose proof (deliver_same_msg _ _ _ _ _ _ _ _ Hd) as [Hb' Hid'].
  apply wp_bind. eapply wp_valid; [exact Hd|]. cbv beta iota. step. step.
  unfold answered in HQ. destruct (Transaction.resp_id tr =? TCMI_MSG_TYPE (msg_id msg)); cbn [andb negb] in *.
  - destruct Hres as (-> & Hst & Hctx & Hqq). cbn [negb Z.eqb].
    eapply (wp_after_delivery self m msg' pid mig b (t_set_msg_queue q' (t_set_trans (Some tw') t))); try done;
      [lk|lk|by rewrite Hb'|by rewrite Hid'|].
    intros w' Hw'. apply HQ. rewrite <- Hq, <- Hqq. destruct (mig =? 0); cbn [negb].
    + subst w'. proj. split_and!; try done.
      * intros p' Hne. by rewrite lookup_insert_ne.
      * by exists msg'.
      * exists (t_set_msg_queue q' (t_set_trans (Some tw') t)), tw, tw', tr'. split_and!; try done; lk.
    + destruct Hw' as ((Hms & Hmn & Hu) & t' & Ht' & Hq1 & Htr1 & Hr1). rewrite Ht', Hms, Hmn. proj. split_and!; try done.
      * intros p' Hne. by rewrite !lookup_insert_ne.
      * by exists msg'.
      * exists t', tw, tw', tr'. rewrite lookup_insert_eq. rewrite Hq1, Htr1, Hr1. split_and!; try done.
  - destruct Hres as (-> & Hst & ->). change (negb (- EINVAL =? 0)) with true. cbv iota. step. apply HQ. proj. split_and!; try done.
    + intros p' Hne. by rewrite lookup_insert_ne.
    + by exists msg'.
    + exists (t_set_msg_queue (msg_queue t) (t_set_trans (Some tw') t)), tw, tw', tr'. split_and!; try done; [lk|].
      cbn. by rewrite Hq, app_nil_r.
Qed.

(** C24: A process message that arrives on a manager's connection reaches the task of the
    process it names, if that task belongs to this very manager.  A message that is not a response
    is appended to the task's queue.  A response completes the running transaction of the task
    that has its id, with the message as its result, or aborts it when the type is not the one it
    waits for; the queue gets the message too only if the transaction is anonymous.  No reference
    of the task changes, and a delivered message that enforces the migration mode leaves the
    process with the signal pending that makes it process its methods.  A message for a process that
    has no task, or whose task belongs to another manager, is refused and the state is as before.
    Of a response it is assumed that its transaction is still running. *)
Theorem migman_delivers_to_own_tasks (self m pid mig : Z) (b : proc_body) (msg : tcmi_msg) (mm : tcmi_migman) w :
  msgs w !! m = Some msg -> body msg = B_proc pid mig b ->
  TCMI_MSG_GROUP (msg_id msg) = TCMI_MSG_GROUP_PROC -> mans w !! self = Some mm ->
  (forall p, attached w pid = Some p -> exists t mp mm' l, task_ready w pid p t mp mm' l /\
     (trans_resp msg <> 0 -> exists tp tr, awaited t msg tp tr)) ->
  wp (tcmi_migman_deliver_msg self m)
    (fun r w' =>
       match attached w pid with
       | None => r = - EINVAL /\ w' = w
       | Some p => exists t mp mm' l, task_ready w pid p t mp mm' l /\
           if mm_id mm' =? mm_id mm then
             if trans_resp msg =? 0 then r = 0 /\ received (negb (mig =? 0)) w w' pid p t l m
             else exists tp tr, awaited t msg tp tr /\ answered (negb (mig =? 0)) w w' r pid p t l m msg tp tr
           else r = - EINVAL /\ w' = w
       end)
    (fun _ _ => False) w.
Proof.
  intros Hm Hb Hg Hmm Hrd. unfold tcmi_migman_deliver_msg. step. rewrite Hg, Hb. cbn [Z.eqb TCMI_MSG_GROUP_PROC Pos.eqb].
  apply wp_bind, wp_find_by_pid. destruct (attached w pid) as [p|] eqn:Ea; [|by step].
  destruct (Hrd p eq_refl) as (t & mp & mm' & l & Hrdy & Haw). destruct Hrdy as [Ht Href Hpid Hman Hmm' Htr Hq Hml].
  exists t. split; [done|].
  apply wp_bind. unfold tcmi_task_migman_id. step. cbn [t_migman t_set_ref t_with]. rewrite Hman. do 2 step. step.
  assert (Hrdy : task_ready w pid p t mp mm' l) by done.
  assert (Hpr : is_Some (procs w !! pid)).
  { unfold attached in Ea. destruct (procs w !! pid) eqn:E; [by eexists|done]. }
  destruct (mm_id mm' =? mm_id mm) eqn:Eid; cbn [negb].
  - apply wp_bind. destruct (trans_resp msg =? 0) eqn:Er.
    + eapply (wp_task_deliver p m msg pid mig b (t_set_ref (t_ref t + 1) t) mp mm' l); try done; [|by apply Z.eqb_eq in Er|].
      { split; try done; [lk|cbn; lia]. }
      intros w' Hrec. apply wp_bind. destruct (negb (mig =? 0)); cbn [received] in Hrec.
      * destruct Hrec as (Ho & Hms & Hmn & (t' & Ht' & Hq' & Hr') & Hu).
        eapply wp_task_put_more; [exact Ht'|rewrite Hr'; cbn; lia|]. step.
        exists t, mp, mm', l. rewrite Eid. split; [done|]. split; [done|].
        split_and!; [|done|done| |done].
        -- intros p' Hp'. proj. rewrite lookup_insert_ne by done. rewrite Ho by done. proj. by rewrite lookup_insert_ne.
        -- eexists. split; [lk|]. cbn [msg_queue t_set_ref t_with t_ref]. split; [done|]. rewrite Hr'. cbn. lia.
      * destruct Hrec as (q & Hq' & ->). eapply wp_task_put_more; [lk|cbn; lia|]. step.
        exists t, mp, mm', l. rewrite Eid. split; [done|]. split; [done|]. exists q. split; [done|].
        rewrite !set_tasks_ref. do 2 f_equal. cbn. unfold t_set_ref, t_set_msg_queue, t_with. cbn.
        f_equal. lia.
    + apply Z.eqb_neq in Er. destruct (Haw Er) as (tp & tr & Hawt).
      eapply (wp_task_answer p m msg pid mig b (t_set_ref (t_ref t + 1) t) mp mm' l tp tr); try done.
      { split; try done; [lk|cbn; lia]. }
      intros r w' (Hr & Ho & Hmn & Hms & (t' & tw & tw' & tr' & Ht' & Hr' & Hans) & Hu).
      apply wp_bind. eapply wp_task_put_more; [exact Ht'|rewrite Hr'; cbn; lia|]. step.
      exists t, mp, mm', l. rewrite Eid. split; [done|]. exists tp, tr. split; [done|]. split_and!; try done.
      * intros p' Hp'. proj. rewrite lookup_insert_ne by done. rewrite Ho by done. proj. by rewrite lookup_insert_ne.
      * eexists _, tw, tw', tr'. split; [lk|]. split; [rewrite Hr'; cbn; lia|exact Hans].
  - apply wp_bind. eapply wp_task_put_more; [lk|cbn; lia|]. step.
    exists t, mp, mm', l. rewrite Eid. split; [done|]. split; [done|].
    cbn [t_ref t_set_ref t_with]. rewrite set_tasks_ref. fold (t_set_ref (t_ref t + 1) t).
    change (set_tasks (insert p (t_set_ref (t_ref t + 1 - 1) (t_set_ref (t_ref t + 1) t))) w = w).
    rewrite t_ref_back. by apply set_tasks_same.
Qed.
End delivery.

Definition ex_deliver_node : kw seg_kernel :=
  set_msgs (fun _ => {[100 := mk_msg TCMI_EXIT_PROCMSG_ID 0 0 None 1 (B_proc 42 0 (P_exit 3))]}) ex_home_node.

Lemma migman_delivers_to_own_tasks_witness :
  exists r w', tcmi_migman_deliver_msg 30 100 ex_deliver_node = Ret r w' /\ r = 0 /\
    received false ex_deliver_node w' 42 1 (ex_task 42 50 [2] None Shadowtask) [] 100.
Proof.
  pose proof (migman_delivers_to_own_tasks 30 100 42 0 (P_exit 3)
    (mk_msg TCMI_EXIT_PROCMSG_ID 0 0 None 1 (B_proc 42 0 (P_exit 3))) ex_migman ex_deliver_node) as Hd.
  unfold wp in Hd. destruct (tcmi_migman_deliver_msg 30 100 ex_deliver_node) as [r w'|? ?|] eqn:E.
  - exists r, w'. split; [reflexivity|].
    change (attached ex_deliver_node 42) with (Some 1) in Hd. cbn iota in Hd.
    assert (Hready : task_ready ex_deliver_node 42 1 (ex_task 42 50 [2] None Shadowtask) 30 ex_migman []).
    { split; try reflexivity; [by eexists|by split]. }
    destruct Hd as (t & mp & mm' & l & [Ht _ _ Hmp Hmm _ Hq _] & Hres); try reflexivity.
    { intros p [= <-]. eexists _, _, _, _. split; [exact Hready|done]. }
    change (Some (ex_task 42 50 [2] None Shadowtask) = Some t) in Ht. injection Ht as <-.
    change (Some 30 = Some mp) in Hmp. injection Hmp as <-.
    change (Some ex_migman = Some mm') in Hmm. injection Hmm as <-.
    destruct Hq as [_ Hq]. change ([] = l) in Hq. subst l. exact Hres.
  - exfalso. vm_compute in E. discriminate E.
  - exfalso. vm_compute in E. discriminate E.
Defined.
