(* ===== verification/TaskLife.v ===== *)
(** The life of a task: references of the objects a task owns, its destruction
    ([tcmi_task_put], src/src/tcmi/task/tcmi_task.c) and the end of a migrated process
    (tcmi_guesttask.c, tcmi_shadowtask.c, tcmi_migcom.c). *)

From stdpp Require Import gmap.
From S2P Require Import Prelude Effect SlotVec Transaction KkcSock MsgId Messages Queue Msg NpmParams World Task TaskOps Migcom Migman Delivery.

Section life.
Context {S : Type} `{Sock S}.
Implicit Type w : kw S.

(** ** Owned objects *)

Definition occ (p : Z) (os : list (option Z)) : Z := zlen (List.filter (fun o => bool_decide (o = Some p)) os).

(** Each pointer of the list holds a reference of its own. *)
Definition owns w (os : list (option Z)) : Prop :=
  forall p, 0 < occ p os -> exists n, objs w !! p = Some n /\ occ p os <= n.

Lemma occ_cons p o os : occ p (o :: os) = (if bool_decide (o = Some p) then 1 else 0) + occ p os.
Proof. unfold occ. cbn. case_bool_decide; cbn; rewrite ?zlen_cons; lia. Qed.
Lemma occ_nonneg p os : 0 <= occ p os.
Proof. apply zlen_nonneg. Qed.

(** Worlds that differ in objects and in what was logged. *)
Definition same_but_objs w w' : Prop :=
  tasks w' = tasks w /\ wraps w' = wraps w /\ msgs w' = msgs w /\ mans w' = mans w /\ procs w' = procs w /\
  current w' = current w /\ socks w' = socks w.

Lemma wp_obj_put o os Q G w :
  owns w (o :: os) ->
  (forall w', same_but_objs w w' -> owns w' os -> Q tt w') -> wp (obj_put o) Q G w.
Proof.
  intros Ho HQ. destruct o as [p|]; cbn [obj_put].
  2: { apply HQ; [done|]. intros p Hp. specialize (Ho p). rewrite occ_cons in Ho. apply Ho. done. }
  assert (Hp : 0 < occ p (Some p :: os)).
  { rewrite occ_cons, bool_decide_eq_true_2 by done. pose proof (occ_nonneg p os). lia. }
  destruct (Ho p Hp) as (n & Hn & Hle). rewrite occ_cons, bool_decide_eq_true_2 in Hle by done.
  pose proof (occ_nonneg p os). step. apply wp_bind. eapply wp_valid; [exact Hn|].
  assert (Hq : forall q, q <> p -> 0 < occ q os -> exists k, objs w !! q = Some k /\ occ q os <= k).
  { intros q Hq Hpos. specialize (Ho q). rewrite occ_cons, bool_decide_eq_false_2 in Ho by congruence. by apply Ho. }
  destruct (n - 1 =? 0) eqn:E.
  - do 2 step. apply HQ; [done|]. intros q Hpos. proj. destruct (decide (q = p)) as [->|Hne]; [lia|].
    rewrite lookup_delete_ne by done. by apply Hq.
  - step. apply HQ; [done|]. intros q Hpos. proj. destruct (decide (q = p)) as [->|Hne].
    + exists (n - 1). rewrite lookup_insert_eq. split; [done|lia].
    + rewrite lookup_insert_ne by done. by apply Hq.
Qed.

Lemma owns_log w e os : owns w os -> owns (set_log e w) os.
Proof. done. Qed.
Lemma owns_eq w w' os : objs w' = objs w -> owns w os -> owns w' os.
Proof. unfold owns. by intros ->. Qed.

(** ** Destruction of a task *)

(** The objects of a task. *)
Definition task_objs (t : tcmi_task) : list (option Z) :=
  [t_sock t; f_remote_pid t; s_migman t; d_task t; f_remote_pid_rev t].

Lemma slot_remove_total o n v : exists v', tcmi_slot_remove o n v = Some v'.
Proof. unfold tcmi_slot_remove, tcmi_slot_lock. destruct o; [|eauto]. destruct (s_lock v); cbn; eauto. Qed.

Lemma wp_remove_task p tsk t mm mask Q G w :
  mans w !! p = Some mm -> tasks w !! tsk = Some t -> hashmsk (mm_tasks mm) = Some mask ->
  (forall r w' mm', tasks w' = tasks w -> msgs w' = msgs w -> procs w' = procs w -> current w' = current w ->
     mans w' = <[p := mm']> (mans w) -> mm_ref mm' = mm_ref mm -> Q r w') ->
  wp (tcmi_migman_remove_task (Some p) tsk) Q G w.
Proof.
  intros Hm Ht Hh HQ. unfold tcmi_migman_remove_task. step. do 2 step. apply wp_bind. eapply wp_valid; [exact Hh|].
  destruct (tcmi_slotvec_at _ _) as [i|].
  - destruct (slot_remove_total (Some i) tsk (mm_tasks mm)) as [v' Hv]. apply wp_bind. eapply wp_valid; [exact Hv|].
    do 2 step. by eapply HQ.
  - step. eapply (HQ _ _ mm); try done. by rewrite insert_id.
Qed.

Lemma wp_migman_put_more free p mm Q G w :
  mans w !! p = Some mm -> 1 < mm_ref mm -> Q 0 (set_mans (insert p (mm_set_ref (mm_ref mm - 1) mm)) w) ->
  wp (tcmi_migman_put free (Some p)) Q G w.
Proof.
  intros Hm Hr HQ. unfold tcmi_migman_put. do 2 step. replace (mm_ref mm - 1 =? 0) with false by lia. by step.
Qed.

(** The manager of a task, which keeps a reference of its own. *)
Definition has_manager w (t : tcmi_task) : Prop :=
  exists mp mm mask, t_migman t = Some mp /\ mans w !! mp = Some mm /\
    hashmsk (mm_tasks mm) = Some mask /\ 1 < mm_ref mm.

Record destroyable w (t : tcmi_task) : Prop := {
  ds_objs : owns w (task_objs t);
  ds_msgs : queue (msg_queue t) = [];
  ds_methods : queue (method_queue t) = [];
  ds_man : has_manager w t
}.

Lemma wp_task_destroy free self t Q G w :
  tasks w !! self = Some t -> destroyable w t ->
  (forall w', tasks w' = delete self (tasks w) -> msgs w' = msgs w -> procs w' = procs w ->
     current w' = current w -> Q tt w') ->
  wp (task_destroy free self) Q G w.
Proof.
  intros Ht [Ho Hg Hq (mp & mm & mask & Hmp & Hmm & Hmask & Hmr)] HQ. unfold task_destroy. step.
  apply wp_bind. eapply wp_obj_put; [exact Ho|]. clear Ho. intros w1 (T1 & _ & M1 & N1 & P1 & C1 & _) Ho. step.
  do 4 (apply wp_bind; eapply wp_obj_put; [exact Ho|]; clear Ho;
        let w := fresh "w" in intros w (? & _ & ? & ? & ? & ? & _) Ho; proj).
  cbn [tasks msgs mans procs current set_log] in *.
  assert (Hte : tasks w4 !! self = Some t) by congruence.
  do 2 step. cbn [msg_queue t_set_trans t_with]. rewrite Hg. cbn [length drain_msgs]. do 2 step.
  cbn [method_queue t_set_trans t_with]. rewrite Hq. cbn [length drain_methods]. step.
  unfold tcmi_task_release_execve_context. apply wp_bind. do 3 step.
  apply wp_bind. cbn [t_migman t_set_trans t_with]. rewrite Hmp.
  eapply (wp_remove_task mp self _ mm mask); [proj; congruence|lk|exact Hmask|]. proj.
  intros r w5 mm' HT HM HP HC HN HR. apply wp_bind.
  eapply wp_migman_put_more; [rewrite HN; lk|lia|]. step. apply HQ; proj; try congruence.
  rewrite HT, !delete_insert_eq. congruence.
Qed.

Lemma destroyable_ref w t n f : destroyable w t -> destroyable (set_tasks f w) (t_set_ref n t).
Proof. intros [? ? ? ?]. by split. Qed.

(** Dropping a reference, the last one included. *)
Lemma wp_task_put free self t Q G w :
  tasks w !! self = Some t -> (t_ref t = 1 -> destroyable w t) ->
  (forall w', msgs w' = msgs w -> procs w' = procs w -> current w' = current w ->
     (forall p, p <> self -> tasks w' !! p = tasks w !! p) ->
     tasks w' !! self = (if t_ref t =? 1 then None else Some (t_set_ref (t_ref t - 1) t)) -> Q tt w') ->
  wp (tcmi_task_put free (Some self)) Q G w.
Proof.
  intros Ht Hd HQ. unfold tcmi_task_put. do 2 step. destruct (t_ref t =? 1) eqn:E.
  - replace (t_ref t - 1 =? 0) with true by lia. cbn [when].
    eapply wp_task_destroy; [lk|apply destroyable_ref, Hd; lia|]. proj. rewrite delete_insert_eq. intros w' HT HM HP HC.
    apply HQ; try done; rewrite HT; [|by rewrite lookup_delete_eq]. intros p Hp. by rewrite lookup_delete_ne.
  - replace (t_ref t - 1 =? 0) with false by lia. cbn [when]. step. apply HQ; try done; proj; [|by rewrite lookup_insert_eq].
    intros p Hp. by rewrite lookup_insert_ne.
Qed.

(** ** The end of a migrated process *)

Context (HZ : Z).
Context (shadow_rpc : Z -> Z -> eff (kw S) (option Z)).
Abbreviation tops := (task_ops_of HZ tcmi_migman_free shadow_rpc).

(** The exit message of a guest. *)
Definition exit_msg (dst code : Z) : tcmi_msg :=
  mk_msg TCMI_EXIT_PROCMSG_ID 0 0 None 1 (B_proc dst 0 (P_exit code)).

(** A shadow whose process is in migration mode and waits for messages. *)
Record shadow_waits w (pid p wr : Z) (l : task_struct) (t : tcmi_task) : Prop := {
  sw_current : current w = pid;
  sw_proc : procs w !! pid = Some l;
  sw_task : p_task l = Some p;
  sw_pending : pending l = [];
  sw_tasks : tasks w !! p = Some t;
  sw_ops : ops t = Shadowtask;
  sw_methods : unlocked (method_queue t) [wr];
  sw_wrapper : wraps w !! wr = Some (mk_wrapper (Some M_process_msg) None 1)
}.

Lemma unlink_objs wr t : task_objs (unlink_wrapper wr t) = task_objs t.
Proof. done. Qed.

(** The pump takes the exit message, stores the code and asks to be killed. *)
Lemma wp_pump_exit fuel w pid p wr l t m dst code Q G :
  shadow_waits w pid p wr l t -> unlocked (msg_queue t) [m] -> msgs w !! m = Some (exit_msg dst code) ->
  (forall w' t', procs w' = procs w -> current w' = current w -> mans w' = mans w -> objs w' = objs w ->
     tasks w' !! p = Some t' -> exit_code t' = code -> t_ref t' = t_ref t -> t_migman t' = t_migman t ->
     task_objs t' = task_objs t -> queue (msg_queue t') = [] -> queue (method_queue t') = [] ->
     Q TCMI_TASK_KILL_ME w') ->
  wp (pump tops (run_other (S := S)) (Datatypes.S fuel) p TCMI_TASK_KEEP_PUMPING) Q G w.
Proof.
  intros [Hc Hl Htask Hpend Ht Hops [Hql Hq] Hwr] Hmq Hm HQ. cbn [pump]. step.
  unfold tcmi_queue_empty. rewrite Hq. cbn [orb negb Z.eqb TCMI_TASK_KEEP_PUMPING].
  unfold tcmi_taskhelper_do_signals. apply wp_bind. step. rewrite Hc. step. rewrite Hpend. step.
  cbn [negb Z.eqb TCMI_TASK_KEEP_PUMPING]. step.
  destruct (queue_remove_unlocked _ wr [] (conj Hql Hq)) as (q' & Hr & Hq'). apply wp_bind. eapply wp_valid; [exact Hr|].
  cbv beta iota. step. unfold tcmi_method_wrapper_call. apply wp_bind. step. cbn [method run_method].
  unfold tcmi_task_process_msg, tcmi_method_wrapper_data. apply wp_bind. step. step. cbn [wr_data].
  step. cbn [Z.eqb andb]. apply wp_bind. unfold wait_for_msg. step.
  unfold tcmi_queue_wait_on_empty_interruptible, tcmi_queue_empty. cbn [msg_queue t_set_method_queue t_with].
  destruct Hmq as [Hml Hmq]. rewrite Hmq. cbn [negb]. step. cbn [Z.ltb Z.compare]. step.
  cbn [msg_queue t_set_method_queue t_with].
  destruct (queue_remove_unlocked _ m [] (conj Hml Hmq)) as (q2 & Hr2 & Hq2). apply wp_bind. eapply wp_valid; [exact Hr2|].
  cbv beta iota. step. apply wp_bind. unfold task_ops. step. step. cbn [ops t_set_msg_queue t_set_method_queue t_with].
  rewrite Hops. cbn [task_ops_of shadowtask_ops o_process_msg]. unfold tcmi_shadowtask_process_msg. apply wp_bind. step.
  cbn [msg_id exit_msg body]. change (TCMI_EXIT_PROCMSG_ID =? TCMI_RPC_PROCMSG_ID) with false.
  change (TCMI_EXIT_PROCMSG_ID =? TCMI_EXIT_PROCMSG_ID) with true. cbv iota.
  unfold tcmi_task_set_exit_code. step. step. apply wp_bind. unfold msg_put. step. cbn [m_ref exit_msg].
  change (1 - 1 =? 0) with true. cbv iota. cbn [transaction exit_msg]. do 2 step.
  unfold process_msg_exit0. change (TCMI_TASK_KILL_ME =? TCMI_TASK_KEEP_PUMPING) with false. cbn [when]. do 2 step.
  change (TCMI_TASK_KILL_ME =? TCMI_TASK_EXECVE_FAILED_KILL_ME) with false. cbn [negb when].
  unfold tcmi_method_wrapper_put. apply wp_bind. step. cbn [wr_ref]. change (1 - 1 =? 0) with true. cbv iota. do 2 step.
  assert (Hfin : forall f w' t', tasks w' !! p = Some t' -> Q TCMI_TASK_KILL_ME w' ->
    wp (pump tops (run_other (S := S)) f p TCMI_TASK_KILL_ME) Q G w').
  { intros f w' t' Ht' HQ'. destruct f; cbn [pump]; step; rewrite orb_true_r; by step. }
  eapply Hfin; proj; [rewrite lookup_fmap; lk|].
  eapply HQ; [done|done|done|done|proj; rewrite lookup_fmap; simplify_map_eq; reflexivity|done|done|done|done| |].
  - cbn. by destruct Hq2 as [_ ->].
  - cbn. by destruct Hq' as [_ ->].
Qed.

(** A guest that can send to its home node. *)
Record guest_up w (g : Z) (t : tcmi_task) (sa : Z) (s : S) : Prop := {
  gu_task : tasks w !! g = Some t;
  gu_ops : ops t = Guesttask;
  gu_sock : t_sock t = Some sa;
  gu_conn : socks w !! sa = Some s;
  gu_up : sk_up s;
  gu_trans : is_Some (t_trans t);
  gu_pid : srange 32 (remote_pid t)
}.

Lemma exit_msg_new e dst code tw :
  e_msg e = true -> tcmi_exit_procmsg_new_tx e dst code tw = Some (Some (exit_msg dst code), tw).
Proof. intros He. unfold tcmi_exit_procmsg_new_tx. by rewrite He. Qed.

(** The exit method of a guest sends one exit message and leaves no message behind. *)
Lemma wp_guest_exit w g t sa s wr code n Q G :
  guest_up w g t sa s -> wraps w !! wr = Some (mk_wrapper (Some M_exit) (Some (le_bytes 8 code)) n) ->
  srange 64 code -> e_msg (a_env (answers w (tick w))) = true -> a_num (answers w (Datatypes.S (tick w))) = 0 ->
  (forall w' s', socks w' = <[sa := s']> (socks w) -> sk_up s' ->
     sk_sent s' = sk_sent s ++ frame (exit_msg (remote_pid t) s32[code]) -> sk_pending s' = sk_pending s ->
     msgs w' = delete (next w) (msgs w) -> Q TCMI_TASK_REMOVE_AND_LET_ME_GO w') ->
  wp (tcmi_task_exit tops g wr) Q G w.
Proof.
  intros [Ht Hops Hsa Hs Hup [tw Htw] Hpid] Hwr Hc Hm Hlock HQ. unfold tcmi_task_exit, tcmi_method_wrapper_data.
  apply wp_bind. do 2 step. cbn [wr_data]. apply wp_bind. unfold task_ops. do 2 step. rewrite Hops.
  cbn [task_ops_of guesttask_ops o_exit]. rewrite ztake_all by (rewrite zlen_le_bytes; lia).
  rewrite le_value_le_bytes. change (2 ^ (8 * Z.of_nat 8)) with (2 ^ 64).
  change (code mod 2 ^ 64) with u64[code]. rewrite swrap_uwrap, (swrap_id 64) by (done || lia).
  unfold tcmi_guesttask_exit. step. apply wp_bind.
  assert (Hnew : forall w1, tasks w1 = tasks w -> answers w1 = answers w -> tick w1 = tick w -> next w1 = next w ->
    msgs w1 = msgs w -> socks w1 = socks w ->
    wp (m ← new_msg g (fun e => tcmi_exit_procmsg_new_tx e (remote_pid t) s32[code]);
        match m with
        | Some m0 => tcmi_task_send_anonymous_msg g m0;; msg_put g (Some m0);; mret TCMI_TASK_REMOVE_AND_LET_ME_GO
        | None => mret TCMI_TASK_REMOVE_AND_LET_ME_GO
        end) Q G w1).
  { intros w1 HT HA HK HN HM HS. apply wp_bind. unfold new_msg. step. rewrite HA, HK.
    eapply wp_bind, wp_task; [proj; by rewrite HT|]. apply wp_bind. eapply wp_valid; [exact Htw|].
    apply wp_bind. eapply wp_valid; [by apply exit_msg_new|]. cbv beta iota.
    eapply wp_bind, wp_upd_task; [proj; by rewrite HT|]. do 3 step.
    unfold tcmi_task_send_anonymous_msg. apply wp_bind. step. cbn [t_sock t_set_trans t_with]. rewrite Hsa.
    unfold msg_send_on. do 5 step. rewrite HS. apply wp_bind. eapply wp_valid; [exact Hs|]. step.
    rewrite HA, Hlock.
    destruct (send_frame (exit_msg (remote_pid t) s32[code]) tw s (fun _ _ => true) TCMI_TRANS_FLAGS_ANONYMOUS tw)
      as (s' & Hsend & Hup' & Hsent & Hpend); [|done|done|].
    { cbn. split_and!; [done|by split|apply swrap_range; lia]. }
    apply wp_bind. eapply wp_valid; [exact Hsend|]. cbv beta iota. do 3 step.
    apply wp_bind. unfold msg_put. rewrite HN. step. cbn [m_ref exit_msg]. change (1 - 1 =? 0) with true. cbv iota.
    cbn [transaction exit_msg]. do 3 step. eapply HQ; proj; try done; [by rewrite HS|].
    rewrite HM. by rewrite delete_insert_eq. }
  destruct (peer_lost t =? 0); cbn [when]; step; apply Hnew; done.
Qed.

(** The handler of the shadow's process ends the process with the code of the message. *)
Lemma wp_handler_exit moves fuel w pid p wr l t m dst code :
  shadow_waits w pid p wr l t -> unlocked (msg_queue t) [m] -> msgs w !! m = Some (exit_msg dst code) ->
  (t_ref t = 1 -> owns w (task_objs t) /\ has_manager w t) ->
  wp (tcmi_migcom_mig_mode_handler HZ tcmi_migman_free shadow_rpc moves (Datatypes.S fuel))
    (fun _ _ => False) (fun s w' => s = Gone /\ last (log w') = Some (E_exit code)) w.
Proof.
  intros Hsw Hq Hm Hd. pose proof Hsw as [Hc Hl Htask Hpend Ht Hops Hmq Hwr].
  unfold tcmi_migcom_mig_mode_handler, tcmi_taskhelper_sanity_check. apply wp_bind. step. rewrite Hc. step. rewrite Htask.
  unfold tcmi_task_picked_up. apply wp_bind. do 2 step. apply wp_bind.
  assert (Hrun : forall w1 t1, shadow_waits w1 pid p wr l t1 -> unlocked (msg_queue t1) [m] -> msgs w1 = msgs w ->
    (t_ref t1 = 1 -> owns w1 (task_objs t1) /\ has_manager w1 t1) ->
    wp (res ← move_loop HZ tcmi_migman_free shadow_rpc moves (Datatypes.S fuel) p;
        if res =? TCMI_TASK_KILL_ME then
          tmp ← tcmi_taskhelper_detach; tmp_p ← valid tmp; exit_code ← tcmi_task_exit_code tmp_p;
          tcmi_task_put tcmi_migman_free tmp;; emit (E_exit exit_code);; halt Gone
        else if res =? TCMI_TASK_REMOVE_AND_LET_ME_GO then
          tmp ← tcmi_taskhelper_detach; tcmi_task_put tcmi_migman_free tmp
        else mret tt)
      (fun _ _ => False) (fun s w' => s = Gone /\ last (log w') = Some (E_exit code)) w1).
  { intros w1 t1 Hs1 Hq1 Hm1 Hd1. apply wp_bind. destruct moves; cbn [move_loop]; apply wp_bind.
    all: unfold tcmi_task_process_methods; eapply wp_pump_exit; [exact Hs1|exact Hq1|by rewrite Hm1|].
    all: intros w2 t2 HP HC HN HO Ht2 Hec Href Hman Hobj Hmq2 Hq2.
    all: change (TCMI_TASK_KILL_ME =? TCMI_TASK_MOVE_ME) with false; cbn [negb]; step.
    all: change (TCMI_TASK_KILL_ME =? TCMI_TASK_KILL_ME) with true; cbv iota.
    all: unfold tcmi_taskhelper_detach; apply wp_bind; step; unfold __tcmi_taskhelper_detach.
    all: rewrite HC, (sw_current _ _ _ _ _ _ Hs1).
    all: assert (Hl2 : procs w2 !! pid = Some l) by (rewrite HP; apply Hs1).
    all: do 3 step; rewrite Htask; step; apply wp_bind; unfold tcmi_task_exit_code; do 2 step; apply wp_bind.
    all: eapply wp_task_put; [lk| |].
    1,3: intros Hr1; destruct Hd1 as [Ho (mp & mm & mask & ? & ? & ? & ?)]; [congruence|].
    1,2: split; [rewrite Hobj; by eapply owns_eq|done|done|].
    1,2: exists mp, mm, mask; proj; rewrite HN; split_and!; congruence.
    all: intros w3 _ _ _ _ _; step; rewrite Hec.
    all: change (Gone = Gone /\ last (log w3 ++ [E_exit code]) = Some (E_exit code)).
    all: split; [done|apply last_snoc]. }
  destruct (0 <? picked_up_flag t); cbn [negb when].
  - step. step. by apply (Hrun w t).
  - unfold tcmi_task_pick_up. step. step. eapply (Hrun _ (t_set_picked_up (picked_up t + 1) 1 t)); try done.
    split; try done. lk.
Qed.

(** The receiving thread of a manager hands a message to the manager at a fresh address. *)
Definition deliver_to (mgr : Z) (node : outcome (kw S) unit) (m : tcmi_msg) : Z * outcome (kw S) unit :=
  match node with
  | Ret _ w =>
      match (p ← fresh; modify (set_msgs (insert p m));; tcmi_migman_deliver_msg mgr p) w with
      | Ret r w' => (r, Ret tt w')
      | Stop s w' => (0, Stop s w')
      | Fault => (0, Fault)
      end
  | _ => (0, node)
  end.

Lemma same_exit_msg dst code m : same_msg (exit_msg dst code) m -> m = exit_msg dst code.
Proof.
  intros (H1 & H2 & H3 & H4 & H5 & H6). destruct m as [a b c d e f]. cbn in *. subst. unfold exit_msg. f_equal.
  destruct f as [| | | | | | | | |? ? []]; cbn in *; try congruence; by repeat case_match.
Qed.

Lemma deliver_exit wh mgr pid p wr l t mp mm mm' code :
  shadow_waits wh pid p wr l t -> mig_mode_handler l = true -> task_ready wh pid p t mp mm [] ->
  mans wh !! mgr = Some mm' -> mm_id mm' = mm_id mm ->
  exists q, unlocked q [next wh] /\
    deliver_to mgr (Ret tt wh) (exit_msg pid code) =
    (0, Ret tt (set_tasks (insert p (t_set_msg_queue q t)) (set_msgs (insert (next wh) (exit_msg pid code))
                 (set_next (next wh + 1) wh)))).
Proof.
  intros Hsw Hh Hr Hmm Hid. unfold deliver_to.
  set (w1 := set_msgs (insert (next wh) (exit_msg pid code)) (set_next (next wh + 1) wh)).
  assert (Hwp : wp (tcmi_migman_deliver_msg mgr (next wh))
    (fun r w' => r = 0 /\ exists q, unlocked q [next wh] /\ w' = set_tasks (insert p (t_set_msg_queue q t)) w1)
    (fun _ _ => False) w1).
  { destruct Hsw as [_ Hl Htask _ Ht _ _ _]. destruct Hr as [_ Href Hpid Hman Hmp Htr Hq Hml].
    unfold tcmi_migman_deliver_msg. step. change (TCMI_MSG_GROUP _ =? TCMI_MSG_GROUP_PROC) with true. cbv iota.
    cbn [body exit_msg]. apply wp_bind, wp_find_by_pid. unfold attached, w1. proj.
    rewrite Hl. cbn. rewrite Hh, Htask. exists t. split; [done|]. apply wp_bind. unfold tcmi_task_migman_id. step.
    cbn [t_migman t_set_ref t_with]. rewrite Hman. do 3 step. rewrite Hid, Z.eqb_refl. cbn [negb]. apply wp_bind.
    eapply (wp_task_deliver p (next wh) (exit_msg pid code) pid 0 (P_exit code) (t_set_ref (t_ref t + 1) t) mp mm []); try done; [|lk|].
    - split; try done; [lk|cbn; lia].
    - intros w' (q & Hq' & ->). apply wp_bind. eapply wp_task_put_more; [lk|cbn; lia|]. step. split; [done|].
      exists q. split; [done|]. rewrite !set_tasks_ref. do 2 f_equal. cbn. unfold t_set_ref, t_set_msg_queue, t_with. cbn.
      f_equal. lia. }
  unfold wp in Hwp. change ((p0 ← fresh; modify (set_msgs <[p0:=exit_msg pid code]>);; tcmi_migman_deliver_msg mgr p0) wh)
    with (tcmi_migman_deliver_msg mgr (next wh) w1).
  destruct (tcmi_migman_deliver_msg mgr (next wh) w1) as [r w'|s w'|]; [|done|done].
  destruct Hwp as (-> & q & Hq & ->). by exists q.
Qed.

(** C6: The exit code of a process that runs on another node reaches its home node.  When the
    guest's exit method runs, it puts exactly one message on the connection; the home node's
    receiving thread turns these bytes into a message that the manager delivers to the shadow
    of the process; and the shadow's process, which waits for messages in migration mode, then
    releases the shadow and exits with the guest's code (the low 32 bits of it). *)
Theorem exit_code_reaches_shadow (moves fuel : nat) (wg wh : kw S) (g sa wr code n mgr p wr' mp : Z) (s : S)
    (tg t : tcmi_task) (l : task_struct) (mm mm' : tcmi_migman) :
  guest_up wg g tg sa s -> wraps wg !! wr = Some (mk_wrapper (Some M_exit) (Some (le_bytes 8 code)) n) ->
  srange 64 code -> e_msg (a_env (answers wg (tick wg))) = true -> a_num (answers wg (Datatypes.S (tick wg))) = 0 ->
  shadow_waits wh (remote_pid tg) p wr' l t -> mig_mode_handler l = true ->
  task_ready wh (remote_pid tg) p t mp mm [] -> mans wh !! mgr = Some mm' -> mm_id mm' = mm_id mm ->
  (t_ref t = 1 -> owns wh (task_objs t) /\ has_manager wh t) ->
  exists bytes wg' s', tcmi_task_exit tops g wr wg = Ret TCMI_TASK_REMOVE_AND_LET_ME_GO wg' /\
    socks wg' !! sa = Some s' /\ sk_sent s' = sk_sent s ++ bytes /\
    forall (hs : S) (rd : round) rest, sk_up hs -> sk_pending hs = bytes ++ rest ->
      Msg.should_stop rd = false -> rd_mem rd <> None -> rd_lock rd = 0 ->
      exists err wh' hs' w', tcmi_comm_thread [rd] TCMI_MSG_GROUP_ANY (deliver_to mgr) 0 (Ret tt wh) [] hs =
          Some (err, Ret tt wh', [], [], hs') /\ sk_pending hs' = rest /\
        tcmi_migcom_mig_mode_handler HZ tcmi_migman_free shadow_rpc moves (Datatypes.S fuel) wh' = Stop Gone w' /\
        last (log w') = Some (E_exit s32[code]).
Proof.
  intros Hg Hwr Hc Hm Hlock Hsw Hh Hr Hmm Hid Hd.
  pose proof (wp_guest_exit wg g tg sa s wr code n
    (fun r w' => r = TCMI_TASK_REMOVE_AND_LET_ME_GO /\ exists s', socks w' = <[sa:=s']> (socks wg) /\
       sk_sent s' = sk_sent s ++ frame (exit_msg (remote_pid tg) s32[code])) (fun _ _ => False) Hg Hwr Hc Hm Hlock) as Hwp.
  unfold wp in Hwp. destruct (tcmi_task_exit tops g wr wg) as [r wg'|? ?|]; try (exfalso; apply Hwp; eauto; fail).
  destruct Hwp as (-> & s' & Hs' & Hsent); [eauto|]. eexists _, wg', s'. split_and!; [done|by rewrite Hs', lookup_insert_eq|exact Hsent|].
  intros hs rd rest Hup Hpend Hst Hmem Hlk. destruct rd as [st [gb|] km lk]; cbn in Hst, Hmem, Hlk; [subst|done].
  destruct (recv_msg gb km (exit_msg (remote_pid tg) s32[code]) TCMI_MSG_GROUP_ANY hs rest)
    as (s1 & m0 & r & m' & hs' & E1 & E2 & E3 & Hr0 & Hsame & Hup' & Hrest); try done.
  { cbn. split_and!; [apply Hg|by split|apply swrap_range; lia]. }
  apply same_exit_msg in Hsame as ->.
  destruct (deliver_exit wh mgr (remote_pid tg) p wr' l t mp mm mm' s32[code]) as (q & Hq & Hdel); try done.
  set (wh' := set_tasks _ _) in Hdel.
  assert (Hwp : wp (tcmi_migcom_mig_mode_handler HZ tcmi_migman_free shadow_rpc moves (Datatypes.S fuel))
    (fun _ _ => False) (fun s w' => s = Gone /\ last (log w') = Some (E_exit s32[code])) wh').
  { eapply (wp_handler_exit _ _ _ (remote_pid tg) p wr' l (t_set_msg_queue q t)); try done; [|lk].
    destruct Hsw as [? ? ? ? ? ? ? ?]. split; try done. lk. }
  unfold wp in Hwp. destruct (tcmi_migcom_mig_mode_handler _ _ _ _ _ wh') as [? ?|st w'|] eqn:Eh; try done.
  destruct Hwp as [-> Hlast]. eexists _, wh', hs', w'. split_and!; [|exact Hrest|done|exact Hlast].
  cbn [tcmi_comm_thread Msg.should_stop rd_mem rd_km rd_lock]. rewrite E1. cbn [Z.ltb Z.compare].
  rewrite le_value_le_bytes, Z.mod_small by (split; [done|reflexivity]). rewrite E2, E3. cbn [mbind option_bind].
  replace (r <? 0) with false by lia. rewrite Hdel. reflexivity.
Qed.
End life.

(** ** Witness *)

Definition no_rpc (task request : Z) : eff (kw seg_kernel) (option Z) := mret None.

Lemma exit_code_reaches_shadow_witness :
  exists bytes wg' s', tcmi_task_exit (task_ops_of 100 tcmi_migman_free no_rpc) 1 2 ex_guest_node =
      Ret TCMI_TASK_REMOVE_AND_LET_ME_GO wg' /\ socks wg' !! 7 = Some s' /\ sk_sent s' = sk_sent (mk_seg [] [] []) ++ bytes /\
    forall (hs : seg_kernel) (rd : round) rest, sk_up hs -> sk_pending hs = bytes ++ rest ->
      Msg.should_stop rd = false -> rd_mem rd <> None -> rd_lock rd = 0 ->
      exists err wh' hs' w', tcmi_comm_thread [rd] TCMI_MSG_GROUP_ANY (deliver_to 30) 0 (Ret tt ex_home_node) [] hs =
          Some (err, Ret tt wh', [], [], hs') /\ sk_pending hs' = rest /\
        tcmi_migcom_mig_mode_handler 100 tcmi_migman_free no_rpc 0 1 wh' = Stop Gone w' /\
        last (log w') = Some (E_exit s32[3]).
Proof.
  apply (exit_code_reaches_shadow 100 no_rpc 0 0 ex_guest_node ex_home_node 1 7 2 3 1 30 1 2 30
           (mk_seg [] [] []) (ex_task 50 42 [] (Some 7) Guesttask) (ex_task 42 50 [2] None Shadowtask) ex_proc ex_migman ex_migman);
    try reflexivity.
  - split; try reflexivity; [by eexists|unfold srange; cbn; lia].
  - unfold srange. lia.
  - split; try reflexivity. by split.
  - split; try reflexivity; [by eexists|by split].
  - intros _. split; [|by exists 30, ex_migman, 511]. intros p Hp. vm_compute in Hp. discriminate Hp.
Defined.
