(* ===== verification/Frames.v ===== *)
(** What the task code leaves alone.

    A [view] selects, from each task, manager and process, the parts a proof watches; its laws
    say that these parts do not include the message queue, the transactions, the execve
    context and the like.  The lemmas show for each operation that it leaves every view (or
    every view that ignores the methods) as it is, wherever it ends.  The proofs about method
    wrappers (Methods.v) and manager references (Shutdown.v) instantiate them. *)

From stdpp Require Import gmap.
From S2P Require Import Prelude Effect SlotVec Transaction KkcSock MsgId Messages Queue Msg NpmParams World Task TaskOps Migcom Migman.

Record view := mk_view {
  XT : Type; XM : Type; XP : Type; XW : Type;
  vt : tcmi_task -> XT;
  vm : gmap Z tcmi_migman -> XM;
  vp : gmap Z task_struct -> XP;
  vw : gmap Z tcmi_method_wrapper -> XW;
  v_msg_queue q t : vt (t_set_msg_queue q t) = vt t;
  v_trans x t : vt (t_set_trans x t) = vt t;
  v_exec a b c t : vt (t_set_exec a b c t) = vt t;
  v_exit_code a t : vt (t_set_exit_code a t) = vt t;
  v_context a t : vt (t_set_context a t) = vt t;
  v_picked_up a b t : vt (t_set_picked_up a b t) = vt t;
  v_peer_lost a t : vt (t_set_peer_lost a t) = vt t;
  v_remote a b t : vt (t_set_remote a b t) = vt t;
  v_mm_trans ms k m x : ms !! k = Some m -> vm (<[k := mm_set_trans x m]> ms) = vm ms;
  v_mm_tasks ms k m x : ms !! k = Some m -> vm (<[k := mm_set_tasks x m]> ms) = vm ms;
  v_pending ps k p x : ps !! k = Some p -> vp (<[k := p_set_pending x p]> ps) = vp ps;
  v_flags ps k p x : ps !! k = Some p -> vp (<[k := p_set_flags x p]> ps) = vp ps;
  v_files ps k p x : ps !! k = Some p -> vp (<[k := p_set_files x p]> ps) = vp ps;
  v_vfork ps k p x : ps !! k = Some p -> vp (<[k := p_set_vfork x p]> ps) = vp ps;
  v_caught ps k p x : ps !! k = Some p -> vp (<[k := p_set_caught x p]> ps) = vp ps
}.

Section frames.
Context {S : Type} `{Sock S}.
Abbreviation M := (eff (kw S)).
Context (v : view).

Definition see (w : kw S) := (vt v <$> tasks w, vm v (mans w), vp v (procs w), vw v (wraps w)).

(** The view is left, and addresses are only used up. *)
Definition leaves {A} (m : M A) : Prop := forall x n, keeps (fun w => see w = x /\ n <= next w) m.

Lemma leaves_next {A} (m : M A) w :
  leaves m -> wlp m (fun _ w' => see w' = see w /\ next w <= next w') (fun _ w' => see w' = see w /\ next w <= next w') w.
Proof. intros Hm. apply (Hm (see w) (next w)). split; [done|lia]. Qed.
Lemma leaves_wlp {A} (m : M A) w : leaves m -> wlp m (fun _ w' => see w' = see w) (fun _ w' => see w' = see w) w.
Proof. intros Hm. eapply wlp_mono; [by apply leaves_next|by intros ? ? []..]. Qed.

Lemma leaves_ret {A} (a : A) : leaves (mret a).
Proof. intros x n. apply keeps_ret. Qed.
Lemma leaves_bind {A B} (m : M A) (f : A -> M B) : leaves m -> (forall a, leaves (f a)) -> leaves (m ≫= f).
Proof. intros Hm Hf x n. apply keeps_bind; [apply Hm|intros a; apply Hf]. Qed.
Lemma leaves_gets {A} (f : kw S -> A) : leaves (gets f).
Proof. intros x n. apply keeps_gets. Qed.
Lemma leaves_fault {A} : leaves (@fault (kw S) A).
Proof. intros x n. apply keeps_fault. Qed.
Lemma leaves_halt {A} s : leaves (@halt (kw S) A s).
Proof. intros x n. apply keeps_halt. Qed.
Lemma leaves_valid {A} (o : option A) : leaves (valid o).
Proof. intros x n. apply keeps_valid. Qed.
Lemma leaves_when b m : leaves m -> leaves (when b m).
Proof. intros Hm x n. apply keeps_when, Hm. Qed.
Lemma leaves_modify f : (forall w, see (f w) = see w /\ next w <= next (f w)) -> leaves (modify f).
Proof. intros Hf x n. apply keeps_modify. intros w [<- Hn]. destruct (Hf w). split; [done|lia]. Qed.

Lemma leaves_ask : leaves ask.
Proof. repeat (apply leaves_bind; [|intros ?]); try apply leaves_gets; try apply leaves_ret.
  apply leaves_modify. intros w. split; [done|proj; lia].
Qed.
Lemma leaves_fresh : leaves fresh.
Proof. intros x n w [<- Hn]. unfold wlp, fresh. run. split; [done|proj; lia]. Qed.
Lemma leaves_emit e : leaves (emit e).
Proof. apply leaves_modify. intros w. split; [done|proj; lia]. Qed.
Lemma leaves_task p : leaves (task p).
Proof. apply leaves_bind; [apply leaves_gets|intros ?; apply leaves_valid]. Qed.
Lemma leaves_wrapper p : leaves (wrapper p).
Proof. apply leaves_bind; [apply leaves_gets|intros ?; apply leaves_valid]. Qed.
Lemma leaves_message p : leaves (message p).
Proof. apply leaves_bind; [apply leaves_gets|intros ?; apply leaves_valid]. Qed.
Lemma leaves_migman p : leaves (migman p).
Proof. apply leaves_bind; [apply leaves_gets|intros ?; apply leaves_valid]. Qed.
Lemma leaves_process p : leaves (process p).
Proof. apply leaves_bind; [apply leaves_gets|intros ?; apply leaves_valid]. Qed.

Lemma fmap_insert_same {A B} (f : A -> B) (m : gmap Z A) k a a' :
  m !! k = Some a -> f a' = f a -> f <$> <[k := a']> m = f <$> m.
Proof. intros Hk Hf. rewrite fmap_insert, Hf. apply insert_id. by rewrite lookup_fmap, Hk. Qed.

Lemma leaves_upd_task p f : (forall t, vt v (f t) = vt v t) -> leaves (upd_task p f).
Proof.
  intros Hf x n w [<- Hn]. unfold wlp, upd_task, task. run. destruct (tasks w !! p) as [t|] eqn:E; [|done].
  split; [|done]. unfold see. proj. by erewrite (fmap_insert_same (vt v)).
Qed.
Lemma leaves_upd_migman p f :
  (forall ms m, ms !! p = Some m -> vm v (<[p := f m]> ms) = vm v ms) -> leaves (upd_migman p f).
Proof.
  intros Hf x n w [<- Hn]. unfold wlp, upd_migman, migman. run. destruct (mans w !! p) as [t|] eqn:E; [|done].
  split; [|done]. unfold see. proj. by rewrite Hf.
Qed.
Lemma leaves_upd_process p f :
  (forall ps l, ps !! p = Some l -> vp v (<[p := f l]> ps) = vp v ps) -> leaves (upd_process p f).
Proof.
  intros Hf x n w [<- Hn]. unfold wlp, upd_process, process. run. destruct (procs w !! p) as [t|] eqn:E; [|done].
  split; [|done]. unfold see. proj. by rewrite Hf.
Qed.
End frames.

Create HintDb leaves discriminated.
#[export] Hint Resolve leaves_ret leaves_gets leaves_fault leaves_halt leaves_valid leaves_ask leaves_fresh leaves_emit
  leaves_task leaves_wrapper leaves_message leaves_migman leaves_process : leaves.

(** Follows the structure of a definition. *)
Ltac lv_upd :=
  first
    [ apply leaves_upd_task; intros ?; repeat case_match;
      rewrite ?v_msg_queue, ?v_trans, ?v_exec, ?v_exit_code, ?v_context, ?v_picked_up, ?v_peer_lost, ?v_remote; reflexivity
    | apply leaves_upd_migman; intros ? ? ?; first [reflexivity | apply v_mm_trans; assumption | apply v_mm_tasks; assumption]
    | apply leaves_upd_process; intros ? ? ?; repeat case_match;
      first [reflexivity | rewrite insert_id by assumption; reflexivity | apply v_pending; assumption | apply v_flags; assumption
            | apply v_files; assumption | apply v_vfork; assumption | apply v_caught; assumption] ].
Ltac lv :=
  repeat first
    [ solve [eauto 2 with leaves nocore]
    | lv_upd
    | apply leaves_when
    | apply leaves_bind; [|intros ?]
    | (apply leaves_modify; intros ?; split; [reflexivity|proj; apply Z.le_refl])
    | case_match ].

Section tasks.
Context {S : Type} `{Sock S}.
Context (v : view).
Abbreviation leaves := (leaves (S := S) v).

Lemma leaves_obj_get o : leaves (obj_get o).
Proof. unfold obj_get. lv. Qed.
Lemma leaves_obj_put o : leaves (obj_put o).
Proof. unfold obj_put. lv. Qed.
Lemma leaves_obj_new : leaves obj_new.
Proof. unfold obj_new. lv. Qed.
#[local] Hint Resolve leaves_obj_get leaves_obj_put leaves_obj_new : leaves.

Lemma leaves_exit_code p : leaves (tcmi_task_exit_code p). Proof. unfold tcmi_task_exit_code. lv. Qed.
Lemma leaves_set_exit_code p c : leaves (tcmi_task_set_exit_code p c). Proof. unfold tcmi_task_set_exit_code. lv. Qed.
Lemma leaves_set_context p c : leaves (tcmi_task_set_context p c). Proof. unfold tcmi_task_set_context. lv. Qed.
Lemma leaves_get_context p : leaves (tcmi_task_context p). Proof. unfold tcmi_task_context. lv. Qed.
Lemma leaves_ckpt_name p : leaves (tcmi_task_ckpt_name p). Proof. unfold tcmi_task_ckpt_name. lv. Qed.
Lemma leaves_local_pid p : leaves (tcmi_task_local_pid p). Proof. unfold tcmi_task_local_pid. lv. Qed.
Lemma leaves_remote_pid p : leaves (tcmi_task_remote_pid p). Proof. unfold tcmi_task_remote_pid. lv. Qed.
Lemma leaves_set_remote_pid p x : leaves (tcmi_task_set_remote_pid p x). Proof. unfold tcmi_task_set_remote_pid. lv. Qed.
Lemma leaves_pick_up p : leaves (tcmi_task_pick_up p). Proof. unfold tcmi_task_pick_up. lv. Qed.
Lemma leaves_picked_up p : leaves (tcmi_task_picked_up p). Proof. unfold tcmi_task_picked_up. lv. Qed.
Lemma leaves_force_sig s p : leaves (force_sig s p). Proof. unfold force_sig. lv. Qed.
Lemma leaves_to_task_struct p : leaves (tcmi_task_to_task_struct p). Proof. unfold tcmi_task_to_task_struct. lv. Qed.
#[local] Hint Resolve leaves_exit_code leaves_set_exit_code leaves_set_context leaves_get_context leaves_ckpt_name
  leaves_local_pid leaves_remote_pid leaves_set_remote_pid leaves_pick_up leaves_picked_up leaves_force_sig
  leaves_to_task_struct : leaves.
Lemma leaves_signal_peer_lost p : leaves (tcmi_task_signal_peer_lost p). Proof. unfold tcmi_task_signal_peer_lost. lv. Qed.
#[local] Hint Resolve leaves_signal_peer_lost : leaves.
Lemma leaves_check_peer_lost p e : leaves (tcmi_task_check_peer_lost p e). Proof. unfold tcmi_task_check_peer_lost. lv. Qed.
Lemma leaves_enter_mig_mode p : leaves (tcmi_taskhelper_enter_mig_mode p). Proof. unfold tcmi_taskhelper_enter_mig_mode. lv. Qed.
#[local] Hint Resolve leaves_check_peer_lost leaves_enter_mig_mode : leaves.

Lemma leaves_new_msg p c : leaves (new_msg p c). Proof. unfold new_msg. lv. Qed.
Lemma leaves_msg_get p : leaves (msg_get p). Proof. unfold msg_get. lv. Qed.
Lemma leaves_msg_put p o : leaves (msg_put p o). Proof. unfold msg_put. lv. Qed.
Lemma leaves_msg_send_on s p m : leaves (msg_send_on s p m). Proof. unfold msg_send_on. lv. Qed.
#[local] Hint Resolve leaves_new_msg leaves_msg_get leaves_msg_put leaves_msg_send_on : leaves.
Lemma leaves_send_anonymous p m : leaves (tcmi_task_send_anonymous_msg p m). Proof. unfold tcmi_task_send_anonymous_msg. lv. Qed.
Lemma leaves_send_receive p m : leaves (tcmi_task_send_and_receive_msg p m). Proof. unfold tcmi_task_send_and_receive_msg. lv. Qed.
#[local] Hint Resolve leaves_send_anonymous leaves_send_receive : leaves.

Lemma leaves_release_execve p : leaves (tcmi_task_release_execve_context p). Proof. unfold tcmi_task_release_execve_context. lv. Qed.
Lemma leaves_copy_strings_to ss : leaves (copy_strings_to ss). Proof. unfold copy_strings_to. lv. Qed.
#[local] Hint Resolve leaves_release_execve leaves_copy_strings_to : leaves.
Lemma leaves_prepare_execve p f a e : leaves (tcmi_task_prepare_execve p f a e). Proof. unfold tcmi_task_prepare_execve. lv. Qed.
#[local] Hint Resolve leaves_prepare_execve : leaves.

Lemma leaves_add_task m p : leaves (tcmi_migman_add_task m p). Proof. unfold tcmi_migman_add_task. lv. Qed.
Lemma leaves_remove_task m p : leaves (tcmi_migman_remove_task m p). Proof. unfold tcmi_migman_remove_task. lv. Qed.
Lemma leaves_arrive p ms : leaves (arrive p ms).
Proof. induction ms as [|m ms IH]; cbn [arrive]; lv. Qed.
#[local] Hint Resolve leaves_arrive : leaves.
Lemma leaves_wait_for_msg p : leaves (wait_for_msg p). Proof. unfold wait_for_msg. lv. Qed.
Lemma leaves_dequeue_signal : leaves dequeue_signal. Proof. unfold dequeue_signal. lv. Qed.
Lemma leaves_drain_msgs n p : leaves (drain_msgs n p).
Proof. induction n as [|n IH]; cbn [drain_msgs]; lv. Qed.

Lemma leaves_sanity_check : leaves tcmi_taskhelper_sanity_check. Proof. unfold tcmi_taskhelper_sanity_check. lv. Qed.
Lemma leaves_checkpoint p n : leaves (tcmi_taskhelper_checkpoint p n). Proof. unfold tcmi_taskhelper_checkpoint. lv. Qed.
Lemma leaves_close_files c fs : leaves (close_files c fs).
Proof. induction fs as [|[f m] fs IH]; cbn [close_files]; lv. Qed.
#[local] Hint Resolve leaves_close_files : leaves.
Lemma leaves_flushfiles : leaves tcmi_taskhelper_flushfiles. Proof. unfold tcmi_taskhelper_flushfiles. lv. Qed.
Lemma leaves_catch_signals : leaves tcmi_taskhelper_catch_all_signals. Proof. unfold tcmi_taskhelper_catch_all_signals. lv. Qed.
Lemma leaves_vfork_done p : leaves (tcmi_shadowtask_vfork_done p). Proof. unfold tcmi_shadowtask_vfork_done. lv. Qed.
Lemma leaves_verify_migration p r : leaves (tcmi_shadowtask_verify_migration p r). Proof. unfold tcmi_shadowtask_verify_migration. lv. Qed.
End tasks.
#[export] Hint Resolve leaves_obj_get leaves_obj_put leaves_obj_new leaves_exit_code leaves_set_exit_code leaves_set_context
  leaves_get_context leaves_ckpt_name leaves_local_pid leaves_remote_pid leaves_set_remote_pid leaves_pick_up
  leaves_picked_up leaves_force_sig leaves_to_task_struct leaves_signal_peer_lost leaves_check_peer_lost
  leaves_enter_mig_mode leaves_new_msg leaves_msg_get leaves_msg_put leaves_msg_send_on leaves_send_anonymous
  leaves_send_receive leaves_release_execve leaves_copy_strings_to leaves_prepare_execve leaves_add_task
  leaves_remove_task leaves_arrive leaves_wait_for_msg leaves_dequeue_signal leaves_drain_msgs leaves_sanity_check
  leaves_checkpoint leaves_close_files leaves_flushfiles leaves_catch_signals leaves_vfork_done
  leaves_verify_migration : leaves.

(** ** Views that do not watch the methods *)

Definition ignores_methods (v : view) : Prop :=
  (forall q t, vt v (t_set_method_queue q t) = vt v t) /\ (forall a b, vw v a = vw v b).

Section methods.
Context {S : Type} `{Sock S}.
Context (v : view) (Hv : ignores_methods v).
Abbreviation leaves := (leaves (S := S) v).

Lemma leaves_set_wraps f : leaves (modify (set_wraps f)).
Proof. apply leaves_modify. intros w. split; [|done]. unfold see. proj. f_equal. apply Hv. Qed.
Lemma leaves_unlink p : leaves (modify (set_tasks (fmap (unlink_wrapper p)))).
Proof.
  apply leaves_modify. intros w. split; [|done]. unfold see. proj. do 3 f_equal. rewrite <- map_fmap_compose.
  apply map_fmap_ext. intros i t _. apply Hv.
Qed.
Lemma leaves_upd_methods p f : leaves (upd_task p (fun t => t_set_method_queue (f t) t)).
Proof. apply leaves_upd_task. intros t. apply Hv. Qed.
Lemma leaves_set_methods p q : leaves (upd_task p (t_set_method_queue q)).
Proof. apply leaves_upd_task. intros t. apply Hv. Qed.
#[local] Hint Resolve leaves_set_wraps leaves_unlink leaves_upd_methods leaves_set_methods : leaves.

Lemma leaves_wrapper_new m d s : leaves (tcmi_method_wrapper_new m d s). Proof. unfold tcmi_method_wrapper_new. lv. Qed.
Lemma leaves_wrapper_get o : leaves (tcmi_method_wrapper_get o). Proof. unfold tcmi_method_wrapper_get. lv. Qed.
Lemma leaves_wrapper_put o : leaves (tcmi_method_wrapper_put o). Proof. unfold tcmi_method_wrapper_put. lv. Qed.
Lemma leaves_add_wrapper p wr : leaves (tcmi_task_add_wrapper p wr). Proof. unfold tcmi_task_add_wrapper. lv. Qed.
#[local] Hint Resolve leaves_wrapper_new leaves_wrapper_get leaves_wrapper_put leaves_add_wrapper : leaves.
Lemma leaves_submit_method p m d s : leaves (tcmi_task_submit_method p m d s). Proof. unfold tcmi_task_submit_method. lv. Qed.
Lemma leaves_flush_methods n p : leaves (flush_methods n p).
Proof. induction n as [|n IH]; cbn [flush_methods]; lv. Qed.
#[local] Hint Resolve leaves_submit_method leaves_flush_methods : leaves.
Lemma leaves_flush_and_submit p m d s : leaves (tcmi_task_flush_and_submit_method p m d s).
Proof. unfold tcmi_task_flush_and_submit_method. lv. Qed.
#[local] Hint Resolve leaves_flush_and_submit : leaves.
Lemma leaves_submit_by_priority p m d s pr : leaves (submit_by_priority p m d s pr). Proof. unfold submit_by_priority. lv. Qed.
Lemma leaves_drain_methods n p : leaves (drain_methods n p).
Proof. induction n as [|n IH]; cbn [drain_methods]; lv. Qed.
End methods.
#[export] Hint Resolve leaves_wrapper_new leaves_wrapper_get leaves_wrapper_put leaves_add_wrapper leaves_submit_method
  leaves_flush_methods leaves_flush_and_submit leaves_submit_by_priority leaves_drain_methods : leaves.

(** ** Views that do not watch the managers *)

Definition ignores_managers (v : view) : Prop := forall a b, vm v a = vm v b.

Section managers.
Context {S : Type} `{Sock S}.
Context (v : view) (Hv : ignores_managers v).
Abbreviation leaves := (leaves (S := S) v).

Lemma leaves_any_migman p f : leaves (upd_migman p f).
Proof. apply leaves_upd_migman. intros ms m _. apply Hv. Qed.
Lemma leaves_set_mans f : leaves (modify (set_mans f)).
Proof. apply leaves_modify. intros w. split; [|done]. unfold see. proj. do 2 f_equal. f_equal. apply Hv. Qed.
#[local] Hint Resolve leaves_any_migman leaves_set_mans : leaves.

Lemma leaves_drop_file o : leaves (drop_file o). Proof. unfold drop_file. lv. Qed.
Lemma leaves_stop_thread p : leaves (tcmi_migman_stop_thread p). Proof. unfold tcmi_migman_stop_thread. lv. Qed.
#[local] Hint Resolve leaves_drop_file leaves_stop_thread : leaves.
Lemma leaves_migman_free p : leaves (tcmi_migman_free p).
Proof.
  unfold tcmi_migman_free, tcmi_migman_stop_ctlfs_files, ops_stop_ctlfs_files, tcmi_ccnmigman_stop_ctlfs_files,
    tcmi_penmigman_stop_ctlfs_files, tcmi_migman_stop_ctlfs_dirs, tcmi_migman_unhash. lv.
Qed.
Lemma leaves_migman_get o : leaves (tcmi_migman_get o). Proof. unfold tcmi_migman_get. lv. Qed.
#[local] Hint Resolve leaves_migman_free leaves_migman_get : leaves.
Lemma leaves_migman_put o : leaves (tcmi_migman_put tcmi_migman_free o). Proof. unfold tcmi_migman_put. lv. Qed.
End managers.
#[export] Hint Resolve leaves_any_migman leaves_set_mans leaves_drop_file leaves_stop_thread leaves_migman_free
  leaves_migman_get leaves_migman_put : leaves.
