(* ===== verification/Shutdown.v ===== *)
(** Shutting down a migration manager (src/src/tcmi/manager/tcmi_migman.c): stop requests, kill
    requests and disconnect messages, in any order and number, drop the manager's own reference
    exactly once; and the message thread that drops the last reference ends without touching
    the freed manager. *)

From stdpp Require Import gmap.
From S2P Require Import Prelude Effect SlotVec Transaction KkcSock MsgId Messages Queue Msg NpmParams World Task TaskOps Migcom Migman Frames Delivery TaskLife.

(** The references of the tasks, the references and states of the managers. *)
Program Definition ref_view : view := {|
  vt := t_ref; vm := fun ms => (fun m => (mm_ref m, mm_state m)) <$> ms; vp := fun _ => tt; vw := fun _ => tt
|}.
Solve All Obligations with
  (intros; first [reflexivity | by eapply (fmap_insert_same (fun m => (mm_ref m, mm_state m)))]).

Lemma ref_view_methods : ignores_methods ref_view.
Proof. done. Qed.
#[local] Hint Resolve ref_view_methods : leaves.

Section shutdown.
Context {S : Type} `{Sock S}.
Abbreviation M := (eff (kw S)).
Abbreviation seen := (see (S := S) ref_view).
Implicit Type w : kw S.

(** The watched part of the state is [x], and every task is referenced. *)
Definition steady x (w : kw S) : Prop := seen w = x /\ forall p t, tasks w !! p = Some t -> 1 <= t_ref t.

Lemma seen_ref (w w' : kw S) p n :
  seen w' = seen w -> (t_ref <$> tasks w !! p) = Some n -> (t_ref <$> tasks w' !! p) = Some n.
Proof. intros [=Hs _] Hp. by rewrite <- lookup_fmap, Hs, lookup_fmap. Qed.

Lemma steady_seen x (w w' : kw S) : steady x w -> seen w' = seen w -> steady x w'.
Proof.
  intros [<- Hp] Hs. split; [done|]. intros p t' Ht'.
  assert (Hr : t_ref <$> tasks w !! p = Some (t_ref t')).
  { eapply seen_ref; [by symmetry|]. by rewrite Ht'. }
  apply fmap_Some in Hr as (t & Ht & ->). eauto.
Qed.

(** Where the computation returns, the invariant still holds. *)
Definition rets {A} (I : kw S -> Prop) (m : M A) : Prop := forall w, I w -> wlp m (fun _ => I) (fun _ _ => True) w.

Lemma rets_bind {A B} I (m : M A) (f : A -> M B) : rets I m -> (forall a, rets I (f a)) -> rets I (m ≫= f).
Proof. intros Hm Hf w Hw. apply wlp_bind. eapply wlp_mono; [by apply Hm|intros a w'; apply Hf|done]. Qed.
Lemma wlp_rets {A B} I (m : M A) (f : A -> M B) Q w :
  rets I m -> I w -> (forall a w', I w' -> wlp (f a) Q (fun _ _ => True) w') -> wlp (m ≫= f) Q (fun _ _ => True) w.
Proof. intros Hm Hw Hf. apply wlp_bind. eapply wlp_mono; [by apply Hm|done|done]. Qed.
Lemma rets_leaves {A} x (m : M A) : leaves ref_view m -> rets (steady x) m.
Proof.
  intros Hm w Hw. eapply wlp_mono; [apply leaves_wlp, Hm| |done]. intros ? w' Hs. by eapply steady_seen.
Qed.

(** A reference that is taken and dropped. *)
Lemma put_after_get p t (w w' : kw S) :
  tasks w !! p = Some t -> 1 <= t_ref t -> seen w' = seen (set_tasks (insert p (t_set_ref (t_ref t + 1) t)) w) ->
  wlp (tcmi_task_put tcmi_migman_free (Some p)) (fun _ w2 => seen w2 = seen w) (fun _ _ => True) w'.
Proof.
  intros Ht Hr Hs.
  assert (Hp : t_ref <$> tasks w' !! p = Some (t_ref t + 1)).
  { eapply seen_ref; [exact Hs|]. proj. by rewrite lookup_insert_eq. }
  apply fmap_Some in Hp as (t' & Ht' & Hn). unfold wlp, tcmi_task_put, upd_task, task. run. rewrite Ht'.
  run. rewrite Ht'. replace (t_ref t' - 1 =? 0) with false by lia. unfold see in *. injection Hs as HT HM.
  assert (HT' : t_ref <$> <[p:=t_set_ref (t_ref t' - 1) t']> (tasks w') = t_ref <$> tasks w).
  { cbn [tasks set_tasks] in HT. rewrite fmap_insert, HT, fmap_insert, insert_insert_eq. cbn.
    replace (t_ref t' - 1) with (t_ref t) by lia. rewrite insert_id; [done|]. by rewrite lookup_fmap, Ht. }
  proj. f_equal. f_equal. f_equal; [exact HT'|exact HM].
Qed.

Lemma rets_notify_by_pid x pid m d s pr : rets (steady x) (tcmi_taskhelper_notify_by_pid tcmi_migman_free pid m d s pr).
Proof.
  intros w Hw. unfold tcmi_taskhelper_notify_by_pid. apply wlp_bind.
  assert (Hfind : wlp (tcmi_taskhelper_find_by_pid pid)
    (fun o w' => match o with
                 | None => w' = w
                 | Some p => exists t, tasks w !! p = Some t /\ w' = set_tasks (insert p (t_set_ref (t_ref t + 1) t)) w
                 end) (fun _ _ => False) w).
  { unfold wlp, tcmi_taskhelper_find_by_pid, tcmi_task_get, upd_task, task. run.
    destruct (procs w !! pid) as [l|]; [|done]. destruct (mig_mode_handler l); [|done].
    destruct (p_task l) as [p|]; [|done]. run. destruct (tasks w !! p) as [t|] eqn:E; [|done]. by exists t. }
  eapply wlp_mono; [exact Hfind| |done]. clear Hfind. intros [p|] w' Hf; [|subst; exact Hw].
  destruct Hf as (t & Ht & ->). set (w1 := set_tasks _ w).
  assert (Hl : leaves (S := S) ref_view (submit_by_priority p m d s pr;; tcmi_taskhelper_enter_mig_mode p)) by lv.
  pose proof (leaves_wlp _ _ w1 Hl) as Hw1. unfold wlp in *. unfold mbind, eff_bind in *.
  destruct (submit_by_priority p m d s pr w1) as [[] w2| |]; [|done..].
  destruct (tcmi_taskhelper_enter_mig_mode p w2) as [[] w3| |]; [|done..].
  pose proof (put_after_get p t w w3 Ht (proj2 Hw _ _ Ht) Hw1) as Hp. unfold wlp in Hp.
  destruct (tcmi_task_put tcmi_migman_free (Some p) w3) as [[] w4| |]; [|done..]. by eapply steady_seen.
Qed.

Lemma rets_for_tasks x f ts : (forall t, rets (steady x) (f t)) -> rets (steady x) (for_tasks f ts).
Proof.
  intros Hf. induction ts as [|t ts IH]; cbn [for_tasks]; [by apply rets_leaves, leaves_ret|].
  by apply rets_bind.
Qed.
Lemma rets_for_each_task x self f : (forall t, rets (steady x) (f t)) -> rets (steady x) (for_each_task self f).
Proof.
  intros Hf. unfold for_each_task. do 3 (apply rets_bind; [apply rets_leaves; lv|intros ?]).
  apply rets_bind; [by apply rets_for_tasks|intros ?]. apply rets_leaves. lv.
Qed.

Lemma leaves_mm_new_msg p c : leaves (S := S) ref_view (mm_new_msg p c). Proof. unfold mm_new_msg. lv. Qed.
Lemma leaves_mm_msg_put p o : leaves (S := S) ref_view (mm_msg_put p o). Proof. unfold mm_msg_put. lv. Qed.
Lemma leaves_mm_send p m : leaves (S := S) ref_view (mm_send p m). Proof. unfold mm_send. lv. Qed.
#[local] Hint Resolve leaves_mm_new_msg leaves_mm_msg_put leaves_mm_send : leaves.

Lemma rets_ops_stop x self r : rets (steady x) (ops_stop self r).
Proof.
  unfold ops_stop. apply rets_bind; [apply rets_leaves; lv|intros m]. destruct (mm_ops m).
  - unfold tcmi_ccnmigman_stop, tcmi_migman_slot_index. apply rets_leaves. lv.
  - unfold tcmi_penmigman_stop, tcmi_penmigman_migrate_all_home, tcmi_migcom_migrate_home_ppm_p.
    apply rets_bind; [|intros ?; unfold tcmi_migman_slot_index; apply rets_leaves; lv].
    apply rets_bind; [|intros ?; apply rets_leaves; lv]. apply rets_for_each_task. intros t.
    apply rets_bind; [apply rets_leaves; lv|intros ?]. apply rets_bind; [apply rets_notify_by_pid|intros ?].
    apply rets_leaves. lv.
Qed.
Lemma rets_kill_all_tasks x self : rets (steady x) (kill_all_tasks self).
Proof. apply rets_for_each_task. intros t. apply rets_leaves. lv. Qed.
Lemma rets_notify_disconnect x self b : rets (steady x) (when b (tcmi_migman_notify_peer_disconnect self)).
Proof. apply rets_leaves. apply leaves_when. unfold tcmi_migman_notify_peer_disconnect. lv. Qed.

(** ** Requests *)

Definition man_is (self r : Z) (st : tcmi_migman_state_t) (w : kw S) : Prop :=
  (exists mm, mans w !! self = Some mm /\ mm_ref mm = r /\ mm_state mm = st) /\
  forall p t, tasks w !! p = Some t -> 1 <= t_ref t.

Lemma man_is_seen self r st w w' : man_is self r st w -> steady (seen w) w' -> man_is self r st w'.
Proof.
  intros [(mm & Hm & <- & <-) _] [[=_ Hs] Hp]. split; [|done].
  assert (Hl : (fun m => (mm_ref m, mm_state m)) <$> mans w' !! self = Some (mm_ref mm, mm_state mm)).
  { by rewrite <- lookup_fmap, Hs, lookup_fmap, Hm. }
  apply fmap_Some in Hl as (mm' & Hm' & [= -> ->]). by exists mm'.
Qed.
Lemma man_is_rets self r st {A} (m : M A) : (forall x, rets (steady x) m) -> rets (man_is self r st) m.
Proof.
  intros Hm w Hw. eapply wlp_mono; [apply (Hm (seen w)); split; [done|apply Hw]| |done].
  intros a w' Hs. by eapply man_is_seen.
Qed.

(** The change to the state in which the reference is about to be dropped. *)
Lemma wlp_change_state self r st w Q :
  man_is self r st w ->
  (if bool_decide (st = TCMI_MIGMAN_CONNECTED)
   then forall w', man_is self r TCMI_MIGMAN_SHUTTING_DOWN w' -> Q true w'
   else Q false w) ->
  wlp (tcmi_migman_change_state self TCMI_MIGMAN_CONNECTED TCMI_MIGMAN_SHUTTING_DOWN) Q (fun _ _ => True) w.
Proof.
  intros [(mm & Hm & <- & <-) Hp] HQ. unfold wlp, tcmi_migman_change_state, upd_migman, migman. run. rewrite Hm.
  destruct (bool_decide _); [|done]. run. rewrite Hm. apply HQ. split; [|done].
  eexists. proj. by rewrite lookup_insert_eq.
Qed.

Lemma wlp_drop self r st w :
  man_is self r st w -> 2 <= r ->
  wlp (tcmi_migman_put tcmi_migman_free (Some self)) (fun _ => man_is self (r - 1) st) (fun _ _ => True) w.
Proof.
  intros [(mm & Hm & <- & <-) Hp] Hr. unfold wlp, tcmi_migman_put, upd_migman, migman. run. rewrite Hm. run. rewrite Hm.
  replace (mm_ref mm - 1 =? 0) with false by lia. split; [|done]. eexists. proj. by rewrite lookup_insert_eq.
Qed.

(** A request of either kind: [first] runs before the state is tested, [work] after. *)
Lemma wlp_request {A} self r st (first : M unit) (work : M unit) (k : Z -> M A) w :
  (forall x, rets (steady x) first) -> (forall x, rets (steady x) work) -> (forall z x, rets (steady x) (k z)) ->
  man_is self r st w -> (st = TCMI_MIGMAN_CONNECTED -> 2 <= r) ->
  wlp (first;; (b ← tcmi_migman_change_state self TCMI_MIGMAN_CONNECTED TCMI_MIGMAN_SHUTTING_DOWN;
                z ← (if (b : bool) then work;; tcmi_migman_put tcmi_migman_free (Some self) else mret 0); k z))
    (fun _ w' => if bool_decide (st = TCMI_MIGMAN_CONNECTED) then man_is self (r - 1) TCMI_MIGMAN_SHUTTING_DOWN w'
                 else man_is self r st w') (fun _ _ => True) w.
Proof.
  intros Hf Hwk Hk Hw Hr. eapply wlp_rets; [by apply (man_is_rets self r st)|done|]. intros u1 w1 Hw1.
  apply wlp_bind. eapply wlp_change_state; [exact Hw1|]. destruct (bool_decide _) eqn:E.
  - intros w2 Hw2. apply wlp_bind. eapply wlp_rets; [by apply (man_is_rets self r TCMI_MIGMAN_SHUTTING_DOWN)|done|].
    intros u3 w3 Hw3. apply bool_decide_eq_true in E. eapply wlp_mono; [by eapply wlp_drop, Hr| |done]. intros z w4 Hw4.
    by apply (man_is_rets _ _ _ _ (Hk z)).
  - apply wlp_bind, wlp_ret. by apply (man_is_rets _ _ _ _ (Hk 0)).
Qed.

Inductive stop_request := SR_stop | SR_kill | SR_disconnect.
Definition request (self : Z) (r : stop_request) : M unit :=
  match r with
  | SR_stop => tcmi_migman_stop_request self;; mret tt
  | SR_kill => tcmi_migman_kill_request self;; mret tt
  | SR_disconnect => tcmi_migman_stop_perform self true;; mret tt
  end.
Fixpoint requests (self : Z) (rs : list stop_request) : M unit :=
  match rs with [] => mret tt | r :: rs => request self r;; requests self rs end.

(** The three requests in the form of [wlp_request]. *)
Definition shaped (self : Z) (first work : M unit) : M unit :=
  first;; (b ← tcmi_migman_change_state self TCMI_MIGMAN_CONNECTED TCMI_MIGMAN_SHUTTING_DOWN;
           z ← (if (b : bool) then work;; tcmi_migman_put tcmi_migman_free (Some self) else mret 0);
           (fun _ => mret tt) z).
Definition request_first (self : Z) (r : stop_request) : M unit :=
  match r with SR_kill => kill_all_tasks self | _ => mret tt end.
Definition request_work (self : Z) (r : stop_request) : M unit :=
  match r with
  | SR_kill => mret tt
  | SR_stop => ops_stop self false;; when (negb false) (tcmi_migman_notify_peer_disconnect self)
  | SR_disconnect => ops_stop self true;; when (negb true) (tcmi_migman_notify_peer_disconnect self)
  end.

Lemma request_shape self r w : request self r w = shaped self (request_first self r) (request_work self r) w.
Proof.
  destruct r; unfold request, shaped, request_first, request_work, tcmi_migman_stop_request, tcmi_migman_stop,
    tcmi_migman_kill_request, tcmi_migman_kill, tcmi_migman_stop_perform; unfold mbind, eff_bind, mret, eff_ret.
  all: repeat (case_match; try done; simplify_eq); reflexivity.
Qed.

Lemma wlp_one self r st q w :
  man_is self r st w -> (st = TCMI_MIGMAN_CONNECTED -> 2 <= r) ->
  wlp (request self q)
    (fun _ w' => if bool_decide (st = TCMI_MIGMAN_CONNECTED) then man_is self (r - 1) TCMI_MIGMAN_SHUTTING_DOWN w'
                 else man_is self r st w') (fun _ _ => True) w.
Proof.
  intros Hw Hr. unfold wlp. rewrite request_shape. apply (wlp_request self r st); try done.
  - intros x. destruct q; cbn; [apply rets_leaves; lv|apply rets_kill_all_tasks|apply rets_leaves; lv].
  - intros x. destruct q; cbn [request_work];
      [|apply rets_leaves; lv|]; (apply rets_bind; [apply rets_ops_stop|intros ?; apply rets_notify_disconnect]).
  - intros z x. apply rets_leaves. lv.
Qed.

Lemma wlp_shut self r rs w :
  man_is self r TCMI_MIGMAN_SHUTTING_DOWN w ->
  wlp (requests self rs) (fun _ => man_is self r TCMI_MIGMAN_SHUTTING_DOWN) (fun _ _ => True) w.
Proof.
  revert w. induction rs as [|q rs IH]; intros w Hw; cbn [requests]; [done|].
  apply wlp_bind. eapply wlp_mono; [by apply (wlp_one self r TCMI_MIGMAN_SHUTTING_DOWN)| |done]. intros u w' Hw'. by apply IH.
Qed.

(** C20: However many stop requests, kill requests and disconnect messages of the peer a connected
    manager gets, and in whatever order, the reference the connection holds is dropped exactly
    once, by the first of them: if tasks still use the manager it survives with one reference
    less, and it is shutting down. *)
Theorem shutdown_drops_one_reference (self r : Z) (rs : list stop_request) (w : kw S) :
  man_is self r TCMI_MIGMAN_CONNECTED w -> 2 <= r -> rs <> [] ->
  wlp (requests self rs) (fun _ => man_is self (r - 1) TCMI_MIGMAN_SHUTTING_DOWN) (fun _ _ => True) w.
Proof.
  intros Hw Hr Hne. destruct rs as [|q rs]; [done|]. cbn [requests]. apply wlp_bind.
  eapply wlp_mono; [by apply (wlp_one self r TCMI_MIGMAN_CONNECTED)| |done]. intros u w' Hw'. by apply wlp_shut.
Qed.

(** ** The message thread drops the last reference *)

(** The objects a manager owns, in the order it releases them. *)
Definition migman_objs (m : tcmi_migman) : list (option Z) :=
  [mm_comm m; mm_file m; f_stop m; f_kill m; f_state m; d_migman m; mm_symlink m; d_conns m; d_migproc m; mm_sock m].

Lemma wp_drop_file o os Q G w :
  owns w (o :: os) -> (forall w', same_but_objs w w' -> owns w' os -> Q tt w') -> wp (drop_file o) Q G w.
Proof. intros Ho HQ. unfold drop_file. step. by eapply wp_obj_put. Qed.

Ltac put_next :=
  apply wp_bind; first [eapply wp_drop_file | eapply wp_obj_put]; [eassumption|];
  let w := fresh "w" in let Ho := fresh "Ho" in intros w (? & ? & ? & ? & ? & ? & ?) Ho; cbv beta.

Lemma wp_stop_ctlfs_files self mm os Q G w :
  mans w !! self = Some mm -> owns w (mm_file mm :: f_stop mm :: f_kill mm :: f_state mm :: os) ->
  (forall w', same_but_objs w w' -> owns w' os -> Q tt w') -> wp (tcmi_migman_stop_ctlfs_files self) Q G w.
Proof.
  intros Hm Ho HQ. unfold tcmi_migman_stop_ctlfs_files, ops_stop_ctlfs_files, tcmi_ccnmigman_stop_ctlfs_files,
    tcmi_penmigman_stop_ctlfs_files. apply wp_bind. step.
  assert (Hk : forall w1, same_but_objs w w1 -> owns w1 (f_stop mm :: f_kill mm :: f_state mm :: os) ->
    wp (m ← migman self; drop_file (f_stop m);; drop_file (f_kill m);; drop_file (f_state m)) Q G w1).
  { intros w1 (T1 & W1 & M1 & N1 & P1 & C1 & S1) Ho1. eapply wp_bind, wp_migman; [by rewrite N1|].
    do 2 put_next. eapply wp_drop_file; [eassumption|]. intros w9 (? & ? & ? & ? & ? & ? & ?) Ho9. apply HQ; [|done].
    repeat split; congruence. }
  destruct (mm_ops mm); step; eapply wp_drop_file; eauto.
Qed.

Lemma wp_stop_ctlfs_dirs self mm os Q G w :
  mans w !! self = Some mm -> owns w (d_migman mm :: mm_symlink mm :: d_conns mm :: d_migproc mm :: os) ->
  (forall w', same_but_objs w w' -> owns w' os -> Q tt w') -> wp (tcmi_migman_stop_ctlfs_dirs self) Q G w.
Proof.
  intros Hm Ho HQ. unfold tcmi_migman_stop_ctlfs_dirs. step. do 3 put_next. eapply wp_obj_put; [eassumption|].
  intros w9 (? & ? & ? & ? & ? & ? & ?) Ho9. apply HQ; [|done]. repeat split; congruence.
Qed.

(** Destroying a manager from its own message thread leaves the signal that ends the thread. *)
Lemma wp_migman_free_self self mm l Q G w :
  mans w !! self = Some mm -> msg_thread mm = Some (current w) -> procs w !! current w = Some l ->
  owns w (migman_objs mm) ->
  (forall w' l' mm', current w' = current w -> procs w' = <[current w := l']> (procs w) -> pending l' <> [] ->
     mans w' = <[self := mm']> (mans w) -> Q tt w') ->
  wp (tcmi_migman_free self) Q G w.
Proof.
  intros Hm Ht Hl Ho HQ. unfold tcmi_migman_free, tcmi_migman_stop_thread, force_sig. apply wp_bind. step. rewrite Ht.
  do 2 step. rewrite Z.eqb_refl. cbn [negb when]. step. step.
  assert (Hpend : pending (if bool_decide (SIGTERM ∈ (pending l).*1) then l
                           else p_set_pending (pending l ++ [(SIGTERM, [])]) l) <> []).
  { case_bool_decide as E; cbn; [intros Hn; rewrite Hn in E; by apply not_elem_of_nil in E|]. intros Hn. by apply app_eq_nil in Hn as [_ ?]. }
  set (l' := if bool_decide _ then _ else _) in *. set (w0 := set_procs _ w).
  assert (Ho0 : owns w0 (migman_objs mm)) by done. clearbody l'.
  apply wp_bind. eapply wp_obj_put; [exact Ho0|]. intros w1 (_ & _ & _ & N1 & P1 & C1 & _) Ho1.
  apply wp_bind. eapply wp_stop_ctlfs_files; [by rewrite N1|exact Ho1|]. intros w2 (_ & _ & _ & N2 & P2 & C2 & _) Ho2.
  apply wp_bind. eapply wp_stop_ctlfs_dirs; [by rewrite N2, N1|exact Ho2|]. intros w3 (_ & _ & _ & N3 & P3 & C3 & _) Ho3.
  apply wp_bind. eapply wp_obj_put; [exact Ho3|]. intros w4 (_ & _ & _ & N4 & P4 & C4 & _) _.
  assert (Hm4 : mans w4 !! self = Some mm) by (rewrite N4, N3, N2, N1; exact Hm).
  assert (Hp4 : procs w4 = <[current w:=l']> (procs w)) by (by rewrite P4, P3, P2, P1).
  assert (Hc4 : current w4 = current w) by (by rewrite C4, C3, C2, C1).
  unfold tcmi_migman_unhash. apply wp_bind. step. assert (Hn : mans w4 = mans w) by (by rewrite N4, N3, N2, N1).
  destruct (mm_hashed mm); cbn [when]; step; step; (eapply (HQ _ l'); [done|done|done|]);
    proj; rewrite Hn; [rewrite insert_insert_eq|]; reflexivity.
Qed.

Lemma wp_should_stop_pending l Q G w :
  procs w !! current w = Some l -> pending l <> [] -> (forall w', mans w' = mans w -> Q true w') -> wp should_stop Q G w.
Proof.
  intros Hl Hp HQ. unfold should_stop. do 3 step. step. rewrite (bool_decide_eq_true_2 _ Hp), orb_true_r. by apply HQ.
Qed.

(** The work of [ops->stop] for a manager without tasks: the director hears of the disconnection. *)
Lemma wp_ops_stop_idle self mm slot Q G w :
  mans w !! self = Some mm -> manager_slot mm = Some slot ->
  (mm_ops mm = Penmigman -> exists v, tcmi_slot_lock (mm_tasks mm) = Some v /\ tasks_of v = []) ->
  (forall w' tv, mans w' = <[self := mm_set_tasks tv mm]> (mans w) -> tasks w' = tasks w -> procs w' = procs w ->
     current w' = current w -> objs w' = objs w -> Q tt w') ->
  wp (ops_stop self true) Q G w.
Proof.
  intros Hm Hslot Hidle HQ. unfold ops_stop. step.
  assert (Hsame : <[self := mm_set_tasks (mm_tasks mm) mm]> (mans w) = mans w).
  { apply insert_id. rewrite Hm. f_equal. by destruct mm. }
  destruct (mm_ops mm) eqn:Hops.
  - unfold tcmi_ccnmigman_stop, tcmi_migman_slot_index. apply wp_bind. step. eapply wp_valid; [exact Hslot|]. step.
    eapply (HQ _ (mm_tasks mm)); proj; done.
  - destruct Hidle as (v & Hv & Hts); [done|].
    unfold tcmi_penmigman_stop, tcmi_penmigman_migrate_all_home, for_each_task, tcmi_migman_slot_index. apply wp_bind, wp_bind, wp_bind.
    step. apply wp_bind. eapply wp_valid; [exact Hv|]. step. rewrite Hts. cbn [for_tasks]. step. step. step. apply wp_bind. step.
    eapply wp_valid; [exact Hslot|]. step. eapply (HQ _ (tcmi_slot_unlock v)); proj; [|done..]. by rewrite !insert_insert_eq.
Qed.

(** C21: When the peer disconnects and only the connection still refers to the manager, its own
    message thread drops the last reference: the manager is destroyed, and the thread, which has no
    manager any more, ends in its next step without reading it and without waiting for anybody to
    stop it.  Nothing is assumed of later stop requests ([wait_on_should_stop] may sleep forever):
    the thread ends because the put reported the manager as freed.  The manager is one of either
    node; that of an execution node has no tasks, since each task holds a reference. *)
Theorem disconnect_frees_and_ends_thread (fuel : nat) (self m : Z) (mm : tcmi_migman) (msg : tcmi_msg)
    (l : task_struct) (slot : nat) (ARCH_CURRENT : Z) (mp : fs_mount_params) w :
  mans w !! self = Some mm ->
  (mm_ops mm = Penmigman -> exists v, tcmi_slot_lock (mm_tasks mm) = Some v /\ tasks_of v = []) ->
  mm_ref mm = 1 -> mm_state mm = TCMI_MIGMAN_CONNECTED ->
  manager_slot mm = Some slot -> unlocked (mm_queue mm) [m] -> msgs w !! m = Some msg ->
  msg_id msg = TCMI_DISCONNECT_MSG_ID -> msg_thread mm = Some (current w) -> procs w !! current w = Some l ->
  pending l = [] -> a_ok (answers w (tick w)) = true -> owns w (migman_objs mm) ->
  wp (tcmi_migman_msg_thread ARCH_CURRENT mp (Datatypes.S fuel) self)
    (fun r w' => r = 0 /\ mans w' = delete self (mans w)) (fun _ _ => False) w.
Proof.
  intros Hm Hidle Href Hst Hslot Hq Hmsg Hid Hthr Hl Hpend Hok Ho. unfold tcmi_migman_msg_thread. apply wp_bind.
  cbn [mm_msg_loop]. apply wp_bind. unfold should_stop at 1. do 3 step. step. rewrite Hok, Hpend. cbn [negb orb].
  rewrite bool_decide_eq_false_2 by (intros Hn; by apply Hn).
  apply wp_bind. unfold mm_wait_for_msg. step. unfold tcmi_queue_wait_on_empty_interruptible, tcmi_queue_empty.
  destruct (queue_remove_unlocked _ m [] Hq) as (q' & Hr & _). destruct Hq as [_ Hq]. rewrite Hq. cbn [negb]. step.
  cbn [Z.ltb Z.compare]. step. apply wp_bind. eapply wp_valid; [exact Hr|]. cbv beta iota. do 2 step.
  rewrite Hid. change (TCMI_DISCONNECT_MSG_ID =? TCMI_DISCONNECT_MSG_ID) with true. cbv iota.
  apply wp_bind. unfold tcmi_migman_stop_perform, tcmi_migman_change_state. apply wp_bind. step.
  cbn [mm_state mm_set_queue mm_with]. rewrite Hst, bool_decide_eq_true_2 by done. do 2 step.
  apply wp_bind. eapply wp_ops_stop_idle; [lk|exact Hslot|exact Hidle|]. proj.
  intros w0 tv HN0 _ HP0 HC0 HO0. cbn [negb when]. step. unfold tcmi_migman_put.
  assert (Hm0 := f_equal (lookup self) HN0). rewrite lookup_insert_eq in Hm0.
  do 2 step. cbn [mm_ref mm_set_tasks mm_set_state mm_set_queue mm_with].
  rewrite Href. change (1 - 1 =? 0) with true. cbv iota. apply wp_bind.
  eapply wp_migman_free_self; [lk|proj; rewrite HC0; exact Hthr|proj; rewrite HC0, HP0; exact Hl| |].
  { eapply (owns_eq w); [|exact Ho]. proj. by rewrite HO0. }
  proj. intros w' l' mm' HC HP Hpend' HN. do 2 step. destruct fuel; cbn [mm_msg_loop]; apply wp_bind.
  all: eapply wp_should_stop_pending; [proj; rewrite HC, HP; apply lookup_insert_eq|exact Hpend'|].
  all: proj; intros w2 HN2; step; cbn [Z.eqb when]; do 2 step; split; [done|];
    rewrite HN2, HN, !delete_insert_eq, HN0, !delete_insert_eq; done.
Qed.
End shutdown.

(** ** Witnesses *)

(** A connected manager of one task. *)
Definition ex_pen : tcmi_migman :=
  mm_set_sock (Some 7) (mm_set_state TCMI_MIGMAN_CONNECTED (mm_set_trans (Some ex_trans)
    (mm_set_ref 3 (mm_set_tasks (mk_slotvec [mk_slot 0 [1]] 1 (Some 0) [] [0%nat] 1 false)
      (mk_migman (mk_slotvec [] 0 None [] [] 0 false) 0 0 (Some 2%nat) true 0 0 tcmi_queue_init None None None None
         TCMI_MIGMAN_INIT None None None None None None None 0 None None Penmigman))))).
Definition ex_pen_node : kw seg_kernel :=
  set_mans (fun _ => {[30 := ex_pen]}) (set_socks (fun _ => {[7 := mk_seg [] [] []]}) ex_home_node).

Lemma shutdown_drops_one_reference_witness :
  exists w', requests 30 [SR_stop; SR_disconnect; SR_kill; SR_stop] ex_pen_node = Ret tt w' /\
    man_is 30 2 TCMI_MIGMAN_SHUTTING_DOWN w'.
Proof.
  pose proof (shutdown_drops_one_reference 30 3 [SR_stop; SR_disconnect; SR_kill; SR_stop] ex_pen_node) as Hs.
  unfold wlp in Hs. destruct (requests 30 [SR_stop; SR_disconnect; SR_kill; SR_stop] ex_pen_node) as [[] w'|? ?|] eqn:E.
  - clear E. exists w'. split; [reflexivity|]. apply Hs; [|lia|done]. split; [by exists ex_pen|].
    intros p t Ht. change (tasks ex_pen_node) with ({[1 := ex_task 42 50 [2] None Shadowtask]} : gmap Z tcmi_task) in Ht.
    apply lookup_singleton_Some in Ht as [_ <-]. cbn. lia.
  - exfalso. vm_compute in E. discriminate E.
  - exfalso. vm_compute in E. discriminate E.
Defined.

(** A connected manager of an execution node, without tasks. *)
Definition ex_idle : tcmi_migman :=
  mk_migman (mk_slotvec [] 0 None [] [] 0 false) 0 0 (Some 2%nat) true 0 1 (mk_queue false [100] 1 TCMI_QUEUE_STATIC 0)
    (Some ex_trans) (Some 70) (Some 71) (Some 42) TCMI_MIGMAN_CONNECTED (Some 72) (Some 73) (Some 74) (Some 75) (Some 76)
    (Some 77) None 0 (Some 78) None Penmigman.
Definition ex_disconnect : tcmi_msg := mk_msg TCMI_DISCONNECT_MSG_ID 0 0 None 1 B_disconnect.
Definition ex_idle_node : kw seg_kernel :=
  set_objs (fun _ => list_to_map ((fun p => (p, 1)) <$> [70; 71; 72; 73; 74; 75; 76; 77; 78]))
    (set_msgs (fun _ => {[100 := ex_disconnect]}) (set_mans (fun _ => {[30 := ex_idle]}) ex_home_node)).

Lemma disconnect_frees_and_ends_thread_witness :
  exists w', tcmi_migman_msg_thread 2 (mk_mount [] [] []) 1 30 ex_idle_node = Ret 0 w' /\ mans w' = delete 30 (mans ex_idle_node).
Proof.
  pose proof (disconnect_frees_and_ends_thread 0 30 100 ex_idle ex_disconnect ex_proc 2 2 (mk_mount [] [] []) ex_idle_node) as Hs.
  unfold wp in Hs. destruct (tcmi_migman_msg_thread 2 (mk_mount [] [] []) 1 30 ex_idle_node) as [r w'|? ?|] eqn:E.
  - clear E. exists w'. destruct Hs as [-> Hd]; try reflexivity; [by eexists| | |by split]; [by split|].
    intros p Hp. destruct (decide (p ∈ [70; 71; 72; 73; 74; 75; 76; 77; 78])) as [Hin|Hout].
    + exists 1. repeat (apply elem_of_cons in Hin as [->|Hin]; [by vm_compute|]). by apply elem_of_nil in Hin.
    + exfalso. unfold occ, migman_objs in Hp. cbn in Hp.
      repeat (rewrite bool_decide_eq_false_2 in Hp by (intros [= <-]; apply Hout; set_solver)). by vm_compute in Hp.
  - exfalso. vm_compute in E. discriminate E.
  - exfalso. vm_compute in E. discriminate E.
Defined.
