(* ===== verification/Methods.v ===== *)
(** The methods of a task: reference counts of method wrappers
    (src/src/tcmi/task/tcmi_method_wrapper.h, tcmi_task.c).

    A wrapper's count is the number of times it stands in method queues plus the number of
    references that running code holds; a wrapper that is freed is neither queued nor held.
    [acc h w] says this of the world [w], where [h] counts the references held by code. *)

From stdpp Require Import gmap.
From S2P Require Import Prelude Effect SlotVec Transaction KkcSock MsgId Messages Queue Msg NpmParams World Task TaskOps Migcom Migman Frames.

(** ** Occurrences in queues *)

Definition cnt (p : Z) (l : list Z) : Z := Z.of_nat (count_occ Z.eq_dec l p).
Definition queued (q : gmap Z (list Z)) (p : Z) : Z := map_fold (fun _ l acc => cnt p l + acc) 0 q.

Lemma cnt_nonneg p l : 0 <= cnt p l.
Proof. unfold cnt. lia. Qed.
Lemma cnt_cons p x l : cnt p (x :: l) = (if decide (x = p) then 1 else 0) + cnt p l.
Proof. unfold cnt. cbn. destruct (Z.eq_dec x p), (decide (x = p)); done || lia. Qed.
Lemma cnt_app p l k : cnt p (l ++ k) = cnt p l + cnt p k.
Proof. unfold cnt. rewrite count_occ_app. lia. Qed.
Lemma cnt_zero p l : cnt p l = 0 -> p ∉ l.
Proof. unfold cnt. intros Hc Hin. apply list_elem_of_In, (count_occ_In Z.eq_dec) in Hin. lia. Qed.

Lemma queued_insert q k l p : q !! k = None -> queued (<[k := l]> q) p = cnt p l + queued q p.
Proof. intros Hk. unfold queued. rewrite map_fold_insert_L; [done| |done]. intros. lia. Qed.
Lemma queued_delete q k l p : q !! k = Some l -> queued q p = cnt p l + queued (delete k q) p.
Proof.
  intros Hk. rewrite <- (insert_delete_id q k l Hk) at 1. rewrite queued_insert; [done|]. apply lookup_delete_eq.
Qed.
Lemma queued_update q k l l' p : q !! k = Some l -> queued (<[k := l']> q) p = queued q p - cnt p l + cnt p l'.
Proof.
  intros Hk. rewrite (queued_delete q k l p Hk), <- (insert_delete_eq q k l'), queued_insert by apply lookup_delete_eq. lia.
Qed.
Lemma queued_nonneg q p : 0 <= queued q p.
Proof.
  induction q as [|k l q Hk _ IH] using map_first_key_ind; [done|].
  rewrite queued_insert by done. pose proof (cnt_nonneg p l). lia.
Qed.
Lemma queued_in q k l p : q !! k = Some l -> cnt p l <= queued q p.
Proof. intros Hk. rewrite (queued_delete q k l p Hk). pose proof (queued_nonneg (delete k q) p). lia. Qed.

(** Taking a wrapper that is in no queue out of all queues. *)
Lemma unlink_absent (q : gmap Z (list Z)) p : queued q p = 0 -> list_del p <$> q = q.
Proof.
  intros Hq. apply map_eq. intros k. rewrite lookup_fmap. destruct (q !! k) as [l|] eqn:E; [|done]. cbn. f_equal.
  apply list_del_notin. apply cnt_zero. pose proof (queued_in _ _ _ p E). pose proof (cnt_nonneg p l). lia.
Qed.

(** ** The accounting *)

Program Definition method_view : view := {|
  vt := fun t => queue (method_queue t); vm := fun _ => tt; vp := fun _ => tt; vw := fun ws => ws
|}.
Solve All Obligations with done.

Section accounting.
Context {S : Type} `{Sock S}.
Abbreviation M := (eff (kw S)).
Implicit Types (w : kw S) (h : Z -> Z).

Definition queues w : gmap Z (list Z) := (fun t => queue (method_queue t)) <$> tasks w.

Record acc h w : Prop := {
  acc_held p : 0 <= h p;
  acc_ref p : match wraps w !! p with
              | Some wr => wr_ref wr = h p + queued (queues w) p /\ 0 < wr_ref wr
              | None => h p = 0 /\ queued (queues w) p = 0
              end;
  acc_next p : is_Some (wraps w !! p) -> p < next w
}.

Lemma acc_ext h h' w : (forall p, h p = h' p) -> acc h w -> acc h' w.
Proof. intros He [H1 H2 H3]. split; [intros p; rewrite <- He; apply H1|intros p; rewrite <- He; apply H2|done]. Qed.
Lemma acc_seen h w w' : acc h w -> see method_view w' = see method_view w -> next w <= next w' -> acc h w'.
Proof.
  intros [H1 H2 H3] [=Hq Hw] Hn. split; [done| |].
  - intros p. unfold queues in *. cbn in *. rewrite Hw, Hq. apply H2.
  - intros p. cbn in Hw. rewrite Hw. intros Hp. specialize (H3 p Hp). lia.
Qed.

(** Code that starts with the references [h] and returns with [h' a]. *)
Definition ok {A} h (m : M A) (h' : A -> Z -> Z) : Prop :=
  forall w, acc h w -> wlp m (fun a => acc (h' a)) (fun _ w' => exists k, acc k w') w.
(** Code that returns with the references it started with. *)
Definition balanced {A} (m : M A) : Prop := forall h, ok h m (fun _ => h).

Lemma ok_bind {A B} h (m : M A) (f : A -> M B) (h1 : A -> Z -> Z) (h2 : B -> Z -> Z) :
  ok h m h1 -> (forall a, ok (h1 a) (f a) h2) -> ok h (m ≫= f) h2.
Proof. intros Hm Hf w Hw. apply wlp_bind. eapply wlp_mono; [by apply Hm|intros a w'; apply Hf|done]. Qed.
Lemma ok_ret {A} h (a : A) : ok h (mret a) (fun _ => h).
Proof. intros w Hw. exact Hw. Qed.
Lemma ok_mono {A} h (m : M A) (h1 h2 : A -> Z -> Z) : ok h m h1 -> (forall a p, h1 a p = h2 a p) -> ok h m h2.
Proof. intros Hm He w Hw. eapply wlp_mono; [by apply Hm| |done]. intros a w'. apply acc_ext, He. Qed.
Lemma ok_pre {A} h h0 (m : M A) (h1 : A -> Z -> Z) : (forall p, h p = h0 p) -> ok h0 m h1 -> ok h m h1.
Proof. intros He Hm w Hw. apply Hm. by eapply acc_ext. Qed.

Lemma balanced_leaves {A} (m : M A) : leaves method_view m -> balanced m.
Proof.
  intros Hm h w Hw. eapply wlp_mono; [apply leaves_next, Hm|..].
  - intros a w' [Hs Hn]. by eapply acc_seen.
  - intros s w' [Hs Hn]. exists h. by eapply acc_seen.
Qed.
Lemma balanced_bind {A B} (m : M A) (f : A -> M B) : balanced m -> (forall a, balanced (f a)) -> balanced (m ≫= f).
Proof. intros Hm Hf h. eapply ok_bind; [apply Hm|intros a; apply Hf]. Qed.
Lemma balanced_when b m : balanced m -> balanced (when b m).
Proof. intros Hm. destruct b; [exact Hm|]. intros h. apply ok_ret. Qed.

(** ** Wrappers *)

Lemma ok_wrapper_new m d s h :
  ok h (tcmi_method_wrapper_new m d s) (fun o => match o with Some p => add_ref p 1 h | None => h end).
Proof.
  assert (Hstore : forall d, ok h (p ← fresh; modify (set_wraps (insert p (mk_wrapper m d 1)));; mret (Some p))
    (fun o => match o with Some p => add_ref p 1 h | None => h end)).
  { intros d' w [H1 H2 H3]. unfold wlp, fresh. run.
    assert (Hf : wraps w !! next w = None).
    { destruct (wraps w !! next w) eqn:E; [|done]. assert (next w < next w) by (apply H3; rewrite E; by eexists). lia. }
    split.
    - intros p. unfold add_ref. pose proof (H1 p). pose proof (H1 (next w)). case_decide; lia.
    - intros p. unfold queues in *. proj. unfold add_ref. destruct (decide (p = next w)) as [->|Hne].
      + rewrite lookup_insert_eq. specialize (H2 (next w)). rewrite Hf in H2. cbn. lia.
      + rewrite lookup_insert_ne by done. apply H2.
    - intros p. proj. destruct (decide (p = next w)) as [->|Hne]; [lia|]. rewrite lookup_insert_ne by done.
      intros Hp. specialize (H3 p Hp). lia. }
  unfold tcmi_method_wrapper_new. eapply ok_bind; [apply balanced_leaves, leaves_ask|intros a].
  destruct (negb (a_ok a)); [intros w Hw; exact Hw|]. destruct d as [d|]; [|apply Hstore].
  destruct (negb (s =? 0)); [|apply Hstore]. eapply ok_bind; [apply balanced_leaves, leaves_ask|intros a'].
  destruct (negb (a_ok a')); [intros w Hw; exact Hw|apply Hstore].
Qed.

Definition nonneg h : Prop := forall p, 0 <= h p.

(** The count of one wrapper changes. *)
Lemma ok_wrapper_get p h : ok h (tcmi_method_wrapper_get (Some p)) (fun _ => add_ref p 1 h).
Proof.
  intros w [H1 H2 H3]. unfold wlp, tcmi_method_wrapper_get, wrapper. run.
  destruct (wraps w !! p) as [wr|] eqn:E; [|done]. split.
  - intros q. specialize (H1 q). unfold add_ref. case_decide; subst; lia.
  - intros q. specialize (H2 q). unfold queues in *. proj. unfold add_ref. destruct (decide (q = p)) as [->|Hne].
    + rewrite lookup_insert_eq. rewrite E in H2. cbn. lia.
    + by rewrite lookup_insert_ne.
  - intros q. proj. destruct (decide (q = p)) as [->|Hne]; [intros _; apply H3; by eexists|].
    rewrite lookup_insert_ne by done. apply H3.
Qed.

Lemma queues_unlink w p : queues (set_tasks (fmap (unlink_wrapper p)) w) = list_del p <$> queues w.
Proof. unfold queues. proj. rewrite <- !map_fmap_compose. by apply map_fmap_ext. Qed.

Lemma ok_wrapper_put p h : nonneg h -> ok (add_ref p 1 h) (tcmi_method_wrapper_put (Some p)) (fun _ => h).
Proof.
  intros Hh w [H1 H2 H3]. unfold wlp, tcmi_method_wrapper_put, wrapper. run.
  destruct (wraps w !! p) as [wr|] eqn:E; [|done]. pose proof (H2 p) as Hp. rewrite E in Hp. unfold add_ref in Hp.
  rewrite decide_True in Hp by done. pose proof (Hh p). pose proof (queued_nonneg (queues w) p).
  assert (Hq : forall q, q <> p -> add_ref p 1 h q = h q) by (intros q Hq; unfold add_ref; by rewrite decide_False).
  destruct (wr_ref wr - 1 =? 0) eqn:E0; bool_hyps.
  - assert (Hz : queued (queues w) p = 0) by lia. pose proof (queues_unlink w p) as Hu.
    rewrite (unlink_absent _ _ Hz) in Hu. split; [done| |].
    + intros q. unfold queues in *. proj. cbn [tasks set_tasks] in Hu. rewrite Hu.
      destruct (decide (q = p)) as [->|Hne]; [rewrite lookup_delete_eq; lia|].
      rewrite lookup_delete_ne by done. specialize (H2 q). by rewrite Hq in H2.
    + intros q. proj. intros [x Hx]. apply lookup_delete_Some in Hx as [_ Hx]. apply H3. by exists x.
  - split; [done| |].
    + intros q. unfold queues in *. proj. destruct (decide (q = p)) as [->|Hne].
      * rewrite lookup_insert_eq. cbn. lia.
      * rewrite lookup_insert_ne by done. specialize (H2 q). by rewrite Hq in H2.
    + intros q. proj. destruct (decide (q = p)) as [->|Hne]; [intros _; apply H3; by eexists|].
      rewrite lookup_insert_ne by done. apply H3.
Qed.

(** ** Queues *)

Lemma queues_upd w p t f :
  tasks w !! p = Some t -> queues (set_tasks (insert p (f t)) w) = <[p := queue (method_queue (f t))]> (queues w).
Proof. intros Ht. unfold queues. proj. by rewrite fmap_insert. Qed.
Lemma queues_lookup w p t : tasks w !! p = Some t -> queues w !! p = Some (queue (method_queue t)).
Proof. intros Ht. unfold queues. by rewrite lookup_fmap, Ht. Qed.

(** A queue is replaced by one with other elements; the difference is the code's. *)
Lemma acc_requeue h h' w p t t' :
  acc h w -> tasks w !! p = Some t -> nonneg h' ->
  (forall q, h' q + cnt q (queue (method_queue t')) = h q + cnt q (queue (method_queue t))) ->
  acc h' (set_tasks (insert p t') w).
Proof.
  intros [H1 H2 H3] Ht Hh Heq. split; [done| |done]. intros q. rewrite (queues_upd w p t (fun _ => t') Ht). proj.
  rewrite (queued_update _ _ _ _ _ (queues_lookup w p t Ht)). specialize (H2 q). specialize (Heq q). specialize (Hh q).
  pose proof (queued_in _ _ _ q (queues_lookup w p t Ht)). pose proof (cnt_nonneg q (queue (method_queue t))).
  pose proof (cnt_nonneg q (queue (method_queue t'))). specialize (H1 q). destruct (wraps w !! q); lia.
Qed.

Definition held (o : option Z) h : Z -> Z := match o with Some p => add_ref p 1 h | None => h end.

Lemma held_nonneg o h : nonneg h -> nonneg (held o h).
Proof. intros Hh q. unfold held, add_ref. destruct o; [|apply Hh]. specialize (Hh q). case_decide; subst; lia. Qed.

Lemma queue_add_elems q e q' : tcmi_queue_add q e = Some q' -> queue q' = queue q ++ [e].
Proof. unfold tcmi_queue_add, tcmi_queue_lock. destruct (q_lock q); [done|]. intros E. cbn in E. by injection E as <-. Qed.
Lemma queue_remove_elems q o q' :
  __tcmi_queue_remove q = (o, q') ->
  queue q = (match o with Some e => [e] | None => [] end) ++ queue q'.
Proof. unfold __tcmi_queue_remove, tcmi_queue_empty. destruct (queue q) eqn:E; intros [= <- <-]; by rewrite ?E. Qed.
Lemma queue_remove_locked q o q' :
  tcmi_queue_remove q = Some (o, q') -> queue q = (match o with Some e => [e] | None => [] end) ++ queue q'.
Proof.
  unfold tcmi_queue_remove, tcmi_queue_lock. destruct (q_lock q); [done|]. cbn.
  destruct (__tcmi_queue_remove _) as [o1 q1] eqn:E. intros [= <- <-]. by apply queue_remove_elems in E.
Qed.

Lemma ok_add_wrapper self p h : nonneg h -> ok (add_ref p 1 h) (tcmi_task_add_wrapper self p) (fun _ => h).
Proof.
  intros Hh w Hw. unfold wlp, tcmi_task_add_wrapper, upd_task, task. run. destruct (tasks w !! self) as [t|] eqn:Et; [|done].
  destruct (tcmi_queue_add _ p) as [q|] eqn:Eq; [|done]. run. rewrite Et. eapply acc_requeue; [exact Hw|exact Et|done|].
  intros r. cbn. apply queue_add_elems in Eq as ->. rewrite cnt_app, cnt_cons. change (cnt r []) with 0. unfold add_ref.
  repeat case_decide; subst; try done; lia.
Qed.

Lemma wlp_task {A} p (f : tcmi_task -> M A) Q G w :
  (forall t, tasks w !! p = Some t -> wlp (f t) Q G w) -> wlp (task p ≫= f) Q G w.
Proof. intros Hf. unfold wlp, task in *. run. destruct (tasks w !! p); [by apply Hf|done]. Qed.
Lemma wlp_upd_task {A} p g (f : unit -> M A) Q G w :
  (forall t, tasks w !! p = Some t -> wlp (f tt) Q G (set_tasks (insert p (g t)) w)) -> wlp (upd_task p g ≫= f) Q G w.
Proof. intros Hf. unfold wlp, upd_task, task in *. run. destruct (tasks w !! p); [by apply Hf|done]. Qed.
Lemma wlp_valid {A B} (o : option B) (f : B -> M A) Q G w :
  (forall b, o = Some b -> wlp (f b) Q G w) -> wlp (valid o ≫= f) Q G w.
Proof. intros Hf. destruct o; [by apply Hf|done]. Qed.

Lemma acc_nonneg h w : acc h w -> nonneg h.
Proof. by intros []. Qed.

(** An element that leaves a queue is then held. *)
Lemma acc_take self t o q h w :
  acc h w -> tasks w !! self = Some t ->
  queue (method_queue t) = (match o with Some e => [e] | None => [] end) ++ queue q ->
  acc (held o h) (set_tasks (insert self (t_set_method_queue q t)) w).
Proof.
  intros Hw Ht Hq. pose proof (acc_nonneg _ _ Hw) as Hh.
  eapply acc_requeue; [exact Hw|exact Ht|by apply held_nonneg|]. intros r. rewrite Hq, cnt_app. cbn.
  destruct o as [e|]; cbn [held]; [|done]. rewrite cnt_cons. change (cnt r []) with 0. unfold add_ref.
  repeat case_decide; subst; try done; lia.
Qed.
(** A held wrapper is queued. *)
Lemma acc_give self t q p h w :
  acc (add_ref p 1 h) w -> nonneg h -> tasks w !! self = Some t -> queue q = queue (method_queue t) ++ [p] ->
  acc h (set_tasks (insert self (t_set_method_queue q t)) w).
Proof.
  intros Hw Hh Ht Hq. eapply acc_requeue; [exact Hw|exact Ht|done|]. intros r. cbn. rewrite Hq, cnt_app, cnt_cons.
  change (cnt r []) with 0. unfold add_ref. repeat case_decide; subst; try done; lia.
Qed.
(** The queue is replaced by one with the same elements. *)
Lemma acc_same self t q h w :
  acc h w -> tasks w !! self = Some t -> queue q = queue (method_queue t) ->
  acc h (set_tasks (insert self (t_set_method_queue q t)) w).
Proof. intros Hw Ht Hq. eapply acc_requeue; [exact Hw|exact Ht|by eapply acc_nonneg|]. intros r. cbn. by rewrite Hq. Qed.

Lemma ok_put_held o h : nonneg h -> ok (held o h) (tcmi_method_wrapper_put o) (fun _ => h).
Proof. intros Hh. destruct o; [by apply ok_wrapper_put|]. apply ok_ret. Qed.

Lemma balanced_submit self m d s : balanced (tcmi_task_submit_method self m d s).
Proof.
  intros h w Hw. pose proof (acc_nonneg _ _ Hw) as Hh. revert w Hw. change (ok h (tcmi_task_submit_method self m d s) (fun _ => h)).
  unfold tcmi_task_submit_method. eapply ok_bind; [apply ok_wrapper_new|]. intros [p|]; [by apply ok_add_wrapper|apply ok_ret].
Qed.

Lemma balanced_flush n self : balanced (flush_methods n self).
Proof.
  induction n as [|n IH]; intros h; cbn [flush_methods]; [apply ok_ret|]. intros w Hw.
  pose proof (acc_nonneg _ _ Hw) as Hh. apply wlp_task. intros t Ht.
  destruct (__tcmi_queue_remove (method_queue t)) as [o q] eqn:E. apply queue_remove_elems in E.
  apply wlp_upd_task. intros t' Ht'. rewrite Ht in Ht'. injection Ht' as <-.
  pose proof (acc_take self t o q h w Hw Ht E) as Hw1. revert Hw1. generalize (set_tasks (insert self (t_set_method_queue q t)) w).
  change (ok (held o h) (tcmi_method_wrapper_put o;; flush_methods n self) (fun _ => h)).
  eapply ok_bind; [by apply ok_put_held|intros ?; apply IH].
Qed.

Lemma balanced_drain n self : balanced (drain_methods n self).
Proof.
  induction n as [|n IH]; intros h; cbn [drain_methods]; [apply ok_ret|]. intros w Hw.
  pose proof (acc_nonneg _ _ Hw) as Hh. apply wlp_task. intros t Ht. apply wlp_valid. intros [o q] E.
  apply queue_remove_locked in E. apply wlp_upd_task. intros t' Ht'. rewrite Ht in Ht'. injection Ht' as <-.
  pose proof (acc_take self t o q h w Hw Ht E) as Hw1. revert Hw1. generalize (set_tasks (insert self (t_set_method_queue q t)) w).
  change (ok (held o h) (tcmi_method_wrapper_put o;; drain_methods n self) (fun _ => h)).
  eapply ok_bind; [by apply ok_put_held|intros ?; apply IH].
Qed.

Lemma queue_lock_elems q q' : tcmi_queue_lock q = Some q' -> queue q' = queue q.
Proof. unfold tcmi_queue_lock. destruct (q_lock q); [done|]. by intros [= <-]. Qed.

Lemma balanced_flush_and_submit self m d s : balanced (tcmi_task_flush_and_submit_method self m d s).
Proof.
  intros h w Hw. pose proof (acc_nonneg _ _ Hw) as Hh. revert w Hw.
  change (ok h (tcmi_task_flush_and_submit_method self m d s) (fun _ => h)).
  unfold tcmi_task_flush_and_submit_method. eapply ok_bind; [apply ok_wrapper_new|]. intros [p|]; [|apply ok_ret].
  intros w Hw. apply wlp_task. intros t Ht. apply wlp_valid. intros q Hq. apply wlp_upd_task. intros t' Ht'.
  rewrite Ht in Ht'. injection Ht' as <-. apply queue_lock_elems in Hq as Hq'.
  pose proof (acc_same self t q _ w Hw Ht Hq') as Hw1. apply wlp_bind.
  eapply wlp_mono; [by apply (balanced_flush _ _ (add_ref p 1 h))| |done]. intros u w2 Hw2.
  apply wlp_upd_task. intros t2 Ht2. pose proof (acc_give self t2 (__tcmi_queue_add (method_queue t2) p) p h w2 Hw2 Hh Ht2 eq_refl) as Hw3.
  revert Hw3. generalize (set_tasks (insert self (t_set_method_queue (__tcmi_queue_add (method_queue t2) p) t2)) w2). intros w4 Hw4.
  unfold wlp, upd_task, task. run. destruct (tasks w4 !! self) as [t4|] eqn:Et4; [|done]. by apply acc_same.
Qed.

(** ** Destroying a task *)

Lemma wlp_and {A} (m : M A) (Q Q' : A -> kw S -> Prop) (G G' : stop -> kw S -> Prop) w :
  wlp m Q G w -> wlp m Q' G' w -> wlp m (fun a w' => Q a w' /\ Q' a w') (fun s w' => G s w' /\ G' s w') w.
Proof. unfold wlp. destruct (m w); auto. Qed.

(** At most [n] methods are queued. *)
Definition qlen (self : Z) (n : nat) w : Prop :=
  forall t, tasks w !! self = Some t -> (length (queue (method_queue t)) <= n)%nat.

Lemma list_del_length (p : Z) l : (length (list_del p l) <= length l)%nat.
Proof. unfold list_del. apply length_filter. Qed.

Lemma qlen_put self n o : keeps (qlen self n) (tcmi_method_wrapper_put o).
Proof.
  intros w Hw. destruct o as [p|]; [|exact Hw]. unfold wlp, tcmi_method_wrapper_put, wrapper. run.
  destruct (wraps w !! p) as [wr|]; [|done]. destruct (_ =? 0); [|exact Hw]. intros t Ht. cbn [tasks set_tasks set_wraps] in Ht.
  rewrite lookup_fmap in Ht. apply fmap_Some in Ht as (t0 & Ht0 & ->). cbn. specialize (Hw t0 Ht0).
  pose proof (list_del_length p (queue (method_queue t0))). lia.
Qed.

Lemma queue_remove_none q q' : tcmi_queue_remove q = Some (None, q') -> queue q = [].
Proof.
  unfold tcmi_queue_remove, tcmi_queue_lock. destruct (q_lock q); [done|]. cbn. unfold __tcmi_queue_remove, tcmi_queue_empty.
  cbn. by destruct (queue q).
Qed.

Lemma qlen_drain n self w : qlen self n w -> wlp (drain_methods n self) (fun _ => qlen self 0) (fun _ _ => True) w.
Proof.
  revert w. induction n as [|n IH]; intros w Hw; cbn [drain_methods]; [exact Hw|].
  apply wlp_task. intros t Ht. apply wlp_valid. intros [o q] E0. pose proof (queue_remove_locked _ _ _ E0) as E.
  apply wlp_upd_task. intros t' Ht'. rewrite Ht in Ht'. injection Ht' as <-. apply wlp_bind.
  eapply wlp_mono; [apply (qlen_put self n)|by intros ? ?; apply IH|done].
  intros t1 Ht1. cbn [tasks set_tasks] in Ht1. rewrite lookup_insert_eq in Ht1. injection Ht1 as <-. cbn.
  specialize (Hw t Ht). destruct o as [e|]; [rewrite E in Hw; cbn in Hw; lia|].
  apply queue_remove_none in E0. rewrite E0 in E. cbn in E. rewrite <- E. cbn. lia.
Qed.

Lemma qlen_seen self n w w' : see method_view w' = see method_view w -> qlen self n w -> qlen self n w'.
Proof.
  intros [=Hq _] Hw t Ht. assert (Hl : queues w !! self = Some (queue (method_queue t))).
  { unfold queues. cbn in Hq. rewrite <- Hq. by rewrite lookup_fmap, Ht. }
  unfold queues in Hl. rewrite lookup_fmap in Hl. apply fmap_Some in Hl as (t0 & Ht0 & ->). by apply Hw.
Qed.

(** A task without queued methods disappears. *)
Lemma acc_delete self h w : acc h w -> qlen self 0 w -> acc h (set_tasks (delete self) w).
Proof.
  intros [H1 H2 H3] Hq. split; [done| |done]. intros p. specialize (H2 p). unfold queues in *. proj.
  rewrite fmap_delete. set (q := (fun t => queue (method_queue t)) <$> tasks w) in *.
  destruct (q !! self) as [l|] eqn:E; [|by rewrite delete_id].
  assert (l = []) as ->.
  { unfold q in E. rewrite lookup_fmap in E. apply fmap_Some in E as (t & Ht & ->). specialize (Hq t Ht).
    destruct (queue (method_queue t)); [done|cbn in Hq; lia]. }
  rewrite (queued_delete q self [] p E) in H2. change (cnt p []) with 0 in H2. by rewrite Z.add_0_l in H2.
Qed.

Lemma method_view_managers : ignores_managers method_view.
Proof. done. Qed.
#[local] Hint Resolve method_view_managers : leaves.

(** The last part of [task_destroy]. *)
Lemma ok_destroy_end self o h w :
  acc h w -> qlen self 0 w ->
  wlp (tcmi_task_release_execve_context self;; tcmi_migman_remove_task o self;; tcmi_migman_put tcmi_migman_free o;;
       modify (set_tasks (delete self))) (fun _ => acc h) (fun _ w' => exists k, acc k w') w.
Proof.
  intros Hw Hq.
  assert (Hl : leaves (S := S) method_view (tcmi_task_release_execve_context self;; tcmi_migman_remove_task o self;;
                                            tcmi_migman_put tcmi_migman_free o)) by lv.
  pose proof (leaves_next _ _ w Hl) as Hs. unfold wlp, mbind, eff_bind in *.
  destruct (tcmi_task_release_execve_context self w) as [[] w1| |]; [|exists h; destruct Hs; by eapply acc_seen|done].
  destruct (tcmi_migman_remove_task o self w1) as [z w2| |]; [|exists h; destruct Hs; by eapply acc_seen|done].
  destruct (tcmi_migman_put tcmi_migman_free o w2) as [z' w3| |]; [|exists h; destruct Hs; by eapply acc_seen|done].
  destruct Hs as [Hs Hn]. apply acc_delete; [by eapply acc_seen|by eapply qlen_seen].
Qed.

Lemma balanced_task_put o : balanced (tcmi_task_put (S := S) tcmi_migman_free o).
Proof.
  destruct o as [self|]; [|intros h; apply ok_ret]. unfold tcmi_task_put.
  apply balanced_bind; [apply balanced_leaves; lv|intros t]. apply balanced_bind; [apply balanced_leaves; lv|intros _].
  apply balanced_when. unfold task_destroy.
  do 8 (apply balanced_bind; [apply balanced_leaves; lv|intros ?]).
  apply balanced_bind; [apply balanced_leaves; lv|intros ?].
  apply balanced_bind; [apply balanced_leaves; lv|intros ?].
  intros h w Hw. apply wlp_task. intros t' Ht'. apply wlp_bind.
  eapply wlp_mono; [apply wlp_and; [by apply balanced_drain|apply qlen_drain]|..].
  - intros t2 Ht2. rewrite Ht' in Ht2. by injection Ht2 as <-.
  - intros ? w' [Hw' Hq']. by apply ok_destroy_end.
  - by intros ? ? [? _].
Qed.
End accounting.

Create HintDb balanced discriminated.
#[export] Hint Resolve balanced_submit balanced_flush_and_submit balanced_task_put : balanced.
#[export] Hint Resolve method_view_managers : leaves.

(** Follows the structure of a definition; parts that leave the methods alone are balanced. *)
Ltac bl :=
  repeat first
    [ solve [eauto 2 with balanced nocore]
    | solve [apply balanced_leaves;
             first [solve [eauto 2 with leaves nocore] | lv_upd
                   | apply leaves_modify; intros ?; split; [reflexivity|proj; apply Z.le_refl]]]
    | apply balanced_when
    | apply balanced_bind; [|intros ?]
    | case_match ].

Section operations.
Context {S : Type} `{Sock S} (HZ : Z).
Context (shadow_rpc : Z -> Z -> eff (kw S) (option Z)) (Hrpc : forall t m, balanced (shadow_rpc t m)).
Abbreviation tops := (task_ops_of HZ tcmi_migman_free shadow_rpc).

(** ** What shadow and guest do *)

Lemma balanced_get o : balanced (S := S) (tcmi_task_get o).
Proof. unfold tcmi_task_get. bl. Qed.
Lemma balanced_find_by_pid pid : balanced (S := S) (tcmi_taskhelper_find_by_pid pid).
Proof. unfold tcmi_taskhelper_find_by_pid. pose proof balanced_get. bl. Qed.
#[local] Hint Resolve balanced_get balanced_find_by_pid : balanced.
Lemma balanced_notify_by_pid pid m d s pr : balanced (S := S) (tcmi_taskhelper_notify_by_pid tcmi_migman_free pid m d s pr).
Proof. unfold tcmi_taskhelper_notify_by_pid, submit_by_priority. bl. Qed.
Lemma balanced_restart p n : balanced (S := S) (tcmi_taskhelper_restart p n).
Proof. unfold tcmi_taskhelper_restart. bl. Qed.
#[local] Hint Resolve balanced_notify_by_pid balanced_restart : balanced.

Lemma balanced_shadow_process_msg p m : balanced (tcmi_shadowtask_process_msg shadow_rpc p m).
Proof.
  unfold tcmi_shadowtask_process_msg, shadow_process_rpc, tcmi_shadowtask_process_ppm_p_migr_back_guestreq_procmsg. bl.
Qed.
Lemma balanced_shadow_emigrate p n : balanced (tcmi_shadowtask_emigrate_p HZ p n).
Proof. unfold tcmi_shadowtask_emigrate_p. bl. Qed.
Lemma balanced_shadow_migrateback p : balanced (S := S) (tcmi_shadowtask_migrateback_ppm_p p).
Proof. unfold tcmi_shadowtask_migrateback_ppm_p. bl. Qed.
Lemma balanced_shadow_execve p : balanced (S := S) (tcmi_shadowtask_execve p).
Proof. unfold tcmi_shadowtask_execve. bl. Qed.
Lemma balanced_shadow_do_signal p s i : balanced (tcmi_shadowtask_do_signal HZ p s i).
Proof. unfold tcmi_shadowtask_do_signal. bl. Qed.
Lemma balanced_guest_process_msg p m : balanced (S := S) (tcmi_guesttask_process_msg tcmi_migman_free p m).
Proof. unfold tcmi_guesttask_process_msg, tcmi_guesttask_process_p_emigrate_msg, tcmi_migcom_migrate_home_ppm_p. bl. Qed.
Lemma balanced_guest_migrateback p n : balanced (S := S) (tcmi_guesttask_migrateback_p p n).
Proof. unfold tcmi_guesttask_migrateback_p. bl. Qed.
Lemma balanced_guest_exit p c : balanced (S := S) (tcmi_guesttask_exit p c).
Proof. unfold tcmi_guesttask_exit. bl. Qed.
Lemma balanced_guest_do_signal p s i : balanced (S := S) (tcmi_guesttask_do_signal p s i).
Proof. unfold tcmi_guesttask_do_signal. bl. Qed.
#[local] Hint Resolve balanced_shadow_process_msg balanced_shadow_emigrate balanced_shadow_migrateback
  balanced_shadow_execve balanced_shadow_do_signal balanced_guest_process_msg balanced_guest_migrateback
  balanced_guest_exit balanced_guest_do_signal : balanced.

(** A call through the table of the task. *)
Lemma balanced_ops {A} p (f : @tcmi_task_ops S -> eff (kw S) A) :
  (forall c, balanced (f (tops c))) -> balanced (task_ops tops p ≫= f).
Proof.
  intros Hf h w Hw. unfold wlp, task_ops, task. unfold mbind, eff_bind. run. destruct (tasks w !! p) as [t|]; [|done].
  by apply Hf.
Qed.

Lemma balanced_do_signal p s i : balanced (tcmi_task_do_signal tops p s i).
Proof.
  unfold tcmi_task_do_signal. apply balanced_bind; [bl|intros t]. case_match; [bl|]. apply balanced_ops.
  intros []; cbn; bl.
Qed.
#[local] Hint Resolve balanced_do_signal : balanced.
Lemma balanced_signals_loop fuel p r : balanced (do_signals_loop tops fuel p r).
Proof. revert r. induction fuel as [|fuel IH]; intros r; cbn [do_signals_loop]; bl. Qed.
#[local] Hint Resolve balanced_signals_loop : balanced.
Lemma balanced_do_signals fuel p : balanced (tcmi_taskhelper_do_signals tops fuel p).
Proof. unfold tcmi_taskhelper_do_signals. bl. Qed.

(** ** The methods *)

Lemma balanced_resubmit p wr r : balanced (S := S) (process_msg_exit0 p wr r).
Proof.
  unfold process_msg_exit0. apply balanced_bind; [|intros ?; bl]. apply balanced_when. intros h w Hw.
  pose proof (acc_nonneg _ _ Hw) as Hh. revert w Hw.
  change (ok (S := S) h (tcmi_method_wrapper_get (Some wr);; tcmi_task_add_wrapper p wr) (fun _ => h)).
  eapply ok_bind; [apply ok_wrapper_get|intros ?; by apply ok_add_wrapper].
Qed.
Lemma leaves_wrapper_data p : leaves (S := S) method_view (tcmi_method_wrapper_data p).
Proof. unfold tcmi_method_wrapper_data. lv. Qed.
#[local] Hint Resolve leaves_wrapper_data : leaves.
#[local] Hint Resolve balanced_resubmit : balanced.

Lemma balanced_process_msg p wr : balanced (tcmi_task_process_msg tops p wr).
Proof.
  unfold tcmi_task_process_msg. apply balanced_bind; [bl|intros d]. apply balanced_bind; [bl|intros t].
  destruct (_ && _); [bl|]. apply balanced_bind; [bl|intros err]. destruct (err <? 0); [bl|].
  apply balanced_bind; [bl|intros t']. apply balanced_bind; [bl|intros [m q]]. apply balanced_bind; [bl|intros _].
  destruct m as [m|]; [|bl]. apply balanced_ops. intros []; cbn; bl.
Qed.
Lemma balanced_send_message p wr : balanced (S := S) (tcmi_task_send_message p wr).
Proof. unfold tcmi_task_send_message. bl. Qed.
#[local] Hint Resolve balanced_process_msg balanced_send_message : balanced.

Lemma balanced_run_other m p wr : balanced (run_other (S := S) m p wr).
Proof.
  unfold run_other, tcmi_task_mount_proxyfs, mount_proxyfs, tcmi_guesttask_post_fork_set_tid. bl.
Qed.
#[local] Hint Resolve balanced_run_other : balanced.

(** Every method but execve keeps the references, its own wrapper's included. *)
Lemma balanced_run_method m p wr : m <> M_execve -> balanced (run_method tops (run_other (S := S)) m p wr).
Proof.
  intros Hne. destruct m; cbn [run_method]; try done; try solve [bl].
  all: unfold tcmi_task_emigrate_ppm_p, tcmi_task_migrateback_ppm_p, tcmi_task_emigrate_ppm_v, tcmi_task_migrateback_ppm_v,
    tcmi_task_emigrate_npm, tcmi_task_migrateback_npm, tcmi_task_exit, call1.
  all: try (apply balanced_ops; intros []; cbn; unfold tcmi_shadowtask_emigrate_ppm_p, tcmi_guesttask_emigrate_p,
    tcmi_guesttask_migrateback_ppm_p; bl; fail).
  all: apply balanced_bind; [bl|intros ?];
    first [apply balanced_ops | apply balanced_bind; [bl|intros ?]; apply balanced_ops]; intros []; cbn; unfold tcmi_shadowtask_emigrate_npm, tcmi_guesttask_migrateback_npm; bl.
Qed.

(** ** Results *)

(** What a computation returns satisfies [P]. *)
Definition returns {A} (P : A -> Prop) (m : eff (kw S) A) : Prop := forall w, wlp m (fun a _ => P a) (fun _ _ => True) w.

Lemma returns_bind {A B} (P : B -> Prop) (m : eff (kw S) A) (f : A -> eff (kw S) B) :
  (forall a, returns P (f a)) -> returns P (m ≫= f).
Proof. intros Hf w. apply wlp_bind. unfold wlp. destruct (m w); [apply Hf|done|done]. Qed.
Lemma returns_seq {A B} (R : A -> Prop) (P : B -> Prop) (m : eff (kw S) A) (f : A -> eff (kw S) B) :
  returns R m -> (forall a, R a -> returns P (f a)) -> returns P (m ≫= f).
Proof. intros Hm Hf w. apply wlp_bind. eapply wlp_mono; [apply Hm|intros a w' Ha; by apply Hf|done]. Qed.
Lemma returns_ret {A} (P : A -> Prop) (a : A) : P a -> returns P (mret a).
Proof. intros Ha w. exact Ha. Qed.
Lemma returns_halt {A} (P : A -> Prop) s : returns P (halt s).
Proof. done. Qed.
Lemma returns_fault {A} (P : A -> Prop) : returns P fault.
Proof. done. Qed.
Lemma returns_ops {A} P p (f : @tcmi_task_ops S -> eff (kw S) A) :
  (forall c, returns P (f (tops c))) -> returns P (task_ops tops p ≫= f).
Proof.
  intros Hf w. unfold wlp, task_ops, task. unfold mbind, eff_bind. run. destruct (tasks w !! p) as [t|]; [|done]. apply Hf.
Qed.

Definition not_execve_failed (r : Z) : Prop := r <> TCMI_TASK_EXECVE_FAILED_KILL_ME.

Ltac rt := repeat first
  [ apply returns_ret; discriminate | apply returns_halt | apply returns_fault
  | apply returns_ops; intros []; cbn | apply returns_bind; intros ? | case_match ].

Lemma returns_process_msg p wr : returns not_execve_failed (tcmi_task_process_msg tops p wr).
Proof.
  assert (He : forall r, not_execve_failed r -> returns not_execve_failed (process_msg_exit0 (S := S) p wr r)).
  { intros r Hr. apply returns_bind. intros ?. by apply returns_ret. }
  assert (Hk : not_execve_failed TCMI_TASK_KEEP_PUMPING) by discriminate.
  unfold tcmi_task_process_msg. apply returns_bind; intros d. apply returns_bind; intros t.
  destruct (_ && _); [by apply returns_ret|]. apply returns_bind; intros err. destruct (err <? 0); [by apply He|].
  apply returns_bind; intros t'. apply returns_bind; intros [m q]. apply returns_bind; intros _.
  destruct m as [m|]; [|by apply He]. apply returns_ops. intros c.
  eapply returns_seq; [|intros r Hr; apply returns_bind; intros ?; by apply He]. destruct c; cbn.
  - unfold tcmi_shadowtask_process_msg, shadow_process_rpc, tcmi_shadowtask_process_ppm_p_migr_back_guestreq_procmsg. rt.
  - unfold tcmi_guesttask_process_msg, tcmi_guesttask_process_p_emigrate_msg. rt.
Qed.

Lemma returns_run_method m p wr : m <> M_execve -> returns not_execve_failed (run_method tops (run_other (S := S)) m p wr).
Proof.
  intros Hne. destruct m; cbn [run_method]; try done; [apply returns_process_msg|..].
  all: unfold tcmi_task_send_message, tcmi_task_emigrate_ppm_p, tcmi_task_migrateback_ppm_p, tcmi_task_emigrate_ppm_v,
    tcmi_task_migrateback_ppm_v, tcmi_task_emigrate_npm, tcmi_task_migrateback_npm, tcmi_task_exit, call1, run_other,
    tcmi_task_mount_proxyfs, tcmi_guesttask_post_fork_set_tid.
  all: repeat first [apply returns_ops; intros []; cbn | apply returns_bind; intros ?].
  all: unfold tcmi_shadowtask_emigrate_ppm_p, tcmi_shadowtask_emigrate_npm, tcmi_shadowtask_emigrate_p,
    tcmi_shadowtask_migrateback_ppm_p, tcmi_guesttask_emigrate_p, tcmi_guesttask_migrateback_ppm_p,
    tcmi_guesttask_migrateback_npm, tcmi_guesttask_exit; rt.
Qed.

Lemma returns_execve p wr : returns (eq TCMI_TASK_EXECVE_FAILED_KILL_ME) (tcmi_task_execve tops p wr).
Proof. unfold tcmi_task_execve. repeat (apply returns_bind; intros ?). case_match; [by apply returns_ret|]. 
  repeat (apply returns_bind; intros ?). case_match; [by apply returns_ret|apply returns_halt]. Qed.

(** execve gives up the reference of its own wrapper. *)
Lemma ok_execve p wr h : nonneg h -> ok (add_ref wr 1 h) (tcmi_task_execve tops p wr) (fun _ => h).
Proof.
  intros Hh. unfold tcmi_task_execve.
  do 3 (eapply ok_bind; [apply balanced_leaves; lv|intros ?]).
  eapply ok_bind; [by apply ok_wrapper_put|intros ?]. revert h Hh.
  assert (Hb : balanced (o ← task_ops tops p;
    err ← match o_execve o with Some f => f p | None => mret 0 end;
    if err <? 0 then mret TCMI_TASK_EXECVE_FAILED_KILL_ME
    else t ← task p; emit (E_exec (default [] (ckpt_pathname t)));; a ← ask;
         if a_num a <? 0 then mret TCMI_TASK_EXECVE_FAILED_KILL_ME else halt Gone)).
  { apply balanced_ops. intros []; cbn; bl. }
  intros h _. apply Hb.
Qed.

(** ** The pump *)

(** A method that runs with a reference of its wrapper; execve alone gives it up. *)
Lemma wlp_call o p h w :
  nonneg h -> acc (held o h) w ->
  wlp (tcmi_method_wrapper_call tops (run_other (S := S)) o p)
    (fun r => if r =? TCMI_TASK_EXECVE_FAILED_KILL_ME then acc h else acc (held o h)) (fun _ w' => exists k, acc k w') w.
Proof.
  intros Hh Hw. destruct o as [wr|]; [|exact Hw]. unfold tcmi_method_wrapper_call. unfold wlp, wrapper. unfold mbind, eff_bind. run.
  destruct (wraps w !! wr) as [wp|]; [|done]. destruct (method wp) as [m|]; [|exact Hw]. cbn [held] in Hw.
  destruct (decide (m = M_execve)) as [->|Hne].
  - pose proof (wlp_and _ _ _ _ _ w (ok_execve p wr h Hh w Hw) (returns_execve p wr w)) as Hx. cbn [run_method].
    eapply (wlp_mono _ _ _ _ _ w Hx); [|by intros ? ? [? _]]. intros r w' [Ha <-]. done.
  - pose proof (wlp_and _ _ _ _ _ w (balanced_run_method m p wr Hne _ w Hw) (returns_run_method m p wr Hne w)) as Hx.
    eapply (wlp_mono _ _ _ _ _ w Hx); [|by intros ? ? [? _]]. intros r w' [Ha Hr].
    by replace (r =? TCMI_TASK_EXECVE_FAILED_KILL_ME) with false by (symmetry; by apply Z.eqb_neq).
Qed.

Lemma balanced_pump fuel p r : balanced (pump tops (run_other (S := S)) fuel p r).
Proof.
  revert r. induction fuel as [|fuel IH]; intros r; cbn [pump]; (apply balanced_bind; [bl|intros t]).
  { destruct (_ || _); [bl|]. apply balanced_leaves. lv. }
  destruct (_ || _); [bl|]. apply balanced_bind; [apply balanced_do_signals|intros r1]. destruct (negb _); [bl|].
  intros h w Hw. pose proof (acc_nonneg _ _ Hw) as Hh. apply wlp_task. intros t' Ht'. apply wlp_valid. intros [o q] E.
  apply queue_remove_locked in E. apply wlp_upd_task. intros t2 Ht2. rewrite Ht' in Ht2. injection Ht2 as <-.
  pose proof (acc_take p t' o q h w Hw Ht' E) as Hw1. apply wlp_bind.
  eapply wlp_mono; [by apply (wlp_call o p h)| |done]. intros r2 w2 Hw2. cbv beta in Hw2.
  destruct (r2 =? TCMI_TASK_EXECVE_FAILED_KILL_ME) eqn:E2; cbn [negb when].
  - apply wlp_bind, wlp_ret. by apply IH.
  - revert w2 Hw2. change (ok (held o h) (tcmi_method_wrapper_put o;; pump tops (run_other (S := S)) fuel p r2) (fun _ => h)).
    eapply ok_bind; [by apply ok_put_held|intros ?; apply IH].
Qed.
End operations.

(** C8: Method wrappers are neither leaked nor freed early.  Whatever methods, messages and
    signals a shadow or guest task processes, when its method pump returns every wrapper's count
    is again the number of its places in method queues plus the references held elsewhere; in
    particular a wrapper is gone exactly when nobody can reach it.  Resubmitted methods, the
    execve method, which drops its own wrapper, and tasks destroyed on the way are included. *)
Theorem process_methods_keeps_references {S} `{Sock S} (HZ : Z) (shadow_rpc : Z -> Z -> eff (kw S) (option Z))
    (fuel : nat) (self : Z) (h : Z -> Z) (w : kw S) :
  (forall t m, balanced (shadow_rpc t m)) -> acc h w ->
  wlp (tcmi_task_process_methods (task_ops_of HZ tcmi_migman_free shadow_rpc) run_other fuel self)
    (fun _ w' => acc h w') (fun _ w' => exists k, acc k w') w.
Proof. intros Hrpc Hw. by apply balanced_pump. Qed.

(** A shadow whose method waits and whose exit message has arrived. *)
Definition ex_exit_node : kw seg_kernel :=
  set_msgs (fun _ => {[100 := mk_msg TCMI_EXIT_PROCMSG_ID 0 0 None 1 (B_proc 42 0 (P_exit 3))]})
    (set_tasks (fun _ => {[1 := t_set_msg_queue (mk_queue false [100] 1 TCMI_QUEUE_STATIC 0)
                                  (ex_task 42 50 [2] None Shadowtask)]}) ex_home_node).

Lemma ex_exit_acc : acc (fun _ => 0) ex_exit_node.
Proof.
  assert (Hw : wraps ex_exit_node = <[2 := mk_wrapper (Some M_process_msg) None 1]> ∅) by reflexivity.
  assert (Hq : queues ex_exit_node = <[1 := [2]]> ∅) by reflexivity.
  split; [done| |].
  - intros p. rewrite Hw, Hq, queued_insert, cnt_cons by done. change (cnt p []) with 0. change (queued ∅ p) with 0.
    destruct (decide (p = 2)) as [->|Hne]; [by rewrite lookup_insert_eq|].
    rewrite lookup_insert_ne by done. by rewrite decide_False by done.
  - intros p. rewrite Hw. intros [x Hx]. apply lookup_insert_Some in Hx as [[<- _]|[_ Hx]]; [done|].
    by rewrite lookup_empty in Hx.
Qed.

Lemma process_methods_keeps_references_witness :
  exists w', tcmi_task_process_methods (task_ops_of 100 tcmi_migman_free (fun _ _ => mret None)) run_other 5 1 ex_exit_node
      = Ret TCMI_TASK_KILL_ME w' /\ acc (fun _ => 0) w'.
Proof.
  pose proof (process_methods_keeps_references 100 (fun _ _ => mret None) 5 1 (fun _ => 0) ex_exit_node) as Hp. unfold wlp in Hp.
  destruct (tcmi_task_process_methods (task_ops_of 100 tcmi_migman_free (fun _ _ => mret None)) run_other 5 1 ex_exit_node)
    as [r w'|? ?|] eqn:E.
  - exists w'. split.
    + revert E. clear. intros E. vm_compute in E. vm_compute. congruence.
    + clear E. apply Hp; [|apply ex_exit_acc]. intros t m k w Hk. exact Hk.
  - exfalso. clear Hp. vm_compute in E. discriminate E.
  - exfalso. clear Hp. vm_compute in E. discriminate E.
Defined.
