(* ===== verification/Typing.v ===== *)
(** Processes and the tasks attached to them (src/src/tcmi/task/tcmi_taskhelper.h): the kernel's
    hooks choose what to do with a migrated process by the type tag in the process, and the
    method pump by the operation table of the attached task.  This file shows that the two
    never disagree, whatever the task, migration and manager code does. *)

From stdpp Require Import gmap.
From S2P Require Import Prelude Effect SlotVec Transaction KkcSock MsgId Messages Queue Msg NpmParams World Task TaskOps Migcom Migman Frames.

(** What [tcmi_task_get_type] answers is the type [attach] stores. *)
Lemma class_type_ops {S} `{Sock S} HZ free rpc c : default unresolved (o_get_type (task_ops_of HZ free rpc c)) = class_type c.
Proof. by destruct c. Qed.

(** The tcmi part of a process. *)
Definition tag (l : task_struct) := (mig_mode_handler l, p_task l, task_type l).

Program Definition type_view : view := {|
  vt := ops; vm := fun _ => tt; vp := fun ps => tag <$> ps; vw := fun _ => tt
|}.
Solve All Obligations with (intros; first [reflexivity | by eapply (fmap_insert_same tag)]).

Lemma type_view_methods : ignores_methods type_view.
Proof. done. Qed.
Lemma type_view_managers : ignores_managers type_view.
Proof. done. Qed.
#[local] Hint Resolve type_view_methods type_view_managers : leaves.

Section typing.
Context {S : Type} `{Sock S}.
Abbreviation M := (eff (kw S)).
Implicit Type w : kw S.

(** A process with a task has the handler, a pointer to allocated memory, and the tag of the
    task's class. *)
Definition typed w : Prop :=
  (forall p t, tasks w !! p = Some t -> p < next w) /\
  forall pid l p, procs w !! pid = Some l -> p_task l = Some p ->
    mig_mode_handler l = true /\ p < next w /\
    forall t, tasks w !! p = Some t -> task_type l = class_type (ops t).

Lemma typed_seen w w' : typed w -> see type_view w' = see type_view w -> next w <= next w' -> typed w'.
Proof.
  intros [Hb Hw] [=Ht Hp] Hn. cbn in Ht, Hp.
  assert (Ho : forall p t, tasks w' !! p = Some t -> exists t0, tasks w !! p = Some t0 /\ ops t = ops t0).
  { intros p t Htk. apply fmap_Some. by rewrite <- lookup_fmap, <- Ht, lookup_fmap, Htk. }
  split. { intros p t Htk. destruct (Ho p t Htk) as (t0 & Ht0 & _). specialize (Hb p t0 Ht0). lia. }
  intros pid l p Hl Hpt.
  assert (Hl0 : tag <$> procs w !! pid = Some (tag l)) by (by rewrite <- lookup_fmap, <- Hp, lookup_fmap, Hl).
  apply fmap_Some in Hl0 as (l0 & Hl0 & [= E1 E2 E3]). rewrite E2 in Hpt.
  destruct (Hw pid l0 p Hl0 Hpt) as (Hh & Hlt & Hty). rewrite E1, E3. split_and!; [done|lia|].
  intros t Htk. destruct (Ho p t Htk) as (t0 & Ht0 & ->). by apply Hty.
Qed.

Lemma typed_leaves {A} (m : M A) : leaves type_view m -> keeps typed m.
Proof.
  intros Hm w Hw. eapply wlp_mono; [apply leaves_next, Hm|..]; intros ? w' [Hs Hn]; by eapply typed_seen.
Qed.

(** Memory of a task is freed, or allocated at a fresh address. *)
Lemma typed_delete p : keeps typed (modify (set_tasks (S := S) (delete p))).
Proof.
  apply keeps_modify. intros w [Hb Hw]. split.
  { intros q t Ht. cbn [tasks set_tasks] in Ht. apply lookup_delete_Some in Ht as [_ Ht]. by eapply Hb. }
  intros pid l q Hl Hq. destruct (Hw pid l q Hl Hq) as (? & ? & Hty). split_and!; [done|done|].
  intros t Ht. cbn [tasks set_tasks] in Ht. apply lookup_delete_Some in Ht as [_ Ht]. by apply Hty.
Qed.
Lemma typed_alloc {A} (t : tcmi_task) (f : Z -> M A) :
  (forall p, keeps typed (f p)) -> keeps typed (p ← fresh; modify (set_tasks (insert p t));; f p).
Proof.
  intros Hf w [Hb Hw]. unfold wlp, fresh. unfold mbind, eff_bind. run. apply (Hf (next w)). split.
  { intros q t' Ht'. cbn [tasks set_tasks set_next next] in *. apply lookup_insert_Some in Ht' as [[<- _]|[_ Ht']]; [lia|].
    specialize (Hb q t' Ht'). lia. }
  intros pid l q Hl Hq. destruct (Hw pid l q Hl Hq) as (? & Hlt & Hty). proj. split_and!; [done|lia|].
  intros t' Ht'. cbn [tasks set_tasks set_next] in Ht'. rewrite lookup_insert_ne in Ht' by lia. by apply Hty.
Qed.
(** The tcmi part of a process is replaced. *)
Lemma typed_set_process pid l w :
  typed w ->
  (forall p, p_task l = Some p -> mig_mode_handler l = true /\ p < next w /\
     forall t, tasks w !! p = Some t -> task_type l = class_type (ops t)) ->
  typed (set_procs (insert pid l) w).
Proof.
  intros [Hb Hw] Hl. split; [done|]. intros pid' l' q Hl' Hq. cbn [procs set_procs] in Hl'.
  apply lookup_insert_Some in Hl' as [[_ <-]|[_ Hl']]; [by apply Hl|]. by apply (Hw pid').
Qed.
Lemma typed_new_process pid l : p_task l = None -> keeps typed (modify (set_procs (S := S) (insert pid l))).
Proof. intros Hn. apply keeps_modify. intros w Hw. apply typed_set_process; [done|]. intros p. by rewrite Hn. Qed.
Lemma typed_clear pid (f : task_struct -> task_struct) :
  (forall l, p_task (f l) = None) -> keeps typed (upd_process (S := S) pid f).
Proof.
  intros Hf w Hw. unfold wlp, upd_process, process. run. destruct (procs w !! pid) as [l|]; [|done].
  apply typed_set_process; [done|]. intros p. by rewrite Hf.
Qed.
End typing.

Create HintDb typed discriminated.
#[export] Hint Resolve type_view_methods type_view_managers : leaves.
#[export] Hint Resolve typed_delete : typed.

Ltac ty :=
  repeat first
    [ solve [eauto 2 with typed nocore]
    | solve [apply typed_leaves;
             first [solve [eauto 2 with leaves nocore] | lv_upd
                   | apply leaves_modify; intros ?; split; [reflexivity|proj; apply Z.le_refl]]]
    | apply keeps_when
    | apply typed_alloc; intros ?
    | apply keeps_bind; [|intros ?]
    | (apply typed_new_process; reflexivity)
    | (apply typed_clear; reflexivity)
    | case_match ].

Section operations.
Context {S : Type} `{Sock S} (HZ ARCH_CURRENT : Z) (mount : fs_mount_params).
Abbreviation M := (eff (kw S)).
Context (shadow_rpc : Z -> Z -> M (option Z)) (Hrpc : forall t m, keeps typed (shadow_rpc t m)).
Abbreviation tops := (task_ops_of HZ tcmi_migman_free shadow_rpc).
Abbreviation safe := (keeps (W := kw S) typed).

(** ** Life of a task *)

Lemma ty_put o : safe (tcmi_task_put tcmi_migman_free o).
Proof. unfold tcmi_task_put, task_destroy. ty. Qed.
Lemma ty_get o : safe (tcmi_task_get o).
Proof. unfold tcmi_task_get. ty. Qed.
#[local] Hint Resolve ty_put ty_get : typed.
Lemma ty_init p lp m s a b : safe (tcmi_task_init tcmi_migman_free p lp m s a b).
Proof.
  unfold tcmi_task_init, init_exit0, init_exit1, init_exit2, init_exit3, init_exit4,
    task_start, task_finish. unfold init_exit3, init_exit2, init_exit1, init_exit0. ty.
Qed.
#[local] Hint Resolve ty_init : typed.
Lemma ty_new c lp m s a b : safe (task_new tcmi_migman_free c lp m s a b).
Proof. unfold task_new. ty. Qed.
#[local] Hint Resolve ty_new : typed.

(** ** Attaching and detaching *)

Lemma ty_attach_exclusive l_task p : safe (tcmi_taskhelper_attach_exclusive l_task p).
Proof.
  unfold tcmi_taskhelper_attach_exclusive. apply keeps_bind; [ty|intros l]. case_match; [ty|].
  apply keeps_bind; [ty|intros ?]. intros w Hw. unfold wlp, task, upd_process, process. unfold mbind, eff_bind. run.
  destruct (tasks w !! p) as [t|] eqn:Et; [|done]. destruct (procs w !! l_task) as [l'|]; [|done].
  apply typed_set_process; [done|]. cbn. intros q [= <-]. split_and!; [done|by apply (proj1 Hw p t)|].
  intros t' Ht'. rewrite Et in Ht'. by injection Ht' as <-.
Qed.
#[local] Hint Resolve ty_attach_exclusive : typed.
Lemma ty_attach p : safe (tcmi_taskhelper_attach p).
Proof. unfold tcmi_taskhelper_attach. ty. Qed.
Lemma ty_detach_of pid : safe (__tcmi_taskhelper_detach pid).
Proof. unfold __tcmi_taskhelper_detach. ty. Qed.
#[local] Hint Resolve ty_attach ty_detach_of : typed.
Lemma ty_detach : safe tcmi_taskhelper_detach.
Proof. unfold tcmi_taskhelper_detach. ty. Qed.
Lemma ty_wait_for_pick_up p : safe (tcmi_taskhelper_wait_for_pick_up_timeout tcmi_migman_free p).
Proof. unfold tcmi_taskhelper_wait_for_pick_up_timeout. ty. Qed.
Lemma ty_find_by_pid pid : safe (tcmi_taskhelper_find_by_pid pid).
Proof. unfold tcmi_taskhelper_find_by_pid. ty. Qed.
#[local] Hint Resolve ty_detach ty_wait_for_pick_up ty_find_by_pid : typed.
Lemma ty_notify_by_pid pid m d s pr : safe (tcmi_taskhelper_notify_by_pid tcmi_migman_free pid m d s pr).
Proof. unfold tcmi_taskhelper_notify_by_pid. ty. Qed.
Lemma ty_restart p n : safe (tcmi_taskhelper_restart p n).
Proof. unfold tcmi_taskhelper_restart. ty. Qed.
#[local] Hint Resolve ty_notify_by_pid ty_restart : typed.

(** ** What shadow and guest do *)

Lemma ty_ops {A} p (f : @tcmi_task_ops S -> M A) : (forall c, safe (f (tops c))) -> safe (task_ops tops p ≫= f).
Proof.
  intros Hf w Hw. unfold wlp, task_ops, task. unfold mbind, eff_bind. run. destruct (tasks w !! p) as [t|]; [|done].
  by apply Hf.
Qed.
Lemma ty_shadow_process_msg p m : safe (tcmi_shadowtask_process_msg shadow_rpc p m).
Proof.
  unfold tcmi_shadowtask_process_msg, shadow_process_rpc, tcmi_shadowtask_process_ppm_p_migr_back_guestreq_procmsg. ty.
Qed.
Lemma ty_shadow_emigrate p n : safe (tcmi_shadowtask_emigrate_p HZ p n).
Proof. unfold tcmi_shadowtask_emigrate_p. ty. Qed.
Lemma ty_shadow_migrateback p : safe (tcmi_shadowtask_migrateback_ppm_p p).
Proof. unfold tcmi_shadowtask_migrateback_ppm_p. ty. Qed.
Lemma ty_shadow_execve p : safe (tcmi_shadowtask_execve p).
Proof. unfold tcmi_shadowtask_execve. ty. Qed.
Lemma ty_shadow_do_signal p s i : safe (tcmi_shadowtask_do_signal HZ p s i).
Proof. unfold tcmi_shadowtask_do_signal. ty. Qed.
Lemma ty_guest_process_msg p m : safe (tcmi_guesttask_process_msg tcmi_migman_free p m).
Proof. unfold tcmi_guesttask_process_msg, tcmi_guesttask_process_p_emigrate_msg, tcmi_migcom_migrate_home_ppm_p. ty. Qed.
Lemma ty_guest_migrateback p n : safe (tcmi_guesttask_migrateback_p p n).
Proof. unfold tcmi_guesttask_migrateback_p. ty. Qed.
Lemma ty_guest_exit p c : safe (tcmi_guesttask_exit p c).
Proof. unfold tcmi_guesttask_exit. ty. Qed.
Lemma ty_guest_do_signal p s i : safe (tcmi_guesttask_do_signal p s i).
Proof. unfold tcmi_guesttask_do_signal. ty. Qed.
#[local] Hint Resolve ty_shadow_process_msg ty_shadow_emigrate ty_shadow_migrateback ty_shadow_execve ty_shadow_do_signal
  ty_guest_process_msg ty_guest_migrateback ty_guest_exit ty_guest_do_signal : typed.
Lemma ty_do_signal p s i : safe (tcmi_task_do_signal tops p s i).
Proof.
  unfold tcmi_task_do_signal. apply keeps_bind; [ty|intros t]. case_match; [ty|]. apply ty_ops. intros []; cbn; ty.
Qed.
#[local] Hint Resolve ty_do_signal : typed.
Lemma ty_signals_loop fuel p r : safe (do_signals_loop tops fuel p r).
Proof. revert r. induction fuel as [|fuel IH]; intros r; cbn [do_signals_loop]; ty. Qed.
#[local] Hint Resolve ty_signals_loop : typed.
Lemma ty_do_signals fuel p : safe (tcmi_taskhelper_do_signals tops fuel p).
Proof. unfold tcmi_taskhelper_do_signals. ty. Qed.
#[local] Hint Resolve ty_do_signals : typed.

(** ** Methods and the pump *)

Lemma ty_wrapper_data p : safe (tcmi_method_wrapper_data p).
Proof. unfold tcmi_method_wrapper_data. ty. Qed.
Lemma ty_resubmit p wr r : safe (process_msg_exit0 p wr r).
Proof. unfold process_msg_exit0. ty. Qed.
#[local] Hint Resolve ty_wrapper_data ty_resubmit : typed.
Lemma ty_process_msg p wr : safe (tcmi_task_process_msg tops p wr).
Proof.
  unfold tcmi_task_process_msg. apply keeps_bind; [ty|intros d]. apply keeps_bind; [ty|intros t].
  destruct (_ && _); [ty|]. apply keeps_bind; [ty|intros err]. destruct (err <? 0); [ty|].
  apply keeps_bind; [ty|intros t']. apply keeps_bind; [ty|intros [m q]]. apply keeps_bind; [ty|intros _].
  destruct m as [m|]; [|ty]. apply ty_ops. intros []; cbn; ty.
Qed.
Lemma ty_execve p wr : safe (tcmi_task_execve tops p wr).
Proof.
  unfold tcmi_task_execve. do 4 (apply keeps_bind; [ty|intros ?]). apply ty_ops. intros []; cbn; ty.
Qed.
#[local] Hint Resolve ty_process_msg ty_execve : typed.

Lemma ty_run_method m p wr : safe (run_method tops (run_other (S := S)) m p wr).
Proof.
  destruct m; cbn [run_method]; try solve [ty].
  all: unfold tcmi_task_send_message, tcmi_task_emigrate_ppm_p, tcmi_task_migrateback_ppm_p, tcmi_task_emigrate_ppm_v,
    tcmi_task_migrateback_ppm_v, tcmi_task_emigrate_npm, tcmi_task_migrateback_npm, tcmi_task_exit, call1, run_other,
    tcmi_task_mount_proxyfs, mount_proxyfs, tcmi_guesttask_post_fork_set_tid.
  all: try solve [ty].
  all: try (apply ty_ops; intros []; cbn; unfold tcmi_shadowtask_emigrate_ppm_p, tcmi_guesttask_emigrate_p,
    tcmi_guesttask_migrateback_ppm_p; ty; fail).
  all: apply keeps_bind; [ty|intros ?];
    first [apply ty_ops | apply keeps_bind; [ty|intros ?]; apply ty_ops]; intros []; cbn;
    unfold tcmi_shadowtask_emigrate_npm, tcmi_guesttask_migrateback_npm; ty.
Qed.
#[local] Hint Resolve ty_run_method : typed.
Lemma ty_pump fuel p r : safe (pump tops (run_other (S := S)) fuel p r).
Proof.
  revert r. induction fuel as [|fuel IH]; intros r; cbn [pump]; unfold tcmi_method_wrapper_call; ty.
Qed.
#[local] Hint Resolve ty_pump : typed.

(** ** The migration component *)

Lemma ty_move_loop moves fuel p : safe (move_loop HZ tcmi_migman_free shadow_rpc moves fuel p).
Proof. induction moves as [|moves IH]; cbn [move_loop]; unfold tcmi_task_process_methods; ty. Qed.
#[local] Hint Resolve ty_move_loop : typed.
Lemma ty_handler moves fuel : safe (tcmi_migcom_mig_mode_handler HZ tcmi_migman_free shadow_rpc moves fuel).
Proof. unfold tcmi_migcom_mig_mode_handler. ty. Qed.
#[local] Hint Resolve ty_handler : typed.
Lemma ty_do_mig_mode moves fuel r : safe (tcmi_taskhelper_do_mig_mode HZ tcmi_migman_free shadow_rpc moves fuel r).
Proof. unfold tcmi_taskhelper_do_mig_mode. ty. Qed.
#[local] Hint Resolve ty_do_mig_mode : typed.
Lemma ty_emigrate_ppm_p pid mgr : safe (tcmi_migcom_emigrate_ccn_ppm_p tcmi_migman_free pid mgr).
Proof. unfold tcmi_migcom_emigrate_ccn_ppm_p, tcmi_shadowtask_new. ty. Qed.
Lemma ty_emigrate_npm moves fuel pid mgr r n :
  safe (tcmi_migcom_emigrate_ccn_npm HZ tcmi_migman_free shadow_rpc moves fuel pid mgr r n).
Proof. unfold tcmi_migcom_emigrate_ccn_npm, tcmi_shadowtask_new. ty. Qed.
Lemma ty_task_deliver p m : safe (tcmi_task_deliver_msg p m).
Proof. unfold tcmi_task_deliver_msg. ty. Qed.
#[local] Hint Resolve ty_task_deliver : typed.
Lemma ty_immigrate m mgr : safe (tcmi_migcom_immigrate tcmi_migman_free m mgr).
Proof. unfold tcmi_migcom_immigrate, tcmi_guesttask_new. ty. Qed.
Lemma ty_guest_fork c mgr : safe (tcmi_migcom_guest_fork tcmi_migman_free c mgr).
Proof. unfold tcmi_migcom_guest_fork, tcmi_guesttask_new, tcmi_taskhelper_enter_mig_mode_exclusive. ty. Qed.
Lemma ty_shadow_fork c mgr : safe (tcmi_migcom_shadow_fork tcmi_migman_free c mgr).
Proof. unfold tcmi_migcom_shadow_fork, tcmi_shadowtask_new, tcmi_taskhelper_enter_mig_mode_exclusive. ty. Qed.
#[local] Hint Resolve ty_immigrate : typed.

(** ** The managers *)

Lemma ty_mm_new_msg p c : safe (mm_new_msg p c). Proof. unfold mm_new_msg. ty. Qed.
Lemma ty_mm_msg_put p o : safe (mm_msg_put p o). Proof. unfold mm_msg_put. ty. Qed.
Lemma ty_mm_send p m : safe (mm_send p m). Proof. unfold mm_send. ty. Qed.
#[local] Hint Resolve ty_mm_new_msg ty_mm_msg_put ty_mm_send : typed.
Lemma ty_migman_deliver mgr m : safe (tcmi_migman_deliver_msg mgr m).
Proof. unfold tcmi_migman_deliver_msg, tcmi_task_migman_id. ty. Qed.
Lemma ty_for_tasks f ts : (forall t, safe (f t)) -> safe (for_tasks f ts).
Proof. intros Hf. induction ts as [|t ts IH]; cbn [for_tasks]; ty. Qed.
Lemma ty_for_each_task mgr f : (forall t, safe (f t)) -> safe (for_each_task mgr f).
Proof.
  intros Hf. unfold for_each_task. do 3 (apply keeps_bind; [ty|intros ?]).
  apply keeps_bind; [by apply ty_for_tasks|intros ?; ty].
Qed.
Lemma ty_migrate_all_home mgr : safe (tcmi_penmigman_migrate_all_home mgr).
Proof.
  unfold tcmi_penmigman_migrate_all_home, tcmi_migcom_migrate_home_ppm_p. apply keeps_bind; [|intros ?; ty].
  apply ty_for_each_task. intros t. ty.
Qed.
Lemma ty_kill_all_tasks mgr : safe (kill_all_tasks mgr).
Proof. apply ty_for_each_task. intros t. ty. Qed.
#[local] Hint Resolve ty_migrate_all_home ty_kill_all_tasks : typed.
Lemma ty_stop_perform mgr r : safe (tcmi_migman_stop_perform mgr r).
Proof.
  unfold tcmi_migman_stop_perform, tcmi_migman_change_state, tcmi_migman_notify_peer_disconnect, ops_stop,
    tcmi_ccnmigman_stop, tcmi_penmigman_stop, tcmi_migman_slot_index. ty.
Qed.
#[local] Hint Resolve ty_stop_perform : typed.
Lemma ty_kill mgr : safe (tcmi_migman_kill mgr).
Proof. unfold tcmi_migman_kill, tcmi_migman_change_state. ty. Qed.
Lemma ty_ops_process_msg mgr m : safe (ops_process_msg ARCH_CURRENT mount mgr m).
Proof.
  unfold ops_process_msg, tcmi_ccnmigman_process_msg, tcmi_penmigman_process_msg, tcmi_penmigman_send_signal,
    emit_user_message, tcmi_migman_set_state, tcmi_migman_slot_index. ty.
Qed.
#[local] Hint Resolve ty_ops_process_msg : typed.
Lemma ty_mm_arrive mgr ms : safe (mm_arrive mgr ms).
Proof. induction ms as [|m ms IH]; cbn [mm_arrive]; ty. Qed.
#[local] Hint Resolve ty_mm_arrive : typed.
Lemma ty_mm_wait mgr : safe (mm_wait_for_msg mgr).
Proof. unfold mm_wait_for_msg. ty. Qed.
Lemma ty_should_stop : safe should_stop.
Proof. unfold should_stop. ty. Qed.
#[local] Hint Resolve ty_mm_wait ty_should_stop : typed.
Lemma ty_msg_loop fuel mgr f : safe (mm_msg_loop ARCH_CURRENT mount fuel mgr f).
Proof. revert f. induction fuel as [|fuel IH]; intros f; cbn [mm_msg_loop]; ty. Qed.

(** ** A node *)

(** What a node does: its processes run the migration mode handler, its managers receive
    messages and are shut down, processes migrate and fork. *)
Inductive entry :=
| N_handler (moves fuel : nat)
| N_emigrate (pid mgr : Z)
| N_emigrate_npm (moves fuel : nat) (pid mgr regs npm : Z)
| N_guest_fork (child mgr : Z)
| N_shadow_fork (child mgr : Z)
| N_deliver (mgr : Z) (m : tcmi_msg)
| N_msg_thread (fuel : nat) (mgr : Z)
| N_stop (mgr : Z)
| N_kill (mgr : Z).

Definition run_entry (e : entry) : M unit :=
  match e with
  | N_handler moves fuel => tcmi_migcom_mig_mode_handler HZ tcmi_migman_free shadow_rpc moves fuel
  | N_emigrate pid mgr => tcmi_migcom_emigrate_ccn_ppm_p tcmi_migman_free pid mgr;; mret tt
  | N_emigrate_npm moves fuel pid mgr regs npm =>
      tcmi_migcom_emigrate_ccn_npm HZ tcmi_migman_free shadow_rpc moves fuel pid mgr regs npm;; mret tt
  | N_guest_fork child mgr => tcmi_migcom_guest_fork tcmi_migman_free child mgr;; mret tt
  | N_shadow_fork child mgr => tcmi_migcom_shadow_fork tcmi_migman_free child mgr;; mret tt
  | N_deliver mgr m => p ← fresh; modify (set_msgs (insert p m));; tcmi_migman_deliver_msg mgr p;; mret tt
  | N_msg_thread fuel mgr => tcmi_migman_msg_thread ARCH_CURRENT mount fuel mgr;; mret tt
  | N_stop mgr => tcmi_migman_stop_request mgr;; mret tt
  | N_kill mgr => tcmi_migman_kill_request mgr;; mret tt
  end.

(** One entry runs until it returns or its thread is gone; the kernel switches to another
    process, starts a process, or a process disappears. *)
Inductive node_step : kw S -> kw S -> Prop :=
| NS_return e w w' : run_entry e w = Ret tt w' -> node_step w w'
| NS_stop e s w w' : run_entry e w = Stop s w' -> node_step w w'
| NS_switch pid w : node_step w (mk_kw (tasks w) (wraps w) (msgs w) (mans w) (objs w) (procs w) pid (socks w)
                                   (next w) (answers w) (tick w) (log w))
| NS_fork pid l w : procs w !! pid = None -> p_task l = None -> node_step w (set_procs (insert pid l) w)
| NS_gone pid w : node_step w (set_procs (delete pid) w).

Lemma ty_entry e : safe (run_entry e).
Proof.
  destruct e; cbn [run_entry]; [apply ty_handler|..]; (apply keeps_bind; [|intros ?; ty]).
  - apply ty_emigrate_ppm_p.
  - apply ty_emigrate_npm.
  - apply ty_guest_fork.
  - apply ty_shadow_fork.
  - ty.
  - unfold tcmi_migman_msg_thread, wait_on_should_stop. apply keeps_bind; [apply ty_msg_loop|intros ?; ty].
  - unfold tcmi_migman_stop_request, tcmi_migman_stop. ty.
  - unfold tcmi_migman_kill_request. apply keeps_bind; [apply ty_kill|intros ?; ty].
Qed.

Lemma typed_step w w' : typed w -> node_step w w' -> typed w'.
Proof.
  intros Hw Hs. destruct Hs as [e w w' He|e s w w' He|pid w|pid l w _ Hl|pid w].
  - pose proof (ty_entry e w Hw) as Ht. unfold wlp in Ht. by rewrite He in Ht.
  - pose proof (ty_entry e w Hw) as Ht. unfold wlp in Ht. by rewrite He in Ht.
  - exact Hw.
  - apply typed_set_process; [done|]. intros p. by rewrite Hl.
  - split; [apply Hw|]. intros pid' l' p Hl' Hp. cbn [procs set_procs] in Hl'.
    apply lookup_delete_Some in Hl' as [_ Hl']. by apply (proj2 Hw pid').
Qed.
End operations.

(** C9: The type tag that the kernel's hooks find in a process always agrees with the task attached
    to it: in every state a node reaches by handling migration mode, emigrating, immigrating,
    forking, receiving messages and shutting managers down, a process that has a task has the
    migration mode handler, and its tag is [shadow] exactly for a task with the shadow's
    operation table and [guest] for one with the guest's. *)
Theorem reachable_tags_agree {S} `{Sock S} (HZ ARCH_CURRENT : Z) (mount : fs_mount_params)
    (shadow_rpc : Z -> Z -> eff (kw S) (option Z)) (w w' : kw S) :
  (forall t m, keeps typed (shadow_rpc t m)) -> typed w ->
  rtc (node_step HZ ARCH_CURRENT mount shadow_rpc) w w' ->
  forall pid l p t, procs w' !! pid = Some l -> p_task l = Some p -> tasks w' !! p = Some t ->
    mig_mode_handler l = true /\
    o_get_type (task_ops_of HZ tcmi_migman_free shadow_rpc (ops t)) = Some (task_type l).
Proof.
  intros Hrpc Hw Hr pid l p t Hl Hp Ht.
  assert (Hw' : typed w').
  { induction Hr as [w|w w1 w2 Hs _ IH]; [done|]. apply IH; [by eapply typed_step|done..]. }
  destruct (proj2 Hw' pid l p Hl Hp) as (Hh & _ & Hty). split; [done|]. rewrite (Hty t Ht). by destruct (ops t).
Qed.

Lemma ex_home_typed : typed ex_home_node.
Proof.
  split.
  - intros p t Ht. cbn [tasks ex_home_node] in Ht. apply lookup_singleton_Some in Ht as [<- _]. done.
  - intros pid l p Hl Hp. cbn [procs ex_home_node] in Hl. apply lookup_singleton_Some in Hl as [_ <-]. injection Hp as <-.
    split_and!; [done|done|]. intros t Ht. cbn [tasks ex_home_node] in Ht. by apply lookup_singleton_Some in Ht as [_ <-].
Qed.

Definition ex_step_rpc (task request : Z) : eff (kw seg_kernel) (option Z) := mret None.
Definition ex_entry : entry := N_deliver 30 (mk_msg TCMI_EXIT_PROCMSG_ID 0 0 None 1 (B_proc 42 0 (P_exit 3))).
(** The home node after it received an exit message for process 42. *)
Definition ex_after : kw seg_kernel :=
  match run_entry 100 2 (mk_mount [] [] []) ex_step_rpc ex_entry ex_home_node with Ret _ w => w | _ => ex_home_node end.

Lemma reachable_tags_agree_witness :
  exists l t, procs ex_after !! 42 = Some l /\ tasks ex_after !! 1 = Some t /\ queue (msg_queue t) = [100] /\
    mig_mode_handler l = true /\ o_get_type (task_ops_of 100 tcmi_migman_free ex_step_rpc (ops t)) = Some (task_type l).
Proof.
  destruct (procs ex_after !! 42) as [l|] eqn:El; [|vm_compute in El; discriminate El].
  destruct (tasks ex_after !! 1) as [t|] eqn:Et; [|vm_compute in Et; discriminate Et].
  exists l, t. split; [reflexivity|]. split; [reflexivity|]. split.
  { vm_compute in Et. injection Et as <-. reflexivity. }
  apply (reachable_tags_agree 100 2 (mk_mount [] [] []) ex_step_rpc ex_home_node ex_after) with (pid := 42) (p := 1).
  - intros task request w Hw. exact Hw.
  - apply ex_home_typed.
  - apply rtc_once, (NS_return _ _ _ _ ex_entry). reflexivity.
  - exact El.
  - vm_compute in El. injection El as <-. reflexivity.
  - exact Et.
Defined.
