(* ===== verification/TaskNew.v ===== *)
(** Creating a task ([tcmi_task_init] in src/src/tcmi/task/tcmi_task.c and the constructors of
    tcmi_shadowtask.c and tcmi_guesttask.c): a constructor either gives a complete task, with
    one reference, or leaves the node as it was. *)

From stdpp Require Import gmap.
From S2P Require Import Prelude Effect SlotVec Transaction KkcSock MsgId Messages Queue Msg NpmParams World Task TaskOps Migcom Migman.

Section tasknew.
Context {S : Type} `{Sock S}.
Implicit Type w : kw S.

(** What a constructor may change when it fails: the addresses and questions used up, and the
    record of released objects. *)
Definition unchanged w w' : Prop :=
  tasks w' = tasks w /\ wraps w' = wraps w /\ msgs w' = msgs w /\ mans w' = mans w /\ objs w' = objs w /\
  procs w' = procs w /\ socks w' = socks w.

(** The node before the call: the manager and the socket are alive, and addresses from [next] on
    are free. *)
Record can_create w (mp sa : Z) (mm : tcmi_migman) (n mask : Z) : Prop := {
  cc_man : mans w !! mp = Some mm;
  cc_ref : 1 <= mm_ref mm;
  cc_mask : hashmsk (mm_tasks mm) = Some mask;
  cc_lock : s_lock (mm_tasks mm) = false;
  cc_sock : objs w !! sa = Some n;
  cc_sock_ref : 1 <= n;
  cc_tasks : tasks w !! next w = None;
  cc_objs p : next w <= p -> objs w !! p = None
}.

(** The objects while the constructor runs: the socket has one more reference, the entries made
    so far have one each. *)
Definition with_objs (os : gmap Z Z) (sa n : Z) (ps : list Z) : gmap Z Z :=
  foldr (fun p o => <[p := 1]> o) (<[sa := n + 1]> os) ps.

Lemma wp_obj_new Q G w :
  Q None (set_tick (Datatypes.S (tick w)) w) ->
  Q (Some (next w)) (set_objs (insert (next w) 1) (set_next (next w + 1) (set_tick (Datatypes.S (tick w)) w))) ->
  wp obj_new Q G w.
Proof. intros H0 H1. unfold obj_new. step. destruct (a_ok _); [do 3 step; exact H1|step; exact H0]. Qed.

Lemma wp_obj_put_last p os Q G w :
  objs w = <[p := 1]> os -> os !! p = None ->
  (forall w', objs w' = os -> tasks w' = tasks w -> wraps w' = wraps w -> msgs w' = msgs w -> mans w' = mans w ->
     procs w' = procs w -> socks w' = socks w -> Q tt w') ->
  wp (obj_put (Some p)) Q G w.
Proof.
  intros Ho Hp HQ. unfold obj_put. step. apply wp_bind. eapply wp_valid; [rewrite Ho; apply lookup_insert_eq|].
  change (1 - 1 =? 0) with true. cbv iota. do 2 step. apply HQ; try done. proj. by rewrite Ho, delete_insert_id.
Qed.

(** The node while the task [p] is under construction and has the entries [ps]. *)
Record building w w' (mp sa : Z) (mm : tcmi_migman) (n p : Z) (t : tcmi_task) (ps : list Z) : Prop := {
  bd_tasks : tasks w' = <[p := t]> (tasks w);
  bd_mans : mans w' = <[mp := mm_set_ref (mm_ref mm + 1) mm]> (mans w);
  bd_objs : objs w' = with_objs (objs w) sa n ps;
  bd_rest : wraps w' = wraps w /\ msgs w' = msgs w /\ procs w' = procs w /\ socks w' = socks w;
  bd_task : t_sock t = Some sa /\ t_migman t = Some mp
}.

Lemma mm_ref_back m : mm_set_ref (mm_ref m + 1 - 1) (mm_set_ref (mm_ref m + 1) m) = m.
Proof. unfold mm_set_ref, mm_with; cbn. replace (mm_ref m + 1 - 1) with (mm_ref m) by lia. by destruct m. Qed.

Lemma building_upd w w' mp sa mm n p t ps f Q G :
  building w w' mp sa mm n p t ps -> t_sock (f t) = t_sock t -> t_migman (f t) = t_migman t ->
  (forall w'', building w w'' mp sa mm n p (f t) ps -> tick w'' = tick w' -> answers w'' = answers w' -> next w'' = next w' ->
     Q tt w'') ->
  wp (upd_task p f) Q G w'.
Proof.
  intros [HT HM HO HR HK] Hs Hm HQ. eapply wp_upd_task; [rewrite HT; apply lookup_insert_eq|]. apply HQ; try done.
  split; try done; [proj; by rewrite HT, insert_insert_eq|]. by rewrite Hs, Hm.
Qed.

(** The entries are distinct new objects. *)
Definition new_entries w (sa : Z) (ps : list Z) : Prop := NoDup ps /\ forall p, p ∈ ps -> next w < p /\ p <> sa.

Lemma with_objs_fresh w sa n ps p : (forall q, next w <= q -> objs w !! q = None) -> new_entries w sa (p :: ps) ->
  with_objs (objs w) sa n ps !! p = None.
Proof.
  intros Hf [Hnd Hin]. apply NoDup_cons in Hnd as [Hp _]. destruct (Hin p) as [Hlt Hne]; [by apply elem_of_cons; left|].
  assert (Hin' : forall q, q ∈ ps -> q <> p) by (intros q Hq ->; done). clear Hin.
  induction ps as [|q ps IH]; cbn.
  - rewrite lookup_insert_ne by done. apply Hf. lia.
  - rewrite lookup_insert_ne.
    + apply IH; [by intros ?; apply Hp, elem_of_cons; right|]. intros r Hr. apply Hin', elem_of_cons. by right.
    + apply Hin', elem_of_cons. by left.
Qed.

(** The error labels undo what was done. *)
Lemma wp_exit0 w w' mp sa mm n mask p t Q G :
  can_create w mp sa mm n mask -> building w w' mp sa mm n p t [] ->
  (forall w'' t', unchanged (set_tasks (insert p t') w) w'' -> Q tt w'') ->
  wp (init_exit0 tcmi_migman_free p) Q G w'.
Proof.
  intros Hc [HT HM HO (R1 & R2 & R3 & R4) [Hs Hm]] HQ. unfold init_exit0.
  eapply wp_bind, wp_task; [rewrite HT; apply lookup_insert_eq|]. rewrite Hs, Hm.
  apply wp_bind. unfold obj_put. step. apply wp_bind. eapply wp_valid; [rewrite HO; apply lookup_insert_eq|].
  pose proof (cc_sock_ref _ _ _ _ _ _ Hc). pose proof (cc_ref _ _ _ _ _ _ Hc). replace (n + 1 - 1 =? 0) with false by lia. step.
  unfold tcmi_migman_put. apply wp_bind. eapply wp_bind, wp_migman; [proj; rewrite HM; apply lookup_insert_eq|].
  eapply wp_bind, wp_upd_migman; [proj; rewrite HM; apply lookup_insert_eq|]. cbn [mm_ref mm_set_ref mm_with].
  replace (mm_ref mm + 1 - 1 =? 0) with false by lia. do 2 step. eapply (HQ _ t). repeat split; proj; try done.
  - rewrite HM, insert_insert_eq, mm_ref_back. apply insert_id, Hc.
  - rewrite HO. cbn. rewrite insert_insert_eq. replace (n + 1 - 1) with n by lia. apply insert_id, Hc.
Qed.
Lemma wp_exit1 w w' mp sa mm n mask p t Q G :
  can_create w mp sa mm n mask -> building w w' mp sa mm n p t [] ->
  (forall w'' t', unchanged (set_tasks (insert p t') w) w'' -> Q tt w'') ->
  wp (init_exit1 tcmi_migman_free p) Q G w'.
Proof.
  intros Hc Hb HQ. unfold init_exit1. apply wp_bind. eapply building_upd; [exact Hb|done|done|].
  intros w'' Hb' _ _ _. by eapply wp_exit0.
Qed.

(** Dropping the latest entry. *)
Lemma wp_drop_entry {A} w w' mp sa mm n mask p t q ps (sel : tcmi_task -> option Z) (k : eff (kw S) A) Q G :
  can_create w mp sa mm n mask -> building w w' mp sa mm n p t (q :: ps) -> new_entries w sa (q :: ps) -> sel t = Some q ->
  (forall w'', building w w'' mp sa mm n p t ps -> wp k Q G w'') ->
  wp (t ← task p; obj_put (sel t);; k) Q G w'.
Proof.
  intros Hc [HT HM HO HR HK] Hn Hs HQ. eapply wp_bind, wp_task; [rewrite HT; apply lookup_insert_eq|]. rewrite Hs.
  apply wp_bind. eapply wp_obj_put_last; [exact HO|eapply with_objs_fresh; [apply Hc|exact Hn]|].
  intros w'' H1 H2 H3 H4 H5 H6 H7. apply HQ. split; [congruence|congruence|done| |done].
  destruct HR as (? & ? & ? & ?). split_and!; congruence.
Qed.

Definition undone w (p : Z) (Q : unit -> kw S -> Prop) : Prop :=
  forall w'' t', unchanged (set_tasks (insert p t') w) w'' -> Q tt w''.

Lemma wp_exit2 w w' mp sa mm n mask p t d Q G :
  can_create w mp sa mm n mask -> building w w' mp sa mm n p t [d] -> new_entries w sa [d] -> d_task t = Some d ->
  undone w p Q -> wp (init_exit2 tcmi_migman_free p) Q G w'.
Proof.
  intros Hc Hb Hn Hd HQ. unfold init_exit2. eapply wp_drop_entry; [exact Hc|exact Hb|exact Hn|exact Hd|].
  intros w'' Hb'. by eapply wp_exit1.
Qed.
Lemma new_entries_tail w sa p ps : new_entries w sa (p :: ps) -> new_entries w sa ps.
Proof. intros [Hnd Hin]. split; [by apply NoDup_cons in Hnd as [_ ?]|]. intros q Hq. apply Hin, elem_of_cons. by right. Qed.
Lemma wp_exit3 w w' mp sa mm n mask p t l d Q G :
  can_create w mp sa mm n mask -> building w w' mp sa mm n p t [l; d] -> new_entries w sa [l; d] ->
  d_task t = Some d -> s_migman t = Some l -> undone w p Q -> wp (init_exit3 tcmi_migman_free p) Q G w'.
Proof.
  intros Hc Hb Hn Hd Hl HQ. unfold init_exit3. eapply wp_drop_entry; [exact Hc|exact Hb|exact Hn|exact Hl|].
  intros w'' Hb'. eapply wp_exit2; [exact Hc|exact Hb'|by eapply new_entries_tail|exact Hd|exact HQ].
Qed.
Lemma wp_exit4 w w' mp sa mm n mask p t f l d Q G :
  can_create w mp sa mm n mask -> building w w' mp sa mm n p t [f; l; d] -> new_entries w sa [f; l; d] ->
  d_task t = Some d -> s_migman t = Some l -> f_remote_pid t = Some f -> undone w p Q ->
  wp (init_exit4 tcmi_migman_free p) Q G w'.
Proof.
  intros Hc Hb Hn Hd Hl Hf HQ. unfold init_exit4. eapply wp_drop_entry; [exact Hc|exact Hb|exact Hn|exact Hf|].
  intros w'' Hb'. eapply wp_exit3; [exact Hc|exact Hb'|by eapply new_entries_tail|exact Hd|exact Hl|exact HQ].
Qed.

(** An entry is made, or the constructor goes to its error label. *)
Lemma wp_new_entry w w' mp sa mm n p t ps Q G :
  building w w' mp sa mm n p t ps ->
  (forall w'', building w w'' mp sa mm n p t ps -> Q None w'') ->
  (forall w'', building w w'' mp sa mm n p t (next w' :: ps) -> next w'' = next w' + 1 -> Q (Some (next w')) w'') ->
  wp obj_new Q G w'.
Proof.
  intros [HT HM HO HR HK] H0 H1. apply wp_obj_new.
  - apply H0. by split.
  - apply H1; [|done]. split; try done. proj. by rewrite HO.
Qed.

(** A finished task. *)
Definition complete_task (c : tcmi_task_class) (pid mp sa : Z) (t : tcmi_task) : Prop :=
  ops t = c /\ t_ref t = 1 /\ local_pid t = pid /\ t_migman t = Some mp /\ t_sock t = Some sa /\
  method_queue t = tcmi_queue_init /\ msg_queue t = tcmi_queue_init /\
  (ckpt_pathname t, argv t, t_envp t) = (None, None, None) /\ peer_lost t = 0 /\
  exists tw, t_trans t = Some tw /\ heap tw = ∅.

Lemma wp_task_init c pid dp dm w w1 mp sa mm n mask Q G :
  can_create w mp sa mm n mask -> tasks w1 = <[next w := blank_task c]> (tasks w) -> next w1 = next w + 1 ->
  mans w1 = mans w -> objs w1 = objs w -> wraps w1 = wraps w -> msgs w1 = msgs w -> procs w1 = procs w -> socks w1 = socks w ->
  (forall r w' t', r < 0 -> unchanged (set_tasks (insert (next w) t') w) w' -> Q r w') ->
  (forall w' t' mm' i v, tasks w' = <[next w := t']> (tasks w) -> complete_task c pid mp sa t' ->
     mans w' = <[mp := mm']> (mans w) -> mm_ref mm' = mm_ref mm + 1 -> mm_tasks mm' = v ->
     tcmi_slotvec_insert_at (mm_tasks mm) (Z.land pid mask) (next w) = Some (Some i, v) -> Q 0 w') ->
  wp (tcmi_task_init tcmi_migman_free (next w) pid (Some mp) (Some sa) dp dm) Q G w1.
Proof.
  intros Hc HT HN HM HO HW HG HP HS Hfail Hok. unfold tcmi_task_init.
  apply wp_bind. unfold tcmi_migman_get. eapply wp_bind, wp_upd_migman; [rewrite HM; apply Hc|]. step.
  apply wp_bind. unfold obj_get. step. rewrite HO. apply wp_bind. eapply wp_valid; [apply Hc|]. step.
  unfold task_start. apply wp_bind. eapply wp_upd_task; [proj; rewrite HT; apply lookup_insert_eq|].
  match goal with |- wp _ _ _ ?W => set (w2 := W) end.
  match eval unfold w2 in w2 with set_tasks (insert _ ?T) _ => set (t0 := T) in w2 end.
  assert (Hb : building w w2 mp sa mm n (next w) t0 []).
  { split; try done; unfold w2; proj; [by rewrite HT, insert_insert_eq|by rewrite HM|by rewrite HO]. }
  assert (Hn2 : next w2 = next w + 1) by (unfold w2; proj; exact HN).
  clearbody w2. clear HT HN HM HO HW HG HP HS w1.
  assert (Hq : undone w (next w) (fun _ => wp (mret (- EINVAL)) Q G)) by (intros w4 t' Hu; step; by eapply (Hfail _ _ t')).
  assert (Hne : forall q, next w < q -> q <> sa).
  { intros q Hlt ->. pose proof (cc_objs _ _ _ _ _ _ Hc sa) as Hx. rewrite (cc_sock _ _ _ _ _ _ Hc) in Hx. by discriminate Hx; lia. }
  do 2 step. match goal with |- wp _ _ _ ?W => assert (Hb3 : building w W mp sa mm n (next w) t0 []) by (by destruct Hb);
    assert (Hn3 : next W = next w + 1) by exact Hn2; revert Hb3 Hn3; generalize W end.
  clear Hb Hn2. intros w3 Hb3 Hn3. destruct (tcmi_slotvec_hnew _ _ _) as [tv|].
  2: { apply wp_bind. eapply wp_exit0; [exact Hc|exact Hb3|]. intros w4 t' Hu. step. by eapply (Hfail _ _ t'). }
  apply wp_bind. eapply building_upd; [exact Hb3|done|done|]. intros w4 Hb4 _ _ Hn4. rewrite Hn3 in Hn4. clear Hb3 Hn3 w3.
  apply wp_bind. eapply wp_new_entry; [exact Hb4|..]; [intros w5 Hb5|intros w5 Hb5 Hn5; rewrite Hn4 in Hb5, Hn5 |- *];
    (apply wp_bind; eapply building_upd; [exact Hb5|done|done|]; intros w6 Hb6 _ _ Hn6).
  { apply wp_bind. by eapply wp_exit1. }
  rewrite Hn5 in Hn6. apply wp_bind.
  eapply wp_new_entry; [exact Hb6|..]; [intros w7 Hb7|intros w7 Hb7 Hn7; rewrite Hn6 in Hb7, Hn7 |- *];
    (apply wp_bind; eapply building_upd; [exact Hb7|done|done|]; intros w8 Hb8 _ _ Hn8).
  { apply wp_bind. eapply wp_exit2; [exact Hc|exact Hb8| |done|exact Hq]. split; [apply NoDup_singleton|].
    intros q Hin. apply list_elem_of_singleton in Hin as ->. split; [lia|apply Hne; lia]. }
  rewrite Hn7 in Hn8. apply wp_bind.
  eapply wp_new_entry; [exact Hb8|..]; [intros w9 Hb9|intros w9 Hb9 Hn9; rewrite Hn8 in Hb9, Hn9 |- *];
    (apply wp_bind; eapply building_upd; [exact Hb9|done|done|]; intros wa Hba _ _ Hna).
  { apply wp_bind. eapply wp_exit3; [exact Hc|exact Hba| |done|done|exact Hq]. split.
    - repeat constructor; rewrite ?list_elem_of_singleton; try lia. set_solver.
    - intros q Hin. assert (next w < q) by (set_unfold in Hin; lia). auto. }
  rewrite Hn9 in Hna. clear Hb4 Hb5 Hb6 Hb7 Hb8 Hb9.
  set (ps := [next w + 1 + 1 + 1; next w + 1 + 1; next w + 1]) in *.
  assert (Hps : new_entries w sa ps).
  { split; [repeat constructor; set_unfold; lia|]. intros q Hin.
    assert (next w < q) by (unfold ps in Hin; set_unfold in Hin; lia). auto. }
  match type of Hba with building _ _ _ _ _ _ _ ?T _ => set (t1 := T) in * end.
  apply wp_bind. unfold tcmi_migman_add_task.
  eapply wp_bind, wp_migman; [rewrite (bd_mans _ _ _ _ _ _ _ _ _ Hba); apply lookup_insert_eq|].
  eapply wp_bind, wp_task; [rewrite (bd_tasks _ _ _ _ _ _ _ _ _ Hba); apply lookup_insert_eq|].
  apply wp_bind. eapply wp_valid; [exact (cc_mask _ _ _ _ _ _ Hc)|]. cbn [mm_tasks mm_set_ref mm_with]. unfold tcmi_task_hash.
  change (local_pid t1) with pid. unfold tcmi_slotvec_insert_at in *.
  destruct (tcmi_slotvec_at (mm_tasks mm) (Z.land pid mask)) as [i|].
  - unfold tcmi_slot_insert, tcmi_slot_lock in *. rewrite (cc_lock _ _ _ _ _ _ Hc) in *. cbn [mbind option_bind] in *.
    step. eapply wp_bind, wp_upd_migman; [rewrite (bd_mans _ _ _ _ _ _ _ _ _ Hba); apply lookup_insert_eq|]. step.
    cbn [negb Z.eqb]. unfold task_finish. eapply wp_bind, wp_upd_task;
      [proj; rewrite (bd_tasks _ _ _ _ _ _ _ _ _ Hba); apply lookup_insert_eq|]. step.
    eapply Hok; [proj; by rewrite (bd_tasks _ _ _ _ _ _ _ _ _ Hba), insert_insert_eq| |
      proj; by rewrite (bd_mans _ _ _ _ _ _ _ _ _ Hba), insert_insert_eq|done|reflexivity|reflexivity].
    unfold complete_task. cbn. split_and!; try done. by eexists.
  - step. eapply wp_bind, wp_upd_migman; [rewrite (bd_mans _ _ _ _ _ _ _ _ _ Hba); apply lookup_insert_eq|]. step.
    change (negb (- EINVAL =? 0)) with true. cbv iota. apply wp_bind.
    eapply (wp_exit4 w _ mp sa mm n mask (next w) t1); [exact Hc| |exact Hps|done|done|done|exact Hq].
    destruct Hba as [B1 B2 B3 B4 B5]. split; try done. proj. rewrite B2, insert_insert_eq. f_equal.
Qed.

(** C25: Creating a shadow or guest task is all or nothing.  If an allocation, an entry of the
    control file system or the manager's slot is missing, every error path releases exactly what
    was acquired before it, and managers, objects, tasks, messages and processes are as they
    were.  Otherwise the new task is complete: one reference, empty queues, an empty transaction
    table, no execve context, a reference on its manager and a place in the manager's table. *)
Theorem task_new_all_or_nothing (c : tcmi_task_class) (pid mp sa : Z) (dp dm : option Z) (mm : tcmi_migman) (n mask : Z) w :
  can_create w mp sa mm n mask ->
  wp (task_new tcmi_migman_free c pid (Some mp) (Some sa) dp dm)
    (fun o w' =>
       match o with
       | None => unchanged w w'
       | Some p => p = next w /\ exists t mm' i, tasks w' = <[p := t]> (tasks w) /\ complete_task c pid mp sa t /\
           mans w' = <[mp := mm']> (mans w) /\ mm_ref mm' = mm_ref mm + 1 /\
           tcmi_slotvec_insert_at (mm_tasks mm) (Z.land pid mask) p = Some (Some i, mm_tasks mm')
       end)
    (fun _ _ => False) w.
Proof.
  intros Hc. unfold task_new. step. destruct (a_ok _); cbn [negb]; [|step; repeat split]. do 2 step. apply wp_bind.
  eapply (wp_task_init c pid dp dm w); [exact Hc|done..| |]; proj.
  - intros r w' t' Hr (HT & HR). replace (r <? 0) with true by lia. do 2 step. destruct HR as (? & ? & ? & ? & ? & ?).
    split_and!; try done. proj. rewrite HT. proj. by rewrite delete_insert_id by apply Hc.
  - intros w' t' mm' i v HT Ht HM Hr <- Hi. cbn [Z.ltb Z.compare]. step. split; [done|]. by exists t', mm', i.
Qed.

End tasknew.

Definition ex_new_migman : tcmi_migman :=
  mm_set_ref 1 (mm_set_tasks (mk_slotvec [mk_slot 0 []; mk_slot 1 []] 2 (Some 1) [0%nat; 1%nat] [] 1 false) (blank_migman Ccnmigman)).
Definition ex_new_node : kw seg_kernel :=
  set_objs (fun _ => {[7 := 1]}) (set_mans (fun _ => {[30 := ex_new_migman]}) (empty_kw 100)).

Lemma task_new_all_or_nothing_witness :
  exists w' t, task_new tcmi_migman_free Shadowtask 42 (Some 30) (Some 7) None None ex_new_node = Ret (Some 100) w' /\
    tasks w' !! 100 = Some t /\ complete_task Shadowtask 42 30 7 t.
Proof.
  pose proof (task_new_all_or_nothing Shadowtask 42 30 7 None None ex_new_migman 1 1 ex_new_node) as Hn. unfold wp in Hn.
  destruct (task_new tcmi_migman_free Shadowtask 42 (Some 30) (Some 7) None None ex_new_node) as [[p|] w'|? ?|] eqn:E.
  - clear E. destruct Hn as (-> & t & mm' & i & HT & Hc & _).
    + split; try reflexivity. intros q Hp. change (objs ex_new_node) with ({[7 := 1]} : gmap Z Z).
      apply lookup_singleton_None. intros <-. by apply Hp.
    + exists w', t. split; [reflexivity|]. rewrite HT. split; [apply lookup_insert_eq|exact Hc].
  - exfalso. clear Hn. vm_compute in E. discriminate E.
  - exfalso. clear Hn. vm_compute in E. discriminate E.
  - exfalso. clear Hn. vm_compute in E. discriminate E.
Defined.
