(* ===== verification/CkptKernel.v ===== *)
(** The kernel as the checkpointing code (src/src/tcmi/ckpt, src/src/arch) sees it: the parts of
    a process that are saved and restored, the checkpoint file, and the kernel functions that
    are called.

    The kernel functions are the class [Kernel]; what its documentation promises while no
    resource runs out ([healthy]) is the class [KernelLaws].  A file is its bytes and its
    position; an address space is a map from page addresses to pages. *)

From stdpp Require Import gmap.
From S2P Require Import Prelude Effect NpmParams.

Definition ENOEXEC : Z := 8.
Definition ESPIPE : Z := 29.

(** ** Structures in memory *)

(** The bytes of a packed structure with fields of the given sizes, and back. *)
Fixpoint pack (sizes : list nat) (vs : list Z) : list Z :=
  match sizes, vs with
  | s :: sizes, v :: vs => le_bytes s v ++ pack sizes vs
  | _, _ => []
  end.
Fixpoint unpack (sizes : list nat) (d : list Z) : list Z :=
  match sizes with
  | [] => []
  | s :: sizes => le_value (take s d) :: unpack sizes (drop s d)
  end.

(** ** The process *)

(** An open file: position, flags, mode, the mode of its inode, its path. *)
Record filp := mk_filp {
  fp_pos : Z; fp_flags : Z; fp_mode : Z; fp_imode : Z; fp_path : list Z
}.
#[export] Instance filp_eq : EqDecision filp.
Proof. solve_decision. Defined.
(** The descriptor table ([fdt->fd] where [open_fds] is set), [max_fds], and the open files. *)
Record files_struct := mk_files {
  fdt : gmap Z Z; max_fds : Z; filps : gmap Z filp
}.
Definition set_fdt (f : gmap Z Z -> gmap Z Z) (fs : files_struct) : files_struct :=
  mk_files (f (fdt fs)) (max_fds fs) (filps fs).

Record vm_area_struct := mk_vma {
  vm_start : Z; vm_end : Z; vm_flags : Z; vm_pgoff : Z; vm_file : option (list Z)
}.

(** What a page holds: bytes of its own, or a page of a mapped file. *)
Inductive content := Bytes (d : list Z) | Backed (name : list Z) (pgoff : Z).
Record page := mk_page { pg_prot : Z; pg_flags : Z; pg_content : content }.

Record mm_struct := mk_mm {
  start_code : Z; end_code : Z; start_data : Z; end_data : Z; start_brk : Z; brk : Z;
  start_stack : Z; arg_start : Z; arg_end : Z; env_start : Z; env_end : Z; def_flags : Z;
  mmap : list vm_area_struct
}.

Record pt_regs := mk_regs {
  r_r15 : Z; r_r14 : Z; r_r13 : Z; r_r12 : Z; r_bp : Z; r_bx : Z; r_r11 : Z; r_r10 : Z;
  r_r9 : Z; r_r8 : Z; r_ax : Z; r_cx : Z; r_dx : Z; r_si : Z; r_di : Z; r_orig_ax : Z;
  r_ip : Z; r_cs : Z; r_flags : Z; r_sp : Z; r_ss : Z
}.

(** The constants of the x86_64 kernel that [start_thread] sets. *)
Definition __USER_CS : Z := 51.
Definition __USER_DS : Z := 43.
Definition X86_EFLAGS_IF : Z := 512.

Record thread_struct := mk_thread {
  tls_array : list Z; th_gs : Z; th_fs : Z; th_gsindex : Z; th_fsindex : Z
}.

Record k_sigaction := mk_sigaction {
  sa_handler : Z; sa_restorer : Z; sa_flags : Z; sa_mask : Z
}.
Record signals := mk_signals {
  sas_ss_sp : Z; sas_ss_size : Z; sig_blocked : Z; sig_real_blocked : Z;
  sig_action : list k_sigaction
}.

(** The process [current].  [p_shadow]: it has a task and is a shadow; [p_ia32], [p_per32]: the
    thread flag TIF_IA32 and the personality PER_LINUX32_3GB. *)
Record proc := mk_process {
  p_tgid : Z;
  p_shadow : bool;
  p_comm : list Z;
  p_ia32 : bool;
  p_per32 : bool;
  p_rlim : list (Z * Z);
  p_files : files_struct;
  p_mm : mm_struct;
  p_mem : gmap Z page;
  p_regs : pt_regs;
  p_thread : thread_struct;
  p_pwd : list Z;
  p_sig : signals
}.

Section set_process.
Implicit Types p : proc.
Definition set_comm x p := mk_process (p_tgid p) (p_shadow p) x (p_ia32 p) (p_per32 p) (p_rlim p)
  (p_files p) (p_mm p) (p_mem p) (p_regs p) (p_thread p) (p_pwd p) (p_sig p).
Definition set_ia32 x p := mk_process (p_tgid p) (p_shadow p) (p_comm p) x (p_per32 p) (p_rlim p)
  (p_files p) (p_mm p) (p_mem p) (p_regs p) (p_thread p) (p_pwd p) (p_sig p).
Definition set_per32 x p := mk_process (p_tgid p) (p_shadow p) (p_comm p) (p_ia32 p) x (p_rlim p)
  (p_files p) (p_mm p) (p_mem p) (p_regs p) (p_thread p) (p_pwd p) (p_sig p).
Definition set_rlim x p := mk_process (p_tgid p) (p_shadow p) (p_comm p) (p_ia32 p) (p_per32 p) x
  (p_files p) (p_mm p) (p_mem p) (p_regs p) (p_thread p) (p_pwd p) (p_sig p).
Definition set_files x p := mk_process (p_tgid p) (p_shadow p) (p_comm p) (p_ia32 p) (p_per32 p) (p_rlim p)
  x (p_mm p) (p_mem p) (p_regs p) (p_thread p) (p_pwd p) (p_sig p).
Definition set_mm x p := mk_process (p_tgid p) (p_shadow p) (p_comm p) (p_ia32 p) (p_per32 p) (p_rlim p)
  (p_files p) x (p_mem p) (p_regs p) (p_thread p) (p_pwd p) (p_sig p).
Definition set_mem x p := mk_process (p_tgid p) (p_shadow p) (p_comm p) (p_ia32 p) (p_per32 p) (p_rlim p)
  (p_files p) (p_mm p) x (p_regs p) (p_thread p) (p_pwd p) (p_sig p).
Definition set_regs x p := mk_process (p_tgid p) (p_shadow p) (p_comm p) (p_ia32 p) (p_per32 p) (p_rlim p)
  (p_files p) (p_mm p) (p_mem p) x (p_thread p) (p_pwd p) (p_sig p).
Definition set_thread x p := mk_process (p_tgid p) (p_shadow p) (p_comm p) (p_ia32 p) (p_per32 p) (p_rlim p)
  (p_files p) (p_mm p) (p_mem p) (p_regs p) x (p_pwd p) (p_sig p).
Definition set_pwd x p := mk_process (p_tgid p) (p_shadow p) (p_comm p) (p_ia32 p) (p_per32 p) (p_rlim p)
  (p_files p) (p_mm p) (p_mem p) (p_regs p) (p_thread p) x (p_sig p).
Definition set_sig x p := mk_process (p_tgid p) (p_shadow p) (p_comm p) (p_ia32 p) (p_per32 p) (p_rlim p)
  (p_files p) (p_mm p) (p_mem p) (p_regs p) (p_thread p) (p_pwd p) x.
End set_process.

(** ** The checkpoint file *)

Record cfile := mk_cfile { f_pos : Z; f_data : list Z; f_count : Z }.

Definition zeros (n : Z) : list Z := replicate (Z.to_nat n) 0.

(** The contents after [d] was written at [pos]; a gap is filled with zeros. *)
Definition put_at (pos : Z) (d data : list Z) : list Z :=
  ztake pos (data ++ zeros (pos - zlen data)) ++ d ++ zdrop (pos + zlen d) data.

(** ** Mappings *)

Inductive map_src := Anon | Ckpt (data : list Z) | Named (name : list Z).

Definition page_at (data : list Z) (off : Z) : list Z := ztake PAGE_SIZE (zdrop off data).
Definition src_page (s : map_src) (off : Z) : content :=
  match s with
  | Anon => Bytes (zeros PAGE_SIZE)
  | Ckpt data => Bytes (page_at data off)
  | Named name => Backed name (off / PAGE_SIZE)
  end.
(** [n] pages from [addr] are mapped to the source from [off]. *)
Fixpoint map_pages (n : nat) (addr off : Z) (s : map_src) (prot flags : Z) (m : gmap Z page) : gmap Z page :=
  match n with
  | O => m
  | S n => <[addr := mk_page prot flags (src_page s off)]>
             (map_pages n (addr + PAGE_SIZE) (off + PAGE_SIZE) s prot flags m)
  end.

Definition aligned (a : Z) : Prop := a mod PAGE_SIZE = 0.

Definition MAP_SHARED : Z := 1.
Definition MAP_PRIVATE : Z := 2.
Definition MAP_FIXED : Z := 16.

(** ** The kernel functions

    [alloc]: kmalloc, vmalloc and __get_free_page.  [vfs_llseek_fd] positions an open file of
    the process.  [do_mmap] is also [do_mmap_pgoff], with the offset in bytes.  [get_user_pages]
    takes a reference to the page that it finds; no function here gives one back ([PageRefs]).
    [proxyfs_server_overtake_file] belongs to the ProxyFS server. *)
Class Kernel := {
  kst : Type;
  alloc : kst -> bool * kst;
  vfs_write : list Z -> cfile -> kst -> Z * cfile * kst;
  vfs_read : Z -> cfile -> kst -> Z * list Z * cfile * kst;
  vfs_llseek : Z -> Z -> cfile -> kst -> Z * cfile * kst;
  d_path : Z -> list Z -> kst -> option (list Z) * kst;
  path_lookup : list Z -> kst -> Z * kst;
  do_sys_open : list Z -> Z -> Z -> files_struct -> kst -> Z * files_struct * kst;
  vfs_llseek_fd : Z -> Z -> files_struct -> kst -> Z * files_struct * kst;
  sys_dup2 : Z -> Z -> files_struct -> kst -> Z * files_struct * kst;
  sys_close : Z -> files_struct -> kst -> files_struct * kst;
  proxyfs_server_overtake_file : Z -> kst -> option Z * kst;
  filp_open : list Z -> kst -> bool * kst;
  do_mmap : map_src -> Z -> Z -> Z -> Z -> Z -> gmap Z page -> kst -> Z * gmap Z page * kst;
  (** the bytes of a page that is mapped *)
  backing : list Z -> Z -> list Z;
  get_user_pages : Z -> gmap Z page -> kst -> option (list Z) * kst;
  flush_old_exec : proc -> kst -> Z * proc * kst;
  start_thread : pt_regs -> Z -> Z -> pt_regs;
  do_execve : list Z -> tcmi_npm_params -> kst -> Z * kst;
  vendor_amd : bool;
  syscall32_setup_pages : kst -> Z * kst
}.

Definition page_bytes `{Kernel} (pg : page) : list Z :=
  match pg_content pg with Bytes d => d | Backed name off => backing name off end.

(** The lowest descriptor that is not in use. *)
Definition lowest_free (t : gmap Z Z) (fd : Z) : Prop :=
  0 <= fd /\ t !! fd = None /\ forall i, 0 <= i < fd -> is_Some (t !! i).

(** What the documentation promises. [reopens name flags pos]: on this node the file can be
    opened with the flags and positioned; [fd_limit]: the limit of descriptors. *)
Class KernelLaws `{Kernel} := {
  healthy : kst -> Prop;
  reopens : list Z -> Z -> Z -> Prop;
  is_dir : list Z -> Prop;
  fd_limit : Z;
  proxy_ident : Z -> Z;
  alloc_ok k : healthy k -> exists k', alloc k = (true, k') /\ healthy k';
  write_ok d f k : healthy k -> 0 <= f_pos f ->
    exists k', vfs_write d f k =
      (zlen d, mk_cfile (f_pos f + zlen d) (put_at (f_pos f) d (f_data f)) (f_count f), k') /\ healthy k';
  read_ok n f k : healthy k -> 0 <= n -> 0 <= f_pos f ->
    exists k', let d := ztake n (zdrop (f_pos f) (f_data f)) in
      vfs_read n f k = (zlen d, d, mk_cfile (f_pos f + zlen d) (f_data f) (f_count f), k') /\ healthy k';
  llseek_ok off origin f k : healthy k -> origin = 0 \/ origin = 1 ->
    let pos := if origin =? 0 then off else f_pos f + off in 0 <= pos ->
    exists k', vfs_llseek off origin f k = (pos, mk_cfile pos (f_data f) (f_count f), k') /\ healthy k';
  d_path_ok lim p k : healthy k -> zlen p + 1 <= lim ->
    exists k', d_path lim p k = (Some p, k') /\ healthy k';
  path_lookup_ok p k : healthy k -> is_dir p ->
    exists k', path_lookup p k = (0, k') /\ healthy k';
  open_ok name flags mode fs fd k : healthy k -> reopens name flags 0 -> lowest_free (fdt fs) fd ->
    fd < fd_limit ->
    exists a m i n k', filps fs !! a = None /\
      do_sys_open name flags mode fs k =
      (fd, mk_files (<[fd := a]> (fdt fs)) n (<[a := mk_filp 0 flags m i name]> (filps fs)), k') /\ healthy k';
  llseek_fd_ok fd pos fs a fp k : healthy k -> fdt fs !! fd = Some a -> filps fs !! a = Some fp ->
    reopens (fp_path fp) (fp_flags fp) pos ->
    exists k', vfs_llseek_fd fd pos fs k =
      (pos, mk_files (fdt fs) (max_fds fs)
              (<[a := mk_filp pos (fp_flags fp) (fp_mode fp) (fp_imode fp) (fp_path fp)]> (filps fs)), k') /\
      healthy k';
  (** a free descriptor becomes another one of an open file *)
  dup2_ok old new fs a k : healthy k -> fdt fs !! old = Some a -> fdt fs !! new = None ->
    0 <= new < fd_limit ->
    exists n k', sys_dup2 old new fs k = (new, mk_files (<[new := a]> (fdt fs)) n (filps fs), k') /\ healthy k';
  (** only a file without descriptors goes away *)
  close_ok fd fs a k : healthy k -> fdt fs !! fd = Some a ->
    exists fp' k', sys_close fd fs k = (mk_files (delete fd (fdt fs)) (max_fds fs) fp', k') /\ healthy k' /\
      forall b, filps fs !! b <> fp' !! b -> forall fd', delete fd (fdt fs) !! fd' <> Some b;
  overtake_ok fd k : healthy k ->
    exists k', proxyfs_server_overtake_file fd k = (Some (proxy_ident fd), k') /\ healthy k';
  filp_open_ok name k : healthy k -> reopens name 0 0 ->
    exists k', filp_open name k = (true, k') /\ healthy k';
  do_mmap_ok s addr n prot flags off m k : healthy k -> aligned addr -> aligned off -> (0 < n)%nat ->
    Z.land flags MAP_FIXED <> 0 ->
    (forall data, s = Ckpt data -> 0 <= off /\ off + Z.of_nat n * PAGE_SIZE <= zlen data) ->
    exists k', do_mmap s addr (Z.of_nat n * PAGE_SIZE) prot flags off m k =
      (addr, map_pages n addr off s prot flags m, k') /\ healthy k';
  get_user_pages_ok addr m k : healthy k ->
    exists k', get_user_pages addr m k = (page_bytes <$> m !! addr, k') /\ healthy k';
  (** the old address space and the descriptors marked close-on-exec go away *)
  flush_ok p k : healthy k ->
    exists fs k', flush_old_exec p k = (0, set_mem ∅ (set_files fs p), k') /\ healthy k' /\
      fdt fs ⊆ fdt (p_files p);
  (** a new thread starts at the given addresses, with the segments of user mode and only the
      interrupt flag; the other registers stay *)
  start_thread_ok r ip sp :
    start_thread r ip sp =
    mk_regs (r_r15 r) (r_r14 r) (r_r13 r) (r_r12 r) (r_bp r) (r_bx r) (r_r11 r) (r_r10 r) (r_r9 r)
      (r_r8 r) (r_ax r) (r_cx r) (r_dx r) (r_si r) (r_di r) (r_orig_ax r) ip __USER_CS X86_EFLAGS_IF sp __USER_DS
}.

(** The pages that are kept in memory for those who asked for them, by their addresses: a page stays
    until its reference is put. *)
Class PageRefs `{Kernel} := {
  page_refs : kst -> list Z;
  pages_taken addr m k d k' : get_user_pages addr m k = (Some d, k') -> page_refs k' = addr :: page_refs k;
  pages_missed addr m k k' : get_user_pages addr m k = (None, k') -> page_refs k' = page_refs k;
  pages_written_by d f k r f' k' : vfs_write d f k = (r, f', k') -> page_refs k' = page_refs k;
  pages_sought off origin f k r f' k' : vfs_llseek off origin f k = (r, f', k') -> page_refs k' = page_refs k
}.
