(* ===== verification/CkptArch.v ===== *)
(** Registers and threads in checkpoints, for a node with the x86-64 architecture
    (src/src/arch/common/regs.h, src/src/arch/x86_64/regs.h, regs.c, thread.h, restart_fixup.h,
    vma.h, src/src/arch/i386/regs.h, thread.h, src/src/arch/arch_ids.h).

    A checkpoint made on an i386 node can be loaded too.  Segment registers outside the frame,
    the descriptor tables of the processor and debug output are not modelled. *)

From stdpp Require Import gmap.
From S2P Require Import Prelude Effect NpmParams CkptKernel.

Definition ARCH_I386 : Z := 1.
Definition ARCH_X86_64 : Z := 2.
Definition ARCH_CURRENT : Z := ARCH_X86_64.

Definition __USER32_CS : Z := 35.
Definition __USER32_DS : Z := 43.
Definition GS_TLS_SEL : Z := 99.
Definition ERESTARTSYS : Z := 512.
Definition ERESTARTNOINTR : Z := 513.
Definition ERESTARTNOHAND : Z := 514.
Definition ERESTART_RESTARTBLOCK : Z := 516.

(** ** Registers *)

(** [struct tcmi_x86_64_regs] has the layout of [struct pt_regs]. *)
Definition tcmi_x86_64_regs : list nat := replicate 21 8%nat.
Definition regs_fields (r : pt_regs) : list Z :=
  [r_r15 r; r_r14 r; r_r13 r; r_r12 r; r_bp r; r_bx r; r_r11 r; r_r10 r; r_r9 r; r_r8 r; r_ax r;
   r_cx r; r_dx r; r_si r; r_di r; r_orig_ax r; r_ip r; r_cs r; r_flags r; r_sp r; r_ss r].

Definition get_registers (r : pt_regs) : list Z := pack tcmi_x86_64_regs (regs_fields r).

(** [None]: the buffer is shorter than the structure. *)
Definition load_registers (d : list Z) : option pt_regs :=
  if zlen d <? 168 then None else
  match unpack tcmi_x86_64_regs d with
  | [r15; r14; r13; r12; bp; bx; r11; r10; r9; r8; ax; cx; dx; si; di; orig_ax; ip; cs; flags; sp; ss] =>
      Some (mk_regs r15 r14 r13 r12 bp bx r11 r10 r9 r8 ax cx dx si di orig_ax ip cs flags sp ss)
  | _ => None
  end.

(** Changes of the instruction pointer, stack pointer and segments. *)
Definition set_start (ip sp cs ss flags : Z) (r : pt_regs) : pt_regs :=
  mk_regs (r_r15 r) (r_r14 r) (r_r13 r) (r_r12 r) (r_bp r) (r_bx r) (r_r11 r) (r_r10 r) (r_r9 r)
    (r_r8 r) (r_ax r) (r_cx r) (r_dx r) (r_si r) (r_di r) (r_orig_ax r) ip cs flags sp ss.
(** Changes of the registers of an interrupted system call. *)
Definition set_syscall (ax orig_ax ip sp bp : Z) (r : pt_regs) : pt_regs :=
  mk_regs (r_r15 r) (r_r14 r) (r_r13 r) (r_r12 r) bp (r_bx r) (r_r11 r) (r_r10 r) (r_r9 r)
    (r_r8 r) ax (r_cx r) (r_dx r) (r_si r) (r_di r) orig_ax ip (r_cs r) (r_flags r) sp (r_ss r).

(** [struct tcmi_i386_regs]: 17 registers of 32 bits, [xgs] and [orig_eax] signed. *)
Definition tcmi_i386_regs : list nat := replicate 17 4%nat.

Definition load_from_platform_registers (d : list Z) (r : pt_regs) (from_arch : Z) (is_32bit_app : bool)
    : option pt_regs :=
  if from_arch =? ARCH_CURRENT then
    r ← load_registers d;
    Some (if is_32bit_app then set_start (r_ip r) (r_sp r) __USER32_CS __USER32_DS (r_flags r) r else r)
  else if from_arch =? ARCH_I386 then
    if zlen d <? 68 then None else
    match unpack tcmi_i386_regs d with
    | [ebx; ecx; edx; esi; edi; ebp; eax; _; _; _; _; orig_eax; eip; _; eflags; esp; _] =>
        Some (mk_regs 0 0 0 0 ebp ebx 0 0 0 0 eax ecx edx esi edi u64[s32[orig_eax]] eip
                __USER32_CS eflags esp __USER32_DS)
    | _ => None
    end
  else Some r.

(** Registers for another node: the bytes of its structure; [None] as the result of a failed
    allocation or of an unknown architecture.  The i386 registers that are not assigned keep
    what the allocator left there ([xds], [xgs]). *)
Definition get_target_platform_registers (allocated : bool) (xds xgs : Z) (r : pt_regs) (target_arch : Z)
    : option (list Z) :=
  if target_arch =? ARCH_CURRENT then if allocated then Some (get_registers r) else None
  else if target_arch =? ARCH_I386 then
    if allocated then
      Some (pack tcmi_i386_regs [r_bx r; r_cx r; r_dx r; r_si r; r_di r; r_bp r; r_ax r; xds; 0; 0; xgs;
              r_orig_ax r; r_ip r; r_cs r; r_flags r; r_sp r; r_ss r])
    else None
  else None.

Definition is_in_syscall (r : pt_regs) : bool :=
  (0 <=? s64[r_orig_ax r]) &&
  ((r_ax r =? u64[- ERESTARTNOHAND]) || (r_ax r =? u64[- ERESTARTSYS]) ||
   (r_ax r =? u64[- ERESTART_RESTARTBLOCK]) || (r_ax r =? u64[- ERESTARTNOINTR])).

Definition start_thread_32 (r : pt_regs) (new_rip new_rsp : Z) : pt_regs :=
  set_start new_rip new_rsp __USER32_CS __USER32_DS 512 r.

(** [None]: BUG. *)
Definition platform_start_thread `{Kernel} (r : pt_regs) (new_rip new_rsp program_arch : Z) (is_32_bit : bool)
    : option pt_regs :=
  if (program_arch =? ARCH_CURRENT) && negb is_32_bit then Some (start_thread r new_rip new_rsp)
  else if (program_arch =? ARCH_I386) || ((program_arch =? ARCH_CURRENT) && is_32_bit)
  then Some (start_thread_32 r new_rip new_rsp)
  else None.

(** ** Interrupted system calls *)

Definition tcmi_resolve_restart_block_64bit_app (r : pt_regs) : pt_regs :=
  if is_in_syscall r then set_syscall (r_orig_ax r) (r_orig_ax r) u64[r_ip r - 2] (r_sp r) (r_bp r) r
  else set_syscall (r_ax r) (r_ax r) (r_ip r) (r_sp r) (r_bp r) r.

(** A 32-bit access to user memory; [None]: a fault. *)
Definition page_of (a : Z) : Z := a - a mod PAGE_SIZE.
Definition user_load `{Kernel} (a : Z) (m : gmap Z page) : option Z :=
  pg ← m !! page_of a;
  if PAGE_SIZE <? a mod PAGE_SIZE + 4 then None
  else Some (le_value (ztake 4 (zdrop (a mod PAGE_SIZE) (page_bytes pg)))).
Definition user_store `{Kernel} (a v : Z) (m : gmap Z page) : option (gmap Z page) :=
  pg ← m !! page_of a;
  d ← poke (a mod PAGE_SIZE) (le_bytes 4 v) (page_bytes pg);
  Some (<[page_of a := mk_page (pg_prot pg) (pg_flags pg) (Bytes d)]> m).

Definition tcmi_resolve_restart_block_32bit_app `{Kernel} (r : pt_regs) (m : gmap Z page)
    : option (pt_regs * gmap Z page) :=
  if is_in_syscall r then
    let r := set_syscall (r_orig_ax r) (r_orig_ax r) u64[r_ip r - 2] (r_sp r) (r_bp r) r in
    if vendor_amd then
      let sp := u64[r_sp r + 8] in
      m ← user_store sp (r_bp r) m;
      Some (set_syscall (r_ax r) (r_orig_ax r) (r_ip r) sp (r_cx r) r, m)
    else Some (r, m)
  else
    let r := set_syscall (r_ax r) (r_ax r) (r_ip r) (r_sp r) (r_bp r) r in
    if (r_ip r =? 4294960144) && vendor_amd then
      bp ← user_load (r_sp r) m;
      let sp := u64[r_sp r + 8] in
      m ← user_store sp bp m;
      Some (set_syscall (r_ax r) (r_orig_ax r) 4294960133 sp (r_cx r) r, m)
    else Some (r, m).

(** ** Threads *)

Definition GDT_ENTRY_TLS_ENTRIES : nat := 3.
(** [struct tcmi_x86_64_thread] and [struct tcmi_i386_thread]. *)
Definition tcmi_x86_64_thread : list nat := replicate 5 8%nat ++ replicate 2 4%nat.
Definition tcmi_i386_thread : list nat := [8; 8; 8; 4]%nat.

Definition get_tcmi_thread (t : thread_struct) : list Z :=
  pack tcmi_x86_64_thread (take GDT_ENTRY_TLS_ENTRIES (tls_array t) ++
                           [th_gs t; th_fs t; th_gsindex t; th_fsindex t]).

Definition load_thread (d : list Z) : option thread_struct :=
  if zlen d <? 48 then None else
  match unpack tcmi_x86_64_thread d with
  | [t0; t1; t2; gs; fs; gsindex; fsindex] => Some (mk_thread [t0; t1; t2] gs fs gsindex fsindex)
  | _ => None
  end.

(** The segments of the two architectures are swapped. *)
Definition load_i386_thread (d : list Z) : option thread_struct :=
  if zlen d <? 28 then None else
  match unpack tcmi_i386_thread d with
  | [t0; t1; t2; _] => Some (mk_thread [t1; t0; t2] 0 0 GS_TLS_SEL 0)
  | _ => None
  end.

Definition load_from_platform_thread (d : list Z) (t : thread_struct) (from_arch : Z) : option thread_struct :=
  if from_arch =? ARCH_CURRENT then load_thread d
  else if from_arch =? ARCH_I386 then load_i386_thread d
  else Some t.

(** ** Areas that are not saved *)

Definition vma_ignore (is_32bit_application : bool) (vma : vm_area_struct) : bool :=
  is_32bit_application && (vm_start vma =? 4294959104).
