(* ===== verification/Ckpt.v ===== *)
(** Checkpoints of processes: src/src/tcmi/ckpt.

    A checkpoint is a file of chunks: header, resource limits, open files, memory
    descriptor, memory areas, registers, thread-local storage, working directory, signals and,
    for a non-preemptive migration, the parameters of the execve to do.

    A function becomes a computation on [cw]: the kernel, the checkpoint file, the checkpoint
    object ([struct tcmi_ckpt]), the current process, the allocated blocks, and the programs
    that were executed.  The switching of the address limit ([set_fs]), locks and debug output
    are not modelled. *)

From stdpp Require Import gmap.
From S2P Require Import Prelude Effect KkcAddr NpmParams CkptKernel CkptArch.

(** ** Objects *)

Inductive blk := B_ckpt | B_fdcache | B_entries | B_page | B_platform | B_pwd | B_regs | B_params.
#[export] Instance blk_eq : EqDecision blk.
Proof. solve_decision. Defined.

(** Entries of [fd] and [file]; [used] is their number. *)
Record tcmi_fdcache := mk_fdcache { fc_entries : list (Z * Z); fc_size : Z; fc_ref : Z }.

Record tcmi_ckpt_hdr := mk_hdr {
  magic : Z; map_count : Z; file_count : Z; checkpoint_arch : Z; is_32bit_application : Z;
  is_npm : Z; hdr_comm : list Z
}.

Record tcmi_ckpt := mk_ckpt { ck_fdcache : option tcmi_fdcache; ck_hdr : tcmi_ckpt_hdr; ck_ref : Z }.

(** A pointer to the checkpoint object, as [tcmi_ckpt_new] returns it. *)
Inductive ckpt_ptr := Null | Err_ptr (err : Z) | Ckpt_ptr.

Record cw `{Kernel} := mk_cw {
  w_k : kst;
  w_file : cfile;
  w_ckpt : option tcmi_ckpt;
  w_proc : proc;
  w_live : list blk;
  w_execs : list (list Z * tcmi_npm_params)
}.

Definition TCMI_CKPT_MAGIC : Z := 3735928559.
Definition TASK_COMM_LEN : Z := 16.
Definition RLIM_NLIMITS : nat := 16.
Definition _NSIG : nat := 64.

Definition S_IFMT : Z := 61440.
Definition S_IFREG : Z := 32768.
Definition S_IFDIR : Z := 16384.
Definition S_IFCHR : Z := 8192.
Definition S_IFIFO : Z := 4096.
Definition s_is (kind mode : Z) : bool := Z.land mode S_IFMT =? kind.

Definition VM_WRITE : Z := 2.
Definition VM_SHARED : Z := 8.
Definition VM_GROWSDOWN : Z := 256.
Definition VM_DENYWRITE : Z := 2048.
Definition VM_EXECUTABLE : Z := 4096.
Definition VM_IO : Z := 16384.
Definition VM_RESERVED : Z := 524288.
Definition PROT_ALL : Z := 7.

Section ckpt.
Context `{HK : Kernel}.

Definition M (A : Type) : Type := eff cw A.

Definition set_k x (w : cw) := mk_cw _ x (w_file w) (w_ckpt w) (w_proc w) (w_live w) (w_execs w).
Definition set_file x (w : cw) := mk_cw _ (w_k w) x (w_ckpt w) (w_proc w) (w_live w) (w_execs w).
Definition set_ckpt x (w : cw) := mk_cw _ (w_k w) (w_file w) x (w_proc w) (w_live w) (w_execs w).
Definition set_proc x (w : cw) := mk_cw _ (w_k w) (w_file w) (w_ckpt w) x (w_live w) (w_execs w).
Definition set_live x (w : cw) := mk_cw _ (w_k w) (w_file w) (w_ckpt w) (w_proc w) x (w_execs w).
Definition set_execs x (w : cw) := mk_cw _ (w_k w) (w_file w) (w_ckpt w) (w_proc w) (w_live w) x.

(** ** Calls into the kernel *)

Definition call {A} (f : kst -> A * kst) : M A :=
  k ← gets w_k; let '(a, k) := f k in modify (set_k k);; mret a.
Definition proc_ : M proc := gets w_proc.
Definition upd_proc (f : proc -> proc) : M unit := modify (fun w => set_proc (f (w_proc w)) w).
Definition call_files {A} (f : files_struct -> kst -> A * files_struct * kst) : M A :=
  p ← proc_; k ← gets w_k;
  let '(a, fs, k) := f (p_files p) k in modify (set_k k);; upd_proc (set_files fs);; mret a.
Definition call_mem {A} (f : gmap Z page -> kst -> A * gmap Z page * kst) : M A :=
  p ← proc_; k ← gets w_k;
  let '(a, m, k) := f (p_mem p) k in modify (set_k k);; upd_proc (set_mem m);; mret a.
(** An allocation, and the release of a block. *)
Definition kmalloc (b : blk) : M bool :=
  ok ← call alloc; when ok (modify (fun w => set_live (b :: w_live w) w));; mret ok.
Fixpoint remove_one (b : blk) (l : list blk) : list blk :=
  match l with
  | [] => []
  | x :: l => if decide (x = b) then l else x :: remove_one b l
  end.
Definition kfree (b : blk) : M unit := modify (fun w => set_live (remove_one b (w_live w)) w).

(** The checkpoint object through its pointer. *)
Definition self : M tcmi_ckpt := c ← gets w_ckpt; valid c.
Definition upd_ckpt (f : tcmi_ckpt -> tcmi_ckpt) : M unit := c ← self; modify (set_ckpt (Some (f c))).
Definition upd_hdr (f : tcmi_ckpt_hdr -> tcmi_ckpt_hdr) : M unit :=
  upd_ckpt (fun c => mk_ckpt (ck_fdcache c) (f (ck_hdr c)) (ck_ref c)).

(** ** tcmi_fdcache.h *)

Definition tcmi_fdcache_new (size : Z) : M (option tcmi_fdcache) :=
  a ← kmalloc B_fdcache;
  if negb a then mret None else
  b ← kmalloc B_entries;
  if negb b then kfree B_fdcache;; mret None else
  mret (Some (mk_fdcache [] size 1)).

Definition tcmi_fdcache_get (c : option tcmi_fdcache) : option tcmi_fdcache :=
  match c with Some c => Some (mk_fdcache (fc_entries c) (fc_size c) (fc_ref c + 1)) | None => None end.

(** The cache after the put, [None] when it was released. *)
Definition tcmi_fdcache_put (c : option tcmi_fdcache) : M (option tcmi_fdcache) :=
  match c with
  | Some c =>
      if fc_ref c - 1 =? 0 then kfree B_entries;; kfree B_fdcache;; mret None
      else mret (Some (mk_fdcache (fc_entries c) (fc_size c) (fc_ref c - 1)))
  | None => mret None
  end.

Definition tcmi_fdcache_add (c : option tcmi_fdcache) (fd file : Z) : Z * option tcmi_fdcache :=
  match c with
  | Some c =>
      if zlen (fc_entries c) =? fc_size c then (- ENOMEM, Some c)
      else (0, Some (mk_fdcache (fc_entries c ++ [(fd, file)]) (fc_size c) (fc_ref c)))
  | None => (- ENOMEM, None)
  end.

(** The first entry with the file. *)
Fixpoint fdcache_find (l : list (Z * Z)) (file : Z) : Z :=
  match l with
  | [] => - EINVAL
  | (fd, f) :: l => if f =? file then fd else fdcache_find l file
  end.
Definition tcmi_fdcache_lookup (c : tcmi_fdcache) (file : Z) : Z := fdcache_find (fc_entries c) file.

(** ** tcmi_ckpt.h *)

Definition tcmi_ckpt_check_magic (buf : list Z) : bool := le_value (take 4 buf) =? TCMI_CKPT_MAGIC.

Definition tcmi_ckpt_get : M unit := upd_ckpt (fun c => mk_ckpt (ck_fdcache c) (ck_hdr c) (ck_ref c + 1)).

Definition fput : M unit :=
  modify (fun w => set_file (mk_cfile (f_pos (w_file w)) (f_data (w_file w)) (f_count (w_file w) - 1)) w).

Definition tcmi_ckpt_put : M unit :=
  c ← self;
  if ck_ref c - 1 =? 0 then
    fput;; tcmi_fdcache_put (ck_fdcache c);; kfree B_ckpt;; modify (set_ckpt None)
  else modify (set_ckpt (Some (mk_ckpt (ck_fdcache c) (ck_hdr c) (ck_ref c - 1)))).

(** The result is compared as an [int]. *)
Definition tcmi_ckpt_write (d : list Z) : M Z :=
  _ ← self; f ← gets w_file; k ← gets w_k;
  let '(r, f, k) := vfs_write d f k in
  modify (set_k k);; modify (set_file f);;
  mret (if s32[r] =? s32[zlen d] then 0 else - EINVAL).

(** Reads [count] bytes into a buffer of [cap]; a read beyond the buffer is a fault. *)
Definition tcmi_ckpt_read (cap count : Z) : M (Z * list Z) :=
  _ ← self; f ← gets w_file; k ← gets w_k;
  let '(r, d, f, k) := vfs_read count f k in
  modify (set_k k);; modify (set_file f);;
  if cap <? zlen d then fault else
  mret (if s32[r] =? s32[count] then 0 else - EINVAL, d).

Definition tcmi_ckpt_seek (offset origin : Z) : M Z :=
  _ ← self; f ← gets w_file; k ← gets w_k;
  let '(r, f, k) := vfs_llseek offset origin f k in
  modify (set_k k);; modify (set_file f);; mret r.

Definition tcmi_ckpt_do_mmap (addr len prot flags : Z) : M Z :=
  _ ← self; f ← gets w_file;
  r ← call_mem (do_mmap (Ckpt (f_data f)) addr len prot flags (f_pos f));
  tcmi_ckpt_seek len 1;; mret r.

Definition tcmi_ckpt_page_align : M Z :=
  f ← gets w_file; tcmi_ckpt_seek (Z.land (f_pos f + PAGE_SIZE - 1) (Z.lnot (PAGE_SIZE - 1))) 0.

Definition tcmi_ckpt_fdcache_add (fd file : Z) : M Z :=
  c ← self;
  let '(r, fc) := tcmi_fdcache_add (ck_fdcache c) fd file in
  upd_ckpt (fun c => mk_ckpt fc (ck_hdr c) (ck_ref c));; mret r.
Definition tcmi_ckpt_fdcache_lookup (file : Z) : M Z :=
  c ← self; fc ← valid (ck_fdcache c); mret (tcmi_fdcache_lookup fc file).

(** The open descriptors with their files, in increasing order. *)
Definition tcmi_ckpt_foreach_openfile (fs : files_struct) : list (Z * Z) :=
  omap (fun fd => a ← fdt fs !! fd; Some (fd, a)) (seqZ 0 (max_fds fs)).

Definition tcmi_ckpt_fdcache_init : M Z :=
  c ← self; fc ← tcmi_fdcache_new (file_count (ck_hdr c));
  upd_ckpt (fun c => mk_ckpt fc (ck_hdr c) (ck_ref c));;
  mret (match fc with Some _ => 0 | None => - ENOMEM end).

(** ** tcmi_ckpt.c: the object and the header *)

(** The header of a new object is not initialized; nothing reads it before it is set. *)
Definition tcmi_ckpt_new : M ckpt_ptr :=
  a ← kmalloc B_ckpt;
  if negb a then mret Null else
  modify (fun w => set_file (mk_cfile (f_pos (w_file w)) (f_data (w_file w)) (f_count (w_file w) + 1)) w);;
  modify (set_ckpt (Some (mk_ckpt None (mk_hdr 0 0 0 0 0 0 []) 1)));;
  seek_res ← tcmi_ckpt_seek 0 0;
  if seek_res <? 0 then kfree B_ckpt;; modify (set_ckpt None);; mret (Err_ptr seek_res)
  else mret Ckpt_ptr.

Definition check_is_application_32bit : M bool := p ← proc_; mret (p_ia32 p).

Definition vma_refused (vma : vm_area_struct) : bool :=
  negb (Z.land (vm_flags vma) (Z.lor VM_IO (Z.lor VM_SHARED VM_RESERVED)) =? 0).

Definition tcmi_ckpt_map_count : M Z :=
  c ← self; p ← proc_;
  let vmas := List.filter (fun v => negb (vma_ignore (negb (is_32bit_application (ck_hdr c) =? 0)) v)) (mmap (p_mm p)) in
  mret (if existsb vma_refused vmas then - EINVAL else zlen vmas).

Definition tcmi_ckpt_openfile_supported (i_mode : Z) : bool :=
  s_is S_IFREG i_mode || s_is S_IFDIR i_mode || s_is S_IFCHR i_mode || s_is S_IFIFO i_mode.

Fixpoint file_count_loop (l : list (Z * Z)) (fs : files_struct) (count : Z) : M Z :=
  match l with
  | [] => mret count
  | (fd, a) :: l =>
      file ← valid (filps fs !! a);
      if negb (tcmi_ckpt_openfile_supported (fp_imode file)) then mret (- EINVAL)
      else file_count_loop l fs (count + 1)
  end.
Definition tcmi_ckpt_file_count : M Z :=
  p ← proc_; file_count_loop (tcmi_ckpt_foreach_openfile (p_files p)) (p_files p) 0.

(** [strncpy]: the string is padded with zeros. *)
Fixpoint strncpy (n : nat) (s : list Z) : list Z :=
  match n, s with
  | O, _ => []
  | S n, [] => 0 :: strncpy n []
  | S n, b :: s => if b =? 0 then 0 :: strncpy n [] else b :: strncpy n s
  end.

Definition hdr_sizes : list nat := [4; 4; 4; 4; 1; 1]%nat.
Definition hdr_bytes (h : tcmi_ckpt_hdr) : list Z :=
  pack hdr_sizes [magic h; map_count h; file_count h; checkpoint_arch h; is_32bit_application h; is_npm h]
  ++ hdr_comm h.
Definition hdr_of (d : list Z) : tcmi_ckpt_hdr :=
  match unpack hdr_sizes d with
  | [m; mc; fc; arch; b32; npm] => mk_hdr s32[m] s32[mc] s32[fc] arch s8[b32] s8[npm] (take 16 (drop 18 d))
  | _ => mk_hdr 0 0 0 0 0 0 []
  end.

Definition tcmi_ckpt_write_hdr (npm : Z) : M Z :=
  b32 ← check_is_application_32bit;
  upd_hdr (fun h => mk_hdr s32[TCMI_CKPT_MAGIC] (map_count h) (file_count h) ARCH_CURRENT
                      (Z.b2z b32) s8[npm] (hdr_comm h));;
  mc ← tcmi_ckpt_map_count;
  upd_hdr (fun h => mk_hdr (magic h) mc (file_count h) (checkpoint_arch h) (is_32bit_application h)
                      (is_npm h) (hdr_comm h));;
  if mc <? 0 then mret (- EINVAL) else
  fc ← tcmi_ckpt_file_count;
  upd_hdr (fun h => mk_hdr (magic h) (map_count h) fc (checkpoint_arch h) (is_32bit_application h)
                      (is_npm h) (hdr_comm h));;
  if fc <? 0 then mret (- EINVAL) else
  r ← tcmi_ckpt_fdcache_init;
  if r <? 0 then mret (- EINVAL) else
  p ← proc_;
  upd_hdr (fun h => mk_hdr (magic h) (map_count h) (file_count h) (checkpoint_arch h)
                      (is_32bit_application h) (is_npm h) (strncpy 16 (p_comm p)));;
  c ← self; tcmi_ckpt_write (hdr_bytes (ck_hdr c)).

Definition tcmi_ckpt_read_hdr : M Z :=
  '(err, d) ← tcmi_ckpt_read 34 34;
  if err <? 0 then mret (- EINVAL) else
  upd_hdr (fun _ => hdr_of d);;
  c ← self;
  if negb (u32[magic (ck_hdr c)] =? TCMI_CKPT_MAGIC) then mret (- EINVAL) else
  r ← tcmi_ckpt_fdcache_init;
  if r <? 0 then mret (- EINVAL) else
  tcmi_ckpt_file_count;;
  upd_proc (set_comm (strncpy 16 (hdr_comm (ck_hdr c))));;
  when (negb (is_32bit_application (ck_hdr c) =? 0)) (upd_proc (set_ia32 true));;
  when (checkpoint_arch (ck_hdr c) =? ARCH_I386) (upd_proc (set_per32 true));;
  mret 0.

(** ** tcmi_ckpt_resources.h *)

Definition tcmi_ckpt_rlimits : list nat := replicate (2 * RLIM_NLIMITS) 8%nat.
Fixpoint flat_rlim (l : list (Z * Z)) : list Z :=
  match l with [] => [] | (cur, max) :: l => cur :: max :: flat_rlim l end.
Fixpoint pair_rlim (l : list Z) : list (Z * Z) :=
  match l with cur :: max :: l => (cur, max) :: pair_rlim l | _ => [] end.

Definition tcmi_ckpt_write_rlimit : M Z :=
  p ← proc_;
  r ← tcmi_ckpt_write (pack tcmi_ckpt_rlimits (flat_rlim (p_rlim p)));
  mret (if r <? 0 then - EINVAL else 0).

Definition tcmi_ckpt_read_rlimit : M Z :=
  '(r, d) ← tcmi_ckpt_read 256 256;
  if r <? 0 then mret (- EINVAL) else
  upd_proc (set_rlim (pair_rlim (unpack tcmi_ckpt_rlimits d)));; mret 0.
End ckpt.
