(* ===== verification/CkptOps.v ===== *)
(** The chunks of a checkpoint and the checkpointing component: src/src/tcmi/ckpt/
    tcmi_ckpt_openfile.h, .c, tcmi_ckpt_mm.h, tcmi_ckpt_vm_area.h, .c, tcmi_ckpt_regs.h,
    tcmi_ckpt_thread.h, tcmi_ckpt_fsstruct.h, tcmi_ckpt_sig.h, tcmi_ckpt_npm_params.h,
    tcmi_ckpt.c and tcmi_ckptcom.c. *)

From stdpp Require Import gmap.
From S2P Require Import Prelude Effect KkcAddr NpmParams CkptKernel CkptArch Ckpt.

(** ** Names of proxy files (src/src/proxyfs/proxyfs_helper.h) *)

Definition PROXYFS_MNT_POINT : list Z := [47; 109; 110; 116; 47; 112; 114; 111; 120; 121].
Definition dev_null : list Z := [47; 100; 101; 118; 47; 110; 117; 108; 108].
Definition is_proxyfs_file (path : list Z) : bool := bool_decide (take 10 path = PROXYFS_MNT_POINT).
Definition is_dev_null (path : list Z) : bool := bool_decide (take 9 path = dev_null).
Definition create_proxyfs_name (tgid proxy_ident : Z) : list Z :=
  PROXYFS_MNT_POINT ++ [47] ++ print_u tgid ++ [45] ++ print_u proxy_ident.

Definition TCMI_CKPT_OPENFILE_NEWFILE : Z := 0.
Definition TCMI_CKPT_OPENFILE_DUPFILE : Z := 1.
Definition TCMI_CKPT_VM_AREA_LIGHT : Z := 0.
Definition TCMI_CKPT_VM_AREA_HEAVY : Z := 1.

Record tcmi_ckpt_openfile_newfile_hdr := mk_newfile {
  nf_fd : Z; nf_pos : Z; nf_flags : Z; nf_mode : Z; nf_type : Z; nf_pathname_size : Z
}.
Definition newfile_sizes : list nat := [4; 8; 4; 4; 4; 4]%nat.
Definition newfile_bytes (h : tcmi_ckpt_openfile_newfile_hdr) : list Z :=
  pack newfile_sizes [nf_fd h; nf_pos h; nf_flags h; nf_mode h; nf_type h; nf_pathname_size h].
Definition newfile_of (d : list Z) : tcmi_ckpt_openfile_newfile_hdr :=
  match unpack newfile_sizes d with
  | [fd; pos; flags; mode; type; size] => mk_newfile s32[fd] pos flags mode type s32[size]
  | _ => mk_newfile 0 0 0 0 0 0
  end.

Record tcmi_ckpt_vm_area_hdr := mk_area {
  va_start : Z; va_end : Z; va_flags : Z; va_pgoff : Z; va_type : Z; va_pathname_size : Z
}.
Definition area_sizes : list nat := [8; 8; 8; 8; 4; 4]%nat.
Definition area_bytes (h : tcmi_ckpt_vm_area_hdr) : list Z :=
  pack area_sizes [va_start h; va_end h; va_flags h; va_pgoff h; va_type h; va_pathname_size h].
Definition area_of (d : list Z) : tcmi_ckpt_vm_area_hdr :=
  match unpack area_sizes d with
  | [s; e; f; o; t; n] => mk_area s e f o t n
  | _ => mk_area 0 0 0 0 0 0
  end.

Definition mm_fields (m : mm_struct) : list Z :=
  [start_code m; end_code m; start_data m; end_data m; start_brk m; brk m; start_stack m; arg_start m;
   arg_end m; env_start m; env_end m; def_flags m].
Definition tcmi_ckpt_mm_hdr : list nat := replicate 12 8%nat.

Definition sigaction_fields (a : k_sigaction) : list Z := [sa_handler a; sa_restorer a; sa_flags a; sa_mask a].
Fixpoint actions_of (l : list Z) : list k_sigaction :=
  match l with
  | h :: r :: f :: m :: l => mk_sigaction h r f m :: actions_of l
  | _ => []
  end.
Definition tcmi_ckpt_sig_hdr : list nat := replicate (4 + 4 * _NSIG) 8%nat.
Definition sig_fields (s : signals) : list Z :=
  [sas_ss_sp s; sas_ss_size s; sig_blocked s; sig_real_blocked s] ++ (sig_action s ≫= sigaction_fields).
Definition sig_of (l : list Z) : signals :=
  match l with
  | sp :: size :: blocked :: real :: l => mk_signals sp size blocked real (actions_of l)
  | _ => mk_signals 0 0 0 0 []
  end.

Section ckpt.
Context `{HK : Kernel}.

(** ** tcmi_ckpt_openfile.c *)

Definition tcmi_ckpt_openfile_write_dupfd (fd dup_fd : Z) : M Z :=
  r ← tcmi_ckpt_write (le_bytes 4 TCMI_CKPT_OPENFILE_DUPFILE);
  if r <? 0 then mret (- EINVAL) else
  r ← tcmi_ckpt_write (pack [4; 4]%nat [fd; dup_fd]);
  mret (if r <? 0 then - EINVAL else 0).

(** The name under which the file is opened again: special files of a shadow are overtaken by
    the ProxyFS server.  The name is written over the path in its page, behind which 1000 bytes
    are free.  [None]: the file could not be overtaken. *)
Definition restart_name (fd : Z) (type : Z) (pathname : list Z) : M (option (list Z)) :=
  p ← proc_;
  if negb (is_proxyfs_file pathname) && (s_is S_IFCHR type || s_is S_IFIFO type)
     && p_shadow p && negb (is_dev_null pathname) then
    fileident ← call (proxyfs_server_overtake_file fd);
    mret (create_proxyfs_name (p_tgid p) <$> fileident)
  else mret (Some pathname).

Definition tcmi_ckpt_openfile_write_newfd (fd a : Z) : M Z :=
  r ← tcmi_ckpt_write (le_bytes 4 TCMI_CKPT_OPENFILE_NEWFILE);
  if r <? 0 then mret (- EINVAL) else
  p ← proc_; file ← valid (filps (p_files p) !! a);
  ok ← kmalloc B_page;
  if negb ok then mret (- EINVAL) else
  pathname ← call (d_path (PAGE_SIZE - 1000) (fp_path file));
  match pathname with
  | None => kfree B_page;; mret (- EINVAL)
  | Some pathname =>
      name ← restart_name fd (fp_imode file) pathname;
      match name with
      | None => kfree B_page;; mret (- EINVAL)
      | Some name =>
          r ← tcmi_ckpt_write (newfile_bytes (mk_newfile fd (fp_pos file) (fp_flags file) (fp_mode file)
                                                (fp_imode file) (zlen name + 1)));
          if r <? 0 then kfree B_page;; mret (- EINVAL) else
          r ← tcmi_ckpt_write (name ++ [0]);
          if r <? 0 then kfree B_page;; mret (- EINVAL) else
          tcmi_ckpt_fdcache_add fd a;; kfree B_page;; mret 0
      end
  end.

Definition tcmi_ckpt_openfile_write (fd a : Z) : M Z :=
  dup_fd ← tcmi_ckpt_fdcache_lookup a;
  if 0 <=? dup_fd then tcmi_ckpt_openfile_write_dupfd fd dup_fd
  else tcmi_ckpt_openfile_write_newfd fd a.

Definition tcmi_ckpt_openfile_read_dupfd : M Z :=
  '(r, d) ← tcmi_ckpt_read 8 8;
  if r <? 0 then mret (- EINVAL) else
  match unpack [4; 4]%nat d with
  | [fd; dup_fd] =>
      err ← call_files (sys_dup2 dup_fd fd);
      mret (if negb (err =? s32[fd]) then - EINVAL else 0)
  | _ => fault
  end.

Definition read_newfd_exit1 : M Z := kfree B_page;; mret (- EINVAL).

(** The name ends at its terminator; a name without one reads the rest of the page, a fault
    here. *)
Definition tcmi_ckpt_openfile_read_newfd : M Z :=
  '(r, d) ← tcmi_ckpt_read 28 28;
  if r <? 0 then mret (- EINVAL) else
  let new_hdr := newfile_of d in
  if PAGE_SIZE <=? u64[nf_pathname_size new_hdr] then mret (- EINVAL) else
  ok ← kmalloc B_page;
  if negb ok then mret (- EINVAL) else
  '(r, name) ← tcmi_ckpt_read PAGE_SIZE (nf_pathname_size new_hdr);
  if r <? 0 then read_newfd_exit1 else
  name ← valid (cstring name);
  let type := nf_type new_hdr in
  let supported := s_is S_IFDIR type || s_is S_IFREG type || s_is S_IFCHR type || s_is S_IFIFO type in
  fd ← (if supported then call_files (do_sys_open name s32[nf_flags new_hdr] s32[nf_mode new_hdr])
        else mret (-1));
  if supported && (fd <? 0) then read_newfd_exit1 else
  pos ← (if supported then call_files (vfs_llseek_fd fd s64[nf_pos new_hdr]) else mret (nf_pos new_hdr));
  if supported && negb (nf_pos new_hdr =? u64[pos]) then read_newfd_exit1 else
  if negb (nf_fd new_hdr =? fd) then
    err ← call_files (sys_dup2 fd (nf_fd new_hdr));
    if negb (err =? nf_fd new_hdr) then read_newfd_exit1 else
    call_files (fun fs k => let '(fs, k) := sys_close fd fs k in (tt, fs, k));;
    kfree B_page;; mret 0
  else kfree B_page;; mret 0.

Definition tcmi_ckpt_openfile_read : M Z :=
  '(r, d) ← tcmi_ckpt_read 4 4;
  if r <? 0 then mret (- EINVAL) else
  let restore_type := le_value d in
  if restore_type =? TCMI_CKPT_OPENFILE_NEWFILE then tcmi_ckpt_openfile_read_newfd
  else if restore_type =? TCMI_CKPT_OPENFILE_DUPFILE then tcmi_ckpt_openfile_read_dupfd
  else mret (- EINVAL).

Fixpoint write_files_loop (l : list (Z * Z)) : M Z :=
  match l with
  | [] => mret 0
  | (fd, a) :: l =>
      err ← tcmi_ckpt_openfile_write fd a;
      if err <? 0 then mret err else write_files_loop l
  end.
Definition tcmi_ckpt_write_files : M Z :=
  p ← proc_; write_files_loop (tcmi_ckpt_foreach_openfile (p_files p)).

(** The counting loops of the two readers. *)
Fixpoint read_loop (n : nat) (m : M Z) (err : Z) : M Z :=
  match n with
  | O => mret err
  | S n => if negb (err =? 0) then mret err else err ← m; read_loop n m err
  end.
Definition tcmi_ckpt_read_files : M Z :=
  c ← self;
  err ← read_loop (Z.to_nat (file_count (ck_hdr c))) tcmi_ckpt_openfile_read 0;
  tcmi_ckpt_file_count;; mret err.

(** ** tcmi_ckpt_mm.h *)

Definition tcmi_ckpt_mm_write : M Z :=
  p ← proc_;
  r ← tcmi_ckpt_write (pack tcmi_ckpt_mm_hdr (mm_fields (p_mm p)));
  mret (if r <? 0 then - EINVAL else 0).

Definition tcmi_ckpt_mm_read : M Z :=
  '(r, d) ← tcmi_ckpt_read 96 96;
  if r <? 0 then mret (- EINVAL) else
  match unpack tcmi_ckpt_mm_hdr d with
  | [sc; ec; sd; ed; sb; b; ss; as_; ae; es; ee; df] =>
      upd_proc (set_mm (mk_mm sc ec sd ed sb b ss as_ ae es ee df []));; mret 0
  | _ => fault
  end.

(** ** tcmi_ckpt_vm_area.c *)

Definition tcmi_ckpt_vm_area_to_mmap_flags (vm_flags : Z) : Z :=
  Z.lor MAP_FIXED (Z.lor (if negb (Z.land vm_flags VM_SHARED =? 0) then MAP_SHARED else MAP_PRIVATE)
    (Z.lor (Z.land vm_flags VM_GROWSDOWN) (Z.lor (Z.land vm_flags VM_DENYWRITE) (Z.land vm_flags VM_EXECUTABLE)))).

(** The page is mapped for writing and gets the bytes. *)
Definition tcmi_ckpt_vm_area_copy_page (dst_addr : Z) (src : list Z) : M Z :=
  p ← proc_;
  dst ← call (get_user_pages dst_addr (p_mem p));
  match dst with
  | None => mret (- EINVAL)
  | Some _ =>
      pg ← valid (p_mem p !! dst_addr);
      upd_proc (set_mem (<[dst_addr := mk_page (pg_prot pg) (pg_flags pg) (Bytes src)]> (p_mem p)));; mret 0
  end.

Definition tcmi_ckpt_vm_area_write_l (vma : vm_area_struct) : M Z :=
  ok ← kmalloc B_page;
  if negb ok then mret (- EINVAL) else
  file ← valid (vm_file vma);
  pathname ← call (d_path PAGE_SIZE file);
  match pathname with
  | None => kfree B_page;; mret (- EINVAL)
  | Some pathname =>
      r ← tcmi_ckpt_write (area_bytes (mk_area (vm_start vma) (vm_end vma) (vm_flags vma) (vm_pgoff vma)
                                         TCMI_CKPT_VM_AREA_LIGHT (zlen pathname + 1)));
      if r <? 0 then kfree B_page;; mret (- EINVAL) else
      r ← tcmi_ckpt_write (pathname ++ [0]);
      if r <? 0 then kfree B_page;; mret (- EINVAL) else
      kfree B_page;; mret 0
  end.

(** The pages of an area; a page that cannot be read leaves a hole in the file. *)
Fixpoint write_pages (fuel : nat) (addr vm_end : Z) : M Z :=
  if addr <? vm_end then
    match fuel with
    | O => halt Running
    | S fuel =>
        p ← proc_;
        pg ← call (get_user_pages addr (p_mem p));
        match pg with
        | None => tcmi_ckpt_seek PAGE_SIZE 1;; write_pages fuel (addr + PAGE_SIZE) vm_end
        | Some d =>
            r ← tcmi_ckpt_write d;
            if r <? 0 then mret (- EINVAL) else write_pages fuel (addr + PAGE_SIZE) vm_end
        end
    end
  else mret 0.

Definition tcmi_ckpt_vm_area_write_h (vma : vm_area_struct) : M Z :=
  r ← tcmi_ckpt_write (area_bytes (mk_area (vm_start vma) (vm_end vma) (vm_flags vma) (vm_pgoff vma)
                                     TCMI_CKPT_VM_AREA_HEAVY 0));
  if r <? 0 then mret (- EINVAL) else
  tcmi_ckpt_page_align;;
  write_pages (Z.to_nat ((vm_end vma - vm_start vma) / PAGE_SIZE + 1)) (vm_start vma) (vm_end vma).

Definition writes_light (type : Z) (vma : vm_area_struct) : bool :=
  (type =? TCMI_CKPT_VM_AREA_LIGHT) && (Z.land (vm_flags vma) VM_WRITE =? 0)
  && match vm_file vma with Some _ => true | None => false end.
Definition tcmi_ckpt_vm_area_write (vma : vm_area_struct) (type : Z) : M Z :=
  if writes_light type vma then tcmi_ckpt_vm_area_write_l vma else tcmi_ckpt_vm_area_write_h vma.

(** The length of the name in the header is not checked against the page. *)
Definition tcmi_ckpt_vm_area_read_l (hdr : tcmi_ckpt_vm_area_hdr) : M Z :=
  ok ← kmalloc B_page;
  if negb ok then mret (- EINVAL) else
  '(r, name) ← tcmi_ckpt_read PAGE_SIZE s32[va_pathname_size hdr];
  if r <? 0 then kfree B_page;; mret (- EINVAL) else
  name ← valid (cstring name);
  let mmap_flags := tcmi_ckpt_vm_area_to_mmap_flags (va_flags hdr) in
  file ← call (filp_open name);
  if negb file then kfree B_page;; mret (- EINVAL) else
  addr ← call_mem (do_mmap (Named name) (va_start hdr) u64[va_end hdr - va_start hdr]
                     (Z.land (va_flags hdr) PROT_ALL) mmap_flags u64[va_pgoff hdr * PAGE_SIZE]);
  kfree B_page;;
  mret (if negb (addr =? va_start hdr) then - EINVAL else 0).

Definition tcmi_ckpt_vm_area_stack_fixup (hdr : tcmi_ckpt_vm_area_hdr) : M (Z * tcmi_ckpt_vm_area_hdr) :=
  let mmap_flags := tcmi_ckpt_vm_area_to_mmap_flags (va_flags hdr) in
  addr ← call_mem (do_mmap Anon (va_start hdr) PAGE_SIZE (Z.land (va_flags hdr) PROT_ALL) mmap_flags 0);
  if negb (addr =? va_start hdr) then mret (- EINVAL, hdr) else
  ok ← kmalloc B_page;
  if negb ok then mret (- EINVAL, hdr) else
  '(r, d) ← tcmi_ckpt_read PAGE_SIZE PAGE_SIZE;
  if r <? 0 then kfree B_page;; mret (- EINVAL, hdr) else
  r ← tcmi_ckpt_vm_area_copy_page addr d;
  if r <? 0 then kfree B_page;; mret (- EINVAL, hdr) else
  kfree B_page;;
  mret (0, mk_area (va_start hdr + PAGE_SIZE) (va_end hdr) (Z.land (va_flags hdr) (Z.lnot VM_GROWSDOWN))
             (va_pgoff hdr) (va_type hdr) (va_pathname_size hdr)).

Definition map_area (hdr : tcmi_ckpt_vm_area_hdr) : M Z :=
  addr ← tcmi_ckpt_do_mmap (va_start hdr) u64[va_end hdr - va_start hdr] (Z.land (va_flags hdr) PROT_ALL)
           (tcmi_ckpt_vm_area_to_mmap_flags (va_flags hdr));
  mret (if negb (addr =? va_start hdr) then - EINVAL else 0).

Definition tcmi_ckpt_vm_area_read_h (hdr : tcmi_ckpt_vm_area_hdr) : M Z :=
  tcmi_ckpt_page_align;;
  let length := u64[va_end hdr - va_start hdr] in
  if length <? PAGE_SIZE then mret (- EINVAL) else
  if negb (Z.land (va_flags hdr) VM_GROWSDOWN =? 0) then
    '(r, hdr) ← tcmi_ckpt_vm_area_stack_fixup hdr;
    if r <? 0 then mret (- EINVAL) else
    if length - PAGE_SIZE =? 0 then mret 0 else map_area hdr
  else map_area hdr.

Definition tcmi_ckpt_vm_area_read : M Z :=
  '(r, d) ← tcmi_ckpt_read 40 40;
  if r <? 0 then mret (- EINVAL) else
  let hdr := area_of d in
  if va_type hdr =? TCMI_CKPT_VM_AREA_LIGHT then tcmi_ckpt_vm_area_read_l hdr
  else if va_type hdr =? TCMI_CKPT_VM_AREA_HEAVY then tcmi_ckpt_vm_area_read_h hdr
  else mret (- EINVAL).

Fixpoint write_vmas_loop (l : list vm_area_struct) (is32 : bool) (type : Z) : M Z :=
  match l with
  | [] => mret 0
  | vma :: l =>
      if vma_ignore is32 vma then write_vmas_loop l is32 type else
      err ← tcmi_ckpt_vm_area_write vma type;
      if err <? 0 then mret (- EINVAL) else write_vmas_loop l is32 type
  end.
Definition tcmi_ckpt_write_vmas (heavy : bool) : M Z :=
  c ← self; p ← proc_;
  write_vmas_loop (mmap (p_mm p)) (negb (is_32bit_application (ck_hdr c) =? 0))
    (if heavy then TCMI_CKPT_VM_AREA_HEAVY else TCMI_CKPT_VM_AREA_LIGHT).

Definition tcmi_ckpt_read_vmas : M Z :=
  c ← self;
  err ← read_loop (Z.to_nat (map_count (ck_hdr c))) tcmi_ckpt_vm_area_read 0;
  tcmi_ckpt_map_count;; mret err.
End ckpt.
