(* ===== verification/CkptCom.v ===== *)
(** The processor state, working directory, signals and execve parameters of a checkpoint, and
    the checkpointing component itself: src/src/tcmi/ckpt/tcmi_ckpt_regs.h, tcmi_ckpt_thread.h,
    tcmi_ckpt_fsstruct.h, tcmi_ckpt_sig.h, tcmi_ckpt_npm_params.h and tcmi_ckptcom.c. *)

From stdpp Require Import gmap.
From S2P Require Import Prelude Effect KkcAddr NpmParams CkptKernel CkptArch Ckpt CkptOps.

Section ckpt.
Context `{HK : Kernel}.

(** ** tcmi_ckpt_regs.h *)

Definition tcmi_ckpt_regs_write (regs : pt_regs) : M Z :=
  r ← tcmi_ckpt_write (le_bytes 4 168);
  if r <? 0 then mret (- EINVAL) else
  r ← tcmi_ckpt_write (get_registers regs);
  mret (if r <? 0 then - EINVAL else 0).

(** A negative size cannot be allocated. *)
Definition kmalloc_size (b : blk) (size : Z) : M bool := if size <? 0 then mret false else kmalloc b.

Definition is32 (h : tcmi_ckpt_hdr) : bool := negb (is_32bit_application h =? 0).

Definition tcmi_ckpt_regs_read : M Z :=
  '(r, d) ← tcmi_ckpt_read 4 4;
  if r <? 0 then mret (- EINVAL) else
  let regs_length := s32[le_value d] in
  ok ← kmalloc_size B_platform regs_length;
  if negb ok then mret (- EINVAL) else
  '(r, platform_regs) ← tcmi_ckpt_read regs_length regs_length;
  if r <? 0 then kfree B_platform;; mret (- EINVAL) else
  c ← self; p ← proc_;
  regs ← valid (load_from_platform_registers platform_regs (p_regs p) (checkpoint_arch (ck_hdr c)) (is32 (ck_hdr c)));
  regs ← valid (platform_start_thread regs (r_ip regs) (r_sp regs) (checkpoint_arch (ck_hdr c)) (is32 (ck_hdr c)));
  upd_proc (set_regs regs);;
  kfree B_platform;; mret 0.

(** ** tcmi_ckpt_thread.h *)

Definition tcmi_ckpt_tls_write : M Z :=
  p ← proc_;
  r ← tcmi_ckpt_write (le_bytes 4 48);
  if r <? 0 then mret (- EINVAL) else
  r ← tcmi_ckpt_write (get_tcmi_thread (p_thread p));
  mret (if r <? 0 then - EINVAL else 0).

Definition tcmi_ckpt_tls_read : M Z :=
  '(r, d) ← tcmi_ckpt_read 4 4;
  if r <? 0 then mret (- EINVAL) else
  let length := s32[le_value d] in
  ok ← kmalloc_size B_platform length;
  if negb ok then mret (- EINVAL) else
  '(r, platform_thread) ← tcmi_ckpt_read length length;
  if r <? 0 then kfree B_platform;; mret (- EINVAL) else
  c ← self; p ← proc_;
  t ← valid (load_from_platform_thread platform_thread (p_thread p) (checkpoint_arch (ck_hdr c)));
  upd_proc (set_thread t);;
  kfree B_platform;; mret 0.

(** ** tcmi_ckpt_fsstruct.h *)

(** On the error paths behind [d_path] the pointer [pwd] into the page, or the error it stands
    for, is given to [kfree]. *)
Definition tcmi_ckpt_fsstruct_write : M Z :=
  ok ← kmalloc B_page;
  if negb ok then mret (- EINVAL) else
  p ← proc_;
  pwd ← call (d_path PAGE_SIZE (p_pwd p));
  match pwd with
  | None => fault
  | Some pwd =>
      r ← tcmi_ckpt_write (le_bytes 4 (zlen pwd + 1));
      if r <? 0 then fault else
      r ← tcmi_ckpt_write (pwd ++ [0]);
      if r <? 0 then fault else
      kfree B_page;; mret 0
  end.

Definition tcmi_ckpt_fsstruct_read : M Z :=
  '(r, d) ← tcmi_ckpt_read 4 4;
  if r <? 0 then mret (- EINVAL) else
  let pwd_len := s32[le_value d] in
  ok ← kmalloc_size B_pwd pwd_len;
  if negb ok then mret (- ENOMEM) else
  '(r, pwd) ← tcmi_ckpt_read pwd_len pwd_len;
  if r <? 0 then kfree B_pwd;; mret (- EINVAL) else
  pwd ← valid (cstring pwd);
  error ← call (path_lookup pwd);
  if negb (error =? 0) then kfree B_pwd;; mret error else
  upd_proc (set_pwd pwd);;
  kfree B_pwd;; mret 0.

(** ** tcmi_ckpt_sig.h *)

Definition tcmi_ckpt_sig_write : M Z :=
  p ← proc_;
  r ← tcmi_ckpt_write (pack tcmi_ckpt_sig_hdr (sig_fields (p_sig p)));
  mret (if r <? 0 then - EINVAL else 0).

Definition tcmi_ckpt_sig_read : M Z :=
  '(r, d) ← tcmi_ckpt_read 2080 2080;
  if r <? 0 then mret (- EINVAL) else
  upd_proc (set_sig (sig_of (unpack tcmi_ckpt_sig_hdr d)));; mret 0.

(** ** tcmi_ckpt_npm_params.h *)

Definition tcmi_ckpt_npm_params_write (params : tcmi_npm_params) : M Z :=
  len ← valid (strlen (file_name params));
  let filename_length := u32[len + 1] in
  r ← tcmi_ckpt_write (le_bytes 1 (argsc params));
  if r <? 0 then mret (- EINVAL) else
  r ← tcmi_ckpt_write (le_bytes 1 (envpc params));
  if r <? 0 then mret (- EINVAL) else
  r ← tcmi_ckpt_write (le_bytes 4 filename_length);
  if r <? 0 then mret (- EINVAL) else
  r ← tcmi_ckpt_write (ztake filename_length (file_name params));
  if r <? 0 then mret (- EINVAL) else
  let data_length := used_data_length params in
  r ← tcmi_ckpt_write (le_bytes 4 data_length);
  if r <? 0 then mret (- EINVAL) else
  r ← tcmi_ckpt_write (ztake data_length (npm_data params));
  mret (if r <? 0 then - EINVAL else 0).

(** The lengths are not checked against the buffers of [params], which lies at [base]. *)
Definition tcmi_ckpt_npm_params_read (base : Z) (params : tcmi_npm_params) : M (Z * tcmi_npm_params) :=
  '(r, ac) ← tcmi_ckpt_read 1 1;
  if r <? 0 then mret (- EINVAL, params) else
  '(r, ec) ← tcmi_ckpt_read 1 1;
  if r <? 0 then mret (- EINVAL, params) else
  '(r, d) ← tcmi_ckpt_read 4 4;
  if r <? 0 then mret (- EINVAL, params) else
  '(r, name) ← tcmi_ckpt_read NPM_FILENAME_MAX s32[le_value d];
  if r <? 0 then mret (- EINVAL, params) else
  '(r, d) ← tcmi_ckpt_read 4 4;
  if r <? 0 then mret (- EINVAL, params) else
  '(r, data) ← tcmi_ckpt_read NPM_DATA_SIZE_MAX s32[le_value d];
  if r <? 0 then mret (- EINVAL, params) else
  '(_, params) ← valid (fixup_npm_params_pointers base
     (mk_npm (blit 0 name (file_name params)) (le_value ac) (le_value ec) (args params) (envp params)
        (used_data_length params) (blit 0 data (npm_data params))));
  mret (0, params).

(** ** tcmi_ckptcom.c *)

Definition checkpoint_exit1 : M Z := tcmi_ckpt_put;; mret (- ENOEXEC).

(** The chunks, with the check of every result; [regs] and [npm_params] may be NULL. *)
Definition tcmi_ckptcom_checkpoint (regs : option pt_regs) (heavy : bool) (npm_params : option tcmi_npm_params) : M Z :=
  let npm := bool_decide (is_Some npm_params) in
  match regs with
  | None => mret (- ENOEXEC)
  | Some regs =>
      ckpt ← tcmi_ckpt_new;
      match ckpt with
      | Null | Err_ptr _ => mret (- ENOEXEC)
      | Ckpt_ptr =>
          r ← tcmi_ckpt_write_hdr (Z.b2z npm);
          if r <? 0 then checkpoint_exit1 else
          r ← tcmi_ckpt_write_rlimit;
          if r <? 0 then checkpoint_exit1 else
          r ← tcmi_ckpt_write_files;
          if r <? 0 then checkpoint_exit1 else
          r ← tcmi_ckpt_mm_write;
          if r <? 0 then checkpoint_exit1 else
          r ← (if npm then mret 0 else tcmi_ckpt_write_vmas heavy);
          if r <? 0 then checkpoint_exit1 else
          r ← tcmi_ckpt_regs_write regs;
          if r <? 0 then checkpoint_exit1 else
          r ← tcmi_ckpt_tls_write;
          if r <? 0 then checkpoint_exit1 else
          r ← tcmi_ckpt_fsstruct_write;
          if r <? 0 then checkpoint_exit1 else
          r ← tcmi_ckpt_sig_write;
          if r <? 0 then checkpoint_exit1 else
          r ← (match npm_params with Some params => tcmi_ckpt_npm_params_write params | None => mret 0 end);
          if r <? 0 then checkpoint_exit1 else
          tcmi_ckpt_put;; mret 0
      end
  end.

Definition tcmi_ckptcom_checkpoint_ppm (regs : option pt_regs) (heavy : bool) : M Z :=
  tcmi_ckptcom_checkpoint regs heavy None.
Definition tcmi_ckptcom_checkpoint_npm (regs : option pt_regs) (params : option tcmi_npm_params) : M Z :=
  tcmi_ckptcom_checkpoint regs false params.

(** restart_fixup.h *)
Definition tcmi_resolve_restart_block (is_32bit_application : bool) : M Z :=
  p ← proc_;
  if negb is_32bit_application then
    upd_proc (set_regs (tcmi_resolve_restart_block_64bit_app (p_regs p)));; mret 0
  else
    r ← call syscall32_setup_pages;
    if negb (r =? 0) then mret (- EINVAL) else
    '(regs, m) ← valid (tcmi_resolve_restart_block_32bit_app (p_regs p) (p_mem p));
    upd_proc (fun p => set_mem m (set_regs regs p));; mret 0.

Definition restart_exit1 : M Z := tcmi_ckpt_put;; mret (- ENOEXEC).

(** The end of the restart of a non-preemptive checkpoint.  The structure for the parameters is
    allocated at [base] with the contents [params]. *)
Definition restart_npm (base : Z) (params : tcmi_npm_params) (original_regs : pt_regs) : M Z :=
  ok ← kmalloc B_params;
  upd_proc (set_regs original_regs);;
  if negb ok then restart_exit1 else
  '(r, params) ← tcmi_ckpt_npm_params_read base params;
  if r <? 0 then restart_exit1 else
  tcmi_ckpt_put;;
  name ← valid (cstring (file_name params));
  modify (fun w => set_execs (w_execs w ++ [(name, params)]) w);;
  exec_result ← call (do_execve name params);
  kfree B_params;;
  mret (if negb (exec_result =? 0) then - EFAULT else 0).

(** The part of the restart behind the header, in which the old process image is gone. *)
Definition restart_chunks (base : Z) (params : tcmi_npm_params) : M Z :=
  r ← tcmi_ckpt_read_rlimit;
  if r <? 0 then restart_exit1 else
  p ← proc_;
  when (bool_decide (is_Some (fdt (p_files p) !! 0)))
    (call_files (fun fs k => let '(fs, k) := sys_close 0 fs k in (tt, fs, k)));;
  r ← tcmi_ckpt_read_files;
  if r <? 0 then restart_exit1 else
  r ← tcmi_ckpt_mm_read;
  if r <? 0 then restart_exit1 else
  c ← self;
  let npm := negb (is_npm (ck_hdr c) =? 0) in
  r ← (if npm then mret 0 else tcmi_ckpt_read_vmas);
  if r <? 0 then restart_exit1 else
  p ← proc_;
  let original_regs := p_regs p in
  r ← tcmi_ckpt_regs_read;
  if r <? 0 then restart_exit1 else
  r ← tcmi_ckpt_tls_read;
  if r <? 0 then restart_exit1 else
  r ← tcmi_ckpt_fsstruct_read;
  if r <? 0 then restart_exit1 else
  r ← tcmi_ckpt_sig_read;
  if r <? 0 then restart_exit1 else
  if npm then restart_npm base params original_regs
  else
    c ← self;
    tcmi_resolve_restart_block (is32 (ck_hdr c));;
    kfree B_regs;; tcmi_ckpt_put;; mret 0.

(** [bprm->buf] holds the first 128 bytes of the file.  An error pointer of [tcmi_ckpt_new] is
    used like the object. *)
Definition tcmi_ckptcom_restart (base : Z) (params : tcmi_npm_params) : M Z :=
  ok ← kmalloc B_regs;
  if negb ok then mret (- ENOMEM) else
  f ← gets w_file;
  if negb (tcmi_ckpt_check_magic (ztake 128 (f_data f))) then mret (- ENOEXEC) else
  ckpt ← tcmi_ckpt_new;
  match ckpt with
  | Null => mret (- ENOEXEC)
  | Err_ptr _ => fault
  | Ckpt_ptr =>
      r ← tcmi_ckpt_read_hdr;
      if r <? 0 then restart_exit1 else
      p ← proc_; k ← gets w_k;
      let '(r, p, k) := flush_old_exec p k in
      modify (set_k k);; upd_proc (fun _ => p);;
      if negb (r =? 0) then mret (- ENOEXEC) else restart_chunks base params
  end.
End ckpt.
