(* ===== verification/CkptImage.v ===== *)
(** The contents of a checkpoint file as a function of the process, and the decoding of its
    structures. *)

From stdpp Require Import gmap.
From S2P Require Import Prelude Effect KkcAddr NpmParams CkptKernel CkptArch Ckpt CkptOps.

(** ** Packed structures *)

Definition fits (s : nat) (v : Z) : Prop := urange (8 * Z.of_nat s) v.

Lemma unpack_pack sizes vs rest : Forall2 fits sizes vs -> unpack sizes (pack sizes vs ++ rest) = vs.
Proof.
  intros HF. revert rest. induction HF as [|s v sizes vs Hv _ IH]; intros rest; [done|].
  cbn [pack unpack]. rewrite <- app_assoc, take_app_length', drop_app_length' by (by rewrite le_bytes_length).
  rewrite le_value_le_bytes, IH. f_equal. by apply uwrap_id.
Qed.
Lemma unpack_packed sizes vs : Forall2 fits sizes vs -> unpack sizes (pack sizes vs) = vs.
Proof. intros HF. rewrite <- (app_nil_r (pack sizes vs)). by apply unpack_pack. Qed.

Lemma zlen_pack sizes vs : length sizes = length vs -> zlen (pack sizes vs) = Z.of_nat (sum_list sizes).
Proof.
  revert vs. induction sizes as [|s sizes IH]; intros [|v vs] Hl; try done; [].
  change (sum_list (s :: sizes)) with (s + sum_list sizes)%nat. cbn [pack]. rewrite zlen_app, zlen_le_bytes, IH by (injection Hl; done). lia.
Qed.

Lemma Forall2_fits_replicate n s vs :
  Forall (fits s) vs -> length vs = n -> Forall2 fits (replicate n s) vs.
Proof. intros HF <-. induction HF; constructor; done. Qed.

Lemma le_value_u4 v : urange 32 v -> le_value (le_bytes 4 v) = v.
Proof. intros. rewrite le_value_le_bytes. by apply uwrap_id. Qed.
Lemma le_value_u1 v : urange 8 v -> le_value (le_bytes 1 v) = v.
Proof. intros. rewrite le_value_le_bytes. by apply uwrap_id. Qed.

(** The fields are in range. *)
Ltac fields_fit :=
  repeat (apply List.Forall2_cons; [first [assumption | unfold fits, urange, TCMI_CKPT_MAGIC in *; cbn -[Z.pow]; lia]|]);
  apply List.Forall2_nil.

(** ** Headers *)

Lemma zlen_strncpy n s : zlen (strncpy n s) = Z.of_nat n.
Proof.
  revert s. induction n as [|n IH]; intros [|b s]; try done; cbn [strncpy];
    [|case_match]; rewrite zlen_cons, IH; lia.
Qed.
Lemma strncpy_nil n : strncpy n [] = replicate n 0.
Proof. induction n as [|n IH]; [done|]. cbn. by rewrite IH. Qed.
Lemma strncpy_zeros n m : strncpy n (replicate m 0) = replicate n 0.
Proof. destruct n, m; try done; cbn; by rewrite strncpy_nil. Qed.
Lemma strncpy_idem n s : strncpy n (strncpy n s) = strncpy n s.
Proof.
  revert s. induction n as [|n IH]; intros [|b s]; [done|done| |].
  - by rewrite strncpy_nil, strncpy_zeros.
  - cbn [strncpy]. destruct (b =? 0) eqn:E.
    + by rewrite strncpy_nil.
    + cbn [strncpy]. by rewrite E, IH.
Qed.

(** A header with the magic number. *)
Definition wf_hdr (h : tcmi_ckpt_hdr) : Prop :=
  magic h = s32[TCMI_CKPT_MAGIC] /\ 0 <= map_count h < 2 ^ 31 /\ 0 <= file_count h < 2 ^ 31 /\
  urange 32 (checkpoint_arch h) /\ 0 <= is_32bit_application h < 2 /\ 0 <= is_npm h < 2 /\
  length (hdr_comm h) = 16%nat.

Lemma hdr_roundtrip h : wf_hdr h -> hdr_of (hdr_bytes h) = h.
Proof.
  intros (Hm & Hmc & Hfc & Ha & Hb & Hn & Hl).
  unfold hdr_of, hdr_bytes. rewrite Hm.
  set (P := pack _ _).
  assert (P = pack hdr_sizes [TCMI_CKPT_MAGIC; map_count h; file_count h; checkpoint_arch h;
                              is_32bit_application h; is_npm h]) as -> by done.
  rewrite unpack_pack.
  2: fields_fit.
  rewrite drop_app_length', firstn_all2 by (done || lia).
  rewrite (swrap_id 32 eq_refl (map_count h)), (swrap_id 32 eq_refl (file_count h)), !(swrap_id 8 eq_refl) by (unfold srange; lia).
  rewrite <- Hm. by destruct h.
Qed.

Lemma zlen_hdr_bytes h : length (hdr_comm h) = 16%nat -> zlen (hdr_bytes h) = 34.
Proof. intros Hl. unfold hdr_bytes. rewrite zlen_app, zlen_pack by done. unfold zlen. rewrite Hl. done. Qed.

(** The magic number is at the start. *)
Lemma hdr_magic h rest : wf_hdr h -> tcmi_ckpt_check_magic (ztake 128 (hdr_bytes h ++ rest)) = true.
Proof.
  intros (Hm & _). unfold tcmi_ckpt_check_magic, hdr_bytes. rewrite Hm.
  reflexivity.
Qed.

Lemma newfile_roundtrip h :
  0 <= nf_fd h < 2 ^ 31 -> urange 64 (nf_pos h) -> urange 32 (nf_flags h) -> urange 32 (nf_mode h) ->
  urange 32 (nf_type h) -> 0 <= nf_pathname_size h < 2 ^ 31 ->
  newfile_of (newfile_bytes h) = h /\ zlen (newfile_bytes h) = 28.
Proof.
  intros. unfold newfile_of, newfile_bytes. rewrite unpack_packed, zlen_pack; [|done|].
  - rewrite !swrap_id by (unfold srange; lia). by destruct h.
  - fields_fit.
Qed.

Lemma area_roundtrip h :
  urange 64 (va_start h) -> urange 64 (va_end h) -> urange 64 (va_flags h) -> urange 64 (va_pgoff h) ->
  urange 32 (va_type h) -> urange 32 (va_pathname_size h) ->
  area_of (area_bytes h) = h /\ zlen (area_bytes h) = 40.
Proof.
  intros. unfold area_of, area_bytes. rewrite unpack_packed, zlen_pack; [|done|].
  - by destruct h.
  - fields_fit.
Qed.

Lemma pair_flat l : pair_rlim (flat_rlim l) = l.
Proof. induction l as [|[c m] l IH]; [done|]. cbn. by rewrite IH. Qed.
Lemma flat_rlim_length l : length (flat_rlim l) = (2 * length l)%nat.
Proof. induction l as [|[c m] l IH]; [done|]. cbn [flat_rlim length]. lia. Qed.

Lemma actions_roundtrip l : actions_of (l ≫= sigaction_fields) = l.
Proof. induction l as [|[h r f m] l IH]; [done|]. cbn. by rewrite IH. Qed.
Lemma sig_roundtrip s : sig_of (sig_fields s) = s.
Proof. destruct s. unfold sig_of, sig_fields. cbn. by rewrite actions_roundtrip. Qed.
Lemma actions_length l : length (l ≫= sigaction_fields) = (4 * length l)%nat.
Proof. induction l as [|a l IH]; [done|]. rewrite bind_cons, length_app, IH. cbn [sigaction_fields length]. lia. Qed.

(** ** Registers and threads *)

Definition wf_regs (r : pt_regs) : Prop := Forall (urange 64) (regs_fields r).

Lemma zlen_get_registers r : zlen (get_registers r) = 168.
Proof. unfold get_registers. by rewrite zlen_pack. Qed.
Lemma registers_roundtrip r : wf_regs r -> load_registers (get_registers r) = Some r.
Proof.
  intros Hw. unfold load_registers. rewrite zlen_get_registers. change (168 <? 168) with false. cbv iota.
  unfold get_registers. rewrite unpack_packed; [by destruct r|].
  apply Forall2_fits_replicate; [exact Hw|done].
Qed.

Definition wf_thread (t : thread_struct) : Prop :=
  length (tls_array t) = 3%nat /\ Forall (urange 64) (tls_array t) /\ urange 64 (th_gs t) /\ urange 64 (th_fs t) /\
  urange 32 (th_gsindex t) /\ urange 32 (th_fsindex t).

Lemma thread_roundtrip t :
  wf_thread t -> load_thread (get_tcmi_thread t) = Some t /\ zlen (get_tcmi_thread t) = 48.
Proof.
  destruct t as [tls gs fs gi fi]. intros (Hl & Ht & H1 & H2 & H3 & H4). cbn [tls_array th_gs th_fs th_gsindex th_fsindex] in Hl, Ht, H1, H2, H3, H4.
  destruct tls as [|t0 [|t1 [|t2 [|]]]]; try done. decompose_Forall.
  unfold load_thread, get_tcmi_thread. cbn [tls_array th_gs th_fs th_gsindex th_fsindex take GDT_ENTRY_TLS_ENTRIES app]. rewrite zlen_pack by done.
  change (Z.of_nat (sum_list tcmi_x86_64_thread) <? 48) with false. cbv iota. rewrite unpack_packed; [done|].
  fields_fit.
Qed.

(** ** Open files *)

(** The chunk of a descriptor [fd] of the file [a], when [done] were written before it. *)
Definition file_image (name : list Z) (done : list (Z * Z)) (fd a : Z) (f : filp) : list Z :=
  let d := fdcache_find done a in
  if 0 <=? d then le_bytes 4 TCMI_CKPT_OPENFILE_DUPFILE ++ pack [4; 4]%nat [fd; d]
  else le_bytes 4 TCMI_CKPT_OPENFILE_NEWFILE ++
       newfile_bytes (mk_newfile fd (fp_pos f) (fp_flags f) (fp_mode f) (fp_imode f) (zlen name + 1)) ++
       name ++ [0].

(** [names]: the name of the file of a descriptor on the other node. *)
Fixpoint files_image (names : Z -> list Z) (fs : files_struct) (done l : list (Z * Z)) : list Z :=
  match l with
  | [] => []
  | (fd, a) :: l =>
      match filps fs !! a with
      | Some f => file_image (names fd) done fd a f
      | None => []
      end ++ files_image names fs (done ++ [(fd, a)]) l
  end.

(** ** Memory areas *)

Definition pad (pos : Z) : Z := (- pos) mod PAGE_SIZE.
Definition npages (v : vm_area_struct) : nat := Z.to_nat ((vm_end v - vm_start v) / PAGE_SIZE).

(** The pages from [addr]; [pages]: the readable pages of the process. *)
Fixpoint pages_image (pages : Z -> option (list Z)) (n : nat) (addr : Z) : list Z :=
  match n with
  | O => []
  | S n => default (zeros PAGE_SIZE) (pages addr) ++ pages_image pages n (addr + PAGE_SIZE)
  end.

Definition area_hdr (v : vm_area_struct) (type size : Z) : list Z :=
  area_bytes (mk_area (vm_start v) (vm_end v) (vm_flags v) (vm_pgoff v) type size).

(** The chunk of an area that starts at the position [pos] of the file. *)
Definition area_image (type : Z) (pages : Z -> option (list Z)) (pos : Z) (v : vm_area_struct) : list Z :=
  match vm_file v with
  | Some name =>
      if writes_light type v then area_hdr v TCMI_CKPT_VM_AREA_LIGHT (zlen name + 1) ++ name ++ [0]
      else area_hdr v TCMI_CKPT_VM_AREA_HEAVY 0 ++ zeros (pad (pos + 40)) ++ pages_image pages (npages v) (vm_start v)
  | None => area_hdr v TCMI_CKPT_VM_AREA_HEAVY 0 ++ zeros (pad (pos + 40)) ++ pages_image pages (npages v) (vm_start v)
  end.

Fixpoint areas_image (type : Z) (pages : Z -> option (list Z)) (pos : Z) (l : list vm_area_struct) : list Z :=
  match l with
  | [] => []
  | v :: l => let i := area_image type pages pos v in i ++ areas_image type pages (pos + zlen i) l
  end.
