(* ===== verification/CkptWrite.v ===== *)
(** Checkpointing: with a healthy kernel every chunk of a well-formed process is written, and
    the file holds its image. *)

From stdpp Require Import gmap.
From S2P Require Import Prelude Effect KkcAddr NpmParams CkptKernel CkptArch Ckpt CkptOps CkptCom CkptImage.

(** ** A file that grows

    The part before the position, where a seek beyond the end has left a gap, reads as zeros. *)

Definition img (f : cfile) : list Z := f_data f ++ zeros (f_pos f - zlen (f_data f)).
Definition at_end (f : cfile) : Prop := zlen (f_data f) <= f_pos f.
Definition append (f : cfile) (bs : list Z) : cfile :=
  mk_cfile (f_pos f + zlen bs) (img f ++ bs) (f_count f).
(** [f'] is [f] with [bs] behind it. *)
Definition extends (f : cfile) (bs : list Z) (f' : cfile) : Prop :=
  at_end f' /\ f_pos f' = f_pos f + zlen bs /\ img f' = img f ++ bs /\ f_count f' = f_count f.

Lemma zlen_zeros n : zlen (zeros n) = Z.max 0 n.
Proof. unfold zeros, zlen. rewrite length_replicate. lia. Qed.
#[export] Hint Rewrite zlen_zeros : zlen.
Lemma zeros_0 n : n <= 0 -> zeros n = [].
Proof. intros. unfold zeros. by replace (Z.to_nat n) with O by lia. Qed.
Lemma zeros_app n m : 0 <= n -> 0 <= m -> zeros n ++ zeros m = zeros (n + m).
Proof. intros. unfold zeros. rewrite <- replicate_add. f_equal. lia. Qed.

Lemma zlen_img f : at_end f -> zlen (img f) = f_pos f.
Proof. unfold at_end, img. intros. zlen_lia. Qed.
Lemma img_flushed pos d n : zlen d = pos -> img (mk_cfile pos d n) = d.
Proof. intros. unfold img. cbn. rewrite zeros_0 by lia. apply app_nil_r. Qed.

Lemma extends_append f bs : at_end f -> extends f bs (append f bs).
Proof.
  intros Hf. pose proof (zlen_img f Hf) as Hl.
  assert (zlen (img f ++ bs) = f_pos f + zlen bs) as Hl2 by (rewrite zlen_app; lia).
  unfold extends, at_end, append. rewrite img_flushed by done. cbn. split_and!; try done. lia.
Qed.
Lemma extends_refl f : at_end f -> extends f [] f.
Proof. intros. unfold extends. rewrite app_nil_r. change (zlen (@nil Z)) with 0. split_and!; try done. lia. Qed.
Lemma extends_trans f b1 f1 b2 f2 : extends f b1 f1 -> extends f1 b2 f2 -> extends f (b1 ++ b2) f2.
Proof.
  intros (_ & P1 & I1 & C1) (E2 & P2 & I2 & C2). unfold extends.
  rewrite P2, P1, I2, I1, C2, C1, zlen_app, app_assoc. split_and!; try done. lia.
Qed.
Lemma append_extends f b1 f1 b2 : extends f b1 f1 -> append f1 b2 = append f (b1 ++ b2).
Proof.
  intros (_ & P1 & I1 & C1). unfold append. rewrite P1, I1, C1, zlen_app, app_assoc. f_equal. lia.
Qed.
Lemma put_at_end d f : at_end f -> 0 <= f_pos f ->
  mk_cfile (f_pos f + zlen d) (put_at (f_pos f) d (f_data f)) (f_count f) = append f d.
Proof.
  intros Hf Hp. unfold append, put_at. f_equal. fold (img f).
  unfold at_end in Hf. rewrite zdrop_all by (pose proof (zlen_nonneg d); lia). rewrite app_nil_r.
  rewrite ztake_all; [done|]. rewrite zlen_img by done. lia.
Qed.
(** A seek forward leaves a gap. *)
Lemma extends_seek f n : at_end f -> 0 <= n ->
  extends f (zeros n) (mk_cfile (f_pos f + n) (f_data f) (f_count f)).
Proof.
  intros Hf Hn. unfold extends, at_end, img in *. cbn. rewrite zlen_zeros. split_and!; try done; try lia.
  rewrite <- app_assoc, zeros_app by lia. do 2 f_equal. lia.
Qed.

Lemma page_align_pos pos : 0 <= pos ->
  Z.land (pos + PAGE_SIZE - 1) (Z.lnot (PAGE_SIZE - 1)) = pos + pad pos /\ 0 <= pad pos /\
  (pos + pad pos) mod PAGE_SIZE = 0.
Proof.
  intros Hp. unfold pad, PAGE_SIZE.
  change (4096 - 1) with (Z.ones 12). rewrite <- Z.ldiff_land, Z.ldiff_ones_r by lia.
  rewrite Z.shiftl_mul_pow2, Z.shiftr_div_pow2 by lia. change (2 ^ 12) with 4096.
  change (Z.ones 12) with 4095.
  pose proof (Z.mod_pos_bound (- pos) 4096 ltac:(lia)).
  Z.to_euclidean_division_equations. lia.
Qed.

(** ** Operations that write *)

Section write.
Context `{HL : KernelLaws}.

Definition moved (k : kst) (f : cfile) (w : cw) : cw := set_file f (set_k k w).

(** The world of a checkpoint in progress. *)
Definition ready (w : cw) : Prop :=
  healthy (w_k w) /\ at_end (w_file w) /\ 0 <= f_pos (w_file w) /\ is_Some (w_ckpt w).

Lemma ready_moved w b k f : ready w -> healthy k -> extends (w_file w) b f -> ready (moved k f w).
Proof.
  intros (_ & _ & Hp & Hc) Hk (He & Hpos & _). unfold ready. cbn. split_and!; try done.
  rewrite Hpos. pose proof (zlen_nonneg b). lia.
Qed.

(** The computation returns 0, writes [bs], and otherwise makes the world [w0]. *)
Definition writes_to (m : M Z) (w w0 : cw) (bs : list Z) : Prop :=
  exists k f, m w = Ret 0 (moved k f w0) /\ healthy k /\ extends (w_file w) bs f.
Definition writes (m : M Z) (w : cw) (bs : list Z) : Prop := writes_to m w w bs.

Lemma bind_ret {A B} (m : M A) (g : A -> M B) w a w' : m w = Ret a w' -> (m ≫= g) w = g a w'.
Proof. intros Hm. unfold mbind, eff_bind. by rewrite Hm. Qed.

Lemma writes_ret w : ready w -> writes (mret 0) w [].
Proof.
  intros (Hk & Hf & _). exists (w_k w), (w_file w). split_and!; [by destruct w|done|by apply extends_refl].
Qed.
Lemma writes_bind_to (m : M Z) (g : Z -> M Z) w w1 w0 b1 b2 :
  ready w -> is_Some (w_ckpt w1) -> writes_to m w w1 b1 ->
  (forall k f, ready (moved k f w1) -> extends (w_file w) b1 f -> writes_to (g 0) (moved k f w1) w0 b2) ->
  writes_to (m ≫= g) w w0 (b1 ++ b2).
Proof.
  intros (_ & _ & Hp & _) Hc (k1 & f1 & Hm & Hk1 & He1) Hg.
  destruct (Hg k1 f1) as (k2 & f2 & Hm2 & Hk2 & He2); [|done|].
  { destruct He1 as (He & Hpos & _). pose proof (zlen_nonneg b1). unfold ready. cbn. split_and!; try done. lia. }
  exists k2, f2. rewrite (bind_ret _ _ _ _ _ Hm), Hm2. split_and!; [done|done|].
  by eapply extends_trans.
Qed.
Lemma writes_bind (m : M Z) (g : Z -> M Z) w w0 b1 b2 :
  ready w -> writes m w b1 ->
  (forall k f, ready (moved k f w) -> extends (w_file w) b1 f -> writes_to (g 0) (moved k f w) w0 b2) ->
  writes_to (m ≫= g) w w0 (b1 ++ b2).
Proof. intros Hr. apply writes_bind_to; [done|apply Hr]. Qed.
Lemma writes_moved m k f w bs : writes m (moved k f w) bs -> writes_to m (moved k f w) w bs.
Proof. intros H'. exact H'. Qed.
(** A last step that only looks at the result. *)
Lemma writes_map (m : M Z) (g : Z -> M Z) w bs :
  ready w -> writes m w bs -> (forall w', ready w' -> g 0 w' = Ret 0 w') -> writes (m ≫= g) w bs.
Proof.
  intros Hr (k & f & Hm & Hk & He) Hg. exists k, f. rewrite (bind_ret _ _ _ _ _ Hm), Hg; [done|].
  by eapply ready_moved.
Qed.
(** A step before it that writes nothing. *)
Lemma writes_after {A} (m : M A) (g : A -> M Z) a w w1 w0 bs :
  m w = Ret a w1 -> w_file w1 = w_file w -> writes_to (g a) w1 w0 bs -> writes_to (m ≫= g) w w0 bs.
Proof.
  intros Hm Hf (k & f & Hg & Hk & He). exists k, f. rewrite (bind_ret _ _ _ _ _ Hm), <- Hf. done.
Qed.

Lemma writes_valid {A} (o : option A) (g : A -> M Z) a w w0 bs :
  o = Some a -> writes_to (g a) w w0 bs -> writes_to (valid o ≫= g) w w0 bs.
Proof. by intros ->. Qed.

Lemma ckpt_write_append d w : ready w ->
  exists k, tcmi_ckpt_write d w = Ret 0 (moved k (append (w_file w) d) w) /\ healthy k.
Proof.
  intros (Hk & Hf & Hp & [c Hc]). destruct (write_ok d (w_file w) (w_k w) Hk Hp) as (k' & Hw & Hk').
  exists k'. split; [|done]. unfold tcmi_ckpt_write, self, valid. run. rewrite Hc. run.
  rewrite Hw, put_at_end by done. cbv iota beta. by rewrite Z.eqb_refl.
Qed.
Lemma ckpt_write_ok d w : ready w -> writes (tcmi_ckpt_write d) w d.
Proof.
  intros Hr. destruct (ckpt_write_append d w Hr) as (k & Hm & Hk). exists k, (append (w_file w) d).
  split_and!; [done|done|]. apply extends_append. apply Hr.
Qed.

(** A write followed by the check of its result. *)
Lemma writes_then d (m e : M Z) w w0 bs :
  ready w ->
  (forall k f, ready (moved k f w) -> extends (w_file w) d f -> writes_to m (moved k f w) w0 bs) ->
  writes_to (r ← tcmi_ckpt_write d; if r <? 0 then e else m) w w0 (d ++ bs).
Proof. intros Hr Hm. apply writes_bind; [done|by apply ckpt_write_ok|]. intros. by apply Hm. Qed.
Lemma writes_then_nil d (m e : M Z) w w0 :
  ready w ->
  (forall k f, ready (moved k f w) -> extends (w_file w) d f -> writes_to m (moved k f w) w0 []) ->
  writes_to (r ← tcmi_ckpt_write d; if r <? 0 then e else m) w w0 d.
Proof. intros Hr Hm. rewrite <- (app_nil_r d) at 2. by apply writes_then. Qed.
Lemma writes_last d w : ready w ->
  writes (r ← tcmi_ckpt_write d; mret (if r <? 0 then - EINVAL else 0)) w d.
Proof. intros Hr. apply writes_map; [done|by apply ckpt_write_ok|]. done. Qed.

Lemma call_ok {A} (f : kst -> A * kst) w a k : f (w_k w) = (a, k) -> call f w = Ret a (set_k k w).
Proof. intros Hf. unfold call. run. by rewrite Hf. Qed.

(** A call that succeeds. *)
Lemma writes_call {A} (f : kst -> A * kst) (g : A -> M Z) a w w0 bs :
  ready w -> (exists k, f (w_k w) = (a, k) /\ healthy k) ->
  (forall k, ready (set_k k w) -> writes_to (g a) (set_k k w) w0 bs) ->
  writes_to (call f ≫= g) w w0 bs.
Proof.
  intros (_ & Hr) (k & Hf & Hk) Hg. eapply writes_after; [by apply call_ok|done|]. by apply Hg.
Qed.

Lemma kmalloc_ok b w : healthy (w_k w) ->
  exists k, kmalloc b w = Ret true (set_k k (set_live (b :: w_live w) w)) /\ healthy k.
Proof.
  intros Hk. destruct (alloc_ok _ Hk) as (k & Ha & Hk'). exists k. split; [|done].
  unfold kmalloc. rewrite (bind_ret _ _ _ _ _ (call_ok _ _ _ _ Ha)). done.
Qed.
Lemma kfree_ok b w l : w_live w = b :: l -> kfree b w = Ret tt (set_live l w).
Proof.
  intros Hl. unfold kfree. run. rewrite Hl. cbn [remove_one]. by rewrite decide_True.
Qed.

(** A computation that holds a block for its duration. *)
Lemma writes_with_block b (m e : M Z) w w0 bs :
  ready w ->
  (forall k, ready (set_k k (set_live (b :: w_live w) w)) ->
     writes_to m (set_k k (set_live (b :: w_live w) w)) w0 bs) ->
  writes_to (ok ← kmalloc b; if negb ok then e else m) w w0 bs.
Proof.
  intros (Hk & Hr) Hm. destruct (kmalloc_ok b w Hk) as (k & Ha & Hk').
  eapply writes_after; [exact Ha|done|]. by apply Hm.
Qed.
Lemma writes_end b w l w0 :
  ready w -> w_live w = b :: l -> moved (w_k w) (w_file w) w0 = set_live l w ->
  writes_to (kfree b;; mret 0) w w0 [].
Proof.
  intros (Hk & Hf & _) Hl Hw0. exists (w_k w), (w_file w).
  rewrite (bind_ret _ _ _ _ _ (kfree_ok _ _ _ Hl)), Hw0. split_and!; [done|done|by apply extends_refl].
Qed.

(** ** The chunks *)

Lemma rlimit_written w : ready w ->
  writes tcmi_ckpt_write_rlimit w (pack tcmi_ckpt_rlimits (flat_rlim (p_rlim (w_proc w)))).
Proof. intros Hr. by apply writes_last. Qed.

Lemma mm_written w : ready w ->
  writes tcmi_ckpt_mm_write w (pack tcmi_ckpt_mm_hdr (mm_fields (p_mm (w_proc w)))).
Proof. intros Hr. by apply writes_last. Qed.

Lemma regs_written regs w : ready w ->
  writes (tcmi_ckpt_regs_write regs) w (le_bytes 4 168 ++ get_registers regs).
Proof. intros Hr. apply writes_then; [done|]. intros. by apply writes_moved, writes_last. Qed.

Lemma tls_written w : ready w ->
  writes tcmi_ckpt_tls_write w (le_bytes 4 48 ++ get_tcmi_thread (p_thread (w_proc w))).
Proof.
  intros Hr. eapply writes_after; [done|done|]. apply writes_then; [done|]. intros. by apply writes_moved, writes_last.
Qed.

Definition fs_image (p : proc) : list Z := le_bytes 4 (zlen (p_pwd p) + 1) ++ p_pwd p ++ [0].

Lemma fsstruct_written w : ready w -> zlen (p_pwd (w_proc w)) + 1 <= PAGE_SIZE ->
  writes tcmi_ckpt_fsstruct_write w (fs_image (w_proc w)).
Proof.
  intros Hr Hl. apply writes_with_block; [done|]. intros k Hr1. eapply writes_after; [done|done|].
  eapply writes_call; [done|by apply d_path_ok; [apply Hr1|]|]. intros k1 Hr2.
  apply writes_then; [done|]. intros k2 f2 Hr3 _.
  apply writes_then_nil; [done|]. intros k3 f3 Hr4 _.
  by eapply writes_end.
Qed.

(** The last chunks are written without a gap behind them. *)
Definition appends (m : M Z) (w : cw) (bs : list Z) : Prop :=
  exists k, m w = Ret 0 (moved k (append (w_file w) bs) w) /\ healthy k.

Lemma appends_writes m w bs : ready w -> appends m w bs -> writes m w bs.
Proof.
  intros Hr (k & Hm & Hk). exists k, (append (w_file w) bs).
  split_and!; [done|done|]. apply extends_append, Hr.
Qed.
Lemma appends_last d w : ready w ->
  appends (r ← tcmi_ckpt_write d; mret (if r <? 0 then - EINVAL else 0)) w d.
Proof.
  intros Hr. destruct (ckpt_write_append d w Hr) as (k & Hm & Hk). exists k.
  by rewrite (bind_ret _ _ _ _ _ Hm).
Qed.
Lemma appends_then d (m e : M Z) w bs :
  ready w -> (forall k f, ready (moved k f w) -> appends m (moved k f w) bs) ->
  appends (r ← tcmi_ckpt_write d; if r <? 0 then e else m) w (d ++ bs).
Proof.
  intros Hr Hm. destruct (ckpt_write_append d w Hr) as (k & Hw & Hk).
  assert (extends (w_file w) d (append (w_file w) d)) as He by apply extends_append, Hr.
  destruct (Hm k (append (w_file w) d) (ready_moved _ _ _ _ Hr Hk He)) as (k2 & Hm2 & Hk2).
  exists k2. rewrite (bind_ret _ _ _ _ _ Hw). split; [|done]. etrans; [exact Hm2|].
  cbn [moved w_file set_file]. by rewrite (append_extends _ _ _ _ He).
Qed.

Lemma sig_written w : ready w ->
  appends tcmi_ckpt_sig_write w (pack tcmi_ckpt_sig_hdr (sig_fields (p_sig (w_proc w)))).
Proof. intros Hr. by apply appends_last. Qed.

(** The parameters of an execve: the file name and the used part of the block. *)
Definition npm_image (name data : list Z) (ac ec : Z) : list Z :=
  le_bytes 1 ac ++ le_bytes 1 ec ++ le_bytes 4 (zlen name + 1) ++ (name ++ [0]) ++ le_bytes 4 (zlen data) ++ data.

Lemma strlen_cstring m s : cstring m = Some s -> strlen m = Some (zlen s) /\ ztake (zlen s + 1) m = s ++ [0].
Proof.
  revert s. induction m as [|b m IH]; intros s; [done|]. cbn [cstring strlen].
  destruct (b =? 0) eqn:E.
  - intros [= <-]. apply Z.eqb_eq in E as ->. done.
  - destruct (cstring m) as [s'|] eqn:Es; [|done]. cbn. intros [= <-].
    destruct (IH s' eq_refl) as [-> Ht]. cbn. rewrite zlen_cons. split; [done|].
    pose proof (zlen_nonneg s'). unfold ztake in *.
    replace (Z.to_nat (1 + zlen s' + 1)) with (S (Z.to_nat (zlen s' + 1))) by lia. cbn [take app]. by rewrite Ht.
Qed.

Lemma npm_written params name w :
  ready w -> cstring (file_name params) = Some name -> zlen name + 1 < 2 ^ 32 ->
  0 <= used_data_length params <= zlen (npm_data params) ->
  appends (tcmi_ckpt_npm_params_write params) w
    (npm_image name (ztake (used_data_length params) (npm_data params)) (argsc params) (envpc params)).
Proof.
  intros Hr Hn Hl Hu. destruct (strlen_cstring _ _ Hn) as [Hs Ht].
  unfold tcmi_ckpt_npm_params_write, npm_image. rewrite Hs, zlen_ztake.
  replace (Z.min _ _) with (used_data_length params) by lia.
  unfold appends, valid. unfold mbind at 1, eff_bind at 1. cbn [mret eff_ret].
  rewrite (uwrap_id 32 (zlen name + 1)) by (pose proof (zlen_nonneg name); unfold urange; lia). rewrite Ht.
  do 5 (apply appends_then; [done|]; intros ? ? ?).
  by apply appends_last.
Qed.

(** ** Open files *)

Lemma find_app_found l k x : 0 <= fdcache_find l x -> fdcache_find (l ++ k) x = fdcache_find l x.
Proof.
  induction l as [|[fd f] l IH]; cbn; [unfold EINVAL; lia|]. destruct (f =? x); [done|]. apply IH.
Qed.
Lemma find_app_missing l k x :
  Forall (fun e : Z * Z => 0 <= e.1) l -> fdcache_find l x < 0 -> fdcache_find (l ++ k) x = fdcache_find k x.
Proof.
  induction 1 as [|[fd f] l Hfd _ IH]; cbn; [done|]. cbn in Hfd. destruct (f =? x); [lia|]. apply IH.
Qed.
Lemma find_found l x fd : 0 <= fd -> Forall (fun e : Z * Z => 0 <= e.1) l -> (fd, x) ∈ l ->
  0 <= fdcache_find l x /\ (fdcache_find l x, x) ∈ l.
Proof.
  intros Hfd HF. induction HF as [|[fd' f] l Hfd' _ IH]; [intros Hin; by apply not_elem_of_nil in Hin|].
  cbn [fdcache_find]. destruct (f =? x) eqn:E.
  - apply Z.eqb_eq in E as ->. intros _. split; [done|]. apply list_elem_of_here.
  - intros [[= <- <-]|Hin]%elem_of_cons; [by rewrite Z.eqb_refl in E|].
    destruct (IH Hin) as [? ?]. split; [done|]. by apply list_elem_of_further.
Qed.

(** The name of a file on the other node. *)
Definition name_of (p : proc) (fd : Z) (f : filp) : list Z :=
  if negb (is_proxyfs_file (fp_path f)) && (s_is S_IFCHR (fp_imode f) || s_is S_IFIFO (fp_imode f))
     && p_shadow p && negb (is_dev_null (fp_path f))
  then create_proxyfs_name (p_tgid p) (proxy_ident fd) else fp_path f.
Definition names_of (p : proc) (fd : Z) : list Z :=
  match fdt (p_files p) !! fd with
  | Some a => match filps (p_files p) !! a with Some f => name_of p fd f | None => [] end
  | None => []
  end.

(** The cache has the descriptor that was written first for each file. *)
Definition cache_ok (c : tcmi_ckpt) (size : Z) (done : list (Z * Z)) : Prop :=
  exists C, ck_fdcache c = Some (mk_fdcache C size 1) /\ Forall (fun e => 0 <= e.1) C /\
    zlen C <= zlen done /\ forall x, fdcache_find C x = fdcache_find done x.

Definition cached (fc : option tcmi_fdcache) (c : tcmi_ckpt) : tcmi_ckpt := mk_ckpt fc (ck_hdr c) (ck_ref c).

Lemma fdcache_add_ok w c C size fd a :
  w_ckpt w = Some c -> ck_fdcache c = Some (mk_fdcache C size 1) -> zlen C <> size ->
  tcmi_ckpt_fdcache_add fd a w = Ret 0 (set_ckpt (Some (cached (Some (mk_fdcache (C ++ [(fd, a)]) size 1)) c)) w).
Proof.
  intros Hc HC Hn. unfold tcmi_ckpt_fdcache_add, upd_ckpt, self, valid. run. rewrite Hc. run. rewrite HC.
  unfold tcmi_fdcache_add. cbn [fc_entries fc_size fc_ref]. replace (zlen C =? size) with false by lia.
  run. by rewrite Hc.
Qed.

Lemma newfd_written w c fd a f size done :
  ready w -> w_ckpt w = Some c -> cache_ok c size done -> zlen done < size -> 0 <= fd ->
  Forall (fun e => 0 <= e.1) done ->
  filps (p_files (w_proc w)) !! a = Some f -> zlen (fp_path f) + 1 <= PAGE_SIZE - 1000 ->
  fdcache_find done a < 0 ->
  exists fc, cache_ok (cached fc c) size (done ++ [(fd, a)]) /\
    writes_to (tcmi_ckpt_openfile_write_newfd fd a) w (set_ckpt (Some (cached fc c)) w)
      (file_image (name_of (w_proc w) fd f) done fd a f).
Proof.
  intros Hr Hc (C & HC & HC0 & HCl & HCf) Hsz Hfd Hd0 Hf Hp Hnew.
  exists (Some (mk_fdcache (C ++ [(fd, a)]) size 1)). split.
  { exists (C ++ [(fd, a)]). split_and!; [done| | |].
    - apply Forall_app. split; [done|]. by constructor.
    - rewrite !zlen_app. lia.
    - intros x. destruct (Z_lt_dec (fdcache_find C x) 0) as [Hlt|Hge].
      + rewrite !find_app_missing by (rewrite <- ?HCf; done). done.
      + rewrite !find_app_found by (rewrite <- ?HCf; lia). apply HCf. }
  unfold file_image. replace (0 <=? fdcache_find done a) with false by lia.
  apply writes_then; [done|]. intros k1 f1 Hr1 _.
  eapply writes_after; [done|done|]. eapply writes_valid; [exact Hf|].
  apply writes_with_block; [done|]. intros k2 Hr2.
  eapply writes_call; [done|apply d_path_ok; [apply Hr2|done]|]. intros k3 Hr3.
  (* the name *)
  assert (exists k4, restart_name fd (fp_imode f) (fp_path f) (set_k k3 (set_k k2
      (set_live (B_page :: w_live (moved k1 f1 w)) (moved k1 f1 w)))) =
    Ret (Some (name_of (w_proc w) fd f)) (set_k k4 (set_k k2
      (set_live (B_page :: w_live (moved k1 f1 w)) (moved k1 f1 w)))) /\ healthy k4) as (k4 & Hn & Hk4).
  { unfold restart_name, name_of, proc_. run. cbn [w_proc moved set_k set_live set_file].
    destruct (_ && _ && _ && _).
    - destruct (overtake_ok fd k3 (proj1 Hr3)) as (k5 & Ho & Hk5). exists k5. split; [|done].
      unfold call. run. cbn [w_k set_k]. by rewrite Ho.
    - exists k3. split; [done|apply Hr3]. }
  eapply writes_after; [exact Hn|done|]. cbv iota.
  apply writes_then; [by destruct Hr3 as [_ Hr3]|]. intros k5 f5 Hr5 _.
  apply writes_then_nil; [done|]. intros k6 f6 Hr6 _.
  eapply writes_after; [by eapply fdcache_add_ok; [exact Hc|exact HC|lia]|done|].
  eapply writes_end; [|done|done]. destruct Hr6 as (? & ? & ? & ?). done.
Qed.

Lemma openfile_written w c fd a f size done :
  ready w -> w_ckpt w = Some c -> cache_ok c size done -> zlen done < size -> 0 <= fd ->
  Forall (fun e => 0 <= e.1) done ->
  filps (p_files (w_proc w)) !! a = Some f -> zlen (fp_path f) + 1 <= PAGE_SIZE - 1000 ->
  exists fc, cache_ok (cached fc c) size (done ++ [(fd, a)]) /\
    writes_to (tcmi_ckpt_openfile_write fd a) w (set_ckpt (Some (cached fc c)) w)
      (file_image (name_of (w_proc w) fd f) done fd a f).
Proof.
  intros Hr Hc HC Hsz Hfd Hd0 Hf Hp.
  assert (tcmi_ckpt_fdcache_lookup a w = Ret (fdcache_find done a) w) as Hlook.
  { destruct HC as (C & HC & _ & _ & HCf). unfold tcmi_ckpt_fdcache_lookup, self, valid. run. rewrite Hc. run.
    rewrite HC. run. unfold tcmi_fdcache_lookup. cbn. by rewrite HCf. }
  destruct (Z_lt_dec (fdcache_find done a) 0) as [Hlt|Hge].
  - destruct (newfd_written w c fd a f size done) as (fc & Hfc & Hw); try done. exists fc. split; [done|].
    eapply writes_after; [exact Hlook|done|]. by replace (0 <=? _) with false by lia.
  - exists (ck_fdcache c). split.
    + destruct HC as (C & HC & HC0 & HCl & HCf). exists C. split_and!; [done|done|rewrite zlen_app; zlen_lia|].
      intros x. rewrite HCf. destruct (Z_lt_dec (fdcache_find done x) 0) as [Hx|Hx].
      * rewrite find_app_missing by done. cbn. destruct (a =? x) eqn:E; [|].
        { apply Z.eqb_eq in E as ->. lia. }
        clear -Hx Hd0. induction Hd0 as [|[fd' f'] l ? ? IH]; [done|]. cbn in *. destruct (f' =? x); [lia|auto].
      * by rewrite find_app_found by lia.
    + eapply writes_after; [exact Hlook|done|]. unfold file_image. replace (0 <=? _) with true by lia.
      assert (set_ckpt (Some (cached (ck_fdcache c) c)) w = w) as ->.
      { unfold set_ckpt, cached. destruct w, c. cbn in *. by subst. }
      apply writes_then; [done|]. intros. by apply writes_moved, writes_last.
Qed.

Lemma files_written names size l : forall done w c,
  ready w -> w_ckpt w = Some c -> cache_ok c size done -> zlen done + zlen l <= size ->
  Forall (fun e => 0 <= e.1) (done ++ l) ->
  Forall (fun e => exists f, filps (p_files (w_proc w)) !! e.2 = Some f /\
    zlen (fp_path f) + 1 <= PAGE_SIZE - 1000 /\ names e.1 = name_of (w_proc w) e.1 f) l ->
  exists fc, cache_ok (cached fc c) size (done ++ l) /\
    writes_to (write_files_loop l) w (set_ckpt (Some (cached fc c)) w)
      (files_image names (p_files (w_proc w)) done l).
Proof.
  induction l as [|[fd a] l IH]; intros done w c Hr Hc HC Hsz H0 Hl.
  - exists (ck_fdcache c). split; [by rewrite app_nil_r|].
    assert (set_ckpt (Some (cached (ck_fdcache c) c)) w = w) as ->.
    { unfold set_ckpt, cached. destruct w, c. cbn in *. by subst. }
    by apply writes_ret.
  - apply Forall_cons in Hl as [(f & Hf & Hp & Hn) Hl]. cbn in Hf, Hn. rewrite zlen_cons in Hsz.
    pose proof (zlen_nonneg l). apply Forall_app in H0 as [Hd0 Hl0].
    apply Forall_cons in Hl0 as [Hfd Hl0]. cbn in Hfd.
    destruct (openfile_written w c fd a f size done) as (fc & Hfc & Hw); try done; [lia|].
    destruct Hw as (k1 & f1 & Hm1 & Hk1 & He1).
    destruct (IH (done ++ [(fd, a)]) (moved k1 f1 (set_ckpt (Some (cached fc c)) w)) (cached fc c)) as (fc2 & Hfc2 & Hw2);
      try done.
    { destruct Hr as (_ & _ & Hp0 & _), He1 as (He & Hpos & _). unfold ready. cbn. split_and!; try done.
      rewrite Hpos. pose proof (zlen_nonneg (file_image (name_of (w_proc w) fd f) done fd a f)). lia. }
    { rewrite zlen_app. change (zlen [(fd, a)]) with 1. lia. }
    { rewrite <- app_assoc. apply Forall_app. split; [done|]. by constructor. }
    destruct Hw2 as (k2 & f2 & Hm2 & Hk2 & He2).
    exists fc2. split; [by rewrite <- app_assoc in Hfc2|]. exists k2, f2. cbn [files_image write_files_loop]. rewrite Hf, Hn.
    rewrite (bind_ret _ _ _ _ _ Hm1). change (0 <? 0) with false. cbv iota. rewrite Hm2.
    split_and!; [done|done|]. by eapply extends_trans.
Qed.

(** ** Memory areas *)

Definition pages_of (p : proc) (a : Z) : option (list Z) := page_bytes <$> p_mem p !! a.

Lemma seek_written n w : ready w -> 0 <= n -> exists k, healthy k /\
  tcmi_ckpt_seek n 1 w = Ret (f_pos (w_file w) + n)
    (moved k (mk_cfile (f_pos (w_file w) + n) (f_data (w_file w)) (f_count (w_file w))) w).
Proof.
  intros (Hk & Hf & Hp & [c Hc]) Hn.
  destruct (llseek_ok n 1 (w_file w) (w_k w) Hk (or_intror eq_refl)) as (k & Hs & Hk'); [cbn; lia|].
  exists k. split; [done|]. unfold tcmi_ckpt_seek, self, valid. run. rewrite Hc. run. by rewrite Hs.
Qed.

Lemma align_written w : ready w -> exists k r, healthy k /\
  tcmi_ckpt_page_align w = Ret r (moved k (mk_cfile (f_pos (w_file w) + pad (f_pos (w_file w)))
    (f_data (w_file w)) (f_count (w_file w))) w).
Proof.
  intros (Hk & Hf & Hp & [c Hc]). destruct (page_align_pos (f_pos (w_file w)) Hp) as (Ha & H0 & _).
  unfold tcmi_ckpt_page_align, tcmi_ckpt_seek, self, valid. run. rewrite Hc. run. rewrite Ha.
  edestruct (llseek_ok (f_pos (w_file w) + pad (f_pos (w_file w))) 0 (w_file w) (w_k w) Hk (or_introl eq_refl))
    as (k & Hs & Hk'); [cbn; lia|].
  exists k, (f_pos (w_file w) + pad (f_pos (w_file w))). split; [done|]. by rewrite Hs.
Qed.

Lemma pages_written n : forall fuel addr w,
  ready w -> (n <= fuel)%nat ->
  (forall a d, pages_of (w_proc w) a = Some d -> zlen d = PAGE_SIZE) ->
  writes (write_pages fuel addr (addr + Z.of_nat n * PAGE_SIZE)) w (pages_image (pages_of (w_proc w)) n addr).
Proof.
  induction n as [|n IH]; intros fuel addr w Hr Hfuel Hpg.
  - replace (addr + Z.of_nat 0 * PAGE_SIZE) with addr by lia.
    destruct fuel; cbn [write_pages]; rewrite Z.ltb_irrefl; by apply writes_ret.
  - destruct fuel as [|fuel]; [lia|]. cbn [write_pages pages_image].
    replace (addr <? addr + Z.of_nat (S n) * PAGE_SIZE) with true by (symmetry; apply Z.ltb_lt; unfold PAGE_SIZE; lia).
    replace (addr + Z.of_nat (S n) * PAGE_SIZE) with ((addr + PAGE_SIZE) + Z.of_nat n * PAGE_SIZE) by (rewrite Nat2Z.inj_succ; unfold PAGE_SIZE; lia).
    eapply writes_after; [done|done|].
    eapply writes_call; [done|apply get_user_pages_ok, Hr|]. intros k1 Hr1.
    change (page_bytes <$> p_mem (w_proc w) !! addr) with (pages_of (w_proc w) addr).
    destruct (pages_of (w_proc w) addr) as [d|] eqn:Ed; cbn [default].
    + apply writes_then; [done|]. intros k2 f2 Hr2 _.
      apply (IH fuel (addr + PAGE_SIZE) (moved k2 f2 (set_k k1 w))); [done|lia|done].
    + destruct (seek_written PAGE_SIZE (set_k k1 w) Hr1 ltac:(done)) as (k2 & Hk2 & Hs).
      pose proof (extends_seek (w_file w) PAGE_SIZE ltac:(apply Hr) ltac:(done)) as He.
      destruct (IH fuel (addr + PAGE_SIZE) (moved k2 (mk_cfile (f_pos (w_file w) + PAGE_SIZE)
        (f_data (w_file w)) (f_count (w_file w))) (set_k k1 w))) as (k3 & f3 & Hm3 & Hk3 & He3); [|lia|done|].
      { eapply (ready_moved (set_k k1 w)); done. }
      exists k3, f3. rewrite (bind_ret _ _ _ _ _ Hs). split_and!; [exact Hm3|done|]. by eapply extends_trans.
Qed.

(** The pages of the area that are there, the last one first. *)
Fixpoint pages_there (p : proc) (n : nat) (addr : Z) : list Z :=
  match n with
  | O => []
  | S n => pages_there p n (addr + PAGE_SIZE) ++ match pages_of p addr with Some _ => [addr] | None => [] end
  end.

(** The references to the pages that are written are never given back. *)
Theorem written_pages_stay_pinned `{!PageRefs} n : forall fuel addr w w',
  ready w -> (n <= fuel)%nat ->
  write_pages fuel addr (addr + Z.of_nat n * PAGE_SIZE) w = Ret 0 w' ->
  page_refs (w_k w') = pages_there (w_proc w) n addr ++ page_refs (w_k w).
Proof.
  induction n as [|n IH]; intros fuel addr w w' Hr Hfuel.
  - replace (addr + Z.of_nat 0 * PAGE_SIZE) with addr by lia.
    destruct fuel; cbn [write_pages]; rewrite Z.ltb_irrefl; by intros [= <-].
  - destruct fuel as [|fuel]; [lia|]. cbn [write_pages pages_there].
    replace (addr <? addr + Z.of_nat (S n) * PAGE_SIZE) with true by (symmetry; apply Z.ltb_lt; unfold PAGE_SIZE; lia).
    replace (addr + Z.of_nat (S n) * PAGE_SIZE) with ((addr + PAGE_SIZE) + Z.of_nat n * PAGE_SIZE) by (rewrite Nat2Z.inj_succ; unfold PAGE_SIZE; lia).
    destruct (get_user_pages_ok addr (p_mem (w_proc w)) (w_k w) (proj1 Hr)) as (k1 & Hg & Hk1).
    assert (ready (set_k k1 w)) as Hr1 by (destruct Hr as (_ & Hr); done).
    change (page_bytes <$> p_mem (w_proc w) !! addr) with (pages_of (w_proc w) addr) in Hg.
    erewrite (bind_ret proc_), (bind_ret (call _)); [|by apply call_ok|done].
    destruct (pages_of (w_proc w) addr) as [d|] eqn:Ed.
    + destruct (ckpt_write_append d _ Hr1) as (k2 & Hm & Hk2). rewrite (bind_ret _ _ _ _ _ Hm). change (0 <? 0) with false. cbv iota.
      intros E. apply IH in E; [|by eapply ready_moved; [|done|apply extends_append, Hr1]|lia].
      rewrite E, <- app_assoc. cbn [w_k w_proc moved set_k set_file app]. f_equal.
      rewrite <- (pages_taken _ _ _ _ _ Hg). destruct Hr as (_ & _ & Hp & [c Hc]).
      revert Hm. unfold tcmi_ckpt_write, self, valid. run. cbn [w_ckpt set_k]. rewrite Hc. run. cbn [w_k w_file set_k].
      destruct (vfs_write d (w_file w) k1) as [[r f'] k'] eqn:Ew. intros [= _ <- _]. by eapply pages_written_by.
    + destruct (seek_written PAGE_SIZE _ Hr1 ltac:(done)) as (k2 & Hk2 & Hm). rewrite (bind_ret _ _ _ _ _ Hm).
      intros E. apply IH in E; [|eapply (ready_moved (set_k k1 w)); [done|done|by apply extends_seek; [apply Hr1|]]|lia].
      rewrite E, app_nil_r. cbn [w_k w_proc moved set_k set_file app]. f_equal.
      rewrite <- (pages_missed _ _ _ _ Hg). destruct Hr as (_ & _ & Hp & [c Hc]).
      revert Hm. unfold tcmi_ckpt_seek, self, valid. run. cbn [w_ckpt set_k]. rewrite Hc. run. cbn [w_k w_file set_k].
      destruct (vfs_llseek PAGE_SIZE 1 (w_file w) k1) as [[r f'] k'] eqn:Ew. intros [= _ <- _]. by eapply pages_sought.
Qed.

(** Nor is the reference to a page that gets the bytes of a saved one. *)
Theorem copied_page_stays_pinned `{!PageRefs} addr src w w' :
  tcmi_ckpt_vm_area_copy_page addr src w = Ret 0 w' -> page_refs (w_k w') = addr :: page_refs (w_k w).
Proof.
  unfold tcmi_ckpt_vm_area_copy_page, proc_, call, valid, upd_proc. run.
  destruct (get_user_pages addr (p_mem (w_proc w)) (w_k w)) as [[d|] k] eqn:Eg; run; [|done].
  destruct (p_mem (w_proc w) !! addr); run; [|done]. intros [= <-]. by eapply pages_taken.
Qed.

(** Areas consist of whole pages. *)
Definition wf_area (v : vm_area_struct) : Prop :=
  aligned (vm_start v) /\ aligned (vm_end v) /\ 0 <= vm_start v < vm_end v /\ vm_end v < 2 ^ 64 /\
  urange 64 (vm_flags v) /\ 0 <= vm_pgoff v < 2 ^ 52 /\ vma_refused v = false.

Lemma area_pages v : wf_area v -> vm_end v = vm_start v + Z.of_nat (npages v) * PAGE_SIZE.
Proof.
  intros (Hs & He & H0 & _). unfold npages, aligned, PAGE_SIZE in *.
  rewrite Z2Nat.id by (apply Z.div_pos; lia). Z.to_euclidean_division_equations. lia.
Qed.

Definition path_ok (v : vm_area_struct) : Prop :=
  forall name, vm_file v = Some name -> zlen name + 1 <= PAGE_SIZE.

Lemma heavy_written v w :
  ready w -> wf_area v -> (forall a d, pages_of (w_proc w) a = Some d -> zlen d = PAGE_SIZE) ->
  writes (tcmi_ckpt_vm_area_write_h v) w
    (area_hdr v TCMI_CKPT_VM_AREA_HEAVY 0 ++ zeros (pad (f_pos (w_file w) + 40)) ++
     pages_image (pages_of (w_proc w)) (npages v) (vm_start v)).
Proof.
  intros Hr Hv Hpg. apply writes_then; [done|]. intros k1 f1 Hr1 He1.
  destruct (align_written _ Hr1) as (k2 & r & Hk2 & Ha).
  assert (f_pos f1 = f_pos (w_file w) + 40) as Hpos.
  { destruct He1 as (_ & -> & _). done. }
  cbn [moved w_file set_file] in Ha. rewrite Hpos in Ha.
  destruct (page_align_pos (f_pos (w_file w) + 40)) as (_ & Hpad & _); [destruct Hr as (_ & _ & ? & _); lia|].
  pose proof (extends_seek f1 (pad (f_pos (w_file w) + 40)) ltac:(apply Hr1) Hpad) as He2. rewrite Hpos in He2.
  set (w2 := moved k2 _ _) in Ha.
  assert (ready w2) as Hr2 by (eapply (ready_moved (moved k1 f1 w)); done).
  destruct (pages_written (npages v) (Z.to_nat ((vm_end v - vm_start v) / PAGE_SIZE + 1)) (vm_start v) w2)
    as (k3 & f3 & Hm & Hk3 & He3); [done| |done|].
  { unfold npages. lia. }
  exists k3, f3. rewrite (bind_ret _ _ _ _ _ Ha). rewrite <- (area_pages v Hv) in Hm. rewrite Hm.
  split_and!; [done|done|]. by eapply extends_trans.
Qed.

Lemma light_written v name w :
  ready w -> vm_file v = Some name -> zlen name + 1 <= PAGE_SIZE ->
  writes (tcmi_ckpt_vm_area_write_l v) w
    (area_hdr v TCMI_CKPT_VM_AREA_LIGHT (zlen name + 1) ++ name ++ [0]).
Proof.
  intros Hr Hf Hl. apply writes_with_block; [done|]. intros k1 Hr1.
  eapply writes_valid; [exact Hf|]. eapply writes_call; [done|apply d_path_ok; [apply Hr1|done]|]. intros k2 Hr2.
  apply writes_then; [done|]. intros k3 f3 Hr3 _.
  apply writes_then_nil; [done|]. intros k4 f4 Hr4 _. by eapply writes_end.
Qed.

Lemma area_written v type w :
  ready w -> wf_area v -> path_ok v -> (forall a d, pages_of (w_proc w) a = Some d -> zlen d = PAGE_SIZE) ->
  writes (tcmi_ckpt_vm_area_write v type) w (area_image type (pages_of (w_proc w)) (f_pos (w_file w)) v).
Proof.
  intros Hr Hv Hp Hpg. unfold tcmi_ckpt_vm_area_write, area_image.
  destruct (vm_file v) as [name|] eqn:Ef.
  - destruct (writes_light type v); [apply light_written; auto|by apply heavy_written].
  - unfold writes_light. rewrite Ef, andb_false_r. by apply heavy_written.
Qed.

(** The areas that are saved. *)
Definition saved (p : proc) : list vm_area_struct :=
  List.filter (fun v => negb (vma_ignore (p_ia32 p) v)) (mmap (p_mm p)).

Lemma areas_written is32 type l : forall w,
  ready w -> Forall wf_area l -> Forall path_ok l ->
  (forall a d, pages_of (w_proc w) a = Some d -> zlen d = PAGE_SIZE) ->
  writes (write_vmas_loop l is32 type) w
    (areas_image type (pages_of (w_proc w)) (f_pos (w_file w))
       (List.filter (fun v => negb (vma_ignore is32 v)) l)).
Proof.
  induction l as [|v l IH]; intros w Hr Hl Hp Hpg; [by apply writes_ret|].
  apply Forall_cons in Hl as [Hv Hl]. apply Forall_cons in Hp as [Hpv Hp].
  cbn [write_vmas_loop List.filter]. destruct (vma_ignore is32 v); [by apply IH|]. cbn [negb areas_image].
  apply writes_bind; [done|by apply area_written|]. intros k f Hr1 He1.
  assert (f_pos (w_file w) + zlen (area_image type (pages_of (w_proc w)) (f_pos (w_file w)) v) =
          f_pos (w_file (moved k f w))) as -> by (destruct He1 as (_ & Hpos & _); by rewrite <- Hpos).
  apply writes_moved. exact (IH (moved k f w) Hr1 Hl Hp Hpg).
Qed.
End write.
