(* ===== verification/CkptSave.v ===== *)
(** The checkpoint of a process holds its image. *)

From stdpp Require Import gmap.
From S2P Require Import Prelude Effect KkcAddr NpmParams CkptKernel CkptArch Ckpt CkptOps CkptCom CkptImage CkptWrite.

(** ** The whole image *)

(** What is needed to continue: in memory, or as an execve to do. *)
Inductive rest := In_memory (type : Z) | Execve (name data : list Z) (ac ec : Z).

Definition is_execve (r : rest) : bool := match r with Execve _ _ _ _ => true | _ => false end.

Definition hdr_for (p : proc) (r : rest) : tcmi_ckpt_hdr :=
  mk_hdr s32[TCMI_CKPT_MAGIC] (zlen (saved p)) (zlen (tcmi_ckpt_foreach_openfile (p_files p))) ARCH_CURRENT
    (Z.b2z (p_ia32 p)) (Z.b2z (is_execve r)) (strncpy 16 (p_comm p)).

(** The chunks before the memory areas. *)
Definition head_image (names : Z -> list Z) (p : proc) (r : rest) : list Z :=
  hdr_bytes (hdr_for p r) ++ pack tcmi_ckpt_rlimits (flat_rlim (p_rlim p)) ++
  files_image names (p_files p) [] (tcmi_ckpt_foreach_openfile (p_files p)) ++
  pack tcmi_ckpt_mm_hdr (mm_fields (p_mm p)).
Definition memory_image (names : Z -> list Z) (pages : Z -> option (list Z)) (p : proc) (r : rest) : list Z :=
  match r with
  | In_memory type => areas_image type pages (zlen (head_image names p r)) (saved p)
  | Execve _ _ _ _ => []
  end.
(** The chunks behind them. *)
Definition tail_image (p : proc) (regs : pt_regs) (r : rest) : list Z :=
  (le_bytes 4 168 ++ get_registers regs) ++ (le_bytes 4 48 ++ get_tcmi_thread (p_thread p)) ++ fs_image p ++
  pack tcmi_ckpt_sig_hdr (sig_fields (p_sig p)) ++
  match r with In_memory _ => [] | Execve name data ac ec => npm_image name data ac ec end.
Definition image (names : Z -> list Z) (pages : Z -> option (list Z)) (p : proc) (regs : pt_regs) (r : rest) : list Z :=
  head_image names p r ++ memory_image names pages p r ++ tail_image p regs r.

(** Runs the first computation of a sequence. *)
Ltac seq_step tac := etrans; [eapply bind_ret; tac|].

(** ** Saving *)

Section save.
Context `{HL : KernelLaws}.

(** A process that can be saved: its descriptors refer to supported files whose paths fit in a
    page, and its areas to whole pages. *)
Record savable (p : proc) : Prop := {
  s_files : Forall (fun e => exists f, filps (p_files p) !! e.2 = Some f /\
    tcmi_ckpt_openfile_supported (fp_imode f) = true /\ zlen (fp_path f) + 1 <= PAGE_SIZE - 1000)
    (tcmi_ckpt_foreach_openfile (p_files p));
  s_areas : Forall wf_area (mmap (p_mm p));
  s_paths : Forall path_ok (mmap (p_mm p));
  s_pages : forall a d, pages_of p a = Some d -> zlen d = PAGE_SIZE;
  s_pwd : zlen (p_pwd p) + 1 <= PAGE_SIZE
}.

Lemma openfile_elem fs fd a : (fd, a) ∈ tcmi_ckpt_foreach_openfile fs <-> 0 <= fd < max_fds fs /\ fdt fs !! fd = Some a.
Proof.
  unfold tcmi_ckpt_foreach_openfile. rewrite list_elem_of_omap. setoid_rewrite elem_of_seqZ. split.
  - intros (x & Hx & Hm). destruct (fdt fs !! x) as [b|] eqn:E; cbn in Hm; [|done]. injection Hm as -> ->.
    split; [lia|done].
  - intros [Hr Hf]. exists fd. split; [lia|]. by rewrite Hf.
Qed.
Lemma openfiles_nonneg fs : Forall (fun e => 0 <= e.1) (tcmi_ckpt_foreach_openfile fs).
Proof. apply Forall_forall. intros [fd a] [? _]%openfile_elem. cbn. lia. Qed.

Lemma file_count_ok (l : list (Z * Z)) fs n w :
  Forall (fun e => exists f, filps fs !! e.2 = Some f /\ tcmi_ckpt_openfile_supported (fp_imode f) = true) l ->
  file_count_loop l fs n w = Ret (n + zlen l) w.
Proof.
  intros HF. revert n. induction HF as [|[fd a] l (f & Hf & Hs) _ IH]; intros n; cbn [file_count_loop].
  - unfold zlen. cbn. by rewrite Z.add_0_r.
  - cbn in Hf. rewrite Hf. unfold valid. run. rewrite Hs. cbn [negb]. rewrite IH, zlen_cons. f_equal. lia.
Qed.

Lemma map_count_ok w c : w_ckpt w = Some c -> Forall wf_area (mmap (p_mm (w_proc w))) ->
  is_32bit_application (ck_hdr c) = Z.b2z (p_ia32 (w_proc w)) ->
  tcmi_ckpt_map_count w = Ret (zlen (saved (w_proc w))) w.
Proof.
  intros Hc Hw Hi. unfold tcmi_ckpt_map_count, self, valid, proc_. run. rewrite Hc. run. rewrite Hi.
  replace (negb (Z.b2z (p_ia32 (w_proc w)) =? 0)) with (p_ia32 (w_proc w)) by (by destruct (p_ia32 _)).
  fold (saved (w_proc w)).
  replace (existsb vma_refused (saved (w_proc w))) with false; [done|]. symmetry. apply not_true_is_false.
  intros (v & Hin & Hv)%existsb_exists. apply List.filter_In in Hin as [Hin _].
  rewrite Forall_forall in Hw. apply list_elem_of_In in Hin. destruct (Hw v Hin) as (_ & _ & _ & _ & _ & _ & Hn).
  congruence.
Qed.

Definition with_cache (p : proc) (r : rest) (n : Z) : tcmi_ckpt :=
  mk_ckpt (Some (mk_fdcache [] n 1)) (hdr_for p r) 1.

Lemma fdcache_init_ok w c : healthy (w_k w) -> w_ckpt w = Some c ->
  exists k, healthy k /\ tcmi_ckpt_fdcache_init w =
    Ret 0 (set_k k (set_live (B_entries :: B_fdcache :: w_live w)
      (set_ckpt (Some (cached (Some (mk_fdcache [] (file_count (ck_hdr c)) 1)) c)) w))).
Proof.
  intros Hk Hc. destruct (kmalloc_ok B_fdcache w Hk) as (k1 & Ha1 & Hk1).
  destruct (kmalloc_ok B_entries (set_k k1 (set_live (B_fdcache :: w_live w) w)) Hk1) as (k2 & Ha2 & Hk2).
  exists k2. split; [done|]. unfold tcmi_ckpt_fdcache_init, self, valid. run. rewrite Hc. run.
  unfold tcmi_fdcache_new. rewrite (bind_ret _ _ _ _ _ Ha1). cbn [negb]. rewrite (bind_ret _ _ _ _ _ Ha2).
  cbn [negb]. unfold upd_ckpt, self, valid. run. cbn [w_ckpt set_k set_live]. rewrite Hc. done.
Qed.

Lemma hdr_written w h r :
  ready w -> w_ckpt w = Some (mk_ckpt None h 1) -> savable (w_proc w) ->
  writes_to (tcmi_ckpt_write_hdr (Z.b2z (is_execve r))) w
    (set_live (B_entries :: B_fdcache :: w_live w)
       (set_ckpt (Some (with_cache (w_proc w) r (zlen (tcmi_ckpt_foreach_openfile (p_files (w_proc w)))))) w))
    (hdr_bytes (hdr_for (w_proc w) r)).
Proof.
  intros Hr Hc Hs. eapply writes_after; [done|done|].
  assert (forall (f : tcmi_ckpt_hdr -> tcmi_ckpt_hdr) (w : cw) c, w_ckpt w = Some c ->
    upd_hdr f w = Ret tt (set_ckpt (Some (mk_ckpt (ck_fdcache c) (f (ck_hdr c)) (ck_ref c))) w)) as Hupd.
  { clear. intros f w c Hc. unfold upd_hdr, upd_ckpt, self, valid. run. by rewrite Hc. }
  eapply writes_after; [by apply Hupd|done|].
  eapply writes_after; [eapply map_count_ok; [done|apply Hs|done]|done|]. cbn [w_proc set_ckpt].
  eapply writes_after; [by eapply Hupd|done|]. pose proof (zlen_nonneg (saved (w_proc w))).
  replace (zlen (saved (w_proc w)) <? 0) with false by lia.
  eapply writes_after.
  { unfold tcmi_ckpt_file_count, proc_. run. apply file_count_ok. cbn [w_proc set_ckpt].
    eapply Forall_impl; [apply Hs|]. naive_solver. }
  { done. }
  eapply writes_after; [by eapply Hupd|done|]. cbn [w_proc set_ckpt]. rewrite Z.add_0_l.
  set (n := zlen (tcmi_ckpt_foreach_openfile _)). assert (0 <= n) by apply zlen_nonneg.
  replace (n <? 0) with false by lia.
  match goal with |- writes_to _ ?x _ _ => set (w3 := x) end.
  destruct (fdcache_init_ok w3 _ (proj1 Hr) eq_refl) as (k & Hk & Hi).
  eapply writes_after; [exact Hi|done|]. change (0 <? 0) with false. cbv iota.
  eapply writes_after; [done|done|]. eapply writes_after; [by eapply Hupd|done|].
  eapply writes_after; [unfold self, valid; run; done|done|].
  cbn [ck_hdr cached magic map_count file_count checkpoint_arch is_32bit_application is_npm].
  match goal with |- writes_to _ ?x _ _ => set (w4 := x) end.
  assert (ready w4) as Hr4 by (destruct Hr as (_ & ? & ? & _); done).
  destruct (ckpt_write_ok (hdr_bytes (hdr_for (w_proc w) r)) w4 Hr4) as (k5 & f5 & Hm & Hk5 & He5).
  exists k5, f5. split_and!; [|done|done]. subst w4 w3 n.
  destruct r; exact Hm.
Qed.

(** ** The whole checkpoint *)

Definition what (p : proc) (heavy : bool) (npm : option (list Z * tcmi_npm_params)) : rest :=
  match npm with
  | None => In_memory (if heavy then TCMI_CKPT_VM_AREA_HEAVY else TCMI_CKPT_VM_AREA_LIGHT)
  | Some (name, q) => Execve name (ztake (used_data_length q) (npm_data q)) (argsc q) (envpc q)
  end.

(** The parameters of an execve that can be saved. *)
Definition npm_savable (npm : option (list Z * tcmi_npm_params)) : Prop :=
  forall name q, npm = Some (name, q) ->
    cstring (file_name q) = Some name /\ zlen name + 1 < 2 ^ 32 /\
    0 <= used_data_length q <= zlen (npm_data q).

Lemma put_ok w c n : w_ckpt w = Some c -> ck_ref c = 1 -> ck_fdcache c = Some n -> fc_ref n = 1 ->
  tcmi_ckpt_put w = Ret tt (set_ckpt None
    (set_live (remove_one B_ckpt (remove_one B_fdcache (remove_one B_entries (w_live w)))) (set_file
      (mk_cfile (f_pos (w_file w)) (f_data (w_file w)) (f_count (w_file w) - 1)) w))).
Proof.
  intros Hc Hr Hf Hn. unfold tcmi_ckpt_put.
  assert (self w = Ret c w) as Hs by (unfold self, valid; run; by rewrite Hc).
  rewrite (bind_ret _ _ _ _ _ Hs), Hr, Hf. change (1 - 1 =? 0) with true. cbv iota.
  seq_step ltac:(done). cbn [tcmi_fdcache_put]. rewrite Hn. change (1 - 1 =? 0) with true. done.
Qed.

Lemma new_ok w : healthy (w_k w) -> exists k, healthy k /\ tcmi_ckpt_new w =
  Ret Ckpt_ptr (moved k (mk_cfile 0 (f_data (w_file w)) (f_count (w_file w) + 1))
    (set_ckpt (Some (mk_ckpt None (mk_hdr 0 0 0 0 0 0 []) 1)) (set_live (B_ckpt :: w_live w) w))).
Proof.
  intros Hk. destruct (kmalloc_ok B_ckpt w Hk) as (k1 & Ha & Hk1).
  edestruct (llseek_ok 0 0 (mk_cfile (f_pos (w_file w)) (f_data (w_file w)) (f_count (w_file w) + 1)) k1 Hk1
    (or_introl eq_refl)) as (k2 & Hs & Hk2); [done|]. cbn in Hs.
  exists k2. split; [done|]. unfold tcmi_ckpt_new. rewrite (bind_ret _ _ _ _ _ Ha). cbn [negb].
  unfold tcmi_ckpt_seek, self, valid. run. cbn [w_file w_k w_ckpt set_file set_ckpt set_k set_live]. rewrite Hs. done.
Qed.

(** One chunk of the checkpoint: [L] says what it writes. *)
Ltac chunk L k f Hr He :=
  let Hm := fresh in let Hk := fresh in
  destruct L as (k & f & Hm & Hk & He);
  rewrite (bind_ret _ _ _ _ _ Hm); change (0 <? 0) with false; cbv iota;
  match type of Hm with _ = Ret 0 (moved _ _ ?w0) => assert (ready (moved k f w0)) as Hr end;
  [destruct He as (? & Hpos' & _); unfold ready; cbn [moved w_file w_k w_ckpt set_file set_k set_ckpt set_live];
   split_and!; [done|done|rewrite Hpos'; cbn [moved w_file set_file];
     repeat match goal with |- context [zlen ?l] => lazymatch goal with
       | _ : 0 <= zlen l |- _ => fail | _ => pose proof (zlen_nonneg l) end end;
     match goal with H' : ready _ |- _ => destruct H' as (_ & _ & ? & _) end; cbn [moved w_file set_file] in *; lia
   |by eexists]|].

Lemma files_ok p : savable p ->
  Forall (fun e => exists f, filps (p_files p) !! e.2 = Some f /\
    zlen (fp_path f) + 1 <= PAGE_SIZE - 1000 /\ names_of p e.1 = name_of p e.1 f)
    (tcmi_ckpt_foreach_openfile (p_files p)).
Proof.
  intros Hs. apply Forall_forall. intros [fd a] Hin. pose proof Hin as [_ Hf]%openfile_elem.
  pose proof (s_files _ Hs) as HF. rewrite Forall_forall in HF. destruct (HF _ Hin) as (f & Hfp & _ & Hl).
  exists f. split_and!; [done|done|]. unfold names_of. cbn in *. by rewrite Hf, Hfp.
Qed.

(** The last chunks. *)
Definition last_image (r : rest) : list Z :=
  match r with In_memory _ => [] | Execve name data ac ec => npm_image name data ac ec end.

Lemma last_written w heavy npm (e m : M Z) :
  ready w -> npm_savable npm ->
  exists k, healthy k /\
    (r ← tcmi_ckpt_sig_write; if r <? 0 then e else
     r ← (match snd <$> npm with Some q => tcmi_ckpt_npm_params_write q | None => mret 0 end);
     if r <? 0 then e else m) w =
    m (moved k (append (w_file w) (pack tcmi_ckpt_sig_hdr (sig_fields (p_sig (w_proc w))) ++
                                   last_image (what (w_proc w) heavy npm))) w).
Proof.
  intros Hr Hnpm. destruct (sig_written _ Hr) as (k9 & Hm9 & Hk9). set (sigs := pack _ _) in *.
  assert (extends (w_file w) sigs (append (w_file w) sigs)) as He9 by apply extends_append, Hr.
  destruct npm as [[name q]|].
  - destruct (Hnpm name q eq_refl) as (Hn1 & Hn2 & Hn3).
    destruct (npm_written q name _ (ready_moved _ _ _ _ Hr Hk9 He9) Hn1 Hn2 Hn3) as (k10 & Hm10 & Hk10).
    exists k10. split; [done|]. rewrite (bind_ret _ _ _ _ _ Hm9). change (0 <? 0) with false. cbv iota.
    cbn [fmap option_fmap option_map snd]. rewrite (bind_ret _ _ _ _ _ Hm10). change (0 <? 0) with false. cbv iota.
    cbn [moved w_file set_file]. by rewrite (append_extends _ _ _ _ He9).
  - exists k9. split; [done|]. rewrite (bind_ret _ _ _ _ _ Hm9). change (0 <? 0) with false. cbv iota.
    cbn [fmap option_fmap option_map what last_image]. by rewrite app_nil_r.
Qed.

(** The memory areas of a process that continues in memory. *)
Lemma memory_written w c heavy npm :
  let p := w_proc w in let r := what p heavy npm in
  ready w -> w_ckpt w = Some c -> is_32bit_application (ck_hdr c) = Z.b2z (p_ia32 p) -> savable p ->
  f_pos (w_file w) = zlen (head_image (names_of p) p r) ->
  writes (if is_execve r then mret 0 else tcmi_ckpt_write_vmas heavy) w
    (memory_image (names_of p) (pages_of p) p r).
Proof.
  intros p r Hr Hc Hi Hs Hpos. destruct npm as [[name q]|]; [by apply writes_ret|].
  change (is_execve r) with false. cbv iota.
  change (memory_image (names_of p) (pages_of p) p r) with
    (areas_image (if heavy then TCMI_CKPT_VM_AREA_HEAVY else TCMI_CKPT_VM_AREA_LIGHT) (pages_of p)
       (zlen (head_image (names_of p) p r)) (saved p)).
  rewrite <- Hpos. unfold tcmi_ckpt_write_vmas.
  eapply writes_after; [unfold self, valid; run; by rewrite Hc|done|]. eapply writes_after; [done|done|].
  rewrite Hi. replace (negb _) with (p_ia32 p) by (by destruct (p_ia32 p)).
  apply areas_written; [done|apply Hs..].
Qed.

Lemma checkpoint_saves w regs heavy npm :
  healthy (w_k w) -> savable (w_proc w) -> f_data (w_file w) = [] -> npm_savable npm ->
  let p := w_proc w in
  let I := image (names_of p) (pages_of p) p regs (what p heavy npm) in
  exists k, healthy k /\ tcmi_ckptcom_checkpoint (Some regs) heavy (snd <$> npm) w =
    Ret 0 (moved k (mk_cfile (zlen I) I (f_count (w_file w))) (set_ckpt None w)).
Proof.
  intros Hk Hs Hd Hnpm p I. set (r := what p heavy npm) in *.
  destruct (new_ok w Hk) as (k0 & Hk0 & Hnew). rewrite Hd in Hnew. unfold tcmi_ckptcom_checkpoint.
  replace (bool_decide (is_Some (snd <$> npm))) with (is_execve r) by (by destruct npm as [[? ?]|]).
  rewrite (bind_ret _ _ _ _ _ Hnew). cbv iota.
  match goal with |- context [moved k0 ?f ?x] => set (f0 := f); set (w0 := x) end.
  assert (ready (moved k0 f0 w0)) as Hr0 by done.
  chunk (hdr_written (moved k0 f0 w0) _ r Hr0 eq_refl Hs) k1 f1 Hr1 He1.
  chunk (rlimit_written _ Hr1) k2 f2 Hr2 He2.
  destruct (files_written (names_of p) (zlen (tcmi_ckpt_foreach_openfile (p_files p)))
    (tcmi_ckpt_foreach_openfile (p_files p)) [] _ _ Hr2 eq_refl) as (fc & (C & HC & _) & Hfiles).
  { eexists. split_and!; done. } { done. } { apply openfiles_nonneg. } { by apply files_ok. }
  cbn [cached ck_fdcache] in HC. subst fc.
  assert (forall (g : Z -> M Z) w1, (tcmi_ckpt_write_files ≫= g) w1 =
    (write_files_loop (tcmi_ckpt_foreach_openfile (p_files (w_proc w1))) ≫= g) w1) as -> by done.
  chunk Hfiles k3 f3 Hr3 He3. chunk (mm_written _ Hr3) k4 f4 Hr4 He4.
  assert (extends (mk_cfile 0 [] (f_count (w_file w) + 1)) (head_image (names_of p) p r) f4) as Hhead.
  { unfold head_image. eapply extends_trans; [exact He1|]. eapply extends_trans; [exact He2|].
    eapply extends_trans; [exact He3|exact He4]. }
  chunk (memory_written _ _ heavy npm Hr4 eq_refl eq_refl Hs (proj1 (proj2 Hhead))) k5 f5 Hr5 He5.
  chunk (regs_written regs _ Hr5) k6 f6 Hr6 He6. chunk (tls_written _ Hr6) k7 f7 Hr7 He7.
  chunk (fsstruct_written _ Hr7 (s_pwd _ Hs)) k8 f8 Hr8 He8.
  assert (extends (mk_cfile 0 [] (f_count (w_file w) + 1)) (head_image (names_of p) p r ++
    memory_image (names_of p) (pages_of p) p r ++ (le_bytes 4 168 ++ get_registers regs) ++
    (le_bytes 4 48 ++ get_tcmi_thread (p_thread p)) ++ fs_image p) f8) as Hbody.
  { eapply extends_trans; [exact Hhead|]. eapply extends_trans; [exact He5|].
    eapply extends_trans; [exact He6|]. eapply extends_trans; [exact He7|exact He8]. }
  destruct (last_written _ heavy npm checkpoint_exit1 (tcmi_ckpt_put;; mret 0) Hr8 Hnpm) as (k9 & Hk9 & ->).
  match goal with |- context [(tcmi_ckpt_put ≫= _) ?x] =>
    rewrite (bind_ret _ _ x _ _ (put_ok x _ _ eq_refl eq_refl eq_refl eq_refl)) end.
  exists k9. split; [done|]. cbn [moved w_file set_file].
  rewrite (append_extends _ _ _ _ Hbody).
  assert ((head_image (names_of p) p r ++ memory_image (names_of p) (pages_of p) p r ++
    (le_bytes 4 168 ++ get_registers regs) ++ (le_bytes 4 48 ++ get_tcmi_thread (p_thread p)) ++ fs_image p) ++
    pack tcmi_ckpt_sig_hdr (sig_fields (p_sig p)) ++ last_image r = I) as Happ.
  { unfold I, image, tail_image, last_image. by rewrite <- !app_assoc. }
  replace (append _ _) with (append (mk_cfile 0 [] (f_count (w_file w) + 1)) I) by (by rewrite <- Happ).
  unfold append, moved. cbn. by rewrite Z.add_simpl_r.
Qed.
End save.
