(* ===== verification/CkptRead.v ===== *)
(** Restarting: with a healthy kernel every chunk of an image is read back. *)

From stdpp Require Import gmap.
From S2P Require Import Prelude Effect KkcAddr NpmParams CkptKernel CkptArch Ckpt CkptOps CkptCom CkptImage.
From S2P Require Import CkptWrite CkptSave.

Section read.
Context `{HL : KernelLaws}.

(** The world of a restart in progress, and the bytes that come next in the file. *)
Definition reading (w : cw) : Prop :=
  healthy (w_k w) /\ is_Some (w_ckpt w) /\ 0 <= f_pos (w_file w) /\ f_pos (w_file w) <= zlen (f_data (w_file w)).
Definition has (w : cw) (bs rest : list Z) : Prop := zdrop (f_pos (w_file w)) (f_data (w_file w)) = bs ++ rest.

Definition skip (n : Z) (f : cfile) : cfile := mk_cfile (f_pos f + n) (f_data f) (f_count f).
Definition adv (k : kst) (n : Z) (p : proc) (w : cw) : cw := moved k (skip n (w_file w)) (set_proc p w).

Lemma adv_adv k1 n1 p1 k2 n2 p2 w : adv k2 n2 p2 (adv k1 n1 p1 w) = adv k2 (n1 + n2) p2 w.
Proof. unfold adv, skip, moved, set_file. cbn. by rewrite Z.add_assoc. Qed.

Lemma has_length w bs rest : reading w -> has w bs rest -> f_pos (w_file w) + zlen bs <= zlen (f_data (w_file w)).
Proof.
  intros (_ & _ & Hp0 & Hp1) Hh. apply (f_equal zlen) in Hh. rewrite zlen_zdrop, zlen_app in Hh.
  pose proof (zlen_nonneg rest). lia.
Qed.
Lemma reading_adv k bs rest p w :
  reading w -> has w bs rest -> healthy k -> reading (adv k (zlen bs) p w).
Proof.
  intros Hr Hh Hk. pose proof (has_length _ _ _ Hr Hh). destruct Hr as (_ & Hc & Hp0 & Hp1).
  pose proof (zlen_nonneg bs). unfold reading. cbn. split_and!; try done; lia.
Qed.
Lemma has_adv k b1 b2 rest p w :
  reading w -> has w (b1 ++ b2) rest -> has (adv k (zlen b1) p w) b2 rest.
Proof.
  intros (_ & _ & Hp0 & _) Hh. unfold has in *. cbn. rewrite <- zdrop_zdrop by (try apply zlen_nonneg; lia).
  rewrite Hh, <- app_assoc. by apply zdrop_app_eq.
Qed.

(** The computation reads [bs], returns 0, changes the process to one that satisfies [Q], and
    otherwise makes the world [w0]. *)
Definition reads_to (m : M Z) (w w0 : cw) (bs : list Z) (Q : proc -> Prop) : Prop :=
  forall rest, has w bs rest ->
  exists k p, healthy k /\ m w = Ret 0 (moved k (skip (zlen bs) (w_file w)) (set_proc p w0)) /\ Q p.
Definition reads (m : M Z) (w : cw) (bs : list Z) (Q : proc -> Prop) : Prop := reads_to m w w bs Q.

Lemma skip_skip n m f : skip m (skip n f) = skip (n + m) f.
Proof. unfold skip. cbn. by rewrite Z.add_assoc. Qed.
Lemma skip_0 f : skip 0 f = f.
Proof. unfold skip. rewrite Z.add_0_r. by destruct f. Qed.

Lemma ckpt_read_ok cap bs rest w :
  reading w -> has w bs rest -> zlen bs <= cap ->
  exists k, healthy k /\ tcmi_ckpt_read cap (zlen bs) w = Ret (0, bs) (adv k (zlen bs) (w_proc w) w).
Proof.
  intros (Hk & [c Hc] & Hp0 & _) Hh Hcap.
  destruct (read_ok (zlen bs) (w_file w) (w_k w) Hk (zlen_nonneg bs) Hp0) as (k & Hrd & Hk'). cbn zeta in Hrd.
  rewrite Hh, ztake_app_eq in Hrd by done.
  exists k. split; [done|]. unfold tcmi_ckpt_read, self, valid. run. rewrite Hc. run. rewrite Hrd. cbv iota beta.
  replace (cap <? zlen bs) with false by lia. rewrite Z.eqb_refl. by destruct w.
Qed.

(** A read followed by the check of its result. *)
Lemma reads_then cap n d (e : list Z -> M Z) (m : list Z -> M Z) w w0 bs Q :
  reading w -> n = zlen d -> zlen d <= cap ->
  (forall k, reading (adv k (zlen d) (w_proc w) w) ->
     reads_to (m d) (adv k (zlen d) (w_proc w) w) w0 bs Q) ->
  reads_to ('(r, x) ← tcmi_ckpt_read cap n; if r <? 0 then e x else m x) w w0 (d ++ bs) Q.
Proof.
  intros Hr -> Hcap Hm rest Hh. pose proof Hh as Hh'. unfold has in Hh'. rewrite <- app_assoc in Hh'.
  destruct (ckpt_read_ok cap d (bs ++ rest) w Hr Hh' Hcap) as (k & Hk & Hrd).
  rewrite (bind_ret _ _ _ _ _ Hrd). change (0 <? 0) with false. cbv iota.
  destruct (Hm k (reading_adv _ _ _ _ _ Hr Hh' Hk) rest) as (k2 & p2 & Hk2 & Hm2 & HQ).
  { by eapply has_adv. }
  exists k2, p2. split_and!; [done| |done]. rewrite Hm2. cbn [adv moved w_file set_file].
  by rewrite skip_skip, zlen_app.
Qed.
Lemma reads_then_nil cap n d (e : list Z -> M Z) (m : list Z -> M Z) w w0 Q :
  reading w -> n = zlen d -> zlen d <= cap ->
  (forall k, reading (adv k (zlen d) (w_proc w) w) ->
     reads_to (m d) (adv k (zlen d) (w_proc w) w) w0 [] Q) ->
  reads_to ('(r, x) ← tcmi_ckpt_read cap n; if r <? 0 then e x else m x) w w0 d Q.
Proof. intros. rewrite <- (app_nil_r d). by apply reads_then. Qed.

(** Steps that do not read. *)
Lemma reads_after {A} (m : M A) (g : A -> M Z) a w w1 w0 bs Q :
  m w = Ret a w1 -> w_file w1 = w_file w -> reads_to (g a) w1 w0 bs Q -> reads_to (m ≫= g) w w0 bs Q.
Proof.
  intros Hm Hf Hg rest Hh. destruct (Hg rest) as (k & p & Hk & Hm2 & HQ); [unfold has; by rewrite Hf|].
  exists k, p. rewrite (bind_ret _ _ _ _ _ Hm), <- Hf. done.
Qed.
Lemma reads_valid {A} (o : option A) (g : A -> M Z) a w w0 bs Q :
  o = Some a -> reads_to (g a) w w0 bs Q -> reads_to (valid o ≫= g) w w0 bs Q.
Proof. by intros ->. Qed.
Lemma reads_call {A} (f : kst -> A * kst) (g : A -> M Z) a w w0 bs Q :
  reading w -> (exists k, f (w_k w) = (a, k) /\ healthy k) ->
  (forall k, reading (set_k k w) -> reads_to (g a) (set_k k w) w0 bs Q) ->
  reads_to (call f ≫= g) w w0 bs Q.
Proof.
  intros (_ & Hr) (k & Hf & Hk) Hg. eapply reads_after; [by apply call_ok|done|]. by apply Hg.
Qed.
Lemma reads_with_block b (m e : M Z) w w0 bs Q :
  reading w ->
  (forall k, reading (set_k k (set_live (b :: w_live w) w)) ->
     reads_to m (set_k k (set_live (b :: w_live w) w)) w0 bs Q) ->
  reads_to (ok ← kmalloc b; if negb ok then e else m) w w0 bs Q.
Proof.
  intros (Hk & Hr) Hm. destruct (kmalloc_ok b w Hk) as (k & Ha & Hk').
  eapply reads_after; [exact Ha|done|]. by apply Hm.
Qed.

(** The end: the process is updated and a block released. *)
Lemma reads_ret w p w0 (Q : proc -> Prop) :
  reading w -> w = moved (w_k w) (w_file w) (set_proc p w0) -> Q p -> reads_to (mret 0) w w0 [] Q.
Proof.
  intros (Hk & _) Hw HQ rest _. exists (w_k w), p. change (zlen (@nil Z)) with 0. rewrite skip_0, <- Hw. done.
Qed.
Lemma reads_upd f w (Q : proc -> Prop) : reading w -> Q (f (w_proc w)) -> reads (upd_proc f;; mret 0) w [] Q.
Proof. intros Hr HQ. eapply reads_after; [done|done|]. eapply reads_ret; [done|done|done]. Qed.
Lemma reads_moved m k n p w bs Q : reads m (adv k n p w) bs Q -> reads_to m (adv k n p w) w bs Q.
Proof. intros H'. exact H'. Qed.
Lemma reads_end b w l p w0 (Q : proc -> Prop) :
  reading w -> w_live w = b :: l -> set_live l w = moved (w_k w) (w_file w) (set_proc p w0) -> Q p ->
  reads_to (kfree b;; mret 0) w w0 [] Q.
Proof.
  intros Hr Hl Hw HQ. eapply reads_after; [by apply kfree_ok|done|]. eapply reads_ret; [done|exact Hw|done].
Qed.

Lemma reads_bind (m : M Z) (g : Z -> M Z) w w0 b1 b2 Q1 Q2 :
  reading w -> reads m w b1 Q1 ->
  (forall k p, Q1 p -> reading (adv k (zlen b1) p w) -> reads_to (g 0) (adv k (zlen b1) p w) w0 b2 Q2) ->
  reads_to (m ≫= g) w w0 (b1 ++ b2) Q2.
Proof.
  intros Hr Hb1 Hb2 rest Hh. pose proof Hh as Hh'. unfold has in Hh'. rewrite <- app_assoc in Hh'.
  destruct (Hb1 _ Hh') as (k & p & Hk & Hm & HQ).
  destruct (Hb2 k p HQ (reading_adv _ _ _ _ _ Hr Hh' Hk) rest) as (k2 & p2 & Hk2 & Hm2 & HQ2).
  { by eapply has_adv. }
  exists k2, p2. split_and!; [done| |done]. rewrite (bind_ret _ _ _ _ _ Hm). fold (adv k (zlen b1) p w).
  rewrite Hm2. cbn [adv moved w_file set_file]. by rewrite skip_skip, zlen_app.
Qed.

(** ** The small chunks *)

Lemma rlimit_read w rl :
  reading w -> length rl = RLIM_NLIMITS -> Forall (fits 8) (flat_rlim rl) ->
  reads tcmi_ckpt_read_rlimit w (pack tcmi_ckpt_rlimits (flat_rlim rl)) (eq (set_rlim rl (w_proc w))).
Proof.
  intros Hr Hl Hf.
  assert (Forall2 fits tcmi_ckpt_rlimits (flat_rlim rl)) as HF.
  { apply Forall2_fits_replicate; [done|]. by rewrite flat_rlim_length, Hl. }
  assert (zlen (pack tcmi_ckpt_rlimits (flat_rlim rl)) = 256) as Hz.
  { rewrite zlen_pack; [done|]. by rewrite flat_rlim_length, Hl. }
  apply reads_then_nil; [done|by rewrite Hz|lia|]. intros k Hr1. apply reads_moved, reads_upd; [done|].
  by rewrite unpack_packed, pair_flat.
Qed.

(** The memory descriptor, without areas. *)
Definition no_areas (m : mm_struct) : mm_struct :=
  mk_mm (start_code m) (end_code m) (start_data m) (end_data m) (start_brk m) (brk m) (start_stack m)
    (arg_start m) (arg_end m) (env_start m) (env_end m) (def_flags m) [].

Lemma mm_read w m :
  reading w -> Forall (fits 8) (mm_fields m) ->
  reads tcmi_ckpt_mm_read w (pack tcmi_ckpt_mm_hdr (mm_fields m)) (eq (set_mm (no_areas m) (w_proc w))).
Proof.
  intros Hr Hf. apply reads_then_nil; [done|by rewrite zlen_pack|by rewrite zlen_pack|]. intros k Hr1.
  rewrite unpack_packed by (by apply Forall2_fits_replicate). by apply reads_moved, reads_upd.
Qed.

Lemma sig_read w s :
  reading w -> length (sig_action s) = _NSIG -> Forall (fits 8) (sig_fields s) ->
  reads tcmi_ckpt_sig_read w (pack tcmi_ckpt_sig_hdr (sig_fields s)) (eq (set_sig s (w_proc w))).
Proof.
  intros Hr Hl Hf.
  assert (length (sig_fields s) = (4 + 4 * _NSIG)%nat) as Hlen.
  { unfold sig_fields. by rewrite length_app, actions_length, Hl. }
  assert (zlen (pack tcmi_ckpt_sig_hdr (sig_fields s)) = 2080) as Hz.
  { rewrite zlen_pack; [done|]. by rewrite Hlen. }
  apply reads_then_nil; [done|by rewrite Hz|lia|]. intros k Hr1. apply reads_moved, reads_upd; [done|].
  by rewrite unpack_packed, sig_roundtrip by (by apply Forall2_fits_replicate).
Qed.

Lemma kmalloc_size_ok b n (g : bool -> M Z) w w0 bs Q :
  0 <= n -> reads_to (kmalloc b ≫= g) w w0 bs Q -> reads_to (kmalloc_size b n ≫= g) w w0 bs Q.
Proof. intros Hn. unfold kmalloc_size. by replace (n <? 0) with false by lia. Qed.

(** The registers with which the thread starts. *)
Definition started (r : pt_regs) : pt_regs := start_thread r (r_ip r) (r_sp r).

Lemma regs_read w c regs :
  reading w -> w_ckpt w = Some c -> checkpoint_arch (ck_hdr c) = ARCH_CURRENT -> is32 (ck_hdr c) = false ->
  wf_regs regs ->
  reads tcmi_ckpt_regs_read w (le_bytes 4 168 ++ get_registers regs) (eq (set_regs (started regs) (w_proc w))).
Proof.
  intros Hr Hc Harch His Hw. apply reads_then; [done|done|done|]. intros k1 Hr1. cbv beta zeta.
  change (s32[le_value (le_bytes 4 168)]) with 168. apply kmalloc_size_ok; [done|].
  apply reads_with_block; [done|]. intros k2 Hr2.
  apply reads_then_nil; [done|by rewrite zlen_get_registers|by rewrite zlen_get_registers|]. intros k3 Hr3.
  eapply reads_after; [unfold self, valid; run; cbn; by rewrite Hc|done|]. eapply reads_after; [done|done|].
  rewrite Harch, His.
  eapply reads_valid; [unfold load_from_platform_registers; rewrite Z.eqb_refl, registers_roundtrip by done; reflexivity|].
  eapply reads_valid; [done|]. eapply reads_after; [done|done|].
  by eapply reads_end.
Qed.

Lemma tls_read w c t :
  reading w -> w_ckpt w = Some c -> checkpoint_arch (ck_hdr c) = ARCH_CURRENT -> wf_thread t ->
  reads tcmi_ckpt_tls_read w (le_bytes 4 48 ++ get_tcmi_thread t) (eq (set_thread t (w_proc w))).
Proof.
  intros Hr Hc Harch Hw. destruct (thread_roundtrip t Hw) as [Hrt Hlen].
  apply reads_then; [done|done|done|]. intros k1 Hr1. cbv beta zeta.
  change (s32[le_value (le_bytes 4 48)]) with 48. apply kmalloc_size_ok; [done|].
  apply reads_with_block; [done|]. intros k2 Hr2.
  apply reads_then_nil; [done|by rewrite Hlen|by rewrite Hlen|]. intros k3 Hr3.
  eapply reads_after; [unfold self, valid; run; cbn; by rewrite Hc|done|]. eapply reads_after; [done|done|].
  rewrite Harch. eapply reads_valid; [exact Hrt|]. eapply reads_after; [done|done|].
  by eapply reads_end.
Qed.

Lemma fsstruct_read w p :
  reading w -> is_cstring (p_pwd p) -> zlen (p_pwd p) + 1 < 2 ^ 31 -> is_dir (p_pwd p) ->
  reads tcmi_ckpt_fsstruct_read w (fs_image p) (eq (set_pwd (p_pwd p) (w_proc w))).
Proof.
  intros Hr Hs Hl Hd. pose proof (zlen_nonneg (p_pwd p)). apply reads_then; [done|done|done|]. intros k1 Hr1. cbv beta zeta.
  rewrite le_value_u4, swrap_id by (unfold urange, srange; lia).
  assert (zlen (p_pwd p ++ [0]) = zlen (p_pwd p) + 1) as Hz by (by rewrite zlen_app).
  apply kmalloc_size_ok; [lia|]. apply reads_with_block; [done|]. intros k2 Hr2.
  apply reads_then_nil; [done|by rewrite Hz|by rewrite Hz|]. intros k3 Hr3.
  eapply reads_valid; [rewrite <- (app_nil_r (p_pwd p ++ [0])); by apply cstring_string|].
  eapply reads_call; [done|apply path_lookup_ok; [apply Hr3|done]|]. intros k4 Hr4.
  change (negb (0 =? 0)) with false. cbv iota. eapply reads_after; [done|done|].
  by eapply reads_end.
Qed.
End read.
