(* ===== verification/CkptFiles.v ===== *)
(** Restarting: the open files.  Descriptors of one open file again share one open file, at the
    same position. *)

From stdpp Require Import gmap.
From S2P Require Import Prelude Effect KkcAddr NpmParams CkptKernel CkptArch Ckpt CkptOps CkptCom CkptImage.
From S2P Require Import CkptWrite CkptSave CkptRead.

(** The descriptors [done] of the process [src] are open in [fs]: [phi] is the new open file of
    an old one. *)
Definition files_match (src : files_struct) (names : Z -> list Z) (done : list (Z * Z)) (fs : files_struct) : Prop :=
  exists phi : Z -> Z,
    (forall fd b, fdt fs !! fd = Some b <-> exists a, (fd, a) ∈ done /\ phi a = b) /\
    (forall fd a fd' a', (fd, a) ∈ done -> (fd', a') ∈ done -> phi a = phi a' -> a = a') /\
    (forall fd a f, (fd, a) ∈ done -> filps src !! a = Some f ->
       exists m i, filps fs !! phi a = Some (mk_filp (fp_pos f) (fp_flags f) m i (names (fdcache_find done a)))).

Section files.
Context `{HL : KernelLaws}.

Lemma lowest_exists (t : gmap Z Z) fd : 0 <= fd -> t !! fd = None -> exists f, lowest_free t f /\ f <= fd.
Proof.
  intros Hfd Hn.
  assert (forall n : nat, (forall i, 0 <= i < Z.of_nat n -> is_Some (t !! i)) \/
    exists f, lowest_free t f /\ f < Z.of_nat n) as Hall.
  { induction n as [|n [IH|(f & Hf & Hlt)]]; [left; lia| |right; exists f; split; [done|lia]].
    destruct (t !! Z.of_nat n) eqn:E.
    - left. intros i Hi. destruct (Z.eq_dec i (Z.of_nat n)) as [->|]; [by eexists|]. apply IH. lia.
    - right. exists (Z.of_nat n). split; [|lia]. split_and!; [lia|done|]. intros. apply IH. lia. }
  destruct (Hall (S (Z.to_nat fd))) as [Ha|(f & Hf & Hlt)].
  - destruct (Ha fd) as [x Hx]; [lia|]. congruence.
  - exists f. split; [done|lia].
Qed.

Lemma call_files_ok {A} (f : files_struct -> kst -> A * files_struct * kst) w a fs k :
  f (p_files (w_proc w)) (w_k w) = (a, fs, k) ->
  call_files f w = Ret a (set_proc (set_files fs (w_proc w)) (set_k k w)).
Proof. intros Hf. unfold call_files, proc_, upd_proc. run. by rewrite Hf. Qed.

(** A file that can be reopened. *)
Record reopenable (name : list Z) (f : filp) : Prop := {
  ro_name : is_cstring name /\ zlen name + 1 < PAGE_SIZE;
  ro_pos : 0 <= fp_pos f < 2 ^ 63;
  ro_flags : 0 <= fp_flags f < 2 ^ 31;
  ro_mode : 0 <= fp_mode f < 2 ^ 31;
  ro_imode : urange 32 (fp_imode f) /\ tcmi_ckpt_openfile_supported (fp_imode f) = true;
  ro_opens : reopens name (fp_flags f) 0 /\ reopens name (fp_flags f) (fp_pos f)
}.

(** What reopening adds to the files: one new open file, at the descriptor [fd]. *)
Definition opened (fs : files_struct) (fd : Z) (name : list Z) (f : filp) (fs' : files_struct) : Prop :=
  exists b m i, filps fs !! b = None /\ fdt fs' = <[fd := b]> (fdt fs) /\
    filps fs' !! b = Some (mk_filp (fp_pos f) (fp_flags f) m i name) /\
    forall fd' c, fdt fs !! fd' = Some c -> c <> b -> filps fs' !! c = filps fs !! c.

(** Opening, positioning, and moving to the descriptor. *)
Lemma reopen_steps w fd name f (e : M Z) w0 Q :
  reading w -> 0 <= fd < fd_limit -> fdt (p_files (w_proc w)) !! fd = None -> reopenable name f ->
  (forall k fs, reading (set_proc (set_files fs (w_proc w)) (set_k k w)) ->
     opened (p_files (w_proc w)) fd name f fs ->
     reads_to (kfree B_page;; mret 0) (set_proc (set_files fs (w_proc w)) (set_k k w)) w0 [] Q) ->
  reads_to
    (fd0 ← call_files (do_sys_open name (fp_flags f) (fp_mode f));
     if fd0 <? 0 then e else
     pos ← call_files (vfs_llseek_fd fd0 (fp_pos f));
     if negb (fp_pos f =? u64[pos]) then e else
     if negb (fd =? fd0) then
       err ← call_files (sys_dup2 fd0 fd);
       if negb (err =? fd) then e else
       call_files (fun fs k => let '(fs, k) := sys_close fd0 fs k in (tt, fs, k));;
       kfree B_page;; mret 0
     else kfree B_page;; mret 0) w w0 [] Q.
Proof.
  intros Hr Hfd Hfree [_ Hpos _ _ _ [Ho1 Ho2]] Hend.
  destruct (lowest_exists _ fd ltac:(lia) Hfree) as (fd0 & Hlow & Hle).
  pose proof Hlow as (H0 & Hfree0 & _).
  destruct (open_ok name (fp_flags f) (fp_mode f) _ fd0 (w_k w) (proj1 Hr) Ho1 Hlow ltac:(lia))
    as (b & m & i & n & k1 & Hb & Hopen & Hk1).
  eapply reads_after; [by apply call_files_ok|done|]. replace (fd0 <? 0) with false by lia. cbv iota.
  destruct (llseek_fd_ok fd0 (fp_pos f) (mk_files (<[fd0:=b]> (fdt (p_files (w_proc w)))) n
    (<[b:=mk_filp 0 (fp_flags f) m i name]> (filps (p_files (w_proc w))))) b (mk_filp 0 (fp_flags f) m i name) k1)
    as (k2 & Hseek & Hk2); [done|apply lookup_insert_eq|apply lookup_insert_eq|done|].
  cbn [fdt filps max_fds fp_mode fp_imode fp_flags fp_path] in Hseek. rewrite insert_insert_eq in Hseek.
  eapply reads_after; [by apply call_files_ok|done|].
  rewrite uwrap_id, Z.eqb_refl by (unfold urange; lia). cbn [negb].
  destruct (Z.eq_dec fd fd0) as [->|Hne].
  - rewrite Z.eqb_refl. cbn [negb].
    apply (Hend k2 (mk_files (<[fd0:=b]> (fdt (p_files (w_proc w)))) n
      (<[b:=mk_filp (fp_pos f) (fp_flags f) m i name]> (filps (p_files (w_proc w)))))).
    + destruct Hr as (_ & Hr). done.
    + exists b, m, i. split_and!; [done|done|apply lookup_insert_eq|]. intros fd' c _ Hc. cbn [filps].
      by rewrite lookup_insert_ne.
  - replace (fd =? fd0) with false by lia. cbn [negb].
    match goal with |- reads_to _ (set_proc (set_files ?fs2 _) _) _ _ _ => set (fs2' := fs2) end.
    destruct (dup2_ok fd0 fd fs2' b k2 Hk2) as (n3 & k3 & Hdup & Hk3);
      [apply lookup_insert_eq|cbn [fs2' fdt]; by rewrite lookup_insert_ne|lia|].
    eapply reads_after; [by apply call_files_ok|done|]. rewrite Z.eqb_refl. cbn [negb].
    match goal with |- reads_to _ (set_proc (set_files ?fs3 _) _) _ _ _ => set (fs3' := fs3) end.
    destruct (close_ok fd0 fs3' b k3 Hk3) as (fp' & k4 & Hclose & Hk4 & Hkeep);
      [cbn [fs3' fdt fs2']; rewrite lookup_insert_ne by done; apply lookup_insert_eq|].
    eapply reads_after; [apply call_files_ok; cbn [w_k set_proc set_k w_proc p_files set_files]; by rewrite Hclose|done|].
    assert (delete fd0 (<[fd := b]> (<[fd0 := b]> (fdt (p_files (w_proc w))))) = <[fd := b]> (fdt (p_files (w_proc w)))) as Hfdt.
    { rewrite delete_insert_ne, delete_insert_id by done. done. }
    assert (forall c fd', <[fd := b]> (fdt (p_files (w_proc w))) !! fd' = Some c -> fp' !! c = filps fs3' !! c) as Hsame.
    { intros c fd' Hc. destruct (decide (filps fs3' !! c = fp' !! c)) as [->|Hd]; [done|].
      exfalso. apply (Hkeep c Hd fd'). cbn [fs3' fdt fs2']. by rewrite Hfdt. }
    apply (Hend k4 (mk_files (delete fd0 (fdt fs3')) (max_fds fs3') fp')).
    + destruct Hr as (_ & Hr). done.
    + exists b, m, i. split_and!; [done|exact Hfdt| |].
      * cbn [filps]. rewrite (Hsame b fd) by apply lookup_insert_eq. apply lookup_insert_eq.
      * intros fd' c Hc Hcb. cbn [filps]. rewrite (Hsame c fd').
        { cbn [fs3' fs2' filps]. by rewrite lookup_insert_ne. }
        rewrite lookup_insert_ne; [done|]. intros ->. congruence.
Qed.

Lemma newfd_read w fd name f :
  reading w -> 0 <= fd < fd_limit -> fd_limit <= 2 ^ 31 -> fdt (p_files (w_proc w)) !! fd = None -> reopenable name f ->
  reads tcmi_ckpt_openfile_read_newfd w
    (newfile_bytes (mk_newfile fd (fp_pos f) (fp_flags f) (fp_mode f) (fp_imode f) (zlen name + 1)) ++ name ++ [0])
    (fun p' => exists fs, p' = set_files fs (w_proc w) /\ opened (p_files (w_proc w)) fd name f fs).
Proof.
  intros Hr Hfd Hlim Hfree Hro. pose proof Hro as [[Hcs Hl] Hpos Hfl Hmo [Him Hsup] _]. pose proof (zlen_nonneg name).
  set (h := mk_newfile _ _ _ _ _ _).
  destruct (newfile_roundtrip h) as [Hh Hz]; try (unfold urange; cbn; unfold PAGE_SIZE in *; lia). { exact Him. }
  apply reads_then; [done|by rewrite Hz|by rewrite Hz|]. intros k1 Hr1. cbv beta. rewrite Hh. cbv zeta.
  cbn [h nf_fd nf_pos nf_flags nf_mode nf_type nf_pathname_size].
  rewrite uwrap_id by (unfold urange, PAGE_SIZE in *; lia). replace (PAGE_SIZE <=? zlen name + 1) with false by lia.
  apply reads_with_block; [done|]. intros k2 Hr2.
  apply reads_then_nil; [done|by rewrite zlen_app|rewrite zlen_app; change (zlen [0]) with 1; lia|]. intros k3 Hr3.
  eapply reads_valid; [rewrite <- (app_nil_r (name ++ [0])); by apply cstring_string|].
  assert (s_is S_IFDIR (fp_imode f) || s_is S_IFREG (fp_imode f) || s_is S_IFCHR (fp_imode f) || s_is S_IFIFO (fp_imode f)
    = true) as ->.
  { unfold tcmi_ckpt_openfile_supported in Hsup. by destruct (s_is S_IFDIR _), (s_is S_IFREG _). }
  cbn [andb]. rewrite (swrap_id 32 eq_refl (fp_flags f)), (swrap_id 32 eq_refl (fp_mode f)),
    (swrap_id 64 eq_refl (fp_pos f)) by (unfold srange; lia).
  apply (reopen_steps _ fd name f); [done|done|done|done|]. intros k4 fs Hr4 Hop.
  eapply reads_end; [done|done|done|]. by exists fs.
Qed.

Lemma dupfd_read w fd old b :
  reading w -> 0 <= fd < fd_limit -> fd_limit <= 2 ^ 31 -> 0 <= old < fd_limit ->
  fdt (p_files (w_proc w)) !! fd = None -> fdt (p_files (w_proc w)) !! old = Some b ->
  reads tcmi_ckpt_openfile_read_dupfd w (pack [4; 4]%nat [fd; old])
    (fun p' => exists n, p' = set_files (mk_files (<[fd := b]> (fdt (p_files (w_proc w)))) n (filps (p_files (w_proc w)))) (w_proc w)).
Proof.
  intros Hr Hfd Hlim Hold Hfree Hb.
  apply reads_then_nil; [done|by rewrite zlen_pack|by rewrite zlen_pack|]. intros k1 Hr1. cbv beta.
  rewrite unpack_packed by fields_fit.
  destruct (dup2_ok old fd (p_files (w_proc w)) b k1) as (n & k2 & Hd & Hk2); [apply Hr1|done|done|done|].
  eapply reads_after; [by apply call_files_ok|done|]. rewrite swrap_id, Z.eqb_refl by (unfold srange; lia).
  cbn [negb]. eapply reads_ret; [by destruct Hr1 as (_ & Hr1)|done|]. by exists n.
Qed.

(** ** All the files *)

Lemma done_found src names (done : list (Z * Z)) fs (fd a : Z) :
  files_match src names done fs -> Forall (fun e => 0 <= e.1) done -> 0 <= fdcache_find done a ->
  (fdcache_find done a, a) ∈ done.
Proof.
  intros _ HF. induction HF as [|[fd' a'] l H0 _ IH]; cbn [fdcache_find]; [unfold EINVAL; lia|].
  destruct (a' =? a) eqn:E.
  - apply Z.eqb_eq in E as ->. intros _. apply list_elem_of_here.
  - intros Hge. apply list_elem_of_further. auto.
Qed.

Lemma match_new src names done fs fd a f fs' :
  files_match src names done fs -> Forall (fun e => 0 <= e.1) done -> filps src !! a = Some f ->
  (forall fd' a', (fd', a') ∈ done -> is_Some (filps src !! a')) ->
  fd ∉ done.*1 -> fdcache_find done a < 0 -> opened fs fd (names fd) f fs' ->
  files_match src names (done ++ [(fd, a)]) fs'.
Proof.
  intros (phi & M1 & M2 & M3) H0 Hf Hsrc Hfd Hnew (b & m & i & Hb & Hfdt & Hfb & Hkeep).
  assert (forall fd' a', (fd', a') ∈ done -> a' <> a) as Hne.
  { intros fd' a' Hin ->. rewrite Forall_forall in H0. pose proof (H0 _ Hin) as Hpos. cbn in Hpos.
    destruct (find_found done a fd') as [? _]; [done|by apply Forall_forall|done|]. lia. }
  assert (forall fd' a', (fd', a') ∈ done -> phi a' <> b) as Hnb.
  { intros fd' a' Hin Hphi. destruct (Hsrc _ _ Hin) as [f' Hf']. destruct (M3 _ _ _ Hin Hf') as (? & ? & Hl).
    rewrite Hphi in Hl. congruence. }
  exists (fun x => if decide (x = a) then b else phi x). split_and!.
  - intros fd' c. rewrite Hfdt. destruct (Z.eq_dec fd fd') as [<-|Hd].
    + rewrite lookup_insert_eq. split.
      * intros [= <-]. exists a. split; [set_solver|]. by rewrite decide_True.
      * intros (a' & [Hin|[= ->]%list_elem_of_singleton]%elem_of_app & <-).
        { exfalso. apply Hfd. apply list_elem_of_fmap. by exists (fd, a'). }
        by rewrite decide_True.
    + rewrite lookup_insert_ne, M1 by done. split; intros (a' & Hin & Hphi); exists a'.
      * split; [set_solver|]. rewrite decide_False; [done|by eapply Hne].
      * apply elem_of_app in Hin as [Hin|[= -> ->]%list_elem_of_singleton]; [|done].
        rewrite decide_False in Hphi by (by eapply Hne). done.
  - intros f1 a1 f2 a2 [H1|[= -> ->]%list_elem_of_singleton]%elem_of_app
      [H2|[= -> ->]%list_elem_of_singleton]%elem_of_app.
    + rewrite !decide_False by (by eapply Hne). by apply (M2 f1 a1 f2 a2).
    + rewrite decide_False, decide_True by (done || by eapply Hne). intros Hphi. by destruct (Hnb _ _ H1).
    + rewrite decide_True, decide_False by (done || by eapply Hne). intros Hphi. by destruct (Hnb _ _ H2).
    + done.
  - intros f1 a1 g [H1|[= -> ->]%list_elem_of_singleton]%elem_of_app Hg.
    + rewrite decide_False by (by eapply Hne). destruct (M3 _ _ _ H1 Hg) as (m1 & i1 & Hl). exists m1, i1.
      rewrite (Hkeep f1 (phi a1)); [|apply M1; eauto|by eapply Hnb].
      rewrite find_app_found; [done|]. rewrite Forall_forall in H0. pose proof (H0 _ H1).
      apply (find_found done a1 f1); [done|by apply Forall_forall|done].
    + rewrite decide_True by done. rewrite Hf in Hg. injection Hg as <-. exists m, i.
      rewrite find_app_missing by done. cbn. by rewrite Z.eqb_refl.
Qed.

Lemma unique_fd (l : list (Z * Z)) fd a a' : NoDup l.*1 -> (fd, a) ∈ l -> (fd, a') ∈ l -> a = a'.
Proof.
  intros Hnd H1 H2. apply list_elem_of_lookup in H1 as [i Hi]. apply list_elem_of_lookup in H2 as [j Hj].
  assert (i = j) as <-; [|congruence].
  eapply NoDup_lookup; [exact Hnd|by rewrite list_lookup_fmap, Hi|by rewrite list_lookup_fmap, Hj].
Qed.

Lemma match_dup src names done fs fd a n :
  files_match src names done fs -> Forall (fun e => 0 <= e.1) done -> NoDup done.*1 -> fd ∉ done.*1 ->
  0 <= fdcache_find done a ->
  exists b, fdt fs !! fdcache_find done a = Some b /\
    files_match src names (done ++ [(fd, a)]) (mk_files (<[fd := b]> (fdt fs)) n (filps fs)).
Proof.
  intros HM H0 Hnd Hfd Hge. pose proof (done_found _ _ _ _ fd a HM H0 Hge) as Hin0.
  destruct HM as (phi & M1 & M2 & M3). exists (phi a). split; [apply M1; eauto|].
  assert (forall f' a', (f', a') ∈ done ++ [(fd, a)] -> exists f2, (f2, a') ∈ done) as Hold.
  { intros f' a' [Hin|[= -> ->]%list_elem_of_singleton]%elem_of_app; eauto. }
  exists phi. cbn [fdt filps]. split_and!.
  - intros fd' c. destruct (Z.eq_dec fd fd') as [<-|Hd].
    + rewrite lookup_insert_eq. split; [intros [= <-]; exists a; set_solver|].
      intros (a' & [Hin|[= ->]%list_elem_of_singleton]%elem_of_app & <-); [|done].
      exfalso. apply Hfd. apply list_elem_of_fmap. by exists (fd, a').
    + rewrite lookup_insert_ne, M1 by done. split; intros (a' & Hin & Hphi); exists a'; [set_solver|].
      apply elem_of_app in Hin as [Hin|[= -> ->]%list_elem_of_singleton]; done.
  - intros f1 a1 f2 a2 [g1 H1]%Hold [g2 H2]%Hold. by apply (M2 g1 a1 g2 a2).
  - intros f1 a1 g [g1 H1]%Hold Hg. destruct (M3 _ _ _ H1 Hg) as (m & i & Hl). exists m, i.
    rewrite find_app_found; [done|]. rewrite Forall_forall in H0. pose proof (H0 _ H1).
    apply (find_found done a1 g1); [done|by apply Forall_forall|done].
Qed.

Lemma match_free src names done fs fd : files_match src names done fs -> fd ∉ done.*1 -> fdt fs !! fd = None.
Proof.
  intros (phi & M1 & _) Hfd. destruct (fdt fs !! fd) as [b|] eqn:E; [|done].
  apply M1 in E as (a & Hin & _). exfalso. apply Hfd. apply list_elem_of_fmap. by exists (fd, a).
Qed.

(** The descriptors of the saved process, and how they can be reopened here. *)
Definition reopenable_files (src : files_struct) (names : Z -> list Z) (l : list (Z * Z)) : Prop :=
  Forall (fun e => 0 <= e.1 < fd_limit /\ exists f, filps src !! e.2 = Some f /\ reopenable (names e.1) f) l.

Lemma openfile_read w src names done fd a f :
  reading w -> fd_limit <= 2 ^ 31 -> files_match src names done (p_files (w_proc w)) ->
  reopenable_files src names (done ++ [(fd, a)]) -> NoDup (done ++ [(fd, a)]).*1 -> filps src !! a = Some f ->
  reads tcmi_ckpt_openfile_read w (file_image (names fd) done fd a f)
    (fun p' => exists fs, p' = set_files fs (w_proc w) /\ files_match src names (done ++ [(fd, a)]) fs).
Proof.
  intros Hr Hlim HM Hro Hnd Hf. unfold reopenable_files in Hro. rewrite Forall_app, Forall_singleton in Hro.
  destruct Hro as [Hd [Hfd (f' & Hf' & Hre)]]. cbn in Hfd, Hf', Hre. rewrite Hf in Hf'. injection Hf' as <-.
  rewrite fmap_app, NoDup_app in Hnd. destruct Hnd as (Hnd & Hdis & _).
  assert (fd ∉ done.*1) as Hfresh by (intros ?; apply (Hdis fd); [done|set_solver]).
  assert (Forall (fun e => 0 <= e.1) done) as H0 by (eapply Forall_impl; [exact Hd|]; cbn; intros; lia).
  pose proof (match_free _ _ _ _ _ HM Hfresh) as Hfree. unfold file_image.
  destruct (Z_lt_dec (fdcache_find done a) 0) as [Hlt|Hge].
  - replace (0 <=? fdcache_find done a) with false by lia.
    apply reads_then; [done|done|done|]. intros k Hr1. cbv beta zeta. rewrite le_value_u4 by done. cbv iota.
    apply reads_moved. intros rest Hh.
    destruct (newfd_read (adv k 4 (w_proc w) w) fd (names fd) f Hr1 Hfd Hlim Hfree Hre rest Hh)
      as (k2 & p2 & Hk2 & Hm2 & fs & -> & Hop).
    exists k2, (set_files fs (w_proc w)). split_and!; [done|exact Hm2|]. exists fs. split; [done|].
    eapply match_new; try done. intros fd' a' Hin. rewrite Forall_forall in Hd.
    destruct (Hd _ Hin) as (_ & g & Hg & _). by exists g.
  - replace (0 <=? fdcache_find done a) with true by lia.
    apply reads_then; [done|done|done|]. intros k Hr1. cbv beta zeta. rewrite le_value_u4 by done. cbv iota.
    destruct (match_dup src names done _ fd a 0 HM H0 Hnd Hfresh ltac:(lia)) as (b & Hb & _).
    assert (0 <= fdcache_find done a < fd_limit) as Hold.
    { rewrite Forall_forall in Hd. apply (Hd _ (done_found _ _ _ _ fd a HM H0 ltac:(lia))). }
    apply reads_moved. intros rest Hh.
    destruct (dupfd_read (adv k 4 (w_proc w) w) fd (fdcache_find done a) b Hr1 Hfd Hlim Hold Hfree Hb rest Hh)
      as (k2 & p2 & Hk2 & Hm2 & n & ->).
    exists k2. eexists. split_and!; [done|exact Hm2|]. eexists. split; [done|].
    destruct (match_dup src names done _ fd a n HM H0 Hnd Hfresh ltac:(lia)) as (b' & Hb' & HM').
    cbn [adv moved w_proc set_file set_k set_proc]. replace b with b' by congruence. exact HM'.
Qed.

Lemma files_read src names l : forall done w,
  reading w -> fd_limit <= 2 ^ 31 -> files_match src names done (p_files (w_proc w)) ->
  reopenable_files src names (done ++ l) -> NoDup (done ++ l).*1 ->
  reads (read_loop (length l) tcmi_ckpt_openfile_read 0) w (files_image names src done l)
    (fun p' => exists fs, p' = set_files fs (w_proc w) /\ files_match src names (done ++ l) fs).
Proof.
  induction l as [|[fd a] l IH]; intros done w Hr Hlim HM Hro Hnd.
  - cbn [length read_loop files_image]. apply (reads_ret _ (w_proc w)); [done|by destruct w|]. exists (p_files (w_proc w)).
    rewrite app_nil_r. split; [|done]. by destruct (w_proc w).
  - cbn [length read_loop files_image]. change (negb (0 =? 0)) with false. cbv iota.
    replace (done ++ (fd, a) :: l) with ((done ++ [(fd, a)]) ++ l) in * by (by rewrite <- app_assoc).
    pose proof Hro as Hro'. apply Forall_app in Hro' as [Hro1 _].
    pose proof Hro1 as Hro2. apply Forall_app in Hro2 as [_ Hro2]. apply Forall_singleton in Hro2 as (_ & f & Hf & _).
    cbn in Hf. rewrite Hf. rewrite fmap_app in Hnd. pose proof (proj1 (proj1 (NoDup_app _ _) Hnd)) as Hnd1.
    eapply reads_bind; [done|by eapply openfile_read|]. intros k p (fs & -> & HM') Hr1. apply reads_moved.
    intros rest Hh. rewrite <- fmap_app in Hnd.
    destruct (IH _ (adv k (zlen (file_image (names fd) done fd a f)) (set_files fs (w_proc w)) w) Hr1 Hlim HM' Hro Hnd rest Hh)
      as (k2 & p2 & Hk2 & Hm2 & fs2 & -> & HM2).
    exists k2. eexists. split_and!; [done|exact Hm2|]. by exists fs2.
Qed.
End files.
