(* ===== verification/CkptAreas.v ===== *)
(** Restarting: the memory areas. *)

From Stdlib Require Import Sorted.
From stdpp Require Import gmap.
From S2P Require Import Prelude Effect KkcAddr NpmParams CkptKernel CkptArch Ckpt CkptOps CkptCom CkptImage.
From S2P Require Import CkptWrite CkptSave CkptRead CkptFiles.

(** ** The restored address space *)

(** Pages with contents of their own. *)
Fixpoint own_pages (pages : Z -> option (list Z)) (n : nat) (addr prot flags : Z) (m : gmap Z page) : gmap Z page :=
  match n with
  | O => m
  | S n => <[addr := mk_page prot flags (Bytes (default (zeros PAGE_SIZE) (pages addr)))]>
             (own_pages pages n (addr + PAGE_SIZE) prot flags m)
  end.

Definition prot_of (v : vm_area_struct) : Z := Z.land (vm_flags v) PROT_ALL.
Definition grows (v : vm_area_struct) : bool := negb (Z.land (vm_flags v) VM_GROWSDOWN =? 0).
Definition not_growing (v : vm_area_struct) : Z := Z.land (vm_flags v) (Z.lnot VM_GROWSDOWN).
Definition first_page (pages : Z -> option (list Z)) (v : vm_area_struct) : page :=
  mk_page (prot_of v) (tcmi_ckpt_vm_area_to_mmap_flags (vm_flags v))
    (Bytes (default (zeros PAGE_SIZE) (pages (vm_start v)))).

(** The lowest page of a stack is an anonymous page that can grow, the rest is mapped from the
    checkpoint. *)
Definition restore_heavy (pages : Z -> option (list Z)) (v : vm_area_struct) (m : gmap Z page) : gmap Z page :=
  if grows v then
    own_pages pages (npages v - 1) (vm_start v + PAGE_SIZE) (Z.land (not_growing v) PROT_ALL)
      (tcmi_ckpt_vm_area_to_mmap_flags (not_growing v)) (<[vm_start v := first_page pages v]> m)
  else own_pages pages (npages v) (vm_start v) (prot_of v) (tcmi_ckpt_vm_area_to_mmap_flags (vm_flags v)) m.

Definition restore_area (type : Z) (pages : Z -> option (list Z)) (v : vm_area_struct) (m : gmap Z page) : gmap Z page :=
  match vm_file v with
  | Some name =>
      if writes_light type v then
        map_pages (npages v) (vm_start v) (vm_pgoff v * PAGE_SIZE) (Named name) (prot_of v)
          (tcmi_ckpt_vm_area_to_mmap_flags (vm_flags v)) m
      else restore_heavy pages v m
  | None => restore_heavy pages v m
  end.

Fixpoint restore_areas (type : Z) (pages : Z -> option (list Z)) (l : list vm_area_struct) (m : gmap Z page) : gmap Z page :=
  match l with [] => m | v :: l => restore_areas type pages l (restore_area type pages v m) end.

Definition whole_pages (pages : Z -> option (list Z)) : Prop := forall a d, pages a = Some d -> zlen d = PAGE_SIZE.

Lemma zlen_page pages a : whole_pages pages -> zlen (default (zeros PAGE_SIZE) (pages a)) = PAGE_SIZE.
Proof. intros Hw. destruct (pages a) eqn:E; [by eapply Hw|done]. Qed.
Lemma zlen_pages_image pages n addr : whole_pages pages -> zlen (pages_image pages n addr) = Z.of_nat n * PAGE_SIZE.
Proof.
  intros Hw. revert addr. induction n as [|n IH]; intros addr; [done|]. cbn [pages_image].
  rewrite zlen_app, IH, zlen_page by done. unfold PAGE_SIZE. lia.
Qed.

Lemma map_pages_own pages n : forall addr off prot flags data rest m,
  whole_pages pages -> 0 <= off -> zdrop off data = pages_image pages n addr ++ rest ->
  map_pages n addr off (Ckpt data) prot flags m = own_pages pages n addr prot flags m.
Proof.
  induction n as [|n IH]; intros addr off prot flags data rest m Hw Hoff Hd; [done|].
  cbn [map_pages own_pages src_page page_at pages_image] in *. rewrite <- app_assoc in Hd.
  pose proof (zlen_page pages addr Hw) as Hz.
  rewrite (IH _ _ prot flags data rest m Hw).
  - unfold page_at. by rewrite Hd, ztake_app_le, ztake_all by lia.
  - unfold PAGE_SIZE. lia.
  - rewrite <- zdrop_zdrop by (unfold PAGE_SIZE; lia). rewrite Hd. rewrite <- Hz at 1. apply zdrop_app_eq.
Qed.

Lemma fixed_flags f : Z.land (tcmi_ckpt_vm_area_to_mmap_flags f) MAP_FIXED <> 0.
Proof.
  unfold tcmi_ckpt_vm_area_to_mmap_flags. intros Hz. apply (f_equal (fun z => Z.testbit z 4)) in Hz.
  rewrite Z.land_spec, Z.lor_spec in Hz. done.
Qed.

Section areas.
Context `{HL : KernelLaws}.

Lemma call_mem_ok {A} (f : gmap Z page -> kst -> A * gmap Z page * kst) w a m k :
  f (p_mem (w_proc w)) (w_k w) = (a, m, k) ->
  call_mem f w = Ret a (set_proc (set_mem m (w_proc w)) (set_k k w)).
Proof. intros Hf. unfold call_mem, proc_, upd_proc. run. by rewrite Hf. Qed.

Lemma seek_read n w : reading w -> 0 <= n -> exists k, healthy k /\
  tcmi_ckpt_seek n 1 w = Ret (f_pos (w_file w) + n) (adv k n (w_proc w) w).
Proof.
  intros (Hk & [c Hc] & Hp & _) Hn.
  destruct (llseek_ok n 1 (w_file w) (w_k w) Hk (or_intror eq_refl)) as (k & Hs & Hk'); [cbn; lia|].
  exists k. split; [done|]. unfold tcmi_ckpt_seek, self, valid. run. rewrite Hc. run. rewrite Hs. by destruct w.
Qed.
Lemma align_read w : reading w -> exists k r, healthy k /\
  tcmi_ckpt_page_align w = Ret r (adv k (pad (f_pos (w_file w))) (w_proc w) w).
Proof.
  intros (Hk & [c Hc] & Hp & _). destruct (page_align_pos (f_pos (w_file w)) Hp) as (Ha & Hpad & _).
  unfold tcmi_ckpt_page_align, tcmi_ckpt_seek, self, valid. run. rewrite Hc. run. rewrite Ha.
  edestruct (llseek_ok (f_pos (w_file w) + pad (f_pos (w_file w))) 0 (w_file w) (w_k w) Hk (or_introl eq_refl))
    as (k & Hs & Hk'); [cbn; lia|].
  exists k, (f_pos (w_file w) + pad (f_pos (w_file w))). split; [done|]. rewrite Hs. by destruct w.
Qed.

(** A file mapping of the checkpoint. *)
Lemma map_area_read w h n pages :
  reading w -> va_end h = va_start h + Z.of_nat n * PAGE_SIZE -> (0 < n)%nat -> Z.of_nat n * PAGE_SIZE < 2 ^ 64 ->
  aligned (va_start h) -> aligned (f_pos (w_file w)) -> whole_pages pages ->
  reads (map_area h) w (pages_image pages n (va_start h))
    (eq (set_mem (own_pages pages n (va_start h) (Z.land (va_flags h) PROT_ALL)
                    (tcmi_ckpt_vm_area_to_mmap_flags (va_flags h)) (p_mem (w_proc w))) (w_proc w))).
Proof.
  intros Hr He Hn Hsz Hal Hpos Hw rest Hh. pose proof (has_length _ _ _ Hr Hh) as Hlen.
  pose proof (zlen_pages_image pages n (va_start h) Hw) as Hz. rewrite Hz in Hlen.
  unfold map_area. rewrite He. replace (va_start h + Z.of_nat n * PAGE_SIZE - va_start h) with (Z.of_nat n * PAGE_SIZE) by lia.
  rewrite uwrap_id by (unfold urange, PAGE_SIZE in *; lia).
  pose proof Hr as (Hk & [c Hc] & Hp & _).
  destruct (do_mmap_ok (Ckpt (f_data (w_file w))) (va_start h) n (Z.land (va_flags h) PROT_ALL)
    (tcmi_ckpt_vm_area_to_mmap_flags (va_flags h)) (f_pos (w_file w)) (p_mem (w_proc w)) (w_k w))
    as (k & Hm & Hk'); try done. { apply fixed_flags. } { intros data [= <-]. done. }
  rewrite (map_pages_own pages n _ _ _ _ _ rest) in Hm by done.
  set (p' := set_mem _ _).
  assert (reading (set_proc p' (set_k k w))) as Hr1 by (destruct Hr as (_ & Hr); done).
  destruct (seek_read (Z.of_nat n * PAGE_SIZE) _ Hr1 ltac:(unfold PAGE_SIZE; lia)) as (k2 & Hk2 & Hs).
  exists k2, p'. split_and!; [done| |done].
  assert (self w = Ret c w) as Hself by (unfold self, valid; run; by rewrite Hc).
  unfold tcmi_ckpt_do_mmap.
  seq_step ltac:(rewrite (bind_ret _ _ _ _ _ Hself); seq_step ltac:(done); seq_step ltac:(by apply call_mem_ok);
                 seq_step ltac:(exact Hs); done).
  rewrite Z.eqb_refl. cbn [negb]. rewrite Hz. done.
Qed.

(** The lowest page of a stack. *)
Lemma stack_fixup_read w h c0 rest :
  reading w -> has w c0 rest -> zlen c0 = PAGE_SIZE -> aligned (va_start h) ->
  exists k, healthy k /\ tcmi_ckpt_vm_area_stack_fixup h w =
    Ret (0, mk_area (va_start h + PAGE_SIZE) (va_end h) (Z.land (va_flags h) (Z.lnot VM_GROWSDOWN)) (va_pgoff h)
              (va_type h) (va_pathname_size h))
      (adv k PAGE_SIZE (set_mem (<[va_start h := mk_page (Z.land (va_flags h) PROT_ALL)
         (tcmi_ckpt_vm_area_to_mmap_flags (va_flags h)) (Bytes c0)]> (p_mem (w_proc w))) (w_proc w)) w).
Proof.
  intros Hr Hh Hz Hal. unfold tcmi_ckpt_vm_area_stack_fixup.
  set (pr := Z.land _ PROT_ALL). set (fl := tcmi_ckpt_vm_area_to_mmap_flags _).
  destruct (do_mmap_ok Anon (va_start h) 1 pr fl 0 (p_mem (w_proc w)) (w_k w)) as (k1 & Hm & Hk1);
    [apply Hr|done|done|lia|apply fixed_flags|done|].
  change (Z.of_nat 1 * PAGE_SIZE) with PAGE_SIZE in Hm. cbn [map_pages src_page] in Hm.
  rewrite (bind_ret _ _ _ _ _ (call_mem_ok _ _ _ _ _ Hm)), Z.eqb_refl. cbn [negb].
  match goal with |- context [set_proc ?p (set_k k1 w)] => set (w1 := set_proc p (set_k k1 w)) end.
  destruct (kmalloc_ok B_page w1 Hk1) as (k2 & Ha & Hk2). rewrite (bind_ret _ _ _ _ _ Ha). cbn [negb].
  destruct (ckpt_read_ok PAGE_SIZE c0 rest (set_k k2 (set_live (B_page :: w_live w1) w1))) as (k3 & Hk3 & Hrd);
    [by destruct Hr as (_ & Hr)|done|lia|].
  rewrite Hz in Hrd. rewrite (bind_ret _ _ _ _ _ Hrd). change (0 <? 0) with false. cbv iota.
  match type of Hrd with _ = Ret _ ?x => set (w3 := x) end.
  destruct (get_user_pages_ok (va_start h) (p_mem (w_proc w3)) (w_k w3) Hk3) as (k4 & Hg & Hk4).
  assert (p_mem (w_proc w3) !! va_start h = Some (mk_page pr fl (Bytes (zeros PAGE_SIZE)))) as Hl
    by apply lookup_insert_eq.
  rewrite Hl in Hg.
  assert (tcmi_ckpt_vm_area_copy_page (va_start h) c0 w3 = Ret 0 (set_proc (set_mem (<[va_start h := mk_page pr fl (Bytes c0)]>
    (p_mem (w_proc w3))) (w_proc w3)) (set_k k4 w3))) as Hcp.
  { unfold tcmi_ckpt_vm_area_copy_page. seq_step ltac:(done). seq_step ltac:(by apply call_ok).
    cbn [fmap option_fmap option_map]. rewrite Hl. done. }
  rewrite (bind_ret _ _ _ _ _ Hcp). change (0 <? 0) with false. cbv iota.
  exists k4. split; [done|]. seq_step ltac:(by apply kfree_ok).
  cbn. rewrite insert_insert_eq. done.
Qed.

Lemma npages_pos v : wf_area v -> (0 < npages v)%nat.
Proof.
  intros Hv. pose proof (area_pages v Hv). destruct Hv as (_ & _ & Hrange & _). unfold PAGE_SIZE in *. lia.
Qed.

Definition read_hdr (v : vm_area_struct) (type size : Z) : tcmi_ckpt_vm_area_hdr :=
  mk_area (vm_start v) (vm_end v) (vm_flags v) (vm_pgoff v) type size.

(** The pages of an area, from an aligned position. *)
Lemma heavy_pages_read w v pages :
  reading w -> wf_area v -> whole_pages pages -> aligned (f_pos (w_file w)) ->
  reads (let hdr := read_hdr v TCMI_CKPT_VM_AREA_HEAVY 0 in
         let length := u64[va_end hdr - va_start hdr] in
         if length <? PAGE_SIZE then mret (- EINVAL) else
         if negb (Z.land (va_flags hdr) VM_GROWSDOWN =? 0) then
           '(r, hdr) ← tcmi_ckpt_vm_area_stack_fixup hdr;
           if r <? 0 then mret (- EINVAL) else
           if length - PAGE_SIZE =? 0 then mret 0 else map_area hdr
         else map_area hdr) w (pages_image pages (npages v) (vm_start v))
    (eq (set_mem (restore_heavy pages v (p_mem (w_proc w))) (w_proc w))).
Proof.
  intros Hr Hv Hw Hal. pose proof (area_pages v Hv) as He. pose proof (npages_pos v Hv) as Hn.
  destruct Hv as (Hs & _ & Hrange & Hmax & _). cbv zeta. cbn [read_hdr va_start va_end va_flags].
  rewrite uwrap_id by (unfold urange; lia).
  replace (vm_end v - vm_start v <? PAGE_SIZE) with false by (unfold PAGE_SIZE in *; lia).
  unfold restore_heavy. fold (grows v). destruct (grows v).
  - intros rest Hh. destruct (npages v) as [|n] eqn:En; [lia|]. cbn [pages_image] in Hh |- *.
    set (c0 := default (zeros PAGE_SIZE) (pages (vm_start v))) in *.
    assert (zlen c0 = PAGE_SIZE) as Hz by by apply zlen_page.
    pose proof Hh as Hh0. unfold has in Hh0. rewrite <- app_assoc in Hh0.
    destruct (stack_fixup_read w (read_hdr v TCMI_CKPT_VM_AREA_HEAVY 0) c0 _ Hr Hh0 Hz Hs) as (k1 & Hk1 & Hfix).
    rewrite (bind_ret _ _ _ _ _ Hfix). change (0 <? 0) with false. cbv iota.
    set (p1 := set_mem _ _) in *.
    pose proof (reading_adv k1 c0 _ p1 w Hr Hh0 Hk1) as Hr1. rewrite Hz in Hr1.
    pose proof (has_adv k1 c0 _ rest p1 w Hr Hh) as Hh1. rewrite Hz in Hh1.
    replace (S n - 1)%nat with n by lia.
    destruct n as [|n].
    + replace (vm_end v - vm_start v - PAGE_SIZE =? 0) with true by (unfold PAGE_SIZE in *; lia).
      exists k1, p1. split_and!; [done| |done]. cbn [pages_image]. by rewrite app_nil_r, Hz.
    + replace (vm_end v - vm_start v - PAGE_SIZE =? 0) with false by (unfold PAGE_SIZE in *; lia).
      destruct (map_area_read (adv k1 PAGE_SIZE p1 w) (mk_area (vm_start v + PAGE_SIZE) (vm_end v) (not_growing v)
        (vm_pgoff v) TCMI_CKPT_VM_AREA_HEAVY 0) (S n) pages Hr1) with (rest := rest) as (k2 & p2 & Hk2 & Hm2 & <-).
      { cbn. unfold PAGE_SIZE in *. lia. } { lia. } { unfold PAGE_SIZE in *. lia. }
      { cbn. unfold aligned, PAGE_SIZE in *. rewrite <- Z.add_mod_idemp_l, Hs by lia. done. }
      { cbn. unfold aligned, PAGE_SIZE in *. rewrite <- Z.add_mod_idemp_l, Hal by lia. done. }
      { done. } { exact Hh1. }
      exists k2. eexists. split_and!; [done| |reflexivity]. etrans; [exact Hm2|].
      cbn [va_start adv moved w_file set_file]. rewrite skip_skip, (zlen_app c0), Hz. done.
  - apply (map_area_read w (read_hdr v TCMI_CKPT_VM_AREA_HEAVY 0) (npages v) pages); try done.
    unfold PAGE_SIZE in *. lia.
Qed.

Lemma heavy_read w v pages :
  reading w -> wf_area v -> whole_pages pages ->
  reads (tcmi_ckpt_vm_area_read_h (read_hdr v TCMI_CKPT_VM_AREA_HEAVY 0)) w
    (zeros (pad (f_pos (w_file w))) ++ pages_image pages (npages v) (vm_start v))
    (eq (set_mem (restore_heavy pages v (p_mem (w_proc w))) (w_proc w))).
Proof.
  intros Hr Hv Hw rest Hh. destruct (align_read w Hr) as (k & r & Hk & Ha).
  destruct (page_align_pos (f_pos (w_file w)) ltac:(apply Hr)) as (_ & Hpad & Hal).
  assert (zlen (zeros (pad (f_pos (w_file w)))) = pad (f_pos (w_file w))) as Hz by (rewrite zlen_zeros; lia).
  pose proof Hh as Hh0. unfold has in Hh0. rewrite <- app_assoc in Hh0.
  pose proof (reading_adv k _ _ (w_proc w) w Hr Hh0 Hk) as Hr1. rewrite Hz in Hr1.
  destruct (heavy_pages_read _ v pages Hr1 Hv Hw Hal rest) as (k2 & p2 & Hk2 & Hm2 & HQ).
  { rewrite <- Hz. by eapply has_adv. }
  exists k2, p2. split_and!; [done| |done]. unfold tcmi_ckpt_vm_area_read_h. rewrite (bind_ret _ _ _ _ _ Ha).
  etrans; [exact Hm2|]. cbn [adv moved w_file set_file]. rewrite skip_skip, zlen_app, Hz. done.
Qed.

Lemma light_read w v name :
  reading w -> wf_area v -> is_cstring name -> zlen name + 1 <= PAGE_SIZE -> reopens name 0 0 ->
  reads (tcmi_ckpt_vm_area_read_l (read_hdr v TCMI_CKPT_VM_AREA_LIGHT (zlen name + 1))) w (name ++ [0])
    (eq (set_mem (map_pages (npages v) (vm_start v) (vm_pgoff v * PAGE_SIZE) (Named name) (prot_of v)
           (tcmi_ckpt_vm_area_to_mmap_flags (vm_flags v)) (p_mem (w_proc w))) (w_proc w))).
Proof.
  intros Hr Hv Hcs Hl Hro. pose proof (area_pages v Hv) as He. pose proof (npages_pos v Hv) as Hn.
  destruct Hv as (Hs & _ & Hrange & Hmax & _ & Hpg & _). pose proof (zlen_nonneg name).
  apply reads_with_block; [done|]. intros k1 Hr1. cbn [read_hdr va_pathname_size va_start va_end va_flags va_pgoff].
  rewrite swrap_id by (unfold srange, PAGE_SIZE in *; lia).
  apply reads_then_nil; [done|by rewrite zlen_app|rewrite zlen_app; change (zlen [0]) with 1; lia|]. intros k2 Hr2.
  eapply reads_valid; [rewrite <- (app_nil_r (name ++ [0])); by apply cstring_string|]. cbv zeta.
  eapply reads_call; [done|apply filp_open_ok; [apply Hr2|done]|]. intros k3 Hr3. cbn [negb].
  rewrite !uwrap_id by (unfold urange, PAGE_SIZE in *; lia).
  destruct (do_mmap_ok (Named name) (vm_start v) (npages v) (prot_of v) (tcmi_ckpt_vm_area_to_mmap_flags (vm_flags v))
    (vm_pgoff v * PAGE_SIZE) (p_mem (w_proc w)) k3) as (k4 & Hm & Hk4); [apply Hr3|done| |done|apply fixed_flags|done|].
  { unfold aligned. apply Z.mod_mul. done. }
  replace (vm_end v - vm_start v) with (Z.of_nat (npages v) * PAGE_SIZE) by lia.
  eapply reads_after; [by apply call_mem_ok|done|]. rewrite Z.eqb_refl. cbn [negb].
  eapply reads_end; [by destruct Hr3 as (_ & Hr3)|done|done|done].
Qed.

(** The area can be read on this node. *)
Definition area_reopens (v : vm_area_struct) : Prop :=
  forall name, vm_file v = Some name -> is_cstring name /\ zlen name + 1 <= PAGE_SIZE /\ reopens name 0 0.

Lemma read_hdr_ok v type size : wf_area v -> urange 32 type -> urange 32 size ->
  area_of (area_hdr v type size) = read_hdr v type size /\ zlen (area_hdr v type size) = 40.
Proof.
  intros (_ & _ & Hrange & Hmax & Hfl & Hpg & _) Ht Hs. unfold area_hdr, read_hdr.
  apply area_roundtrip; unfold urange; cbn [va_start va_end va_flags va_pgoff va_type va_pathname_size];
    first [exact Hfl | exact Ht | exact Hs | lia].
Qed.

Lemma area_read w v type pages :
  reading w -> wf_area v -> area_reopens v -> whole_pages pages ->
  reads tcmi_ckpt_vm_area_read w (area_image type pages (f_pos (w_file w)) v)
    (eq (set_mem (restore_area type pages v (p_mem (w_proc w))) (w_proc w))).
Proof.
  intros Hr Hv Hro Hw.
  assert (reads tcmi_ckpt_vm_area_read w (area_hdr v TCMI_CKPT_VM_AREA_HEAVY 0 ++ zeros (pad (f_pos (w_file w) + 40)) ++
     pages_image pages (npages v) (vm_start v))
    (eq (set_mem (restore_heavy pages v (p_mem (w_proc w))) (w_proc w)))) as Hheavy.
  { destruct (read_hdr_ok v TCMI_CKPT_VM_AREA_HEAVY 0 Hv) as [Ha Hz]; [done|done|].
    apply reads_then; [done|by rewrite Hz|by rewrite Hz|]. intros k Hr1. cbv beta zeta. rewrite Ha.
    apply reads_moved. rewrite Hz in Hr1 |- *. exact (heavy_read (adv k 40 (w_proc w) w) v pages Hr1 Hv Hw). }
  unfold area_image, restore_area. destruct (vm_file v) as [name|] eqn:Ef; [|done].
  destruct (writes_light type v); [|done]. destruct (Hro name Ef) as (Hcs & Hl & Hre). pose proof (zlen_nonneg name).
  destruct (read_hdr_ok v TCMI_CKPT_VM_AREA_LIGHT (zlen name + 1) Hv) as [Ha Hz];
    [done|unfold urange, PAGE_SIZE in *; lia|].
  apply reads_then; [done|by rewrite Hz|by rewrite Hz|]. intros k Hr1. cbv beta zeta. rewrite Ha.
  apply reads_moved. exact (light_read (adv k _ (w_proc w) w) v name Hr1 Hv Hcs Hl Hre).
Qed.

Lemma areas_read type pages l : forall w,
  reading w -> Forall wf_area l -> Forall area_reopens l -> whole_pages pages ->
  reads (read_loop (length l) tcmi_ckpt_vm_area_read 0) w (areas_image type pages (f_pos (w_file w)) l)
    (eq (set_mem (restore_areas type pages l (p_mem (w_proc w))) (w_proc w))).
Proof.
  induction l as [|v l IH]; intros w Hr Hl Hro Hw; cbn [length read_loop areas_image restore_areas].
  - apply (reads_ret _ (w_proc w)); [done|by destruct w|]. by destruct (w_proc w).
  - apply Forall_cons in Hl as [Hv Hl]. apply Forall_cons in Hro as [Hrv Hro].
    change (negb (0 =? 0)) with false. cbv iota. cbv zeta.
    eapply reads_bind; [done|by apply area_read|]. intros k p <- Hr1. apply reads_moved.
    exact (IH (adv k _ (set_mem _ (w_proc w)) w) Hr1 Hl Hro Hw).
Qed.

End areas.

(** ** Looking pages up *)

(** The page at the address [a] of an area, as it is restored. *)
Definition restored_page (type : Z) (pages : Z -> option (list Z)) (v : vm_area_struct) (a : Z) : page :=
  let own := mk_page (prot_of v)
    (tcmi_ckpt_vm_area_to_mmap_flags (if grows v && negb (a =? vm_start v) then not_growing v else vm_flags v))
    (Bytes (default (zeros PAGE_SIZE) (pages a))) in
  match vm_file v with
  | Some name =>
      if writes_light type v then
        mk_page (prot_of v) (tcmi_ckpt_vm_area_to_mmap_flags (vm_flags v))
          (Backed name (vm_pgoff v + (a - vm_start v) / PAGE_SIZE))
      else own
  | None => own
  end.

Definition in_area (v : vm_area_struct) (a : Z) : Prop := vm_start v <= a < vm_end v /\ aligned a.

Lemma own_pages_in pages n : forall addr prot flags m i, 0 <= i < Z.of_nat n ->
  own_pages pages n addr prot flags m !! (addr + i * PAGE_SIZE) =
  Some (mk_page prot flags (Bytes (default (zeros PAGE_SIZE) (pages (addr + i * PAGE_SIZE))))).
Proof.
  induction n as [|n IH]; intros addr prot flags m i Hi; [lia|]. cbn [own_pages].
  destruct (Z.eq_dec i 0) as [->|Hne].
  - rewrite Z.add_0_r. apply lookup_insert_eq.
  - rewrite lookup_insert_ne by (unfold PAGE_SIZE; lia).
    replace (addr + i * PAGE_SIZE) with (addr + PAGE_SIZE + (i - 1) * PAGE_SIZE) by (unfold PAGE_SIZE; lia).
    apply IH. lia.
Qed.
Lemma own_pages_out pages n : forall addr prot flags m a,
  (a < addr \/ addr + Z.of_nat n * PAGE_SIZE <= a) -> own_pages pages n addr prot flags m !! a = m !! a.
Proof.
  induction n as [|n IH]; intros addr prot flags m a Ha; [done|]. cbn [own_pages].
  rewrite lookup_insert_ne, IH by (unfold PAGE_SIZE in *; lia). done.
Qed.
Lemma named_pages_in name n : forall addr off prot flags m i, 0 <= i < Z.of_nat n ->
  map_pages n addr (off * PAGE_SIZE) (Named name) prot flags m !! (addr + i * PAGE_SIZE) =
  Some (mk_page prot flags (Backed name (off + i))).
Proof.
  induction n as [|n IH]; intros addr off prot flags m i Hi; [lia|]. cbn [map_pages src_page].
  destruct (Z.eq_dec i 0) as [->|Hne].
  - rewrite !Z.add_0_r, lookup_insert_eq, Z.div_mul by done. done.
  - rewrite lookup_insert_ne by (unfold PAGE_SIZE; lia).
    replace (addr + i * PAGE_SIZE) with (addr + PAGE_SIZE + (i - 1) * PAGE_SIZE) by (unfold PAGE_SIZE; lia).
    replace (off * PAGE_SIZE + PAGE_SIZE) with ((off + 1) * PAGE_SIZE) by (unfold PAGE_SIZE; lia).
    rewrite IH by lia. do 3 f_equal. lia.
Qed.
Lemma named_pages_out name n : forall addr off prot flags m a,
  (a < addr \/ addr + Z.of_nat n * PAGE_SIZE <= a) -> map_pages n addr off (Named name) prot flags m !! a = m !! a.
Proof.
  induction n as [|n IH]; intros addr off prot flags m a Ha; [done|]. cbn [map_pages].
  rewrite lookup_insert_ne, IH by (unfold PAGE_SIZE in *; lia). done.
Qed.

Lemma in_area_index v a : wf_area v -> in_area v a ->
  exists i, 0 <= i < Z.of_nat (npages v) /\ a = vm_start v + i * PAGE_SIZE.
Proof.
  intros Hv (Ha & Hal). pose proof (area_pages v Hv) as He. destruct Hv as (Hs & _).
  exists ((a - vm_start v) / PAGE_SIZE). unfold aligned, PAGE_SIZE in *.
  Z.to_euclidean_division_equations. lia.
Qed.

Lemma prot_not_growing v : Z.land (not_growing v) PROT_ALL = prot_of v.
Proof.
  unfold not_growing, prot_of. rewrite <- Z.land_assoc. done.
Qed.

Lemma restore_in type pages v m a : wf_area v -> in_area v a ->
  restore_area type pages v m !! a = Some (restored_page type pages v a).
Proof.
  intros Hv Ha. destruct (in_area_index v a Hv Ha) as (i & Hi & ->).
  assert (restore_heavy pages v m !! (vm_start v + i * PAGE_SIZE) = Some (mk_page (prot_of v)
    (tcmi_ckpt_vm_area_to_mmap_flags (if grows v && negb (vm_start v + i * PAGE_SIZE =? vm_start v) then not_growing v
      else vm_flags v)) (Bytes (default (zeros PAGE_SIZE) (pages (vm_start v + i * PAGE_SIZE)))))) as Hheavy.
  { unfold restore_heavy. destruct (grows v); cbn [andb]; [|by apply own_pages_in].
    destruct (Z.eq_dec i 0) as [->|Hne].
    - rewrite Z.add_0_r, Z.eqb_refl. cbn [negb]. rewrite own_pages_out by (unfold PAGE_SIZE; lia).
      apply lookup_insert_eq.
    - replace (_ =? vm_start v) with false by (unfold PAGE_SIZE; lia). cbn [negb].
      replace (vm_start v + i * PAGE_SIZE) with (vm_start v + PAGE_SIZE + (i - 1) * PAGE_SIZE) by (unfold PAGE_SIZE; lia).
      rewrite own_pages_in by lia. by rewrite prot_not_growing. }
  unfold restore_area, restored_page. destruct (vm_file v) as [name|]; [|done].
  destruct (writes_light type v); [|done]. rewrite named_pages_in by done.
  do 3 f_equal. replace (vm_start v + i * PAGE_SIZE - vm_start v) with (i * PAGE_SIZE) by lia. by rewrite Z.div_mul.
Qed.
Lemma restore_out type pages v m a : wf_area v -> (a < vm_start v \/ vm_end v <= a) ->
  restore_area type pages v m !! a = m !! a.
Proof.
  intros Hv Ha. pose proof (area_pages v Hv) as He. pose proof (npages_pos v Hv).
  assert (restore_heavy pages v m !! a = m !! a) as Hheavy.
  { unfold restore_heavy. destruct (grows v); [|apply own_pages_out; lia].
    rewrite own_pages_out by (unfold PAGE_SIZE in *; lia). rewrite lookup_insert_ne; [done|].
    unfold PAGE_SIZE in *. lia. }
  unfold restore_area. destruct (vm_file v); [|done]. destruct (writes_light type v); [|done].
  apply named_pages_out. lia.
Qed.

(** The areas are in the order of their addresses. *)
Definition in_order (l : list vm_area_struct) : Prop := StronglySorted (fun v v' => vm_end v <= vm_start v') l.

Lemma areas_out type pages l : forall m a, Forall wf_area l ->
  (forall v, v ∈ l -> a < vm_start v \/ vm_end v <= a) -> restore_areas type pages l m !! a = m !! a.
Proof.
  induction l as [|v l IH]; intros m a Hl Ha; [done|]. apply Forall_cons in Hl as [Hv Hl]. cbn [restore_areas].
  rewrite IH, restore_out; [done|done|apply Ha; set_solver|done|intros; apply Ha; set_solver].
Qed.
Lemma areas_in type pages l : forall m v a, Forall wf_area l -> in_order l -> v ∈ l -> in_area v a ->
  restore_areas type pages l m !! a = Some (restored_page type pages v a).
Proof.
  induction l as [|v0 l IH]; intros m v a Hl Hs Hin Ha; [by apply not_elem_of_nil in Hin|].
  apply Forall_cons in Hl as [Hv Hl]. apply StronglySorted_inv in Hs as [Hs Hlt]. cbn [restore_areas].
  apply elem_of_cons in Hin as [->|Hin].
  - rewrite areas_out; [by apply restore_in|done|]. intros v' Hv'. rewrite Forall_forall in Hlt.
    pose proof (Hlt _ Hv'). destruct Ha as [? _]. cbn in *. lia.
  - by apply IH.
Qed.
