(* ===== verification/CkptRestart.v ===== *)
(** Restarting from the image of a process. *)

From Stdlib Require Import Sorted.
From stdpp Require Import gmap.
From S2P Require Import Prelude Effect KkcAddr NpmParams CkptKernel CkptArch Ckpt CkptOps CkptCom CkptImage.
From S2P Require Import CkptWrite CkptSave CkptRead CkptFiles CkptAreas.

(** ** What is restored *)

(** The registers [r'] with which the thread goes on: an interrupted system call is made again,
    and the kernel's [start_thread] has set the segments and the flags, whatever the saved ones
    were. *)
Definition resumed (r r' : pt_regs) : Prop :=
  let ax := if is_in_syscall r then r_orig_ax r else r_ax r in
  let ip := if is_in_syscall r then u64[r_ip r - 2] else r_ip r in
  r' = mk_regs (r_r15 r) (r_r14 r) (r_r13 r) (r_r12 r) (r_bp r) (r_bx r) (r_r11 r) (r_r10 r) (r_r9 r) (r_r8 r)
         ax (r_cx r) (r_dx r) (r_si r) (r_di r) ax ip __USER_CS X86_EFLAGS_IF (r_sp r) __USER_DS.

(** Everything but memory and registers. *)
Record same_process (names : Z -> list Z) (p q : proc) : Prop := {
  sp_comm : p_comm q = strncpy 16 (p_comm p);
  sp_rlim : p_rlim q = p_rlim p;
  sp_files : files_match (p_files p) names (tcmi_ckpt_foreach_openfile (p_files p)) (p_files q);
  sp_mm : p_mm q = no_areas (p_mm p);
  sp_thread : p_thread q = p_thread p;
  sp_pwd : p_pwd q = p_pwd p;
  sp_sig : p_sig q = p_sig p
}.

(** The address space: exactly the pages of the areas. *)
Definition same_memory (type : Z) (pages : Z -> option (list Z)) (p q : proc) : Prop :=
  (forall v a, v ∈ saved p -> in_area v a -> p_mem q !! a = Some (restored_page type pages v a)) /\
  (forall a, (forall v, v ∈ saved p -> a < vm_start v \/ vm_end v <= a) -> p_mem q !! a = None).

Section restart.
Context `{HL : KernelLaws}.

(** The process can be restored here. *)
Record restorable (names : Z -> list Z) (pages : Z -> option (list Z)) (p : proc) (regs : pt_regs) : Prop := {
  t_64bit : p_ia32 p = false;
  t_counts : zlen (tcmi_ckpt_foreach_openfile (p_files p)) < 2 ^ 31 /\ zlen (saved p) < 2 ^ 31;
  t_rlim : length (p_rlim p) = RLIM_NLIMITS /\ Forall (fits 8) (flat_rlim (p_rlim p));
  t_limit : fd_limit <= 2 ^ 31;
  t_files : reopenable_files (p_files p) names (tcmi_ckpt_foreach_openfile (p_files p));
  t_mm : Forall (fits 8) (mm_fields (p_mm p));
  t_areas : Forall wf_area (saved p) /\ Forall area_reopens (saved p) /\ in_order (saved p);
  t_pages : whole_pages pages;
  t_regs : wf_regs regs;
  t_thread : wf_thread (p_thread p);
  t_pwd : is_cstring (p_pwd p) /\ zlen (p_pwd p) + 1 < 2 ^ 31 /\ is_dir (p_pwd p);
  t_sig : length (sig_action (p_sig p)) = _NSIG /\ Forall (fits 8) (sig_fields (p_sig p))
}.

Lemma openfiles_nodup fs : NoDup (tcmi_ckpt_foreach_openfile fs).*1.
Proof.
  unfold tcmi_ckpt_foreach_openfile. pose proof (NoDup_seqZ 0 (max_fds fs)) as Hnd.
  induction Hnd as [|x l Hx _ IH]; [constructor|]. cbn [omap list_omap].
  destruct (fdt fs !! x) as [a|]; cbn [mbind option_bind]; [|done]. cbn [fmap list_fmap fst]. constructor; [|done].
  intros ([fd b] & -> & Hin)%list_elem_of_fmap. apply Hx. apply list_elem_of_omap in Hin as (y & Hy & Hm).
  destruct (fdt fs !! y); cbn in Hm; [|done]. by injection Hm as -> _.
Qed.

Lemma hdr_for_wf names pages p regs r : restorable names pages p regs -> wf_hdr (hdr_for p r).
Proof.
  intros [Hb [H1 H2] _ _ _ _ _ _ _ _ _ _]. unfold wf_hdr, hdr_for. cbn [magic map_count file_count checkpoint_arch
    is_32bit_application is_npm hdr_comm].
  pose proof (zlen_nonneg (saved p)). pose proof (zlen_nonneg (tcmi_ckpt_foreach_openfile (p_files p))).
  pose proof (zlen_strncpy 16 (p_comm p)) as Hz. unfold zlen in Hz at 1.
  assert (0 <= Z.b2z (is_execve r) < 2) by (destruct (is_execve r); cbn; lia).
  rewrite Hb. split_and!; try done; lia.
Qed.

(** The descriptors in use refer to files. *)
Definition wf_files (fs : files_struct) : Prop := forall fd a, fdt fs !! fd = Some a -> is_Some (filps fs !! a).

Lemma file_count_total fs w : wf_files fs -> forall l n, (forall e, e ∈ l -> is_Some (filps fs !! e.2)) ->
  exists r, file_count_loop l fs n w = Ret r w.
Proof.
  intros _ l. induction l as [|[fd a] l IH]; intros n Hl; [by eexists|]. cbn [file_count_loop].
  destruct (Hl (fd, a)) as [f Hf]; [set_solver|]. cbn in Hf. rewrite Hf. unfold valid. run.
  destruct (negb _); [by eexists|]. apply IH. intros. apply Hl. set_solver.
Qed.
Lemma file_count_runs w : wf_files (p_files (w_proc w)) -> exists r, tcmi_ckpt_file_count w = Ret r w.
Proof.
  intros Hw. apply (file_count_total _ w Hw). intros [fd a] [_ Hf]%openfile_elem. by eapply Hw.
Qed.

Lemma match_wf src names l fs : files_match src names l fs ->
  (forall fd a, (fd, a) ∈ l -> is_Some (filps src !! a)) -> wf_files fs.
Proof.
  intros (phi & M1 & _ & M3) Hsrc fd b Hb. apply M1 in Hb as (a & Hin & <-).
  destruct (Hsrc _ _ Hin) as [f Hf]. destruct (M3 _ _ _ Hin Hf) as (m & i & ->). by eexists.
Qed.

(** The header. *)
Lemma hdr_read w h h0 rest :
  reading w -> w_ckpt w = Some (mk_ckpt None h0 1) -> has w (hdr_bytes h) rest -> wf_hdr h ->
  checkpoint_arch h = ARCH_CURRENT -> is_32bit_application h = 0 -> wf_files (p_files (w_proc w)) ->
  exists k, healthy k /\ tcmi_ckpt_read_hdr w =
    Ret 0 (adv k 34 (set_comm (strncpy 16 (hdr_comm h)) (w_proc w))
      (set_live (B_entries :: B_fdcache :: w_live w)
        (set_ckpt (Some (mk_ckpt (Some (mk_fdcache [] (file_count h) 1)) h 1)) w))).
Proof.
  intros Hr Hc Hh Hwf Harch H32 Hfiles. pose proof Hwf as (Hm & _ & _ & _ & _ & _ & Hcomm).
  pose proof (zlen_hdr_bytes h Hcomm) as Hz.
  destruct (ckpt_read_ok 34 (hdr_bytes h) rest w Hr Hh ltac:(lia)) as (k1 & Hk1 & Hrd). rewrite Hz in Hrd.
  unfold tcmi_ckpt_read_hdr. rewrite (bind_ret _ _ _ _ _ Hrd). change (0 <? 0) with false. cbv iota.
  rewrite hdr_roundtrip by done.
  assert (upd_hdr (fun _ => h) (adv k1 34 (w_proc w) w) = Ret tt (set_ckpt (Some (mk_ckpt None h 1)) (adv k1 34 (w_proc w) w))) as Hu.
  { unfold upd_hdr, upd_ckpt, self, valid. run. cbn. by rewrite Hc. }
  rewrite (bind_ret _ _ _ _ _ Hu). set (w1 := set_ckpt _ _).
  assert (self w1 = Ret (mk_ckpt None h 1) w1) as Hs by done.
  rewrite (bind_ret _ _ _ _ _ Hs). cbn [ck_hdr]. rewrite Hm.
  change (negb (u32[s32[TCMI_CKPT_MAGIC]] =? TCMI_CKPT_MAGIC)) with false. cbv iota.
  destruct (fdcache_init_ok w1 (mk_ckpt None h 1) Hk1 eq_refl) as (k2 & Hk2 & Hi).
  rewrite (bind_ret _ _ _ _ _ Hi). change (0 <? 0) with false. cbv iota.
  match type of Hi with _ = Ret _ ?x => destruct (file_count_runs x Hfiles) as (n & Hn); set (w2 := x) in * end.
  rewrite (bind_ret _ _ _ _ _ Hn). exists k2. split; [done|].
  seq_step ltac:(done). rewrite H32, Harch. cbn [negb Z.eqb]. done.
Qed.

(** The chunks from the limits on. *)
Lemma files_chunk w names p c :
  reading w -> w_ckpt w = Some c -> file_count (ck_hdr c) = zlen (tcmi_ckpt_foreach_openfile (p_files p)) ->
  fd_limit <= 2 ^ 31 -> fdt (p_files (w_proc w)) = ∅ ->
  reopenable_files (p_files p) names (tcmi_ckpt_foreach_openfile (p_files p)) ->
  reads tcmi_ckpt_read_files w (files_image names (p_files p) [] (tcmi_ckpt_foreach_openfile (p_files p)))
    (fun q => exists fs, q = set_files fs (w_proc w) /\
       files_match (p_files p) names (tcmi_ckpt_foreach_openfile (p_files p)) fs).
Proof.
  intros Hr Hc Hn Hlim Hempty Hro rest Hh. set (l := tcmi_ckpt_foreach_openfile (p_files p)) in *.
  assert (files_match (p_files p) names [] (p_files (w_proc w))) as HM.
  { exists (fun x => x). split_and!.
    - intros fd b. rewrite Hempty, lookup_empty. split; [done|]. intros (a & Ha & _). by apply not_elem_of_nil in Ha.
    - intros fd a fd' a' Ha. by apply not_elem_of_nil in Ha.
    - intros fd a f Ha. by apply not_elem_of_nil in Ha. }
  destruct (files_read (p_files p) names l [] w Hr Hlim HM Hro (openfiles_nodup _) rest Hh)
    as (k & q & Hk & Hm & fs & -> & HM').
  exists k, (set_files fs (w_proc w)). split_and!; [done| |by exists fs].
  unfold tcmi_ckpt_read_files. assert (self w = Ret c w) as Hs by (unfold self, valid; run; by rewrite Hc).
  rewrite (bind_ret _ _ _ _ _ Hs), Hn. unfold zlen at 1. rewrite Nat2Z.id, (bind_ret _ _ _ _ _ Hm).
  match type of Hm with _ = Ret _ ?x => destruct (file_count_runs x) as (n & Hcnt) end.
  { eapply match_wf; [exact HM'|]. intros fd a Hin. unfold reopenable_files in Hro. rewrite Forall_forall in Hro.
    destruct (Hro _ Hin) as (_ & f & Hf & _). by exists f. }
  by rewrite (bind_ret _ _ _ _ _ Hcnt).
Qed.

Lemma areas_chunk w type pages l c :
  reading w -> w_ckpt w = Some c -> map_count (ck_hdr c) = zlen l ->
  Forall wf_area l -> Forall area_reopens l -> whole_pages pages ->
  reads tcmi_ckpt_read_vmas w (areas_image type pages (f_pos (w_file w)) l)
    (eq (set_mem (restore_areas type pages l (p_mem (w_proc w))) (w_proc w))).
Proof.
  intros Hr Hc Hn Hl Hro Hw rest Hh. destruct (areas_read type pages l w Hr Hl Hro Hw rest Hh) as (k & q & Hk & Hm & <-).
  exists k. eexists. split_and!; [done| |reflexivity].
  unfold tcmi_ckpt_read_vmas. assert (self w = Ret c w) as Hs by (unfold self, valid; run; by rewrite Hc).
  rewrite (bind_ret _ _ _ _ _ Hs), Hn. unfold zlen at 1. rewrite Nat2Z.id, (bind_ret _ _ _ _ _ Hm).
  unfold tcmi_ckpt_map_count, self, valid, proc_. run. cbn [moved w_ckpt set_file set_k set_proc]. rewrite Hc. run. done.
Qed.

(** ** Both kinds of restart *)

Lemma reads_step (m : M Z) w b1 b2 rest Q :
  reading w -> reads m w b1 Q -> has w (b1 ++ b2) rest ->
  exists k p, m w = Ret 0 (adv k (zlen b1) p w) /\ reading (adv k (zlen b1) p w) /\
    has (adv k (zlen b1) p w) b2 rest /\ Q p.
Proof.
  intros Hr Hm Hh. pose proof Hh as Hh'. unfold has in Hh'. rewrite <- app_assoc in Hh'.
  destruct (Hm _ Hh') as (k & p & Hk & Hw & HQ). exists k, p.
  split_and!; [exact Hw|by eapply reading_adv|by eapply has_adv|done].
Qed.

(** One chunk of the restart. *)
Ltac rchunk L k Hr Hh HQ :=
  let Hm := fresh in let Hr' := fresh in let Hh' := fresh in let q := fresh "q" in
  destruct (reads_step _ _ _ _ _ _ Hr L Hh) as (k & q & Hm & Hr' & Hh' & HQ);
  rewrite (bind_ret _ _ _ _ _ Hm); change (0 <? 0) with false; cbv iota; clear Hr Hh;
  rename Hr' into Hr; rename Hh' into Hh.

(** A process that is about to be replaced: only its standard input may be open. *)
Definition replaceable (p : proc) : Prop :=
  wf_files (p_files p) /\ forall fd a, fdt (p_files p) !! fd = Some a -> fd = 0.

Definition loaded (h : tcmi_ckpt_hdr) : tcmi_ckpt := mk_ckpt (Some (mk_fdcache [] (file_count h) 1)) h 1.

(** Standard input is closed. *)
Lemma close_stdin (w : cw) : reading w -> (forall fd a, fdt (p_files (w_proc w)) !! fd = Some a -> fd = 0) ->
  exists k fs, reading (set_proc (set_files fs (w_proc w)) (set_k k w)) /\ fdt fs = ∅ /\
    when (bool_decide (is_Some (fdt (p_files (w_proc w)) !! 0)))
      (call_files (fun fs k => let '(fs, k) := sys_close 0 fs k in (tt, fs, k))) w =
    Ret tt (set_proc (set_files fs (w_proc w)) (set_k k w)).
Proof.
  intros Hr Hone. set (t := p_files (w_proc w)) in *. destruct (fdt t !! 0) as [a|] eqn:E.
  - rewrite bool_decide_true by (by eexists). cbn [when].
    destruct (close_ok 0 t a (w_k w) (proj1 Hr) E) as (fp' & k & Hc & Hk & _).
    exists k, (mk_files (delete 0 (fdt t)) (max_fds t) fp'). split_and!.
    + by destruct Hr as (_ & Hr).
    + cbn. apply map_eq. intros i. rewrite lookup_empty. destruct (decide (i = 0)) as [->|Hi];
        [apply lookup_delete_eq|]. rewrite lookup_delete_ne by done.
      destruct (fdt t !! i) eqn:Ei; [|done]. by apply Hone in Ei.
    + apply call_files_ok. fold t. by rewrite Hc.
  - rewrite bool_decide_false by (by intros [? ?]). cbn [when].
    exists (w_k w), t. assert (set_proc (set_files t (w_proc w)) (set_k (w_k w) w) = w) as ->.
    { subst t. unfold set_files, set_proc. cbn. destruct w as [? ? ? []]. done. }
    split_and!; [done| |done].
    apply map_eq. intros i. rewrite lookup_empty. destruct (fdt t !! i) eqn:Ei; [|done].
    pose proof (Hone _ _ Ei) as ->. congruence.
Qed.

(** The new process image: what is there after the chunks that both kinds have. *)
Definition chunks_read (names : Z -> list Z) (pages : Z -> option (list Z)) (p : proc) (regs : pt_regs) (r : rest) (q : proc) : Prop :=
  same_process names p q /\ p_regs q = started regs /\
  match r with
  | In_memory type => p_mem q = restore_areas type pages (saved p) ∅
  | Execve _ _ _ _ => True
  end.

(** The world while the chunks are read: the allocated blocks, the object, the file. *)
Definition loading (h : tcmi_ckpt_hdr) (w : cw) : cw :=
  set_ckpt (Some (loaded h)) (set_live (B_entries :: B_fdcache :: B_ckpt :: B_regs :: w_live w)
    (set_file (mk_cfile 0 (f_data (w_file w)) (f_count (w_file w) + 1)) w)).

Lemma flush_step (w : cw) p k (m : M Z) :
  flush_old_exec (w_proc w) (w_k w) = (0, p, k) ->
  (q ← proc_; k ← gets w_k;
   let '(r, q, k) := flush_old_exec q k in
   modify (set_k k);; upd_proc (fun _ => q);; if negb (r =? 0) then mret (- ENOEXEC) else m) w =
  m (set_proc p (set_k k w)).
Proof. intros Hf. unfold proc_, upd_proc. run. by rewrite Hf. Qed.

(** Up to the end of the old process image. *)
Lemma restart_begins w base params names pages p regs r tl :
  healthy (w_k w) -> f_data (w_file w) = hdr_bytes (hdr_for p r) ++ tl -> restorable names pages p regs ->
  replaceable (w_proc w) ->
  exists k q, q = set_mem ∅ (set_files (p_files q) (set_comm (strncpy 16 (p_comm p)) (w_proc w))) /\
    (forall fd a, fdt (p_files q) !! fd = Some a -> fd = 0) /\
    reading (adv k 34 q (loading (hdr_for p r) w)) /\ has (adv k 34 q (loading (hdr_for p r) w)) tl [] /\
    tcmi_ckptcom_restart base params w = restart_chunks base params (adv k 34 q (loading (hdr_for p r) w)).
Proof.
  intros Hk Htl Ht [Hwf Hone]. pose proof (hdr_for_wf names pages p regs r Ht) as Hhdr.
  destruct (kmalloc_ok B_regs w Hk) as (k0 & Ha & Hk0). unfold tcmi_ckptcom_restart.
  rewrite (bind_ret _ _ _ _ _ Ha). cbn [negb]. set (w0 := set_k k0 _).
  assert (gets w_file w0 = Ret (w_file w) w0) as Hg by done. rewrite (bind_ret _ _ _ _ _ Hg).
  assert (tcmi_ckpt_check_magic (ztake 128 (f_data (w_file w))) = true) as -> by (rewrite Htl; by apply hdr_magic).
  cbn [negb]. destruct (new_ok w0 Hk0) as (k1 & Hk1 & Hnew). rewrite (bind_ret _ _ _ _ _ Hnew). cbv iota.
  match type of Hnew with _ = Ret _ ?x => set (w1 := x) in * end.
  assert (reading w1) as Hr1 by (split_and!; [done|by eexists|done|apply zlen_nonneg]).
  assert (has w1 (hdr_bytes (hdr_for p r) ++ tl) []) as Hh1.
  { unfold has. cbn. by rewrite app_nil_r, zdrop_0. }
  assert (has w1 (hdr_bytes (hdr_for p r)) tl) as Hh1' by (unfold has in *; by rewrite app_nil_r in Hh1).
  destruct (hdr_read w1 (hdr_for p r) _ tl Hr1 eq_refl Hh1' Hhdr eq_refl) as (k2 & Hk2 & Hrd); [|exact Hwf|].
  { cbn. by rewrite (t_64bit _ _ _ _ Ht). }
  rewrite (bind_ret _ _ _ _ _ Hrd). change (0 <? 0) with false. cbv iota.
  assert (zlen (hdr_bytes (hdr_for p r)) = 34) as Hz by (apply zlen_hdr_bytes, Hhdr).
  set (p1 := set_comm (strncpy 16 (p_comm p)) (w_proc w)).
  destruct (flush_ok p1 k2 Hk2) as (fs & k3 & Hf & Hk3 & Hsub).
  set (q := set_mem ∅ (set_files fs p1)).
  pose proof (reading_adv k3 _ _ q _ Hr1 Hh1' Hk3) as Hr2. pose proof (has_adv k3 _ _ _ q _ Hr1 Hh1) as Hh2.
  rewrite Hz in Hr2, Hh2. exists k3, q. split_and!; [done| | | |].
  - intros fd a Hfd. eapply Hone. eapply lookup_weaken; [exact Hfd|exact Hsub].
  - destruct Hr2 as (? & _ & ? & ?). split_and!; try done.
  - exact Hh2.
  - cbn [hdr_comm hdr_for]. rewrite strncpy_idem. exact (flush_step (adv k2 34 p1 (loading (hdr_for p r) w)) _ _ _ Hf).
Qed.

Lemma hdr_is64 p r : p_ia32 p = false -> is32 (hdr_for p r) = false.
Proof. unfold is32, hdr_for. cbn. by intros ->. Qed.

(** The memory of a process that continues in memory. *)
Lemma memory_read w names pages p regs r :
  reading w -> w_ckpt w = Some (loaded (hdr_for p r)) -> restorable names pages p regs ->
  f_pos (w_file w) = zlen (head_image names p r) ->
  reads (if is_execve r then mret 0 else tcmi_ckpt_read_vmas) w (memory_image names pages p r)
    (fun q => q = set_mem (match r with
       | In_memory type => restore_areas type pages (saved p) (p_mem (w_proc w))
       | Execve _ _ _ _ => p_mem (w_proc w) end) (w_proc w)).
Proof.
  intros Hr Hc Ht Hpos. destruct (t_areas _ _ _ _ Ht) as (Ha1 & Ha2 & _). destruct r as [type|].
  - cbn [is_execve memory_image]. rewrite <- Hpos. intros rest Hh.
    destruct (areas_chunk w type pages (saved p) _ Hr Hc eq_refl Ha1 Ha2 (t_pages _ _ _ _ Ht) rest Hh)
      as (k & q & Hk & Hm & <-).
    exists k. eexists. done.
  - apply (reads_ret _ (w_proc w)); [done|by destruct w|]. by destruct (w_proc w).
Qed.

(** All the chunks. *)
Lemma restart_reads w base params names pages p regs r :
  healthy (w_k w) -> f_data (w_file w) = image names pages p regs r -> restorable names pages p regs ->
  replaceable (w_proc w) ->
  exists k q n, reading (adv k n q (loading (hdr_for p r) w)) /\
    has (adv k n q (loading (hdr_for p r) w)) (last_image r) [] /\ chunks_read names pages p regs r q /\
    tcmi_ckptcom_restart base params w =
    (if is_execve r then restart_npm base params (p_regs (w_proc w)) else
     c ← self; tcmi_resolve_restart_block (is32 (ck_hdr c));; kfree B_regs;; tcmi_ckpt_put;; mret 0)
      (adv k n q (loading (hdr_for p r) w)).
Proof.
  intros Hk Hd Ht Hrep. unfold image, head_image, tail_image in Hd. fold (last_image r) in Hd.
  rewrite <- !app_assoc in Hd.
  destruct (restart_begins w base params names pages p regs r _ Hk Hd Ht Hrep)
    as (k1 & q & Hq & Hone & Hr & Hh & ->). unfold restart_chunks.
  pose proof Ht as [H64 _ [Hl1 Hl2] Hlim Hfiles Hmm _ _ Hregs Hthread (Hp1 & Hp2 & Hp3) [Hs1 Hs2]].
  set (w1 := adv k1 34 q _) in *.
  rchunk (rlimit_read w1 (p_rlim p) Hr Hl1 Hl2) k2 Hr Hh HQ2.
  match type of Hr with reading ?x => set (w2 := x) in * end.
  assert (proc_ w2 = Ret (w_proc w2) w2) as Hpr by done. rewrite (bind_ret _ _ _ _ _ Hpr). clear Hpr.
  destruct (close_stdin w2 Hr) as (k3 & fs & Hr3 & Hempty & Hcl). { cbn. subst q0. exact Hone. }
  rewrite (bind_ret _ _ _ _ _ Hcl). clear Hcl Hr.
  match type of Hr3 with reading ?x => set (w3 := x) in * end.
  assert (has w3 _ _) as Hh3 by exact Hh.
  rchunk (files_chunk w3 names p _ Hr3 eq_refl eq_refl Hlim Hempty Hfiles) k4 Hr3 Hh3 HQ4.
  destruct HQ4 as (fs4 & -> & HM).
  rchunk (mm_read _ (p_mm p) Hr3 Hmm) k5 Hr3 Hh3 HQ5. subst q1.
  match type of Hr3 with reading ?x => set (w5 := x) in * end.
  assert (self w5 = Ret (loaded (hdr_for p r)) w5) as Hs by done. rewrite (bind_ret _ _ _ _ _ Hs). clear Hs.
  cbv zeta. cbn [loaded ck_hdr is_npm hdr_for].
  replace (negb (Z.b2z (is_execve r) =? 0)) with (is_execve r) by (by destruct (is_execve r)).
  assert (f_pos (w_file w5) = zlen (head_image names p r)) as Hpos.
  { unfold head_image. rewrite !zlen_app, (zlen_hdr_bytes (hdr_for p r)) by (apply (hdr_for_wf names pages p regs r Ht)).
    cbn -[Z.add]. lia. }
  rchunk (memory_read w5 names pages p regs r Hr3 eq_refl Ht Hpos) k6 Hr3 Hh3 HQ6. subst q1.
  match type of Hr3 with reading ?x => set (w6 := x) in * end.
  assert (proc_ w6 = Ret (w_proc w6) w6) as Hpr by done. rewrite (bind_ret _ _ _ _ _ Hpr). clear Hpr. cbv zeta.
  rchunk (regs_read w6 _ regs Hr3 eq_refl eq_refl (hdr_is64 _ _ H64) Hregs) k7 Hr3 Hh3 HQ7. subst q1.
  match type of Hr3 with reading ?x => set (w7 := x) in * end.
  rchunk (tls_read w7 _ (p_thread p) Hr3 eq_refl eq_refl Hthread) k8 Hr3 Hh3 HQ8. subst q1.
  match type of Hr3 with reading ?x => set (w8 := x) in * end.
  rchunk (fsstruct_read w8 p Hr3 Hp1 Hp2 Hp3) k9 Hr3 Hh3 HQ9. subst q1.
  match type of Hr3 with reading ?x => set (w9 := x) in * end.
  rchunk (sig_read w9 (p_sig p) Hr3 Hs1 Hs2) k10 Hr3 Hh3 HQ10. subst q1.
  match type of Hr3 with reading ?x => set (w10 := x) in * end.
  exists (w_k w10), (w_proc w10), (f_pos (w_file w10)).
  assert (adv (w_k w10) (f_pos (w_file w10)) (w_proc w10) (loading (hdr_for p r) w) = w10) as ->.
  { reflexivity. }
  split_and!; [exact Hr3|exact Hh3| |].
  - subst q0. split; [|split; [done|]].
    + split; try done. cbn. by rewrite Hq.
    + destruct r; [|done]. cbn. by rewrite Hq.
  - assert (p_regs (w_proc w6) = p_regs (w_proc w)) as <- by (subst q0; cbn; by rewrite Hq). done.
Qed.
End restart.
