(* ===== verification/CkptRound.v ===== *)
(** Migration of a process through a checkpoint file: what [tcmi_ckptcom_checkpoint] saves on
    one node, [tcmi_ckptcom_restart] restores on another one.  The two nodes have kernels of
    their own. *)

From Stdlib Require Import Sorted.
From stdpp Require Import gmap.
From S2P Require Import Prelude Effect KkcAddr NpmParams CkptKernel CkptArch Ckpt CkptOps CkptCom CkptImage.
From S2P Require Import CkptWrite CkptSave CkptRead CkptFiles CkptAreas CkptRestart.

Section restart.
Context `{HL : KernelLaws}.

(** ** A process that continues in memory *)



Lemma same_process_regs names p q r : same_process names p q -> same_process names p (set_regs r q).
Proof. intros []. by split. Qed.


(** ** A process that does an execve *)

Lemma read_step {B} cap d rest w :
  reading w -> has w (d ++ rest) [] -> zlen d <= cap ->
  exists k, reading (adv k (zlen d) (w_proc w) w) /\ has (adv k (zlen d) (w_proc w) w) rest [] /\
    forall e m : list Z -> M B,
    ('(r, x) ← tcmi_ckpt_read cap (zlen d); if r <? 0 then e x else m x) w = m d (adv k (zlen d) (w_proc w) w).
Proof.
  intros Hr Hh Hc. pose proof Hh as Hh'. unfold has in Hh'. rewrite app_nil_r in Hh'.
  destruct (ckpt_read_ok cap d rest w Hr Hh' Hc) as (k & Hk & Hm). exists k.
  split_and!; [by eapply reading_adv|by eapply has_adv|]. intros. by rewrite (bind_ret _ _ _ _ _ Hm).
Qed.

(** The next field is read. *)
Ltac next_field cap Hr Hh :=
  let k := fresh "k" in let E := fresh in let Hr' := fresh in let Hh' := fresh in
  match type of Hh with has ?w (?d ++ _) _ =>
    destruct (read_step (B := Z * tcmi_npm_params) cap d _ w Hr Hh) as (k & Hr' & Hh' & E);
    [first [done|rewrite zlen_app; assumption]|]
  end;
  rewrite E; clear E Hr Hh; rename Hr' into Hr; rename Hh' into Hh; cbv beta.

Definition npm_restored (params : tcmi_npm_params) (name data : list Z) (ac ec : Z) : tcmi_npm_params :=
  mk_npm (blit 0 (name ++ [0]) (file_name params)) ac ec (args params) (envp params)
    (used_data_length params) (blit 0 data (npm_data params)).

Lemma le_value_s4 v : 0 <= v < 2 ^ 31 -> s32[le_value (le_bytes 4 v)] = v.
Proof. intros Hv. rewrite le_value_u4, (swrap_id 32 eq_refl) by (unfold urange, srange; lia). done. Qed.

Lemma npm_params_read_ok w base params name data ac ec p' :
  reading w -> has w (npm_image name data ac ec) [] -> 0 <= ac < 256 -> 0 <= ec < 256 ->
  zlen name + 1 <= NPM_FILENAME_MAX -> zlen data <= NPM_DATA_SIZE_MAX ->
  fixup_npm_params_pointers base (npm_restored params name data ac ec) = Some (0, p') ->
  exists k n, tcmi_ckpt_npm_params_read base params w = Ret (0, p') (adv k n (w_proc w) w).
Proof.
  intros Hr Hh Hac Hec Hname Hdata Hfix. unfold tcmi_ckpt_npm_params_read.
  pose proof (zlen_nonneg name). pose proof (zlen_nonneg data).
  assert (zlen (name ++ [0]) = zlen name + 1) as Hz by (by rewrite zlen_app).
  cbv [NPM_FILENAME_MAX PATH_MAX NPM_DATA_SIZE_MAX PAGE_SIZE MAX_ARG_PAGES] in Hname, Hdata.
  unfold npm_image in Hh. next_field 1 Hr Hh. next_field 1 Hr Hh. next_field 4 Hr Hh.
  rewrite le_value_s4, <- Hz by lia. next_field NPM_FILENAME_MAX Hr Hh. next_field 4 Hr Hh.
  rewrite le_value_s4 by lia. match type of Hh with has ?x _ _ => assert (has x (data ++ []) []) as Hh' by (by rewrite app_nil_r) end.
  clear Hh; rename Hh' into Hh. next_field NPM_DATA_SIZE_MAX Hr Hh. rewrite !le_value_u1 by done.
  fold (npm_restored params name data ac ec). rewrite Hfix. do 2 eexists. rewrite !adv_adv. reflexivity.
Qed.

Lemma restart_executes w base params names pages p regs name data ac ec p' :
  healthy (w_k w) -> f_data (w_file w) = image names pages p regs (Execve name data ac ec) ->
  restorable names pages p regs -> replaceable (w_proc w) ->
  0 <= ac < 256 -> 0 <= ec < 256 -> zlen name + 1 <= NPM_FILENAME_MAX -> zlen data <= NPM_DATA_SIZE_MAX ->
  fixup_npm_params_pointers base (npm_restored params name data ac ec) = Some (0, p') ->
  cstring (file_name p') = Some name ->
  exists k n q er k', do_execve name p' k = (er, k') /\
    tcmi_ckptcom_restart base params w = Ret (if negb (er =? 0) then - EFAULT else 0)
      (moved k' (mk_cfile n (f_data (w_file w)) (f_count (w_file w)))
         (set_execs (w_execs w ++ [(name, p')]) (set_live (B_regs :: w_live w) (set_ckpt None (set_proc q w))))) /\
    same_process names p q /\ p_regs q = p_regs (w_proc w).
Proof.
  intros Hk Hd Ht Hrep Hac Hec Hname Hdata Hfix Hcs.
  destruct (restart_reads w base params names pages p regs _ Hk Hd Ht Hrep) as (k & q & n & Hr & Hh & (Hsame & _) & ->).
  cbn [is_execve last_image] in *. unfold restart_npm.
  destruct (kmalloc_ok B_params _ (proj1 Hr)) as (k1 & Ha & Hk1). rewrite (bind_ret _ _ _ _ _ Ha).
  match goal with |- context [(upd_proc ?f ≫= ?g) ?x] => set (w1 := x); set (w2 := set_proc (f (w_proc x)) x);
    assert (upd_proc f x = Ret tt w2) as Hu by done; rewrite (bind_ret _ _ _ _ _ Hu) end.
  assert (reading w2) as Hr2 by (destruct Hr as (_ & Hr); done).
  destruct (npm_params_read_ok w2 base params name data ac ec p' Hr2 Hh Hac Hec Hname Hdata Hfix) as (k2 & m & Hm).
  cbn [negb]. rewrite (bind_ret _ _ _ _ _ Hm). change (0 <? 0) with false. cbv iota beta.
  match goal with |- context [(tcmi_ckpt_put ≫= _) ?x] =>
    rewrite (bind_ret _ _ x _ _ (put_ok x _ _ eq_refl eq_refl eq_refl eq_refl)) end.
  rewrite Hcs. unfold call. destruct (do_execve name p' k2) as [er k3] eqn:He.
  exists k2, (f_pos (w_file (adv k2 m (w_proc w2) w2))), (set_regs (p_regs (w_proc w)) q), er, k3.
  split; [exact He|]. run. cbn [w_k w_proc set_k set_execs set_ckpt set_live set_file moved adv].
  rewrite He. split; [|split; [by apply (same_process_regs _ _ _ (p_regs (w_proc w)))|done]].
  unfold kfree. run. cbn. rewrite Z.add_simpl_r. reflexivity.
Qed.
End restart.

(** ** Migration *)

(** The node where the process is checkpointed, and the node where it is restarted. *)
Section migration.
Context {K1 : Kernel} {L1 : @KernelLaws K1} {K2 : Kernel} {L2 : @KernelLaws K2}.


Lemma counted_all (ss : list (list Z)) : zlen ss < 256 -> counted ss = ss.
Proof.
  intros Hs. unfold counted. rewrite uwrap_id by (pose proof (zlen_nonneg ss); unfold urange; lia). unfold zlen. rewrite Nat2Z.id.
  apply firstn_all.
Qed.

Lemma image_data q avs evs :
  layout q avs evs -> used_data_length q = image_size avs + image_size evs ->
  exists A E, ztake (used_data_length q) (npm_data q) = A ++ strs avs ++ E ++ strs evs /\
    zlen A = reserve_array_length (zlen avs) /\ zlen E = reserve_array_length (zlen evs).
Proof.
  intros (_ & _ & _ & _ & A & E & R & Hd & HA & HE) Hu. exists A, E. split_and!; [|done|done].
  rewrite Hd, Hu. replace (A ++ strs avs ++ E ++ strs evs ++ R) with ((A ++ strs avs ++ E ++ strs evs) ++ R) by apps.
  replace (image_size avs + image_size evs) with (zlen (A ++ strs avs ++ E ++ strs evs)); [apply ztake_app_eq|].
  unfold image_size. rewrite !zlen_app. lia.
Qed.

(** What the block holds after the data was read into it. *)
Lemma restored_layout params name data avs evs A E :
  npm_memory params -> data = A ++ strs avs ++ E ++ strs evs -> zlen data <= NPM_DATA_SIZE_MAX ->
  zlen A = reserve_array_length (zlen avs) -> zlen E = reserve_array_length (zlen evs) ->
  Forall is_cstring avs -> Forall is_cstring evs ->
  layout (npm_restored params name data (zlen avs) (zlen evs)) avs evs /\
  zlen (npm_data (npm_restored params name data (zlen avs) (zlen evs))) = NPM_DATA_SIZE_MAX.
Proof.
  intros [_ Hm] -> Hl HA HE Ha He. set (d := A ++ _) in *.
  assert (npm_data (npm_restored params name d (zlen avs) (zlen evs)) = d ++ zdrop (zlen d) (npm_data params)) as Hd.
  { exact (blit_app [] d (npm_data params) ltac:(lia)). }
  split.
  - unfold layout. rewrite Hd. split_and!; [done..|]. exists A, E, (zdrop (zlen d) (npm_data params)).
    split_and!; [subst d; apps|done|done].
  - rewrite Hd, zlen_app, zlen_zdrop, Hm. pose proof (zlen_nonneg d). lia.
Qed.

Lemma restored_name params name data ac ec :
  npm_memory params -> is_cstring name -> zlen name + 1 <= NPM_FILENAME_MAX ->
  cstring (file_name (npm_restored params name data ac ec)) = Some name.
Proof.
  intros [Hf _] Hn Hl. cbn [npm_restored file_name].
  pose proof (blit_app [] (name ++ [0]) (file_name params)) as Hb. cbn [app] in Hb.
  change (zlen (@nil Z)) with 0 in Hb. rewrite Hb by (rewrite zlen_app, Hf; exact Hl). by apply cstring_string.
Qed.

(** C15: A non-preemptive migration executes the intercepted program.  The parameters of an
    execve on one node, extracted from user memory and saved in a checkpoint, are read on the
    other node, wherever the structure for them lies there: [do_execve] is called exactly once, with
    the file name and arrays in which it finds the strings, in a process with the limits, files,
    working directory and signal handlers of the old one and with its own registers; its result
    decides the result of the restart.  The strings and their arrays must fit the block of the
    parameters, and since they are counted in 8 bits they are the first [n mod 256] of [n]: all of
    them when there are fewer than 256 arguments and fewer than 256 strings in the environment.
    The block for the registers stays allocated, and the other process has at most its standard
    input open. *)
Theorem npm_checkpoint_executes (w1 : @cw K1) regs u base1 mem1 filename argv env avs evs :
  let p := w_proc w1 in
  healthy (w_k w1) -> @savable K1 p -> f_data (w_file w1) = [] ->
  readable u base1 mem1 filename argv env avs evs ->
  image_size (counted avs) + image_size (counted evs) <= NPM_DATA_SIZE_MAX ->
  exists params w1',
    extract_tcmi_npm_params u base1 (Some mem1) filename argv env = Some (0, Some params) /\
    tcmi_ckptcom_checkpoint_npm (Some regs) (Some params) w1 = Ret 0 w1' /\
    w_proc w1' = p /\ w_live w1' = w_live w1 /\
    forall (w2 : @cw K2) base2 mem2,
      healthy (w_k w2) -> restorable (@names_of K1 L1 p) (@pages_of K1 p) p regs -> replaceable (w_proc w2) ->
      npm_memory mem2 -> 0 < base2 -> base2 + NPM_DATA_SIZE_MAX < 2 ^ 64 ->
      f_data (w_file w2) = f_data (w_file w1') ->
      exists params' k er w2', do_execve filename params' k = (er, w_k w2') /\
        sees base2 params' (counted avs) (counted evs) /\
        (zlen avs < 256 -> counted avs = avs) /\ (zlen evs < 256 -> counted evs = evs) /\
        tcmi_ckptcom_restart base2 mem2 w2 = Ret (if negb (er =? 0) then - EFAULT else 0) w2' /\
        w_execs w2' = w_execs w2 ++ [(filename, params')] /\ w_live w2' = B_regs :: w_live w2 /\
        same_process (@names_of K1 L1 p) p (w_proc w2') /\ p_regs (w_proc w2') = p_regs (w_proc w2).
Proof.
  intros p Hk Hs Hd HR Hfit. destruct (extract_readable u base1 mem1 filename argv env avs evs HR Hfit)
    as (q & Hq & Hname & _ & Hlay & Hmem & Hused). pose proof HR as [_ _ [Hcs Hlen] _ _].
  destruct (image_data _ _ _ Hlay Hused) as (A & E & Hdata & HA & HE). pose proof Hlay as (Hac & Hec & Hca & Hce & _).
  assert (0 <= used_data_length q <= NPM_DATA_SIZE_MAX) as Hul.
  { rewrite Hused. pose proof (image_size_nonneg (counted avs)). pose proof (image_size_nonneg (counted evs)). lia. }
  assert (zlen (ztake (used_data_length q) (npm_data q)) = used_data_length q) as Hdl
    by (rewrite zlen_ztake, (proj2 Hmem); lia).
  destruct (checkpoint_saves w1 regs false (Some (filename, q)) Hk Hs Hd) as (k & _ & Hc).
  { intros name q' [= <- <-]. rewrite (proj2 Hmem). split_and!; [done|cbv [NPM_FILENAME_MAX PATH_MAX] in Hlen; lia|lia..]. }
  exists q. eexists. split; [exact Hq|]. split; [exact Hc|]. split_and!; [done..|].
  intros w2 base2 mem2 Hk2 Ht Hrep Hm2 Hb Hmax Hfile. cbn [what] in Hfile. rewrite Hac, Hec in Hfile.
  destruct (restored_layout mem2 filename _ _ _ A E Hm2 Hdata ltac:(lia) HA HE Hca Hce) as [Hlay2 Hl2].
  destruct (fixup_layout base2 _ _ _ Hlay2 Hb ltac:(lia)) as (q' & Hfix & Hsees & _ & Hfn & _).
  assert (forall l : list (list Z), 0 <= zlen (counted l) < 256) as Hcnt.
  { intros l. rewrite zlen_counted. apply (uwrap_range 8). lia. }
  destruct (restart_executes w2 base2 mem2 _ _ _ _ _ _ _ _ q' Hk2 Hfile Ht Hrep (Hcnt _) (Hcnt _)
    Hlen ltac:(lia) Hfix) as (k2 & n & q2 & er & k3 & Hex & Hrun & Hsame & Hregs).
  { rewrite Hfn. by apply restored_name. }
  exists q', k2, er. eexists. split; [|split; [done|]].
  2: { split; [by apply counted_all|]. split; [by apply counted_all|]. split; [exact Hrun|by split_and!]. }
  exact Hex.
Qed.
End migration.
