(* ===== verification/CkptExample.v ===== *)
(** A kernel on which nothing fails, and a small process: the checkpoint theorems apply to them. *)

From Stdlib Require Import Sorted.
From stdpp Require Import gmap.
From S2P Require Import Prelude Effect KkcAddr NpmParams CkptKernel CkptArch Ckpt CkptOps CkptCom CkptImage.
From S2P Require Import CkptWrite CkptSave CkptRead CkptFiles CkptAreas CkptRestart CkptRound.

(** ** A kernel on which nothing fails *)

(** Descriptors are below 64. *)
Definition ex_lowest (t : gmap Z Z) (l : list Z) : Z :=
  default (- 24) (List.find (fun i => negb (bool_decide (is_Some (t !! i)))) l).

Lemma ex_lowest_free t fd : lowest_free t fd -> fd < 64 -> ex_lowest t (seqZ 0 64) = fd.
Proof.
  intros (Hfd & Hn & Hlt) Hmax. unfold ex_lowest. replace 64 with (fd + (64 - fd)) by lia.
  rewrite seqZ_app, Z.add_0_l, (seqZ_cons fd) by lia.
  assert (Forall (fun i => is_Some (t !! i)) (seqZ 0 fd)) as HF.
  { apply Forall_forall. intros i Hi%elem_of_seqZ. apply Hlt. lia. }
  induction HF as [|i l Hi _ IH]; cbn [app List.find].
  - by rewrite Hn, bool_decide_false by (by intros [? ?]).
  - by rewrite bool_decide_true.
Qed.

(** Its state is the list of the pages that are referenced. *)
#[local] Instance ex_kernel : Kernel := {
  kst := list Z;
  alloc k := (true, k);
  vfs_write d f k := (zlen d, mk_cfile (f_pos f + zlen d) (put_at (f_pos f) d (f_data f)) (f_count f), k);
  vfs_read n f k :=
    let d := ztake n (zdrop (f_pos f) (f_data f)) in (zlen d, d, mk_cfile (f_pos f + zlen d) (f_data f) (f_count f), k);
  vfs_llseek off origin f k :=
    let pos := if origin =? 0 then off else f_pos f + off in (pos, mk_cfile pos (f_data f) (f_count f), k);
  d_path lim p k := (if zlen p + 1 <=? lim then Some p else None, k);
  path_lookup p k := (0, k);
  do_sys_open name flags mode fs k :=
    let fd := ex_lowest (fdt fs) (seqZ 0 64) in let a := fresh (dom (filps fs)) in
    (fd, mk_files (<[fd := a]> (fdt fs)) 64 (<[a := mk_filp 0 flags 3 33188 name]> (filps fs)), k);
  vfs_llseek_fd fd pos fs k :=
    match fdt fs !! fd with
    | Some a => match filps fs !! a with
        | Some fp => (pos, mk_files (fdt fs) (max_fds fs)
            (<[a := mk_filp pos (fp_flags fp) (fp_mode fp) (fp_imode fp) (fp_path fp)]> (filps fs)), k)
        | None => (- 9, fs, k) end
    | None => (- 9, fs, k) end;
  sys_dup2 old new fs k :=
    match fdt fs !! old with
    | Some a => (new, mk_files (<[new := a]> (fdt fs)) 64 (filps fs), k)
    | None => (- 9, fs, k) end;
  sys_close fd fs k := (mk_files (delete fd (fdt fs)) (max_fds fs) (filps fs), k);
  proxyfs_server_overtake_file fd k := (Some (fd + 1), k);
  filp_open name k := (true, k);
  do_mmap s addr len prot flags off m k := (addr, map_pages (Z.to_nat (len / PAGE_SIZE)) addr off s prot flags m, k);
  backing name off := zeros PAGE_SIZE;
  get_user_pages addr m k := ((fun pg => match pg_content pg with Bytes d => d | Backed _ _ => zeros PAGE_SIZE end) <$> m !! addr,
    match m !! addr with Some _ => addr :: k | None => k end);
  flush_old_exec p k := (0, set_mem ∅ p, k);
  start_thread r ip sp := set_start ip sp __USER_CS __USER_DS X86_EFLAGS_IF r;
  do_execve name params k := (0, k);
  vendor_amd := false;
  syscall32_setup_pages k := (0, k)
}.

#[local] Instance ex_laws : @KernelLaws ex_kernel.
Proof.
  refine {| healthy := fun _ : @kst ex_kernel => True; reopens := fun _ _ _ => True; is_dir := fun _ => True; fd_limit := 64;
    proxy_ident := fun fd => fd + 1 |}; cbn; try (by eauto).
  - intros lim p k _ Hl. replace (zlen p + 1 <=? lim) with true by lia. eauto.
  - intros name flags mode fs fd k _ _ Hf Hmax. rewrite (ex_lowest_free (fdt fs) fd) by done.
    exists (fresh (dom (filps fs))). do 3 eexists. exists k. split; [|done].
    apply not_elem_of_dom, is_fresh.
  - intros fd pos fs a fp k _ Ha Hfp _. rewrite Ha, Hfp. eauto.
  - intros old new fs a k _ Ha _ _. rewrite Ha. eauto.
  - intros fd fs a k _ Ha. exists (filps fs), k. split_and!; [done|done|]. intros b Hb. by destruct Hb.
  - intros. rewrite Z.div_mul, Nat2Z.id by done. eauto.
Defined.

#[local] Instance ex_refs : @PageRefs ex_kernel.
Proof.
  refine {| page_refs := fun k : @kst ex_kernel => k |}; cbn.
  - intros addr m k d k'. by destruct (m !! addr); intros [= _ <-].
  - intros addr m k k'. by destruct (m !! addr); intros [= <-].
  - by intros d f k r f' k' [= _ _ <-].
  - by intros off origin f k r f' k' [= _ _ <-].
Defined.

Definition ex_page : list Z := zeros PAGE_SIZE.
Lemma zlen_ex_page : zlen ex_page = PAGE_SIZE.
Proof. by apply zlen_replicate. Qed.
Opaque ex_page.

(** A process with one file under two descriptors and one writable page. *)
Definition ex_area : vm_area_struct := mk_vma 8192 12288 3 0 None.
Definition ex_regs : pt_regs := mk_regs 1 2 3 4 5 6 7 8 9 10 0 12 13 14 15 1 4096 51 518 12000 43.
Definition ex_files : files_struct :=
  mk_files (<[1 := 7]> (<[2 := 7]> ∅)) 64 (<[7 := mk_filp 10 1 3 33188 [47; 102]]> ∅).
Definition ex_process : proc :=
  mk_process 100 false [97] false false (replicate 16 (0, 0)) ex_files
    (mk_mm 0 0 0 0 0 0 0 0 0 0 0 0 [ex_area]) (<[8192 := mk_page 3 2 (Bytes ex_page)]> ∅) ex_regs
    (mk_thread [0; 0; 0] 0 0 0 0) [47] (mk_signals 0 0 0 0 (replicate 64 (mk_sigaction 0 0 0 0))).
Definition ex_empty : proc :=
  mk_process 200 false [98] false false [] (mk_files ∅ 64 ∅)
    (mk_mm 0 0 0 0 0 0 0 0 0 0 0 0 []) ∅ ex_regs (mk_thread [0; 0; 0] 0 0 0 0) [47] (mk_signals 0 0 0 0 []).
Definition ex_source : cw := mk_cw _ [] (mk_cfile 0 [] 1) None ex_process [] [].
Definition ex_target (data : list Z) : cw := mk_cw _ [] (mk_cfile 0 data 1) None ex_empty [] [].

Lemma ex_openfiles : tcmi_ckpt_foreach_openfile ex_files = [(1, 7); (2, 7)].
Proof. vm_compute. reflexivity. Qed.

Lemma ex_pages a d : pages_of ex_process a = Some d -> zlen d = PAGE_SIZE.
Proof.
  unfold pages_of. cbn [ex_process p_mem]. destruct (decide (a = 8192)) as [->|Hn].
  - rewrite lookup_insert_eq. cbn. intros [= <-]. apply zlen_ex_page.
  - by rewrite lookup_insert_ne, lookup_empty.
Qed.

Lemma ex_wf_area : wf_area ex_area.
Proof. unfold wf_area, aligned, urange, PAGE_SIZE, ex_area. cbn. split_and!; try done; lia. Qed.

Lemma ex_savable : savable ex_process.
Proof.
  split.
  - cbn [ex_process p_files]. rewrite ex_openfiles. repeat constructor; eexists; split_and!; vm_compute; done.
  - repeat constructor; apply ex_wf_area.
  - repeat constructor; intros name; done.
  - exact ex_pages.
  - vm_compute; done.
Qed.

Lemma ex_restorable : restorable (names_of ex_process) (pages_of ex_process) ex_process ex_regs.
Proof.
  split.
  - done.
  - cbn [ex_process p_files]. rewrite ex_openfiles. done.
  - split; [done|]. repeat constructor; done.
  - done.
  - cbn [ex_process p_files]. rewrite ex_openfiles. unfold reopenable_files.
    rewrite !Forall_cons. split_and!; try done; exists (mk_filp 10 1 3 33188 [47; 102]); (split; [done|]).
    all: change (names_of ex_process _) with [47; 102]; split; try (split_and!; done).
    all: split; [repeat constructor; done|done].
  - repeat constructor; done.
  - change (saved ex_process) with [ex_area]. split_and!.
    + repeat constructor; apply ex_wf_area.
    + constructor; [by intros ? ?|constructor].
    + repeat constructor.
  - exact ex_pages.
  - repeat constructor; done.
  - unfold wf_thread. split_and!; try done. repeat constructor; done.
  - split_and!; [repeat constructor; lia|done|done].
  - split; [done|]. repeat constructor; done.
Qed.

Lemma ex_replaceable : replaceable ex_empty.
Proof. split; intros fd a; cbn; by rewrite lookup_empty. Qed.


Lemma npm_checkpoint_executes_witness :
  exists params w1 w2 params',
    extract_tcmi_npm_params (ex_user [108; 115]) 4096 (Some ex_params) [47; 97] 1000 0 = Some (0, Some params) /\
    tcmi_ckptcom_checkpoint_npm (Some ex_regs) (Some params) ex_source = Ret 0 w1 /\
    tcmi_ckptcom_restart 8192 ex_params (ex_target (f_data (w_file w1))) = Ret 0 w2 /\
    w_execs w2 = [([47; 97], params')] /\ sees 8192 params' [[108; 115]] [].
Proof.
  destruct (npm_checkpoint_executes (K1 := ex_kernel) (K2 := ex_kernel) ex_source ex_regs (ex_user [108; 115]) 4096
    ex_params [47; 97] 1000 0 [[108; 115]] []) as (params & w1 & Hx & E1 & _ & _ & H2);
    [done|apply ex_savable|done|apply ex_readable; [repeat constructor; lia|done]|vm_compute; congruence|].
  destruct (H2 (ex_target (f_data (w_file w1))) 8192 ex_params) as (params' & k & er & w2 & Hex & Hs & _ & _ & E2 & Hl & _);
    [done|apply ex_restorable|apply ex_replaceable|split; by apply zlen_replicate|done|done|done|].
  exists params, w1, w2, params'. split; [exact Hx|]. split; [exact E1|].
  cbn in Hex. injection Hex as <- _. split; [exact E2|]. split; [exact Hl|exact Hs].
Defined.

(** The page of the process stays referenced. *)
Lemma example_page_stays_pinned w' :
  write_pages 2 8192 12288 (set_ckpt (Some (mk_ckpt None (mk_hdr 0 0 0 0 0 0 []) 1)) ex_source) = Ret 0 w' ->
  page_refs (w_k w') = [8192].
Proof.
  intros E. apply (written_pages_stay_pinned 1) in E; [exact E| |lia].
  split_and!; [done|apply Z.le_refl|apply Z.le_refl|by eexists].
Defined.
