(* ===== verification/Rpc.v ===== *)
(** Remote system calls (src/src/tcmi/syscall): the hooks that a guest process calls instead of
    a system call, the call tables of both sides, the procedures of the guest, which make a
    request of the arguments and get the response, and those of the shadow, which make the
    system call on the home node.  The functions of tcmi_rpcresp_procmsg.c that gather the
    elements of a request and of a response are here too.

    A C [long] is 64 bits wide.  An argument array has six of them; an element of a message is
    its size and the memory from its pointer on.  An access outside that memory, or through
    NULL, is a fault.  The exchange of a request for its response (tcmi_task.c) is the parameter
    [exchange] of the guest, the system calls are the class [Home] of the shadow. *)

From stdpp Require Import gmap.
From S2P Require Import Prelude Effect Messages.

Definition EPERM : Z := 1.
Definition TCMI_RPC_MAXPARAMS : nat := 6.

(** ** tcmi_rpc_numbers.h *)

Definition TCMI_RPC_SYS_KILL : Z := 1.
Definition TCMI_RPC_SYS_SIGQUEUE : Z := 2.
Definition TCMI_RPC_SYS_TKILL : Z := 3.
Definition TCMI_RPC_SYS_GETPGID : Z := 4.
Definition TCMI_RPC_SYS_GETPID : Z := 5.
Definition TCMI_RPC_SYS_GETPPID : Z := 6.
Definition TCMI_RPC_SYS_GETSID : Z := 7.
Definition TCMI_RPC_SYS_SETPGID : Z := 8.
Definition TCMI_RPC_SYS_SETSID : Z := 9.
Definition TCMI_RPC_SYS_GETPGRP : Z := 10.
Definition TCMI_RPC_SYS_GETEUID : Z := 11.
Definition TCMI_RPC_SYS_GETRESUID : Z := 12.
Definition TCMI_RPC_SYS_GETUID : Z := 13.
Definition TCMI_RPC_SYS_SETRESUID : Z := 14.
Definition TCMI_RPC_SYS_SETREUID : Z := 15.
Definition TCMI_RPC_SYS_SETUID : Z := 16.
Definition TCMI_RPC_SYS_GETEGID : Z := 17.
Definition TCMI_RPC_SYS_GETGID : Z := 18.
Definition TCMI_RPC_SYS_GETGROUPS : Z := 19.
Definition TCMI_RPC_SYS_GETRESGID : Z := 20.
Definition TCMI_RPC_SYS_SETGID : Z := 21.
Definition TCMI_RPC_SYS_SETGROUPS : Z := 23.
Definition TCMI_RPC_SYS_SETREGID : Z := 24.
Definition TCMI_RPC_SYS_SETRESGID : Z := 25.
Definition TCMI_RPC_SYS_WAIT4 : Z := 26.
Definition TCMI_RPC_SYS_FORK : Z := 27.
Definition TCMI_MAX_RPC_NUM : Z := 30.

(** ** tcmi_rpc.h, tcmi_rpc.c *)

(** A call table; an entry may be NULL. *)
Definition tcmi_rpc_do {W A} (calltable : Z -> option (A -> eff W Z)) (rpc_num : Z) (parameters : A) : eff W Z :=
  if TCMI_MAX_RPC_NUM <? rpc_num then mret (- EPERM)
  else match calltable rpc_num with
       | Some f => f parameters
       | None => mret (- EPERM)
       end.

(** The parameter arrays of [tcmi_rpc_call0] to [tcmi_rpc_call6]. *)
Definition parameters_of (ps : list Z) : list Z := take TCMI_RPC_MAXPARAMS (((fun p => s64[p]) <$> ps) ++ replicate 6 0).
Definition tcmi_rpc_call {W} (calltable : Z -> option (list Z -> eff W Z)) (rpc_num : Z) (ps : list Z) : eff W Z :=
  tcmi_rpc_do calltable rpc_num (parameters_of ps).

(** ** Memory *)

(** The memory image of an array of longs. *)
Definition long_bytes (ps : list Z) : list Z := ps ≫= le_bytes 8.
(** Accesses to a block of memory: [None] outside of it. *)
Definition load (n : nat) (off : Z) (base : list Z) : option Z :=
  if off + Z.of_nat n <=? zlen base then Some (le_value (ztake (Z.of_nat n) (zdrop off base))) else None.
Definition load_long (i : Z) (base : list Z) : option Z := v ← load 8 (8 * i) base; Some s64[v].
Definition load_int (base : list Z) : option Z := v ← load 4 0 base; Some s32[v].
Definition load_u64 (base : list Z) : option Z := load 8 0 base.

(** The elements of a variable argument list: up to the first of size 0, and at most six. *)
Fixpoint va_elems (n : nat) (args : list (Z * list Z)) : list (Z * list Z) :=
  match n, args with
  | S n, (size, base) :: args => if size =? 0 then [] else (size, base) :: va_elems n args
  | _, _ => []
  end.

(** ** The guest *)

(** The memory of the process, the answers of the allocator, the allocated blocks and held
    messages, and the home node. *)
Record guest (H : Type) := mk_guest {
  u_mem : gmap Z Z;
  g_allocs : list bool;
  g_blocks : Z;
  g_msgs : Z;
  g_remote_pid : Z;
  is_guest : bool;
  home : H
}.
Arguments mk_guest {H}.
Arguments u_mem {H}.
Arguments g_allocs {H}.
Arguments g_blocks {H}.
Arguments g_msgs {H}.
Arguments g_remote_pid {H}.
Arguments is_guest {H}.
Arguments home {H}.

Section guest.
Context {H : Type} (exchange : tcmi_rpc_procmsg -> eff H (option tcmi_rpcresp_procmsg)).
(** [access_ok] of the kernel *)
Context (access_ok : Z -> Z -> bool).
Abbreviation G := (eff (guest H)).

Definition set_u_mem x (g : guest H) := mk_guest x (g_allocs g) (g_blocks g) (g_msgs g) (g_remote_pid g) (is_guest g) (home g).
Definition set_g_allocs x (g : guest H) := mk_guest (u_mem g) x (g_blocks g) (g_msgs g) (g_remote_pid g) (is_guest g) (home g).
Definition set_g_blocks x (g : guest H) := mk_guest (u_mem g) (g_allocs g) x (g_msgs g) (g_remote_pid g) (is_guest g) (home g).
Definition set_g_msgs x (g : guest H) := mk_guest (u_mem g) (g_allocs g) (g_blocks g) x (g_remote_pid g) (is_guest g) (home g).
Definition set_home (x : H) (g : guest H) := mk_guest (u_mem g) (g_allocs g) (g_blocks g) (g_msgs g) (g_remote_pid g) (is_guest g) x.

(** The next allocation, of [size] bytes, which the kernel takes as unsigned. *)
Definition g_alloc (size : Z) : G bool :=
  l ← gets g_allocs; modify (set_g_allocs (tail l));;
  mret ((0 <=? size) && default true (head l)).
Definition at_home {A} (m : eff H A) : G A := fun g =>
  match m (home g) with
  | Ret a h => Ret a (set_home h g)
  | Stop s h => Stop s (set_home h g)
  | Fault => Fault
  end.
Definition msgs (n : Z) : G unit := modify (fun g => set_g_msgs (g_msgs g + n) g).

(** *** User memory *)

(** A byte that is not mapped is read as zero by [copy_from_user], and not stored. *)
Definition bytes_at (a n : Z) (m : gmap Z Z) : list Z :=
  (fun i => default 0 (m !! i)) <$> seqZ a n.
Fixpoint store_bytes (a : Z) (d : list Z) (m : gmap Z Z) : gmap Z Z :=
  match d with
  | [] => m
  | b :: d => store_bytes (a + 1) d (match m !! a with Some _ => <[a := b]> m | None => m end)
  end.
Definition copy_from_user (a n : Z) : G (list Z) := m ← gets u_mem; mret (bytes_at a n m).
Definition copy_to_user (a : Z) (d : list Z) : G unit := modify (fun g => set_u_mem (store_bytes a d (u_mem g)) g).
Definition put_user (size : nat) (v a : Z) : G unit := copy_to_user a (le_bytes size v).

(** *** tcmi_rpcresp_procmsg_get_response *)

(** The request is made, exchanged and put; the response, when it came, is held. *)
Definition tcmi_rpcresp_procmsg_get_response (rpcnum : Z) (args : list (Z * list Z)) : G (option tcmi_rpcresp_procmsg) :=
  ok ← g_alloc 0;
  if negb ok then mret None else
  msgs 1;;
  let elems := va_elems TCMI_RPC_MAXPARAMS args in
  r ← at_home (exchange (mk_rpc u16[rpcnum] (zlen elems) ((fun e => u32[e.1]) <$> elems) (snd <$> elems) false));
  msgs (-1);;
  when (bool_decide (is_Some r)) (msgs 1);;
  mret r.
Definition rpc_msg_put : G unit := msgs (-1).

(** *** tcmi_guest_generic_rpc.c *)

Definition TCMI_GUEST_RPC_SYS_N (arg rpc_num : Z) (params : list Z) : G Z :=
  r ← tcmi_rpcresp_procmsg_get_response rpc_num (if 0 <? arg then [(8 * arg, long_bytes params)] else []);
  match r with
  | None => mret (- EAGAIN)
  | Some r => rpc_msg_put;; mret (rtn_code r)
  end.

(** *** tcmi_guest_signal_rpc.c *)

Definition SIGINFO_SIZE : Z := 128.
(** The user's structure is sent from where it lies. *)
Definition tcmi_guest_rpc_sys_rt_sigqueueinfo (rpc_num : Z) (params : list Z) : G Z :=
  m ← gets u_mem;
  info ← valid (mapM (fun i => m !! i) (seqZ (znth params 2) SIGINFO_SIZE));
  r ← tcmi_rpcresp_procmsg_get_response rpc_num [(16, long_bytes params); (SIGINFO_SIZE, info)];
  match r with
  | None => mret (- EAGAIN)
  | Some r => rpc_msg_put;; mret (rtn_code r)
  end.

(** *** tcmi_guest_userident_rpc.c, tcmi_guest_groupident_rpc.c *)

(** [getresuid] and [getresgid]: the ids are read as longs. *)
Definition tcmi_guest_rpc_sys_getresid (rpc_num : Z) (params : list Z) : G Z :=
  r ← tcmi_rpcresp_procmsg_get_response rpc_num [];
  match r with
  | None => mret (- EAGAIN)
  | Some r =>
      when (rtn_code r =? 0)
        (resp_data ← valid (tcmi_rpcresp_procmsg_data_base r 0);
         v ← valid (load_long 0 resp_data); put_user 4 v (znth params 0);;
         v ← valid (load_long 1 resp_data); put_user 4 v (znth params 1);;
         v ← valid (load_long 2 resp_data); put_user 4 v (znth params 2));;
      rpc_msg_put;; mret (rtn_code r)
  end.

Definition tcmi_guest_rpc_sys_getresuid : Z -> list Z -> G Z := tcmi_guest_rpc_sys_getresid.
Definition tcmi_guest_rpc_sys_getresgid : Z -> list Z -> G Z := tcmi_guest_rpc_sys_getresid.

(** The size in bytes is taken for a number of groups. *)
Definition tcmi_guest_rpc_sys_getgroups (rpc_num : Z) (params : list Z) : G Z :=
  r ← tcmi_rpcresp_procmsg_get_response rpc_num [(8, long_bytes params)];
  match r with
  | None => mret (- EAGAIN)
  | Some r =>
      when ((0 <? rtn_code r) && (0 <? znth params 0))
        (let size := tcmi_rpcresp_procmsg_data_size r 0 in
         base ← valid (tcmi_rpcresp_procmsg_data_base r 0);
         if zlen base <? size * 4 then fault else copy_to_user (znth params 1) (ztake (size * 4) base));;
      rpc_msg_put;; mret (rtn_code r)
  end.

(** [ker_buf] is never freed. *)
Definition tcmi_guest_rpc_sys_setgroups (rpc_num : Z) (params : list Z) : G Z :=
  let size := s64[4 * znth params 0] in
  ok ← g_alloc size;
  if negb ok then mret (- EAGAIN) else
  modify (fun g => set_g_blocks (g_blocks g + 1) g);;
  ker_buf ← copy_from_user (znth params 1) size;
  r ← tcmi_rpcresp_procmsg_get_response rpc_num [(8, long_bytes params); (size, ker_buf)];
  match r with
  | None => mret (- EAGAIN)
  | Some r => rpc_msg_put;; mret (rtn_code r)
  end.

(** *** tcmi_guest_wait_rpc.c *)

(** [struct rusage_ind] has the layout of [struct rusage]: 18 longs. *)
Definition RUSAGE_SIZE : Z := 144.
Definition tcmi_guest_rpc_sys_wait4 (rpc_num : Z) (params : list Z) : G Z :=
  let pid_ind := s32[znth params 0] in
  let options_ind := s32[znth params 2] in
  r ← tcmi_rpcresp_procmsg_get_response rpc_num [(4, le_bytes 4 pid_ind); (4, le_bytes 4 options_ind)];
  match r with
  | None => mret (- EAGAIN)
  | Some r =>
      usage ← valid (tcmi_rpcresp_procmsg_data_base r 0);
      stats ← valid (tcmi_rpcresp_procmsg_data_base r 1);
      result_stats ← valid (load_int stats);
      if zlen usage <? RUSAGE_SIZE then fault else
      when (negb (znth params 1 =? 0)) (put_user 4 result_stats (znth params 1));;
      when (negb (znth params 3 =? 0)) (copy_to_user (znth params 3) (ztake RUSAGE_SIZE usage));;
      rpc_msg_put;; mret (rtn_code r)
  end.

(** *** tcmi_guest_fork_rpc.c *)

Definition tcmi_guest_rpc_sys_fork (rpc_num : Z) (params : list Z) : G Z :=
  r ← tcmi_rpcresp_procmsg_get_response rpc_num
        [(8, le_bytes 8 (znth params 0)); (8, le_bytes 8 (znth params 1)); (8, le_bytes 8 (znth params 3))];
  match r with
  | None => mret (- EAGAIN)
  | Some r =>
      parent ← valid (tcmi_rpcresp_procmsg_data_base r 0); valid (load_int parent);;
      child ← valid (tcmi_rpcresp_procmsg_data_base r 1); valid (load_int child);;
      rpc_msg_put;; mret (rtn_code r)
  end.

(** *** tcmi_guest_rpc.h *)

Definition tcmi_calltable_guest (n : Z) : option (list Z -> G Z) :=
  let sys k := Some (TCMI_GUEST_RPC_SYS_N k n) in
  if n =? TCMI_RPC_SYS_KILL then sys 2 else
  if n =? TCMI_RPC_SYS_SIGQUEUE then Some (tcmi_guest_rpc_sys_rt_sigqueueinfo n) else
  if n =? TCMI_RPC_SYS_TKILL then sys 3 else
  if n =? TCMI_RPC_SYS_GETPPID then sys 0 else
  if n =? TCMI_RPC_SYS_GETSID then sys 1 else
  if n =? TCMI_RPC_SYS_SETSID then sys 0 else
  if n =? TCMI_RPC_SYS_GETPGRP then sys 0 else
  if n =? TCMI_RPC_SYS_GETPGID then sys 1 else
  if n =? TCMI_RPC_SYS_SETPGID then sys 2 else
  if n =? TCMI_RPC_SYS_GETEUID then sys 0 else
  if n =? TCMI_RPC_SYS_GETRESUID then Some (tcmi_guest_rpc_sys_getresuid n) else
  if n =? TCMI_RPC_SYS_GETUID then sys 0 else
  if n =? TCMI_RPC_SYS_SETRESUID then sys 3 else
  if n =? TCMI_RPC_SYS_SETREUID then sys 2 else
  if n =? TCMI_RPC_SYS_SETUID then sys 1 else
  if n =? TCMI_RPC_SYS_GETEGID then sys 0 else
  if n =? TCMI_RPC_SYS_GETGID then sys 0 else
  if n =? TCMI_RPC_SYS_GETRESGID then Some (tcmi_guest_rpc_sys_getresgid n) else
  if n =? TCMI_RPC_SYS_GETGROUPS then Some (tcmi_guest_rpc_sys_getgroups n) else
  if n =? TCMI_RPC_SYS_SETGID then sys 1 else
  if n =? TCMI_RPC_SYS_SETREGID then sys 2 else
  if n =? TCMI_RPC_SYS_SETRESGID then sys 3 else
  if n =? TCMI_RPC_SYS_SETGROUPS then Some (tcmi_guest_rpc_sys_setgroups n) else
  if n =? TCMI_RPC_SYS_WAIT4 then Some (tcmi_guest_rpc_sys_wait4 n) else
  if n =? TCMI_RPC_SYS_FORK then Some (tcmi_guest_rpc_sys_fork n) else None.

Definition guest_call (rpc_num : Z) (ps : list Z) : G Z := tcmi_rpc_call tcmi_calltable_guest rpc_num ps.

(** *** The hooks *)

Definition tcmi_syscall_hooks_sys_getppid : G Z := guest_call TCMI_RPC_SYS_GETPPID [].
Definition tcmi_syscall_hooks_sys_getpid : G Z := gets g_remote_pid.
Definition tcmi_syscall_hooks_sys_getpgid (pid : Z) : G Z := guest_call TCMI_RPC_SYS_GETPGID [pid].
Definition tcmi_syscall_hooks_sys_setpgid (pid pgid : Z) : G Z := guest_call TCMI_RPC_SYS_SETPGID [pid; pgid].
Definition tcmi_syscall_hooks_sys_getsid (pid : Z) : G Z := guest_call TCMI_RPC_SYS_GETSID [pid].
Definition tcmi_syscall_hooks_sys_setsid : G Z := guest_call TCMI_RPC_SYS_SETSID [].
Definition tcmi_syscall_hooks_sys_getpgrp : G Z := guest_call TCMI_RPC_SYS_GETPGRP [].
Definition tcmi_syscall_hooks_sys_kill (pid sig : Z) : G Z := guest_call TCMI_RPC_SYS_KILL [pid; sig].
Definition tcmi_syscall_hooks_do_tkill (tgid pid sig : Z) : G Z := guest_call TCMI_RPC_SYS_TKILL [tgid; pid; sig].
Definition tcmi_syscall_hooks_sys_rt_sigqueueinfo (pid sig info : Z) : G Z :=
  guest_call TCMI_RPC_SYS_SIGQUEUE [pid; sig; info].
Definition tcmi_syscall_hooks_sys_getuid : G Z := guest_call TCMI_RPC_SYS_GETUID [].
Definition tcmi_syscall_hooks_sys_geteuid : G Z := guest_call TCMI_RPC_SYS_GETEUID [].
Definition tcmi_syscall_hooks_sys_setuid (uid : Z) : G Z := guest_call TCMI_RPC_SYS_SETUID [uid].
Definition tcmi_syscall_hooks_sys_setreuid (ruid euid : Z) : G Z := guest_call TCMI_RPC_SYS_SETREUID [ruid; euid].
Definition tcmi_syscall_hooks_sys_setresuid (ruid euid suid : Z) : G Z :=
  guest_call TCMI_RPC_SYS_SETRESUID [ruid; euid; suid].
Definition tcmi_syscall_hooks_sys_getresuid (ruid euid suid : Z) : G Z :=
  guest_call TCMI_RPC_SYS_GETRESUID [ruid; euid; suid].
Definition tcmi_syscall_hooks_sys_getgid : G Z := guest_call TCMI_RPC_SYS_GETGID [].
Definition tcmi_syscall_hooks_sys_getegid : G Z := guest_call TCMI_RPC_SYS_GETEGID [].
Definition tcmi_syscall_hooks_sys_setgid (gid : Z) : G Z := guest_call TCMI_RPC_SYS_SETGID [gid].
Definition tcmi_syscall_hooks_sys_setregid (rgid egid : Z) : G Z := guest_call TCMI_RPC_SYS_SETREGID [rgid; egid].
Definition tcmi_syscall_hooks_sys_setresgid (rgid egid sgid : Z) : G Z :=
  guest_call TCMI_RPC_SYS_SETRESGID [rgid; egid; sgid].
Definition tcmi_syscall_hooks_sys_getresgid (rgid egid sgid : Z) : G Z :=
  guest_call TCMI_RPC_SYS_GETRESGID [rgid; egid; sgid].
Definition tcmi_syscall_hooks_sys_getgroups (size groups : Z) : G Z :=
  if size =? 0 then guest_call TCMI_RPC_SYS_GETGROUPS [0; 0]
  else if negb (access_ok groups u64[size * 4]) then mret (- EFAULT)
  else guest_call TCMI_RPC_SYS_GETGROUPS [size; groups].
Definition NGROUPS_MAX : Z := 65536.
Definition tcmi_syscall_hooks_sys_setgroups (size groups : Z) : G Z :=
  if NGROUPS_MAX <? size then mret (- EINVAL)
  else if negb (access_ok groups u64[size * 4]) then mret (- EFAULT)
  else guest_call TCMI_RPC_SYS_SETGROUPS [size; groups].
Definition tcmi_syscall_hooks_sys_wait4 (pid stat_addr options ru : Z) : G Z :=
  guest_call TCMI_RPC_SYS_WAIT4 [pid; stat_addr; options; ru].
(** [regs] is a pointer of this node. *)
Definition tcmi_syscall_hooks_pre_fork (clone_flags stack_start regs stack_size parent_tidptr child_tidptr : Z) : G Z :=
  g ← gets is_guest;
  if (g : bool) then guest_call TCMI_RPC_SYS_FORK [clone_flags; stack_start; regs; stack_size; parent_tidptr; child_tidptr]
  else mret 0.
End guest.

(** ** The shadow *)

Inductive sysno :=
| Sys_kill | Do_tkill
| Sys_getpgrp | Sys_getppid | Sys_setsid | Sys_getpgid | Sys_getsid | Sys_setpgid
| Sys_getuid | Sys_geteuid | Sys_setuid | Sys_setreuid | Sys_setresuid
| Sys_getgid | Sys_getegid | Sys_setgid | Sys_setregid | Sys_setresgid.

(** The home node: the system calls on behalf of the shadow process.  [sys_getresid true] is
    [getresuid]; buffers are passed as the memory from a pointer on; [uninit]: what a new block
    holds. *)
Class Home := {
  hst : Type;
  sys : sysno -> list Z -> hst -> Z * hst;
  sys_getresid : bool -> hst -> Z * (Z * Z * Z) * hst;
  sys_setgroups : Z -> option (list Z) -> hst -> Z * hst;
  sys_rt_sigqueueinfo : Z -> Z -> list Z -> hst -> Z * hst;
  sys_wait4 : Z -> Z -> hst -> Z * Z * list Z * hst;
  do_fork : Z -> Z -> Z -> hst -> Z * Z * Z * hst;
  ngroups : hst -> Z;
  group_block : hst -> Z -> list Z;
  uninit : Z -> hst -> list Z
}.

(** The files that have a static [errno] of their own. *)
Inductive errno_of := In_signal | In_pidman | In_userident | In_groupident.
#[export] Instance errno_of_eq : EqDecision errno_of.
Proof. solve_decision. Defined.

Record shadow `{Home} := mk_shadow {
  s_home : hst;
  s_errno : errno_of -> Z;
  s_allocs : list bool;
  s_live : Z
}.

Section shadow.
Context `{HH : Home}.
Abbreviation S := (eff shadow).

Definition set_s_home x (w : shadow) := mk_shadow _ x (s_errno w) (s_allocs w) (s_live w).
Definition set_s_errno x (w : shadow) := mk_shadow _ (s_home w) x (s_allocs w) (s_live w).
Definition set_s_allocs x (w : shadow) := mk_shadow _ (s_home w) (s_errno w) x (s_live w).
Definition set_s_live x (w : shadow) := mk_shadow _ (s_home w) (s_errno w) (s_allocs w) x.

Definition s_alloc : S bool :=
  l ← gets s_allocs; modify (set_s_allocs (tail l));;
  let ok := default true (head l) in
  when ok (modify (fun w => set_s_live (s_live w + 1) w));; mret ok.
Definition s_free : S unit := modify (fun w => set_s_live (s_live w - 1) w).
Definition on_home {A} (f : hst -> A * hst) : S A :=
  w ← gets s_home; let '(a, w) := f w in modify (set_s_home w);; mret a.

(** *** make_syscall.h *)

(** [__syscall_return]: the error goes to [errno], and -1 is returned as the type [ty]. *)
Definition __syscall_return (f : errno_of) (ty : Z -> Z) (res : Z) : S Z :=
  if u64[-127] <=? u64[res] then
    modify (fun w => set_s_errno (fun g => if decide (g = f) then s32[- res] else s_errno w g) w);; mret (ty (-1))
  else mret (ty res).
Definition _syscall (f : errno_of) (ty : Z -> Z) (call : S Z) : S Z := res ← call; __syscall_return f ty res.

(** *** tcmi_rpcresp_procmsg_create, tcmi_rpcresp_procmsg_free_on_put *)

(** A message that cannot be completed is not freed.  The arguments are not NULL here. *)
Definition tcmi_rpcresp_procmsg_create (m : tcmi_rpc_procmsg) (rtn : Z) (args : list (Z * list Z))
    : S (option tcmi_rpcresp_procmsg) :=
  ok ← s_alloc;
  if negb ok then mret None else
  let elems := va_elems TCMI_RPC_MAXPARAMS args in
  if 0 <? zlen elems then
    ok ← s_alloc;
    if negb ok then mret None else
    mret (Some (mk_rpcresp (rpcnum m) (zlen elems) s64[rtn]
      (replicate (length elems) TCMI_RPCRESP_PROCMSG_DONTFREE) ((fun e => u32[e.1]) <$> elems) (snd <$> elems)))
  else mret (Some (mk_rpcresp (rpcnum m) 0 s64[rtn] [] [] [])).

Definition tcmi_rpcresp_procmsg_free_on_put (index action : Z) (r : tcmi_rpcresp_procmsg) : tcmi_rpcresp_procmsg :=
  if index <? r_nmemb r then
    mk_rpcresp (r_rpcnum r) (r_nmemb r) (rtn_code r) (<[Z.to_nat index := action]> (elem_free r))
      (r_elem_size r) (r_elem_base r)
  else r.

(** *** tcmi_shadow_rpc.h *)

(** The [i]-th parameter of the request, converted to the type of the argument. *)
Definition rpc_param (m : tcmi_rpc_procmsg) (i : Z) (ty : Z -> Z) : S Z :=
  rpc_params ← valid (tcmi_rpc_procmsg_data_base m 0);
  v ← valid (load_long i rpc_params); mret (ty v).
Fixpoint rpc_params (m : tcmi_rpc_procmsg) (i : Z) (tys : list (Z -> Z)) : S (list Z) :=
  match tys with
  | [] => mret []
  | ty :: tys => v ← rpc_param m i ty; vs ← rpc_params m (i + 1) tys; mret (v :: vs)
  end.

(** The result: what the procedure returns, and the response, if there is one. *)
Definition procedure : Type := tcmi_rpc_procmsg -> S (Z * option tcmi_rpcresp_procmsg).

Definition respond (m : tcmi_rpc_procmsg) (rtn : Z) (args : list (Z * list Z)) : S (Z * option tcmi_rpcresp_procmsg) :=
  resp ← tcmi_rpcresp_procmsg_create m rtn args;
  mret (match resp with None => -1 | Some _ => 0 end, resp).

Definition TCMI_SHADOW_RPC_GENERIC_CALL (tys : list (Z -> Z)) (name : list Z -> S Z) (f : errno_of) (use_errno : bool)
    : procedure := fun m =>
  args ← rpc_params m 0 tys;
  rtn ← name args;
  rtn ← (if use_errno && (rtn =? -1) then errno ← gets s_errno; mret (errno f) else mret rtn);
  respond m rtn [].

Definition int (v : Z) : Z := s32[v].
Definition id_t (v : Z) : Z := u32[v].
Definition long (v : Z) : Z := s64[v].
Definition direct (s : sysno) (args : list Z) : S Z := on_home (sys s args).

(** *** tcmi_shadow_signal_rpc.c *)

Definition tcmi_shadow_rpc_sys_kill : procedure := TCMI_SHADOW_RPC_GENERIC_CALL [int; int] (direct Sys_kill) In_signal true.
Definition tcmi_shadow_rpc_do_tkill : procedure :=
  TCMI_SHADOW_RPC_GENERIC_CALL [int; int; int] (direct Do_tkill) In_signal true.
Definition tcmi_shadow_rpc_rt_sigqueueinfo : procedure := fun m =>
  pid ← rpc_param m 0 int; sig ← rpc_param m 1 int;
  ker_buf ← valid (tcmi_rpc_procmsg_data_base m 1);
  rtn ← _syscall In_signal long (on_home (sys_rt_sigqueueinfo pid sig ker_buf));
  rtn ← (if rtn =? -1 then errno ← gets s_errno; mret (errno In_signal) else mret rtn);
  respond m rtn [].

(** *** tcmi_shadow_pidman_rpc.c *)

Definition tcmi_shadow_rpc_sys_getpgrp : procedure := TCMI_SHADOW_RPC_GENERIC_CALL [] (direct Sys_getpgrp) In_pidman false.
Definition tcmi_shadow_rpc_sys_getppid : procedure := TCMI_SHADOW_RPC_GENERIC_CALL [] (direct Sys_getppid) In_pidman false.
Definition tcmi_shadow_rpc_sys_setsid : procedure := TCMI_SHADOW_RPC_GENERIC_CALL [] (direct Sys_setsid) In_pidman false.
Definition tcmi_shadow_rpc_sys_getpgid : procedure := TCMI_SHADOW_RPC_GENERIC_CALL [int] (direct Sys_getpgid) In_pidman false.
Definition tcmi_shadow_rpc_sys_getsid : procedure := TCMI_SHADOW_RPC_GENERIC_CALL [int] (direct Sys_getsid) In_pidman false.
Definition tcmi_shadow_rpc_sys_setpgid : procedure :=
  TCMI_SHADOW_RPC_GENERIC_CALL [int; int] (direct Sys_setpgid) In_pidman false.

(** *** tcmi_shadow_userident_rpc.c, tcmi_shadow_groupident_rpc.c *)

Definition via (f : errno_of) (ty : Z -> Z) (s : sysno) (args : list Z) : S Z := _syscall f ty (direct s args).

Definition tcmi_shadow_rpc_geteuid : procedure :=
  TCMI_SHADOW_RPC_GENERIC_CALL [] (via In_userident long Sys_geteuid) In_userident false.
Definition tcmi_shadow_rpc_getuid : procedure :=
  TCMI_SHADOW_RPC_GENERIC_CALL [] (via In_userident long Sys_getuid) In_userident false.
Definition tcmi_shadow_rpc_setuid : procedure :=
  TCMI_SHADOW_RPC_GENERIC_CALL [id_t] (via In_userident long Sys_setuid) In_userident true.
Definition tcmi_shadow_rpc_setreuid : procedure :=
  TCMI_SHADOW_RPC_GENERIC_CALL [id_t; id_t] (via In_userident long Sys_setreuid) In_userident true.
Definition tcmi_shadow_rpc_setresuid : procedure :=
  TCMI_SHADOW_RPC_GENERIC_CALL [id_t; id_t; id_t] (via In_userident long Sys_setresuid) In_userident true.

Definition tcmi_shadow_rpc_getegid : procedure :=
  TCMI_SHADOW_RPC_GENERIC_CALL [] (via In_groupident id_t Sys_getegid) In_groupident false.
Definition tcmi_shadow_rpc_getgid : procedure :=
  TCMI_SHADOW_RPC_GENERIC_CALL [] (via In_groupident id_t Sys_getgid) In_groupident false.
Definition tcmi_shadow_rpc_setgid : procedure :=
  TCMI_SHADOW_RPC_GENERIC_CALL [id_t] (via In_groupident long Sys_setgid) In_groupident true.
Definition tcmi_shadow_rpc_setregid : procedure :=
  TCMI_SHADOW_RPC_GENERIC_CALL [id_t; id_t] (via In_groupident long Sys_setregid) In_groupident true.
Definition tcmi_shadow_rpc_setresgid : procedure :=
  TCMI_SHADOW_RPC_GENERIC_CALL [id_t; id_t; id_t] (via In_groupident long Sys_setresgid) In_groupident true.

(** [getresuid] and [getresgid]; an error makes no response and leaks the block. *)
Definition tcmi_shadow_rpc_getresid (uid : bool) : procedure := fun m =>
  ok ← s_alloc;
  if negb ok then mret (-1, None) else
  '(res, (r, e, s)) ← on_home (sys_getresid uid);
  rtn ← __syscall_return (if uid then In_userident else In_groupident) long res;
  if rtn =? -1 then mret (0, None) else
  resp ← tcmi_rpcresp_procmsg_create m rtn [(12, le_bytes 4 r ++ le_bytes 4 e ++ le_bytes 4 s)];
  match resp with
  | None => s_free;; mret (-1, None)
  | Some resp => mret (0, Some (tcmi_rpcresp_procmsg_free_on_put 0 TCMI_RPCRESP_PROCMSG_KFREE resp))
  end.

Definition tcmi_shadow_rpc_getresuid : procedure := tcmi_shadow_rpc_getresid true.
Definition tcmi_shadow_rpc_getresgid : procedure := tcmi_shadow_rpc_getresid false.

Definition tcmi_shadow_rpc_setgroups : procedure := fun m =>
  n ← rpc_param m 0 int;
  rtn ← _syscall In_groupident long (on_home (sys_setgroups n (tcmi_rpc_procmsg_data_base m 1)));
  rtn ← (if rtn =? -1 then errno ← gets s_errno; mret (errno In_groupident) else mret rtn);
  respond m rtn [].

Definition NGROUPS_PER_BLOCK : Z := 1024.
(** The loop over the blocks of groups: [count] goes down while [i] goes up. *)
Fixpoint copy_groups (fuel : nat) (blocks : Z -> list Z) (i count : Z) (ker_buf : list Z) : option (list Z) :=
  match fuel with
  | O => Some ker_buf
  | Datatypes.S fuel =>
      if i <? count then
        let cp_count := Z.min NGROUPS_PER_BLOCK count in
        let off := i * NGROUPS_PER_BLOCK in
        let len := cp_count * 4 in
        if (off * 4 + len <=? zlen ker_buf) && (len <=? zlen (blocks i)) then
          copy_groups fuel blocks (i + 1) (count - cp_count) (blit (off * 4) (ztake len (blocks i)) ker_buf)
        else None
      else Some ker_buf
  end.

(** A response that could not be made is passed to [tcmi_rpcresp_procmsg_free_on_put]. *)
Definition tcmi_shadow_rpc_getgroups : procedure := fun m =>
  n ← rpc_param m 0 (fun v => v);
  w ← gets s_home;
  let numb_of_groups := ngroups w in
  if n =? 0 then respond m numb_of_groups []
  else if n <? numb_of_groups then respond m (- EINVAL) []
  else
    ok ← s_alloc;
    if negb ok then mret (-1, None) else
    ker_buf ← valid (copy_groups (Z.to_nat numb_of_groups) (group_block w) 0 numb_of_groups (uninit (4 * numb_of_groups) w));
    resp ← tcmi_rpcresp_procmsg_create m numb_of_groups [(4 * numb_of_groups, ker_buf)];
    resp ← valid resp;
    mret (0, Some (tcmi_rpcresp_procmsg_free_on_put 0 TCMI_RPCRESP_PROCMSG_KFREE resp)).

(** *** tcmi_shadow_wait_rpc.c *)

Definition free_both (r : tcmi_rpcresp_procmsg) : tcmi_rpcresp_procmsg :=
  tcmi_rpcresp_procmsg_free_on_put 1 TCMI_RPCRESP_PROCMSG_KFREE (tcmi_rpcresp_procmsg_free_on_put 0 TCMI_RPCRESP_PROCMSG_KFREE r).

Definition tcmi_shadow_rpc_sys_wait4 : procedure := fun m =>
  ok ← s_alloc;
  if negb ok then mret (- ENOMEM, None) else
  d ← valid (tcmi_rpc_procmsg_data_base m 0); pid ← valid (load_int d);
  d ← valid (tcmi_rpc_procmsg_data_base m 1); options ← valid (load_int d);
  '(rtn, result_stats, result_usage) ← on_home (sys_wait4 pid options);
  ok ← s_alloc;
  if negb ok then s_free;; mret (- ENOMEM, None) else
  ok ← s_alloc;
  if negb ok then s_free;; s_free;; mret (- ENOMEM, None) else
  resp ← tcmi_rpcresp_procmsg_create m rtn [(144, result_usage); (4, le_bytes 4 result_stats)];
  s_free;;
  match resp with
  | None => s_free;; s_free;; mret (-1, None)
  | Some resp => mret (0, Some (free_both resp))
  end.

(** *** tcmi_shadow_fork_rpc.c *)

Definition CLONE_VFORK : Z := 16384.
Definition tcmi_shadow_rpc_do_fork : procedure := fun m =>
  d ← valid (tcmi_rpc_procmsg_data_base m 0); clone_flags ← valid (load_u64 d);
  d ← valid (tcmi_rpc_procmsg_data_base m 1); stack_start ← valid (load_u64 d);
  d ← valid (tcmi_rpc_procmsg_data_base m 2); stack_size ← valid (load_u64 d);
  let clone_flags := Z.land clone_flags (Z.lnot CLONE_VFORK) in
  '(rtn, parent_tid, child_tid) ← on_home (do_fork clone_flags stack_start stack_size);
  ok ← s_alloc;
  if negb ok then mret (- ENOMEM, None) else
  ok ← s_alloc;
  if negb ok then s_free;; mret (- ENOMEM, None) else
  resp ← tcmi_rpcresp_procmsg_create m rtn [(4, le_bytes 4 parent_tid); (4, le_bytes 4 child_tid)];
  match resp with
  | None => s_free;; s_free;; mret (-1, None)
  | Some resp => mret (0, Some (free_both resp))
  end.

Definition tcmi_calltable_shadow (n : Z) : option procedure :=
  if n =? TCMI_RPC_SYS_KILL then Some tcmi_shadow_rpc_sys_kill else
  if n =? TCMI_RPC_SYS_TKILL then Some tcmi_shadow_rpc_do_tkill else
  if n =? TCMI_RPC_SYS_SIGQUEUE then Some tcmi_shadow_rpc_rt_sigqueueinfo else
  if n =? TCMI_RPC_SYS_GETPGID then Some tcmi_shadow_rpc_sys_getpgid else
  if n =? TCMI_RPC_SYS_GETPGRP then Some tcmi_shadow_rpc_sys_getpgrp else
  if n =? TCMI_RPC_SYS_GETPPID then Some tcmi_shadow_rpc_sys_getppid else
  if n =? TCMI_RPC_SYS_GETSID then Some tcmi_shadow_rpc_sys_getsid else
  if n =? TCMI_RPC_SYS_SETPGID then Some tcmi_shadow_rpc_sys_setpgid else
  if n =? TCMI_RPC_SYS_SETSID then Some tcmi_shadow_rpc_sys_setsid else
  if n =? TCMI_RPC_SYS_GETUID then Some tcmi_shadow_rpc_getuid else
  if n =? TCMI_RPC_SYS_GETEUID then Some tcmi_shadow_rpc_geteuid else
  if n =? TCMI_RPC_SYS_GETRESUID then Some tcmi_shadow_rpc_getresuid else
  if n =? TCMI_RPC_SYS_SETUID then Some tcmi_shadow_rpc_setuid else
  if n =? TCMI_RPC_SYS_SETREUID then Some tcmi_shadow_rpc_setreuid else
  if n =? TCMI_RPC_SYS_SETRESUID then Some tcmi_shadow_rpc_setresuid else
  if n =? TCMI_RPC_SYS_GETGID then Some tcmi_shadow_rpc_getgid else
  if n =? TCMI_RPC_SYS_GETEGID then Some tcmi_shadow_rpc_getegid else
  if n =? TCMI_RPC_SYS_GETGROUPS then Some tcmi_shadow_rpc_getgroups else
  if n =? TCMI_RPC_SYS_GETRESGID then Some tcmi_shadow_rpc_getresgid else
  if n =? TCMI_RPC_SYS_SETGID then Some tcmi_shadow_rpc_setgid else
  if n =? TCMI_RPC_SYS_SETGROUPS then Some tcmi_shadow_rpc_setgroups else
  if n =? TCMI_RPC_SYS_SETREGID then Some tcmi_shadow_rpc_setregid else
  if n =? TCMI_RPC_SYS_SETRESGID then Some tcmi_shadow_rpc_setresgid else
  if n =? TCMI_RPC_SYS_WAIT4 then Some tcmi_shadow_rpc_sys_wait4 else
  if n =? TCMI_RPC_SYS_FORK then Some tcmi_shadow_rpc_do_fork else None.

(** The dispatch of a request by the shadow task; the result of the procedure is ignored. *)
Definition shadow_dispatch (m : tcmi_rpc_procmsg) : S (option tcmi_rpcresp_procmsg) :=
  if TCMI_MAX_RPC_NUM <? rpcnum m then mret None
  else match tcmi_calltable_shadow (rpcnum m) with
       | None => mret None
       | Some f => '(_, resp) ← f m; mret resp
       end.
End shadow.
