(* ===== verification/RpcCall.v ===== *)
(** Remote system calls end to end: the hook of a guest process, the request and the response
    as they are sent and received over connections that cut the stream anywhere, and the
    procedure of the shadow. *)

From stdpp Require Import gmap.
From S2P Require Import Prelude Effect KkcSock Messages Rpc.

(** ** The exchange *)

Section exchange.
Context `{HH : Home}.
(** The objects that receive request and response, and the cuts of the four streams. *)
Context (m0 : tcmi_rpc_procmsg) (r0 : tcmi_rpcresp_procmsg) (c1 c2 c3 c4 : list Z).

(** Allocations for received messages succeed. *)
Definition km (i : nat) (n : Z) : bool := true.

Definition carried_request (m : tcmi_rpc_procmsg) : option tcmi_rpc_procmsg :=
  let '(err, s) := tcmi_rpc_procmsg_send m (mk_seg [] [] c1) in
  if err <? 0 then None else
  '(err, m', _) ← tcmi_rpc_procmsg_recv km m0 (mk_seg [] (sg_out s) c2);
  if err <? 0 then None else Some m'.
Definition carried_response (r : tcmi_rpcresp_procmsg) : option tcmi_rpcresp_procmsg :=
  let '(err, s) := tcmi_rpcresp_procmsg_send r (mk_seg [] [] c3) in
  if err <? 0 then None else
  '(err, r', _) ← tcmi_rpcresp_procmsg_recv km r0 (mk_seg [] (sg_out s) c4);
  if err <? 0 then None else Some r'.

(** The shadow task puts a response that it sent: the message, its table and its data. *)
Definition response_blocks (r : tcmi_rpcresp_procmsg) : Z :=
  let '(data, table) := tcmi_rpcresp_procmsg_free r in 1 + zlen data + Z.b2z table.

Definition exchange (m : tcmi_rpc_procmsg) : eff shadow (option tcmi_rpcresp_procmsg) :=
  m ← valid (carried_request m);
  resp ← shadow_dispatch m;
  match resp with
  | None => mret None
  | Some r =>
      modify (fun w => set_s_live (s_live w - response_blocks r) w);;
      mret (carried_response r)
  end.

Lemma seg_up (k : seg_kernel) : sk_up k.
Proof. exact Logic.I. Qed.

Lemma request_carried m : wf_proc km (P_rpc m) -> carried_request m = Some (rpc_received m0 m).
Proof.
  intros Hwf. destruct (proc_send_wire km (P_rpc m) Hwf (mk_seg [] [] c1) (seg_up _)) as (e & s & E & He & _ & Hs & _).
  cbn in Hs. unfold carried_request. unfold proc_send in E. rewrite E. replace (e <? 0) with false by lia.
  destruct (rpc_received_recv km m0 m Hwf (mk_seg [] (sg_out s) c2) [] (seg_up _)) as (e' & s' & E' & He' & _).
  { cbn. by rewrite app_nil_r. }
  rewrite E'. cbn. by replace (e' <? 0) with false by lia.
Qed.
Lemma response_carried r : wf_proc km (P_rpcresp r) -> carried_response r = Some (rpcresp_received r0 r).
Proof.
  intros Hwf. destruct (proc_send_wire km (P_rpcresp r) Hwf (mk_seg [] [] c3) (seg_up _)) as (e & s & E & He & _ & Hs & _).
  cbn in Hs. unfold carried_response. unfold proc_send in E. rewrite E. replace (e <? 0) with false by lia.
  destruct (rpcresp_received_recv km r0 r Hwf (mk_seg [] (sg_out s) c4) [] (seg_up _)) as (e' & s' & E' & He' & _).
  { cbn. by rewrite app_nil_r. }
  rewrite E'. cbn. by replace (e' <? 0) with false by lia.
Qed.

(** ** Calls that pass integers *)

Lemma zlen_long_bytes ps : zlen (long_bytes ps) = 8 * zlen ps.
Proof.
  induction ps as [|p ps IH]; [done|]. unfold long_bytes in *. cbn [mbind list_bind].
  rewrite zlen_app, zlen_le_bytes, IH, zlen_cons. lia.
Qed.

Lemma load_long_at pre p post :
  srange 64 p -> load_long (zlen pre) (long_bytes (pre ++ p :: post)) = Some p.
Proof.
  intros Hp. unfold load_long, load, long_bytes. rewrite bind_app. fold (long_bytes pre) (long_bytes (p :: post)).
  pose proof (zlen_nonneg post). rewrite zlen_app, !zlen_long_bytes, zlen_cons.
  change (Z.of_nat 8) with 8. rewrite (proj2 (Z.leb_le _ _)) by lia.
  rewrite <- zlen_long_bytes, zdrop_app_eq. cbn [long_bytes mbind list_bind].
  rewrite ztake_app_le, ztake_all by (by rewrite zlen_le_bytes). cbn [mbind option_bind].
  f_equal. apply (field_s 8); [lia|done].
Qed.

Lemma params_read m base tys : tcmi_rpc_procmsg_data_base m 0 = Some base ->
  forall pre ps w, base = long_bytes (pre ++ ps) -> Forall (srange 64) ps -> length ps = length tys ->
  rpc_params m (zlen pre) tys w = Ret (zip_with (fun ty p => ty p) tys ps) w.
Proof.
  intros Hb. induction tys as [|ty tys IH]; intros pre ps w Hbase Hps Hl; [by destruct ps|].
  destruct ps as [|p ps]; [done|]. apply Forall_cons in Hps as [Hp Hps]. cbn [rpc_params zip_with].
  unfold rpc_param. rewrite Hb. run. assert (load_long (zlen pre) base = Some p) as -> by (rewrite Hbase; by apply load_long_at).
  replace (zlen pre + 1) with (zlen (pre ++ [p])) by (rewrite zlen_app; done).
  rewrite (IH (pre ++ [p]) ps w); [done|by rewrite Hbase, <- app_assoc|done|by injection Hl].
Qed.

(** The six parameters. *)
Lemma parameters_split ps : (length ps <= 6)%nat -> Forall (srange 64) ps ->
  parameters_of ps = ps ++ replicate (6 - length ps) 0.
Proof.
  intros Hl Hps. unfold parameters_of, TCMI_RPC_MAXPARAMS.
  assert ((fun p => s64[p]) <$> ps = ps) as ->.
  { induction Hps as [|p ps Hp _ IH]; [done|]. cbn [fmap list_fmap].
    rewrite (swrap_id 64 eq_refl p Hp). cbn in Hl. f_equal. apply IH. lia. }
  rewrite take_app_ge by lia. f_equal. rewrite take_replicate. f_equal. lia.
Qed.

(** What reaches the shadow: the parameters, or nothing when there are none. *)
Lemma request_params n ps : (length ps <= 6)%nat -> Forall (srange 64) ps -> urange 16 n ->
  let elems := va_elems 6 (if 0 <? zlen ps then [(8 * zlen ps, long_bytes (parameters_of ps))] else []) in
  let m := mk_rpc u16[n] (zlen elems) ((fun e => u32[e.1]) <$> elems) (snd <$> elems) false in
  wf_proc km (P_rpc m) /\ rpcnum (rpc_received m0 m) = n /\
  (ps <> [] -> tcmi_rpc_procmsg_data_base (rpc_received m0 m) 0 = Some (long_bytes ps)).
Proof.
  intros Hl Hps Hn. pose proof (uwrap_id 16 n Hn) as Hn'. destruct (0 <? zlen ps) eqn:E.
  - assert (0 < zlen ps <= 6) as Hz by (unfold zlen in *; lia). cbn [va_elems].
    replace (8 * zlen ps =? 0) with false by lia. cbv zeta. cbn [fmap list_fmap fst snd].
    rewrite (uwrap_id 32 (8 * zlen ps)) by (unfold urange; lia). remember (long_bytes (parameters_of ps)) as b eqn:Hbdef.
    change (zlen [(8 * zlen ps, b)]) with 1.
    assert (b = long_bytes ps ++ long_bytes (replicate (6 - length ps) 0)) as Hb.
    { subst b. rewrite parameters_split by done. unfold long_bytes. by rewrite bind_app. }
    assert (zlen (long_bytes ps) = 8 * zlen ps) as Hlen by apply zlen_long_bytes.
    assert (ztake (8 * zlen ps) b = long_bytes ps) as Ht by (rewrite Hb, <- Hlen; apply ztake_app_eq).
    split_and!.
    + cbn [wf_proc rpcnum nmemb elem_size elem_base]. rewrite Hn'. split; [done|]. split; [|done].
      split; [done|]. intros _. split; [done|]. split; [|cbn; lia].
      constructor; [|constructor]. rewrite Hb, zlen_app, Hlen. pose proof (zlen_nonneg (long_bytes (replicate (6 - length ps) 0))). lia.
    + cbn. by rewrite Hn'.
    + intros _. cbn -[ztake Z.mul].
 rewrite Ht. by rewrite app_nil_r.
  - assert (ps = []) as -> by (destruct ps; [done|rewrite zlen_cons in E; pose proof (zlen_nonneg ps); lia]).
    split_and!; [|cbn; by rewrite Hn'|done]. cbn. rewrite Hn'. split; [done|]. split; [|done]. split; [done|by intros Hc; vm_compute in Hc].
Qed.

Lemma response_empty m rtn : urange 16 (rpcnum m) ->
  wf_proc km (P_rpcresp (mk_rpcresp (rpcnum m) 0 s64[rtn] [] [] [])).
Proof.
  intros Hm. cbn. split; [done|]. split; [by apply (swrap_range 64)|]. split; [|done]. split; [done|lia].
Qed.

(** The state of the home node behind a call. *)
Definition rest_home (h : hst) (e : errno_of -> Z) (w : shadow) : shadow := mk_shadow _ h e (s_allocs w) (s_live w).

(** *** The steps of a call *)

Lemma get_response_ret n args g r h :
  g_allocs g = [] ->
  let elems := va_elems 6 args in
  exchange (mk_rpc u16[n] (zlen elems) ((fun e => u32[e.1]) <$> elems) (snd <$> elems) false) (home g) = Ret (Some r) h ->
  tcmi_rpcresp_procmsg_get_response exchange n args g = Ret (Some r) (set_g_msgs (g_msgs g + 1) (set_home h g)).
Proof.
  intros Ha elems Hx. destruct g as [mem al bl ms pid gu w]. cbn [g_allocs home] in Ha, Hx. subst al.
  unfold tcmi_rpcresp_procmsg_get_response, g_alloc, at_home, msgs, set_g_allocs, set_g_msgs, set_home, TCMI_RPC_MAXPARAMS.
  fold elems. run. cbn [g_allocs tail head default negb andb Z.leb Z.compare home].
  rewrite Hx. rewrite bool_decide_true by (by eexists). cbn. do 2 f_equal. lia.
Qed.

Lemma exchange_ret m w r w' :
  wf_proc km (P_rpc m) -> shadow_dispatch (rpc_received m0 m) w = Ret (Some r) w' -> wf_proc km (P_rpcresp r) ->
  exchange m w = Ret (Some (rpcresp_received r0 r)) (set_s_live (s_live w' - response_blocks r) w').
Proof.
  intros Hm Hd Hr. unfold exchange. rewrite request_carried by done. unfold valid. run. rewrite Hd.
  by rewrite response_carried.
Qed.

Lemma dispatch_ret n m proc w z r w' :
  rpcnum m = n -> n <= TCMI_MAX_RPC_NUM -> tcmi_calltable_shadow n = Some proc -> proc m w = Ret (z, r) w' ->
  shadow_dispatch m w = Ret r w'.
Proof.
  intros <- Hn Ht Hp. unfold shadow_dispatch. replace (_ <? _) with false by lia. rewrite Ht. run. by rewrite Hp.
Qed.

Lemma generic_ret tys name f use m args rtn h e w :
  s_allocs w = [] -> rpc_params m 0 tys w = Ret args w -> name args w = Ret rtn (rest_home h e w) ->
  TCMI_SHADOW_RPC_GENERIC_CALL tys name f use m w =
  Ret (0, Some (mk_rpcresp (rpcnum m) 0 s64[if use && (rtn =? -1) then e f else rtn] [] [] []))
    (set_s_live (s_live w + 1) (rest_home h e w)).
Proof.
  intros Ha Hp Hn. unfold TCMI_SHADOW_RPC_GENERIC_CALL. run. rewrite Hp, Hn.
  destruct (use && (rtn =? -1)); unfold respond, tcmi_rpcresp_procmsg_create, s_alloc; run;
    destruct w as [h0 e0 al lv]; cbn in Ha; subst al; reflexivity.
Qed.

(** Both call tables have a generic procedure for the call. *)
Lemma generic_call n tys name f use ps g rtn h e :
  tcmi_calltable_guest exchange n = Some (TCMI_GUEST_RPC_SYS_N exchange (zlen ps) n) ->
  tcmi_calltable_shadow n = Some (TCMI_SHADOW_RPC_GENERIC_CALL tys name f use) ->
  0 < n <= TCMI_MAX_RPC_NUM -> (length ps <= 6)%nat -> length ps = length tys -> Forall (srange 64) ps ->
  g_allocs g = [] -> s_allocs (home g) = [] ->
  name (zip_with (fun ty p => ty p) tys ps) (home g) = Ret rtn (rest_home h e (home g)) ->
  guest_call exchange n ps g =
    Ret s64[if use && (rtn =? -1) then e f else rtn] (set_home (rest_home h e (home g)) g).
Proof.
  intros Hg Hs Hn Hl Hlen Hps Hag Has Hname. assert (urange 16 n) as Hn16 by (unfold urange, TCMI_MAX_RPC_NUM in *; lia).
  destruct (request_params n ps Hl Hps Hn16) as (Hwf & Hnum & Hdata).
  unfold guest_call, tcmi_rpc_call, tcmi_rpc_do. rewrite Hg. replace (TCMI_MAX_RPC_NUM <? n) with false by lia.
  unfold TCMI_GUEST_RPC_SYS_N.
  set (args := if 0 <? zlen ps then _ else _) in *. set (m := mk_rpc _ _ _ _ _) in *.
  assert (rpc_params (rpc_received m0 m) 0 tys (home g) = Ret (zip_with (fun ty p => ty p) tys ps) (home g)) as Hrp.
  { destruct ps as [|p ps]; [by destruct tys|].
    exact (params_read _ _ tys (Hdata ltac:(done)) [] (p :: ps) (home g) eq_refl Hps Hlen). }
  pose proof (generic_ret tys name f use _ _ _ _ _ _ Has Hrp Hname) as Hgen. rewrite Hnum in Hgen.
  pose proof (dispatch_ret n _ _ _ _ _ _ Hnum ltac:(lia) Hs Hgen) as Hd.
  pose proof (exchange_ret m _ _ _ Hwf Hd) as Hx. rewrite <- Hnum in Hx.
  specialize (Hx (response_empty (rpc_received m0 m) _ ltac:(by rewrite Hnum))).
  unfold mbind at 1, eff_bind at 1. rewrite (get_response_ret n args g _ _ Hag Hx).
  unfold rpc_msg_put, msgs. run. cbn [rpcresp_received r_nmemb rtn_code Z.ltb Z.compare].
  f_equal. destruct g as [? ? ? ? ? ? w]. cbn in *. unfold set_g_msgs, set_home, rest_home, set_s_live, response_blocks. cbn.
  f_equal; [lia|]. f_equal. rewrite zlen_nil. lia.
Qed.

(** *** The calls *)

Inductive remote_call :=
| R_getppid | R_getpgid (pid : Z) | R_setpgid (pid pgid : Z) | R_getsid (pid : Z) | R_setsid | R_getpgrp
| R_kill (pid sig : Z) | R_tkill (tgid pid sig : Z)
| R_getuid | R_geteuid | R_setuid (uid : Z) | R_setreuid (ruid euid : Z) | R_setresuid (ruid euid suid : Z)
| R_getgid | R_getegid | R_setgid (gid : Z) | R_setregid (rgid egid : Z) | R_setresgid (rgid egid sgid : Z).

(** The hook that the guest calls. *)
Definition hook_of (c : remote_call) : eff (guest shadow) Z :=
  match c with
  | R_getppid => tcmi_syscall_hooks_sys_getppid exchange
  | R_getpgid pid => tcmi_syscall_hooks_sys_getpgid exchange pid
  | R_setpgid pid pgid => tcmi_syscall_hooks_sys_setpgid exchange pid pgid
  | R_getsid pid => tcmi_syscall_hooks_sys_getsid exchange pid
  | R_setsid => tcmi_syscall_hooks_sys_setsid exchange
  | R_getpgrp => tcmi_syscall_hooks_sys_getpgrp exchange
  | R_kill pid sig => tcmi_syscall_hooks_sys_kill exchange pid sig
  | R_tkill tgid pid sig => tcmi_syscall_hooks_do_tkill exchange tgid pid sig
  | R_getuid => tcmi_syscall_hooks_sys_getuid exchange
  | R_geteuid => tcmi_syscall_hooks_sys_geteuid exchange
  | R_setuid u => tcmi_syscall_hooks_sys_setuid exchange u
  | R_setreuid r e => tcmi_syscall_hooks_sys_setreuid exchange r e
  | R_setresuid r e s => tcmi_syscall_hooks_sys_setresuid exchange r e s
  | R_getgid => tcmi_syscall_hooks_sys_getgid exchange
  | R_getegid => tcmi_syscall_hooks_sys_getegid exchange
  | R_setgid u => tcmi_syscall_hooks_sys_setgid exchange u
  | R_setregid r e => tcmi_syscall_hooks_sys_setregid exchange r e
  | R_setresgid r e s => tcmi_syscall_hooks_sys_setresgid exchange r e s
  end.

(** The system call of the home node, and its arguments. *)
Definition sys_of (c : remote_call) : sysno * list Z :=
  match c with
  | R_getppid => (Sys_getppid, []) | R_getpgid pid => (Sys_getpgid, [pid])
  | R_setpgid pid pgid => (Sys_setpgid, [pid; pgid]) | R_getsid pid => (Sys_getsid, [pid])
  | R_setsid => (Sys_setsid, []) | R_getpgrp => (Sys_getpgrp, [])
  | R_kill pid sig => (Sys_kill, [pid; sig]) | R_tkill tgid pid sig => (Do_tkill, [tgid; pid; sig])
  | R_getuid => (Sys_getuid, []) | R_geteuid => (Sys_geteuid, []) | R_setuid u => (Sys_setuid, [u])
  | R_setreuid r e => (Sys_setreuid, [r; e]) | R_setresuid r e s => (Sys_setresuid, [r; e; s])
  | R_getgid => (Sys_getgid, []) | R_getegid => (Sys_getegid, []) | R_setgid u => (Sys_setgid, [u])
  | R_setregid r e => (Sys_setregid, [r; e]) | R_setresgid r e s => (Sys_setresgid, [r; e; s])
  end.

(** Process ids and signals are ints, user and group ids are unsigned. *)
Definition is_pid_call (c : remote_call) : bool :=
  match c with
  | R_getppid | R_getpgid _ | R_setpgid _ _ | R_getsid _ | R_setsid | R_getpgrp | R_kill _ _ | R_tkill _ _ _ => true
  | _ => false
  end.
Definition typed_args (c : remote_call) : Prop := Forall (if is_pid_call c then srange 32 else urange 32) (sys_of c).2.

(** What the guest sees of the result [r]; [errno] is the variable of the file of the kill
    procedures. *)
Definition seen (c : remote_call) (errno r : Z) : Z :=
  let error := (-127 <=? r) && (r <? 0) in
  match c with
  | R_kill _ _ | R_tkill _ _ _ => if r =? -1 then errno else r
  | R_getuid | R_geteuid => if error then -1 else r
  | R_getgid | R_getegid => if error then 2 ^ 32 - 1 else u32[r]
  | R_setuid _ | R_setreuid _ _ | R_setresuid _ _ _ | R_setgid _ | R_setregid _ _ | R_setresgid _ _ _ =>
      if error then - r else r
  | _ => r
  end.

Lemma direct_ret s args w r h : sys s args (s_home w) = (r, h) -> direct s args w = Ret r (rest_home h (s_errno w) w).
Proof. intros Hs. unfold direct, on_home. run. by rewrite Hs. Qed.

Lemma in_error_range r : srange 64 r -> (u64[-127] <=? u64[r]) = ((-127 <=? r) && (r <? 0)).
Proof.
  intros Hr. unfold srange in Hr. change (u64[-127]) with (2 ^ 64 - 127). unfold uwrap.
  destruct (Z_lt_dec r 0) as [Hneg|Hpos].
  - replace (r mod 2 ^ 64) with (r + 2 ^ 64); [lia|].
    rewrite <- (Z.mod_add r 1) by done. symmetry. apply Z.mod_small. lia.
  - rewrite Z.mod_small by lia. lia.
Qed.

(** A call through a [_syscall] stub: the error is in [errno]. *)
Lemma via_ret f ty s args w r h :
  sys s args (s_home w) = (r, h) -> srange 64 r ->
  exists e, via f ty s args w = Ret (ty (if (-127 <=? r) && (r <? 0) then -1 else r)) (rest_home h e w) /\
    ((-127 <=? r) && (r <? 0) = true -> e f = - r).
Proof.
  intros Hs Hr. unfold via, _syscall, __syscall_return. unfold mbind, eff_bind.
  rewrite (direct_ret s args w r h Hs), (in_error_range r Hr). destruct (_ && _) eqn:E.
  - eexists. split; [reflexivity|]. intros _. cbn. rewrite decide_True by done.
    apply (swrap_id 32 eq_refl). unfold srange. lia.
  - exists (s_errno w). done.
Qed.

Lemma ints_id ps : Forall (srange 32) ps -> zip_with (fun ty p => ty p) (replicate (length ps) int) ps = ps.
Proof. induction 1 as [|p ps Hp _ IH]; [done|]. cbn. rewrite IH. unfold int. by rewrite (swrap_id 32 eq_refl p Hp). Qed.
Lemma ids_id ps : Forall (urange 32) ps -> zip_with (fun ty p => ty p) (replicate (length ps) id_t) ps = ps.
Proof. induction 1 as [|p ps Hp _ IH]; [done|]. cbn. rewrite IH. unfold id_t. by rewrite (uwrap_id 32 p Hp). Qed.

Lemma pid_call n s f use ps g r h :
  tcmi_calltable_guest exchange n = Some (TCMI_GUEST_RPC_SYS_N exchange (zlen ps) n) ->
  tcmi_calltable_shadow n = Some (TCMI_SHADOW_RPC_GENERIC_CALL (replicate (length ps) int) (direct s) f use) ->
  0 < n <= TCMI_MAX_RPC_NUM -> (length ps <= 6)%nat -> Forall (srange 32) ps -> g_allocs g = [] -> s_allocs (home g) = [] ->
  sys s ps (s_home (home g)) = (r, h) ->
  guest_call exchange n ps g = Ret s64[if use && (r =? -1) then s_errno (home g) f else r]
    (set_home (rest_home h (s_errno (home g)) (home g)) g).
Proof.
  intros Hg Hs Hn Hl Hps Ha Ha' Hr. eapply generic_call; try done; [by rewrite length_replicate| |].
  - eapply Forall_impl; [exact Hps|]. unfold srange. lia.
  - rewrite ints_id by done. by apply direct_ret.
Qed.

Lemma id_call n s f ty use ps g r h :
  tcmi_calltable_guest exchange n = Some (TCMI_GUEST_RPC_SYS_N exchange (zlen ps) n) ->
  tcmi_calltable_shadow n = Some (TCMI_SHADOW_RPC_GENERIC_CALL (replicate (length ps) id_t) (via f ty s) f use) ->
  0 < n <= TCMI_MAX_RPC_NUM -> (length ps <= 6)%nat -> Forall (urange 32) ps -> g_allocs g = [] -> s_allocs (home g) = [] ->
  sys s ps (s_home (home g)) = (r, h) -> srange 64 r ->
  let error := (-127 <=? r) && (r <? 0) in
  let x := ty (if error then -1 else r) in
  exists e, guest_call exchange n ps g = Ret s64[if use && (x =? -1) then e f else x]
    (set_home (rest_home h e (home g)) g) /\ (error = true -> e f = - r).
Proof.
  intros Hg Hs Hn Hl Hps Ha Ha' Hsys Hr error x. destruct (via_ret f ty s ps (home g) r h Hsys Hr) as (e & Hv & He).
  exists e. split; [|exact He]. eapply generic_call; try done; [by rewrite length_replicate| |].
  - eapply Forall_impl; [exact Hps|]. unfold srange, urange. lia.
  - rewrite ids_id by done. exact Hv.
Qed.

Ltac call_side := first [eassumption | reflexivity | (unfold TCMI_MAX_RPC_NUM; vm_compute; split; congruence) | (cbn; lia)].
Ltac by_pid n s f use ps :=
  match goal with Hs : sys _ _ _ = (?r, ?h) |- _ =>
    eexists; etrans; [apply (pid_call n s f use ps _ r h); call_side|] end.
Ltac by_id n s f ty use ps :=
  let e := fresh "e" in let E := fresh in let He := fresh "He" in
  edestruct (id_call n s f ty use ps) as (e & E & He); [call_side..|];
  exists e; etrans; [exact E|].

(** The results as the guest sees them. *)
Lemma kill_seen {W} (w : W) errno r : s64[r] = r -> srange 32 errno ->
  Ret (A := Z) s64[if true && (r =? -1) then errno else r] w = Ret (if r =? -1 then errno else r) w.
Proof.
  intros Hr He. cbn [andb]. destruct (r =? -1); [|by rewrite Hr].
  rewrite (swrap_id 64 eq_refl errno); [done|]. unfold srange in *. lia.
Qed.
Lemma get_seen {W} (w : W) e r (error : bool) : s64[r] = r ->
  Ret (A := Z) s64[if false && (long (if error then -1 else r) =? -1) then e else long (if error then -1 else r)] w =
  Ret (if error then -1 else r) w.
Proof. intros Hr. cbn [andb]. unfold long. destruct error; [done|]. by rewrite !Hr. Qed.
Lemma gid_seen {W} (w : W) e r (error : bool) :
  Ret (A := Z) s64[if false && (id_t (if error then -1 else r) =? -1) then e else id_t (if error then -1 else r)] w =
  Ret (if error then 2 ^ 32 - 1 else u32[r]) w.
Proof.
  cbn [andb]. unfold id_t. destruct error; [done|]. rewrite (swrap_id 64 eq_refl); [done|].
  pose proof (uwrap_range 32 ltac:(lia) r) as Hr. unfold urange in Hr. unfold srange. lia.
Qed.
Lemma set_seen {W} (w : W) e r : s64[r] = r ->
  let error := (-127 <=? r) && (r <? 0) in (error = true -> e = - r) ->
  Ret (A := Z) s64[if true && (long (if error then -1 else r) =? -1) then e else long (if error then -1 else r)] w =
  Ret (if error then - r else r) w.
Proof.
  intros Hr error He. cbn [andb]. unfold long. destruct error eqn:E.
  - change (s64[-1] =? -1) with true. cbv iota. rewrite (He eq_refl). subst error.
    rewrite (swrap_id 64 eq_refl); [done|]. unfold srange. lia.
  - rewrite Hr. assert ((r =? -1) = false) as -> by (subst error; lia). by rewrite Hr.
Qed.

Lemma call_executes c g r h :
  g_allocs g = [] -> s_allocs (home g) = [] -> typed_args c ->
  sys (sys_of c).1 (sys_of c).2 (s_home (home g)) = (r, h) -> srange 64 r -> srange 32 (s_errno (home g) In_signal) ->
  exists e, hook_of c g = Ret (seen c (s_errno (home g) In_signal) r) (set_home (rest_home h e (home g)) g).
Proof.
  intros Ha Ha' Ht Hs Hr He. assert (s64[r] = r) as Hid by (by apply (swrap_id 64 eq_refl)).
  destruct c; cbn [sys_of fst snd] in Hs; unfold typed_args in Ht; cbn [sys_of is_pid_call snd] in Ht.
  - by_pid TCMI_RPC_SYS_GETPPID Sys_getppid In_pidman false (@nil Z). cbn. by rewrite Hid.
  - by_pid TCMI_RPC_SYS_GETPGID Sys_getpgid In_pidman false [pid]. cbn. by rewrite Hid.
  - by_pid TCMI_RPC_SYS_SETPGID Sys_setpgid In_pidman false [pid; pgid]. cbn. by rewrite Hid.
  - by_pid TCMI_RPC_SYS_GETSID Sys_getsid In_pidman false [pid]. cbn. by rewrite Hid.
  - by_pid TCMI_RPC_SYS_SETSID Sys_setsid In_pidman false (@nil Z). cbn. by rewrite Hid.
  - by_pid TCMI_RPC_SYS_GETPGRP Sys_getpgrp In_pidman false (@nil Z). cbn. by rewrite Hid.
  - by_pid TCMI_RPC_SYS_KILL Sys_kill In_signal true [pid; sig]. by apply kill_seen.
  - by_pid TCMI_RPC_SYS_TKILL Do_tkill In_signal true [tgid; pid; sig]. by apply kill_seen.
  - by_id TCMI_RPC_SYS_GETUID Sys_getuid In_userident long false (@nil Z). by apply get_seen.
  - by_id TCMI_RPC_SYS_GETEUID Sys_geteuid In_userident long false (@nil Z). by apply get_seen.
  - by_id TCMI_RPC_SYS_SETUID Sys_setuid In_userident long true [uid]. by apply set_seen.
  - by_id TCMI_RPC_SYS_SETREUID Sys_setreuid In_userident long true [ruid; euid]. by apply set_seen.
  - by_id TCMI_RPC_SYS_SETRESUID Sys_setresuid In_userident long true [ruid; euid; suid]. by apply set_seen.
  - by_id TCMI_RPC_SYS_GETGID Sys_getgid In_groupident id_t false (@nil Z). by apply gid_seen.
  - by_id TCMI_RPC_SYS_GETEGID Sys_getegid In_groupident id_t false (@nil Z). by apply gid_seen.
  - by_id TCMI_RPC_SYS_SETGID Sys_setgid In_groupident long true [gid]. by apply set_seen.
  - by_id TCMI_RPC_SYS_SETREGID Sys_setregid In_groupident long true [rgid; egid]. by apply set_seen.
  - by_id TCMI_RPC_SYS_SETRESGID Sys_setresgid In_groupident long true [rgid; egid; sgid]. by apply set_seen.
Qed.

(** ** Calls that pass memory *)

(** Elements whose memory has at least their sizes; whose sizes are those of their memory. *)
Definition fitting (args : list (Z * list Z)) : Prop :=
  (length args <= 6)%nat /\ Forall (fun e => 0 < e.1 < 2 ^ 20 /\ e.1 <= zlen e.2) args.
Definition exact (args : list (Z * list Z)) : Prop :=
  (length args <= 6)%nat /\ Forall (fun e => e.1 = zlen e.2 /\ 0 < e.1 < 2 ^ 20) args.

Lemma exact_fitting args : exact args -> fitting args.
Proof. intros [Hl Hf]. split; [done|]. eapply Forall_impl; [exact Hf|]. cbn. lia. Qed.

Lemma fitting_all args : fitting args -> va_elems 6 args = args /\ ((fun e => u32[e.1]) <$> args) = args.*1.
Proof.
  intros [Hl Hf]. split.
  - revert Hl Hf. generalize 6%nat. induction args as [|[k b] args IH]; intros n Hl Hf; [by destruct n|].
    destruct n as [|n]; [cbn in Hl; lia|]. apply Forall_cons in Hf as [[Hk _] Hf]. cbn [va_elems]. cbn in Hk.
    replace (k =? 0) with false by lia. rewrite IH; [done|cbn in Hl; lia|done].
  - clear Hl. induction Hf as [|[k b] args [Hk _] _ IH]; [done|]. cbn [fmap list_fmap fst] in *.
    rewrite (uwrap_id 32 k) by (unfold urange; lia). by f_equal.
Qed.

Lemma fitting_sized args : fitting args -> sized (args.*1) (args.*2) /\ 0 <= sum_sizes (args.*1) <= 2 ^ 20 * zlen args.
Proof.
  intros [_ Hf]. induction Hf as [|[k b] args [Hk Hr] _ (IH1 & IH3)]; [split_and!; try done; constructor|].
  cbn [fmap list_fmap fst snd] in *. change (sum_sizes (k :: args.*1)) with (k + sum_sizes (args.*1)). split_and!.
  - constructor; [lia|done].
  - lia.
  - rewrite zlen_cons. lia.
Qed.

Lemma exact_elems args : exact args -> elems (args.*1) (args.*2) = args.*2.
Proof.
  intros [_ Hf]. unfold elems. induction Hf as [|[k b] args [Hk _] _ IH]; [done|].
  cbn [fmap list_fmap fst snd zip_with] in *. by rewrite ztake_all, IH by lia.
Qed.

Lemma fitting_elems_ok args : fitting args -> elems_ok (zlen args) (args.*1) (args.*2).
Proof.
  intros He. destruct (fitting_sized _ He) as (Hs & Hsum). destruct He as [Hl _].
  assert (0 <= zlen args <= 6) by (unfold zlen; lia). split; [lia|]. intros _. split_and!; [|done|lia].
  unfold zlen. by rewrite length_fmap.
Qed.

(** The request with these elements as the shadow gets it. *)
Definition arrived (n : Z) (args : list (Z * list Z)) : tcmi_rpc_procmsg :=
  mk_rpc n (zlen args) (args.*1) (bases_of (args.*1) (concat (elems (args.*1) (args.*2)))) (free_data m0).

Lemma zlen_pos {A} (l : list A) : l <> [] -> (0 <? zlen l) = true.
Proof. destruct l as [|x l]; [done|]. rewrite zlen_cons. pose proof (zlen_nonneg l). lia. Qed.

Lemma elems_call n args proc g z r w' :
  fitting args -> args <> [] -> 0 < n <= TCMI_MAX_RPC_NUM -> tcmi_calltable_shadow n = Some proc ->
  g_allocs g = [] -> proc (arrived n args) (home g) = Ret (z, Some r) w' -> wf_proc km (P_rpcresp r) ->
  tcmi_rpcresp_procmsg_get_response exchange n args g =
    Ret (Some (rpcresp_received r0 r)) (set_g_msgs (g_msgs g + 1)
      (set_home (set_s_live (s_live w' - response_blocks r) w') g)).
Proof.
  intros He Hne Hn Ht Ha Hp Hr. destruct (fitting_all _ He) as [Hva Hmap].
  assert (urange 16 n) as Hn16 by (unfold urange, TCMI_MAX_RPC_NUM in *; lia).
  pose proof (zlen_pos _ Hne) as Hpos. set (m := mk_rpc u16[n] (zlen args) (args.*1) (args.*2) false).
  assert (rpc_received m0 m = arrived n args) as Hm.
  { unfold rpc_received, arrived, m. cbn [nmemb rpcnum elem_size elem_base]. by rewrite Hpos, (uwrap_id 16 n Hn16). }
  apply get_response_ret; [done|]. rewrite Hva, Hmap. fold m. apply exchange_ret; [|rewrite Hm|done].
  - cbn [wf_proc m rpcnum nmemb elem_size elem_base]. rewrite (uwrap_id 16 n) by done.
    split_and!; [apply Hn16..|by apply fitting_elems_ok|done].
  - by apply (dispatch_ret n _ proc _ z); [|lia|..].
Qed.

(** A response with elements, and what the guest gets. *)
Lemma create_ret m rtn args w :
  exact args -> args <> [] -> s_allocs w = [] ->
  tcmi_rpcresp_procmsg_create m rtn args w =
  Ret (Some (mk_rpcresp (rpcnum m) (zlen args) s64[rtn] (replicate (length args) TCMI_RPCRESP_PROCMSG_DONTFREE)
    (args.*1) (args.*2))) (set_s_live (s_live w + 2) w).
Proof.
  intros He Hne Ha. destruct (fitting_all _ (exact_fitting _ He)) as [Hva Hmap]. destruct w as [h e al lv]. cbn in Ha. subst al.
  unfold tcmi_rpcresp_procmsg_create, s_alloc, TCMI_RPC_MAXPARAMS. run. rewrite Hva, Hmap. cbn [s_allocs tail head default].
  rewrite (zlen_pos _ Hne).
  cbn [s_live]. replace (lv + 2) with (lv + 1 + 1) by lia. reflexivity.
Qed.

Lemma response_wf n rtn fr args : urange 16 n -> exact args ->
  wf_proc km (P_rpcresp (mk_rpcresp n (zlen args) s64[rtn] fr (args.*1) (args.*2))).
Proof.
  intros Hn He. cbn [wf_proc r_rpcnum rtn_code r_nmemb r_elem_size r_elem_base].
  split; [done|]. split; [by apply (swrap_range 64)|]. split; [by apply fitting_elems_ok, exact_fitting|done].
Qed.

Lemma response_data n rtn fr args i base : exact args ->
  bases_of (args.*1) (concat (args.*2)) !! Z.to_nat i = Some base -> i < zlen args ->
  tcmi_rpcresp_procmsg_data_base (rpcresp_received r0 (mk_rpcresp n (zlen args) rtn fr (args.*1) (args.*2))) i = Some base.
Proof.
  intros He Hb Hi. pose proof (exact_elems _ He) as Hel. unfold rpcresp_received. cbn [r_nmemb].
  replace (0 <? zlen args) with true; cycle 1.
  { destruct args; [done|]. rewrite zlen_cons. pose proof (zlen_nonneg args). lia. }
  unfold tcmi_rpcresp_procmsg_data_base. cbn [r_nmemb r_elem_base r_elem_size]. rewrite Hel.
  by replace (i <? zlen args) with true by lia.
Qed.

Lemma load_int_at v rest : srange 32 v -> load_int (le_bytes 4 v ++ rest) = Some v.
Proof.
  intros Hv. unfold load_int, load. rewrite zlen_app, zlen_le_bytes. pose proof (zlen_nonneg rest).
  rewrite (proj2 (Z.leb_le _ _)) by lia. rewrite zdrop_0, ztake_app_le, ztake_all by (rewrite ?zlen_le_bytes; lia).
  cbn [mbind option_bind]. f_equal. apply (field_s 4); [lia|done].
Qed.

(** *** wait4 *)

Definition wait_args (pid options : Z) : list (Z * list Z) := [(4, le_bytes 4 pid); (4, le_bytes 4 options)].
Definition wait_results (ru : list Z) (st : Z) : list (Z * list Z) := [(144, ru); (4, le_bytes 4 st)].

Lemma wait_args_exact pid options : exact (wait_args pid options).
Proof. split; [cbn; lia|]. repeat constructor; cbn; lia. Qed.
Lemma wait_results_exact ru st : zlen ru = 144 -> exact (wait_results ru st).
Proof. intros Hz. split; [cbn; lia|]. repeat constructor; cbn; rewrite ?Hz; lia. Qed.

Lemma shadow_alloc w : s_allocs w = [] -> s_alloc w = Ret true (set_s_live (s_live w + 1) w).
Proof. intros Ha. destruct w as [h e al lv]. cbn in Ha. by subst al. Qed.

Lemma shadow_wait pid options w r st ru h :
  s_allocs w = [] -> srange 32 pid -> srange 32 options -> sys_wait4 pid options (s_home w) = (r, st, ru, h) -> zlen ru = 144 ->
  tcmi_shadow_rpc_sys_wait4 (arrived TCMI_RPC_SYS_WAIT4 (wait_args pid options)) w =
  Ret (0, Some (mk_rpcresp TCMI_RPC_SYS_WAIT4 2 s64[r] [TCMI_RPCRESP_PROCMSG_KFREE; TCMI_RPCRESP_PROCMSG_KFREE]
    [144; 4] [ru; le_bytes 4 st])) (set_s_live (s_live w + 4) (rest_home h (s_errno w) w)).
Proof.
  intros Ha Hp Ho Hs Hru. set (m := arrived _ _).
  assert (tcmi_rpc_procmsg_data_base m 0 = Some (le_bytes 4 pid ++ le_bytes 4 options)) as H0 by done.
  assert (tcmi_rpc_procmsg_data_base m 1 = Some (le_bytes 4 options ++ [])) as H1 by done.
  pose proof (shadow_alloc w Ha) as A1. unfold tcmi_shadow_rpc_sys_wait4. step A1. cbn [negb]. rewrite H0, H1.
  set (w1 := set_s_live _ _) in *.
  assert (forall A (x : A), valid (Some x) w1 = Ret x w1) as Hval by done.
  step (Hval _ (le_bytes 4 pid ++ le_bytes 4 options)). rewrite load_int_at by done. step (Hval _ pid).
  step (Hval _ (le_bytes 4 options ++ [])). rewrite load_int_at by done. step (Hval _ options).
  assert (on_home (sys_wait4 pid options) w1 = Ret (r, st, ru) (set_s_home h w1)) as Hh by (unfold on_home; run; change (s_home w1) with (s_home w); by rewrite Hs).
  step Hh. cbv iota. step (shadow_alloc (set_s_home h w1) Ha). cbn [negb]. set (w2 := set_s_live _ _).
  step (shadow_alloc w2 Ha). cbn [negb]. set (w3 := set_s_live _ w2).
  step (create_ret m r _ w3 (wait_results_exact ru st Hru) ltac:(done) Ha). unfold s_free. run.
  f_equal. unfold w3, w2, w1, set_s_live, rest_home, set_s_home. cbn. f_equal. lia.
Qed.

(** What [wait4] stores in the memory of the guest. *)
Definition wait_stores (stat_addr ru_addr st : Z) (ru : list Z) (m : gmap Z Z) : gmap Z Z :=
  let m := if stat_addr =? 0 then m else store_bytes stat_addr (le_bytes 4 st) m in
  if ru_addr =? 0 then m else store_bytes ru_addr ru m.

Lemma blocks_two n rtn sizes bases :
  response_blocks (mk_rpcresp n 2 rtn [TCMI_RPCRESP_PROCMSG_KFREE; TCMI_RPCRESP_PROCMSG_KFREE] sizes bases) = 4.
Proof. reflexivity. Qed.

Lemma wait_executes g pid stat_addr options ru_addr r st ru h :
  g_allocs g = [] -> s_allocs (home g) = [] -> srange 32 pid -> srange 32 options -> srange 64 stat_addr -> srange 64 ru_addr ->
  sys_wait4 pid options (s_home (home g)) = (r, st, ru, h) -> srange 64 r -> srange 32 st -> zlen ru = 144 ->
  tcmi_syscall_hooks_sys_wait4 exchange pid stat_addr options ru_addr g =
    Ret r (set_u_mem (wait_stores stat_addr ru_addr st ru (u_mem g))
      (set_home (rest_home h (s_errno (home g)) (home g)) g)).
Proof.
  intros Ha Ha' Hp Ho Hsa Hra Hs Hr Hst Hru.
  pose proof (shadow_wait pid options (home g) r st ru h Ha' Hp Ho Hs Hru) as Hsh.
  pose proof (response_wf TCMI_RPC_SYS_WAIT4 r [TCMI_RPCRESP_PROCMSG_KFREE; TCMI_RPCRESP_PROCMSG_KFREE] _
    ltac:(done) (wait_results_exact ru st Hru)) as Hwf.
  pose proof (elems_call TCMI_RPC_SYS_WAIT4 (wait_args pid options) tcmi_shadow_rpc_sys_wait4 g 0 _ _
    (exact_fitting _ (wait_args_exact pid options)) ltac:(done) ltac:(done) eq_refl Ha Hsh Hwf) as Hcall.
  rewrite (blocks_two TCMI_RPC_SYS_WAIT4 s64[r] [144; 4] [ru; le_bytes 4 st]) in Hcall.
  unfold tcmi_syscall_hooks_sys_wait4, guest_call, tcmi_rpc_call, tcmi_rpc_do.
  change (TCMI_MAX_RPC_NUM <? TCMI_RPC_SYS_WAIT4) with false. cbv iota.
  change (tcmi_calltable_guest exchange TCMI_RPC_SYS_WAIT4) with (Some (tcmi_guest_rpc_sys_wait4 exchange TCMI_RPC_SYS_WAIT4)). cbv iota.
  assert (parameters_of [pid; stat_addr; options; ru_addr] = [pid; stat_addr; options; ru_addr; 0; 0]) as ->.
  { apply (parameters_split [pid; stat_addr; options; ru_addr]); [cbn; lia|].
    repeat constructor; try done; unfold srange in *; lia. }
  unfold tcmi_guest_rpc_sys_wait4. change (znth [pid; stat_addr; options; ru_addr; 0; 0] 0) with pid.
  change (znth [pid; stat_addr; options; ru_addr; 0; 0] 2) with options.
  change (znth [pid; stat_addr; options; ru_addr; 0; 0] 1) with stat_addr.
  change (znth [pid; stat_addr; options; ru_addr; 0; 0] 3) with ru_addr. cbv zeta.
  rewrite !(swrap_id 32 eq_refl) by done. step Hcall. cbv iota.
  set (resp := rpcresp_received r0 _) in *. set (g1 := set_g_msgs _ _) in *.
  assert (tcmi_rpcresp_procmsg_data_base resp 0 = Some (ru ++ le_bytes 4 st ++ [])) as ->.
  { apply (response_data _ _ _ (wait_results ru st) 0); [by apply wait_results_exact|done|done]. }
  assert (tcmi_rpcresp_procmsg_data_base resp 1 = Some (le_bytes 4 st ++ [])) as ->.
  { apply (response_data _ _ _ (wait_results ru st) 1); [by apply wait_results_exact| |done].
    change (Some (zdrop 144 (ru ++ le_bytes 4 st ++ [])) = Some (le_bytes 4 st ++ [])).
    by rewrite <- Hru, zdrop_app_eq. }
  assert (forall A (x : A), valid (Some x) g1 = Ret x g1) as Hval by done.
  step (Hval _ (ru ++ le_bytes 4 st ++ [])). step (Hval _ (le_bytes 4 st ++ [])). rewrite load_int_at by done. step (Hval _ st).
  change RUSAGE_SIZE with 144. rewrite zlen_app, Hru. pose proof (zlen_nonneg (le_bytes 4 st ++ [])).
  replace (144 + zlen (le_bytes 4 st ++ []) <? 144) with false by lia. 
  assert (ztake 144 (ru ++ le_bytes 4 st ++ []) = ru) as -> by (rewrite <- Hru; apply ztake_app_eq).
  change (rtn_code resp) with s64[r]. rewrite (swrap_id 64 eq_refl r Hr).
  unfold put_user, copy_to_user, rpc_msg_put, msgs, wait_stores. run.
  destruct (stat_addr =? 0), (ru_addr =? 0); cbn [negb]; subst g1; destruct g as [? ? ? ? ? ? w];
    unfold set_u_mem, set_g_msgs, set_home, set_s_live, rest_home; cbn; f_equal; f_equal; try lia; f_equal; lia.
Qed.

(** *** Ids and groups *)

Lemma shadow_getresid uid n w r e s h :
  s_allocs w = [] -> urange 16 n -> sys_getresid uid (s_home w) = (0, (r, e, s), h) ->
  tcmi_shadow_rpc_getresid uid (mk_rpc n 0 (elem_size m0) (elem_base m0) (free_data m0)) w =
  Ret (0, Some (mk_rpcresp n 1 0 [TCMI_RPCRESP_PROCMSG_KFREE] [12] [le_bytes 4 r ++ le_bytes 4 e ++ le_bytes 4 s]))
    (set_s_live (s_live w + 3) (rest_home h (s_errno w) w)).
Proof.
  intros Ha Hn Hs. set (m := mk_rpc _ _ _ _ _). unfold tcmi_shadow_rpc_getresid. step (shadow_alloc w Ha). cbn [negb].
  set (w1 := set_s_live _ _).
  assert (on_home (sys_getresid uid) w1 = Ret (0, (r, e, s)) (set_s_home h w1)) as Hh
    by (unfold on_home; run; change (s_home w1) with (s_home w); by rewrite Hs).
  step Hh. cbv iota. set (ids := le_bytes 4 r ++ _).
  assert (__syscall_return (if uid then In_userident else In_groupident) long 0 (set_s_home h w1) = Ret 0 (set_s_home h w1)) as Hr by done.
  step Hr. change (0 =? -1) with false. cbv iota.
  assert (exact [(12, ids)]) as He by (split; [cbn; lia|]; repeat constructor).
  step (create_ret m 0 _ (set_s_home h w1) He ltac:(done) Ha). cbn. f_equal.
  unfold w1, set_s_live, rest_home, set_s_home. cbn. f_equal. lia.
Qed.

(** The call of [getresuid] or [getresgid]. *)
Definition getresid_hook (uid : bool) (r e s : Z) : eff (guest shadow) Z :=
  if uid then tcmi_syscall_hooks_sys_getresuid exchange r e s else tcmi_syscall_hooks_sys_getresgid exchange r e s.

Lemma getresid_fault uid g pr pe ps r e s h :
  g_allocs g = [] -> s_allocs (home g) = [] -> sys_getresid uid (s_home (home g)) = (0, (r, e, s), h) ->
  getresid_hook uid pr pe ps g = Fault.
Proof.
  intros Ha Ha' Hs. set (n := if uid then TCMI_RPC_SYS_GETRESUID else TCMI_RPC_SYS_GETRESGID).
  assert (urange 16 n) as Hn by (by destruct uid).
  pose proof (shadow_getresid uid n (home g) r e s h Ha' Hn Hs) as Hsh. set (ids := le_bytes 4 r ++ _) in *.
  set (resp := mk_rpcresp n 1 0 _ [12] [ids]) in *. set (args := [(12, ids)]).
  assert (exact args) as He by (split; [cbn; lia|]; repeat constructor).
  assert (wf_proc km (P_rpcresp resp)) as Hwf by exact (response_wf n 0 _ args Hn He).
  set (m := mk_rpc n 0 (elem_size m0) (elem_base m0) (free_data m0)) in *.
  assert (shadow_dispatch m (home g) = Ret (Some resp) (set_s_live (s_live (home g) + 3) (rest_home h (s_errno (home g)) (home g)))) as Hd.
  { eapply (dispatch_ret n _ (tcmi_shadow_rpc_getresid uid)); [done|by destruct uid|by destruct uid|exact Hsh]. }
  assert (wf_proc km (P_rpc (mk_rpc u16[n] 0 [] [] false))) as Hwm.
  { cbn. rewrite (uwrap_id 16 n Hn). split; [done|]. split; [|done]. split; [done|lia]. }
  assert (rpc_received m0 (mk_rpc u16[n] 0 [] [] false) = m) as Hm.
  { unfold rpc_received. cbn. by rewrite (uwrap_id 16 n Hn). }
  rewrite <- Hm in Hd. pose proof (exchange_ret _ _ _ _ Hwm Hd Hwf) as Hx.
  pose proof (get_response_ret n [] g _ _ Ha Hx) as Hg.
  assert (forall ps, tcmi_guest_rpc_sys_getresid exchange n ps g = Fault) as Hfault.
  { intros l. unfold tcmi_guest_rpc_sys_getresid. step Hg. cbv iota.
    set (r' := rpcresp_received r0 resp). change (rtn_code r' =? 0) with true. cbn [when].
    assert (tcmi_rpcresp_procmsg_data_base r' 0 = Some ids) as ->.
    { apply (response_data n 0 [TCMI_RPCRESP_PROCMSG_KFREE] args 0); [done| |done]. by rewrite <- (app_nil_r ids). }
    done. }
  destruct uid; apply Hfault.
Qed.
End exchange.

(** ** Remote system calls *)

(** C10: a remote system call that passes integers is the system call on the home node, however
    the connections cut the streams: the hook of the guest has the home node make the call of
    its name once, with its arguments in their order and types, and returns [seen] of the
    result; no message, block or allocation of either side is left over, and nothing else of
    the guest changes. *)
Theorem remote_call_executes `{HH : Home} m0 r0 c1 c2 c3 c4 (c : remote_call) (g : guest shadow) r h :
  g_allocs g = [] -> s_allocs (home g) = [] -> typed_args c ->
  sys (sys_of c).1 (sys_of c).2 (s_home (home g)) = (r, h) -> srange 64 r -> srange 32 (s_errno (home g) In_signal) ->
  exists e, hook_of m0 r0 c1 c2 c3 c4 c g =
    Ret (seen c (s_errno (home g) In_signal) r) (set_home (rest_home h e (home g)) g).
Proof. apply call_executes. Qed.

(** C26: [wait4] of a guest waits on the home node with the same process id and options, returns
    its result, and stores the status and the resource usage where the caller asked for them
    and nowhere else; everything that was allocated for it is freed on both sides. *)
Theorem remote_wait4_executes `{HH : Home} m0 r0 c1 c2 c3 c4 (g : guest shadow) pid stat_addr options ru_addr r st ru h :
  g_allocs g = [] -> s_allocs (home g) = [] -> srange 32 pid -> srange 32 options -> srange 64 stat_addr -> srange 64 ru_addr ->
  sys_wait4 pid options (s_home (home g)) = (r, st, ru, h) -> srange 64 r -> srange 32 st -> zlen ru = 144 ->
  tcmi_syscall_hooks_sys_wait4 (exchange m0 r0 c1 c2 c3 c4) pid stat_addr options ru_addr g =
    Ret r (set_u_mem (wait_stores stat_addr ru_addr st ru (u_mem g))
      (set_home (rest_home h (s_errno (home g)) (home g)) g)).
Proof. apply wait_executes. Qed.

(** [getresuid] and [getresgid] of a guest read outside of the response whenever the home
    node has the ids: the shadow sends three 32-bit ids, the guest reads three longs. *)
Theorem remote_getresid_reads_outside `{HH : Home} m0 r0 c1 c2 c3 c4 uid (g : guest shadow) pr pe ps r e s h :
  g_allocs g = [] -> s_allocs (home g) = [] -> sys_getresid uid (s_home (home g)) = (0, (r, e, s), h) ->
  getresid_hook m0 r0 c1 c2 c3 c4 uid pr pe ps g = Fault.
Proof. apply getresid_fault. Qed.

(** *** A home node *)

(** It counts its calls: [kill] of an absent process fails, the process has id 7. *)
#[local] Instance counting_home : Home := {|
  hst := Z;
  sys s args n := (match s with Sys_kill => -3 | Sys_setuid => -1 | Sys_getppid => 1 | _ => 7 end, n + 1);
  sys_getresid uid n := (0, (7, 8, 9), n + 1);
  sys_setgroups k b n := (0, n + 1);
  sys_rt_sigqueueinfo p s i n := (0, n + 1);
  sys_wait4 p o n := (p, 256, replicate 144 5, n + 1);
  do_fork f st sz n := (8, 8, 0, n + 1);
  ngroups n := 2;
  group_block n i := le_bytes 4 10 ++ le_bytes 4 20;
  uninit k n := replicate (Z.to_nat k) 170
|}.
Definition calm_shadow : shadow := mk_shadow counting_home 0 (fun _ => 0) [] 0.
Definition calm_guest : guest shadow := mk_guest (<[4096 := 0]> ∅) [] 0 0 42 true calm_shadow.
Definition no_request : tcmi_rpc_procmsg := mk_rpc 0 0 [] [] false.
Definition no_response : tcmi_rpcresp_procmsg := mk_rpcresp 0 0 0 [] [] [].

Lemma remote_call_executes_witness :
  exists e, hook_of no_request no_response [1; 2] [3] [] [1; 1; 1] (R_kill 5 9) calm_guest =
    Ret (-3) (set_home (rest_home (1 : hst) e calm_shadow) calm_guest).
Proof. by apply (remote_call_executes _ _ _ _ _ _ (R_kill 5 9) calm_guest (-3) 1); try done; repeat constructor. Defined.
Lemma remote_wait4_executes_witness :
  tcmi_syscall_hooks_sys_wait4 (exchange no_request no_response [1] [2] [3] [4]) 6 4096 0 0 calm_guest =
    Ret 6 (set_u_mem (wait_stores 4096 0 256 (replicate 144 5) (u_mem calm_guest))
      (set_home (rest_home (1 : hst) (s_errno calm_shadow) calm_shadow) calm_guest)).
Proof. by apply (remote_wait4_executes _ _ _ _ _ _ calm_guest 6 4096 0 0 6 256 (replicate 144 5) 1). Defined.
Lemma remote_getresid_reads_outside_witness :
  getresid_hook no_request no_response [] [] [] [] true 4096 4100 4104 calm_guest = Fault.
Proof. by apply (remote_getresid_reads_outside _ _ _ _ _ _ true calm_guest 4096 4100 4104 7 8 9 1). Defined.
