(* ===== verification/CtlFs.v ===== *)
(** The control file system (src/src/tcmi/ctlfs): directories, files and symbolic links that
    the other components make in the kernel, and what a user's read and write of a file do.

    An entry lives in the private data of its dentry and is freed with it, so an entry and its
    dentry are one object here, found by its address; [d_fsdata] is [None] when the entry's
    memory was freed and the dentry was not.  A dentry holds a reference to its parent, as
    [d_alloc_name] takes it; [dput] of the last reference asks [d_delete], releases the entry
    and puts the parent.  A file calls methods of the object that made it: [call], and converts
    its data with one of the two handlers of the kernel: [convert]. *)

From stdpp Require Import gmap.
From S2P Require Import Prelude Effect.

Definition S_IFMT : Z := 61440.
Definition S_IFDIR : Z := 16384.
Definition S_IFREG : Z := 32768.
Definition S_IFLNK : Z := 40960.
Definition S_ISGID : Z := 1024.
Definition S_IRWXUGO : Z := 511.
Definition S_ISDIR (mode : Z) : bool := Z.land mode S_IFMT =? S_IFDIR.
Definition ENAMETOOLONG : Z := 36.
Definition ERESTARTSYS : Z := 512.
Definition PAGE_SIZE : Z := 4096.
Definition MAX_ENTRY_NAME_LEN : Z := 256.

(** ** Data *)

Record inode := mk_inode { i_mode : Z; i_uid : Z; i_gid : Z; i_nlink : Z }.

Inductive proc_handler_t := proc_dointvec | proc_dostring.
Inductive tcmi_ctlfs_file_unreg_t := TCMI_CTLFS_FILE_REGULAR | TCMI_CTLFS_FILE_FROM_METHOD.

(** [f_sem]: the semaphore is taken.  A method is known by its address. *)
Record tcmi_ctlfs_file := mk_file {
  f_sem : bool;
  object : option Z;
  read_method : option Z;
  write_method : option Z;
  proc_handler : option proc_handler_t;
  data : list Z;
  maxlen : Z;
  unregistered : bool
}.

(** The subclasses of [struct tcmi_ctlfs_entry]. *)
Inductive tcmi_ctlfs_entry :=
| Dir
| File (f : tcmi_ctlfs_file)
| Symlink (target_entry : option Z).

(** The parent of the root is the root. *)
Record dentry := mk_dentry {
  d_count : Z;
  d_name : list Z;
  d_parent : Z;
  d_inode : inode;
  d_fsdata : option tcmi_ctlfs_entry
}.

(** [inodes]: the inodes in use; [allocs]: the answers of the allocator, after which it
    succeeds; [signals]: whether the next waits for a semaphore are interrupted. *)
Record ctlfs := mk_ctlfs {
  dents : gmap Z dentry;
  inodes : Z;
  next_addr : Z;
  fsuid : Z;
  fsgid : Z;
  allocs : list bool;
  signals : list bool
}.

Definition set_dents f (w : ctlfs) := mk_ctlfs (f (dents w)) (inodes w) (next_addr w) (fsuid w) (fsgid w) (allocs w) (signals w).
Definition set_inodes n (w : ctlfs) := mk_ctlfs (dents w) n (next_addr w) (fsuid w) (fsgid w) (allocs w) (signals w).
Definition set_next_addr n (w : ctlfs) := mk_ctlfs (dents w) (inodes w) n (fsuid w) (fsgid w) (allocs w) (signals w).
Definition set_allocs l (w : ctlfs) := mk_ctlfs (dents w) (inodes w) (next_addr w) (fsuid w) (fsgid w) l (signals w).
Definition set_signals l (w : ctlfs) := mk_ctlfs (dents w) (inodes w) (next_addr w) (fsuid w) (fsgid w) (allocs w) l.

Definition d_set_count n (d : dentry) := mk_dentry n (d_name d) (d_parent d) (d_inode d) (d_fsdata d).
Definition d_set_inode i (d : dentry) := mk_dentry (d_count d) (d_name d) (d_parent d) i (d_fsdata d).
Definition d_set_fsdata e (d : dentry) := mk_dentry (d_count d) (d_name d) (d_parent d) (d_inode d) e.
Definition f_set_sem b (f : tcmi_ctlfs_file) :=
  mk_file b (object f) (read_method f) (write_method f) (proc_handler f) (data f) (maxlen f) (unregistered f).
Definition f_set_data l (f : tcmi_ctlfs_file) :=
  mk_file (f_sem f) (object f) (read_method f) (write_method f) (proc_handler f) l (maxlen f) (unregistered f).

Abbreviation M := (eff ctlfs).

Definition alloc : M bool :=
  l ← gets allocs; modify (set_allocs (tail l));; mret (default true (head l)).
Definition dent (a : Z) : M dentry := ds ← gets dents; valid (ds !! a).
Definition upd_dent (a : Z) (f : dentry -> dentry) : M unit := d ← dent a; modify (set_dents (insert a (f d))).
(** The memory of the entry. *)
Definition entry (a : Z) : M tcmi_ctlfs_entry := d ← dent a; valid (d_fsdata d).

(** ** tcmi_ctlfs_entry.h *)

Definition tcmi_ctlfs_entry_inc_links (self : Z) : M unit :=
  upd_dent self (fun d => d_set_inode (let i := d_inode d in mk_inode (i_mode i) (i_uid i) (i_gid i) (i_nlink i + 1)) d).
Definition tcmi_ctlfs_entry_name (self : Z) : M (list Z) := d ← dent self; mret (d_name d).
Definition tcmi_ctlfs_entry_isroot (self : Z) : M bool := d ← dent self; mret (self =? d_parent d).

Definition dget (a : Z) : M unit := upd_dent a (fun d => d_set_count (d_count d + 1) d).

(** [tcmi_ctlfs_dentry_delete] says that an unused dentry is not kept.  The release gives the
    memory of the dentry, its entry and its inode back, then the reference of a symbolic link
    to its target and that of the dentry to its parent. *)
Definition tcmi_ctlfs_dentry_delete : bool := true.
Fixpoint dput (fuel : nat) (a : Z) : M unit :=
  match fuel with
  | O => halt Running
  | S fuel =>
      d ← dent a;
      if negb (d_count d - 1 =? 0) then upd_dent a (fun d => d_set_count (d_count d - 1) d) else
      if negb tcmi_ctlfs_dentry_delete then upd_dent a (fun d => d_set_count 0 d) else
      e ← valid (d_fsdata d);
      modify (set_dents (delete a));; n ← gets inodes; modify (set_inodes (n - 1));;
      (* tcmi_ctlfs_symlink_release *)
      match e with Symlink (Some t) => dput fuel t | _ => mret tt end;;
      if a =? d_parent d then mret tt else dput fuel (d_parent d)
  end.
(** Each release takes a dentry away. *)
Definition dput_fuel (w : ctlfs) : nat := S (size (dents w)).

Definition tcmi_ctlfs_entry_get (self : option Z) : M (option Z) :=
  match self with Some a => dget a;; mret self | None => mret None end.
Definition tcmi_ctlfs_entry_put (self : option Z) : M unit :=
  match self with Some a => fuel ← gets dput_fuel; dput fuel a | None => mret tt end.
Definition tcmi_ctlfs_entry_get_parent (self : Z) : M Z := d ← dent self; dget (d_parent d);; mret (d_parent d).

(** ** tcmi_ctlfs_entry.c *)

Definition tcmi_ctlfs_entry_exists (self : Z) (name : list Z) : M bool :=
  ds ← gets dents;
  mret (bool_decide (map_Exists (fun a d => a <> self /\ d_parent d = self /\ d_name d = name) ds)).

Definition tcmi_ctlfs_get_inode (dir : option inode) (mode : Z) : M (option inode) :=
  ok ← alloc;
  if negb ok then mret None else
  n ← gets inodes; modify (set_inodes (n + 1));;
  uid ← gets fsuid; gid ← gets fsgid;
  mret (Some (match dir with
  | Some dir =>
      if negb (Z.land (i_mode dir) S_ISGID =? 0) then
        mk_inode (if S_ISDIR mode then Z.lor mode S_ISGID else mode) uid (i_gid dir) 1
      else mk_inode mode uid gid 1
  | None => mk_inode mode uid gid 1
  end)).
Definition iput : M unit := n ← gets inodes; modify (set_inodes (n - 1)).

(** The new dentry: [d_alloc_name] takes a reference to the parent. *)
Definition tcmi_ctlfs_entry_alloc_dentry (parent : Z) (name : list Z) (i : inode) (e : tcmi_ctlfs_entry) : M (option Z) :=
  ok ← alloc;
  if negb ok then mret None else
  dget parent;;
  a ← gets next_addr; modify (set_next_addr (a + 1));;
  modify (set_dents (insert a (mk_dentry 1 name parent i (Some e))));;
  mret (Some a).

(** [name] is what the format gives.  The result is the address of the entry, or [None] for
    -ENOSPC; [e] is the memory of the subclass. *)
Definition tcmi_ctlfs_entry_init (parent : option Z) (mode : Z) (e : tcmi_ctlfs_entry) (name : list Z) : M (option Z) :=
  let name := ztake (MAX_ENTRY_NAME_LEN - 1) name in
  match parent with
  | None => mret None
  | Some parent =>
      p ← dent parent;
      if negb (S_ISDIR (i_mode (d_inode p))) then mret None else
      ex ← tcmi_ctlfs_entry_exists parent name;
      if (ex : bool) then mret None else
      i ← tcmi_ctlfs_get_inode (Some (d_inode p)) mode;
      match i with
      | None => mret None
      | Some i =>
          a ← tcmi_ctlfs_entry_alloc_dentry parent name i e;
          match a with None => iput;; mret None | Some a => mret (Some a) end
      end
  end.

(** The root has no name; [d_alloc_root] makes it its own parent. *)
Definition tcmi_ctlfs_rootentry_init (mode : Z) : M (option Z) :=
  i ← tcmi_ctlfs_get_inode None mode;
  match i with
  | None => mret None
  | Some i =>
      ok ← alloc;
      if negb ok then iput;; mret None else
      a ← gets next_addr; modify (set_next_addr (a + 1));;
      modify (set_dents (insert a (mk_dentry 1 [47] a i (Some Dir))));; mret (Some a)
  end.

(** [func] accumulates; every entry on the way is held while it is visited. *)
Section traverse.
Context {A : Type} (func : Z -> A -> M A).
Fixpoint traverse_loop (fuel : nat) (parent : Z) (acc : A) : M A :=
  match fuel with
  | O => halt Running
  | S fuel =>
      root ← tcmi_ctlfs_entry_isroot parent;
      if (root : bool) then tcmi_ctlfs_entry_put (Some parent);; mret acc else
      let entry := parent in
      parent ← tcmi_ctlfs_entry_get_parent entry;
      acc ← func entry acc;
      tcmi_ctlfs_entry_put (Some entry);;
      traverse_loop fuel parent acc
  end.
Definition tcmi_ctlfs_entry_traverse_pred (self : Z) (acc : A) : M A :=
  tcmi_ctlfs_entry_get (Some self);;
  fuel ← gets dput_fuel; traverse_loop fuel self acc.
End traverse.

Definition tcmi_ctlfs_add_depth (self : Z) (curr_depth : Z) : M Z := mret (curr_depth + 1).
Definition tcmi_ctlfs_add_length (self : Z) (curr_length : Z) : M Z :=
  name ← tcmi_ctlfs_entry_name self; mret (curr_length + (zlen name + 1)).
(** A write outside of the buffer is a fault. *)
Definition write_at (off : Z) (d buffer : list Z) : M (list Z) :=
  if (0 <=? off) && (off + zlen d <=? zlen buffer) then mret (blit off d buffer) else fault.
Definition tcmi_ctlfs_add_path (self : Z) (buf : list Z * Z) : M (list Z * Z) :=
  name ← tcmi_ctlfs_entry_name self;
  let '(buffer, length) := buf in
  let length := length - zlen name in
  buffer ← write_at length name buffer;
  let length := length - 1 in
  buffer ← write_at length [47] buffer; mret (buffer, length).

Definition tcmi_ctlfs_entry_depth (self : Z) : M Z := tcmi_ctlfs_entry_traverse_pred tcmi_ctlfs_add_depth self 0.
Definition tcmi_ctlfs_entry_path_length (self : Z) : M Z := tcmi_ctlfs_entry_traverse_pred tcmi_ctlfs_add_length self 1.
Definition tcmi_ctlfs_entry_fill_path (self : Z) (buffer : list Z) (length : Z) : M (list Z) :=
  r ← tcmi_ctlfs_entry_traverse_pred tcmi_ctlfs_add_path self (buffer, length - 1); mret (fst r).

(** ** tcmi_ctlfs_dir.c *)

Definition tcmi_ctlfs_dir_vnew (parent : option Z) (mode : Z) (name : list Z) : M (option Z) :=
  ok ← alloc;
  if negb ok then mret None else
  dir ← tcmi_ctlfs_entry_init parent (Z.lor S_IFDIR mode) Dir name;
  match parent, dir with
  | Some parent, Some a => tcmi_ctlfs_entry_inc_links parent;; tcmi_ctlfs_entry_inc_links a;; mret dir
  | _, _ => mret None
  end.
Definition tcmi_ctlfs_dir_new (parent : option Z) (mode : Z) (name : list Z) : M (option Z) := tcmi_ctlfs_dir_vnew parent mode name.
Definition tcmi_ctlfs_rootdir_new : M (option Z) :=
  ok ← alloc;
  if negb ok then mret None else
  root ← tcmi_ctlfs_rootentry_init (Z.lor S_IFDIR 493);
  match root with
  | Some a => tcmi_ctlfs_entry_inc_links a;; mret root
  | None => mret None
  end.

(** ** tcmi_ctlfs_symlink.c *)

Definition tcmi_ctlfs_symlink_new (parent target : option Z) (name : list Z) : M (option Z) :=
  ok ← alloc;
  if negb ok then mret None else
  l ← tcmi_ctlfs_entry_init parent (Z.lor S_IFLNK S_IRWXUGO) (Symlink None) name;
  match l with
  | None => mret None
  | Some a =>
      t ← tcmi_ctlfs_entry_get target;
      upd_dent a (d_set_fsdata (Some (Symlink t)));; mret l
  end.

(** The loop that writes the leading part of the path. *)
Fixpoint fill_ups (depth : nat) (s : Z) (path : list Z) : M (list Z) :=
  match depth with
  | O => mret path
  | S depth => path ← write_at s [46; 46; 47; 0] path; fill_ups depth (s + 3) path
  end.

Definition tcmi_ctlfs_symlink_get_link (self : Z) (path : list Z) (length : Z) : M (Z * list Z) :=
  depth ← tcmi_ctlfs_entry_depth self;
  e ← entry self;
  match e with
  | Symlink target_entry =>
      let depth := depth - 1 in
      t ← valid target_entry;
      n ← tcmi_ctlfs_entry_path_length t;
      let size := n + depth * 3 - 1 in
      if length <? size then mret (- ENAMETOOLONG, path) else
      path ← fill_ups (Z.to_nat depth) 0 path;
      path ← tcmi_ctlfs_entry_fill_path t path size;
      mret (0, path)
  | _ => fault
  end.

(** The page with the link, or the error. *)
Definition tcmi_ctlfs_symlink_follow_link (self : Z) : M (Z + list Z) :=
  ok ← alloc;
  if negb ok then mret (inl (- ENOMEM)) else
  '(err, page) ← tcmi_ctlfs_symlink_get_link self (replicate (Z.to_nat PAGE_SIZE) 0) PAGE_SIZE;
  mret (if err =? 0 then inr page else inl err).

(** ** tcmi_ctlfs_file.h, tcmi_ctlfs_file.c *)

Definition file (a : Z) : M tcmi_ctlfs_file :=
  e ← entry a; match e with File f => mret f | _ => fault end.
Definition upd_file (a : Z) (g : tcmi_ctlfs_file -> tcmi_ctlfs_file) : M unit :=
  f ← file a; upd_dent a (d_set_fsdata (Some (File (g f)))).

(** Nobody gives back a semaphore that its own thread waits for. *)
Definition tcmi_ctlfs_file_lock (self : Z) : M unit :=
  f ← file self; if f_sem f then halt Gone else upd_file self (f_set_sem true).
Definition tcmi_ctlfs_file_unlock (self : Z) : M unit := upd_file self (f_set_sem false).
(** A nonzero result: a signal arrived. *)
Definition tcmi_ctlfs_file_lock_interruptible (self : Z) : M Z :=
  l ← gets signals; modify (set_signals (tail l));;
  if default false (head l) then mret (-4) else tcmi_ctlfs_file_lock self;; mret 0.

Definition tcmi_ctlfs_file_unregister_prepare (self : option Z) : M unit :=
  match self with
  | None => mret tt
  | Some a => upd_file a (fun f => mk_file (f_sem f) (object f) (read_method f) (write_method f) (proc_handler f)
                                     (data f) (maxlen f) true)
  end.
Definition __tcmi_ctlfs_file_unregister (self : option Z) : M unit :=
  match self with
  | None => mret tt
  | Some a =>
      tcmi_ctlfs_file_unregister_prepare self;;
      upd_file a (fun f => mk_file (f_sem f) None None None None (data f) (maxlen f) (unregistered f))
  end.
Definition tcmi_ctlfs_file_unregister (self : option Z) : M unit :=
  match self with
  | None => mret tt
  | Some a => tcmi_ctlfs_file_lock a;; __tcmi_ctlfs_file_unregister self;; tcmi_ctlfs_file_unlock a
  end.
Definition tcmi_ctlfs_file_unregister2 (self : option Z) (unreg : tcmi_ctlfs_file_unreg_t) : M unit :=
  match unreg with
  | TCMI_CTLFS_FILE_FROM_METHOD => __tcmi_ctlfs_file_unregister self
  | TCMI_CTLFS_FILE_REGULAR => tcmi_ctlfs_file_unregister self
  end.

(** [garbage]: what the new data block holds.  A file whose data cannot be allocated is freed,
    its dentry is not. *)
Definition tcmi_ctlfs_genericfile_new (garbage : list Z) (parent : option Z) (mode : Z) (object : option Z)
    (read_method write_method : option Z) (maxlen : Z) (handler : proc_handler_t) (name : list Z) : M (option Z) :=
  ok ← alloc;
  if negb ok then mret None else
  a ← tcmi_ctlfs_entry_init parent (Z.lor S_IFREG mode) (File (mk_file false None None None None [] 0 false)) name;
  match a with
  | None => mret None
  | Some a =>
      ok ← alloc;
      if negb ok then upd_dent a (d_set_fsdata None);; mret None else
      upd_dent a (d_set_fsdata (Some (File
        (mk_file false object read_method write_method (Some handler) (ztake maxlen garbage) maxlen false))));;
      mret (Some a)
  end.
Definition tcmi_ctlfs_intfile_new garbage parent mode object read_method write_method maxlen name :=
  tcmi_ctlfs_genericfile_new garbage parent mode object read_method write_method maxlen proc_dointvec name.
Definition tcmi_ctlfs_strfile_new garbage parent mode object read_method write_method maxlen name :=
  tcmi_ctlfs_genericfile_new garbage parent mode object read_method write_method maxlen proc_dostring name.
Definition tcmi_ctlfs_rawfile_new : M (option Z) := mret None.

Section methods.
(** A method of the object that made a file gets the object and the data of the file; it
    returns its result and what it leaves in the data, and may use the file system. *)
Context (call : Z -> option Z -> list Z -> M (Z * list Z)).
(** The handlers of the kernel: the error, the data, the number of bytes taken or given, the
    user's memory and the position. *)
Context (convert : proc_handler_t -> bool -> list Z -> Z -> list Z -> Z -> Z -> Z * list Z * Z * list Z * Z).

Definition call_method (self : Z) (m : Z) : M Z :=
  f ← file self;
  '(err, l) ← call m (object f) (data f);
  upd_file self (f_set_data l);; mret err.

Definition handle (self : Z) (write : bool) (h : proc_handler_t) (buf : list Z) (count ppos : Z) : M (Z * Z * list Z * Z) :=
  f ← file self;
  let '(err, l, res, buf, ppos) := convert h write (data f) (maxlen f) buf count ppos in
  upd_file self (f_set_data l);; mret (err, res, buf, ppos).

(** The result, the user's buffer and the position. *)
Definition tcmi_ctlfs_file_read (self : Z) (buf : list Z) (count ppos : Z) : M (Z * list Z * Z) :=
  err ← tcmi_ctlfs_file_lock_interruptible self;
  if negb (err =? 0) then mret (- ERESTARTSYS, buf, ppos) else
  f ← file self;
  if unregistered f then tcmi_ctlfs_file_unlock self;; mret (0, buf, ppos) else
  if negb (ppos =? 0) then tcmi_ctlfs_file_unlock self;; mret (0, buf, 0) else
  error ← match read_method f with Some m => call_method self m | None => mret 0 end;
  if negb (error =? 0) then tcmi_ctlfs_file_unlock self;; mret (error, buf, ppos) else
  f ← file self;
  match proc_handler f with
  | Some h =>
      '(error, res, buf, ppos) ← handle self false h buf count ppos;
      tcmi_ctlfs_file_unlock self;; mret (if error =? 0 then s64[res] else error, buf, ppos)
  | None => tcmi_ctlfs_file_unlock self;; mret (0, buf, ppos)
  end.

Definition tcmi_ctlfs_file_write (self : Z) (buf : list Z) (count ppos : Z) : M (Z * Z) :=
  err ← tcmi_ctlfs_file_lock_interruptible self;
  if negb (err =? 0) then mret (- ERESTARTSYS, ppos) else
  f ← file self;
  if unregistered f then tcmi_ctlfs_file_unlock self;; mret (0, ppos) else
  '(error, res, ppos) ← match proc_handler f with
                        | Some h => '(error, res, _, ppos) ← handle self true h buf count ppos; mret (error, res, ppos)
                        | None => mret (0, 0, ppos)
                        end;
  if negb (error =? 0) then tcmi_ctlfs_file_unlock self;; mret (error, ppos) else
  f ← file self;
  match write_method f with
  | Some m =>
      error ← call_method self m;
      tcmi_ctlfs_file_unlock self;; mret (if error =? 0 then s64[res] else error, ppos)
  | None => tcmi_ctlfs_file_unlock self;; mret (0, ppos)
  end.
End methods.
