(* ===== verification/CtlPath.v ===== *)
(** The paths of the control file system: a walk to the root leaves every count as it was, and
    a symbolic link reads as a relative path that leads from its directory to its target. *)

From stdpp Require Import gmap.
From S2P Require Import Prelude Effect CtlFs.

(** ** Walks to the root *)

Definition bump (a : Z) (w : ctlfs) : ctlfs := set_dents (alter (fun d => d_set_count (d_count d + 1) d) a) w.

(** Every dentry is in use. *)
Definition counted (w : ctlfs) : Prop := forall a d, dents w !! a = Some d -> 0 < d_count d.

(** The entry has the path [p] from the root, and every dentry was made after its parent. *)
Inductive at_path (w : ctlfs) : Z -> list (list Z) -> Prop :=
| at_root a d : dents w !! a = Some d -> d_parent d = a -> at_path w a []
| at_child a d p : dents w !! a = Some d -> d_parent d < a -> at_path w (d_parent d) p ->
    at_path w a (p ++ [d_name d]).

Lemma bump_lookup a b w : dents (bump a w) !! b =
  if decide (b = a) then (fun d => d_set_count (d_count d + 1) d) <$> (dents w !! b) else dents w !! b.
Proof. unfold bump. cbn [dents set_dents]. case_decide as E; [subst; apply lookup_alter_eq|by apply lookup_alter_ne]. Qed.

Lemma bump_same a b d w : dents w !! b = Some d ->
  exists d', dents (bump a w) !! b = Some d' /\ d_name d' = d_name d /\ d_parent d' = d_parent d.
Proof. intros Hd. rewrite bump_lookup, Hd. case_decide; [|by eexists]. eexists. split; [reflexivity|]. by destruct d. Qed.

Lemma upd_dent_run a f d w : dents w !! a = Some d ->
  upd_dent a f w = Ret tt (set_dents (alter f a) w).
Proof.
  intros Hd. unfold upd_dent, dent. run. rewrite Hd. f_equal. destruct w. cbn in *. unfold set_dents. cbn.
  f_equal. apply map_eq. intros i. destruct (decide (i = a)) as [->|]; [|by rewrite lookup_insert_ne, lookup_alter_ne].
  by rewrite lookup_insert_eq, lookup_alter_eq, Hd.
Qed.
Lemma dget_run a d w : dents w !! a = Some d -> dget a w = Ret tt (bump a w).
Proof. intros Hd. unfold dget. by rewrite (upd_dent_run _ _ d). Qed.

Lemma put_bumped a d w : dents w !! a = Some d -> 0 < d_count d -> tcmi_ctlfs_entry_put (Some a) (bump a w) = Ret tt w.
Proof.
  intros Hd Hc. unfold tcmi_ctlfs_entry_put, dput_fuel. run. cbn [dput]. unfold dent. run.
  rewrite bump_lookup, Hd, decide_True by done. cbn [fmap option_fmap option_map d_count d_set_count].
  replace (d_count d + 1 - 1 =? 0) with false by lia. cbn [negb].
  rewrite (upd_dent_run _ _ (d_set_count (d_count d + 1) d)) by (rewrite bump_lookup, Hd, decide_True by done; reflexivity).
  f_equal. destruct w as [ds]. unfold bump, set_dents. cbn in *. f_equal. apply map_eq. intros i.
  destruct (decide (i = a)) as [->|]; [|by rewrite !lookup_alter_ne].
  rewrite !lookup_alter_eq, Hd. cbn. f_equal. destruct d. unfold d_set_count. cbn. f_equal. lia.
Qed.

Lemma bump_comm a b w : bump a (bump b w) = bump b (bump a w).
Proof.
  unfold bump, set_dents. cbn. f_equal. destruct (decide (a = b)) as [->|Hab]; [done|]. apply map_eq. intros i.
  destruct (decide (i = a)) as [->|Ha]; [by rewrite lookup_alter_eq, !lookup_alter_ne, lookup_alter_eq by done|].
  rewrite lookup_alter_ne by done. destruct (decide (i = b)) as [->|Hb]; [by rewrite !lookup_alter_eq, lookup_alter_ne by done|].
  by rewrite !lookup_alter_ne by done.
Qed.

(** What a visit of [p], from its last name to its first, makes of the accumulator. *)
Definition climb {A} (g : list Z -> A -> option A) (p : list (list Z)) : A -> option A :=
  foldr (fun n k acc => r ← g n acc; k r) Some (rev p).
Lemma climb_snoc {A} (g : list Z -> A -> option A) p n acc : climb g (p ++ [n]) acc = (r ← g n acc; climb g p r).
Proof. unfold climb. by rewrite rev_app_distr. Qed.

(** [func] reads the name of the entry that it visits. *)
Definition reads {A} (func : Z -> A -> M A) (g : list Z -> A -> option A) : Prop :=
  forall e d acc w, dents w !! e = Some d -> func e acc w = match g (d_name d) acc with Some r => Ret r w | None => Fault end.

Lemma loop_run {A} (func : Z -> A -> M A) g a p w fuel acc :
  reads func g -> counted w -> at_path w a p -> (length p < fuel)%nat ->
  traverse_loop func fuel a acc (bump a w) = match climb g p acc with Some r => Ret r w | None => Fault end.
Proof.
  intros Hf Hc Hp. revert fuel acc. induction Hp as [a d Hd Hr|a d p Hd Hlt Hp IH]; intros fuel acc Hl;
    (destruct fuel as [|fuel]; [lia|]); cbn [traverse_loop]; unfold tcmi_ctlfs_entry_isroot, dent at 1; run;
    destruct (bump_same a a d w Hd) as (d' & -> & Hn & Hpar); rewrite Hpar.
  - replace (a =? d_parent d) with true by lia. by rewrite (put_bumped a d) by eauto.
  - replace (a =? d_parent d) with false by lia. unfold tcmi_ctlfs_entry_get_parent, dent at 1. run.
    destruct (bump_same a a d w Hd) as (d'' & E & Hn' & Hpar'). rewrite E, Hpar'.
    assert (exists pd, dents w !! d_parent d = Some pd) as [pd Hpd] by (by inversion Hp; eexists).
    destruct (bump_same a (d_parent d) pd w Hpd) as (pd' & Epd & _).
    rewrite (dget_run _ pd') by done. rewrite climb_snoc.
    assert (exists dx, dents (bump (d_parent d) (bump a w)) !! a = Some dx /\ d_name dx = d_name d) as (dx & Edx & Hnx).
    { destruct (bump_same (d_parent d) a d'' (bump a w) E) as (dx & ? & ? & _). exists dx. split; [done|congruence]. }
    rewrite (Hf a dx acc) by done. rewrite Hnx. cbn [mbind option_bind]. destruct (g (d_name d) acc) as [r|]; [|done].
    rewrite bump_comm. assert (dents (bump (d_parent d) w) !! a = Some d) as Ha by (rewrite bump_lookup, decide_False by lia; done).
    rewrite (put_bumped a d) by eauto. apply IH. rewrite length_app in Hl. cbn in Hl. lia.
Qed.

(** A path is not longer than the number of dentries. *)
Lemma path_bound w a p : at_path w a p ->
  exists as_, NoDup as_ /\ (forall b, b ∈ as_ -> b <= a /\ is_Some (dents w !! b)) /\ length as_ = S (length p).
Proof.
  induction 1 as [a d Hd Hr|a d p Hd Hlt Hp (bs & Hn & Hb & Hl)].
  - exists [a]. split; [apply NoDup_singleton|]. split; [|done]. intros b ->%list_elem_of_singleton. by rewrite Hd.
  - exists (a :: bs). split; [apply NoDup_cons; split; [|done]|split].
    + intros Hin. apply Hb in Hin. lia.
    + intros b [->|Hin]%elem_of_cons; [by rewrite Hd|]. destruct (Hb b Hin). split; [lia|done].
    + rewrite length_app. cbn. lia.
Qed.
Lemma path_size w a p : at_path w a p -> (length p < size (dents w))%nat.
Proof.
  intros (bs & Hn & Hb & Hl)%path_bound. assert (length bs <= size (dents w))%nat; [|lia].
  rewrite <- size_dom, <- (size_list_to_set (C := gset Z) bs) by done. apply subseteq_size. intros b Hin.
  rewrite elem_of_list_to_set in Hin. apply elem_of_dom. by apply Hb.
Qed.

Lemma traverse_run {A} (func : Z -> A -> M A) g a p w acc :
  reads func g -> counted w -> at_path w a p ->
  tcmi_ctlfs_entry_traverse_pred func a acc w = match climb g p acc with Some r => Ret r w | None => Fault end.
Proof.
  intros Hf Hc Hp. assert (exists d, dents w !! a = Some d) as [d Hd] by (by inversion Hp; eexists).
  unfold tcmi_ctlfs_entry_traverse_pred, tcmi_ctlfs_entry_get. run. rewrite (dget_run a d) by done.
  apply loop_run; [done..|]. unfold dput_fuel, bump. cbn [dents set_dents].
  assert (size (alter (fun d => d_set_count (d_count d + 1) d) a (dents w)) = size (dents w)) as ->.
  { rewrite <- !size_dom. by rewrite dom_alter_L. }
  apply path_size in Hp. lia.
Qed.

(** ** Lengths and depths *)

Definition path_text (p : list (list Z)) : list Z := p ≫= (fun n => 47 :: n).
Lemma path_text_snoc p n : path_text (p ++ [n]) = path_text p ++ 47 :: n.
Proof. unfold path_text. rewrite bind_app. cbn. by rewrite app_nil_r. Qed.

(** A visit that adds a size for each name. *)
Lemma climb_sum (f : list Z -> Z) p acc : climb (fun n k => Some (k + f n)) p acc = Some (acc + foldr (fun n k => f n + k) 0 p).
Proof.
  revert acc. induction p as [|n p IH] using rev_ind; intros acc; [cbn; f_equal; lia|].
  rewrite climb_snoc. cbn [mbind option_bind]. rewrite IH, foldr_app. f_equal. cbn [foldr].
  assert (forall b, foldr (fun n k => f n + k) b p = foldr (fun n k => f n + k) 0 p + b) as Hb; [|rewrite (Hb (f n + 0)); lia].
  intros b. clear. induction p as [|m p IH]; cbn; lia.
Qed.

Lemma depth_run a p w : counted w -> at_path w a p -> tcmi_ctlfs_entry_depth a w = Ret (zlen p) w.
Proof.
  intros Hc Hp. unfold tcmi_ctlfs_entry_depth. rewrite (traverse_run _ (fun _ n => Some (n + 1)) a p) by done.
  rewrite (climb_sum (fun _ => 1)). f_equal. clear. rewrite Z.add_0_l.
  induction p as [|n p IH]; [done|]. rewrite zlen_cons. cbn [foldr]. by rewrite IH.
Qed.

Lemma zlen_path_text p : zlen (path_text p) = foldr (fun n k => (zlen n + 1) + k) 0 p.
Proof.
  induction p as [|n p IH]; [done|]. unfold path_text in *. cbn [mbind list_bind foldr].
  rewrite zlen_app, zlen_cons, IH. lia.
Qed.
Lemma length_run a p w : counted w -> at_path w a p ->
  tcmi_ctlfs_entry_path_length a w = Ret (1 + zlen (path_text p)) w.
Proof.
  intros Hc Hp. unfold tcmi_ctlfs_entry_path_length.
  rewrite (traverse_run _ (fun n k => Some (k + (zlen n + 1))) a p); [|intros e d acc w' Hd|done..].
  - by rewrite (climb_sum (fun n => zlen n + 1)), zlen_path_text.
  - unfold tcmi_ctlfs_add_length, tcmi_ctlfs_entry_name, dent. run. by rewrite Hd.
Qed.

(** ** The path in a buffer *)

Definition write_pure (off : Z) (d buffer : list Z) : option (list Z) :=
  if (0 <=? off) && (off + zlen d <=? zlen buffer) then Some (blit off d buffer) else None.
Lemma write_at_run off d buffer w :
  write_at off d buffer w = match write_pure off d buffer with Some b => Ret b w | None => Fault end.
Proof. unfold write_at, write_pure. by destruct (_ && _). Qed.
Lemma write_in P d X R : zlen X = zlen d -> write_pure (zlen P) d (P ++ X ++ R) = Some (P ++ d ++ R).
Proof.
  intros HX. pose proof (zlen_nonneg P). pose proof (zlen_nonneg R). unfold write_pure. rewrite !zlen_app.
  rewrite (proj2 (andb_true_iff _ _)) by (split; lia). unfold blit. rewrite ztake_app_eq, (app_assoc P X R).
  replace (zlen P + zlen d) with (zlen (P ++ X)) by (rewrite zlen_app; lia). by rewrite zdrop_app_eq.
Qed.

Definition add_path (name : list Z) (buf : list Z * Z) : option (list Z * Z) :=
  b ← write_pure (buf.2 - zlen name) name buf.1;
  b ← write_pure (buf.2 - zlen name - 1) [47] b; Some (b, buf.2 - zlen name - 1).
Lemma add_path_eq name b n : add_path name (b, n) =
  (b ← write_pure (n - zlen name) name b; b ← write_pure (n - zlen name - 1) [47] b; Some (b, n - zlen name - 1)).
Proof. done. Qed.
Lemma add_path_reads : reads tcmi_ctlfs_add_path add_path.
Proof.
  intros e d [buffer n] w Hd. unfold tcmi_ctlfs_add_path, tcmi_ctlfs_entry_name, dent, add_path. run. rewrite Hd.
  rewrite write_at_run. cbn [fst snd option_bind]. destruct (write_pure _ _ _) as [b|]; [|done]. cbn [option_bind].
  rewrite write_at_run. cbn [d_name]. by destruct (write_pure _ [47] b).
Qed.

Lemma climb_path p P X R : zlen X = zlen (path_text p) ->
  climb add_path p (P ++ X ++ R, zlen P + zlen X) = Some (P ++ path_text p ++ R, zlen P).
Proof.
  revert X R. induction p as [|n p IH] using rev_ind; intros X R HX.
  { cbn in HX. rewrite zlen_nil in HX. destruct X; [|rewrite zlen_cons in HX; pose proof (zlen_nonneg X); lia].
    cbn. do 2 f_equal. rewrite zlen_nil. lia. }
  rewrite path_text_snoc, zlen_app, zlen_cons in HX. rewrite climb_snoc. pose proof (zlen_nonneg (path_text p)).
  pose proof (zlen_nonneg n). rewrite <- (ztake_zdrop (zlen (path_text p)) X).
  set (X1 := ztake _ X). set (X2 := zdrop _ X).
  assert (zlen X1 = zlen (path_text p)) as H1 by (unfold X1; rewrite zlen_ztake; lia).
  assert (zlen X2 = 1 + zlen n) as H2 by (unfold X2; rewrite zlen_zdrop; lia).
  destruct X2 as [|x X2]; [rewrite zlen_nil in H2; lia|]. rewrite zlen_cons in H2. rewrite add_path_eq.
  assert (P ++ (X1 ++ x :: X2) ++ R = (P ++ X1 ++ [x]) ++ X2 ++ R) as -> by (by rewrite <- !app_assoc).
  replace (zlen P + zlen (X1 ++ x :: X2) - zlen n) with (zlen (P ++ X1 ++ [x])) by (rewrite !zlen_app, !zlen_cons, zlen_nil; lia).
  rewrite write_in by lia. cbn [mbind option_bind].
  replace (zlen (P ++ X1 ++ [x]) - 1) with (zlen (P ++ X1)) by (rewrite !zlen_app, zlen_cons, zlen_nil; lia).
  assert ((P ++ X1 ++ [x]) ++ n ++ R = (P ++ X1) ++ [x] ++ n ++ R) as -> by (by rewrite <- !app_assoc).
  rewrite write_in by done. cbn [mbind option_bind]. rewrite <- (app_assoc P X1), (zlen_app P X1), (IH X1 ([47] ++ n ++ R)) by done.
  by rewrite path_text_snoc, <- !app_assoc.
Qed.

Lemma fill_run a p w P X R : counted w -> at_path w a p -> zlen X = zlen (path_text p) ->
  tcmi_ctlfs_entry_fill_path a (P ++ X ++ R) (zlen P + zlen X + 1) w = Ret (P ++ path_text p ++ R) w.
Proof.
  intros Hc Hp HX. unfold tcmi_ctlfs_entry_fill_path. unfold mbind, eff_bind.
  rewrite (traverse_run _ add_path a p); [|apply add_path_reads|done..].
  replace (zlen P + zlen X + 1 - 1) with (zlen P + zlen X) by lia. by rewrite climb_path.
Qed.

(** ** The link *)

(** The leading part of the path and the rest of the page. *)
Definition ups (k : nat) : list Z := replicate k () ≫= (fun _ => [46; 46; 47]).
Lemma zlen_ups k : zlen (ups k) = 3 * Z.of_nat k.
Proof.
  unfold ups. induction k as [|k IH]; [done|]. cbn [replicate mbind list_bind]. rewrite zlen_app, IH.
  change (zlen [46; 46; 47]) with 3. lia.
Qed.
Lemma ups_succ k : ups (S k) = [46; 46; 47] ++ ups k.
Proof. done. Qed.
Lemma ups_snoc k : ups (S k) = ups k ++ [46; 46; 47].
Proof. induction k as [|k IH]; [done|]. rewrite ups_succ, IH at 1. by rewrite app_assoc, <- ups_succ. Qed.

Lemma fill_ups_run k P n w : (3 * k < n)%nat ->
  fill_ups k (zlen P) (P ++ replicate n 0) w = Ret (P ++ ups k ++ replicate (n - 3 * k) 0) w.
Proof.
  revert P n. induction k as [|k IH]; intros P n Hn; [cbn; by rewrite Nat.sub_0_r|]. cbn [fill_ups].
  replace n with (4 + (n - 4))%nat at 1 by lia. rewrite replicate_add. unfold mbind, eff_bind. rewrite write_at_run.
  rewrite write_in by done.
  assert (P ++ [46; 46; 47; 0] ++ replicate (n - 4) 0 = (P ++ [46; 46; 47]) ++ replicate (n - 3) 0) as ->.
  { rewrite <- app_assoc. replace (n - 3)%nat with (S (n - 4)) by lia. done. }
  replace (zlen P + 3) with (zlen (P ++ [46; 46; 47])) by (rewrite zlen_app; done). rewrite IH by lia.
  rewrite ups_succ, <- !app_assoc. do 5 f_equal. lia.
Qed.

(** The text of a link with [k] steps up and the path [q]: the first slash of the path is the
    last one of the steps. *)
Definition link_text (k : nat) (q : list (list Z)) : list Z := ztake (3 * Z.of_nat k - 1) (ups k) ++ path_text q.

Lemma get_link_run a l t p q w k :
  counted w -> at_path w a p -> zlen p = Z.of_nat k + 1 -> (0 < k)%nat ->
  dents w !! a = Some l -> d_fsdata l = Some (Symlink (Some t)) -> at_path w t q -> q <> [] ->
  3 * Z.of_nat k + zlen (path_text q) <= PAGE_SIZE ->
  tcmi_ctlfs_symlink_get_link a (replicate (Z.to_nat PAGE_SIZE) 0) PAGE_SIZE w =
  Ret (0, link_text k q ++ replicate (Z.to_nat (PAGE_SIZE + 1 - (3 * Z.of_nat k + zlen (path_text q)))) 0) w.
Proof.
  intros Hc Hp Hk Hpos Hl Hs Ht Hq Hsz. unfold tcmi_ctlfs_symlink_get_link. unfold mbind at 1, eff_bind at 1.
  rewrite (depth_run a p) by done. unfold entry, dent. run. rewrite Hl, Hs. rewrite (length_run t q) by done.
  rewrite Hk. replace (Z.of_nat k + 1 - 1) with (Z.of_nat k) by lia.
  change PAGE_SIZE with 4096 in *. assert (0 < zlen (path_text q)) as Hlen.
  { destruct q as [|n q]; [done|]. unfold path_text. cbn [mbind list_bind app]. rewrite zlen_cons. 
    match goal with |- context [zlen ?x] => pose proof (zlen_nonneg x) end. lia. }
  replace (_ <? _) with false by lia. rewrite Nat2Z.id.
  pose proof (fill_ups_run k [] (Z.to_nat 4096) w ltac:(lia)) as Hu. rewrite zlen_nil in Hu. cbn [app] in Hu.
  rewrite Hu. clear Hu. destruct k as [|k]; [lia|]. set (n := zlen (path_text q)) in *.
  set (P := ups k ++ [46; 46]).
  assert (zlen P = 3 * Z.of_nat (S k) - 1) as HP by (unfold P; rewrite zlen_app, zlen_ups; change (zlen [46; 46]) with 2; lia).
  set (X := 47 :: replicate (Z.to_nat (n - 1)) 0).
  assert (zlen X = n) as HX by (unfold X; rewrite zlen_cons, zlen_replicate; lia).
  set (R := replicate (Z.to_nat (4096 + 1 - (3 * Z.of_nat (S k) + n))) 0).
  assert (ups (S k) ++ replicate (Z.to_nat 4096 - 3 * S k) 0 = P ++ X ++ R) as ->.
  { unfold P, X, R. rewrite ups_snoc, <- !app_assoc. cbn [app]. do 3 f_equal. rewrite <- replicate_add. do 2 f_equal. lia. }
  replace (1 + n + Z.of_nat (S k) * 3 - 1) with (zlen P + zlen X + 1) by lia.
  rewrite (fill_run t q) by done. unfold link_text. do 2 f_equal. rewrite ups_snoc.
  replace (ups k ++ [46; 46; 47]) with (P ++ [47]) by (unfold P; by rewrite <- app_assoc).
  by rewrite <- HP, ztake_app_eq, <- app_assoc.
Qed.

(** ** Where a path leads *)

(** The string in a buffer, and the components of a path. *)
Fixpoint c_text (l : list Z) : list Z :=
  match l with [] => [] | c :: l => if c =? 0 then [] else c :: c_text l end.
Definition component (n : list Z) : list (list Z) := match n with [] => [] | _ => [n] end.
Fixpoint components (n l : list Z) : list (list Z) :=
  match l with
  | [] => component n
  | c :: l => if c =? 47 then component n ++ components [] l else components (n ++ [c]) l
  end.

Inductive leads (w : ctlfs) : Z -> list (list Z) -> Z -> Prop :=
| leads_here a : leads w a [] a
| leads_up a d cs b : dents w !! a = Some d -> leads w (d_parent d) cs b -> leads w a ([46; 46] :: cs) b
| leads_down a c d cs b : dents w !! c = Some d -> d_parent d = a -> leads w c cs b -> leads w a (d_name d :: cs) b.

Definition one_root (w : ctlfs) : Prop :=
  forall a b da db, dents w !! a = Some da -> d_parent da = a -> dents w !! b = Some db -> d_parent db = b -> a = b.
Definition good_name (n : list Z) : Prop := n <> [] /\ (0 ∉ n) /\ (47 ∉ n).

Lemma leads_app w a b c cs ds : leads w a cs b -> leads w b ds c -> leads w a (cs ++ ds) c.
Proof.
  intros H Hd. induction H as [a|a d cs b Hda H IH|a x d cs b Hda Hp H IH]; [done| |].
  - cbn. eapply leads_up; eauto.
  - cbn. eapply leads_down; eauto.
Qed.
Lemma leads_to_root w a p : at_path w a p -> exists r, leads w a (replicate (length p) [46; 46]) r /\ at_path w r [].
Proof.
  induction 1 as [a d Hd Hr|a d p Hd Hlt Hp (r & Hl & Hr)].
  - exists a. split; [constructor|by econstructor].
  - exists r. split; [|done]. rewrite length_app, Nat.add_comm. cbn. by eapply leads_up.
Qed.
Lemma leads_from_root w a p r : one_root w -> at_path w r [] -> at_path w a p -> leads w r p a.
Proof.
  intros Ho Hr. assert (exists dr, dents w !! r = Some dr /\ d_parent dr = r) as (dr & Hdr & Hrr).
  { inversion Hr as [? ? ? ?|? ? p' ? ? ? E]; subst; [by eexists|]. by destruct p'. }
  induction 1 as [a d Hd Hda|a d p Hd Hlt Hp IH].
  - rewrite (Ho a r d dr) by done. constructor.
  - apply (leads_app w r (d_parent d)); [done|]. eapply leads_down; [done..|constructor].
Qed.

Lemma c_text_app s R : 0 ∉ s -> c_text (s ++ 0 :: R) = s.
Proof.
  induction s as [|c s IH]; intros Hs; [done|]. rewrite not_elem_of_cons in Hs. destruct Hs as [Hc Hs]. cbn.
  replace (c =? 0) with false by lia. by rewrite IH.
Qed.
Lemma components_name n m l : 47 ∉ n -> components m (n ++ l) = components (m ++ n) l.
Proof.
  revert m. induction n as [|c n IH]; intros m Hn; [by rewrite app_nil_r|]. rewrite not_elem_of_cons in Hn. destruct Hn as [Hc Hn].
  cbn. replace (c =? 47) with false by lia. by rewrite IH, <- app_assoc.
Qed.
Lemma components_path q m : Forall good_name q -> components m (path_text q) = component m ++ q.
Proof.
  intros Hq. revert m. induction Hq as [|n q (Hn & _ & H47) _ IH]; intros m; [cbn; by rewrite app_nil_r|].
  unfold path_text. cbn [mbind list_bind app components Z.eqb Pos.eqb]. f_equal. fold (path_text q).
  rewrite components_name by done. cbn [app]. rewrite IH. by destruct n.
Qed.
Lemma components_ups k m s : components [] (ups k ++ m ++ s) = replicate k [46; 46] ++ components [] (m ++ s).
Proof. induction k as [|k IH]; [done|]. rewrite ups_succ. cbn. f_equal. exact IH. Qed.

Lemma link_components k q : (0 < k)%nat -> Forall good_name q ->
  components [] (link_text k q) = replicate k [46; 46] ++ q.
Proof.
  intros Hk Hq. destruct k as [|k]; [lia|]. unfold link_text. rewrite ups_snoc.
  replace (3 * Z.of_nat (S k) - 1) with (zlen (ups k ++ [46; 46])) by (rewrite zlen_app, zlen_ups; change (zlen [46; 46]) with 2; lia).
  replace (ups k ++ [46; 46; 47]) with ((ups k ++ [46; 46]) ++ [47]) by (by rewrite <- app_assoc).
  rewrite ztake_app_eq, <- app_assoc, components_ups. rewrite components_name by set_solver. rewrite components_path by done.
  rewrite replicate_S_end, <- app_assoc. done.
Qed.
Lemma link_text_chars k q : Forall good_name q -> 0 ∉ link_text k q.
Proof.
  intros Hq. unfold link_text. rewrite elem_of_app. intros [Hin|Hin].
  - apply (elem_of_take _ _ _) in Hin as (i & Hi & _). apply list_elem_of_lookup_2 in Hi. revert Hi. unfold ups.
    rewrite list_elem_of_bind. intros (? & Hin & _). set_solver.
  - revert Hin. unfold path_text. rewrite list_elem_of_bind. intros (n & Hin & Hn).
    rewrite Forall_forall in Hq. destruct (Hq n Hn) as (_ & H0 & _). set_solver.
Qed.

Lemma link_leads a l t p q w :
  counted w -> one_root w -> at_path w a p -> (1 < length p)%nat ->
  dents w !! a = Some l -> d_fsdata l = Some (Symlink (Some t)) -> at_path w t q -> q <> [] -> Forall good_name q ->
  3 * (zlen p - 1) + zlen (path_text q) <= PAGE_SIZE ->
  exists page, tcmi_ctlfs_symlink_get_link a (replicate (Z.to_nat PAGE_SIZE) 0) PAGE_SIZE w = Ret (0, page) w /\
    leads w (d_parent l) (components [] (c_text page)) t.
Proof.
  intros Hc Ho Hp Hlen Hl Hs Ht Hq Hg Hsz. destruct (length p) as [|k] eqn:Ek; [lia|].
  assert (zlen p = Z.of_nat k + 1) as Hk by (unfold zlen; lia).
  eexists. split; [apply (get_link_run a l t p q w k); try done; lia|].
  assert (Z.to_nat (PAGE_SIZE + 1 - (3 * Z.of_nat k + zlen (path_text q))) =
    S (Z.to_nat (PAGE_SIZE - (3 * Z.of_nat k + zlen (path_text q))))) as -> by lia.
  cbn [replicate]. rewrite c_text_app by (by apply link_text_chars). rewrite link_components by (done || lia).
  inversion Hp as [? ? ? ? E|? d p' Hd Hlt Hp' E]; subst; [done|].
  assert (d = l) as -> by congruence. rewrite length_app in Ek. cbn in Ek.
  destruct (leads_to_root _ _ _ Hp') as (r & Hr & Hroot). replace (length p') with k in Hr by lia.
  eapply leads_app; [exact Hr|]. by apply leads_from_root.
Qed.

(** A path that does not fit into the page. *)
Lemma link_too_long a l t p q w :
  counted w -> at_path w a p -> dents w !! a = Some l -> d_fsdata l = Some (Symlink (Some t)) -> at_path w t q ->
  PAGE_SIZE < 3 * (zlen p - 1) + zlen (path_text q) ->
  tcmi_ctlfs_symlink_get_link a (replicate (Z.to_nat PAGE_SIZE) 0) PAGE_SIZE w =
    Ret (- ENAMETOOLONG, replicate (Z.to_nat PAGE_SIZE) 0) w.
Proof.
  intros Hc Hp Hl Hs Ht Hsz. unfold tcmi_ctlfs_symlink_get_link. unfold mbind at 1, eff_bind at 1.
  rewrite (depth_run a p) by done. unfold entry, dent. run. rewrite Hl, Hs. rewrite (length_run t q) by done.
  by replace (PAGE_SIZE <? _) with true by lia.
Qed.
