(* ===== verification/CtlTree.v ===== *)
(** The reference counts of the control file system: through any sequence of operations of its
    holders the count of an entry is the number of references to it, from outside, from the
    entries in it and from symbolic links; no operation touches freed memory; and when every
    reference is given back nothing is left. *)

From stdpp Require Import gmap.
From S2P Require Import Prelude Effect CtlFs CtlPath.

(** ** References *)

Definition link_refs (e : option tcmi_ctlfs_entry) : list Z :=
  match e with Some (Symlink (Some t)) => [t] | _ => [] end.
(** The references that the dentry at [a] holds. *)
Definition refs_of (a : Z) (d : dentry) : list Z :=
  (if decide (d_parent d = a) then [] else [d_parent d]) ++ link_refs (d_fsdata d).
Definition all_refs (m : gmap Z dentry) : list Z := map_to_list m ≫= (fun p => refs_of p.1 p.2).

Definition occ (b : Z) (l : list Z) : Z := zlen (filter (fun x => x = b) l).

Lemma dent_occ_nonneg b l : 0 <= occ b l.
Proof. apply zlen_nonneg. Qed.
Lemma occ_app b l k : occ b (l ++ k) = occ b l + occ b k.
Proof. unfold occ. by rewrite filter_app, zlen_app. Qed.
Lemma occ_perm b l k : l ≡ₚ k -> occ b l = occ b k.
Proof. intros H. unfold occ, zlen. by rewrite H. Qed.
Lemma occ_zero b l : b ∉ l -> occ b l = 0.
Proof.
  induction l as [|x l IH]; [done|]. intros Hn. rewrite not_elem_of_cons in Hn. destruct Hn as [Hx Hl].
  unfold occ in *. rewrite filter_cons, decide_False by congruence. auto.
Qed.
Lemma occ_pos b l : b ∈ l -> 0 < occ b l.
Proof.
  induction l as [|x l IH]; [by intros ?%not_elem_of_nil|]. intros Hin. unfold occ in *. rewrite filter_cons. case_decide as E.
  - rewrite zlen_cons. pose proof (zlen_nonneg (filter (fun x => x = b) l)). lia.
  - apply IH. apply elem_of_cons in Hin. destruct Hin; congruence.
Qed.
Lemma occ_one b x : occ b [x] = if decide (x = b) then 1 else 0.
Proof. unfold occ. rewrite filter_cons. by case_decide. Qed.

Lemma all_refs_insert a d m : m !! a = None -> all_refs (<[a := d]> m) ≡ₚ refs_of a d ++ all_refs m.
Proof. intros Hm. unfold all_refs. by rewrite map_to_list_insert. Qed.
Lemma all_refs_delete a d m : m !! a = Some d -> all_refs m ≡ₚ refs_of a d ++ all_refs (delete a m).
Proof.
  intros Hm. rewrite <- (insert_delete_id m a d) at 1 by done. apply all_refs_insert. apply lookup_delete_eq.
Qed.
Lemma all_refs_update a d d' m : m !! a = Some d ->
  refs_of a d ++ all_refs (<[a := d']> m) ≡ₚ refs_of a d' ++ all_refs m.
Proof.
  intros Hm. rewrite <- insert_delete_eq, all_refs_insert by apply lookup_delete_eq.
  rewrite (all_refs_delete a d m Hm). by rewrite app_assoc, (Permutation_app_comm (refs_of a d)), <- app_assoc.
Qed.

(** ** The invariant *)

(** A new file whose data cannot be allocated is freed, and its dentry stays, with a reference that
    nobody holds. *)
Definition unheld (d : dentry) : Z := match d_fsdata d with None => 1 | Some _ => 0 end.
(** The count without it. *)
Definition net (d : dentry) : Z := d_count d - unheld d.

(** [ext]: the references from outside. *)
Record tree_inv (ext : Z -> Z) (w : ctlfs) : Prop := {
  ti_count a d : dents w !! a = Some d -> net d = ext a + occ a (all_refs (dents w)) /\ 0 < d_count d;
  ti_ext a : 0 <= ext a /\ (dents w !! a = None -> ext a = 0 /\ occ a (all_refs (dents w)) = 0);
  ti_order a d : dents w !! a = Some d -> a < next_addr w /\ (forall b, b ∈ refs_of a d -> b < a);
  ti_root : one_root w;
  ti_inodes : inodes w = Z.of_nat (size (dents w))
}.

Definition plus (a n : Z) (ext : Z -> Z) (b : Z) : Z := ext b + if decide (b = a) then n else 0.

Lemma tree_inv_ext ext ext' w : (forall b, ext b = ext' b) -> tree_inv ext w -> tree_inv ext' w.
Proof.
  intros He [Hc Hx Ho Hr Hi]. split; try done.
  - intros a d Hd. rewrite <- He. by apply Hc.
  - intros a. rewrite <- He. apply Hx.
Qed.

(** The allocator and the signals do not matter. *)
Lemma tree_inv_answers ext w l s : tree_inv ext w -> tree_inv ext (set_allocs l (set_signals s w)).
Proof. intros [Hc Hx Ho Hr Hi]. by split. Qed.

(** An update of a dentry, which may make its entry hold the references [r]. *)
Lemma inv_update ext w a d d' r :
  tree_inv ext w -> dents w !! a = Some d -> d_parent d' = d_parent d ->
  link_refs (d_fsdata d') = link_refs (d_fsdata d) ++ r -> 0 < d_count d' ->
  (forall b, b ∈ r -> b < a /\ occ b r <= ext b /\ is_Some (dents w !! b)) -> 0 <= ext a + (net d' - net d) ->
  tree_inv (fun b => plus a (net d' - net d) ext b - occ b r) (set_dents (insert a d') w).
Proof.
  intros [Hc Hx Ho Hr Hi] Hd Hp Hl Hpos Hb Ha.
  assert (refs_of a d' = refs_of a d ++ r) as Hrefs by (unfold refs_of; by rewrite Hp, Hl, app_assoc).
  assert (forall b, occ b (all_refs (<[a := d']> (dents w))) = occ b (all_refs (dents w)) + occ b r) as Hocc.
  { intros b. pose proof (occ_perm b _ _ (all_refs_update a d d' (dents w) Hd)) as E.
    rewrite Hrefs, !occ_app in E. lia. }
  assert (a ∉ r) as Har by (intros Hin; apply Hb in Hin; lia).
  split; cbn [dents set_dents next_addr inodes].
  - intros b x Hbx. rewrite Hocc. unfold plus. destruct (decide (b = a)) as [->|Hne].
    + rewrite lookup_insert_eq in Hbx. injection Hbx as <-. destruct (Hc a d Hd). rewrite (occ_zero a r Har). lia.
    + rewrite lookup_insert_ne in Hbx by done. destruct (Hc b x Hbx). lia.
  - intros b. rewrite Hocc. unfold plus. destruct (Hx b) as [Hx1 Hx2]. destruct (decide (b ∈ r)) as [Hin|Hin].
    + destruct (Hb b Hin) as (? & ? & [x Hbx]). rewrite decide_False by lia. split; [lia|].
      rewrite lookup_insert_ne by lia. congruence.
    + rewrite (occ_zero b r Hin). destruct (decide (b = a)) as [->|Hne].
      * split; [lia|]. by rewrite lookup_insert_eq.
      * rewrite lookup_insert_ne by done. split; [lia|]. intros Hn. specialize (Hx2 Hn). lia.
  - intros b x Hbx. destruct (decide (b = a)) as [->|Hne].
    + rewrite lookup_insert_eq in Hbx. injection Hbx as <-. destruct (Ho a d Hd) as [Ho1 Ho2]. split; [done|].
      rewrite Hrefs. intros b [Hin|Hin]%elem_of_app; [by apply Ho2|by apply Hb].
    + rewrite lookup_insert_ne in Hbx by done. by apply Ho.
  - intros b c db dc. cbn [dents set_dents]. intros Hdb Hpb Hdc Hpc.
    assert (forall x dx, <[a:=d']> (dents w) !! x = Some dx -> d_parent dx = x -> exists dy, dents w !! x = Some dy /\ d_parent dy = x) as Hroot.
    { intros x dx Hx' Hpx. destruct (decide (x = a)) as [->|Hne].
      - rewrite lookup_insert_eq in Hx'. injection Hx' as <-. exists d. split; [done|congruence].
      - rewrite lookup_insert_ne in Hx' by done. by exists dx. }
    destruct (Hroot b db Hdb Hpb) as (yb & ? & ?). destruct (Hroot c dc Hdc Hpc) as (yc & ? & ?). by apply (Hr b c yb yc).
  - by rewrite map_size_insert_Some.
Qed.

(** An update that leaves the references of the entry alone. *)
Lemma inv_count ext w a d d' :
  tree_inv ext w -> dents w !! a = Some d -> d_parent d' = d_parent d ->
  link_refs (d_fsdata d') = link_refs (d_fsdata d) -> 0 < d_count d' -> 0 <= ext a + (net d' - net d) ->
  tree_inv (plus a (net d' - net d) ext) (set_dents (insert a d') w).
Proof.
  intros Hw Hd Hp Hl Hpos Ha.
  assert (tree_inv (fun b => plus a (net d' - net d) ext b - occ b []) (set_dents (insert a d') w)) as H.
  { apply (inv_update ext w a d d' []); try done; [by rewrite app_nil_r|by intros b ?%not_elem_of_nil]. }
  revert H. apply tree_inv_ext. intros b. rewrite (occ_zero b []) by apply not_elem_of_nil. lia.
Qed.

Lemma get_keeps ext w a d : tree_inv ext w -> dents w !! a = Some d ->
  exists w', dget a w = Ret tt w' /\ tree_inv (plus a 1 ext) w' /\ dents w' = insert a (d_set_count (d_count d + 1) d) (dents w) /\
    next_addr w' = next_addr w /\ allocs w' = allocs w.
Proof.
  intros Hw Hd. unfold dget, upd_dent, dent. run. rewrite Hd. eexists. split; [reflexivity|]. split_and!; try done.
  destruct (ti_count _ _ Hw a d Hd) as [Hc Hpos]. destruct (ti_ext _ _ Hw a) as [Hx _].
  eapply tree_inv_ext; [|eapply (inv_count ext w a d); try done].
  - intros b. unfold plus, net, unheld. cbn. case_decide; lia.
  - cbn. lia.
  - unfold net, unheld. cbn. lia.
Qed.

(** ** The last reference *)

Lemma inv_release ext w a d :
  tree_inv ext w -> dents w !! a = Some d -> net d = 1 -> 0 < ext a ->
  tree_inv (fun b => plus a (-1) ext b + occ b (refs_of a d)) (set_inodes (inodes w - 1) (set_dents (delete a) w)).
Proof.
  intros [Hc Hx Ho Hr Hi] Hd H1 Hpos. destruct (Hc a d Hd) as [Hca _]. pose proof (dent_occ_nonneg a (all_refs (dents w))).
  assert (forall b, occ b (all_refs (dents w)) = occ b (refs_of a d) + occ b (all_refs (delete a (dents w)))) as Hocc.
  { intros b. by rewrite (occ_perm b _ _ (all_refs_delete a d (dents w) Hd)), occ_app. }
  assert (forall b, b ∈ refs_of a d -> is_Some (dents w !! b)) as Hclosed.
  { intros b Hin. destruct (dents w !! b) eqn:E; [by eexists|]. destruct (Hx b) as [_ Hn]. destruct (Hn E) as [_ Hz].
    rewrite Hocc in Hz. pose proof (occ_pos b _ Hin). pose proof (dent_occ_nonneg b (all_refs (delete a (dents w)))). lia. }
  split; cbn [dents set_dents set_inodes next_addr inodes].
  - intros b x Hbx. apply lookup_delete_Some in Hbx as [Hne Hbx]. destruct (Hc b x Hbx). rewrite Hocc in *. unfold plus.
    rewrite decide_False by done. lia.
  - intros b. destruct (Hx b) as [Hx1 Hx2]. pose proof (dent_occ_nonneg b (refs_of a d)). unfold plus. split; [case_decide; subst; lia|].
    intros Hn. destruct (decide (b = a)) as [->|Hne].
    + assert (occ a (refs_of a d) = 0) by (apply occ_zero; intros Hin; apply (Ho a d Hd) in Hin; lia).
      specialize (Hocc a). pose proof (dent_occ_nonneg a (all_refs (delete a (dents w)))). lia.
    + rewrite lookup_delete_ne in Hn by done. specialize (Hx2 Hn). rewrite Hocc in Hx2.
      pose proof (dent_occ_nonneg b (all_refs (delete a (dents w)))). lia.
  - intros b x Hbx. apply lookup_delete_Some in Hbx as [Hne Hbx]. by apply Ho.
  - intros b c db dc. cbn [dents set_dents set_inodes]. rewrite !lookup_delete_Some. intros [_ ?] ? [_ ?] ?. by apply (Hr b c db dc).
  - rewrite map_size_delete_Some by (by eexists). rewrite Hi.
    assert (size (dents w) <> 0%nat) by (intros E; apply map_size_empty_inv in E; rewrite E in Hd; by rewrite lookup_empty in Hd). lia.
Qed.

Lemma put_keeps fuel ext w a :
  tree_inv ext w -> 0 < ext a -> (size (dents w) < fuel)%nat ->
  exists w', dput fuel a w = Ret tt w' /\ tree_inv (plus a (-1) ext) w' /\ (size (dents w') <= size (dents w))%nat.
Proof.
  revert ext w a. induction fuel as [|fuel IH]; intros ext w a Hw Ha Hf; [lia|].
  destruct (dents w !! a) as [d|] eqn:Hd; cycle 1.
  { destruct (ti_ext _ _ Hw a) as [_ Hn]. destruct (Hn Hd). lia. }
  destruct (ti_count _ _ Hw a d Hd) as [Hc Hpos]. pose proof (dent_occ_nonneg a (all_refs (dents w))) as Hocc.
  cbn [dput]. unfold dent at 1. run. rewrite Hd. destruct (d_count d - 1 =? 0) eqn:E; cbn [negb].
  - assert (is_Some (d_fsdata d)) as [e He].
    { unfold net, unheld in Hc. destruct (d_fsdata d); [by eexists|lia]. }
    assert (net d = d_count d) as Hnet by (unfold net, unheld; rewrite He; lia).
    change (negb tcmi_ctlfs_dentry_delete) with false. cbv iota beta. rewrite He.
    pose proof (inv_release ext w a d Hw Hd ltac:(lia) Ha) as Hrel.
    assert (refs_of a d = (if decide (d_parent d = a) then [] else [d_parent d]) ++ link_refs (Some e)) as Hrefs
      by (unfold refs_of; by rewrite He).
    rewrite Hrefs in Hrel. set (w1 := set_inodes _ _) in *.
    change (inodes (set_dents (delete a) w)) with (inodes w). fold w1.
    assert (size (dents w1) < fuel)%nat as Hf1.
    { cbn. rewrite map_size_delete_Some by (by eexists).
      assert (size (dents w) <> 0%nat) by (intros E'; apply map_size_empty_inv in E'; rewrite E' in Hd; by rewrite lookup_empty in Hd). lia. }
    assert (exists w2, match e with Symlink (Some t) => dput fuel t | _ => mret tt end w1 = Ret tt w2 /\
      tree_inv (fun b => plus a (-1) ext b + occ b (if decide (d_parent d = a) then [] else [d_parent d])) w2 /\
      (size (dents w2) <= size (dents w1))%nat) as (w2 & E2 & Hw2 & Hs2).
    { destruct e as [|f|[t|]]; cbn [link_refs] in Hrel.
      1, 2, 4: exists w1; split; [done|]; split; [|done]; revert Hrel; apply tree_inv_ext; intros b; by rewrite app_nil_r.
      destruct (IH _ w1 t Hrel) as (w2 & E2 & Hw2 & Hs2).
      { rewrite occ_app, occ_one. destruct (decide (t = t)); [|done].
        pose proof (dent_occ_nonneg t (if decide (d_parent d = a) then [] else [d_parent d])).
        assert (0 <= plus a (-1) ext t); [|lia]. unfold plus. destruct (ti_ext _ _ Hw t). destruct (decide (t = a)); subst; lia. }
      { done. }
      exists w2. split; [done|]. split; [|done]. revert Hw2. apply tree_inv_ext. intros b.
      unfold plus at 1. rewrite occ_app, occ_one. repeat case_decide; subst; try lia; congruence. }
    revert E2. run. intros E2. rewrite E2. destruct (decide (d_parent d = a)) as [Hroot|Hroot].
    + replace (a =? d_parent d) with true by lia. exists w2. split; [done|]. split; [|].
      * revert Hw2. apply tree_inv_ext. intros b. rewrite (occ_zero b []) by apply not_elem_of_nil. lia.
      * cbn in Hs2. rewrite map_size_delete_Some in Hs2 by (by eexists). lia.
    + replace (a =? d_parent d) with false by lia. destruct (IH _ w2 (d_parent d) Hw2) as (w3 & E3 & Hw3 & Hs3).
      { rewrite occ_one, decide_True by done. unfold plus. destruct (ti_ext _ _ Hw (d_parent d)). case_decide; subst; lia. }
      { lia. }
      exists w3. split; [done|]. split.
      * revert Hw3. apply tree_inv_ext. intros b. unfold plus at 1. rewrite occ_one. repeat case_decide; subst; try lia; congruence.
      * cbn in Hs2. rewrite map_size_delete_Some in Hs2 by (by eexists). lia.
  - unfold upd_dent, dent. run. rewrite Hd. eexists. split; [reflexivity|]. split.
    + eapply tree_inv_ext; [|apply (inv_count ext w a d (d_set_count (d_count d - 1) d)); try done].
      * intros b. unfold plus, net, unheld. cbn. case_decide; lia.
      * cbn. lia.
      * unfold net, unheld. cbn. lia.
    + cbn. by rewrite map_size_insert_Some.
Qed.

(** ** New entries *)

Lemma tree_inv_same ext w w' : dents w' = dents w -> inodes w' = inodes w -> next_addr w' = next_addr w ->
  tree_inv ext w -> tree_inv ext w'.
Proof.
  intros Hd Hi Hn [Hc Hx Ho Hr Hi']. destruct w, w'. cbn in *. subst. by split.
Qed.

Lemma inv_add ext w d p :
  tree_inv ext w -> is_Some (dents w !! p) -> 0 < ext p -> d_parent d = p -> d_count d = 1 ->
  is_Some (d_fsdata d) -> link_refs (d_fsdata d) = [] ->
  let a := next_addr w in
  tree_inv (plus a 1 (plus p (-1) ext)) (set_inodes (inodes w + 1) (set_next_addr (a + 1) (set_dents (insert a d) w))).
Proof.
  intros [Hc Hx Ho Hr Hi] [dp Hp] He Hdp H1 [e Hs] Hl a.
  assert (net d = 1) as Hnet by (unfold net, unheld; rewrite Hs, H1; done). assert (p < a) as Hlt by (by apply (Ho p dp)).
  assert (dents w !! a = None) as Ha by (destruct (dents w !! a) as [x|] eqn:E; [destruct (Ho a x E); lia|done]).
  assert (refs_of a d = [p]) as Hrefs by (unfold refs_of; rewrite Hdp, Hl, decide_False by lia; done).
  assert (forall b, occ b (all_refs (<[a := d]> (dents w))) = occ b [p] + occ b (all_refs (dents w))) as Hocc.
  { intros b. by rewrite (occ_perm b _ _ (all_refs_insert a d (dents w) Ha)), Hrefs, occ_app. }
  destruct (Hx a) as [_ Hxa]. destruct (Hxa Ha) as [Hea Hoa].
  split; cbn [dents set_dents set_inodes set_next_addr next_addr inodes].
  - intros b x Hbx. rewrite Hocc, occ_one. unfold plus. destruct (decide (b = a)) as [->|Hne].
    + rewrite lookup_insert_eq in Hbx. injection Hbx as <-. rewrite !decide_False by lia. lia.
    + rewrite lookup_insert_ne in Hbx by done. destruct (Hc b x Hbx).
      destruct (decide (b = p)) as [->|]; [rewrite decide_True by done|rewrite decide_False by congruence]; lia.
  - intros b. rewrite Hocc, occ_one. unfold plus. destruct (Hx b) as [Hx1 Hx2].
    destruct (decide (b = a)) as [->|Hne].
    + split; [rewrite decide_False by lia; lia|by rewrite lookup_insert_eq].
    + rewrite lookup_insert_ne by done. destruct (decide (b = p)) as [->|Hbp].
      * split; [lia|]. rewrite Hp. done.
      * rewrite decide_False by congruence. split; [lia|]. intros Hn. specialize (Hx2 Hn). lia.
  - intros b x Hbx. destruct (decide (b = a)) as [->|Hne].
    + rewrite lookup_insert_eq in Hbx. injection Hbx as <-. split; [lia|]. rewrite Hrefs. intros b ->%list_elem_of_singleton. done.
    + rewrite lookup_insert_ne in Hbx by done. destruct (Ho b x Hbx). split; [lia|done].
  - intros b c db dc. cbn [dents set_dents set_inodes set_next_addr]. intros Hb Hpb Hc' Hpc.
    assert (b <> a) by (intros ->; rewrite lookup_insert_eq in Hb; injection Hb as <-; lia).
    assert (c <> a) by (intros ->; rewrite lookup_insert_eq in Hc'; injection Hc' as <-; lia).
    rewrite lookup_insert_ne in Hb, Hc' by done. by apply (Hr b c db dc).
  - rewrite map_size_insert_None by done. lia.
Qed.

(** What making an entry in a held directory gives. *)
Definition made (ext : Z -> Z) (w : ctlfs) (e : tcmi_ctlfs_entry) (r : option Z) (w' : ctlfs) : Prop :=
  match r with
  | None => tree_inv ext w' /\ dents w' = dents w
  | Some a => tree_inv (plus a 1 ext) w' /\ a = next_addr w /\
      (exists d, dents w' !! a = Some d /\ d_fsdata d = Some e) /\
      (forall b, is_Some (dents w !! b) -> b < a /\ is_Some (dents w' !! b))
  end.

Lemma made_none ext w e : tree_inv ext w -> made ext w e None w.
Proof. by split. Qed.

Lemma init_makes ext w parent mode e name :
  tree_inv ext w -> (forall p, parent = Some p -> is_Some (dents w !! p)) -> link_refs (Some e) = [] ->
  exists r w', tcmi_ctlfs_entry_init parent mode e name w = Ret r w' /\ made ext w e r w'.
Proof.
  intros Hw Hp He. unfold tcmi_ctlfs_entry_init. destruct parent as [p|]; [|exists None, w; auto using made_none].
  destruct (Hp p eq_refl) as [dp Hdp]. unfold dent at 1. run. rewrite Hdp.
  destruct (negb _); [exists None, w; auto using made_none|]. unfold tcmi_ctlfs_entry_exists. run.
  case_bool_decide; [exists None, w; auto using made_none|]. unfold tcmi_ctlfs_get_inode at 1, alloc at 1. run. cbn [allocs set_allocs].
  destruct (default true (head (allocs w))) eqn:A1; cbn [negb]; cycle 1.
  { eexists None, _. split; [reflexivity|]. split; [|done]. by apply (tree_inv_same ext w). }
  cbn [inodes set_allocs].
  match goal with |- context [tcmi_ctlfs_entry_alloc_dentry _ _ ?x] => generalize x end. intros i.
  unfold tcmi_ctlfs_entry_alloc_dentry, alloc. run. cbn [allocs set_inodes set_allocs].
  destruct (default true (head (tail (allocs w)))) eqn:A2; cbn [negb]; cycle 1.
  { unfold iput. run. eexists None, _. split; [reflexivity|]. split; [|done].
    apply (tree_inv_same ext w); try done. cbn. lia. }
  destruct (get_keeps ext w p dp Hw Hdp) as (w1 & _ & Hw1 & Hd1 & Hn1 & _).
  assert (is_Some (dents w1 !! p)) as Hp1 by (rewrite Hd1, lookup_insert_eq; by eexists).
  assert (0 < plus p 1 ext p) as Hext by (unfold plus; rewrite decide_True by done; destruct (ti_ext _ _ Hw p); lia).
  pose proof (inv_add _ w1 (mk_dentry 1 (ztake (MAX_ENTRY_NAME_LEN - 1) name) p i (Some e)) p Hw1 Hp1 Hext eq_refl eq_refl
    ltac:(by eexists) He) as Hadd.
  unfold dget, upd_dent, dent. run. cbn [dents set_inodes set_allocs]. rewrite Hdp. cbn [next_addr set_dents set_inodes set_allocs].
  eexists (Some (next_addr w)), _. split; [reflexivity|]. rewrite Hn1 in Hadd. cbv zeta in Hadd.
  split_and!.
  - apply (tree_inv_ext (plus (next_addr w) 1 (plus p (-1) (plus p 1 ext)))); [intros b; unfold plus; case_decide; case_decide; lia|].
    revert Hadd. apply tree_inv_same; cbn; [by rewrite Hd1| |done].
    rewrite (ti_inodes _ _ Hw1), Hd1, map_size_insert_Some by (by rewrite Hdp). by rewrite (ti_inodes _ _ Hw).
  - done.
  - eexists. split; [cbn; apply lookup_insert_eq|done].
  - intros b [x Hb]. destruct (ti_order _ _ Hw b x Hb). split; [done|]. cbn. rewrite lookup_insert_ne by lia.
    destruct (decide (b = p)) as [->|]; [rewrite lookup_insert_eq|rewrite lookup_insert_ne, Hb by done]; by eexists.
Qed.

(** An update that the counts do not depend on. *)
Lemma update_keeps ext w a d f :
  tree_inv ext w -> dents w !! a = Some d -> d_parent (f d) = d_parent d -> d_count (f d) = d_count d ->
  unheld (f d) = unheld d -> link_refs (d_fsdata (f d)) = link_refs (d_fsdata d) ->
  exists w', upd_dent a f w = Ret tt w' /\ tree_inv ext w' /\ (forall b, is_Some (dents w !! b) -> is_Some (dents w' !! b)).
Proof.
  intros Hw Hd Hp Hc Hs Hl. unfold upd_dent, dent. run. rewrite Hd. eexists. split; [reflexivity|].
  destruct (ti_count _ _ Hw a d Hd). destruct (ti_ext _ _ Hw a). split.
  - assert (net (f d) = net d) as Hnet by (unfold net; lia).
    eapply tree_inv_ext; [|apply (inv_count ext w a d (f d)); try done; lia].
    intros b. unfold plus. rewrite Hnet. case_decide; lia.
  - intros b Hb. cbn. destruct (decide (b = a)) as [->|]; [rewrite lookup_insert_eq; by eexists|by rewrite lookup_insert_ne].
Qed.
Lemma links_keep ext w a : tree_inv ext w -> is_Some (dents w !! a) ->
  exists w', tcmi_ctlfs_entry_inc_links a w = Ret tt w' /\ tree_inv ext w' /\
    (forall b, is_Some (dents w !! b) -> is_Some (dents w' !! b)).
Proof. intros Hw [d Hd]. by apply (update_keeps ext w a d). Qed.

Lemma held_there ext w a : tree_inv ext w -> 0 < ext a -> is_Some (dents w !! a).
Proof.
  intros Hw Ha. destruct (dents w !! a) eqn:E; [by eexists|]. destruct (ti_ext _ _ Hw a) as [_ Hn]. destruct (Hn E). lia.
Qed.

(** ** Operations *)

Inductive ctl_op :=
| Mkdir (parent mode : Z) (name : list Z)
| Mkfile (garbage : list Z) (parent mode : Z) (object rd wr : option Z) (maxlen : Z) (h : proc_handler_t) (name : list Z)
| Mklink (parent target : Z) (name : list Z)
| Get (a : Z)
| Put (a : Z).

(** A reference that the operation gives to its caller. *)
Definition run_op (op : ctl_op) : M (option Z) :=
  match op with
  | Mkdir p mode name => tcmi_ctlfs_dir_new (Some p) mode name
  | Mkfile g p mode obj rd wr n h name => tcmi_ctlfs_genericfile_new g (Some p) mode obj rd wr n h name
  | Mklink p t name => tcmi_ctlfs_symlink_new (Some p) (Some t) name
  | Get a => tcmi_ctlfs_entry_get (Some a)
  | Put a => tcmi_ctlfs_entry_put (Some a);; mret None
  end.
(** The caller holds what it passes. *)
Definition held (ext : Z -> Z) (op : ctl_op) : Prop :=
  match op with
  | Mkdir p _ _ | Mkfile _ p _ _ _ _ _ _ _ => 0 < ext p
  | Mklink p t _ => 0 < ext p /\ 0 < ext t
  | Get a | Put a => 0 < ext a
  end.
Definition after (ext : Z -> Z) (op : ctl_op) (r : option Z) : Z -> Z :=
  match op with
  | Put a => plus a (-1) ext
  | _ => match r with Some b => plus b 1 ext | None => ext end
  end.

Lemma mkdir_runs ext w p mode name : tree_inv ext w -> 0 < ext p ->
  exists r w', tcmi_ctlfs_dir_new (Some p) mode name w = Ret r w' /\ tree_inv (match r with Some b => plus b 1 ext | None => ext end) w'.
Proof.
  intros Hw Hp. unfold tcmi_ctlfs_dir_new, tcmi_ctlfs_dir_vnew, alloc. run.
  assert (tree_inv ext (set_allocs (tail (allocs w)) w)) as Hw0 by (by apply (tree_inv_same ext w)).
  destruct (negb _); [by eexists None, _|].
  destruct (init_makes ext _ (Some p) (Z.lor S_IFDIR mode) Dir name Hw0) as (r & w1 & E & Hm); [|done|].
  { intros p' [= <-]. by apply (held_there ext). }
  rewrite E. destruct r as [a|]; [|destruct Hm; by eexists None, _]. destruct Hm as (Hw1 & Ha & (d & Hd & _) & Hb).
  destruct (links_keep _ w1 p Hw1) as (w2 & E2 & Hw2 & Hs2). { by apply Hb, (held_there ext). }
  rewrite E2. destruct (links_keep _ w2 a Hw2) as (w3 & E3 & Hw3 & _). { apply Hs2. by eexists. }
  rewrite E3. by exists (Some a), w3.
Qed.

(** The entry that the caller holds is freed, and its dentry is not. *)
Lemma freed_keeps ext w a d : tree_inv (plus a 1 ext) w -> 0 <= ext a -> dents w !! a = Some d -> is_Some (d_fsdata d) ->
  link_refs (d_fsdata d) = [] -> tree_inv ext (set_dents (insert a (d_set_fsdata None d)) w).
Proof.
  intros Hw Hx Hd [e He] Hl. destruct (ti_count _ _ Hw a d Hd) as [Hc Hpos].
  assert (net (d_set_fsdata None d) = net d - 1) as Hnet by (unfold net, unheld; cbn; rewrite He; lia).
  eapply tree_inv_ext; [|apply (inv_count (plus a 1 ext) w a d (d_set_fsdata None d)); try done].
  - intros b. unfold plus. rewrite Hnet. case_decide; lia.
  - rewrite Hnet. unfold plus. rewrite decide_True by done. lia.
Qed.

Lemma mkfile_runs ext w g p mode obj rd wr n h name : tree_inv ext w -> 0 < ext p ->
  exists r w', tcmi_ctlfs_genericfile_new g (Some p) mode obj rd wr n h name w = Ret r w' /\
    tree_inv (match r with Some b => plus b 1 ext | None => ext end) w'.
Proof.
  intros Hw Hp. unfold tcmi_ctlfs_genericfile_new, alloc. run.
  assert (tree_inv ext (set_allocs (tail (allocs w)) w)) as Hw0 by (by apply (tree_inv_same ext w)).
  destruct (default true (head (allocs w))); cbn [negb]; [|by eexists None, _].
  destruct (init_makes ext _ (Some p) (Z.lor S_IFREG mode) (File (mk_file false None None None None [] 0 false)) name Hw0)
    as (r & w1 & E & Hm); [|done|].
  { intros p' [= <-]. by apply (held_there ext). }
  rewrite E. destruct r as [a|]; [|destruct Hm; by eexists None, _]. destruct Hm as (Hw1 & Ha & (d & Hd & Hf) & Hb).
  set (w2 := set_allocs _ w1).
  assert (tree_inv (plus a 1 ext) w2) as Hw2 by (by apply (tree_inv_same _ w1)).
  destruct (default true (head (allocs w1))); cbn [negb].
  - destruct (update_keeps _ w2 a d (d_set_fsdata (Some (File (mk_file false obj rd wr (Some h) (ztake n g) n false)))) Hw2)
      as (w3 & E3 & Hw3 & _); [done..|by unfold unheld; rewrite Hf|by rewrite Hf|]. rewrite E3. by exists (Some a), w3.
  - unfold upd_dent, dent. run. change (dents w2) with (dents w1). rewrite Hd. eexists None, _. split; [reflexivity|].
    apply freed_keeps; [done|apply (ti_ext _ _ Hw)|done|by rewrite Hf|by rewrite Hf].
Qed.

Lemma mklink_runs ext w p t name : tree_inv ext w -> 0 < ext p -> 0 < ext t ->
  exists r w', tcmi_ctlfs_symlink_new (Some p) (Some t) name w = Ret r w' /\
    tree_inv (match r with Some b => plus b 1 ext | None => ext end) w'.
Proof.
  intros Hw Hp Ht. unfold tcmi_ctlfs_symlink_new, alloc. run.
  assert (tree_inv ext (set_allocs (tail (allocs w)) w)) as Hw0 by (by apply (tree_inv_same ext w)).
  destruct (negb _); [by eexists None, _|].
  destruct (init_makes ext _ (Some p) (Z.lor S_IFLNK S_IRWXUGO) (Symlink None) name Hw0) as (r & w1 & E & Hm); [|done|].
  { intros p' [= <-]. by apply (held_there ext). }
  rewrite E. destruct r as [a|]; [|destruct Hm; by eexists None, _]. destruct Hm as (Hw1 & Ha & (d & Hd & Hf) & Hb).
  destruct (Hb t) as [Hta [dt Hdt]]. { by apply (held_there ext). }
  destruct (get_keeps _ w1 t dt Hw1 Hdt) as (w2 & E2 & Hw2 & Hd2 & _). unfold tcmi_ctlfs_entry_get. run. rewrite E2.
  assert (dents w2 !! a = Some d) as Hd2' by (rewrite Hd2, lookup_insert_ne by lia; done).
  unfold upd_dent, dent. run. rewrite Hd2'. eexists (Some a), _. split; [reflexivity|].
  destruct (ti_count _ _ Hw2 a d Hd2') as [Hc Hpos]. destruct (ti_ext _ _ Hw2 a) as [Hxa _].
  assert (net (d_set_fsdata (Some (Symlink (Some t))) d) = net d) as Hnet by (unfold net, unheld; by rewrite Hf).
  eapply tree_inv_ext; [|apply (inv_update _ w2 a d (d_set_fsdata (Some (Symlink (Some t))) d) [t] Hw2 Hd2'); try done].
  - intros b. rewrite Hnet. unfold plus. cbn. rewrite occ_one. rewrite Z.sub_diag. repeat case_decide; subst; try lia; congruence.
  - by rewrite Hf.
  - intros b ->%list_elem_of_singleton. split; [done|]. split; [|rewrite Hd2, lookup_insert_eq; by eexists].
    rewrite occ_one, decide_True by done. unfold plus. rewrite (decide_True (P := t = t)) by done. case_decide; lia.
  - rewrite Hnet. lia.
Qed.

Lemma op_runs ext w op : tree_inv ext w -> held ext op ->
  exists r w', run_op op w = Ret r w' /\ tree_inv (after ext op r) w'.
Proof.
  intros Hw Hh. destruct op as [p mode name|g p mode obj rd wr n h name|p t name|a|a]; cbn [held run_op after] in *.
  - by apply mkdir_runs.
  - by apply mkfile_runs.
  - destruct Hh. by apply mklink_runs.
  - destruct (held_there ext w a Hw Hh) as [d Hd]. destruct (get_keeps ext w a d Hw Hd) as (w' & E & Hw' & _).
    unfold tcmi_ctlfs_entry_get. run. rewrite E. by exists (Some a), w'.
  - destruct (put_keeps (dput_fuel w) ext w a Hw Hh) as (w' & E & Hw' & _); [unfold dput_fuel; lia|].
    unfold tcmi_ctlfs_entry_put. run. rewrite E. by exists None, w'.
Qed.

(** ** Sequences of operations *)

(** The references that the holders have after a sequence of operations on a new file system. *)
Inductive reached : (Z -> Z) -> ctlfs -> Prop :=
| reached_root w r w' : dents w = ∅ -> inodes w = 0 -> tcmi_ctlfs_rootdir_new w = Ret (Some r) w' ->
    reached (plus r 1 (fun _ => 0)) w'
| reached_op ext w op r w' : reached ext w -> held ext op -> run_op op w = Ret r w' ->
    reached (after ext op r) w'.

Lemma root_inv w r w' : dents w = ∅ -> inodes w = 0 -> tcmi_ctlfs_rootdir_new w = Ret (Some r) w' ->
  tree_inv (plus r 1 (fun _ => 0)) w'.
Proof.
  intros Hd Hi. unfold tcmi_ctlfs_rootdir_new, tcmi_ctlfs_rootentry_init, tcmi_ctlfs_get_inode, alloc. run.
  cbn [allocs set_allocs inodes set_inodes].
  destruct (negb _); [done|]. destruct (negb _); [done|]. destruct (negb _); [unfold iput; run; done|].
  unfold tcmi_ctlfs_entry_inc_links, upd_dent, dent. run. cbn [dents set_dents]. rewrite lookup_insert_eq.
  intros [= <- <-]. cbn [next_addr set_next_addr set_allocs set_inodes]. set (a := next_addr w).
  assert (forall d : dentry, d_parent d = a -> link_refs (d_fsdata d) = [] -> all_refs (<[a := d]> ∅) = []) as Hrefs.
  { intros d Hp Hl. unfold all_refs. rewrite insert_empty, map_to_list_singleton. cbn.
    unfold refs_of. by rewrite Hp, Hl, decide_True. }
  match goal with |- tree_inv _ ?x => set (w' := x) end.
  assert (exists d, dents w' = <[a := d]> ∅ /\ d_count d = 1 /\ d_parent d = a /\ d_fsdata d = Some Dir) as (d & Hd' & Hc & Hp & Hf).
  { eexists. split; [cbn; by rewrite Hd, insert_insert_eq|]. done. }
  assert (all_refs (dents w') = []) as Hall by (rewrite Hd'; apply Hrefs; [done|by rewrite Hf]).
  assert (forall b, occ b (all_refs (dents w')) = 0) as Hocc by (intros b; rewrite Hall; apply occ_zero, not_elem_of_nil).
  assert (forall b x, dents w' !! b = Some x -> b = a /\ x = d) as Honly.
  { intros b x. rewrite Hd'. intros [[<- <-]|[_ Hb]]%lookup_insert_Some; [done|]. by rewrite lookup_empty in Hb. }
  split.
  - intros b x [-> ->]%Honly. rewrite Hocc. unfold plus, net, unheld. rewrite decide_True, Hf by done. lia.
  - intros b. rewrite Hocc. unfold plus. case_decide as E; [|done]. subst b. split; [lia|]. by rewrite Hd', lookup_insert_eq.
  - intros b x [-> ->]%Honly. split; [cbn; lia|]. unfold refs_of. rewrite Hp, Hf, decide_True by done. by intros b ?%not_elem_of_nil.
  - intros b c x y [-> ->]%Honly _ [-> ->]%Honly _. done.
  - rewrite Hd', map_size_insert_None, map_size_empty by apply lookup_empty. cbn. lia.
Qed.

Lemma reached_inv ext w : reached ext w -> tree_inv ext w.
Proof.
  induction 1 as [w r w' Hd Hi E|ext w op r w' _ IH Hh E]; [by apply (root_inv w)|].
  destruct (op_runs ext w op IH Hh) as (r' & w2 & E' & Hw). rewrite E in E'. by injection E' as <- <-.
Qed.

(** Nothing refers to the entry that was made last. *)
Lemma nothing_left ext w : tree_inv ext w -> (forall a, ext a = 0) ->
  (forall a d, dents w !! a = Some d -> is_Some (d_fsdata d)) -> dents w = ∅.
Proof.
  intros Hw He Hf. destruct (decide (dents w = ∅)) as [|Hne]; [done|]. exfalso.
  assert (exists a d, dents w !! a = Some d /\ forall b x, dents w !! b = Some x -> b <= a) as (a & d & Hd & Hmax).
  { revert Hne. generalize (dents w). clear. intros m. induction m as [|i x m Hi IH] using map_ind; intros Hne; [done|].
    destruct (decide (m = ∅)) as [->|Hm].
    - exists i, x. split; [apply lookup_insert_eq|]. intros b y [[<- _]|[_ Hb]]%lookup_insert_Some; [done|by rewrite lookup_empty in Hb].
    - destruct (IH Hm) as (a & d & Hd & Hmax). destruct (Z.le_gt_cases i a).
      + exists a, d. split; [rewrite lookup_insert_ne; [done|congruence]|].
        intros b y [[<- _]|[_ Hb]]%lookup_insert_Some; [done|by eapply Hmax].
      + exists i, x. split; [apply lookup_insert_eq|]. intros b y [[<- _]|[_ Hb]]%lookup_insert_Some; [done|]. apply Hmax in Hb. lia. }
  destruct (ti_count _ _ Hw a d Hd) as [Hc Hpos]. destruct (Hf a d Hd) as [e Hfs].
  rewrite He, (occ_zero a) in Hc; [unfold net, unheld in Hc; rewrite Hfs in Hc; lia|].
  unfold all_refs. intros Hin. apply list_elem_of_bind in Hin as ([b x] & Hin & Hbx). apply elem_of_map_to_list in Hbx.
  cbn [fst snd] in Hin. destruct (ti_order _ _ Hw b x Hbx) as [_ Ho]. apply Ho in Hin. apply Hmax in Hbx. lia.
Qed.

(** C16: through any sequence of operations, whichever allocations fail, the count of every entry
    is the number of references to it: from outside, from its own entries and from symbolic
    links to it, and one that nobody holds when it is a file whose data could not be allocated, which is
    freed while its dentry stays.  An operation on entries that its caller holds does not touch
    freed memory and ends.  When the holders have given everything back, no entry and no inode is
    left, unless there is such a file. *)
Theorem ctlfs_counts_exact ext w : reached ext w ->
  (forall a d, dents w !! a = Some d ->
     d_count d = ext a + occ a (all_refs (dents w)) + (if decide (d_fsdata d = None) then 1 else 0) /\ 0 < d_count d) /\
  (forall op, held ext op -> exists r w', run_op op w = Ret r w') /\
  ((forall a, ext a = 0) -> (forall a d, dents w !! a = Some d -> is_Some (d_fsdata d)) -> dents w = ∅ /\ inodes w = 0).
Proof.
  intros Hr. pose proof (reached_inv ext w Hr) as Hw. split_and!.
  - intros a d Hd. destruct (ti_count _ _ Hw a d Hd) as [Hc Hpos]. split; [|done]. unfold net, unheld in Hc.
    by destruct (d_fsdata d); [rewrite decide_False by done|rewrite decide_True by done]; lia.
  - intros op Hh. destruct (op_runs ext w op Hw Hh) as (r & w' & E & _). eauto.
  - intros He Hf. pose proof (nothing_left ext w Hw He Hf) as Hn. split; [done|].
    by rewrite (ti_inodes _ _ Hw), Hn, map_size_empty.
Qed.

(** ** A file system *)

Definition ex_new : ctlfs := mk_ctlfs ∅ 0 1 0 0 [] [].
Definition run_all (m : M (option Z)) (w : ctlfs) : ctlfs := match m w with Ret _ w' => w' | _ => w end.
(** The root, the directory nodes in it, and a link to it in its own directory. *)
Definition ex_root : ctlfs := run_all tcmi_ctlfs_rootdir_new ex_new.
Definition nodes_name : list Z := [110; 111; 100; 101; 115].
Definition self_name : list Z := [115; 101; 108; 102].
Definition ex_nodes : ctlfs := run_all (run_op (Mkdir 1 488 nodes_name)) ex_root.
Definition ex_link : ctlfs := run_all (run_op (Mklink 2 2 self_name)) ex_nodes.
Definition ex_ext : Z -> Z := plus 3 1 (plus 2 1 (plus 1 1 (fun _ => 0))).

Lemma ex_reached : reached ex_ext ex_link.
Proof.
  apply (reached_op (plus 2 1 (plus 1 1 (fun _ => 0))) ex_nodes (Mklink 2 2 self_name) (Some 3)); [|by vm_compute|by vm_compute].
  apply (reached_op (plus 1 1 (fun _ => 0)) ex_root (Mkdir 1 488 nodes_name) (Some 2)); [|by vm_compute|by vm_compute].
  by apply (reached_root ex_new).
Qed.

(** A file whose data could not be allocated: nobody holds it, and it keeps the directory. *)
Definition ex_failed : ctlfs :=
  run_all (run_op (Mkfile [] 1 420 None None None 4 proc_dointvec nodes_name)) (set_allocs [true; true; true; false] ex_root).
Example failed_file_stays :
  run_op (Mkfile [] 1 420 None None None 4 proc_dointvec nodes_name) (set_allocs [true; true; true; false] ex_root) =
    Ret None ex_failed /\
  (d_fsdata <$> dents ex_failed !! 2) = Some None /\ (d_count <$> dents ex_failed !! 1) = Some 2.
Proof. split_and!; vm_compute; reflexivity. Qed.

Lemma ctlfs_counts_exact_witness :
  (forall a d, dents ex_link !! a = Some d ->
     d_count d = ex_ext a + occ a (all_refs (dents ex_link)) + (if decide (d_fsdata d = None) then 1 else 0) /\ 0 < d_count d) /\
  exists r w', run_op (Put 3) ex_link = Ret r w'.
Proof.
  destruct (ctlfs_counts_exact ex_ext ex_link ex_reached) as (Hc & Hop & _). split; [exact Hc|]. by apply Hop; vm_compute.
Defined.
