(* ===== verification/CtlFile.v ===== *)
(** The control file system as its users see it: where the symbolic links of a reachable file
    system lead, and what a file does once its object has detached itself. *)

From stdpp Require Import gmap.
From S2P Require Import Prelude Effect CtlFs CtlPath CtlTree.

(** ** Symbolic links *)

Lemma refs_there ext w a d b : tree_inv ext w -> dents w !! a = Some d -> b ∈ refs_of a d -> is_Some (dents w !! b).
Proof.
  intros Hw Hd Hin. destruct (dents w !! b) eqn:E; [by eexists|]. destruct (ti_ext _ _ Hw b) as [_ Hn]. destruct (Hn E) as [_ Hz].
  rewrite (occ_perm b _ _ (all_refs_delete a d (dents w) Hd)), occ_app in Hz.
  pose proof (occ_pos b _ Hin). pose proof (dent_occ_nonneg b (all_refs (delete a (dents w)))). lia.
Qed.
Lemma parent_ref a d : d_parent d <> a -> d_parent d ∈ refs_of a d.
Proof. intros Hp. unfold refs_of. rewrite decide_False by done. set_solver. Qed.

(** The dentries that were made before. *)
Definition below (a : Z) (m : gmap Z dentry) : gmap Z dentry := filter (fun x => x.1 < a) m.

(** Every entry has a path. *)
Lemma path_exists ext w a d : tree_inv ext w -> dents w !! a = Some d -> exists p, at_path w a p.
Proof.
  intros Hw. remember (size (below a (dents w))) as n eqn:En. revert a d En.
  induction (lt_wf n) as [n _ IH]. intros a d -> Hd. destruct (decide (d_parent d = a)) as [E|E].
  - exists []. by econstructor.
  - pose proof (parent_ref a d E) as Hin. destruct (ti_order _ _ Hw a d Hd) as [_ Ho]. pose proof (Ho _ Hin) as Hlt.
    destruct (refs_there _ _ _ _ _ Hw Hd Hin) as [dp Hdp].
    assert (size (below (d_parent d) (dents w)) < size (below a (dents w)))%nat as Hs.
    { assert (forall b c, b ∈ dom (below c (dents w)) <-> (exists x, dents w !! b = Some x /\ b < c)) as Hbelow.
      { intros b c. rewrite elem_of_dom. unfold below, is_Some. by setoid_rewrite map_lookup_filter_Some. }
      rewrite <- !size_dom. apply subset_size. split.
      - intros b. rewrite !Hbelow. intros (x & ? & ?). exists x. split; [done|lia].
      - intros Hsub. specialize (Hsub (d_parent d)). rewrite !Hbelow in Hsub. destruct Hsub as (x & _ & ?); [by exists dp|lia]. }
    destruct (IH _ Hs _ _ eq_refl Hdp) as [p Hp]. exists (p ++ [d_name d]). by econstructor.
Qed.

Lemma path_names w a p : at_path w a p ->
  Forall (fun n => exists b d, dents w !! b = Some d /\ d_parent d <> b /\ d_name d = n) p.
Proof.
  induction 1 as [a d Hd Hr|a d p Hd Hlt Hp IH]; [constructor|]. apply Forall_app. split; [done|].
  apply Forall_singleton. exists a, d. split_and!; [done|lia|done].
Qed.

(** C30: in every reachable file system a symbolic link that is not in the root directory leads
    to its target: the text that reading the link gives, taken apart at its slashes and
    followed from the directory of the link, ends at the target; when it does not fit into a
    page the result is -ENAMETOOLONG.  Reading changes no count. *)
Theorem symlink_leads_to_target ext w a l t dir x :
  reached ext w -> dents w !! a = Some l -> d_fsdata l = Some (Symlink (Some t)) ->
  dents w !! d_parent l = Some dir -> d_parent dir <> d_parent l -> d_parent l <> a ->
  dents w !! t = Some x -> d_parent x <> t ->
  (forall b d, dents w !! b = Some d -> d_parent d <> b -> good_name (d_name d)) ->
  exists p q err page, at_path w a p /\ at_path w t q /\
    tcmi_ctlfs_symlink_get_link a (replicate (Z.to_nat PAGE_SIZE) 0) PAGE_SIZE w = Ret (err, page) w /\
    if 3 * (zlen p - 1) + zlen (path_text q) <=? PAGE_SIZE
    then err = 0 /\ leads w (d_parent l) (components [] (c_text page)) t
    else err = - ENAMETOOLONG.
Proof.
  intros Hr Hl Hs Hdir Hd1 Hd2 Hx Ht Hg. pose proof (reached_inv _ _ Hr) as Hw.
  assert (counted w) as Hc by (intros b d Hb; by apply (ti_count _ _ Hw b)). pose proof (ti_root _ _ Hw) as Ho.
  destruct (path_exists _ _ _ _ Hw Hdir) as [p0 Hp0]. destruct (path_exists _ _ _ _ Hw Hx) as [q Hq].
  assert (d_parent l < a) as Hlt by (destruct (ti_order _ _ Hw a l Hl) as [_ H]; by apply H, parent_ref).
  pose proof (at_child w a l p0 Hl Hlt Hp0) as Hp. exists (p0 ++ [d_name l]), q.
  assert (1 < length (p0 ++ [d_name l]))%nat as Hlen.
  { rewrite length_app. cbn. destruct p0; [|cbn; lia]. inversion Hp0 as [? d' ? ?|? ? p' ? ? ? E]; subst; [congruence|by destruct p']. }
  assert (q <> []) as Hqn.
  { intros ->. inversion Hq as [? d' ? ?|? ? p' ? ? ? E]; subst; [congruence|by destruct p']. }
  assert (Forall good_name q) as Hqg.
  { eapply Forall_impl; [apply (path_names _ _ _ Hq)|]. intros n (b & d & Hb & Hbp & <-). by apply (Hg b d). }
  destruct (3 * _ + _ <=? PAGE_SIZE) eqn:E.
  - destruct (link_leads a l t _ q w Hc Ho Hp Hlen Hl Hs Hq Hqn Hqg ltac:(lia)) as (page & Eg & Hlead). by exists 0, page.
  - eexists _, _. split_and!; [done..|eapply link_too_long; try done; lia|done].
Qed.

Definition ex_dent (a : Z) : dentry := default (mk_dentry 0 [] 0 (mk_inode 0 0 0 0) None) (dents ex_link !! a).
Lemma ex_names b d : dents ex_link !! b = Some d -> d_parent d <> b -> good_name (d_name d).
Proof.
  intros Hb Hp. assert (b ∈ dom (dents ex_link)) as Hin by (apply elem_of_dom; by eexists).
  assert (dom (dents ex_link) = {[1; 2; 3]}) as Hdom by (by vm_compute). rewrite Hdom in Hin.
  assert (b = 1 \/ b = 2 \/ b = 3) as [->|[->| ->]] by set_solver; vm_compute in Hb; injection Hb as <-; [done| |];
    (split; [done|]); cbn [d_name]; set_solver.
Qed.

Lemma symlink_leads_to_target_witness :
  exists p q err page, at_path ex_link 3 p /\ at_path ex_link 2 q /\
    tcmi_ctlfs_symlink_get_link 3 (replicate (Z.to_nat PAGE_SIZE) 0) PAGE_SIZE ex_link = Ret (err, page) ex_link /\
    if 3 * (zlen p - 1) + zlen (path_text q) <=? PAGE_SIZE
    then err = 0 /\ leads ex_link 2 (components [] (c_text page)) 2
    else err = - ENAMETOOLONG.
Proof.
  apply (symlink_leads_to_target ex_ext ex_link 3 (ex_dent 3) 2 (ex_dent 2) (ex_dent 2) ex_reached); try by vm_compute.
  exact ex_names.
Defined.

(** ** Files *)

(** The file at [a] is [f]. *)
Definition has_file (w : ctlfs) (a : Z) (f : tcmi_ctlfs_file) : Prop :=
  exists d, dents w !! a = Some d /\ d_fsdata d = Some (File f).
Definition with_file (a : Z) (f : tcmi_ctlfs_file) (w : ctlfs) : ctlfs := set_dents (alter (d_set_fsdata (Some (File f))) a) w.

Lemma file_run w a f : has_file w a f -> file a w = Ret f w.
Proof. intros (d & Hd & Hf). unfold file, entry, dent. run. rewrite Hd. run. by rewrite Hf. Qed.
Lemma upd_file_run w a f g : has_file w a f -> upd_file a g w = Ret tt (with_file a (g f) w).
Proof.
  intros Hh. pose proof (file_run w a f Hh) as E. destruct Hh as (d & Hd & _). unfold upd_file. step E. by rewrite (upd_dent_run _ _ d).
Qed.
Lemma has_with w a f g : has_file w a f -> has_file (with_file a g w) a g.
Proof. intros (d & Hd & _). exists (d_set_fsdata (Some (File g)) d). cbn. by rewrite lookup_alter_eq, Hd. Qed.
Lemma with_with a f g w : with_file a g (with_file a f w) = with_file a g w.
Proof.
  unfold with_file, set_dents. cbn. f_equal. apply map_eq. intros b. destruct (decide (b = a)) as [->|].
  - rewrite !lookup_alter_eq. by destruct (dents w !! a).
  - by rewrite !lookup_alter_ne.
Qed.
Lemma with_same a f w : has_file w a f -> with_file a f w = w.
Proof.
  intros (d & Hd & Hf). unfold with_file, set_dents. destruct w as [ds]. cbn in *. f_equal. apply map_eq. intros b.
  destruct (decide (b = a)) as [->|]; [|by rewrite lookup_alter_ne]. rewrite lookup_alter_eq, Hd. cbn. f_equal.
  unfold d_set_fsdata. destruct d. cbn in *. by rewrite Hf.
Qed.

(** A file whose object has gone. *)
Definition silent (f : tcmi_ctlfs_file) : Prop :=
  unregistered f = true /\ object f = None /\ read_method f = None /\ write_method f = None /\ proc_handler f = None.
Definition detached (f : tcmi_ctlfs_file) : tcmi_ctlfs_file := mk_file (f_sem f) None None None None (data f) (maxlen f) true.

Lemma unregister_run w a f : has_file w a f -> __tcmi_ctlfs_file_unregister (Some a) w = Ret tt (with_file a (detached f) w).
Proof.
  intros Hf. unfold __tcmi_ctlfs_file_unregister, tcmi_ctlfs_file_unregister_prepare. unfold mbind, eff_bind.
  rewrite (upd_file_run w a f) by done. erewrite upd_file_run by (by eapply has_with). by rewrite with_with.
Qed.

Section methods.
Context (call : Z -> option Z -> list Z -> M (Z * list Z)).
Context (convert : proc_handler_t -> bool -> list Z -> Z -> list Z -> Z -> Z -> Z * list Z * Z * list Z * Z).

Lemma lock_run w a f : has_file w a f -> f_sem f = false -> default false (head (signals w)) = false ->
  tcmi_ctlfs_file_lock_interruptible a w = Ret 0 (with_file a (f_set_sem true f) (set_signals (tail (signals w)) w)).
Proof.
  intros Hf Hs Hsig. unfold tcmi_ctlfs_file_lock_interruptible. run. rewrite Hsig. unfold tcmi_ctlfs_file_lock.
  assert (has_file (set_signals (tail (signals w)) w) a f) as Hf' by exact Hf. unfold mbind, eff_bind.
  rewrite (file_run _ a f) by done. rewrite Hs. by rewrite (upd_file_run _ a f).
Qed.

(** A read or a write of a silent file calls no method and leaves the file system alone. *)
Lemma silent_write w a f buf count ppos : has_file w a f -> silent f -> f_sem f = false ->
  exists err, tcmi_ctlfs_file_write call convert a buf count ppos w = Ret (err, ppos) (set_signals (tail (signals w)) w) /\
    err = if default false (head (signals w)) then - ERESTARTSYS else 0.
Proof.
  intros Hf (Hu & _) Hs. unfold tcmi_ctlfs_file_write. destruct (default false (head (signals w))) eqn:Hsig.
  - unfold tcmi_ctlfs_file_lock_interruptible. run. rewrite Hsig. by eexists.
  - step (lock_run w a f Hf Hs Hsig). cbn [negb Z.eqb].
    assert (has_file (with_file a (f_set_sem true f) (set_signals (tail (signals w)) w)) a (f_set_sem true f)) as Hf' by (by eapply has_with).
    step (file_run _ _ _ Hf'). cbn [unregistered f_set_sem]. rewrite Hu. unfold tcmi_ctlfs_file_unlock.
    step (upd_file_run _ _ _ (f_set_sem false) Hf'). rewrite with_with. eexists. split; [|done].
    assert (f_set_sem false (f_set_sem true f) = f) as -> by (destruct f; cbn in *; by subst). by rewrite with_same.
Qed.
Lemma silent_read w a f buf count ppos : has_file w a f -> silent f -> f_sem f = false ->
  exists err, tcmi_ctlfs_file_read call convert a buf count ppos w = Ret (err, buf, ppos) (set_signals (tail (signals w)) w) /\
    err = if default false (head (signals w)) then - ERESTARTSYS else 0.
Proof.
  intros Hf (Hu & _) Hs. unfold tcmi_ctlfs_file_read. destruct (default false (head (signals w))) eqn:Hsig.
  - unfold tcmi_ctlfs_file_lock_interruptible. run. rewrite Hsig. by eexists.
  - step (lock_run w a f Hf Hs Hsig). cbn [negb Z.eqb].
    assert (has_file (with_file a (f_set_sem true f) (set_signals (tail (signals w)) w)) a (f_set_sem true f)) as Hf' by (by eapply has_with).
    step (file_run _ _ _ Hf'). cbn [unregistered f_set_sem]. rewrite Hu. unfold tcmi_ctlfs_file_unlock.
    step (upd_file_run _ _ _ (f_set_sem false) Hf'). rewrite with_with. eexists. split; [|done].
    assert (f_set_sem false (f_set_sem true f) = f) as -> by (destruct f; cbn in *; by subst). by rewrite with_same.
Qed.

(** The write of a file whose method does [act] and returns 0. *)
Lemma write_run w a f h m l res b ppos' buf count ppos out :
  has_file w a f -> f_sem f = false -> default false (head (signals w)) = false ->
  unregistered f = false -> proc_handler f = Some h -> write_method f = Some m ->
  convert h true (data f) (maxlen f) buf count ppos = (0, l, res, b, ppos') ->
  let w1 := with_file a (f_set_data l (f_set_sem true f)) (set_signals (tail (signals w)) w) in
  call m (object f) l w1 = out ->
  tcmi_ctlfs_file_write call convert a buf count ppos w =
    match out with
    | Ret (err, l') w2 => (upd_file a (f_set_data l');; tcmi_ctlfs_file_unlock a;;
                           mret (if err =? 0 then s64[res] else err, ppos')) w2
    | Stop s w2 => Stop s w2
    | Fault => Fault
    end.
Proof.
  intros Hf Hs Hsig Hu Hh Hm Hconv w1 Hcall. unfold tcmi_ctlfs_file_write. step (lock_run w a f Hf Hs Hsig). cbn [negb Z.eqb].
  set (w0 := with_file a (f_set_sem true f) _) in *. assert (has_file w0 a (f_set_sem true f)) as Hf0 by (by eapply has_with).
  step (file_run _ _ _ Hf0). cbn [unregistered f_set_sem proc_handler]. rewrite Hu, Hh.
  assert (handle convert a true h buf count ppos w0 = Ret (0, res, b, ppos') w1) as E.
  { unfold handle. step (file_run _ _ _ Hf0). cbn [data maxlen f_set_sem]. rewrite Hconv.
    step (upd_file_run _ _ _ (f_set_data l) Hf0). unfold w0. rewrite with_with. done. }
  unfold mbind at 1, eff_bind at 1. step E. cbn [negb Z.eqb mret eff_ret].
  assert (has_file w1 a (f_set_data l (f_set_sem true f))) as Hf1 by (by eapply has_with).
  step (file_run _ _ _ Hf1). cbn [write_method f_set_data f_set_sem]. rewrite Hm. unfold call_method.
  unfold mbind at 1, eff_bind at 1. step (file_run _ _ _ Hf1). cbn [object data f_set_data f_set_sem].
  unfold mbind at 1, eff_bind at 1. rewrite Hcall. destruct out as [[err l'] w2|s w2|]; [|done|done].
  unfold mbind, eff_bind. destruct (upd_file a (f_set_data l') w2); [|done|done]. done.
Qed.
End methods.

(** A method that detaches its object from the file that called it. *)
Definition detaching (a : Z) (unreg : tcmi_ctlfs_file_unreg_t) (m : Z) (o : option Z) (l : list Z) : M (Z * list Z) :=
  tcmi_ctlfs_file_unregister2 (Some a) unreg;; mret (0, l).

(** a write method may detach its object from its own file with TCMI_CTLFS_FILE_FROM_METHOD:
    the write returns the bytes that it took, and from then on reads and writes of the file call
    no method, return 0 (or -ERESTARTSYS) and change nothing.  With the regular call the method
    waits for the semaphore that the write holds, and never returns. *)
Theorem method_detaches_own_file convert w a f h m l res b ppos' buf count ppos :
  has_file w a f -> f_sem f = false -> default false (head (signals w)) = false ->
  unregistered f = false -> proc_handler f = Some h -> write_method f = Some m ->
  convert h true (data f) (maxlen f) buf count ppos = (0, l, res, b, ppos') ->
  (exists w', tcmi_ctlfs_file_write (detaching a TCMI_CTLFS_FILE_FROM_METHOD) convert a buf count ppos w = Ret (s64[res], ppos') w' /\
    forall call buf count ppos, exists err w'',
      tcmi_ctlfs_file_write call convert a buf count ppos w' = Ret (err, ppos) w'' /\
      tcmi_ctlfs_file_read call convert a buf count ppos w' = Ret (err, buf, ppos) w'' /\
      dents w'' = dents w' /\ (err = 0 \/ err = - ERESTARTSYS)) /\
  (exists w', tcmi_ctlfs_file_write (detaching a TCMI_CTLFS_FILE_REGULAR) convert a buf count ppos w = Stop Gone w').
Proof.
  intros Hf Hs Hsig Hu Hh Hm Hconv.
  set (w1 := with_file a (f_set_data l (f_set_sem true f)) (set_signals (tail (signals w)) w)).
  assert (has_file w1 a (f_set_data l (f_set_sem true f))) as Hf1 by (by eapply has_with). split.
  - set (f2 := detached (f_set_data l (f_set_sem true f))). set (w2 := with_file a f2 w1).
    assert (has_file w2 a f2) as Hf2 by (by eapply has_with).
    set (f3 := f_set_sem false (f_set_data l f2)). exists (with_file a f3 w2).
    assert (has_file (with_file a f3 w2) a f3) as Hf3 by (by eapply has_with). split.
    + rewrite (write_run (detaching a TCMI_CTLFS_FILE_FROM_METHOD) convert w a f h m l res b ppos' buf count ppos (Ret (0, l) w2)) by
        (try done; unfold detaching, tcmi_ctlfs_file_unregister2; step (unregister_run _ _ _ Hf1); done).
      step (upd_file_run _ _ _ (f_set_data l) Hf2). unfold tcmi_ctlfs_file_unlock.
      assert (has_file (with_file a (f_set_data l f2) w2) a (f_set_data l f2)) as Hfx by (by eapply has_with).
      step (upd_file_run _ _ _ (f_set_sem false) Hfx). by rewrite with_with.
    + intros call buf' count' pos.
      destruct (silent_write call convert _ a f3 buf' count' pos Hf3) as (e1 & E1 & He1); [done..|].
      destruct (silent_read call convert _ a f3 buf' count' pos Hf3) as (e2 & E2 & He2); [done..|].
      subst e1 e2. eexists _, _. split; [exact E1|]. split; [exact E2|]. split; [done|]. case_match; auto.
  - exists w1.
    rewrite (write_run (detaching a TCMI_CTLFS_FILE_REGULAR) convert w a f h m l res b ppos' buf count ppos (Stop Gone w1)); try done.
    fold w1. unfold detaching, tcmi_ctlfs_file_unregister2, tcmi_ctlfs_file_unregister, tcmi_ctlfs_file_lock.
    unfold mbind, eff_bind. by rewrite (file_run _ _ _ Hf1).
Qed.

(** A file with one number, and a handler that takes the bytes as they are. *)
Definition ex_file : tcmi_ctlfs_file := mk_file false (Some 7) None (Some 8) (Some proc_dointvec) [0] 1 false.
Definition ex_files : ctlfs :=
  mk_ctlfs (<[5 := mk_dentry 1 [] 5 (mk_inode 33152 0 0 1) (Some (File ex_file))]> ∅) 1 6 0 0 [] [].
Definition ex_convert (h : proc_handler_t) (wr : bool) (l : list Z) (n : Z) (buf : list Z) (count ppos : Z) :
  Z * list Z * Z * list Z * Z := (0, if wr then buf else l, count, buf, ppos + count).
Lemma method_detaches_own_file_witness :
  (exists w', tcmi_ctlfs_file_write (detaching 5 TCMI_CTLFS_FILE_FROM_METHOD) ex_convert 5 [1] 1 0 ex_files = Ret (1, 1) w' /\
    forall call buf count ppos, exists err w'',
      tcmi_ctlfs_file_write call ex_convert 5 buf count ppos w' = Ret (err, ppos) w'' /\
      tcmi_ctlfs_file_read call ex_convert 5 buf count ppos w' = Ret (err, buf, ppos) w'' /\
      dents w'' = dents w' /\ (err = 0 \/ err = - ERESTARTSYS)) /\
  (exists w', tcmi_ctlfs_file_write (detaching 5 TCMI_CTLFS_FILE_REGULAR) ex_convert 5 [1] 1 0 ex_files = Stop Gone w').
Proof.
  apply (method_detaches_own_file ex_convert ex_files 5 ex_file proc_dointvec 8 [1] 1 [1] 1); try done. by eexists.
Defined.
