(* ===== verification/Man.v ===== *)
(** The managers of a node (src/src/tcmi/manager/tcmi_man.h, tcmi_man.c) and the sockets in the
    control file system (src/src/tcmi/lib/tcmi_sock.h, tcmi_sock.c).

    A node has two managers, one for its own processes (CCN) and one for those of other nodes
    (PEN); both are static objects.  [kern] is the world of the migration managers and tasks.
    A migration manager that leaves its slot when it is freed ([mm_hashed]) is taken out of the
    slot vector as soon as the call that freed it returns ([settle]). *)

From stdpp Require Import gmap.
From S2P Require Import Prelude Effect SlotVec Transaction KkcSock MsgId Messages Queue Msg NpmParams World Task TaskOps Migcom Migman.

Definition MAX_NODES : Z := 40.

(** ** Data *)

(** The class of a manager tells its table of operations. *)
Inductive man_class := Ccn | Pen.

Record tcmi_man := mk_man {
  ready : Z;
  mig_mans : option tcmi_slotvec;
  d_man : option Z;
  d_nodes : option Z;
  d_mig : option Z;
  mn_migproc : option Z;
  mn_stop : option Z;
  f_emig_ppm_p : option Z;
  f_mig_home_ppm_p : option Z;
  man_id : Z
}.

Record tcmi_sock := mk_tsock {
  ts_ref : Z;
  d_id : option Z;
  f_sockname : option Z;
  f_peername : option Z;
  f_archname : option Z;
  ts_sock : option Z
}.

(** What [struct tcmi_ccnman] adds.  [sleepers]: the list of the manager, a sleeper and its
    socket; [waits]: the sleepers on the wait queues of the sockets. *)
Record tcmi_ccnman := mk_ccnman {
  listenings : option tcmi_slotvec;
  f_listen : option Z;
  d_listening_on : option Z;
  f_stop_listen_all : option Z;
  f_stop_listen_one : option Z;
  d_mounter : option Z;
  f_mount : option Z;
  f_mount_device : option Z;
  f_mount_options : option Z;
  cc_mount : fs_mount_params;
  cc_thread : option Z;
  sleepers : list (Z * Z);
  waits : list (Z * Z)
}.

Record node (S : Type) := mk_node {
  kern : kw S;
  c_man : tcmi_man;
  p_man : tcmi_man;
  ccn : tcmi_ccnman;
  f_connect : option Z;
  tsocks : gmap Z tcmi_sock
}.
Arguments mk_node {S}.
Arguments kern {S}. Arguments c_man {S}. Arguments p_man {S}. Arguments ccn {S}. Arguments f_connect {S}. Arguments tsocks {S}.

Definition mn_set_vec v (m : tcmi_man) := mk_man (ready m) v (d_man m) (d_nodes m) (d_mig m) (mn_migproc m) (mn_stop m)
  (f_emig_ppm_p m) (f_mig_home_ppm_p m) (man_id m).
Definition mn_set_ready v (m : tcmi_man) := mk_man v (mig_mans m) (d_man m) (d_nodes m) (d_mig m) (mn_migproc m) (mn_stop m)
  (f_emig_ppm_p m) (f_mig_home_ppm_p m) (man_id m).
Definition mn_set_dirs a b c d (m : tcmi_man) := mk_man (ready m) (mig_mans m) a b c d (mn_stop m)
  (f_emig_ppm_p m) (f_mig_home_ppm_p m) (man_id m).
Definition mn_set_files a b c (m : tcmi_man) := mk_man (ready m) (mig_mans m) (d_man m) (d_nodes m) (d_mig m) (mn_migproc m)
  a b c (man_id m).
Definition mn_set_id v (m : tcmi_man) := mk_man (ready m) (mig_mans m) (d_man m) (d_nodes m) (d_mig m) (mn_migproc m) (mn_stop m)
  (f_emig_ppm_p m) (f_mig_home_ppm_p m) v.

Section setters.
Context {S : Type}.
Implicit Type w : node S.
Definition set_kern (x : kw S) w : node S := mk_node x (c_man w) (p_man w) (ccn w) (f_connect w) (tsocks w).
Definition set_man (c : man_class) (f : tcmi_man -> tcmi_man) w : node S :=
  match c with
  | Ccn => mk_node (kern w) (f (c_man w)) (p_man w) (ccn w) (f_connect w) (tsocks w)
  | Pen => mk_node (kern w) (c_man w) (f (p_man w)) (ccn w) (f_connect w) (tsocks w)
  end.
Definition man_of (c : man_class) w : tcmi_man := match c with Ccn => c_man w | Pen => p_man w end.
Definition set_ccn (f : tcmi_ccnman -> tcmi_ccnman) w : node S := mk_node (kern w) (c_man w) (p_man w) (f (ccn w)) (f_connect w) (tsocks w).
Definition set_connect (x : option Z) w : node S := mk_node (kern w) (c_man w) (p_man w) (ccn w) x (tsocks w).
Definition set_tsocks (f : gmap Z tcmi_sock -> gmap Z tcmi_sock) w : node S := mk_node (kern w) (c_man w) (p_man w) (ccn w) (f_connect w) (f (tsocks w)).
End setters.

(** ** Calls into the world of the migration managers *)

Definition hashed (ms : gmap Z tcmi_migman) (n : Z) : bool :=
  match ms !! n with Some m => mm_hashed m | None => false end.
Definition leave_slots (ms : gmap Z tcmi_migman) (v : tcmi_slotvec) : tcmi_slotvec :=
  foldl (fun v p => if hashed ms p.2 then v else __tcmi_slot_remove p.1 p.2 v) v
    (used_slots v ≫= fun i => (fun n => (i, n)) <$> items v i).

Section node.
Context {S : Type} `{Sock S}.
Abbreviation K := (eff (kw S)).
Abbreviation N := (eff (node S)).

Definition settle (w : node S) : node S :=
  let f m := mn_set_vec (leave_slots (mans (kern w)) <$> mig_mans m) m in
  set_man Ccn f (set_man Pen f w).
Definition lift {A} (m : K A) : N A := fun w =>
  match m (kern w) with
  | Ret a k => Ret a (settle (set_kern k w))
  | Stop s k => Stop s (settle (set_kern k w))
  | Fault => Fault
  end.

Definition the_man (c : man_class) : N tcmi_man := gets (man_of c).
Definition upd_man (c : man_class) (f : tcmi_man -> tcmi_man) : N unit := modify (set_man c f).

(** The lock of the migration managers. *)
Definition mm_lock (c : man_class) : N tcmi_slotvec :=
  m ← the_man c; v ← valid (mig_mans m); v ← valid (tcmi_slot_lock v); upd_man c (mn_set_vec (Some v));; mret v.
Definition mm_unlock (c : man_class) : N unit := upd_man c (fun m => mn_set_vec (tcmi_slot_unlock <$> mig_mans m) m).

(** [tcmi_slot_insert] of a migration manager. *)
Definition mm_hash (c : man_class) (slot : nat) (p : Z) : N unit :=
  lift (upd_migman p (fun m => mm_with m (mm_tasks m) (mm_ref m) (mm_queue m) (mm_trans m) (mm_state m) true));;
  m ← the_man c; v ← valid (mig_mans m); v ← valid (tcmi_slot_insert slot p v); upd_man c (mn_set_vec (Some v)).

(** ** tcmi_man.h *)

Definition tcmi_man_reserve_migmanslot (c : man_class) : N (option nat) :=
  m ← the_man c; v ← valid (mig_mans m); '(s, v) ← valid (tcmi_slotvec_reserve_empty v);
  upd_man c (mn_set_vec (Some v));; mret s.
Definition tcmi_man_release_migmanslot (c : man_class) (slot : nat) : N unit :=
  m ← the_man c; v ← valid (mig_mans m); upd_man c (mn_set_vec (Some (tcmi_slot_move_unused slot v))).
Definition tcmi_man_root (c : man_class) : N (option Z) := m ← the_man c; mret (d_man m).
Definition tcmi_man_nodes_dir (c : man_class) : N (option Z) := m ← the_man c; mret (d_nodes m).
Definition tcmi_man_migproc_dir (c : man_class) : N (option Z) := m ← the_man c; mret (mn_migproc m).
Definition tcmi_man_id (c : man_class) : N Z := m ← the_man c; mret (man_id m).

(** ** tcmi_sock.c *)

Definition tcmi_sock_new (k_sock : option Z) : N (option Z) :=
  a ← lift ask;
  if negb (a_ok a) then mret None else
  p ← lift fresh;
  lift (obj_get k_sock);;
  let fail := lift (obj_put k_sock);; mret None in
  d ← lift obj_new;
  match d with
  | None => fail
  | Some _ =>
      fs ← lift obj_new;
      match fs with
      | None => lift (obj_put d);; fail
      | Some _ =>
          fp ← lift obj_new;
          match fp with
          | None => lift (drop_file fs);; lift (obj_put d);; fail
          | Some _ =>
              fa ← lift obj_new;
              match fa with
              | None => lift (drop_file fp);; lift (drop_file fs);; lift (obj_put d);; fail
              | Some _ => modify (set_tsocks (insert p (mk_tsock 1 d fs fp fa k_sock)));; mret (Some p)
              end
          end
      end
  end.

Definition tsock (p : Z) : N tcmi_sock := ts ← gets tsocks; valid (ts !! p).
Definition ts_set_ref n (t : tcmi_sock) := mk_tsock n (d_id t) (f_sockname t) (f_peername t) (f_archname t) (ts_sock t).

Definition tcmi_sock_kkc_sock_get (self : option Z) : N (option Z) :=
  match self with None => mret None | Some p => t ← tsock p; mret (ts_sock t) end.
Definition tcmi_sock_get (self : option Z) : N (option Z) :=
  match self with
  | None => mret None
  | Some p => t ← tsock p; modify (set_tsocks (insert p (ts_set_ref (ts_ref t + 1) t)));; mret self
  end.
Definition tcmi_sock_put (self : option Z) : N unit :=
  match self with
  | None => mret tt
  | Some p =>
      t ← tsock p;
      if negb (ts_ref t - 1 =? 0) then modify (set_tsocks (insert p (ts_set_ref (ts_ref t - 1) t))) else
      lift (drop_file (f_archname t));; lift (drop_file (f_peername t));; lift (drop_file (f_sockname t));;
      lift (obj_put (d_id t));; lift (obj_put (ts_sock t));;
      modify (set_tsocks (delete p))
  end.

(** ** Entries and files of the subclasses (tcmi_ccnman.c, tcmi_penman.c) *)

Definition cn_set_dirs a b (m : tcmi_ccnman) := mk_ccnman (listenings m) (f_listen m) a (f_stop_listen_all m) (f_stop_listen_one m)
  b (f_mount m) (f_mount_device m) (f_mount_options m) (cc_mount m) (cc_thread m) (sleepers m) (waits m).
Definition cn_set_files all one ls mt dv op (m : tcmi_ccnman) := mk_ccnman (listenings m) ls (d_listening_on m) all one
  (d_mounter m) mt dv op (cc_mount m) (cc_thread m) (sleepers m) (waits m).
Definition cn_set_vec v (m : tcmi_ccnman) := mk_ccnman v (f_listen m) (d_listening_on m) (f_stop_listen_all m) (f_stop_listen_one m)
  (d_mounter m) (f_mount m) (f_mount_device m) (f_mount_options m) (cc_mount m) (cc_thread m) (sleepers m) (waits m).
Definition cn_set_mount x (m : tcmi_ccnman) := mk_ccnman (listenings m) (f_listen m) (d_listening_on m) (f_stop_listen_all m)
  (f_stop_listen_one m) (d_mounter m) (f_mount m) (f_mount_device m) (f_mount_options m) x (cc_thread m) (sleepers m) (waits m).
Definition cn_set_thread x (m : tcmi_ccnman) := mk_ccnman (listenings m) (f_listen m) (d_listening_on m) (f_stop_listen_all m)
  (f_stop_listen_one m) (d_mounter m) (f_mount m) (f_mount_device m) (f_mount_options m) (cc_mount m) x (sleepers m) (waits m).
Definition cn_set_sleepers x y (m : tcmi_ccnman) := mk_ccnman (listenings m) (f_listen m) (d_listening_on m) (f_stop_listen_all m)
  (f_stop_listen_one m) (d_mounter m) (f_mount m) (f_mount_device m) (f_mount_options m) (cc_mount m) (cc_thread m) x y.

Definition the_ccn : N tcmi_ccnman := gets ccn.

Definition tcmi_ccnman_init_ctlfs_dirs : N Z :=
  a ← lift obj_new; modify (set_ccn (fun m => cn_set_dirs a (d_mounter m) m));;
  match a with
  | None => mret (- EINVAL)
  | Some _ =>
      b ← lift obj_new; modify (set_ccn (cn_set_dirs a b));;
      match b with None => lift (obj_put a);; mret (- EINVAL) | Some _ => mret 0 end
  end.
Definition tcmi_ccnman_stop_ctlfs_dirs : N unit :=
  m ← the_ccn; lift (obj_put (d_listening_on m));; lift (obj_put (d_mounter m)).

(** Files that were not made are NULL. *)
Definition tcmi_ccnman_stop_ctlfs_files : N unit :=
  m ← the_ccn;
  lift (drop_file (f_listen m));; lift (drop_file (f_stop_listen_one m));; lift (drop_file (f_stop_listen_all m));;
  lift (drop_file (f_mount m));; lift (drop_file (f_mount_device m));; lift (drop_file (f_mount_options m)).

(** Makes a file, stores it with [set], goes on or releases all files. *)
Definition ccn_file (set : option Z -> tcmi_ccnman -> tcmi_ccnman) (k : N Z) : N Z :=
  f ← lift obj_new; modify (set_ccn (set f));;
  match f with None => tcmi_ccnman_stop_ctlfs_files;; mret (- EINVAL) | Some _ => k end.
Definition tcmi_ccnman_init_ctlfs_files : N Z :=
  f ← lift obj_new;
  modify (set_ccn (fun m => cn_set_files f (f_stop_listen_one m) (f_listen m) (f_mount m) (f_mount_device m) (f_mount_options m) m));;
  match f with
  | None => mret (- EINVAL)
  | Some _ =>
      ccn_file (fun f m => cn_set_files (f_stop_listen_all m) f (f_listen m) (f_mount m) (f_mount_device m) (f_mount_options m) m)
      (ccn_file (fun f m => cn_set_files (f_stop_listen_all m) (f_stop_listen_one m) f (f_mount m) (f_mount_device m) (f_mount_options m) m)
      (ccn_file (fun f m => cn_set_files (f_stop_listen_all m) (f_stop_listen_one m) (f_listen m) f (f_mount_device m) (f_mount_options m) m)
      (ccn_file (fun f m => cn_set_files (f_stop_listen_all m) (f_stop_listen_one m) (f_listen m) (f_mount m) f (f_mount_options m) m)
      (ccn_file (fun f m => cn_set_files (f_stop_listen_all m) (f_stop_listen_one m) (f_listen m) (f_mount m) (f_mount_device m) f m)
      (mret 0)))))
  end.

Definition tcmi_penman_init_ctlfs_files : N Z :=
  f ← lift obj_new; modify (set_connect f);; mret (match f with None => - EINVAL | Some _ => 0 end).
Definition tcmi_penman_stop_ctlfs_files : N unit := f ← gets f_connect; lift (drop_file f).

(** *** Listenings *)

Definition listen_vec : N tcmi_slotvec := m ← the_ccn; valid (listenings m).
Definition set_listen_vec (v : tcmi_slotvec) : N unit := modify (set_ccn (cn_set_vec (Some v))).

(** kkc_sock_sleeper.h: a sleeper waits on its socket for the thread of the manager. *)
Definition kkc_sock_sleeper_add (sock : Z) : N (option Z) :=
  a ← lift ask;
  if negb (a_ok a) then mret None else
  p ← lift fresh; modify (set_ccn (fun m => cn_set_sleepers (sleepers m) ((p, sock) :: waits m) m));; mret (Some p).
Definition kkc_sock_sleeper_remove (self : Z) : N unit :=
  modify (set_ccn (fun m => cn_set_sleepers (filter (fun x => x.1 <> self) (sleepers m)) (filter (fun x => x.1 <> self) (waits m)) m)).
Definition tcmi_ccnman_add_sleeper (sleeper sock : Z) : N unit :=
  modify (set_ccn (fun m => cn_set_sleepers ((sleeper, sock) :: sleepers m) (waits m) m)).
Definition kkc_sock_sleeper_remove_match (self : Z * Z) (sock : option Z) : N Z :=
  if bool_decide (Some self.2 = sock) then kkc_sock_sleeper_remove self.1;; mret 1 else mret 0.
Fixpoint remove_matching (l : list (Z * Z)) (sock : option Z) : N unit :=
  match l with [] => mret tt | s :: l => kkc_sock_sleeper_remove_match s sock;; remove_matching l sock end.
Definition tcmi_ccnman_remove_sleepers (sock : Z) : N unit :=
  k_sock ← tcmi_sock_kkc_sock_get (Some sock); m ← the_ccn; remove_matching (sleepers m) k_sock.

(** [fuel]: one round for each listening that is in a slot. *)
Fixpoint stop_listen_loop (fuel : nat) : N unit :=
  v ← listen_vec;
  if tcmi_slotvec_empty v then mret tt else
  match fuel with
  | O => halt Running
  | Datatypes.S fuel =>
      v ← valid (tcmi_slot_lock v);
      let '(listening, v) := tcmi_slotvec_remove_one_entry v in
      set_listen_vec (tcmi_slot_unlock v);;
      match listening with
      | Some l => tcmi_ccnman_remove_sleepers l;; tcmi_sock_put (Some l)
      | None => mret tt
      end;;
      stop_listen_loop fuel
  end.
Definition tcmi_ccnman_stop_listen_all (stop : Z) : N Z :=
  if stop =? 0 then mret 0 else v ← listen_vec; stop_listen_loop (length (nodes v));; mret 0.
Definition tcmi_ccnman_stop : N unit := tcmi_ccnman_stop_listen_all 1;; mret tt.

(** ** tcmi_man.c *)

(** The tables of operations. *)
Definition ops_init_dirs (c : man_class) : N Z := match c with Ccn => tcmi_ccnman_init_ctlfs_dirs | Pen => mret 0 end.
Definition ops_stop_dirs (c : man_class) : N unit := match c with Ccn => tcmi_ccnman_stop_ctlfs_dirs | Pen => mret tt end.
Definition ops_init_files (c : man_class) : N Z :=
  match c with Ccn => tcmi_ccnman_init_ctlfs_files | Pen => tcmi_penman_init_ctlfs_files end.
Definition ops_stop_files (c : man_class) : N unit :=
  match c with Ccn => tcmi_ccnman_stop_ctlfs_files | Pen => tcmi_penman_stop_ctlfs_files end.
Definition ops_stop_man (c : man_class) : N unit := match c with Ccn => tcmi_ccnman_stop | Pen => mret tt end.

(** [root]: the root of the control file system is there. *)
Definition tcmi_man_init_ctlfs_dirs (c : man_class) (root : option Z) : N Z :=
  match root with
  | None => mret (- EINVAL)
  | Some _ =>
      a ← lift obj_new; upd_man c (fun m => mn_set_dirs a (d_nodes m) (d_mig m) (mn_migproc m) m);;
      match a with
      | None => mret (- EINVAL)
      | Some _ =>
          b ← lift obj_new; upd_man c (fun m => mn_set_dirs a b (d_mig m) (mn_migproc m) m);;
          match b with
          | None => lift (obj_put a);; mret (- EINVAL)
          | Some _ =>
              d ← lift obj_new; upd_man c (fun m => mn_set_dirs a b d (mn_migproc m) m);;
              match d with
              | None => lift (obj_put b);; lift (obj_put a);; mret (- EINVAL)
              | Some _ =>
                  e ← lift obj_new; upd_man c (mn_set_dirs a b d e);;
                  match e with
                  | None => lift (obj_put d);; lift (obj_put b);; lift (obj_put a);; mret (- EINVAL)
                  | Some _ =>
                      err ← ops_init_dirs c;
                      if negb (err =? 0) then
                        lift (obj_put e);; lift (obj_put d);; lift (obj_put b);; lift (obj_put a);; mret (- EINVAL)
                      else mret 0
                  end
              end
          end
      end
  end.

Definition tcmi_man_init_ctlfs_files (c : man_class) : N Z :=
  a ← lift obj_new; upd_man c (fun m => mn_set_files a (f_emig_ppm_p m) (f_mig_home_ppm_p m) m);;
  match a with
  | None => mret (- EINVAL)
  | Some _ =>
      b ← lift obj_new; upd_man c (fun m => mn_set_files a b (f_mig_home_ppm_p m) m);;
      match b with
      | None => lift (drop_file a);; mret (- EINVAL)
      | Some _ =>
          d ← lift obj_new; upd_man c (mn_set_files a b d);;
          match d with
          | None => lift (drop_file b);; lift (drop_file a);; mret (- EINVAL)
          | Some _ =>
              err ← ops_init_files c;
              if negb (err =? 0) then lift (drop_file d);; lift (drop_file b);; lift (drop_file a);; mret (- EINVAL)
              else mret 0
          end
      end
  end.

Definition tcmi_man_stop_ctlfs_dirs (c : man_class) : N unit :=
  ops_stop_dirs c;; m ← the_man c;
  lift (obj_put (mn_migproc m));; lift (obj_put (d_mig m));; lift (obj_put (d_nodes m));; lift (obj_put (d_man m)).
Definition tcmi_man_stop_ctlfs_files (c : man_class) : N unit :=
  ops_stop_files c;; m ← the_man c;
  lift (drop_file (mn_stop m));; lift (drop_file (f_emig_ppm_p m));; lift (drop_file (f_mig_home_ppm_p m)).

Definition tcmi_man_init_migration (c : man_class) : N Z := mret 0.

(** The first migration manager of the slots that is not shutting down. *)
Fixpoint first_active (ms : gmap Z tcmi_migman) (ns : list Z) : option (option Z) :=
  match ns with
  | [] => Some None
  | n :: ns =>
      m ← ms !! n;
      if bool_decide (mm_state m = TCMI_MIGMAN_INIT \/ mm_state m = TCMI_MIGMAN_CONNECTED) then Some (Some n)
      else first_active ms ns
  end.
Definition tcmi_man_get_non_shutdowning_migman (c : man_class) : N (option Z) :=
  v ← mm_lock c; k ← gets kern;
  r ← valid (first_active (mans k) (used_slots v ≫= items v));
  mm_unlock c;; mret r.

Fixpoint tcmi_man_stop_migration (fuel : nat) (c : man_class) : N unit :=
  m ← tcmi_man_get_non_shutdowning_migman c;
  match m with
  | None => mret tt
  | Some p =>
      match fuel with
      | O => halt Running
      | Datatypes.S fuel => lift (tcmi_migman_stop p);; tcmi_man_stop_migration fuel c
      end
  end.

Definition tcmi_man_init (c : man_class) (fuel : nat) (root : option Z) : N Z :=
  upd_man c (mn_set_ready 0);;
  a ← lift ask; b ← lift ask;
  let v := tcmi_slotvec_new (a_ok a) (a_ok b) MAX_NODES in
  upd_man c (mn_set_vec v);;
  match v with
  | None => mret (- EINVAL)
  | Some _ =>
      let exit1 := upd_man c (fun m => mn_set_vec (mig_mans m ≫= tcmi_slotvec_put) m);; mret (- EINVAL) in
      err ← tcmi_man_init_ctlfs_dirs c root;
      if err <? 0 then exit1 else
      err ← tcmi_man_init_migration c;
      if err <? 0 then tcmi_man_stop_ctlfs_dirs c;; exit1 else
      err ← tcmi_man_init_ctlfs_files c;
      if err <? 0 then tcmi_man_stop_migration fuel c;; tcmi_man_stop_ctlfs_dirs c;; exit1 else
      upd_man c (mn_set_ready 1);;
      r ← lift ask; upd_man c (mn_set_id u32[a_num r]);; mret 0
  end.

(** [acts]: what the other threads do in each sleep of 100 ms. *)
Fixpoint wait_empty (acts : list (K unit)) (c : man_class) : N unit :=
  v ← mm_lock c; let is_empty := tcmi_slotvec_empty v in mm_unlock c;;
  if is_empty then mret tt else
  match acts with
  | [] => halt Running
  | act :: acts => lift act;; wait_empty acts c
  end.
Definition tcmi_man_wait_for_migmans_termination (acts : list (K unit)) (c : man_class) : N unit := wait_empty acts c.

Definition tcmi_man_shutdown (c : man_class) (fuel : nat) (acts : list (K unit)) : N unit :=
  m ← the_man c;
  if negb (ready m =? 1) then mret tt else
  upd_man c (mn_set_ready 0);;
  tcmi_man_stop_ctlfs_files c;; tcmi_man_stop_ctlfs_dirs c;;
  tcmi_man_stop_migration fuel c;;
  tcmi_man_wait_for_migmans_termination acts c;;
  upd_man c (fun m => mn_set_vec (mig_mans m ≫= tcmi_slotvec_put) m).

(** The manager in the slot [i], held; the lookup is the same in four functions. *)
Definition migman_at (c : man_class) (i : Z) : N (option Z) :=
  v ← mm_lock c;
  match tcmi_slotvec_at v u32[i] with
  | None => mm_unlock c;; mret None
  | Some slot =>
      r ← lift (tcmi_migman_get (tcmi_slot_find_first None slot v));
      mm_unlock c;; mret r
  end.
Abbreviation mput := (tcmi_migman_put tcmi_migman_free).

Definition tcmi_man_do_send_generic_user_message (c : man_class) (user_data : list Z) (mgr : Z) : N Z :=
  id ← tcmi_man_id c;
  m ← lift (mm_new_msg mgr (fun e => tcmi_generic_user_msg_new_tx e id user_data (zlen user_data)));
  match m with
  | None => mret (- ENOMEM)
  | Some p =>
      err ← lift (mm_send mgr p);
      lift (mm_msg_put mgr (Some p));; mret (if err =? 0 then 0 else - EINVAL)
  end.
Definition tcmi_man_send_generic_user_message (c : man_class) (target_slot_index : Z) (user_data : list Z) : N Z :=
  r ← migman_at c target_slot_index;
  match r with
  | None => mret (- ENOENT)
  | Some mgr =>
      err ← tcmi_man_do_send_generic_user_message c user_data mgr;
      lift (mput (Some mgr));; mret err
  end.

Definition tcmi_man_stop (c : man_class) (fuel : nat) (stop : Z) : N Z :=
  if stop =? 0 then mret 0 else ops_stop_man c;; tcmi_man_stop_migration fuel c;; mret 0.

(** A PEN does not emigrate processes. *)
Definition tcmi_man_emig_ppm_p (c : man_class) (pid migman_id : Z) : N Z :=
  r ← migman_at c migman_id;
  match r with
  | None => mret (- EINVAL)
  | Some mgr =>
      err ← match c with Ccn => lift (tcmi_migcom_emigrate_ccn_ppm_p tcmi_migman_free pid mgr) | Pen => mret 0 end;
      lift (mput (Some mgr));; mret err
  end.
Definition tcmi_man_mig_home_ppm_p (c : man_class) (pid : Z) : N Z := lift (tcmi_migcom_migrate_home_ppm_p tcmi_migman_free pid).

(** A failed [BUG_ON] is a fault. *)
Definition bug_on (b : bool) : N unit := if b then fault else mret tt.
Definition tcmi_man_fork (c : man_class) (parent child : Z) : N Z :=
  p ← lift (process parent); tp ← valid (p_task p); t ← lift (task tp);
  i ← lift (tcmi_task_migman_slot_index tp);
  bug_on (negb (bool_decide (task_type p = shadow \/ task_type p = guest)));;
  mp ← valid (t_migman t); mm ← lift (migman mp); id ← tcmi_man_id c;
  bug_on (negb (World.ccn_id mm =? id) && negb (World.pen_id mm =? id));;
  ch ← lift (process child);
  if negb (bool_decide (p_task ch = p_task p)) then mret (- EINVAL) else
  lift (upd_process child (fun ch => p_set_tcmi false None (task_type ch) ch));;
  r ← migman_at c i;
  match r with
  | None => mret (- EINVAL)
  | Some mgr =>
      err ← lift (match c with
                  | Ccn => tcmi_migcom_shadow_fork tcmi_migman_free child mgr
                  | Pen => tcmi_migcom_guest_fork tcmi_migman_free child mgr
                  end);
      lift (mput (Some mgr));; mret err
  end.
End node.
