(* ===== verification/Nodes.v ===== *)
(** The CCN and PEN managers (src/src/tcmi/manager/tcmi_ccnman.c, tcmi_penman.c): start and end,
    listening, accepting and connecting; and the hooks of the kernel that lead into them
    (src/src/tcmi/migration/tcmi_mighooks.c and the fork hooks of
    src/src/tcmi/syscall/tcmi_syscallhooks_other.c). *)

From stdpp Require Import gmap.
From S2P Require Import Prelude Effect Ckpt SlotVec Transaction KkcSock KkcAddr MsgId Messages Queue Msg NpmParams World Task TaskOps Migcom Migman Man.

Definition MAX_LISTENINGS : Z := 2.

Section nodes.
Context {S : Type} `{Sock S} (HZ ARCH_CURRENT : Z).
Abbreviation K := (eff (kw S)).
Abbreviation N := (eff (node S)).
(** The remote system calls of a shadow, the addresses of the peers of sockets, the memory of the
    process that calls execve. *)
Context (shadow_rpc : Z -> Z -> K (option Z)) (peer_name : Z -> Z + sockaddr_in) (u : user_memory).

(** ** CCN *)

(** A thread that cannot be started leaves an error pointer in the field. *)
Definition tcmi_ccnman_start_thread : N Z :=
  a ← lift ask;
  if negb (a_ok a) then modify (set_ccn (cn_set_thread (Some (Z.min (-1) (a_num a)))));; mret (- EINVAL) else
  p ← lift fresh; modify (set_ccn (cn_set_thread (Some p)));; mret 0.
Definition tcmi_ccnman_stop_thread : N unit :=
  m ← the_ccn; match cc_thread m with None => mret tt | Some p => lift (emit (E_thread_stopped p)) end.

Definition tcmi_ccnman_init (fuel : nat) (root : option Z) : N Z :=
  modify (set_ccn (fun m => let p := cc_mount m in
    cn_set_mount (mk_mount (blit 0 [0] (mount_type p)) (blit 0 [0] (mount_options p)) (blit 0 [0] (mount_device p))) m));;
  a ← lift ask; b ← lift ask;
  let v := tcmi_slotvec_new (a_ok a) (a_ok b) MAX_LISTENINGS in
  modify (set_ccn (cn_set_vec v));;
  match v with
  | None => mret (- EINVAL)
  | Some _ =>
      let exit1 := modify (set_ccn (fun m => cn_set_vec (listenings m ≫= tcmi_slotvec_put) m));; mret (- EINVAL) in
      err ← tcmi_ccnman_start_thread;
      if err <? 0 then exit1 else
      err ← tcmi_man_init Ccn fuel root;
      if err <? 0 then tcmi_ccnman_stop_thread;; exit1 else mret 0
  end.
Definition tcmi_ccnman_shutdown (fuel : nat) (acts : list (K unit)) : N unit :=
  tcmi_ccnman_stop_thread;;
  tcmi_man_shutdown Ccn fuel acts;;
  tcmi_ccnman_stop_listen_all 1;;
  modify (set_ccn (fun m => cn_set_vec (listenings m ≫= tcmi_slotvec_put) m)).

(** [kkc_listen], [kkc_connect] and [kkc_sock_accept] give a new socket or a negative error. *)
Definition kkc_new_sock : N (Z * option Z) :=
  o ← lift obj_new;
  match o with
  | Some _ => mret (0, o)
  | None => e ← lift ask; mret (Z.min (-1) (a_num e), None)
  end.

(** After [kkc_listen] succeeded [err] is 0 on every path. *)
Definition tcmi_ccnman_listen (listen_str : list Z) : N Z :=
  v ← listen_vec; '(slot, v) ← valid (tcmi_slotvec_reserve_empty v); set_listen_vec v;;
  match slot with
  | None => mret (- EINVAL)
  | Some slot =>
      let exit1 err := v ← listen_vec; set_listen_vec (tcmi_slot_move_unused slot v);; mret err in
      '(err, k_sock) ← kkc_new_sock;
      match k_sock with
      | None => exit1 err
      | Some k =>
          let exit2 err := lift (obj_put k_sock);; exit1 err in
          sleeper ← kkc_sock_sleeper_add k;
          match sleeper with
          | None => exit2 err
          | Some sl =>
              t_sock ← tcmi_sock_new k_sock;
              match t_sock with
              | None => kkc_sock_sleeper_remove sl;; exit2 err
              | Some t =>
                  tcmi_ccnman_add_sleeper sl k;;
                  v ← listen_vec; v ← valid (tcmi_slot_insert slot t v); set_listen_vec v;;
                  lift (obj_put k_sock);; mret 0
              end
          end
      end
  end.

Definition tcmi_ccnman_stop_listen_one (slot_num : Z) : N Z :=
  v ← listen_vec; v ← valid (tcmi_slot_lock v); set_listen_vec v;;
  match tcmi_slotvec_at v u32[slot_num] with
  | None => set_listen_vec (tcmi_slot_unlock v);; mret (- EINVAL)
  | Some slot =>
      let '(listening, v) := tcmi_slot_remove_first None slot v in
      set_listen_vec (tcmi_slot_unlock v);;
      match listening with
      | None => mret (- EINVAL)
      | Some l => tcmi_ccnman_remove_sleepers l;; tcmi_sock_put (Some l);; mret 0
      end
  end.

(** The strings of the files are copied without a terminator when they fill the field. *)
Definition tcmi_man_set_mount (type_str : list Z) : N Z :=
  modify (set_ccn (fun m => let p := cc_mount m in
    cn_set_mount (mk_mount (strncpy 80 type_str) (mount_options p) (mount_device p)) m));; mret 0.
Definition tcmi_man_set_mount_device (device_str : list Z) : N Z :=
  modify (set_ccn (fun m => let p := cc_mount m in
    cn_set_mount (mk_mount (mount_type p) (mount_options p) (strncpy 64 device_str)) m));; mret 0.
Definition tcmi_man_set_mount_options (options_str : list Z) : N Z :=
  modify (set_ccn (fun m => let p := cc_mount m in
    cn_set_mount (mk_mount (mount_type p) (strncpy 128 options_str) (mount_device p)) m));; mret 0.
Definition tcmi_ccnman_get_mount_params : N fs_mount_params := m ← the_ccn; mret (cc_mount m).

(** [during p]: what the thread of the new manager [p] does while the manager waits for the
    authentication of the peer. *)
Definition tcmi_ccnman_process_sock (during : Z -> K unit) : N unit :=
  '(err, new_sock) ← kkc_new_sock;
  match new_sock with
  | None => mret tt
  | Some _ =>
      slot ← tcmi_man_reserve_migmanslot Ccn;
      match slot with
      | None => lift (obj_put new_sock)
      | Some slot =>
          id ← tcmi_man_id Ccn; migproc ← tcmi_man_migproc_dir Ccn;
          migman ← lift (tcmi_ccnmigman_new id (Some slot) migproc);
          match migman with
          | None => tcmi_man_release_migmanslot Ccn slot;; lift (obj_put new_sock)
          | Some p =>
              lift (during p);;
              err ← lift (tcmi_ccnmigman_auth_pen p);
              if err <? 0 then
                lift (tcmi_migman_put tcmi_migman_free (Some p));;
                tcmi_man_release_migmanslot Ccn slot;; lift (obj_put new_sock)
              else mm_hash Ccn slot p;; lift (obj_put new_sock)
          end
      end
  end.

(** The slot after [slot] in the list of used slots. *)
Fixpoint next_slot (slot : nat) (l : list nat) : option nat :=
  match l with
  | [] => None
  | s :: l => if bool_decide (s = slot) then hd_error l else next_slot slot l
  end.
(** One pass over the listenings.  [tmp] is put in the next pass of the loop; [listening] keeps
    its value when a slot is empty; [others] are the steps of other threads while a socket is
    processed and the lock is free. *)
Fixpoint thread_slots (fuel : nat) (during : Z -> K unit) (others : list (N unit)) (slot : option nat)
    (listening tmp : option Z) : N (option Z) :=
  match slot, fuel with
  | None, _ => mret tmp
  | Some _, O => halt Running
  | Some slot, Datatypes.S fuel =>
      tcmi_sock_put tmp;;
      v ← listen_vec; let listening := tcmi_slot_find_first listening slot v in
      r ← tcmi_sock_get listening;
      match r with
      | None => mret tmp
      | Some l =>
          set_listen_vec (tcmi_slot_unlock v);;
          tcmi_ccnman_process_sock during;;
          default (mret tt) (hd_error others);;
          v ← listen_vec; v ← valid (tcmi_slot_lock v); set_listen_vec v;;
          if bool_decide (l ∈ nodes v) then thread_slots fuel during (tl others) (next_slot slot (used_slots v)) (Some l) (Some l)
          else mret (Some l)
      end
  end.
(** One round of the thread, until it sleeps. *)
Definition tcmi_ccnman_thread_round (fuel : nat) (during : Z -> K unit) (others : list (N unit)) (listening : option Z) : N unit :=
  v ← listen_vec; v ← valid (tcmi_slot_lock v); set_listen_vec v;;
  tmp ← thread_slots fuel during others (hd_error (used_slots v)) listening None;
  v ← listen_vec; set_listen_vec (tcmi_slot_unlock v);;
  tcmi_sock_put tmp.

(** ** PEN *)

Definition tcmi_penman_init (fuel : nat) (root : option Z) : N Z :=
  err ← tcmi_man_init Pen fuel root; mret (if err <? 0 then - EINVAL else 0).
Definition tcmi_penman_shutdown (fuel : nat) (acts : list (K unit)) : N unit := tcmi_man_shutdown Pen fuel acts.

Fixpoint any_equal (ms : gmap Z tcmi_migman) (address : list Z) (ns : list Z) : option bool :=
  match ns with
  | [] => Some false
  | n :: ns =>
      m ← ms !! n; s ← mm_sock m;
      if kkc_sock_tcp_is_address_equal_to (peer_name s) (Some address) (zlen address) then Some true
      else any_equal ms address ns
  end.
Definition check_duplicates (address : list Z) : N bool :=
  v ← mm_lock Pen; k ← gets kern;
  r ← valid (any_equal (mans k) address (used_slots v ≫= items v));
  mm_unlock Pen;; mret r.

(** [connect_str@auth_data] *)
Fixpoint split_at (s : list Z) : list Z * list Z :=
  match s with
  | [] => ([], [])
  | c :: s => if c =? 64 then ([], s) else let '(a, b) := split_at s in (c :: a, b)
  end.
Definition tcmi_penman_connect (str : list Z) : N Z :=
  let '(connect_str, auth_data) := split_at str in
  dup ← check_duplicates connect_str;
  if (dup : bool) then mret (- EINVAL) else
  '(err, sock) ← kkc_new_sock;
  match sock with
  | None => mret (- EINVAL)
  | Some _ =>
      slot ← tcmi_man_reserve_migmanslot Pen;
      match slot with
      | None => lift (obj_put sock);; mret (- EINVAL)
      | Some slot =>
          id ← tcmi_man_id Pen; migproc ← tcmi_man_migproc_dir Pen;
          migman ← lift (tcmi_penmigman_new id (Some slot) migproc);
          match migman with
          | None => tcmi_man_release_migmanslot Pen slot;; lift (obj_put sock);; mret (- EINVAL)
          | Some p =>
              err ← lift (tcmi_penmigman_auth_ccn HZ ARCH_CURRENT p auth_data);
              if err <? 0 then
                lift (tcmi_migman_put tcmi_migman_free (Some p));;
                tcmi_man_release_migmanslot Pen slot;; lift (obj_put sock);; mret (- EINVAL)
              else mm_hash Pen slot p;; lift (obj_put sock);; mret 0
          end
      end
  end.

(** ** Hooks *)

Abbreviation do_mig_mode := (tcmi_taskhelper_do_mig_mode HZ tcmi_migman_free shadow_rpc).
Abbreviation notify_current := (tcmi_taskhelper_notify_current HZ tcmi_migman_free shadow_rpc).

Definition tcmi_man_emig_npm (c : man_class) (moves fuel : nat) (pid migman_id regs npm_params : Z) : N Z :=
  r ← migman_at c migman_id;
  match r with
  | None => mret (- EINVAL)
  | Some mgr =>
      err ← match c with
            | Ccn => lift (tcmi_migcom_emigrate_ccn_npm HZ tcmi_migman_free shadow_rpc moves fuel pid mgr regs npm_params)
            | Pen => mret 0
            end;
      lift (tcmi_migman_put tcmi_migman_free (Some mgr));; mret err
  end.
Definition tcmi_penman_migrateback_npm (moves fuel : nat) (regs npm_params : Z) : N Z :=
  cur ← lift (gets current); p ← lift (process cur);
  t ← valid (p_task p); bug_on (negb (bool_decide (task_type p = guest)));;
  lift (tcmi_task_submit_method t M_migrateback_npm (Some (le_bytes 8 npm_params)) 8);;
  lift (do_mig_mode moves fuel regs);; mret 0.

(** The process notifies its task with priority; a shadow's files are flushed and released. *)
Definition tcmi_mighooks_do_exit (moves fuel : nat) (code : Z) : N Z :=
  cur ← lift (gets current); p ← lift (process cur);
  let is_shadow := bool_decide (task_type p = shadow \/ task_type p = shadow_detached) in
  lift (emit (E_task_exit cur code));;
  res ← lift (notify_current moves fuel M_exit (Some (le_bytes 8 code)) 8 1);
  when is_shadow (lift (emit E_sync_files;; emit E_server_released));; mret res.
Definition tcmi_mighooks_mig_mode (moves fuel : nat) (regs : Z) : N Z := lift (do_mig_mode moves fuel regs);; mret 0.

(** The answers of the director: its result, the manager to use and whether to go home. *)
Definition tcmi_try_npm_on_exec (moves fuel : nat) (c : man_class) (is_guest : bool) (filename : list Z) (argv envp regs : Z) : N unit :=
  cur ← lift (gets current);
  d ← lift ask; mgr ← lift ask; home ← lift ask;
  if negb (a_num d =? 1) then mret tt else
  let migrate_home := is_guest && negb (a_num home =? 0) in
  if negb (negb (a_num mgr =? -1) || migrate_home) then mret tt else
  v ← lift ask; p ← lift fresh;
  let params := if a_ok v then Some (mk_npm (replicate (Z.to_nat NPM_FILENAME_MAX) 0) 0 0 0 0 0
                                       (replicate (Z.to_nat NPM_DATA_SIZE_MAX) 0)) else None in
  '(err, _) ← valid (extract_tcmi_npm_params u p params filename argv envp);
  if negb (err =? 0) then mret tt else
  if migrate_home then tcmi_penman_migrateback_npm moves fuel regs p;; mret tt
  else tcmi_man_emig_npm c moves fuel cur (a_num mgr) regs p;; mret tt.

Definition tcmi_mighooks_execve (moves fuel : nat) (filename : list Z) (argv envp regs : Z) : N Z :=
  cur ← lift (gets current); p ← lift (process cur);
  match p_task p with
  | None => tcmi_try_npm_on_exec moves fuel Ccn false filename argv envp regs;; mret 0
  | Some t =>
      tk ← lift (task t);
      match ops tk with
      | Guesttask =>
          n ← lift (tcmi_task_get_execve_count t);
          (if 1 <? n then tcmi_try_npm_on_exec moves fuel Pen true filename argv envp regs
           else
             m ← lift (new_msg t (fun e => tcmi_vfork_done_procmsg_new_tx e (remote_pid tk)));
             match m with
             | None => mret tt
             | Some m => lift (tcmi_task_send_anonymous_msg t m);; lift (msg_put t (Some m))
             end);;
          p ← lift (process cur); t ← valid (p_task p); lift (tcmi_task_inc_execve_count t);; mret 0
      | Shadowtask => lift (tcmi_task_inc_execve_count t);; mret 0
      end
  end.

(** "/proc/self" and "/mnt/local/proc/self"; [getname] tells whether the buffer was allocated. *)
Definition proc_self : list Z := [47; 112; 114; 111; 99; 47; 115; 101; 108; 102].
Definition local_proc_self : list Z := [47; 109; 110; 116; 47; 108; 111; 99; 97; 108] ++ proc_self.
Definition tcmi_mighooks_replace_proc_self_file (getname : bool) (filename : list Z) : Z * option (list Z) :=
  if bool_decide (ztake 10 filename = proc_self) then
    if negb getname then (- ENOMEM, None) else (0, Some (local_proc_self ++ zdrop 10 filename))
  else (0, None).

Definition tcmi_syscall_hooks_in_fork (child : Z) : N Z :=
  cur ← lift (gets current); p ← lift (process cur);
  match task_type p with
  | guest => tcmi_man_fork Pen cur child
  | shadow => tcmi_man_fork Ccn cur child
  | _ => mret 0
  end.
(** [res] is an error when it is one of the last 4095 values of a pointer. *)
Definition IS_ERR (res : Z) : bool := u64[-4095] <=? u64[res].
Definition tcmi_syscall_hooks_post_fork (child res remote_pid : Z) : N Z :=
  cur ← lift (gets current); p ← lift (process cur);
  match task_type p with
  | guest =>
      child_task ← (if IS_ERR res then mret None else ch ← lift (process child); mret (p_task ch));
      t ← valid (p_task p);
      lift (tcmi_guesttask_post_fork t child_task res remote_pid);; mret remote_pid
  | shadow =>
      when (negb (IS_ERR res)) (lift (emit (E_server_duplicated child)));;
      lift (emit (E_task_fork res cur));; mret res
  | _ => lift (emit (E_task_fork res cur));; mret res
  end.
End nodes.
