(* ===== verification/ManStop.v ===== *)
(** Stopping the migration managers of a node ([tcmi_man_stop_migration],
    src/src/tcmi/manager/tcmi_man.c): the loop returns after one round for each connected manager,
    and leaves only managers that are shutting down; a manager that is still being set up makes it
    spin. *)

From stdpp Require Import gmap.
From S2P Require Import Prelude Effect SlotVec Transaction KkcSock MsgId Messages Queue Msg NpmParams World Task TaskOps Migcom Migman Frames Delivery TaskLife Shutdown Man.

(** ** Slots that only lose managers *)

Definition holds (v : tcmi_slotvec) (n : Z) : Prop := exists i, n ∈ items v i.

Lemma holds_used v n : n ∈ (used_slots v ≫= items v) -> holds v n.
Proof. intros Hn. apply list_elem_of_bind in Hn as (i & Hi & _). by exists i. Qed.

Lemma holds_leave_slots ms v n : holds (leave_slots ms v) n -> holds v n.
Proof.
  unfold leave_slots. generalize (used_slots v ≫= fun i => (fun n => (i, n)) <$> items v i). intros l. revert v.
  induction l as [|[i m] l IH]; intros v; cbn [foldl fst snd]; [done|].
  intros Hh. apply IH in Hh. destruct (hashed ms m); [done|]. destruct Hh as [j Hj]. exists j.
  rewrite items_slot_remove in Hj. by apply elem_of_list_del in Hj as [? _].
Qed.

Lemma used_slot_remove i m v j : j ∈ used_slots (__tcmi_slot_remove i m v) -> j ∈ used_slots v.
Proof.
  unfold __tcmi_slot_remove. case_match; [|done]. cbn [tcmi_slot_move_unused set_lists used_slots].
  intros Hj. by apply elem_of_list_del in Hj as [? _].
Qed.
Lemma lock_slot_remove i m v : s_lock (__tcmi_slot_remove i m v) = s_lock v.
Proof. unfold __tcmi_slot_remove. by case_match. Qed.

(** What is left in the slots is still hashed. *)
Lemma leave_slots_hashed ms v i n :
  i ∈ used_slots (leave_slots ms v) -> n ∈ items (leave_slots ms v) i -> hashed ms n = true.
Proof.
  assert (Hgen : forall l v, i ∈ used_slots (foldl (fun v p => if hashed ms p.2 then v else __tcmi_slot_remove p.1 p.2 v) v l) ->
    n ∈ items (foldl (fun v p => if hashed ms p.2 then v else __tcmi_slot_remove p.1 p.2 v) v l) i ->
    i ∈ used_slots v /\ n ∈ items v i /\ ((i, n) ∈ l -> hashed ms n = true)).
  { intros l. induction l as [|[j m] l IH]; intros v0 Hu Hn; cbn [foldl fst snd] in *; [split_and!; try done; by intros ?%elem_of_nil|].
    destruct (IH _ Hu Hn) as (Hu' & Hn' & Hl). destruct (hashed ms m) eqn:Hm.
    - split_and!; try done. intros [[= -> ->]|]%elem_of_cons; [done|by apply Hl].
    - rewrite items_slot_remove in Hn'. apply elem_of_list_del in Hn' as [Hn' Hne].
      split_and!; [by eapply used_slot_remove|done|]. intros [[= _ ->]|]%elem_of_cons; [done|by apply Hl]. }
  intros Hu Hn. destruct (Hgen _ _ Hu Hn) as (Hu' & Hn' & Hh). apply Hh. apply list_elem_of_bind. exists i. split; [|done].
  apply list_elem_of_fmap. by exists n.
Qed.
Lemma lock_leave_slots ms v : s_lock (leave_slots ms v) = s_lock v.
Proof.
  unfold leave_slots. generalize (used_slots v ≫= fun i => (fun n => (i, n)) <$> items v i). intros l. revert v.
  induction l as [|p l IH]; intros v; cbn [foldl]; [done|]. rewrite IH. case_match; [done|apply lock_slot_remove].
Qed.

Section stop.
Context {S : Type} `{Sock S}.
Abbreviation K := (eff (kw S)).
Abbreviation N := (eff (node S)).
Implicit Types (k : kw S) (w : node S).

(** ** The states of the managers *)

Definition states k : gmap Z tcmi_migman_state_t := mm_state <$> mans k.
Definition connected k : nat := size (filter (fun x => x.2 = TCMI_MIGMAN_CONNECTED) (states k)).
Definition tasks_held k : Prop := forall p t, tasks k !! p = Some t -> 1 <= t_ref t.

Lemma states_seen k k' : see (S := S) ref_view k' = see ref_view k -> states k' = states k.
Proof.
  intros [=_ Hs]. unfold states.
  assert (He : forall ms : gmap Z tcmi_migman, mm_state <$> ms = snd <$> ((fun m => (mm_ref m, mm_state m)) <$> ms))
    by (intros ms; by rewrite <- map_fmap_compose).
  by rewrite !He, Hs.
Qed.

Lemma leaves_unhash p : leaves (S := S) ref_view (tcmi_migman_unhash p).
Proof.
  unfold tcmi_migman_unhash. apply leaves_bind; [lv|intros m]. apply leaves_when, leaves_upd_migman. intros ms x Hx.
  by eapply (fmap_insert_same (fun m => (mm_ref m, mm_state m))).
Qed.
Lemma leaves_free p : leaves (S := S) ref_view (tcmi_migman_free p).
Proof.
  pose proof (leaves_unhash p) as Hu.
  unfold tcmi_migman_free, tcmi_migman_stop_ctlfs_files, ops_stop_ctlfs_files, tcmi_ccnmigman_stop_ctlfs_files,
    tcmi_penmigman_stop_ctlfs_files, tcmi_migman_stop_ctlfs_dirs, tcmi_migman_stop_thread, drop_file. lv.
Qed.

(** The state of [p] is now [st], or [p] is gone. *)
Definition left_by (p : Z) (x : gmap Z tcmi_migman_state_t) k : Prop :=
  (states k = <[p := TCMI_MIGMAN_SHUTTING_DOWN]> x \/ states k = delete p x) /\ tasks_held k.

Lemma wlp_put_last p x k :
  states k = <[p := TCMI_MIGMAN_SHUTTING_DOWN]> x -> tasks_held k ->
  wlp (tcmi_migman_put tcmi_migman_free (Some p)) (fun _ => left_by p x) (fun _ _ => True) k.
Proof.
  intros Hs Ht. unfold wlp, tcmi_migman_put, upd_migman, migman. run.
  destruct (mans k !! p) as [m|] eqn:Hm; [|done]. run. rewrite Hm.
  set (k1 := set_mans _ k).
  assert (Hs1 : states k1 = states k).
  { unfold states, k1. proj. by eapply (fmap_insert_same mm_state). }
  destruct (_ =? 0); [|split; [left; congruence|done]].
  pose proof (leaves_wlp _ _ k1 (leaves_free p)) as Hf. unfold wlp in Hf.
  destruct (tcmi_migman_free p k1) as [[] k2| |]; [|done..].
  assert (Hst : steady (S := S) (see ref_view k1) k2) by (apply (steady_seen _ k1); [by split|exact Hf]).
  split; [right|exact (proj2 Hst)]. unfold states. proj. rewrite fmap_delete.
  change (mm_state <$> mans k2) with (states k2). rewrite (states_seen k1 k2 Hf), Hs1, Hs. apply delete_insert_eq.
Qed.

(** Stopping a connected manager. *)
Lemma wlp_stop_connected p k :
  states k !! p = Some TCMI_MIGMAN_CONNECTED -> tasks_held k ->
  wlp (tcmi_migman_stop p) (fun _ => left_by p (states k)) (fun _ _ => True) k.
Proof.
  intros Hp Ht. unfold states in Hp. rewrite lookup_fmap in Hp. apply fmap_Some in Hp as (m & Hm & Hst).
  unfold tcmi_migman_stop, tcmi_migman_stop_perform. apply wlp_bind, wlp_bind.
  unfold wlp at 1, tcmi_migman_change_state, upd_migman, migman. run. rewrite Hm, bool_decide_eq_true_2 by done.
  run. rewrite Hm. set (k1 := set_mans _ k).
  assert (Hs1 : states k1 = <[p := TCMI_MIGMAN_SHUTTING_DOWN]> (states k)).
  { unfold states, k1. proj. by rewrite fmap_insert. }
  assert (Hw : forall k', steady (S := S) (see ref_view k1) k' -> states k' = <[p := TCMI_MIGMAN_SHUTTING_DOWN]> (states k) /\ tasks_held k').
  { intros k' [Hs' Ht']. split; [|done]. rewrite <- Hs1. by apply states_seen. }
  eapply wlp_rets; [apply rets_ops_stop|by split|]. intros _ k2 Hk2.
  eapply wlp_rets; [apply (rets_notify_disconnect (see ref_view k1) p true)|exact Hk2|]. intros _ k3 Hk3. destruct (Hw k3 Hk3) as [Hs3 Ht3].
  eapply wlp_mono; [by apply (wlp_put_last p (states k))|by intros ? ? ?|done].
Qed.

Lemma connected_left p x k :
  x !! p = Some TCMI_MIGMAN_CONNECTED -> left_by p x k ->
  Datatypes.S (connected k) = size (filter (fun y => y.2 = TCMI_MIGMAN_CONNECTED) x).
Proof.
  intros Hp [Hk _].
  assert (Hf : filter (fun y => y.2 = TCMI_MIGMAN_CONNECTED) x !! p = Some TCMI_MIGMAN_CONNECTED) by (by apply map_lookup_filter_Some).
  assert (He : filter (fun y => y.2 = TCMI_MIGMAN_CONNECTED) (states k) = delete p (filter (fun y => y.2 = TCMI_MIGMAN_CONNECTED) x)).
  { destruct Hk as [-> | ->]; [|apply map_filter_delete]. rewrite map_filter_insert_False by done. by rewrite map_filter_delete. }
  unfold connected. rewrite He, map_size_delete, Hf.
  assert (size (filter (fun y => y.2 = TCMI_MIGMAN_CONNECTED) x) <> 0%nat); [|lia].
  intros Hz. apply map_size_empty_inv in Hz. by rewrite Hz in Hf.
Qed.

(** ** The loop *)

(** Managers enter the slots of [c] when they are connected. *)
Definition slots_started (c : man_class) w : Prop :=
  forall v n, mig_mans (man_of c w) = Some v -> holds v n -> states (kern w) !! n <> Some TCMI_MIGMAN_INIT.

(** Neither starting nor connected. *)
Definition ending (o : option tcmi_migman_state_t) : Prop :=
  exists st, o = Some st /\ st <> TCMI_MIGMAN_INIT /\ st <> TCMI_MIGMAN_CONNECTED.

Lemma first_active_spec ms ns r :
  first_active ms ns = Some r ->
  match r with
  | Some p => p ∈ ns /\ exists m, ms !! p = Some m /\ (mm_state m = TCMI_MIGMAN_INIT \/ mm_state m = TCMI_MIGMAN_CONNECTED)
  | None => forall n, n ∈ ns -> ending (mm_state <$> ms !! n)
  end.
Proof.
  induction ns as [|n ns IH]; cbn [first_active]; [intros [= <-]; by intros n ?%elem_of_nil|].
  destruct (ms !! n) as [m|] eqn:Hm; [|done]. cbn. case_bool_decide as Hst.
  - intros [= <-]. split; [by left|]. exists m. by split.
  - intros Hr. specialize (IH Hr). destruct r as [p|].
    + destruct IH as [Hp ?]. split; [by right|done].
    + intros q [-> |Hq]%elem_of_cons; [|by apply IH]. rewrite Hm. eexists. split; [done|]. tauto.
Qed.

(** The search looks at the managers and leaves everything but the lock, which is free after it. *)
Lemma get_non_shutdowning_spec c w r w' :
  tcmi_man_get_non_shutdowning_migman c w = Ret r w' ->
  exists v, mig_mans (man_of c w) = Some v /\ mig_mans (man_of c w') = Some (tcmi_slot_unlock (set_lock true v)) /\
    kern w' = kern w /\ first_active (mans (kern w)) (used_slots v ≫= items v) = Some r.
Proof.
  unfold tcmi_man_get_non_shutdowning_migman, mm_lock, the_man, upd_man, mm_unlock, upd_man. run.
  destruct (mig_mans (man_of c w)) as [v|]; [|done]. run. unfold tcmi_slot_lock. destruct (s_lock v); [done|]. run.
  destruct (first_active _ _) as [o|] eqn:Hf; [|done]. run. intros [= <- <-]. exists v. split; [done|].
  split; [by destruct c|]. split; [by destruct c|]. rewrite <- Hf. by destruct c.
Qed.

Lemma found_connected c w p w1 :
  slots_started c w -> tcmi_man_get_non_shutdowning_migman c w = Ret (Some p) w1 ->
  states (kern w) !! p = Some TCMI_MIGMAN_CONNECTED.
Proof.
  intros Hi Hg. apply get_non_shutdowning_spec in Hg as (v & Hv & _ & _ & Hf).
  apply first_active_spec in Hf as (Hin & m & Hm & Hst). apply holds_used in Hin.
  pose proof (Hi v p Hv Hin) as Hni. unfold states in *. rewrite lookup_fmap, Hm in *. cbn in *.
  destruct Hst; congruence.
Qed.
Lemma found_none c w w1 v i p :
  tcmi_man_get_non_shutdowning_migman c w = Ret None w1 ->
  mig_mans (man_of c w1) = Some v -> i ∈ used_slots v -> p ∈ items v i -> ending (states (kern w1) !! p).
Proof.
  intros Hg Hv' Hu Hp. apply get_non_shutdowning_spec in Hg as (v0 & _ & Hv1 & Hk & Hf).
  rewrite Hv1 in Hv'. injection Hv' as <-. unfold states. rewrite Hk, lookup_fmap.
  apply (first_active_spec _ _ _ Hf). apply list_elem_of_bind. by exists i.
Qed.

(** One round takes a connected manager away. *)
Lemma round_spec c w p w1 :
  slots_started c w -> tasks_held (kern w) -> tcmi_man_get_non_shutdowning_migman c w = Ret (Some p) w1 ->
  wlp (lift (tcmi_migman_stop p))
    (fun _ w2 => slots_started c w2 /\ tasks_held (kern w2) /\ Datatypes.S (connected (kern w2)) = connected (kern w))
    (fun _ _ => True) w1.
Proof.
  intros Hi Ht Hg. pose proof (found_connected c w p w1 Hi Hg) as Hp.
  apply get_non_shutdowning_spec in Hg as (v & Hv & Hv1 & Hk & _).
  unfold wlp, lift. rewrite Hk. pose proof (wlp_stop_connected p (kern w) Hp Ht) as Hw. unfold wlp in Hw.
  destruct (tcmi_migman_stop p (kern w)) as [[] k2| |]; [|done..].
  pose proof (connected_left p _ k2 Hp Hw) as Hc. destruct Hw as [Hs Ht2].
  change (kern (settle (set_kern k2 w1))) with k2. split; [|by split].
  intros v2 n Hv2 Hn. change (kern (settle (set_kern k2 w1))) with k2.
  assert (Hv2' : mig_mans (man_of c (settle (set_kern k2 w1))) = leave_slots (mans k2) <$> mig_mans (man_of c w1)) by (by destruct c).
  rewrite Hv2', Hv1 in Hv2. injection Hv2 as <-. apply holds_leave_slots in Hn.
  assert (Hn' : holds v n) by (destruct Hn as [i Hn]; exists i; exact Hn). specialize (Hi v n Hv Hn').
  destruct (decide (n = p)) as [-> |Hne]; destruct Hs as [-> | ->];
    rewrite ?lookup_insert_eq, ?lookup_delete_eq, ?lookup_insert_ne, ?lookup_delete_ne by congruence; done.
Qed.

Lemma stop_migration_unfold fuel c w :
  tcmi_man_stop_migration fuel c w =
  (m ← tcmi_man_get_non_shutdowning_migman c;
   match m with
   | None => mret tt
   | Some p => match fuel with O => halt Running | Datatypes.S n => lift (tcmi_migman_stop p);; tcmi_man_stop_migration n c end
   end) w.
Proof. by destruct fuel. Qed.

(** The slot vector is there and unlocked, and its entries are managers. *)
Definition slots_ready (c : man_class) w : Prop :=
  exists v, mig_mans (man_of c w) = Some v /\ s_lock v = false /\
    forall i n, i ∈ used_slots v -> n ∈ items v i -> is_Some (mans (kern w) !! n).

Lemma first_active_some (ms : gmap Z tcmi_migman) ns : (forall n, n ∈ ns -> is_Some (ms !! n)) -> is_Some (first_active ms ns).
Proof.
  induction ns as [|n ns IH]; cbn [first_active]; [by eexists|]. intros Hn.
  destruct (Hn n (list_elem_of_here _ _)) as [m Hm]. rewrite Hm. cbn. case_bool_decide; [by eexists|].
  apply IH. intros n' Hn'. apply Hn. by right.
Qed.

Lemma search_returns c w : slots_ready c w -> exists r w1, tcmi_man_get_non_shutdowning_migman c w = Ret r w1.
Proof.
  intros (v & Hv & Hl & Hin). destruct (first_active_some (mans (kern w)) (used_slots v ≫= items v)) as [r Hr].
  { intros n Hn. apply list_elem_of_bind in Hn as (i & Hi & Hu). eauto. }
  unfold tcmi_man_get_non_shutdowning_migman, mm_lock, the_man, upd_man, mm_unlock, upd_man. run. rewrite Hv. run.
  unfold tcmi_slot_lock. rewrite Hl. run. eexists r, _.
  assert (Hk : forall f, mans (kern (set_man c f w)) = mans (kern w)) by (by destruct c).
  assert (Hf : first_active (mans (kern w)) (used_slots (set_lock true v) ≫= items (set_lock true v)) = Some r) by exact Hr.
  rewrite Hk. unfold mbind in Hf. rewrite Hf. done.
Qed.

Lemma ready_after c w p w1 k2 :
  slots_ready c w -> tcmi_man_get_non_shutdowning_migman c w = Ret (Some p) w1 -> slots_ready c (settle (set_kern k2 w1)).
Proof.
  intros _ Hg. apply get_non_shutdowning_spec in Hg as (v & _ & Hv1 & _ & _).
  exists (leave_slots (mans k2) (tcmi_slot_unlock (set_lock true v))). split_and!.
  - assert (Hm : mig_mans (man_of c (settle (set_kern k2 w1))) = leave_slots (mans k2) <$> mig_mans (man_of c w1)) by (by destruct c).
    by rewrite Hm, Hv1.
  - by rewrite lock_leave_slots.
  - intros i n Hu Hn. pose proof (leave_slots_hashed _ _ _ _ Hu Hn) as Hh. unfold hashed in Hh.
    change (mans (kern (settle (set_kern k2 w1)))) with (mans k2). destruct (mans k2 !! n); [by eexists|done].
Qed.

(** C29: Stopping the migration managers of a node returns, after one round for each connected
    manager: with that many rounds of fuel or more the loop ends with the same result, and every
    manager that is still in a slot is then on its way down.  The managers in the slots are
    connected or going down already (one that is still being set up makes the loop spin), the
    tasks are alive, and a single stop of a connected manager returns in the states [I] that the
    node is in and stays in them. *)
Theorem stop_migration_ends (I : kw S -> Prop) c n w :
  (forall p k, I k -> states k !! p = Some TCMI_MIGMAN_CONNECTED -> exists k', tcmi_migman_stop p k = Ret tt k' /\ I k') ->
  I (kern w) -> slots_ready c w -> slots_started c w -> tasks_held (kern w) -> (connected (kern w) <= n)%nat ->
  exists w', tcmi_man_stop_migration n c w = Ret tt w' /\
    tcmi_man_stop_migration (connected (kern w)) c w = Ret tt w' /\
    forall v i p, mig_mans (man_of c w') = Some v -> i ∈ used_slots v -> p ∈ items v i -> ending (states (kern w') !! p).
Proof.
  intros HI. remember (connected (kern w)) as d eqn:Hd. revert n w Hd.
  induction d as [|d IH]; intros n w Hd Hk Hrdy Hi Ht Hn;
    destruct (search_returns c w Hrdy) as (o & w1 & Hg); rewrite !stop_migration_unfold; unfold mbind, eff_bind; rewrite Hg;
    (destruct o as [p|]; [|exists w1; split_and!; try done; intros v i p; by eapply found_none]);
    pose proof (found_connected c w p w1 Hi Hg) as Hp.
  - symmetry in Hd. unfold connected in Hd.
    apply map_size_empty_inv in Hd. exfalso. by eapply map_filter_empty_not_lookup in Hd; [apply Hd; exact Hp|].
  - destruct n as [|n]; [lia|]. pose proof (round_spec c w p w1 Hi Ht Hg) as Hr. unfold wlp in Hr.
    assert (Hk1 : kern w1 = kern w) by (by apply get_non_shutdowning_spec in Hg as (? & _ & _ & ? & _)).
    destruct (HI p (kern w) Hk Hp) as (k2 & Hs & Hk2).
    assert (Hl : lift (tcmi_migman_stop p) w1 = Ret tt (settle (set_kern k2 w1))) by (unfold lift; by rewrite Hk1, Hs).
    rewrite Hl in Hr |- *. destruct Hr as (Hi2 & Ht2 & Hc).
    apply IH; [lia|exact Hk2|by eapply ready_after|done|done|lia].
Qed.
End stop.

(** ** Witness *)

(** A PEN with a connected manager in its slot 2. *)
Definition ex_slots : tcmi_slotvec :=
  mk_slotvec [mk_slot 0 []; mk_slot 1 []; mk_slot 2 [30]] 3 None [0%nat; 1%nat] [2%nat] 1 false.
Definition ex_man : tcmi_man := mk_man 1 (Some ex_slots) None None None None None None None 5.
Definition ex_idle : tcmi_man := mk_man 0 None None None None None None None None 0.
Definition ex_idle_ccn : tcmi_ccnman :=
  mk_ccnman None None None None None None None None None (mk_mount [] [] []) None [] [].
Definition ex_pen_man : node seg_kernel := mk_node ex_pen_node ex_idle ex_man ex_idle_ccn None ∅.

Lemma ex_stop_one : match tcmi_migman_stop 30 ex_pen_node with Ret _ k => connected k = 0%nat | _ => False end.
Proof. vm_compute. reflexivity. Qed.

Lemma stop_migration_ends_witness :
  exists w', tcmi_man_stop_migration 40 Pen ex_pen_man = Ret tt w' /\ ending (states (kern w') !! 30).
Proof.
  destruct (stop_migration_ends (fun k => k = ex_pen_node \/ connected k = 0%nat) Pen 40 ex_pen_man)
    as (w' & E & _ & Hw).
  - intros p k [-> | Hk] Hp.
    + assert (Hp30 : p = 30).
      { change (states ex_pen_node) with ({[30 := TCMI_MIGMAN_CONNECTED]} : gmap Z tcmi_migman_state_t) in Hp.
        by apply lookup_singleton_Some in Hp as [? _]. }
      subst p. pose proof ex_stop_one as H1. destruct (tcmi_migman_stop 30 ex_pen_node) as [[] k'| |]; [|done..].
      exists k'. split; [done|by right].
    + unfold connected in Hk. apply map_size_empty_inv in Hk. exfalso.
      by eapply map_filter_empty_not_lookup in Hk; [apply Hk; exact Hp|].
  - by left.
  - exists ex_slots. split; [done|]. split; [done|]. intros i n Hi Hn. apply list_elem_of_singleton in Hi as ->.
    apply list_elem_of_singleton in Hn as ->. by eexists.
  - intros v n [= <-] [i Hi]. destruct i as [|[|[|i]]]; cbn in Hi; try by apply elem_of_nil in Hi.
    apply list_elem_of_singleton in Hi as ->. vm_compute. discriminate.
  - intros p t Ht. change (tasks (kern ex_pen_man)) with ({[1 := ex_task 42 50 [2] None Shadowtask]} : gmap Z tcmi_task) in Ht.
    apply lookup_singleton_Some in Ht as [_ <-]. cbn. lia.
  - vm_compute. lia.
  - exists w'. split; [exact E|].
    assert (Hv : mig_mans (man_of Pen w') = Some ex_slots).
    { transitivity (match tcmi_man_stop_migration 40 Pen ex_pen_man with Ret _ w => mig_mans (p_man w) | _ => None end);
        [by rewrite E|]. vm_compute. reflexivity. }
    eapply Hw; [exact Hv| |]; [apply (list_elem_of_here 2%nat [])|]. apply (list_elem_of_here 30 []).
Defined.

(** A manager that is still being set up: stopping it does nothing, and the loop finds it again. *)
Definition ex_starting : node seg_kernel :=
  set_kern (set_mans (fun _ => {[30 := mm_set_state TCMI_MIGMAN_INIT ex_pen]}) ex_pen_node) ex_pen_man.

Example starting_manager_spins fuel : tcmi_man_stop_migration fuel Pen ex_starting = Stop Running ex_starting.
Proof.
  induction fuel as [|fuel IH]; [vm_compute; reflexivity|]. rewrite stop_migration_unfold.
  assert (Hg : tcmi_man_get_non_shutdowning_migman Pen ex_starting = Ret (Some 30) ex_starting) by (vm_compute; reflexivity).
  assert (Hl : lift (tcmi_migman_stop 30) ex_starting = Ret tt ex_starting) by (vm_compute; reflexivity).
  unfold mbind, eff_bind. by rewrite Hg, Hl.
Qed.
