(* ===== verification/Listen.v ===== *)
(** The listenings of the CCN manager (src/src/tcmi/manager/tcmi_ccnman.c, tcmi_sock.c): listening,
    stopping and the thread of the manager keep the references of the sockets exact, and a
    sleeper waits on the socket of a listening only while the listening is in its slot. *)

From stdpp Require Import gmap.
From S2P Require Import Prelude Effect SlotVec Transaction KkcSock MsgId Messages Queue Msg NpmParams World Task TaskOps Migcom Migman Frames Delivery TaskLife Shutdown Man Nodes ManStop.

(** ** Occurrences in a list *)

Definition times (p : Z) (l : list Z) : Z := zlen (filter (fun q => q = p) l).
Lemma times_nil p : times p [] = 0.
Proof. done. Qed.
Lemma times_cons p q l : times p (q :: l) = (if decide (q = p) then 1 else 0) + times p l.
Proof. unfold times. rewrite filter_cons. case_decide; rewrite ?zlen_cons; lia. Qed.
Lemma times_app p l l' : times p (l ++ l') = times p l + times p l'.
Proof. unfold times. rewrite filter_app. apply zlen_app. Qed.
#[export] Instance times_perm p : Proper ((≡ₚ) ==> eq) (times p).
Proof. intros l l' Hl. unfold times, zlen. by rewrite Hl. Qed.
Lemma times_nonneg p l : 0 <= times p l.
Proof. apply zlen_nonneg. Qed.
Lemma times_pos p l : p ∈ l <-> 1 <= times p l.
Proof.
  induction l as [|q l IH]; [rewrite times_nil; split; [by intros ?%elem_of_nil|lia]|].
  rewrite elem_of_cons, times_cons, IH. pose proof (times_nonneg p l). case_decide; split; try lia; intuition (congruence || lia).
Qed.

(** Filters that agree on the list. *)
Lemma filter_on {A} (P Q : A -> Prop) `{forall x, Decision (P x), forall x, Decision (Q x)} (l : list A) :
  (forall x, x ∈ l -> P x <-> Q x) -> filter P l = filter Q l.
Proof.
  induction l as [|a l IH]; intros Hl; [done|]. rewrite !filter_cons, IH by (intros; apply Hl; by right).
  pose proof (Hl a (list_elem_of_here _ _)). repeat case_decide; tauto.
Qed.
Lemma filter_all {A} (P : A -> Prop) `{forall x, Decision (P x)} (l : list A) : (forall x, x ∈ l -> P x) -> filter P l = l.
Proof.
  induction l as [|a l IH]; intros Hl; [done|]. rewrite filter_cons, decide_True by (apply Hl; by left).
  by rewrite IH by (intros; apply Hl; by right).
Qed.

(** Nothing is watched. *)
Program Definition unit_view : view := {| vt := fun _ => tt; vm := fun _ => tt; vp := fun _ => tt; vw := fun _ => tt |}.
Solve All Obligations with (intros; reflexivity).
Lemma unit_view_managers : ignores_managers unit_view.
Proof. done. Qed.
#[local] Hint Resolve unit_view_managers : leaves.

Section listen.
Context {S : Type} `{Sock S}.
Abbreviation K := (eff (kw S)).
Abbreviation N := (eff (node S)).
Implicit Types (k : kw S) (w : node S).

(** ** Calls into the kernel *)

(** Addresses are only used up; with [P] false the computation never stops. *)
Definition calm (P : Prop) {A} (m : K A) : Prop :=
  forall k, wlp m (fun _ k' => next k <= next k') (fun _ _ => P) k.
Lemma calm_bind P {A B} (m : K A) (f : A -> K B) : calm P m -> (forall a, calm P (f a)) -> calm P (m ≫= f).
Proof.
  intros Hm Hf k. apply wlp_bind. eapply wlp_mono; [apply Hm| |done]. intros a k' Hk. cbv beta in Hk.
  eapply wlp_mono; [apply Hf| |done]. intros b k2 Hk2. cbv beta in Hk2. lia.
Qed.
Lemma calm_ret P {A} (a : A) : calm P (mret a).
Proof. intros k. apply wlp_ret. lia. Qed.
Lemma calm_leaves v {A} (m : K A) : leaves (S := S) v m -> calm True m.
Proof. intros Hm k. eapply wlp_mono; [by apply leaves_next|by intros ? ? []|done]. Qed.
Lemma calm_obj_put P o : calm P (obj_put o).
Proof.
  intros k. unfold wlp. destruct o as [p|]; cbn [obj_put]; run; [|lia].
  destruct (objs k !! p) as [n|]; [|done]. run. destruct (_ =? 0); unfold emit; run; proj; lia.
Qed.
Lemma calm_drop_file P o : calm P (drop_file o).
Proof. apply calm_bind; [intros k; unfold wlp, emit; run; proj; lia|intros ?; apply calm_obj_put]. Qed.
Lemma calm_obj_get P o : calm P (obj_get o).
Proof.
  intros k. unfold wlp. destruct o as [p|]; cbn [obj_get]; run; [|lia].
  destruct (objs k !! p) as [n|]; [|done]. run. proj. lia.
Qed.

(** What the listenings depend on. *)
Definition same_listen w w' : Prop := ccn w' = ccn w /\ tsocks w' = tsocks w /\ next (kern w) <= next (kern w').
Lemma wlp_lift P {A} (m : K A) Q w :
  calm P m -> (forall a w', same_listen w w' -> Q a w') -> wlp (lift m) Q (fun _ _ => P) w.
Proof.
  intros Hm HQ. specialize (Hm (kern w)). unfold wlp, lift in *. destruct (m (kern w)) as [a k|s k|]; [|done..].
  apply HQ. by split.
Qed.
Lemma wlp_ask P Q w : (forall a w', same_listen w w' -> Q a w') -> wlp (lift ask) Q (fun _ _ => P) w.
Proof. intros HQ. apply wlp_lift; [|done]. intros k. unfold wlp, ask. run. proj. lia. Qed.
Lemma wlp_fresh P Q w :
  (forall p w', same_listen w w' -> next (kern w) <= p < next (kern w') -> Q p w') -> wlp (lift fresh) Q (fun _ _ => P) w.
Proof. intros HQ. unfold wlp, lift, fresh. run. apply HQ; [split; [done|split; [done|]]|]; cbn; lia. Qed.
Lemma wlp_obj_new P Q w :
  (forall o w', same_listen w w' -> (forall p, o = Some p -> next (kern w) <= p < next (kern w')) -> Q o w') ->
  wlp (lift obj_new) Q (fun _ _ => P) w.
Proof.
  intros HQ. unfold wlp, lift, obj_new, ask, fresh. run. destruct (a_ok _).
  - run. apply HQ; [split; [done|split; [done|]]|]; cbn; [lia|]. intros p [= <-]. lia.
  - apply HQ; [split; [done|split; [done|]]|done]. cbn. lia.
Qed.

(** ** The invariant *)

Definition sock_of (ts : gmap Z tcmi_sock) (p : Z) : option Z := ts !! p ≫= ts_sock.

(** The references of the listenings: one for the slot, one for each thread that [held] it. *)
Definition counted (v : tcmi_slotvec) (held : list Z) w : Prop :=
  slotvec_wf v /\
  (forall p t, tsocks w !! p = Some t -> ts_ref t = times p (nodes v ++ held) /\ 1 <= ts_ref t /\ p < next (kern w)) /\
  (forall p, p ∈ nodes v ++ held -> is_Some (tsocks w !! p)) /\
  (forall p s, sock_of (tsocks w) p = Some s -> s < next (kern w)).

(** The sleepers: one on the socket of each of [ls]. *)
Definition slept (ls : list Z) w : Prop :=
  waits (ccn w) = sleepers (ccn w) /\
  (Some <$> (sleepers (ccn w)).*2) ≡ₚ sock_of (tsocks w) <$> ls /\
  NoDup (sleepers (ccn w)).*2 /\ NoDup (sleepers (ccn w)).*1 /\
  (forall x, x ∈ (sleepers (ccn w)).*1 -> x < next (kern w)).

Definition listen_inv (held : list Z) w : Prop :=
  exists v, listenings (ccn w) = Some v /\ counted v held w /\ slept (nodes v) w.

Lemma counted_same v held w w' : counted v held w -> same_listen w w' -> counted v held w'.
Proof.
  intros (Hv & Hc & Hl & Hs) (_ & Ht & Hn). unfold counted. rewrite Ht. split; [done|]. split_and!; [|done|].
  - intros p t Hp. destruct (Hc p t Hp) as (? & ? & ?). split_and!; [done|done|lia].
  - intros p s Hp. specialize (Hs p s Hp). lia.
Qed.
Lemma slept_same ls w w' : slept ls w -> same_listen w w' -> slept ls w'.
Proof.
  intros (Hw & Hp & Hd & Hd1 & Hb) (Hcc & Ht & Hn). unfold slept. rewrite Hcc, Ht. split_and!; try done.
  intros x Hx. specialize (Hb x Hx). lia.
Qed.
Lemma listen_inv_same held w w' : listen_inv held w -> same_listen w w' -> listen_inv held w'.
Proof.
  intros (v & Hv & Hc & Hs) Hw. exists v. split_and!; [|by eapply counted_same|by eapply slept_same].
  by destruct Hw as [-> _].
Qed.

(** Changing the references of one listening. *)
Lemma sock_of_ref ts l t n p : ts !! l = Some t -> sock_of (<[l := ts_set_ref n t]> ts) p = sock_of ts p.
Proof.
  intros Hl. unfold sock_of. destruct (decide (p = l)) as [-> |Hne].
  - by rewrite lookup_insert_eq, Hl.
  - by rewrite lookup_insert_ne.
Qed.
Lemma counted_ref v held held' l t n w w' :
  counted v held w -> tsocks w !! l = Some t -> 1 <= n -> n - ts_ref t = times l held' - times l held ->
  (forall p, p <> l -> times p held' = times p held) -> (forall p, p ∈ held' -> p ∈ l :: held) ->
  tsocks w' = <[l := ts_set_ref n t]> (tsocks w) -> kern w' = kern w -> counted v held' w'.
Proof.
  intros (Hv & Hc & Hl & Hs) Ht Hn Hd Ho Hi Hw Hk. unfold counted. rewrite Hw, Hk.
  destruct (Hc l t Ht) as (Hr & _ & Hb). rewrite times_app in Hr. split; [done|]. split_and!.
  - intros p t'. destruct (decide (p = l)) as [-> |Hne].
    + rewrite lookup_insert_eq. intros [= <-]. cbn. rewrite times_app. lia.
    + rewrite lookup_insert_ne by done. intros Hp. rewrite times_app, Ho by done. rewrite <- times_app. by apply Hc.
  - intros p Hp. destruct (decide (p = l)) as [-> |Hne]; [by rewrite lookup_insert_eq|]. rewrite lookup_insert_ne by done.
    apply Hl. apply elem_of_app in Hp as [Hp|Hp]; [set_solver|]. apply Hi in Hp. set_solver.
  - intros p s. rewrite sock_of_ref by done. apply Hs.
Qed.
Lemma slept_ext ls w w' :
  slept ls w -> ccn w' = ccn w -> kern w' = kern w ->
  (forall p, p ∈ ls -> sock_of (tsocks w') p = sock_of (tsocks w) p) -> slept ls w'.
Proof.
  intros (Hw & Hp & Hd & Hd1 & Hb) Hc Hk He. unfold slept. rewrite Hc, Hk. split_and!; try done. rewrite Hp.
  clear -He. induction ls as [|l ls IH]; [done|]. cbn. rewrite He by set_solver. f_equiv. apply IH. set_solver.
Qed.

(** The last reference is put: the listening is released and freed. *)
Lemma counted_delete v held l w w' :
  counted v (l :: held) w -> l ∉ nodes v ++ held -> same_listen w w' -> counted v held (set_tsocks (delete l) w').
Proof.
  intros Hc0 Hl Hw. destruct (counted_same _ _ _ _ Hc0 Hw) as (Hv & Hc & Hi & Hs). split; [done|]. split_and!.
  - intros p t Hp. cbn in Hp |- *. apply lookup_delete_Some in Hp as [Hne Hp]. destruct (Hc p t Hp) as (Hr & ? & ?).
    split_and!; [|done|done]. by rewrite Hr, !times_app, times_cons, decide_False.
  - intros p Hp. cbn. rewrite lookup_delete_ne by (intros ->; done). apply Hi. set_solver.
  - intros p s. cbn. unfold sock_of. destruct (decide (p = l)) as [-> |Hne]; [by rewrite lookup_delete_eq|].
    rewrite lookup_delete_ne by done. apply Hs.
Qed.

Lemma wlp_tsock G l Q w : (forall t, tsocks w !! l = Some t -> Q t w) -> wlp (tsock l) Q G w.
Proof. intros HQ. unfold wlp, tsock. run. destruct (tsocks w !! l); [by apply HQ|done]. Qed.
Lemma wlp_sock_put P v held l ls w Q :
  counted v (l :: held) w -> slept ls w -> (forall p, p ∈ ls -> p ∈ nodes v ++ held) ->
  (forall w', counted v held w' -> slept ls w' -> listenings (ccn w') = listenings (ccn w) -> Q tt w') ->
  wlp (tcmi_sock_put (Some l)) Q (fun _ _ => P) w.
Proof.
  intros Hc Hs Hls HQ. cbn [tcmi_sock_put]. apply wlp_bind, wlp_tsock. intros t Ht. pose proof Hc as (Hv & Hr & Hl & Hb).
  destruct (Hr l t Ht) as (Htr & _ & _). rewrite times_app, times_cons, decide_True in Htr by done.
  pose proof (times_nonneg l (nodes v)). pose proof (times_nonneg l held).
  destruct (ts_ref t - 1 =? 0) eqn:E; cbn [negb].
  - assert (Hout : l ∉ nodes v ++ held) by (intros Hin; apply times_pos in Hin; rewrite times_app in Hin; lia).
    do 5 (apply wlp_bind; apply wlp_lift; [apply calm_drop_file || apply calm_obj_put|]; let w := fresh "w" in
      intros _ w ?). cbn beta. unfold wlp. run.
    assert (Hw : same_listen w w4) by (unfold same_listen in *; intuition (congruence || lia)).
    apply HQ; [by apply (counted_delete v held l w)| |by destruct Hw as [<- _]].
    eapply slept_ext; [eapply slept_same; [exact Hs|exact Hw]|done|done|]. intros p Hp. cbn. unfold sock_of.
    rewrite lookup_delete_ne; [done|]. intros ->. by apply Hout, Hls.
  - unfold wlp. run. apply HQ; [|apply (slept_ext ls w); [done..|]|done].
    + eapply counted_ref; [exact Hc|exact Ht| | | | |reflexivity|reflexivity].
      * lia.
      * rewrite times_cons, decide_True by done. lia.
      * intros p Hp. rewrite times_cons, decide_False by done. lia.
      * set_solver.
    + intros p _. by apply sock_of_ref.
Qed.

Lemma wlp_sock_get P v held l ls w Q :
  counted v held w -> slept ls w ->
  (forall w', counted v (l :: held) w' -> slept ls w' -> listenings (ccn w') = listenings (ccn w) -> Q (Some l) w') ->
  wlp (tcmi_sock_get (Some l)) Q (fun _ _ => P) w.
Proof.
  intros Hc Hs HQ. cbn [tcmi_sock_get]. unfold wlp, tsock. run. destruct (tsocks w !! l) as [t|] eqn:Ht; [|done]. run.
  destruct Hc as (Hv & Hr & Hl & Hb). destruct (Hr l t Ht) as (Htr & Hpos & _).
  apply HQ; [|apply (slept_ext ls w); [done..|]|done].
  - eapply counted_ref; [by split| exact Ht| | | | |reflexivity|reflexivity].
    + lia.
    + rewrite times_cons, decide_True by done. lia.
    + intros p Hp. rewrite times_cons, decide_False by done. lia.
    + set_solver.
  - intros p _. by apply sock_of_ref.
Qed.

(** ** Sleepers *)

Definition matching (l : list (Z * Z)) (sock : option Z) : list Z := (filter (fun y => Some y.2 = sock) l).*1.

Lemma remove_matching_spec l sock w :
  exists w', remove_matching l sock w = Ret tt w' /\ kern w' = kern w /\ tsocks w' = tsocks w /\
    listenings (ccn w') = listenings (ccn w) /\
    sleepers (ccn w') = filter (fun x => x.1 ∉ matching l sock) (sleepers (ccn w)) /\
    waits (ccn w') = filter (fun x => x.1 ∉ matching l sock) (waits (ccn w)).
Proof.
  revert w. induction l as [|s l IH]; intros w; cbn [remove_matching].
  - exists w. split_and!; try done; symmetry; apply filter_all; intros x _; apply not_elem_of_nil.
  - unfold kkc_sock_sleeper_remove_match. unfold matching. rewrite filter_cons. unfold mbind, eff_bind.
    destruct (decide (Some s.2 = sock)) as [Hs|Hs].
    + rewrite bool_decide_eq_true_2 by done. unfold kkc_sock_sleeper_remove. run.
      edestruct IH as (w' & Hr & Hk & Ht & Hv & Hsl & Hwt). exists w'. split; [exact Hr|]. split_and!; try done.
      * rewrite Hsl. cbn. rewrite list_filter_filter. apply list_filter_iff. intros x. rewrite not_elem_of_cons.
        unfold matching. tauto.
      * rewrite Hwt. cbn. rewrite list_filter_filter. apply list_filter_iff. intros x. rewrite not_elem_of_cons.
        unfold matching. tauto.
    + rewrite bool_decide_eq_false_2 by done. apply IH.
Qed.

(** With distinct sleepers, those of the socket leave. *)
Lemma filter_matching (l : list (Z * Z)) sock :
  NoDup l.*1 -> filter (fun x => x.1 ∉ matching l sock) l = filter (fun x => Some x.2 <> sock) l.
Proof.
  intros Hd. apply filter_on. intros x Hx. unfold matching. split.
  - intros Hm He. apply Hm. apply list_elem_of_fmap. exists x. split; [done|]. by apply list_elem_of_filter.
  - intros He Hm. apply list_elem_of_fmap in Hm as (y & Hy & Hm). apply list_elem_of_filter in Hm as [Hm Hin].
    assert (x = y); [|congruence]. apply list_elem_of_lookup in Hx as [i Hi]. apply list_elem_of_lookup in Hin as [j Hj].
    assert (i = j); [|congruence]. eapply NoDup_lookup; [exact Hd| |]; rewrite list_lookup_fmap; [rewrite Hi|rewrite Hj; cbn; rewrite <- Hy]; done.
Qed.

Lemma filter_socks (k : option Z) (l : list (Z * Z)) :
  Some <$> (filter (fun x => Some x.2 <> k) l).*2 = filter (fun o => o <> k) (Some <$> l.*2).
Proof. induction l as [|x l IH]; [done|]. rewrite !fmap_cons, !filter_cons. repeat case_decide; rewrite ?fmap_cons, IH; done. Qed.

Lemma slept_filter l ls w w' :
  slept (l :: ls) w -> next (kern w) <= next (kern w') -> tsocks w' = tsocks w ->
  sleepers (ccn w') = filter (fun x => Some x.2 <> sock_of (tsocks w) l) (sleepers (ccn w)) ->
  waits (ccn w') = sleepers (ccn w') -> slept ls w'.
Proof.
  intros (Hw & Hp & Hd & Hd1 & Hb) Hn Ht Hs Hw'. unfold slept. rewrite Hw', Hs, Ht. cbn in Hp.
  assert (Hsub : forall B (f : Z * Z -> B), f <$> filter (fun x => Some x.2 <> sock_of (tsocks w) l) (sleepers (ccn w))
            `sublist_of` f <$> sleepers (ccn w)) by (intros; apply fmap_sublist, sublist_filter).
  split_and!; [done| | | |].
  - rewrite filter_socks, Hp, filter_cons, decide_False by (intros Hx; by apply Hx).
    rewrite filter_all; [done|]. assert (Hnd : NoDup (sock_of (tsocks w) l :: (sock_of (tsocks w) <$> ls))).
    { rewrite <- Hp. by apply NoDup_fmap_2; [intros ? ? [=]|]. }
    apply NoDup_cons in Hnd as [Hnin _]. intros x Hx ->. done.
  - eapply sublist_NoDup; [exact Hd|apply Hsub].
  - eapply sublist_NoDup; [exact Hd1|apply Hsub].
  - intros x Hx. assert (x < next (kern w)); [|lia]. apply Hb. eapply sublist_subseteq, Hx. apply Hsub.
Qed.

Lemma wlp_remove_sleepers P v held l ls w Q :
  counted v held w -> slept (l :: ls) w ->
  (forall w', counted v held w' -> slept ls w' -> listenings (ccn w') = listenings (ccn w) -> Q tt w') ->
  wlp (tcmi_ccnman_remove_sleepers l) Q (fun _ _ => P) w.
Proof.
  intros Hc Hs HQ. unfold tcmi_ccnman_remove_sleepers, tcmi_sock_kkc_sock_get. do 2 apply wlp_bind. apply wlp_tsock.
  intros t Ht. apply wlp_ret. unfold wlp, the_ccn. unfold mbind at 1, eff_bind at 1. cbn [gets].
  destruct (remove_matching_spec (sleepers (ccn w)) (ts_sock t) w) as (w' & -> & Hk & Hts & Hv & Hsl & Hwt).
  assert (Hd1 : NoDup (sleepers (ccn w)).*1) by apply Hs. rewrite filter_matching in Hsl by done.
  assert (Hwt' : waits (ccn w') = sleepers (ccn w')).
  { rewrite Hwt, Hsl, (proj1 Hs). by apply filter_matching. }
  apply HQ; [|eapply (slept_filter l); [exact Hs|by rewrite Hk|done| |done]|done].
  - destruct Hc as (? & ? & ? & ?). unfold counted. by rewrite Hk, Hts.
  - rewrite Hsl. unfold sock_of. by rewrite Ht.
Qed.

(** ** Stopping *)

#[local] Instance slept_perm : Proper ((≡ₚ) ==> eq ==> iff) slept.
Proof. intros l l' Hl w ? <-. unfold slept. by rewrite Hl. Qed.

(** A listening that left its slot is put. *)
Lemma wlp_release P v v' l held w Q :
  counted v held w -> slept (nodes v) w -> slotvec_wf v' -> nodes v ≡ₚ l :: nodes v' ->
  (forall w', counted v' held w' -> slept (nodes v') w' -> listenings (ccn w') = listenings (ccn w) -> Q tt w') ->
  wlp (tcmi_ccnman_remove_sleepers l;; tcmi_sock_put (Some l)) Q (fun _ _ => P) w.
Proof.
  intros (_ & Hr & Hl & Hb) Hs Hv' Hp HQ. rewrite Hp in Hs. apply wlp_bind.
  assert (Hp' : nodes v ++ held ≡ₚ nodes v' ++ l :: held) by (rewrite Hp; cbn; apply Permutation_middle).
  eapply (wlp_remove_sleepers P v' (l :: held) l (nodes v')); [|done|].
  - split; [done|]. split_and!; [|intros p Hin; apply Hl; by rewrite Hp'|done]. intros p t Ht. rewrite <- Hp'. by apply Hr.
  - intros w1 Hc1 Hs1 Hv1. eapply (wlp_sock_put P v' held l (nodes v')); [done|done|set_solver|].
    intros w2 Hc2 Hs2 Hv2. apply HQ; congruence.
Qed.

Lemma wf_empty v : slotvec_wf v -> used_slots v = [] -> nodes v = [].
Proof.
  intros Hv Hu. destruct (nodes v) as [|n l] eqn:E; [done|]. exfalso.
  assert (Hn : n ∈ nodes v) by (rewrite E; by left). apply elem_of_nodes in Hn as [i Hi].
  assert (Hx : i ∈ used_slots v) by (apply (wf_used _ Hv); intros Hi'; rewrite Hi' in Hi; by apply elem_of_nil in Hi).
  rewrite Hu in Hx. by apply elem_of_nil in Hx.
Qed.

Lemma wlp_listen_vec G Q w : (forall v, listenings (ccn w) = Some v -> Q v w) -> wlp listen_vec Q G w.
Proof. intros HQ. unfold wlp, listen_vec, the_ccn. run. destruct (listenings (ccn w)); [by apply HQ|done]. Qed.
Lemma wlp_node_valid {A} (o : option A) G Q w : (forall a, o = Some a -> Q a w) -> wlp (valid o) Q G w.
Proof. intros HQ. unfold wlp. destruct o; [by apply HQ|done]. Qed.
Lemma wlp_modify f G Q w : Q tt (f w) -> wlp (modify f) Q G w.
Proof. done. Qed.
Lemma wlp_set_listen_vec v G Q w : Q tt (set_ccn (cn_set_vec (Some v)) w) -> wlp (set_listen_vec v) Q G w.
Proof. done. Qed.

Lemma wlp_assoc {A B C} (m : N A) (f : N B) (g : B -> N C) Q G w :
  wlp ((m;; f) ≫= g) Q G w -> wlp (m;; (f ≫= g)) Q G w.
Proof. unfold wlp, mbind, eff_bind. by destruct (m w). Qed.

(** The loop takes a listening out in each round, so it ends when the slots are empty. *)
Lemma wlp_stop_loop P fuel held v w :
  listenings (ccn w) = Some v -> counted v held w -> slept (nodes v) w -> (length (nodes v) <= fuel)%nat ->
  wlp (stop_listen_loop fuel)
    (fun _ w' => exists v', listenings (ccn w') = Some v' /\ counted v' held w' /\ slept [] w' /\
       nodes v' = [] /\ used_slots v' = []) (fun _ _ => P) w.
Proof.
  revert v w. induction fuel as [|fuel IH]; intros v w Hv Hc Hs Hf; cbn [stop_listen_loop];
    apply wlp_bind, wlp_listen_vec; intros v1 Hv1; rewrite Hv in Hv1; injection Hv1 as <-;
    unfold tcmi_slotvec_empty; destruct (used_slots v) as [|i us] eqn:Eu.
  1, 3: apply wlp_ret; pose proof (wf_empty v (proj1 Hc) Eu) as Hn; rewrite Hn in Hs; by exists v.
  - destruct (remove_one_entry_spec v (proj1 Hc)) as (n & v' & _ & _ & Hp & _); [by rewrite Eu|].
    apply Permutation_length in Hp. rewrite length_cons in Hp. lia.
  - apply wlp_bind, wlp_node_valid. intros v1 Hl. unfold tcmi_slot_lock in Hl. destruct (s_lock v); [done|]. injection Hl as <-.
    destruct (remove_one_entry_spec (set_lock true v)) as (n & v' & -> & Hwf & Hp & _);
      [apply wf_set_lock, Hc|cbn; by rewrite Eu|].
    apply wlp_bind, wlp_set_listen_vec. change (nodes (set_lock true v)) with (nodes v) in Hp.
    apply wlp_bind. eapply (wlp_release P v (tcmi_slot_unlock v') n held); [exact Hc|exact Hs|by apply wf_set_lock|exact Hp|].
    intros w2 Hc2 Hs2 Hv2. apply (IH (tcmi_slot_unlock v')); [done..|]. apply Permutation_length in Hp. rewrite length_cons in Hp.
    change (nodes (tcmi_slot_unlock v')) with (nodes v'). lia.
Qed.

(** [m] keeps the invariant whatever other threads hold. *)
Definition keeps_listenings {A} (m : N A) : Prop :=
  forall held w, listen_inv held w -> wlp m (fun _ => listen_inv held) (fun _ _ => True) w.

Lemma stop_all_keeps n : keeps_listenings (tcmi_ccnman_stop_listen_all n).
Proof.
  intros held w (v & Hv & Hc & Hs). unfold tcmi_ccnman_stop_listen_all. destruct (n =? 0); [by exists v|].
  apply wlp_bind, wlp_listen_vec. intros v1 Hv1. rewrite Hv in Hv1. injection Hv1 as <-.
  apply wlp_bind. eapply wlp_mono; [by eapply (wlp_stop_loop True)| |done]. intros _ w' (v' & Hv' & Hc' & Hs' & Hn & _).
  apply wlp_ret. exists v'. by rewrite Hn.
Qed.

Lemma stop_one_keeps n : keeps_listenings (tcmi_ccnman_stop_listen_one n).
Proof.
  intros held w (v & Hv & Hc & Hs). unfold tcmi_ccnman_stop_listen_one.
  apply wlp_bind, wlp_listen_vec. intros v1 Hv1. rewrite Hv in Hv1. injection Hv1 as <-.
  apply wlp_bind, wlp_node_valid. intros v1 Hl. unfold tcmi_slot_lock in Hl. destruct (s_lock v); [done|]. injection Hl as <-.
  apply wlp_bind, wlp_set_listen_vec. pose proof (proj1 Hc) as Hwf.
  destruct (tcmi_slotvec_at _ _) as [slot|] eqn:Eat.
  2: { apply wlp_bind, wlp_set_listen_vec, wlp_ret. eexists. split; [reflexivity|].
       split; [split; [apply wf_set_lock, wf_set_lock, Hwf|apply Hc]|exact Hs]. }
  unfold tcmi_slot_remove_first. destruct (items (set_lock true v) slot) as [|l ls] eqn:Ei.
  - apply wlp_bind, wlp_set_listen_vec, wlp_ret. eexists. split; [reflexivity|].
    split; [split; [apply wf_set_lock, wf_set_lock, Hwf|apply Hc]|exact Hs].
  - apply wlp_bind, wlp_set_listen_vec.
    assert (Hl : l ∈ items v slot) by (rewrite <- (items_set_lock true), Ei; by left).
    destruct (slot_remove_node (set_lock true v) slot l) as (Hwf' & Hp & _); [apply wf_set_lock, Hwf|by rewrite items_set_lock|].
    change (nodes (set_lock true v)) with (nodes v) in Hp.
    apply (wlp_assoc (tcmi_ccnman_remove_sleepers l)), wlp_bind.
    eapply (wlp_release True v (tcmi_slot_unlock (__tcmi_slot_remove slot l (set_lock true v))) l held);
      [exact Hc|exact Hs|by apply wf_set_lock|exact Hp|].
    intros w2 Hc2 Hs2 Hv2. apply wlp_ret. eexists. split; [exact Hv2|by split].
Qed.

(** ** Listening *)

Lemma same_listen_refl w : same_listen w w.
Proof. split; [done|]. split; [done|lia]. Qed.
Lemma same_listen_trans w1 w2 w3 : same_listen w1 w2 -> same_listen w2 w3 -> same_listen w1 w3.
Proof. unfold same_listen. intuition (congruence || lia). Qed.

Ltac chain := repeat (eapply same_listen_trans; [eassumption|]); apply same_listen_refl.

(** A new listening: an object with one reference, or nothing. *)
Lemma wlp_sock_new P ks Q w :
  (forall o w', ccn w' = ccn w -> next (kern w) <= next (kern w') ->
     match o with
     | None => tsocks w' = tsocks w
     | Some p => exists t, tsocks w' = <[p := t]> (tsocks w) /\ ts_ref t = 1 /\ ts_sock t = ks /\ next (kern w) <= p < next (kern w')
     end -> Q o w') -> wlp (tcmi_sock_new ks) Q (fun _ _ => P) w.
Proof.
  intros HQ.
  assert (HN : forall w', same_listen w w' -> Q None w') by (intros w' (? & ? & ?); by apply HQ).
  assert (Hput : forall o w', same_listen w w' -> wlp (lift (obj_put o);; mret None) Q (fun _ _ => P) w').
  { intros o w' Hw. apply wlp_bind, wlp_lift; [apply calm_obj_put|]. intros _ w2 Hw2. apply wlp_ret, HN. chain. }
  unfold tcmi_sock_new. apply wlp_bind, wlp_ask. intros a w1 Hw1. destruct (a_ok a); cbn [negb]; [|apply wlp_ret, HN; chain].
  apply wlp_bind, wlp_fresh. intros p w2 Hw2 Hp. apply wlp_bind, wlp_lift; [apply calm_obj_get|]. intros _ w3 Hw3.
  assert (H3 : same_listen w w3) by chain.
  assert (Hp3 : next (kern w) <= p < next (kern w3)) by (unfold same_listen in *; lia). clear w1 Hw1 w2 Hw2 Hw3 Hp.
  apply wlp_bind, wlp_obj_new. intros [d|] w4 Hw4 _; [|apply Hput; chain].
  apply wlp_bind, wlp_obj_new. intros [fs|] w5 Hw5 _.
  2: { apply wlp_bind, wlp_lift; [apply calm_obj_put|]. intros _ w6 Hw6. apply Hput. chain. }
  apply wlp_bind, wlp_obj_new. intros [fp|] w6 Hw6 _.
  2: { apply wlp_bind, wlp_lift; [apply calm_drop_file|]. intros _ w7 Hw7. apply wlp_bind, wlp_lift; [apply calm_obj_put|].
       intros _ w8 Hw8. apply Hput. chain. }
  apply wlp_bind, wlp_obj_new. intros [fa|] w7 Hw7 _.
  2: { apply wlp_bind, wlp_lift; [apply calm_drop_file|]. intros _ w8 Hw8. apply wlp_bind, wlp_lift; [apply calm_drop_file|].
       intros _ w9 Hw9. apply wlp_bind, wlp_lift; [apply calm_obj_put|].
       intros _ w10 Hw10. apply Hput. chain. }
  assert (H7 : same_listen w3 w7) by chain.
  destruct H3 as (Hc3 & Ht3 & Hn3), H7 as (Hc7 & Ht7 & Hn7). unfold wlp. run.
  apply HQ; cbn; [congruence|lia|]. eexists. split; [by rewrite Ht7, Ht3|]. split_and!; [done|done|lia|lia].
Qed.

(** A slot that was reserved is given back. *)
Lemma wlp_unreserve P v slot held (err : Z) w :
  listenings (ccn w) = Some v -> counted v held w -> slept (nodes v) w ->
  (slot < length (slots v))%nat -> items v slot = [] ->
  wlp (v ← listen_vec; set_listen_vec (tcmi_slot_move_unused slot v);; mret err) (fun _ => listen_inv held) (fun _ _ => P) w.
Proof.
  intros Hv Hc Hs Hl He. apply wlp_bind, wlp_listen_vec. intros v1 Hv1. rewrite Hv in Hv1. injection Hv1 as <-.
  apply wlp_bind, wlp_set_listen_vec, wlp_ret. eexists. split; [reflexivity|]. split; [|exact Hs].
  split; [apply wf_move_unused; [done|done|apply Hc]|apply Hc].
Qed.

(** The new listening enters its slot, its sleeper the list. *)
Lemma enter_listening v v' held t sk x sl w w' :
  counted v held w -> slept (nodes v) w -> slotvec_wf v' -> nodes v' ≡ₚ t :: nodes v ->
  tsocks w' = <[t := x]> (tsocks w) -> ts_ref x = 1 -> ts_sock x = Some sk ->
  next (kern w) <= t < next (kern w') -> next (kern w) <= sk < next (kern w') -> next (kern w) <= sl < next (kern w') ->
  sleepers (ccn w') = (sl, sk) :: sleepers (ccn w) -> waits (ccn w') = (sl, sk) :: sleepers (ccn w) ->
  counted v' held w' /\ slept (nodes v') w'.
Proof.
  intros (Hv & Hr & Hl & Hb) (Hw & Hp & Hd & Hd1 & Hbs) Hv' Hn Ht Hx Hsk Bt Bk Bl Hsl Hwt.
  assert (Hfresh : forall p, p ∈ nodes v ++ held -> p <> t).
  { intros p Hin. destruct (Hl p Hin) as [y Hy]. destruct (Hr p y Hy) as (_ & _ & ?). lia. }
  assert (Hso : forall p, p <> t -> sock_of (tsocks w') p = sock_of (tsocks w) p).
  { intros p Hne. unfold sock_of. by rewrite Ht, lookup_insert_ne. }
  assert (Hst : sock_of (tsocks w') t = Some sk) by (unfold sock_of; by rewrite Ht, lookup_insert_eq).
  assert (Hmap : sock_of (tsocks w') <$> nodes v = sock_of (tsocks w) <$> nodes v).
  { apply list_fmap_ext. intros i p Hi. apply Hso, Hfresh. apply elem_of_app. left. by eapply list_elem_of_lookup_2. }
  split.
  - split; [done|]. split_and!.
    + intros p y. rewrite Ht. rewrite times_app, Hn, times_cons, <- Z.add_assoc, <- times_app. intros Hy.
      apply lookup_insert_Some in Hy as [[<- <-]|[Hne Hy]].
      * rewrite decide_True by done. assert (times t (nodes v ++ held) = 0); [|lia].
        pose proof (times_nonneg t (nodes v ++ held)). destruct (decide (t ∈ nodes v ++ held)) as [Hin|Hout].
        -- by apply Hfresh in Hin.
        -- rewrite times_pos in Hout. lia.
      * rewrite decide_False by congruence. destruct (Hr p y Hy) as (? & ? & ?). lia.
    + intros p. rewrite Hn. intros Hin. rewrite Ht. destruct (decide (p = t)) as [-> |Hne]; [by rewrite lookup_insert_eq|].
      rewrite lookup_insert_ne by done. apply Hl. set_solver.
    + intros p s. destruct (decide (p = t)) as [-> |Hne]; [rewrite Hst; intros [= <-]; lia|]. rewrite Hso by done.
      intros Hs. specialize (Hb p s Hs). lia.
  - unfold slept. rewrite Hsl, Hwt. split_and!; [done| | | |].
    + rewrite Hn. cbn. rewrite Hst, Hmap, Hp. done.
    + cbn. apply NoDup_cons. split; [|done]. intros Hin.
      assert (Hin' : Some sk ∈ Some <$> (sleepers (ccn w)).*2) by (by apply list_elem_of_fmap_2).
      rewrite Hp in Hin'. apply list_elem_of_fmap in Hin' as (p & Hps & _). symmetry in Hps. apply Hb in Hps. lia.
    + cbn. apply NoDup_cons. split; [|done]. intros Hin. specialize (Hbs sl Hin). lia.
    + cbn. intros y [-> |Hy]%elem_of_cons; [lia|]. specialize (Hbs y Hy). lia.
Qed.

(** A sleeper that was added and is taken away again. *)
Lemma sleeper_back v held sl sk w w' :
  slept (nodes v) w -> counted v held w -> next (kern w) <= sl -> next (kern w) <= next (kern w') ->
  tsocks w' = tsocks w -> ccn w' = cn_set_sleepers (sleepers (ccn w)) ((sl, sk) :: waits (ccn w)) (ccn w) ->
  forall w2, kkc_sock_sleeper_remove sl w' = Ret tt w2 ->
    counted v held w2 /\ slept (nodes v) w2 /\ listenings (ccn w2) = listenings (ccn w).
Proof.
  intros (Hw & Hp & Hd & Hd1 & Hb) Hc Bl Hn Ht Hcc w2. unfold kkc_sock_sleeper_remove. run. intros [= <-].
  assert (Hsl : filter (fun x => x.1 <> sl) (sleepers (ccn w)) = sleepers (ccn w)).
  { apply filter_all. intros x Hx Heq. assert (Hin : sl ∈ (sleepers (ccn w)).*1) by (rewrite <- Heq; by apply list_elem_of_fmap_2).
    specialize (Hb sl Hin). lia. }
  split_and!; [|unfold slept; cbn|cbn; by rewrite Hcc].
  - destruct Hc as (Hv & Hr & Hl & Hso). unfold counted. cbn. rewrite Ht. split_and!; [done| |done|].
    + intros p t Hp'. destruct (Hr p t Hp') as (? & ? & ?). lia.
    + intros p s Hs. specialize (Hso p s Hs). lia.
  - rewrite Hcc. cbn [sleepers waits cn_set_sleepers]. rewrite filter_cons, decide_False by (intros Hx; by apply Hx).
    rewrite Hw, Hsl, Ht. split_and!; try done. intros x Hx. specialize (Hb x Hx). lia.
Qed.

Lemma listen_keeps str : keeps_listenings (tcmi_ccnman_listen str).
Proof.
  intros held w (v & Hv & Hc & Hs). unfold tcmi_ccnman_listen.
  apply wlp_bind, wlp_listen_vec. intros v0 Hv0. rewrite Hv in Hv0. injection Hv0 as <-.
  destruct (s_lock v) eqn:El.
  { apply wlp_bind, wlp_node_valid. intros a Ha. unfold tcmi_slotvec_reserve_empty, tcmi_slot_lock in Ha. by rewrite El in Ha. }
  pose proof (reserve_empty_spec v (proj1 Hc) El) as Hr. apply wlp_bind. destruct (unused_slots v) as [|slot un].
  { rewrite Hr. apply wlp_ret, wlp_bind, wlp_set_listen_vec, wlp_ret. by exists v. }
  destruct Hr as (v1 & -> & Hwf & Hl1 & He & _ & _ & Hlen & Hsl & _). apply wlp_ret, wlp_bind, wlp_set_listen_vec.
  assert (Hn1 : nodes v1 = nodes v) by (unfold nodes; by rewrite Hsl).
  assert (He1 : items v1 slot = []) by (unfold items in *; by rewrite Hsl).
  set (w1 := set_ccn _ w). assert (Hv1 : listenings (ccn w1) = Some v1) by done.
  assert (Hc1 : counted v1 held w1) by (destruct Hc as (? & ? & ? & ?); unfold counted; rewrite Hn1; by split).
  assert (Hs1 : slept (nodes v1) w1) by (rewrite Hn1; exact Hs). clearbody w1. clear w v Hv Hc Hs Hn1 Hsl He El un.
  assert (Hback : forall w2 (err : Z), same_listen w1 w2 ->
    wlp (v ← listen_vec; set_listen_vec (tcmi_slot_move_unused slot v);; mret err) (fun _ => listen_inv held) (fun _ _ => True) w2).
  { intros w2 err Hw2. apply (wlp_unreserve _ v1); [|by eapply counted_same|by eapply slept_same|done|done].
    destruct Hw2 as [-> _]. done. }
  apply wlp_bind. unfold kkc_new_sock. apply wlp_bind, wlp_obj_new. intros [sk|] w2 Hw2 Hsk.
  2: { apply wlp_bind, wlp_ask. intros e w3 Hw3. apply wlp_ret, Hback. chain. }
  apply wlp_ret. specialize (Hsk sk eq_refl).
  assert (Hback2 : forall w3 (err : Z), same_listen w1 w3 ->
    wlp (lift (obj_put (Some sk));; (v ← listen_vec; set_listen_vec (tcmi_slot_move_unused slot v);; mret err))
      (fun _ => listen_inv held) (fun _ _ => True) w3).
  { intros w3 err Hw3. apply wlp_bind, wlp_lift; [apply calm_obj_put|]. intros _ w4 Hw4. apply Hback. chain. }
  apply wlp_bind. unfold kkc_sock_sleeper_add. apply wlp_bind, wlp_ask. intros a w3 Hw3.
  destruct (a_ok a); cbn [negb]; [|apply wlp_ret, Hback2; chain].
  apply wlp_bind, wlp_fresh. intros sl w4 Hw4 Hsl. apply wlp_bind, wlp_modify, wlp_ret.
  assert (H14 : same_listen w1 w4) by chain. destruct H14 as (Hcc & Hts & Hnx).
  assert (Bk : next (kern w1) <= sk < next (kern w4)) by (unfold same_listen in *; lia).
  assert (Bl : next (kern w1) <= sl < next (kern w4)) by (unfold same_listen in *; lia).
  set (w5 := set_ccn _ w4).
  apply wlp_bind, wlp_sock_new. intros [t|] w6 Hc6 Hn6 Ht6.
  2: { apply wlp_bind. unfold wlp at 1. destruct (kkc_sock_sleeper_remove sl w6) as [[] w7| |] eqn:Er; [|done..].
       destruct (sleeper_back v1 held sl sk w1 w6 Hs1 Hc1) with (w2 := w7) as (Hc7 & Hs7 & Hv7);
         [lia|cbn in Hn6; lia|cbn in Ht6; congruence|by rewrite Hc6, <- Hcc|exact Er|].
       apply wlp_bind, wlp_lift; [apply calm_obj_put|]. intros _ w8 Hw8.
       apply (wlp_unreserve _ v1); [|by eapply counted_same|by eapply slept_same|done|done].
       destruct Hw8 as [-> _]. congruence. }
  destruct Ht6 as (x & Hts6 & Hx & Hxs & Bt). apply wlp_bind, wlp_modify.
  set (w7 := set_ccn _ w6).
  assert (Hnt : t ∉ nodes v1).
  { intros Hin. destruct Hc1 as (_ & Hr & Hl & _). destruct (Hl t) as [y Hy]; [set_solver|].
    destruct (Hr t y Hy) as (_ & _ & ?). cbn in Bt. lia. }
  destruct (slot_insert_spec slot t v1 Hwf Hl1 Hlen Hnt) as (v2 & Hins & Hwf2 & _ & _ & _ & _ & Hn2 & _).
  assert (Hv7 : listenings (ccn w7) = Some v1) by (cbn; rewrite Hc6; cbn; congruence).
  apply wlp_bind, wlp_listen_vec. intros v3 Hv3. rewrite Hv7 in Hv3. injection Hv3 as <-.
  apply wlp_bind, wlp_node_valid. intros v3 Hv3. rewrite Hins in Hv3. injection Hv3 as <-.
  apply wlp_bind, wlp_set_listen_vec. apply wlp_bind, wlp_lift; [apply calm_obj_put|]. intros _ w9 Hw9.
  apply wlp_ret, (listen_inv_same _ _ _ ) with (2 := Hw9). exists v2. split; [done|].
  apply (enter_listening v1 v2 held t sk x sl w1); try done; cbn in *; try lia.
  - by rewrite Hts6, Hts.
  - rewrite Hc6. cbn. by rewrite Hcc.
  - rewrite Hc6. cbn. by rewrite Hcc, (proj1 Hs1).
Qed.

(** ** The thread of the manager *)

(** Operations that have nothing to do with the listenings. *)
Definition aside {A} (m : N A) : Prop := forall w, wlp m (fun _ w' => same_listen w w') (fun _ _ => True) w.
Lemma aside_bind {A B} (m : N A) (f : A -> N B) : aside m -> (forall a, aside (f a)) -> aside (m ≫= f).
Proof.
  intros Hm Hf w. apply wlp_bind. eapply wlp_mono; [apply Hm| |done]. intros a w1 Hw1.
  eapply wlp_mono; [apply Hf| |done]. intros b w2 Hw2. cbv beta in *. chain.
Qed.
Lemma aside_ret {A} (a : A) : aside (mret a).
Proof. intros w. apply wlp_ret, same_listen_refl. Qed.
Lemma aside_lift {A} (m : K A) : calm True m -> aside (lift m).
Proof. intros Hm w. by apply wlp_lift. Qed.
Lemma aside_leaves {A} (m : K A) : leaves (S := S) unit_view m -> aside (lift m).
Proof. intros Hm. by eapply aside_lift, calm_leaves. Qed.
Lemma aside_valid {A} (o : option A) : aside (valid o).
Proof. intros w. apply wlp_node_valid. intros a _. apply same_listen_refl. Qed.
Lemma aside_gets {A} (f : node S -> A) : aside (gets f).
Proof. intros w. apply same_listen_refl. Qed.
Lemma aside_upd_man c f : aside (upd_man c f).
Proof. intros w. unfold wlp, upd_man. run. by destruct c. Qed.

Lemma leaves_migman_new c n ids slot mp : leaves (S := S) unit_view (migman_new c n ids slot mp).
Proof.
  unfold migman_new, tcmi_migman_init, mm_exit6, mm_exit5, mm_exit4, mm_exit3, tcmi_migman_init_ctlfs_dirs,
    tcmi_migman_init_ctlfs_files, ops_init_ctlfs_files, tcmi_ccnmigman_init_ctlfs_files, tcmi_penmigman_init_ctlfs_files,
    tcmi_migman_stop_ctlfs_files, ops_stop_ctlfs_files, tcmi_ccnmigman_stop_ctlfs_files, tcmi_penmigman_stop_ctlfs_files,
    tcmi_migman_stop_ctlfs_dirs, tcmi_migman_create_symlink, tcmi_migman_start_thread.
  lv.
Qed.

Ltac go_aside :=
  repeat first
    [ apply aside_bind; [|intros ?] | apply aside_ret | apply aside_valid | apply aside_gets | apply aside_upd_man
    | (apply aside_leaves; solve [lv]) | case_match ].

Lemma aside_process_sock during : (forall p, calm True (during p)) -> aside (tcmi_ccnman_process_sock during).
Proof.
  intros Hd. unfold tcmi_ccnman_process_sock, kkc_new_sock, tcmi_man_reserve_migmanslot, tcmi_man_release_migmanslot, tcmi_man_id,
    tcmi_man_migproc_dir, the_man, tcmi_ccnmigman_new, tcmi_ccnmigman_auth_pen, mm_hash, the_man.
  pose proof leaves_migman_new as Hnew.
  go_aside; first [by apply aside_lift | by apply aside_leaves, Hnew].
Qed.

Definition tmp_list (o : option Z) : list Z := match o with Some l => [l] | None => [] end.
(** Somebody who knows the invariant: [v] is the vector, [tmp] is held too. *)
Definition in_pass (tmp : option Z) (held : list Z) (v : tcmi_slotvec) w : Prop :=
  listenings (ccn w) = Some v /\ counted v (tmp_list tmp ++ held) w /\ slept (nodes v) w.
Lemma in_pass_lock tmp held v b w :
  in_pass tmp held v w -> in_pass tmp held (set_lock b v) (set_ccn (cn_set_vec (Some (set_lock b v))) w).
Proof. intros (Hv & (Hwf & Hc) & Hs). split; [done|]. split; [split; [by apply wf_set_lock|exact Hc]|exact Hs]. Qed.

Lemma next_slot_used slot l i : next_slot slot l = Some i -> i ∈ l.
Proof.
  induction l as [|s l IH]; cbn [next_slot]; [done|]. case_bool_decide.
  - destruct l; [done|]. cbn. intros [= ->]. right. by left.
  - intros Hi. right. by apply IH.
Qed.

Lemma wlp_put_tmp tmp held v w Q :
  in_pass tmp held v w -> (forall w', in_pass None held v w' -> Q tt w') -> wlp (tcmi_sock_put tmp) Q (fun _ _ => True) w.
Proof.
  intros (Hv & Hc & Hs) HQ. destruct tmp as [l|]; [|by apply wlp_ret, HQ].
  eapply (wlp_sock_put True v held l (nodes v)); [exact Hc|exact Hs|set_solver|]. intros w' Hc' Hs' Hv'. apply HQ. split; [congruence|by split].
Qed.

Lemma wlp_thread_slots fuel during others slot listening tmp held v w :
  (forall p, calm True (during p)) -> Forall keeps_listenings others ->
  in_pass tmp held v w -> (forall i, slot = Some i -> i ∈ used_slots v) ->
  wlp (thread_slots fuel during others slot listening tmp)
    (fun tmp' w' => exists v', in_pass tmp' held v' w') (fun _ _ => True) w.
Proof.
  intros Hd. revert others slot listening tmp v w.
  induction fuel as [|fuel IH]; intros others slot listening tmp v w Ho Hw Hi; destruct slot as [i|]; cbn [thread_slots]; try done;
    try by (apply wlp_ret; exists v).
  specialize (Hi i eq_refl). apply wlp_bind, (wlp_put_tmp tmp held v); [done|]. intros w1 Hw1. clear w Hw.
  destruct Hw1 as (Hv & Hc & Hs). apply wlp_bind, wlp_listen_vec. intros v0 Hv0. rewrite Hv in Hv0. injection Hv0 as <-.
  apply (wf_used _ (proj1 Hc)) in Hi. unfold tcmi_slot_find_first. destruct (items v i) as [|l ls]; [done|].
  apply wlp_bind. eapply (wlp_sock_get True v held l (nodes v)); [exact Hc|exact Hs|]. intros w2 Hc2 Hs2 Hv2.
  assert (Hw2 : in_pass (Some l) held v w2) by (split; [congruence|by split]). clear Hc Hs Hv Hc2 Hs2 Hv2.
  apply wlp_bind, wlp_set_listen_vec. pose proof (in_pass_lock _ _ _ false _ Hw2) as Hw3.
  apply wlp_bind. eapply wlp_mono; [by apply aside_process_sock| |done]. intros [] w4 Hw4. cbv beta in Hw4.
  assert (H4 : listen_inv (l :: held) w4).
  { destruct Hw3 as (Hv3 & Hc3 & Hs3). exists (set_lock false v). destruct Hw4 as (Hcc & Ht & Hn).
    split; [by rewrite Hcc|]. split; [eapply counted_same; [exact Hc3|by split]|eapply slept_same; [exact Hs3|by split]]. }
  clear Hw4 Hw3 Hw2. apply wlp_bind. apply (wlp_mono _ (fun _ => listen_inv (l :: held)) _ (fun _ _ => True)).
  { destruct others as [|o others]; cbn; [exact H4|]. apply Forall_cons in Ho as [Ho _]. by apply Ho. }
  2: done.
  intros _ w5 (v5 & Hv5 & Hc5 & Hs5). apply wlp_bind, wlp_listen_vec. intros v0 Hv0. rewrite Hv5 in Hv0. injection Hv0 as <-.
  apply wlp_bind, wlp_node_valid. intros v6 Hl. unfold tcmi_slot_lock in Hl. destruct (s_lock v5); [done|]. injection Hl as <-.
  apply wlp_bind, wlp_set_listen_vec.
  assert (Hw6 : in_pass (Some l) held (set_lock true v5) (set_ccn (cn_set_vec (Some (set_lock true v5))) w5))
    by (apply in_pass_lock; split; [done|by split]).
  case_bool_decide; [|apply wlp_ret; by exists (set_lock true v5)].
  eapply IH; [|exact Hw6|intros j; apply next_slot_used]. destruct others; [done|by apply Forall_cons in Ho as [_ ?]].
Qed.

Lemma round_keeps fuel during others listening :
  (forall p, calm True (during p)) -> Forall keeps_listenings others ->
  keeps_listenings (tcmi_ccnman_thread_round fuel during others listening).
Proof.
  intros Hd Ho held w (v & Hv & Hc & Hs). unfold tcmi_ccnman_thread_round.
  apply wlp_bind, wlp_listen_vec. intros v0 Hv0. rewrite Hv in Hv0. injection Hv0 as <-.
  apply wlp_bind, wlp_node_valid. intros v1 Hl. unfold tcmi_slot_lock in Hl. destruct (s_lock v); [done|]. injection Hl as <-.
  apply wlp_bind, wlp_set_listen_vec, wlp_bind. eapply wlp_mono.
  - apply (wlp_thread_slots fuel during others _ listening None held (set_lock true v)); [done|done|apply in_pass_lock; by split|].
    intros i. destruct (used_slots (set_lock true v)); [done|]. intros [= <-]. by left.
  - intros tmp w1 (v1 & Hw1). apply wlp_bind, wlp_listen_vec. intros v2 Hv2. rewrite (proj1 Hw1) in Hv2. injection Hv2 as <-.
    apply wlp_bind, wlp_set_listen_vec. eapply wlp_put_tmp; [by apply in_pass_lock|]. intros w2 (Hv2 & Hc2 & Hs2).
    eexists. split; [exact Hv2|by split].
  - done.
Qed.

(** ** Everything is released *)

Definition tsock_objs (t : tcmi_sock) : list (option Z) := [f_archname t; f_peername t; f_sockname t; d_id t; ts_sock t].
(** Every listening owns its directory, its files and a reference of its socket. *)
Definition owns_all w : Prop := owns (kern w) (map_to_list (tsocks w) ≫= fun x => tsock_objs x.2).

Lemma occ_permuted p os os' : os ≡ₚ os' -> occ p os = occ p os'.
Proof.
  unfold occ. induction 1 as [|x l l' _ IH|x y l|l1 l2 l3 _ IH1 _ IH2]; cbn; [done| | |congruence].
  - case_bool_decide; rewrite ?zlen_cons; lia.
  - repeat case_bool_decide; rewrite ?zlen_cons; lia.
Qed.
Lemma owns_perm k os os' : os ≡ₚ os' -> owns k os -> owns k os'.
Proof. intros Hp Ho p. rewrite <- (occ_permuted p os os' Hp). apply Ho. Qed.

Lemma wp_lift {A} (m : K A) Q G w :
  wp m (fun a k => Q a (settle (set_kern k w))) (fun s k => G s (settle (set_kern k w))) (kern w) -> wp (lift m) Q G w.
Proof. unfold wp, lift. by destruct (m (kern w)). Qed.
Lemma wp_and {A} (m : N A) Q Q' G G' w : wp m Q G w -> wlp m Q' G' w -> wp m (fun a w' => Q a w' /\ Q' a w') (fun s w' => G s w' /\ G' s w') w.
Proof. unfold wp, wlp. destruct (m w); tauto. Qed.

(** Objects that are put one after the other. *)
Lemma wp_lift_put (drop : option Z -> K unit) o os (f : N unit) Q G w :
  drop = drop_file \/ drop = obj_put -> owns (kern w) (o :: os) ->
  (forall w', owns (kern w') os -> tsocks w' = tsocks w -> ccn w' = ccn w -> wp f Q G w') -> wp (lift (drop o);; f) Q G w.
Proof.
  intros Hd Ho HQ. apply wp_bind, wp_lift.
  destruct Hd as [-> | ->]; [eapply wp_drop_file; [exact Ho|]|eapply wp_obj_put; [exact Ho|]].
  all: intros k' _ Ho'; by apply HQ.
Qed.

Lemma wp_sock_put l t w :
  owns_all w -> tsocks w !! l = Some t -> wp (tcmi_sock_put (Some l)) (fun _ w' => owns_all w') (fun _ _ => False) w.
Proof.
  intros Ho Ht. cbn [tcmi_sock_put]. apply wp_bind. unfold wp at 1, tsock. run. rewrite Ht.
  change (wp (if negb (ts_ref t - 1 =? 0) then modify (set_tsocks <[l:=ts_set_ref (ts_ref t - 1) t]>) else
    lift (drop_file (f_archname t));; lift (drop_file (f_peername t));; lift (drop_file (f_sockname t));;
    lift (obj_put (d_id t));; lift (obj_put (ts_sock t));; modify (set_tsocks (delete l))) (fun _ w' => owns_all w') (fun _ _ => False) w).
  assert (Hp : (map_to_list (tsocks w) ≫= fun x => tsock_objs x.2) ≡ₚ
    tsock_objs t ++ (map_to_list (delete l (tsocks w)) ≫= fun x => tsock_objs x.2)).
  { rewrite <- (map_to_list_delete _ _ _ Ht). done. }
  destruct (ts_ref t - 1 =? 0); cbn [negb].
  - unfold owns_all in Ho. apply (owns_perm _ _ _ Hp) in Ho.
    do 4 (eapply wp_lift_put; [by auto|exact Ho|]; clear Ho; let w := fresh "w" in intros w Ho ? ?).
    eapply wp_lift_put; [by auto|exact Ho|]. intros w5 Ho5 ? ?. unfold wp. run. unfold owns_all. cbn. replace (tsocks w5) with (tsocks w) by congruence. exact Ho5.
  - unfold wp. run. unfold owns_all. cbn. eapply owns_perm; [|exact Ho].
    rewrite Hp, <- insert_delete_eq, map_to_list_insert by apply lookup_delete_eq. done.
Qed.

Lemma wp_remove_sleepers l t w :
  owns_all w -> tsocks w !! l = Some t ->
  wp (tcmi_ccnman_remove_sleepers l) (fun _ w' => owns_all w' /\ tsocks w' = tsocks w) (fun _ _ => False) w.
Proof.
  intros Ho Ht. unfold wp, tcmi_ccnman_remove_sleepers, tcmi_sock_kkc_sock_get, tsock, the_ccn. unfold mbind, eff_bind.
  cbn [gets]. rewrite Ht. cbn [valid]. unfold mret, eff_ret.
  destruct (remove_matching_spec (sleepers (ccn w)) (ts_sock t) w) as (w' & -> & Hk & Hts & _).
  split; [|done]. unfold owns_all. by rewrite Hk, Hts.
Qed.

Lemma wp_release v v' l held w :
  counted v held w -> slept (nodes v) w -> slotvec_wf v' -> nodes v ≡ₚ l :: nodes v' -> owns_all w ->
  wp (tcmi_ccnman_remove_sleepers l;; tcmi_sock_put (Some l))
    (fun _ w' => owns_all w' /\ counted v' held w' /\ slept (nodes v') w' /\ listenings (ccn w') = listenings (ccn w))
    (fun _ _ => False) w.
Proof.
  intros Hc Hs Hv' Hp Ho. destruct (proj1 (proj2 (proj2 Hc)) l) as [t Ht]; [rewrite Hp; set_solver|].
  assert (Hput : wp (tcmi_ccnman_remove_sleepers l;; tcmi_sock_put (Some l)) (fun _ w' => owns_all w') (fun _ _ => False) w).
  { apply wp_bind. eapply wp_mono; [by eapply wp_remove_sleepers| |done]. intros _ w1 [Ho1 Ht1].
    eapply wp_sock_put; [exact Ho1|]. by rewrite Ht1. }
  assert (Hrel := wlp_release True v v' l held w
    (fun _ w' => counted v' held w' /\ slept (nodes v') w' /\ listenings (ccn w') = listenings (ccn w)) Hc Hs Hv' Hp).
  eapply wp_mono; [apply (wp_and _ _ _ _ _ _ Hput (Hrel ltac:(by auto)))| |by intros ? ? []]. by intros [] w' [? ?].
Qed.

Lemma wp_listen_vec v Q G w : listenings (ccn w) = Some v -> Q v w -> wp listen_vec Q G w.
Proof. intros Hv HQ. unfold wp, listen_vec, the_ccn. run. by rewrite Hv. Qed.
Lemma wp_node_valid {A} (o : option A) a Q G w : o = Some a -> Q a w -> wp (valid o) Q G w.
Proof. by intros ->. Qed.
Lemma wp_set_listen_vec v Q G w : Q tt (set_ccn (cn_set_vec (Some v)) w) -> wp (set_listen_vec v) Q G w.
Proof. done. Qed.

Lemma wp_stop_loop fuel held v w :
  listenings (ccn w) = Some v -> s_lock v = false -> counted v held w -> slept (nodes v) w -> owns_all w ->
  (length (nodes v) <= fuel)%nat -> wp (stop_listen_loop fuel) (fun _ _ => True) (fun _ _ => False) w.
Proof.
  revert v w. induction fuel as [|fuel IH]; intros v w Hv Hl Hc Hs Ho Hf; cbn [stop_listen_loop];
    apply wp_bind, (wp_listen_vec v); try exact Hv;
    unfold tcmi_slotvec_empty; destruct (used_slots v) as [|i us] eqn:Eu; try done.
  - destruct (remove_one_entry_spec v (proj1 Hc)) as (n & v' & _ & _ & Hp & _); [by rewrite Eu|].
    apply Permutation_length in Hp. rewrite length_cons in Hp. lia.
  - unfold tcmi_slot_lock. rewrite Hl. apply wp_bind. eapply wp_node_valid; [done|].
    destruct (remove_one_entry_spec (set_lock true v)) as (n & v' & -> & Hwf & Hp & _);
      [apply wf_set_lock, Hc|cbn; by rewrite Eu|].
    change (nodes (set_lock true v)) with (nodes v) in Hp. apply wp_bind, wp_set_listen_vec, wp_bind.
    eapply wp_mono; [eapply (wp_release v (tcmi_slot_unlock v') n held); [exact Hc|exact Hs|by apply wf_set_lock|exact Hp|exact Ho]| |done].
    intros _ w2 (Ho2 & Hc2 & Hs2 & Hv2). apply (IH (tcmi_slot_unlock v')); [done..|].
    apply Permutation_length in Hp. rewrite length_cons in Hp. change (nodes (tcmi_slot_unlock v')) with (nodes v'). lia.
Qed.

(** Stopping all listenings releases everything they hold: it returns, without a fault, and then
    no slot is used, no listening object is left, and nobody sleeps on a socket of one. *)
Theorem stop_listen_all_releases (stop : Z) v w :
  listenings (ccn w) = Some v -> s_lock v = false -> listen_inv [] w -> owns_all w -> stop <> 0 ->
  wp (tcmi_ccnman_stop_listen_all stop)
    (fun r w' => r = 0 /\ tsocks w' = ∅ /\ sleepers (ccn w') = [] /\ waits (ccn w') = [] /\
       exists v', listenings (ccn w') = Some v' /\ used_slots v' = [] /\ nodes v' = []) (fun _ _ => False) w.
Proof.
  intros Hv Hl (v0 & Hv0 & Hc & Hs) Ho Hstop. rewrite Hv in Hv0. injection Hv0 as <-.
  unfold tcmi_ccnman_stop_listen_all. replace (stop =? 0) with false by lia.
  apply wp_bind, (wp_listen_vec v); [exact Hv|]. apply wp_bind.
  eapply wp_mono; [apply wp_and; [by eapply (wp_stop_loop _ [] v)|by apply (wlp_stop_loop True _ [] v)]| |by intros ? ? []].
  intros [] w' [_ (v' & Hv' & Hc' & Hs' & Hn & Hu)]. apply wp_ret. destruct Hs' as (Hw & Hp & _). destruct Hc' as (_ & Hr & _).
  cbn in Hp. apply Permutation_nil_r, fmap_nil_inv, fmap_nil_inv in Hp. split; [done|]. split_and!; [|done|congruence|by exists v'].
  apply map_empty. intros p. destruct (tsocks w' !! p) as [t|] eqn:E; [|done]. destruct (Hr p t E) as (Ht & ? & _).
  rewrite Hn in Ht. cbn in Ht. rewrite times_nil in Ht. lia.
Qed.

(** ** Any sequence of operations *)

Inductive listen_op := O_listen (listen_str : list Z) | O_stop_one (slot_num : Z) | O_stop_all (stop : Z).
Definition listen_act (o : listen_op) : N unit :=
  match o with
  | O_listen s => tcmi_ccnman_listen s;; mret tt
  | O_stop_one n => tcmi_ccnman_stop_listen_one n;; mret tt
  | O_stop_all n => tcmi_ccnman_stop_listen_all n;; mret tt
  end.
(** A round of the thread in which, while it serves a connection, other threads do [others]. *)
Inductive node_op := N_op (o : listen_op) | N_round (fuel : nat) (others : list listen_op) (listening : option Z).
Fixpoint node_acts (during : Z -> K unit) (os : list node_op) : N unit :=
  match os with
  | [] => mret tt
  | N_op o :: os => listen_act o;; node_acts during os
  | N_round fuel others l :: os => tcmi_ccnman_thread_round fuel during (listen_act <$> others) l;; node_acts during os
  end.

Lemma act_keeps o : keeps_listenings (listen_act o).
Proof.
  intros held w Hw. destruct o; cbn; apply wlp_bind; eapply wlp_mono;
    [by apply listen_keeps|done|done|by apply stop_one_keeps|done|done|by apply stop_all_keeps|done|done].
Qed.
Lemma acts_keep during os : (forall p, calm True (during p)) -> keeps_listenings (node_acts during os).
Proof.
  intros Hd. induction os as [|[o|fuel others l] os IH]; intros held w Hw; cbn [node_acts]; [done|..];
    apply wlp_bind; (apply (wlp_mono _ (fun _ => listen_inv held) _ (fun _ _ => True)); [|intros [] w' Hw'; by apply IH|done]).
  - by apply act_keeps.
  - apply round_keeps; [done| |done]. apply Forall_fmap, Forall_true. intros o. apply act_keeps.
Qed.

(** C23: Whatever sequence of listen and stop requests and of rounds of the manager's thread runs,
    with requests in the middle of rounds, the listening objects are the ones in the slots, each
    has exactly one reference, and there is one sleeper for the socket of each of them and no
    other: no request and no round leaks a listening, puts it twice, or leaves a sleeper on the
    wait queue of a socket that is gone. *)
Theorem listenings_exact during os w :
  (forall p, calm True (during p)) -> listen_inv [] w ->
  wlp (node_acts during os)
    (fun _ w' => listen_inv [] w' /\ exists v, listenings (ccn w') = Some v /\
       (forall p, is_Some (tsocks w' !! p) <-> p ∈ nodes v) /\ (forall p t, tsocks w' !! p = Some t -> ts_ref t = 1) /\
       waits (ccn w') = sleepers (ccn w') /\ (Some <$> (sleepers (ccn w')).*2) ≡ₚ sock_of (tsocks w') <$> nodes v)
    (fun _ _ => True) w.
Proof.
  intros Hd Hw. eapply wlp_mono; [by apply acts_keep| |done]. intros [] w' Hw'. split; [done|].
  destruct Hw' as (v & Hv & (Hwf & Hr & Hl & _) & Hs). exists v. rewrite app_nil_r in *. split; [done|].
  pose proof (wf_nodes _ Hwf) as Hnd. split_and!; [| |apply Hs|apply Hs].
  - intros p. split; [|apply Hl]. intros [t Ht]. destruct (Hr p t Ht) as (? & ? & _). apply times_pos. lia.
  - intros p t Ht. destruct (Hr p t Ht) as (He & ? & _). assert (times p (nodes v) <= 1); [|lia].
    clear -Hnd. induction Hnd as [|q l Hq _ IH]; [rewrite times_nil; lia|]. rewrite times_cons. case_decide as Hqp; [|lia].
    subst q. assert (~ 1 <= times p l) by (by rewrite <- times_pos). lia.
Qed.
End listen.

(** ** Witnesses *)

(** A CCN whose two slots are free, and one with a listening in its slot 1. *)
Definition ex_ccn_idle (v : tcmi_slotvec) (ss : list (Z * Z)) : tcmi_ccnman :=
  mk_ccnman (Some v) None (Some 1) None None None None None None (mk_mount [] [] []) (Some 2) ss ss.
Definition ex_free : tcmi_slotvec := mk_slotvec [mk_slot 0 []; mk_slot 1 []] 2 None [0%nat; 1%nat] [] 1 false.
Definition ex_taken : tcmi_slotvec := mk_slotvec [mk_slot 0 []; mk_slot 1 [5]] 2 None [0%nat] [1%nat] 1 false.
Definition ex_man_free : tcmi_man := mk_man 1 (Some ex_free) None None None (Some 3) None None None 5.
Definition ex_ccn_free : node seg_kernel :=
  mk_node (set_objs (fun _ => {[3 := 1]}) (empty_kw 100)) ex_man_free ex_idle (ex_ccn_idle ex_free []) None ∅.
Definition ex_listening : node seg_kernel :=
  mk_node (set_objs (fun _ => list_to_map ((fun p => (p, 1)) <$> [10; 11; 12; 13; 14])) (empty_kw 100)) ex_man_free ex_idle
    (ex_ccn_idle ex_taken [(20, 14)]) None {[5 := mk_tsock 1 (Some 10) (Some 11) (Some 12) (Some 13) (Some 14)]}.
Definition ex_ops : list node_op :=
  [N_op (O_listen [97]); N_op (O_listen [98]); N_round 5 [O_stop_one 1] None; N_op (O_listen [99]); N_op (O_stop_one 0)].

Definition returns {W A} (o : outcome W A) : bool := match o with Ret _ _ => true | _ => false end.

Lemma wlp_returns {W A} (m : eff W A) Q G w : wlp m Q G w -> returns (m w) = true -> exists a w', m w = Ret a w' /\ Q a w'.
Proof. unfold wlp. destruct (m w) as [a w'|? ?|]; [|done..]. by exists a, w'. Qed.

Lemma ex_free_wf : slotvec_wf ex_free.
Proof.
  split; try done.
  - by intros [|[|i]] s [= <-].
  - apply NoDup_app. split_and!; [|set_solver|constructor]. apply (bool_decide_unpack _). vm_compute. exact I.
  - cbn. intros i Hi. set_unfold in Hi. lia.
  - intros i _. by destruct i as [|[|i]].
  - intros i. split; [by intros ?%elem_of_nil|]. by destruct i as [|[|i]].
  - constructor.
Qed.
Lemma ex_taken_wf : slotvec_wf ex_taken.
Proof.
  split; try done.
  - by intros [|[|i]] s [= <-].
  - apply (bool_decide_unpack _). vm_compute. exact I.
  - cbn. intros i Hi. set_unfold in Hi. lia.
  - cbn. intros i Hi. set_unfold in Hi. destruct Hi as [-> | ?]; done.
  - intros i. cbn. rewrite list_elem_of_singleton. destruct i as [|[|i]]; cbn; split; try done; try lia.
  - apply (bool_decide_unpack _). vm_compute. exact I.
Qed.

Lemma ex_ccn_free_inv : listen_inv [] ex_ccn_free.
Proof.
  exists ex_free. split; [done|]. split; [split; [apply ex_free_wf|]|].
  - split_and!; [by intros p t ?|by intros p ?%elem_of_nil|by intros p s ?].
  - split_and!; try done; [constructor|constructor|by intros x ?%elem_of_nil].
Qed.
Lemma listenings_exact_witness :
  exists w', node_acts (fun _ => mret tt) ex_ops ex_ccn_free = Ret tt w' /\ (forall p t, tsocks w' !! p = Some t -> ts_ref t = 1).
Proof.
  destruct (wlp_returns _ _ _ _ (listenings_exact (fun _ => mret tt) ex_ops ex_ccn_free (fun _ => calm_ret True tt) ex_ccn_free_inv))
    as ([] & w' & He & _ & v & _ & _ & Hr & _); [vm_compute; reflexivity|]. exists w'. exact (conj He Hr).
Defined.

Lemma ex_listening_inv : listen_inv [] ex_listening.
Proof.
  exists ex_taken. split; [done|]. split; [split; [apply ex_taken_wf|]|].
  - unfold ex_listening. cbn [tsocks kern]. split_and!.
    + intros p t Hp. apply lookup_singleton_Some in Hp as [<- <-]. cbn. split_and!; [done|lia|lia].
    + intros p Hp. apply list_elem_of_singleton in Hp as ->. by rewrite lookup_singleton_eq.
    + intros p s Hp. unfold sock_of in Hp. apply bind_Some in Hp as (t & Ht & Hs).
      apply lookup_singleton_Some in Ht as [<- <-]. injection Hs as <-. cbn. lia.
  - split_and!; try done; try (apply (bool_decide_unpack _); vm_compute; exact I).
    intros x Hx. apply list_elem_of_singleton in Hx as ->. cbn. lia.
Qed.
Lemma ex_listening_owns : owns_all ex_listening.
Proof.
  intros p Hp. destruct (decide (p ∈ [10; 11; 12; 13; 14])) as [Hin|Hout].
  - exists 1. repeat (apply elem_of_cons in Hin as [->|Hin]; [by vm_compute|]). by apply elem_of_nil in Hin.
  - exfalso. change (map_to_list (tsocks ex_listening) ≫= fun x => tsock_objs x.2)
      with [Some 13; Some 12; Some 11; Some 10; Some 14] in Hp. unfold occ in Hp. cbn in Hp.
    repeat (rewrite bool_decide_eq_false_2 in Hp by (intros [= <-]; apply Hout; set_solver)). by vm_compute in Hp.
Qed.
Lemma stop_listen_all_releases_witness :
  exists w', tcmi_ccnman_stop_listen_all 1 ex_listening = Ret 0 w' /\ tsocks w' = ∅.
Proof.
  destruct (wlp_returns _ _ _ _ (wp_wlp _ _ _ _
    (stop_listen_all_releases 1 ex_taken ex_listening eq_refl eq_refl ex_listening_inv ex_listening_owns ltac:(done))))
    as (r & w' & He & -> & Ht & _); [vm_compute; reflexivity|]. exists w'. exact (conj He Ht).
Defined.
