(* ===== verification/ProxyIoctl.v ===== *)
(** The table of ioctl commands (src/src/proxyfs/proxyfs_ioctl_table.c) and the search in it
    (proxyfs_ioctl.h), which tell how many bytes an ioctl of a proxy file reads or writes. *)

From S2P Require Import Prelude.

Definition IOCTL_READ : Z := 1073741824.   (* 0x40000000 *)
Definition IOCTL_WRITE : Z := 2147483648.  (* 0x80000000 *)
Definition IOCTL_INT : Z := 805306372.     (* 0x30000004 *)
Definition IOCTL_VOID : Z := 805306368.    (* 0x30000000 *)
Definition IOCTL_WILL_WRITE (arg : Z) : bool := negb (Z.land arg IOCTL_WRITE =? 0).
Definition IOCTL_WILL_READ (arg : Z) : bool := negb (Z.land arg IOCTL_READ =? 0).
Definition IOCTL_ARG_SIZE (arg : Z) : Z := Z.land arg 268435455.

(** Sizes of structures of the kernel. *)
Record sizes := mk_sizes {
  sz_timeval : Z; sz_termios : Z; sz_termio : Z; sz_winsize : Z; sz_serial : Z; sz_multiport : Z
}.
Definition reads (n : Z) : Z := Z.lor n IOCTL_READ.
Definition writes (n : Z) : Z := Z.lor n IOCTL_WRITE.

(** The commands with their numbers on x86 (asm-generic/ioctls.h, asm-generic/sockios.h): first
    those of sockets, then those of terminals, from TCGETS to TIOCSERSETMULTI. *)
Definition socket_ioctls (s : sizes) : list (Z * Z) :=
  [ (35073, writes 4); (35074, writes 4); (35075, reads 4); (35076, reads 4); (35077, reads 4);
    (35078, reads (sz_timeval s)) ].
Definition terminal_ioctls (s : sizes) : list (Z * Z) :=
  [ (21505, reads (sz_termios s)); (21506, writes (sz_termios s)); (21507, writes (sz_termios s));
    (21508, writes (sz_termios s)); (21509, reads (sz_termio s)); (21510, writes (sz_termio s));
    (21511, writes (sz_termio s)); (21512, writes (sz_termio s)); (21513, IOCTL_INT);
    (21514, IOCTL_INT); (21515, IOCTL_INT); (21516, IOCTL_VOID); (21517, IOCTL_VOID);
    (21518, IOCTL_INT); (21519, reads 4); (21520, writes 4); (21521, reads 4); (21522, writes 8);
    (21523, reads (sz_winsize s)); (21524, writes (sz_winsize s)); (21525, reads 4); (21526, writes 4);
    (21527, writes 4); (21528, writes 4); (21529, reads 4); (21530, writes 4); (21531, reads 4); (21531, reads 4);
    (21532, writes 1); (21533, IOCTL_VOID); (21534, reads (sz_serial s)); (21535, writes (sz_serial s));
    (21536, writes 4); (21537, writes 4); (21538, IOCTL_VOID); (21539, writes 4); (21540, reads 4);
    (21541, IOCTL_INT); (21584, IOCTL_VOID); (21585, IOCTL_VOID); (21586, writes 4);
    (21587, IOCTL_VOID); (21588, reads 4); (21589, writes 4); (21590, reads (sz_termios s));
    (21591, writes (sz_termios s)); (21593, reads 4); (21594, reads (sz_multiport s));
    (21595, writes (sz_multiport s)) ].
Definition ioctl_table (s : sizes) : list (Z * Z) := socket_ioctls s ++ terminal_ioctls s.
Definition ioctl_table_nmemb (s : sizes) : Z := zlen (ioctl_table s).

(** The loop; [None]: out of fuel, or an index outside the table. *)
Fixpoint ioctl_search (fuel : nat) (t : list (Z * Z)) (cmd : Z) (low high mid : Z) : option Z :=
  if low =? high then
    e ← t !! Z.to_nat low; Some (if cmd =? e.1 then e.2 else 0)
  else
    match fuel with
    | O => None
    | S fuel =>
        e ← t !! Z.to_nat mid;
        if cmd <? e.1 then let high := mid in ioctl_search fuel t cmd low high (low + (high - low) / 2)
        else if e.1 <? cmd then let low := mid + 1 in ioctl_search fuel t cmd low high (low + (high - low) / 2)
        else Some e.2
    end.
(** The command is an [int] and is compared with an [unsigned long]. *)
Definition ioctl_get_info (s : sizes) (cmd : Z) : option Z :=
  let high := ioctl_table_nmemb s - 1 in
  ioctl_search (length (ioctl_table s)) (ioctl_table s) u64[s32[cmd]] 0 high (high / 2).

(** ** The search ends, and finds only entries of the command *)

Lemma ioctl_search_spec fuel t cmd low high mid :
  0 <= low <= high -> high < zlen t -> (low < high -> low <= mid < high) -> high - low <= Z.of_nat fuel ->
  exists r, ioctl_search fuel t cmd low high mid = Some r /\ (r = 0 \/ (cmd, r) ∈ t).
Proof.
  assert (Hat : forall i, 0 <= i < zlen t -> exists e, t !! Z.to_nat i = Some e /\ e ∈ t).
  { intros i Hi. destruct (t !! Z.to_nat i) as [e|] eqn:E; [exists e; split; [done|by eapply list_elem_of_lookup_2]|].
    apply lookup_ge_None in E. unfold zlen in Hi. lia. }
  revert low high mid. induction fuel as [|fuel IH]; intros low high mid Hl Hh Hm Hf; cbn [ioctl_search].
  all: destruct (Z.eqb_spec low high) as [->|Hne].
  1, 3: destruct (Hat high) as (e & -> & He); [lia|]; cbn; eexists; split; [done|];
    destruct (Z.eqb_spec cmd e.1) as [->|]; [right; by destruct e|by left].
  - lia.
  - destruct (Hat mid) as (e & -> & He); [lia|]. cbn. destruct (Z.ltb_spec cmd e.1) as [|Hge].
    + apply IH; [lia|lia| |lia]. intros Hlt. assert (0 <= (mid - low) / 2) by (apply Z.div_pos; lia).
      assert ((mid - low) / 2 < mid - low) by (apply Z.div_lt; lia). lia.
    + destruct (Z.ltb_spec e.1 cmd).
      * apply IH; [lia|lia| |lia]. intros Hlt. assert (0 <= (high - (mid + 1)) / 2) by (apply Z.div_pos; lia).
        assert ((high - (mid + 1)) / 2 < high - (mid + 1)) by (apply Z.div_lt; lia). lia.
      * eexists. split; [done|]. right. destruct e as [c r]. cbn in *. by replace cmd with c by lia.
Qed.

Lemma ioctl_get_info_spec s cmd :
  exists r, ioctl_get_info s cmd = Some r /\ (r = 0 \/ (u64[s32[cmd]], r) ∈ ioctl_table s).
Proof. apply ioctl_search_spec; vm_compute; try done; intros; done. Qed.

(** The first entry of a command. *)
Fixpoint entry (cmd : Z) (t : list (Z * Z)) : option Z :=
  match t with [] => None | (c, r) :: t => if cmd =? c then Some r else entry cmd t end.

Lemma entry_in cmd t r : entry cmd t = Some r -> (cmd, r) ∈ t.
Proof.
  induction t as [|[c r'] t IH]; cbn; [done|]. destruct (Z.eqb_spec cmd c) as [->|]; [intros [= ->]; by left|].
  intros He. right. by apply IH.
Qed.
Lemma in_entry cmd r t : (cmd, r) ∈ t -> is_Some (entry cmd t).
Proof.
  induction t as [|[c r'] t IH]; cbn; [by intros ?%elem_of_nil|]. intros Hin. destruct (Z.eqb_spec cmd c); [done|].
  apply elem_of_cons in Hin as [[= -> ->]|Hin]; [done|by apply IH].
Qed.

(** What the search does on the commands of the table. *)
Definition found (s : sizes) (c : Z) (r : Z) : Prop := ioctl_get_info s c = Some r /\ u64[s32[c]] = c.
Lemma terminals_found s : Forall (fun e => found s e.1 e.2) (terminal_ioctls s).
Proof. repeat constructor. Qed.
Lemma sockets_missed s : Forall (fun e => found s e.1 0) (socket_ioctls s).
Proof. repeat constructor. Qed.

(** The search for the direction and size of an ioctl is the plain lookup of the command among
    the commands of terminals, whatever the command is; the commands of sockets, which stand at
    the front of the table although their numbers are the largest, are never found. *)
Theorem ioctl_get_info_terminals (s : sizes) (cmd : Z) :
  ioctl_get_info s cmd = Some (default 0 (entry u64[s32[cmd]] (terminal_ioctls s))).
Proof.
  destruct (ioctl_get_info_spec s cmd) as (r & Hr & Hin).
  assert (Hsame : forall c r', found s c r' -> u64[s32[cmd]] = c -> r = r').
  { intros c r' [Hf Hc] He. unfold ioctl_get_info in *. rewrite Hc in Hf. rewrite He in Hr. congruence. }
  rewrite Hr. f_equal. destruct (entry _ _) as [r'|] eqn:E.
  - apply entry_in in E. pose proof (terminals_found s) as Hall. rewrite Forall_forall in Hall.
    by eapply Hsame; [apply (Hall _ E)|].
  - destruct Hin as [|Hin]; [done|]. apply elem_of_app in Hin as [Hin|Hin].
    + pose proof (sockets_missed s) as Hall. rewrite Forall_forall in Hall. by eapply Hsame; [apply (Hall _ Hin)|].
    + apply in_entry in Hin. rewrite E in Hin. by destruct Hin.
Qed.

(** TCGETS reads a termios; SIOCATMARK is refused. *)
Example ioctl_tcgets : ioctl_get_info (mk_sizes 16 36 18 8 72 56) 21505 = Some (reads 36).
Proof. reflexivity. Qed.
Example ioctl_siocatmark : ioctl_get_info (mk_sizes 16 36 18 8 72 56) 35077 = Some 0.
Proof. reflexivity. Qed.
