(* ===== verification/ProxyServer.v ===== *)
(** The control messages of the ProxyFS server (src/src/proxyfs/proxyfs_server.c) and what its
    files do with them (proxyfs_real_file.c, proxyfs_tty_real_file.c, proxyfs_pipe_real_file.c):
    opening, ioctl, closing, fsync, read requests; taking files over and duplicating them.

    Real files are named by addresses, so that a list may hold a file that was freed.  [grants]
    are the results of the allocators. *)

From stdpp Require Import gmap.
From S2P Require Import Prelude Effect CircBuf KkcSock ProxyMsg ProxyFile ProxyReal ProxyIoctl.

Definition MSG_OPEN_RESP_OK : Z := 101.
Definition MSG_OPEN_RESP_FAILED : Z := 102.
Definition MSG_IOCTL_RESP : Z := 401.
Definition MSG_CLOSE_RESP : Z := 501.
Definition MSG_FSYNC_RESP : Z := 601.
Definition PROXYFS_FILE_TTY : Z := 1.
Definition PROXYFS_FILE_GENERIC : Z := 2.
Definition PROXYFS_FILE_PIPE : Z := 3.
Definition ENOTTY : Z := 25.
Definition ENOIOCTLCMD : Z := 515.

(** ** The kernel *)

Inductive file_type := S_IFREG | S_IFCHR | S_IFIFO | S_OTHER.

(** The operations of an open file besides those of [Vfs]: [None] where its table has no such
    entry.  An ioctl gets a buffer and returns its result and the buffer. *)
Class VfsCtl (B : Type) := {
  f_mode : B -> file_type;
  has_f_op : B -> bool;
  f_unlocked_ioctl : B -> option (Z -> list Z -> Z * list Z * B);
  f_ioctl : B -> option (Z -> list Z -> Z * list Z * B);
  vfs_fsync : B -> Z * B
}.

(** An allocation: whether it succeeds, the address and the old contents of the memory. *)
Record grant := mk_grant { g_ok : bool; g_addr : Z; g_mem : list Z }.

Record server (K B : Type) := mk_server {
  reals : gmap Z (proxyfs_real_file B);
  s_files : list Z;
  s_peers : gmap Z (proxyfs_peer K);
  s_peer_list : list Z;
  files_sem : bool;
  s_ident : Z;
  s_fputs : list B;
  s_next : Z;
  grants : nat -> grant;
  s_tick : nat
}.
Arguments mk_server {K B}.
Arguments reals {K B}. Arguments s_files {K B}. Arguments s_peers {K B}. Arguments s_peer_list {K B}. Arguments files_sem {K B}.
Arguments s_ident {K B}. Arguments s_fputs {K B}. Arguments s_next {K B}. Arguments grants {K B}. Arguments s_tick {K B}.

Section setters.
Context {K B : Type}.
Implicit Type w : server K B.
Definition set_reals f w := mk_server (f (reals w)) (s_files w) (s_peers w) (s_peer_list w) (files_sem w) (s_ident w) (s_fputs w)
  (s_next w) (grants w) (s_tick w).
Definition set_s_files f w := mk_server (reals w) (f (s_files w)) (s_peers w) (s_peer_list w) (files_sem w) (s_ident w) (s_fputs w)
  (s_next w) (grants w) (s_tick w).
Definition set_s_peers (f : gmap Z (proxyfs_peer K) -> gmap Z (proxyfs_peer K)) w : server K B :=
  mk_server (reals w) (s_files w) (f (s_peers w)) (s_peer_list w) (files_sem w) (s_ident w) (s_fputs w) (s_next w) (grants w) (s_tick w).
Definition set_peer_list f w := mk_server (reals w) (s_files w) (s_peers w) (f (s_peer_list w)) (files_sem w) (s_ident w) (s_fputs w)
  (s_next w) (grants w) (s_tick w).
Definition set_sem b w := mk_server (reals w) (s_files w) (s_peers w) (s_peer_list w) b (s_ident w) (s_fputs w)
  (s_next w) (grants w) (s_tick w).
Definition set_ident n w := mk_server (reals w) (s_files w) (s_peers w) (s_peer_list w) (files_sem w) n (s_fputs w)
  (s_next w) (grants w) (s_tick w).
Definition add_fput b w := mk_server (reals w) (s_files w) (s_peers w) (s_peer_list w) (files_sem w) (s_ident w) (s_fputs w ++ [b])
  (s_next w) (grants w) (s_tick w).
Definition set_s_next n w := mk_server (reals w) (s_files w) (s_peers w) (s_peer_list w) (files_sem w) (s_ident w) (s_fputs w)
  n (grants w) (s_tick w).
Definition set_s_tick n w := mk_server (reals w) (s_files w) (s_peers w) (s_peer_list w) (files_sem w) (s_ident w) (s_fputs w)
  (s_next w) (grants w) n.
End setters.

Section server.
Context {K B : Type} `{Kernel K} `{Vfs B} `{VfsCtl B} (sz : sizes).
Abbreviation M := (eff (server K B)).

Definition kmalloc : M grant := g ← gets grants; n ← gets s_tick; modify (set_s_tick (S n));; mret (g n).
Definition real (p : Z) : M (proxyfs_real_file B) := rs ← gets reals; valid (rs !! p).
Definition upd_real (p : Z) (f : proxyfs_real_file B -> proxyfs_real_file B) : M unit :=
  r ← real p; modify (set_reals (insert p (f r))).
Definition upd_parent (p : Z) (f : proxyfs_file_t -> proxyfs_file_t) : M unit :=
  upd_real p (fun r => with_parent (f (parent r)) r).
Definition peer_at (q : Z) : M (proxyfs_peer K) := ps ← gets s_peers; valid (ps !! q).

(** Queueing a message that was not allocated is an access through NULL. *)
Definition send_to (q : Z) (m : option proxyfs_msg) : M unit :=
  m ← valid m; p ← peer_at q; modify (set_s_peers (insert q (proxyfs_peer_send_msg p m))).
Definition get_peer (q : option Z) : M unit :=
  match q with None => mret tt | Some q => p ← peer_at q; modify (set_s_peers (insert q (proxyfs_peer_get p))) end.
Definition put_peer (q : option Z) : M unit :=
  match q with
  | None => mret tt
  | Some q => p ← peer_at q; modify (set_s_peers (partial_alter (fun _ => proxyfs_peer_put p) q))
  end.
Definition set_peer_of (p : Z) (q : option Z) : M unit :=
  r ← real p; let '(f, got, released) := proxyfs_file_set_peer (parent r) q in
  get_peer got;; put_peer released;; upd_parent p (fun _ => f).

Definition new_msg (num ident size : Z) (data_ptr : list Z) : M (option proxyfs_msg) :=
  g ← kmalloc; mret (proxyfs_msg_new (g_ok g) num ident size data_ptr).
Definition ident_of (p : Z) : M Z := r ← real p; mret (proxyfs_file_get_file_ident (parent r)).

(** The semaphore of the files; [down] sleeps for ever when nobody will give it back. *)
Definition down : M unit := s ← gets files_sem; if (s : bool) then halt Gone else modify (set_sem true).
Definition up : M unit := modify (set_sem false).

(** ** proxyfs_real_file.c *)

(** [ioctl] in the context of the kernel; [arg] is the buffer. *)
Definition proxyfs_real_file_do_ioctl (self cmd : Z) (arg : list Z) : M (Z * list Z) :=
  r ← real self; let b := f_body r in
  match f_mode b with
  | S_IFREG => mret (- ENOTTY, arg)
  | _ =>
      if negb (has_f_op b) then mret (- ENOTTY, arg) else
      match f_unlocked_ioctl b with
      | Some io =>
          let '(error, arg, b) := io cmd arg in
          upd_real self (with_body b);; mret (if s32[error] =? - ENOIOCTLCMD then - EINVAL else s32[error], arg)
      | None =>
          match f_ioctl b with
          | Some io => let '(error, arg, b) := io cmd arg in upd_real self (with_body b);; mret (s32[error], arg)
          | None => mret (- ENOTTY, arg)
          end
      end
  end.

(** The memory of a new real file: its fields hold anything but the lists are set up. *)
Definition proxyfs_real_file_init (self : Z) : M Z :=
  g1 ← kmalloc; g2 ← kmalloc; r ← real self;
  let mem g := if g_ok g then (g_addr g, g_mem g) else (0, []) in
  let '(rtn, f) := proxyfs_file_init (parent r) (mem g1) (mem g2) in
  upd_parent self (fun _ => f);;
  if rtn =? 0 then
    upd_real self (fun r => let f := parent r in
      mk_real (mk_file (file_ident16 f) (file_owner_pid f) (write_buf f) (read_buf f) (write_buf_unconfirmed f)
                 (read_was_requested f) (state f) (peer f) (Some real_file_ops))
        (f_pos r) (f_body r) (real_ops r) [] (write_counter r) (atomic_write r));; mret 0
  else mret rtn.

Definition open_type (o : proxyfs_real_file_ops) : Z :=
  match o with
  | tty_real_file_ops => PROXYFS_FILE_TTY
  | generic_real_file_ops => PROXYFS_FILE_GENERIC
  | pipe_real_file_ops => PROXYFS_FILE_PIPE
  end.
(** [ops->open] of the three classes; the generic class sets the peer itself. *)
Definition ops_open (o : proxyfs_real_file_ops) (self q : Z) : M Z :=
  ident ← ident_of self; msg ← new_msg MSG_OPEN_RESP_OK ident 4 (le_bytes 4 (open_type o));
  match msg with
  | None => mret (-1)
  | Some _ =>
      send_to q msg;;
      match o with generic_real_file_ops => set_peer_of self (Some q) | _ => mret tt end;; mret 0
  end.
Definition proxyfs_real_file_open (self q : Z) : M Z :=
  r ← real self;
  match real_ops r with
  | None => mret (- EINVAL)
  | Some o =>
      res ← ops_open o self q;
      if res =? 0 then set_peer_of self (Some q);; mret res else mret res
  end.

Definition proxyfs_real_file_close (self q : Z) : M Z :=
  r ← real self;
  if bool_decide (peer (parent r) = Some q) then
    ident ← ident_of self; msg ← new_msg MSG_CLOSE_RESP ident 0 [];
    match msg with
    | None => mret (- ENOMEM)
    | Some _ => send_to q msg;; set_peer_of self None;; upd_parent self (set_unconfirmed 0);; mret 0
    end
  else mret (-1).

Definition proxyfs_real_file_fsync (self q : Z) : M Z :=
  r ← real self;
  if bool_decide (peer (parent r) = Some q) then
    let '(rtn, b) := vfs_fsync (f_body r) in
    upd_real self (with_body b);;
    ident ← ident_of self; msg ← new_msg MSG_FSYNC_RESP ident 0 [];
    match msg with None => mret (- ENOMEM) | Some _ => send_to q msg;; mret rtn end
  else mret (-1).

Definition proxyfs_real_file_mark_read_request (self q : Z) : M Z :=
  ident ← ident_of self; msg ← new_msg MSG_READ_REQUEST_RESP ident 0 [];
  match msg with
  | None => mret (- ENOMEM)
  | Some _ => upd_parent self proxyfs_file_mark_read_requested;; send_to q msg;; mret 0
  end.

(** The waiters on the poll queues are part of the kernel. *)
Definition proxyfs_real_file_destroy (self : Z) : M unit :=
  r ← real self; let '(f, released) := proxyfs_file_destroy (parent r) in
  upd_parent self (fun _ => f);; put_peer released.
Definition kfree_real (self : Z) : M unit := real self;; modify (set_reals (delete self)).

(** ** Constructors *)

(** [blank]: what the memory of the object held. *)
Definition alloc_real (blank : proxyfs_real_file B) : M (option Z) :=
  g ← kmalloc;
  if negb (g_ok g) then mret None else
  p ← gets s_next; modify (set_s_next (p + 1));; modify (set_reals (insert p blank));; mret (Some p).
Definition set_real_ops (o : proxyfs_real_file_ops) (r : proxyfs_real_file B) : proxyfs_real_file B :=
  mk_real (parent r) (f_pos r) (f_body r) (Some o) (shadow_list r) (write_counter r) (atomic_write r).

Definition proxyfs_tty_real_file_init (self : Z) : M Z :=
  rtn ← proxyfs_real_file_init self;
  if rtn =? 0 then upd_real self (set_real_ops tty_real_file_ops);; mret rtn else mret rtn.
Definition proxyfs_tty_real_file_new (blank : proxyfs_real_file B) : M (option Z) :=
  p ← alloc_real blank;
  match p with
  | None => mret None
  | Some self => rtn ← proxyfs_tty_real_file_init self; if negb (rtn =? 0) then kfree_real self;; mret None else mret (Some self)
  end.
Definition proxyfs_pipe_real_file_init (self : Z) : M Z :=
  upd_real self (fun r => with_counter 0 (atomic_write r) (set_real_ops pipe_real_file_ops r));; mret 0.
(** After a failed initialisation the address of the freed memory is returned. *)
Definition proxyfs_pipe_real_file_new (blank : proxyfs_real_file B) : M (option Z) :=
  p ← alloc_real blank;
  match p with
  | None => mret None
  | Some self =>
      rtn ← proxyfs_real_file_init self;
      if negb (rtn =? 0) then kfree_real self;; mret (Some self) else
      rtn ← proxyfs_pipe_real_file_init self;
      if negb (rtn =? 0) then proxyfs_real_file_destroy self;; kfree_real self;; mret (Some self) else mret (Some self)
  end.

(** The clone shares the open file.  After a failed initialisation it is the original that is freed. *)
Definition copy_identity (clone self : Z) : M unit :=
  r ← real self;
  upd_real clone (fun c => let f := parent c in
    mk_real (mk_file (file_ident16 (parent r)) (file_owner_pid (parent r)) (write_buf f) (read_buf f) (write_buf_unconfirmed f)
               (read_was_requested f) (state f) (peer f) (ops f))
      (f_pos r) (f_body r) (real_ops c) (shadow_list c) (write_counter c) (atomic_write c)).
Definition proxyfs_tty_real_file_duplicate (blank : proxyfs_real_file B) (self : Z) : M (option Z) :=
  p ← alloc_real blank;
  match p with
  | None => mret None
  | Some clone =>
      rtn ← proxyfs_tty_real_file_init clone;
      if negb (rtn =? 0) then kfree_real self;; mret None
      else copy_identity clone self;; mret (Some clone)
  end.
Definition proxyfs_pipe_real_file_duplicate (blank : proxyfs_real_file B) (self : Z) : M (option Z) :=
  p ← alloc_real blank;
  match p with
  | None => mret None
  | Some clone =>
      rtn ← proxyfs_real_file_init clone;
      if negb (rtn =? 0) then kfree_real self;; mret None else
      rtn ← proxyfs_pipe_real_file_init clone;
      if negb (rtn =? 0) then proxyfs_real_file_destroy self;; kfree_real self;; mret None
      else copy_identity clone self;; mret (Some clone)
  end.

(** ** proxyfs_server.c *)

Fixpoint find_file (ident : Z) (l : list Z) : M (option Z) :=
  match l with
  | [] => mret None
  | p :: l => i ← ident_of p; if i =? ident then mret (Some p) else find_file ident l
  end.
Definition server_find_file (ident : Z) : M (option Z) := l ← gets s_files; find_file ident l.

(** The buffer of an ioctl is not filled from the message. *)
Definition server_handle_ioctl (self q : Z) (data0 : Z) : M unit :=
  info ← valid (ioctl_get_info sz data0); let info := u32[info] in
  buf ← kmalloc;
  if negb (g_ok buf) then mret tt else
  '(result, ioctl_buffer) ← proxyfs_real_file_do_ioctl self data0 (ztake (IOCTL_ARG_SIZE info) (g_mem buf));
  ident ← ident_of self; g1 ← kmalloc; g2 ← kmalloc;
  let msg := proxyfs_msg_compose_new (g_ok g1) (g_ok g2) MSG_IOCTL_RESP ident
               (if IOCTL_WILL_READ info
                then [(4, le_bytes 4 u32[result]); (IOCTL_ARG_SIZE info, ioctl_buffer); (0, [])]
                else [(4, le_bytes 4 u32[result]); (0, [])]) in
  match msg with None => mret tt | Some _ => send_to q msg end.

(** [(h, d)]: the message the peer [q] received. *)
Definition proxyfs_server_handle_msg (q : Z) (h : proxyfs_msg_header) (d : list Z) : M unit :=
  let data0 := le_value (ztake 4 d) in
  let answer num := msg ← new_msg num (file_ident h) 0 []; send_to q msg in
  if msg_num h =? MSG_OPEN then
    f ← server_find_file (file_ident h);
    match f with
    | Some f => proxyfs_real_file_open f q;; mret tt
    | None => answer MSG_OPEN_RESP_FAILED
    end
  else if msg_num h =? MSG_IOCTL then
    f ← server_find_file (file_ident h);
    match f with Some f => server_handle_ioctl f q data0 | None => mret tt end
  else if msg_num h =? MSG_CLOSE then
    f ← server_find_file (file_ident h);
    match f with
    | Some f =>
        proxyfs_real_file_close f q;;
        when (data0 =? 0) (upd_parent f (fun x => proxyfs_file_set_status x PROXYFS_FILE_CLOSED))
    | None => answer MSG_CLOSE_RESP
    end
  else if msg_num h =? MSG_FSYNC then
    f ← server_find_file (file_ident h);
    match f with Some f => proxyfs_real_file_fsync f q;; mret tt | None => answer MSG_FSYNC_RESP end
  else if msg_num h =? MSG_READ_REQUEST then
    f ← server_find_file (file_ident h);
    match f with
    | Some f => proxyfs_real_file_mark_read_request f q;; mret tt
    | None => answer MSG_READ_REQUEST_RESP
    end
  else mret tt.

(** A file without a poll operation cannot be watched. *)
Definition proxyfs_server_register_poll_callback (self : Z) : M Z :=
  r ← real self; mret (match f_op_poll (f_body r) with Some _ => 0 | None => - EINVAL end).

Definition add_shadow (self shadow : Z) : M unit :=
  g ← kmalloc; upd_real self (fun r => (proxyfs_real_file_add_shadow (g_ok g) r shadow).2).
Definition set_identity (self : Z) (ident pid : Z) (filp : Z * B) : M unit :=
  upd_real self (fun r => let f := parent r in
    mk_real (mk_file ident pid (write_buf f) (read_buf f) (write_buf_unconfirmed f) (read_was_requested f)
               (state f) (peer f) (ops f)) filp.1 filp.2 (real_ops r) (shadow_list r) (write_counter r) (atomic_write r)).

(** [filp]: position and body of the file of the descriptor; [current] and [tgid]: the process.
    The identifier has 16 bits.  The semaphore stays taken when the file cannot be watched. *)
Definition proxyfs_server_overtake_file (blank : proxyfs_real_file B) (filp : option (Z * B)) (current tgid : Z) : M (option Z) :=
  match filp with
  | None => mret None
  | Some (pos, b) =>
      let exit1 := modify (add_fput b);; mret None in
      let overtake (row : option Z) :=
        match row with
        | None => exit1
        | Some p =>
            down;;
            n ← gets s_ident; modify (set_ident (n + 1));;
            set_identity p u16[n + 1] u16[tgid] (pos, b);;
            add_shadow p current;;
            err ← proxyfs_server_register_poll_callback p;
            if negb (err =? 0) then proxyfs_real_file_destroy p;; exit1 else
            modify (set_s_files (fun l => l ++ [p]));; up;; mret (Some p)
        end in
      match f_mode b with
      | S_IFCHR => row ← proxyfs_tty_real_file_new blank; overtake row
      | S_IFIFO => row ← proxyfs_pipe_real_file_new blank; overtake row
      | _ => exit1
      end
  end.

Definition proxyfs_server_duplicate_overtaken_file (blank : proxyfs_real_file B) (file new_owner tgid : Z) : M unit :=
  r ← real file;
  let dup (m : M (option Z)) :=
    c ← m;
    match c with
    | None => mret tt
    | Some clone =>
        upd_parent clone (fun f => mk_file (file_ident16 f) u16[tgid] (write_buf f) (read_buf f) (write_buf_unconfirmed f)
                                     (read_was_requested f) (state f) (peer f) (ops f));;
        add_shadow clone new_owner;;
        err ← proxyfs_server_register_poll_callback clone;
        if negb (err =? 0) then
          c ← real clone; modify (add_fput (f_body c));; proxyfs_real_file_destroy clone
        else modify (set_s_files (fun l => l ++ [clone]))
    end in
  match real_ops r with
  | Some tty_real_file_ops => dup (proxyfs_tty_real_file_duplicate blank file)
  | Some pipe_real_file_ops => dup (proxyfs_pipe_real_file_duplicate blank file)
  | _ => mret tt
  end.

(** The clones enter the list behind the files that are visited, and the loop visits them too, but
    the next file is looked up before a file is duplicated. *)
Fixpoint duplicate_loop (fuel : nat) (blank : proxyfs_real_file B) (parent child tgid : Z) (i : nat) : M unit :=
  l ← gets s_files;
  match l !! i, fuel with
  | None, _ => mret tt
  | Some _, O => halt Running
  | Some p, S fuel =>
      let nxt := l !! S i in
      r ← real p;
      when (proxyfs_real_file_has_shadow r parent) (proxyfs_server_duplicate_overtaken_file blank p child tgid);;
      match nxt with None => mret tt | Some _ => duplicate_loop fuel blank parent child tgid (S i) end
  end.
Definition proxyfs_server_duplicate_all_parent (fuel : nat) (blank : proxyfs_real_file B) (parent parent_tgid child child_tgid : Z) : M unit :=
  if parent_tgid =? child_tgid then mret tt else
  down;; duplicate_loop fuel blank parent child child_tgid 0;; up.
End server.
