(* ===== verification/ProxyClient.v ===== *)
(** The control messages of the ProxyFS client (src/src/proxyfs/proxyfs_client.c) and the calls of
    processes on proxy files (proxyfs_proxy_file.c, and the entry points of proxyfs_fs.c): opening,
    ioctl, fsync and closing, each of which sends a message and waits for the answer.

    A call that sleeps gets as an argument [act], what the other threads do while it sleeps.  The
    variable on the stack of a caller that receives the answer is a cell with an address. *)

From stdpp Require Import gmap.
From S2P Require Import Prelude Effect CircBuf KkcSock ProxyMsg ProxyFile ProxyReal ProxyIoctl ProxyServer.

Definition ERESTARTSYS : Z := 512.
Definition PF_EXITING : Z := 4.

#[export] Instance peer_state_eq : EqDecision proxyfs_peer_state.
Proof. solve_decision. Defined.

(** [proxyfs_generic_proxy_file_from_proxy_file] and the pipe's set the class of a file. *)
Inductive proxy_class := Generic_proxy | Pipe_proxy.

(** An answer: a copy of the message, or the number of an answer without data. *)
Inductive response := Resp_msg (h : proxyfs_msg_header) (d : list Z) | Resp_num (n : Z).

Record proxyfs_proxy_file := mk_pfile {
  base : proxyfs_file_t;
  p_class : option proxy_class;
  syscall_resp : option Z
}.

(** [beyond]: the rest of the world, which the client does not touch. *)
Record client (K X : Type) := mk_client {
  pfiles : gmap Z proxyfs_proxy_file;
  c_files : list Z;
  try_open : list Z;
  try_open_send : list Z;
  c_peers : gmap Z (proxyfs_peer K);
  c_peer_list : list Z;
  c_server : option Z;
  cells : gmap Z (option response);
  data_ready : bool;
  c_next : Z;
  c_grants : nat -> grant;
  c_tick : nat;
  beyond : X
}.
Arguments mk_client {K X}.
Arguments pfiles {K X}. Arguments c_files {K X}. Arguments try_open {K X}. Arguments try_open_send {K X}. Arguments c_peers {K X}. Arguments c_peer_list {K X}.
Arguments c_server {K X}. Arguments cells {K X}. Arguments data_ready {K X}. Arguments c_next {K X}. Arguments c_grants {K X}.
Arguments c_tick {K X}. Arguments beyond {K X}.

Section setters.
Context {K X : Type}.
Implicit Type w : client K X.
Definition set_pfiles f w := mk_client (f (pfiles w)) (c_files w) (try_open w) (try_open_send w) (c_peers w) (c_peer_list w) (c_server w) (cells w)
  (data_ready w) (c_next w) (c_grants w) (c_tick w) (beyond w).
Definition set_c_lists a b c w := mk_client (pfiles w) a b c (c_peers w) (c_peer_list w) (c_server w) (cells w)
  (data_ready w) (c_next w) (c_grants w) (c_tick w) (beyond w).
Definition set_c_peers (f : gmap Z (proxyfs_peer K) -> gmap Z (proxyfs_peer K)) w : client K X :=
  mk_client (pfiles w) (c_files w) (try_open w) (try_open_send w) (f (c_peers w)) (c_peer_list w) (c_server w) (cells w)
  (data_ready w) (c_next w) (c_grants w) (c_tick w) (beyond w).
Definition set_c_server s w := mk_client (pfiles w) (c_files w) (try_open w) (try_open_send w) (c_peers w) (c_peer_list w) s (cells w)
  (data_ready w) (c_next w) (c_grants w) (c_tick w) (beyond w).
Definition set_cells f w := mk_client (pfiles w) (c_files w) (try_open w) (try_open_send w) (c_peers w) (c_peer_list w) (c_server w) (f (cells w))
  (data_ready w) (c_next w) (c_grants w) (c_tick w) (beyond w).
Definition set_ready b w := mk_client (pfiles w) (c_files w) (try_open w) (try_open_send w) (c_peers w) (c_peer_list w) (c_server w) (cells w)
  b (c_next w) (c_grants w) (c_tick w) (beyond w).
Definition set_c_next n w := mk_client (pfiles w) (c_files w) (try_open w) (try_open_send w) (c_peers w) (c_peer_list w) (c_server w) (cells w)
  (data_ready w) n (c_grants w) (c_tick w) (beyond w).
Definition set_c_tick n w := mk_client (pfiles w) (c_files w) (try_open w) (try_open_send w) (c_peers w) (c_peer_list w) (c_server w) (cells w)
  (data_ready w) (c_next w) (c_grants w) n (beyond w).
Definition set_beyond (b : X) w : client K X := mk_client (pfiles w) (c_files w) (try_open w) (try_open_send w) (c_peers w) (c_peer_list w) (c_server w) (cells w)
  (data_ready w) (c_next w) (c_grants w) (c_tick w) b.
Definition set_c_peer_list f w := mk_client (pfiles w) (c_files w) (try_open w) (try_open_send w) (c_peers w) (f (c_peer_list w)) (c_server w)
  (cells w) (data_ready w) (c_next w) (c_grants w) (c_tick w) (beyond w).
End setters.

(** Data messages are for the buffers of a file. *)
Definition is_data (h : proxyfs_msg_header) : bool := (msg_num h =? MSG_WRITE) || (msg_num h =? MSG_WRITE_RESP).
Definition data_to (f : proxyfs_file_t) (m : pmsg) : option proxyfs_file_t :=
  '(fs, _) ← proxyfs_task_handle_msg [f] m.1 m.2; list.head fs.

Section client.
Context {K X : Type} `{Kernel K} (sz : sizes).
Abbreviation M := (eff (client K X)).

Definition c_kmalloc : M grant := g ← gets c_grants; n ← gets c_tick; modify (set_c_tick (S n));; mret (g n).
Definition c_fresh : M Z := n ← gets c_next; modify (set_c_next (n + 1));; mret n.
Definition pfile (p : Z) : M proxyfs_proxy_file := fs ← gets pfiles; valid (fs !! p).
Definition upd_pfile (p : Z) (f : proxyfs_proxy_file -> proxyfs_proxy_file) : M unit :=
  x ← pfile p; modify (set_pfiles (insert p (f x))).
Definition upd_base (p : Z) (f : proxyfs_file_t -> proxyfs_file_t) : M unit :=
  upd_pfile p (fun x => mk_pfile (f (base x)) (p_class x) (syscall_resp x)).
Definition set_class (c : proxy_class) (x : proxyfs_proxy_file) : proxyfs_proxy_file := mk_pfile (base x) (Some c) (syscall_resp x).
Definition set_resp (o : option Z) (x : proxyfs_proxy_file) : proxyfs_proxy_file := mk_pfile (base x) (p_class x) o.
Definition c_ident (p : Z) : M Z := x ← pfile p; mret (proxyfs_file_get_file_ident (base x)).
Definition c_status (p status : Z) : M Z := x ← pfile p; mret (proxyfs_file_get_status (base x) status).
Definition c_new_msg (num ident size : Z) (data_ptr : list Z) : M (option proxyfs_msg) :=
  g ← c_kmalloc; mret (proxyfs_msg_new (g_ok g) num ident size data_ptr).

Definition c_peer (q : Z) : M (proxyfs_peer K) := ps ← gets c_peers; valid (ps !! q).
(** A message that was not allocated, or a peer that is NULL, is an access through NULL. *)
Definition c_send (q : option Z) (m : option proxyfs_msg) : M unit :=
  m ← valid m; q ← valid q; p ← c_peer q; modify (set_c_peers (insert q (proxyfs_peer_send_msg p m))).
Definition c_get_peer (q : option Z) : M unit :=
  match q with None => mret tt | Some q => p ← c_peer q; modify (set_c_peers (insert q (proxyfs_peer_get p))) end.
Definition c_put_peer (q : option Z) : M unit :=
  match q with
  | None => mret tt
  | Some q => p ← c_peer q; modify (set_c_peers (partial_alter (fun _ => proxyfs_peer_put p) q))
  end.
Definition c_set_peer (f : Z) (q : option Z) : M unit :=
  x ← pfile f; let '(b, got, released) := proxyfs_file_set_peer (base x) q in
  c_get_peer got;; c_put_peer released;; upd_base f (fun _ => b).

Definition proxyfs_task_notify_data_ready : M unit := modify (set_ready true).
Definition proxyfs_task_wait_for_data_ready : M unit := modify (set_ready false).

(** ** proxyfs_client.c *)

(** Every file that is to be opened is asked for, in the order of the list. *)
Fixpoint open_loop (l : list Z) : M unit :=
  match l with
  | [] => mret tt
  | p :: l =>
      ident ← c_ident p; msg ← c_new_msg MSG_OPEN ident 0 []; s ← gets c_server; c_send s msg;;
      modify (fun w => set_c_lists (c_files w) (list_del p (try_open w)) (try_open_send w ++ [p]) w);;
      open_loop l
  end.
Definition proxyfs_client_open_files : M unit := l ← gets try_open; open_loop l.

Fixpoint c_find (ident : Z) (l : list Z) : M (option Z) :=
  match l with
  | [] => mret None
  | p :: l => i ← c_ident p; if i =? ident then mret (Some p) else c_find ident l
  end.
Definition get_proxy_file_by_id (ident : Z) : M (option Z) :=
  l ← gets c_files; f ← c_find ident l;
  match f with
  | Some _ => mret f
  | None => l ← gets try_open_send; c_find ident l
  end.

(** The answer is stored where the caller waits for it, and the caller is woken. *)
Definition store_resp (f : Z) (r : response) : M unit :=
  x ← pfile f; c ← valid (syscall_resp x); cs ← gets cells; valid (cs !! c);; modify (set_cells (insert c (Some r))).
Definition unlink (f : Z) : M unit :=
  modify (fun w => set_c_lists (list_del f (c_files w)) (list_del f (try_open w)) (list_del f (try_open_send w)) w).
Definition answer_num (n : Z) (close : bool) (ident : Z) : M unit :=
  f ← get_proxy_file_by_id ident;
  match f with
  | None => mret tt
  | Some f =>
      store_resp f (Resp_num n);; upd_pfile f (set_resp None);;
      upd_base f (fun b => proxyfs_file_unset_status b PROXYFS_FILE_IN_SYSCALL);; when close (unlink f)
  end.

Definition proxyfs_client_handle_msg (q : Z) (h : proxyfs_msg_header) (d : list Z) : M unit :=
  if msg_num h =? MSG_OPEN_RESP_OK then
    l ← gets try_open_send; f ← c_find (file_ident h) l;
    match f with
    | None => mret tt
    | Some f =>
        modify (fun w => set_c_lists (c_files w ++ [f]) (try_open w) (list_del f (try_open_send w)) w);;
        upd_pfile f (set_class (if le_value (ztake 4 d) =? PROXYFS_FILE_PIPE then Pipe_proxy else Generic_proxy));;
        c_set_peer f (Some q);; upd_base f (fun b => proxyfs_file_set_status b PROXYFS_FILE_OPENED)
    end
  else if msg_num h =? MSG_OPEN_RESP_FAILED then
    l ← gets try_open_send; f ← c_find (file_ident h) l;
    match f with
    | None => mret tt
    | Some f => unlink f;; upd_base f (fun b => proxyfs_file_set_status b PROXYFS_FILE_DONT_EXISTS)
    end
  else if msg_num h =? MSG_IOCTL_RESP then
    f ← get_proxy_file_by_id (file_ident h);
    match f with
    | None => mret tt
    | Some f =>
        g ← c_kmalloc; x ← pfile f; c ← valid (syscall_resp x); cs ← gets cells; valid (cs !! c);;
        modify (set_cells (insert c (if g_ok g then Some (Resp_msg h d) else None)));;
        when (g_ok g) (upd_pfile f (set_resp None));;
        upd_base f (fun b => proxyfs_file_unset_status b PROXYFS_FILE_IN_SYSCALL)
    end
  else if msg_num h =? MSG_FSYNC_RESP then answer_num MSG_FSYNC_RESP false (file_ident h)
  else if msg_num h =? MSG_READ_REQUEST_RESP then answer_num MSG_READ_REQUEST_RESP false (file_ident h)
  else if msg_num h =? MSG_CLOSE_RESP then answer_num MSG_CLOSE_RESP true (file_ident h)
  else mret tt.

(** [proxyfs_task_handle_msg] of the client. *)
Definition client_receive (q : Z) (m : pmsg) : M unit :=
  if is_data m.1 then
    l ← gets c_files; f ← c_find (file_ident m.1) l;
    match f with None => mret tt | Some f => x ← pfile f; b ← valid (data_to (base x) m); upd_base f (fun _ => b) end
  else proxyfs_client_handle_msg q m.1 m.2.

(** Sleeping until [cond]; without [cond] after all that happened it sleeps on. *)
Definition wait_event (cond : M bool) (act : M unit) : M unit :=
  c ← cond;
  if (c : bool) then mret tt else
  act;; c ← cond; if (c : bool) then mret tt else halt Gone.

(** [blank]: what the memory of the new file held.  The result is an address or a negative error. *)
Definition proxyfs_proxy_file_init (p : Z) : M Z :=
  g1 ← c_kmalloc; g2 ← c_kmalloc; x ← pfile p;
  let mem g := if g_ok g then (g_addr g, g_mem g) else (0, []) in
  let '(rtn, b) := proxyfs_file_init (base x) (mem g1) (mem g2) in
  upd_base p (fun _ => b);;
  if rtn =? 0 then
    upd_base p (fun f => mk_file (file_ident16 f) (file_owner_pid f) (write_buf f) (read_buf f) (write_buf_unconfirmed f)
                           (read_was_requested f) (state f) (peer f) (Some proxy_file_ops));; mret rtn
  else mret rtn.
Definition destroy_pfile (p : Z) : M unit :=
  x ← pfile p; let '(b, released) := proxyfs_file_destroy (base x) in
  upd_base p (fun _ => b);; c_put_peer released.
Definition kfree_pfile (p : Z) : M unit := pfile p;; modify (set_pfiles (delete p)).

(** The result of the initialisation is not looked at. *)
Definition proxyfs_client_open_proxy (blank : proxyfs_proxy_file) (act : M unit) (inode_num : Z) : M Z :=
  f ← get_proxy_file_by_id inode_num;
  match f with
  | Some _ => mret (- EACCES)
  | None =>
      g ← c_kmalloc;
      if negb (g_ok g) then mret (- ENOMEM) else
      p ← c_fresh; modify (set_pfiles (insert p blank));;
      proxyfs_proxy_file_init p;;
      upd_base p (fun b => proxyfs_file_set_file_ident b inode_num);;
      modify (fun w => set_c_lists (c_files w) (try_open w ++ [p]) (try_open_send w) w);;
      proxyfs_task_notify_data_ready;;
      wait_event (s ← c_status p (Z.lor PROXYFS_FILE_OPENED PROXYFS_FILE_DONT_EXISTS); mret (negb (s =? 0))) act;;
      s ← c_status p PROXYFS_FILE_OPENED;
      if negb (s =? 0) then mret p else
      x ← pfile p; upd_base p (fun _ => (proxyfs_file_destroy (base x)).1);; c_put_peer (peer (base x));;
      kfree_pfile p;; mret (- ENOENT)
  end.

Definition check_syscall_done (p q : Z) : M bool :=
  s ← c_status p PROXYFS_FILE_IN_SYSCALL; pr ← c_peer q;
  mret ((s =? 0) || negb (bool_decide (p_state pr = PEER_CONNECTED))).

(** The cell [c] is gone when the call returns. *)
Definition proxyfs_client_do_syscall (act : M unit) (file : Z) (msg : option proxyfs_msg) : M (option response) :=
  x ← pfile file;
  c ← c_fresh; modify (set_cells (insert c None));;
  upd_pfile file (set_resp (Some c));;
  upd_base file (fun b => proxyfs_file_set_status b PROXYFS_FILE_IN_SYSCALL);;
  c_send (peer (base x)) msg;;
  proxyfs_task_notify_data_ready;;
  q ← valid (peer (base x));
  wait_event (check_syscall_done file q) act;;
  cs ← gets cells; r ← valid (cs !! c); modify (set_cells (delete c));; mret r.

Definition proxyfs_client_send_message (file : Z) (msg : option proxyfs_msg) : M unit :=
  x ← pfile file; c_send (peer (base x)) msg.

(** The files of a peer that died leave the list; processes that wait on them are woken. *)
Fixpoint dead_loop (q : Z) (l : list Z) : M unit :=
  match l with
  | [] => mret tt
  | p :: l =>
      x ← pfile p;
      when (bool_decide (peer (base x) = Some q)) (unlink p);; dead_loop q l
  end.
Definition proxyfs_client_handle_dead_peer (q : Z) : M unit :=
  l ← gets c_files; dead_loop q l;;
  s ← gets c_server; when (bool_decide (s = Some q)) (modify (set_c_server None)).

(** ** proxyfs_proxy_file.c *)

(** [signal]: the sleep is interrupted. *)
Definition proxyfs_proxy_file_wait_interruptible (signal : bool) (act : M unit) (self status : Z) : M Z :=
  x ← pfile self; q ← valid (peer (base x));
  let ready := s ← c_status self status; p ← c_peer q;
               mret (negb (s =? 0) || negb (bool_decide (p_state p = PEER_CONNECTED))) in
  c ← ready;
  if negb c && signal then mret 0 else
  wait_event ready act;;
  p ← c_peer q;
  if negb (bool_decide (p_state p = PEER_CONNECTED)) then mret PROXYFS_FILE_CLOSED else c_status self status.

(** [wrote]: the other threads before the call is sent; [act]: after.  The second result is what
    is copied to the user.  [uarg]: the argument in user memory, [None] when it cannot be read. *)
Definition proxyfs_proxy_file_ioctl_user (access_ok signal : bool) (wrote act : M unit) (uarg : option (list Z)) (self cmd : Z)
    : M (Z * list Z) :=
  info ← valid (ioctl_get_info sz cmd); let arg_size := IOCTL_ARG_SIZE info in
  if (IOCTL_WILL_READ info || IOCTL_WILL_WRITE info) && negb access_ok then mret (- EFAULT, []) else
  st ← proxyfs_proxy_file_wait_interruptible signal wrote self PROXYFS_FILE_ALL_WRITTEN;
  if st =? 0 then mret (- ERESTARTSYS, []) else
  if st =? PROXYFS_FILE_CLOSED then mret (- EFAULT, []) else
  ident ← c_ident self;
  let call msg :=
    match msg with
    | None => mret (- ERESTARTSYS, [])
    | Some _ =>
        r ← proxyfs_client_do_syscall act self msg;
        match r with
        | Some (Resp_msg h d) =>
            mret (le_value (ztake 4 d), if IOCTL_WILL_READ info then ztake arg_size (zdrop 4 d) else [])
        | Some (Resp_num _) => fault
        | None => mret (- ERESTARTSYS, [])
        end
    end in
  if IOCTL_WILL_WRITE info then
    g ← c_kmalloc;
    if negb (g_ok g) then mret (- ERESTARTSYS, []) else
    match uarg with
    | None => mret (- ERESTARTSYS, [])
    | Some a => msg ← c_new_msg MSG_IOCTL ident (4 + arg_size) (le_bytes 4 u32[cmd] ++ ztake arg_size a); call msg
    end
  else msg ← c_new_msg MSG_IOCTL ident 4 (le_bytes 4 u32[cmd]); call msg.

Definition is_num (r : option response) (n : Z) : bool := match r with Some (Resp_num m) => m =? n | _ => false end.

(** [flags]: those of the calling process. *)
Definition proxyfs_proxy_file_close (signal : bool) (wrote act : M unit) (flags self : Z) : M Z :=
  let exitting := Z.land flags PF_EXITING in
  st ← proxyfs_proxy_file_wait_interruptible signal wrote self PROXYFS_FILE_ALL_WRITTEN;
  if st =? 0 then mret (- ERESTARTSYS) else
  ident ← c_ident self; msg ← c_new_msg MSG_CLOSE ident 4 (le_bytes 4 exitting);
  rtn ← match msg with
        | None => mret (- ERESTARTSYS)
        | Some _ => r ← proxyfs_client_do_syscall act self msg; mret (if is_num r MSG_CLOSE_RESP then 0 else - ERESTARTSYS)
        end;
  x ← pfile self; q ← valid (peer (base x)); p ← c_peer q;
  mret (if negb (rtn =? 0) && negb (bool_decide (p_state p = PEER_CONNECTED)) then 0 else rtn).

Definition proxyfs_proxy_file_fsync (signal : bool) (wrote act : M unit) (self : Z) : M Z :=
  st ← proxyfs_proxy_file_wait_interruptible signal wrote self PROXYFS_FILE_ALL_WRITTEN;
  if st =? 0 then mret (- ERESTARTSYS) else
  if st =? PROXYFS_FILE_CLOSED then mret (- EFAULT) else
  ident ← c_ident self; msg ← c_new_msg MSG_FSYNC ident 0 [];
  match msg with
  | None => mret (- ERESTARTSYS)
  | Some _ => r ← proxyfs_client_do_syscall act self msg; mret (if is_num r MSG_FSYNC_RESP then 0 else - ERESTARTSYS)
  end.

(** What is answered to [poll]. *)
Definition proxyfs_file_poll (self : Z) : M Z :=
  r ← c_status self PROXYFS_FILE_CAN_READ; w ← c_status self PROXYFS_FILE_CAN_WRITE;
  mret (Z.lor (if negb (r =? 0) then 65 else 0) (if negb (w =? 0) then 260 else 0)).

(** ** proxyfs_fs.c *)

(** The result is the address of the file, or a negative error. *)
Definition proxyfs_fs_fdinode_open (blank : proxyfs_proxy_file) (act : M unit) (i_ino : Z) : M Z :=
  proxyfs_client_open_proxy blank act i_ino.
Definition proxyfs_fs_fdinode_release (signal : bool) (wrote act : M unit) (flags self : Z) : M Z :=
  rtn ← proxyfs_proxy_file_close signal wrote act flags self;
  if rtn =? 0 then destroy_pfile self;; kfree_pfile self;; mret rtn else mret rtn.
Definition proxyfs_fs_fdinode_fsync (signal : bool) (wrote act : M unit) (self : Z) : M Z :=
  proxyfs_proxy_file_fsync signal wrote act self.
Definition proxyfs_fs_fdinode_ioctl (access_ok signal : bool) (wrote act : M unit) (uarg : option (list Z)) (self cmd : Z)
    : M (Z * list Z) :=
  info ← valid (ioctl_get_info sz cmd);
  if info =? 0 then mret (- ENOTTY, []) else proxyfs_proxy_file_ioctl_user access_ok signal wrote act uarg self cmd.
End client.
