(* ===== verification/ProxyCall.v ===== *)
(** Calls on proxy files, end to end: client (ProxyClient.v) and server (ProxyServer.v) over a
    connection that delivers messages in order, as ProxyMsg.v shows of the transport. *)

From stdpp Require Import gmap.
From S2P Require Import Prelude Effect CircBuf KkcSock ProxyMsg ProxyFile ProxyReal ProxyIoctl ProxyServer ProxyClient.

(** Bitwise equality of two masks. *)
Ltac bits := apply Z.bits_inj'; let n := fresh "n" in intros n ?;
  rewrite ?Z.land_spec, ?Z.ldiff_spec, ?Z.lor_spec, ?Z.bits_0; repeat destruct (Z.testbit _ n); done.

Section call.
Context {K B : Type} `{Kernel K} `{Vfs B} `{VfsCtl B} (sz : sizes).
Abbreviation C := (client K (server K B)).
Abbreviation M := (eff C).
Abbreviation SM := (eff (server K B)).
Implicit Types (w : C) (s : server K B).

(** ** The connection *)

Definition at_server {A} (m : SM A) : M A := fun w =>
  match m (beyond w) with
  | Ret a s => Ret a (set_beyond s w)
  | Stop t s => Stop t (set_beyond s w)
  | Fault => Fault
  end.

Definition drained (p : proxyfs_peer K) : proxyfs_peer K :=
  mk_peer (sock p) (recv_buf p) (recv_start p) [] (p_ref p) (p_state p).
(** [proxyfs_task_handle_msg] of the server. *)
Definition server_receive (q : Z) (m : pmsg) : SM unit :=
  if is_data m.1 then
    f ← server_find_file (file_ident m.1);
    match f with None => mret tt | Some f => r ← real f; b ← valid (data_to (parent r) m); upd_parent f (fun _ => b) end
  else proxyfs_server_handle_msg sz q m.1 m.2.
Fixpoint each {W A} (f : A -> eff W unit) (l : list A) : eff W unit :=
  match l with [] => mret tt | a :: l => f a;; each f l end.

(** One exchange: the client asks for the files to be opened, what it queued for the server
    arrives there and is handled, and the answers arrive at the client and are handled.  [qs] is
    the server as a peer of the client, [qc] the client as a peer of the server. *)
Definition take_client (q : Z) : M (list pmsg) :=
  p ← c_peer q; modify (set_c_peers (insert q (drained p)));; mret (content <$> msg_queue p).
Definition take_server (q : Z) : SM (list pmsg) :=
  p ← peer_at q; modify (set_s_peers (insert q (drained p)));; mret (content <$> msg_queue p).
Definition exchange (qs qc : Z) : M unit :=
  proxyfs_client_open_files;;
  ms ← take_client qs; each (fun m => at_server (server_receive qc m)) ms;;
  ms ← at_server (take_server qc); each (client_receive qs) ms.

(** ** Lookups *)

Fixpoint find_id (ids : gmap Z Z) (ident : Z) (l : list Z) : option (option Z) :=
  match l with
  | [] => Some None
  | p :: l => i ← ids !! p; if i =? ident then Some (Some p) else find_id ids ident l
  end.
Definition c_idents (fs : gmap Z proxyfs_proxy_file) : gmap Z Z := (fun x => proxyfs_file_get_file_ident (base x)) <$> fs.
Definition s_idents (rs : gmap Z (proxyfs_real_file B)) : gmap Z Z := (fun r => proxyfs_file_get_file_ident (parent r)) <$> rs.

Lemma c_idents_lookup fs p : c_idents fs !! p = (fun x => proxyfs_file_get_file_ident (base x)) <$> fs !! p.
Proof. apply lookup_fmap. Qed.
Lemma s_idents_lookup rs p : s_idents rs !! p = (fun r => proxyfs_file_get_file_ident (parent r)) <$> rs !! p.
Proof. apply lookup_fmap. Qed.
Lemma c_find_run ident l r w : find_id (c_idents (pfiles w)) ident l = Some r -> c_find ident l w = Ret r w.
Proof.
  induction l as [|p l IH]; cbn [find_id c_find]; [by intros [= <-]|]. unfold c_ident, pfile. run.
  rewrite c_idents_lookup. destruct (pfiles w !! p) as [x|]; [|done]. cbn.
  destruct (_ =? ident); [by intros [= <-]|exact IH].
Qed.
Lemma find_file_run ident l r s : find_id (s_idents (reals s)) ident l = Some r -> find_file ident l s = Ret r s.
Proof.
  induction l as [|p l IH]; cbn [find_id find_file]; [by intros [= <-]|]. unfold ident_of, real. run.
  rewrite s_idents_lookup. destruct (reals s !! p) as [x|]; [|done]. cbn.
  destruct (_ =? ident); [by intros [= <-]|exact IH].
Qed.

(** ** One call *)

(** The process's file [p] is open over [qs], nothing is queued, and a file of that identifier is
    found as [p]. *)
Record linked (qs qc p : Z) (x : proxyfs_proxy_file) (pc ps : proxyfs_peer K) w : Prop := {
  li_file : pfiles w !! p = Some x;
  li_peer : peer (base x) = Some qs;
  li_client : c_peers w !! qs = Some pc;
  li_connected : p_state pc = PEER_CONNECTED;
  li_quiet : msg_queue pc = [];
  li_open : try_open w = [];
  li_found : find_id (c_idents (pfiles w)) (proxyfs_file_get_file_ident (base x)) (c_files w) = Some (Some p);
  li_server : s_peers (beyond w) !! qc = Some ps;
  li_quiet' : msg_queue ps = []
}.

(** The file with a call under way. *)
Definition calling (c : Z) (x : proxyfs_proxy_file) : proxyfs_proxy_file :=
  mk_pfile (proxyfs_file_set_status (base x) PROXYFS_FILE_IN_SYSCALL) (p_class x) (Some c).

(** A status that is a state of its own. *)
Lemma get_state f b : b = PROXYFS_FILE_OPENED \/ b = PROXYFS_FILE_IN_SYSCALL \/ b = PROXYFS_FILE_CLOSED ->
  proxyfs_file_get_status f b = Z.land (state f) b.
Proof. by intros [-> | [-> | ->]]; unfold proxyfs_file_get_status; cbn. Qed.
Lemma get_set_state f b : b = PROXYFS_FILE_OPENED \/ b = PROXYFS_FILE_IN_SYSCALL \/ b = PROXYFS_FILE_CLOSED ->
  proxyfs_file_get_status (proxyfs_file_set_status f b) b = b.
Proof. intros Hb. rewrite get_state by done. cbn [state proxyfs_file_set_status set_state]. bits. Qed.
Lemma get_unset_state f b : b = PROXYFS_FILE_OPENED \/ b = PROXYFS_FILE_IN_SYSCALL \/ b = PROXYFS_FILE_CLOSED ->
  proxyfs_file_get_status (proxyfs_file_unset_status f b) b = 0.
Proof. intros Hb. rewrite get_state by done. cbn [state proxyfs_file_unset_status set_state]. bits. Qed.

Lemma drained_quiet (p : proxyfs_peer K) m : msg_queue p = [] -> drained (proxyfs_peer_send_msg p m) = p.
Proof. destruct p. cbn. by intros ->. Qed.

(** One message goes over and one answer comes back. *)
Definition settled (qs qc : Z) (pc ps : proxyfs_peer K) s w : C :=
  set_beyond (set_s_peers (insert qc (drained ps)) s) (set_c_peers (insert qs (drained pc)) w).
Lemma exchange_one qs qc pc m w s ps r :
  try_open w = [] -> c_peers w !! qs = Some pc -> msg_queue pc = [m] ->
  server_receive qc (content m) (beyond w) = Ret tt s -> s_peers s !! qc = Some ps -> content <$> msg_queue ps = [r] ->
  exchange qs qc w = (client_receive qs r;; mret tt) (settled qs qc pc ps s w).
Proof.
  intros Ho Hc Hm Hs Hp Hr. unfold exchange, proxyfs_client_open_files, take_client, c_peer, at_server, take_server, peer_at. run.
  rewrite Ho. cbn [open_loop]. run. rewrite Hc. cbn [fmap list_fmap each]. rewrite Hm. cbn [fmap list_fmap each]. run.
  cbn [beyond set_c_peers]. rewrite Hs. cbn [beyond set_beyond]. rewrite Hp. rewrite Hr. done.
Qed.

(** The file when the call is over. *)
Definition called (x : proxyfs_proxy_file) : proxyfs_proxy_file :=
  mk_pfile (proxyfs_file_unset_status (base x) PROXYFS_FILE_IN_SYSCALL) (p_class x) None.
Definition dropped (close : bool) (p : Z) w : C :=
  if close then set_c_lists (list_del p (c_files w)) (list_del p (try_open w)) (list_del p (try_open_send w)) w else w.
(** What the answer [r] without data does. *)
Lemma answer_run qs p x c r w :
  msg_num r.1 = MSG_FSYNC_RESP \/ msg_num r.1 = MSG_READ_REQUEST_RESP \/ msg_num r.1 = MSG_CLOSE_RESP ->
  pfiles w !! p = Some x -> syscall_resp x = Some c -> is_Some (cells w !! c) ->
  find_id (c_idents (pfiles w)) (file_ident r.1) (c_files w) = Some (Some p) ->
  client_receive qs r w =
    Ret tt (dropped (msg_num r.1 =? MSG_CLOSE_RESP) p
      (set_pfiles (insert p (called x))
        (set_cells (insert c (Some (Resp_num (msg_num r.1)))) w))).
Proof.
  intros Hn Hx Hc [o Ho] Hf. unfold client_receive, is_data.
  assert (E : client_receive qs r w = answer_num (msg_num r.1) (msg_num r.1 =? MSG_CLOSE_RESP) (file_ident r.1) w).
  { unfold client_receive, is_data, proxyfs_client_handle_msg. destruct Hn as [E|[E|E]]; by rewrite E. }
  unfold client_receive, is_data in E. rewrite E. unfold answer_num, get_proxy_file_by_id. run. rewrite (c_find_run _ _ (Some p)) by done.
  unfold store_resp, pfile, upd_base, upd_pfile, pfile. run. rewrite Hx, Hc. run. rewrite Ho. run. cbn [pfiles set_cells]. rewrite Hx.
  run. cbn [pfiles set_cells set_pfiles]. rewrite lookup_insert_eq. cbn [set_resp base p_class syscall_resp].
  unfold set_pfiles. cbn. rewrite insert_insert_eq. by destruct (_ =? MSG_CLOSE_RESP).
Qed.

(** [w'] is [w] after a call on [p] that left the server at [s]. *)
Record after_call (close : bool) (p : Z) (x : proxyfs_proxy_file) s w w' : Prop := {
  ac_files : pfiles w' = <[p := called x]> (pfiles w);
  ac_list : c_files w' = if close then list_del p (c_files w) else c_files w;
  ac_peers : c_peers w' = c_peers w;
  ac_server : beyond w' = s;
  ac_cells : cells w' = delete (c_next w) (cells w);
  ac_grants : c_grants w' = c_grants w
}.

(** The world in which the caller sleeps. *)
Definition asleep (p qs : Z) (x : proxyfs_proxy_file) (pc : proxyfs_peer K) (m : proxyfs_msg) w : C :=
  set_ready true (set_c_peers (insert qs (proxyfs_peer_send_msg pc m)) (set_pfiles (insert p (calling (c_next w) x))
    (set_cells (insert (c_next w) None) (set_c_next (c_next w + 1) w)))).
Lemma insert_twice p a b w : set_pfiles (insert p a) (set_pfiles (insert p b) w) = set_pfiles (insert p a) w.
Proof. unfold set_pfiles. cbn. by rewrite insert_insert_eq. Qed.
Lemma do_syscall_sleeps (act : M unit) qs qc p x pc ps m w w' :
  linked qs qc p x pc ps w -> act (asleep p qs x pc m w) = Ret tt w' ->
  proxyfs_client_do_syscall act p (Some m) w =
    (d ← check_syscall_done p qs; if (d : bool) then cs ← gets cells; r ← valid (cs !! c_next w); modify (set_cells (delete (c_next w)));; mret r
     else halt Gone) w'.
Proof.
  intros [] Ha. unfold proxyfs_client_do_syscall, pfile, c_fresh, upd_base, upd_pfile, pfile. run. rewrite li_file0. run.
  cbn [pfiles set_cells set_c_next]. rewrite li_file0. run. cbn [pfiles set_pfiles]. rewrite lookup_insert_eq. run.
  rewrite insert_twice, li_peer0. unfold c_send, c_peer. run. cbn [c_peers set_pfiles set_cells set_c_next]. rewrite li_client0. run.
  unfold proxyfs_task_notify_data_ready. run. unfold wait_event.
  fold (calling (c_next w) x) (asleep p qs x pc m w).
  assert (E : check_syscall_done p qs (asleep p qs x pc m w) = Ret false (asleep p qs x pc m w)).
  { unfold check_syscall_done, c_status, pfile, c_peer. run. cbn [asleep pfiles c_peers set_ready set_c_peers set_pfiles set_cells set_c_next].
    rewrite lookup_insert_eq. run. cbn [asleep pfiles c_peers set_ready set_c_peers set_pfiles set_cells set_c_next].
    rewrite lookup_insert_eq. cbn [calling base]. rewrite get_set_state by tauto. cbn. by rewrite li_connected0. }
  change (set_ready true _) with (asleep p qs x pc m w). run. rewrite E, Ha.
  destruct (check_syscall_done p qs w') as [[] ?|?|]; done.
Qed.

Lemma do_syscall_done (act : M unit) qs qc p x y pc pc' ps m r w w' :
  linked qs qc p x pc ps w -> act (asleep p qs x pc m w) = Ret tt w' ->
  pfiles w' !! p = Some y -> proxyfs_file_get_status (base y) PROXYFS_FILE_IN_SYSCALL = 0 -> c_peers w' !! qs = Some pc' ->
  cells w' !! c_next w = Some r ->
  proxyfs_client_do_syscall act p (Some m) w = Ret r (set_cells (delete (c_next w)) w').
Proof.
  intros Hl Ha Hy Hs Hq Hr. rewrite (do_syscall_sleeps act qs qc p x pc ps m w w') by done.
  unfold check_syscall_done, c_status, pfile, c_peer. run. rewrite Hy. run. rewrite Hq. run. rewrite Hs. cbn. by rewrite Hr.
Qed.

(** The server handles [m] and answers with [r]. *)
Record served (qc : Z) (m : pmsg) (r : pmsg) (ps : proxyfs_peer K) s s' : Prop := {
  sv_run : server_receive qc m s = Ret tt s';
  sv_peer : s_peers s' !! qc = Some ps;
  sv_answer : content <$> msg_queue ps = [r]
}.

Definition after_server qc ps s : server K B := set_s_peers (insert qc (drained ps)) s.

Lemma exchange_asleep qs qc p x pc ps m w r ps' s' :
  linked qs qc p x pc ps w -> served qc (content m) r ps' (beyond w) s' ->
  exchange qs qc (asleep p qs x pc m w) =
    (client_receive qs r;; mret tt) (settled qs qc (proxyfs_peer_send_msg pc m) ps' s' (asleep p qs x pc m w)).
Proof.
  intros [] []. eapply exchange_one; [done| |..]; [|by cbn; rewrite li_quiet0|done..].
  cbn. by rewrite lookup_insert_eq.
Qed.

(** While a call is under way, files are found as before. *)
Lemma calling_idents c p x fs : fs !! p = Some x -> c_idents (<[p := calling c x]> fs) = c_idents fs.
Proof. intros Hx. unfold c_idents. rewrite fmap_insert. apply insert_id. by rewrite lookup_fmap, Hx. Qed.

Lemma called_calling c x : called (calling c x) = called x.
Proof.
  unfold called, calling. cbn. f_equal. unfold proxyfs_file_unset_status, proxyfs_file_set_status, set_state. cbn. f_equal. bits.
Qed.

(** The client while it handles the answer, and what that gives the caller. *)
Definition answering qs qc p x pc m w ps' s' : C :=
  settled qs qc (proxyfs_peer_send_msg pc m) ps' s' (asleep p qs x pc m w).
Lemma answering_finds qs qc p x pc ps m w ps' s' :
  linked qs qc p x pc ps w -> exists W, W = answering qs qc p x pc m w ps' s' /\
  pfiles W !! p = Some (calling (c_next w) x) /\ is_Some (cells W !! c_next w) /\
  find_id (c_idents (pfiles W)) (proxyfs_file_get_file_ident (base x)) (c_files W) = Some (Some p).
Proof. intros []. eexists. split; [done|]. cbn. rewrite !lookup_insert_eq, calling_idents by done. eauto. Qed.
Lemma call_returns (close : bool) (o : response) qs qc p x pc ps m w r ps' s' W W' :
  linked qs qc p x pc ps w -> served qc (content m) r ps' (beyond w) s' -> W = answering qs qc p x pc m w ps' s' ->
  client_receive qs r W = Ret tt W' -> pfiles W' = <[p := called (calling (c_next w) x)]> (pfiles W) ->
  c_files W' = (if close then list_del p (c_files W) else c_files W) -> c_peers W' = c_peers W -> beyond W' = beyond W ->
  cells W' = <[c_next w := Some o]> (cells W) -> c_grants W' = c_grants W ->
  exists w', proxyfs_client_do_syscall (exchange qs qc) p (Some m) w = Ret (Some o) w' /\
    after_call close p x (after_server qc ps' s') w w'.
Proof.
  intros Hl Hs -> Hr Hp Hf Hq Hb Hc Hg. assert (E := exchange_asleep qs qc p x pc ps m w r ps' s' Hl Hs).
  fold (answering qs qc p x pc m w ps' s') in E. rewrite (bind_run _ _ _ _ _ Hr) in E. destruct Hl. eexists. split.
  - eapply do_syscall_done; [by split|exact E|..]; [by rewrite Hp, lookup_insert_eq|apply get_unset_state; tauto|
      by rewrite Hq; apply lookup_insert_eq|by rewrite Hc, lookup_insert_eq].
  - split; cbn; rewrite ?Hp, ?Hf, ?Hq, ?Hb, ?Hc, ?Hg; try done.
    + by rewrite called_calling; cbn; rewrite insert_insert_eq.
    + cbn. rewrite insert_insert_eq, drained_quiet by done. by apply insert_id.
    + cbn. by rewrite !delete_insert_eq.
Qed.

(** The call returns the number of the answer. *)
Lemma call_answered qs qc p x pc ps m w r ps' s' :
  linked qs qc p x pc ps w -> served qc (content m) r ps' (beyond w) s' ->
  msg_num r.1 = MSG_FSYNC_RESP \/ msg_num r.1 = MSG_READ_REQUEST_RESP \/ msg_num r.1 = MSG_CLOSE_RESP ->
  file_ident r.1 = proxyfs_file_get_file_ident (base x) ->
  exists w', proxyfs_client_do_syscall (exchange qs qc) p (Some m) w = Ret (Some (Resp_num (msg_num r.1))) w' /\
    after_call (msg_num r.1 =? MSG_CLOSE_RESP) p x (after_server qc ps' s') w w'.
Proof.
  intros Hl Hs Hn Hi. destruct (answering_finds qs qc p x pc ps m w ps' s' Hl) as (W & HW & Hx & Hc & Hf). rewrite <- Hi in Hf.
  pose proof (answer_run qs p _ _ r _ Hn Hx eq_refl Hc Hf) as E.
  apply (call_returns _ _ _ _ _ _ _ _ _ _ _ _ _ _ _ Hl Hs HW E); by destruct (msg_num r.1 =? MSG_CLOSE_RESP).
Qed.

(** ** The server's part *)

(** The file [f] of the server has the identifier and is open over [qc]; nothing is queued, and
    the peer has other references. *)
Record serving (qc ident f : Z) (r : proxyfs_real_file B) (ps : proxyfs_peer K) s : Prop := {
  se_found : find_id (s_idents (reals s)) ident (s_files s) = Some (Some f);
  se_file : reals s !! f = Some r;
  se_over : peer (parent r) = Some qc;
  se_peer : s_peers s !! qc = Some ps;
  se_quiet : msg_queue ps = [];
  se_refs : 1 < p_ref ps;
  se_memory : forall n, g_ok (grants s n) = true
}.

Lemma find_id_ident ids i l p : find_id ids i l = Some (Some p) -> ids !! p = Some i.
Proof.
  induction l as [|q l IH]; cbn; [done|]. destruct (ids !! q) as [j|] eqn:E; cbn; [|done].
  destruct (Z.eqb_spec j i); [by intros [= <-]; subst|exact IH].
Qed.
Lemma serving_ident qc ident f r ps s : serving qc ident f r ps s -> proxyfs_file_get_file_ident (parent r) = ident.
Proof. intros []. apply find_id_ident in se_found0. rewrite s_idents_lookup, se_file0 in se_found0. by inversion se_found0. Qed.

Definition unref (p : proxyfs_peer K) : proxyfs_peer K :=
  mk_peer (sock p) (recv_buf p) (recv_start p) (msg_queue p) (p_ref p - 1) (p_state p).
Lemma put_unref p : 1 < p_ref p -> proxyfs_peer_put p = Some (unref p).
Proof. intros Hr. unfold proxyfs_peer_put. by rewrite (proj2 (Z.eqb_neq _ _)) by lia. Qed.

(** A file that was closed by a process that goes on ([data0] is 0), or by one that exits. *)
Definition closed_real (data0 : Z) (r : proxyfs_real_file B) : proxyfs_real_file B :=
  let f := parent r in
  with_parent (mk_file (file_ident16 f) (file_owner_pid f) (write_buf f) (read_buf f) 0 (read_was_requested f)
                 (if data0 =? 0 then Z.lor (state f) PROXYFS_FILE_CLOSED else state f) None (ops f)) r.

Definition answer_of (num ident : Z) : pmsg := (mk_hdr MSG_MAGIC num ident 0, []).


Section steps.
Implicit Type f : Z.
Lemma real_run f r s : reals s !! f = Some r -> real f s = Ret r s.
Proof. intros E. unfold real. run. by rewrite E. Qed.
Lemma upd_parent_run f g r s :
  reals s !! f = Some r -> upd_parent f g s = Ret tt (set_reals (insert f (with_parent (g (parent r)) r)) s).
Proof. intros E. unfold upd_parent, upd_real. by step (real_run _ _ _ E). Qed.
Lemma upd_real_run f g r s : reals s !! f = Some r -> upd_real f g s = Ret tt (set_reals (insert f (g r)) s).
Proof. intros E. unfold upd_real. by step (real_run _ _ _ E). Qed.
Lemma ident_of_run f r s : reals s !! f = Some r -> ident_of f s = Ret (proxyfs_file_get_file_ident (parent r)) s.
Proof. intros E. unfold ident_of. by step (real_run _ _ _ E). Qed.
Lemma new_msg_run num ident size d s :
  (forall n, g_ok (grants s n) = true) -> size <= MSG_MAX_SIZE - MSG_HDR_SIZE ->
  new_msg num ident size d s = Ret (Some (mk_pmsg (mk_hdr MSG_MAGIC num ident size) d 0 false)) (set_s_tick (S (s_tick s)) s).
Proof.
  intros Hg Hz. unfold new_msg, kmalloc. run. rewrite Hg. unfold proxyfs_msg_new, proxyfs_msg_new_internal.
  by rewrite (proj2 (Z.ltb_ge _ _)).
Qed.
Lemma send_to_run q p m s : s_peers s !! q = Some p -> send_to q (Some m) s = Ret tt (set_s_peers (insert q (proxyfs_peer_send_msg p m)) s).
Proof. intros E. unfold send_to, peer_at. run. by rewrite E. Qed.
(** Leaving a peer that has other references. *)
Lemma set_peer_none_run f r q p s :
  reals s !! f = Some r -> peer (parent r) = Some q -> s_peers s !! q = Some p -> 1 < p_ref p ->
  set_peer_of f None s =
    Ret tt (set_reals (insert f (with_parent (proxyfs_file_set_peer (parent r) None).1.1 r)) (set_s_peers (insert q (unref p)) s)).
Proof.
  intros Hr Hq Hp Hn. unfold set_peer_of. step (real_run _ _ _ Hr). cbn [proxyfs_file_set_peer get_peer]. rewrite Hq.
  unfold put_peer, peer_at. run. rewrite Hp. run. rewrite put_unref by done.
  by rewrite (upd_parent_run f _ r).
Qed.
End steps.

Lemma close_run qc f r ps s :
  serving qc (proxyfs_file_get_file_ident (parent r)) f r ps s ->
  exists s', proxyfs_real_file_close f qc s = Ret 0 s' /\ reals s' = <[f := closed_real 1 r]> (reals s) /\
    s_peers s' !! qc = Some (unref (proxyfs_peer_send_msg ps
      (mk_pmsg (mk_hdr MSG_MAGIC MSG_CLOSE_RESP (proxyfs_file_get_file_ident (parent r)) 0) [] 0 false))) /\
    (forall n, g_ok (grants s' n) = true).
Proof.
  intros []. unfold proxyfs_real_file_close. step (real_run _ _ _ se_file0). rewrite bool_decide_true by done.
  step (ident_of_run _ _ _ se_file0). erewrite (bind_run (new_msg _ _ _ _)) by (by apply new_msg_run).
  cbv beta iota. erewrite (bind_run (send_to _ _)) by (by apply send_to_run).
  erewrite (bind_run (set_peer_of f None)) by (eapply set_peer_none_run; [exact se_file0|done|cbn; by rewrite lookup_insert_eq|done]).
  erewrite bind_run by (eapply upd_parent_run; cbn; by rewrite lookup_insert_eq).
  eexists. split; [done|]. cbn. by rewrite !insert_insert_eq, lookup_insert_eq.
Qed.

Lemma server_find_run qc ident f r ps s : serving qc ident f r ps s -> server_find_file ident s = Ret (Some f) s.
Proof. intros []. unfold server_find_file. run. by apply find_file_run. Qed.
Lemma server_close qc h d f r ps s :
  serving qc (file_ident h) f r ps s -> msg_num h = MSG_CLOSE ->
  exists ps' s', served qc (h, d) (answer_of MSG_CLOSE_RESP (file_ident h)) ps' s s' /\
    reals s' = <[f := closed_real (le_value (ztake 4 d)) r]> (reals s) /\ drained ps' = unref ps.
Proof.
  intros Hs Hn. pose proof (serving_ident _ _ _ _ _ _ Hs) as Hi. pose proof (server_find_run _ _ _ _ _ _ Hs) as Hf.
  rewrite <- Hi in Hs. destruct (close_run _ _ _ _ _ Hs) as (s1 & E1 & Hr1 & Hp1 & Hg1). destruct Hs.
  assert (E : server_receive qc (h, d) s = (proxyfs_real_file_close f qc;;
    when (le_value (ztake 4 d) =? 0) (upd_parent f (fun x => proxyfs_file_set_status x PROXYFS_FILE_CLOSED))) s).
  { transitivity ((g ← server_find_file (file_ident h);
      match g with
      | Some f => proxyfs_real_file_close f qc;;
          when (le_value (ztake 4 d) =? 0) (upd_parent f (fun x => proxyfs_file_set_status x PROXYFS_FILE_CLOSED))
      | None => m ← new_msg MSG_CLOSE_RESP (file_ident h) 0 []; send_to qc m
      end) s); [destruct h; cbn in Hn; by rewrite Hn|]. by step Hf. }
  rewrite (bind_run _ _ _ _ _ E1) in E. unfold when in E. eexists. destruct (_ =? 0) eqn:Hd.
  - rewrite (upd_parent_run f _ (closed_real 1 r)) in E by (rewrite Hr1; apply lookup_insert_eq).
    eexists. split; [split; [exact E|exact Hp1|cbn; by rewrite se_quiet0, Hi]|].
    cbn. rewrite Hr1, insert_insert_eq. unfold closed_real at 2. rewrite Hd. split; [done|]. destruct ps; cbn in *. by subst.
  - eexists. split; [split; [exact E|exact Hp1|cbn; by rewrite se_quiet0, Hi]|].
    cbn. rewrite Hr1. unfold closed_real at 2. rewrite Hd. split; [done|]. destruct ps; cbn in *. by subst.
Qed.

Lemma server_fsync qc h d f r ps s :
  serving qc (file_ident h) f r ps s -> msg_num h = MSG_FSYNC ->
  exists ps' s', served qc (h, d) (answer_of MSG_FSYNC_RESP (file_ident h)) ps' s s' /\
    reals s' = <[f := with_body (vfs_fsync (f_body r)).2 r]> (reals s) /\ drained ps' = ps.
Proof.
  intros Hs Hn. pose proof (serving_ident _ _ _ _ _ _ Hs) as Hi. pose proof (server_find_run _ _ _ _ _ _ Hs) as Hf. destruct Hs.
  assert (E : server_receive qc (h, d) s = (proxyfs_real_file_fsync f qc;; mret tt) s).
  { transitivity ((g ← server_find_file (file_ident h);
      match g with
      | Some f => proxyfs_real_file_fsync f qc;; mret tt
      | None => m ← new_msg MSG_FSYNC_RESP (file_ident h) 0 []; send_to qc m
      end) s); [destruct h; cbn in Hn; by rewrite Hn|]. by step Hf. }
  unfold proxyfs_real_file_fsync in E. unfold mbind at 1, eff_bind at 1 in E. rewrite (bind_run _ _ _ _ _ (real_run _ _ _ se_file0)) in E.
  rewrite bool_decide_true in E by done. destruct (vfs_fsync (f_body r)) as [rtn b]. cbn [snd].
  rewrite (bind_run _ _ _ _ _ (upd_real_run _ _ _ _ se_file0)) in E.
  erewrite (bind_run (ident_of f)) in E by (apply ident_of_run; apply lookup_insert_eq).
  erewrite (bind_run (new_msg _ _ _ _)) in E by (by apply new_msg_run).
  cbv beta iota in E. erewrite (bind_run (send_to _ _)) in E by (by apply send_to_run).
  eexists _, _. split; [split; [exact E|cbn; apply lookup_insert_eq|cbn; by rewrite se_quiet0, <- Hi]|].
  split; [done|]. by apply drained_quiet.
Qed.

(** ** The client's part *)

Definition written (x : proxyfs_proxy_file) : Prop := circ_buf_get_read_size (write_buf (base x)) = 0.
Lemma wait_written signal (act : M unit) qs qc p x pc ps w :
  linked qs qc p x pc ps w -> written x ->
  proxyfs_proxy_file_wait_interruptible signal act p PROXYFS_FILE_ALL_WRITTEN w = Ret PROXYFS_FILE_ALL_WRITTEN w.
Proof.
  intros [] Hx. assert (Hs : proxyfs_file_get_status (base x) PROXYFS_FILE_ALL_WRITTEN = PROXYFS_FILE_ALL_WRITTEN).
  { unfold proxyfs_file_get_status. by rewrite Hx. }
  unfold proxyfs_proxy_file_wait_interruptible, wait_event, c_status, c_peer, pfile. 
  do 4 (run; rewrite ?li_file0, ?li_peer0, ?li_client0, ?Hs, ?li_connected0; cbn).
  rewrite bool_decide_true by done. cbn. by rewrite li_file0, Hs.
Qed.
Lemma c_ident_run p x w : pfiles w !! p = Some x -> c_ident p w = Ret (proxyfs_file_get_file_ident (base x)) w.
Proof. intros E. unfold c_ident, pfile. run. by rewrite E. Qed.
Lemma c_new_msg_run num ident size d w :
  (forall n, g_ok (c_grants w n) = true) -> size <= MSG_MAX_SIZE - MSG_HDR_SIZE ->
  c_new_msg num ident size d w = Ret (Some (mk_pmsg (mk_hdr MSG_MAGIC num ident size) d 0 false)) (set_c_tick (S (c_tick w)) w).
Proof.
  intros Hg Hz. unfold c_new_msg, c_kmalloc. run. rewrite Hg. unfold proxyfs_msg_new, proxyfs_msg_new_internal.
  by rewrite (proj2 (Z.ltb_ge _ _)).
Qed.
Lemma linked_tick qs qc p x pc ps n w : linked qs qc p x pc ps w -> linked qs qc p x pc ps (set_c_tick n w).
Proof. by intros []. Qed.

(** What a process and the two nodes must be in for a call to go through. *)
Record ready (qs qc p f : Z) (x : proxyfs_proxy_file) (r : proxyfs_real_file B) (pc ps : proxyfs_peer K) w : Prop := {
  re_linked : linked qs qc p x pc ps w;
  re_serving : serving qc (proxyfs_file_get_file_ident (base x)) f r ps (beyond w);
  re_written : written x;
  re_memory : forall n, g_ok (c_grants w n) = true;
  re_refs : 1 < p_ref pc
}.

(** An [fsync] of a process on a migrated file reaches the device and returns 0, whatever the
    device answers: its result does not travel back. *)
Theorem fsync_forgets_result signal wrote qs qc p f x r pc ps w :
  ready qs qc p f x r pc ps w ->
  exists w', proxyfs_fs_fdinode_fsync signal wrote (exchange qs qc) p w = Ret 0 w' /\
    pfiles w' = <[p := called x]> (pfiles w) /\ c_files w' = c_files w /\ c_peers w' = c_peers w /\
    reals (beyond w') = <[f := with_body (vfs_fsync (f_body r)).2 r]> (reals (beyond w)) /\
    s_peers (beyond w') !! qc = Some ps.
Proof.
  intros [Hl Hs Hx Hg _]. unfold proxyfs_fs_fdinode_fsync, proxyfs_proxy_file_fsync. step (wait_written signal wrote _ _ _ _ _ _ _ Hl Hx).
  cbn [Z.eqb PROXYFS_FILE_ALL_WRITTEN PROXYFS_FILE_CLOSED Pos.eqb]. step (c_ident_run _ _ _ (li_file _ _ _ _ _ _ _ Hl)).
  erewrite (bind_run (c_new_msg _ _ _ _)) by (by apply c_new_msg_run). 
  set (m := mk_pmsg _ _ _ _). apply (linked_tick _ _ _ _ _ _ (S (c_tick w))) in Hl.
  destruct (server_fsync qc (content m).1 (content m).2 f r ps _ Hs eq_refl) as (ps' & s' & Hsv & Hr & Hd).
  destruct (call_answered _ _ _ _ _ _ m _ _ _ _ Hl Hsv ltac:(by left) eq_refl) as (w' & E & []).
  step E. eexists. split; [done|]. rewrite ac_files0, ac_list0, ac_peers0, ac_server0. cbn. rewrite Hr, lookup_insert_eq, Hd. done.
Qed.

(** Giving up the peer of the file that is freed. *)
Lemma release_run p x q pc w :
  pfiles w !! p = Some x -> peer (base x) = Some q -> c_peers w !! q = Some pc -> 1 < p_ref pc ->
  exists w', (destroy_pfile p;; kfree_pfile p;; mret 0) w = Ret 0 w' /\ pfiles w' = delete p (pfiles w) /\ c_files w' = c_files w /\
    c_peers w' = <[q := unref pc]> (c_peers w) /\ beyond w' = beyond w.
Proof.
  intros Hx Hq Hc Hr. unfold destroy_pfile, kfree_pfile, upd_base, upd_pfile, c_put_peer, c_peer, pfile. cbn [proxyfs_file_destroy].
  run. rewrite Hx. run. rewrite Hx. run. rewrite Hq. run. cbn [c_peers set_pfiles]. rewrite Hc. run. cbn [pfiles set_pfiles set_c_peers].
  rewrite lookup_insert_eq. rewrite put_unref by done. eexists. split; [done|]. cbn. by rewrite delete_insert_eq.
Qed.

Lemma four_bytes v : 0 <= v < 2 ^ 32 -> le_value (ztake 4 (le_bytes 4 v)) = v.
Proof. intros Hv. rewrite ztake_all by (by unfold zlen; rewrite le_bytes_length). rewrite le_value_le_bytes. by apply Z.mod_small. Qed.

Lemma land_exiting flags : Z.land flags PF_EXITING = if Z.testbit flags 2 then PF_EXITING else 0.
Proof.
  apply Z.bits_inj'. intros n Hn. change PF_EXITING with (2 ^ 2). rewrite Z.land_spec, Z.pow2_bits_eqb by lia.
  destruct (Z.eqb_spec 2 n) as [<-|]; destruct (Z.testbit flags 2); rewrite ?andb_false_r, ?andb_true_r, ?Z.pow2_bits_eqb, ?Z.bits_0 by lia;
    try done; symmetry; by apply Z.eqb_neq.
Qed.

Lemma close_returns signal wrote flags qs qc p f x r pc ps w :
  ready qs qc p f x r pc ps w ->
  exists w' s', proxyfs_proxy_file_close signal wrote (exchange qs qc) flags p w = Ret 0 w' /\ after_call true p x s' w w' /\
    reals s' = <[f := closed_real (Z.land flags PF_EXITING) r]> (reals (beyond w)) /\ s_peers s' !! qc = Some (unref ps).
Proof.
  intros [Hl Hs Hx Hg _]. unfold proxyfs_proxy_file_close. step (wait_written signal wrote _ _ _ _ _ _ _ Hl Hx).
  pose proof (li_file _ _ _ _ _ _ _ Hl) as Hp. pose proof (li_peer _ _ _ _ _ _ _ Hl) as Hq. pose proof (li_client _ _ _ _ _ _ _ Hl) as Hc.
  cbn [Z.eqb PROXYFS_FILE_ALL_WRITTEN PROXYFS_FILE_CLOSED Pos.eqb]. step (c_ident_run _ _ _ Hp).
  erewrite (bind_run (c_new_msg _ _ _ _)) by (by apply c_new_msg_run).
  set (m := mk_pmsg _ _ _ _). apply (linked_tick _ _ _ _ _ _ (S (c_tick w))) in Hl.
  destruct (server_close qc (content m).1 (content m).2 f r ps _ Hs eq_refl) as (ps' & s' & Hsv & Hr & Hd).
  destruct (call_answered _ _ _ _ _ _ m _ _ _ _ Hl Hsv ltac:(by right; right) eq_refl) as (w' & E & Ha).
  erewrite bind_run by (step E; done). pose proof Ha as []. cbn in ac_files0, ac_peers0.
  eexists w', _. split; [|split; [split; done|]].
  - unfold pfile, c_peer. run. rewrite ac_files0, lookup_insert_eq. cbn. rewrite Hq. run. by rewrite ac_peers0, Hc.
  - assert (Hm : (content m).2 = le_bytes 4 (Z.land flags PF_EXITING)).
    { apply ztake_all. unfold zlen. cbn [m data header data_size]. by rewrite le_bytes_length. }
    cbn. rewrite Hr, lookup_insert_eq, Hd, Hm, four_bytes; [done|].
    rewrite land_exiting. by destruct (Z.testbit _ _).
Qed.

(** Closing a migrated file: the process's file is freed and leaves the lists of the client, the
    real file has no peer any more and is marked closed unless the process exits, and both nodes
    give one reference on their peer back. *)
Lemma release_closes_both_ends signal wrote flags qs qc p f x r pc ps w :
  ready qs qc p f x r pc ps w ->
  exists w', proxyfs_fs_fdinode_release signal wrote (exchange qs qc) flags p w = Ret 0 w' /\
    pfiles w' = delete p (pfiles w) /\ c_files w' = list_del p (c_files w) /\ c_peers w' = <[qs := unref pc]> (c_peers w) /\
    reals (beyond w') = <[f := closed_real (Z.land flags PF_EXITING) r]> (reals (beyond w)) /\
    s_peers (beyond w') !! qc = Some (unref ps).
Proof.
  intros Hy. pose proof Hy as [[] _ _ _ Hn].
  destruct (close_returns signal wrote flags _ _ _ _ _ _ _ _ _ Hy) as (w1 & s1 & E & [] & Hr & Hp).
  unfold proxyfs_fs_fdinode_release. step E. cbn [Z.eqb].
  destruct (release_run p (called x) qs pc w1) as (w' & E' & Hf & Hl & Hq & Hb); [by rewrite ac_files0, lookup_insert_eq|done| |done|].
  { by rewrite ac_peers0. }
  exists w'. split; [exact E'|]. rewrite Hf, Hl, Hq, Hb, ac_files0, ac_list0, ac_peers0, ac_server0, delete_insert_eq. done.
Qed.

(** ** ioctl *)

Lemma ioctl_answer_run qs p x c r w :
  msg_num r.1 = MSG_IOCTL_RESP -> pfiles w !! p = Some x -> syscall_resp x = Some c -> is_Some (cells w !! c) ->
  (forall n, g_ok (c_grants w n) = true) ->
  find_id (c_idents (pfiles w)) (file_ident r.1) (c_files w) = Some (Some p) ->
  client_receive qs r w =
    Ret tt (set_pfiles (insert p (called x)) (set_cells (insert c (Some (Resp_msg r.1 r.2))) (set_c_tick (S (c_tick w)) w))).
Proof.
  intros Hn Hx Hc [o Ho] Hg Hf. unfold client_receive, is_data, proxyfs_client_handle_msg. rewrite Hn. cbn [Z.eqb orb].
  match goal with |- (if ?b then _ else ?m) _ = _ => change b with false; cbv iota end.
  repeat match goal with |- (if ?b then _ else ?m) _ = _ => first [change b with false|change b with true]; cbv iota end.
  unfold get_proxy_file_by_id. run. rewrite (c_find_run _ _ (Some p)) by done.
  unfold c_kmalloc, pfile, upd_base, upd_pfile, pfile. run. rewrite Hg. cbn [pfiles set_c_tick]. rewrite Hx, Hc. run. cbn [cells set_c_tick]. rewrite Ho.
  run. cbn [pfiles set_cells set_c_tick]. rewrite Hx. run. cbn [pfiles set_cells set_pfiles]. rewrite lookup_insert_eq. by rewrite insert_twice.
Qed.

Lemma ioctl_answered qs qc p x pc ps m w r ps' s' :
  linked qs qc p x pc ps w -> served qc (content m) r ps' (beyond w) s' -> (forall n, g_ok (c_grants w n) = true) ->
  msg_num r.1 = MSG_IOCTL_RESP -> file_ident r.1 = proxyfs_file_get_file_ident (base x) ->
  exists w', proxyfs_client_do_syscall (exchange qs qc) p (Some m) w = Ret (Some (Resp_msg r.1 r.2)) w' /\
    after_call false p x (after_server qc ps' s') w w'.
Proof.
  intros Hl Hs Hg Hn Hi. destruct (answering_finds qs qc p x pc ps m w ps' s' Hl) as (W & HW & Hx & Hc & Hf). rewrite <- Hi in Hf.
  assert (Hg' : forall n, g_ok (c_grants W n) = true) by by subst W.
  pose proof (ioctl_answer_run qs p _ _ r _ Hn Hx eq_refl Hc Hg' Hf) as E.
  apply (call_returns false _ _ _ _ _ _ _ _ _ _ _ _ _ _ Hl Hs HW E); reflexivity.
Qed.

(** The message that carries [cmd] and, behind it, anything. *)
Definition carries (cmd : Z) (d : list Z) : Prop := le_value (ztake 4 d) = cmd.
Definition ioctl_result (err : Z) : Z := if s32[err] =? - ENOIOCTLCMD then - EINVAL else s32[err].
Definition ioctl_answer (info ident err : Z) (buf : list Z) : pmsg :=
  let size := 4 + if IOCTL_WILL_READ info then IOCTL_ARG_SIZE info else 0 in
  (mk_hdr MSG_MAGIC MSG_IOCTL_RESP ident size,
   le_bytes 4 u32[ioctl_result err] ++ if IOCTL_WILL_READ info then ztake (IOCTL_ARG_SIZE info) buf else []).

(** The device has an operation [io] that answers [err]. *)
Record device (r : proxyfs_real_file B) (io : Z -> list Z -> Z * list Z * B) : Prop := {
  de_type : f_mode (f_body r) <> S_IFREG;
  de_ops : has_f_op (f_body r) = true;
  de_ioctl : f_unlocked_ioctl (f_body r) = Some io
}.

Lemma do_ioctl_run f r io cmd arg s :
  reals s !! f = Some r -> device r io ->
  proxyfs_real_file_do_ioctl f cmd arg s =
    Ret (ioctl_result (io cmd arg).1.1, (io cmd arg).1.2) (set_reals (insert f (with_body (io cmd arg).2 r)) s).
Proof.
  intros Hr []. unfold proxyfs_real_file_do_ioctl. step (real_run _ _ _ Hr). rewrite de_ops0, de_ioctl0. cbn [negb].
  destruct (io cmd arg) as [[e a] b]. destruct (f_mode (f_body r)); [done|..]; by step (upd_real_run _ (with_body b) _ _ Hr).
Qed.

Lemma arg_size_nonneg info : 0 <= IOCTL_ARG_SIZE info.
Proof. apply Z.land_nonneg. by right. Qed.
Lemma compose_ioctl info ident err buf :
  IOCTL_ARG_SIZE info <= zlen buf ->
  exists m, proxyfs_msg_compose_new true true MSG_IOCTL_RESP ident
      (if IOCTL_WILL_READ info
       then [(4, le_bytes 4 u32[ioctl_result err]); (IOCTL_ARG_SIZE info, buf); (0, [])]
       else [(4, le_bytes 4 u32[ioctl_result err]); (0, [])]) = Some m /\
    content m = ioctl_answer info ident err buf.
Proof.
  intros Hz. pose proof (arg_size_nonneg info). eexists. split; [done|]. unfold content, ioctl_answer. 
  set (b4 := le_bytes 4 _). assert (Hb : zlen b4 = 4) by (unfold zlen, b4; by rewrite le_bytes_length).
  destruct (IOCTL_WILL_READ info); cbn [compose_args compose_size header data data_size Z.eqb]; rewrite (ztake_all 4 b4) by lia.
  - destruct (Z.eqb_spec (IOCTL_ARG_SIZE info) 0) as [E0|].
    + by rewrite (ztake_0 (IOCTL_ARG_SIZE info)), E0, app_nil_r, ztake_all by lia.
    + rewrite app_nil_r, Z.add_0_r, (ztake_all (4 + _)); [done|]. rewrite zlen_app, zlen_ztake. lia.
  - by rewrite app_nil_r, ztake_all by lia.
Qed.

Lemma server_ioctl qc h d f r ps s cmd info io :
  serving qc (file_ident h) f r ps s -> msg_num h = MSG_IOCTL -> carries cmd d ->
  ioctl_get_info sz cmd = Some info -> urange 32 info -> device r io ->
  let res := io cmd (ztake (IOCTL_ARG_SIZE info) (g_mem (grants s (s_tick s)))) in
  IOCTL_ARG_SIZE info <= zlen res.1.2 ->
  exists ps' s', served qc (h, d) (ioctl_answer info (file_ident h) res.1.1 res.1.2) ps' s s' /\
    reals s' = <[f := with_body res.2 r]> (reals s) /\ drained ps' = ps.
Proof.
  intros Hs Hn Hc Hinf Hu Hd res Hz. pose proof (serving_ident _ _ _ _ _ _ Hs) as Hi. pose proof (server_find_run _ _ _ _ _ _ Hs) as Hf. destruct Hs.
  assert (E : server_receive qc (h, d) s = server_handle_ioctl sz f qc cmd s).
  { transitivity ((g ← server_find_file (file_ident h);
      match g with Some f => server_handle_ioctl sz f qc (le_value (ztake 4 d)) | None => mret tt end) s);
      [destruct h; cbn in Hn; by rewrite Hn|]. step Hf. by rewrite Hc. }
  unfold server_handle_ioctl in E. rewrite Hinf in E. unfold valid in E. 
  rewrite (bind_run (mret info) _ s info s eq_refl) in E. rewrite (u32_id info Hu) in E.
  rewrite (bind_run kmalloc _ s _ _ eq_refl) in E. rewrite se_memory0 in E. cbn [negb] in E.
  erewrite (bind_run (proxyfs_real_file_do_ioctl _ _ _)) in E by (by eapply do_ioctl_run).
  fold res in E. cbv beta iota in E. destruct (compose_ioctl info (file_ident h) res.1.1 res.1.2 Hz) as (m & Hm & Hco).
  erewrite (bind_run (ident_of f)) in E by (apply ident_of_run; apply lookup_insert_eq).
  change (parent (with_body res.2 r)) with (parent r) in E. rewrite Hi in E.
  do 2 rewrite (bind_run kmalloc _ _ _ _ eq_refl) in E. cbn [grants set_reals set_s_tick] in E. rewrite !se_memory0, Hm in E.
  erewrite send_to_run in E by done. eexists _, _. split; [split; [exact E|apply lookup_insert_eq|cbn; by rewrite se_quiet0, <- Hco]|].
  split; [done|]. by apply drained_quiet.
Qed.

(** What the caller makes of the answer. *)
Lemma ioctl_answer_read info ident err buf :
  IOCTL_ARG_SIZE info <= zlen buf -> let d := (ioctl_answer info ident err buf).2 in
  le_value (ztake 4 d) = u32[ioctl_result err] /\
  (if IOCTL_WILL_READ info then ztake (IOCTL_ARG_SIZE info) (zdrop 4 d) else []) =
    if IOCTL_WILL_READ info then ztake (IOCTL_ARG_SIZE info) buf else [].
Proof.
  intros Hz d. pose proof (arg_size_nonneg info). unfold d, ioctl_answer. cbn [snd].
  set (b4 := le_bytes 4 _). assert (Hb : zlen b4 = 4) by apply zlen_le_bytes. split.
  - rewrite ztake_app_le by lia. apply four_bytes. apply uwrap_range. lia.
  - destruct (IOCTL_WILL_READ info); [|done]. rewrite <- Hb, zdrop_app_eq. by rewrite ztake_ztake_le.
Qed.

(** The part of an ioctl that sends [m] and waits. *)
Lemma ioctl_call qs qc p f x r pc ps w n m cmd info io :
  ready qs qc p f x r pc ps w -> msg_num (header m) = MSG_IOCTL ->
  file_ident (header m) = proxyfs_file_get_file_ident (base x) -> carries cmd (content m).2 ->
  ioctl_get_info sz cmd = Some info -> urange 32 info -> device r io ->
  let res := io cmd (ztake (IOCTL_ARG_SIZE info) (g_mem (grants (beyond w) (s_tick (beyond w))))) in
  let answer := ioctl_answer info (proxyfs_file_get_file_ident (base x)) res.1.1 res.1.2 in
  IOCTL_ARG_SIZE info <= zlen res.1.2 ->
  exists w', proxyfs_client_do_syscall (exchange qs qc) p (Some m) (set_c_tick n w) = Ret (Some (Resp_msg answer.1 answer.2)) w' /\
    pfiles w' = <[p := called x]> (pfiles w) /\ c_files w' = c_files w /\ c_peers w' = c_peers w /\
    reals (beyond w') = <[f := with_body res.2 r]> (reals (beyond w)) /\ s_peers (beyond w') !! qc = Some ps.
Proof.
  intros [Hl Hs _ Hg _] Hn Hi Hc Hinf Hu Hd res answer Hz. unfold answer. rewrite <- Hi in *.
  apply (linked_tick _ _ _ _ _ _ n) in Hl.
  destruct (server_ioctl qc _ (content m).2 _ _ _ _ _ _ _ Hs Hn Hc Hinf Hu Hd Hz) as (ps' & s' & Hsv & Hr & Hq).
  destruct (ioctl_answered _ _ _ _ _ _ m _ _ _ _ Hl Hsv Hg eq_refl Hi) as (w' & E & []).
  exists w'. split; [exact E|]. rewrite ac_files0, ac_list0, ac_peers0, ac_server0. cbn. by rewrite Hr, lookup_insert_eq, Hq.
Qed.

(** An ioctl of a process on a migrated file: the device is called with the command and with the
    memory the server allocated, not with the argument [a] of the process, and an error of the
    device arrives as a positive number. *)
Theorem ioctl_argument_lost signal wrote qs qc p f x r pc ps w cmd info io a :
  ready qs qc p f x r pc ps w -> urange 32 cmd -> ioctl_get_info sz cmd = Some info -> urange 32 info -> info <> 0 ->
  4 + IOCTL_ARG_SIZE info <= MSG_MAX_SIZE - MSG_HDR_SIZE -> IOCTL_ARG_SIZE info <= zlen a -> device r io ->
  let res := io cmd (ztake (IOCTL_ARG_SIZE info) (g_mem (grants (beyond w) (s_tick (beyond w))))) in
  IOCTL_ARG_SIZE info <= zlen res.1.2 ->
  exists w', proxyfs_fs_fdinode_ioctl sz true signal wrote (exchange qs qc) (Some a) p cmd w =
      Ret (u32[ioctl_result res.1.1], if IOCTL_WILL_READ info then ztake (IOCTL_ARG_SIZE info) res.1.2 else []) w' /\
    pfiles w' = <[p := called x]> (pfiles w) /\ c_files w' = c_files w /\ c_peers w' = c_peers w /\
    reals (beyond w') = <[f := with_body res.2 r]> (reals (beyond w)) /\ s_peers (beyond w') !! qc = Some ps.
Proof.
  intros Hy Hcm Hinf Hu Hnz Hsz Ha Hd res Hz. pose proof Hy as [Hl Hs Hx Hg _]. pose proof (arg_size_nonneg info).
  destruct (ioctl_answer_read info (proxyfs_file_get_file_ident (base x)) res.1.1 res.1.2 Hz) as [Hv Hb].
  unfold proxyfs_fs_fdinode_ioctl, proxyfs_proxy_file_ioctl_user. rewrite Hinf. unfold valid.
  rewrite (bind_run (mret info) _ w info w eq_refl), (proj2 (Z.eqb_neq _ _) Hnz), (bind_run (mret info) _ w info w eq_refl).
  rewrite andb_false_r. step (wait_written signal wrote _ _ _ _ _ _ _ Hl Hx).
  cbn [Z.eqb PROXYFS_FILE_ALL_WRITTEN PROXYFS_FILE_CLOSED Pos.eqb]. step (c_ident_run _ _ _ (li_file _ _ _ _ _ _ _ Hl)).
  assert (Hc4 : forall l k, 4 <= k -> carries cmd (ztake k (le_bytes 4 u32[cmd] ++ l))).
  { intros l k Hk. unfold carries. rewrite ztake_ztake_le, ztake_app_le by (rewrite ?zlen_le_bytes; lia).
    rewrite four_bytes by (by rewrite u32_id). by apply u32_id. }
  destruct (IOCTL_WILL_WRITE info); [rewrite (bind_run c_kmalloc _ _ _ _ eq_refl), Hg; cbn [negb]|].
  all: erewrite (bind_run (c_new_msg _ _ _ _)) by (by apply c_new_msg_run); cbv beta iota.
  all: set (m := mk_pmsg _ _ _ _).
  1: destruct (ioctl_call qs qc p f x r pc ps w (S (S (c_tick w))) m cmd info io) as (w' & E & Hrest); [done|done|done|apply (Hc4 (ztake _ a) (4 + _)); lia|done..|].
  2: destruct (ioctl_call qs qc p f x r pc ps w (S (c_tick w)) m cmd info io) as (w' & E & Hrest);
    [done|done|done|by apply (Hc4 [] 4)|done..|].
  all: cbv zeta in E; fold res in E; step E; rewrite Hv, Hb; by exists w'.
Qed.
End call.

(** ** Examples *)

(** A terminal whose driver answers with EIO and leaves the buffer alone. *)
#[export] Instance mem_VfsCtl : VfsCtl mem_file := {|
  f_mode := fun _ => S_IFCHR; has_f_op := fun _ => true;
  f_unlocked_ioctl := fun b => Some (fun _ arg => (-5, arg, b)); f_ioctl := fun _ => None; vfs_fsync := fun b => (-5, b)
|}.
Definition ex_grant : grant := mk_grant true 50000 (replicate 64 0).
Definition ex_quiet : proxyfs_peer seg_kernel := mk_peer None [] 0 [] 2 PEER_CONNECTED.
Definition ex_real (o : option Z) : proxyfs_real_file mem_file :=
  let f := ex_parent real_file_ops (ex_buf 1000 []) (ex_buf 20000 []) 0 in
  mk_real (mk_file (file_ident16 f) (file_owner_pid f) (write_buf f) (read_buf f) 0 false 0 o (ops f))
    0 (mk_mem [] [] 0) (Some tty_real_file_ops) [1] 0 false.
Definition ex_server (o : option Z) : server seg_kernel mem_file :=
  mk_server {[10 := ex_real o]} [10] {[7 := ex_quiet]} [7] false 1 [] 11 (fun _ => ex_grant) 0.
Definition ex_pfile : proxyfs_proxy_file :=
  let f := ex_parent proxy_file_ops (ex_buf 1000 []) (ex_buf 20000 []) 0 in
  mk_pfile (mk_file (file_ident16 f) (file_owner_pid f) (write_buf f) (read_buf f) 0 false 1 (Some 3) (ops f)) (Some Generic_proxy) None.
Definition ex_connected : client seg_kernel (server seg_kernel mem_file) :=
  mk_client {[20 := ex_pfile]} [20] [] [] {[3 := ex_quiet]} [3] (Some 3) ∅ false 21 (fun _ => ex_grant) 0 (ex_server (Some 7)).

Lemma ex_ready : ready 3 7 20 10 ex_pfile (ex_real (Some 7)) ex_quiet ex_quiet ex_connected.
Proof. split; [split|split| | |]; reflexivity. Qed.

Lemma fsync_forgets_result_witness :
  exists w', proxyfs_fs_fdinode_fsync true (mret tt) (exchange (mk_sizes 16 36 18 8 72 56) 3 7) 20 ex_connected = Ret 0 w'.
Proof.
  destruct (fsync_forgets_result (mk_sizes 16 36 18 8 72 56) true (mret tt) 3 7 20 10 ex_pfile (ex_real (Some 7)) ex_quiet ex_quiet
    ex_connected ex_ready) as (w' & E & _).
  exists w'. exact E.
Defined.

(** TCGETS: the error arrives as 4294967291, with the zeros of the server. *)
Lemma ioctl_argument_lost_witness :
  exists w', proxyfs_fs_fdinode_ioctl (mk_sizes 16 36 18 8 72 56) true true (mret tt) (exchange (mk_sizes 16 36 18 8 72 56) 3 7)
    (Some (replicate 36 255)) 20 21505 ex_connected = Ret (4294967291, replicate 36 0) w'.
Proof.
  destruct (ioctl_argument_lost (mk_sizes 16 36 18 8 72 56) true (mret tt) 3 7 20 10 ex_pfile (ex_real (Some 7)) ex_quiet ex_quiet
    ex_connected 21505 (reads 36) (fun _ arg => (-5, arg, f_body (ex_real (Some 7)))) (replicate 36 255) ex_ready) as (w' & E & _);
    [split; reflexivity || discriminate|reflexivity|split; reflexivity || discriminate|discriminate|discriminate|discriminate| |discriminate|].
  { split; [discriminate|reflexivity|reflexivity]. }
  exists w'. exact E.
Defined.
