(* ===== verification/ProxyOpen.v ===== *)
(** Opening a migrated file, end to end (proxyfs_fs.c, proxyfs_client.c, proxyfs_server.c), and
    the life of a file: opened, used and closed. *)

From stdpp Require Import gmap.
From S2P Require Import Prelude Effect CircBuf KkcSock ProxyMsg ProxyFile ProxyReal ProxyIoctl ProxyServer ProxyClient ProxyCall.

Section opening.
Context {K B : Type} `{Kernel K} `{Vfs B} `{VfsCtl B} (sz : sizes).
Abbreviation C := (client K (server K B)).
Abbreviation M := (eff C).
Implicit Types (w : C) (s : server K B).

(** ** Lookups *)

Lemma find_id_insert ids p j i l r : ids !! p = None -> find_id ids i l = Some r -> find_id (<[p := j]> ids) i l = Some r.
Proof.
  intros Hp. induction l as [|q l IH]; cbn; [done|]. destruct (decide (q = p)) as [->|]; [by rewrite Hp|].
  rewrite lookup_insert_ne by done. destruct (ids !! q) as [k|]; cbn; [|done]. destruct (k =? i); [done|exact IH].
Qed.
Lemma find_id_snoc ids p i l : find_id ids i l = Some None -> ids !! p = Some i -> find_id ids i (l ++ [p]) = Some (Some p).
Proof.
  intros Hl Hp. induction l as [|q l IH]; cbn in *; [by rewrite Hp; cbn; rewrite Z.eqb_refl|].
  destruct (ids !! q) as [k|]; cbn in *; [|done]. destruct (k =? i); [done|by apply IH].
Qed.
Lemma find_id_fresh ids p i l : find_id ids i l = Some None -> ids !! p = None -> p ∉ l.
Proof.
  intros Hl Hp. induction l as [|q l IH]; [apply not_elem_of_nil|]. cbn in Hl. destruct (ids !! q) as [k|] eqn:E; cbn in Hl; [|done].
  destruct (k =? i); [done|]. apply not_elem_of_cons. split; [congruence|by apply IH].
Qed.
Lemma set_get_ident f e : urange 32 e -> proxyfs_file_get_file_ident (proxyfs_file_set_file_ident f e) = e.
Proof.
  intros He. set (g := mk_file 0 0 (write_buf f) (read_buf f) (write_buf_unconfirmed f) (read_was_requested f) (state f) (peer f) (ops f)).
  exact (proj1 (file_ident_roundtrip g e He ltac:(done) ltac:(done))).
Qed.

(** ** The server's part *)

(** The file [f] of the server has the identifier and is not open. *)
Record offered (qc ident f : Z) (r : proxyfs_real_file B) (ps : proxyfs_peer K) s : Prop := {
  of_found : find_id (s_idents (reals s)) ident (s_files s) = Some (Some f);
  of_file : reals s !! f = Some r;
  of_free : peer (parent r) = None;
  of_peer : s_peers s !! qc = Some ps;
  of_quiet : msg_queue ps = [];
  of_refs : 0 < p_ref ps;
  of_memory : forall n, g_ok (grants s n) = true
}.
Definition ref (p : proxyfs_peer K) : proxyfs_peer K := proxyfs_peer_get p.
Definition opened_real (qc : Z) (r : proxyfs_real_file B) : proxyfs_real_file B :=
  with_parent (proxyfs_file_set_peer (parent r) (Some qc)).1.1 r.
Definition open_answer (o : proxyfs_real_file_ops) (ident : Z) : pmsg :=
  (mk_hdr MSG_MAGIC MSG_OPEN_RESP_OK ident 4, le_bytes 4 (open_type o)).

Lemma set_peer_some_run f r q p s :
  reals s !! f = Some r -> peer (parent r) = None -> s_peers s !! q = Some p ->
  set_peer_of f (Some q) s = Ret tt (set_reals (insert f (opened_real q r)) (set_s_peers (insert q (ref p)) s)).
Proof.
  intros Hr Hn Hp. unfold set_peer_of. step (real_run _ _ _ Hr). cbn [proxyfs_file_set_peer]. rewrite Hn.
  unfold get_peer, put_peer, peer_at. run. rewrite Hp. by rewrite (upd_parent_run f _ r).
Qed.
Lemma open_run qc f r ps s o :
  offered qc (proxyfs_file_get_file_ident (parent r)) f r ps s -> real_ops r = Some o -> o <> generic_real_file_ops ->
  exists s' ps', proxyfs_real_file_open f qc s = Ret 0 s' /\ s_peers s' !! qc = Some ps' /\ drained ps' = ref ps /\
    content <$> msg_queue ps' = [open_answer o (proxyfs_file_get_file_ident (parent r))] /\
    reals s' = <[f := opened_real qc r]> (reals s) /\ s_files s' = s_files s /\ grants s' = grants s.
Proof.
  intros [] Ho Hg. unfold proxyfs_real_file_open. step (real_run _ _ _ of_file0). rewrite Ho. unfold ops_open.
  set (m := mk_pmsg (mk_hdr MSG_MAGIC MSG_OPEN_RESP_OK (proxyfs_file_get_file_ident (parent r)) 4) (le_bytes 4 (open_type o)) 0 false).
  erewrite (bind_run (ident_of f ≫= _) _ _ 0).
  2: { step (ident_of_run _ _ _ of_file0). erewrite (bind_run (new_msg _ _ _ _)) by (by apply new_msg_run).
       cbv beta iota. erewrite (bind_run (send_to _ _)) by (by apply send_to_run). by destruct o. }
  cbn [Z.eqb]. erewrite bind_run by (by apply set_peer_some_run; [..|apply lookup_insert_eq]).
  eexists _, _. split; [done|]. split; [apply lookup_insert_eq|]. split; [|split; [|done]].
  - destruct ps; cbn in *. by subst.
  - cbn. rewrite of_quiet0. cbn. unfold content, open_answer. by destruct o.
Qed.

Lemma server_open qc h d f r ps s o :
  offered qc (file_ident h) f r ps s -> msg_num h = MSG_OPEN -> real_ops r = Some o -> o <> generic_real_file_ops ->
  exists ps' s', served sz qc (h, d) (open_answer o (file_ident h)) ps' s s' /\
    reals s' = <[f := opened_real qc r]> (reals s) /\ drained ps' = ref ps /\ s_files s' = s_files s /\ grants s' = grants s.
Proof.
  intros Hof Hn Ho Hg. assert (Hi : proxyfs_file_get_file_ident (parent r) = file_ident h).
  { destruct Hof. apply find_id_ident in of_found0. rewrite s_idents_lookup, of_file0 in of_found0. by inversion of_found0. }
  assert (E : server_receive sz qc (h, d) s = (proxyfs_real_file_open f qc;; mret tt) s).
  { transitivity ((g ← server_find_file (file_ident h);
      match g with Some f => proxyfs_real_file_open f qc;; mret tt
      | None => m ← new_msg MSG_OPEN_RESP_FAILED (file_ident h) 0 []; send_to qc m end) s);
      [destruct h; cbn in Hn; by rewrite Hn|]. destruct Hof. unfold server_find_file. run. by rewrite (find_file_run _ _ (Some f)). }
  rewrite <- Hi in Hof |- *. destruct (open_run _ _ _ _ _ _ Hof Ho Hg) as (s' & ps' & E' & Hp & Hd & Hm & Hr & Hf).
  rewrite (bind_run _ _ _ _ _ E') in E. by exists ps', s'.
Qed.

(** ** The client's part *)

(** No file of the identifier is open or being opened at the client. *)
Record unopened (qs ident : Z) (pc : proxyfs_peer K) w : Prop := {
  un_files : find_id (c_idents (pfiles w)) ident (c_files w) = Some None;
  un_open : try_open w = [];
  un_send : try_open_send w = [];
  un_fresh : pfiles w !! c_next w = None;
  un_server : c_server w = Some qs;
  un_peer : c_peers w !! qs = Some pc;
  un_connected : p_state pc = PEER_CONNECTED;
  un_quiet : msg_queue pc = [];
  un_refs : 0 < p_ref pc;
  un_memory : forall n, g_ok (c_grants w n) = true /\ g_addr (c_grants w n) <> 0
}.

(** The new file: empty buffers, no peer, no state. *)
Definition new_file (blank : proxyfs_proxy_file) (ident : Z) (g1 g2 : grant) : proxyfs_proxy_file :=
  mk_pfile (proxyfs_file_set_file_ident
    (mk_file (file_ident16 (base blank)) (file_owner_pid (base blank))
       (mk_circ (g_addr g1) (g_addr g1) (g_addr g1) 0 WRITE_BUF_SIZE (g_mem g1))
       (mk_circ (g_addr g2) (g_addr g2) (g_addr g2) 0 READ_BUF_SIZE (g_mem g2)) 0 false 0 None (Some proxy_file_ops)) ident)
    (p_class blank) (syscall_resp blank).

Lemma new_file_written blank ident g1 g2 : written (new_file blank ident g1 g2).
Proof. unfold written, circ_buf_get_read_size. cbn. by rewrite !Z.ltb_irrefl. Qed.

Lemma init_run blank p w :
  pfiles w !! p = Some blank -> (forall n, g_ok (c_grants w n) = true /\ g_addr (c_grants w n) <> 0) ->
  forall ident, (proxyfs_proxy_file_init p;; upd_base p (fun b => proxyfs_file_set_file_ident b ident)) w =
    Ret tt (set_pfiles (insert p (new_file blank ident (c_grants w (c_tick w)) (c_grants w (S (c_tick w)))))
      (set_c_tick (S (S (c_tick w))) w)).
Proof.
  intros Hp Hg ident. unfold proxyfs_proxy_file_init, c_kmalloc, upd_base, upd_pfile, pfile. run. cbn [pfiles set_c_tick]. rewrite Hp.
  cbn [c_grants c_tick set_c_tick]. destruct (Hg (c_tick w)) as [-> H2%Z.eqb_neq]. destruct (Hg (S (c_tick w))) as [-> H3%Z.eqb_neq].
  unfold proxyfs_file_init, circ_buf_init. cbn [fst snd]. rewrite H2. cbn [Z.eqb negb]. rewrite H3. cbn [Z.eqb negb].
  run. cbn [pfiles set_c_tick]. rewrite Hp. run. cbn [pfiles set_pfiles]. rewrite lookup_insert_eq. run. cbn [pfiles set_pfiles].
  rewrite lookup_insert_eq. by rewrite !insert_twice.
Qed.

Definition class_of (o : proxyfs_real_file_ops) : proxy_class :=
  match o with pipe_real_file_ops => Pipe_proxy | _ => Generic_proxy end.
Definition opened_file (qs : Z) (o : proxyfs_real_file_ops) (x : proxyfs_proxy_file) : proxyfs_proxy_file :=
  mk_pfile (proxyfs_file_set_status (proxyfs_file_set_peer (base x) (Some qs)).1.1 PROXYFS_FILE_OPENED) (Some (class_of o)) (syscall_resp x).

Lemma open_answer_run qs o p x pc ident w :
  pfiles w !! p = Some x -> proxyfs_file_get_file_ident (base x) = ident -> peer (base x) = None ->
  try_open_send w = [p] -> c_peers w !! qs = Some pc ->
  client_receive qs (open_answer o ident) w =
    Ret tt (set_pfiles (insert p (opened_file qs o x)) (set_c_peers (insert qs (ref pc)) (set_c_lists (c_files w ++ [p]) (try_open w) [] w))).
Proof.
  intros Hx Hi Hn Ht Hq.
  transitivity ((l ← gets try_open_send; f ← c_find ident l;
    match f with
    | None => mret tt
    | Some f =>
        modify (fun w => set_c_lists (c_files w ++ [f]) (try_open w) (list_del f (try_open_send w)) w);;
        upd_pfile f (set_class (class_of o));;
        c_set_peer f (Some qs);; upd_base f (fun b => proxyfs_file_set_status b PROXYFS_FILE_OPENED)
    end) w); [by destruct o|].
  run. rewrite Ht. cbn [c_find]. rewrite (bind_run _ _ _ _ _ (c_ident_run _ _ _ Hx)), Hi, Z.eqb_refl. run.
  rewrite Ht. unfold list_del. cbn [filter list_filter]. rewrite decide_False by (by intros ?).
  unfold upd_base, c_set_peer, upd_pfile, pfile. run. cbn [pfiles set_c_lists]. rewrite Hx. run. cbn [pfiles set_pfiles]. rewrite lookup_insert_eq.
  cbn [proxyfs_file_set_peer set_class base]. rewrite Hn. unfold c_get_peer, c_put_peer, c_peer, upd_base, upd_pfile, pfile. run.
  cbn [c_peers set_pfiles set_c_lists]. rewrite Hq. run. cbn [pfiles set_pfiles set_c_peers set_c_lists]. rewrite lookup_insert_eq. run.
  cbn [pfiles set_pfiles]. rewrite lookup_insert_eq. unfold set_pfiles, set_c_peers, set_c_lists. cbn. by rewrite !insert_insert_eq.
Qed.

Lemma exchange_opens qs qc w w1 :
  proxyfs_client_open_files w = Ret tt w1 -> try_open w1 = [] -> exchange sz qs qc w = exchange sz qs qc w1.
Proof.
  intros E Ho. unfold exchange. step E.
  assert (E1 : proxyfs_client_open_files w1 = Ret tt w1) by (unfold proxyfs_client_open_files; run; by rewrite Ho).
  by step E1.
Qed.

(** The file is asked for. *)
Definition asked qs p pc m w : C :=
  set_c_lists (c_files w) [] [p] (set_c_peers (insert qs (proxyfs_peer_send_msg pc m)) (set_c_tick (S (c_tick w)) w)).
Lemma open_files_run qs p x pc w :
  pfiles w !! p = Some x -> try_open w = [p] -> try_open_send w = [] -> c_server w = Some qs -> c_peers w !! qs = Some pc ->
  (forall n, g_ok (c_grants w n) = true) ->
  proxyfs_client_open_files w =
    Ret tt (asked qs p pc (mk_pmsg (mk_hdr MSG_MAGIC MSG_OPEN (proxyfs_file_get_file_ident (base x)) 0) [] 0 false) w).
Proof.
  intros Hx Ht Hs Hse Hq Hg. unfold proxyfs_client_open_files. run. rewrite Ht. cbn [open_loop].
  rewrite (bind_run _ _ _ _ _ (c_ident_run _ _ _ Hx)). erewrite (bind_run (c_new_msg _ _ _ _)) by (by apply c_new_msg_run).
  unfold c_send, c_peer. run. cbn [c_server c_peers set_c_tick]. rewrite Hse. run. cbn [c_peers set_c_tick]. rewrite Hq.
  cbn [try_open try_open_send set_c_peers set_c_tick c_files]. rewrite Ht, Hs. unfold asked, list_del. cbn [filter list_filter].
  rewrite decide_False by (by intros ?). done.
Qed.

(** The world in which the process waits for its new file. *)
Definition opening_world (p : Z) (x : proxyfs_proxy_file) (n : nat) w : C :=
  set_ready true (set_c_lists (c_files w) [p] [] (set_pfiles (insert p x) (set_c_tick n (set_c_next (p + 1) w)))).

Definition open_msg (x : proxyfs_proxy_file) : proxyfs_msg :=
  mk_pmsg (mk_hdr MSG_MAGIC MSG_OPEN (proxyfs_file_get_file_ident (base x)) 0) [] 0 false.
Lemma exchange_asked qs qc p x n pc w r ps s :
  unopened qs (proxyfs_file_get_file_ident (base x)) pc w -> served sz qc (content (open_msg x)) r ps (beyond w) s ->
  exists W, W = settled qs qc (proxyfs_peer_send_msg pc (open_msg x)) ps s (asked qs p pc (open_msg x) (opening_world p x n w)) /\
    exchange sz qs qc (opening_world p x n w) = (client_receive qs r;; mret tt) W /\
    pfiles W = <[p := x]> (pfiles w) /\ c_peers W = c_peers w.
Proof.
  intros [] []. set (W := opening_world p x n w). assert (Hp : pfiles W !! p = Some x) by apply lookup_insert_eq.
  pose proof (open_files_run qs p x pc W Hp eq_refl eq_refl un_server0 un_peer0 (fun k => proj1 (un_memory0 k))) as Eo.
  fold (open_msg x) in Eo. set (m := open_msg x) in *.
  assert (Hq : c_peers (asked qs p pc m W) !! qs = Some (proxyfs_peer_send_msg pc m)) by apply lookup_insert_eq.
  eexists. split; [done|]. split.
  - rewrite (exchange_opens _ _ _ _ Eo eq_refl).
    exact (exchange_one sz qs qc _ m (asked qs p pc m W) s ps _ eq_refl Hq (f_equal (fun l => l ++ [m]) un_quiet0) sv_run sv_peer sv_answer).
  - split; [done|]. cbn. rewrite insert_insert_eq, drained_quiet by done. by apply insert_id.
Qed.

Lemma exchange_opening qs qc p x n f r o pc ps w :
  let ident := proxyfs_file_get_file_ident (base x) in
  unopened qs ident pc w -> offered qc ident f r ps (beyond w) -> real_ops r = Some o -> o <> generic_real_file_ops ->
  peer (base x) = None ->
  exists w', exchange sz qs qc (opening_world p x n w) = Ret tt w' /\
    pfiles w' = <[p := opened_file qs o x]> (pfiles w) /\ c_files w' = c_files w ++ [p] /\ try_open w' = [] /\
    c_peers w' = <[qs := ref pc]> (c_peers w) /\ c_grants w' = c_grants w /\
    reals (beyond w') = <[f := opened_real qc r]> (reals (beyond w)) /\ s_files (beyond w') = s_files (beyond w) /\
    s_peers (beyond w') !! qc = Some (ref ps) /\ (forall k, g_ok (grants (beyond w') k) = true).
Proof.
  intros ident Hun Hof Ho Hg Hn.
  destruct (server_open qc (content (open_msg x)).1 (content (open_msg x)).2 f r ps _ o Hof eq_refl Ho Hg) as (ps' & s' & Hsv & Hr & Hd & Hs & Hgr).
  destruct (exchange_asked qs qc p x n pc w _ ps' s' Hun Hsv) as (W & HW & E & Hp & Hq). destruct Hun.
  assert (Hpx : pfiles W !! p = Some x) by by rewrite Hp, lookup_insert_eq.
  assert (Hqs : c_peers W !! qs = Some pc) by by rewrite Hq.
  assert (Ht : try_open_send W = [p]) by by subst W.
  rewrite (bind_run _ _ _ _ _ (open_answer_run qs o p x pc ident W Hpx eq_refl Hn Ht Hqs)) in E.
  eexists. split; [exact E|]. cbn. rewrite Hp, Hq, insert_insert_eq. subst W. cbn. rewrite Hr, Hs, Hgr, Hd, lookup_insert_eq.
  split_and!; try done. by destruct Hof.
Qed.

(** ** The whole call *)

Lemma offered_ready qs qc ident p f x r o pc ps w w' :
  unopened qs ident pc w -> offered qc ident f r ps (beyond w) -> pfiles w !! p = None ->
  proxyfs_file_get_file_ident (base x) = ident -> written x ->
  pfiles w' = <[p := opened_file qs o x]> (pfiles w) -> c_files w' = c_files w ++ [p] -> try_open w' = [] ->
  c_peers w' = <[qs := ref pc]> (c_peers w) -> c_grants w' = c_grants w ->
  reals (beyond w') = <[f := opened_real qc r]> (reals (beyond w)) -> s_files (beyond w') = s_files (beyond w) ->
  s_peers (beyond w') !! qc = Some (ref ps) -> (forall k, g_ok (grants (beyond w') k) = true) ->
  ready qs qc p f (opened_file qs o x) (opened_real qc r) (ref pc) (ref ps) w'.
Proof.
  intros [] [] Hp Hi Hw Hf Hl Ho Hc Hg Hr Hs Hps Hk.
  assert (Hi' : proxyfs_file_get_file_ident (base (opened_file qs o x)) = ident) by done.
  assert (Hids : c_idents (pfiles w') = <[p := ident]> (c_idents (pfiles w))).
  { rewrite Hf. unfold c_idents. by rewrite fmap_insert, Hi'. }
  assert (Hsid : s_idents (reals (beyond w')) = s_idents (reals (beyond w))).
  { rewrite Hr. unfold s_idents. rewrite fmap_insert. apply insert_id. by rewrite lookup_fmap, of_file0. }
  split; [split|split| | |]; try done.
  - by rewrite Hf, lookup_insert_eq.
  - by rewrite Hc, lookup_insert_eq.
  - rewrite Hi', Hids, Hl. apply find_id_snoc; [|apply lookup_insert_eq]. apply find_id_insert; [|done].
    by rewrite c_idents_lookup, Hp.
  - by rewrite Hi', Hsid, Hs.
  - by rewrite Hr, lookup_insert_eq.
  - cbn. lia.
  - intros n. rewrite Hg. apply un_memory0.
  - cbn. lia.
Qed.

Lemma wait_event_run (cond : M bool) (act : M unit) w w' :
  cond w = Ret false w -> act w = Ret tt w' -> wait_event cond act w = (c ← cond; if (c : bool) then mret tt else halt Gone) w'.
Proof. intros Hc Ha. unfold wait_event. step Hc. by step Ha. Qed.

(** What the process does after it woke. *)
Definition open_rest (p : Z) : M Z :=
  s ← c_status p PROXYFS_FILE_OPENED;
  if negb (s =? 0) then mret p else
  x ← pfile p; upd_base p (fun _ => (proxyfs_file_destroy (base x)).1);; c_put_peer (peer (base x));;
  kfree_pfile p;; mret (- ENOENT).
Definition to_be_opened blank ident w : proxyfs_proxy_file :=
  new_file blank ident (c_grants w (S (c_tick w))) (c_grants w (S (S (c_tick w)))).
Lemma open_sleeps blank (act : M unit) qs ident pc w w' :
  unopened qs ident pc w ->
  act (opening_world (c_next w) (to_be_opened blank ident w) (S (S (S (c_tick w)))) w) = Ret tt w' ->
  proxyfs_client_open_proxy blank act ident w =
    (s ← c_status (c_next w) (Z.lor PROXYFS_FILE_OPENED PROXYFS_FILE_DONT_EXISTS);
     if negb (s =? 0) then open_rest (c_next w) else halt Gone) w'.
Proof.
  intros [] Hx. unfold proxyfs_client_open_proxy. pose proof (un_memory0 (c_tick w)) as [Hk _].
  assert (E0 : get_proxy_file_by_id ident w = Ret None w).
  { unfold get_proxy_file_by_id. run. rewrite (c_find_run _ _ None), un_send0 by done. done. }
  step E0. rewrite (bind_run c_kmalloc _ _ _ _ eq_refl), Hk. cbn [negb]. rewrite (bind_run c_fresh _ _ _ _ eq_refl).
  rewrite (bind_run (modify _) _ _ _ _ eq_refl). cbn [c_next set_c_tick]. set (p := c_next w) in *.
  erewrite bind2_run by (eapply (init_run blank); [apply lookup_insert_eq|exact un_memory0]).
  unfold proxyfs_task_notify_data_ready. do 2 rewrite (bind_run (modify _) _ _ _ _ eq_refl).
  set (W := set_ready _ _). assert (HW : W = opening_world p (to_be_opened blank ident w) (S (S (S (c_tick w)))) w).
  { unfold W, opening_world, set_ready, set_c_lists, set_pfiles. cbn. by rewrite insert_insert_eq, un_open0, un_send0. }
  rewrite HW. clear W HW. set (W := opening_world _ _ _ _) in *.
  assert (Hst : c_status p (Z.lor PROXYFS_FILE_OPENED PROXYFS_FILE_DONT_EXISTS) W = Ret 0 W).
  { unfold c_status, pfile. run. cbn [pfiles W opening_world set_ready set_c_lists set_pfiles]. by rewrite lookup_insert_eq. }
  assert (Hc : (t ← c_status p (Z.lor PROXYFS_FILE_OPENED PROXYFS_FILE_DONT_EXISTS); mret (negb (t =? 0))) W = Ret false W) by by step Hst.
  unfold mbind at 1, eff_bind at 1. rewrite (wait_event_run _ _ _ _ Hc Hx).
  fold (open_rest p). unfold mbind, eff_bind. destruct (c_status p _ w') as [t ?|?|]; [|done..]. cbn. by destruct (t =? 0).
Qed.

(** Opening a migrated file that the server holds: the process gets a new file with empty
    buffers and the class of the real file, both ends are connected and every call goes through. *)
Lemma open_makes_ready blank qs qc ident f r o pc ps w :
  unopened qs ident pc w -> offered qc ident f r ps (beyond w) -> urange 32 ident ->
  real_ops r = Some o -> o <> generic_real_file_ops ->
  exists x w', proxyfs_fs_fdinode_open blank (exchange sz qs qc) ident w = Ret (c_next w) w' /\
    pfiles w' = <[c_next w := x]> (pfiles w) /\ c_files w' = c_files w ++ [c_next w] /\ p_class x = Some (class_of o) /\
    c_peers w' = <[qs := ref pc]> (c_peers w) /\ reals (beyond w') = <[f := opened_real qc r]> (reals (beyond w)) /\
    ready qs qc (c_next w) f x (opened_real qc r) (ref pc) (ref ps) w'.
Proof.
  intros Hun Hof Hu Ho Hg. set (x0 := to_be_opened blank ident w).
  assert (Hi : proxyfs_file_get_file_ident (base x0) = ident) by by apply set_get_ident.
  destruct (exchange_opening qs qc (c_next w) x0 (S (S (S (c_tick w)))) f r o pc ps w) as (w' & E & Hf & Hl & Ht & Hc & Hgr & Hr & Hs & Hp & Hm);
    [by rewrite Hi..|done|done|done|].
  exists (opened_file qs o x0), w'. split; [|split_and!; try done; eapply (offered_ready qs qc ident _ f x0 r o pc ps w); try done; [apply Hun|apply new_file_written]].
  unfold proxyfs_fs_fdinode_open. rewrite (open_sleeps blank _ qs ident pc w w' Hun E).
  unfold open_rest, c_status, pfile. run. rewrite Hf, lookup_insert_eq. run. cbn [opened_file base].
  match goal with |- (if ?b then _ else _) _ = _ => change b with true end. cbv iota beta.
  rewrite Hf, lookup_insert_eq. run. cbn [opened_file base]. rewrite get_set_state by tauto. done.
Qed.

(** C22: Opening a migrated file and closing it gives the client back as it was: the file is gone,
    both references on the peers are given back; the server's file is as after a close. *)
Theorem open_then_release blank signal wrote flags qs qc ident f r o pc ps w :
  unopened qs ident pc w -> offered qc ident f r ps (beyond w) -> urange 32 ident ->
  real_ops r = Some o -> o <> generic_real_file_ops ->
  exists w', (p ← proxyfs_fs_fdinode_open blank (exchange sz qs qc) ident;
              proxyfs_fs_fdinode_release signal wrote (exchange sz qs qc) flags p) w = Ret 0 w' /\
    pfiles w' = pfiles w /\ c_files w' = c_files w /\ c_peers w' = c_peers w /\
    reals (beyond w') = <[f := closed_real (Z.land flags PF_EXITING) r]> (reals (beyond w)) /\
    s_peers (beyond w') !! qc = Some ps.
Proof.
  intros Hun Hof Hu Ho Hg. destruct (open_makes_ready blank qs qc ident f r o pc ps w) as (x & w1 & E1 & Hf & Hl & _ & Hc & Hr & Hy); [done..|].
  destruct (release_closes_both_ends sz signal wrote flags _ _ _ _ _ _ _ _ _ Hy) as (w2 & E2 & Hf2 & Hl2 & Hc2 & Hr2 & Hp2).
  step E1. exists w2. split; [exact E2|]. rewrite Hf2, Hf, Hl2, Hl, Hc2, Hc, Hr2, Hr, Hp2, insert_insert_eq. destruct Hun.
  assert (Hni : c_next w ∉ c_files w) by (eapply find_id_fresh; [done|]; by rewrite c_idents_lookup, un_fresh0).
  assert (Hu1 : forall q : proxyfs_peer K, unref (ref q) = q).
  { intros [a b c d e g]. unfold unref, ref, proxyfs_peer_get. cbn. f_equal. lia. }
  rewrite !insert_insert_eq, !Hu1, delete_insert_id by done. rewrite list_del_app, list_del_notin by done.
  rewrite (list_del_head (c_next w) []), app_nil_r by (by apply not_elem_of_nil). rewrite (insert_id (c_peers w)) by done. done.
Qed.

(** ** A file the server does not hold *)

Lemma server_refuses qc h d ps s :
  find_id (s_idents (reals s)) (file_ident h) (s_files s) = Some None -> s_peers s !! qc = Some ps -> msg_queue ps = [] ->
  (forall n, g_ok (grants s n) = true) -> msg_num h = MSG_OPEN ->
  exists ps' s', served sz qc (h, d) (answer_of MSG_OPEN_RESP_FAILED (file_ident h)) ps' s s' /\ reals s' = reals s /\ drained ps' = ps.
Proof.
  intros Hf Hp Hq Hm Hn.
  assert (E : server_receive sz qc (h, d) s = (m ← new_msg MSG_OPEN_RESP_FAILED (file_ident h) 0 []; send_to qc m) s).
  { transitivity ((g ← server_find_file (file_ident h);
      match g with Some f => proxyfs_real_file_open f qc;; mret tt
      | None => m ← new_msg MSG_OPEN_RESP_FAILED (file_ident h) 0 []; send_to qc m end) s);
      [destruct h; cbn in Hn; by rewrite Hn|]. 
    assert (Hsf : server_find_file (file_ident h) s = Ret None s) by (unfold server_find_file; run; by apply find_file_run). by step Hsf. }
  erewrite (bind_run (new_msg _ _ _ _)) in E by (by apply new_msg_run). erewrite send_to_run in E by done.
  eexists _, _. split; [split; [exact E|apply lookup_insert_eq|cbn; by rewrite Hq]|]. split; [done|]. by apply drained_quiet.
Qed.

Lemma refusal_run qs p x ident w :
  pfiles w !! p = Some x -> proxyfs_file_get_file_ident (base x) = ident -> try_open_send w = [p] -> try_open w = [] ->
  client_receive qs (answer_of MSG_OPEN_RESP_FAILED ident) w =
    Ret tt (set_pfiles (insert p (mk_pfile (proxyfs_file_set_status (base x) PROXYFS_FILE_DONT_EXISTS) (p_class x) (syscall_resp x)))
             (set_c_lists (list_del p (c_files w)) [] [] w)).
Proof.
  intros Hx Hi Ht Ho.
  transitivity ((l ← gets try_open_send; f ← c_find ident l;
    match f with
    | None => mret tt
    | Some f => unlink f;; upd_base f (fun b => proxyfs_file_set_status b PROXYFS_FILE_DONT_EXISTS)
    end) w); [done|].
  run. rewrite Ht. cbn [c_find]. rewrite (bind_run _ _ _ _ _ (c_ident_run _ _ _ Hx)), Hi, Z.eqb_refl. run. unfold unlink. run.
  rewrite Ht, Ho, (list_del_head p []) by (by apply not_elem_of_nil).
  unfold upd_base, upd_pfile, pfile. run. cbn [pfiles set_c_lists]. by rewrite Hx.
Qed.

(** The process that was refused frees its file. *)
Lemma refused_run p x w :
  pfiles w !! p = Some x -> proxyfs_file_get_status (base x) PROXYFS_FILE_OPENED = 0 -> peer (base x) = None ->
  exists w', open_rest p w = Ret (- ENOENT) w' /\
    (c_files w' = c_files w /\ try_open w' = try_open w /\ try_open_send w' = try_open_send w /\ c_peers w' = c_peers w /\ beyond w' = beyond w) /\
    pfiles w' = delete p (pfiles w).
Proof.
  intros Hx Hs Hn. unfold open_rest, c_status, kfree_pfile, upd_base, upd_pfile, pfile. run. rewrite Hx. run. rewrite Hs. cbn [Z.eqb negb].
  rewrite Hx. run. rewrite Hx. run. rewrite Hn. cbn [c_put_peer]. run. cbn [pfiles set_pfiles]. rewrite lookup_insert_eq.
  eexists. split; [done|]. cbn. by rewrite delete_insert_eq.
Qed.

(** Opening a migrated file that the server does not hold fails with ENOENT, and the client and
    the server are as before. *)
Theorem open_unknown_file blank qs qc ident pc ps w :
  unopened qs ident pc w -> urange 32 ident ->
  find_id (s_idents (reals (beyond w))) ident (s_files (beyond w)) = Some None ->
  s_peers (beyond w) !! qc = Some ps -> msg_queue ps = [] -> (forall n, g_ok (grants (beyond w) n) = true) ->
  exists w', proxyfs_fs_fdinode_open blank (exchange sz qs qc) ident w = Ret (- ENOENT) w' /\
    pfiles w' = pfiles w /\ c_files w' = c_files w /\ try_open w' = [] /\ try_open_send w' = [] /\ c_peers w' = c_peers w /\
    reals (beyond w') = reals (beyond w) /\ s_peers (beyond w') !! qc = Some ps.
Proof.
  intros Hun Hu Hno Hps Hq Hm. set (x0 := to_be_opened blank ident w).
  assert (Hi : proxyfs_file_get_file_ident (base x0) = ident) by by apply set_get_ident. 
  destruct (server_refuses qc (content (open_msg x0)).1 (content (open_msg x0)).2 ps (beyond w)) as (ps' & s' & Hsv & Hr & Hd);
    [by change (file_ident _) with (proxyfs_file_get_file_ident (base x0)); rewrite Hi|done..|].
  destruct (exchange_asked qs qc (c_next w) x0 (S (S (S (c_tick w)))) pc w
    (answer_of MSG_OPEN_RESP_FAILED (proxyfs_file_get_file_ident (base x0))) ps' s') as (W & HW & E & Hp & Hpq); [by rewrite Hi|exact Hsv|].
  assert (Hpx : pfiles W !! c_next w = Some x0) by by rewrite Hp, lookup_insert_eq.
  assert (Ht : try_open_send W = [c_next w] /\ try_open W = [] /\ c_files W = c_files w /\ beyond W = after_server qc ps' s') by by subst W.
  destruct Ht as (Ht & Ho & Hl & Hb). clear HW.
  rewrite (bind_run _ _ _ _ _ (refusal_run qs _ x0 _ W Hpx eq_refl Ht Ho)) in E.
  unfold proxyfs_fs_fdinode_open. rewrite (open_sleeps blank _ qs ident pc w _ Hun E). destruct Hun.
  assert (Hni : c_next w ∉ c_files w) by (eapply find_id_fresh; [done|]; by rewrite c_idents_lookup, un_fresh0).
  set (W1 := set_pfiles _ _). assert (Hx1 : pfiles W1 !! c_next w = Some _) by apply lookup_insert_eq.
  assert (Hst : c_status (c_next w) (Z.lor PROXYFS_FILE_OPENED PROXYFS_FILE_DONT_EXISTS) W1 = Ret PROXYFS_FILE_DONT_EXISTS W1).
  { unfold c_status, pfile. run. by rewrite Hx1. }
  step Hst. cbn [PROXYFS_FILE_DONT_EXISTS Z.eqb negb].
  destruct (refused_run _ _ W1 Hx1 eq_refl eq_refl) as (w' & E' & Hw & Hf). exists w'. split; [exact E'|].
  rewrite Hf. cbn [W1 pfiles set_pfiles set_c_lists]. rewrite Hp, insert_insert_eq, delete_insert_id by done.
  destruct Hw as (-> & -> & -> & -> & ->). cbn. rewrite Hl, Hpq, Hb, list_del_notin by done. cbn. by rewrite Hr, lookup_insert_eq, Hd.
Qed.
End opening.

(** ** Examples *)

Definition ex_sizes : sizes := mk_sizes 16 36 18 8 72 56.
Definition ex_unopened : client seg_kernel (server seg_kernel mem_file) :=
  mk_client ∅ [] [] [] {[3 := ex_quiet]} [3] (Some 3) ∅ false 21 (fun _ => ex_grant) 0 (ex_server None).
Lemma ex_is_unopened ident : unopened 3 ident ex_quiet ex_unopened.
Proof. split; try reflexivity. intros n. split; [reflexivity|discriminate]. Qed.

Lemma open_then_release_witness :
  exists w', (p ← proxyfs_fs_fdinode_open ex_pfile (exchange ex_sizes 3 7) 65541;
              proxyfs_fs_fdinode_release true (mret tt) (exchange ex_sizes 3 7) 0 p) ex_unopened = Ret 0 w' /\ c_files w' = [].
Proof.
  destruct (open_then_release ex_sizes ex_pfile true (mret tt) 0 3 7 65541 10 (ex_real None) tty_real_file_ops ex_quiet ex_quiet
    ex_unopened (ex_is_unopened 65541)) as (w' & E & _ & Hl & _); [split; reflexivity|split; [discriminate|reflexivity]|reflexivity|discriminate|].
  exists w'. split; [exact E|exact Hl].
Defined.

Lemma open_unknown_file_witness :
  exists w', proxyfs_fs_fdinode_open ex_pfile (exchange ex_sizes 3 7) 9 ex_unopened = Ret (- ENOENT) w' /\ pfiles w' = ∅.
Proof.
  destruct (open_unknown_file ex_sizes ex_pfile 3 7 9 ex_quiet ex_quiet ex_unopened (ex_is_unopened 9)) as (w' & E & Hp & _);
    [split; [discriminate|reflexivity]|reflexivity..|].
  exists w'. split; [exact E|exact Hp].
Defined.
