(* ===== verification/ProxyFs.v ===== *)
(** Reading and writing of migrated files by processes (src/src/proxyfs/proxyfs_fs.c): the loops
    that wait for space or data, and the names of the files.

    A call that may sleep several times gets [env]: for each sleep, whether a signal interrupts
    it, and what the other threads do meanwhile. *)

From stdpp Require Import gmap.
From S2P Require Import Prelude Effect CircBuf KkcSock ProxyMsg ProxyFile ProxyReal ProxyIoctl ProxyServer ProxyClient ProxyCall.

Section fs.
Context {K X : Type} `{Kernel K} (sz : sizes).
Abbreviation M := (eff (client K X)).
Implicit Type w : client K X.

(** ** The calls on a proxy file *)

Definition fs_write_user (access_ok : bool) (self : Z) (user : list Z) (count : Z) : M Z :=
  x ← pfile self; c ← valid (p_class x);
  let k := match c with Generic_proxy => generic_proxy_file_ops | Pipe_proxy => pipe_proxy_file_ops None end in
  '(length, b) ← valid (proxyfs_proxy_file_write_user k access_ok (base x) user count);
  upd_base self (fun _ => b);; mret length.

(** An answer that is a message is an address, which is no message number. *)
Definition resp_value (r : option response) : Z := match r with Some (Resp_num n) => n | _ => 0 end.
(** The first read of a pipe sends a request and waits for the answer. *)
Definition fs_read_user (access_ok : bool) (act : M unit) (self lim count : Z) : M (Z * list Z) :=
  x ← pfile self; c ← valid (p_class x);
  k ← match c with
      | Generic_proxy => mret generic_proxy_file_ops
      | Pipe_proxy =>
          if access_ok && negb (proxyfs_file_was_read_requested (base x)) then
            ident ← c_ident self; msg ← c_new_msg MSG_READ_REQUEST ident 0 [];
            match msg with
            | None => mret (pipe_proxy_file_ops None)
            | Some _ => r ← proxyfs_client_do_syscall act self msg; mret (pipe_proxy_file_ops (Some (resp_value r)))
            end
          else mret (pipe_proxy_file_ops None)
      end;
  x ← pfile self; g ← c_kmalloc;
  '(length, d, b, msg) ← valid (proxyfs_proxy_file_read_user k access_ok (g_ok g) (base x) lim count);
  upd_base self (fun _ => b);; proxyfs_client_send_message self (Some msg);; mret (length, d).

(** All statuses are asked for; the peer is not looked at. *)
Definition proxyfs_proxy_file_wait_for_space_interruptible (signal : bool) (act : M unit) (self space : Z) : M Z :=
  let enough := x ← pfile self; mret (space <=? circ_buf_free_space (write_buf (base x))) in
  c ← enough;
  if negb c && signal then mret 0 else
  wait_event enough act;; c_status self 4294967295.

(** ** The loops *)

Definition wait_states : Z := Z.lor (Z.lor PROXYFS_FILE_CAN_WRITE PROXYFS_FILE_EPIPE) PROXYFS_FILE_CLOSED.

(** The result and the offset; [i] counts the rounds. *)
Fixpoint write_loop (fuel i : nat) (env : nat -> bool * M unit) (access_ok nonblock : bool) (self : Z) (user : list Z)
    (count total offset : Z) : M (Z * Z) :=
  match fuel with
  | O => halt Running
  | S fuel =>
      let again := write_loop fuel (S i) env access_ok nonblock self user count in
      length ← fs_write_user access_ok self (zdrop total user) u64[count - total];
      if 0 <? length then
        proxyfs_task_notify_data_ready;;
        let total := s32[total + length] in let offset := s64[offset + length] in
        if (u64[total] =? count) || nonblock then mret (total, offset) else again total offset
      else if length =? 0 then
        if nonblock then mret (- EAGAIN, offset) else
        st ← proxyfs_proxy_file_wait_interruptible (env i).1 (env i).2 self wait_states;
        if st =? PROXYFS_FILE_EPIPE then mret (- EPIPE, offset)
        else if st =? PROXYFS_FILE_CLOSED then mret (- EBADF, offset)
        else if st =? PROXYFS_FILE_CAN_WRITE then again total offset
        else if st =? 0 then mret (- ERESTARTSYS, offset)
        else mret (-1, offset)
      else if length <? -4 then
        if nonblock then mret (- EAGAIN, offset) else
        st ← proxyfs_proxy_file_wait_for_space_interruptible (env i).1 (env i).2 self u32[- length];
        if negb (Z.land st PROXYFS_FILE_CAN_WRITE =? 0) then again total offset
        else if st =? PROXYFS_FILE_EPIPE then mret (- EPIPE, offset)
        else if st =? 0 then mret (- ERESTARTSYS, offset)
        else mret (-1, offset)
      else mret (-1, offset)
  end.
Definition proxyfs_fs_fdinode_write (fuel : nat) (env : nat -> bool * M unit) (access_ok nonblock : bool) (self : Z) (user : list Z)
    (count offset : Z) : M (Z * Z) :=
  if s64[count] <? 0 then mret (- EINVAL, offset) else write_loop fuel 0 env access_ok nonblock self user count 0 offset.

(** The length is a [size_t]: an error is taken for a large length.  [req]: the other threads
    while the request of a pipe is under way. *)
Fixpoint fs_read_loop (fuel i : nat) (env : nat -> bool * M unit) (req : M unit) (access_ok nonblock : bool) (self lim count offset : Z)
    : M (Z * list Z * Z) :=
  match fuel with
  | O => halt Running
  | S fuel =>
      let again := fs_read_loop fuel (S i) env req access_ok nonblock self lim count offset in
      '(r, d) ← fs_read_user access_ok req self lim count;
      let length := u64[r] in
      if 0 <? length then mret (s64[length], d, s64[offset + length]) else
      eof ← c_status self PROXYFS_FILE_READ_EOF;
      if negb (eof =? 0) then
        more ← c_status self PROXYFS_FILE_CAN_READ;
        if negb (more =? 0) then again else mret (0, [], offset)
      else if nonblock then mret (- EAGAIN, [], offset) else
      st ← proxyfs_proxy_file_wait_interruptible (env i).1 (env i).2 self (Z.lor PROXYFS_FILE_CAN_READ PROXYFS_FILE_READ_EOF);
      if st =? PROXYFS_FILE_CAN_READ then again
      else if st =? PROXYFS_FILE_READ_EOF then mret (0, [], offset)
      else if st =? 0 then mret (- EINTR, [], offset)
      else mret (0, [], offset)
  end.
Definition proxyfs_fs_fdinode_read (fuel : nat) (env : nat -> bool * M unit) (req : M unit) (access_ok nonblock : bool)
    (self lim count offset : Z) : M (Z * list Z * Z) :=
  if s64[count] <? 0 then mret (- EINVAL, [], offset) else fs_read_loop fuel 0 env req access_ok nonblock self lim count offset.

(** ** One round *)

(** The file [p] is a generic one over a live connection to [q]; its write buffer holds [data]. *)
Record writable (q p : Z) (x : proxyfs_proxy_file) (data : list Z) w : Prop := {
  wr_file : pfiles w !! p = Some x;
  wr_class : p_class x = Some Generic_proxy;
  wr_wf : file_wf (base x);
  wr_data : contents (write_buf (base x)) = data;
  wr_state : Z.land (state (base x)) (Z.lor PROXYFS_FILE_EPIPE PROXYFS_FILE_CLOSED) = 0;
  wr_peer : peer (base x) = Some q;
  wr_alive : exists pc, c_peers w !! q = Some pc /\ p_state pc = PEER_CONNECTED
}.

Lemma status_wait f : Z.land (state f) (Z.lor PROXYFS_FILE_EPIPE PROXYFS_FILE_CLOSED) = 0 ->
  proxyfs_file_get_status f wait_states = if circ_buf_get_write_size (write_buf f) =? 0 then 0 else PROXYFS_FILE_CAN_WRITE.
Proof.
  intros Hs. unfold proxyfs_file_get_status. change (Z.land wait_states PROXYFS_FILE_RW_STATUS) with (Z.lor PROXYFS_FILE_EPIPE PROXYFS_FILE_CLOSED).
  rewrite Hs. by destruct (circ_buf_get_write_size (write_buf f) =? 0).
Qed.
Lemma status_all f : circ_buf_get_write_size (write_buf f) <> 0 ->
  Z.land (proxyfs_file_get_status f 4294967295) PROXYFS_FILE_CAN_WRITE = PROXYFS_FILE_CAN_WRITE.
Proof.
  intros Hw%Z.eqb_neq. unfold proxyfs_file_get_status. rewrite Hw. cbn [negb].
  change (Z.land 4294967295 PROXYFS_FILE_RW_STATUS) with PROXYFS_FILE_RW_STATUS.
  assert (Hz : Z.land (Z.land (state f) PROXYFS_FILE_RW_STATUS) PROXYFS_FILE_CAN_WRITE = 0).
  { rewrite <- Z.land_assoc. apply Z.land_0_r. }
  change (negb (PROXYFS_FILE_RW_STATUS =? 0)) with true. cbv iota. rewrite Z.land_lor_distr_l, Hz, Z.lor_0_r.
  by destruct (circ_buf_count (read_buf f) =? 0), (circ_buf_get_read_size (write_buf f) =? 0), (circ_buf_get_read_size (read_buf f) =? 0).
Qed.

Lemma has_space f : file_wf f -> zlen (contents (write_buf f)) < 8192 -> circ_buf_get_write_size (write_buf f) <> 0.
Proof.
  intros Hf Hl E. apply write_size_0 in E; [|apply Hf]. rewrite zlen_contents in Hl by apply Hf.
  rewrite (fw_wsize _ Hf) in E. rewrite WRITE_BUF_SIZE_eq in E. lia.
Qed.

Lemma generic_write_state b f user count r f' :
  proxyfs_generic_proxy_file_write_user b f user count = Some (r, f') -> state f' = state f.
Proof.
  unfold proxyfs_generic_proxy_file_write_user. destruct b; cbn [negb]; [|by intros [= _ <-]]. unfold mbind, option_bind.
  case_match; cbn; [|done]. case_match. by intros [= _ <-].
Qed.
Lemma fs_write_run q p x data user count w :
  writable q p x data w -> 0 <= count < 2 ^ 31 -> count <= zlen user ->
  let r := Z.min count (8192 - zlen data) in
  exists x' w', fs_write_user true p user count w = Ret r w' /\ writable q p x' (data ++ ztake r user) w'.
Proof.
  intros [Hf Hc Hw Hd Hs Hp Ha] Hn Hu r. destruct (generic_write_user_spec (base x) user count Hw Hn Hu) as (r' & f' & E & Hr & Hpr). pose proof (generic_write_state _ _ _ _ _ _ E) as Hst.
  rewrite WRITE_BUF_SIZE_eq, <- (zlen_contents (write_buf (base x))), Hd in Hr by apply Hw. fold r in Hr. subst r'.
  destruct Hpr as (Hw' & Hk & Hrb & Hun & Hcon).
  unfold fs_write_user, upd_base, upd_pfile, pfile. run. rewrite Hf. run. rewrite Hc. cbn [proxyfs_proxy_file_write_user]. rewrite E. run. rewrite Hf.
  exists (mk_pfile f' (p_class x) (syscall_resp x)). eexists. split; [done|].
  destruct Hk. split; cbn; [apply lookup_insert_eq|done|done|by rewrite Hcon, Hd|congruence|congruence|exact Ha].
Qed.
Lemma fs_write_bad q p x data user count w :
  writable q p x data w -> exists w', fs_write_user false p user count w = Ret (- EFAULT) w' /\ writable q p x data w'.
Proof.
  intros [Hf Hc Hw Hd Hs Hp Ha]. unfold fs_write_user, upd_base, upd_pfile, pfile. run. rewrite Hf. run. rewrite Hc.
  cbn [proxyfs_proxy_file_write_user proxyfs_generic_proxy_file_write_user negb]. run. rewrite Hf. eexists. split; [done|].
  split; try done. cbn. rewrite lookup_insert_eq. by destruct x.
Qed.

(** The waits end at once while there is space. *)
Lemma wait_space signal act q p x data w :
  writable q p x data w -> zlen data < 8192 ->
  proxyfs_proxy_file_wait_interruptible signal act p wait_states w = Ret PROXYFS_FILE_CAN_WRITE w.
Proof.
  intros [Hf Hc Hw Hd Hs Hq (pc & Hpc & Hst)] Hl. rewrite <- Hd in Hl. pose proof (has_space _ Hw Hl) as Hsp%Z.eqb_neq.
  pose proof (status_wait _ Hs) as Hsw. rewrite Hsp in Hsw.
  unfold proxyfs_proxy_file_wait_interruptible, wait_event, c_status, c_peer, pfile.
  do 4 (run; rewrite ?Hf, ?Hq, ?Hpc, ?Hsw, ?Hst; cbn). rewrite bool_decide_true by done. cbn. by rewrite Hf, Hsw.
Qed.
Lemma wait_bytes signal act q p x data n w :
  writable q p x data w -> 0 < n -> zlen data + n <= 8192 ->
  exists st, proxyfs_proxy_file_wait_for_space_interruptible signal act p n w = Ret st w /\ negb (Z.land st PROXYFS_FILE_CAN_WRITE =? 0) = true.
Proof.
  intros [Hf Hc Hw Hd Hs Hp Ha] Hn Hl. rewrite <- Hd in Hl.
  exists (proxyfs_file_get_status (base x) 4294967295). split; [|rewrite status_all; [done|apply has_space; [done|lia]]].
  assert (Hsp : (n <=? circ_buf_free_space (write_buf (base x))) = true).
  { apply Z.leb_le. rewrite free_space_spec by apply Hw. rewrite (fw_wsize _ Hw), WRITE_BUF_SIZE_eq.
    rewrite zlen_contents in Hl by apply Hw. lia. }
  unfold proxyfs_proxy_file_wait_for_space_interruptible, wait_event, c_status, pfile.
  run. rewrite Hf, Hsp. cbn. run. rewrite Hf, Hsp. cbn. by rewrite Hf.
Qed.

(** A blocking write on a migrated file never returns, although the buffer has space and whatever
    the other threads and signals do, when the count is 0 or when the user's memory is not
    readable: an empty write is taken for a full buffer, and EFAULT for a lack of 14 bytes. *)
Theorem write_spins fuel env access_ok q p x data user count offset w :
  writable q p x data w -> zlen data + 14 <= 8192 -> access_ok = false \/ count = 0 -> 0 <= count < 2 ^ 31 ->
  exists w', proxyfs_fs_fdinode_write fuel env access_ok false p user count offset w = Stop Running w'.
Proof.
  intros Hw Hl Ha Hc. unfold proxyfs_fs_fdinode_write. rewrite swrap_id by (unfold srange; lia). replace (count <? 0) with false by lia.
  generalize 0%nat. revert x w Hw. induction fuel as [|fuel IH]; intros x w Hw i; [by eexists|].
  cbn [write_loop]. destruct access_ok.
  - destruct Ha as [|Hz]; [done|subst count]. destruct (fs_write_run q p x data (zdrop 0 user) 0 w Hw) as (x' & w' & E & Hw'); [lia|apply zlen_nonneg|].
    rewrite Z.min_l in * by lia. rewrite ztake_0, app_nil_r in Hw' by lia. step E. cbn [Z.ltb Z.eqb Z.compare].
    step (wait_space (env i).1 (env i).2 _ _ _ _ _ Hw' ltac:(lia)). cbn [Z.eqb Pos.eqb PROXYFS_FILE_CAN_WRITE PROXYFS_FILE_EPIPE PROXYFS_FILE_CLOSED].
    by eapply IH.
  - destruct (fs_write_bad q p x data (zdrop 0 user) u64[count - 0] w Hw) as (w' & E & Hw'). step E.
    change (0 <? - EFAULT) with false. change (- EFAULT =? 0) with false. change (- EFAULT <? -4) with true. cbv iota.
    destruct (wait_bytes (env i).1 (env i).2 q p x data 14 w' Hw') as (st & Es & Hst); [lia|lia|]. 
    change (u32[- (- EFAULT)]) with 14. step Es. rewrite Hst. by eapply IH.
Qed.

(** ** A peer that takes data *)

(** While the buffer is full, [act] takes data from its front. *)
Definition draining (q p : Z) (act : M unit) : Prop :=
  forall x data w, writable q p x data w -> zlen data = 8192 ->
  exists x' w' taken rest, act w = Ret tt w' /\ data = taken ++ rest /\ taken <> [] /\ writable q p x' rest w'.

(** A wait that sleeps once. *)
Lemma wait_sleeps act self status q x x' pc pc' w w' :
  pfiles w !! self = Some x -> peer (base x) = Some q -> c_peers w !! q = Some pc -> p_state pc = PEER_CONNECTED ->
  proxyfs_file_get_status (base x) status = 0 -> act w = Ret tt w' ->
  pfiles w' !! self = Some x' -> c_peers w' !! q = Some pc' -> p_state pc' = PEER_CONNECTED ->
  proxyfs_file_get_status (base x') status <> 0 ->
  proxyfs_proxy_file_wait_interruptible false act self status w = Ret (proxyfs_file_get_status (base x') status) w'.
Proof.
  intros Hx Hq Hpc Hc Hs Ha Hx' Hpc' Hc' Hs'%Z.eqb_neq.
  unfold proxyfs_proxy_file_wait_interruptible, wait_event, c_status, c_peer, pfile.
  run. rewrite Hx. run. rewrite Hq. run. rewrite Hx. run. rewrite Hpc. run. rewrite Hs, Hc. rewrite bool_decide_true by done.
  cbn. rewrite Hx. run. rewrite Hpc. run. rewrite Hs, Hc. rewrite bool_decide_true by done. cbn. rewrite Ha. rewrite Hx'. run.
  rewrite Hpc'. run. rewrite Hs', Hc'. cbn. rewrite Hpc'. run. rewrite Hc', bool_decide_true by done. cbn. by rewrite Hx'.
Qed.
Lemma status_full f :
  file_wf f -> Z.land (state f) (Z.lor PROXYFS_FILE_EPIPE PROXYFS_FILE_CLOSED) = 0 -> zlen (contents (write_buf f)) = 8192 ->
  proxyfs_file_get_status f wait_states = 0.
Proof.
  intros Hwf Hst Hl. rewrite status_wait by done. assert (E0 : circ_buf_get_write_size (write_buf f) = 0); [|by rewrite E0].
  apply write_size_0; [apply Hwf|]. rewrite <- zlen_contents by apply Hwf. rewrite Hl. by rewrite (fw_wsize _ Hwf).
Qed.
Lemma wait_full act q p x data w :
  draining q p act -> writable q p x data w -> zlen data = 8192 ->
  exists x' w' taken rest, proxyfs_proxy_file_wait_interruptible false act p wait_states w = Ret PROXYFS_FILE_CAN_WRITE w' /\
    data = taken ++ rest /\ zlen rest < 8192 /\ writable q p x' rest w'.
Proof.
  intros Hd Hw Hl. destruct (Hd x data w Hw Hl) as (x' & w' & taken & rest & E & Hs & Ht & Hw').
  exists x', w', taken, rest. assert (Hr : zlen rest < 8192).
  { destruct taken as [|b t]; [done|]. rewrite Hs, zlen_app, zlen_cons in Hl. pose proof (zlen_nonneg t). lia. }
  split; [|done]. destruct Hw as [Hf Hc Hwf Hda Hst Hq (pc & Hpc & Hco)]. destruct Hw' as [Hf' _ Hwf' Hda' Hst' Hq' (pc' & Hpc' & Hco')].
  assert (Hs0 : proxyfs_file_get_status (base x) wait_states = 0) by by (apply status_full; [..|rewrite Hda]).
  assert (Hs1 : proxyfs_file_get_status (base x') wait_states = PROXYFS_FILE_CAN_WRITE).
  { rewrite status_wait by done. rewrite (proj2 (Z.eqb_neq _ _)); [done|]. apply has_space; [done|by rewrite Hda']. }
  rewrite <- Hs1. by eapply wait_sleeps; try done; rewrite Hs1.
Qed.

Lemma ztake_split {A} n r (l : list A) : 0 <= r <= n -> ztake r l ++ ztake (n - r) (zdrop r l) = ztake n l.
Proof.
  intros Hr. unfold ztake, zdrop. replace (Z.to_nat n) with (Z.to_nat r + Z.to_nat (n - r))%nat by lia.
  by rewrite take_take_drop.
Qed.
Lemma writable_len q p x data w : writable q p x data w -> zlen data <= 8192.
Proof. intros []. rewrite <- wr_data0, zlen_contents by apply wr_wf0. pose proof (wbuf_amount _ wr_wf0). lia. Qed.

Lemma write_loop_ends env q p user count offset :
  (forall i, (env i).1 = false /\ draining q p (env i).2) -> 0 < count < 2 ^ 31 -> count <= zlen user -> 0 <= offset < 2 ^ 62 ->
  forall fuel i x data total w, writable q p x data w -> 0 <= total < count ->
  (if zlen data <? 8192 then 2 * (count - total) else 2 * (count - total) + 1) <= Z.of_nat fuel ->
  exists x' w' taken rest, write_loop fuel i env true false p user count total (offset + total) w = Ret (count, offset + count) w' /\
    writable q p x' rest w' /\ taken ++ rest = data ++ ztake (count - total) (zdrop total user).
Proof.
  intros He Hc Hu Ho. induction fuel as [|fuel IH]; intros i x data total w Hw Ht Hf; [case_match; lia|].
  cbn [write_loop]. rewrite uwrap_id by (unfold urange; lia). pose proof (writable_len _ _ _ _ _ Hw).
  destruct (fs_write_run q p x data (zdrop total user) (count - total) w Hw) as (x' & w' & E & Hw'); [lia|rewrite zlen_zdrop; lia|].
  step E. destruct (Z.ltb_spec (zlen data) 8192) as [Hlt|Hge].
  - set (r := Z.min _ _) in *. assert (Hr : 0 < r <= count - total) by lia. replace (0 <? r) with true by lia.
    unfold proxyfs_task_notify_data_ready. rewrite (bind_run (modify _) _ _ _ _ eq_refl). cbv zeta.
    rewrite (swrap_id 32), (swrap_id 64), uwrap_id by (unfold srange, urange; lia). rewrite orb_false_r.
    assert (Hwr : writable q p x' (data ++ ztake r (zdrop total user)) (set_ready true w')) by by destruct Hw'.
    destruct (Z.eqb_spec (total + r) count) as [Hend|Hne].
    + replace (count - total) with r by lia. eexists x', _, [], _. split; [by rewrite <- Hend, Z.add_assoc|]. by split.
    + destruct (IH (S i) x' _ (total + r) _ Hwr) as (x2 & w2 & tk & rest & E2 & Hw2 & Hs); [lia|case_match; lia|].
      exists x2, w2, tk, rest. rewrite <- Z.add_assoc. split; [exact E2|]. split; [done|]. rewrite Hs, <- app_assoc. f_equal.
      replace (count - (total + r)) with (count - total - r) by lia. rewrite <- (zdrop_zdrop r total) by lia. apply ztake_split. lia.
  - rewrite Z.min_r in E, Hw' by lia. replace (8192 - zlen data) with 0 in * by lia. rewrite Z.min_r by lia. cbn [Z.ltb Z.eqb Z.compare].
    rewrite ztake_0, app_nil_r in Hw' by lia. destruct (He i) as [Hsig Hdr]. rewrite Hsig.
    destruct (wait_full (env i).2 q p x' data w' Hdr Hw') as (x2 & w2 & tk & rest & E2 & Hs2 & Hl2 & Hw2); [lia|]. step E2.
    cbn [Z.eqb Pos.eqb PROXYFS_FILE_CAN_WRITE PROXYFS_FILE_EPIPE PROXYFS_FILE_CLOSED].
    destruct (IH (S i) x2 rest total w2 Hw2 Ht) as (x3 & w3 & tk3 & rest3 & E3 & Hw3 & Hs3); [case_match; lia|].
    exists x3, w3, (tk ++ tk3), rest3. split; [exact E3|]. split; [done|]. by rewrite <- app_assoc, Hs3, app_assoc, <- Hs2.
Qed.

(** C35: When a blocking write on a migrated file that is not a pipe ends.  No signals arrive, and the
    peer takes data whenever the buffer is full.  A write of a positive count from readable memory
    ends after at most [2 * count + 1] rounds, reports the count, and all the bytes went into the
    buffer, in order.  A write of no bytes, or from memory that cannot be read, never ends: however
    many rounds it is given, although the buffer has space, it is still running. *)
Theorem blocking_write_ends env access_ok q p x data user count offset w :
  (forall i, (env i).1 = false /\ draining q p (env i).2) -> writable q p x data w ->
  0 <= count < 2 ^ 31 -> count <= zlen user -> 0 <= offset < 2 ^ 62 ->
  (access_ok = true -> 0 < count -> forall fuel, (Z.to_nat (2 * count + 1) <= fuel)%nat ->
   exists x' w' taken rest, proxyfs_fs_fdinode_write fuel env access_ok false p user count offset w =
      Ret (count, offset + count) w' /\
    writable q p x' rest w' /\ taken ++ rest = data ++ ztake count user) /\
  (access_ok = false \/ count = 0 -> zlen data + 14 <= 8192 ->
   forall fuel, exists w', proxyfs_fs_fdinode_write fuel env access_ok false p user count offset w = Stop Running w').
Proof.
  intros He Hw Hc Hu Ho. split; [|intros Ha Hl fuel; by eapply write_spins]. intros -> Hc0 fuel Hf.
  unfold proxyfs_fs_fdinode_write. rewrite swrap_id by (unfold srange; lia). replace (count <? 0) with false by lia.
  destruct (write_loop_ends env q p user count offset He ltac:(lia) Hu Ho fuel 0%nat x data 0 w Hw)
    as (x' & w' & tk & rest & E & Hw' & Hs); [lia|case_match; lia|].
  rewrite Z.add_0_r in E. rewrite Z.sub_0_r, zdrop_0 in Hs by lia. by exists x', w', tk, rest.
Qed.

(** A blocking write that filled the buffer and is then interrupted by a signal asks for its
    restart, although the bytes that fitted are queued and the offset has moved: the process that
    restarts the call writes them twice. *)
Theorem interrupted_write_repeats fuel env q p x data user count offset w :
  writable q p x data w -> zlen data < 8192 -> 8192 - zlen data < count < 2 ^ 31 -> count <= zlen user -> 0 <= offset < 2 ^ 62 ->
  (env 1%nat).1 = true ->
  exists x' w', proxyfs_fs_fdinode_write (S (S fuel)) env true false p user count offset w =
      Ret (- ERESTARTSYS, offset + (8192 - zlen data)) w' /\
    writable q p x' (data ++ ztake (8192 - zlen data) user) w'.
Proof.
  intros Hw Hl Hc Hu Ho Hs. pose proof (zlen_nonneg data). unfold proxyfs_fs_fdinode_write. rewrite swrap_id by (unfold srange; lia).
  replace (count <? 0) with false by lia. cbn [write_loop]. rewrite Z.sub_0_r, (zdrop_0 0), uwrap_id by (unfold urange; lia).
  destruct (fs_write_run q p x data user count w Hw) as (x1 & w1 & E1 & Hw1); [lia|lia|]. rewrite Z.min_r in E1, Hw1 by lia. step E1.
  set (r := 8192 - zlen data) in *. replace (0 <? r) with true by lia.
  unfold proxyfs_task_notify_data_ready. rewrite (bind_run (modify _) _ _ _ _ eq_refl). cbv zeta.
  rewrite Z.add_0_l, (swrap_id 32), (swrap_id 64), (uwrap_id 64 r) by (unfold srange, urange; lia). rewrite orb_false_r. replace (r =? count) with false by lia.
  assert (Hwr : writable q p x1 (data ++ ztake r user) (set_ready true w1)) by by destruct Hw1.
  assert (Hfull : zlen (data ++ ztake r user) = 8192) by (rewrite zlen_app, zlen_ztake; lia).
  rewrite uwrap_id by (unfold urange; lia).
  destruct (fs_write_run q p x1 _ (zdrop r user) (count - r) _ Hwr) as (x2 & w2 & E2 & Hw2); [lia|rewrite zlen_zdrop; lia|].
  rewrite Hfull, Z.min_r in E2, Hw2 by lia. rewrite (ztake_0 (8192 - 8192)), app_nil_r in Hw2 by lia. step E2.
  change (0 <? 8192 - 8192) with false. change (8192 - 8192 =? 0) with true. cbv iota.
  pose proof Hw2 as [Hf _ Hwf Hda Hst Hq (pc & Hpc & Hco)].
  assert (Hs0 : proxyfs_file_get_status (base x2) wait_states = 0) by by (apply status_full; [..|rewrite Hda]).
  assert (E3 : proxyfs_proxy_file_wait_interruptible (env 1%nat).1 (env 1%nat).2 p wait_states w2 = Ret 0 w2).
  { rewrite Hs. unfold proxyfs_proxy_file_wait_interruptible, c_status, c_peer, pfile. run. rewrite Hf. run. rewrite Hq. run.
    rewrite Hf. run. rewrite Hpc. run. rewrite Hs0, Hco. rewrite bool_decide_true by done. done. }
  step E3. by exists x2, w2.
Qed.
End fs.

(** ** Examples *)

Abbreviation EM := (eff (client seg_kernel (server seg_kernel mem_file))).
Lemma ex_writable : writable 3 20 ex_pfile [] ex_connected.
Proof.
  split; try reflexivity; [|by exists ex_quiet].
  split; try reflexivity; try (by apply ex_buf_wf); [|by eexists]. cbn. rewrite ex_buf_amount. split; [lia|done].
Qed.

Definition ex_data : list Z := replicate (Z.to_nat 10000) 1.
Lemma write_spins_witness :
  exists w', proxyfs_fs_fdinode_write 1000 (fun _ => (true, mret tt)) true false 20 [] 0 0 ex_connected = Stop Running w'.
Proof.
  exact (write_spins 1000 (fun _ => (true, mret tt : EM unit)) true 3 20 ex_pfile [] [] 0 0 ex_connected ex_writable
    ltac:(done) (or_intror eq_refl) ltac:(lia)).
Defined.

Lemma interrupted_write_repeats_witness :
  exists x' w', proxyfs_fs_fdinode_write 2 (fun _ => (true, mret tt)) true false 20 ex_data 10000 0 ex_connected =
    Ret (- ERESTARTSYS, 8192) w' /\ writable 3 20 x' (ztake 8192 ex_data) w'.
Proof.
  destruct (interrupted_write_repeats 0 (fun _ => (true, mret tt : EM unit)) 3 20 ex_pfile [] ex_data 10000 0 ex_connected ex_writable
    ltac:(done) ltac:(split; reflexivity) ltac:(discriminate) ltac:(split; [discriminate|reflexivity]) eq_refl) as (x' & w' & E & Hw).
  exists x', w'. split; [exact E|exact Hw].
Defined.

(** The peer takes everything. *)
Definition ex_drain : EM unit := upd_base 20 (fun b => set_unconfirmed 0 (set_write_buf (ex_buf 1000 []) b)).
Lemma ex_draining : draining 3 20 ex_drain.
Proof.
  intros x data w [Hf Hc Hw Hd Hs Hp Ha] Hl. unfold ex_drain, upd_base, upd_pfile, pfile. run. rewrite Hf.
  eexists (mk_pfile _ _ _), _, data, []. split; [done|]. rewrite app_nil_r. split; [done|]. split; [by intros ->|].
  split; [apply lookup_insert_eq|done| |done|done|done|done].
  destruct Hw. by split; try (by apply ex_buf_wf).
Qed.
Lemma blocking_write_ends_witness :
  exists w', proxyfs_fs_fdinode_write (Z.to_nat (2 * 10000 + 1)) (fun _ => (false, ex_drain)) true false 20 ex_data 10000 5 ex_connected =
    Ret (10000, 10005) w'.
Proof.
  destruct (blocking_write_ends (fun _ => (false, ex_drain)) true 3 20 ex_pfile [] ex_data 10000 5 ex_connected
    ltac:(intros ?; split; [reflexivity|exact ex_draining]) ex_writable ltac:(split; [discriminate|reflexivity]) ltac:(discriminate)
    ltac:(split; [discriminate|reflexivity])) as [He _].
  destruct (He eq_refl eq_refl (Z.to_nat (2 * 10000 + 1)) (le_n _)) as (x' & w' & tk & rest & E & _).
  exists w'. exact E.
Defined.
