(* ===== verification/ProxyName.v ===== *)
(** The names of migrated files, "/mnt/proxy/<process>-<number>" (src/src/proxyfs/proxyfs_helper.h,
    and the lookup of proxyfs_fs.c). *)

From stdpp Require Import gmap.
From S2P Require Import Prelude Effect KkcAddr ProxyFile CkptOps.

(** ** [sscanf] *)

Definition isspace (c : Z) : bool := (c =? 32) || ((9 <=? c) && (c <=? 13)).
Fixpoint skip_spaces (s : list Z) : list Z :=
  match s with c :: s' => if isspace c then skip_spaces s' else s | [] => [] end.
Fixpoint span_digits (s : list Z) : list Z * list Z :=
  match s with
  | c :: s' => if is_digit c then let '(d, r) := span_digits s' in (c :: d, r) else ([], s)
  | [] => ([], [])
  end.
(** A number in base 10 and the rest of the input. *)
Definition scan_u (s : list Z) : option (Z * list Z) :=
  match span_digits (skip_spaces s) with ([], _) => None | (d, r) => Some (simple_strtoul d, r) end.
Definition scan_d (s : list Z) : option (Z * list Z) :=
  match skip_spaces s with
  | 45 :: s => match span_digits s with ([], _) => None | (d, r) => Some (- simple_strtoul d, r) end
  | s => scan_u s
  end.
Definition scan_dash (s : list Z) : option (list Z) := match s with 45 :: s => Some s | _ => None end.

(** ["%u-%u"], when both numbers are there. *)
Definition sscanf_u_u (s : list Z) : option (Z * Z) :=
  '(a, s) ← scan_u s; s ← scan_dash s; '(b, _) ← scan_u s; Some (u32[a], u32[b]).
(** ["%d-%lu"]; a number that is not there leaves its variable as it was. *)
Definition sscanf_d_lu (old : Z * Z) (s : list Z) : Z * Z :=
  match scan_d s with
  | None => old
  | Some (a, s) => (s32[a], match s ← scan_dash s; scan_u s with Some (b, _) => b | None => old.2 end)
  end.

(** ** proxyfs_fs.c *)

(** The number of the inode; [iget_ok]: the kernel has an inode for it.  An error is negative. *)
Definition proxyfs_fs_rootinode_lookup (iget_ok : bool) (name : list Z) : Z + Z :=
  match sscanf_u_u name with
  | None => inr (- EACCES)
  | Some (owner_pid, file_number) =>
      let inode_num := u32[u32[Z.shiftl owner_pid 16] + file_number] in
      if iget_ok then inl inode_num else inr (- EACCES)
  end.

(** ** proxyfs_helper.h *)

(** [stack]: what the two variables held.  The result and the new name. *)
Definition alter_proxyfs_name_task_change (stack : Z * Z) (old_name : list Z) (new_owner_pid : Z) : Z * list Z :=
  if negb (is_proxyfs_file old_name) then (- EINVAL, []) else
  let '(old_pid, proxy_ident) := sscanf_d_lu stack (drop 11 old_name) in
  if old_pid =? new_owner_pid then (1, [])
  else (0, PROXYFS_MNT_POINT ++ [47] ++ print_u new_owner_pid ++ [45] ++ print_u proxy_ident).

(** ** Printing and scanning *)

Lemma span_digits_app d s : digits d -> span_digits s = ([], s) -> span_digits (d ++ s) = (d, s).
Proof. intros Hd Hs. induction Hd as [|c d Hc _ IH]; cbn; [exact Hs|]. by rewrite Hc, IH. Qed.
Lemma digit_not_space c : is_digit c = true -> isspace c = false.
Proof. unfold is_digit, isspace. lia. Qed.
Lemma skip_digits c s : is_digit c = true -> skip_spaces (c :: s) = c :: s.
Proof. intros Hc. cbn. by rewrite digit_not_space. Qed.
Lemma print_u_cons n : exists c s, print_u n = c :: s /\ is_digit c = true.
Proof.
  pose proof (print_u_digits n) as Hd. destruct (print_u n) as [|c s] eqn:E; [|inversion Hd; eauto].
  exfalso. unfold print_u in E. apply (f_equal length) in E. rewrite length_rev in E. cbn [dec_rev length] in E. lia.
Qed.
Lemma scan_u_print n s : 0 <= n < 2 ^ 64 -> span_digits s = ([], s) -> scan_u (print_u n ++ s) = Some (n, s).
Proof.
  intros Hn Hs. destruct (print_u_cons n) as (c & d & E & Hc). unfold scan_u. rewrite E. rewrite <- app_comm_cons, skip_digits by done.
  rewrite app_comm_cons, <- E, span_digits_app by (done || apply print_u_digits). rewrite E. by rewrite <- E, strtoul_print.
Qed.
Lemma scan_d_print n s : 0 <= n < 2 ^ 64 -> span_digits s = ([], s) -> scan_d (print_u n ++ s) = Some (n, s).
Proof.
  intros Hn Hs. rewrite <- (scan_u_print n s) by done. destruct (print_u_cons n) as (c & d & -> & Hc).
  unfold scan_d. rewrite <- app_comm_cons, skip_digits by done. destruct (Z.eq_dec c 45) as [->|]; [done|].
  destruct c as [|c|c]; [done| |done]. by repeat (destruct c as [c|c|]; try done).
Qed.

(** ** Names *)

Lemma drop_name pid i : drop 11 (create_proxyfs_name pid i) = print_u pid ++ [45] ++ print_u i.
Proof. unfold create_proxyfs_name. by rewrite (app_assoc PROXYFS_MNT_POINT), drop_app_length'. Qed.
Lemma name_is_proxyfs pid i : is_proxyfs_file (create_proxyfs_name pid i) = true.
Proof. unfold is_proxyfs_file, create_proxyfs_name. apply bool_decide_true. by rewrite take_app_length'. Qed.

Lemma scan_name stack pid i : 0 <= pid < 2 ^ 31 -> 0 <= i < 2 ^ 64 -> sscanf_d_lu stack (print_u pid ++ [45] ++ print_u i) = (pid, i).
Proof.
  intros Hp Hi. unfold sscanf_d_lu. rewrite scan_d_print by (done || lia). cbn [app scan_dash mbind option_bind].
  rewrite <- (app_nil_r (print_u i)), scan_u_print by done. by rewrite swrap_id by (unfold srange; lia).
Qed.

(** Giving a name to another process, and the number in it. *)
Lemma alter_name stack pid i new :
  0 <= pid < 2 ^ 31 -> 0 <= i < 2 ^ 64 ->
  alter_proxyfs_name_task_change stack (create_proxyfs_name pid i) new =
    if pid =? new then (1, []) else (0, create_proxyfs_name new i).
Proof.
  intros Hp Hi. unfold alter_proxyfs_name_task_change. rewrite name_is_proxyfs, drop_name. cbn [negb]. by rewrite scan_name.
Qed.

(** A process that opens the name under which a file was taken over reaches that file: the number
    of the inode the name is looked up as is the identifier of the server's file, for every
    process and file number, although the server keeps 16 bits of the process. *)
Theorem lookup_finds_overtaken f pid i :
  0 <= pid < 2 ^ 31 -> urange 16 i -> file_ident16 f = i -> file_owner_pid f = u16[pid] ->
  proxyfs_fs_rootinode_lookup true (drop 11 (create_proxyfs_name pid i)) = inl (proxyfs_file_get_file_ident f).
Proof.
  intros Hp Hi Hf Ho. unfold urange in Hi. unfold proxyfs_fs_rootinode_lookup, sscanf_u_u. rewrite drop_name.
  rewrite scan_u_print by (done || lia). cbn [app scan_dash mbind option_bind].
  rewrite <- (app_nil_r (print_u i)), scan_u_print by (done || lia). cbn [mbind option_bind].
  rewrite !(uwrap_id 32 i), (uwrap_id 32 pid) by (unfold urange; lia). unfold proxyfs_file_get_file_ident. rewrite Hf, Ho. do 3 f_equal.
  rewrite !Z.shiftl_mul_pow2 by lia. unfold uwrap. change (2 ^ 32) with (2 ^ 16 * 2 ^ 16).
  by rewrite !Z.mul_mod_distr_r, Z.mod_mod by done.
Qed.

Lemma lookup_finds_overtaken_witness :
  proxyfs_fs_rootinode_lookup true (drop 11 (create_proxyfs_name 70000 5)) = inl 292552709.
Proof.
  pose (f := mk_file 5 4464 (write_buf ex_client) (read_buf ex_client) 0 false 0 None None).
  exact (lookup_finds_overtaken f 70000 5 ltac:(lia) ltac:(split; lia) eq_refl eq_refl).
Defined.
