(* ===== verification/ProxyClone.v ===== *)
(** The migrated files of a process that forks on the remote node (src/src/proxyfs/proxyfs_helper.h):
    the child opens its own files in place of those it shares with its parent. *)

From stdpp Require Import gmap.
From S2P Require Import Prelude Effect KkcAddr ProxyFile CkptOps ProxyName.

Definition EMFILE : Z := 24.
Definition ESPIPE : Z := 29.

(** An open file; [o_path]: its name, [None] when the kernel cannot tell it. *)
Record ofile := mk_ofile { o_path : option (list Z); o_flags : Z; o_mode : Z; o_pos : Z }.
(** The table of descriptors, and the open files by address. *)
Record proc := mk_proc { fdt : list (option Z); ofiles : gmap Z ofile; o_next : Z }.
Definition set_fdt f (w : proc) : proc := mk_proc (f (fdt w)) (ofiles w) (o_next w).
Definition set_ofiles f (w : proc) : proc := mk_proc (fdt w) (f (ofiles w)) (o_next w).

Section clone.
(** The kernel: the error of opening a name, the open file that opening it gives, and whether a file
    can be positioned; [stack]: what the variables of a scan held. *)
Context (open_error : list Z -> option Z) (file_opened : list Z -> Z -> Z -> ofile) (lseek_ok : ofile -> bool) (stack : Z * Z).
Abbreviation M := (eff proc).
Implicit Types (w : proc) (t : list (option Z)).

(** ** System calls *)

Definition sys_close (fd : nat) : M unit := modify (set_fdt (insert fd None)).
Definition do_sys_open (path : list Z) (flags mode : Z) : M Z :=
  match open_error path with
  | Some e => mret (- e)
  | None =>
      t ← gets fdt;
      match list_find (fun o => o = None) t with
      | None => mret (- EMFILE)
      | Some (k, _) =>
          p ← gets o_next;
          modify (fun w => mk_proc (<[k := Some p]> (fdt w)) (<[p := file_opened path flags mode]> (ofiles w)) (p + 1));;
          mret (Z.of_nat k)
      end
  end.
Definition sys_dup2 (old new : nat) : M Z :=
  t ← gets fdt;
  match t !! old with
  | Some (Some f) => if (new <? length t)%nat then modify (set_fdt (insert new (Some f)));; mret (Z.of_nat new) else mret (- EBADF)
  | _ => mret (- EBADF)
  end.
Definition vfs_llseek (p : Z) (pos : Z) : M Z :=
  fs ← gets ofiles; x ← valid (fs !! p);
  if lseek_ok x then modify (set_ofiles (insert p (mk_ofile (o_path x) (o_flags x) (o_mode x) pos)));; mret pos else mret (- ESPIPE).

(** ** proxyfs_helper.h *)

(** [n] descriptors are left, from [fd] on. *)
Fixpoint resolve_loop (n fd modified_fd : nat) (modified_file : Z) : M Z :=
  match n with
  | O => mret 0
  | S n =>
      t ← gets fdt;
      if bool_decide (t !! fd = Some (Some modified_file)) then
        sys_close fd;;
        r ← sys_dup2 modified_fd fd;
        if negb (r =? Z.of_nat fd) then mret (- EFAULT) else resolve_loop n (S fd) modified_fd modified_file
      else resolve_loop n (S fd) modified_fd modified_file
  end.
Definition resolve_duplicates (modified_fd : nat) (modified_file : Z) : M Z :=
  t ← gets fdt; resolve_loop (length t - S modified_fd) (S modified_fd) modified_fd modified_file.

(** One descriptor that is open: 0, or the error that ends the loop. *)
Definition clone_one (new_owner_pid : Z) (fd : nat) (file : Z) : M Z :=
  fs ← gets ofiles; x ← valid (fs !! file);
  match o_path x with
  | None => mret (- EINVAL)
  | Some pathname =>
      if negb (is_proxyfs_file pathname) then mret 0 else
      let '(alter_res, name) := alter_proxyfs_name_task_change stack pathname new_owner_pid in
      if alter_res =? 1 then mret 0 else
      if alter_res <? 0 then mret alter_res else
      sys_close fd;;
      new_fd ← do_sys_open name (o_flags x) (o_mode x);
      if new_fd <? 0 then mret new_fd else
      r ← (if negb (new_fd =? Z.of_nat fd) then
             r ← sys_dup2 (Z.to_nat new_fd) fd;
             if negb (r =? Z.of_nat fd) then mret (- EINVAL) else sys_close (Z.to_nat new_fd);; mret 0
           else mret 0);
      if negb (r =? 0) then mret r else
      t ← gets fdt; p ← valid (mjoin (t !! fd));
      r ← vfs_llseek p (o_pos x);
      if negb (r =? o_pos x) then mret (- EINVAL) else
      r ← resolve_duplicates fd file;
      mret (if negb (r =? 0) then - EINVAL else 0)
  end.
Fixpoint clone_loop (n fd : nat) (new_owner_pid : Z) : M Z :=
  match n with
  | O => mret 0
  | S n =>
      t ← gets fdt;
      match mjoin (t !! fd) with
      | None => clone_loop n (S fd) new_owner_pid
      | Some file => r ← clone_one new_owner_pid fd file; if negb (r =? 0) then mret r else clone_loop n (S fd) new_owner_pid
      end
  end.
Definition proxyfs_clone_file_names (page_ok : bool) (new_owner_pid : Z) : M Z :=
  if negb page_ok then mret (- ENOMEM) else t ← gets fdt; clone_loop (length t) 0 new_owner_pid.

(** ** Duplicates *)

Definition replace_file (f g : Z) (o : option Z) : option Z := if bool_decide (o = Some f) then Some g else o.

Lemma replace_absent f g t : Some f ∉ t -> replace_file f g <$> t = t.
Proof.
  intros Hn. induction t as [|o t IH]; cbn; [done|]. apply not_elem_of_cons in Hn as [Ho Hn]. rewrite IH by done.
  unfold replace_file. by rewrite bool_decide_false by congruence.
Qed.
Lemma dup2_run t fs nx old new f :
  t !! old = Some (Some f) -> (new < length t)%nat ->
  sys_dup2 old new (mk_proc t fs nx) = Ret (Z.of_nat new) (mk_proc (<[new := Some f]> t) fs nx).
Proof. intros Ht Hn. unfold sys_dup2. run. cbn [fdt]. rewrite Ht. by replace (new <? length t)%nat with true by (symmetry; by apply Nat.ltb_lt). Qed.

Lemma resolve_loop_run n t fs nx fd m f g :
  (fd + n = length t)%nat -> (m < fd)%nat -> t !! m = Some (Some g) ->
  resolve_loop n fd m f (mk_proc t fs nx) = Ret 0 (mk_proc (take fd t ++ (replace_file f g <$> drop fd t)) fs nx).
Proof.
  revert t fd. induction n as [|n IH]; intros t fd Hl Hm Hg; cbn [resolve_loop].
  { rewrite take_ge, drop_ge by lia. by rewrite app_nil_r. }
  destruct (lookup_lt_is_Some_2 t fd) as [o Ho]; [lia|]. rewrite (bind_run (gets fdt) _ _ _ _ eq_refl). cbn [fdt]. rewrite Ho.
  assert (Hd : drop fd t = o :: drop (S fd) t) by by apply drop_S.
  case_bool_decide as Hof.
  - rewrite (bind_run (sys_close fd) _ _ _ _ eq_refl). cbn [set_fdt fdt ofiles o_next].
    assert (Hg' : <[fd := None]> t !! m = Some (Some g)) by by rewrite list_lookup_insert_ne by lia.
    rewrite (bind_run _ _ _ _ _ (dup2_run _ fs nx _ fd _ Hg' ltac:(rewrite length_insert; lia))).
    rewrite Z.eqb_refl. cbn [negb]. rewrite list_insert_insert_eq, IH; [|by rewrite length_insert; lia|lia|by rewrite list_lookup_insert_ne by lia].
    do 2 f_equal. rewrite drop_insert_lt by lia. rewrite (take_S_r _ _ (Some g)) by (apply list_lookup_insert_eq; lia).
    rewrite take_insert_ge by lia. rewrite Hd, fmap_cons, <- app_assoc. unfold replace_file at 2. inversion Hof; subst. by rewrite bool_decide_true.
  - rewrite IH by (done || lia). do 2 f_equal. rewrite (take_S_r _ _ o) by done. rewrite Hd, fmap_cons, <- app_assoc. unfold replace_file at 2.
    by rewrite bool_decide_false by congruence.
Qed.

(** ** One file *)

Lemma reopened t fd k (g : Z) :
  <[fd := None]> t !! k = Some None -> k <> fd ->
  <[k := None]> (<[fd := Some g]> (<[k := Some g]> (<[fd := None]> t))) = <[fd := Some g]> t.
Proof.
  intros Hk Hne. rewrite list_lookup_insert_ne in Hk by done. rewrite (list_insert_insert_ne _ fd k) by done.
  rewrite list_insert_insert_eq, list_insert_insert_eq. rewrite (list_insert_insert_ne _ k fd) by done.
  by rewrite (list_insert_id t k) by done.
Qed.

Context (new : Z) (Hopen : forall i, open_error (create_proxyfs_name new i) = None) (Hseek : forall x, lseek_ok x = true).
(** A name that is opened with the flags and the mode of a file that is open gives a file with the same
    ones, at its start: the flags of an open file are without those that only matter when it is
    opened, and its mode is that of its flags. *)
Context (kernel_file : ofile -> Prop)
  (Hopened : forall i x, kernel_file x -> file_opened (create_proxyfs_name new i) (o_flags x) (o_mode x) =
     mk_ofile (Some (create_proxyfs_name new i)) (o_flags x) (o_mode x) 0).

(** The descriptor of a file of another process gets a file of its own. *)
Lemma clone_one_renames t fs nx fd f x pid i :
  t !! fd = Some (Some f) -> fs !! f = Some x -> kernel_file x -> o_path x = Some (create_proxyfs_name pid i) ->
  0 <= pid < 2 ^ 31 -> 0 <= i < 2 ^ 64 -> pid <> new -> Some f ∉ take fd t ->
  clone_one new fd f (mk_proc t fs nx) =
    Ret 0 (mk_proc (replace_file f nx <$> t)
             (<[nx := mk_ofile (Some (create_proxyfs_name new i)) (o_flags x) (o_mode x) (o_pos x)]> fs) (nx + 1)).
Proof.
  intros Ht Hf Hkf Hx Hp Hi Hne Hnin. pose proof (lookup_lt_Some _ _ _ Ht) as Hlt.
  unfold clone_one. rewrite (bind_run (gets ofiles) _ _ _ _ eq_refl). cbn [ofiles]. rewrite Hf. unfold valid.
  rewrite (bind_run (mret x) _ _ _ _ eq_refl), Hx, name_is_proxyfs. cbn [negb]. rewrite alter_name by done.
  rewrite (proj2 (Z.eqb_neq _ _) Hne). cbn [Z.eqb Z.ltb Z.compare].
  rewrite (bind_run (sys_close fd) _ _ _ _ eq_refl). cbn [set_fdt fdt ofiles o_next].
  destruct (list_find_elem_of (fun o => o = None) (<[fd := None]> t) None) as [[k o] Hk]; [|done|].
  { apply list_elem_of_lookup. exists fd. by apply list_lookup_insert_eq. }
  pose proof (proj1 (list_find_Some _ _ _ _) Hk) as (Hk1 & -> & _). pose proof (lookup_lt_Some _ _ _ Hk1) as Hkl. rewrite length_insert in Hkl.
  set (y := mk_ofile (Some (create_proxyfs_name new i)) (o_flags x) (o_mode x) 0).
  assert (Eo : do_sys_open (create_proxyfs_name new i) (o_flags x) (o_mode x) (mk_proc (<[fd := None]> t) fs nx) =
    Ret (Z.of_nat k) (mk_proc (<[k := Some nx]> (<[fd := None]> t)) (<[nx := y]> fs) (nx + 1))).
  { unfold do_sys_open. rewrite Hopen. run. cbn [fdt]. by rewrite Hk, Hopened. }
  step Eo. replace (Z.of_nat k <? 0) with false by lia.
  erewrite (bind_run _ _ _ 0 (mk_proc (<[fd := Some nx]> t) (<[nx := y]> fs) (nx + 1))).
  2: { destruct (Z.eqb_spec (Z.of_nat k) (Z.of_nat fd)) as [E|E]; cbn [negb].
       - apply Nat2Z.inj in E. subst k. by rewrite list_insert_insert_eq.
       - rewrite Nat2Z.id. assert (Hkk : <[k := Some nx]> (<[fd := None]> t) !! k = Some (Some nx)) by (apply list_lookup_insert_eq; rewrite length_insert; lia).
         rewrite (bind_run _ _ _ _ _ (dup2_run _ _ _ _ fd _ Hkk ltac:(rewrite !length_insert; lia))). rewrite Z.eqb_refl. cbn [negb].
         rewrite (bind_run (sys_close k) _ _ _ _ eq_refl). unfold set_fdt. cbn [fdt ofiles o_next].
         rewrite reopened; [done|done|]. by intros ->. }
  cbn [Z.eqb negb]. rewrite (bind_run (gets fdt) _ _ _ _ eq_refl). cbn [fdt]. rewrite list_lookup_insert_eq by done. cbn [mjoin option_join].
  rewrite (bind_run (mret nx) _ _ _ _ eq_refl).
  assert (El : vfs_llseek nx (o_pos x) (mk_proc (<[fd := Some nx]> t) (<[nx := y]> fs) (nx + 1)) =
    Ret (o_pos x) (mk_proc (<[fd := Some nx]> t) (<[nx := mk_ofile (Some (create_proxyfs_name new i)) (o_flags x) (o_mode x) (o_pos x)]> fs) (nx + 1))).
  { unfold vfs_llseek. run. cbn [ofiles]. rewrite lookup_insert_eq, Hseek. unfold set_ofiles. cbn. by rewrite insert_insert_eq. }
  step El. rewrite Z.eqb_refl. cbn [negb]. unfold resolve_duplicates. rewrite bind_assoc_run, (bind_run (gets fdt) _ _ _ _ eq_refl). cbn [fdt].
  rewrite length_insert. erewrite bind_run.
  2: { apply (resolve_loop_run _ _ _ _ _ _ _ nx); [rewrite length_insert; lia|lia|by apply list_lookup_insert_eq]. }
  cbn [Z.eqb negb]. unfold mret, eff_ret. do 2 f_equal. rewrite drop_insert_lt by lia.
  rewrite (take_S_r _ _ (Some nx)) by by apply list_lookup_insert_eq. rewrite take_insert_ge by lia.
  rewrite <- (take_drop fd t) at 3. rewrite fmap_app, (drop_S t (Some f) fd Ht). rewrite fmap_cons, <- app_assoc. f_equal.
  - by rewrite replace_absent.
  - unfold replace_file at 2. by rewrite bool_decide_true.
Qed.

(** ** All files *)

(** The file [y] in place of [f], which belongs to another process. *)
Definition renames (fs : gmap Z ofile) (f : Z) (y : ofile) : Prop :=
  exists x pid i, fs !! f = Some x /\ o_path x = Some (create_proxyfs_name pid i) /\ 0 <= pid < 2 ^ 31 /\ 0 <= i < 2 ^ 64 /\ pid <> new /\
    y = mk_ofile (Some (create_proxyfs_name new i)) (o_flags x) (o_mode x) (o_pos x).
(** [f] is no migrated file, or it is one of the process already. *)
Definition own (x : ofile) : Prop :=
  exists path, o_path x = Some path /\
    (is_proxyfs_file path = false \/ exists i, path = create_proxyfs_name new i /\ 0 <= i < 2 ^ 64).
Definition stays (fs : gmap Z ofile) (f : Z) : Prop := exists x, fs !! f = Some x /\ own x.
Definition now (mu : gmap Z Z) (f : Z) : Z := default f (mu !! f).
Definition retable (mu : gmap Z Z) (t : list (option Z)) : list (option Z) := (fun o : option Z => now mu <$> o) <$> t.

Context (Hnew : 0 <= new < 2 ^ 31).

Lemma stays_or_renames fs f y : stays fs f -> renames fs f y -> False.
Proof.
  intros (x & Hx & path & Hp & Ho) (x' & pid & i & Hx' & Hp' & Hpid & Hi & Hne & _).
  assert (path = create_proxyfs_name pid i) as -> by congruence. destruct Ho as [Ho|(j & Hj & Hr)]; [by rewrite name_is_proxyfs in Ho|].
  pose proof (alter_name stack pid i new Hpid Hi) as E. rewrite Hj, alter_name in E by done. rewrite Z.eqb_refl in E.
  by rewrite (proj2 (Z.eqb_neq _ _) Hne) in E.
Qed.

Lemma clone_one_skips t fs nx fd f x : fs !! f = Some x -> own x -> clone_one new fd f (mk_proc t fs nx) = Ret 0 (mk_proc t fs nx).
Proof.
  intros Hf (path & Hp & Ho). unfold clone_one. rewrite (bind_run (gets ofiles) _ _ _ _ eq_refl). cbn [ofiles]. rewrite Hf. unfold valid.
  rewrite (bind_run (mret x) _ _ _ _ eq_refl), Hp. destruct Ho as [->|(i & -> & Hi)]; [done|].
  rewrite name_is_proxyfs, alter_name by done. by rewrite Z.eqb_refl.
Qed.

Section loop.
Context (t0 : list (option Z)) (fs0 : gmap Z ofile) (nx0 : Z).
Context (Hold : forall f, Some f ∈ t0 -> f < nx0) (Htidy : forall f, Some f ∈ t0 -> stays fs0 f \/ exists y, renames fs0 f y).
Context (Hfiles : forall f x, fs0 !! f = Some x -> kernel_file x).

(** The first [k] descriptors are done; [mu] are the files that were replaced. *)
Record cloned (k : nat) (mu : gmap Z Z) w : Prop := {
  cl_fdt : fdt w = retable mu t0;
  cl_next : nx0 <= o_next w;
  cl_mu f g : mu !! f = Some g -> Some f ∈ take k t0 /\ nx0 <= g < o_next w /\ exists y, renames fs0 f y /\ ofiles w !! g = Some y;
  cl_done f : Some f ∈ take k t0 -> stays fs0 f \/ is_Some (mu !! f);
  cl_inj f f' g : mu !! f = Some g -> mu !! f' = Some g -> f = f';
  cl_keep f : f < nx0 -> ofiles w !! f = fs0 !! f
}.

Lemma now_old k mu w f f' : cloned k mu w -> f < nx0 -> now mu f' = f -> f' = f.
Proof.
  intros [] Hf Hn. unfold now in Hn. destruct (mu !! f') as [g|] eqn:E; [|done]. destruct (cl_mu0 _ _ E) as (_ & ? & _). cbn in Hn. lia.
Qed.

Lemma cloned_skip k mu w f : t0 !! k = Some (Some f) -> stays fs0 f \/ is_Some (mu !! f) -> cloned k mu w -> cloned (S k) mu w.
Proof.
  intros Hk Hf []. split; try done.
  - intros f' g E. destruct (cl_mu0 _ _ E) as (Hin & Hrest). split; [|done]. rewrite (take_S_r _ _ _ Hk). apply elem_of_app. by left.
  - intros f' Hin. rewrite (take_S_r _ _ _ Hk) in Hin. apply elem_of_app in Hin as [Hin|Hin]; [by apply cl_done0|].
    apply list_elem_of_singleton in Hin. by inversion Hin; subst.
Qed.

Lemma cloned_step k mu w f :
  t0 !! k = Some (Some f) -> cloned k mu w -> exists mu' w', clone_one new k (now mu f) w = Ret 0 w' /\ cloned (S k) mu' w'.
Proof.
  intros Hk Hc. assert (Hin : Some f ∈ t0) by by eapply list_elem_of_lookup_2. pose proof (Hold f Hin) as Hlt. pose proof Hc as [].
  destruct w as [t fs nx]. cbn [fdt ofiles o_next] in *. destruct (mu !! f) as [g|] eqn:Em.
  { exists mu, (mk_proc t fs nx). split; [|apply (cloned_skip k mu _ f Hk); [right; by exists g|done]].
    destruct (cl_mu0 _ _ Em) as (_ & _ & y & (x & pid & i & _ & _ & _ & Hi & _ & ->) & Hg). unfold now. rewrite Em.
    eapply clone_one_skips; [exact Hg|]. eexists. split; [done|]. right. eauto. }
  unfold now at 1. rewrite Em. cbn [default]. pose proof (cl_keep0 f Hlt) as Hkeep.
  destruct (Htidy f Hin) as [Hst|[y Hren]].
  { exists mu, (mk_proc t fs nx). split; [|apply (cloned_skip k mu _ f Hk); [by left|done]].
    destruct Hst as (x & Hx & Ho). eapply clone_one_skips; [by rewrite Hkeep|done]. }
  exists (<[f := nx]> mu). pose proof Hren as (x & pid & i & Hx & Hp & Hpid & Hi & Hne & Hy).
  assert (Hnin : Some f ∉ take k t).
  { subst t. unfold retable. rewrite <- fmap_take. intros (o & Ho & Hio)%list_elem_of_fmap. destruct o as [f'|]; [|done]. inversion Ho as [Hn]. symmetry in Hn.
    apply (now_old k mu _ f f' Hc) in Hn; [subst f'|done]. destruct (cl_done0 f Hio) as [Hst|[g Hg]]; [by eapply stays_or_renames|congruence]. }
  eexists. split; [eapply (clone_one_renames t fs nx k f x pid i); try done; [|by rewrite Hkeep|by eapply Hfiles]|].
  { subst t. unfold retable. rewrite list_lookup_fmap, Hk. cbn. by unfold now; rewrite Em. }
  split; cbn [fdt ofiles o_next].
  - subst t. unfold retable. rewrite <- list_fmap_compose. apply list_fmap_ext. intros j o Ho. cbn.
    destruct o as [f'|]; cbn; [|done]. unfold replace_file. case_bool_decide as Hb.
    + injection Hb as Hn. apply (now_old k mu _ f f' Hc) in Hn; [subst f'|done]. unfold now. by rewrite lookup_insert_eq.
    + unfold now. rewrite lookup_insert_ne; [done|]. intros ->. apply Hb. unfold now. by rewrite Em.
  - lia.
  - intros f' g E. destruct (decide (f' = f)) as [->|Hf].
    + rewrite lookup_insert_eq in E. inversion E; subst g. split; [|split; [lia|exists y; split; [done|rewrite Hy; apply lookup_insert_eq]]].
      rewrite (take_S_r _ _ _ Hk). apply elem_of_app. right. by apply list_elem_of_singleton.
    + rewrite lookup_insert_ne in E by done. destruct (cl_mu0 _ _ E) as (Hi' & Hr & y' & Hy' & Hg).
      split; [rewrite (take_S_r _ _ _ Hk); apply elem_of_app; by left|]. split; [lia|]. exists y'. split; [done|]. rewrite lookup_insert_ne; [done|lia].
  - intros f' Hi'. rewrite (take_S_r _ _ _ Hk) in Hi'. apply elem_of_app in Hi' as [Hi'|Hi'].
    + destruct (cl_done0 _ Hi') as [|Hs]; [by left|]. right. by apply lookup_insert_is_Some'; right.
    + apply list_elem_of_singleton in Hi'. inversion Hi'; subst. right. rewrite lookup_insert_eq. by eexists.
  - intros f1 f2 g E1 E2. assert (Hfr : forall f', mu !! f' <> Some nx) by (intros f' E'; destruct (cl_mu0 _ _ E') as (_ & ? & _); lia).
    apply lookup_insert_Some in E1 as [[<- <-]|[? E1]]; apply lookup_insert_Some in E2 as [[<- E2']|[? E2]];
      [done|by destruct (Hfr f2)|subst; by destruct (Hfr f1)|by eapply cl_inj0].
  - intros f' Hf'. rewrite lookup_insert_ne by lia. by apply cl_keep0.
Qed.

Lemma clone_loop_run n k mu w :
  (k + n = length t0)%nat -> cloned k mu w -> exists mu' w', clone_loop n k new w = Ret 0 w' /\ cloned (length t0) mu' w'.
Proof.
  revert k mu w. induction n as [|n IH]; intros k mu w Hl Hc; cbn [clone_loop].
  { replace k with (length t0) in Hc by lia. by exists mu, w. }
  destruct (lookup_lt_is_Some_2 t0 k) as [o Ho]; [lia|]. rewrite (bind_run (gets fdt) _ _ _ _ eq_refl).
  rewrite (cl_fdt _ _ _ Hc). unfold retable. rewrite list_lookup_fmap, Ho. destruct o as [f|]; cbn [fmap option_fmap option_map mjoin option_join].
  - destruct (cloned_step k mu w f Ho Hc) as (mu' & w' & E & Hc'). step E. cbn [Z.eqb negb]. apply (IH (S k) mu'); [lia|done].
  - apply (IH (S k) mu); [lia|]. destruct Hc. split; try done.
    + intros f g E. destruct (cl_mu0 _ _ E) as (Hin & Hrest). split; [|done]. rewrite (take_S_r _ _ _ Ho). apply elem_of_app. by left.
    + intros f Hin. rewrite (take_S_r _ _ _ Ho) in Hin. apply elem_of_app in Hin as [Hin|Hin]; [by apply cl_done0|].
      by apply list_elem_of_singleton in Hin.
Qed.
End loop.

(** C34: After a fork on the remote node, when the names can be opened and the files positioned, every descriptor of the child
    that holds a migrated file of another process holds a file of its own, with the same number,
    flags, mode and position; other descriptors are as before.  Descriptors that shared a file
    share one again, and descriptors that did not still do not. *)
Theorem clone_keeps_sharing w :
  (forall f, Some f ∈ fdt w -> f < o_next w) ->
  (forall f, Some f ∈ fdt w -> stays (ofiles w) f \/ exists y, renames (ofiles w) f y) ->
  (forall f x, ofiles w !! f = Some x -> kernel_file x) ->
  exists w' mu, proxyfs_clone_file_names true new w = Ret 0 w' /\ fdt w' = retable mu (fdt w) /\
    (forall f, Some f ∈ fdt w ->
      match mu !! f with
      | Some g => o_next w <= g /\ exists y, renames (ofiles w) f y /\ ofiles w' !! g = Some y
      | None => stays (ofiles w) f /\ ofiles w' !! f = ofiles w !! f
      end) /\
    (forall f f' g, mu !! f = Some g -> mu !! f' = Some g -> f = f').
Proof.
  intros Hold Htidy Hfiles. unfold proxyfs_clone_file_names. cbn [negb]. rewrite (bind_run (gets fdt) _ _ _ _ eq_refl).
  destruct (clone_loop_run (fdt w) (ofiles w) (o_next w) Hold Htidy Hfiles (length (fdt w)) 0 ∅ w) as (mu & w' & E & []); [done| |].
  { split; try done.
    - unfold retable, now. rewrite (list_fmap_ext _ id), list_fmap_id; [done|]. intros i [f|] Hf; cbn; [by rewrite lookup_empty|done].
    - intros f Hin. by apply elem_of_nil in Hin. }
  exists w', mu. split; [exact E|]. split; [done|]. split; [|exact cl_inj0]. intros f Hin. rewrite take_ge in * by lia.
  destruct (mu !! f) as [g|] eqn:Em.
  - destruct (cl_mu0 _ _ Em) as (_ & ? & ?). by split; [lia|].
  - destruct (cl_done0 f Hin) as [Hs|[? ?]]; [|congruence]. split; [done|]. by apply cl_keep0, Hold.
Qed.
End clone.

(** Descriptors 0 and 2 share a terminal of the parent, 1 is a file, 3 is free. *)
Definition ex_fork : proc :=
  mk_proc [Some 10; Some 11; Some 10; None]
    (<[10 := mk_ofile (Some (create_proxyfs_name 7 5)) 2 3 40]> {[11 := mk_ofile (Some [47; 97]) 0 1 9]}) 20.
Definition ex_opened (path : list Z) (flags mode : Z) : ofile := mk_ofile (Some path) flags mode 0.
Lemma clone_keeps_sharing_witness :
  exists w' mu, proxyfs_clone_file_names (fun _ => None) ex_opened (fun _ => true) (0, 0) true 8 ex_fork = Ret 0 w' /\
    fdt w' = retable mu (fdt ex_fork).
Proof.
  destruct (clone_keeps_sharing (fun _ => None) ex_opened (fun _ => true) (0, 0) 8 (fun _ => eq_refl) (fun _ => eq_refl)
      (fun _ => True) (fun _ _ _ => eq_refl) ltac:(lia) ex_fork)
    as (w' & mu & E & Ht & _).
  - intros f Hf. unfold ex_fork in *. cbn in *. set_unfold. destruct Hf as [Hf|[Hf|[Hf|[Hf|[]]]]]; inversion Hf; lia.
  - intros f Hf. unfold ex_fork in *. cbn in *. set_unfold. destruct Hf as [Hf|[Hf|[Hf|[Hf|[]]]]]; inversion Hf; subst.
    + right. eexists. exists (mk_ofile (Some (create_proxyfs_name 7 5)) 2 3 40), 7, 5. repeat split; lia || done.
    + left. exists (mk_ofile (Some [47; 97]) 0 1 9). split; [done|]. eexists. split; [done|]. by left.
    + right. eexists. exists (mk_ofile (Some (create_proxyfs_name 7 5)) 2 3 40), 7, 5. repeat split; lia || done.
  - done.
  - by exists w', mu.
Defined.
