(* ===== verification/ProxyTask.v ===== *)
(** The thread of the ProxyFS client (src/src/proxyfs/proxyfs_task.c, proxyfs_client.c): one round
    of its loop, and what the loss of the connection means to the processes. *)

From stdpp Require Import gmap.
From S2P Require Import Prelude Effect CircBuf KkcSock ProxyMsg ProxyFile ProxyReal ProxyIoctl ProxyServer ProxyClient ProxyCall ProxyOpen.

Section task.
Context {K X : Type} `{Kernel K}.
Abbreviation M := (eff (client K X)).
Implicit Type w : client K X.

Definition upd_peer (q : Z) (f : proxyfs_peer K -> proxyfs_peer K) : M unit := p ← c_peer q; modify (set_c_peers (insert q (f p))).

(** ** proxyfs_task.c *)

Definition mark_dead (q : Z) : M unit := upd_peer q (fun p => proxyfs_peer_set_state p PEER_DEAD).
(** Messages are received from [q] until there is none. *)
Fixpoint recv_next (fuel : nat) (q : Z) : M unit :=
  match fuel with
  | O => halt Running
  | S fuel =>
      p ← c_peer q; '(recv_res, p) ← valid (proxyfs_peer_real_recv p); upd_peer q (fun _ => p);;
      if recv_res =? 1 then
        m ← valid (proxyfs_peer_get_msg p); client_receive q m;;
        upd_peer q (fun p => (proxyfs_peer_clear_msg p).2);; recv_next fuel q
      else when ((recv_res =? - ECONNRESET) || (recv_res =? - ECONNABORTED)) (mark_dead q)
  end.
Fixpoint recv_all (fuel : nat) (l : list Z) : M unit :=
  match l with [] => mret tt | q :: l => recv_next fuel q;; recv_all fuel l end.
Definition proxyfs_task_recv_peers (fuel : nat) : M unit := l ← gets c_peer_list; recv_all fuel l.

(** [shutdown]: the result of shutting a socket down. *)
Fixpoint dead_peers (shutdown : Z) (l : list Z) : M unit :=
  match l with
  | [] => mret tt
  | q :: l =>
      p ← c_peer q;
      when (bool_decide (p_state p = PEER_DEAD))
        (modify (set_c_peer_list (list_del q));;
         upd_peer q (fun p => (proxyfs_peer_disconnect shutdown p).2);;
         proxyfs_client_handle_dead_peer q;;
         c_put_peer (Some q));;
      dead_peers shutdown l
  end.
Definition proxyfs_task_handle_dead_peers (shutdown : Z) : M unit := l ← gets c_peer_list; dead_peers shutdown l.

(** [mem_ok]: the allocations of each round; [info]: what the local variables held. *)
Fixpoint send_files (fuel : nat) (mem_ok : nat -> bool * bool) (info : Z * Z * Z) (l : list Z) : M unit :=
  match l with
  | [] => mret tt
  | p :: l =>
      x ← pfile p; '(f, sent) ← valid (send_buffer fuel mem_ok info (base x) []);
      upd_base p (fun _ => f);; each (fun m => c_send (peer f) (Some m)) sent;; send_files fuel mem_ok info l
  end.
Definition task_send_buffers (fuel : nat) (mem_ok : nat -> bool * bool) (info : Z * Z * Z) : M unit :=
  l ← gets c_files; send_files fuel mem_ok info l.

(** ** proxyfs_client.c *)

(** One round; the result tells whether the loop ends. *)
Definition client_round (fuel : nat) (mem_ok : nat -> bool * bool) (info : Z * Z * Z) (shutdown : Z) : M bool :=
  proxyfs_task_wait_for_data_ready;;
  proxyfs_client_open_files;;
  task_send_buffers fuel mem_ok info;;
  s ← gets c_server; q ← valid s; p ← c_peer q; p ← valid (proxyfs_peer_real_send p); upd_peer q (fun _ => p);;
  proxyfs_task_recv_peers fuel;;
  proxyfs_task_handle_dead_peers shutdown;;
  s ← gets c_server; mret (bool_decide (s = None)).
(** [stop]: whether the thread is told to stop before its [i]th round. *)
Fixpoint proxyfs_client_loop (fuel i : nat) (stop : nat -> bool) (mem_ok : nat -> bool * bool) (info : Z * Z * Z) (shutdown : Z) : M unit :=
  match fuel with
  | O => halt Running
  | S n =>
      if stop i then mret tt else
      over ← client_round fuel mem_ok info shutdown;
      if (over : bool) then mret tt else proxyfs_client_loop n (S i) stop mem_ok info shutdown
  end.

(** ** The connection is lost *)

Definition lost (shutdown q : Z) : M unit := mark_dead q;; proxyfs_task_handle_dead_peers shutdown.

Lemma pfile_run p x w : pfiles w !! p = Some x -> pfile p w = Ret x w.
Proof. intros E. unfold pfile. run. by rewrite E. Qed.
Lemma c_status_run p st x w : pfiles w !! p = Some x -> c_status p st w = Ret (proxyfs_file_get_status (base x) st) w.
Proof. intros E. unfold c_status. by step (pfile_run _ _ _ E). Qed.
Lemma c_peer_run q p w : c_peers w !! q = Some p -> c_peer q w = Ret p w.
Proof. intros E. unfold c_peer. run. by rewrite E. Qed.
Lemma upd_peer_run q p f w : c_peers w !! q = Some p -> upd_peer q f w = Ret tt (set_c_peers (insert q (f p)) w).
Proof. intros E. unfold upd_peer, c_peer. run. by rewrite E. Qed.

Definition over (fs : gmap Z proxyfs_proxy_file) (q p : Z) : Prop := exists x, fs !! p = Some x /\ peer (base x) = Some q.
(** Only the lists of files differ. *)
Definition same_but_lists w w' : Prop :=
  pfiles w' = pfiles w /\ c_peers w' = c_peers w /\ c_peer_list w' = c_peer_list w /\ c_server w' = c_server w /\
  cells w' = cells w /\ c_next w' = c_next w /\ beyond w' = beyond w /\ c_grants w' = c_grants w.

Lemma dead_loop_run q l w :
  (forall p, p ∈ l -> is_Some (pfiles w !! p)) ->
  exists w', dead_loop q l w = Ret tt w' /\ same_but_lists w w' /\
    (forall p, p ∈ c_files w' <-> p ∈ c_files w /\ ~ (p ∈ l /\ over (pfiles w) q p)).
Proof.
  revert w. induction l as [|p l IH]; intros w Hl; cbn [dead_loop].
  { exists w. split; [done|]. split; [done|]. intros p. split; [intros Hp; split; [done|by intros [?%elem_of_nil _]]|by intros []]. }
  destruct (Hl p) as [x Hx]; [by left|]. step (pfile_run _ _ _ Hx).
  destruct (bool_decide_reflect (peer (base x) = Some q)) as [Hq|Hq]; unfold when, unlink.
  - rewrite (bind_run (modify _) _ _ _ _ eq_refl). set (w1 := set_c_lists _ _ _ _).
    destruct (IH w1) as (w' & E & Hs & Hf); [intros p' Hp'; apply Hl; by right|]. exists w'. split; [exact E|]. split; [exact Hs|].
    intros p'. rewrite Hf. cbn [w1 c_files set_c_lists pfiles]. rewrite elem_of_list_del, elem_of_cons. unfold over. split.
    + intros [[Hin Hne] Hno]. split; [done|]. intros [[?|?] ?]; [done|by apply Hno].
    + intros [Hin Hno]. split; [split; [done|]|by intros [? ?]; apply Hno; split; [by right|]]. intros ->. apply Hno. split; [by left|by exists x].
  - rewrite (bind_run (mret tt) _ _ _ _ eq_refl). destruct (IH w) as (w' & E & Hs & Hf); [intros p' Hp'; apply Hl; by right|].
    exists w'. split; [exact E|]. split; [exact Hs|]. intros p'. rewrite Hf, elem_of_cons. split.
    + intros [Hin Hno]. split; [done|]. intros [[->|?] (y & Hy & Hyq)]; [congruence|apply Hno; split; [done|by exists y]].
    + intros [Hin Hno]. split; [done|]. intros [? ?]. apply Hno. split; [by right|done].
Qed.

Definition dead (p : proxyfs_peer K) : proxyfs_peer K := proxyfs_peer_set_state p PEER_DEAD.

(** The client forgets the server, and no file of it is left in the list. *)
Lemma lost_run shutdown q pc w :
  c_peer_list w = [q] -> c_server w = Some q -> c_peers w !! q = Some pc -> 1 < p_ref pc ->
  (forall p, p ∈ c_files w -> is_Some (pfiles w !! p)) ->
  exists w', lost shutdown q w = Ret tt w' /\ c_server w' = None /\ c_peer_list w' = [] /\
    c_peers w' = <[q := unref (dead pc)]> (c_peers w) /\ pfiles w' = pfiles w /\ cells w' = cells w /\ c_next w' = c_next w /\
    beyond w' = beyond w /\ c_grants w' = c_grants w /\ (forall p, p ∈ c_files w' <-> p ∈ c_files w /\ ~ over (pfiles w) q p).
Proof.
  intros Hl Hs Hp Hr Hf. unfold lost, mark_dead. erewrite bind_run by by apply upd_peer_run. set (w1 := set_c_peers _ _).
  assert (Hp1 : c_peers w1 !! q = Some (dead pc)) by apply lookup_insert_eq.
  unfold proxyfs_task_handle_dead_peers. rewrite (bind_run (gets _) _ _ _ _ eq_refl). change (c_peer_list w1) with (c_peer_list w).
  rewrite Hl. cbn [dead_peers]. step (c_peer_run _ _ _ Hp1).
  rewrite bool_decide_true by done. unfold when. rewrite bind_assoc_run, (bind_run (modify _) _ _ _ _ eq_refl), bind_assoc_run.
  erewrite bind_run by by apply upd_peer_run. set (w2 := set_c_peers _ _). rewrite bind_assoc_run.
  assert (Hp2 : c_peers w2 = <[q := dead pc]> (c_peers w)).
  { cbn. rewrite insert_insert_eq. f_equal. unfold proxyfs_peer_disconnect. by destruct (sock _). }
  destruct (dead_loop_run q (c_files w) w2 Hf) as (w3 & E3 & (S1 & S2 & S3 & S4 & S5 & S6 & S7 & S8) & Hf3).
  assert (E4 : proxyfs_client_handle_dead_peer q w2 = Ret tt (set_c_server None w3)).
  { unfold proxyfs_client_handle_dead_peer. rewrite (bind_run (gets _) _ _ _ _ eq_refl). change (c_files w2) with (c_files w).
    step E3. rewrite (bind_run (gets _) _ _ _ _ eq_refl), S4. change (c_server w2) with (c_server w). by rewrite Hs, bool_decide_true. }
  step E4. assert (Hp3 : c_peers (set_c_server None w3) !! q = Some (dead pc)) by (cbn; by rewrite S2, Hp2, lookup_insert_eq).
  unfold c_put_peer. rewrite bind_assoc_run. step (c_peer_run _ _ _ Hp3). rewrite (bind_run (modify _) _ _ _ _ eq_refl).
  rewrite put_unref by done. eexists. split; [done|]. cbn. rewrite S1, S3, S5, S6, S7, S8. cbn.
  split_and!; try done.
  - rewrite Hl. apply (list_del_head q []). by apply not_elem_of_nil.
  - rewrite S2, Hp2. exact (insert_insert_eq _ q (unref (dead pc)) (dead pc)).
  - intros p. rewrite Hf3. cbn. tauto.
Qed.
End task.

(** ** The processes *)

Section callers.
Context {K B : Type} `{Kernel K} `{Vfs B} `{VfsCtl B} (sz : sizes).
Abbreviation C := (client K (server K B)).
Implicit Types (w : C) (s : server K B).

(** The connection of the client, with its files. *)
Record attached (q : Z) (pc : proxyfs_peer K) w : Prop := {
  at_list : c_peer_list w = [q];
  at_server : c_server w = Some q;
  at_files : forall p, p ∈ c_files w -> is_Some (pfiles w !! p)
}.




#[local] Arguments lost : simpl never.





(** When the connection breaks while a process opens a migrated file, the process sleeps for
    ever: its file waits in a list that the handling of dead peers does not look at, and the sleep
    ends only with an answer. *)
Theorem open_never_wakes blank shutdown qs ident pc w :
  unopened qs ident pc w -> attached qs pc w -> 1 < p_ref pc ->
  exists w', proxyfs_fs_fdinode_open blank (proxyfs_client_open_files;; lost shutdown qs) ident w = Stop Gone w' /\
    is_Some (pfiles w' !! c_next w) /\ c_server w' = None.
Proof.
  intros Hun [] Hr. pose proof Hun as []. set (x := to_be_opened blank ident w). set (W := opening_world (c_next w) x (S (S (S (c_tick w)))) w).
  assert (Hp : pfiles W !! c_next w = Some x) by apply lookup_insert_eq.
  pose proof (open_files_run qs (c_next w) x pc W Hp eq_refl eq_refl un_server un_peer (fun k => proj1 (un_memory k))) as Eo.
  fold (open_msg x) in Eo. set (m := open_msg x) in *.
  destruct (lost_run shutdown qs (proxyfs_peer_send_msg pc m) (asked qs (c_next w) pc m W)) as (w' & E & L1 & L2 & L3 & L4 & L5 & L6 & L7 & _ & L8);
    [done|done|apply lookup_insert_eq|done| |].
  { intros p Hin. cbn. destruct (decide (p = c_next w)) as [->|]; [rewrite lookup_insert_eq; eauto|]. rewrite lookup_insert_ne by done. by apply at_files0. }
  assert (Ea : (proxyfs_client_open_files;; lost shutdown qs) W = Ret tt w') by by step Eo.
  unfold proxyfs_fs_fdinode_open. rewrite (open_sleeps blank _ qs ident pc w w' Hun Ea).
  assert (Hx' : pfiles w' !! c_next w = Some x) by by rewrite L4. step (c_status_run _ (Z.lor PROXYFS_FILE_OPENED PROXYFS_FILE_DONT_EXISTS) _ _ Hx').
  exists w'. split; [done|]. by rewrite Hx'.
Qed.
End callers.

(** ** Examples *)


Lemma open_never_wakes_witness :
  exists w', proxyfs_fs_fdinode_open ex_pfile (proxyfs_client_open_files;; lost 0 3) 65541 ex_unopened = Stop Gone w'.
Proof.
  destruct (open_never_wakes ex_pfile 0 3 65541 ex_quiet ex_unopened (ex_is_unopened 65541)) as (w' & E & _);
    [split; try reflexivity; intros p Hp; by apply elem_of_nil in Hp|reflexivity|].
  exists w'. exact E.
Defined.
