(* ===== verification/Netlink.v ===== *)
(** Netlink messages of the director: the codes of src/src/director/netlink/msgs.h, and what the
    kernel and the user-space library use of the netlink libraries.

    The layout of attributes is the class [Nla], with the documented laws of [nla_put] and
    [nla_for_each_attr]; [nla_tlv] is the format of linux/netlink.h.  Buffers have a limited room,
    as in [nla_put]. *)

From S2P Require Import Prelude.

Definition EBADMSG : Z := 74.
Definition EMSGSIZE : Z := 90.
Definition ENODATA : Z := 61.

(** ** Message types *)

Definition DIRECTOR_REGISTER_PID : Z := 0.
Definition DIRECTOR_SEND_GENERIC_USER_MESSAGE : Z := 1.
Definition DIRECTOR_ACK : Z := 2.
Definition DIRECTOR_CHECK_NPM : Z := 3.
Definition DIRECTOR_CHECK_FULL_NPM : Z := 4.
Definition DIRECTOR_NODE_CONNECTED : Z := 5.
Definition DIRECTOR_NODE_DISCONNECTED : Z := 6.
Definition DIRECTOR_IMMIGRATION_REQUEST : Z := 7.
Definition DIRECTOR_IMMIGRATION_CONFIRMED : Z := 8.
Definition DIRECTOR_TASK_EXIT : Z := 9.
Definition DIRECTOR_TASK_FORK : Z := 10.
Definition DIRECTOR_GENERIC_USER_MESSAGE : Z := 11.
Definition DIRECTOR_EMIGRATION_FAILED : Z := 12.
Definition DIRECTOR_MIGRATED_HOME : Z := 13.
Definition DIRECTOR_NPM_RESPONSE : Z := 14.
Definition DIRECTOR_NODE_CONNECT_RESPONSE : Z := 15.
Definition DIRECTOR_IMMIGRATION_REQUEST_RESPONSE : Z := 16.
Definition DIRECTOR_MSG_MAX : Z := 16.

(** ** Attributes *)

Definition DIRECTOR_A_PID : Z := 0.
Definition DIRECTOR_A_REMOTE_PID : Z := 1.
Definition DIRECTOR_A_PPID : Z := 2.
Definition DIRECTOR_A_UID : Z := 3.
Definition DIRECTOR_A_TASK_TYPE : Z := 4.
Definition DIRECTOR_A_NAME : Z := 5.
Definition DIRECTOR_A_LENGTH : Z := 6.
Definition DIRECTOR_A_INDEX : Z := 7.
Definition DIRECTOR_A_SLOT_INDEX : Z := 8.
Definition DIRECTOR_A_SLOT_TYPE : Z := 9.
Definition DIRECTOR_A_ADDRESS : Z := 10.
Definition DIRECTOR_A_AUTH_DATA : Z := 11.
Definition DIRECTOR_A_USER_DATA : Z := 12.
Definition DIRECTOR_A_ARGS : Z := 13.
Definition DIRECTOR_A_ARG : Z := 14.
Definition DIRECTOR_A_ENVS : Z := 15.
Definition DIRECTOR_A_ENV : Z := 16.
Definition DIRECTOR_A_REASON : Z := 17.
Definition DIRECTOR_A_DECISION : Z := 18.
Definition DIRECTOR_A_DECISION_VALUE : Z := 19.
Definition DIRECTOR_A_EXIT_CODE : Z := 20.
Definition DIRECTOR_A_ERRNO : Z := 21.
Definition DIRECTOR_A_RUSAGE : Z := 22.

Definition DO_NOT_MIGRATE : Z := 0.
Definition MIGRATE : Z := 1.
Definition MIGRATE_BACK : Z := 2.
Definition REQUIRE_ARGS : Z := 3.
Definition REQUIRE_ENVP : Z := 4.
Definition REQUIRE_ARGS_AND_ENVP : Z := 5.

(** ** Attributes in memory *)

Definition nla_total_size (payload : Z) : Z := 4 * ((4 + payload + 3) / 4).

Class Nla := {
  nla_bytes : Z -> list Z -> list Z;
  nla_attrs : list Z -> list (Z * list Z);
  nla_attrs_nil : nla_attrs [] = [];
  nla_attrs_app t p r : 0 <= t < 2 ^ 14 -> zlen p <= 65531 -> nla_attrs (nla_bytes t p ++ r) = (t, p) :: nla_attrs r;
  nla_bytes_size t p : zlen (nla_bytes t p) = nla_total_size (zlen p)
}.

(** The data of a message behind the netlink header: a generic header of 4 bytes (command, version,
    reserved) and attributes, or an error number.  [nl_ack]: the sender asked for a confirmation. *)
Record nlmsg := mk_nlmsg { nlmsg_type : Z; nlmsg_seq : Z; nl_ack : bool; nl_data : list Z }.

Definition NLMSG_NOOP : Z := 1.
Definition NLMSG_ERROR : Z := 2.
Definition NLMSG_OVERRUN : Z := 4.
Definition NLMSG_HDRLEN : Z := 16.

Definition genl_cmd (m : nlmsg) : option Z := head (nl_data m).
Definition nlmsg_error (m : nlmsg) : Z := s32[le_value (ztake 4 (nl_data m))].

(** A buffer that is filled: the space left, the data, and an attribute that is still open. *)
Record sk_buff := mk_skb { sk_room : Z; sk_data : list Z; sk_nest : option (Z * list Z) }.

Fixpoint attr_find (t : Z) (l : list (Z * list Z)) : option (list Z) :=
  match l with [] => None | (k, p) :: l => if k =? t then Some p else attr_find t l end.

Section nla.
Context `{Nla}.

(** A new attribute goes into the open one, if there is one. *)
Definition nla_put (s : sk_buff) (t : Z) (data : list Z) : Z * sk_buff :=
  let n := nla_total_size (zlen data) in
  if sk_room s <? n then (- EMSGSIZE, s)
  else (0, match sk_nest s with
           | None => mk_skb (sk_room s - n) (sk_data s ++ nla_bytes t data) None
           | Some (k, p) => mk_skb (sk_room s - n) (sk_data s) (Some (k, p ++ nla_bytes t data))
           end).
Definition nla_put_u32 (s : sk_buff) (t v : Z) : Z * sk_buff := nla_put s t (le_bytes 4 v).
(** A string without its terminating 0. *)
Definition nla_put_string (s : sk_buff) (t : Z) (str : list Z) : Z * sk_buff := nla_put s t (str ++ [0]).
Definition nla_nest_start (s : sk_buff) (t : Z) : option sk_buff :=
  if sk_room s <? 4 then None else Some (mk_skb (sk_room s - 4) (sk_data s) (Some (t, []))).
Definition nla_nest_end (s : sk_buff) : sk_buff :=
  match sk_nest s with
  | None => s
  | Some (k, p) => mk_skb (sk_room s) (sk_data s ++ nla_bytes k p) None
  end.

(** An attribute of fewer than 4 bytes is read over its end. *)
Definition nla_get_u32 (p : list Z) : option Z := if zlen p <? 4 then None else Some (le_value (ztake 4 p)).
Definition nlmsg_find_attr (m : nlmsg) (t : Z) : option (list Z) := attr_find t (nla_attrs (zdrop 4 (nl_data m))).

(** ** Encoding of a list of attributes *)

Definition encode (l : list (Z * list Z)) : list Z := l ≫= fun a => nla_bytes a.1 a.2.
Definition attr_ok (a : Z * list Z) : Prop := 0 <= a.1 < 2 ^ 14 /\ zlen a.2 <= 65531.

Lemma attrs_encode l : Forall attr_ok l -> nla_attrs (encode l) = l.
Proof.
  induction 1 as [|[t p] l [Ht Hp] _ IH]; [apply nla_attrs_nil|].
  cbn [encode mbind list_bind fst snd]. rewrite nla_attrs_app by done. by f_equal.
Qed.
Lemma encode_app l k : encode (l ++ k) = encode l ++ encode k.
Proof. apply bind_app. Qed.
Lemma encode_snoc l t p : encode (l ++ [(t, p)]) = encode l ++ nla_bytes t p.
Proof. rewrite encode_app. cbn [encode mbind list_bind fst snd]. by rewrite app_nil_r. Qed.

Lemma total_size_bounds n : 0 <= n -> n + 4 <= nla_total_size n <= n + 7.
Proof. unfold nla_total_size. intros. pose proof (Z.div_mod (4 + n + 3) 4 ltac:(lia)). pose proof (Z.mod_pos_bound (4 + n + 3) 4 ltac:(lia)). lia. Qed.

(** What a sequence of attributes takes. *)
Fixpoint size_of (l : list (Z * list Z)) : Z := match l with [] => 0 | (_, p) :: l => nla_total_size (zlen p) + size_of l end.
Lemma size_of_app l k : size_of (l ++ k) = size_of l + size_of k.
Proof. induction l as [|[t p] l IH]; cbn [size_of app]; lia. Qed.
Lemma size_of_nonneg l : 0 <= size_of l.
Proof.
  induction l as [|[t p] l IH]; cbn [size_of]; [lia|]. pose proof (total_size_bounds (zlen p) (zlen_nonneg p)). pose proof (zlen_nonneg p). lia.
Qed.
Lemma zlen_encode l : zlen (encode l) = size_of l.
Proof.
  induction l as [|[t p] l IH]; [done|]. cbn [encode mbind list_bind size_of fst snd]. rewrite zlen_app, nla_bytes_size.
  f_equal. exact IH.
Qed.
Lemma size_of_div4 l : nla_total_size (size_of l) = 4 + size_of l.
Proof.
  assert (Hd : exists k, size_of l = 4 * k).
  { induction l as [|[t p] l [k IH]]; [by exists 0|]. cbn [size_of]. rewrite IH. unfold nla_total_size.
    exists ((4 + zlen p + 3) / 4 + k). lia. }
  destruct Hd as [k ->]. unfold nla_total_size. replace (4 + 4 * k + 3) with (3 + (k + 1) * 4) by lia. rewrite Z.div_add by lia.
  change (3 / 4) with 0. lia.
Qed.

(** Attributes that have room are appended, and can be found again. *)
Lemma put_run room d t p :
  nla_total_size (zlen p) <= room ->
  nla_put (mk_skb room d None) t p = (0, mk_skb (room - nla_total_size (zlen p)) (d ++ nla_bytes t p) None).
Proof. intros Hr. unfold nla_put. cbn [sk_room sk_nest sk_data]. by rewrite (proj2 (Z.ltb_ge _ _)) by lia. Qed.
Lemma put_nest_run room d k q t p :
  nla_total_size (zlen p) <= room ->
  nla_put (mk_skb room d (Some (k, q))) t p = (0, mk_skb (room - nla_total_size (zlen p)) d (Some (k, q ++ nla_bytes t p))).
Proof. intros Hr. unfold nla_put. cbn [sk_room sk_nest sk_data]. by rewrite (proj2 (Z.ltb_ge _ _)) by lia. Qed.
Lemma attrs_fit l room : size_of l <= room -> room <= 65535 -> Forall (fun a => 0 <= a.1 < 2 ^ 14) l -> Forall attr_ok l.
Proof.
  induction l as [|[t p] l IH]; intros Hs Hr Hl; [constructor|]. inversion Hl as [|? ? Ht Hl']; subst.
  cbn [size_of] in Hs. pose proof (size_of_nonneg l).
  pose proof (zlen_nonneg p); pose proof (total_size_bounds (zlen p) (zlen_nonneg p)). constructor; [split; cbn in *; lia|]. apply IH; [lia|done|done].
Qed.
Lemma get_u32_le v : nla_get_u32 (le_bytes 4 v) = Some u32[v].
Proof. unfold nla_get_u32. rewrite zlen_le_bytes. cbn [Z.of_nat]. rewrite ztake_all by (rewrite zlen_le_bytes; lia). cbn. f_equal. apply (le_value_le_bytes 4). Qed.
Lemma find_attr_encode ty seq ack h l t :
  zlen h = 4 -> Forall attr_ok l -> nlmsg_find_attr (mk_nlmsg ty seq ack (h ++ encode l)) t = attr_find t l.
Proof.
  intros Hh Hl. unfold nlmsg_find_attr. cbn [nl_data]. rewrite <- Hh, zdrop_app_eq. by rewrite attrs_encode.
Qed.
End nla.

(** ** The format of linux/netlink.h *)

Definition tlv_bytes (t : Z) (p : list Z) : list Z :=
  le_bytes 2 (4 + zlen p) ++ le_bytes 2 t ++ p ++ replicate (Z.to_nat (nla_total_size (zlen p) - 4 - zlen p)) 0.
Fixpoint tlv_attrs (fuel : nat) (l : list Z) : list (Z * list Z) :=
  match fuel with
  | O => []
  | S fuel =>
      let n := le_value (ztake 2 l) in
      if (zlen l <? 4) || (n <? 4) || (zlen l <? n) then []
      else (le_value (ztake 2 (zdrop 2 l)), ztake (n - 4) (zdrop 4 l)) :: tlv_attrs fuel (zdrop (nla_total_size (n - 4)) l)
  end.

Lemma tlv_size t p : zlen (tlv_bytes t p) = nla_total_size (zlen p).
Proof.
  unfold tlv_bytes. rewrite !zlen_app, !zlen_le_bytes, zlen_replicate; pose proof (total_size_bounds (zlen p) (zlen_nonneg p)); lia.
Qed.
Lemma tlv_enough fuel fuel' l : (length l <= fuel)%nat -> (length l <= fuel')%nat -> tlv_attrs fuel l = tlv_attrs fuel' l.
Proof.
  revert fuel' l. induction fuel as [|fuel IH]; intros [|fuel'] l H H'; [done| | |].
  1-2: destruct l; [|simpl in *; lia]; done.
  cbn [tlv_attrs]. case_goal; [done|]. f_equal. bool_hyps. destruct l as [|b l]; [done|].
  set (n := nla_total_size _). assert (4 <= n).
  { unfold n. pose proof (total_size_bounds (le_value (ztake 2 (b :: l)) - 4)). lia. }
  apply IH; unfold zdrop; rewrite length_drop; simpl length in *; lia.
Qed.
Lemma tlv_app t p r : 0 <= t < 2 ^ 14 -> zlen p <= 65531 ->
  tlv_attrs (length (tlv_bytes t p ++ r)) (tlv_bytes t p ++ r) = (t, p) :: tlv_attrs (length r) r.
Proof.
  intros Ht Hp. pose proof (total_size_bounds (zlen p) (zlen_nonneg p)) as Hs. pose proof (tlv_size t p) as Hz. pose proof (zlen_nonneg p).
  set (l := tlv_bytes t p ++ r). assert (Hl : zlen l = nla_total_size (zlen p) + zlen r) by (unfold l; rewrite zlen_app; lia).
  pose proof (zlen_nonneg r).
  assert (E2 : ztake 2 l = le_bytes 2 (4 + zlen p)) by done.
  assert (Et : ztake 2 (zdrop 2 l) = le_bytes 2 t) by done.
  assert (Ev : le_value (ztake 2 l) = 4 + zlen p).
  { rewrite E2, le_value_le_bytes. apply Z.mod_small. change (2 ^ _) with 65536. lia. }
  destruct (length l) as [|n] eqn:En; [unfold zlen at 1 in Hl; rewrite En in Hl; lia|]. cbn [tlv_attrs]. rewrite Ev, Et, le_value_le_bytes.
  rewrite (proj2 (Z.ltb_ge _ 4)), (proj2 (Z.ltb_ge _ 4)), (proj2 (Z.ltb_ge (zlen l) _)) by lia. cbn [orb].
  replace (4 + zlen p - 4) with (zlen p) by lia. f_equal.
  - f_equal; [apply Z.mod_small; change (2 ^ (8 * Z.of_nat 2)) with 65536; lia|].
    unfold l, tlv_bytes. rewrite <- !app_assoc. change (zdrop 4 _) with (p ++ replicate (Z.to_nat (nla_total_size (zlen p) - 4 - zlen p)) 0 ++ r).
    apply ztake_app_eq.
  - unfold l. rewrite <- (tlv_size t p), zdrop_app_eq. apply tlv_enough; [|done]. unfold l, zlen in *. rewrite length_app in *. lia.
Qed.
Definition nla_tlv : Nla := {|
  nla_bytes := tlv_bytes; nla_attrs l := tlv_attrs (length l) l;
  nla_attrs_nil := eq_refl; nla_attrs_app := tlv_app; nla_bytes_size := tlv_size |}.
