(* ===== verification/Director.v ===== *)
(** The kernel side of the director interface: transactions over generic netlink
    (src/src/director/netlink/genl_ext.c), the channel (comm.c), the messages (files ending in _msg.c), the handler
    for messages of the user (generic_user_message_send_handler.c), and director.c, which the
    migration code calls.

    Transactions and socket buffers are objects with addresses; a buffer has a reference count.
    What other threads and the director do while a caller sleeps is an argument ([wakeup]). *)

From stdpp Require Import gmap.
From S2P Require Import Prelude Effect Netlink.

Definition ERESTARTSYS : Z := 512.
Definition EOPNOTSUPP : Z := 95.

(** ** State *)

(** [itx_info] is the copied [genl_info], which points into a buffer. *)
Record genl_tx_internal := mk_itx {
  tx_seq : Z; itx_skb : option Z; itx_info : option Z; interuptible : bool; itx_done : bool }.

(** The handlers that are registered with generic netlink. *)
Inductive doit := Do_register_pid | Do_send_user_message | Do_tx.
Global Instance doit_eq : EqDecision doit.
Proof. solve_decision. Defined.

Record ops_refs := mk_refs {
  check_npm_ops_ref : option Z; node_connected_ops_ref : option Z; ack_ops_ref : option Z; immigration_request_ops_ref : option Z }.

(** What the kernel answers: an allocation with its room, or a result code. *)
Record dgrant := mk_dgrant { dg_ok : bool; dg_rc : Z; dg_room : Z }.

(** [to_user]: the messages on their way to the director, [d_user]: the rest of the world. *)
Record director (U : Type) := mk_director {
  user_director_pid : Z;
  director_seq : Z;
  family_id : Z;
  itxs : gmap Z genl_tx_internal;
  transactions : list Z;
  skbs : gmap Z (Z * nlmsg);
  cmds : list (Z * (doit * option Z));
  refs : ops_refs;
  tx_ops : gmap Z Z;
  user_handler : option (Z -> Z -> Z -> list Z -> Z);
  handled : list (Z * Z * Z * list Z);
  to_user : list nlmsg;
  d_next : Z;
  d_grants : nat -> dgrant;
  d_tick : nat;
  d_user : U
}.
Arguments mk_director {U}.
Arguments user_director_pid {U}. Arguments director_seq {U}. Arguments family_id {U}. Arguments itxs {U}. Arguments transactions {U}.
Arguments skbs {U}. Arguments cmds {U}. Arguments refs {U}. Arguments tx_ops {U}. Arguments user_handler {U}. Arguments handled {U}.
Arguments to_user {U}. Arguments d_next {U}. Arguments d_grants {U}. Arguments d_tick {U}. Arguments d_user {U}.

Section setters.
Context {U : Type}.
Implicit Type w : director U.
Definition set_pid p w := mk_director p (director_seq w) (family_id w) (itxs w) (transactions w) (skbs w) (cmds w) (refs w) (tx_ops w)
  (user_handler w) (handled w) (to_user w) (d_next w) (d_grants w) (d_tick w) (d_user w).
Definition set_seq n w := mk_director (user_director_pid w) n (family_id w) (itxs w) (transactions w) (skbs w) (cmds w) (refs w) (tx_ops w)
  (user_handler w) (handled w) (to_user w) (d_next w) (d_grants w) (d_tick w) (d_user w).
Definition set_txs f g w := mk_director (user_director_pid w) (director_seq w) (family_id w) (f (itxs w)) (g (transactions w)) (skbs w) (cmds w)
  (refs w) (tx_ops w) (user_handler w) (handled w) (to_user w) (d_next w) (d_grants w) (d_tick w) (d_user w).
Definition set_skbs f w := mk_director (user_director_pid w) (director_seq w) (family_id w) (itxs w) (transactions w) (f (skbs w)) (cmds w)
  (refs w) (tx_ops w) (user_handler w) (handled w) (to_user w) (d_next w) (d_grants w) (d_tick w) (d_user w).
Definition set_cmds f r o w := mk_director (user_director_pid w) (director_seq w) (family_id w) (itxs w) (transactions w) (skbs w) (f (cmds w))
  (r (refs w)) (o (tx_ops w)) (user_handler w) (handled w) (to_user w) (d_next w) (d_grants w) (d_tick w) (d_user w).
Definition set_handler h l w := mk_director (user_director_pid w) (director_seq w) (family_id w) (itxs w) (transactions w) (skbs w) (cmds w)
  (refs w) (tx_ops w) h l (to_user w) (d_next w) (d_grants w) (d_tick w) (d_user w).
Definition set_to_user f w := mk_director (user_director_pid w) (director_seq w) (family_id w) (itxs w) (transactions w) (skbs w) (cmds w)
  (refs w) (tx_ops w) (user_handler w) (handled w) (f (to_user w)) (d_next w) (d_grants w) (d_tick w) (d_user w).
Definition set_next n w := mk_director (user_director_pid w) (director_seq w) (family_id w) (itxs w) (transactions w) (skbs w) (cmds w)
  (refs w) (tx_ops w) (user_handler w) (handled w) (to_user w) n (d_grants w) (d_tick w) (d_user w).
Definition set_tick n w := mk_director (user_director_pid w) (director_seq w) (family_id w) (itxs w) (transactions w) (skbs w) (cmds w)
  (refs w) (tx_ops w) (user_handler w) (handled w) (to_user w) (d_next w) (d_grants w) n (d_user w).
Definition set_user (u : U) w := mk_director (user_director_pid w) (director_seq w) (family_id w) (itxs w) (transactions w) (skbs w) (cmds w)
  (refs w) (tx_ops w) (user_handler w) (handled w) (to_user w) (d_next w) (d_grants w) (d_tick w) u.
End setters.

(** The operations of a kind of message on its parameters. *)
Record msg_transaction_ops (P : Type) := mk_ops {
  create_request : P -> sk_buff -> Z * sk_buff;
  read_response : option (nlmsg -> P -> option (Z * P)) }.
Arguments mk_ops {P}. Arguments create_request {P}. Arguments read_response {P}.

Section director.
Context `{Nla} {U : Type}.
Abbreviation M := (eff (director U)).

(** [wk_act] happens while the caller sleeps, [wk_late] between its wake-up and its taking the
    lock; [wk_left] is the time that is left when the condition holds. *)
Record wakeup := mk_wakeup { wk_act : M unit; wk_signal : bool; wk_left : Z; wk_late : M unit }.

Definition d_ask : M dgrant := g ← gets d_grants; n ← gets d_tick; modify (set_tick (S n));; mret (g n).
Definition d_fresh : M Z := n ← gets d_next; modify (set_next (n + 1));; mret n.
Definition itx (p : Z) : M genl_tx_internal := m ← gets itxs; valid (m !! p).
Definition skb_at (p : Z) : M (Z * nlmsg) := m ← gets skbs; valid (m !! p).
Definition skb_get (p : Z) : M unit := '(n, x) ← skb_at p; modify (set_skbs (insert p (n + 1, x))).
Definition kfree_skb (p : Z) : M unit :=
  '(n, x) ← skb_at p; modify (set_skbs (if n =? 1 then delete p else insert p (n - 1, x))).
(** The message of a buffer is cut off; the buffer must exist. *)
Definition genlmsg_cancel (p : Z) : M unit :=
  '(n, x) ← skb_at p; modify (set_skbs (insert p (n, mk_nlmsg (nlmsg_type x) (nlmsg_seq x) (nl_ack x) []))).
(** The buffer is consumed whether or not it is delivered. *)
Definition genlmsg_unicast (p : Z) : M Z :=
  '(_, x) ← skb_at p; modify (set_skbs (delete p));; g ← d_ask;
  when (dg_rc g =? 0) (modify (set_to_user (fun l => l ++ [x])));; mret (dg_rc g).

(** ** genl_ext.c *)

Definition genlmsg_unicast_tx (skb : Z) (tx : option Z) (interuptible : bool) : M (Z * option Z) :=
  match tx with
  | None => res ← genlmsg_unicast skb; mret (res, None)
  | Some _ =>
      g ← d_ask;
      if negb (dg_ok g) then mret (- ENOMEM, tx) else
      p ← d_fresh; '(_, x) ← skb_at skb;
      modify (set_txs (insert p (mk_itx (nlmsg_seq x) None None interuptible false)) (cons p));;
      res ← genlmsg_unicast skb; mret (res, Some (nlmsg_seq x))
  end.

Fixpoint find_itx (l : list Z) (seq : Z) : M (option Z) :=
  match l with
  | [] => mret None
  | p :: l => x ← itx p; if tx_seq x =? seq then mret (Some p) else find_itx l seq
  end.
Definition __find_itx (seq : Z) : M (option Z) := l ← gets transactions; find_itx l seq.

(** The result, and the buffer and the information of the response. *)
Definition genlmsg_read_response (k : wakeup) (tx : Z) : M (Z * (option Z * option Z)) :=
  p ← __find_itx tx;
  match p with
  | None => mret (- EINVAL, (None, None))
  | Some p =>
      wk_act k;;
      x ← itx p;
      let err := if itx_done x then wk_left k else if interuptible x && wk_signal k then - ERESTARTSYS else 0 in
      wk_late k;;
      itx p;;
      modify (set_txs id (list_del p));;
      let err := if err =? 0 then - ETIME else err in
      x ← itx p; modify (set_txs (delete p) id);;
      mret (if err <? 0 then (err, (None, None)) else (0, (itx_skb x, itx_info x)))
  end.

(** The two halves of the handler: the transaction is looked up under the lock, and filled
    without it. *)
Definition handler_find (skb : Z) : M (option Z) := '(_, m) ← skb_at skb; __find_itx (nlmsg_seq m).
Definition handler_store (p skb : Z) : M Z :=
  skb_get skb;; x ← itx p;
  modify (set_txs (insert p (mk_itx (tx_seq x) (Some skb) (Some skb) (interuptible x) true)) id);; mret 0.
Definition generic_message_handler (skb : Z) : M Z :=
  p ← handler_find skb; match p with None => mret (- EINVAL) | Some p => handler_store p skb end.

(** [genl_register_ops] answers 0 or an error. *)
Definition genl_register_ops (cmd : Z) (d : doit) (p : option Z) : M Z :=
  g ← d_ask; when (dg_rc g =? 0) (modify (set_cmds (fun l => l ++ [(cmd, (d, p))]) id id));; mret (dg_rc g).
Definition genl_unregister_ops (d : doit) (p : option Z) : M unit :=
  modify (set_cmds (filter (fun c => c.2 <> (d, p))) id id).
(** The allocation is not tested. *)
Definition genlmsg_register_tx_ops (command : Z) : M (option Z) :=
  g ← d_ask; if negb (dg_ok g) then fault else
  p ← d_fresh; modify (set_cmds id id (insert p command));;
  err ← genl_register_ops command Do_tx (Some p);
  if negb (err =? 0) then modify (set_cmds id id (delete p));; mret None else mret (Some p).

(** ** comm.c *)

Definition check_for_error (m : nlmsg) : M Z :=
  match nlmsg_find_attr m DIRECTOR_A_ERRNO with
  | None => mret 0
  | Some a => v ← valid (nla_get_u32 a); mret s32[v]
  end.
Definition is_director_connected : M Z := gets user_director_pid.
Definition is_director_pid (ppid : Z) : M bool := p ← gets user_director_pid; mret (u32[ppid] =? p).
Definition get_unique_seq : M Z := n ← gets director_seq; modify (set_seq s32[n + 1]);; mret s32[n + 1].
Definition register_pid_handler (skb : Z) : M Z :=
  '(_, m) ← skb_at skb;
  match nlmsg_find_attr m DIRECTOR_A_PID with
  | None => mret (-1)
  | Some a => v ← valid (nla_get_u32 a); modify (set_pid v);; mret 0
  end.

Definition init_director_comm : M Z :=
  g ← d_ask;
  if negb (dg_rc g =? 0) then mret (dg_rc g) else
  genl_register_ops DIRECTOR_REGISTER_PID Do_register_pid None;;
  genl_register_ops DIRECTOR_SEND_GENERIC_USER_MESSAGE Do_send_user_message None;;
  n ← genlmsg_register_tx_ops DIRECTOR_NPM_RESPONSE;
  modify (set_cmds id (fun r => mk_refs n (node_connected_ops_ref r) (ack_ops_ref r) (immigration_request_ops_ref r)) id);;
  if negb (bool_decide (is_Some n)) then mret (-1) else
  c ← genlmsg_register_tx_ops DIRECTOR_NODE_CONNECT_RESPONSE;
  modify (set_cmds id (fun r => mk_refs (check_npm_ops_ref r) c (ack_ops_ref r) (immigration_request_ops_ref r)) id);;
  if negb (bool_decide (is_Some n)) then mret (-1) else
  i ← genlmsg_register_tx_ops DIRECTOR_IMMIGRATION_REQUEST_RESPONSE;
  modify (set_cmds id (fun r => mk_refs (check_npm_ops_ref r) (node_connected_ops_ref r) (ack_ops_ref r) i) id);;
  if negb (bool_decide (is_Some i)) then mret (-1) else
  a ← genlmsg_register_tx_ops DIRECTOR_ACK;
  modify (set_cmds id (fun r => mk_refs (check_npm_ops_ref r) (node_connected_ops_ref r) a (immigration_request_ops_ref r)) id);;
  mret (if negb (bool_decide (is_Some a)) then -1 else 0).

(** Only the first of the operations is freed. *)
Definition destroy_director_comm : M unit :=
  genl_unregister_ops Do_register_pid None;; genl_unregister_ops Do_send_user_message None;;
  r ← gets refs;
  genl_unregister_ops Do_tx (check_npm_ops_ref r);; genl_unregister_ops Do_tx (node_connected_ops_ref r);;
  genl_unregister_ops Do_tx (ack_ops_ref r);; genl_unregister_ops Do_tx (immigration_request_ops_ref r);;
  modify (set_cmds (fun _ => []) id (fun o => match check_npm_ops_ref r with Some p => delete p o | None => o end)).

(** The result and the number of the transaction. *)
Definition msg_transaction_request {P} (msg_code : Z) (ops : msg_transaction_ops P) (params : P) (interruptible : bool) : M (Z * Z) :=
  director_pid ← is_director_connected;
  if director_pid =? 0 then mret (- EFAULT, 0) else
  g ← d_ask;
  if negb (dg_ok g) then mret (-1, 0) else
  skb ← d_fresh; seq ← get_unique_seq; fid ← gets family_id;
  modify (set_skbs (insert skb (1, mk_nlmsg fid u32[seq] false [])));;
  if dg_room g <? 20 then genlmsg_cancel skb;; mret (- ENOMEM, 0) else
  let '(ret, s) := create_request ops params (mk_skb (dg_room g - 20) [] None) in
  if ret <? 0 then genlmsg_cancel skb;; mret (ret, 0) else
  modify (set_skbs (insert skb (1, mk_nlmsg fid u32[seq] false ([msg_code; 1; 0; 0] ++ sk_data s))));;
  '(ret, tx) ← genlmsg_unicast_tx skb (Some 0) interruptible;
  if negb (ret =? 0) then genlmsg_cancel skb;; mret (ret, default 0 tx) else mret (ret, default 0 tx).

Definition msg_transaction_response {P} (k : wakeup) (tx : Z) (ops : msg_transaction_ops P) (params : P) : M (Z * P) :=
  '(ret, (skb, info)) ← genlmsg_read_response k tx;
  if negb (ret =? 0) then mret (ret, params) else
  info ← valid info; '(_, m) ← skb_at info;
  ret ← check_for_error m;
  '(ret, params) ← (if negb (ret =? 0) then mret (ret, params)
                    else match read_response ops with
                         | None => mret (ret, params)
                         | Some f => valid (f m params)
                         end);
  skb ← valid skb; kfree_skb skb;; mret (ret, params).

Definition msg_transaction_do {P} (k : wakeup) (msg_code : Z) (ops : msg_transaction_ops P) (params : P) (interruptible : bool) : M (Z * P) :=
  '(res, tx) ← msg_transaction_request msg_code ops params interruptible;
  if negb (res =? 0) then mret (res, params) else msg_transaction_response k tx ops params.

(** ** generic_user_message_send_handler.c *)

Definition register_send_generic_user_message_handler (h : option (Z -> Z -> Z -> list Z -> Z)) : M unit :=
  modify (fun w => set_handler h (handled w) w).
(** The length is what the sender says, the data what the attribute holds. *)
Definition handle_send_generic_user_message (skb : Z) : M Z :=
  h ← gets user_handler;
  match h with
  | None => mret (- EINVAL)
  | Some h =>
      '(_, m) ← skb_at skb;
      let attr t (k : list Z -> M Z) := match nlmsg_find_attr m t with None => mret (-1) | Some a => k a end in
      attr DIRECTOR_A_SLOT_INDEX (fun a => target_slot_index ← valid (nla_get_u32 a);
      attr DIRECTOR_A_SLOT_TYPE (fun a => target_slot_type ← valid (nla_get_u32 a);
      attr DIRECTOR_A_LENGTH (fun a => user_data_length ← valid (nla_get_u32 a);
      attr DIRECTOR_A_USER_DATA (fun user_data =>
        modify (fun w => set_handler (user_handler w)
                           (handled w ++ [(s32[target_slot_type], s32[target_slot_index], s32[user_data_length], user_data)]) w);;
        mret (h s32[target_slot_type] s32[target_slot_index] s32[user_data_length] user_data)))))
  end.

(** What generic netlink does with a message: the handler of its command runs on a buffer, and a
    message with the result goes back if there was an error or a confirmation is wanted. *)
Definition run_doit (d : doit) (skb : Z) : M Z :=
  match d with
  | Do_register_pid => register_pid_handler skb
  | Do_send_user_message => handle_send_generic_user_message skb
  | Do_tx => generic_message_handler skb
  end.
Fixpoint find_op (cmd : Z) (l : list (Z * (doit * option Z))) : option doit :=
  match l with [] => None | (c, (d, _)) :: l => if c =? cmd then Some d else find_op cmd l end.
Definition genl_rcv (m : nlmsg) : M unit :=
  skb ← d_fresh; modify (set_skbs (insert skb (1, m)));;
  l ← gets cmds; cmd ← valid (genl_cmd m);
  err ← match find_op cmd l with None => mret (- EOPNOTSUPP) | Some d => run_doit d skb end;
  kfree_skb skb;;
  when (negb (err =? 0) || nl_ack m)
    (modify (set_to_user (fun q => q ++ [mk_nlmsg NLMSG_ERROR (nlmsg_seq m) false (le_bytes 4 err)]))).
End director.
Arguments wakeup : clear implicits.
