(* ===== verification/DirectorMsg.v ===== *)
(** The requests that the kernel makes of the director (the _msg.c files of
    src/src/director/netlink) and their entry points in director.c. *)

From stdpp Require Import gmap.
From S2P Require Import Prelude Effect Netlink Director.

(** One attribute after the other, up to the first that does not fit. *)
Definition put_then (f g : sk_buff -> Z * sk_buff) (s : sk_buff) : Z * sk_buff :=
  let '(ret, s) := f s in if ret =? 0 then g s else (ret, s).
Notation "f ;> g" := (put_then f g) (at level 62, right associativity) : clon_scope.
Definition put_none (s : sk_buff) : Z * sk_buff := (0, s).

(** ** Parameters *)

Record npm_check_params := mk_npm_check {
  npm_pid : Z; npm_uid : Z; npm_is_guest : Z; npm_name : list Z; npm_rusage : option (list Z);
  npm_args : option (list (list Z)); npm_envp : option (list (list Z)); npm_decision : Z; npm_decision_value : Z }.
Record node_connected_params := mk_connected {
  nc_address : list Z; nc_slot_index : Z; nc_auth_data_size : Z; nc_auth_data : list Z; nc_accepted : Z }.
Record node_disconnected_params := mk_disconnected { nd_slot_index : Z; nd_detached : Z; nd_reason : Z }.
Record generic_user_message_params := mk_user_message {
  gm_node_id : Z; gm_is_core_node : Z; gm_slot_index : Z; gm_user_data_size : Z; gm_user_data : list Z }.
Record immigration_request_params := mk_immigration { ir_name : list Z; ir_slot_index : Z; ir_uid : Z; ir_accepted : Z }.
Record immigration_confirmed_params := mk_confirmed {
  ic_name : list Z; ic_slot_index : Z; ic_uid : Z; ic_local_pid : Z; ic_remote_pid : Z }.
Record task_exitted_params := mk_exitted { te_pid : Z; te_exit_code : Z; te_rusage : list Z }.
Record task_forked_params := mk_forked { tf_pid : Z; tf_ppid : Z }.

Section messages.
Context `{Nla} {U : Type}.
Abbreviation M := (eff (director U)).
Abbreviation u32a t v := (fun s => nla_put_u32 s t v).
Abbreviation stra t v := (fun s => nla_put_string s t v).
Abbreviation bina t v := (fun s => nla_put s t v).

(** ** npm_msg.c *)

Definition npm_check_create_request (p : npm_check_params) : sk_buff -> Z * sk_buff :=
  u32a DIRECTOR_A_PID (npm_pid p) ;> u32a DIRECTOR_A_UID (npm_uid p) ;>
  u32a DIRECTOR_A_TASK_TYPE (if npm_is_guest p =? 0 then 0 else 1) ;> stra DIRECTOR_A_NAME (npm_name p) ;>
  u32a DIRECTOR_A_LENGTH (zlen (npm_name p)) ;>
  match npm_rusage p with Some r => bina DIRECTOR_A_RUSAGE r | None => put_none end.
Definition npm_check_read_response (m : nlmsg) (p : npm_check_params) : option (Z * npm_check_params) :=
  match nlmsg_find_attr m DIRECTOR_A_DECISION with
  | None => Some (- EBADMSG, p)
  | Some a =>
      d ← nla_get_u32 a;
      v ← match nlmsg_find_attr m DIRECTOR_A_DECISION_VALUE with Some a => nla_get_u32 a | None => Some 0 end;
      Some (0, mk_npm_check (npm_pid p) (npm_uid p) (npm_is_guest p) (npm_name p) (npm_rusage p) (npm_args p) (npm_envp p) s32[d] s32[v])
  end.
Definition npm_check_msg_ops := mk_ops npm_check_create_request (Some npm_check_read_response).

(** [decision] and its value; what the variables hold before is an argument. *)
Definition npm_check (k : wakeup U) (pid uid is_guest : Z) (name : list Z) (rusage : option (list Z)) (d : Z * Z) : M (Z * (Z * Z)) :=
  '(ret, p) ← msg_transaction_do k DIRECTOR_CHECK_NPM npm_check_msg_ops
                (mk_npm_check pid uid is_guest name rusage None None d.1 d.2) false;
  mret (if negb (ret =? 0) then (ret, d) else (0, (npm_decision p, npm_decision_value p))).

Fixpoint put_chars (nested_type : Z) (l : list (list Z)) : sk_buff -> Z * sk_buff :=
  match l with [] => put_none | c :: l => stra nested_type c ;> put_chars nested_type l end.
Definition put_char_array (chars : option (list (list Z))) (type nested_type : Z) (s : sk_buff) : Z * sk_buff :=
  match chars with
  | None => (0, s)
  | Some l =>
      match nla_nest_start s type with
      | None => (- EMSGSIZE, s)
      | Some s =>
          let '(ret, s) := (put_chars nested_type l ;> u32a DIRECTOR_A_LENGTH (zlen l)) s in
          if ret =? 0 then (0, nla_nest_end s) else (ret, s)
      end
  end.
Definition npm_check_full_create_request (p : npm_check_params) : sk_buff -> Z * sk_buff :=
  u32a DIRECTOR_A_PID (npm_pid p) ;> u32a DIRECTOR_A_UID (npm_uid p) ;>
  u32a DIRECTOR_A_TASK_TYPE (if npm_is_guest p =? 0 then 0 else 1) ;> stra DIRECTOR_A_NAME (npm_name p) ;>
  put_char_array (npm_args p) DIRECTOR_A_ARGS DIRECTOR_A_ARG ;> put_char_array (npm_envp p) DIRECTOR_A_ENVS DIRECTOR_A_ENV.
Definition npm_check_full_msg_ops := mk_ops npm_check_full_create_request (Some npm_check_read_response).
Definition npm_check_full (k : wakeup U) (pid uid is_guest : Z) (name : list Z) (args envp : option (list (list Z))) (d : Z * Z) : M (Z * (Z * Z)) :=
  '(ret, p) ← msg_transaction_do k DIRECTOR_CHECK_FULL_NPM npm_check_full_msg_ops
                (mk_npm_check pid uid is_guest name None args envp d.1 d.2) false;
  mret (if negb (ret =? 0) then (ret, d) else (0, (npm_decision p, npm_decision_value p))).

(** ** node_connected_msg.c, node_disconnected_msg.c *)

Definition node_connected_create_request (p : node_connected_params) : sk_buff -> Z * sk_buff :=
  stra DIRECTOR_A_ADDRESS (nc_address p) ;> u32a DIRECTOR_A_INDEX (nc_slot_index p) ;>
  u32a DIRECTOR_A_LENGTH (nc_auth_data_size p) ;>
  if 0 <? nc_auth_data_size p then bina DIRECTOR_A_AUTH_DATA (ztake (nc_auth_data_size p) (nc_auth_data p)) else put_none.
Definition node_connected_read_response (m : nlmsg) (p : node_connected_params) : option (Z * node_connected_params) :=
  match nlmsg_find_attr m DIRECTOR_A_DECISION with
  | None => Some (- EBADMSG, p)
  | Some a => d ← nla_get_u32 a; Some (0, mk_connected (nc_address p) (nc_slot_index p) (nc_auth_data_size p) (nc_auth_data p) s32[d])
  end.
Definition node_connected_msg_ops := mk_ops node_connected_create_request (Some node_connected_read_response).
Definition node_connected (k : wakeup U) (address : list Z) (slot_index auth_data_size : Z) (auth_data : list Z) (accept : Z) : M (Z * Z) :=
  '(ret, p) ← msg_transaction_do k DIRECTOR_NODE_CONNECTED node_connected_msg_ops
                (mk_connected address slot_index auth_data_size auth_data accept) false;
  mret (if negb (ret =? 0) then (ret, accept) else (0, nc_accepted p)).

Definition node_disconnected_create_request (p : node_disconnected_params) : sk_buff -> Z * sk_buff :=
  u32a DIRECTOR_A_INDEX (nd_slot_index p) ;> u32a DIRECTOR_A_SLOT_TYPE (if nd_detached p =? 0 then 0 else 1) ;>
  u32a DIRECTOR_A_REASON (nd_reason p).
Definition node_disconnected_msg_ops := mk_ops node_disconnected_create_request None.
Definition node_disconnected (k : wakeup U) (slot_index detached reason : Z) : M Z :=
  '(ret, _) ← msg_transaction_do k DIRECTOR_NODE_DISCONNECTED node_disconnected_msg_ops (mk_disconnected slot_index detached reason) true;
  mret ret.

(** A response without contents. *)
Definition empty_response {P} (_ : nlmsg) (p : P) : option (Z * P) := Some (0, p).

(** ** generic_user_message_recv_msg.c *)

Definition generic_user_message_create_request (p : generic_user_message_params) : sk_buff -> Z * sk_buff :=
  u32a DIRECTOR_A_INDEX (gm_node_id p) ;> u32a DIRECTOR_A_SLOT_INDEX (gm_slot_index p) ;>
  u32a DIRECTOR_A_SLOT_TYPE (gm_is_core_node p) ;> u32a DIRECTOR_A_LENGTH (gm_user_data_size p) ;>
  if 0 <? gm_user_data_size p then bina DIRECTOR_A_USER_DATA (ztake (gm_user_data_size p) (gm_user_data p)) else put_none.
Definition generic_user_message_msg_ops := mk_ops generic_user_message_create_request (Some empty_response).
Definition generic_user_message_recv (k : wakeup U) (node_id is_core_node slot_index user_data_size : Z) (user_data : list Z) : M Z :=
  '(ret, _) ← msg_transaction_do k DIRECTOR_GENERIC_USER_MESSAGE generic_user_message_msg_ops
                (mk_user_message node_id is_core_node slot_index user_data_size user_data) false;
  mret ret.

(** ** immigration_request_msg.c, immigration_confirmed_msg.c *)

Definition immigration_request_create_request (p : immigration_request_params) : sk_buff -> Z * sk_buff :=
  u32a DIRECTOR_A_UID (ir_uid p) ;> u32a DIRECTOR_A_INDEX (ir_slot_index p) ;> stra DIRECTOR_A_NAME (ir_name p).
Definition immigration_request_read_response (m : nlmsg) (p : immigration_request_params) : option (Z * immigration_request_params) :=
  match nlmsg_find_attr m DIRECTOR_A_DECISION with
  | None => Some (- EBADMSG, p)
  | Some a => d ← nla_get_u32 a; Some (0, mk_immigration (ir_name p) (ir_slot_index p) (ir_uid p) s32[d])
  end.
Definition immigration_request_msg_ops := mk_ops immigration_request_create_request (Some immigration_request_read_response).
Definition immigration_request (k : wakeup U) (slot_index uid : Z) (name : list Z) (accept : Z) : M (Z * Z) :=
  '(ret, p) ← msg_transaction_do k DIRECTOR_IMMIGRATION_REQUEST immigration_request_msg_ops
                (mk_immigration name slot_index uid accept) false;
  mret (if negb (ret =? 0) then (ret, accept) else (0, ir_accepted p)).

Definition immigration_confirmed_create_request (p : immigration_confirmed_params) : sk_buff -> Z * sk_buff :=
  u32a DIRECTOR_A_UID (ic_uid p) ;> u32a DIRECTOR_A_INDEX (ic_slot_index p) ;> stra DIRECTOR_A_NAME (ic_name p) ;>
  u32a DIRECTOR_A_PID (ic_local_pid p) ;> u32a DIRECTOR_A_REMOTE_PID (ic_remote_pid p).
Definition immigration_confirmed_msg_ops := mk_ops immigration_confirmed_create_request (Some empty_response).
Definition immigration_confirmed (k : wakeup U) (slot_index uid : Z) (name : list Z) (local_pid remote_pid : Z) : M Z :=
  '(ret, _) ← msg_transaction_do k DIRECTOR_IMMIGRATION_CONFIRMED immigration_confirmed_msg_ops
                (mk_confirmed name slot_index uid local_pid remote_pid) false;
  mret ret.

(** ** task_exitted_msg.c, task_forked_msg.c, emigration_failed_msg.c, migrated_home_msg.c *)

Definition task_exitted_create_request (p : task_exitted_params) : sk_buff -> Z * sk_buff :=
  u32a DIRECTOR_A_PID (te_pid p) ;> u32a DIRECTOR_A_EXIT_CODE (te_exit_code p) ;> bina DIRECTOR_A_RUSAGE (te_rusage p).
Definition task_exitted_msg_ops := mk_ops task_exitted_create_request (Some empty_response).
Definition task_exitted (k : wakeup U) (pid exit_code : Z) (rusage : list Z) : M Z :=
  '(ret, _) ← msg_transaction_do k DIRECTOR_TASK_EXIT task_exitted_msg_ops (mk_exitted pid exit_code rusage) true; mret ret.

Definition task_forked_create_request (p : task_forked_params) : sk_buff -> Z * sk_buff :=
  u32a DIRECTOR_A_PID (tf_pid p) ;> u32a DIRECTOR_A_PPID (tf_ppid p).
Definition task_forked_msg_ops := mk_ops task_forked_create_request (Some empty_response).
Definition task_forked (k : wakeup U) (pid ppid : Z) : M Z :=
  '(ret, _) ← msg_transaction_do k DIRECTOR_TASK_FORK task_forked_msg_ops (mk_forked pid ppid) true; mret ret.

Definition emigration_failed_create_request (pid : Z) : sk_buff -> Z * sk_buff := u32a DIRECTOR_A_PID pid.
Definition emigration_failed_msg_ops := mk_ops emigration_failed_create_request (Some empty_response).
Definition emigration_failed (k : wakeup U) (pid : Z) : M Z :=
  '(ret, _) ← msg_transaction_do k DIRECTOR_EMIGRATION_FAILED emigration_failed_msg_ops pid true; mret ret.

Definition migrated_home_create_request (pid : Z) : sk_buff -> Z * sk_buff := u32a DIRECTOR_A_PID pid.
Definition migrated_home_msg_ops := mk_ops migrated_home_create_request (Some empty_response).
Definition migrated_home (k : wakeup U) (pid : Z) : M Z :=
  '(ret, _) ← msg_transaction_do k DIRECTOR_MIGRATED_HOME migrated_home_msg_ops pid true; mret ret.

(** ** director.c *)

(** The result, and what [migman_to_use] and [migrate_home] hold. *)
Definition director_npm_check (k1 k2 : wakeup U) (pid uid is_guest : Z) (name : list Z) (argv envp : option (list (list Z)))
    (rusage : option (list Z)) (undef : Z * Z) (migman_to_use migrate_home : Z) : M (Z * (Z * Z)) :=
  '(res, d) ← npm_check k1 pid uid is_guest name rusage undef;
  if negb (res =? 0) then mret (res, (migman_to_use, migrate_home)) else
  '(res, (decision, decision_value)) ←
     (if (d.1 =? REQUIRE_ARGS) || (d.1 =? REQUIRE_ENVP) || (d.1 =? REQUIRE_ARGS_AND_ENVP)
      then npm_check_full k2 pid uid is_guest name argv envp d else mret (0, d));
  if negb (res =? 0) then mret (res, (migman_to_use, migrate_home)) else
  mret (if decision =? MIGRATE_BACK then (1, (migman_to_use, 1))
        else if decision =? MIGRATE then (1, (decision_value, migrate_home))
        else (0, (migman_to_use, migrate_home))).

Definition director_immigration_request (k : wakeup U) (slot_index uid : Z) (name : list Z) (accept : Z) : M (Z * Z) :=
  immigration_request k slot_index uid name accept.
Definition director_immigration_confirmed (k : wakeup U) (slot_index uid : Z) (name : list Z) (local_pid remote_pid : Z) : M Z :=
  immigration_confirmed k slot_index uid name local_pid remote_pid.
Definition director_node_connected (k : wakeup U) (address : list Z) (slot_index auth_data_size : Z) (auth_data : list Z) (accept : Z) : M (Z * Z) :=
  node_connected k address slot_index auth_data_size auth_data accept.
Definition director_node_disconnected (k : wakeup U) (slot_index detached reason : Z) : M Z := node_disconnected k slot_index detached reason.
Definition director_generic_user_message_recv (k : wakeup U) (node_id is_core_node slot_index user_data_size : Z) (user_data : list Z) : M Z :=
  generic_user_message_recv k node_id is_core_node slot_index user_data_size user_data.
Definition director_register_send_generic_user_message_handler (h : Z -> Z -> Z -> list Z -> Z) : M unit :=
  register_send_generic_user_message_handler (Some h).
Definition director_task_exit (k : wakeup U) (pid exit_code : Z) (rusage : list Z) : M Z := task_exitted k pid exit_code rusage.
(** The director is not told of its own forks. *)
Definition director_task_fork (k : wakeup U) (pid ppid : Z) : M Z :=
  b ← is_director_pid ppid; if (b : bool) then mret 0 else task_forked k pid ppid.
Definition director_emigration_failed (k : wakeup U) (pid : Z) : M Z := emigration_failed k pid.
Definition director_migrated_home (k : wakeup U) (pid : Z) : M Z := migrated_home k pid.

(** The result of the initialisation is not looked at. *)
Definition init_director_module : M Z := init_director_comm;; mret 0.
Definition exit_director_module : M unit := destroy_director_comm.
End messages.
