(* ===== verification/DirectorApi.v ===== *)
(** The user-space library of the director (src/userspace/director-api): reading and sending of
    messages (msg-common.c), the handlers of the requests of the kernel (npm-check.c and the others),
    and director-api.c, which dispatches them.

    The director itself is a state [D] and the callbacks it registered.  Memory is counted in
    [live]: messages, arrays and copies that were allocated and not freed. *)

From S2P Require Import Prelude Effect Netlink.

Definition EBUSY : Z := 16.

(** ** State *)

(** The arrays of strings that are given to a callback. *)
Inductive cell := Undef | Null | Str (p : list Z).

(** Strings are given as the memory of their attribute, with the terminating 0. *)
Record callbacks (D : Type) := mk_callbacks {
  npm_callback : option (Z -> Z -> Z -> list Z -> option (list Z) -> Z * Z -> D -> (Z * Z) * D);
  npm_full_callback : option (Z -> Z -> Z -> list Z -> list cell -> list cell -> Z * Z -> D -> (Z * Z) * D);
  node_connected_callback : option (list Z -> Z -> Z -> option (list Z) -> Z -> D -> Z * D);
  node_disconnected_callback : option (Z -> Z -> Z -> D -> D);
  immigration_request_callback : option (Z -> Z -> list Z -> Z -> D -> Z * D);
  immigration_confirmed_callback : option (Z -> Z -> list Z -> Z -> Z -> D -> D);
  task_exitted_callback : option (Z -> Z -> list Z -> D -> D);
  task_forked_callback : option (Z -> Z -> D -> D);
  migrated_home_callback : option (Z -> D -> D);
  emigration_failed_callback : option (Z -> D -> D);
  generic_user_message_callback : option (Z -> Z -> Z -> Z -> option (list Z) -> D -> D)
}.
Arguments mk_callbacks {D}. Arguments npm_callback {D}. Arguments npm_full_callback {D}. Arguments node_connected_callback {D}.
Arguments node_disconnected_callback {D}. Arguments immigration_request_callback {D}. Arguments immigration_confirmed_callback {D}.
Arguments task_exitted_callback {D}. Arguments task_forked_callback {D}. Arguments migrated_home_callback {D}.
Arguments emigration_failed_callback {D}. Arguments generic_user_message_callback {D}.

Inductive cmd_handler :=
| Handle_npm_check | Handle_npm_check_full | Handle_node_connected | Handle_node_disconnected | Handle_immigration_request
| Handle_immigration_confirmed | Handle_task_exitted | Handle_task_forked | Handle_migrated_home | Handle_emigration_failed
| Handle_generic_user_message.

(** What the libraries answer: an allocation and the room of a message, the result of [poll] and
    [recvmsg] (0 or an error number), the result of a send. *)
Record ugrant := mk_ugrant { ua_ok : bool; ua_room : Z; ua_errno : Z; ua_send : Z }.

Record api (D : Type) := mk_api {
  gnl_fid : Z;
  has_handle : bool;
  handlers : list (option cmd_handler);
  cbs : callbacks D;
  app : D;
  inbox : list nlmsg;
  sent : list nlmsg;
  live : Z;
  h_seq_next : Z;
  u_grants : nat -> ugrant;
  u_tick : nat
}.
Arguments mk_api {D}. Arguments gnl_fid {D}. Arguments has_handle {D}. Arguments handlers {D}. Arguments cbs {D}. Arguments app {D}.
Arguments inbox {D}. Arguments sent {D}. Arguments live {D}. Arguments h_seq_next {D}. Arguments u_grants {D}. Arguments u_tick {D}.

Section setters.
Context {D : Type}.
Implicit Type u : api D.
Definition set_family f h u := mk_api f h (handlers u) (cbs u) (app u) (inbox u) (sent u) (live u) (h_seq_next u) (u_grants u) (u_tick u).
Definition set_handlers h u := mk_api (gnl_fid u) (has_handle u) h (cbs u) (app u) (inbox u) (sent u) (live u) (h_seq_next u) (u_grants u) (u_tick u).
Definition set_cbs c u := mk_api (gnl_fid u) (has_handle u) (handlers u) c (app u) (inbox u) (sent u) (live u) (h_seq_next u) (u_grants u) (u_tick u).
Definition set_app d u := mk_api (gnl_fid u) (has_handle u) (handlers u) (cbs u) d (inbox u) (sent u) (live u) (h_seq_next u) (u_grants u) (u_tick u).
Definition set_inbox q u := mk_api (gnl_fid u) (has_handle u) (handlers u) (cbs u) (app u) q (sent u) (live u) (h_seq_next u) (u_grants u) (u_tick u).
Definition set_sent q u := mk_api (gnl_fid u) (has_handle u) (handlers u) (cbs u) (app u) (inbox u) q (live u) (h_seq_next u) (u_grants u) (u_tick u).
Definition set_live n u := mk_api (gnl_fid u) (has_handle u) (handlers u) (cbs u) (app u) (inbox u) (sent u) n (h_seq_next u) (u_grants u) (u_tick u).
Definition set_seq_next n u := mk_api (gnl_fid u) (has_handle u) (handlers u) (cbs u) (app u) (inbox u) (sent u) (live u) n (u_grants u) (u_tick u).
Definition set_u_tick n u := mk_api (gnl_fid u) (has_handle u) (handlers u) (cbs u) (app u) (inbox u) (sent u) (live u) (h_seq_next u) (u_grants u) n.
End setters.

(** A message that is being made. *)
Record nl_msg := mk_msg { b_type : Z; b_seq : Z; b_buf : sk_buff }.

Section api.
Context `{Nla} {D : Type}.
Abbreviation M := (eff (api D)).

Definition u_ask : M ugrant := g ← gets u_grants; n ← gets u_tick; modify (set_u_tick (S n));; mret (g n).
Definition count_live (n : Z) : M unit := modify (fun u => set_live (live u + n) u).
Definition nlmsg_free : M unit := count_live (-1).
(** [nla_put] of the library reports a lack of room as a lack of memory. *)
Definition u_put (m : nl_msg) (t : Z) (data : list Z) : Z * nl_msg :=
  let '(ret, s) := nla_put (b_buf m) t data in (if ret =? 0 then 0 else - ENOMEM, mk_msg (b_type m) (b_seq m) s).
Definition u_put_u32 (m : nl_msg) (t v : Z) : Z * nl_msg := u_put m t (le_bytes 4 v).

(** ** Registration of callbacks *)

Definition register_npm_check_callback callback : M unit := modify (fun u => let c := cbs u in set_cbs (mk_callbacks callback (npm_full_callback c) (node_connected_callback c) (node_disconnected_callback c) (immigration_request_callback c) (immigration_confirmed_callback c) (task_exitted_callback c) (task_forked_callback c) (migrated_home_callback c) (emigration_failed_callback c) (generic_user_message_callback c)) u).
Definition register_npm_check_full_callback callback : M unit := modify (fun u => let c := cbs u in set_cbs (mk_callbacks (npm_callback c) callback (node_connected_callback c) (node_disconnected_callback c) (immigration_request_callback c) (immigration_confirmed_callback c) (task_exitted_callback c) (task_forked_callback c) (migrated_home_callback c) (emigration_failed_callback c) (generic_user_message_callback c)) u).
Definition register_node_connected_callback callback : M unit := modify (fun u => let c := cbs u in set_cbs (mk_callbacks (npm_callback c) (npm_full_callback c) callback (node_disconnected_callback c) (immigration_request_callback c) (immigration_confirmed_callback c) (task_exitted_callback c) (task_forked_callback c) (migrated_home_callback c) (emigration_failed_callback c) (generic_user_message_callback c)) u).
Definition register_node_disconnected_callback callback : M unit := modify (fun u => let c := cbs u in set_cbs (mk_callbacks (npm_callback c) (npm_full_callback c) (node_connected_callback c) callback (immigration_request_callback c) (immigration_confirmed_callback c) (task_exitted_callback c) (task_forked_callback c) (migrated_home_callback c) (emigration_failed_callback c) (generic_user_message_callback c)) u).
Definition register_immigration_request_callback callback : M unit := modify (fun u => let c := cbs u in set_cbs (mk_callbacks (npm_callback c) (npm_full_callback c) (node_connected_callback c) (node_disconnected_callback c) callback (immigration_confirmed_callback c) (task_exitted_callback c) (task_forked_callback c) (migrated_home_callback c) (emigration_failed_callback c) (generic_user_message_callback c)) u).
Definition register_immigration_confirmed_callback callback : M unit := modify (fun u => let c := cbs u in set_cbs (mk_callbacks (npm_callback c) (npm_full_callback c) (node_connected_callback c) (node_disconnected_callback c) (immigration_request_callback c) callback (task_exitted_callback c) (task_forked_callback c) (migrated_home_callback c) (emigration_failed_callback c) (generic_user_message_callback c)) u).
Definition register_task_exitted_callback callback : M unit := modify (fun u => let c := cbs u in set_cbs (mk_callbacks (npm_callback c) (npm_full_callback c) (node_connected_callback c) (node_disconnected_callback c) (immigration_request_callback c) (immigration_confirmed_callback c) callback (task_forked_callback c) (migrated_home_callback c) (emigration_failed_callback c) (generic_user_message_callback c)) u).
Definition register_task_forked_callback callback : M unit := modify (fun u => let c := cbs u in set_cbs (mk_callbacks (npm_callback c) (npm_full_callback c) (node_connected_callback c) (node_disconnected_callback c) (immigration_request_callback c) (immigration_confirmed_callback c) (task_exitted_callback c) callback (migrated_home_callback c) (emigration_failed_callback c) (generic_user_message_callback c)) u).
Definition register_migrated_home_callback callback : M unit := modify (fun u => let c := cbs u in set_cbs (mk_callbacks (npm_callback c) (npm_full_callback c) (node_connected_callback c) (node_disconnected_callback c) (immigration_request_callback c) (immigration_confirmed_callback c) (task_exitted_callback c) (task_forked_callback c) callback (emigration_failed_callback c) (generic_user_message_callback c)) u).
Definition register_emigration_failed_callback callback : M unit := modify (fun u => let c := cbs u in set_cbs (mk_callbacks (npm_callback c) (npm_full_callback c) (node_connected_callback c) (node_disconnected_callback c) (immigration_request_callback c) (immigration_confirmed_callback c) (task_exitted_callback c) (task_forked_callback c) (migrated_home_callback c) callback (generic_user_message_callback c)) u).
Definition register_generic_user_message_callback callback : M unit := modify (fun u => let c := cbs u in set_cbs (mk_callbacks (npm_callback c) (npm_full_callback c) (node_connected_callback c) (node_disconnected_callback c) (immigration_request_callback c) (immigration_confirmed_callback c) (task_exitted_callback c) (task_forked_callback c) (migrated_home_callback c) (emigration_failed_callback c) callback) u).

(** ** msg-common.c *)

Definition prepare_request_message (cmd type : Z) : M (Z * option nl_msg) :=
  g ← u_ask;
  if negb (ua_ok g) then mret (- ENOMEM, None) else
  count_live 1;;
  if ua_room g <? 4 then nlmsg_free;; mret (- ENOMEM, None)
  else mret (0, Some (mk_msg type 0 (mk_skb (ua_room g - 4) [u8[cmd]; 1; 0; 0] None))).
Definition prepare_response_message (cmd type seq : Z) : M (Z * option nl_msg) :=
  '(res, m) ← prepare_request_message cmd type;
  if negb (res =? 0) then mret (res, m) else m ← valid m; mret (0, Some (mk_msg (b_type m) seq (b_buf m))).

(** A number of 0 is replaced by the next one of the socket. *)
Definition nl_send_auto_complete (m : nl_msg) (ack : bool) : M Z :=
  n ← gets h_seq_next;
  seq ← (if b_seq m =? 0 then modify (set_seq_next u32[n + 1]);; mret n else mret (b_seq m));
  g ← u_ask;
  when (0 <? ua_send g) (modify (fun u => set_sent (sent u ++ [mk_nlmsg (b_type m) seq ack (sk_data (b_buf m))]) u));;
  mret (ua_send g).
Definition send_request_message (msg : nl_msg) (requires_ack : bool) : M Z :=
  ret_val ← nl_send_auto_complete msg requires_ack;
  nlmsg_free;; mret (if ret_val <=? 0 then (if ret_val =? 0 then - ENODATA else ret_val) else 0).
Definition send_response_message (msg : nl_msg) : M Z := send_request_message msg false.

(** A buffer that a read leaves behind. *)
Inductive rbuf := Null_buf | Freed_buf | Buf (m : nlmsg).
(** [recvmsg] takes the message from the socket unless it peeks, and cuts it off at the length of
    the buffer; an empty socket makes the caller sleep. *)
Fixpoint recv_loop (fuel : nat) (peek : bool) (iov_len : Z) : M (Z * rbuf) :=
  match fuel with
  | O => halt Running
  | S fuel =>
      g ← u_ask;
      if ua_errno g =? EINTR then recv_loop fuel peek iov_len
      else if ua_errno g =? EAGAIN then mret (0, Freed_buf)
      else if negb (ua_errno g =? 0) then mret (- ua_errno g, Null_buf)
      else
        q ← gets inbox;
        match q with
        | [] => halt Gone
        | m :: r =>
            (if peek then mret tt else modify (set_inbox r));;
            let n := NLMSG_HDRLEN + zlen (nl_data m) in
            if iov_len <? n then recv_loop fuel peek (2 * iov_len)
            else if peek then recv_loop fuel false iov_len
            else mret (n, Buf m)
        end
  end.
(** The flag [NL_MSG_PEEK] of the socket; ten pages at first. *)
Definition nl_recv_fixed (fuel : nat) (msg_peek : bool) : M (Z * rbuf) := recv_loop fuel msg_peek 40960.

Definition free_buf (b : rbuf) : M unit := match b with Freed_buf => fault | _ => mret tt end.
Definition read_message (fuel : nat) (msg_peek : bool) : M (Z * option nlmsg) :=
  p ← u_ask;
  if negb (ua_errno p =? 0) then mret (- ua_errno p, None) else
  '(ret_val, data) ← nl_recv_fixed fuel msg_peek;
  if ret_val <=? 0 then free_buf data;; mret (if ret_val =? 0 then - ENODATA else ret_val, None) else
  match data with
  | Buf m =>
      g ← u_ask; when (ua_ok g) (count_live 1);;
      let ans_msg := if ua_ok g then Some m else None in
      let read_error ret := when (ua_ok g) nlmsg_free;; mret (ret, None) in
      if (nlmsg_type m =? NLMSG_NOOP) || (nlmsg_type m =? NLMSG_OVERRUN) then read_error (- EBADMSG) else
      if nlmsg_type m =? NLMSG_ERROR then
        a ← valid ans_msg;
        if negb (nlmsg_error a =? 0) then read_error (nlmsg_error a) else mret (0, ans_msg)
      else mret (0, ans_msg)
  | _ => mret (ret_val, None)
  end.

Definition send_error_message (err seq cmd : Z) : M unit :=
  fid ← gets gnl_fid; '(ret, msg) ← prepare_response_message cmd fid seq;
  if negb (ret =? 0) then mret tt else
  msg ← valid msg;
  let '(ret, msg) := u_put_u32 msg DIRECTOR_A_ERRNO err in
  if negb (ret =? 0) then nlmsg_free else send_response_message msg;; mret tt.
Definition send_ack_message (req_msg : nlmsg) : M Z :=
  fid ← gets gnl_fid; '(ret, msg) ← prepare_response_message DIRECTOR_ACK fid (nlmsg_seq req_msg);
  if negb (ret =? 0) then mret ret else msg ← valid msg; send_response_message msg.

(** ** Handlers *)

(** Most handlers end alike: a message with the given attributes answers the request. *)
Fixpoint put_u32s (l : list (Z * Z)) (m : nl_msg) : Z * nl_msg :=
  match l with
  | [] => (0, m)
  | (t, v) :: l => let '(ret, m) := u_put_u32 m t v in if negb (ret =? 0) then (ret, m) else put_u32s l m
  end.
Definition answer_request (cmd seq : Z) (l : list (Z * Z)) : M Z :=
  fid ← gets gnl_fid; '(ret, msg) ← prepare_response_message cmd fid seq;
  if negb (ret =? 0) then mret ret else
  msg ← valid msg;
  let '(ret, msg) := put_u32s l msg in
  if negb (ret =? 0) then nlmsg_free;; mret ret else send_request_message msg false.

Definition need (req : nlmsg) (t : Z) (k : list Z -> M Z) : M Z :=
  match nlmsg_find_attr req t with None => mret (- EBADMSG) | Some a => k a end.
Definition need_u32 (req : nlmsg) (t : Z) (k : Z -> M Z) : M Z := need req t (fun a => v ← valid (nla_get_u32 a); k v).
Definition call (f : callbacks D -> option (D -> D)) : M unit :=
  c ← gets cbs; match f c with None => mret tt | Some g => modify (fun u => set_app (g (app u)) u) end.
Definition call_out {A} (f : callbacks D -> option (A -> D -> A * D)) (a : A) : M A :=
  c ← gets cbs;
  match f c with
  | None => mret a
  | Some g => d ← gets app; let '(a, d) := g a d in modify (set_app d);; mret a
  end.

Definition handle_npm_check (req : nlmsg) : M Z :=
  need_u32 req DIRECTOR_A_PID (fun pid => need_u32 req DIRECTOR_A_UID (fun uid =>
  need_u32 req DIRECTOR_A_TASK_TYPE (fun t => need req DIRECTOR_A_NAME (fun name =>
  let rusage := nlmsg_find_attr req DIRECTOR_A_RUSAGE in
  '(decision, decision_value) ←
     call_out (fun c => (fun f => f s32[pid] uid (if t =? 1 then 1 else 0) name rusage) <$> npm_callback c) (DO_NOT_MIGRATE, -1);
  answer_request DIRECTOR_NPM_RESPONSE (nlmsg_seq req) [(DIRECTOR_A_DECISION, decision); (DIRECTOR_A_DECISION_VALUE, decision_value)])))).

(** The strings go into the array from its start; more strings than announced leave it. *)
Fixpoint fill_chars (nested_type : Z) (l : list (Z * list Z)) (i : nat) (res : list cell) : option (list cell) :=
  match l with
  | [] => Some res
  | (t, p) :: l =>
      if t =? nested_type then
        if (i <? length res)%nat then fill_chars nested_type l (S i) (<[i := Str p]> res) else None
      else fill_chars nested_type l i res
  end.
Definition parse_chars (req : nlmsg) (type nested_type : Z) : M (option (list cell)) :=
  match nlmsg_find_attr req type with
  | None => mret None
  | Some nla =>
      match attr_find DIRECTOR_A_LENGTH (nla_attrs nla) with
      | None => mret None
      | Some head =>
          v ← valid (nla_get_u32 head); let length := s32[v] in
          g ← u_ask;
          if negb (ua_ok g) then mret None else
          count_live 1;;
          if length <? 0 then fault else
          res ← valid (fill_chars nested_type (nla_attrs nla) 0 (replicate (Z.to_nat length) Undef ++ [Null]));
          mret (Some res)
      end
  end.
Definition handle_npm_check_full (req : nlmsg) : M Z :=
  need_u32 req DIRECTOR_A_PID (fun pid => need_u32 req DIRECTOR_A_UID (fun uid =>
  need_u32 req DIRECTOR_A_TASK_TYPE (fun t => need req DIRECTOR_A_NAME (fun name =>
  args ← parse_chars req DIRECTOR_A_ARGS DIRECTOR_A_ARG;
  match args with
  | None => mret (- EBADMSG)
  | Some args =>
      envp ← parse_chars req DIRECTOR_A_ENVS DIRECTOR_A_ENV;
      match envp with
      | None => count_live (-1);; mret (- EBADMSG)
      | Some envp =>
          '(decision, decision_value) ←
             call_out (fun c => (fun f => f s32[pid] uid (if t =? 1 then 1 else 0) name args envp) <$> npm_full_callback c) (DO_NOT_MIGRATE, -1);
          ret ← answer_request DIRECTOR_NPM_RESPONSE (nlmsg_seq req)
                  [(DIRECTOR_A_DECISION, decision); (DIRECTOR_A_DECISION_VALUE, decision_value)];
          count_live (-2);; mret ret
      end
  end)))).

(** The copy of the authentication data is not freed. *)
Definition handle_node_connected (req : nlmsg) : M Z :=
  need_u32 req DIRECTOR_A_INDEX (fun slot_index => need req DIRECTOR_A_ADDRESS (fun address =>
  need_u32 req DIRECTOR_A_LENGTH (fun n => let auth_data_size := s32[n] in
  let rest auth_data :=
    accept ← call_out (fun c => (fun f => f address s32[slot_index] auth_data_size auth_data) <$> node_connected_callback c) 1;
    answer_request DIRECTOR_NODE_CONNECT_RESPONSE (nlmsg_seq req) [(DIRECTOR_A_DECISION, accept)] in
  if 0 <? auth_data_size then
    need req DIRECTOR_A_AUTH_DATA (fun a => g ← u_ask; if negb (ua_ok g) then fault else count_live 1;; rest (Some a))
  else rest None))).

Definition handle_node_disconnected (req : nlmsg) : M Z :=
  need_u32 req DIRECTOR_A_INDEX (fun slot_index => need_u32 req DIRECTOR_A_SLOT_TYPE (fun slot_type =>
  need_u32 req DIRECTOR_A_REASON (fun reason =>
  call (fun c => (fun f => f s32[slot_index] s32[slot_type] s32[reason]) <$> node_disconnected_callback c);;
  answer_request DIRECTOR_ACK (nlmsg_seq req) []))).

Definition handle_immigration_request (req : nlmsg) : M Z :=
  need_u32 req DIRECTOR_A_UID (fun uid => need_u32 req DIRECTOR_A_INDEX (fun slot_index => need req DIRECTOR_A_NAME (fun name =>
  accept ← call_out (fun c => (fun f => f s32[uid] s32[slot_index] name) <$> immigration_request_callback c) 1;
  answer_request DIRECTOR_IMMIGRATION_REQUEST_RESPONSE (nlmsg_seq req) [(DIRECTOR_A_DECISION, accept)]))).

Definition handle_immigration_confirmed (req : nlmsg) : M Z :=
  need_u32 req DIRECTOR_A_UID (fun uid => need_u32 req DIRECTOR_A_INDEX (fun slot_index => need req DIRECTOR_A_NAME (fun name =>
  need_u32 req DIRECTOR_A_PID (fun local_pid => need_u32 req DIRECTOR_A_REMOTE_PID (fun remote_pid =>
  call (fun c => (fun f => f s32[uid] s32[slot_index] name s32[local_pid] s32[remote_pid]) <$> immigration_confirmed_callback c);;
  answer_request DIRECTOR_ACK (nlmsg_seq req) []))))).

Definition handle_task_exitted (req : nlmsg) : M Z :=
  need_u32 req DIRECTOR_A_PID (fun pid => need_u32 req DIRECTOR_A_EXIT_CODE (fun exit_code => need req DIRECTOR_A_RUSAGE (fun rusage =>
  call (fun c => (fun f => f s32[pid] s32[exit_code] rusage) <$> task_exitted_callback c);;
  answer_request DIRECTOR_ACK (nlmsg_seq req) []))).
Definition handle_task_forked (req : nlmsg) : M Z :=
  need_u32 req DIRECTOR_A_PID (fun pid => need_u32 req DIRECTOR_A_PPID (fun ppid =>
  call (fun c => (fun f => f s32[pid] s32[ppid]) <$> task_forked_callback c);;
  answer_request DIRECTOR_ACK (nlmsg_seq req) [])).
Definition handle_migrated_home (req : nlmsg) : M Z :=
  need_u32 req DIRECTOR_A_PID (fun pid =>
  call (fun c => (fun f => f s32[pid]) <$> migrated_home_callback c);; answer_request DIRECTOR_ACK (nlmsg_seq req) []).
Definition handle_emigration_failed (req : nlmsg) : M Z :=
  need_u32 req DIRECTOR_A_PID (fun pid =>
  call (fun c => (fun f => f s32[pid]) <$> emigration_failed_callback c);; answer_request DIRECTOR_ACK (nlmsg_seq req) []).

(** The answer has the type of an answer to a connection. *)
Definition handle_generic_user_message (req : nlmsg) : M Z :=
  need_u32 req DIRECTOR_A_INDEX (fun node_idx => need_u32 req DIRECTOR_A_SLOT_INDEX (fun slot_index =>
  need_u32 req DIRECTOR_A_SLOT_TYPE (fun slot_type => need_u32 req DIRECTOR_A_LENGTH (fun n => let user_data_size := s32[n] in
  let rest user_data :=
    call (fun c => (fun f => f s32[node_idx] s32[slot_type] s32[slot_index] user_data_size user_data) <$> generic_user_message_callback c);;
    answer_request DIRECTOR_NODE_CONNECT_RESPONSE (nlmsg_seq req) [] in
  if 0 <? user_data_size then need req DIRECTOR_A_USER_DATA (fun a => rest (Some a)) else rest None)))).

(** ** director-api.c *)

Definition ans_mapping : list Z :=
  [0; 0; 0; DIRECTOR_NPM_RESPONSE; DIRECTOR_NPM_RESPONSE; DIRECTOR_NODE_CONNECT_RESPONSE; DIRECTOR_ACK;
   DIRECTOR_IMMIGRATION_REQUEST_RESPONSE; DIRECTOR_ACK; DIRECTOR_ACK; DIRECTOR_ACK; DIRECTOR_ACK; DIRECTOR_ACK; DIRECTOR_ACK; 0; 0].
(** The arrays have [DIRECTOR_MSG_MAX] entries; a command behind them reads other memory. *)
Definition at_cmd {A} (l : list A) (cmd : Z) : M A := valid (l !! Z.to_nat cmd).

Definition process_handle_error (err : Z) (msg : nlmsg) : M unit :=
  cmd ← valid (genl_cmd msg); ans ← at_cmd ans_mapping cmd; send_error_message err (nlmsg_seq msg) ans.
Definition run_handler (h : cmd_handler) (msg : nlmsg) : M Z :=
  match h with
  | Handle_npm_check => handle_npm_check msg
  | Handle_npm_check_full => handle_npm_check_full msg
  | Handle_node_connected => handle_node_connected msg
  | Handle_node_disconnected => handle_node_disconnected msg
  | Handle_immigration_request => handle_immigration_request msg
  | Handle_immigration_confirmed => handle_immigration_confirmed msg
  | Handle_task_exitted => handle_task_exitted msg
  | Handle_task_forked => handle_task_forked msg
  | Handle_migrated_home => handle_migrated_home msg
  | Handle_emigration_failed => handle_emigration_failed msg
  | Handle_generic_user_message => handle_generic_user_message msg
  end.
Definition genl_cmd_dispatch (msg : nlmsg) : M Z :=
  cmd ← valid (genl_cmd msg); hs ← gets handlers; h ← at_cmd hs cmd;
  match h with Some h => run_handler h msg | None => mret (- EINVAL) end.

Definition NO_RESPONSE_CODE : Z := -324888.
Definition get_message_response_code (msg : nlmsg) : Z := if nlmsg_type msg =? NLMSG_ERROR then nlmsg_error msg else NO_RESPONSE_CODE.
Definition is_ack_message (msg : nlmsg) : bool := get_message_response_code msg =? 0.

Definition handle_incoming_message (msg : nlmsg) : M Z :=
  fid ← gets gnl_fid;
  res ← (if nlmsg_type msg =? NLMSG_ERROR then mret (nlmsg_error msg)
         else if negb (nlmsg_type msg =? fid) then mret 0
         else res ← genl_cmd_dispatch msg; when (negb (res =? 0)) (process_handle_error res msg);; mret res);
  nlmsg_free;; mret res.

(** [fuel] counts the rounds; each reads one message. *)
Fixpoint run_processing_callback (fuel recv_fuel : nat) (msg_peek allow_block : bool) : M unit :=
  match fuel with
  | O => halt Running
  | S fuel =>
      q ← gets inbox;
      if negb allow_block && bool_decide (q = []) then mret tt else
      '(res, msg) ← read_message recv_fuel msg_peek;
      if negb (res =? 0) then
        if res =? - EINTR then mret tt else run_processing_callback fuel recv_fuel msg_peek allow_block
      else msg ← valid msg; handle_incoming_message msg;; run_processing_callback fuel recv_fuel msg_peek allow_block
  end.

(** ** Calls to the kernel *)

(** [kernel]: what the kernel does with a message while it is sent. *)
Definition free_msg (m : option nlmsg) : M unit := match m with Some _ => nlmsg_free | None => mret tt end.

(** The loop that waits for the confirmation handles other messages in between. *)
Fixpoint await_ack (fuel recv_fuel : nat) (msg_peek : bool) (ans_msg : nlmsg) : M Z :=
  match fuel with
  | O => halt Running
  | S fuel =>
      if is_ack_message ans_msg then nlmsg_free;; mret 0 else
      handle_incoming_message ans_msg;;
      '(ret_val, ans_msg) ← read_message recv_fuel msg_peek;
      if negb (ret_val =? 0) then free_msg ans_msg;; mret ret_val
      else ans_msg ← valid ans_msg; await_ack fuel recv_fuel msg_peek ans_msg
  end.
Definition send_user_message (kernel : M unit) (fuel recv_fuel : nat) (msg_peek : bool)
    (target_slot_type target_slot_index data_length : Z) (data : list Z) : M Z :=
  fid ← gets gnl_fid; '(ret_val, msg) ← prepare_request_message DIRECTOR_SEND_GENERIC_USER_MESSAGE fid;
  if negb (ret_val =? 0) then mret ret_val else
  msg ← valid msg;
  let '(ret_val, msg) := put_u32s [(DIRECTOR_A_SLOT_TYPE, target_slot_type); (DIRECTOR_A_SLOT_INDEX, target_slot_index);
                                   (DIRECTOR_A_LENGTH, data_length)] msg in
  if negb (ret_val =? 0) then mret ret_val else
  let '(ret_val, msg) := u_put msg DIRECTOR_A_USER_DATA (ztake data_length data) in
  if negb (ret_val =? 0) then mret ret_val else
  ret_val ← send_request_message msg true;
  if negb (ret_val =? 0) then mret ret_val else
  kernel;;
  '(ret_val, ans_msg) ← read_message recv_fuel msg_peek;
  if negb (ret_val =? 0) then free_msg ans_msg;; mret ret_val
  else ans_msg ← valid ans_msg; await_ack fuel recv_fuel msg_peek ans_msg.

Definition register_pid (kernel : M unit) (recv_fuel : nat) (msg_peek : bool) (pid : Z) : M Z :=
  fid ← gets gnl_fid; '(ret_val, msg) ← prepare_request_message DIRECTOR_REGISTER_PID fid;
  if negb (ret_val =? 0) then mret ret_val else
  msg ← valid msg;
  let '(ret_val, msg) := u_put_u32 msg DIRECTOR_A_PID pid in
  if negb (ret_val =? 0) then mret ret_val else
  ret_val ← send_request_message msg true;
  if negb (ret_val =? 0) then mret ret_val else
  kernel;;
  '(ret_val, ans_msg) ← read_message recv_fuel msg_peek; free_msg ans_msg;; mret ret_val.

Definition CTRL_CMD_NEWFAMILY : Z := 1.
Definition CTRL_CMD_GETFAMILY : Z := 3.
Definition CTRL_ATTR_FAMILY_ID : Z := 1.
Definition CTRL_ATTR_FAMILY_NAME : Z := 2.
Definition GENL_ID_CTRL : Z := 16.
Definition DIRECTOR_CHANNEL_NAME : list Z := [68; 73; 82; 69; 67; 84; 79; 82; 67; 72; 78; 76].

(** The error path closes the socket; the answer of a successful query is not freed. *)
Definition initialize_netlink_family (kernel : M unit) (recv_fuel : nat) (msg_peek : bool) : M Z :=
  let init_return ans := free_msg ans;; mret (- EINVAL) in
  c ← u_ask;
  if negb (ua_errno c =? 0) then init_return None else
  '(ret_val, msg) ← prepare_request_message CTRL_CMD_GETFAMILY GENL_ID_CTRL;
  if negb (ret_val =? 0) then init_return None else
  msg ← valid msg;
  let '(ret_val, msg) := u_put msg CTRL_ATTR_FAMILY_NAME (DIRECTOR_CHANNEL_NAME ++ [0]) in
  if negb (ret_val =? 0) then init_return None else
  ret_val ← send_request_message msg false;
  if negb (ret_val =? 0) then init_return None else
  kernel;;
  '(ret_val, ans_msg) ← read_message recv_fuel msg_peek;
  if negb (ret_val =? 0) then init_return None else
  a ← valid ans_msg; cmd ← valid (genl_cmd a);
  if negb (cmd =? CTRL_CMD_NEWFAMILY) then init_return ans_msg else
  match nlmsg_find_attr a CTRL_ATTR_FAMILY_ID with
  | None => init_return ans_msg
  | Some nla =>
      if zlen nla <? 2 then fault else
      let fid := le_value (ztake 2 nla) in
      h ← gets has_handle; modify (set_family fid h);;
      if fid =? 0 then init_return ans_msg else modify (set_family fid true);; mret 0
  end.

Definition installed : list (option cmd_handler) :=
  [None; None; None; Some Handle_npm_check; Some Handle_npm_check_full; Some Handle_node_connected; Some Handle_node_disconnected;
   Some Handle_immigration_request; Some Handle_immigration_confirmed; Some Handle_task_exitted; Some Handle_task_forked;
   Some Handle_generic_user_message; Some Handle_emigration_failed; Some Handle_migrated_home; None; None].
Definition initialize_director_api (kernel1 kernel2 : M unit) (recv_fuel : nat) (msg_peek : bool) (pid : Z) : M Z :=
  r ← initialize_netlink_family kernel1 recv_fuel msg_peek;
  if negb (r =? 0) then mret (- EINVAL) else
  r ← register_pid kernel2 recv_fuel msg_peek pid;
  if negb (r =? 0) then mret (- EBUSY) else
  modify (set_handlers installed);; mret 0.
End api.
