(* ===== verification/DirectorServe.v ===== *)
(** Requests of the kernel answered by the user-space library: what the requests contain, what the
    handlers make of them, and what the director's thread does in one go. *)

From stdpp Require Import gmap.
From S2P Require Import Prelude Effect Netlink Director DirectorMsg DirectorApi.

(** ** What the requests contain *)

Section requests.
Context `{Nla}.

(** [f] appends the attributes [l] to every buffer that has room for them. *)
Definition appends (f : sk_buff -> Z * sk_buff) (l : list (Z * list Z)) : Prop :=
  forall room d, size_of l <= room -> f (mk_skb room d None) = (0, mk_skb (room - size_of l) (d ++ encode l) None).

Lemma appends_put t p : appends (fun s => nla_put s t p) [(t, p)].
Proof.
  intros room d Hs. cbn [size_of] in *. rewrite put_run by lia. cbn [encode mbind list_bind fst snd]. rewrite app_nil_r, Z.add_0_r. done.
Qed.
Lemma appends_u32 t v : appends (fun s => nla_put_u32 s t v) [(t, le_bytes 4 v)].
Proof. apply appends_put. Qed.
Lemma appends_str t v : appends (fun s => nla_put_string s t v) [(t, v ++ [0])].
Proof. apply appends_put. Qed.
Lemma appends_none : appends put_none [].
Proof. intros room d _. unfold put_none. cbn. by rewrite app_nil_r, Z.sub_0_r. Qed.
Lemma appends_seq f g l k : appends f l -> appends g k -> appends (f ;> g) (l ++ k).
Proof.
  intros Hf Hg room d Hs. rewrite size_of_app in *. pose proof (size_of_nonneg l). pose proof (size_of_nonneg k).
  unfold put_then. rewrite Hf by lia. cbn [Z.eqb]. rewrite Hg by lia. rewrite encode_app, app_assoc. do 2 f_equal. lia.
Qed.

(** The strings of an array, with their number behind them. *)
Definition chars_attrs (nt : Z) (l : list (list Z)) : list (Z * list Z) :=
  ((fun c => (nt, c ++ [0])) <$> l) ++ [(DIRECTOR_A_LENGTH, le_bytes 4 (zlen l))].

Lemma put_chars_nested nt l room d k q :
  size_of (chars_attrs nt l) <= room ->
  (put_chars nt l ;> (fun s => nla_put_u32 s DIRECTOR_A_LENGTH (zlen l))) (mk_skb room d (Some (k, q))) =
  (0, mk_skb (room - size_of (chars_attrs nt l)) d (Some (k, q ++ encode (chars_attrs nt l)))).
Proof.
  unfold chars_attrs. generalize (zlen l) as n. intros n. revert room q. induction l as [|c l IH]; intros room q Hs;
    rewrite ?fmap_nil, ?fmap_cons, ?app_nil_l, <- ?app_comm_cons in *; cbn [size_of put_chars] in *.
  - unfold put_then, put_none. cbn [Z.eqb]. unfold nla_put_u32. rewrite put_nest_run by lia. cbn [encode mbind list_bind fst snd].
    rewrite app_nil_r, Z.add_0_r. done.
  - pose proof (size_of_nonneg (((fun c => (nt, c ++ [0])) <$> l) ++ [(DIRECTOR_A_LENGTH, le_bytes 4 n)])).
    unfold put_then at 1 2. unfold nla_put_string at 1. rewrite put_nest_run by lia. cbn [Z.eqb]. fold (put_then (put_chars nt l)).
    specialize (IH (room - nla_total_size (zlen (c ++ [0]))) (q ++ nla_bytes nt (c ++ [0])) ltac:(lia)).
    unfold put_then at 1 in IH. rewrite IH. cbn [encode mbind list_bind fst snd]. rewrite <- app_assoc. do 2 f_equal. lia.
Qed.
Lemma appends_chars l t nt : appends (put_char_array (Some l) t nt) [(t, encode (chars_attrs nt l))].
Proof.
  intros room d Hs. cbn [size_of] in *. rewrite zlen_encode, size_of_div4 in *. pose proof (size_of_nonneg (chars_attrs nt l)).
  unfold put_char_array, nla_nest_start. cbn [sk_room sk_data]. rewrite (proj2 (Z.ltb_ge _ _)) by lia.
  rewrite put_chars_nested by lia. cbn [Z.eqb nla_nest_end sk_nest sk_room sk_data app encode mbind list_bind fst snd].
  unfold nla_nest_end. cbn [sk_nest sk_room sk_data]. rewrite app_nil_r. do 2 f_equal. lia.
Qed.
End requests.
Create HintDb appends discriminated.
#[export] Hint Resolve appends_put appends_u32 appends_str appends_none appends_seq appends_chars : appends.

(** ** What the handlers do *)

Section handlers.
Context `{Nla} {D : Type}.
Implicit Type u : api D.

(** The libraries do not fail, and a message has room for an answer. *)
Definition willing u : Prop :=
  handlers u = installed /\
  forall n, ua_ok (u_grants u n) = true /\ ua_errno (u_grants u n) = 0 /\ 0 < ua_send (u_grants u n) /\ 64 <= ua_room (u_grants u n) <= 65535.

Definition u32s (l : list (Z * Z)) : list (Z * list Z) := (fun a => (a.1, le_bytes 4 a.2)) <$> l.
Definition response (fid cmd seq : Z) (l : list (Z * Z)) : nlmsg := mk_nlmsg fid seq false ([cmd; 1; 0; 0] ++ encode (u32s l)).
(** The director's state is [d], a response was sent, [k] objects more are allocated. *)
Definition after u (d : D) (k : Z) (r : nlmsg) (t : nat) : api D :=
  mk_api (gnl_fid u) (has_handle u) (handlers u) (cbs u) d (inbox u) (sent u ++ [r]) (live u + k) (h_seq_next u) (u_grants u) t.

Lemma size_u32s l : size_of (u32s l) = 8 * zlen l.
Proof.
  induction l as [|[t v] l IH]; [done|]. unfold u32s in *. rewrite fmap_cons. cbn [size_of fst snd]. rewrite IH, zlen_cons, zlen_le_bytes.
  change (nla_total_size (Z.of_nat 4)) with 8. lia.
Qed.
Lemma put_u32s_run l ty seq room d :
  8 * zlen l <= room ->
  put_u32s l (mk_msg ty seq (mk_skb room d None)) = (0, mk_msg ty seq (mk_skb (room - 8 * zlen l) (d ++ encode (u32s l)) None)).
Proof.
  revert room d. induction l as [|[t v] l IH]; intros room d Hr.
  - cbn. by rewrite app_nil_r, Z.sub_0_r.
  - rewrite zlen_cons in *. pose proof (zlen_nonneg l). cbn [put_u32s]. unfold u_put_u32, u_put. cbn [b_buf b_type b_seq].
    assert (Hs : nla_total_size (zlen (le_bytes 4 v)) = 8) by by rewrite zlen_le_bytes.
    rewrite put_run by lia. rewrite Hs. cbn [Z.eqb negb]. rewrite IH by lia. unfold u32s. rewrite fmap_cons.
    cbn [encode mbind list_bind fst snd]. rewrite app_assoc. do 3 f_equal. lia.
Qed.

Lemma answer_request_run u cmd seq l :
  willing u -> seq <> 0 -> 0 <= cmd < 256 -> zlen l <= 5 ->
  answer_request cmd seq l u = Ret 0 (after u (app u) 0 (response (gnl_fid u) cmd seq l) (S (S (u_tick u)))).
Proof.
  intros [_ Hw] Hs Hc Hl. destruct (Hw (u_tick u)) as (Hok & _ & _ & Hr). destruct (Hw (S (u_tick u))) as (_ & _ & Hsend & _).
  unfold answer_request, prepare_response_message, prepare_request_message, u_ask, count_live. run. rewrite Hok. cbn [negb].
  rewrite (proj2 (Z.ltb_ge _ _)) by lia. cbn [Z.eqb negb b_type b_buf].
  rewrite (uwrap_id 8) by (unfold urange; lia). rewrite put_u32s_run by lia. cbn [Z.eqb negb].
  unfold send_request_message, nl_send_auto_complete, u_ask, nlmsg_free, count_live. run. cbn [b_seq b_type b_buf sk_data].
  rewrite (proj2 (Z.eqb_neq seq 0)) by done. cbn [u_grants u_tick set_live set_u_tick]. rewrite (proj2 (Z.ltb_lt _ _)) by lia.
  rewrite (proj2 (Z.leb_gt _ _)) by lia. unfold after, set_live, set_sent, set_u_tick, response. cbn. do 2 f_equal. lia.
Qed.

(** A request with the attributes [l]. *)
Definition request (fid cmd seq : Z) (l : list (Z * list Z)) : nlmsg := mk_nlmsg fid seq false ([cmd; 1; 0; 0] ++ encode l).
Lemma request_attr fid cmd seq l t : Forall attr_ok l -> nlmsg_find_attr (request fid cmd seq l) t = attr_find t l.
Proof. intros Hl. by apply find_attr_encode. Qed.
Lemma need_run fid cmd seq l t p (k : list Z -> eff (api D) Z) :
  Forall attr_ok l -> attr_find t l = Some p -> need (request fid cmd seq l) t k = k p.
Proof. intros Hl Hf. unfold need. by rewrite request_attr, Hf. Qed.
Lemma need_u32_run fid cmd seq l t v (k : Z -> eff (api D) Z) u :
  Forall attr_ok l -> attr_find t l = Some (le_bytes 4 v) -> need_u32 (request fid cmd seq l) t k u = k u32[v] u.
Proof. intros Hl Hf. unfold need_u32. erewrite need_run by done. run. by rewrite get_u32_le. Qed.

Lemma respond_app u d cmd seq l :
  willing u -> seq <> 0 -> 0 <= cmd < 256 -> zlen l <= 5 ->
  answer_request cmd seq l (set_app d u) = Ret 0 (after u d 0 (response (gnl_fid u) cmd seq l) (S (S (u_tick u)))).
Proof. intros. by rewrite answer_request_run. Qed.
(** What a callback does, which may be missing. *)
Definition out_of {A} (o : option (A -> D -> A * D)) (a : A) (d : D) : A * D := match o with None => (a, d) | Some g => g a d end.
Definition upd_of (o : option (D -> D)) (d : D) : D := match o with None => d | Some g => g d end.
Lemma call_out_run {A} (f : callbacks D -> option (A -> D -> A * D)) (a : A) u :
  call_out f a u = Ret (out_of (f (cbs u)) a (app u)).1 (set_app (out_of (f (cbs u)) a (app u)).2 u).
Proof. unfold call_out, out_of. run. destruct (f (cbs u)); [|by destruct u]. by destruct (_ a (app u)). Qed.
Lemma call_run (f : callbacks D -> option (D -> D)) u : call f u = Ret tt (set_app (upd_of (f (cbs u)) (app u)) u).
Proof. unfold call, upd_of. run. destruct (f (cbs u)); [done|by destruct u]. Qed.

(** The attributes of the requests. *)
Definition guest_flag (is_guest : Z) : Z := if is_guest =? 0 then 0 else 1.
Definition check_attrs (pid uid is_guest : Z) (name : list Z) (rusage : option (list Z)) : list (Z * list Z) :=
  [(DIRECTOR_A_PID, le_bytes 4 pid); (DIRECTOR_A_UID, le_bytes 4 uid); (DIRECTOR_A_TASK_TYPE, le_bytes 4 (guest_flag is_guest));
   (DIRECTOR_A_NAME, name ++ [0]); (DIRECTOR_A_LENGTH, le_bytes 4 (zlen name))] ++
  match rusage with Some r => [(DIRECTOR_A_RUSAGE, r)] | None => [] end.
Definition full_attrs (pid uid is_guest : Z) (name : list Z) (args envp : list (list Z)) : list (Z * list Z) :=
  [(DIRECTOR_A_PID, le_bytes 4 pid); (DIRECTOR_A_UID, le_bytes 4 uid); (DIRECTOR_A_TASK_TYPE, le_bytes 4 (guest_flag is_guest));
   (DIRECTOR_A_NAME, name ++ [0]); (DIRECTOR_A_ARGS, encode (chars_attrs DIRECTOR_A_ARG args));
   (DIRECTOR_A_ENVS, encode (chars_attrs DIRECTOR_A_ENV envp))].
Definition data_attr (t : Z) (data : list Z) : list (Z * list Z) := if 0 <? zlen data then [(t, data)] else [].
Definition connected_attrs (address : list Z) (slot_index : Z) (auth_data : list Z) : list (Z * list Z) :=
  [(DIRECTOR_A_ADDRESS, address ++ [0]); (DIRECTOR_A_INDEX, le_bytes 4 slot_index); (DIRECTOR_A_LENGTH, le_bytes 4 (zlen auth_data))] ++
  data_attr DIRECTOR_A_AUTH_DATA auth_data.
Definition disconnected_attrs (slot_index detached reason : Z) : list (Z * list Z) :=
  [(DIRECTOR_A_INDEX, le_bytes 4 slot_index); (DIRECTOR_A_SLOT_TYPE, le_bytes 4 (guest_flag detached)); (DIRECTOR_A_REASON, le_bytes 4 reason)].
Definition message_attrs (node_id is_core_node slot_index : Z) (user_data : list Z) : list (Z * list Z) :=
  [(DIRECTOR_A_INDEX, le_bytes 4 node_id); (DIRECTOR_A_SLOT_INDEX, le_bytes 4 slot_index); (DIRECTOR_A_SLOT_TYPE, le_bytes 4 is_core_node);
   (DIRECTOR_A_LENGTH, le_bytes 4 (zlen user_data))] ++ data_attr DIRECTOR_A_USER_DATA user_data.
Definition immigration_attrs (slot_index uid : Z) (name : list Z) : list (Z * list Z) :=
  [(DIRECTOR_A_UID, le_bytes 4 uid); (DIRECTOR_A_INDEX, le_bytes 4 slot_index); (DIRECTOR_A_NAME, name ++ [0])].
Definition confirmed_attrs (slot_index uid : Z) (name : list Z) (local_pid remote_pid : Z) : list (Z * list Z) :=
  [(DIRECTOR_A_UID, le_bytes 4 uid); (DIRECTOR_A_INDEX, le_bytes 4 slot_index); (DIRECTOR_A_NAME, name ++ [0]);
   (DIRECTOR_A_PID, le_bytes 4 local_pid); (DIRECTOR_A_REMOTE_PID, le_bytes 4 remote_pid)].
Definition exitted_attrs (pid exit_code : Z) (rusage : list Z) : list (Z * list Z) :=
  [(DIRECTOR_A_PID, le_bytes 4 pid); (DIRECTOR_A_EXIT_CODE, le_bytes 4 exit_code); (DIRECTOR_A_RUSAGE, rusage)].
Definition forked_attrs (pid ppid : Z) : list (Z * list Z) := [(DIRECTOR_A_PID, le_bytes 4 pid); (DIRECTOR_A_PPID, le_bytes 4 ppid)].
Definition pid_attrs (pid : Z) : list (Z * list Z) := [(DIRECTOR_A_PID, le_bytes 4 pid)].

(** A handler that answers a request with attributes [l]. *)
Definition answers (h : cmd_handler) (u : api D) (code : Z) (l : list (Z * list Z)) (cmd : Z) (r : list (Z * Z)) (d : D) (k : Z) (t : nat) : Prop :=
  forall seq, seq <> 0 -> Forall attr_ok l ->
  run_handler h (request (gnl_fid u) code seq l) u = Ret 0 (after u d k (response (gnl_fid u) cmd seq r) t).

Ltac ranges := rewrite ?swrap_uwrap, ?(swrap_id 32), ?(uwrap_id 32) by done.

Lemma answers_forked u pid ppid : willing u -> srange 32 pid -> srange 32 ppid ->
  answers Handle_task_forked u DIRECTOR_TASK_FORK (forked_attrs pid ppid) DIRECTOR_ACK []
    (upd_of ((fun f => f pid ppid) <$> task_forked_callback (cbs u)) (app u)) 0 (S (S (u_tick u))).
Proof.
  intros Hw Hp Hpp seq Hs Hl. cbn [run_handler]. unfold handle_task_forked. repeat erewrite need_u32_run by done.
  rewrite (bind_run _ _ _ _ _ (call_run _ _)). ranges. by apply respond_app.
Qed.
Lemma answers_home u pid : willing u -> srange 32 pid ->
  answers Handle_migrated_home u DIRECTOR_MIGRATED_HOME (pid_attrs pid) DIRECTOR_ACK []
    (upd_of ((fun f => f pid) <$> migrated_home_callback (cbs u)) (app u)) 0 (S (S (u_tick u))).
Proof.
  intros Hw Hp seq Hs Hl. cbn [run_handler]. unfold handle_migrated_home. repeat erewrite need_u32_run by done.
  rewrite (bind_run _ _ _ _ _ (call_run _ _)). ranges. by apply respond_app.
Qed.
Lemma answers_failed u pid : willing u -> srange 32 pid ->
  answers Handle_emigration_failed u DIRECTOR_EMIGRATION_FAILED (pid_attrs pid) DIRECTOR_ACK []
    (upd_of ((fun f => f pid) <$> emigration_failed_callback (cbs u)) (app u)) 0 (S (S (u_tick u))).
Proof.
  intros Hw Hp seq Hs Hl. cbn [run_handler]. unfold handle_emigration_failed. repeat erewrite need_u32_run by done.
  rewrite (bind_run _ _ _ _ _ (call_run _ _)). ranges. by apply respond_app.
Qed.
Lemma answers_exitted u pid code rusage : willing u -> srange 32 pid -> srange 32 code ->
  answers Handle_task_exitted u DIRECTOR_TASK_EXIT (exitted_attrs pid code rusage) DIRECTOR_ACK []
    (upd_of ((fun f => f pid code rusage) <$> task_exitted_callback (cbs u)) (app u)) 0 (S (S (u_tick u))).
Proof.
  intros Hw Hp Hc seq Hs Hl. cbn [run_handler]. unfold handle_task_exitted. repeat erewrite need_u32_run by done. erewrite need_run by done.
  rewrite (bind_run _ _ _ _ _ (call_run _ _)). ranges. by apply respond_app.
Qed.
Lemma answers_confirmed u slot uid name lp rp : willing u -> srange 32 slot -> srange 32 uid -> srange 32 lp -> srange 32 rp ->
  answers Handle_immigration_confirmed u DIRECTOR_IMMIGRATION_CONFIRMED (confirmed_attrs slot uid name lp rp) DIRECTOR_ACK []
    (upd_of ((fun f => f uid slot (name ++ [0]) lp rp) <$> immigration_confirmed_callback (cbs u)) (app u)) 0 (S (S (u_tick u))).
Proof.
  intros Hw Hs1 Hu Hl1 Hr seq Hs Hl. cbn [run_handler]. unfold handle_immigration_confirmed. repeat erewrite need_u32_run by done.
  erewrite need_run by done. repeat erewrite need_u32_run by done.
  rewrite (bind_run _ _ _ _ _ (call_run _ _)). ranges. by apply respond_app.
Qed.
Lemma answers_disconnected u slot detached reason : willing u -> srange 32 slot -> srange 32 reason ->
  answers Handle_node_disconnected u DIRECTOR_NODE_DISCONNECTED (disconnected_attrs slot detached reason) DIRECTOR_ACK []
    (upd_of ((fun f => f slot (guest_flag detached) reason) <$> node_disconnected_callback (cbs u)) (app u)) 0 (S (S (u_tick u))).
Proof.
  intros Hw Hs1 Hr seq Hs Hl. cbn [run_handler]. unfold handle_node_disconnected. repeat erewrite need_u32_run by done.
  rewrite (bind_run _ _ _ _ _ (call_run _ _)). assert (srange 32 (guest_flag detached)) by (unfold guest_flag; by case_match).
  ranges. by apply respond_app.
Qed.
Lemma answers_immigration u slot uid name : willing u -> srange 32 slot -> srange 32 uid ->
  let r := out_of ((fun f => f uid slot (name ++ [0])) <$> immigration_request_callback (cbs u)) 1 (app u) in
  answers Handle_immigration_request u DIRECTOR_IMMIGRATION_REQUEST (immigration_attrs slot uid name) DIRECTOR_IMMIGRATION_REQUEST_RESPONSE
    [(DIRECTOR_A_DECISION, r.1)] r.2 0 (S (S (u_tick u))).
Proof.
  intros Hw Hs1 Hu r seq Hs Hl. cbn [run_handler]. unfold handle_immigration_request. repeat erewrite need_u32_run by done.
  erewrite need_run by done. rewrite (bind_run _ _ _ _ _ (call_out_run _ _ _)). ranges. by apply respond_app.
Qed.

Lemma respond_live u d k t cmd seq l :
  willing u -> seq <> 0 -> 0 <= cmd < 256 -> zlen l <= 5 ->
  answer_request cmd seq l (set_app d (set_live (live u + k) (set_u_tick t u))) =
  Ret 0 (after u d k (response (gnl_fid u) cmd seq l) (S (S t))).
Proof. intros Hw Hs Hc Hl. rewrite answer_request_run by done. unfold after. cbn. by rewrite Z.add_0_r. Qed.
Lemma data_attr_size {A} (l : list A) : zlen l < 2 ^ 31 -> s32[u32[zlen l]] = zlen l.
Proof. intros Hl. pose proof (zlen_nonneg l). rewrite swrap_uwrap, swrap_id; unfold srange; lia. Qed.

Lemma answers_connected u address slot data : willing u -> srange 32 slot -> zlen data < 2 ^ 31 ->
  let has := 0 <? zlen data in
  let r := out_of ((fun f => f (address ++ [0]) slot (zlen data) (if has then Some data else None)) <$> node_connected_callback (cbs u)) 1 (app u) in
  answers Handle_node_connected u DIRECTOR_NODE_CONNECTED (connected_attrs address slot data) DIRECTOR_NODE_CONNECT_RESPONSE
    [(DIRECTOR_A_DECISION, r.1)] r.2 (if has then 1 else 0) (if has then S (S (S (u_tick u))) else S (S (u_tick u))).
Proof.
  intros Hw Hs1 Hd has r seq Hs Hl. cbn [run_handler]. unfold handle_node_connected. repeat erewrite need_u32_run by done.
  erewrite need_run by done. erewrite need_u32_run by done. rewrite data_attr_size by done. ranges. fold has.
  destruct has eqn:Eh; unfold has in Eh.
  - erewrite need_run; [|done|unfold connected_attrs, data_attr; rewrite Eh; done].
    unfold u_ask, count_live. run. rewrite (proj1 (proj2 Hw _)). cbn [negb].
    change (set_live _ _) with (set_live (live u + 1) (set_u_tick (S (u_tick u)) u)).
    rewrite call_out_run. by apply respond_live.
  - rewrite (bind_run _ _ _ _ _ (call_out_run _ _ _)). by apply respond_app.
Qed.
Lemma answers_message u node core slot data : willing u -> srange 32 node -> srange 32 core -> srange 32 slot -> zlen data < 2 ^ 31 ->
  answers Handle_generic_user_message u DIRECTOR_GENERIC_USER_MESSAGE (message_attrs node core slot data) DIRECTOR_NODE_CONNECT_RESPONSE []
    (upd_of ((fun f => f node core slot (zlen data) (if 0 <? zlen data then Some data else None)) <$> generic_user_message_callback (cbs u)) (app u))
    0 (S (S (u_tick u))).
Proof.
  intros Hw Hn Hc Hs1 Hd seq Hs Hl. cbn [run_handler]. unfold handle_generic_user_message. repeat erewrite need_u32_run by done.
  rewrite data_attr_size by done. ranges.
  destruct (0 <? zlen data) eqn:Eh; [erewrite need_run; [|done|unfold message_attrs, data_attr; rewrite Eh; done]|].
  all: rewrite (bind_run _ _ _ _ _ (call_run _ _)); by apply respond_app.
Qed.
Lemma answers_check u pid uid guest name rusage : willing u -> srange 32 pid -> urange 32 uid ->
  let r := out_of ((fun f => f pid uid (guest_flag guest) (name ++ [0]) rusage) <$> npm_callback (cbs u)) (DO_NOT_MIGRATE, -1) (app u) in
  answers Handle_npm_check u DIRECTOR_CHECK_NPM (check_attrs pid uid guest name rusage) DIRECTOR_NPM_RESPONSE
    [(DIRECTOR_A_DECISION, r.1.1); (DIRECTOR_A_DECISION_VALUE, r.1.2)] r.2 0 (S (S (u_tick u))).
Proof.
  intros Hw Hp Hu r seq Hs Hl. cbn [run_handler]. unfold handle_npm_check. repeat erewrite need_u32_run by done.
  erewrite need_run by done. rewrite request_attr by done.
  replace (attr_find DIRECTOR_A_RUSAGE _) with rusage by by destruct rusage.
  rewrite (bind_run _ _ _ _ _ (call_out_run _ _ _)). ranges.
  replace (if u32[guest_flag guest] =? 1 then 1 else 0) with (guest_flag guest) by (unfold guest_flag; by case_match).
  fold r. destruct r as [[a b] d]. by apply respond_app.
Qed.

(** ** The arrays of strings *)

Definition cells (l : list (list Z)) : list cell := ((fun c => Str (c ++ [0])) <$> l) ++ [Null].
Lemma fill_chars_from nt l p done :
  nt <> DIRECTOR_A_LENGTH ->
  fill_chars nt (((fun c => (nt, c ++ [0])) <$> l) ++ [(DIRECTOR_A_LENGTH, p)]) (length done) (done ++ replicate (length l) Undef ++ [Null]) =
  Some (done ++ cells l).
Proof.
  intros Hn. unfold cells. revert done. induction l as [|c l IH]; intros done; rewrite ?fmap_nil, ?fmap_cons, ?app_nil_l, <- ?app_comm_cons.
  - cbn [fill_chars]. by rewrite (proj2 (Z.eqb_neq _ _)) by done.
  - cbn [fill_chars length replicate]. rewrite Z.eqb_refl. rewrite (proj2 (Nat.ltb_lt _ _)).
    2: { rewrite length_app. simpl. lia. }
    rewrite <- app_comm_cons, insert_app_r_alt, Nat.sub_diag by done. cbn [insert list_insert].
    replace (done ++ Str (c ++ [0]) :: replicate (length l) Undef ++ [Null])
      with ((done ++ [Str (c ++ [0])]) ++ replicate (length l) Undef ++ [Null]) by by rewrite <- app_assoc.
    replace (S (length done)) with (length (done ++ [Str (c ++ [0])])) by (rewrite length_app; simpl; lia).
    rewrite IH. by rewrite <- app_assoc.
Qed.
Lemma chars_length nt l : nt <> DIRECTOR_A_LENGTH -> attr_find DIRECTOR_A_LENGTH (chars_attrs nt l) = Some (le_bytes 4 (zlen l)).
Proof.
  intros Hn. unfold chars_attrs. generalize (zlen l) as n. intros n. induction l as [|c l IH]; [done|]. rewrite fmap_cons, <- app_comm_cons.
  cbn [attr_find]. by rewrite (proj2 (Z.eqb_neq _ _)) by done.
Qed.
Lemma chars_size nt l : zlen l <= size_of (chars_attrs nt l).
Proof.
  unfold chars_attrs. rewrite size_of_app. pose proof (size_of_nonneg [(DIRECTOR_A_LENGTH, le_bytes 4 (zlen l))]).
  enough (zlen l <= size_of ((fun c => (nt, c ++ [0])) <$> l)) by lia. clear. induction l as [|c l IH]; [done|].
  rewrite fmap_cons, zlen_cons. cbn [size_of]. pose proof (zlen_nonneg (c ++ [0])). pose proof (total_size_bounds (zlen (c ++ [0]))). lia.
Qed.
Lemma chars_ok nt l : 0 <= nt < 2 ^ 14 -> size_of (chars_attrs nt l) <= 65531 -> Forall attr_ok (chars_attrs nt l).
Proof.
  intros Hn Hs. apply (attrs_fit _ 65531); [done|lia|]. unfold chars_attrs. apply Forall_app. split; [|by repeat constructor].
  apply Forall_fmap, Forall_true. intros c. exact Hn.
Qed.
Lemma parse_chars_run u fid code seq l t nt c :
  willing u -> Forall attr_ok l -> attr_find t l = Some (encode (chars_attrs nt c)) -> 0 <= nt < 2 ^ 14 -> nt <> DIRECTOR_A_LENGTH ->
  zlen (encode (chars_attrs nt c)) <= 65531 ->
  parse_chars (request fid code seq l) t nt u = Ret (Some (cells c)) (set_live (live u + 1) (set_u_tick (S (u_tick u)) u)).
Proof.
  intros Hw Hl Hf Hn Hne Hz. rewrite zlen_encode in Hz. pose proof (chars_size nt c). pose proof (zlen_nonneg c).
  unfold parse_chars. rewrite request_attr, Hf, attrs_encode by (done || by apply chars_ok). rewrite chars_length, get_u32_le by done.
  unfold u_ask, count_live. run. rewrite (proj1 (proj2 Hw _)). cbn [negb]. rewrite data_attr_size by lia.
  rewrite (proj2 (Z.ltb_ge _ 0)) by lia. unfold zlen at 1. rewrite Nat2Z.id.
  unfold chars_attrs. pose proof (fill_chars_from nt c (le_bytes 4 (zlen c)) [] Hne) as Hfill. rewrite !app_nil_l in Hfill.
  cbn [length] in Hfill. by rewrite Hfill.
Qed.

Lemma answers_full u pid uid guest name args envp : willing u -> srange 32 pid -> urange 32 uid ->
  let r := out_of ((fun f => f pid uid (guest_flag guest) (name ++ [0]) (cells args) (cells envp)) <$> npm_full_callback (cbs u))
             (DO_NOT_MIGRATE, -1) (app u) in
  answers Handle_npm_check_full u DIRECTOR_CHECK_FULL_NPM (full_attrs pid uid guest name args envp) DIRECTOR_NPM_RESPONSE
    [(DIRECTOR_A_DECISION, r.1.1); (DIRECTOR_A_DECISION_VALUE, r.1.2)] r.2 0 (S (S (S (S (u_tick u))))).
Proof.
  intros Hw Hp Hu r seq Hs Hl. cbn [run_handler]. unfold handle_npm_check_full. repeat erewrite need_u32_run by done.
  erewrite need_run by done. pose proof Hl as Hall. unfold full_attrs in Hall. apply Forall_cons in Hall as [_ Hall].
  do 3 apply Forall_cons in Hall as [_ Hall]. apply Forall_cons in Hall as [[_ Ha] Hall]. apply Forall_cons in Hall as [[_ He] _].
  cbn [snd] in Ha, He.
  rewrite (bind_run _ _ _ _ _ (parse_chars_run u (gnl_fid u) _ _ _ DIRECTOR_A_ARGS DIRECTOR_A_ARG args Hw Hl eq_refl ltac:(done) ltac:(done) Ha)). cbn iota.
  set (u1 := set_live _ _). assert (Hw1 : willing u1) by exact Hw.
  rewrite (bind_run _ _ _ _ _ (parse_chars_run u1 (gnl_fid u) _ _ _ DIRECTOR_A_ENVS DIRECTOR_A_ENV envp Hw1 Hl eq_refl ltac:(done) ltac:(done) He)). cbn iota.
  rewrite (bind_run _ _ _ _ _ (call_out_run _ _ _)). ranges.
  replace (if u32[guest_flag guest] =? 1 then 1 else 0) with (guest_flag guest) by (unfold guest_flag; by case_match).
  change (out_of _ _ _) with r. destruct r as [[a b] d] eqn:Er. cbn [fst snd].
  erewrite bind_run; [|apply (respond_live u1); done]. unfold count_live. run. unfold after, set_live, u1. cbn. do 2 f_equal. lia.
Qed.
End handlers.
