(* ===== verification/DirectorCall.v ===== *)
(** Director and kernel together: a request of the kernel is answered by the callbacks of the
    director, over both sides of the netlink channel. *)

From stdpp Require Import gmap.
From S2P Require Import Prelude Effect Netlink Director DirectorMsg DirectorApi DirectorServe.

(** ** The director's thread *)

Section serve.
Context `{Nla} {D : Type}.
Abbreviation M := (eff (director (api D))).

Definition lift_user {A} (m : eff (api D) A) : M A := fun w =>
  match m (d_user w) with
  | Ret a u => Ret a (set_user u w)
  | Stop s u => Stop s (set_user u w)
  | Fault => Fault
  end.
(** Another thread, which may go to sleep. *)
Definition background {A} (m : M A) : M unit := fun w =>
  match m w with
  | Ret _ w => Ret tt w
  | Stop Gone w => Ret tt w
  | Stop Running w => Stop Running w
  | Fault => Fault
  end.
Fixpoint deliver_all (l : list nlmsg) : M unit := match l with [] => mret tt | m :: l => genl_rcv m;; deliver_all l end.

(** The director reads what arrived, and the kernel receives what it sends. *)
Definition serve (fuel recv_fuel : nat) (msg_peek : bool) : M unit :=
  q ← gets to_user; modify (set_to_user (fun _ => []));;
  modify (fun w => set_user (set_inbox (inbox (d_user w) ++ q) (d_user w)) w);;
  background (lift_user (run_processing_callback fuel recv_fuel msg_peek false));;
  l ← gets (fun w => sent (d_user w)); modify (fun w => set_user (set_sent [] (d_user w)) w);;
  deliver_all l.
(** A caller that is woken by the director, with time left. *)
Definition served (fuel recv_fuel : nat) (msg_peek : bool) (left : Z) : wakeup (api D) :=
  mk_wakeup (serve fuel recv_fuel msg_peek) false left (mret tt).
End serve.

(** ** Reading *)

Section reading.
Context `{Nla} {D : Type}.
Implicit Type u : api D.

(** Ten pages, or with peeking any size that netlink has. *)
Definition fits (msg_peek : bool) (m : nlmsg) : Prop :=
  NLMSG_HDRLEN + zlen (nl_data m) <= if msg_peek then 81920 else 40960.

Lemma recv_step u (fuel : nat) (peek : bool) (len : Z) (m : nlmsg) (q : list nlmsg) :
  willing u -> inbox u = m :: q ->
  let n := NLMSG_HDRLEN + zlen (nl_data m) in
  let u' := if peek then set_u_tick (S (u_tick u)) u else set_inbox q (set_u_tick (S (u_tick u)) u) in
  recv_loop (S fuel) peek len u =
  if len <? n then recv_loop fuel peek (2 * len) u' else if peek then recv_loop fuel false len u' else Ret (n, Buf m) u'.
Proof.
  intros [_ Hw] Hq. cbn [recv_loop]. unfold u_ask. run. destruct (Hw (u_tick u)) as (_ & He & _). rewrite He. cbn [Z.eqb EINTR EAGAIN negb].
  change (inbox (set_u_tick _ u)) with (inbox u). rewrite Hq. destruct peek; by destruct (len <? _).
Qed.
Lemma recv_run u fuel msg_peek m q :
  willing u -> inbox u = m :: q -> fits msg_peek m ->
  exists t, nl_recv_fixed (S (S (S fuel))) msg_peek u = Ret (NLMSG_HDRLEN + zlen (nl_data m), Buf m) (set_inbox q (set_u_tick t u)).
Proof.
  intros Hw Hq Hf. unfold fits in Hf. unfold nl_recv_fixed. rewrite (recv_step _ _ _ _ m q) by done. cbv zeta.
  destruct msg_peek; [|rewrite (proj2 (Z.ltb_ge _ _)) by lia; by eexists].
  case_goal; (rewrite (recv_step _ _ _ _ m q) by done); cbv zeta; bool_hyps; rewrite (proj2 (Z.ltb_ge _ _)) by lia; [|by eexists].
  rewrite (recv_step _ _ _ _ m q) by done. cbv zeta. rewrite (proj2 (Z.ltb_ge _ _)) by lia. by eexists.
Qed.
Lemma ask_run u : u_ask u = Ret (u_grants u (u_tick u)) (set_u_tick (S (u_tick u)) u).
Proof. done. Qed.
Lemma read_run u fuel msg_peek m q :
  willing u -> inbox u = m :: q -> fits msg_peek m -> NLMSG_OVERRUN < nlmsg_type m ->
  exists t, read_message (S (S (S fuel))) msg_peek u = Ret (0, Some m) (set_live (live u + 1) (set_inbox q (set_u_tick t u))).
Proof.
  intros Hw Hq Hf Ht. unfold NLMSG_OVERRUN in Ht. destruct (proj2 Hw (u_tick u)) as (_ & He & _).
  destruct (recv_run (set_u_tick (S (u_tick u)) u) fuel msg_peek m q Hw Hq Hf) as [t Hr]. pose proof (zlen_nonneg (nl_data m)).
  exists (S t). unfold read_message. rewrite (bind_run _ _ _ _ _ (ask_run u)), He. cbn [Z.eqb negb]. rewrite (bind_run _ _ _ _ _ Hr). cbn beta iota.
  rewrite (proj2 (Z.leb_gt _ _)) by (unfold NLMSG_HDRLEN; lia). rewrite (bind_run _ _ _ _ _ (ask_run _)).
  change (u_grants (set_inbox _ _)) with (u_grants u). rewrite (proj1 (proj2 Hw _)).
  unfold count_live. run. by rewrite !(proj2 (Z.eqb_neq (nlmsg_type m) _)) by (unfold NLMSG_NOOP, NLMSG_ERROR, NLMSG_OVERRUN; lia).
Qed.

Lemma incoming_run u h code l cmd r d k t seq :
  handlers u = installed -> NLMSG_OVERRUN < gnl_fid u -> seq <> 0 -> Forall attr_ok l -> 0 <= code ->
  installed !! Z.to_nat code = Some (Some h) -> answers h u code l cmd r d k t ->
  handle_incoming_message (request (gnl_fid u) code seq l) u = Ret 0 (after u d (k - 1) (response (gnl_fid u) cmd seq r) t).
Proof.
  intros Hh0 Hfid Hseq Hl Hc Hh Hans. specialize (Hans seq Hseq Hl). unfold NLMSG_OVERRUN in Hfid. unfold handle_incoming_message.
  rewrite (bind_run (gets gnl_fid) _ u _ u eq_refl). cbn [nlmsg_type request].
  rewrite (proj2 (Z.eqb_neq _ NLMSG_ERROR)) by (unfold NLMSG_ERROR; lia). rewrite Z.eqb_refl. cbn [negb].
  assert (Hd : genl_cmd_dispatch (request (gnl_fid u) code seq l) u = Ret 0 (after u d k (response (gnl_fid u) cmd seq r) t)).
  { unfold genl_cmd_dispatch, at_cmd. run. cbn [genl_cmd request nl_data app list.head]. cbn. rewrite Hh0, Hh. exact Hans. }
  rewrite bind_assoc_run, (bind_run _ _ _ _ _ Hd). unfold nlmsg_free, count_live, after. run. cbn. unfold set_live. cbn. do 2 f_equal. lia.
Qed.

(** One request, read and answered. *)
Lemma process_one u h code l cmd r d k fuel recv_fuel msg_peek seq :
  willing u -> inbox u = [request (gnl_fid u) code seq l] -> NLMSG_OVERRUN < gnl_fid u -> seq <> 0 -> Forall attr_ok l ->
  fits msg_peek (request (gnl_fid u) code seq l) -> 0 <= code -> installed !! Z.to_nat code = Some (Some h) ->
  (forall u1, willing u1 -> cbs u1 = cbs u -> app u1 = app u -> exists t, answers h u1 code l cmd r d k t) ->
  exists t, run_processing_callback (S (S fuel)) (S (S (S recv_fuel))) msg_peek false u =
    Ret tt (after (set_inbox [] u) d k (response (gnl_fid u) cmd seq r) t).
Proof.
  intros Hw Hq Hfid Hseq Hl Hf Hc Hh Ha.
  destruct (read_run u recv_fuel msg_peek _ _ Hw Hq Hf Hfid) as [t1 Hr].
  set (u1 := set_live (live u + 1) (set_inbox [] (set_u_tick t1 u))) in *.
  destruct (Ha u1 Hw eq_refl eq_refl) as [t2 Hans]. exists t2.
  cbn [run_processing_callback]. rewrite (bind_run (gets inbox) _ u (inbox u) u eq_refl). rewrite Hq.
  rewrite (bool_decide_false (_ :: _ = [])) by done. cbn [negb andb]. rewrite (bind_run _ _ _ _ _ Hr). cbn [Z.eqb negb valid].
  rewrite (bind_run (mret _) _ u1 _ u1 eq_refl).
  rewrite (bind_run _ _ _ _ _ (incoming_run u1 h code l cmd r d k t2 seq (proj1 Hw) Hfid Hseq Hl Hc Hh Hans)).
  unfold after, u1. run. cbn. do 2 f_equal. lia.
Qed.
End reading.

(** ** A transaction *)

Section transaction.
Context `{Nla} {D : Type} (fuel recv_fuel : nat) (msg_peek : bool).
Implicit Type w : director (api D).
Abbreviation wake left := (served (D := D) (S (S fuel)) (S (S (S recv_fuel))) msg_peek left).

(** The state [w] with other transactions, buffers and counters. *)
Definition dstate w sq m l s q nx tk u : director (api D) :=
  mk_director (user_director_pid w) sq (family_id w) m l s (cmds w) (refs w) (tx_ops w) (user_handler w) (handled w) q nx (d_grants w) tk u.

(** A director is connected and idle, nothing fails, and the kernel's buffers have [room]. *)
Record ready (room : Z) w : Prop := {
  r_pid : user_director_pid w <> 0;
  r_grant n : dg_ok (d_grants w n) = true /\ dg_rc (d_grants w n) = 0 /\ dg_room (d_grants w n) = room;
  r_room : 20 <= room <= 65535;
  r_itx p : d_next w <= p -> itxs w !! p = None /\ p ∉ transactions w;
  r_skb p : d_next w <= p -> skbs w !! p = None;
  r_queue : to_user w = [];
  r_family : NLMSG_OVERRUN < family_id w;
  r_fid : gnl_fid (d_user w) = family_id w;
  r_willing : willing (d_user w);
  r_inbox : inbox (d_user w) = [];
  r_sent : sent (d_user w) = [];
  r_ops c : c = DIRECTOR_ACK \/ c = DIRECTOR_NPM_RESPONSE \/ c = DIRECTOR_NODE_CONNECT_RESPONSE \/ c = DIRECTOR_IMMIGRATION_REQUEST_RESPONSE ->
    find_op c (cmds w) = Some Do_tx
}.
Definition next_seq w : Z := u32[s32[director_seq w + 1]].

Lemma skb_at_run w a v : skbs w !! a = Some v -> skb_at a w = Ret v w.
Proof. intros Ha. unfold skb_at. run. by rewrite Ha. Qed.
Lemma itx_run w p x : itxs w !! p = Some x -> itx p w = Ret x w.
Proof. intros Hp. unfold itx. run. by rewrite Hp. Qed.
Lemma d_ask_run w : d_ask w = Ret (d_grants w (d_tick w)) (set_tick (S (d_tick w)) w).
Proof. done. Qed.
Lemma d_fresh_run w : d_fresh w = Ret (d_next w) (set_next (d_next w + 1) w).
Proof. done. Qed.
Lemma unicast_run w a n x :
  skbs w !! a = Some (n, x) -> dg_rc (d_grants w (d_tick w)) = 0 ->
  genlmsg_unicast a w = Ret 0 (set_to_user (fun l => l ++ [x]) (set_tick (S (d_tick w)) (set_skbs (delete a) w))).
Proof. intros Ha Hrc. unfold genlmsg_unicast. step (skb_at_run _ _ _ Ha). unfold d_ask. run. change (d_grants _ _) with (d_grants w (d_tick w)). by rewrite Hrc. Qed.
Lemma unicast_tx_run w a n x intr :
  skbs w !! a = Some (n, x) -> dg_ok (d_grants w (d_tick w)) = true -> dg_rc (d_grants w (S (d_tick w))) = 0 ->
  genlmsg_unicast_tx a (Some 0) intr w =
  Ret (0, Some (nlmsg_seq x))
    (dstate w (director_seq w) (<[d_next w := mk_itx (nlmsg_seq x) None None intr false]> (itxs w)) (d_next w :: transactions w)
       (delete a (skbs w)) (to_user w ++ [x]) (d_next w + 1) (S (S (d_tick w))) (d_user w)).
Proof.
  intros Ha Hok Hrc. unfold genlmsg_unicast_tx. step (d_ask_run w). rewrite Hok. cbn [negb]. step (d_fresh_run (set_tick (S (d_tick w)) w)).
  erewrite bind_run; [|by apply skb_at_run]. cbn iota. erewrite bind_run; [|done]. by erewrite bind_run; [|by eapply unicast_run].
Qed.
Lemma request_run {P} room w code (ops : msg_transaction_ops P) params intr l :
  ready room w -> appends (create_request ops params) l -> size_of l <= room - 20 ->
  msg_transaction_request code ops params intr w =
  Ret (0, next_seq w)
    (dstate w s32[director_seq w + 1] (<[d_next w + 1 := mk_itx (next_seq w) None None intr false]> (itxs w))
       (d_next w + 1 :: transactions w) (skbs w) [request (family_id w) code (next_seq w) l] (d_next w + 1 + 1) (S (S (S (d_tick w)))) (d_user w)).
Proof.
  intros Hr Ha Hs. destruct Hr as [Hpid Hg Hroom _ Hskb Hq _ _ _ _ _ _]. pose proof (Hskb _ (Z.le_refl _)) as Hn.
  pose proof (size_of_nonneg l).
  unfold msg_transaction_request, is_director_connected, d_ask, d_fresh, get_unique_seq. run.
  rewrite (proj2 (Z.eqb_neq _ 0)) by done. destruct (Hg (d_tick w)) as (Hok & _ & Hro). rewrite Hok. cbn [negb].
  change (dg_room _) with (dg_room (d_grants w (d_tick w))). rewrite Hro. rewrite (proj2 (Z.ltb_ge room 20)) by lia.
  rewrite Ha by lia. cbn [Z.ltb Z.compare sk_data].
  erewrite unicast_tx_run; [|apply lookup_insert_eq|apply (Hg (S (d_tick w)))|apply (Hg (S (S (d_tick w))))].
  cbn [Z.eqb negb default nlmsg_seq]. unfold dstate. cbn. rewrite insert_insert_eq, delete_insert_id, Hq by done. done.
Qed.

Lemma kfree_skb_run w a n x : skbs w !! a = Some (n, x) -> kfree_skb a w = Ret tt (set_skbs (if n =? 1 then delete a else insert a (n - 1, x)) w).
Proof. intros Ha. unfold kfree_skb. by step (skb_at_run _ _ _ Ha). Qed.
Lemma store_run w p x a n m :
  itxs w !! p = Some x -> skbs w !! a = Some (n, m) ->
  handler_store p a w =
  Ret 0 (dstate w (director_seq w) (<[p := mk_itx (tx_seq x) (Some a) (Some a) (interuptible x) true]> (itxs w)) (transactions w)
           (<[a := (n + 1, m)]> (skbs w)) (to_user w) (d_next w) (d_tick w) (d_user w)).
Proof.
  intros Hp Ha. unfold handler_store, skb_get. rewrite bind_assoc_run. step (skb_at_run _ _ _ Ha). cbn iota. erewrite bind_run; [|done].
  by erewrite bind_run; [|by apply itx_run].
Qed.
(** The response is stored in the transaction, which keeps its buffer. *)
Lemma rcv_run w p intr m seq cmd l :
  transactions w = p :: l -> itxs w !! p = Some (mk_itx seq None None intr false) -> nlmsg_seq m = seq -> nl_ack m = false ->
  genl_cmd m = Some cmd -> find_op cmd (cmds w) = Some Do_tx ->
  genl_rcv m w =
  Ret tt (dstate w (director_seq w) (<[p := mk_itx seq (Some (d_next w)) (Some (d_next w)) intr true]> (itxs w)) (transactions w)
            (<[d_next w := (1, m)]> (skbs w)) (to_user w) (d_next w + 1) (d_tick w) (d_user w)).
Proof.
  intros Hl Hp Hseq Hack Hc Hop. set (a := d_next w). set (w1 := set_skbs (insert a (1, m)) (set_next (a + 1) w)).
  assert (Ha : skbs w1 !! a = Some (1, m)) by apply lookup_insert_eq.
  assert (Hf : handler_find a w1 = Ret (Some p) w1).
  { unfold handler_find. step (skb_at_run _ _ _ Ha). unfold __find_itx. erewrite bind_run; [|done]. change (transactions w1) with (transactions w).
    rewrite Hl. cbn [find_itx]. erewrite bind_run; [|by apply itx_run]. cbn [tx_seq]. by rewrite Hseq, Z.eqb_refl. }
  unfold genl_rcv. step (d_fresh_run w). erewrite bind_run; [|done]. fold a w1. erewrite bind_run; [|done]. change (cmds w1) with (cmds w). rewrite Hc.
  erewrite bind_run; [|done]. rewrite Hop. cbn [run_doit]. unfold generic_message_handler. rewrite bind_assoc_run. step Hf.
  erewrite bind_run; [|by eapply store_run]. erewrite bind_run; [|eapply kfree_skb_run, lookup_insert_eq].
  cbn [Z.eqb negb orb]. rewrite Hack. cbn [when].
  transitivity (Ret (A := unit) tt (dstate w (director_seq w) (<[p := mk_itx seq (Some a) (Some a) intr true]> (itxs w)) (transactions w)
    (<[a := (1 + 1 - 1, m)]> (<[a := (1 + 1, m)]> (<[a := (1, m)]> (skbs w)))) (to_user w) (a + 1) (d_tick w) (d_user w))); [done|].
  by rewrite !insert_insert_eq.
Qed.

(** The user-space side when a request was answered. *)
Definition user_done (u : api D) (d : D) (k : Z) (t : nat) : api D :=
  mk_api (gnl_fid u) (has_handle u) (handlers u) (cbs u) d [] [] (live u + k) (h_seq_next u) (u_grants u) t.

(** Requests of code [code] with attributes [l] are answered with [r], the director's state is then
    [d], and [k] objects of the library are not freed. *)
Definition answered_by w (code : Z) (l : list (Z * list Z)) (cmd : Z) (r : list (Z * Z)) (d : D) (k : Z) : Prop :=
  0 <= code < 256 /\ exists h, installed !! Z.to_nat code = Some (Some h) /\
  forall u, willing u -> cbs u = cbs (d_user w) -> app u = app (d_user w) -> exists t, answers h u code l cmd r d k t.

Lemma serve_run room w w1 p intr seq code l cmd r d k tx :
  ready room w -> seq <> 0 -> Forall attr_ok l -> fits msg_peek (request (family_id w) code seq l) -> answered_by w code l cmd r d k ->
  find_op cmd (cmds w) = Some Do_tx -> d_user w1 = d_user w -> family_id w1 = family_id w -> cmds w1 = cmds w ->
  to_user w1 = [request (family_id w) code seq l] -> transactions w1 = p :: tx -> itxs w1 !! p = Some (mk_itx seq None None intr false) ->
  exists t, wk_act (wake 1) w1 =
    Ret tt (dstate w1 (director_seq w1) (<[p := mk_itx seq (Some (d_next w1)) (Some (d_next w1)) intr true]> (itxs w1)) (transactions w1)
              (<[d_next w1 := (1, response (family_id w) cmd seq r)]> (skbs w1)) [] (d_next w1 + 1) (d_tick w1) (user_done (d_user w) d k t)).
Proof.
  intros [_ _ _ _ _ _ Hfam Hfid Hw Hin Hsent _] Hseq Hl Hf (Hc & h & Hh & Ha) Hop Hu Hfw Hcm Hq Htx Hp.
  set (u0 := set_inbox [request (family_id w) code seq l] (d_user w)).
  destruct (process_one u0 h code l cmd r d k fuel recv_fuel msg_peek seq) as [t Hrun]; try done.
  1-2: unfold u0; cbn [inbox set_inbox gnl_fid]; by rewrite ?Hfid.
  1: lia.
  exists t. cbn [wk_act served]. unfold serve. erewrite bind_run; [|done]. erewrite bind_run; [|done]. rewrite Hq.
  erewrite bind_run; [|done]. cbn [d_user set_to_user]. rewrite Hu, Hin. cbn [List.app].
  erewrite bind_run; [|unfold background, lift_user; cbn [d_user set_user]; change (set_inbox _ (d_user w)) with u0; rewrite Hrun; reflexivity].
  erewrite bind_run; [|done]. erewrite bind_run; [|done]. cbn [d_user set_user sent after set_inbox u0]. unfold u0 at 1. cbn [sent set_inbox].
  rewrite Hsent. cbn [List.app deliver_all].
  erewrite bind_run; [|eapply (rcv_run _ p intr _ seq cmd tx); try done; cbn; by rewrite ?Hcm].
  by rewrite <- Hfid.
Qed.

Lemma find_head w p x tx : transactions w = p :: tx -> itxs w !! p = Some x -> __find_itx (tx_seq x) w = Ret (Some p) w.
Proof.
  intros Ht Hp. unfold __find_itx. erewrite bind_run; [|done]. rewrite Ht. cbn [find_itx]. erewrite bind_run; [|by apply itx_run].
  by rewrite Z.eqb_refl.
Qed.
(** The caller wakes up and takes the response. *)
Lemma read_response_run w w' p x x' tx k left a :
  transactions w = p :: tx -> itxs w !! p = Some x -> wk_act k w = Ret tt w' -> wk_left k = left -> wk_late k = mret tt ->
  itxs w' !! p = Some x' -> itx_done x' = true -> itx_skb x' = Some a -> itx_info x' = Some a -> 0 < left ->
  genlmsg_read_response k (tx_seq x) w =
  Ret (0, (Some a, Some a)) (dstate w' (director_seq w') (delete p (itxs w')) (list_del p (transactions w')) (skbs w') (to_user w') (d_next w')
                               (d_tick w') (d_user w')).
Proof.
  intros Ht Hp Hact Hleft Hlate Hp' Hdone Hskb Hinfo Hl. unfold genlmsg_read_response. step (find_head w p x tx Ht Hp). cbn iota.
  step Hact. step (itx_run _ _ _ Hp'). rewrite Hdone, Hlate, Hleft. erewrite bind_run; [|done]. step (itx_run _ _ _ Hp'). erewrite bind_run; [|done].
  rewrite (proj2 (Z.eqb_neq left 0)) by lia. erewrite bind_run; [|by apply itx_run]. erewrite bind_run; [|done].
  rewrite (proj2 (Z.ltb_ge left 0)) by lia. by rewrite Hskb, Hinfo.
Qed.

(** What a request that was answered leaves behind: nothing but a number used up. *)
Definition answered w w' (d : D) (k : Z) : Prop :=
  exists nx tk t, d_next w <= nx /\
  w' = dstate w s32[director_seq w + 1] (itxs w) (transactions w) (skbs w) [] nx tk (user_done (d_user w) d k t).

Lemma response_attr fid cmd seq r t :
  Forall (fun a => 0 <= a.1 < 2 ^ 14) r -> nlmsg_find_attr (response fid cmd seq r) t = attr_find t (u32s r).
Proof.
  intros Hr. apply find_attr_encode; [done|]. unfold u32s. apply Forall_fmap. eapply Forall_impl; [exact Hr|]. intros [t' v] Ht. split; [exact Ht|].
  cbn [snd]. rewrite zlen_le_bytes. lia.
Qed.

Lemma transaction_run {P} room w code (ops : msg_transaction_ops P) params params' intr l cmd r d k left :
  ready room w -> next_seq w <> 0 -> 0 < left ->
  appends (create_request ops params) l -> size_of l <= room - 20 -> Forall (fun a => 0 <= a.1 < 2 ^ 14) l ->
  fits msg_peek (request (family_id w) code (next_seq w) l) -> answered_by w code l cmd r d k ->
  find_op cmd (cmds w) = Some Do_tx -> Forall (fun a => 0 <= a.1 < 2 ^ 14) r -> attr_find DIRECTOR_A_ERRNO (u32s r) = None ->
  match read_response ops with
  | None => params' = params
  | Some f => f (response (family_id w) cmd (next_seq w) r) params = Some (0, params')
  end ->
  exists w', msg_transaction_do (wake left) code ops params intr w = Ret (0, params') w' /\ answered w w' d k.
Proof.
  intros Hr Hseq Hleft Ha Hs Ht Hf Hans Hop Hrt Herr Hread.
  assert (Hl : Forall attr_ok l) by (apply (attrs_fit _ (room - 20)); [done|destruct Hr; lia|done]).
  set (p := d_next w + 1). set (x := mk_itx (next_seq w) None None intr false). unfold msg_transaction_do.
  step (request_run room w code ops params intr l Hr Ha Hs). cbn [Z.eqb negb]. fold p x.
  set (w1 := dstate _ _ _ _ _ _ _ _ _).
  assert (Hp1 : itxs w1 !! p = Some x) by apply lookup_insert_eq.
  destruct (serve_run room w w1 p intr (next_seq w) code l cmd r d k (transactions w)) as [t Hserve]; try done.
  set (w2 := dstate _ _ _ _ _ _ _ _ _) in Hserve. change (d_next w1) with (p + 1) in w2.
  set (y := mk_itx (next_seq w) (Some (p + 1)) (Some (p + 1)) intr true).
  assert (Hp2 : itxs w2 !! p = Some y) by apply lookup_insert_eq.
  unfold msg_transaction_response. change (next_seq w) with (tx_seq x) at 1.
  step (read_response_run w1 w2 p x y (transactions w) (wake left) left (p + 1) eq_refl Hp1 Hserve eq_refl eq_refl Hp2 eq_refl eq_refl eq_refl Hleft).
  cbn [Z.eqb negb]. cbn iota. erewrite bind_run; [|done].
  set (w3 := dstate w2 _ _ _ _ _ _ _ _).
  assert (Hk : skbs w3 !! (p + 1) = Some (1, response (family_id w) cmd (next_seq w) r)) by apply lookup_insert_eq.
  step (skb_at_run _ _ _ Hk). cbn iota.
  assert (Hce : check_for_error (response (family_id w) cmd (next_seq w) r) w3 = Ret 0 w3).
  { unfold check_for_error. by rewrite response_attr, Herr. }
  step Hce. cbn [Z.eqb negb].
  assert (Hrd : (match read_response ops with
                 | None => mret (0, params)
                 | Some f => valid (f (response (family_id w) cmd (next_seq w) r) params)
                 end : eff _ (Z * P)) w3 = Ret (0, params') w3).
  { destruct (read_response ops); [by rewrite Hread|by rewrite Hread]. }
  step Hrd. cbn iota. erewrite bind_run; [|done]. step (kfree_skb_run _ _ _ _ Hk). cbn [Z.eqb].
  eexists. split; [done|]. exists (p + 1 + 1), (S (S (S (d_tick w)))), t. split; [lia|].
  destruct Hr as [_ _ _ Hitx Hskb _ _ _ _ _ _ _].
  transitivity (dstate w s32[director_seq w + 1] (delete p (<[p := y]> (<[p := x]> (itxs w)))) (list_del p (p :: transactions w))
    (delete (p + 1) (<[p + 1 := (1, response (family_id w) cmd (next_seq w) r)]> (skbs w))) [] (p + 1 + 1) (S (S (S (d_tick w)))) (user_done (d_user w) d k t)); [done|].
  rewrite insert_insert_eq, !delete_insert_id, list_del_head; [done|apply Hitx; lia|apply Hskb; lia|apply Hitx; lia].
Qed.
End transaction.
