(* ===== verification/DirectorDecide.v ===== *)
(** The director interface end to end: what the migration code learns from its calls, and what the
    callbacks of the director are told. *)

From stdpp Require Import gmap.
From S2P Require Import Prelude Effect Netlink Director DirectorMsg DirectorApi DirectorServe DirectorCall.

Lemma u32_s32 z : u32[s32[z]] = u32[z].
Proof.
  unfold swrap. case_goal; [by apply uwrap_uwrap|].
  unfold uwrap. rewrite <- Zminus_mod_idemp_r, Z_mod_same_full, Z.sub_0_r. by rewrite Z.mod_mod by lia.
Qed.
Lemma u32_s32_add a b : u32[s32[a] + b] = u32[a + b].
Proof.
  pose proof (u32_s32 a) as Ha. unfold uwrap in *. rewrite <- Zplus_mod_idemp_l, Ha. apply Zplus_mod_idemp_l.
Qed.

Section decide.
Context `{Nla} {D : Type} (fuel recv_fuel : nat) (msg_peek : bool).
Implicit Type w : director (api D).
Abbreviation wake left := (served (D := D) (S (S fuel)) (S (S (S recv_fuel))) msg_peek left).

(** The request fits into a buffer of the kernel and into what the library reads. *)
Definition sendable (room : Z) (l : list (Z * list Z)) : Prop :=
  size_of l <= room - 20 /\ 20 + size_of l <= if msg_peek then 81920 else 40960.
Lemma sendable_fits room l fid code seq : sendable room l -> fits msg_peek (request fid code seq l).
Proof.
  intros [_ Hs]. unfold fits, request. cbn [nl_data]. rewrite zlen_app, zlen_encode. change (zlen [code; 1; 0; 0]) with 4.
  unfold NLMSG_HDRLEN. lia.
Qed.

(** Any number of answered requests. *)
Definition settled w w' (d : D) (k : Z) : Prop :=
  exists nx tk t sq, d_next w <= nx /\ w' = dstate w sq (itxs w) (transactions w) (skbs w) [] nx tk (user_done (d_user w) d k t).
Lemma answered_settled w w' d k : answered w w' d k -> settled w w' d k.
Proof. intros (nx & tk & t & Hn & ->). by eexists _, _, _, _. Qed.
Lemma settled_trans w w1 w2 d1 d2 k1 k2 : settled w w1 d1 k1 -> settled w1 w2 d2 k2 -> settled w w2 d2 (k1 + k2).
Proof.
  intros (nx & tk & t & sq & Hn & ->) (nx' & tk' & t' & sq' & Hn' & ->). exists nx', tk', t', sq'. split; [cbn in Hn'; lia|].
  unfold dstate, user_done. cbn. by rewrite Z.add_assoc.
Qed.
Lemma ready_settled room w w' d k : ready room w -> settled w w' d k -> ready room w'.
Proof.
  intros [? ? ? Hi Hs ? ? ? ? ? ? ?] (nx & tk & t & sq & Hn & ->). split; try done.
  - intros p Hp. cbn in *. apply Hi. lia.
  - intros p Hp. cbn in *. apply Hs. lia.
Qed.

Lemma npm_response fid seq a b p :
  npm_check_read_response (response fid DIRECTOR_NPM_RESPONSE seq [(DIRECTOR_A_DECISION, a); (DIRECTOR_A_DECISION_VALUE, b)]) p =
  Some (0, mk_npm_check (npm_pid p) (npm_uid p) (npm_is_guest p) (npm_name p) (npm_rusage p) (npm_args p) (npm_envp p) s32[a] s32[b]).
Proof.
  unfold npm_check_read_response. rewrite !response_attr by by repeat constructor.
  change (attr_find DIRECTOR_A_DECISION _) with (Some (le_bytes 4 a)). change (attr_find DIRECTOR_A_DECISION_VALUE _) with (Some (le_bytes 4 b)).
  cbv iota. rewrite !get_u32_le. cbn [mbind option_bind]. by rewrite !swrap_uwrap.
Qed.

Lemma appends_check p : appends (npm_check_create_request p) (check_attrs (npm_pid p) (npm_uid p) (npm_is_guest p) (npm_name p) (npm_rusage p)).
Proof.
  unfold npm_check_create_request. change (check_attrs _ _ _ _ _) with
    ([(DIRECTOR_A_PID, le_bytes 4 (npm_pid p))] ++ [(DIRECTOR_A_UID, le_bytes 4 (npm_uid p))] ++
     [(DIRECTOR_A_TASK_TYPE, le_bytes 4 (guest_flag (npm_is_guest p)))] ++ [(DIRECTOR_A_NAME, npm_name p ++ [0])] ++
     [(DIRECTOR_A_LENGTH, le_bytes 4 (zlen (npm_name p)))] ++ match npm_rusage p with Some r => [(DIRECTOR_A_RUSAGE, r)] | None => [] end).
  repeat (apply appends_seq; [eauto with appends|]). destruct (npm_rusage p); eauto with appends.
Qed.
Lemma appends_full p args envp : npm_args p = Some args -> npm_envp p = Some envp ->
  appends (npm_check_full_create_request p) (full_attrs (npm_pid p) (npm_uid p) (npm_is_guest p) (npm_name p) args envp).
Proof.
  intros Ha He. unfold npm_check_full_create_request. rewrite Ha, He. change (full_attrs _ _ _ _ _ _) with
    ([(DIRECTOR_A_PID, le_bytes 4 (npm_pid p))] ++ [(DIRECTOR_A_UID, le_bytes 4 (npm_uid p))] ++
     [(DIRECTOR_A_TASK_TYPE, le_bytes 4 (guest_flag (npm_is_guest p)))] ++ [(DIRECTOR_A_NAME, npm_name p ++ [0])] ++
     [(DIRECTOR_A_ARGS, encode (chars_attrs DIRECTOR_A_ARG args))] ++ [(DIRECTOR_A_ENVS, encode (chars_attrs DIRECTOR_A_ENV envp))]).
  repeat (apply appends_seq; [eauto with appends|]). eauto with appends.
Qed.

(** What the callbacks make of an execve. *)
Definition checked (c : callbacks D) (pid uid is_guest : Z) (name : list Z) (rusage : option (list Z)) : D -> (Z * Z) * D :=
  out_of ((fun f => f pid uid (guest_flag is_guest) (name ++ [0]) rusage) <$> npm_callback c) (DO_NOT_MIGRATE, -1).
Definition checked_full (c : callbacks D) (pid uid is_guest : Z) (name : list Z) (args envp : list (list Z)) : D -> (Z * Z) * D :=
  out_of ((fun f => f pid uid (guest_flag is_guest) (name ++ [0]) (cells args) (cells envp)) <$> npm_full_callback c) (DO_NOT_MIGRATE, -1).

Lemma npm_check_run room w pid uid guest name rusage left u0 :
  ready room w -> next_seq w <> 0 -> 0 < left -> srange 32 pid -> urange 32 uid -> sendable room (check_attrs pid uid guest name rusage) ->
  let r := checked (cbs (d_user w)) pid uid guest name rusage (app (d_user w)) in
  exists w', npm_check (wake left) pid uid guest name rusage u0 w = Ret (0, (s32[r.1.1], s32[r.1.2])) w' /\ answered w w' r.2 0.
Proof.
  intros Hr Hseq Hleft Hp Hu Hs r.
  destruct (transaction_run fuel recv_fuel msg_peek room w DIRECTOR_CHECK_NPM npm_check_msg_ops
    (mk_npm_check pid uid guest name rusage None None u0.1 u0.2) (mk_npm_check pid uid guest name rusage None None s32[r.1.1] s32[r.1.2]) false
    (check_attrs pid uid guest name rusage) DIRECTOR_NPM_RESPONSE [(DIRECTOR_A_DECISION, r.1.1); (DIRECTOR_A_DECISION_VALUE, r.1.2)] r.2 0 left)
    as (w' & Hrun & Ha); try done.
  - apply (appends_check (mk_npm_check pid uid guest name rusage None None u0.1 u0.2)).
  - apply Hs.
  - apply Forall_app. split; [by repeat constructor|]. destruct rusage; by repeat constructor.
  - by eapply sendable_fits.
  - split; [done|]. exists Handle_npm_check. split; [done|]. intros u Hw Hc Hd. eexists. unfold r, checked. rewrite <- Hc, <- Hd. by apply answers_check.
  - apply Hr. tauto.
  - by repeat constructor.
  - apply npm_response.
  - exists w'. split; [|done]. unfold npm_check. by step Hrun.
Qed.
Lemma npm_check_full_run room w pid uid guest name args envp left u0 :
  ready room w -> next_seq w <> 0 -> 0 < left -> srange 32 pid -> urange 32 uid -> sendable room (full_attrs pid uid guest name args envp) ->
  let r := checked_full (cbs (d_user w)) pid uid guest name args envp (app (d_user w)) in
  exists w', npm_check_full (wake left) pid uid guest name (Some args) (Some envp) u0 w = Ret (0, (s32[r.1.1], s32[r.1.2])) w' /\ answered w w' r.2 0.
Proof.
  intros Hr Hseq Hleft Hp Hu Hs r.
  destruct (transaction_run fuel recv_fuel msg_peek room w DIRECTOR_CHECK_FULL_NPM npm_check_full_msg_ops
    (mk_npm_check pid uid guest name None (Some args) (Some envp) u0.1 u0.2)
    (mk_npm_check pid uid guest name None (Some args) (Some envp) s32[r.1.1] s32[r.1.2]) false
    (full_attrs pid uid guest name args envp) DIRECTOR_NPM_RESPONSE [(DIRECTOR_A_DECISION, r.1.1); (DIRECTOR_A_DECISION_VALUE, r.1.2)] r.2 0 left)
    as (w' & Hrun & Ha); try done.
  - by apply (appends_full (mk_npm_check pid uid guest name None (Some args) (Some envp) u0.1 u0.2)).
  - apply Hs.
  - by repeat constructor.
  - by eapply sendable_fits.
  - split; [done|]. exists Handle_npm_check_full. split; [done|]. intros u Hw Hc Hd. eexists. unfold r, checked_full. rewrite <- Hc, <- Hd.
    by apply answers_full.
  - apply Hr. tauto.
  - by repeat constructor.
  - apply npm_response.
  - exists w'. split; [|done]. unfold npm_check_full. by step Hrun.
Qed.

(** The abstract decision, and what the caller of [director_npm_check] gets of it. *)
Definition needs_more (decision : Z) : bool :=
  (decision =? REQUIRE_ARGS) || (decision =? REQUIRE_ENVP) || (decision =? REQUIRE_ARGS_AND_ENVP).
Definition decided (c : callbacks D) (pid uid is_guest : Z) (name : list Z) (args envp : list (list Z)) (rusage : option (list Z)) (d : D) : (Z * Z) * D :=
  let r := checked c pid uid is_guest name rusage d in
  if needs_more s32[r.1.1] then checked_full c pid uid is_guest name args envp r.2 else r.
Definition verdict (r : Z * Z) (migman_to_use migrate_home : Z) : Z * (Z * Z) :=
  if s32[r.1] =? MIGRATE_BACK then (1, (migman_to_use, 1))
  else if s32[r.1] =? MIGRATE then (1, (s32[r.2], migrate_home))
  else (0, (migman_to_use, migrate_home)).

(** C18: When a process executes a program the kernel asks the director whether to migrate it, over
    both sides of the netlink channel: the callback of the director gets the process id, the user,
    whether the process is a guest, the name and the resource usage; when it asks for more, the
    second callback gets the arguments and the environment, string by string; and the caller
    learns its decision, and the manager to use, exactly.  Nothing is left behind in the kernel or
    in the library. *)
Theorem director_decides room w pid uid is_guest name args envp rusage left1 left2 undef migman home :
  ready room w -> u32[director_seq w + 1] <> 0 -> u32[director_seq w + 2] <> 0 -> 0 < left1 -> 0 < left2 ->
  srange 32 pid -> urange 32 uid ->
  sendable room (check_attrs pid uid is_guest name rusage) -> sendable room (full_attrs pid uid is_guest name args envp) ->
  let r := decided (cbs (d_user w)) pid uid is_guest name args envp rusage (app (d_user w)) in
  exists w', director_npm_check (wake left1) (wake left2) pid uid is_guest name (Some args) (Some envp) rusage undef migman home w =
               Ret (verdict r.1 migman home) w' /\ settled w w' r.2 0.
Proof.
  intros Hr Hs1 Hs2 Hl1 Hl2 Hp Hu Hc Hf r.
  destruct (npm_check_run room w pid uid is_guest name rusage left1 undef) as (w1 & Hrun1 & Ha1); try done.
  { unfold next_seq. by rewrite u32_s32. }
  unfold director_npm_check. step Hrun1. cbn iota. cbn [Z.eqb negb fst]. unfold r, decided, needs_more in *.
  set (r1 := checked _ _ _ _ _ _ _) in *. destruct (_ || _ || _) eqn:Em.
  - pose proof (ready_settled _ _ _ _ _ Hr (answered_settled _ _ _ _ Ha1)) as Hr1.
    destruct (npm_check_full_run room w1 pid uid is_guest name args envp left2 (s32[r1.1.1], s32[r1.1.2])) as (w2 & Hrun2 & Ha2); try done.
    { destruct Ha1 as (nx & tk & t & _ & ->). unfold next_seq. rewrite u32_s32. cbn [director_seq dstate].
      rewrite u32_s32_add. by rewrite <- Z.add_assoc. }
    step Hrun2. cbn iota. cbn [Z.eqb negb].
    replace (cbs (d_user w1)) with (cbs (d_user w)) in * by by destruct Ha1 as (? & ? & ? & _ & ->).
    replace (app (d_user w1)) with (r1.2) in * by by destruct Ha1 as (? & ? & ? & _ & ->).
    exists w2. split; [done|]. apply (settled_trans w w1 w2 r1.2 _ 0 0); by apply answered_settled.
  - erewrite bind_run; [|done]. cbn iota. cbn [Z.eqb negb]. exists w1. split; [done|]. by apply answered_settled.
Qed.

(** ** Notices and questions *)

Inductive notice :=
| N_connected (address : list Z) (slot_index : Z) (auth_data : list Z)
| N_disconnected (slot_index detached reason : Z)
| N_immigration (slot_index uid : Z) (name : list Z)
| N_confirmed (slot_index uid : Z) (name : list Z) (local_pid remote_pid : Z)
| N_exit (pid exit_code : Z) (rusage : list Z)
| N_fork (pid ppid : Z)
| N_failed (pid : Z)
| N_home (pid : Z)
| N_message (node_id is_core_node slot_index : Z) (user_data : list Z).

(** The call of the kernel: the result, and the answer to a question. *)
Definition notify (k : wakeup (api D)) (n : notice) (accept : Z) : eff (director (api D)) (Z * Z) :=
  match n with
  | N_connected a s d => director_node_connected k a s (zlen d) d accept
  | N_disconnected s d r => ret ← director_node_disconnected k s d r; mret (ret, accept)
  | N_immigration s u n => director_immigration_request k s u n accept
  | N_confirmed s u n l r => ret ← director_immigration_confirmed k s u n l r; mret (ret, accept)
  | N_exit p c r => ret ← director_task_exit k p c r; mret (ret, accept)
  | N_fork p pp => ret ← director_task_fork k p pp; mret (ret, accept)
  | N_failed p => ret ← director_emigration_failed k p; mret (ret, accept)
  | N_home p => ret ← director_migrated_home k p; mret (ret, accept)
  | N_message n c s d => ret ← director_generic_user_message_recv k n c s (zlen d) d; mret (ret, accept)
  end.
Definition notice_attrs (n : notice) : list (Z * list Z) :=
  match n with
  | N_connected a s d => connected_attrs a s d
  | N_disconnected s d r => disconnected_attrs s d r
  | N_immigration s u n => immigration_attrs s u n
  | N_confirmed s u n l r => confirmed_attrs s u n l r
  | N_exit p c r => exitted_attrs p c r
  | N_fork p pp => forked_attrs p pp
  | N_failed p | N_home p => pid_attrs p
  | N_message n c s d => message_attrs n c s d
  end.
(** The numbers are ints, and a fork is not the director's own. *)
Definition notice_ok w (n : notice) : Prop :=
  match n with
  | N_connected _ s _ => srange 32 s
  | N_disconnected s _ r => srange 32 s /\ srange 32 r
  | N_immigration s u _ => srange 32 s /\ srange 32 u
  | N_confirmed s u _ l r => srange 32 s /\ srange 32 u /\ srange 32 l /\ srange 32 r
  | N_exit p c _ => srange 32 p /\ srange 32 c
  | N_fork p pp => srange 32 p /\ srange 32 pp /\ u32[pp] <> user_director_pid w
  | N_failed p | N_home p => srange 32 p
  | N_message n c s _ => srange 32 n /\ srange 32 c /\ srange 32 s
  end.
Definition given (data : list Z) : option (list Z) := if 0 <? zlen data then Some data else None.
(** What the callbacks make of it: the answer, if it is a question, and the state of the director. *)
Definition told (c : callbacks D) (n : notice) (accept : Z) (d : D) : Z * D :=
  match n with
  | N_connected a s data =>
      let r := out_of ((fun f => f (a ++ [0]) s (zlen data) (given data)) <$> node_connected_callback c) 1 d in (s32[r.1], r.2)
  | N_disconnected s dt r => (accept, upd_of ((fun f => f s (guest_flag dt) r) <$> node_disconnected_callback c) d)
  | N_immigration s u n => let r := out_of ((fun f => f u s (n ++ [0])) <$> immigration_request_callback c) 1 d in (s32[r.1], r.2)
  | N_confirmed s u n l r => (accept, upd_of ((fun f => f u s (n ++ [0]) l r) <$> immigration_confirmed_callback c) d)
  | N_exit p co r => (accept, upd_of ((fun f => f p co r) <$> task_exitted_callback c) d)
  | N_fork p pp => (accept, upd_of ((fun f => f p pp) <$> task_forked_callback c) d)
  | N_failed p => (accept, upd_of ((fun f => f p) <$> emigration_failed_callback c) d)
  | N_home p => (accept, upd_of ((fun f => f p) <$> migrated_home_callback c) d)
  | N_message n co s data => (accept, upd_of ((fun f => f n co s (zlen data) (given data)) <$> generic_user_message_callback c) d)
  end.
(** The library keeps a copy of authentication data for ever. *)
Definition leaks (n : notice) : Z := match n with N_connected _ _ d => if 0 <? zlen d then 1 else 0 | _ => 0 end.

Lemma appends_data t data : appends (if 0 <? zlen data then fun s => nla_put s t (ztake (zlen data) data) else put_none) (data_attr t data).
Proof. unfold data_attr. rewrite ztake_all by lia. case_goal; eauto with appends. Qed.
Lemma data_attrs_ok t data : 0 <= t < 2 ^ 14 -> Forall (fun a : Z * list Z => 0 <= a.1 < 2 ^ 14) (data_attr t data).
Proof. intros Ht. unfold data_attr. case_goal; [by apply Forall_singleton|constructor]. Qed.
Lemma notice_types n : Forall (fun a : Z * list Z => 0 <= a.1 < 2 ^ 14) (notice_attrs n).
Proof.
  destruct n; cbn [notice_attrs]; try by repeat constructor.
  all: apply Forall_app; split; [by repeat constructor|by apply data_attrs_ok].
Qed.
Lemma data_bound room l t data : sendable room (l ++ data_attr t data) -> room <= 65535 -> zlen data < 2 ^ 31.
Proof.
  intros [Hs _] Hr. rewrite size_of_app in Hs. pose proof (size_of_nonneg l). unfold data_attr in Hs. destruct (0 <? zlen data) eqn:E; bool_hyps; [|lia].
  cbn [size_of] in Hs. pose proof (total_size_bounds (zlen data)). lia.
Qed.

(** A message whose answer has no contents, and one with a decision. *)
Lemma ack_run {P} room w code (ops : msg_transaction_ops P) params intr l cmd d k left :
  ready room w -> next_seq w <> 0 -> 0 < left -> appends (create_request ops params) l -> sendable room l ->
  Forall (fun a => 0 <= a.1 < 2 ^ 14) l -> (read_response ops = None \/ read_response ops = Some empty_response) ->
  cmd = DIRECTOR_ACK \/ cmd = DIRECTOR_NODE_CONNECT_RESPONSE -> answered_by w code l cmd [] d k ->
  exists w', msg_transaction_do (wake left) code ops params intr w = Ret (0, params) w' /\ answered w w' d k.
Proof.
  intros Hr Hseq Hleft Ha Hs Ht Hrd Hcmd Hans.
  apply (transaction_run fuel recv_fuel msg_peek room w code ops params params intr l cmd [] d k left); try done.
  - apply Hs.
  - by eapply sendable_fits.
  - apply Hr. tauto.
  - by destruct Hrd as [->| ->].
Qed.
Lemma decision_run {P} room w code (ops : msg_transaction_ops P) f params params' intr l cmd v d k left :
  ready room w -> next_seq w <> 0 -> 0 < left -> appends (create_request ops params) l -> sendable room l ->
  Forall (fun a => 0 <= a.1 < 2 ^ 14) l -> read_response ops = Some f ->
  (forall m, nlmsg_find_attr m DIRECTOR_A_DECISION = Some (le_bytes 4 v) -> f m params = Some (0, params')) ->
  cmd = DIRECTOR_IMMIGRATION_REQUEST_RESPONSE \/ cmd = DIRECTOR_NODE_CONNECT_RESPONSE ->
  answered_by w code l cmd [(DIRECTOR_A_DECISION, v)] d k ->
  exists w', msg_transaction_do (wake left) code ops params intr w = Ret (0, params') w' /\ answered w w' d k.
Proof.
  intros Hr Hseq Hleft Ha Hs Ht Hrd Hf Hcmd Hans.
  apply (transaction_run fuel recv_fuel msg_peek room w code ops params params' intr l cmd [(DIRECTOR_A_DECISION, v)] d k left); try done.
  - apply Hs.
  - by eapply sendable_fits.
  - apply Hr. tauto.
  - by repeat constructor.
  - rewrite Hrd. apply Hf. by rewrite response_attr by by repeat constructor.
Qed.

Ltac by_handler h := split; [done|exists h; split; [done|]]; intros u0 Hw Hcb Hd; match goal with r := _ |- _ => unfold r end;
  cbn [told fst snd]; rewrite <- Hcb, <- Hd; eexists.

Definition delivers (n : notice) : Prop := forall room w accept left,
  ready room w -> next_seq w <> 0 -> 0 < left -> notice_ok w n -> sendable room (notice_attrs n) ->
  let r := told (cbs (d_user w)) n accept (app (d_user w)) in
  exists w', notify (wake left) n accept w = Ret (0, r.1) w' /\ answered w w' r.2 (leaks n).

Lemma delivers_connected address slot_index auth_data : delivers (N_connected address slot_index auth_data).
Proof.
  intros room w accept left Hr Hseq Hl Hok Hsend r. pose proof (notice_types (N_connected address slot_index auth_data)) as Ht.
  cbn [notice_ok notice_attrs] in *. assert (Hz : zlen auth_data < 2 ^ 31) by (apply (data_bound _ _ _ _ Hsend), Hr).
  destruct (decision_run room w DIRECTOR_NODE_CONNECTED node_connected_msg_ops node_connected_read_response
    (mk_connected address slot_index (zlen auth_data) auth_data accept)
    (mk_connected address slot_index (zlen auth_data) auth_data r.1) false (connected_attrs address slot_index auth_data)
    DIRECTOR_NODE_CONNECT_RESPONSE
    (out_of ((fun f => f (address ++ [0]) slot_index (zlen auth_data) (given auth_data)) <$> node_connected_callback (cbs (d_user w))) 1 (app (d_user w))).1
    r.2 (leaks (N_connected address slot_index auth_data)) left) as (w' & Hrun & Ha); try done; try tauto.
  - unfold connected_attrs. cbn [create_request node_connected_msg_ops]. unfold node_connected_create_request.
    cbn [nc_address nc_slot_index nc_auth_data_size nc_auth_data].
    do 3 (apply (appends_seq _ _ [_]); [eauto with appends|]). apply appends_data.
  - intros m Hm. unfold node_connected_read_response. rewrite Hm, get_u32_le. cbn [mbind option_bind]. by rewrite swrap_uwrap.
  - by_handler Handle_node_connected. by apply answers_connected.
  - exists w'. split; [|done]. cbn [notify]. unfold director_node_connected, node_connected. by step Hrun.
Qed.
Lemma delivers_immigration s u n : delivers (N_immigration s u n).
Proof.
  intros room w accept left Hr Hseq Hl Hok Hsend r. pose proof (notice_types (N_immigration s u n)) as Ht.
  cbn [notice_ok notice_attrs] in *. destruct Hok as [Hs Hu].
  destruct (decision_run room w DIRECTOR_IMMIGRATION_REQUEST immigration_request_msg_ops immigration_request_read_response
    (mk_immigration n s u accept) (mk_immigration n s u r.1) false (immigration_attrs s u n) DIRECTOR_IMMIGRATION_REQUEST_RESPONSE
    (out_of ((fun f => f u s (n ++ [0])) <$> immigration_request_callback (cbs (d_user w))) 1 (app (d_user w))).1
    r.2 0 left) as (w' & Hrun & Ha); try done; try tauto.
  - apply (appends_seq _ _ [_] [_; _]); [eauto with appends|]. apply (appends_seq _ _ [_] [_]); eauto with appends.
  - intros m Hm. unfold immigration_request_read_response. rewrite Hm, get_u32_le. cbn [mbind option_bind]. by rewrite swrap_uwrap.
  - by_handler Handle_immigration_request. by apply answers_immigration.
  - exists w'. split; [|done]. cbn [notify]. unfold director_immigration_request, immigration_request. by step Hrun.
Qed.
Lemma delivers_disconnected s d r0 : delivers (N_disconnected s d r0).
Proof.
  intros room w accept left Hr Hseq Hl Hok Hsend r. pose proof (notice_types (N_disconnected s d r0)) as Ht. cbn [notice_ok notice_attrs] in *. destruct Hok as [Hs Hrs].
  destruct (ack_run room w DIRECTOR_NODE_DISCONNECTED node_disconnected_msg_ops (mk_disconnected s d r0) true (notice_attrs (N_disconnected s d r0)) DIRECTOR_ACK r.2 0 left) as (w' & Hrun & Ha); try done; try tauto.
  - apply (appends_seq _ _ [_] [_; _]); [eauto with appends|]. apply (appends_seq _ _ [_] [_]); eauto with appends.
  - by_handler Handle_node_disconnected. by apply answers_disconnected.
  - exists w'. split; [|done]. cbn [notify]. unfold director_node_disconnected, node_disconnected. rewrite bind_assoc_run. by step Hrun.
Qed.
Lemma delivers_confirmed s u n l rp : delivers (N_confirmed s u n l rp).
Proof.
  intros room w accept left Hr Hseq Hl Hok Hsend r. pose proof (notice_types (N_confirmed s u n l rp)) as Ht. cbn [notice_ok notice_attrs] in *. destruct Hok as (? & ? & ? & ?).
  destruct (ack_run room w DIRECTOR_IMMIGRATION_CONFIRMED immigration_confirmed_msg_ops (mk_confirmed n s u l rp) false (notice_attrs (N_confirmed s u n l rp)) DIRECTOR_ACK r.2 0 left) as (w' & Hrun & Ha); try done; try tauto.
  - do 4 (apply (appends_seq _ _ [_]); [eauto with appends|]). eauto with appends.
  - by_handler Handle_immigration_confirmed. by apply answers_confirmed.
  - exists w'. split; [|done]. cbn [notify]. unfold director_immigration_confirmed, immigration_confirmed. rewrite bind_assoc_run. by step Hrun.
Qed.
Lemma delivers_exit p c ru : delivers (N_exit p c ru).
Proof.
  intros room w accept left Hr Hseq Hl Hok Hsend r. pose proof (notice_types (N_exit p c ru)) as Ht. cbn [notice_ok notice_attrs] in *. destruct Hok as [? ?].
  destruct (ack_run room w DIRECTOR_TASK_EXIT task_exitted_msg_ops (mk_exitted p c ru) true (notice_attrs (N_exit p c ru)) DIRECTOR_ACK r.2 0 left) as (w' & Hrun & Ha); try done; try tauto.
  - apply (appends_seq _ _ [_] [_; _]); [eauto with appends|]. apply (appends_seq _ _ [_] [_]); eauto with appends.
  - by_handler Handle_task_exitted. by apply answers_exitted.
  - exists w'. split; [|done]. cbn [notify]. unfold director_task_exit, task_exitted. rewrite bind_assoc_run. by step Hrun.
Qed.
Lemma delivers_failed p : delivers (N_failed p).
Proof.
  intros room w accept left Hr Hseq Hl Hok Hsend r. pose proof (notice_types (N_failed p)) as Ht. cbn [notice_ok notice_attrs] in *.
  destruct (ack_run room w DIRECTOR_EMIGRATION_FAILED emigration_failed_msg_ops p true (notice_attrs (N_failed p)) DIRECTOR_ACK r.2 0 left) as (w' & Hrun & Ha); try done; try tauto.
  - apply appends_u32.
  - by_handler Handle_emigration_failed. by apply answers_failed.
  - exists w'. split; [|done]. cbn [notify]. unfold director_emigration_failed, emigration_failed. rewrite bind_assoc_run. by step Hrun.
Qed.
Lemma delivers_home p : delivers (N_home p).
Proof.
  intros room w accept left Hr Hseq Hl Hok Hsend r. pose proof (notice_types (N_home p)) as Ht. cbn [notice_ok notice_attrs] in *.
  destruct (ack_run room w DIRECTOR_MIGRATED_HOME migrated_home_msg_ops p true (notice_attrs (N_home p)) DIRECTOR_ACK r.2 0 left) as (w' & Hrun & Ha); try done; try tauto.
  - apply appends_u32.
  - by_handler Handle_migrated_home. by apply answers_home.
  - exists w'. split; [|done]. cbn [notify]. unfold director_migrated_home, migrated_home. rewrite bind_assoc_run. by step Hrun.
Qed.
Lemma delivers_fork p pp : delivers (N_fork p pp).
Proof.
  intros room w accept left Hr Hseq Hl Hok Hsend r. pose proof (notice_types (N_fork p pp)) as Ht. cbn [notice_ok notice_attrs] in *. destruct Hok as (? & ? & Hpp).
  destruct (ack_run room w DIRECTOR_TASK_FORK task_forked_msg_ops (mk_forked p pp) true (notice_attrs (N_fork p pp)) DIRECTOR_ACK r.2 0 left) as (w' & Hrun & Ha); try done; try tauto.
  - apply (appends_seq _ _ [_] [_]); eauto with appends.
  - by_handler Handle_task_forked. by apply answers_forked.
  - exists w'. split; [|done]. cbn [notify]. unfold director_task_fork, is_director_pid, task_forked. run. rewrite (proj2 (Z.eqb_neq _ _)) by done. by rewrite Hrun.
Qed.
Lemma delivers_message n c s data : delivers (N_message n c s data).
Proof.
  intros room w accept left Hr Hseq Hl Hok Hsend r. pose proof (notice_types (N_message n c s data)) as Ht. cbn [notice_ok notice_attrs] in *. destruct Hok as (? & ? & ?).
  assert (Hz : zlen data < 2 ^ 31) by (apply (data_bound _ _ _ _ Hsend), Hr).
  destruct (ack_run room w DIRECTOR_GENERIC_USER_MESSAGE generic_user_message_msg_ops (mk_user_message n c s (zlen data) data) false (notice_attrs (N_message n c s data)) DIRECTOR_NODE_CONNECT_RESPONSE r.2 0 left) as (w' & Hrun & Ha); try done; try tauto.
  - unfold message_attrs. cbn [create_request generic_user_message_msg_ops]. unfold generic_user_message_create_request.
    cbn [gm_node_id gm_is_core_node gm_slot_index gm_user_data_size gm_user_data].
    do 4 (apply (appends_seq _ _ [_]); [eauto with appends|]). apply appends_data.
  - by_handler Handle_generic_user_message. by apply answers_message.
  - exists w'. split; [|done]. cbn [notify]. unfold director_generic_user_message_recv, generic_user_message_recv. rewrite bind_assoc_run. by step Hrun.
Qed.

(** C27: Every notice and every question of the kernel reaches the director: for connections, their
    loss, immigrations, exits, forks, failed and returning migrations and messages of users, the
    callback gets exactly what the kernel was given, the kernel learns the answer, and the
    transactions, the buffers and the queue are as before; the library keeps one object for every
    connection with authentication data. *)
Theorem notices_delivered room w n accept left :
  ready room w -> u32[director_seq w + 1] <> 0 -> 0 < left -> notice_ok w n -> sendable room (notice_attrs n) ->
  let r := told (cbs (d_user w)) n accept (app (d_user w)) in
  exists w', notify (wake left) n accept w = Ret (0, r.1) w' /\ answered w w' r.2 (leaks n).
Proof.
  intros Hr Hs Hl Hok Hsend. assert (Hseq : next_seq w <> 0) by (unfold next_seq; by rewrite u32_s32).
  enough (delivers n) as Hd by by apply Hd with room.
  destruct n; eauto using delivers_connected, delivers_disconnected, delivers_immigration, delivers_confirmed, delivers_exit, delivers_fork,
    delivers_failed, delivers_home, delivers_message.
Qed.
End decide.

(** ** An example *)

#[local] Existing Instance nla_tlv.
(** The director notes what it is told, asks for arguments, and then migrates to manager 4. *)
Definition ex_callbacks : callbacks (list Z) :=
  mk_callbacks (Some (fun pid _ _ _ _ _ d => ((REQUIRE_ARGS, 0), d ++ [pid])))
    (Some (fun _ _ _ _ args _ _ d => ((MIGRATE, 4), d ++ [zlen args]))) (Some (fun _ slot _ _ _ d => (0, d ++ [slot]))) None None None None
    (Some (fun pid ppid d => d ++ [pid; ppid])) None None None.
Definition ex_user : api (list Z) := mk_api 20 true installed ex_callbacks [] [] [] 0 1 (fun _ => mk_ugrant true 4096 0 20) 0.
Definition ex_world : director (api (list Z)) :=
  mk_director 77 1 20 ∅ [] ∅
    [(DIRECTOR_REGISTER_PID, (Do_register_pid, None)); (DIRECTOR_SEND_GENERIC_USER_MESSAGE, (Do_send_user_message, None));
     (DIRECTOR_NPM_RESPONSE, (Do_tx, Some 1)); (DIRECTOR_NODE_CONNECT_RESPONSE, (Do_tx, Some 2));
     (DIRECTOR_IMMIGRATION_REQUEST_RESPONSE, (Do_tx, Some 3)); (DIRECTOR_ACK, (Do_tx, Some 4))]
    (mk_refs (Some 1) (Some 2) (Some 4) (Some 3)) ∅ None [] [] 5 (fun _ => mk_dgrant true 0 63000) 0 ex_user.
Lemma ex_world_ready : ready 63000 ex_world.
Proof.
  split; try done.
  - intros p _. split; [done|apply not_elem_of_nil].
  - intros c [->|[->|[->| ->]]]; done.
Qed.
Lemma director_decides_witness :
  exists w', director_npm_check (served 2 3 false 5) (served 2 3 false 5) 100 0 0 [108; 115] (Some [[108; 115]; [45; 108]]) (Some []) None (0, 0) (-1) 0 ex_world =
    Ret (1, (4, 0)) w' /\ settled ex_world w' [100; 3] 0.
Proof.
  apply (director_decides 0 0 false 63000 ex_world 100 0 0 [108; 115] [[108; 115]; [45; 108]] [] None 5 5 (0, 0) (-1) 0); try done; [apply ex_world_ready|..].
  all: by vm_compute.
Defined.
Lemma notices_delivered_witness :
  exists w', notify (served 2 3 false 5) (N_fork 101 100) 9 ex_world = Ret (0, 9) w' /\ answered ex_world w' [101; 100] 0.
Proof. apply (notices_delivered 0 0 false 63000 ex_world (N_fork 101 100) 9 5); try done. apply ex_world_ready. Defined.
