(* ===== verification/DirectorFail.v ===== *)
(** The director interface when something goes wrong: requests that the library cannot read,
    a director that is gone, and responses that come too late. *)

From stdpp Require Import gmap.
From S2P Require Import Prelude Effect Netlink Director DirectorMsg DirectorApi DirectorServe DirectorCall DirectorDecide.

(** ** A request that is too large for the library *)

Section lost.
Context `{Nla} {D : Type} (fuel recv_fuel : nat).
Implicit Type w : director (api D).
Implicit Type u : api D.
Abbreviation wake left := (served (D := D) (S (S fuel)) (S (S (S recv_fuel))) false left).

(** The message is taken from the socket and cut off, and the next read sleeps. *)
Lemma large_is_lost u m :
  willing u -> inbox u = [m] -> 40960 < NLMSG_HDRLEN + zlen (nl_data m) ->
  exists t, run_processing_callback (S (S fuel)) (S (S (S recv_fuel))) false false u = Stop Gone (set_inbox [] (set_u_tick t u)).
Proof.
  intros Hw Hq Hn. exists (S (S (S (u_tick u)))). cbn [run_processing_callback]. rewrite (bind_run (gets inbox) _ u _ u eq_refl), Hq.
  rewrite (bool_decide_false (_ :: _ = [])) by done. cbn [negb andb].
  assert (He : forall n, ua_errno (u_grants u n) = 0) by (intros n; apply Hw).
  assert (Hr : read_message (S (S (S recv_fuel))) false u = Stop Gone (set_inbox [] (set_u_tick (S (S (S (u_tick u)))) u))).
  { unfold read_message, nl_recv_fixed. rewrite (bind_run _ _ _ _ _ (ask_run u)), He. cbn [Z.eqb negb].
    unfold mbind at 1, eff_bind at 1. rewrite (recv_step (set_u_tick (S (u_tick u)) u) _ false _ m []) by done. cbv zeta.
    rewrite (proj2 (Z.ltb_lt _ _)) by lia. cbn [recv_loop]. erewrite bind_run; [|apply ask_run].
    change (u_grants _ _) with (u_grants u (S (S (u_tick u)))). rewrite He. done. }
  unfold mbind at 1, eff_bind at 1. by rewrite Hr.
Qed.

(** The state of the library when a message was lost. *)
Definition user_lost u (t : nat) : api D :=
  mk_api (gnl_fid u) (has_handle u) (handlers u) (cbs u) (app u) [] [] (live u) (h_seq_next u) (u_grants u) t.

Lemma serve_lost room w w1 m :
  ready room w -> d_user w1 = d_user w -> to_user w1 = [m] -> 40960 < NLMSG_HDRLEN + zlen (nl_data m) ->
  exists t, wk_act (wake 1) w1 = Ret tt (dstate w1 (director_seq w1) (itxs w1) (transactions w1) (skbs w1) [] (d_next w1) (d_tick w1) (user_lost (d_user w) t)).
Proof.
  intros [_ _ _ _ _ _ _ _ Hw Hin Hsent _] Hu Hq Hn.
  destruct (large_is_lost (set_inbox [m] (d_user w)) m Hw eq_refl Hn) as [t Hrun].
  exists t. cbn [wk_act served]. unfold serve. erewrite bind_run; [|done]. erewrite bind_run; [|done]. rewrite Hq.
  erewrite bind_run; [|done]. cbn [d_user set_to_user]. rewrite Hu, Hin. cbn [List.app].
  erewrite bind_run; [|unfold background, lift_user; cbn [d_user set_user]; rewrite Hrun; reflexivity].
  erewrite bind_run; [|done]. erewrite bind_run; [|done]. cbn [d_user set_user sent set_inbox set_u_tick]. rewrite Hsent. done.
Qed.

(** Nobody answers: the transaction is dropped. *)
Lemma read_response_timeout w w' p x x' tx k :
  transactions w = p :: tx -> itxs w !! p = Some x -> wk_act k w = Ret tt w' -> wk_signal k = false -> wk_late k = mret tt ->
  itxs w' !! p = Some x' -> itx_done x' = false ->
  genlmsg_read_response k (tx_seq x) w =
  Ret (- ETIME, (None, None)) (dstate w' (director_seq w') (delete p (itxs w')) (list_del p (transactions w')) (skbs w') (to_user w') (d_next w')
                                 (d_tick w') (d_user w')).
Proof.
  intros Ht Hp Hact Hsig Hlate Hp' Hdone. unfold genlmsg_read_response. step (find_head w p x tx Ht Hp). cbn iota.
  step Hact. step (itx_run _ _ _ Hp'). rewrite Hdone, Hlate, Hsig, andb_false_r. erewrite bind_run; [|done]. step (itx_run _ _ _ Hp').
  erewrite bind_run; [|done]. erewrite bind_run; [|by apply itx_run]. by erewrite bind_run; [|done].
Qed.

Definition unanswered w w' : Prop :=
  exists nx tk t sq, w' = dstate w sq (itxs w) (transactions w) (skbs w) [] nx tk (user_lost (d_user w) t).

Lemma transaction_lost {P} room w code (ops : msg_transaction_ops P) params intr l left :
  ready room w -> appends (create_request ops params) l -> size_of l <= room - 20 -> 40960 < 20 + size_of l ->
  exists w', msg_transaction_do (wake left) code ops params intr w = Ret (- ETIME, params) w' /\ unanswered w w'.
Proof.
  intros Hr Ha Hs Hlarge. set (p := d_next w + 1). set (x := mk_itx (next_seq w) None None intr false). unfold msg_transaction_do.
  step (request_run room w code ops params intr l Hr Ha Hs). cbn [Z.eqb negb]. fold p x.
  set (w1 := dstate _ _ _ _ _ _ _ _ _). assert (Hp1 : itxs w1 !! p = Some x) by apply lookup_insert_eq.
  destruct (serve_lost room w w1 (request (family_id w) code (next_seq w) l)) as [t Hserve]; try done.
  { unfold request. cbn [nl_data]. rewrite zlen_app, zlen_encode. change (zlen [code; 1; 0; 0]) with 4. unfold NLMSG_HDRLEN. lia. }
  set (w2 := dstate _ _ _ _ _ _ _ _ _) in Hserve.
  unfold msg_transaction_response. change (next_seq w) with (tx_seq x).
  step (read_response_timeout w1 w2 p x x (transactions w) (wake left) eq_refl Hp1 Hserve eq_refl eq_refl Hp1 eq_refl). cbn [Z.eqb negb].
  eexists. split; [done|]. eexists _, _, t, _. destruct Hr as [_ _ _ Hitx _ _ _ _ _ _ _ _].
  transitivity (dstate w s32[director_seq w + 1] (delete p (<[p := x]> (itxs w))) (list_del p (p :: transactions w)) (skbs w) [] (p + 1)
    (S (S (S (d_tick w)))) (user_lost (d_user w) t)); [done|].
  rewrite delete_insert_id, list_del_head; [done|apply Hitx; lia|apply Hitx; lia].
Qed.

(** C38: When the director's first decision on an execve asks for the arguments, and these with the
    environment take more than ten pages but fit the kernel's socket buffer, the library takes the
    second request from its socket, cut off, and reads the next message in its place (message
    peeking is off): the callback for the full check is not called, the director sleeps, the process
    waits for the whole timeout and is not migrated.  (A first decision that does not ask for the
    arguments is not concerned: it is carried out as [director_decides] shows.) *)
Theorem large_arguments_time_out room w pid uid is_guest name args envp rusage left1 left2 undef migman home :
  ready room w -> u32[director_seq w + 1] <> 0 -> 0 < left1 -> srange 32 pid -> urange 32 uid ->
  sendable false room (check_attrs pid uid is_guest name rusage) ->
  let r := checked (cbs (d_user w)) pid uid is_guest name rusage (app (d_user w)) in
  needs_more s32[r.1.1] = true ->
  size_of (full_attrs pid uid is_guest name args envp) <= room - 20 -> 40960 < 20 + size_of (full_attrs pid uid is_guest name args envp) ->
  exists w', director_npm_check (wake left1) (wake left2) pid uid is_guest name (Some args) (Some envp) rusage undef migman home w =
               Ret (- ETIME, (migman, home)) w' /\
             app (d_user w') = r.2 /\ inbox (d_user w') = [] /\ transactions w' = transactions w /\ to_user w' = [].
Proof.
  intros Hr Hs1 Hl1 Hp Hu Hc r Hm Hfit Hlarge.
  destruct (npm_check_run fuel recv_fuel false room w pid uid is_guest name rusage left1 undef) as (w1 & Hrun1 & Ha1); try done.
  { unfold next_seq. by rewrite u32_s32. }
  pose proof (ready_settled _ _ _ _ _ Hr (answered_settled _ _ _ _ Ha1)) as Hr1.
  unfold director_npm_check. step Hrun1. cbn iota. cbn [Z.eqb negb fst]. fold r. unfold needs_more in Hm. rewrite Hm.
  destruct (transaction_lost room w1 DIRECTOR_CHECK_FULL_NPM npm_check_full_msg_ops
    (mk_npm_check pid uid is_guest name None (Some args) (Some envp) s32[r.1.1] s32[r.1.2]) false
    (full_attrs pid uid is_guest name args envp) left2) as (w2 & Hrun2 & Hun); try done.
  { by apply (appends_full (mk_npm_check pid uid is_guest name None (Some args) (Some envp) s32[r.1.1] s32[r.1.2])). }
  unfold npm_check_full. rewrite bind_assoc_run. step Hrun2. cbn iota. erewrite bind_run; [|done]. cbn iota. cbn [Z.eqb negb ETIME Z.opp].
  exists w2. split; [done|]. destruct Hun as (? & ? & ? & ? & ->). destruct Ha1 as (? & ? & ? & _ & ->). done.
Qed.
End lost.

(** ** A director that is gone *)

Section dead.
Context `{Nla} {U : Type}.
Implicit Type w : director U.

Lemma cancel_freed w a : skbs w !! a = None -> genlmsg_cancel a w = Fault.
Proof. intros Ha. unfold genlmsg_cancel, skb_at. run. by rewrite Ha. Qed.

(** When the process that registered as the director is gone, the message cannot be sent, and the
    error path writes to the socket buffer, which the failed send has freed already: every call of
    the director touches freed memory.  (The registration is never taken back.) *)
Theorem dead_director_faults {P} w k code (ops : msg_transaction_ops P) params intr s :
  user_director_pid w <> 0 -> dg_ok (d_grants w (d_tick w)) = true -> 20 <= dg_room (d_grants w (d_tick w)) ->
  create_request ops params (mk_skb (dg_room (d_grants w (d_tick w)) - 20) [] None) = (0, s) ->
  dg_ok (d_grants w (S (d_tick w))) = true -> dg_rc (d_grants w (S (S (d_tick w)))) <> 0 ->
  msg_transaction_do k code ops params intr w = Fault.
Proof.
  intros Hpid Hok Hroom Hc Hok2 Hrc. unfold msg_transaction_do, msg_transaction_request, is_director_connected, d_ask, d_fresh, get_unique_seq. run.
  rewrite (proj2 (Z.eqb_neq _ 0)), Hok by done. cbn [negb]. rewrite (proj2 (Z.ltb_ge _ 20)) by done. rewrite Hc. cbn [Z.ltb Z.compare].
  set (a := d_next _). set (w1 := set_skbs (insert a _) (set_skbs _ _)).
  set (m := mk_nlmsg _ _ false ([code; 1; 0; 0] ++ _)) in w1.
  assert (Ha : skbs w1 !! a = Some (1, m)) by apply lookup_insert_eq.
  assert (Hu : exists w2, genlmsg_unicast_tx a (Some 0) intr w1 = Ret (dg_rc (d_grants w (S (S (d_tick w)))), Some (nlmsg_seq m)) w2 /\ skbs w2 !! a = None).
  { unfold genlmsg_unicast_tx, d_ask, d_fresh. run. change (d_grants w1 (d_tick w1)) with (d_grants w (S (d_tick w))). rewrite Hok2. cbn [negb].
    unfold skb_at, genlmsg_unicast, skb_at, d_ask. run. change (skbs (set_next _ _)) with (skbs w1). rewrite Ha.
    change (skbs (set_txs _ _ _)) with (skbs w1). rewrite Ha.
    match goal with |- context [dg_rc ?g =? 0] => change g with (d_grants w (S (S (d_tick w)))) end.
    rewrite (proj2 (Z.eqb_neq _ 0)) by done. eexists. split; [done|]. apply lookup_delete_eq. }
  destruct Hu as (w2 & Hu & Hf). rewrite Hu. rewrite (proj2 (Z.eqb_neq _ 0)) by done. cbn [negb]. by rewrite cancel_freed.
Qed.
End dead.

(** ** Late responses *)

Section late.
Context `{Nla} {U : Type}.
Implicit Type w : director U.

(** The handler of responses looks up the transaction under the lock but fills it in without: when
    the caller gives up in between, it frees the transaction, and the handler writes to freed
    memory. *)
Theorem late_response_faults w skb p n m x :
  skbs w !! skb = Some (n, m) -> handler_find skb w = Ret (Some p) w -> itxs w !! p = Some x -> itx_done x = false ->
  exists w', genlmsg_read_response (mk_wakeup (mret tt) false 0 (mret tt)) (nlmsg_seq m) w = Ret (- ETIME, (None, None)) w' /\
             handler_store p skb w' = Fault.
Proof.
  intros Hk Hf Hx Hd. unfold handler_find, skb_at, __find_itx in Hf. revert Hf. run. rewrite Hk. intros Hf.
  set (w' := set_txs (delete p) (list_del p) w). exists w'.
  assert (Hi : itx p w = Ret x w) by (unfold itx; run; by rewrite Hx).
  split.
  - unfold genlmsg_read_response, __find_itx. rewrite bind_assoc_run. erewrite bind_run; [|done]. step Hf. cbn iota. cbn [wk_act wk_late wk_signal].
    erewrite bind_run; [|done]. step Hi. rewrite Hd, andb_false_r. erewrite bind_run; [|done]. step Hi. erewrite bind_run; [|done].
    erewrite bind_run; [|unfold itx; run; cbn [itxs set_txs]; unfold id; by rewrite Hx]. by erewrite bind_run; [|done].
  - unfold handler_store, skb_get, skb_at, itx. run. change (skbs w') with (skbs w). rewrite Hk. cbn [itxs set_skbs w' set_txs].
    by rewrite lookup_delete_eq.
Qed.
End late.

(** ** Examples *)

#[local] Existing Instance nla_tlv.
Definition long_argument : list Z := replicate (Z.to_nat 45000) 65.
Lemma large_arguments_time_out_witness :
  exists w', director_npm_check (served 2 3 false 5) (served 2 3 false 5) 100 0 0 [108; 115] (Some [long_argument]) (Some []) None (0, 0) (-1) 0 ex_world =
    Ret (- ETIME, (-1, 0)) w' /\ app (d_user w') = [100] /\ inbox (d_user w') = [] /\ transactions w' = [] /\ to_user w' = [].
Proof.
  apply (large_arguments_time_out 0 0 63000 ex_world 100 0 0 [108; 115] [long_argument] [] None 5 5 (0, 0) (-1) 0);
    [apply ex_world_ready|done|done|done|done|by vm_compute|done|vm_compute; discriminate|vm_compute; reflexivity].
Defined.
Definition gone_world : director unit :=
  mk_director 77 1 20 ∅ [] ∅ [] (mk_refs None None None None) ∅ None [] [] 5 (fun _ => mk_dgrant true (- 111) 63000) 0 tt.
Lemma dead_director_faults_witness :
  msg_transaction_do (mk_wakeup (mret tt) false 0 (mret tt)) DIRECTOR_TASK_FORK task_forked_msg_ops (mk_forked 101 100) true gone_world = Fault.
Proof. eapply (dead_director_faults gone_world); done. Defined.
Definition late_world : director unit :=
  mk_director 77 2 20 {[ 6 := mk_itx 2 None None true false ]} [6] {[ 7 := (1, mk_nlmsg 20 2 false [DIRECTOR_ACK; 1; 0; 0]) ]}
    [] (mk_refs None None None None) ∅ None [] [] 8 (fun _ => mk_dgrant true 0 63000) 0 tt.
Lemma late_response_faults_witness :
  exists w', genlmsg_read_response (mk_wakeup (mret tt) false 0 (mret tt)) 2 late_world = Ret (- ETIME, (None, None)) w' /\
             handler_store 6 7 w' = Fault.
Proof. apply (late_response_faults late_world 7 6 1 (mk_nlmsg 20 2 false [DIRECTOR_ACK; 1; 0; 0]) (mk_itx 2 None None true false)); by vm_compute. Defined.
