(* ===== verification/DirectorTx.v ===== *)
(** The transactions of genl_ext.c under any interleaving of senders, responses and waiting callers:
    they refine a list of numbers, each with the response that arrived for it. *)

From stdpp Require Import gmap.
From S2P Require Import Prelude Effect Netlink Director.

(** What happens: a request is sent; the handler looks up the transaction of a message that
    arrived; it stores the message in the transaction; a caller stops waiting (because of the
    response, a signal or the timeout) and removes its transaction. *)
Inductive gop :=
| G_send (seq : Z) (intr : bool)
| G_find (m : nlmsg)
| G_store
| G_finish (seq : Z) (signal : bool) (remaining : Z).
Inductive gout := O_num (r : Z) | O_found | O_msg (m : nlmsg).

(** ** Specification *)

(** Outstanding requests, the newest first: whether signals interrupt it, and its response. *)
Definition outstanding : Type := list (Z * (bool * option nlmsg)).
Fixpoint tfind (s : Z) (l : outstanding) : option (bool * option nlmsg) :=
  match l with [] => None | (k, v) :: l => if k =? s then Some v else tfind s l end.
Fixpoint tset (s : Z) (m : nlmsg) (l : outstanding) : outstanding :=
  match l with [] => [] | (k, v) :: l => if k =? s then (k, (v.1, Some m)) :: l else (k, v) :: tset s m l end.
Fixpoint tdel (s : Z) (l : outstanding) : outstanding :=
  match l with [] => [] | (k, v) :: l => if k =? s then l else (k, v) :: tdel s l end.

(** With the message that the handler has found a request for and not yet stored. *)
Definition spec_step (o : gop) (st : outstanding * option nlmsg) : gout * (outstanding * option nlmsg) :=
  let '(l, b) := st in
  match o with
  | G_send s i => (O_num 0, ((s, (i, None)) :: l, b))
  | G_find m => match tfind (nlmsg_seq m) l with None => (O_num (- EINVAL), (l, b)) | Some _ => (O_found, (l, Some m)) end
  | G_store => match b with None => (O_num 0, (l, b)) | Some m => (O_num 0, (tset (nlmsg_seq m) m l, None)) end
  | G_finish s signal remaining =>
      match tfind s l with
      | None => (O_num (- EINVAL), (l, b))
      | Some (i, None) => (O_num (if i && signal then - ERESTARTSYS else - ETIME), (tdel s l, b))
      | Some (i, Some m) => (if 0 <? remaining then O_msg m else O_num (- ETIME), (tdel s l, b))
      end
  end.
Fixpoint spec_run (os : list gop) (st : outstanding * option nlmsg) : list gout * (outstanding * option nlmsg) :=
  match os with [] => ([], st) | o :: os => let '(r, st) := spec_step o st in let '(rs, st) := spec_run os st in (r :: rs, st) end.

(** The interleavings that are considered: a new request has a number that is not outstanding,
    netlink handles one message after the other, and no caller removes its transaction while the
    handler, which has found it, is about to store the response (the code has nothing against
    that: [late_response_faults]). *)
Definition allowed (o : gop) (st : outstanding * option nlmsg) : Prop :=
  match o with
  | G_send s _ => tfind s st.1 = None
  | G_find _ => st.2 = None
  | G_store => st.2 <> None
  | G_finish s _ r => 0 <= r /\ forall m, st.2 = Some m -> nlmsg_seq m <> s
  end.
Fixpoint allowed_run (os : list gop) (st : outstanding * option nlmsg) : Prop :=
  match os with [] => True | o :: os => allowed o st /\ allowed_run os (spec_step o st).2 end.

Section tx.
Context `{Nla} {U : Type}.
Abbreviation M := (eff (director U)).
Implicit Type w : director U.

(** ** The code *)

(** [h]: the buffer and the transaction of the handler between its two halves. *)
Definition tx_step (o : gop) (h : option (Z * Z)) : M (gout * option (Z * Z)) :=
  match o with
  | G_send s i =>
      a ← d_fresh; fid ← gets family_id; modify (set_skbs (insert a (1, mk_nlmsg fid s false [])));;
      '(r, _) ← genlmsg_unicast_tx a (Some 0) i; mret (O_num r, h)
  | G_find m =>
      a ← d_fresh; modify (set_skbs (insert a (1, m)));; p ← handler_find a;
      match p with
      | None => kfree_skb a;; mret (O_num (- EINVAL), None)
      | Some p => mret (O_found, Some (a, p))
      end
  | G_store =>
      '(a, p) ← valid h; r ← handler_store p a; kfree_skb a;; mret (O_num r, None)
  | G_finish s signal remaining =>
      '(r, (skb, info)) ← genlmsg_read_response (mk_wakeup (mret tt) signal remaining (mret tt)) s;
      if negb (r =? 0) then mret (O_num r, h)
      else info ← valid info; '(_, m) ← skb_at info; skb ← valid skb; kfree_skb skb;; mret (O_msg m, h)
  end.
Fixpoint tx_run (os : list gop) (h : option (Z * Z)) : M (list gout) :=
  match os with [] => mret [] | o :: os => '(r, h) ← tx_step o h; rs ← tx_run os h; mret (r :: rs) end.

(** ** The relation *)

(** A transaction [x] stands for an entry; its response is in a buffer with one reference. *)
Definition stands (sk : gmap Z (Z * nlmsg)) (x : genl_tx_internal) (e : Z * (bool * option nlmsg)) : Prop :=
  tx_seq x = e.1 /\ interuptible x = e.2.1 /\
  match e.2.2 with
  | None => itx_done x = false /\ itx_skb x = None /\ itx_info x = None
  | Some m => itx_done x = true /\ exists a, itx_skb x = Some a /\ itx_info x = Some a /\ sk !! a = Some (1, m)
  end.
Definition entries (it : gmap Z genl_tx_internal) (sk : gmap Z (Z * nlmsg)) : list Z -> outstanding -> Prop :=
  Forall2 (fun p e => exists x, it !! p = Some x /\ stands sk x e).
Record models (it : gmap Z genl_tx_internal) (ts : list Z) (sk : gmap Z (Z * nlmsg)) (nx : Z) (l : outstanding) : Prop := {
  t_entries : entries it sk ts l;
  t_nodup : NoDup ts;
  t_fresh p : nx <= p -> (p ∉ ts) /\ sk !! p = None;
  t_own p q x y a : p ∈ ts -> q ∈ ts -> it !! p = Some x -> it !! q = Some y -> itx_skb x = Some a -> itx_skb y = Some a -> p = q
}.
(** The handler between its halves holds a buffer that no transaction has, and a transaction with
    the number of its message. *)
Definition handles (it : gmap Z genl_tx_internal) (ts : list Z) (sk : gmap Z (Z * nlmsg)) (h : option (Z * Z)) (b : option nlmsg) : Prop :=
  match h, b with
  | None, None => True
  | Some (a, p), Some m => (p ∈ ts) /\ (exists x, it !! p = Some x /\ tx_seq x = nlmsg_seq m) /\ sk !! a = Some (1, m) /\
      forall q y, q ∈ ts -> it !! q = Some y -> itx_skb y <> Some a
  | _, _ => False
  end.
Definition granted w : Prop := forall n, dg_ok (d_grants w n) = true /\ dg_rc (d_grants w n) = 0.
Record refines w (h : option (Z * Z)) (st : outstanding * option nlmsg) : Prop := {
  r_models : models (itxs w) (transactions w) (skbs w) (d_next w) st.1;
  r_numbers : NoDup st.1.*1;
  r_handles : handles (itxs w) (transactions w) (skbs w) h st.2;
  r_granted : granted w
}.

Lemma find_models w l s : forall ps, entries (itxs w) (skbs w) ps l ->
  match tfind s l with
  | None => find_itx ps s w = Ret None w
  | Some v => exists ps1 p ps2 l1 l2 x, ps = ps1 ++ p :: ps2 /\ l = l1 ++ (s, v) :: l2 /\ find_itx ps s w = Ret (Some p) w /\
      itxs w !! p = Some x /\ stands (skbs w) x (s, v) /\ length ps1 = length l1 /\ tdel s l = l1 ++ l2 /\ forall m, tset s m l = l1 ++ (s, (v.1, Some m)) :: l2
  end.
Proof.
  induction l as [|[k v] l IH]; intros ps Hf; [by inversion Hf|]. inversion Hf as [|p e ps' l' (x & Hx & Hst) Hf']; subst.
  cbn [tfind tdel tset]. assert (Hs : tx_seq x = k) by apply Hst.
  assert (Hi : itx p w = Ret x w) by (unfold itx; run; by rewrite Hx).
  destruct (k =? s) eqn:E.
  - bool_hyps. subst s. exists [], p, ps', [], l, x. do 2 (split; [done|]). split; [|done].
    cbn [find_itx]. step Hi. by rewrite Hs, Z.eqb_refl.
  - specialize (IH ps' Hf'). cbn [find_itx]. destruct (tfind s l) as [v'|].
    + destruct IH as (ps1 & q & ps2 & l1 & l2 & y & -> & -> & Hfi & Hy & Hsty & Hlen & Hdel & Hset).
      exists (p :: ps1), q, ps2, ((k, v) :: l1), l2, y. split; [done|]. split; [done|]. split; [step Hi; by rewrite Hs, E|].
      split; [done|]. split; [done|]. split; [cbn [length]; lia|]. split; [by rewrite Hdel|]. intros m. by rewrite Hset.
    + step Hi. by rewrite Hs, E.
Qed.

Lemma entries_frame it it' sk sk' ps l :
  entries it sk ps l ->
  (forall p x, p ∈ ps -> it !! p = Some x -> it' !! p = Some x) ->
  (forall p x a, p ∈ ps -> it !! p = Some x -> itx_skb x = Some a -> sk' !! a = sk !! a) ->
  entries it' sk' ps l.
Proof.
  intros Hf Hi Hs. induction Hf as [|p [k [i o]] ps l (x & Hx & Hst) Hf IH]; constructor.
  - exists x. split; [apply Hi; [left|done]|]. destruct Hst as (H1 & H2 & H3). split; [done|]. split; [done|]. destruct o as [m|]; [|done].
    destruct H3 as (Hd & a & Ha & Ha' & Hk). split; [done|]. exists a. split; [done|]. split; [done|]. by rewrite (Hs p x a) by (done || left).
  - apply IH; intros; [apply Hi|eapply Hs]; try done; by right.
Qed.
(** The buffer of an outstanding response exists. *)
Lemma entry_skb it sk ps l p x a : entries it sk ps l -> p ∈ ps -> it !! p = Some x -> itx_skb x = Some a -> is_Some (sk !! a).
Proof.
  intros He Hp Hx Ha. apply list_elem_of_lookup_1 in Hp as [j Hj].
  destruct (Forall2_lookup_l _ _ _ _ _ He Hj) as ([k [i [m|]]] & _ & y & Hy & (_ & _ & Hst)).
  - rewrite Hx in Hy. injection Hy as <-. destruct Hst as (_ & b & Hb & _ & Hk). rewrite Ha in Hb. injection Hb as <-. by eexists.
  - rewrite Hx in Hy. injection Hy as <-. destruct Hst as (_ & Hn & _). by rewrite Ha in Hn.
Qed.
Lemma list_del_middle (p : Z) ps1 ps2 : NoDup (ps1 ++ p :: ps2) -> list_del p (ps1 ++ p :: ps2) = ps1 ++ ps2.
Proof.
  intros (H1 & H2 & H3)%NoDup_app. apply NoDup_cons in H3 as [H3 _]. rewrite list_del_app, list_del_head by done. f_equal.
  apply list_del_notin. intros Hp. apply (H2 p Hp). left.
Qed.


(** ** The operations on the relation *)

Lemma models_send it ts sk nx l s i :
  models it ts sk nx l -> models (<[nx + 1 := mk_itx s None None i false]> it) (nx + 1 :: ts) sk (nx + 1 + 1) ((s, (i, None)) :: l).
Proof.
  intros [He Hn Hf Ho]. assert (Hnew : nx + 1 ∉ ts) by (apply Hf; lia). split.
  - constructor; [exists (mk_itx s None None i false); split; [apply lookup_insert_eq|done]|].
    eapply entries_frame; [exact He| |done]. intros p x Hp Hx. rewrite lookup_insert_ne; [done|]. intros <-. done.
  - by constructor.
  - intros p Hp. split; [|apply Hf; lia]. apply not_elem_of_cons. split; [lia|]. apply Hf. lia.
  - intros p q x y b Hp Hq Hx Hy Hxb Hyb.
    destruct (decide (p = nx + 1)) as [->|Hpn]; [rewrite lookup_insert_eq in Hx; by injection Hx as <-|].
    destruct (decide (q = nx + 1)) as [->|Hqn]; [rewrite lookup_insert_eq in Hy; by injection Hy as <-|].
    rewrite lookup_insert_ne in Hx, Hy by done. apply elem_of_cons in Hp as [->|Hp]; [done|]. apply elem_of_cons in Hq as [->|Hq]; [done|]. by eapply Ho.
Qed.
Lemma models_next it ts sk nx nx' l : models it ts sk nx l -> nx <= nx' -> models it ts sk nx' l.
Proof. intros [He Hn Hf Ho] Hle. split; [done|done| |done]. intros p Hp. apply Hf. lia. Qed.
(** A buffer that nobody has. *)
Lemma models_skb it ts sk nx l m : models it ts sk nx l -> models it ts (<[nx := (1, m)]> sk) (nx + 1) l.
Proof.
  intros [He Hn Hf Ho]. split; [|done| |done].
  - eapply entries_frame; [exact He|done|]. intros p x a Hp Hx Ha. apply lookup_insert_ne. intros <-.
    destruct (entry_skb _ _ _ _ _ _ _ He Hp Hx Ha) as [v Hv]. by rewrite (proj2 (Hf nx (Z.le_refl _))) in Hv.
  - intros q Hq. split; [apply Hf; lia|]. rewrite lookup_insert_ne by lia. apply Hf. lia.
Qed.
Lemma models_store it ts1 p ts2 sk nx l1 s i o l2 x a m :
  models it (ts1 ++ p :: ts2) sk nx (l1 ++ (s, (i, o)) :: l2) -> length ts1 = length l1 -> it !! p = Some x -> stands sk x (s, (i, o)) ->
  sk !! a = Some (1, m) -> (forall q y, q ∈ ts1 ++ p :: ts2 -> it !! q = Some y -> itx_skb y <> Some a) ->
  models (<[p := mk_itx (tx_seq x) (Some a) (Some a) (interuptible x) true]> it) (ts1 ++ p :: ts2) sk nx
    (l1 ++ (s, (i, Some m)) :: l2).
Proof.
  intros [He Hn Hf Ho] Hlen Hp (Hs & Hi & _) Ha Hfr. destruct (Forall2_app_inv _ _ _ _ _ Hlen He) as [He1 He2]. inversion He2 as [|? ? ? ? _ He3]; subst.
  apply NoDup_app in Hn as Hn'. destruct Hn' as (_ & Hnd1 & Hnd2). apply NoDup_cons in Hnd2 as [Hnd2 _].
  assert (Hframe : forall ps l, entries it sk ps l -> p ∉ ps ->
    entries (<[p := mk_itx (tx_seq x) (Some a) (Some a) (interuptible x) true]> it) sk ps l).
  { intros ps l Hps Hnp. eapply entries_frame; [exact Hps| |done].
    intros q y Hq Hy. rewrite lookup_insert_ne; [done|]. intros <-. done. }
  split; [|done|done|].
  - apply Forall2_app; [apply Hframe; [done|intros Hp1; apply (Hnd1 p Hp1); left]|].
    constructor; [|by apply Hframe].
    eexists. split; [apply lookup_insert_eq|]. split; [done|]. split; [done|]. split; [done|]. by exists a.
  - intros q r y z b Hq Hr Hy Hz Hyb Hzb.
    destruct (decide (q = p)) as [->|Hqp], (decide (r = p)) as [->|Hrp]; [done| | |].
    + rewrite lookup_insert_eq in Hy. injection Hy as <-. injection Hyb as <-. rewrite lookup_insert_ne in Hz by done. by destruct (Hfr r z).
    + rewrite lookup_insert_eq in Hz. injection Hz as <-. injection Hzb as <-. rewrite lookup_insert_ne in Hy by done. by destruct (Hfr q y).
    + rewrite lookup_insert_ne in Hy, Hz by done. by eapply Ho.
Qed.
(** A transaction ends; the buffer [b] of its response may be freed. *)
Lemma models_finish it ts1 p ts2 sk nx l1 e l2 x b :
  models it (ts1 ++ p :: ts2) sk nx (l1 ++ e :: l2) -> length ts1 = length l1 -> it !! p = Some x ->
  (b = None \/ b = itx_skb x) ->
  models (delete p it) (ts1 ++ ts2) (match b with Some a => delete a sk | None => sk end) nx (l1 ++ l2).
Proof.
  intros [He Hn Hf Ho] Hlen Hp Hb. destruct (Forall2_app_inv _ _ _ _ _ Hlen He) as [He1 He2]. inversion He2 as [|? ? ? ? _ He3]; subst.
  apply NoDup_app in Hn as Hn'. destruct Hn' as (Hnt1 & Hnd1 & Hnd2). apply NoDup_cons in Hnd2 as [Hnd2 Hnt2].
  assert (Hin : forall q, q ∈ ts1 ++ ts2 -> q ∈ ts1 ++ p :: ts2 /\ q <> p).
  { intros q Hq. apply elem_of_app in Hq as [Hq|Hq]; (split; [apply elem_of_app|intros ->]); [by left|apply (Hnd1 p Hq); left|right; by right|done]. }
  assert (Hframe : forall ps l, entries it sk ps l -> (forall q, q ∈ ps -> q ∈ ts1 ++ ts2) ->
    entries (delete p it) (match b with Some a => delete a sk | None => sk end) ps l).
  { intros ps l Hps Hsub. eapply entries_frame; [exact Hps| |].
    - intros q y Hq Hy. destruct (Hin q (Hsub q Hq)). by rewrite lookup_delete_ne.
    - intros q y a Hq Hy Ha. destruct b as [b|]; [|done]. destruct Hb as [Hb|Hb]; [done|]. rewrite lookup_delete_ne; [done|]. intros ->.
      destruct (Hin q (Hsub q Hq)) as [Hq' Hqp]. apply Hqp. apply (Ho q p y x a); try done. apply elem_of_app. right. left. }
  split.
  - apply Forall2_app; apply Hframe; try done; intros q Hq; apply elem_of_app; auto.
  - apply NoDup_app. split; [done|]. split; [|done]. intros q Hq Hq2. apply (Hnd1 q Hq). by right.
  - intros q Hq. destruct (Hf q Hq) as [H1 H2]. split; [intros Hx; by apply H1, Hin|]. destruct b; [|done]. by rewrite lookup_delete_None; right.
  - intros q r y z a Hq Hr Hy Hz Hya Hza. destruct (Hin q Hq), (Hin r Hr). rewrite lookup_delete_ne in Hy, Hz by done. by eapply Ho.
Qed.

(** ** Refinement *)

Lemma at_skb w a v : skbs w !! a = Some v -> skb_at a w = Ret v w.
Proof. intros Ha. unfold skb_at. run. by rewrite Ha. Qed.
Lemma at_itx w p x : itxs w !! p = Some x -> itx p w = Ret x w.
Proof. intros Hp. unfold itx. run. by rewrite Hp. Qed.

Lemma numbers_notin s (l : outstanding) : tfind s l = None -> s ∉ l.*1.
Proof.
  induction l as [|[k v] l IH]; cbn; [by intros _ ?%elem_of_nil|]. destruct (k =? s) eqn:E; [done|]. intros Hf [->|Hs]%elem_of_cons; [lia|by apply IH].
Qed.
Lemma numbers_set s m (l : outstanding) : (tset s m l).*1 = l.*1.
Proof. induction l as [|[k v] l IH]; cbn; [done|]. destruct (k =? s); cbn; by rewrite ?IH. Qed.
Lemma numbers_del s (l : outstanding) : NoDup l.*1 -> NoDup (tdel s l).*1.
Proof.
  assert (Hsub : forall l : outstanding, (tdel s l).*1 ⊆ l.*1).
  { induction l0 as [|[k v] l0 IH]; cbn; [done|]. destruct (k =? s); cbn; set_solver. }
  induction l as [|[k v] l IH]; cbn; [done|]. intros [Hk Hn]%NoDup_cons. destruct (k =? s); [done|]. cbn. constructor; [|by apply IH].
  intros Hin. by apply Hk, Hsub.
Qed.
(** The transaction with a number is the one that is found. *)
Lemma same_number it sk ts l p q x y :
  entries it sk ts l -> NoDup l.*1 -> p ∈ ts -> q ∈ ts -> it !! p = Some x -> it !! q = Some y -> tx_seq x = tx_seq y -> p = q.
Proof.
  intros He Hn Hp Hq Hx Hy Hs. apply list_elem_of_lookup_1 in Hp as [i Hi], Hq as [j Hj].
  destruct (Forall2_lookup_l _ _ _ _ _ He Hi) as (e & Hei & x' & Hx' & (Hsx & _)).
  destruct (Forall2_lookup_l _ _ _ _ _ He Hj) as (f & Hfj & y' & Hy' & (Hsy & _)). simplify_eq.
  assert (Heq : i = j); [|by simplify_eq].
  eapply (NoDup_lookup l.*1); [done| |]; rewrite list_lookup_fmap; [rewrite Hei|rewrite Hfj]; cbn; [done|congruence].
Qed.

Lemma refine_send w h l b s i :
  refines w h (l, b) -> tfind s l = None ->
  exists w', tx_step (G_send s i) h w = Ret (O_num 0, h) w' /\ refines w' h ((s, (i, None)) :: l, b).
Proof.
  intros [Hm Hnum Hh Hg] Hfree. set (a := d_next w). set (m := mk_nlmsg (family_id w) s false []). set (w1 := set_skbs (insert a (1, m)) (set_next (a + 1) w)).
  unfold tx_step. erewrite bind_run; [|done]. erewrite bind_run; [|done]. erewrite bind_run; [|done]. fold a m w1.
  unfold genlmsg_unicast_tx, d_ask, d_fresh. run. match goal with |- context [dg_ok ?g] => change g with (d_grants w (d_tick w)) end.
  rewrite (proj1 (Hg _)). cbn [negb]. erewrite at_skb by apply lookup_insert_eq. cbn iota. unfold genlmsg_unicast. run.
  erewrite at_skb by apply lookup_insert_eq. cbn iota. unfold d_ask. run.
  match goal with |- context [dg_rc ?g =? 0] => change g with (d_grants w (S (d_tick w))) end. rewrite (proj2 (Hg _)). cbn [Z.eqb].
  assert (Hsk : skbs w !! a = None) by (apply (t_fresh _ _ _ _ _ Hm); unfold a; lia).
  eexists. split; [done|]. split; [| | |exact Hg]; cbn [itxs transactions skbs d_next set_to_user set_tick set_skbs set_txs set_next fst snd];
    rewrite ?delete_insert_id by done.
  - by apply models_send.
  - cbn. constructor; [by apply numbers_notin|done].
  - unfold handles in *. destruct h as [[c p]|], b as [m'|]; try done. cbn [fst snd] in Hh. destruct Hh as (Hp & (x & Hx & Hsx) & Hc & Hfr).
    assert (Hne : p <> a + 1) by (intros ->; by apply (t_fresh _ _ _ _ _ Hm (a + 1)); [unfold a; lia|]).
    split_and!; [by right|exists x; by rewrite lookup_insert_ne|done|].
    intros q y [->|Hq]%elem_of_cons Hy; [rewrite lookup_insert_eq in Hy; by injection Hy as <-|].
    rewrite lookup_insert_ne in Hy; [by eapply Hfr|]. intros <-. by apply (t_fresh _ _ _ _ _ Hm (a + 1)); [unfold a; lia|].
Qed.

Lemma refine_find w l m :
  refines w None (l, None) ->
  exists w' h', tx_step (G_find m) None w = Ret ((spec_step (G_find m) (l, None)).1, h') w' /\ refines w' h' (spec_step (G_find m) (l, None)).2.
Proof.
  intros [Hm Hnum Hh Hg]. set (a := d_next w). set (w1 := set_skbs (insert a (1, m)) (set_next (a + 1) w)).
  assert (Ha : skbs w1 !! a = Some (1, m)) by apply lookup_insert_eq.
  assert (Hm1 : models (itxs w1) (transactions w1) (skbs w1) (d_next w1) l) by (by apply models_skb).
  pose proof (find_models w1 l (nlmsg_seq m) _ (t_entries _ _ _ _ _ Hm1)) as Hfind.
  unfold tx_step. erewrite bind_run; [|done]. erewrite bind_run; [|done]. fold a w1. unfold handler_find.
  rewrite bind_assoc_run. step (at_skb _ _ _ Ha). cbn iota. unfold __find_itx. rewrite bind_assoc_run.
  erewrite bind_run; [|done]. cbn [spec_step]. destruct (tfind (nlmsg_seq m) l) as [[i o]|].
  - destruct Hfind as (ps1 & p & ps2 & l1 & l2 & x & Hps & Hl & Hfi & Hx & Hst & _). step Hfi. cbn iota.
    exists w1, (Some (a, p)). split; [done|]. split; [done|done| |exact Hg]. cbn [fst snd handles]. rewrite Hps. split_and!.
    + apply elem_of_app. right. left.
    + exists x. split; [done|]. apply Hst.
    + done.
    + intros q y Hq Hy Hya. rewrite <- Hps in Hq.
      destruct (entry_skb _ _ _ _ _ _ _ (t_entries _ _ _ _ _ Hm) Hq Hy Hya) as [v Hv].
      by rewrite (proj2 (t_fresh _ _ _ _ _ Hm a (Z.le_refl _))) in Hv.
  - step Hfind. cbn iota. unfold kfree_skb. rewrite bind_assoc_run. step (at_skb _ _ _ Ha). cbn iota. erewrite bind_run; [|done].
    eexists _, None. split; [done|]. split; [|done|done|exact Hg].
    change (models (itxs w) (transactions w) (delete a (<[a := (1, m)]> (skbs w))) (a + 1) l).
    rewrite delete_insert_id by (apply (t_fresh _ _ _ _ _ Hm); unfold a; lia). eapply models_next; [exact Hm|unfold a; lia].
Qed.

Lemma refine_store w h l m :
  refines w h (l, Some m) ->
  exists w', tx_step G_store h w = Ret (O_num 0, None) w' /\ refines w' None (tset (nlmsg_seq m) m l, None).
Proof.
  intros [Hm Hnum Hh Hg]. cbn [fst snd] in *. destruct h as [[a p]|]; [|done]. destruct Hh as (Hp & (x & Hx & Hsx) & Ha & Hfr).
  pose proof (find_models w l (nlmsg_seq m) _ (t_entries _ _ _ _ _ Hm)) as Hfind.
  assert (Hsome : is_Some (tfind (nlmsg_seq m) l)).
  { destruct (tfind (nlmsg_seq m) l) eqn:E; [by eexists|]. exfalso. apply (numbers_notin _ _ E).
    apply list_elem_of_lookup_1 in Hp as [j Hj]. destruct (Forall2_lookup_l _ _ _ _ _ (t_entries _ _ _ _ _ Hm) Hj) as (e & He & y & Hy & (Hsy & _)).
    simplify_eq. apply list_elem_of_fmap. exists e. split; [congruence|]. by eapply list_elem_of_lookup_2. }
  destruct (tfind (nlmsg_seq m) l) as [[i o]|]; [|by destruct Hsome].
  destruct Hfind as (ps1 & p' & ps2 & l1 & l2 & x' & Hps & Hl & _ & Hx' & Hst & Hlen & _ & Hset).
  assert (p' = p) as ->.
  { eapply (same_number _ _ _ _ p' p x' x); [exact (t_entries _ _ _ _ _ Hm)|done| |done|done|done|].
    - rewrite Hps. apply elem_of_app. right. left.
    - destruct Hst as (Hs & _). cbn in Hs. congruence. }
  rewrite Hx in Hx'. injection Hx' as <-. unfold tx_step. erewrite bind_run; [|done]. cbn iota.
  unfold handler_store, skb_get. rewrite !bind_assoc_run. step (at_skb _ _ _ Ha). cbn iota. erewrite bind_run; [|done].
  rewrite bind_assoc_run. erewrite bind_run; [|by apply at_itx]. rewrite bind_assoc_run. erewrite bind_run; [|done]. erewrite bind_run; [|done].
  unfold kfree_skb. rewrite bind_assoc_run. erewrite bind_run; [|apply at_skb, lookup_insert_eq]. cbn iota. erewrite bind_run; [|done].
  eexists. split; [done|]. split; [|by cbn; rewrite numbers_set|done|exact Hg]. cbn [fst snd]. rewrite Hset.
  assert (Hsk : <[a := (1, m)]> (<[a := (1 + 1, m)]> (skbs w)) = skbs w) by (rewrite insert_insert_eq; by apply insert_id).
  cbn [itxs transactions skbs d_next set_txs set_skbs]. unfold id.
  change (if 1 + 1 =? 1 then delete a else <[a := (1 + 1 - 1, m)]>) with (<[a := (1, m)]> : gmap Z (Z * nlmsg) -> gmap Z (Z * nlmsg)).
  rewrite Hsk, Hps. rewrite Hps, Hl in Hm. rewrite Hps in Hfr. by apply (models_store _ _ _ _ _ _ _ _ _ o _ x a m).
Qed.

Lemma refine_finish w h l b s signal remaining :
  refines w h (l, b) -> 0 <= remaining -> (forall m, b = Some m -> nlmsg_seq m <> s) ->
  exists w', tx_step (G_finish s signal remaining) h w = Ret ((spec_step (G_finish s signal remaining) (l, b)).1, h) w' /\
             refines w' h (spec_step (G_finish s signal remaining) (l, b)).2.
Proof.
  intros [Hm Hnum Hh Hg] Hrem Hb0. cbn [fst snd] in *. pose proof (find_models w l s _ (t_entries _ _ _ _ _ Hm)) as Hfind.
  unfold tx_step, genlmsg_read_response, __find_itx. rewrite !bind_assoc_run. erewrite bind_run; [|done]. cbn [spec_step].
  destruct (tfind s l) as [[i o]|]; [|by step Hfind; exists w].
  destruct Hfind as (ps1 & p & ps2 & l1 & l2 & x & Hps & Hl & Hfi & Hx & (Hs & Hi & Hst) & Hlen & Hdel & _). step Hfi. cbn iota. cbn [wk_act wk_late wk_signal wk_left].
  rewrite bind_assoc_run. erewrite bind_run; [|done]. rewrite bind_assoc_run. step (at_itx _ _ _ Hx). rewrite bind_assoc_run. erewrite bind_run; [|done].
  rewrite bind_assoc_run. step (at_itx _ _ _ Hx). rewrite bind_assoc_run. erewrite bind_run; [|done]. rewrite bind_assoc_run. erewrite bind_run; [|by apply at_itx].
  rewrite bind_assoc_run. erewrite bind_run; [|done]. erewrite bind_run; [|done].
  assert (Hts : list_del p (transactions w) = ps1 ++ ps2) by (rewrite Hps in *; apply list_del_middle, (t_nodup _ _ _ _ _ Hm)).
  set (w1 := set_txs (delete p) id _).
  assert (Hw1 : forall c w2, c = None \/ c = itx_skb x -> itxs w2 = itxs w1 -> transactions w2 = transactions w1 -> d_next w2 = d_next w1 ->
    d_grants w2 = d_grants w -> skbs w2 = (match c with Some a => delete a (skbs w) | None => skbs w end) -> refines w2 h (tdel s l, b)).
  { intros c w2 Hc E1 E2 E3 E4 E5. split; cbn [fst snd]; [|by apply numbers_del| |unfold granted; by rewrite E4].
    - rewrite E1, E2, E3, E5. change (itxs w1) with (delete p (itxs w)). change (transactions w1) with (list_del p (transactions w)).
      change (d_next w1) with (d_next w). rewrite Hts, Hdel. rewrite Hps, Hl in Hm. by eapply models_finish.
    - rewrite E1, E2, E5. change (itxs w1) with (delete p (itxs w)). change (transactions w1) with (list_del p (transactions w)).
      unfold handles in *. destruct h as [[a q]|], b as [m'|]; try done. destruct Hh as (Hq & (y & Hy & Hsy) & Ha & Hfr).
      assert (Hpin : p ∈ transactions w) by (rewrite Hps; apply elem_of_app; right; left).
      assert (Hpq : q <> p). { intros ->. rewrite Hx in Hy. injection Hy as <-. apply (Hb0 m' eq_refl). cbn in Hs. congruence. }
      split_and!.
      + apply elem_of_list_del. by split.
      + exists y. by rewrite lookup_delete_ne.
      + destruct c as [c|]; [|done]. rewrite lookup_delete_ne; [done|]. intros ->. destruct Hc as [?|Hc]; [done|]. by apply (Hfr p x).
      + intros q' y' Hq' Hy'. apply elem_of_list_del in Hq' as [Hq' Hne]. rewrite lookup_delete_ne in Hy' by done. by eapply Hfr. }
  cbn [snd] in Hst. destruct o as [m|].
  - destruct Hst as (Hd & a & Ha & Hinfo & Hk). rewrite Hd, Ha, Hinfo. destruct (0 <? remaining) eqn:Er; bool_hyps.
    + rewrite (proj2 (Z.eqb_neq remaining 0)), (proj2 (Z.ltb_ge remaining 0)) by lia. cbn iota. cbn [Z.eqb negb]. erewrite bind_run; [|done].
      erewrite bind_run; [|by apply (at_skb w1)]. cbn iota. erewrite bind_run; [|done]. unfold kfree_skb. rewrite bind_assoc_run.
      erewrite bind_run; [|by apply (at_skb w1)]. cbn iota. erewrite bind_run; [|done]. eexists. split; [done|].
      apply (Hw1 (Some a)); try done. by right.
    + replace remaining with 0 by lia. cbn iota. cbn [Z.eqb Z.ltb Z.compare negb ETIME Z.opp]. exists w1. split; [done|]. apply (Hw1 None); try done. by left.
  - destruct Hst as (Hd & _ & _). rewrite Hd, Hi. cbn [fst snd]. exists w1. split; [by destruct (i && signal)|]. apply (Hw1 None); try done. by left.
Qed.

Lemma refine_run os : forall w h st, refines w h st -> allowed_run os st ->
  exists w', tx_run os h w = Ret (spec_run os st).1 w'.
Proof.
  induction os as [|o os IH]; intros w h st Hr Hos; [by exists w|]. destruct Hos as [Ho Hos].
  assert (Hstep : exists w' h', tx_step o h w = Ret ((spec_step o st).1, h') w' /\ refines w' h' (spec_step o st).2).
  { destruct st as [l b]. destruct o as [s i|m| |s sg rem]; cbn [allowed fst snd] in Ho.
    - destruct (refine_send w h l b s i Hr Ho) as (w' & ? & ?). by exists w', h.
    - subst b. pose proof (r_handles _ _ _ Hr) as Hh. cbn in Hh. destruct h as [[? ?]|]; [done|]. destruct (refine_find w l m Hr) as (w' & h' & ? & ?). by exists w', h'.
    - destruct b as [m|]; [|done]. destruct (refine_store w h l m Hr) as (w' & ? & ?). by exists w', None.
    - destruct Ho as [Hrem Hb]. destruct (refine_finish w h l b s sg rem Hr Hrem Hb) as (w' & ? & ?). by exists w', h. }
  destruct Hstep as (w1 & h1 & Hrun & Hr1). destruct (IH w1 h1 _ Hr1 Hos) as (w2 & Hrun2). cbn [tx_run spec_run]. step Hrun. cbn iota.
  destruct (spec_step o st) as [r st']. cbn [fst snd] in *. step Hrun2. destruct (spec_run os st') as [rs st'']. by exists w2.
Qed.

(** C31: The transactions of the director channel behave as a list of outstanding numbers, under any
    interleaving of requests that are sent, the two halves of the handler of messages (it finds the
    transaction under the lock and fills it without) and callers that stop waiting: a message is
    stored for the outstanding request with its number and refused when there is none, a caller
    gets the last message that was stored for its request, and otherwise the timeout or the
    interruption; nothing is accessed after it was freed.  The allocations and the sends succeed,
    and the interleavings are those of [allowed]: in particular no caller gives up on its request
    between the two halves of the handler that answers it, which the code does not prevent and
    where it fills freed memory. *)
Theorem genl_ext_refines_outstanding w os :
  transactions w = [] -> itxs w = ∅ -> skbs w = ∅ -> (forall n, dg_ok (d_grants w n) = true /\ dg_rc (d_grants w n) = 0) ->
  allowed_run os ([], None) -> exists w', tx_run os None w = Ret (spec_run os ([], None)).1 w'.
Proof.
  intros Ht Hi Hs Hg Hos. apply refine_run; [|done]. split; [|constructor|done|done].
  rewrite Ht, Hi, Hs. split; [constructor|constructor|intros p _; split; [apply not_elem_of_nil|done]|intros ? ? ? ? ? ? ? Hx; by rewrite lookup_empty in Hx].
Qed.
End tx.

Definition quiet : director unit :=
  mk_director 7 1 20 ∅ [] ∅ [] (mk_refs None None None None) ∅ None [] [] 1 (fun _ => mk_dgrant true 0 1000) 0 tt.
Definition msg_of (seq : Z) : nlmsg := mk_nlmsg 20 seq false [DIRECTOR_ACK; 1; 0; 0].
(** The caller of the request 2 gives up while the response to 3 is between the halves. *)
Lemma genl_ext_refines_outstanding_witness :
  exists w', tx_run [G_send 2 false; G_send 3 true; G_find (msg_of 3); G_finish 2 false 0; G_store; G_find (msg_of 2); G_finish 3 false 5] None quiet =
    Ret [O_num 0; O_num 0; O_found; O_num (- ETIME); O_num 0; O_num (- EINVAL); O_msg (msg_of 3)] w'.
Proof.
  apply (genl_ext_refines_outstanding quiet [G_send 2 false; G_send 3 true; G_find (msg_of 3); G_finish 2 false 0; G_store; G_find (msg_of 2); G_finish 3 false 5]);
    [done|done|done|done|].
  repeat split; try done. intros m [= <-]. done.
Defined.
