(* ===== verification/DirectorSend.v ===== *)
(** Messages of the user to another node: from [send_user_message] of the library to the handler that
    the migration managers registered in the kernel, and the result back. *)

From stdpp Require Import gmap.
From S2P Require Import Prelude Effect Netlink Director DirectorMsg DirectorApi DirectorServe DirectorCall.

Section send.
Context `{Nla} {D U : Type}.
Implicit Type w : director U.
Implicit Type u : api D.

(** The kernel receives what was sent and its answers go to the socket. *)
Fixpoint receive_all (l : list nlmsg) : eff (director U) unit := match l with [] => mret tt | m :: l => genl_rcv m;; receive_all l end.
Definition reaction w : eff (api D) unit := fun u =>
  match receive_all (sent u) w with
  | Ret _ w' => Ret tt (set_inbox (inbox u ++ to_user w') (set_sent [] u))
  | Stop s _ => Stop s u
  | Fault => Fault
  end.

Definition user_attrs (slot_type slot_index : Z) (data : list Z) : list (Z * list Z) :=
  u32s [(DIRECTOR_A_SLOT_TYPE, slot_type); (DIRECTOR_A_SLOT_INDEX, slot_index); (DIRECTOR_A_LENGTH, zlen data)] ++ [(DIRECTOR_A_USER_DATA, data)].
Definition user_message u slot_type slot_index data : nlmsg :=
  mk_nlmsg (gnl_fid u) (h_seq_next u) true ([DIRECTOR_SEND_GENERIC_USER_MESSAGE; 1; 0; 0] ++ encode (user_attrs slot_type slot_index data)).

(** The kernel hands the message to the handler and answers with its result. *)
Lemma rcv_user w m h st si data :
  user_handler w = Some h -> find_op DIRECTOR_SEND_GENERIC_USER_MESSAGE (cmds w) = Some Do_send_user_message ->
  nl_data m = [DIRECTOR_SEND_GENERIC_USER_MESSAGE; 1; 0; 0] ++ encode (user_attrs st si data) -> nl_ack m = true ->
  Forall attr_ok (user_attrs st si data) -> srange 32 st -> srange 32 si ->
  exists w', genl_rcv m w = Ret tt w' /\ handled w' = handled w ++ [(st, si, zlen data, data)] /\
    to_user w' = to_user w ++ [mk_nlmsg NLMSG_ERROR (nlmsg_seq m) false (le_bytes 4 (h st si (zlen data) data))].
Proof.
  intros Hh Hop Hd Hack Hok Hst Hsi. pose proof Hok as Hz. apply Forall_app in Hz as [_ Hz]. apply Forall_singleton in Hz as [_ Hz]. cbn [snd] in Hz.
  assert (Hf : forall t, nlmsg_find_attr m t = attr_find t (user_attrs st si data)).
  { intros t. destruct m as [ty sq ak dt]. cbn [nl_data] in Hd. subst dt. by apply find_attr_encode. }
  set (w1 := set_skbs (insert (d_next w) (1, m)) (set_next (d_next w + 1) w)).
  assert (Ha : skbs w1 !! d_next w = Some (1, m)) by apply lookup_insert_eq.
  assert (Hrun : handle_send_generic_user_message (d_next w) w1 =
    Ret (h st si (zlen data) data) (set_handler (user_handler w1) (handled w1 ++ [(st, si, zlen data, data)]) w1)).
  { unfold handle_send_generic_user_message. erewrite bind_run; [|done]. change (user_handler w1) with (user_handler w). rewrite Hh.
    unfold skb_at. run. rewrite Ha. rewrite !Hf.
    change (attr_find DIRECTOR_A_SLOT_INDEX _) with (Some (le_bytes 4 si)). change (attr_find DIRECTOR_A_SLOT_TYPE _) with (Some (le_bytes 4 st)).
    change (attr_find DIRECTOR_A_LENGTH _) with (Some (le_bytes 4 (zlen data))). change (attr_find DIRECTOR_A_USER_DATA _) with (Some data).
    cbv iota. rewrite !get_u32_le. rewrite !swrap_uwrap, !(swrap_id 32) by (done || (pose proof (zlen_nonneg data); unfold srange; lia)). change (user_handler w1) with (user_handler w).
    by rewrite Hh. }
  unfold genl_rcv. erewrite bind_run; [|done]. erewrite bind_run; [|done]. fold w1. erewrite bind_run; [|done]. unfold genl_cmd. rewrite Hd.
  erewrite bind_run; [|done]. change (cmds w1) with (cmds w). rewrite Hop. cbn [run_doit]. step Hrun.
  unfold kfree_skb. rewrite bind_assoc_run. erewrite bind_run; [|unfold skb_at; run; cbn [skbs set_handler]; by rewrite Ha]. cbn iota.
  erewrite bind_run; [|done]. rewrite Hack, orb_true_r. eexists. split; [done|]. done.
Qed.

Lemma ack_error seq err : srange 32 err -> nlmsg_error (mk_nlmsg NLMSG_ERROR seq false (le_bytes 4 err)) = err.
Proof.
  intros He. unfold nlmsg_error. cbn [nl_data]. rewrite ztake_all by (rewrite zlen_le_bytes; lia). rewrite le_value_le_bytes.
  change (err mod _) with u32[err]. rewrite swrap_uwrap, swrap_id; done.
Qed.
(** A confirmation is read: success, or the error. *)
Lemma read_ack u fuel msg_peek seq err :
  willing u -> inbox u = [mk_nlmsg NLMSG_ERROR seq false (le_bytes 4 err)] -> srange 32 err ->
  exists t, read_message (S (S (S fuel))) msg_peek u =
    if err =? 0 then Ret (0, Some (mk_nlmsg NLMSG_ERROR seq false (le_bytes 4 err))) (set_live (live u + 1) (set_inbox [] (set_u_tick t u)))
    else Ret (err, None) (set_live (live u + 1 - 1) (set_inbox [] (set_u_tick t u))).
Proof.
  intros Hw Hq He. set (m := mk_nlmsg _ _ _ _) in *. destruct (proj2 Hw (u_tick u)) as (_ & Herr & _).
  destruct (recv_run (set_u_tick (S (u_tick u)) u) fuel msg_peek m [] Hw Hq) as [t Hr]; [by destruct msg_peek|].
  exists (S t). unfold read_message. rewrite (bind_run _ _ _ _ _ (ask_run u)), Herr. cbn [Z.eqb negb]. step Hr. cbn beta iota.
  rewrite (proj2 (Z.leb_gt _ _)) by done. step (ask_run (set_inbox [] (set_u_tick t (set_u_tick (S (u_tick u)) u)))).
  change (u_grants (set_inbox _ _)) with (u_grants u). rewrite (proj1 (proj2 Hw _)). unfold count_live, nlmsg_free, count_live. run.
  pose proof (ack_error seq err He) as Hm. fold m in Hm. cbn [nlmsg_type m NLMSG_ERROR Z.eqb NLMSG_NOOP NLMSG_OVERRUN orb].
  cbn [Pos.eqb orb]. rewrite Hm. by destruct (err =? 0).
Qed.

Lemma put_user_run st si data ty seq room :
  28 + nla_total_size (zlen data) <= room ->
  (let '(r, m) := put_u32s [(DIRECTOR_A_SLOT_TYPE, st); (DIRECTOR_A_SLOT_INDEX, si); (DIRECTOR_A_LENGTH, zlen data)]
                    (mk_msg ty seq (mk_skb (room - 4) [DIRECTOR_SEND_GENERIC_USER_MESSAGE; 1; 0; 0] None)) in
   (r, u_put m DIRECTOR_A_USER_DATA (ztake (zlen data) data))) =
  (0, (0, mk_msg ty seq (mk_skb (room - 28 - nla_total_size (zlen data))
            ([DIRECTOR_SEND_GENERIC_USER_MESSAGE; 1; 0; 0] ++ encode (user_attrs st si data)) None))).
Proof.
  intros Hr. pose proof (total_size_bounds (zlen data) (zlen_nonneg data)). pose proof (zlen_nonneg data).
  rewrite put_u32s_run by (change (zlen _) with 3; lia). rewrite ztake_all by lia. unfold u_put. cbn [b_buf b_type b_seq].
  change (8 * zlen _) with 24. rewrite put_run by lia. cbn [Z.eqb]. unfold user_attrs. rewrite encode_app, <- app_assoc.
  change (encode [(DIRECTOR_A_USER_DATA, data)]) with (nla_bytes DIRECTOR_A_USER_DATA data ++ []). rewrite app_nil_r. do 4 f_equal. lia.
Qed.

Lemma send_run u ty buf ack :
  willing u ->
  send_request_message (mk_msg ty 0 buf) ack u =
  Ret 0 (set_live (live u + -1) (set_sent (sent u ++ [mk_nlmsg ty (h_seq_next u) ack (sk_data buf)])
           (set_u_tick (S (u_tick u)) (set_seq_next u32[h_seq_next u + 1] u)))).
Proof.
  intros Hw. destruct (proj2 Hw (u_tick u)) as (_ & _ & Hs & _). unfold send_request_message, nl_send_auto_complete, nlmsg_free, count_live, u_ask. run.
  cbn [b_seq b_type b_buf Z.eqb]. cbn iota. match goal with |- context [ua_send ?g] => change g with (u_grants u (u_tick u)) end.
  rewrite (proj2 (Z.ltb_lt _ _)), (proj2 (Z.leb_gt _ _)) by done. done.
Qed.

(** C36: A message of the director to another node reaches the handler of the migration managers with
    its slot, its length and its data, and what the handler returns is the result of
    [send_user_message]; no message object is left in the library. *)
Theorem user_message_reaches_handler w u h fuel recv_fuel msg_peek slot_type slot_index data :
  willing u -> inbox u = [] -> sent u = [] -> to_user w = [] -> user_handler w = Some h ->
  find_op DIRECTOR_SEND_GENERIC_USER_MESSAGE (cmds w) = Some Do_send_user_message ->
  srange 32 slot_type -> srange 32 slot_index -> 28 + nla_total_size (zlen data) <= ua_room (u_grants u (u_tick u)) ->
  srange 32 (h slot_type slot_index (zlen data) data) ->
  exists w' u', receive_all [user_message u slot_type slot_index data] w = Ret tt w' /\
    handled w' = handled w ++ [(slot_type, slot_index, zlen data, data)] /\
    send_user_message (reaction w) (S fuel) (S (S (S recv_fuel))) msg_peek slot_type slot_index (zlen data) data u =
      Ret (h slot_type slot_index (zlen data) data) u' /\ live u' = live u.
Proof.
  intros Hw Hin Hsent Hto Hh Hop Hst Hsi Hroom Herr. set (err := h _ _ _ _) in *. pose proof (zlen_nonneg data).
  pose proof (total_size_bounds (zlen data) (zlen_nonneg data)). destruct (proj2 Hw (u_tick u)) as (Hok & _ & _ & Hr65).
  destruct (rcv_user w (user_message u slot_type slot_index data) h slot_type slot_index data) as (w' & Hrcv & Hhd & Htu); try done.
  { apply Forall_app. split; [by repeat constructor|]. apply Forall_singleton. split; [done|]. cbn [snd]. lia. }
  exists w'. unfold send_user_message, prepare_request_message. erewrite bind_run; [|done]. rewrite bind_assoc_run. step (ask_run u). rewrite Hok. cbn [negb].
  rewrite (proj2 (Z.ltb_ge _ 4)) by lia. unfold count_live. rewrite bind_assoc_run. erewrite bind_run; [|done]. erewrite bind_run; [|done]. cbn iota. cbn [Z.eqb negb].
  erewrite bind_run; [|done]. pose proof (put_user_run slot_type slot_index data (gnl_fid u) 0 _ Hroom) as Hput.
  rewrite (uwrap_id 8) by done. destruct (put_u32s _ _) as [r m] eqn:Ep. injection Hput as -> Hput. cbn [Z.eqb negb]. rewrite Hput. cbn iota. cbn [Z.eqb negb].
  erewrite bind_run; [|by apply send_run]. cbn [Z.eqb negb sk_data].
  set (u1 := set_live _ _). assert (Hre : reaction w u1 = Ret tt (set_inbox [mk_nlmsg NLMSG_ERROR (h_seq_next u) false (le_bytes 4 err)] (set_sent [] u1))).
  { unfold reaction. change (sent u1) with (sent u ++ [user_message u slot_type slot_index data]). rewrite Hsent. cbn [List.app receive_all].
    step Hrcv. run. rewrite Htu, Hto. change (inbox u1) with (inbox u). by rewrite Hin. }
  step Hre. set (u2 := set_inbox _ _). destruct (read_ack u2 recv_fuel msg_peek (h_seq_next u) err) as [t Hread]; [exact Hw|done|done|].
  destruct (err =? 0) eqn:Ee.
  - step Hread. cbn iota. cbn [Z.eqb negb]. erewrite bind_run; [|done]. cbn [await_ack].
    unfold is_ack_message, get_message_response_code. cbn [nlmsg_type]. rewrite Z.eqb_refl, ack_error, Ee by done. unfold nlmsg_free, count_live.
    eexists. split; [by rewrite <- Hrcv; cbn [receive_all]; unfold mbind, eff_bind; rewrite Hrcv|]. split; [done|]. bool_hyps. split; [by rewrite Ee|]. cbn. lia.
  - step Hread. cbn iota. rewrite Ee. cbn [negb free_msg]. erewrite bind_run; [|done].
    eexists. split; [by rewrite <- Hrcv; cbn [receive_all]; unfold mbind, eff_bind; rewrite Hrcv|]. split; [done|]. split; [done|]. cbn. lia.
Qed.
End send.

(** ** An example *)

#[local] Existing Instance nla_tlv.
Definition send_user : api unit :=
  mk_api 20 true installed (mk_callbacks None None None None None None None None None None None) tt [] [] 0 9 (fun _ => mk_ugrant true 4096 0 20) 0.
Definition send_world : director unit :=
  mk_director 77 1 20 ∅ [] ∅ [(DIRECTOR_SEND_GENERIC_USER_MESSAGE, (Do_send_user_message, None))] (mk_refs None None None None) ∅
    (Some (fun _ slot _ _ => if slot =? 3 then 0 else - ENOENT)) [] [] 5 (fun _ => mk_dgrant true 0 63000) 0 tt.
Lemma user_message_reaches_handler_witness :
  exists w' u', receive_all [user_message send_user 1 5 [10; 20]] send_world = Ret tt w' /\ handled w' = [(1, 5, 2, [10; 20])] /\
    send_user_message (reaction send_world) 1 3 false 1 5 2 [10; 20] send_user = Ret (- ENOENT) u' /\ live u' = 0.
Proof.
  apply (user_message_reaches_handler send_world send_user (fun _ slot _ _ => if slot =? 3 then 0 else - ENOENT) 0 0 false 1 5 [10; 20]); try done.
Defined.
