(* ===== verification/CcfsPage.v ===== *)
(** Reading and writing of the caching file system (src/src/ccfs/read_write.c, mmap.c): how a page
    of its page cache is filled from the lower file and how a written page gets to it.

    The lower file is the class [Lower]: a state, [vfs_read] and [vfs_write] at a position, and
    what they are documented to do to its contents.  Finding a page in the page cache or making
    one is the kernel's, so the page is an argument; [chunk_write] is what the kernel does with a
    piece of a write that lies in one page. *)

From stdpp Require Import gmap.
From S2P Require Import Prelude.

Definition PAGE_CACHE_SHIFT : Z := 12.
Definition PAGE_CACHE_SIZE : Z := 4096.

(** Bytes [d] stored at [pos]; a gap before them reads as zeros, and no bytes make no gap. *)
Definition pwrite (pos : Z) (d f : list Z) : list Z :=
  match d with
  | [] => f
  | _ => ztake pos (f ++ replicate (Z.to_nat (pos - zlen f)) 0) ++ d ++ zdrop (pos + zlen d) f
  end.

(** The lower file.  The results of [vfs_read] are the count or the error, the bytes that it
    stored, and the file; [writable]: it was opened for writing. *)
Class Lower := {
  lower : Type;
  vfs_read : lower -> Z -> Z -> Z * list Z * lower;
  vfs_write : lower -> Z -> list Z -> Z * lower;
  contents : lower -> list Z;
  writable : lower -> bool
}.

Class LowerLaws `(Lower) : Prop := {
  read_keeps l pos size r d l' :
    vfs_read l pos size = (r, d, l') -> contents l' = contents l /\ writable l' = writable l;
  read_fits l pos size r d l' : vfs_read l pos size = (r, d, l') -> 0 <= size -> zlen d <= size;
  read_bytes l pos size r d l' :
    vfs_read l pos size = (r, d, l') -> 0 <= pos -> 0 <= r ->
    zlen d = r /\ d = ztake r (zdrop pos (contents l));
  write_bytes l pos d r l' :
    vfs_write l pos d = (r, l') -> 0 <= pos -> 0 <= r ->
    r <= zlen d /\ contents l' = pwrite pos (ztake r d) (contents l) /\ writable l' = writable l;
  write_error l pos d r l' :
    vfs_write l pos d = (r, l') -> r < 0 -> l' = l;
  write_readonly l pos d : writable l = false -> vfs_write l pos d = (- EBADF, l)
}.

(** [i_dirty]: set by [mark_inode_dirty_sync]. *)
Record ccfs_inode `{Lower} := mk_inode { lower_file : option lower; i_size : Z; i_dirty : bool }.
Record page := mk_page { index : Z; PageUptodate : bool; PageLocked : bool; pdata : list Z }.

Definition set_uptodate (b : bool) (p : page) : page := mk_page (index p) b (PageLocked p) (pdata p).
Definition unlock_page (p : page) : page := mk_page (index p) (PageUptodate p) false (pdata p).
Definition set_data (d : list Z) (p : page) : page := mk_page (index p) (PageUptodate p) (PageLocked p) d.

Section ops.
Context `{Lower}.

(** [None]: [BUG_ON].  The results are the code, the buffer and the inode. *)
Definition ccfs_read_lower (data : list Z) (offset size : Z) (ccfsinode : ccfs_inode) :
    option (Z * list Z * ccfs_inode) :=
  match lower_file ccfsinode with
  | None => None
  | Some f =>
      let '(octets_read, d, f) := vfs_read f offset size in
      Some (if octets_read <? 0 then - EINVAL else 0, d ++ zdrop (zlen d) data,
            mk_inode _ (Some f) (i_size ccfsinode) (i_dirty ccfsinode))
  end.

Definition ccfs_read_lower_page_segment (page_for_ccfs : page) (page_index offset_in_page size : Z)
    (ccfsinode : ccfs_inode) : option (Z * page * ccfs_inode) :=
  let offset := s64[s64[Z.shiftl page_index PAGE_CACHE_SHIFT] + offset_in_page] in
  '(rc, virt, ccfsinode) ← ccfs_read_lower (pdata page_for_ccfs) offset size ccfsinode;
  Some (rc, set_data virt page_for_ccfs, ccfsinode).

Definition ccfs_write_lower (ccfsinode : ccfs_inode) (data : list Z) (offset size : Z) :
    option (Z * ccfs_inode) :=
  match lower_file ccfsinode with
  | None => None
  | Some f =>
      let '(octets_written, f) := vfs_write f offset (ztake size data) in
      Some (if octets_written <? 0 then - EINVAL else 0, mk_inode _ (Some f) (i_size ccfsinode) true)
  end.

Definition ccfs_write_lower_page_segment (ccfsinode : ccfs_inode) (page_for_lower : page)
    (offset_in_page size : Z) : option (Z * ccfs_inode) :=
  let offset := s64[s64[Z.shiftl (index page_for_lower) PAGE_CACHE_SHIFT] + offset_in_page] in
  ccfs_write_lower ccfsinode (pdata page_for_lower) offset size.

Definition ccfs_readpage (p : page) (host : ccfs_inode) : option (Z * page * ccfs_inode) :=
  '(rc, p, host) ← ccfs_read_lower_page_segment p (index p) 0 PAGE_CACHE_SIZE host;
  Some (rc, unlock_page (if negb (rc =? 0) then set_uptodate false p else set_uptodate true p), host).

(** [grabbed]: the answer of [grab_cache_page_write_begin], a locked page of this index. *)
Definition ccfs_write_begin (grabbed : option page) (host : ccfs_inode) (pos : Z) :
    option (Z * option page * ccfs_inode) :=
  let index := Z.shiftr pos PAGE_CACHE_SHIFT in
  match grabbed with
  | None => Some (- ENOMEM, None, host)
  | Some p =>
      if negb (PageUptodate p) then
        '(rc, p, host) ← ccfs_read_lower_page_segment p index 0 PAGE_CACHE_SIZE host;
        if negb (rc =? 0) then Some (rc, Some (set_uptodate false p), host)
        else Some (rc, Some (set_uptodate true p), host)
      else Some (0, Some p, host)
  end.

Definition ccfs_write_end (host : ccfs_inode) (pos copied : Z) (p : page) :
    option (Z * page * ccfs_inode) :=
  let from := u32[Z.land pos (PAGE_CACHE_SIZE - 1)] in
  let to := u32[from + copied] in
  '(_, host) ← ccfs_write_lower_page_segment host p from to;
  let host := if i_size host <? pos + copied then mk_inode _ (lower_file host) (pos + copied) (i_dirty host)
              else host in
  Some (copied, unlock_page p, host).

(** A piece of a write in one page: the kernel prepares the page, copies the bytes of the user to
    it and commits it.  An error of the preparation ends the write. *)
Definition chunk_write (host : ccfs_inode) (p : page) (pos : Z) (data : list Z) :
    option (Z * page * ccfs_inode) :=
  match ccfs_write_begin (Some p) host pos with
  | Some (rc, Some p', host) =>
      if negb (rc =? 0) then Some (rc, unlock_page p', host)
      else ccfs_write_end host pos (zlen data)
             (set_data (blit (Z.land pos (PAGE_CACHE_SIZE - 1)) data (pdata p')) p')
  | Some (rc, None, host) => Some (rc, p, host)
  | None => None
  end.
End ops.

(** ** Pages and the lower file *)

(** The page has the bytes of the file, as far as the file goes. *)
Definition page_holds (f : list Z) (p : page) : Prop :=
  zlen (pdata p) = PAGE_CACHE_SIZE /\
  forall i, 0 <= i < PAGE_CACHE_SIZE -> index p * PAGE_CACHE_SIZE + i < zlen f ->
    znth (pdata p) i = znth f (index p * PAGE_CACHE_SIZE + i).

(** Offsets of pages that do not overflow. *)
Definition page_index (k : Z) : Prop := 0 <= k < 2 ^ 50.

Section geometry.

Lemma page_offset k o :
  page_index k -> 0 <= o <= PAGE_CACHE_SIZE ->
  s64[s64[Z.shiftl k PAGE_CACHE_SHIFT] + o] = k * PAGE_CACHE_SIZE + o.
Proof.
  unfold page_index, PAGE_CACHE_SHIFT, PAGE_CACHE_SIZE. intros Hk Ho.
  rewrite Z.shiftl_mul_pow2 by lia. change (2 ^ 12) with 4096.
  rewrite (swrap_id 64 eq_refl (k * 4096)) by (unfold srange; lia). apply swrap_id; unfold srange; lia.
Qed.

Lemma pos_land k o :
  0 <= k -> 0 <= o < PAGE_CACHE_SIZE -> Z.land (k * PAGE_CACHE_SIZE + o) (PAGE_CACHE_SIZE - 1) = o.
Proof.
  unfold PAGE_CACHE_SIZE. intros. change (4096 - 1) with (Z.ones 12). rewrite Z.land_ones by lia.
  change (2 ^ 12) with 4096. rewrite Z.add_comm, Z.mod_add by lia. apply Z.mod_small. lia.
Qed.

Lemma pos_shiftr k o :
  0 <= k -> 0 <= o < PAGE_CACHE_SIZE -> Z.shiftr (k * PAGE_CACHE_SIZE + o) PAGE_CACHE_SHIFT = k.
Proof.
  unfold PAGE_CACHE_SIZE, PAGE_CACHE_SHIFT. intros. rewrite Z.shiftr_div_pow2 by lia.
  change (2 ^ 12) with 4096. rewrite Z.div_add_l by lia. rewrite Z.div_small by lia. lia.
Qed.

Lemma pwrite_inside pos d f :
  0 <= pos <= zlen f -> pwrite pos d f = ztake pos f ++ d ++ zdrop (pos + zlen d) f.
Proof.
  intros Hp. unfold pwrite. destruct d as [|x d].
  - rewrite zlen_nil, Z.add_0_r. simpl. by rewrite ztake_zdrop.
  - replace (Z.to_nat (pos - zlen f)) with O by lia. simpl. by rewrite app_nil_r.
Qed.

Lemma zlen_pwrite pos d f : 0 <= pos <= zlen f -> zlen (pwrite pos d f) = Z.max (zlen f) (pos + zlen d).
Proof.
  intros Hp. rewrite pwrite_inside by done. pose proof (zlen_nonneg d).
  rewrite !zlen_app, zlen_ztake, zlen_zdrop. lia.
Qed.

Lemma znth_pwrite pos d f i :
  0 <= pos <= zlen f -> 0 <= i ->
  znth (pwrite pos d f) i = if (pos <=? i) && (i <? pos + zlen d) then znth d (i - pos) else znth f i.
Proof.
  intros Hp Hi. rewrite pwrite_inside by done. pose proof (zlen_nonneg d).
  rewrite znth_app, zlen_ztake by lia. rewrite Z.min_l, Z.max_r by lia.
  destruct (i <? pos) eqn:E; bool_hyps.
  - rewrite znth_ztake by lia. replace (pos <=? i) with false by lia. done.
  - replace (pos <=? i) with true by lia. simpl. rewrite znth_app by lia.
    replace (i <? pos + zlen d) with (i - pos <? zlen d) by lia.
    case_goal; bool_hyps; [done|]. rewrite znth_zdrop by lia. f_equal. lia.
Qed.
End geometry.

(** ** Reading a page *)

Section reading.
Context `{LL : LowerLaws}.

(** The lower file gives everything it has: reads are not short and do not fail. *)
Definition reads_all (l : lower) : Prop :=
  forall pos size r d l', vfs_read l pos size = (r, d, l') -> 0 <= pos -> 0 <= size ->
    r = Z.max 0 (Z.min size (zlen (contents l) - pos)).

Lemma read_segment_spec p k host f :
  lower_file host = Some f -> page_index k -> zlen (pdata p) = PAGE_CACHE_SIZE ->
  exists r d f', vfs_read f (k * PAGE_CACHE_SIZE) PAGE_CACHE_SIZE = (r, d, f') /\
    contents f' = contents f /\ writable f' = writable f /\
    ccfs_read_lower_page_segment p k 0 PAGE_CACHE_SIZE host =
      Some (if r <? 0 then - EINVAL else 0, set_data (d ++ zdrop (zlen d) (pdata p)) p,
            mk_inode _ (Some f') (i_size host) (i_dirty host)) /\
    zlen (d ++ zdrop (zlen d) (pdata p)) = PAGE_CACHE_SIZE.
Proof.
  intros Hf Hk Hp. destruct (vfs_read f (k * PAGE_CACHE_SIZE) PAGE_CACHE_SIZE) as [[r d] f'] eqn:Er.
  exists r, d, f'. destruct (read_keeps _ _ _ _ _ _ Er) as [Hc Hw].
  pose proof (read_fits _ _ _ _ _ _ Er ltac:(done)). pose proof (zlen_nonneg d).
  repeat split; [done|done|..].
  - unfold ccfs_read_lower_page_segment, ccfs_read_lower. rewrite page_offset by (done || unfold PAGE_CACHE_SIZE; lia).
    rewrite Z.add_0_r, Hf, Er. done.
  - rewrite zlen_app, zlen_zdrop. lia.
Qed.

(** The first [r] bytes of a page that was read come from the file. *)
Lemma read_bytes_znth f k r d f' old i :
  vfs_read f (k * PAGE_CACHE_SIZE) PAGE_CACHE_SIZE = (r, d, f') -> 0 <= k -> 0 <= i < r ->
  znth (d ++ zdrop (zlen d) old) i = znth (contents f) (k * PAGE_CACHE_SIZE + i).
Proof.
  intros Er Hk Hi. unfold PAGE_CACHE_SIZE in *.
  destruct (read_bytes _ _ _ _ _ _ Er ltac:(lia) ltac:(lia)) as [Hd Hd'].
  rewrite znth_app, Hd by lia. replace (i <? r) with true by lia.
  rewrite Hd', znth_ztake, znth_zdrop by lia. done.
Qed.

(** Reading a page of a file that gives everything it has succeeds, and the page has the bytes of
    the file; a short read is success as well and leaves the rest of the page as it was. *)
Theorem readpage_fills p host f :
  lower_file host = Some f -> page_index (index p) -> zlen (pdata p) = PAGE_CACHE_SIZE ->
  exists r d f', vfs_read f (index p * PAGE_CACHE_SIZE) PAGE_CACHE_SIZE = (r, d, f') /\
    ccfs_readpage p host =
      Some (if r <? 0 then - EINVAL else 0,
            mk_page (index p) (0 <=? r) false (d ++ zdrop (zlen d) (pdata p)),
            mk_inode _ (Some f') (i_size host) (i_dirty host)) /\
    (0 <= r -> forall i, 0 <= i < PAGE_CACHE_SIZE ->
       znth (d ++ zdrop (zlen d) (pdata p)) i =
       if i <? r then znth (contents f) (index p * PAGE_CACHE_SIZE + i) else znth (pdata p) i) /\
    (reads_all f -> 0 <= r /\ page_holds (contents f) (mk_page (index p) (0 <=? r) false (d ++ zdrop (zlen d) (pdata p)))).
Proof.
  intros Hf Hk Hp. destruct (read_segment_spec p (index p) host f Hf Hk Hp) as (r & d & f' & Er & _ & _ & Hs & Hl).
  exists r, d, f'. split; [done|]. split; [|split].
  - unfold ccfs_readpage. rewrite Hs. rewrite (Z.leb_antisym r 0). by destruct (r <? 0).
  - intros Hr i Hi. destruct Hk. case_goal; bool_hyps.
    { apply (read_bytes_znth f (index p) r d f'); [done|lia..]. }
    destruct (read_bytes _ _ _ _ _ _ Er ltac:(unfold PAGE_CACHE_SIZE; lia) Hr) as [Hd _].
    rewrite znth_app, Hd by lia. replace (i <? r) with false by lia. rewrite znth_zdrop by lia. f_equal. lia.
  - intros Ha. destruct Hk. specialize (Ha _ _ _ _ _ Er ltac:(unfold PAGE_CACHE_SIZE; lia) ltac:(done)).
    split; [lia|]. split; [done|]. simpl. intros i Hi Hlt. apply (read_bytes_znth f (index p) r d f'); [done..|lia].
Qed.
End reading.

(** ** Writing a page *)

Section writing.
Context `{LL : LowerLaws}.

(** The lower file takes everything it is given. *)
Definition writes_all (l : lower) : Prop :=
  writable l = true /\ forall pos d, 0 <= pos -> (vfs_write l pos d).1 = zlen d.

(** A page that can be written to: it has the bytes of the file, or they can be read. *)
Definition ready (f : lower) (p : page) : Prop :=
  zlen (pdata p) = PAGE_CACHE_SIZE /\ page_index (index p) /\
  if PageUptodate p then page_holds (contents f) p else reads_all f.

(** Preparing a page for a write. *)
Lemma write_begin_spec p host f o :
  lower_file host = Some f -> ready f p -> 0 <= o < PAGE_CACHE_SIZE ->
  exists p' f', ccfs_write_begin (Some p) host (index p * PAGE_CACHE_SIZE + o) =
      Some (0, Some p', mk_inode _ (Some f') (i_size host) (i_dirty host)) /\
    (f' = f \/ exists r d, vfs_read f (index p * PAGE_CACHE_SIZE) PAGE_CACHE_SIZE = (r, d, f')) /\
    contents f' = contents f /\ writable f' = writable f /\
    index p' = index p /\ PageUptodate p' = true /\ page_holds (contents f) p'.
Proof.
  intros Hf (Hp & Hk & Hr) Ho. unfold ccfs_write_begin. pose proof Hk as [Hk0 _].
  rewrite pos_shiftr by done. destruct (PageUptodate p) eqn:Eu; simpl.
  - exists p, f. split; [by destruct host; simpl in *; subst|]. by repeat split; auto; apply Hr.
  - destruct (read_segment_spec p (index p) host f Hf Hk Hp) as (r & d & f' & Er & Hc & Hw & Hs & Hl).
    specialize (Hr _ _ _ _ _ Er ltac:(unfold PAGE_CACHE_SIZE; lia) ltac:(done)).
    exists (set_uptodate true (set_data (d ++ zdrop (zlen d) (pdata p)) p)), f'.
    rewrite Hs. simpl. replace (r <? 0) with false by lia. repeat split; eauto.
    simpl. intros i Hi Hlt. apply (read_bytes_znth f (index p) r d f'); [done..|lia].
Qed.

(** What committing a page does. *)
Lemma write_end_spec host f pos o d k lk data :
  lower_file host = Some f -> page_index k -> 0 <= o < PAGE_CACHE_SIZE -> o + zlen d <= PAGE_CACHE_SIZE ->
  pos = k * PAGE_CACHE_SIZE + o -> zlen data = PAGE_CACHE_SIZE ->
  ccfs_write_end host pos (zlen d) (mk_page k true lk (blit o d data)) =
  let '(r, f') := vfs_write f pos (ztake o data ++ d) in
  Some (zlen d, mk_page k true false (blit o d data),
        mk_inode _ (Some f') (Z.max (i_size host) (pos + zlen d)) true).
Proof.
  intros Hf Hk Ho Hd -> Hl. pose proof Hk as [Hk0 _]. pose proof (zlen_nonneg d).
  unfold ccfs_write_end. rewrite pos_land by done.
  rewrite (uwrap_id 32 o) by (unfold urange, PAGE_CACHE_SIZE in *; lia).
  rewrite (uwrap_id 32 (o + zlen d)) by (unfold urange, PAGE_CACHE_SIZE in *; lia).
  unfold ccfs_write_lower_page_segment, ccfs_write_lower. cbn [index pdata].
  rewrite page_offset by (done || lia). rewrite Hf.
  replace (ztake (o + zlen d) (blit o d data)) with (ztake o data ++ d).
  - destruct (vfs_write f _ _) as [r f']. simpl. f_equal. f_equal. case_goal; bool_hyps; f_equal; lia.
  - unfold blit. rewrite app_assoc. symmetry.
    replace (o + zlen d) with (zlen (ztake o data ++ d)) by (rewrite zlen_app, zlen_ztake; lia).
    apply ztake_app_eq.
Qed.

(** A piece of a write is reported as written, whatever the lower file answers. *)
Lemma chunk_write_run host f p o d :
  lower_file host = Some f -> ready f p -> 0 <= o < PAGE_CACHE_SIZE -> o + zlen d <= PAGE_CACHE_SIZE ->
  let pos := index p * PAGE_CACHE_SIZE + o in
  exists p1 f1, page_holds (contents f) p1 /\ index p1 = index p /\
    (f1 = f \/ exists r b, vfs_read f (index p * PAGE_CACHE_SIZE) PAGE_CACHE_SIZE = (r, b, f1)) /\
    contents f1 = contents f /\ writable f1 = writable f /\
    chunk_write host p pos d =
      Some (zlen d, mk_page (index p) true false (blit o d (pdata p1)),
            mk_inode _ (Some (vfs_write f1 pos (ztake o (pdata p1) ++ d)).2) (Z.max (i_size host) (pos + zlen d)) true).
Proof.
  intros Hf Hr Ho Hd pos. subst pos. pose proof Hr as (_ & Hk & _).
  destruct (write_begin_spec p host f o Hf Hr Ho) as (p1 & f1 & Hb & Hf1 & Hc1 & Hw1 & Hi1 & Hu1 & Hp1).
  exists p1, f1. split_and!; try done; [apply Hp1..|].
  unfold chunk_write. rewrite Hb. change (negb (0 =? 0)) with false. cbv iota beta. rewrite pos_land by (done || apply Hk).
  unfold set_data. rewrite Hi1, Hu1. rewrite (write_end_spec _ f1 _ o d (index p) _ (pdata p1)); [|done..|apply Hp1].
  cbn [lower_file i_size i_dirty]. by destruct (vfs_write _ _ _).
Qed.

(** A file that may be cached is opened for reading only.  A write to it is reported as complete
    and is found in the page and in the size of the inode, and the lower file does not change. *)
Lemma readonly_write_lost host f p o d :
  lower_file host = Some f -> writable f = false -> ready f p -> 0 <= o < PAGE_CACHE_SIZE ->
  o + zlen d <= PAGE_CACHE_SIZE ->
  exists p' f', chunk_write host p (index p * PAGE_CACHE_SIZE + o) d =
      Some (zlen d, p', mk_inode _ (Some f') (Z.max (i_size host) (index p * PAGE_CACHE_SIZE + o + zlen d)) true) /\
    contents f' = contents f /\ PageUptodate p' = true /\
    forall j, 0 <= j < zlen d -> znth (pdata p') (o + j) = znth d j.
Proof.
  intros Hf Hro Hr Ho Hd. destruct (chunk_write_run host f p o d Hf Hr Ho Hd) as (p1 & f1 & [Hl1 _] & _ & _ & Hc1 & Hw1 & Hc).
  eexists _, _. split; [exact Hc|]. split_and!; [by rewrite write_readonly by congruence|done|].
  intros j Hj. cbn [pdata]. rewrite znth_blit by lia.
  replace ((o <=? o + j) && (o + j <? o + zlen d)) with true by lia. f_equal. lia.
Qed.
End writing.

(** ** What a write stores *)

(** A lower file that gives everything it has and takes everything it is given, and stays so. *)
Class Steady `{LL : LowerLaws} (good : lower -> Prop) : Prop := {
  steady_reads l : good l -> reads_all l;
  steady_writes l : good l -> writes_all l;
  steady_read l pos size r d l' : good l -> vfs_read l pos size = (r, d, l') -> good l';
  steady_write l pos d r l' : good l -> vfs_write l pos d = (r, l') -> good l'
}.

(** The page cache agrees with the file. *)
Definition coherent (f : list Z) (cache : gmap Z page) : Prop :=
  map_Forall (fun k p => index p = k /\ page_index k /\ PageUptodate p = true /\ page_holds f p) cache.

Section stored.
Context `{LL : LowerLaws}.
Context (good : lower -> Prop) `{!Steady good}.

(** A piece of a write: its bytes are stored behind the beginning of its page. *)
Lemma chunk_write_spec host f p o d :
  lower_file host = Some f -> good f -> ready f p -> 0 <= o < PAGE_CACHE_SIZE ->
  o + zlen d <= PAGE_CACHE_SIZE ->
  exists p1 f', page_holds (contents f) p1 /\ index p1 = index p /\ good f' /\
    chunk_write host p (index p * PAGE_CACHE_SIZE + o) d =
      Some (zlen d, mk_page (index p) true false (blit o d (pdata p1)),
            mk_inode _ (Some f') (Z.max (i_size host) (index p * PAGE_CACHE_SIZE + o + zlen d)) true) /\
    contents f' = pwrite (index p * PAGE_CACHE_SIZE + o) (ztake o (pdata p1) ++ d) (contents f).
Proof.
  intros Hf Hg Hr Ho Hd. pose proof Hr as (_ & [Hk0 _] & _).
  destruct (chunk_write_run host f p o d Hf Hr Ho Hd) as (p1 & f1 & Hp1 & Hi1 & Hf1 & Hc1 & _ & Hc).
  assert (good f1) as Hg1. { destruct Hf1 as [->|(r & d' & E)]; [done|exact (steady_read _ _ _ _ _ _ Hg E)]. }
  destruct (vfs_write f1 (index p * PAGE_CACHE_SIZE + o) (ztake o (pdata p1) ++ d)) as [r f'] eqn:Ew.
  assert (0 <= index p * PAGE_CACHE_SIZE + o) as Hpos by (unfold PAGE_CACHE_SIZE in *; lia).
  pose proof (proj2 (steady_writes f1 Hg1) _ (ztake o (pdata p1) ++ d) Hpos) as Hall. rewrite Ew in Hall. simpl in Hall.
  pose proof (zlen_nonneg (ztake o (pdata p1) ++ d)).
  destruct (write_bytes _ _ _ _ _ Ew Hpos ltac:(lia)) as (_ & Hcf & _).
  exists p1, f'. split_and!; [done|done|exact (steady_write _ _ _ _ _ Hg1 Ew)|exact Hc|].
  rewrite Hcf, Hc1, ztake_all by lia. done.
Qed.

(** C39: A write that is not aligned to a page: the bytes are stored too far behind by their offset in
    the page, and the beginning of the page is stored at their place. *)
Theorem unaligned_write_misplaced host f p o d :
  lower_file host = Some f -> good f -> ready f p -> 0 < o < PAGE_CACHE_SIZE ->
  o + zlen d <= PAGE_CACHE_SIZE ->
  let start := index p * PAGE_CACHE_SIZE in
  start + o <= zlen (contents f) ->
  exists p' host' f', chunk_write host p (start + o) d = Some (zlen d, p', host') /\
    lower_file host' = Some f' /\
    (forall j, 0 <= j < o -> znth (contents f') (start + o + j) = znth (contents f) (start + j)) /\
    (forall j, 0 <= j < zlen d -> znth (contents f') (start + o + o + j) = znth d j) /\
    (forall j, 0 <= j < zlen d -> znth (pdata p') (o + j) = znth d j) /\
    i_size host' = Z.max (i_size host) (start + o + zlen d) /\
    zlen (contents f') = Z.max (zlen (contents f)) (start + o + o + zlen d).
Proof.
  intros Hf Hg Hr Ho Hd start Hs. pose proof Hr as (_ & Hk & _). pose proof Hk as [Hk0 _].
  destruct (chunk_write_spec host f p o d Hf Hg Hr ltac:(lia) Hd) as (p1 & f' & [Hl1 Hp1] & Hi1 & _ & Hc & Hf').
  assert (0 <= start) by (unfold start, PAGE_CACHE_SIZE; lia). pose proof (zlen_nonneg d).
  assert (zlen (ztake o (pdata p1) ++ d) = o + zlen d) as Hl by (rewrite zlen_app, zlen_ztake; lia).
  eexists _, _, f'. split; [exact Hc|]. cbn [lower_file i_size pdata]. fold start in Hf'. rewrite Hf'.
  repeat split; [| | |by rewrite zlen_pwrite, Hl; lia].
  - intros j Hj. rewrite znth_pwrite, Hl by lia.
    replace ((start + o <=? start + o + j) && (start + o + j <? start + o + (o + zlen d))) with true by lia.
    rewrite znth_app, zlen_ztake by lia. replace (start + o + j - (start + o)) with j by lia.
    replace (j <? Z.min (Z.max 0 o) (zlen (pdata p1))) with true by lia.
    rewrite znth_ztake, Hp1, Hi1 by (rewrite ?Hi1; fold start; lia). done.
  - intros j Hj. rewrite znth_pwrite, Hl by lia.
    replace ((start + o <=? start + o + o + j) && (start + o + o + j <? start + o + (o + zlen d))) with true by lia.
    rewrite znth_app, zlen_ztake by lia.
    replace (start + o + o + j - (start + o) <? Z.min (Z.max 0 o) (zlen (pdata p1))) with false by lia. f_equal. lia.
  - intros j Hj. rewrite znth_blit by lia. replace ((o <=? o + j) && (o + j <? o + zlen d)) with true by lia. f_equal. lia.
Qed.

(** A piece at the beginning of a page is stored where it belongs, and the pages stay coherent. *)
Lemma chunk_aligned host f cache p d :
  lower_file host = Some f -> good f -> coherent (contents f) cache -> ready f p ->
  zlen d <= PAGE_CACHE_SIZE -> index p * PAGE_CACHE_SIZE <= zlen (contents f) -> i_size host = zlen (contents f) ->
  exists p' host' f', chunk_write host p (index p * PAGE_CACHE_SIZE) d = Some (zlen d, p', host') /\
    lower_file host' = Some f' /\ good f' /\ contents f' = pwrite (index p * PAGE_CACHE_SIZE) d (contents f) /\
    i_size host' = zlen (contents f') /\ coherent (contents f') (<[index p := p']> cache).
Proof.
  intros Hf Hg Hco Hr Hd Hs Hsz. pose proof Hr as (_ & Hk & _). remember (index p) as k eqn:Hi. symmetry in Hi.
  pose proof Hk as [Hk0 _]. pose proof (zlen_nonneg d).
  destruct (chunk_write_spec host f p 0 d Hf Hg Hr ltac:(done) ltac:(lia)) as (p1 & f' & Hp1 & Hi1 & Hg' & Hc & Hf').
  rewrite Z.add_0_r, Hi in *. assert (0 <= k * PAGE_CACHE_SIZE) by (unfold PAGE_CACHE_SIZE; lia).
  rewrite ztake_0 in Hf' by lia. simpl in Hf'.
  eexists _, _, f'. split; [exact Hc|]. cbn [lower_file i_size]. rewrite Hf'.
  assert (Hlen : zlen (pwrite (k * PAGE_CACHE_SIZE) d (contents f)) = Z.max (zlen (contents f)) (k * PAGE_CACHE_SIZE + zlen d))
    by (apply zlen_pwrite; lia).
  split_and!; [done..|by rewrite Hlen, Hsz|]. destruct Hp1 as [Hl1 Hb1]. rewrite Hi1 in Hb1.
  intros k' q [[<- <-]|[Hne E]]%lookup_insert_Some.
  - split_and!; try done. split; cbn [pdata index]; [rewrite zlen_blit; lia|].
    intros i Hi' Hlt. rewrite Hlen in Hlt. rewrite znth_blit, znth_pwrite by lia.
    replace ((k * PAGE_CACHE_SIZE <=? k * PAGE_CACHE_SIZE + i) && (k * PAGE_CACHE_SIZE + i <? k * PAGE_CACHE_SIZE + zlen d))
      with ((0 <=? i) && (i <? 0 + zlen d)) by lia.
    case_goal; bool_hyps; [f_equal; lia|apply Hb1; lia].
  - destruct (Hco _ _ E) as (Hik & Hk' & Hu & Hlq & Hbq). split_and!; try done. split; [done|].
    rewrite Hik in *. intros i Hi' Hlt. rewrite Hlen in Hlt. unfold page_index, PAGE_CACHE_SIZE in *.
    rewrite znth_pwrite by lia.
    replace ((k * 4096 <=? k' * 4096 + i) && (k' * 4096 + i <? k * 4096 + zlen d)) with false by lia.
    apply Hbq; lia.
Qed.

(** C32: What a piece of a write does that starts at a page, within the file or at its end, and
    lies in this page.  If the lower file is open for writing, gives what it has and takes all that
    it is given, the bytes are stored in it exactly where they belong, they are reported as written,
    the size of the inode is the size of the lower file, and every page of the page cache has the
    bytes of the lower file afterwards.  If the lower file is open for reading only, as this file
    system opens the files that it may cache, the piece is reported as written as well, the page
    and the size of the inode show it, and the lower file does not change. *)
Theorem aligned_write_stored host f cache p d :
  lower_file host = Some f -> ready f p -> coherent (contents f) cache -> i_size host = zlen (contents f) ->
  let start := index p * PAGE_CACHE_SIZE in
  start <= zlen (contents f) -> zlen d <= PAGE_CACHE_SIZE ->
  exists p' host' f', chunk_write host p start d = Some (zlen d, p', host') /\ lower_file host' = Some f' /\
    PageUptodate p' = true /\ (forall j, 0 <= j < zlen d -> znth (pdata p') j = znth d j) /\
    i_size host' = Z.max (zlen (contents f)) (start + zlen d) /\
    (good f -> contents f' = pwrite start d (contents f) /\ i_size host' = zlen (contents f') /\
               coherent (contents f') (<[index p := p']> cache)) /\
    (writable f = false -> contents f' = contents f).
Proof.
  intros Hf Hr Hco Hsz start Hs Hd. pose proof Hr as (_ & Hk & _). pose proof (zlen_nonneg d).
  destruct (chunk_write_run host f p 0 d Hf Hr ltac:(done) ltac:(lia)) as (p1 & f1 & Hp1 & _ & _ & Hc1 & Hw1 & Hc).
  rewrite Z.add_0_r in Hc. fold start in Hc. change (ztake 0 (pdata p1) ++ d) with d in Hc. eexists _, _, _. split; [exact Hc|]. cbn [lower_file i_size pdata PageUptodate].
  rewrite Hsz. split_and!; try done.
  - intros j Hj. rewrite znth_blit by (destruct Hp1; lia). replace ((0 <=? j) && (j <? 0 + zlen d)) with true by lia. f_equal. lia.
  - intros Hg. destruct (chunk_aligned host f cache p d Hf Hg Hco Hr Hd Hs Hsz) as (p' & host' & f' & Hc' & Hf' & _ & Hcf & Hsz' & Hco').
    fold start in Hc', Hcf. rewrite Hc in Hc'. injection Hc' as <- <-. cbn [lower_file i_size] in Hf', Hsz'. injection Hf' as ->.
    by rewrite Hsz in Hsz'.
  - intros Hro. by rewrite write_readonly by congruence.
Qed.
End stored.

(** ** A file in memory *)

#[export] Instance memory_file : Lower := {|
  lower := list Z * bool;
  vfs_read := fun l pos size => let d := ztake size (zdrop pos l.1) in (zlen d, d, l);
  vfs_write := fun l pos d => if l.2 then (zlen d, (pwrite pos d l.1, true)) else (- EBADF, l);
  contents := fst;
  writable := snd
|}.

#[export] Instance memory_file_laws : LowerLaws memory_file.
Proof.
  split; simpl.
  - by intros l pos size r d l' [= _ _ <-].
  - intros l pos size r d l' [= _ <- _] Hs. rewrite zlen_ztake. pose proof (zlen_nonneg (zdrop pos l.1)). lia.
  - intros l pos size r d l' [= <- <- _] Hp Hr. split; [done|]. rewrite zlen_ztake.
    set (rest := zdrop pos l.1). pose proof (zlen_nonneg rest).
    destruct (decide (size <= zlen rest)).
    + destruct (decide (0 <= size)); [by rewrite Z.max_r, Z.min_l by lia|].
      rewrite !ztake_0 by lia. done.
    + rewrite !ztake_all by lia. done.
  - intros [c []] pos d r l' E Hp Hr; simpl in E; simplify_eq; simpl; [|done].
    split_and!; [done| |done]. by rewrite ztake_all.
  - intros [c []] pos d r l' E Hr; simpl in E; simplify_eq; [|done]. pose proof (zlen_nonneg d). lia.
  - by intros [c []] pos d.
Qed.

#[export] Instance memory_file_steady : Steady (LL := memory_file_laws) (fun l => l.2 = true).
Proof.
  split; simpl.
  - intros l Hl pos size r d l' [= <- <- _] Hp Hs. rewrite zlen_ztake, zlen_zdrop. simpl. lia.
  - intros [c b] Hl. simpl in Hl. subst. split; [done|]. done.
  - by intros l pos size r d l' Hl [= _ _ <-].
  - intros [c b] pos d r l' Hl E. simpl in *. subst. by simplify_eq.
Qed.

(** A file of 5 bytes, and the page of it in the cache. *)
Definition small_file : lower := ([1; 2; 3; 4; 5], true).
Definition small_page : page := mk_page 0 true true ([1; 2; 3; 4; 5] ++ replicate 4091 0).
Definition small_inode : ccfs_inode := mk_inode _ (Some small_file) 5 false.

Lemma small_page_holds : page_holds (contents small_file) small_page.
Proof.
  split; [by vm_compute|]. simpl. intros i Hi Hlt. change (zlen [1; 2; 3; 4; 5]) with 5 in Hlt.
  assert (i = 0 \/ i = 1 \/ i = 2 \/ i = 3 \/ i = 4) as [->|[->|[->|[->| ->]]]] by lia; done.
Qed.

Lemma small_ready : ready small_file small_page.
Proof. split_and!; [by vm_compute|done|]. exact small_page_holds. Qed.

Lemma aligned_write_stored_witness :
  exists p' host' f', chunk_write small_inode small_page 0 [9; 8; 7] = Some (3, p', host') /\
    lower_file host' = Some f' /\ contents f' = [9; 8; 7; 4; 5] /\
    i_size host' = zlen (contents f') /\ coherent (contents f') {[0 := p']}.
Proof.
  destruct (aligned_write_stored _ small_inode small_file {[0 := small_page]} small_page [9; 8; 7])
    as (p' & host' & f' & Hc & Hf' & _ & _ & _ & Hgood & _); try done.
  - exact small_ready.
  - intros k p [<- <-]%lookup_singleton_Some. split_and!; [done|done|done|]. exact small_page_holds.
  - destruct (Hgood eq_refl) as (Hcf & Hsz & Hco). exists p', host', f'. split_and!; try assumption.
Defined.

(** Three bytes written at offset 2 of a page. *)
Lemma unaligned_write_misplaced_witness :
  exists p' host' f', chunk_write small_inode small_page 2 [9; 8; 7] = Some (3, p', host') /\
    lower_file host' = Some f' /\
    (forall j, 0 <= j < 2 -> znth (contents f') (2 + j) = znth [1; 2; 3; 4; 5] j) /\
    (forall j, 0 <= j < 3 -> znth (contents f') (4 + j) = znth [9; 8; 7] j) /\
    (forall j, 0 <= j < 3 -> znth (pdata p') (2 + j) = znth [9; 8; 7] j) /\
    i_size host' = 5 /\ zlen (contents f') = 7.
Proof.
  refine (unaligned_write_misplaced _ small_inode small_file small_page 2 [9; 8; 7] _ _ _ _ _ _); try done.
  exact small_ready.
Defined.
