(* ===== verification/Ccfs.v ===== *)
(** The caching file system (src/src/ccfs: main.c, super.c, inode.c, dentry.c, file.c): upper dentries
    and inodes over those of a lower file system, the references they hold to it, and the
    attributes and link texts they cache.

    The lower file system is the class [LowerFs]: what its operations do to its dentries and
    inodes.  References to lower dentries, inodes and mounts are counted in tables of their own,
    and a lower inode whose mutex is taken is in [locked].  [d_count] counts the references of the
    holders outside the lower file system, [i_count] those that [igrab] took.  A lower file has
    one reference, and with it one on its dentry and one on its mount.

    Upper objects are found by their address.  [allocs] and [opens] are the answers of the
    allocator and of [dentry_open]; when they are used up both succeed. *)

From stdpp Require Import gmap.
From S2P Require Import Prelude Effect CcfsFilter.

Definition EXDEV : Z := 18.
Definition ESTALE : Z := 116.
Definition ENOTTY : Z := 25.
Definition EOPNOTSUPP : Z := 95.
Definition PAGE_SIZE : Z := 4096.
Definition S_IFLNK : Z := 40960.
Definition S_ISLNK (m : Z) : bool := Z.land m S_IFMT =? S_IFLNK.
Definition ATTR_MODE : Z := 1.
Definition ATTR_SIZE : Z := 8.
Definition ATTR_KILL_SUID : Z := 2048.
Definition ATTR_KILL_SGID : Z := 4096.

(** ** The lower file system *)

(** What [fsstack_copy_attr_all] copies; the size is apart. *)
Record attrs := mk_attrs {
  i_mode : Z; i_uid : Z; i_gid : Z; i_rdev : Z; i_atime : timespec; i_mtime : timespec; i_ctime : timespec;
  i_blkbits : Z; i_flags : Z; i_nlink : Z
}.
(** [l_freeing]: I_FREEING of [i_state]. *)
Record linode := mk_linode { l_attrs : attrs; l_size : Z; l_ino : Z; l_sb : Z; l_freeing : bool }.
Record ldentry := mk_ldentry { l_parent : Z; l_inode : option Z; l_hashed : bool }.
Record lower_fs := mk_lower { l_dents : gmap Z ldentry; l_inodes : gmap Z linode }.

Record iattr := mk_iattr { ia_valid : Z; ia_size : Z; ia_attrs : attrs }.
Record kstat := mk_kstat { k_attrs : attrs; k_size : Z }.

(** The calls that change the lower file system; directories are inodes.  [Vtruncate] is
    [vmtruncate] of a lower inode, [Vd_delete] is [d_delete] of a lower dentry. *)
Inductive vfs_call :=
| Vcreate (dir dentry mode : Z)
| Vlink (old_dentry dir new_dentry : Z)
| Vunlink (dir dentry : Z)
| Vsymlink (dir dentry : Z) (symname : list Z)
| Vmkdir (dir dentry mode : Z)
| Vrmdir (dir dentry : Z)
| Vmknod (dir dentry mode dev : Z)
| Vrename (old_dir old_dentry new_dir new_dentry : Z)
| Vnotify_change (dentry : Z) (ia : iattr)
| Vtruncate (inode length : Z)
| Vd_delete (dentry : Z).

(** Operations on extended attributes. *)
Inductive xattr_call :=
| Xset (name value : list Z) (flags : Z)
| Xget (name : list Z) (size : Z)
| Xlist (size : Z)
| Xremove (name : list Z).

(** [vfs] sees the counters of the dentries, as [d_delete] does.  [None] as a result of
    [xattr] and [readlink]: the inode has no such operation. *)
Class LowerFs := {
  vfs : vfs_call -> gmap Z Z -> lower_fs -> Z * lower_fs;
  lower_lookup : list Z -> Z -> lower_fs -> (Z + Z) * lower_fs;
  vfs_getattr : Z -> lower_fs -> Z * kstat;
  readlink : Z -> Z -> lower_fs -> option (Z * list Z);
  xattr : xattr_call -> Z -> lower_fs -> option (Z * list Z * lower_fs);
  d_revalidate : Z -> lower_fs -> option Z;
  inode_permission : Z -> Z -> lower_fs -> Z
}.

(** ** The upper file system *)

Inductive iop := ccfs_main_iops | ccfs_dir_iops | ccfs_symlink_iops.
Inductive fop := ccfs_main_fops | ccfs_dir_fops | special_fops.

(** [struct inode] with the fields of [struct ccfs_inode]; [i_new] is I_NEW of [i_state]. *)
Record inode := mk_inode {
  nested_inode : Z;
  lower_file : option Z;
  lower_file_mutex : bool;
  cacheable : bool;
  link : option (list Z);
  stat : option kstat;
  i_attrs : attrs;
  i_size : Z;
  i_ino : Z;
  i_version : Z;
  i_op : iop;
  i_fop : fop;
  i_new : bool
}.

(** [d_private]: the nested dentry and mount. *)
Record dentry := mk_dentry {
  d_name : list Z;
  d_parent : Z;
  d_inode : option Z;
  d_hashed : bool;
  d_private : option (Z * Z)
}.

(** A lower file. *)
Record lfile := mk_lfile { f_dentry : Z; f_mnt : Z; f_write : bool }.
(** An open upper file; [nested_file] is that of its private data. *)
Record file := mk_file { u_dentry : Z; nested_file : option Z }.

Record ccfs_super := mk_super { nested_superblock : Z; prefetch : bool; cacheable_filter : option filter }.

Record world := mk_world {
  lo : lower_fs;
  d_count : gmap Z Z;
  i_count : gmap Z Z;
  mnt_count : gmap Z Z;
  locked : gset Z;
  dents : gmap Z dentry;
  inodes : gmap Z inode;
  lfiles : gmap Z lfile;
  files : gmap Z file;
  next : Z;
  allocs : list bool;
  opens : list Z
}.

Definition set_lo x w := mk_world x (d_count w) (i_count w) (mnt_count w) (locked w) (dents w) (inodes w) (lfiles w) (files w) (next w) (allocs w) (opens w).
Definition set_d_count x w := mk_world (lo w) x (i_count w) (mnt_count w) (locked w) (dents w) (inodes w) (lfiles w) (files w) (next w) (allocs w) (opens w).
Definition set_i_count x w := mk_world (lo w) (d_count w) x (mnt_count w) (locked w) (dents w) (inodes w) (lfiles w) (files w) (next w) (allocs w) (opens w).
Definition set_mnt_count x w := mk_world (lo w) (d_count w) (i_count w) x (locked w) (dents w) (inodes w) (lfiles w) (files w) (next w) (allocs w) (opens w).
Definition set_locked x w := mk_world (lo w) (d_count w) (i_count w) (mnt_count w) x (dents w) (inodes w) (lfiles w) (files w) (next w) (allocs w) (opens w).
Definition set_dents x w := mk_world (lo w) (d_count w) (i_count w) (mnt_count w) (locked w) x (inodes w) (lfiles w) (files w) (next w) (allocs w) (opens w).
Definition set_inodes x w := mk_world (lo w) (d_count w) (i_count w) (mnt_count w) (locked w) (dents w) x (lfiles w) (files w) (next w) (allocs w) (opens w).
Definition set_lfiles x w := mk_world (lo w) (d_count w) (i_count w) (mnt_count w) (locked w) (dents w) (inodes w) x (files w) (next w) (allocs w) (opens w).
Definition set_files x w := mk_world (lo w) (d_count w) (i_count w) (mnt_count w) (locked w) (dents w) (inodes w) (lfiles w) x (next w) (allocs w) (opens w).
Definition set_next x w := mk_world (lo w) (d_count w) (i_count w) (mnt_count w) (locked w) (dents w) (inodes w) (lfiles w) (files w) x (allocs w) (opens w).
Definition set_allocs x w := mk_world (lo w) (d_count w) (i_count w) (mnt_count w) (locked w) (dents w) (inodes w) (lfiles w) (files w) (next w) x (opens w).
Definition set_opens x w := mk_world (lo w) (d_count w) (i_count w) (mnt_count w) (locked w) (dents w) (inodes w) (lfiles w) (files w) (next w) (allocs w) x.

Definition i_set_file x i := mk_inode (nested_inode i) x (lower_file_mutex i) (cacheable i) (link i) (stat i) (i_attrs i) (i_size i) (i_ino i) (i_version i) (i_op i) (i_fop i) (i_new i).
Definition i_set_mutex x i := mk_inode (nested_inode i) (lower_file i) x (cacheable i) (link i) (stat i) (i_attrs i) (i_size i) (i_ino i) (i_version i) (i_op i) (i_fop i) (i_new i).
Definition i_set_cacheable x i := mk_inode (nested_inode i) (lower_file i) (lower_file_mutex i) x (link i) (stat i) (i_attrs i) (i_size i) (i_ino i) (i_version i) (i_op i) (i_fop i) (i_new i).
Definition i_set_link x i := mk_inode (nested_inode i) (lower_file i) (lower_file_mutex i) (cacheable i) x (stat i) (i_attrs i) (i_size i) (i_ino i) (i_version i) (i_op i) (i_fop i) (i_new i).
Definition i_set_stat x i := mk_inode (nested_inode i) (lower_file i) (lower_file_mutex i) (cacheable i) (link i) x (i_attrs i) (i_size i) (i_ino i) (i_version i) (i_op i) (i_fop i) (i_new i).
Definition i_set_attrs x i := mk_inode (nested_inode i) (lower_file i) (lower_file_mutex i) (cacheable i) (link i) (stat i) x (i_size i) (i_ino i) (i_version i) (i_op i) (i_fop i) (i_new i).
Definition i_set_size x i := mk_inode (nested_inode i) (lower_file i) (lower_file_mutex i) (cacheable i) (link i) (stat i) (i_attrs i) x (i_ino i) (i_version i) (i_op i) (i_fop i) (i_new i).
Definition i_set_op x i := mk_inode (nested_inode i) (lower_file i) (lower_file_mutex i) (cacheable i) (link i) (stat i) (i_attrs i) (i_size i) (i_ino i) (i_version i) x (i_fop i) (i_new i).
Definition i_set_fop x i := mk_inode (nested_inode i) (lower_file i) (lower_file_mutex i) (cacheable i) (link i) (stat i) (i_attrs i) (i_size i) (i_ino i) (i_version i) (i_op i) x (i_new i).
Definition i_set_new x i := mk_inode (nested_inode i) (lower_file i) (lower_file_mutex i) (cacheable i) (link i) (stat i) (i_attrs i) (i_size i) (i_ino i) (i_version i) (i_op i) (i_fop i) x.
Definition d_set_inode x d := mk_dentry (d_name d) (d_parent d) x (d_hashed d) (d_private d).
Definition d_set_hashed x d := mk_dentry (d_name d) (d_parent d) (d_inode d) x (d_private d).
Definition d_set_private x d := mk_dentry (d_name d) (d_parent d) (d_inode d) (d_hashed d) x.

Definition a_set_times (s a : attrs) := mk_attrs (i_mode a) (i_uid a) (i_gid a) (i_rdev a) (i_atime s) (i_mtime s) (i_ctime s) (i_blkbits a) (i_flags a) (i_nlink a).
Definition a_set_atime (s a : attrs) := mk_attrs (i_mode a) (i_uid a) (i_gid a) (i_rdev a) (i_atime s) (i_mtime a) (i_ctime a) (i_blkbits a) (i_flags a) (i_nlink a).
Definition a_set_ctime (t : timespec) (a : attrs) := mk_attrs (i_mode a) (i_uid a) (i_gid a) (i_rdev a) (i_atime a) (i_mtime a) t (i_blkbits a) (i_flags a) (i_nlink a).
Definition a_set_nlink (n : Z) (a : attrs) := mk_attrs (i_mode a) (i_uid a) (i_gid a) (i_rdev a) (i_atime a) (i_mtime a) (i_ctime a) (i_blkbits a) (i_flags a) n.

Abbreviation M := (eff world).

(** A counter that is not in its table is 0. *)
Definition cnt (m : gmap Z Z) (a : Z) : Z := default 0 (m !! a).
Definition bump (a n : Z) (m : gmap Z Z) : gmap Z Z := <[a := cnt m a + n]> m.

Definition alloc : M bool := l ← gets allocs; modify (set_allocs (tail l));; mret (default true (head l)).
Definition dent (u : Z) : M dentry := ds ← gets dents; valid (ds !! u).
Definition upd_dent (u : Z) (f : dentry -> dentry) : M unit :=
  d ← dent u; ds ← gets dents; modify (set_dents (<[u := f d]> ds)).
Definition ino (i : Z) : M inode := m ← gets inodes; valid (m !! i).
Definition upd_ino (i : Z) (f : inode -> inode) : M unit :=
  n ← ino i; m ← gets inodes; modify (set_inodes (<[i := f n]> m)).
Definition ldent (a : Z) : M ldentry := l ← gets lo; valid (l_dents l !! a).
Definition lino (i : Z) : M linode := l ← gets lo; valid (l_inodes l !! i).
(** [lower_dentry->d_inode] that is followed. *)
Definition linode_of (a : Z) : M Z := d ← ldent a; valid (l_inode d).

Definition ccfs_get_nested_dentry (u : Z) : M Z := d ← dent u; p ← valid (d_private d); mret p.1.
Definition ccfs_dentry_to_nested_mnt (u : Z) : M Z := d ← dent u; p ← valid (d_private d); mret p.2.
Definition ccfs_get_nested_inode (i : Z) : M Z := n ← ino i; mret (nested_inode n).
Definition ccfs_is_inode_cacheable (i : Z) : M bool := n ← ino i; mret (cacheable n).

(** ** What the kernel provides *)

(** A reference that nobody holds cannot be put. *)
Definition put (get : world -> gmap Z Z) (set : gmap Z Z -> world -> world) (a : Z) : M unit :=
  c ← gets get; if cnt c a <=? 0 then fault else modify (set (bump a (-1) c)).
Definition take_ref (get : world -> gmap Z Z) (set : gmap Z Z -> world -> world) (a : Z) : M unit :=
  c ← gets get; modify (set (bump a 1 c)).
Definition dget (a : Z) : M unit := take_ref d_count set_d_count a.
Definition dput (a : Z) : M unit := put d_count set_d_count a.
Definition mntget (m : Z) : M unit := take_ref mnt_count set_mnt_count m.
Definition mntput (m : Z) : M unit := put mnt_count set_mnt_count m.
Definition iput (i : Z) : M unit := put i_count set_i_count i.
(** An inode that is being freed is not grabbed. *)
Definition igrab (i : Z) : M bool :=
  n ← lino i; if l_freeing n then mret false else take_ref i_count set_i_count i;; mret true.

(** A mutex that is taken is waited for; nobody else runs here, so the wait does not end. *)
Definition mutex_lock (i : Z) : M unit :=
  l ← gets locked; if bool_decide (i ∈ l) then halt Gone else modify (set_locked (l ∪ {[i]})).
Definition mutex_unlock (i : Z) : M unit :=
  l ← gets locked; if bool_decide (i ∈ l) then modify (set_locked (l ∖ {[i]})) else fault.

Definition d_drop (u : Z) : M unit := upd_dent u (d_set_hashed false).
Definition l_set_dent (a : Z) (d : ldentry) (l : lower_fs) : lower_fs := mk_lower (<[a := d]> (l_dents l)) (l_inodes l).
Definition lower_d_drop (a : Z) : M unit :=
  d ← ldent a; l ← gets lo; modify (set_lo (l_set_dent a (mk_ldentry (l_parent d) (l_inode d) false) l)).
(** A dentry that has an inode may not get one. *)
Definition d_instantiate (u i : Z) : M unit :=
  d ← dent u; match d_inode d with Some _ => fault | None => upd_dent u (d_set_inode (Some i)) end.
Definition d_add (u : Z) (i : option Z) : M unit :=
  match i with Some i => d_instantiate u i | None => mret tt end;; upd_dent u (d_set_hashed true).

(** [dentry_open] uses the references up, also when it fails; [fput] of the last reference. *)
Definition dentry_open (a m : Z) (write : bool) : M (Z + Z) :=
  l ← gets opens; modify (set_opens (tail l));;
  match default 0 (head l) with
  | 0 => f ← gets next; modify (set_next (f + 1));;
         fs ← gets lfiles; modify (set_lfiles (<[f := mk_lfile a m write]> fs));; mret (inr f)
  | e => dput a;; mntput m;; mret (inl e)
  end.
Definition fput (f : Z) : M unit :=
  fs ← gets lfiles; x ← valid (fs !! f);
  modify (set_lfiles (delete f fs));; dput (f_dentry x);; mntput (f_mnt x).

Definition fsstack_copy_attr_times (i li : Z) : M unit :=
  n ← lino li; upd_ino i (fun x => i_set_attrs (a_set_times (l_attrs n) (i_attrs x)) x).
Definition fsstack_copy_attr_atime (i li : Z) : M unit :=
  n ← lino li; upd_ino i (fun x => i_set_attrs (a_set_atime (l_attrs n) (i_attrs x)) x).
Definition fsstack_copy_inode_size (i li : Z) : M unit :=
  n ← lino li; upd_ino i (i_set_size (l_size n)).
Definition fsstack_copy_attr_all (i li : Z) : M unit :=
  n ← lino li; upd_ino i (i_set_attrs (l_attrs n)).
Definition copy_nlink (i li : Z) : M unit :=
  n ← lino li; upd_ino i (fun x => i_set_attrs (a_set_nlink (i_nlink (l_attrs n)) (i_attrs x)) x).

(** Character and block devices, FIFOs and sockets. *)
Definition special_file (m : Z) : bool := bool_decide (Z.land m S_IFMT ∈ [8192; 24576; 4096; 49152]).

(** ** super.c and main.c: inodes *)

Definition zero_attrs : attrs := mk_attrs 0 0 0 0 (mk_timespec 0 0) (mk_timespec 0 0) (mk_timespec 0 0) 0 0 0.

Definition ccfs_alloc_inode : M (option Z) :=
  ok ← alloc;
  if negb ok then mret None else
  i ← gets next; modify (set_next (i + 1));; m ← gets inodes;
  modify (set_inodes (<[i := mk_inode 0 None false false None None zero_attrs 0 0 0 ccfs_main_iops ccfs_main_fops false]> m));;
  mret (Some i).

Definition ccfs_init_inode (i lower_inode : Z) : M unit :=
  n ← lino lower_inode;
  upd_ino i (fun x => mk_inode lower_inode (lower_file x) (lower_file_mutex x) true (link x) (stat x) (i_attrs x) (i_size x)
                        (l_ino n) (i_version x + 1) ccfs_main_iops ccfs_main_fops (i_new x)).

Definition ccfs_inode_test (n : inode) (candidate_lower_inode : Z) : bool := nested_inode n =? candidate_lower_inode.
Definition ccfs_inode_set (i lower_inode : Z) : M Z := ccfs_init_inode i lower_inode;; mret 0.

(** The inode of the cache that the test accepts, or a new one.  An inode that is new is waited
    for. *)
Definition find_inode (lower_inode : Z) (m : gmap Z inode) : option Z :=
  fst <$> head (List.filter (fun x => ccfs_inode_test x.2 lower_inode) (map_to_list m)).
Definition iget5_locked (lower_inode : Z) : M (option Z) :=
  m ← gets inodes;
  match find_inode lower_inode m with
  | Some i => n ← ino i; if i_new n then halt Gone else mret (Some i)
  | None =>
      o ← ccfs_alloc_inode;
      match o with
      | None => mret None
      | Some i => ccfs_inode_set i lower_inode;; upd_ino i (i_set_new true);; mret (Some i)
      end
  end.

(** [lower_file_mutex] of an inode. *)
Definition lock_lower_file (i : Z) : M unit :=
  n ← ino i; if lower_file_mutex n then halt Gone else upd_ino i (i_set_mutex true).
Definition unlock_lower_file (i : Z) : M unit := upd_ino i (i_set_mutex false).

(** A file that may be cached is opened for reading, others for writing when that works. *)
Definition ccfs_init_persistent_file_unlocked (u i : Z) : M Z :=
  n ← ino i;
  match lower_file n with
  | Some _ => mret 0
  | None =>
      lower_mnt ← ccfs_dentry_to_nested_mnt u;
      lower_dentry ← ccfs_get_nested_dentry u;
      dget lower_dentry;; mntget lower_mnt;;
      let try_write_mode := negb (cacheable n) in
      r ← dentry_open lower_dentry lower_mnt try_write_mode;
      r ← match r with
          | inl _ => dget lower_dentry;; mntget lower_mnt;; dentry_open lower_dentry lower_mnt false
          | inr f => mret (inr f)
          end;
      match r with
      | inl e => mret e
      | inr f => upd_ino i (i_set_file (Some f));; mret 0
      end
  end.

Definition ccfs_init_persistent_file (u i : Z) : M Z :=
  lock_lower_file i;;
  rc ← ccfs_init_persistent_file_unlocked u i;
  unlock_lower_file i;;
  mret rc.

Definition ccfs_reopen_persistent_file (u i : Z) : M Z :=
  lock_lower_file i;;
  n ← ino i;
  match lower_file n with
  | Some f => fput f;; upd_ino i (i_set_file None)
  | None => mret tt
  end;;
  rc ← ccfs_init_persistent_file_unlocked u i;
  unlock_lower_file i;;
  mret rc.

Section interpose.
Context (sb : ccfs_super).

(** Operations and attributes of the inode, from those of the lower one. *)
Definition interpose_attrs (i lower_inode : Z) : M unit :=
  n ← lino lower_inode;
  let mode := i_mode (l_attrs n) in
  (if S_ISLNK mode then upd_ino i (i_set_op ccfs_symlink_iops)
   else if S_ISDIR mode then upd_ino i (i_set_op ccfs_dir_iops) else mret tt);;
  when (S_ISDIR mode) (upd_ino i (i_set_fop ccfs_dir_fops));;
  when (special_file mode) (upd_ino i (i_set_fop special_fops));;
  fsstack_copy_attr_all i lower_inode;;
  fsstack_copy_inode_size i lower_inode.

Definition interpose_filter (u i : Z) : M unit :=
  d ← dent u; x ← ino i;
  let matches := filter_matches (cacheable_filter sb) (d_name d) (zlen (d_name d)) (i_ctime (i_attrs x)) (i_mode (i_attrs x)) in
  when (negb matches) (upd_ino i (i_set_cacheable false)).

Definition ccfs_interpose (lower_dentry u : Z) (flag : bool) : M Z :=
  lower_inode ← linode_of lower_dentry;
  n ← lino lower_inode;
  if negb (l_sb n =? nested_superblock sb) then mret (- EXDEV) else
  g ← igrab lower_inode;
  if negb g then mret (- ESTALE) else
  o ← iget5_locked lower_inode;
  match o with
  | None => iput lower_inode;; mret (- EACCES)
  | Some i =>
      interpose_attrs i lower_inode;;
      interpose_filter u i;;
      rc ← ccfs_init_persistent_file u i;
      (if flag then d_add u (Some i) else d_instantiate u i);;
      if negb (rc =? 0) then mret rc else
      x ← ino i;
      (if i_new x then upd_ino i (i_set_new false) else iput lower_inode);;
      mret rc
  end.
End interpose.

(** The memory of the link text and of the attributes goes with the inode. *)
Definition ccfs_destroy_inode (i : Z) : M unit :=
  lock_lower_file i;;
  n ← ino i;
  match lower_file n with
  | Some f =>
      fs ← gets lfiles; x ← valid (fs !! f); d ← ldent (f_dentry x);
      match l_inode d with
      | Some _ => fput f;; upd_ino i (i_set_file None)
      | None => mret tt
      end
  | None => mret tt
  end;;
  unlock_lower_file i;;
  m ← gets inodes; modify (set_inodes (delete i m)).

Definition ccfs_clear_inode (i : Z) : M unit := li ← ccfs_get_nested_inode i; iput li.

(** [generic_delete_inode], and [generic_drop_inode], which keeps an inode that has links. *)
Definition generic_delete_inode (i : Z) : M unit := ccfs_clear_inode i;; ccfs_destroy_inode i.
Definition ccfs_drop_inode (i : Z) : M unit :=
  c ← ccfs_is_inode_cacheable i;
  if negb c then generic_delete_inode i else
  n ← ino i; if i_nlink (i_attrs n) =? 0 then generic_delete_inode i else mret tt.

(** ** dentry.c *)

(** [nd]: there is a nameidata. *)
Definition ccfs_d_revalidate `{LowerFs} (nd : bool) (u : Z) : M Z :=
  lower_dentry ← ccfs_get_nested_dentry u;
  d ← dent u;
  match d_inode d with
  | None => mret 0
  | Some i =>
      l ← gets lo;
      match d_revalidate lower_dentry l with
      | None => mret 1
      | Some rc =>
          if negb nd then fault else
          li ← ccfs_get_nested_inode i;
          fsstack_copy_attr_all i li;;
          mret rc
      end
  end.

Definition ccfs_d_release (u : Z) : M unit :=
  d ← dent u;
  match d_private d with
  | Some (lower_dentry, lower_mnt) => mntput lower_mnt;; dput lower_dentry
  | None => mret tt
  end.

Definition ccfs_d_delete (u : Z) : M bool :=
  d ← dent u;
  match d_inode d with
  | Some i => c ← ccfs_is_inode_cacheable i; mret (negb c)
  | None => mret true
  end.

(** What the kernel does with a dentry that goes: its inode is put, then it is released.  The
    other dentries of the inode hold it. *)
Definition inode_in_use (i : Z) (m : gmap Z dentry) : bool :=
  existsb (fun x => bool_decide (d_inode x.2 = Some i)) (map_to_list m).
Definition kill_dentry (u : Z) : M unit :=
  d ← dent u;
  match d_inode d with
  | Some i =>
      upd_dent u (d_set_inode None);;
      m ← gets dents;
      if inode_in_use i m then mret tt else ccfs_drop_inode i
  | None => mret tt
  end;;
  ccfs_d_release u;;
  m ← gets dents; modify (set_dents (delete u m)).
(** The last reference of an upper dentry. *)
Definition upper_dput (u : Z) : M unit :=
  d ← dent u;
  if negb (d_hashed d) then kill_dentry u else
  del ← ccfs_d_delete u;
  if negb del then mret tt else kill_dentry u.

(** ** inode.c: directories *)

Section inode.
Context `{LowerFs} (sb : ccfs_super).

Definition do_vfs (c : vfs_call) : M Z :=
  l ← gets lo; k ← gets d_count; let r := vfs c k l in modify (set_lo r.2);; mret r.1.

Definition lock_parent (a : Z) : M Z :=
  d ← ldent a; dget (l_parent d);; i ← linode_of (l_parent d); mutex_lock i;; mret (l_parent d).
Definition unlock_parent (a : Z) : M unit :=
  d ← ldent a; i ← linode_of (l_parent d); mutex_unlock i;; dput (l_parent d).
Definition unlock_dir (dir : Z) : M unit := i ← linode_of dir; mutex_unlock i;; dput dir.

Definition ccfs_create_underlying_file (lower_dir_inode u mode : Z) : M Z :=
  lower_dentry ← ccfs_get_nested_dentry u;
  _ ← ccfs_dentry_to_nested_mnt u;
  do_vfs (Vcreate lower_dir_inode lower_dentry mode).

Definition ccfs_do_create (dir u mode : Z) : M Z :=
  lower_dentry ← ccfs_get_nested_dentry u;
  lower_dir_dentry ← lock_parent lower_dentry;
  lower_dir_inode ← linode_of lower_dir_dentry;
  rc ← ccfs_create_underlying_file lower_dir_inode u mode;
  rc ← (if negb (rc =? 0) then mret rc else
        rc ← ccfs_interpose sb lower_dentry u false;
        if negb (rc =? 0) then mret rc else
        i ← linode_of lower_dir_dentry;
        fsstack_copy_attr_times dir i;; fsstack_copy_inode_size dir i;; mret rc);
  unlock_dir lower_dir_dentry;;
  mret rc.
Definition ccfs_create (dir u mode : Z) : M Z := ccfs_do_create dir u mode.

(** [lookup_one_len] takes a reference to the dentry it returns. *)
Definition lookup_one_len (name : list Z) (a : Z) : M (Z + Z) :=
  l ← gets lo; let r := lower_lookup name a l in
  modify (set_lo r.2);;
  match r.1 with inl e => mret (inl e) | inr b => dget b;; mret (inr b) end.

(** The private data of the dentry is allocated; without memory nothing is stored. *)
Definition lookup_private (u lower_dentry lower_mnt : Z) : M bool :=
  ok ← alloc;
  if negb ok then mret false else
  upd_dent u (d_set_private (Some (lower_dentry, lower_mnt)));; mret true.
Definition lookup_out_dput (u lower_dentry rc : Z) : M Z := dput lower_dentry;; d_drop u;; mret rc.

Definition ccfs_lookup (dir u : Z) : M Z :=
  d ← dent u;
  lower_dir_dentry ← ccfs_get_nested_dentry (d_parent d);
  if bool_decide (d_name d = [46]) || bool_decide (d_name d = [46; 46]) then d_drop u;; mret 0 else
  lower_dir_inode ← linode_of lower_dir_dentry;
  mutex_lock lower_dir_inode;;
  r ← lookup_one_len (d_name d) lower_dir_dentry;
  mutex_unlock lower_dir_inode;;
  match r with
  | inl rc => d_drop u;; mret rc
  | inr lower_dentry =>
      lower_mnt ← ccfs_dentry_to_nested_mnt (d_parent d);
      mntget lower_mnt;;
      lower_dir_inode ← linode_of lower_dir_dentry;
      fsstack_copy_attr_atime dir lower_dir_inode;;
      c ← gets d_count;
      if cnt c lower_dentry =? 0 then fault else
      ok ← lookup_private u lower_dentry lower_mnt;
      if negb ok then lookup_out_dput u lower_dentry (- ENOMEM) else
      ld ← ldent lower_dentry;
      match l_inode ld with
      | None => d_add u None;; mret 0
      | Some _ =>
          rc ← ccfs_interpose sb lower_dentry u true;
          if negb (rc =? 0) then lookup_out_dput u lower_dentry rc else mret rc
      end
  end.

Definition ccfs_link (old_dentry dir new_dentry : Z) : M Z :=
  od ← dent old_dentry; oi ← valid (d_inode od);
  on ← ino oi; let file_size_save := i_size on in
  lower_old_dentry ← ccfs_get_nested_dentry old_dentry;
  lower_new_dentry ← ccfs_get_nested_dentry new_dentry;
  dget lower_old_dentry;; dget lower_new_dentry;;
  lower_dir_dentry ← lock_parent lower_new_dentry;
  lower_dir_inode ← linode_of lower_dir_dentry;
  rc ← do_vfs (Vlink lower_old_dentry lower_dir_inode lower_new_dentry);
  ln ← ldent lower_new_dentry;
  rc ← (match rc, l_inode ln with
        | 0, Some lower_new_inode =>
            rc ← ccfs_interpose sb lower_new_dentry new_dentry false;
            if negb (rc =? 0) then mret rc else
            i ← linode_of lower_new_dentry;
            fsstack_copy_attr_times dir i;; fsstack_copy_inode_size dir i;;
            oli ← ccfs_get_nested_inode oi; copy_nlink oi oli;;
            nd ← dent new_dentry; ni ← valid (d_inode nd);
            upd_ino ni (i_set_size file_size_save);; mret rc
        | _, _ => mret rc
        end);
  unlock_dir lower_dir_dentry;;
  dput lower_new_dentry;; dput lower_old_dentry;;
  lower_d_drop lower_old_dentry;; d_drop new_dentry;; d_drop old_dentry;;
  mret rc.

Definition ccfs_unlink (dir u : Z) : M Z :=
  lower_dentry ← ccfs_get_nested_dentry u;
  lower_dir_inode ← ccfs_get_nested_inode dir;
  _ ← lock_parent lower_dentry;
  rc ← do_vfs (Vunlink lower_dir_inode lower_dentry);
  when (rc =? 0) (
    fsstack_copy_attr_times dir lower_dir_inode;;
    d ← dent u; i ← valid (d_inode d);
    li ← ccfs_get_nested_inode i; copy_nlink i li;;
    dn ← ino dir;
    upd_ino i (fun x => i_set_attrs (a_set_ctime (i_ctime (i_attrs dn)) (i_attrs x)) x);;
    d_drop u);;
  unlock_parent lower_dentry;;
  mret rc.

(** The common end of the calls that make a lower inode: the dentry gets an inode and the
    directory the times and the size of the lower one; [nlink]: and its link count. *)
Definition interpose_new (dir u lower_dentry lower_dir_dentry rc : Z) (nlink : bool) : M Z :=
  ld ← ldent lower_dentry;
  match rc, l_inode ld with
  | 0, Some _ =>
      rc ← ccfs_interpose sb lower_dentry u false;
      if negb (rc =? 0) then mret rc else
      i ← linode_of lower_dir_dentry;
      fsstack_copy_attr_times dir i;; fsstack_copy_inode_size dir i;;
      when nlink (copy_nlink dir i);; mret rc
  | _, _ => mret rc
  end.
Definition drop_negative (u : Z) : M unit :=
  d ← dent u; match d_inode d with None => d_drop u | Some _ => mret tt end.

Definition ccfs_symlink (dir u : Z) (symname : list Z) : M Z :=
  lower_dentry ← ccfs_get_nested_dentry u;
  dget lower_dentry;;
  lower_dir_dentry ← lock_parent lower_dentry;
  i ← linode_of lower_dir_dentry;
  rc ← do_vfs (Vsymlink i lower_dentry symname);
  rc ← interpose_new dir u lower_dentry lower_dir_dentry rc false;
  unlock_dir lower_dir_dentry;;
  dput lower_dentry;;
  drop_negative u;;
  mret rc.

Definition ccfs_mkdir (dir u mode : Z) : M Z :=
  lower_dentry ← ccfs_get_nested_dentry u;
  lower_dir_dentry ← lock_parent lower_dentry;
  i ← linode_of lower_dir_dentry;
  rc ← do_vfs (Vmkdir i lower_dentry mode);
  rc ← interpose_new dir u lower_dentry lower_dir_dentry rc true;
  unlock_dir lower_dir_dentry;;
  drop_negative u;;
  mret rc.

Definition ccfs_mknod (dir u mode dev : Z) : M Z :=
  lower_dentry ← ccfs_get_nested_dentry u;
  lower_dir_dentry ← lock_parent lower_dentry;
  i ← linode_of lower_dir_dentry;
  rc ← do_vfs (Vmknod i lower_dentry mode dev);
  rc ← interpose_new dir u lower_dentry lower_dir_dentry rc false;
  unlock_dir lower_dir_dentry;;
  drop_negative u;;
  mret rc.

(** The reference to the upper dentry that is taken and put is the kernel's count. *)
Definition ccfs_rmdir (dir u : Z) : M Z :=
  lower_dentry ← ccfs_get_nested_dentry u;
  lower_dir_dentry ← lock_parent lower_dentry;
  dget lower_dentry;;
  i ← linode_of lower_dir_dentry;
  rc ← do_vfs (Vrmdir i lower_dentry);
  dput lower_dentry;;
  when (rc =? 0) (do_vfs (Vd_delete lower_dentry);; mret tt);;
  i ← linode_of lower_dir_dentry;
  fsstack_copy_attr_times dir i;; copy_nlink dir i;;
  unlock_dir lower_dir_dentry;;
  when (rc =? 0) (d_drop u);;
  mret rc.

Definition dget_parent (a : Z) : M Z := d ← ldent a; dget (l_parent d);; mret (l_parent d).
Definition lock_rename (a b : Z) : M unit :=
  i ← linode_of a; mutex_lock i;; if a =? b then mret tt else j ← linode_of b; mutex_lock j.
Definition unlock_rename (a b : Z) : M unit :=
  i ← linode_of a; mutex_unlock i;; if a =? b then mret tt else j ← linode_of b; mutex_unlock j.

Definition ccfs_rename (old_dir old_dentry new_dir new_dentry : Z) : M Z :=
  lower_old_dentry ← ccfs_get_nested_dentry old_dentry;
  lower_new_dentry ← ccfs_get_nested_dentry new_dentry;
  dget lower_old_dentry;; dget lower_new_dentry;;
  lower_old_dir_dentry ← dget_parent lower_old_dentry;
  lower_new_dir_dentry ← dget_parent lower_new_dentry;
  lock_rename lower_old_dir_dentry lower_new_dir_dentry;;
  oi ← linode_of lower_old_dir_dentry; ni ← linode_of lower_new_dir_dentry;
  rc ← do_vfs (Vrename oi lower_old_dentry ni lower_new_dentry);
  when (rc =? 0) (
    ni ← linode_of lower_new_dir_dentry;
    fsstack_copy_attr_all new_dir ni;;
    when (negb (new_dir =? old_dir)) (oi ← linode_of lower_old_dir_dentry; fsstack_copy_attr_all old_dir oi));;
  unlock_rename lower_old_dir_dentry lower_new_dir_dentry;;
  ln ← ldent lower_new_dentry; dput (l_parent ln);;
  lod ← ldent lower_old_dentry; dput (l_parent lod);;
  dput lower_new_dentry;; dput lower_old_dentry;;
  mret rc.

(** ** inode.c: links and attributes *)

(** The length of a string: the bytes before the first NUL. *)
Fixpoint strlen (s : list Z) : Z := match s with [] => 0 | c :: s => if c =? 0 then 0 else 1 + strlen s end.

(** The results are the code and the bytes that were copied to the user; [copy_ok]: the user's
    memory can be written. *)
Definition ccfs_readlink (copy_ok : bool) (u bufsiz : Z) : M (Z * list Z) :=
  d ← dent u; i ← valid (d_inode d); n ← ino i;
  lower_dentry ← ccfs_get_nested_dentry u;
  li ← linode_of lower_dentry;
  l ← gets lo;
  match readlink li bufsiz l with
  | None => mret (- EINVAL, [])
  | Some (rc, lower_buf) =>
      match link n with
      | Some text =>
          let rc := strlen text in
          fsstack_copy_attr_atime i li;;
          if copy_ok then mret (rc, ztake rc text) else mret (- EFAULT, [])
      | None =>
          ok ← alloc;
          if negb ok then mret (- ENOMEM, []) else
          if rc <? 0 then mret (rc, []) else
          ok ← alloc;
          when ok (upd_ino i (i_set_link (Some (ztake rc lower_buf))));;
          fsstack_copy_attr_atime i li;;
          if copy_ok then mret (rc, ztake rc lower_buf) else mret (- EFAULT, [])
      end
  end.

(** The buffer of the link text, which [ccfs_put_link] frees; the byte behind the text is written
    whatever the result was. *)
Definition ccfs_follow_link (u : Z) : M (Z * option (list Z)) :=
  ok ← alloc;
  if negb ok then mret (- ENOMEM, None) else
  r ← ccfs_readlink true u PAGE_SIZE;
  if (r.1 <? 0) || (PAGE_SIZE <=? r.1) then fault else
  mret (0, Some r.2).

Definition ccfs_truncate (u new_length : Z) : M Z :=
  d ← dent u; i ← valid (d_inode d); n ← ino i;
  if new_length =? i_size n then mret 0 else
  lower_dentry ← ccfs_get_nested_dentry u;
  upd_ino i (i_set_size new_length);;
  li ← linode_of lower_dentry;
  do_vfs (Vtruncate li new_length);;
  mret 0.

Definition ccfs_permission (i mask : Z) : M Z :=
  li ← ccfs_get_nested_inode i; l ← gets lo; mret (inode_permission li mask l).

Definition ccfs_setattr (u : Z) (ia : iattr) : M Z :=
  d ← dent u; i ← valid (d_inode d);
  lower_inode ← ccfs_get_nested_inode i;
  lower_dentry ← ccfs_get_nested_dentry u;
  let size := negb (Z.land (ia_valid ia) ATTR_SIZE =? 0) in
  rc ← (if size then ccfs_truncate u (ia_size ia) else mret 0);
  let v := if size then Z.land (ia_valid ia) (Z.lnot ATTR_SIZE) else ia_valid ia in
  rc ← (if size && (rc <? 0) then mret rc else
        let v := if negb (Z.land v (Z.lor ATTR_KILL_SUID ATTR_KILL_SGID) =? 0) then Z.land v (Z.lnot ATTR_MODE) else v in
        do_vfs (Vnotify_change lower_dentry (mk_iattr v (ia_size ia) (ia_attrs ia))));
  fsstack_copy_attr_all i lower_inode;;
  mret rc.

Definition ccfs_getattr (u : Z) : M (Z * kstat) :=
  d ← dent u; i ← valid (d_inode d); n ← ino i;
  _ ← ccfs_dentry_to_nested_mnt u;
  lower_dentry ← ccfs_get_nested_dentry u;
  match stat n with
  | Some st => mret (0, st)
  | None =>
      li ← linode_of lower_dentry;
      mutex_lock li;;
      l ← gets lo; let r := vfs_getattr lower_dentry l in
      li ← linode_of lower_dentry;
      mutex_unlock li;;
      (if (r.1 =? 0) && cacheable n then
         ok ← alloc; when ok (upd_ino i (i_set_stat (Some r.2)))
       else mret tt);;
      mret r
  end.

(** The calls on extended attributes have one form: the lower operation, if there is one, under the
    mutex of the lower inode. *)
Definition lower_xattr (c : xattr_call) (u : Z) : M (Z * list Z) :=
  lower_dentry ← ccfs_get_nested_dentry u;
  li ← linode_of lower_dentry;
  l ← gets lo;
  match xattr c li l with
  | None => mret (- EOPNOTSUPP, [])
  | Some r => mutex_lock li;; modify (set_lo r.2);; li ← linode_of lower_dentry; mutex_unlock li;; mret r.1
  end.
Definition ccfs_setxattr (u : Z) (name value : list Z) (flags : Z) : M (Z * list Z) := lower_xattr (Xset name value flags) u.
Definition ccfs_getxattr (u : Z) (name : list Z) (size : Z) : M (Z * list Z) := lower_xattr (Xget name size) u.
Definition ccfs_listxattr (u size : Z) : M (Z * list Z) := lower_xattr (Xlist size) u.
Definition ccfs_removexattr (u : Z) (name : list Z) : M (Z * list Z) := lower_xattr (Xremove name) u.

(** ** file.c *)

(** [f]: the address of the file. *)
Definition ccfs_open (f u : Z) : M Z :=
  d ← dent u; i ← valid (d_inode d);
  ok ← alloc;
  if negb ok then mret (- ENOMEM) else
  n ← ino i;
  match lower_file n with
  | None => mret (- ENOENT)
  | Some lf => m ← gets files; modify (set_files (<[f := mk_file u (Some lf)]> m));; mret 0
  end.

Definition ccfs_release (f : Z) : M Z :=
  m ← gets files; _ ← valid (m !! f); modify (set_files (delete f m));; mret 0.

(** The lower file that an operation on an open file goes to. *)
Definition ccfs_get_nested_file (f : Z) : M lfile :=
  m ← gets files; x ← valid (m !! f); lf ← valid (nested_file x);
  fs ← gets lfiles; valid (fs !! lf).
End inode.
