(* ===== verification/CcfsRefs.v ===== *)
(** The references of the caching file system: through any sequence of operations every counter of
    the lower file system is exact, nothing is used after it was freed, and no mutex is left
    taken. *)

From stdpp Require Import gmap.
From S2P Require Import Prelude Effect CcfsFilter Ccfs.

(** ** Counting entries of a table *)

Definition mcount {A} (P : A -> bool) (m : gmap Z A) : Z := Z.of_nat (size (base.filter (fun x => P x.2 = true) m)).

Section mcount.
Context {A : Type} (P : A -> bool).
Implicit Types m : gmap Z A.

Lemma mcount_nonneg m : 0 <= mcount P m.
Proof. unfold mcount. lia. Qed.
Lemma mcount_new m k x : m !! k = None -> mcount P (<[k := x]> m) = mcount P m + Z.b2z (P x).
Proof.
  intros Hk. unfold mcount. destruct (P x) eqn:E; simpl.
  - rewrite map_filter_insert_True by done. rewrite map_size_insert_None; [lia|].
    apply map_lookup_filter_None. by left.
  - rewrite map_filter_insert_not' by (rewrite ?Hk; simpl; congruence). lia.
Qed.
Lemma mcount_delete m k x : m !! k = Some x -> mcount P (delete k m) = mcount P m - Z.b2z (P x).
Proof.
  intros Hk. rewrite <- (insert_delete_id m k x Hk) at 2. rewrite mcount_new by apply lookup_delete_eq. lia.
Qed.
Lemma mcount_insert m k x y :
  m !! k = Some x -> mcount P (<[k := y]> m) = mcount P m - Z.b2z (P x) + Z.b2z (P y).
Proof.
  intros Hk. rewrite <- insert_delete_eq, mcount_new by apply lookup_delete_eq. rewrite (mcount_delete m k x) by done. lia.
Qed.
Lemma mcount_pos m k x : m !! k = Some x -> P x = true -> 1 <= mcount P m.
Proof.
  intros Hk Hx. pose proof (mcount_delete m k x Hk) as E. rewrite Hx in E. simpl in E.
  pose proof (mcount_nonneg (delete k m)). lia.
Qed.
End mcount.

(** ** The lower file system *)

(** A parent is a directory, an inode of a dentry exists, is not being freed and belongs to the
    file system that is mounted. *)
Definition lower_wf (sb : Z) (l : lower_fs) : Prop :=
  forall a d, l_dents l !! a = Some d ->
    (exists p i, l_dents l !! l_parent d = Some p /\ l_inode p = Some i) /\
    forall i, l_inode d = Some i -> exists n, l_inodes l !! i = Some n /\ l_freeing n = false /\ l_sb n = sb.

(** The dentries whose inode a call may change, and the one that it may move. *)
Definition subjects (c : vfs_call) : list Z :=
  match c with
  | Vcreate _ d _ | Vlink _ _ d | Vunlink _ d | Vsymlink _ d _ | Vmkdir _ d _ | Vrmdir _ d | Vmknod _ d _ _
  | Vd_delete d => [d]
  | Vrename _ _ _ d => [d]
  | Vnotify_change _ _ | Vtruncate _ _ => []
  end.
Definition moved (c : vfs_call) : option Z := match c with Vrename _ d _ _ => Some d | _ => None end.

(** Objects stay, and only what a call is about changes. *)
Definition lower_step (may_move : option Z) (subs : list Z) (l l' : lower_fs) : Prop :=
  (forall a d, l_dents l !! a = Some d -> exists d', l_dents l' !! a = Some d' /\
     (may_move <> Some a -> l_parent d' = l_parent d) /\ (a ∉ subs -> l_inode d' = l_inode d)) /\
  (forall i, is_Some (l_inodes l !! i) -> is_Some (l_inodes l' !! i)).

(** What the lower file system promises: its operations keep it well-formed and touch what they
    are about; a lookup returns a dentry of the file system; a new file has an inode; a rename
    that succeeds moves the old dentry to the directory of the new one. *)
Class LowerFsLaws `(LowerFs) (sb : Z) : Prop := {
  vfs_step c k l : lower_wf sb l -> lower_wf sb (vfs c k l).2 /\ lower_step (moved c) (subjects c) l (vfs c k l).2;
  vfs_create_inode dir d mode k l x :
    (vfs (Vcreate dir d mode) k l).1 = 0 -> l_dents (vfs (Vcreate dir d mode) k l).2 !! d = Some x -> is_Some (l_inode x);
  vfs_rename_fails od o nd n k l :
    (vfs (Vrename od o nd n) k l).1 <> 0 -> lower_step None [] l (vfs (Vrename od o nd n) k l).2;
  vfs_rename_moves od o nd n k l x y :
    (vfs (Vrename od o nd n) k l).1 = 0 -> l_dents l !! n = Some x ->
    l_dents (vfs (Vrename od o nd n) k l).2 !! o = Some y -> l_parent y = l_parent x;
  lookup_step name a l : lower_wf sb l -> lower_wf sb (lower_lookup name a l).2 /\ lower_step None [] l (lower_lookup name a l).2;
  lookup_found name a l b : (lower_lookup name a l).1 = inr b -> is_Some (l_dents (lower_lookup name a l).2 !! b);
  xattr_step c i l r l' : xattr c i l = Some (r, l') -> lower_wf sb l -> lower_wf sb l' /\ lower_step None [] l l'
}.

(** ** The invariant *)

(** Who holds a reference. *)
Definition on_dent (a : Z) (d : dentry) : bool := match d_private d with Some p => p.1 =? a | None => false end.
Definition on_mnt (m : Z) (d : dentry) : bool := match d_private d with Some p => p.2 =? m | None => false end.
Definition file_on (a : Z) (x : lfile) : bool := f_dentry x =? a.
Definition file_mnt (m : Z) (x : lfile) : bool := f_mnt x =? m.
Definition nests (i : Z) (n : inode) : bool := nested_inode n =? i.

(** The references that others hold: on dentries, on mounts, on inodes. *)
Record ext := mk_ext { xd : Z -> Z; xm : Z -> Z; xi : Z -> Z }.
Definition plus (a n : Z) (f : Z -> Z) : Z -> Z := fun b => f b + (if b =? a then n else 0).
Definition xd_plus a n e := mk_ext (plus a n (xd e)) (xm e) (xi e).
Definition xm_plus a n e := mk_ext (xd e) (plus a n (xm e)) (xi e).
Definition xi_plus a n e := mk_ext (xd e) (xm e) (plus a n (xi e)).

(** The answers to opens of lower files ([0]: opened): a file that cannot be opened is tried again, for
    reading, and then it can. *)
Inductive answers_ok : list Z -> Prop :=
| ok_none : answers_ok []
| ok_opened l : answers_ok l -> answers_ok (0 :: l)
| ok_retried rc l : rc <> 0 -> answers_ok l -> answers_ok (rc :: 0 :: l)
| ok_last rc : answers_ok [rc].

Lemma answers_opened l : answers_ok l -> default 0 (head l) = 0 -> answers_ok (tail l).
Proof. intros [| |rc l' Hrc Hl|rc] Hh; try done; [constructor|constructor]. Qed.
Lemma answers_retried l : answers_ok l -> default 0 (head l) <> 0 -> default 0 (head (tail l)) = 0 /\ answers_ok (tail l).
Proof. intros [| |rc l' Hrc Hl|rc] Hh; try done. split; [done|by constructor]. split; [done|constructor]. Qed.

(** The outer references are never negative. *)
Definition nonneg (e : ext) : Prop := (forall a, 0 <= xd e a) /\ (forall a, 0 <= xm e a) /\ (forall a, 0 <= xi e a).
Lemma nonneg_xi e a : nonneg e -> nonneg (xi_plus a 1 e).
Proof. intros (Hd & Hm & Hi). split_and!; [done|done|]. cbn. unfold plus. intros c. specialize (Hi c). case_goal; lia. Qed.

(** Inode [b] is in the hands of the running operation; [L]: the mutexes it has taken. *)
Record inv (sb : Z) (e : ext) (L : gset Z) (b : option Z) (w : world) : Prop := mk_inv {
  inv_d a : cnt (d_count w) a = xd e a + mcount (on_dent a) (dents w) + mcount (file_on a) (lfiles w);
  inv_m a : cnt (mnt_count w) a = xm e a + mcount (on_mnt a) (dents w) + mcount (file_mnt a) (lfiles w);
  inv_i i : cnt (i_count w) i = xi e i + mcount (nests i) (inodes w);
  inv_locked : locked w = L;
  inv_dent u d i : dents w !! u = Some d -> d_inode d = Some i -> is_Some (inodes w !! i);
  inv_private u d p : dents w !! u = Some d -> d_private d = Some p -> is_Some (l_dents (lo w) !! p.1);
  inv_inode i n : inodes w !! i = Some n -> b <> Some i -> i_new n = false /\ lower_file_mutex n = false;
  inv_nested i n : inodes w !! i = Some n -> is_Some (l_inodes (lo w) !! nested_inode n);
  inv_file i n f : inodes w !! i = Some n -> lower_file n = Some f -> is_Some (lfiles w !! f);
  inv_inj i j n m f : inodes w !! i = Some n -> inodes w !! j = Some m ->
    lower_file n = Some f -> lower_file m = Some f -> i = j;
  inv_lfile f x : lfiles w !! f = Some x -> is_Some (l_dents (lo w) !! f_dentry x);
  inv_open f x : files w !! f = Some x -> exists d i n lf, dents w !! u_dentry x = Some d /\ d_inode d = Some i /\
    inodes w !! i = Some n /\ lower_file n = Some lf /\ nested_file x = Some lf;
  inv_fresh_i i : is_Some (inodes w !! i) -> i < next w;
  inv_fresh_f f : is_Some (lfiles w !! f) -> f < next w;
  inv_lower : lower_wf sb (lo w);
  inv_answers : answers_ok (opens w)
}.

Lemma cnt_bump a n m b : cnt (bump a n m) b = cnt m b + (if b =? a then n else 0).
Proof.
  unfold cnt, bump. destruct (Z.eqb_spec b a) as [->|Hne]; [by rewrite lookup_insert_eq|].
  rewrite lookup_insert_ne by done. lia.
Qed.

Ltac inv_fields H :=
  destruct H as [inv_d0 inv_m0 inv_i0 inv_locked0 inv_dent0 inv_private0 inv_inode0 inv_nested0 inv_file0 inv_inj0 inv_lfile0
    inv_open0 inv_fresh_i0 inv_fresh_f0 inv_lower0 inv_answers0];
  constructor; cbn -[bump mcount cnt Z.add]; try assumption; try done.

Section primitives.
Context (sb : Z).
Implicit Types (e : ext) (L : gset Z) (b : option Z) (w : world) (G : stop -> world -> Prop).

(** The outer references are compared point by point. *)
Lemma inv_ext e e' L b w :
  inv sb e L b w -> (forall a, xd e a = xd e' a) -> (forall a, xm e a = xm e' a) -> (forall a, xi e a = xi e' a) ->
  inv sb e' L b w.
Proof. intros H Hd Hm Hi. inv_fields H; intros a; rewrite <- ?Hd, <- ?Hm, <- ?Hi; auto. Qed.

Lemma inv_bump_d e L b w a n : inv sb e L b w -> inv sb (xd_plus a n e) L b (set_d_count (bump a n (d_count w)) w).
Proof. intros H. inv_fields H. intros c. rewrite cnt_bump, inv_d0. unfold plus. lia. Qed.
Lemma inv_bump_m e L b w a n : inv sb e L b w -> inv sb (xm_plus a n e) L b (set_mnt_count (bump a n (mnt_count w)) w).
Proof. intros H. inv_fields H. intros c. rewrite cnt_bump, inv_m0. unfold plus. lia. Qed.
Lemma inv_bump_i e L b w a n : inv sb e L b w -> inv sb (xi_plus a n e) L b (set_i_count (bump a n (i_count w)) w).
Proof. intros H. inv_fields H. intros c. rewrite cnt_bump, inv_i0. unfold plus. lia. Qed.

Lemma wp_take get set a (Q : unit -> world -> Prop) G w : Q tt (set (bump a 1 (get w)) w) -> wp (take_ref get set a) Q G w.
Proof. done. Qed.
Lemma wp_put get set a (Q : unit -> world -> Prop) G w :
  0 < cnt (get w) a -> Q tt (set (bump a (-1) (get w)) w) -> wp (put get set a) Q G w.
Proof. intros Hc HQ. unfold put. run. by replace (cnt (get w) a <=? 0) with false by lia. Qed.

Lemma inv_lock e L b w i : inv sb e L b w -> inv sb e (L ∪ {[i]}) b (set_locked (locked w ∪ {[i]}) w).
Proof. intros H. inv_fields H. by rewrite inv_locked0. Qed.
Lemma inv_unlock e L b w i : i ∉ L -> inv sb e (L ∪ {[i]}) b w -> inv sb e L b (set_locked (locked w ∖ {[i]}) w).
Proof. intros Hi H. inv_fields H. rewrite inv_locked0. apply leibniz_equiv. set_solver. Qed.

Lemma wp_mutex_lock e L b w i (Q : unit -> world -> Prop) G :
  inv sb e L b w -> i ∉ L -> Q tt (set_locked (locked w ∪ {[i]}) w) -> wp (mutex_lock i) Q G w.
Proof.
  intros H Hi HQ. unfold mutex_lock. run. rewrite bool_decide_eq_false_2; [done|]. by rewrite (inv_locked _ _ _ _ _ H).
Qed.
Lemma wp_mutex_unlock e L b w i (Q : unit -> world -> Prop) G :
  inv sb e (L ∪ {[i]}) b w -> Q tt (set_locked (locked w ∖ {[i]}) w) -> wp (mutex_unlock i) Q G w.
Proof.
  intros H HQ. unfold mutex_unlock. run. rewrite bool_decide_eq_true_2; [done|].
  rewrite (inv_locked _ _ _ _ _ H). set_solver.
Qed.

(** An update of an inode that keeps what the invariant is about. *)
Lemma inv_upd_ino e L b w i n n' :
  inv sb e L b w -> inodes w !! i = Some n -> nested_inode n' = nested_inode n -> lower_file n' = lower_file n ->
  (b <> Some i -> i_new n' = false /\ lower_file_mutex n' = false) ->
  inv sb e L b (set_inodes (<[i := n']> (inodes w)) w).
Proof.
  intros H Hi Hn Hf Hb. inv_fields H.
  - intros j. rewrite (mcount_insert _ _ _ n) by done. rewrite inv_i0. unfold nests. rewrite Hn. lia.
  - intros u d j Hu Hd. destruct (decide (j = i)) as [->|]; [by rewrite lookup_insert_eq|].
    rewrite lookup_insert_ne by done. eauto.
  - intros j m [[<- <-]|[Hne Hj]]%lookup_insert_Some ?; eauto.
  - intros j m [[<- <-]|[Hne Hj]]%lookup_insert_Some; [rewrite Hn|]; eauto.
  - intros j m f [[<- <-]|[Hne Hj]]%lookup_insert_Some; [rewrite Hf|]; eauto.
  - intros j k m m' f [[<- <-]|[? Hj]]%lookup_insert_Some [[<- <-]|[? Hk]]%lookup_insert_Some;
      rewrite ?Hf; intros ? ?; eauto.
  - intros f x Hx. destruct (inv_open0 f x Hx) as (d & j & m & lf & Hd & Hj & Hm & Hl & Hnf).
    destruct (decide (j = i)) as [->|].
    + simplify_eq. exists d, i, n', lf. rewrite lookup_insert_eq, Hf. done.
    + exists d, j, m, lf. by rewrite lookup_insert_ne.
  - intros j. destruct (decide (j = i)) as [->|]; [eauto|]. rewrite lookup_insert_ne by done. eauto.
Qed.

(** An update of a dentry that keeps its private data; it may get an inode. *)
Lemma inv_upd_dent e L b w u d d' :
  inv sb e L b w -> dents w !! u = Some d -> d_private d' = d_private d ->
  (d_inode d' = d_inode d \/ d_inode d = None /\ forall i, d_inode d' = Some i -> is_Some (inodes w !! i)) ->
  inv sb e L b (set_dents (<[u := d']> (dents w)) w).
Proof.
  intros H Hu Hp Hi. inv_fields H.
  - intros a. rewrite (mcount_insert _ _ _ d) by done. rewrite inv_d0. unfold on_dent. rewrite Hp. lia.
  - intros a. rewrite (mcount_insert _ _ _ d) by done. rewrite inv_m0. unfold on_mnt. rewrite Hp. lia.
  - intros v x i [[<- <-]|[Hne Hv]]%lookup_insert_Some Hx; [|eauto]. destruct Hi as [Hi|[_ Hi]]; [|eauto].
    rewrite Hi in Hx. eauto.
  - intros v x p [[<- <-]|[Hne Hv]]%lookup_insert_Some Hx; [|eauto]. rewrite Hp in Hx. eauto.
  - intros f x Hx. destruct (inv_open0 f x Hx) as (y & j & m & lf & Hd & Hj & Hm & Hl & Hnf).
    destruct (decide (u_dentry x = u)) as [Eu|].
    + rewrite Eu in *. simplify_eq. exists d', j, m, lf. rewrite lookup_insert_eq.
      destruct Hi as [Hi|[Hi _]]; [|congruence]. by rewrite Hi.
    + exists y, j, m, lf. by rewrite lookup_insert_ne.
Qed.

Lemma inv_lo e L b w l mv subs :
  inv sb e L b w -> lower_wf sb l -> lower_step mv subs (lo w) l -> inv sb e L b (set_lo l w).
Proof.
  intros H Hw [Hd Hi].
  assert (forall a, is_Some (l_dents (lo w) !! a) -> is_Some (l_dents l !! a)) as Hd'.
  { intros a [d Ha]. destruct (Hd a d Ha) as (d' & -> & _). done. }
  inv_fields H; eauto.
Qed.
End primitives.

(** ** Steps that do not concern references *)

Definition core (n n' : inode) : Prop :=
  nested_inode n' = nested_inode n /\ lower_file n' = lower_file n /\ lower_file_mutex n' = lower_file_mutex n /\ i_new n' = i_new n.

Record quiet (w w' : world) : Prop := mk_quiet {
  q_lo : lo w' = lo w;
  q_dents : dents w' = dents w;
  q_files : files w' = files w;
  q_allocs : allocs w' = allocs w;
  q_inodes i n : inodes w !! i = Some n -> exists n', inodes w' !! i = Some n' /\ core n n'
}.

(** The upper objects that exist go on existing; dentry [u] may get an inode. *)
Record grows (u : Z) (w w' : world) : Prop := mk_grows {
  g_lo : lo w' = lo w;
  g_files : files w' = files w;
  g_inodes i n : inodes w !! i = Some n -> exists n', inodes w' !! i = Some n' /\ nested_inode n' = nested_inode n;
  g_dents v d : dents w !! v = Some d -> exists d', dents w' !! v = Some d' /\ d_private d' = d_private d /\
    (v <> u -> d_inode d' = d_inode d)
}.

Lemma core_refl n : core n n.
Proof. done. Qed.
Lemma core_trans n1 n2 n3 : core n1 n2 -> core n2 n3 -> core n1 n3.
Proof. unfold core. intuition congruence. Qed.
Lemma quiet_refl w : quiet w w.
Proof. constructor; [done..|]. intros. eexists. split; [done|apply core_refl]. Qed.
Lemma quiet_trans w1 w2 w3 : quiet w1 w2 -> quiet w2 w3 -> quiet w1 w3.
Proof.
  intros [L1 D1 F1 A1 I1] [L2 D2 F2 A2 I2]. constructor; [congruence..|].
  intros i n Hi. destruct (I1 i n Hi) as (n2 & H2 & C2). destruct (I2 i n2 H2) as (n3 & H3 & C3).
  exists n3. split; [done|]. by eapply core_trans.
Qed.
Lemma grows_trans u w1 w2 w3 : grows u w1 w2 -> grows u w2 w3 -> grows u w1 w3.
Proof.
  intros [L1 F1 I1 D1] [L2 F2 I2 D2]. constructor; [congruence..| |].
  - intros i n Hi. destruct (I1 i n Hi) as (n2 & H2 & C2). destruct (I2 i n2 H2) as (n3 & H3 & C3).
    exists n3. split; [done|congruence].
  - intros v d Hv. destruct (D1 v d Hv) as (d2 & H2 & P2 & J2). destruct (D2 v d2 H2) as (d3 & H3 & P3 & J3).
    exists d3. split_and!; [done|congruence|]. intros Hne. rewrite J3, J2 by done. done.
Qed.
Lemma quiet_grows u w w' : quiet w w' -> grows u w w'.
Proof.
  intros [L D F A I]. constructor; [done..| |rewrite D; eauto].
  intros i n Hi. destruct (I i n Hi) as (n' & ? & ? & _). eauto.
Qed.
Lemma grows_refl u w : grows u w w.
Proof. apply quiet_grows, quiet_refl. Qed.

Create HintDb ccfs discriminated.
#[export] Hint Resolve core_refl quiet_refl grows_refl quiet_grows : ccfs.

(** Steps through a computation: the rule of the next call, and what it leaves. *)
Ltac wp_seq lem := eapply wp_bind, wp_mono; [lem| |done]; cbv beta.

Section quiet_steps.
Context (sb : Z).
Implicit Types (e : ext) (L : gset Z) (b : option Z) (w : world) (G : stop -> world -> Prop).

Lemma wp_dent u d (Q : dentry -> world -> Prop) G w : dents w !! u = Some d -> Q d w -> wp (dent u) Q G w.
Proof. intros H HQ. unfold dent. run. by rewrite H. Qed.
Lemma wp_ino i n (Q : inode -> world -> Prop) G w : inodes w !! i = Some n -> Q n w -> wp (ino i) Q G w.
Proof. intros H HQ. unfold ino. run. by rewrite H. Qed.
Lemma wp_ldent a d (Q : ldentry -> world -> Prop) G w : l_dents (lo w) !! a = Some d -> Q d w -> wp (ldent a) Q G w.
Proof. intros H HQ. unfold ldent. run. by rewrite H. Qed.
Lemma wp_lino i n (Q : linode -> world -> Prop) G w : l_inodes (lo w) !! i = Some n -> Q n w -> wp (lino i) Q G w.
Proof. intros H HQ. unfold lino. run. by rewrite H. Qed.
Lemma wp_linode_of a d i (Q : Z -> world -> Prop) G w :
  l_dents (lo w) !! a = Some d -> l_inode d = Some i -> Q i w -> wp (linode_of a) Q G w.
Proof. intros H Hi HQ. unfold linode_of, ldent. run. by rewrite H, Hi. Qed.
Lemma wp_nested_dentry u d p (Q : Z -> world -> Prop) G w :
  dents w !! u = Some d -> d_private d = Some p -> Q p.1 w -> wp (ccfs_get_nested_dentry u) Q G w.
Proof. intros H Hp HQ. unfold ccfs_get_nested_dentry, dent. run. by rewrite H, Hp. Qed.
Lemma wp_nested_mnt u d p (Q : Z -> world -> Prop) G w :
  dents w !! u = Some d -> d_private d = Some p -> Q p.2 w -> wp (ccfs_dentry_to_nested_mnt u) Q G w.
Proof. intros H Hp HQ. unfold ccfs_dentry_to_nested_mnt, dent. run. by rewrite H, Hp. Qed.
Lemma wp_upd_ino i n f (Q : unit -> world -> Prop) G w :
  inodes w !! i = Some n -> Q tt (set_inodes (<[i := f n]> (inodes w)) w) -> wp (upd_ino i f) Q G w.
Proof. intros H HQ. unfold upd_ino, ino. run. by rewrite H. Qed.
Lemma wp_upd_dent u d f (Q : unit -> world -> Prop) G w :
  dents w !! u = Some d -> Q tt (set_dents (<[u := f d]> (dents w)) w) -> wp (upd_dent u f) Q G w.
Proof. intros H HQ. unfold upd_dent, dent. run. by rewrite H. Qed.

Lemma quiet_insert w i n n' :
  inodes w !! i = Some n -> core n n' -> quiet w (set_inodes (<[i := n']> (inodes w)) w).
Proof.
  intros Hi Hc. constructor; [done..|]. cbn. intros j m Hj. destruct (decide (j = i)) as [->|Hne].
  - simplify_eq. exists n'. by rewrite lookup_insert_eq.
  - exists m. by rewrite lookup_insert_ne.
Qed.

Lemma wp_quiet_upd e L b w i f G :
  inv sb e L b w -> is_Some (inodes w !! i) -> (forall n, core n (f n)) ->
  wp (upd_ino i f) (fun _ w' => inv sb e L b w' /\ quiet w w') G w.
Proof.
  intros H [n Hi] Hc. eapply wp_upd_ino; [done|]. pose proof (Hc n) as (Hn & Hf & Hm & Hw).
  split; [|by eapply quiet_insert]. eapply inv_upd_ino; try done. intros Hb.
  destruct (inv_inode _ _ _ _ _ H i n Hi Hb). by rewrite Hm, Hw.
Qed.

(** Copies from a lower inode. *)
Lemma wp_copy e L b w i li (f : linode -> inode -> inode) G :
  inv sb e L b w -> is_Some (inodes w !! i) -> is_Some (l_inodes (lo w) !! li) -> (forall m n, core n (f m n)) ->
  wp (n ← lino li; upd_ino i (f n)) (fun _ w' => inv sb e L b w' /\ quiet w w') G w.
Proof. intros H Hi [m Hl] Hc. apply wp_bind. eapply wp_lino; [done|]. by apply wp_quiet_upd. Qed.

Lemma quiet_some w w' i : quiet w w' -> is_Some (inodes w !! i) -> is_Some (inodes w' !! i).
Proof. intros Hq [n Hi]. destruct (q_inodes _ _ Hq i n Hi) as (n' & ? & _). eauto. Qed.
Lemma quiet_linode w w' i : quiet w w' -> is_Some (l_inodes (lo w) !! i) -> is_Some (l_inodes (lo w') !! i).
Proof. intros Hq Hi. by rewrite (q_lo _ _ Hq). Qed.

Lemma wp_when (c : bool) (m : M unit) (Q : unit -> world -> Prop) G w :
  (c = true -> wp m Q G w) -> (c = false -> Q tt w) -> wp (when c m) Q G w.
Proof. intros H1 H2. destruct c; [by apply H1|by apply H2]. Qed.

Lemma wp_interpose_attrs e L b w i li G :
  inv sb e L b w -> is_Some (inodes w !! i) -> is_Some (l_inodes (lo w) !! li) ->
  wp (interpose_attrs i li) (fun _ w' => inv sb e L b w' /\ quiet w w') G w.
Proof.
  intros H Hi Hl. unfold interpose_attrs. apply wp_bind. destruct Hl as [m Hl]. eapply wp_lino; [done|].
  assert (forall w1 (c : bool) f, inv sb e L b w1 -> quiet w w1 -> (forall n, core n (f n)) ->
    wp (when c (upd_ino i f)) (fun _ w' => inv sb e L b w' /\ quiet w w') G w1) as Hwhen.
  { intros w1 c f I1 Q1 Hf. apply wp_when; [intros _|done].
    eapply wp_mono; [apply wp_quiet_upd; [done|by eapply quiet_some|done]| |done].
    intros _ w' [I' Q']. split; [done|by eapply quiet_trans]. }
  cbv zeta. eapply wp_bind, wp_mono with (Q := fun _ w' => inv sb e L b w' /\ quiet w w'); [| |done]; cbv beta.
  { destruct (S_ISLNK _); [by apply wp_quiet_upd|]. destruct (S_ISDIR _); [by apply wp_quiet_upd|].
    apply wp_ret. auto with ccfs. }
  intros _ w1 [I1 Q1]. wp_seq ltac:(by apply Hwhen). intros _ w2 [I2 Q2]. wp_seq ltac:(by apply Hwhen).
  intros _ w3 [I3 Q3]. wp_seq ltac:(apply wp_copy; [done|by eapply quiet_some|eapply quiet_linode; eauto|done]).
  intros _ w4 [I4 Q4]. assert (quiet w w4) as Q5 by (by eapply quiet_trans).
  eapply wp_mono; [apply wp_copy; [done|by eapply quiet_some|eapply quiet_linode; eauto|done]| |done].
  intros _ w' [I' Q']. split; [done|by eapply quiet_trans].
Qed.

Lemma wp_interpose_filter S e L b w u d i G :
  inv sb e L b w -> dents w !! u = Some d -> is_Some (inodes w !! i) ->
  wp (interpose_filter S u i) (fun _ w' => inv sb e L b w' /\ quiet w w') G w.
Proof.
  intros H Hu [n Hi]. unfold interpose_filter. apply wp_bind. eapply wp_dent; [done|]. apply wp_bind.
  eapply wp_ino; [done|]. apply wp_when; [|auto with ccfs]. intros _. by apply wp_quiet_upd.
Qed.
End quiet_steps.

(** ** Interposing an inode *)

Section interpose.
Context (sb : Z).
Implicit Types (e : ext) (L : gset Z) (b : option Z) (w : world) (G : stop -> world -> Prop).

(** An inode is taken in hand and given back. *)
Lemma inv_hand e L w i : inv sb e L None w -> inv sb e L (Some i) w.
Proof. intros H. inv_fields H. intros j n Hj _. by apply (inv_inode0 j). Qed.
Lemma inv_back e L w i n :
  inv sb e L (Some i) w -> inodes w !! i = Some n -> i_new n = false -> lower_file_mutex n = false -> inv sb e L None w.
Proof.
  intros H Hi Hn Hm. inv_fields H. intros j m Hj _. destruct (decide (j = i)) as [->|Hne]; [by simplify_eq|].
  apply (inv_inode0 j m Hj). congruence.
Qed.

(** A lower file is opened: the references of the opener become its own. *)
Lemma inv_open_file e L b w a m wr :
  inv sb (xm_plus m 1 (xd_plus a 1 e)) L b w -> is_Some (l_dents (lo w) !! a) ->
  inv sb e L b (set_lfiles (<[next w := mk_lfile a m wr]> (lfiles w)) (set_next (next w + 1) w)).
Proof.
  intros H Ha. assert (lfiles w !! next w = None) as Hn.
  { destruct (lfiles w !! next w) eqn:E; [|done]. pose proof (inv_fresh_f _ _ _ _ _ H (next w) ltac:(by rewrite E)). lia. }
  inv_fields H.
  - intros c. rewrite mcount_new, inv_d0 by done. cbn. unfold plus, file_on. cbn.
    rewrite (Z.eqb_sym c a). destruct (a =? c); cbn; lia.
  - intros c. rewrite mcount_new, inv_m0 by done. cbn. unfold plus, file_mnt. cbn.
    rewrite (Z.eqb_sym c m). destruct (m =? c); cbn; lia.
  - intros i n f Hi Hf. destruct (decide (f = next w)) as [->|]; [by rewrite lookup_insert_eq|].
    rewrite lookup_insert_ne by done. eauto.
  - intros f x [[<- <-]|[? Hx]]%lookup_insert_Some; eauto.
  - intros i Hi. specialize (inv_fresh_i0 i Hi). lia.
  - intros f. destruct (decide (f = next w)) as [->|]; [lia|]. rewrite lookup_insert_ne by done.
    intros Hf. specialize (inv_fresh_f0 f Hf). lia.
Qed.

(** Only counters and answers changed. *)
Definition kept (w w' : world) : Prop :=
  lo w' = lo w /\ dents w' = dents w /\ files w' = files w /\ inodes w' = inodes w.

(** An open that fails puts the references. *)
Lemma wp_dentry_open e L b w a m wr (Q : Z + Z -> world -> Prop) G :
  inv sb (xm_plus m 1 (xd_plus a 1 e)) L b w -> is_Some (l_dents (lo w) !! a) -> nonneg e ->
  (forall w', default 0 (head (opens w)) = 0 -> inv sb e L b w' -> kept w w' ->
     is_Some (lfiles w' !! next w) -> Q (inr (next w)) w') ->
  (forall rc w', default 0 (head (opens w)) <> 0 -> inv sb e L b w' -> kept w w' -> next w' = next w ->
     opens w' = tail (opens w) -> Q (inl rc) w') ->
  wp (dentry_open a m wr) Q G w.
Proof.
  intros H Ha (Hxd & Hxm & _) Hok Hfail. unfold dentry_open. pose proof (inv_answers _ _ _ _ _ H) as Ho. run.
  assert (forall rc, default 0 (head (opens w)) = rc -> rc <> 0 ->
    wp (dput a;; mntput m;; mret (inl rc)) Q G (set_opens (tail (opens w)) w)) as Herr.
  { intros rc Erc Hrc. pose proof (mcount_nonneg (on_dent a) (dents w)). pose proof (mcount_nonneg (file_on a) (lfiles w)).
    pose proof (mcount_nonneg (on_mnt m) (dents w)). pose proof (mcount_nonneg (file_mnt m) (lfiles w)).
    apply wp_bind, wp_put; cbn [d_count set_opens].
    { rewrite (inv_d _ _ _ _ _ H). cbn. unfold plus. rewrite Z.eqb_refl. specialize (Hxd a). lia. }
    apply wp_bind, wp_put; cbn [mnt_count set_d_count set_opens].
    { rewrite (inv_m _ _ _ _ _ H). cbn. unfold plus. rewrite Z.eqb_refl. specialize (Hxm m). lia. }
    apply wp_ret. apply Hfail; [by rewrite Erc| |done..].
    apply (inv_bump_d _ _ _ _ _ a (-1)) in H. apply (inv_bump_m _ _ _ _ _ m (-1)) in H.
    eapply inv_ext in H; [inv_fields H; by apply answers_retried; [|by rewrite Erc]|..]; intros c; cbn; unfold plus; try case_goal; lia. }
  destruct (default 0 (head (opens w))) as [|rc|rc] eqn:E.
  - apply (inv_open_file _ _ _ _ _ _ wr) in H; [|done].
    apply Hok; [done| |done|cbn; by rewrite lookup_insert_eq]. inv_fields H. by apply answers_opened.
  - by apply Herr.
  - by apply Herr.
Qed.

(** An inode without a lower file gets one that no other has. *)
Lemma inv_set_file e L b w i n f :
  inv sb e L b w -> inodes w !! i = Some n -> lower_file n = None -> is_Some (lfiles w !! f) ->
  (forall j m, inodes w !! j = Some m -> lower_file m <> Some f) ->
  inv sb e L b (set_inodes (<[i := i_set_file (Some f) n]> (inodes w)) w).
Proof.
  intros H Hi Hn Hf Hother. inv_fields H.
  - intros j. rewrite (mcount_insert _ _ _ n) by done. rewrite inv_i0. unfold nests. cbn. lia.
  - intros u d j Hu Hd. destruct (decide (j = i)) as [->|]; [by rewrite lookup_insert_eq|].
    rewrite lookup_insert_ne by done. eauto.
  - intros j m [[<- <-]|[Hne Hj]]%lookup_insert_Some Hb; [cbn|]; eauto.
  - intros j m [[<- <-]|[Hne Hj]]%lookup_insert_Some; [cbn|]; eauto.
  - intros j m g [[<- <-]|[Hne Hj]]%lookup_insert_Some; [cbn; intros [= <-]; done|eauto].
  - intros j k m m' g [[<- <-]|[? Hj]]%lookup_insert_Some [[<- <-]|[? Hk]]%lookup_insert_Some; cbn;
      intros Hg Hg'; simplify_eq; [done|by destruct (Hother k m')|by destruct (Hother j m)|eauto].
  - intros g x Hx. destruct (inv_open0 g x Hx) as (d & j & m & lf & Hd & Hj & Hm & Hl & Hnf).
    destruct (decide (j = i)) as [->|]; [simplify_eq; congruence|].
    exists d, j, m, lf. by rewrite lookup_insert_ne.
  - intros j. destruct (decide (j = i)) as [->|]; [eauto|]. rewrite lookup_insert_ne by done. eauto.
Qed.

(** What is left by the operations on inode [i]. *)
Definition opened (i : Z) (w w' : world) : Prop :=
  lo w' = lo w /\ dents w' = dents w /\ files w' = files w /\
  (forall j n, j <> i -> inodes w !! j = Some n -> inodes w' !! j = Some n).

(** The lower file that was opened becomes that of the inode. *)
Lemma wp_store_file e L w i n f G :
  inv sb e L (Some i) w -> inodes w !! i = Some n -> lower_file n = None -> is_Some (lfiles w !! f) ->
  (forall j m, inodes w !! j = Some m -> lower_file m <> Some f) ->
  wp (upd_ino i (i_set_file (Some f));; mret 0)
    (fun rc w' => rc = 0 /\ inv sb e L (Some i) w' /\ w' = set_inodes (<[i := i_set_file (Some f) n]> (inodes w)) w) G w.
Proof.
  intros H Hi Hn Hf Hother. apply wp_bind. eapply wp_upd_ino; [done|]. apply wp_ret. split_and!; [done| |done].
  by eapply inv_set_file.
Qed.

Lemma wp_init_persistent e L w u d p i n G :
  inv sb e L (Some i) w -> nonneg e -> dents w !! u = Some d -> d_private d = Some p ->
  inodes w !! i = Some n -> lower_file_mutex n = false ->
  wp (ccfs_init_persistent_file u i)
    (fun rc w' => rc = 0 /\ inv sb e L (Some i) w' /\ opened i w w' /\
       exists n', inodes w' !! i = Some n' /\ nested_inode n' = nested_inode n /\ i_new n' = i_new n /\
         lower_file_mutex n' = false) G w.
Proof.
  intros H He Hu Hp Hi Hm. pose proof (inv_private _ _ _ _ _ H u d p Hu Hp) as Ha. destruct p as [a m]. simpl in Ha.
  unfold ccfs_init_persistent_file, lock_lower_file. apply wp_bind, wp_bind. eapply wp_ino; [done|]. rewrite Hm.
  eapply wp_upd_ino; [done|]. set (n1 := i_set_mutex true n).
  assert (inv sb e L (Some i) (set_inodes (<[i := n1]> (inodes w)) w)) as I1 by (by eapply inv_upd_ino).
  set (w1 := set_inodes _ w) in *. assert (inodes w1 !! i = Some n1) as Hi1 by apply lookup_insert_eq.
  unfold ccfs_init_persistent_file_unlocked. apply wp_bind, wp_bind. eapply wp_ino; [done|].
  destruct (lower_file n1) as [f|] eqn:Ef.
  { apply wp_ret. unfold unlock_lower_file. apply wp_bind. eapply wp_upd_ino; [done|]. apply wp_ret.
    unfold opened. split_and!; [done|by eapply inv_upd_ino|done|done|done| |].
    + intros j m' Hne Hj. cbn. by rewrite !lookup_insert_ne.
    + exists (i_set_mutex false n1). split_and!; try done. apply lookup_insert_eq. }
  apply wp_bind. eapply wp_nested_mnt; [done|done|]. apply wp_bind. eapply wp_nested_dentry; [done|done|]. cbn [fst snd].
  assert (forall w3, kept w1 w3 -> inv sb e L (Some i) w3 -> is_Some (lfiles w3 !! next w) ->
    wp (upd_ino i (i_set_file (Some (next w)));; mret 0) (fun rc w3 => wp (unlock_lower_file i;; mret rc)
      (fun rc w' => rc = 0 /\ inv sb e L (Some i) w' /\ opened i w w' /\
       exists n', inodes w' !! i = Some n' /\ nested_inode n' = nested_inode n /\ i_new n' = i_new n /\
         lower_file_mutex n' = false) G w3) G w3) as Hstore.
  { intros w3 (El & Ed & Ef3 & Ei) I3 Hnew. assert (inodes w3 = <[i := n1]> (inodes w)) as Ei' by done.
    eapply wp_mono; [eapply wp_store_file; [exact I3|by rewrite Ei|done|exact Hnew|]| |done].
    { intros j m' Hj Hf. rewrite Ei' in Hj. assert (is_Some (lfiles w !! next w)) as Hs.
      { apply lookup_insert_Some in Hj as [[<- <-]|[_ Hj]]; by eapply (inv_file _ _ _ _ _ H). }
      pose proof (inv_fresh_f _ _ _ _ _ H _ Hs). lia. }
    intros rc w4 (-> & I4 & ->). unfold unlock_lower_file. apply wp_bind.
    eapply wp_upd_ino; [apply lookup_insert_eq|]. apply wp_ret.
    unfold opened. split_and!; [done|eapply inv_upd_ino; [done|apply lookup_insert_eq|done..]|done|done|done| |].
    + intros j m' Hne Hj. cbn. rewrite !lookup_insert_ne, Ei', lookup_insert_ne by done. done.
    + eexists. split; [apply lookup_insert_eq|done]. }
  apply wp_bind, wp_take, wp_bind, wp_take, wp_bind.
  eapply wp_dentry_open; [apply inv_bump_m, inv_bump_d; exact I1|done|done|..].
  - intros w3 _ I3 K3 Hnew. apply wp_bind, wp_ret. by apply Hstore.
  - intros rc w3 Hrc I3 K3 Hn3 Ho3. apply wp_bind.
    destruct (answers_retried _ (inv_answers _ _ _ _ _ I1) Hrc) as [Hr _].
    apply wp_bind, wp_take, wp_bind, wp_take.
    destruct K3 as (El & Ed & Ef3 & Ei).
    eapply wp_dentry_open; [apply inv_bump_m, inv_bump_d; exact I3|cbn [lo set_mnt_count set_d_count]; rewrite El; exact Ha|done|..].
    + intros w4 _ I4 (El4 & Ed4 & Ef4 & Ei4) Hnew. cbn [next set_mnt_count set_d_count] in Hnew. rewrite Hn3 in Hnew.
      cbn [next set_mnt_count set_d_count]. rewrite Hn3. apply Hstore; [|done|done].
      split_and!; [by rewrite El4|by rewrite Ed4|by rewrite Ef4|by rewrite Ei4].
    + intros rc' w4 Hrc'. cbn [opens set_mnt_count set_d_count] in Hrc'. rewrite Ho3 in Hrc'. by destruct Hrc'.
Qed.

Lemma find_inode_some li m i : find_inode li m = Some i -> exists n, m !! i = Some n /\ nested_inode n = li.
Proof.
  unfold find_inode. destruct (List.filter _ _) as [|[j n] t] eqn:E; [done|]. simpl. intros [= <-].
  assert (In (j, n) ((j, n) :: t)) as Hin by (by left). rewrite <- E in Hin.
  apply filter_In in Hin as [Hin Ht]. exists n. unfold ccfs_inode_test in Ht. simpl in Ht. bool_hyps.
  split; [|done]. apply elem_of_map_to_list. by apply list_elem_of_In.
Qed.

(** A new inode takes over the reference to its lower inode. *)
Lemma inv_new_inode e L w n li :
  inv sb (xi_plus li 1 e) L None w -> nested_inode n = li -> lower_file n = None -> is_Some (l_inodes (lo w) !! li) ->
  inv sb e L (Some (next w)) (set_inodes (<[next w := n]> (inodes w)) (set_next (next w + 1) w)).
Proof.
  intros H Hn Hf Hl. assert (inodes w !! next w = None) as Hnone.
  { destruct (inodes w !! next w) eqn:E; [|done]. pose proof (inv_fresh_i _ _ _ _ _ H (next w) ltac:(by rewrite E)). lia. }
  inv_fields H.
  - intros j. rewrite mcount_new, inv_i0 by done. cbn. unfold plus, nests. rewrite Hn, (Z.eqb_sym j li).
    destruct (li =? j); cbn; lia.
  - intros u d i Hu Hd. destruct (decide (i = next w)) as [->|]; [by rewrite lookup_insert_eq|].
    rewrite lookup_insert_ne by done. eauto.
  - intros j m [[<- <-]|[Hne Hj]]%lookup_insert_Some Hb; [done|by apply (inv_inode0 j)].
  - intros j m [[<- <-]|[Hne Hj]]%lookup_insert_Some; [by rewrite Hn|eauto].
  - intros j m f [[<- <-]|[Hne Hj]]%lookup_insert_Some; [congruence|eauto].
  - intros j k m m' f [[<- <-]|[? Hj]]%lookup_insert_Some [[<- <-]|[? Hk]]%lookup_insert_Some ? ?; try congruence; eauto.
  - intros f x Hx. destruct (inv_open0 f x Hx) as (d & j & m & lf & Hd & Hj & Hm & Hl' & Hnf).
    exists d, j, m, lf. rewrite lookup_insert_ne by congruence. done.
  - intros j. destruct (decide (j = next w)) as [->|]; [lia|]. rewrite lookup_insert_ne by done.
    intros Hj. specialize (inv_fresh_i0 j Hj). lia.
  - intros f Hf'. specialize (inv_fresh_f0 f Hf'). lia.
Qed.

(** The inode is in hand, with the reference to its lower inode if it was not new; or there is no
    memory for a new one. *)
Lemma wp_iget5 e L w li G :
  inv sb (xi_plus li 1 e) L None w -> is_Some (l_inodes (lo w) !! li) ->
  wp (iget5_locked li) (fun o w' =>
    match o with
    | Some i => exists n, inodes w' !! i = Some n /\ nested_inode n = li /\
        lower_file_mutex n = false /\ lo w' = lo w /\ dents w' = dents w /\ files w' = files w /\
        (forall j m, inodes w !! j = Some m -> inodes w' !! j = Some m) /\
        inv sb (if i_new n then e else xi_plus li 1 e) L (Some i) w'
    | None => default true (head (allocs w)) = false /\ inv sb (xi_plus li 1 e) L None w' /\ kept w w'
    end) G w.
Proof.
  intros H Hl. unfold iget5_locked. run. destruct (find_inode li (inodes w)) as [i|] eqn:Ef.
  - apply find_inode_some in Ef as (n & Hi & Hn). destruct (inv_inode _ _ _ _ _ H i n Hi ltac:(done)) as [Hnew Hm].
    unfold ino. run. rewrite Hi, Hnew. exists n. rewrite Hnew. split_and!; try done. by apply inv_hand.
  - unfold ccfs_alloc_inode, ccfs_inode_set, ccfs_init_inode, lino, alloc, upd_ino, ino. destruct Hl as [ln Hl].
    run. destruct (default true (head (allocs w))) eqn:Ea; cbn [negb].
    2: { split_and!; [done| |done]. inv_fields H. }
    cbn -[insert lookup zero_attrs]. rewrite Hl. cbn -[insert lookup zero_attrs]. rewrite lookup_insert_eq. cbn -[insert lookup zero_attrs].
    rewrite lookup_insert_eq. cbn -[insert lookup zero_attrs]. rewrite !insert_insert_eq.
    eexists _. split; [apply lookup_insert_eq|]. cbn -[insert lookup zero_attrs].
    assert (inodes w !! next w = None) as Hnone.
    { destruct (inodes w !! next w) eqn:E; [|done]. pose proof (inv_fresh_i _ _ _ _ _ H (next w) ltac:(by rewrite E)). lia. }
    split_and!; try done; [intros j m Hj; rewrite lookup_insert_ne by congruence; done|].
    match goal with |- context [<[next w := ?n]> _] =>
      pose proof (inv_new_inode e L w n li H eq_refl eq_refl (mk_is_Some _ _ Hl)) as H' end.
    inv_fields H'.
Qed.

Lemma wp_instantiate e L b w u d i (flag : bool) G :
  inv sb e L b w -> dents w !! u = Some d -> d_inode d = None -> is_Some (inodes w !! i) ->
  wp (if flag then d_add u (Some i) else d_instantiate u i) (fun _ w' => inv sb e L b w' /\ grows u w w' /\
    inodes w' = inodes w /\ exists d', dents w' !! u = Some d' /\ d_inode d' = Some i) G w.
Proof.
  intros H Hu Hn Hi. set (d1 := d_set_inode (Some i) d).
  assert (inv sb e L b (set_dents (<[u := d1]> (dents w)) w)) as I1.
  { eapply inv_upd_dent; [done|done|done|]. right. split; [done|]. by intros ? [= <-]. }
  assert (forall d', d_private d' = d_private d -> grows u w (set_dents (<[u := d']> (dents w)) w)) as Hg.
  { intros d' Hp. constructor; [done|done|cbn; eauto|]. cbn. intros v x Hv. destruct (decide (v = u)) as [->|].
    - simplify_eq. exists d'. by rewrite lookup_insert_eq.
    - exists x. by rewrite lookup_insert_ne. }
  destruct flag.
  - unfold d_add, d_instantiate. apply wp_bind, wp_bind. eapply wp_dent; [done|]. rewrite Hn.
    eapply wp_upd_dent; [done|]. eapply wp_upd_dent; [apply lookup_insert_eq|]. cbn -[insert]. rewrite insert_insert_eq.
    split_and!; [|by apply Hg|done|].
    + replace (<[u := d_set_hashed true d1]> (dents w)) with (<[u := d_set_hashed true d1]> (<[u := d1]> (dents w)))
        by apply insert_insert_eq.
      eapply (inv_upd_dent _ _ _ _ _ u d1 (d_set_hashed true d1) I1); [apply lookup_insert_eq|done|by left].
    + eexists. split; [apply lookup_insert_eq|done].
  - unfold d_instantiate. apply wp_bind. eapply wp_dent; [done|]. rewrite Hn. eapply wp_upd_dent; [done|].
    split_and!; [done|by apply Hg|done|]. eexists. split; [apply lookup_insert_eq|done].
Qed.

Lemma wp_interpose S e L w a u ld li d p flag G :
  nested_superblock S = sb -> inv sb e L None w -> nonneg e ->
  l_dents (lo w) !! a = Some ld -> l_inode ld = Some li ->
  dents w !! u = Some d -> d_private d = Some p -> d_inode d = None ->
  wp (ccfs_interpose S a u flag) (fun rc w' => inv sb e L None w' /\ grows u w w' /\
    if rc =? 0 then exists d' i, dents w' !! u = Some d' /\ d_inode d' = Some i
    else default true (head (allocs w)) = false /\ kept w w') G w.
Proof.
  intros HS H Hnn Ha Hli Hu Hp Hd. pose proof Hnn as (_ & _ & Hxi). destruct (inv_lower _ _ _ _ _ H a ld Ha) as [_ Hln].
  destruct (Hln li Hli) as (ln & Hl & Hfr & Hsb). unfold ccfs_interpose.
  apply wp_bind. eapply wp_linode_of; [done|done|]. apply wp_bind. eapply wp_lino; [done|].
  replace (negb (l_sb ln =? nested_superblock S)) with false by (rewrite Hsb, HS; lia).
  unfold igrab. apply wp_bind, wp_bind. eapply wp_lino; [done|]. rewrite Hfr. apply wp_bind, wp_take, wp_ret.
  apply (inv_bump_i _ _ _ _ _ li 1) in H. set (w1 := set_i_count _ w) in *. change (negb true) with false. cbv iota.
  wp_seq ltac:(apply wp_iget5; [exact H|by eexists]).
  intros [i|] w2; cycle 1.
  { intros (Hal & I2 & (El & Ed & Ef & Ei)). apply wp_bind. apply wp_put.
    { rewrite (inv_i _ _ _ _ _ I2). cbn. unfold plus. rewrite Z.eqb_refl. specialize (Hxi li).
      pose proof (mcount_nonneg (nests li) (inodes w2)). lia. }
    apply wp_ret. split; [|split].
    - eapply inv_ext; [eapply inv_bump_i; exact I2|done|done|]. intros c. cbn. unfold plus. destruct (c =? li); lia.
    - constructor; cbn; rewrite ?El, ?Ed, ?Ef, ?Ei; eauto.
    - split; [done|]. split_and!; [exact El|exact Ed|exact Ef|exact Ei]. }
  intros (n & Hi & Hn & Hm & El & Ed & Ef & Ei & I2). cbv iota beta.
  set (e2 := if i_new n then e else xi_plus li 1 e) in *.
  assert (l_inodes (lo w2) !! li = Some ln) as Hl2 by (rewrite El; done).
  wp_seq ltac:(apply wp_interpose_attrs; [exact I2|by eexists|by eexists]). intros _ w3 [I3 Q3].
  assert (dents w3 !! u = Some d) as Hu3 by (rewrite (q_dents _ _ Q3), Ed; done).
  wp_seq ltac:(eapply wp_interpose_filter; [exact I3|exact Hu3|eapply quiet_some; [exact Q3|by eexists]]). intros _ w4 [I4 Q4].
  assert (quiet w2 w4) as Q by (by eapply quiet_trans).
  destruct (q_inodes _ _ Q i n Hi) as (n4 & Hi4 & Hn4 & Hf4 & Hm4 & Hw4).
  assert (dents w4 !! u = Some d) as Hu4 by (rewrite (q_dents _ _ Q), Ed; done).
  wp_seq ltac:(eapply wp_init_persistent; [exact I4|unfold e2; by destruct (i_new n); [|apply nonneg_xi]|exact Hu4|done|exact Hi4|congruence]).
  intros rc w5 (-> & I5 & (L5 & D5 & F5 & J5) & n5 & Hi5 & Hn5 & Hw5 & Hm5).
  assert (dents w5 !! u = Some d) as Hu5 by (rewrite D5; done).
  wp_seq ltac:(eapply wp_instantiate; [exact I5|exact Hu5|done|by eexists]).
  intros _ w6 (I6 & G6 & E6 & d' & Hd6 & Hd6'). change (negb (0 =? 0)) with false. cbv iota.
  apply wp_bind. eapply wp_ino; [by rewrite E6|].
  assert (grows u w w6) as G06.
  { eapply grows_trans; [|exact G6]. constructor.
    - by rewrite L5, (q_lo _ _ Q), El.
    - by rewrite F5, (q_files _ _ Q), Ef.
    - intros j m Hj. destruct (q_inodes _ _ Q j m (Ei j m Hj)) as (m4 & Hj4 & Hm4' & _).
      destruct (decide (j = i)) as [->|]; [|exists m4; eauto]. rewrite Hi4 in Hj4. simplify_eq. exists n5.
      split; [done|congruence].
    - intros v x Hv. exists x. by rewrite D5, (q_dents _ _ Q), Ed. }
  destruct (i_new n5) eqn:En.
  - assert (i_new n = true) as En' by congruence. unfold e2 in *. rewrite En' in *.
    apply wp_bind. eapply wp_upd_ino; [by rewrite E6|]. apply wp_ret. split; [|split; [|by cbn; eauto]].
    + eapply (inv_back _ _ _ i (i_set_new false n5)); [|apply lookup_insert_eq|done|done].
      eapply inv_upd_ino; [done|by rewrite E6|done..].
    + eapply grows_trans; [done|]. constructor; [done|done| |cbn; eauto]. cbn. intros j m Hj.
      destruct (decide (j = i)) as [->|]; [|exists m; by rewrite lookup_insert_ne].
      exists (i_set_new false n5). rewrite lookup_insert_eq. rewrite E6 in Hj. by simplify_eq.
  - assert (i_new n = false) as En' by congruence. unfold e2 in *. rewrite En' in *.
    apply wp_bind. apply wp_put.
    { rewrite (inv_i _ _ _ _ _ I6). cbn. unfold plus. rewrite Z.eqb_refl. specialize (Hxi li).
      pose proof (mcount_nonneg (nests li) (inodes w6)). lia. }
    apply wp_ret. split; [|split; [|by cbn; eauto]].
    + eapply inv_ext; [eapply inv_bump_i, inv_back; [exact I6|by rewrite E6|done..]|done|done|].
      intros c. cbn. unfold plus. destruct (c =? li); lia.
    + eapply grows_trans; [done|]. constructor; cbn; eauto.
Qed.
End interpose.
