(* ===== verification/CcfsDir.v ===== *)
(** The directory operations of the caching file system give back every reference and mutex they
    take, whatever the lower file system answers. *)

From stdpp Require Import gmap.
From S2P Require Import Prelude Effect CcfsFilter Ccfs CcfsRefs.

(** Only counters and mutexes changed. *)
Record same (w w' : world) : Prop := mk_same {
  s_lo : lo w' = lo w; s_dents : dents w' = dents w; s_inodes : inodes w' = inodes w; s_files : files w' = files w;
  s_allocs : allocs w' = allocs w
}.
Lemma same_refl w : same w w.
Proof. done. Qed.
Lemma same_trans w1 w2 w3 : same w1 w2 -> same w2 w3 -> same w1 w3.
Proof. intros [] []. constructor; congruence. Qed.
Lemma same_quiet w w' : same w w' -> quiet w w'.
Proof. intros [L D I F A]. constructor; [done..|]. rewrite I. intros i n Hi. exists n. auto with ccfs. Qed.
#[export] Hint Resolve same_refl same_quiet : ccfs.

(** More outer references. *)
Lemma nonneg_xd e a : nonneg e -> nonneg (xd_plus a 1 e).
Proof. intros (Hd & Hm & Hi). split_and!; [|done..]. cbn. unfold plus. intros c. specialize (Hd c). case_goal; lia. Qed.
Lemma nonneg_xm e a : nonneg e -> nonneg (xm_plus a 1 e).
Proof. intros (Hd & Hm & Hi). split_and!; [done| |done]. cbn. unfold plus. intros c. specialize (Hm c). case_goal; lia. Qed.
#[export] Hint Resolve nonneg_xd nonneg_xm : ccfs.

Section dir.
Context `{LL : LowerFsLaws}.
Implicit Types (e : ext) (L : gset Z) (b : option Z) (w : world) (G : stop -> world -> Prop).

Lemma wp_dget e L b w a G : inv sb e L b w -> wp (dget a) (fun _ w' => inv sb (xd_plus a 1 e) L b w' /\ same w w') G w.
Proof. intros Hi. apply wp_take. split; [by apply inv_bump_d|done]. Qed.
Lemma wp_mntget e L b w a G : inv sb e L b w -> wp (mntget a) (fun _ w' => inv sb (xm_plus a 1 e) L b w' /\ same w w') G w.
Proof. intros Hi. apply wp_take. split; [by apply inv_bump_m|done]. Qed.

(** A reference that is held is put. *)
Lemma wp_dput e L b w a G :
  inv sb (xd_plus a 1 e) L b w -> nonneg e -> wp (dput a) (fun _ w' => inv sb e L b w' /\ same w w') G w.
Proof.
  intros Hi (Hd & _ & _). apply wp_put.
  - rewrite (inv_d _ _ _ _ _ Hi). cbn. unfold plus. rewrite Z.eqb_refl. specialize (Hd a).
    pose proof (mcount_nonneg (on_dent a) (dents w)). pose proof (mcount_nonneg (file_on a) (lfiles w)). lia.
  - split; [|done]. eapply inv_ext; [eapply inv_bump_d, Hi| |done|done]. intros c. cbn. unfold plus. case_goal; lia.
Qed.

Lemma wp_lock e L b w i G :
  inv sb e L b w -> i ∉ L -> wp (mutex_lock i) (fun _ w' => inv sb e (L ∪ {[i]}) b w' /\ same w w') G w.
Proof. intros Hi Hn. eapply wp_mutex_lock; [done|done|]. split; [by apply inv_lock|done]. Qed.
Lemma wp_unlock e L b w i G :
  inv sb e (L ∪ {[i]}) b w -> i ∉ L -> wp (mutex_unlock i) (fun _ w' => inv sb e L b w' /\ same w w') G w.
Proof. intros Hi Hn. eapply wp_mutex_unlock; [done|]. split; [by apply inv_unlock|done]. Qed.

(** [a] is a lower dentry whose parent [p] has inode [i]; it is not the root. *)
Definition below (w : world) (a p i : Z) : Prop :=
  a <> p /\ exists d pd, l_dents (lo w) !! a = Some d /\ l_parent d = p /\ l_dents (lo w) !! p = Some pd /\ l_inode pd = Some i.

Lemma below_step w w' a p i mv subs :
  below w a p i -> lower_step mv subs (lo w) (lo w') -> mv <> Some a -> p ∉ subs -> below w' a p i.
Proof.
  intros (Hne & d & pd & Ha & Hp & Hpd & Hi) [Hs _] Hmv Hsub. split; [done|].
  destruct (Hs a d Ha) as (d' & Ha' & Hpar & _). destruct (Hs p pd Hpd) as (pd' & Hp' & _ & Hino).
  exists d', pd'. split_and!; [done|by rewrite Hpar|done|by rewrite Hino].
Qed.
Lemma below_lo w w' a p i : below w a p i -> lo w' = lo w -> below w' a p i.
Proof. unfold below. by intros Hb ->. Qed.

Lemma wp_lock_parent e L w a p i G :
  inv sb e L None w -> below w a p i -> i ∉ L ->
  wp (lock_parent a) (fun r w' => r = p /\ inv sb (xd_plus p 1 e) (L ∪ {[i]}) None w' /\ same w w') G w.
Proof.
  intros Hinv (_ & d & pd & Ha & Hp & Hpd & Hi) HL. unfold lock_parent. apply wp_bind. eapply wp_ldent; [done|]. rewrite Hp.
  wp_seq ltac:(by apply wp_dget). intros _ w1 [I1 S1].
  apply wp_bind. eapply wp_linode_of; [by rewrite (s_lo _ _ S1)|done|].
  wp_seq ltac:(by apply wp_lock). intros _ w2 [I2 S2]. apply wp_ret. split_and!; [done..|by eapply same_trans].
Qed.

Lemma wp_unlock_dir e L w a p i G :
  inv sb (xd_plus p 1 e) (L ∪ {[i]}) None w -> nonneg e -> below w a p i -> i ∉ L ->
  wp (unlock_dir p) (fun _ w' => inv sb e L None w' /\ same w w') G w.
Proof.
  intros Hinv He (_ & d & pd & Ha & Hp & Hpd & Hi) HL. unfold unlock_dir. apply wp_bind.
  eapply wp_linode_of; [done|done|]. wp_seq ltac:(by apply wp_unlock). intros _ w1 [I1 S1].
  eapply wp_mono; [by apply wp_dput| |done]. intros _ w2 [I2 S2]. split; [done|by eapply same_trans].
Qed.

(** A call of the lower file system. *)
Lemma wp_do_vfs e L b w c G :
  inv sb e L b w ->
  wp (do_vfs c) (fun rc w' => inv sb e L b w' /\ dents w' = dents w /\ inodes w' = inodes w /\ files w' = files w /\
    lower_step (moved c) (subjects c) (lo w) (lo w') /\ rc = (vfs c (d_count w) (lo w)).1 /\
    lo w' = (vfs c (d_count w) (lo w)).2) G w.
Proof.
  intros Hinv. unfold do_vfs. run. destruct (vfs_step c (d_count w) (lo w) (inv_lower _ _ _ _ _ Hinv)) as [Hw Hs].
  split_and!; try done. by eapply inv_lo.
Qed.

(** The directory gets attributes of a lower inode. *)
Lemma wp_copies e L b w dir i G :
  inv sb e L b w -> is_Some (inodes w !! dir) -> is_Some (l_inodes (lo w) !! i) ->
  wp (fsstack_copy_attr_times dir i;; fsstack_copy_inode_size dir i) (fun _ w' => inv sb e L b w' /\ quiet w w') G w.
Proof.
  intros Hinv Hdir Hi. wp_seq ltac:(by apply wp_copy). intros _ w1 [I1 Q1].
  eapply wp_mono; [apply wp_copy; [done|by eapply quiet_some|by eapply quiet_linode|done]| |done].
  intros _ w2 [I2 Q2]. split; [done|by eapply quiet_trans].
Qed.

Lemma below_inode e L b w a p i : inv sb e L b w -> below w a p i -> is_Some (l_inodes (lo w) !! i).
Proof.
  intros Hinv (_ & d & pd & _ & _ & Hpd & Hi). destruct (inv_lower _ _ _ _ _ Hinv p pd Hpd) as [_ Hn].
  destruct (Hn i Hi) as (n & ? & _). eauto.
Qed.

(** An upper dentry without inode, over [a] in directory [p] with inode [i]; the directory above is
    [dir]. *)
Definition negative_in (w : world) (dir u a p i : Z) : Prop :=
  is_Some (inodes w !! dir) /\ (exists d m, dents w !! u = Some d /\ d_private d = Some (a, m) /\ d_inode d = None) /\
  below w a p i.

Lemma negative_in_same w w' dir u a p i : negative_in w dir u a p i -> same w w' -> negative_in w' dir u a p i.
Proof. intros (Hd & Hu & Hb) [El Ed Ei Ef _]. unfold negative_in. rewrite Ei, Ed. split_and!; [done..|by eapply below_lo]. Qed.

(** The dentry gets an inode and the directory the attributes of the lower one. *)
Lemma wp_interpose_dir S e L w dir u a p i (k : Z -> Z -> M Z) G :
  nested_superblock S = sb -> inv sb e L None w -> nonneg e -> negative_in w dir u a p i ->
  (exists ld li, l_dents (lo w) !! a = Some ld /\ l_inode ld = Some li) ->
  (forall w1, inv sb e L None w1 -> is_Some (inodes w1 !! dir) -> is_Some (l_inodes (lo w1) !! i) ->
     wp (k 0 i) (fun rc w' => rc = 0 /\ inv sb e L None w' /\ quiet w1 w') G w1) ->
  wp (rc ← ccfs_interpose S a u false;
      if negb (rc =? 0) then mret rc else
      j ← linode_of p; fsstack_copy_attr_times dir j;; fsstack_copy_inode_size dir j;; k rc j)
    (fun _ w' => inv sb e L None w' /\ grows u w w') G w.
Proof.
  intros HS Hinv He ([dn Hdir] & (d & m & Hu & Hp & Hn) & Hb) (ld & li & Ha & Hli) Hk.
  wp_seq ltac:(by eapply wp_interpose). intros rc w1 (I1 & G1 & Hrc).
  destruct (rc =? 0) eqn:Erc; cbn [negb]; [|by apply wp_ret]. apply Z.eqb_eq in Erc as ->.
  apply (fun B => below_lo w w1 a p i B (g_lo _ _ _ G1)) in Hb. pose proof Hb as (_ & _ & pd & _ & _ & Hpd & Hi).
  apply wp_bind. eapply wp_linode_of; [done|done|]. destruct (g_inodes _ _ _ G1 dir dn Hdir) as (dn' & Hdir' & _).
  pose proof (below_inode _ _ _ _ _ _ _ I1 Hb) as Hli'.
  wp_seq ltac:(apply wp_copy; [exact I1|by eexists|done|done]). intros _ w2 [I2 Q2].
  wp_seq ltac:(apply wp_copy; [exact I2|eapply quiet_some; [exact Q2|by eexists]|by eapply quiet_linode|done]). intros _ w3 [I3 Q3].
  assert (quiet w1 w3) as Q13 by (by eapply quiet_trans).
  eapply wp_mono; [apply Hk; [exact I3|eapply quiet_some; [exact Q13|by eexists]|by eapply quiet_linode]| |done].
  intros r w4 (-> & I4 & Q4).
  assert (quiet w1 w4) as Q14 by (by eapply quiet_trans).
  split; [done|]. eapply grows_trans; [done|by apply quiet_grows].
Qed.

(** The end of the calls that make a lower inode, whatever the lower file system answered. *)
Lemma wp_interpose_new S e L w dir u a p i rc nlink G :
  nested_superblock S = sb -> inv sb e L None w -> nonneg e -> negative_in w dir u a p i ->
  wp (interpose_new S dir u a p rc nlink) (fun _ w' => inv sb e L None w' /\ grows u w w') G w.
Proof.
  intros HS Hinv He Hn. pose proof Hn as (_ & _ & (_ & ld & _ & Ha & _)). unfold interpose_new. apply wp_bind.
  eapply wp_ldent; [done|].
  destruct rc; [destruct (l_inode ld) as [li|] eqn:Eli|..]; try (apply wp_ret; auto with ccfs).
  eapply wp_mono; [eapply (wp_interpose_dir S e L w dir u a p i (fun rc j => when nlink (copy_nlink dir j);; mret rc));
    try done; [by eexists _, _|]| |done].
  - intros w1 I1 Hd1 Hi1. apply wp_bind, wp_when; [intros _|intros _; apply wp_ret; auto with ccfs].
    eapply wp_mono; [by apply wp_copy| |done]. intros _ w2 [I2 Q2]. by apply wp_ret.
  - intros r w' (I' & G'). auto.
Qed.

Lemma wp_d_drop e L b w u G :
  inv sb e L b w -> is_Some (dents w !! u) ->
  wp (d_drop u) (fun _ w' => inv sb e L b w' /\ grows u w w' /\ inodes w' = inodes w) G w.
Proof.
  intros Hinv [d Hu]. unfold d_drop. eapply wp_upd_dent; [done|].
  split_and!; [eapply inv_upd_dent; try done; by left| |done]. constructor; [done|done|cbn; eauto|]. cbn. intros v x Hv.
  destruct (decide (v = u)) as [->|]; [|exists x; by rewrite lookup_insert_ne]. simplify_eq.
  eexists. split; [apply lookup_insert_eq|done].
Qed.

Lemma wp_drop_negative e L w u G :
  inv sb e L None w -> is_Some (dents w !! u) -> wp (drop_negative u) (fun _ w' => inv sb e L None w') G w.
Proof.
  intros Hinv [d Hu]. unfold drop_negative. apply wp_bind. eapply wp_dent; [done|].
  destruct (d_inode d); [by apply wp_ret|]. eapply wp_mono; [by eapply wp_d_drop| |done]. by intros _ w' [? _].
Qed.

Lemma wp_drop_ret e L w u (rc : Z) G :
  inv sb e L None w -> is_Some (dents w !! u) -> wp (drop_negative u;; mret rc) (fun _ w' => inv sb e L None w') G w.
Proof. intros Hinv Hu. wp_seq ltac:(by apply wp_drop_negative). intros _ w' I'. by apply wp_ret. Qed.

Lemma grows_dent u w w' v : grows u w w' -> is_Some (dents w !! v) -> is_Some (dents w' !! v).
Proof. intros Hg [d Hv]. destruct (g_dents _ _ _ Hg v d Hv) as (d' & ? & _). eauto. Qed.

(** After a call on [a] the directory is where it was. *)
Lemma negative_in_vfs w w' dir u a p i c :
  negative_in w dir u a p i -> dents w' = dents w -> inodes w' = inodes w ->
  lower_step (moved c) (subjects c) (lo w) (lo w') -> moved c = None -> subjects c = [a] -> negative_in w' dir u a p i.
Proof.
  intros (Hd & Hu & Hb) Ed Ei Hs Hm Hsub. unfold negative_in. rewrite Ed, Ei. split_and!; [done..|].
  eapply below_step; [done|done|by rewrite Hm|]. rewrite Hsub. destruct Hb as [Hne _]. set_solver.
Qed.

(** Making something in a directory: lock, lower call, inode, unlock. *)
Lemma wp_make S e w dir u a p i c nlink (k : Z -> M Z) (Q : Z -> world -> Prop) G :
  nested_superblock S = sb -> inv sb e ∅ None w -> nonneg e -> negative_in w dir u a p i ->
  moved c = None -> subjects c = [a] ->
  (forall rc w1, inv sb e ∅ None w1 -> is_Some (dents w1 !! u) -> wp (k rc) Q G w1) ->
  wp (q ← lock_parent a;
      j ← linode_of q; rc ← do_vfs (match c with
        | Vsymlink _ d s => Vsymlink j d s | Vmkdir _ d m => Vmkdir j d m | Vmknod _ d m v => Vmknod j d m v | c => c end);
      rc ← interpose_new S dir u a q rc nlink;
      unlock_dir q;; k rc) Q G w.
Proof.
  intros HS Hinv He Hn Hm Hsub Hk. pose proof Hn as (_ & _ & Hb).
  wp_seq ltac:(eapply wp_lock_parent; [done|done|set_solver]). intros q w1 (-> & I1 & S1).
  pose proof (negative_in_same _ _ _ _ _ _ _ Hn S1) as N1. pose proof N1 as (_ & _ & (_ & _ & pd & _ & _ & Hpd & Hi)).
  apply wp_bind. eapply wp_linode_of; [done|done|].
  set (c' := match c with Vsymlink _ _ _ => _ | _ => _ end).
  assert (moved c' = None /\ subjects c' = [a]) as [Hm' Hsub'] by (by destruct c).
  wp_seq ltac:(by apply wp_do_vfs). intros rc w2 (I2 & D2 & J2 & F2 & L2 & _ & _).
  assert (negative_in w2 dir u a p i) as N2 by (by eapply negative_in_vfs).
  wp_seq ltac:(eapply wp_interpose_new; [done|exact I2|auto with ccfs|exact N2]). intros rc' w3 [I3 G3].
  assert (below w3 a p i) as B3 by (eapply below_lo; [apply N2|apply G3]).
  wp_seq ltac:(eapply wp_unlock_dir; [exact I3|done|exact B3|set_solver]). intros _ w4 [I4 S4].
  apply Hk; [exact I4|]. rewrite (s_dents _ _ S4). eapply grows_dent; [done|].
  destruct N2 as (_ & (d & m & ? & _) & _). eauto.
Qed.

Lemma wp_mkdir S e w dir u a p i mode G :
  nested_superblock S = sb -> inv sb e ∅ None w -> nonneg e -> negative_in w dir u a p i ->
  wp (ccfs_mkdir S dir u mode) (fun _ w' => inv sb e ∅ None w') G w.
Proof.
  intros HS Hinv He Hn. pose proof Hn as (_ & (d & m & Hu & Hp & _) & _). unfold ccfs_mkdir. apply wp_bind.
  eapply wp_nested_dentry; [done|done|].
  apply (wp_make S e w dir u a p i (Vmkdir 0 a mode) true (fun rc => drop_negative u;; mret rc)); try done.
  intros. by apply wp_drop_ret.
Qed.

Lemma wp_mknod S e w dir u a p i mode dev G :
  nested_superblock S = sb -> inv sb e ∅ None w -> nonneg e -> negative_in w dir u a p i ->
  wp (ccfs_mknod S dir u mode dev) (fun _ w' => inv sb e ∅ None w') G w.
Proof.
  intros HS Hinv He Hn. pose proof Hn as (_ & (d & m & Hu & Hp & _) & _). unfold ccfs_mknod. apply wp_bind.
  eapply wp_nested_dentry; [done|done|].
  apply (wp_make S e w dir u a p i (Vmknod 0 a mode dev) false (fun rc => drop_negative u;; mret rc)); try done.
  intros. by apply wp_drop_ret.
Qed.

Lemma wp_symlink S e w dir u a p i symname G :
  nested_superblock S = sb -> inv sb e ∅ None w -> nonneg e -> negative_in w dir u a p i ->
  wp (ccfs_symlink S dir u symname) (fun _ w' => inv sb e ∅ None w') G w.
Proof.
  intros HS Hinv He Hn. pose proof Hn as (_ & (d & m & Hu & Hp & _) & _). unfold ccfs_symlink. apply wp_bind.
  eapply wp_nested_dentry; [done|done|]. cbn [fst].
  wp_seq ltac:(by apply wp_dget). intros _ w1 [I1 S1].
  apply (wp_make S (xd_plus a 1 e) w1 dir u a p i (Vsymlink 0 a symname) false (fun rc => dput a;; drop_negative u;; mret rc));
    try done; [auto with ccfs|by eapply negative_in_same|].
  intros rc w2 I2 Hu2. wp_seq ltac:(by apply wp_dput). intros _ w3 [I3 S3].
  apply wp_drop_ret; [done|]. by rewrite (s_dents _ _ S3).
Qed.

Lemma wp_create S e w dir u a p i mode G :
  nested_superblock S = sb -> inv sb e ∅ None w -> nonneg e -> negative_in w dir u a p i ->
  wp (ccfs_create S dir u mode) (fun _ w' => inv sb e ∅ None w') G w.
Proof.
  intros HS Hinv He Hn. pose proof Hn as (_ & (d & m & Hu & Hp & _) & Hb). unfold ccfs_create, ccfs_do_create. apply wp_bind.
  eapply wp_nested_dentry; [done|done|]. cbn [fst].
  wp_seq ltac:(eapply wp_lock_parent; [done|done|set_solver]). intros q w1 (-> & I1 & S1).
  pose proof (negative_in_same _ _ _ _ _ _ _ Hn S1) as N1. pose proof N1 as (_ & _ & (_ & _ & pd & _ & _ & Hpd & Hi)).
  apply wp_bind. eapply wp_linode_of; [done|done|]. unfold ccfs_create_underlying_file. apply wp_bind, wp_bind.
  eapply wp_nested_dentry; [by rewrite (s_dents _ _ S1)|done|]. apply wp_bind.
  eapply wp_nested_mnt; [by rewrite (s_dents _ _ S1)|done|]. cbn [fst].
  eapply wp_mono; [by apply wp_do_vfs| |done]. intros rc w2 (I2 & D2 & J2 & F2 & L2 & Hrc & Hlo).
  assert (negative_in w2 dir u a p i) as N2 by (by eapply negative_in_vfs).
  assert (forall rc w3, inv sb (xd_plus p 1 e) (∅ ∪ {[i]}) None w3 -> lo w3 = lo w2 ->
    wp (unlock_dir p;; mret rc) (fun (_ : Z) w' => inv sb e ∅ None w') G w3) as Hend.
  { intros r w3 I3 E3. wp_seq ltac:(eapply wp_unlock_dir; [exact I3|done|eapply below_lo; [apply N2|done]|set_solver]).
    intros _ w4 [I4 _]. by apply wp_ret. }
  apply wp_bind. destruct (rc =? 0) eqn:Erc; simpl; bool_hyps; [|apply wp_ret; by apply Hend].
  destruct N2 as (Hdir2 & Hu2 & Hb2). pose proof Hb2 as (_ & ld & _ & Hld & _).
  destruct (vfs_create_inode i a mode (d_count w1) (lo w1) ld) as [li Hli]; [congruence|by rewrite <- Hlo|].
  eapply wp_mono; [eapply (wp_interpose_dir S (xd_plus p 1 e) _ w2 dir u a p i (fun rc _ => mret rc));
    [done|exact I2|auto with ccfs|done|by eexists _, _|intros; apply wp_ret; auto with ccfs]| |done].
  intros r w3 (I3 & G3). apply Hend; [done|apply G3].
Qed.

(** An upper dentry with inode [j], over [a] in directory [p] with inode [i]. *)
Definition positive_in (w : world) (dir u j a p i : Z) : Prop :=
  is_Some (inodes w !! dir) /\ (exists d m, dents w !! u = Some d /\ d_private d = Some (a, m) /\ d_inode d = Some j) /\
  below w a p i.
Lemma positive_in_same w w' dir u j a p i : positive_in w dir u j a p i -> same w w' -> positive_in w' dir u j a p i.
Proof. intros (Hd & Hu & Hb) [El Ed Ei Ef _]. unfold positive_in. rewrite Ei, Ed. split_and!; [done..|by eapply below_lo]. Qed.

(** The attributes of a directory and of an inode in it after it was unlinked. *)
Lemma wp_unlinked e L w dir u j a p i ldir G :
  inv sb e L None w -> positive_in w dir u j a p i -> is_Some (l_inodes (lo w) !! ldir) ->
  wp (fsstack_copy_attr_times dir ldir;;
      d ← dent u; k ← valid (d_inode d);
      li ← ccfs_get_nested_inode k; copy_nlink k li;;
      dn ← ino dir;
      upd_ino k (fun x => i_set_attrs (a_set_ctime (i_ctime (i_attrs dn)) (i_attrs x)) x);;
      d_drop u) (fun _ w' => inv sb e L None w' /\ lo w' = lo w) G w.
Proof.
  intros Hinv (Hdir & (d & m & Hu & Hp & Hj) & Hb) Hl.
  wp_seq ltac:(by apply wp_copy). intros _ w1 [I1 Q1]. apply wp_bind.
  eapply wp_dent; [by rewrite (q_dents _ _ Q1)|]. rewrite Hj. apply wp_bind, wp_ret.
  destruct (inv_dent _ _ _ _ _ Hinv u d j Hu Hj) as [n Hn]. destruct (q_inodes _ _ Q1 j n Hn) as (n1 & Hn1 & _).
  unfold ccfs_get_nested_inode. apply wp_bind, wp_bind. eapply wp_ino; [done|]. apply wp_ret.
  wp_seq ltac:(apply wp_copy; [exact I1|by eexists|by eapply (inv_nested _ _ _ _ _ I1)|done]). intros _ w2 [I2 Q2].
  assert (quiet w w2) as Q02 by (by eapply quiet_trans). destruct (quiet_some _ _ dir Q02 Hdir) as [dn Hdn].
  apply wp_bind. eapply wp_ino; [done|]. wp_seq ltac:(apply wp_quiet_upd; [exact I2|eapply quiet_some; [exact Q2|by eexists]|done]).
  intros _ w3 [I3 Q3]. assert (quiet w w3) as Q03 by (by eapply quiet_trans).
  eapply wp_mono; [apply wp_d_drop; [done|rewrite (q_dents _ _ Q03); by eexists]| |done].
  intros _ w4 (I4 & G4 & _). split; [done|]. by rewrite (g_lo _ _ _ G4), (q_lo _ _ Q03).
Qed.

Lemma wp_unlink e w dir u j a p i G :
  inv sb e ∅ None w -> nonneg e -> positive_in w dir u j a p i ->
  wp (ccfs_unlink dir u) (fun _ w' => inv sb e ∅ None w') G w.
Proof.
  intros Hinv He Hn. pose proof Hn as ([dn Hdir] & (d & m & Hu & Hp & Hj) & Hb). unfold ccfs_unlink. apply wp_bind.
  eapply wp_nested_dentry; [done|done|]. cbn [fst]. unfold ccfs_get_nested_inode at 1. apply wp_bind, wp_bind.
  eapply wp_ino; [done|]. apply wp_ret.
  wp_seq ltac:(eapply wp_lock_parent; [done|done|set_solver]). intros q w1 (-> & I1 & S1).
  wp_seq ltac:(by apply wp_do_vfs). intros rc w2 (I2 & D2 & J2 & F2 & L2 & _ & _).
  assert (below w2 a p i) as B2.
  { eapply below_step; [eapply below_lo; [exact Hb|apply S1]|exact L2|done|]. destruct Hb as [Hne _]. set_solver. }
  assert (positive_in w2 dir u j a p i) as P2.
  { split_and!; [rewrite J2, (s_inodes _ _ S1); by eexists|rewrite D2, (s_dents _ _ S1); eauto|done]. }
  eapply wp_bind, wp_mono with (Q := fun _ w' => inv sb (xd_plus p 1 e) (∅ ∪ {[i]}) None w' /\ lo w' = lo w2); [| |done]; cbv beta.
  { apply wp_when; [intros _|done]. eapply wp_unlinked; [done|done|].
    apply (inv_nested _ _ _ _ _ I2 dir dn). by rewrite J2, (s_inodes _ _ S1). }
  intros _ w3 [I3 E3]. apply (fun B => below_lo w2 w3 a p i B E3) in B2. pose proof B2 as (_ & ld & pd & Ha & Hpa & Hpd & Hi).
  unfold unlock_parent. apply wp_bind, wp_bind. eapply wp_ldent; [done|]. rewrite Hpa.
  eapply wp_mono; [eapply (wp_unlock_dir e ∅ w3 a p i); try done; set_solver| |done].
  intros _ w4 [I4 _]. by apply wp_ret.
Qed.

Lemma wp_rmdir e w dir u j a p i G :
  inv sb e ∅ None w -> nonneg e -> positive_in w dir u j a p i ->
  wp (ccfs_rmdir dir u) (fun _ w' => inv sb e ∅ None w') G w.
Proof.
  intros Hinv He Hn. pose proof Hn as (Hdir & (d & m & Hu & Hp & Hj) & Hb). unfold ccfs_rmdir. apply wp_bind.
  eapply wp_nested_dentry; [done|done|]. cbn [fst].
  wp_seq ltac:(eapply wp_lock_parent; [done|done|set_solver]). intros q w1 (-> & I1 & S1).
  wp_seq ltac:(by apply wp_dget). intros _ w2 [I2 S2]. assert (same w w2) as S02 by (by eapply same_trans).
  apply (fun B => below_lo w w2 a p i B (s_lo _ _ S02)) in Hb. pose proof Hb as (Hne & _ & pd & _ & _ & Hpd & Hi).
  apply wp_bind. eapply wp_linode_of; [done|done|].
  wp_seq ltac:(by apply wp_do_vfs). intros rc w3 (I3 & D3 & J3 & F3 & L3 & _ & _).
  assert (below w3 a p i) as B3 by (eapply below_step; [exact Hb|exact L3|done|set_solver]).
  wp_seq ltac:(apply wp_dput; [exact I3|auto with ccfs]). intros _ w4 [I4 S4].
  apply (fun B => below_lo w3 w4 a p i B (s_lo _ _ S4)) in B3.
  eapply wp_bind, wp_mono with (Q := fun _ w' => inv sb (xd_plus p 1 e) (∅ ∪ {[i]}) None w' /\ dents w' = dents w /\
    inodes w' = inodes w /\ below w' a p i); [| |done]; cbv beta.
  { assert (dents w4 = dents w /\ inodes w4 = inodes w) as [Ed Ei].
    { by rewrite (s_dents _ _ S4), (s_inodes _ _ S4), D3, J3, (s_dents _ _ S02), (s_inodes _ _ S02). }
    apply wp_when; [intros _|done]. wp_seq ltac:(by apply wp_do_vfs). intros rc' w5 (I5 & D5 & J5 & F5 & L5 & _ & _).
    apply wp_ret. split_and!; [done|congruence|congruence|]. eapply below_step; [exact B3|exact L5|done|set_solver]. }
  intros _ w5 (I5 & D5 & J5 & B5). pose proof B5 as (_ & _ & pd5 & _ & _ & Hpd5 & Hi5).
  apply wp_bind. eapply wp_linode_of; [done|done|]. pose proof (below_inode _ _ _ _ _ _ _ I5 B5) as Hl5.
  rewrite <- J5 in Hdir.
  wp_seq ltac:(by apply wp_copy). intros _ w6 [I6 Q6].
  wp_seq ltac:(apply wp_copy; [exact I6|by eapply quiet_some|by eapply quiet_linode|done]). intros _ w7 [I7 Q7].
  assert (quiet w5 w7) as Q57 by (by eapply quiet_trans).
  apply (fun B => below_lo w5 w7 a p i B (q_lo _ _ Q57)) in B5.
  wp_seq ltac:(eapply wp_unlock_dir; [exact I7|done|exact B5|set_solver]). intros _ w8 [I8 S8].
  eapply wp_bind, wp_mono with (Q := fun _ w' => inv sb e ∅ None w'); [| |done]; cbv beta; [|by intros; apply wp_ret].
  apply wp_when; [intros _|done]. eapply wp_mono; [apply wp_d_drop; [done|]| |done]; [|by intros _ ? [? _]].
  rewrite (s_dents _ _ S8), (q_dents _ _ Q57), D5, Hu. by eexists.
Qed.

Lemma wp_lower_d_drop e L b w a G :
  inv sb e L b w -> is_Some (l_dents (lo w) !! a) ->
  wp (lower_d_drop a) (fun _ w' => inv sb e L b w' /\ dents w' = dents w) G w.
Proof.
  intros Hinv [d Ha]. unfold lower_d_drop. apply wp_bind. eapply wp_ldent; [done|]. run. split; [|done].
  pose proof (inv_lower _ _ _ _ _ Hinv) as Hw. set (d' := mk_ldentry (l_parent d) (l_inode d) false).
  assert (forall c x, l_dents (lo w) !! c = Some x -> exists x', <[a := d']> (l_dents (lo w)) !! c = Some x' /\
    l_parent x' = l_parent x /\ l_inode x' = l_inode x) as Hk.
  { intros c x Hc. destruct (decide (c = a)) as [->|]; [|exists x; by rewrite lookup_insert_ne].
    simplify_eq. exists d'. by rewrite lookup_insert_eq. }
  eapply (inv_lo _ _ _ _ _ _ None []); [done| |].
  - intros c x Hc. cbn in *. assert (exists y, l_dents (lo w) !! c = Some y /\ l_parent y = l_parent x /\ l_inode y = l_inode x)
      as (y & Hy & Hpy & Hiy). { apply lookup_insert_Some in Hc as [[<- <-]|[? Hc]]; eauto. }
    destruct (Hw c y Hy) as [(pd & pi & Hpd & Hpi) Hn]. rewrite Hpy in Hpd. rewrite Hiy in Hn.
    destruct (Hk _ _ Hpd) as (pd' & ? & _ & Hpi'). split; [|done]. exists pd', pi. by rewrite Hpi'.
  - split; [|done]. intros c x Hc. destruct (Hk c x Hc) as (x' & ? & ? & ?). eauto.
Qed.

(** The new name of a linked inode gets its upper inode, and the old one its link count. *)
Lemma wp_link_inode S e L w dir u d p j on a ld li size G :
  nested_superblock S = sb -> inv sb e L None w -> nonneg e -> is_Some (inodes w !! dir) -> inodes w !! j = Some on ->
  dents w !! u = Some d -> d_private d = Some p -> d_inode d = None ->
  l_dents (lo w) !! a = Some ld -> l_inode ld = Some li ->
  wp (rc ← ccfs_interpose S a u false;
      if negb (rc =? 0) then mret rc else
      i ← linode_of a;
      fsstack_copy_attr_times dir i;; fsstack_copy_inode_size dir i;;
      oli ← ccfs_get_nested_inode j; copy_nlink j oli;;
      nd ← dent u; ni ← valid (d_inode nd);
      upd_ino ni (i_set_size size);; mret rc)
    (fun _ w' => inv sb e L None w' /\ grows u w w') G w.
Proof.
  intros HS Hinv He [dn Hdir] Hj Hu Hp Hd Ha Hli.
  wp_seq ltac:(by eapply wp_interpose). intros r w5 (I5 & G5 & Hr).
  destruct (r =? 0) eqn:Er; cbn [negb]; [|by apply wp_ret]. destruct Hr as (d5 & i5 & Hu5 & Hd5).
  apply wp_bind. eapply wp_linode_of; [by rewrite (g_lo _ _ _ G5)|done|].
  destruct (inv_lower _ _ _ _ _ Hinv a ld Ha) as [_ Hln]. destruct (Hln li Hli) as (ln & Hl & _).
  assert (is_Some (l_inodes (lo w5) !! li)) as Hl5 by (rewrite (g_lo _ _ _ G5); by eexists).
  destruct (g_inodes _ _ _ G5 dir dn Hdir) as (dn5 & Hdir5 & _).
  wp_seq ltac:(apply wp_copy; [exact I5|by eexists|done|done]). intros _ w6 [I6 Q6].
  wp_seq ltac:(apply wp_copy; [exact I6|eapply quiet_some; [exact Q6|by eexists]|by eapply quiet_linode|done]). intros _ w7 [I7 Q7].
  assert (quiet w5 w7) as Q57 by (by eapply quiet_trans).
  assert (is_Some (inodes w7 !! j)) as [n7 Hj7].
  { eapply quiet_some; [exact Q57|]. destruct (g_inodes _ _ _ G5 j on) as (? & ? & _); [done|by eexists]. }
  unfold ccfs_get_nested_inode. apply wp_bind, wp_bind. eapply wp_ino; [done|]. apply wp_ret.
  wp_seq ltac:(apply wp_copy; [exact I7|by eexists|by eapply (inv_nested _ _ _ _ _ I7)|done]). intros _ w8 [I8 Q8].
  assert (quiet w5 w8) as Q58 by (by eapply quiet_trans).
  apply wp_bind. eapply wp_dent; [by rewrite (q_dents _ _ Q58)|]. rewrite Hd5. apply wp_bind, wp_ret.
  wp_seq ltac:(apply wp_quiet_upd; [exact I8|eapply quiet_some; [exact Q58|by eapply (inv_dent _ _ _ _ _ I5)]|done]).
  intros _ w9 [I9 Q9]. apply wp_ret. split; [done|]. eapply grows_trans; [done|]. apply quiet_grows. by eapply quiet_trans.
Qed.

Lemma wp_link S e w dir old j ao u a p i G :
  nested_superblock S = sb -> inv sb e ∅ None w -> nonneg e -> negative_in w dir u a p i ->
  (exists d m, dents w !! old = Some d /\ d_private d = Some (ao, m) /\ d_inode d = Some j) ->
  wp (ccfs_link S old dir u) (fun _ w' => inv sb e ∅ None w') G w.
Proof.
  intros HS Hinv He Hn (od & om & Hold & Hpo & Hjo). pose proof Hn as (Hdir & (d & m & Hu & Hp & Hnone) & Hb).
  assert (old <> u) as Hne by congruence.
  destruct (inv_dent _ _ _ _ _ Hinv old od j Hold Hjo) as [on Hon].
  unfold ccfs_link. apply wp_bind. eapply wp_dent; [done|]. rewrite Hjo. apply wp_bind, wp_ret.
  apply wp_bind. eapply wp_ino; [done|]. cbv zeta. apply wp_bind. eapply wp_nested_dentry; [done|done|].
  apply wp_bind. eapply wp_nested_dentry; [done|done|]. cbn [fst].
  wp_seq ltac:(by apply wp_dget). intros _ w1 [I1 S1]. wp_seq ltac:(by apply wp_dget). intros _ w2 [I2 S2].
  assert (same w w2) as S02 by (by eapply same_trans).
  wp_seq ltac:(eapply wp_lock_parent; [exact I2|eapply below_lo; [done|apply S02]|set_solver]). intros q w3 (-> & I3 & S3).
  assert (same w w3) as S03 by (by eapply same_trans). pose proof (negative_in_same _ _ _ _ _ _ _ Hn S03) as N3.
  pose proof N3 as (_ & _ & (_ & _ & pd & _ & _ & Hpd & Hi)). apply wp_bind. eapply wp_linode_of; [done|done|].
  wp_seq ltac:(by apply wp_do_vfs). intros rc w4 (I4 & D4 & J4 & F4 & L4 & _ & _).
  assert (negative_in w4 dir u a p i) as N4 by (by eapply negative_in_vfs).
  pose proof N4 as (Hdir4 & (d4 & m4 & Hu4 & Hp4 & Hd4) & B4). pose proof B4 as (Hnp & ld & pd4 & Hld & Hlp & Hpd4 & Hi4).
  apply wp_bind. eapply wp_ldent; [done|].
  set (e3 := xd_plus p 1 (xd_plus a 1 (xd_plus ao 1 e))) in *.
  eapply wp_bind, wp_mono with (Q := fun _ w' => inv sb e3 (∅ ∪ {[i]}) None w' /\ grows u w4 w'); [| |done]; cbv beta.
  { destruct rc; [destruct (l_inode ld) as [li|] eqn:Eli|..]; try (apply wp_ret; auto with ccfs).
    eapply (wp_link_inode S e3 _ w4 dir u d4 (a, m4) j on a ld li); try done; [unfold e3; auto with ccfs|].
    by rewrite J4, (s_inodes _ _ S03). }
  intros rc' w5 [I5 G5]. apply (fun B => below_lo w4 w5 a p i B (g_lo _ _ _ G5)) in B4.
  wp_seq ltac:(eapply wp_unlock_dir; [exact I5|auto with ccfs|exact B4|set_solver]). intros _ w6 [I6 S6].
  wp_seq ltac:(apply wp_dput; [exact I6|auto with ccfs]). intros _ w7 [I7 S7].
  wp_seq ltac:(apply wp_dput; [exact I7|done]). intros _ w8 [I8 S8].
  assert (dents w8 = dents w5) as D8 by (by rewrite (s_dents _ _ S8), (s_dents _ _ S7), (s_dents _ _ S6)).
  assert (dents w4 = dents w) as D04 by (by rewrite D4, (s_dents _ _ S03)).
  destruct (g_dents _ _ _ G5 old od) as (od5 & Ho5 & Hpo5 & _); [by rewrite D04|].
  destruct (g_dents _ _ _ G5 u d) as (d5 & Hu5 & _); [by rewrite D04|].
  wp_seq ltac:(apply wp_lower_d_drop; [exact I8|]).
  { apply (inv_private _ _ _ _ _ I8 old od5 (ao, om)); [by rewrite D8|congruence]. }
  intros _ w9 [I9 D9]. wp_seq ltac:(apply wp_d_drop; [exact I9|rewrite D9, D8; by eexists]). intros _ w10 (I10 & G10 & _).
  wp_seq ltac:(apply wp_d_drop; [exact I10|eapply grows_dent; [exact G10|rewrite D9, D8; by eexists]]). intros _ w11 (I11 & _).
  by apply wp_ret.
Qed.

(** ** Renaming *)

Lemma cnt_lower e L b w c : inv sb e L b w -> xd e c + mcount (on_dent c) (dents w) <= cnt (d_count w) c.
Proof. intros Hi. rewrite (inv_d _ _ _ _ _ Hi). pose proof (mcount_nonneg (file_on c) (lfiles w)). lia. Qed.

Lemma wp_put_dentry e L b w a G :
  inv sb e L b w -> 0 < cnt (d_count w) a -> wp (dput a) (fun _ w' => inv sb (xd_plus a (-1) e) L b w' /\ same w w') G w.
Proof. intros Hi Hc. apply wp_put; [done|]. split; [by apply inv_bump_d|done]. Qed.

(** Both directories of a rename are locked, a single one once. *)
Definition dirs_locked (po pn io i_n : Z) : gset Z := if po =? pn then ∅ ∪ {[io]} else ∅ ∪ {[io]} ∪ {[i_n]}.

Lemma wp_lock_rename e w po pn io i_n d1 d2 G :
  inv sb e ∅ None w -> l_dents (lo w) !! po = Some d1 -> l_inode d1 = Some io ->
  l_dents (lo w) !! pn = Some d2 -> l_inode d2 = Some i_n -> (po = pn \/ io <> i_n) ->
  wp (lock_rename po pn) (fun _ w' => inv sb e (dirs_locked po pn io i_n) None w' /\ same w w') G w.
Proof.
  intros Hinv H1 E1 H2 E2 Hdir. unfold lock_rename, dirs_locked. apply wp_bind.
  eapply wp_linode_of; [done|done|]. wp_seq ltac:(apply wp_lock; [exact Hinv|set_solver]). intros _ w1 [I1 S1].
  destruct (Z.eqb_spec po pn); [by apply wp_ret|]. apply wp_bind. eapply wp_linode_of; [by rewrite (s_lo _ _ S1)|done|].
  eapply wp_mono; [apply wp_lock; [exact I1|set_solver]| |done]. intros _ w2 [I2 S2]. split; [done|by eapply same_trans].
Qed.
Lemma wp_unlock_rename e w po pn io i_n d1 d2 G :
  inv sb e (dirs_locked po pn io i_n) None w -> l_dents (lo w) !! po = Some d1 -> l_inode d1 = Some io ->
  l_dents (lo w) !! pn = Some d2 -> l_inode d2 = Some i_n -> (po = pn \/ io <> i_n) ->
  wp (unlock_rename po pn) (fun _ w' => inv sb e ∅ None w' /\ same w w') G w.
Proof.
  intros Hinv H1 E1 H2 E2 Hdir. unfold unlock_rename, dirs_locked in *. apply wp_bind.
  eapply wp_linode_of; [done|done|]. destruct (Z.eqb_spec po pn).
  - wp_seq ltac:(apply wp_unlock; [exact Hinv|set_solver]). intros _ w1 [I1 S1]. by apply wp_ret.
  - replace (∅ ∪ {[io]} ∪ {[i_n]} : gset Z) with (∅ ∪ {[i_n]} ∪ {[io]} : gset Z) in Hinv by (apply leibniz_equiv; set_solver).
    wp_seq ltac:(apply wp_unlock; [exact Hinv|set_solver]). intros _ w1 [I1 S1].
    apply wp_bind. eapply wp_linode_of; [by rewrite (s_lo _ _ S1)|done|].
    eapply wp_mono; [apply wp_unlock; [exact I1|set_solver]| |done]. intros _ w2 [I2 S2]. split; [done|by eapply same_trans].
Qed.

(** The directories get the attributes of the lower ones. *)
Lemma wp_rename_attrs e L w old_dir new_dir po pn io i_n d1 d2 (b : bool) G :
  inv sb e L None w -> is_Some (inodes w !! old_dir) -> is_Some (inodes w !! new_dir) ->
  l_dents (lo w) !! po = Some d1 -> l_inode d1 = Some io -> l_dents (lo w) !! pn = Some d2 -> l_inode d2 = Some i_n ->
  wp (when b (ni ← linode_of pn;
              fsstack_copy_attr_all new_dir ni;;
              when (negb (new_dir =? old_dir)) (oi ← linode_of po; fsstack_copy_attr_all old_dir oi)))
    (fun _ w' => inv sb e L None w' /\ quiet w w') G w.
Proof.
  intros Hinv Ho Hn H1 E1 H2 E2. apply wp_when; [intros _|auto with ccfs]. apply wp_bind. eapply wp_linode_of; [done|done|].
  assert (forall c x j, l_dents (lo w) !! c = Some x -> l_inode x = Some j -> is_Some (l_inodes (lo w) !! j)) as Hl.
  { intros c x j Hc Hj. destruct (inv_lower _ _ _ _ _ Hinv c x Hc) as [_ Hx]. destruct (Hx j Hj) as (? & ? & _). eauto. }
  wp_seq ltac:(apply wp_copy; [exact Hinv|done|exact (Hl _ _ _ H2 E2)|done]). intros _ w1 [I1 Q1].
  apply wp_when; [intros _|done]. apply wp_bind. eapply wp_linode_of; [by rewrite (q_lo _ _ Q1)|done|].
  eapply wp_mono; [apply wp_copy; [exact I1|by eapply quiet_some|rewrite (q_lo _ _ Q1); exact (Hl _ _ _ H1 E1)|done]| |done].
  intros _ w2 [I2 Q2]. split; [done|by eapply quiet_trans].
Qed.

(** What a rename leaves: after a move the old directory has a reference too many and the new one
    a reference too few, which is the same thing within one directory. *)
Definition renamed (rc po pn : Z) (e : ext) : ext :=
  if rc =? 0 then xd_plus po 1 (xd_plus pn (-1) e) else e.

(** The references at the end: to the parents the dentries have then, and to the dentries. *)
Lemma wp_rename_puts e w ao an po pn x y (rc : Z) G :
  inv sb (xd_plus pn 1 (xd_plus po 1 (xd_plus an 1 (xd_plus ao 1 e)))) ∅ None w -> nonneg e ->
  l_dents (lo w) !! an = Some x -> l_parent x = pn -> l_dents (lo w) !! ao = Some y ->
  l_parent y = (if rc =? 0 then pn else po) -> an <> pn -> ao <> pn ->
  (po = pn \/ exists v d m, dents w !! v = Some d /\ d_private d = Some (pn, m)) ->
  wp (x ← ldent an; dput (l_parent x);; y ← ldent ao; dput (l_parent y);; dput an;; dput ao;; mret rc)
    (fun r w' => r = rc /\ inv sb (renamed rc po pn e) ∅ None w') G w.
Proof.
  intros Hinv He Han Hpn Hao Hpo Hne Hne' Hc. pose proof He as (Hxd & Hxm & Hxi). apply wp_bind. eapply wp_ldent; [done|]. rewrite Hpn.
  assert (po = pn \/ 1 <= mcount (on_dent pn) (dents w)) as Hheld.
  { destruct Hc as [?|(v & d & m & Hv & Hd)]; [by left|right]. apply (mcount_pos _ _ v d Hv).
    unfold on_dent. rewrite Hd. apply Z.eqb_refl. }
  wp_seq ltac:(apply wp_dput; [exact Hinv|by auto 10 with ccfs]). intros _ w1 [I1 S1]. rewrite <- (s_dents _ _ S1) in Hheld.
  apply wp_bind. eapply wp_ldent; [by rewrite (s_lo _ _ S1)|]. rewrite Hpo.
  set (p2 := if rc =? 0 then pn else po).
  wp_seq ltac:(apply wp_put_dentry; [exact I1|]).
  { pose proof (cnt_lower _ _ _ _ p2 I1) as Hlow. cbn in Hlow. unfold plus in Hlow. pose proof (Hxd p2).
    pose proof (mcount_nonneg (on_dent p2) (dents w1)). unfold p2 in *. destruct (rc =? 0); repeat case_hyp Hlow; blia. }
  intros _ w2 [I2 S2]. wp_seq ltac:(apply wp_put_dentry; [exact I2|]).
  { pose proof (cnt_lower _ _ _ _ an I2) as Hlow. cbn in Hlow. unfold plus in Hlow. pose proof (Hxd an).
    pose proof (mcount_nonneg (on_dent an) (dents w2)). unfold p2 in *. destruct (rc =? 0); repeat case_hyp Hlow; blia. }
  intros _ w3 [I3 S3]. wp_seq ltac:(apply wp_put_dentry; [exact I3|]).
  { pose proof (cnt_lower _ _ _ _ ao I3) as Hlow. cbn in Hlow. unfold plus in Hlow. pose proof (Hxd ao).
    pose proof (mcount_nonneg (on_dent ao) (dents w3)). unfold p2 in *. destruct (rc =? 0); repeat case_hyp Hlow; blia. }
  intros _ w4 [I4 S4]. apply wp_ret. split; [done|]. eapply inv_ext; [exact I4| | |];
    intros c; unfold renamed, p2; destruct (rc =? 0); cbn; unfold plus; repeat case_goal; blia.
Qed.

(** Two dentries with their directories, as the kernel calls for a rename: neither is a directory
    of the other, and different directories have different inodes. *)
Record rename_ok (w : world) (old_dir ou new_dir nu ao an po pn io i_n : Z) : Prop := mk_rename_ok {
  r_old : is_Some (inodes w !! old_dir);
  r_new : is_Some (inodes w !! new_dir);
  r_ou : exists d m, dents w !! ou = Some d /\ d_private d = Some (ao, m);
  r_nu : exists d m, dents w !! nu = Some d /\ d_private d = Some (an, m);
  r_po : below w ao po io;
  r_pn : below w an pn i_n;
  r_ne : ao <> an /\ an <> po /\ ao <> pn;
  r_dirs : po = pn \/ io <> i_n;
  r_held : po = pn \/ exists v d m, dents w !! v = Some d /\ d_private d = Some (pn, m)
}.

(** The parents after the lower call. *)
Lemma rename_parents w w' ao an po pn io i_n k rc :
  below w ao po io -> below w an pn i_n -> ao <> an -> lower_wf sb (lo w) ->
  rc = (vfs (Vrename io ao i_n an) k (lo w)).1 -> lo w' = (vfs (Vrename io ao i_n an) k (lo w)).2 ->
  exists x y, l_dents (lo w') !! an = Some x /\ l_parent x = pn /\ l_dents (lo w') !! ao = Some y /\
    l_parent y = if rc =? 0 then pn else po.
Proof.
  intros (_ & d1 & _ & H1 & E1 & _) (_ & d2 & _ & H2 & E2 & _) Hne Hw Hrc Hlo.
  destruct (vfs_step (Vrename io ao i_n an) k (lo w) Hw) as [_ [Hs _]]. rewrite <- Hlo in Hs.
  destruct (Hs an d2 H2) as (x & Hx & Hpx & _). destruct (Hs ao d1 H1) as (y & Hy & _ & _).
  exists x, y. split_and!; [done|rewrite Hpx; [done|cbn; congruence]|done|].
  destruct (Z.eqb_spec rc 0) as [E|E].
  - rewrite <- E2. apply (vfs_rename_moves io ao i_n an k (lo w) d2 y); [congruence|exact H2|by rewrite <- Hlo].
  - destruct (vfs_rename_fails io ao i_n an k (lo w)) as [Hf _]; [congruence|]. rewrite <- Hlo in Hf.
    destruct (Hf ao d1 H1) as (y' & Hy' & Hpy & _). rewrite Hy in Hy'. simplify_eq. apply Hpy. done.
Qed.

Lemma wp_rename e w old_dir ou new_dir nu ao an po pn io i_n G :
  inv sb e ∅ None w -> nonneg e -> rename_ok w old_dir ou new_dir nu ao an po pn io i_n ->
  wp (ccfs_rename old_dir ou new_dir nu) (fun rc w' => inv sb (renamed rc po pn e) ∅ None w') G w.
Proof.
  intros Hinv He [Ho Hn (od & om & Hou & Hpo) (nd & nm & Hnu & Hpn) Hbo Hbn (Hne & Hne1 & Hne2) Hdirs Hheld].
  pose proof Hbo as (Hno & d1 & pd1 & Hd1 & Ep1 & Hpd1 & Ei1). pose proof Hbn as (Hnn & d2 & pd2 & Hd2 & Ep2 & Hpd2 & Ei2).
  unfold ccfs_rename. apply wp_bind. eapply wp_nested_dentry; [done|done|]. apply wp_bind.
  eapply wp_nested_dentry; [done|done|]. cbn [fst].
  wp_seq ltac:(by apply wp_dget). intros _ w1 [I1 S1]. wp_seq ltac:(by apply wp_dget). intros _ w2 [I2 S2].
  assert (same w w2) as S02 by (by eapply same_trans). unfold dget_parent.
  apply wp_bind, wp_bind. eapply wp_ldent; [by rewrite (s_lo _ _ S02)|]. rewrite Ep1.
  wp_seq ltac:(by apply wp_dget). intros _ w3 [I3 S3]. apply wp_ret. assert (same w w3) as S03 by (by eapply same_trans).
  apply wp_bind, wp_bind. eapply wp_ldent; [by rewrite (s_lo _ _ S03)|]. rewrite Ep2.
  wp_seq ltac:(by apply wp_dget). intros _ w4 [I4 S4]. apply wp_ret. assert (same w w4) as S04 by (by eapply same_trans).
  apply (fun B => below_lo w w4 _ _ _ B (s_lo _ _ S04)) in Hbo, Hbn.
  wp_seq ltac:(eapply wp_lock_rename; [exact I4|rewrite (s_lo _ _ S04); exact Hpd1|done|rewrite (s_lo _ _ S04); exact Hpd2|done|done]).
  intros _ w5 [I5 S5]. assert (same w w5) as S05 by (by eapply same_trans).
  apply (fun B => below_lo w4 w5 _ _ _ B (s_lo _ _ S5)) in Hbo, Hbn.
  apply wp_bind. eapply wp_linode_of; [by rewrite (s_lo _ _ S05)|done|].
  apply wp_bind. eapply wp_linode_of; [by rewrite (s_lo _ _ S05)|done|].
  wp_seq ltac:(by apply wp_do_vfs). intros rc w6 (I6 & D6 & J6 & F6 & L6 & Hrc & Hlo).
  destruct (rename_parents w5 w6 ao an po pn io i_n (d_count w5) rc) as (x & y & Hx & Px & Hy & Py); try done.
  { apply (inv_lower _ _ _ _ _ I5). }
  assert (forall c z, l_dents (lo w5) !! c = Some z -> c <> an -> exists z', l_dents (lo w6) !! c = Some z' /\ l_inode z' = l_inode z) as Hino.
  { intros c z Hc Hca. destruct (proj1 L6 c z Hc) as (z' & ? & _ & Hz). exists z'. split; [done|]. apply Hz. set_solver. }
  destruct (Hino po pd1) as (q1 & Hq1 & Eq1); [by rewrite (s_lo _ _ S05)|done|].
  destruct (Hino pn pd2) as (q2 & Hq2 & Eq2); [by rewrite (s_lo _ _ S05)|done|].
  wp_seq ltac:(eapply wp_rename_attrs; [exact I6|by rewrite J6, (s_inodes _ _ S05)|by rewrite J6, (s_inodes _ _ S05)|
    exact Hq1|by rewrite Eq1|exact Hq2|by rewrite Eq2]). intros _ w7 [I7 Q7].
  wp_seq ltac:(eapply wp_unlock_rename; [exact I7|rewrite (q_lo _ _ Q7); exact Hq1|congruence|rewrite (q_lo _ _ Q7); exact Hq2|congruence|done]).
  intros _ w8 [I8 S8].
  eapply wp_mono; [eapply (wp_rename_puts e w8 ao an po pn x y rc); try done;
    [by rewrite (s_lo _ _ S8), (q_lo _ _ Q7)..|]| |done].
  - rewrite (s_dents _ _ S8), (q_dents _ _ Q7), D6, (s_dents _ _ S05). done.
  - intros r w9 [-> I9]. done.
Qed.
End dir.
