(* ===== verification/CcfsLife.v ===== *)
(** The life of upper dentries and inodes of the caching file system: looked up, opened, read,
    released; and the theorem about every sequence of operations. *)

From stdpp Require Import gmap.
From S2P Require Import Prelude Effect CcfsFilter Ccfs CcfsRefs CcfsDir.

(** ** The end of a dentry *)

Section release.
Context `{LL : LowerFsLaws}.
Implicit Types (e : ext) (L : gset Z) (b : option Z) (w : world) (G : stop -> world -> Prop).

Definition unopened (w : world) (u : Z) : Prop := forall f x, files w !! f = Some x -> u_dentry x <> u.

(** A dentry that is not open gives its inode up. *)
Lemma inv_dentry_iput e L b w u d :
  inv sb e L b w -> dents w !! u = Some d -> unopened w u ->
  inv sb e L b (set_dents (<[u := d_set_inode None d]> (dents w)) w).
Proof.
  intros Hinv Hu Hno. inv_fields Hinv.
  - intros a. rewrite (mcount_insert _ _ _ d) by done. rewrite inv_d0. unfold on_dent. cbn. lia.
  - intros a. rewrite (mcount_insert _ _ _ d) by done. rewrite inv_m0. unfold on_mnt. cbn. lia.
  - intros v x i [[<- <-]|[Hne Hv]]%lookup_insert_Some Hx; [done|eauto].
  - intros v x p [[<- <-]|[Hne Hv]]%lookup_insert_Some Hx; eauto.
  - intros f x Hx. destruct (inv_open0 f x Hx) as (y & j & m & lf & Hd & Hj & Hm & Hl & Hnf).
    exists y, j, m, lf. rewrite lookup_insert_ne; [done|]. intros E. by apply (Hno f x Hx).
Qed.

(** An inode that no dentry has goes; its reference to the lower inode was put before. *)
Lemma inv_delete_inode e L b w i n :
  inv sb (xi_plus (nested_inode n) (-1) e) L b w -> inodes w !! i = Some n ->
  (forall u d, dents w !! u = Some d -> d_inode d <> Some i) ->
  inv sb e L b (set_inodes (delete i (inodes w)) w).
Proof.
  intros Hinv Hi Hno. inv_fields Hinv.
  - intros j. rewrite (mcount_delete _ _ _ n), inv_i0 by done. cbn. unfold plus, nests.
    rewrite (Z.eqb_sym j). destruct (_ =? _); cbn; lia.
  - intros u d j Hu Hj. rewrite lookup_delete_ne; [eauto|]. intros ->. by apply (Hno u d).
  - intros j m [? Hj]%lookup_delete_Some. eauto.
  - intros j m [? Hj]%lookup_delete_Some. eauto.
  - intros j m f [? Hj]%lookup_delete_Some. eauto.
  - intros j k m m' f [? Hj]%lookup_delete_Some [? Hk]%lookup_delete_Some. eauto.
  - intros f x Hx. destruct (inv_open0 f x Hx) as (y & j & m & lf & Hd & Hj & Hm & Hl & Hnf).
    exists y, j, m, lf. rewrite lookup_delete_ne; [done|]. intros ->. by apply (Hno _ _ Hd).
  - intros j [x [_ Hj]%lookup_delete_Some]. eauto.
Qed.

(** A lower file that no inode has is closed. *)
Lemma inv_delete_lfile e L b w f x :
  inv sb e L b w -> lfiles w !! f = Some x -> (forall i n, inodes w !! i = Some n -> lower_file n <> Some f) ->
  inv sb e L b (set_mnt_count (bump (f_mnt x) (-1) (mnt_count w))
    (set_d_count (bump (f_dentry x) (-1) (d_count w)) (set_lfiles (delete f (lfiles w)) w))).
Proof.
  intros Hinv Hf Hno. inv_fields Hinv.
  - intros a. rewrite cnt_bump, (mcount_delete _ _ _ x), inv_d0 by done. unfold file_on.
    rewrite (Z.eqb_sym a). destruct (_ =? _); cbn; lia.
  - intros a. rewrite cnt_bump, (mcount_delete _ _ _ x), inv_m0 by done. unfold file_mnt.
    rewrite (Z.eqb_sym a). destruct (_ =? _); cbn; lia.
  - intros i n g Hi Hg. rewrite lookup_delete_ne; [eauto|]. intros ->. by apply (Hno i n).
  - intros g y [? Hg]%lookup_delete_Some. eauto.
  - intros g [y [_ Hg]%lookup_delete_Some]. eauto.
Qed.

(** The references of a lower file are there. *)
Lemma lfile_held e L b w f x :
  inv sb e L b w -> (forall a, 0 <= xd e a) -> (forall a, 0 <= xm e a) -> lfiles w !! f = Some x ->
  0 < cnt (d_count w) (f_dentry x) /\ 0 < cnt (mnt_count w) (f_mnt x).
Proof.
  intros Hinv Hxd Hxm Hf. rewrite (inv_d _ _ _ _ _ Hinv), (inv_m _ _ _ _ _ Hinv).
  pose proof (mcount_pos (file_on (f_dentry x)) _ _ _ Hf (Z.eqb_refl _)).
  pose proof (mcount_pos (file_mnt (f_mnt x)) _ _ _ Hf (Z.eqb_refl _)).
  pose proof (mcount_nonneg (on_dent (f_dentry x)) (dents w)). pose proof (mcount_nonneg (on_mnt (f_mnt x)) (dents w)).
  specialize (Hxd (f_dentry x)). specialize (Hxm (f_mnt x)). lia.
Qed.
Lemma fput_run w f x :
  lfiles w !! f = Some x -> 0 < cnt (d_count w) (f_dentry x) -> 0 < cnt (mnt_count w) (f_mnt x) ->
  fput f w = Ret tt (set_mnt_count (bump (f_mnt x) (-1) (mnt_count w))
    (set_d_count (bump (f_dentry x) (-1) (d_count w)) (set_lfiles (delete f (lfiles w)) w))).
Proof.
  intros Hf Hd Hm. unfold fput. run. rewrite Hf. unfold dput, mntput, put. run. cbn [d_count mnt_count set_lfiles set_d_count].
  replace (cnt (d_count w) (f_dentry x) <=? 0) with false by lia. cbn [d_count mnt_count set_lfiles set_d_count].
  by replace (cnt (mnt_count w) (f_mnt x) <=? 0) with false by lia.
Qed.

Lemma wp_destroy_inode e L w i n G :
  inv sb (xi_plus (nested_inode n) (-1) e) L None w -> nonneg e -> inodes w !! i = Some n ->
  (forall u d, dents w !! u = Some d -> d_inode d <> Some i) ->
  wp (ccfs_destroy_inode i) (fun _ w' => inv sb e L None w' /\ dents w' = dents w) G w.
Proof.
  intros Hinv He Hi Hno. destruct (inv_inode _ _ _ _ _ Hinv i n Hi ltac:(done)) as [Hnew Hm].
  pose proof (inv_delete_inode _ _ _ _ _ _ Hinv Hi Hno) as Hdel.
  unfold ccfs_destroy_inode, lock_lower_file. apply wp_bind, wp_bind. eapply wp_ino; [done|]. rewrite Hm.
  eapply wp_upd_ino; [done|]. apply wp_bind. eapply wp_ino; [apply lookup_insert_eq|]. cbn [lower_file i_set_mutex].
  unfold unlock_lower_file.
  destruct (lower_file n) as [f|] eqn:Ef.
  - destruct (inv_file _ _ _ _ _ Hinv i n f Hi Ef) as [x Hx]. destruct (inv_lfile _ _ _ _ _ Hinv f x Hx) as [ld Hld].
    apply wp_bind, wp_bind. run. cbn [lfiles set_inodes lo]. rewrite Hx. unfold ldent. run. cbn [lo set_inodes]. rewrite Hld.
    destruct (l_inode ld).
    + destruct (lfile_held _ _ _ _ _ _ Hinv (proj1 He) (proj1 (proj2 He)) Hx) as [Hd Hmn].
      rewrite (fput_run _ f x) by done. unfold upd_ino, ino. run. cbn -[insert delete lookup bump]. rewrite lookup_insert_eq.
      cbn -[insert delete lookup bump]. rewrite lookup_insert_eq. cbn -[insert delete lookup bump].
      rewrite !insert_insert_eq, delete_insert_eq. split; [|done].
      apply (inv_delete_lfile _ _ _ _ f x) in Hdel; [done|done|]. cbn -[delete]. intros j m [Hne Hj]%lookup_delete_Some Hf.
      apply Hne. exact (inv_inj _ _ _ _ _ Hinv i j n m f Hi Hj Ef Hf).
    + unfold upd_ino, ino. run. cbn -[insert delete lookup]. rewrite lookup_insert_eq. cbn -[insert delete lookup].
      rewrite insert_insert_eq, delete_insert_eq. done.
  - unfold upd_ino, ino. run. cbn -[insert delete lookup]. rewrite lookup_insert_eq. cbn -[insert delete lookup].
    rewrite insert_insert_eq, delete_insert_eq. done.
Qed.

Lemma wp_delete_inode e L w i n G :
  inv sb e L None w -> nonneg e -> inodes w !! i = Some n ->
  (forall u d, dents w !! u = Some d -> d_inode d <> Some i) ->
  wp (generic_delete_inode i) (fun _ w' => inv sb e L None w' /\ dents w' = dents w) G w.
Proof.
  intros Hinv He Hi Hno. unfold generic_delete_inode, ccfs_clear_inode, ccfs_get_nested_inode. apply wp_bind, wp_bind, wp_bind.
  eapply wp_ino; [done|]. apply wp_ret, wp_put.
  { rewrite (inv_i _ _ _ _ _ Hinv). pose proof (mcount_pos (nests (nested_inode n)) _ _ _ Hi (Z.eqb_refl _)).
    pose proof (proj2 (proj2 He) (nested_inode n)). lia. }
  pose proof (inv_bump_i _ _ _ _ _ (nested_inode n) (-1) Hinv) as I1. exact (wp_destroy_inode _ _ _ i n G I1 He Hi Hno).
Qed.

Lemma wp_drop_inode e L w i n G :
  inv sb e L None w -> nonneg e -> inodes w !! i = Some n ->
  (forall u d, dents w !! u = Some d -> d_inode d <> Some i) ->
  wp (ccfs_drop_inode i) (fun _ w' => inv sb e L None w' /\ dents w' = dents w) G w.
Proof.
  intros Hinv He Hi Hno. unfold ccfs_drop_inode, ccfs_is_inode_cacheable. apply wp_bind, wp_bind.
  eapply wp_ino; [done|]. apply wp_ret. destruct (cacheable n); simpl; [|by eapply wp_delete_inode].
  apply wp_bind. eapply wp_ino; [done|]. destruct (_ =? 0); [by eapply wp_delete_inode|by apply wp_ret].
Qed.

Lemma inode_in_use_false i m u d : inode_in_use i m = false -> m !! u = Some d -> d_inode d <> Some i.
Proof.
  intros Hf Hu Hd. unfold inode_in_use in Hf. apply not_true_iff_false in Hf. apply Hf. apply existsb_exists.
  exists (u, d). split; [by apply list_elem_of_In, elem_of_map_to_list|]. by apply bool_decide_eq_true_2.
Qed.

(** A dentry without inode goes; what it held was put before. *)
Lemma inv_delete_dent e e' L b w u d :
  inv sb e' L b w -> dents w !! u = Some d -> d_inode d = None ->
  e' = match d_private d with Some p => xd_plus p.1 (-1) (xm_plus p.2 (-1) e) | None => e end ->
  inv sb e L b (set_dents (delete u (dents w)) w).
Proof.
  intros Hinv Hu Hn ->. inv_fields Hinv.
  - intros a. rewrite (mcount_delete _ _ _ d), inv_d0 by done. unfold on_dent.
    destruct (d_private d) as [p|]; cbn; unfold plus; [|lia]. rewrite (Z.eqb_sym a). destruct (_ =? _); cbn; lia.
  - intros a. rewrite (mcount_delete _ _ _ d), inv_m0 by done. unfold on_mnt.
    destruct (d_private d) as [p|]; cbn; unfold plus; [|lia]. rewrite (Z.eqb_sym a). destruct (_ =? _); cbn; lia.
  - intros i. rewrite inv_i0. by destruct (d_private d).
  - intros v x i [? Hv]%lookup_delete_Some. eauto.
  - intros v x p [? Hv]%lookup_delete_Some. eauto.
  - intros f x Hx. destruct (inv_open0 f x Hx) as (y & j & m & lf & Hd & Hj & Hm & Hl & Hnf).
    exists y, j, m, lf. rewrite lookup_delete_ne; [done|]. intros ->. rewrite Hu in Hd. congruence.
Qed.

Lemma wp_d_release e L w u d G :
  inv sb e L None w -> nonneg e -> dents w !! u = Some d -> d_inode d = None ->
  wp (ccfs_d_release u;; m ← gets dents; modify (set_dents (delete u m))) (fun _ w' => inv sb e L None w') G w.
Proof.
  intros Hinv He Hu Hn. unfold ccfs_d_release. apply wp_bind, wp_bind. eapply wp_dent; [done|].
  destruct (d_private d) as [[a m]|] eqn:Ep; [|run; by eapply inv_delete_dent; [done..|rewrite Ep]].
  pose proof (mcount_pos (on_dent a) _ _ _ Hu ltac:(unfold on_dent; rewrite Ep; apply Z.eqb_refl)).
  pose proof (mcount_pos (on_mnt m) _ _ _ Hu ltac:(unfold on_mnt; rewrite Ep; apply Z.eqb_refl)).
  pose proof (mcount_nonneg (file_on a) (lfiles w)). pose proof (mcount_nonneg (file_mnt m) (lfiles w)).
  destruct He as (Hxd & Hxm & _). specialize (Hxd a). specialize (Hxm m).
  apply wp_bind, wp_put; [rewrite (inv_m _ _ _ _ _ Hinv); lia|]. apply wp_put; [cbn; rewrite (inv_d _ _ _ _ _ Hinv); lia|].
  run. cbn -[bump delete]. eapply (inv_delete_dent e (xd_plus a (-1) (xm_plus m (-1) e)) L None
    (set_d_count (bump a (-1) (d_count w)) (set_mnt_count (bump m (-1) (mnt_count w)) w)) u d); [|done|done|by rewrite Ep].
  apply (inv_bump_d _ _ _ _ (set_mnt_count (bump m (-1) (mnt_count w)) w)). by apply inv_bump_m.
Qed.

Lemma wp_kill_dentry e L w u d G :
  inv sb e L None w -> nonneg e -> dents w !! u = Some d -> unopened w u ->
  wp (kill_dentry u) (fun _ w' => inv sb e L None w') G w.
Proof.
  intros Hinv He Hu Hno. unfold kill_dentry. apply wp_bind. eapply wp_dent; [done|].
  eapply wp_bind, wp_mono with (Q := fun _ w' => inv sb e L None w' /\ exists d', dents w' !! u = Some d' /\ d_inode d' = None);
    [| |done]; cbv beta.
  - destruct (d_inode d) as [i|] eqn:Ei; [|apply wp_ret; eauto].
    apply wp_bind. eapply wp_upd_dent; [done|]. pose proof (inv_dentry_iput _ _ _ _ _ _ Hinv Hu Hno) as I1.
    destruct (inv_dent _ _ _ _ _ Hinv u d i Hu Ei) as [n Hi]. run. cbn -[insert].
    assert (<[u := d_set_inode None d]> (dents w) !! u = Some (d_set_inode None d)) as Hu' by apply lookup_insert_eq.
    destruct (inode_in_use i _) eqn:Eu; [split; [done|by eexists]|].
    eapply wp_mono; [eapply (wp_drop_inode e L _ i n); [exact I1|done|done|]| |done].
    + intros v x Hv. by eapply inode_in_use_false.
    + intros _ w' [I' D']. split; [done|]. rewrite D'. by eexists.
  - intros _ w1 [I1 (d1 & Hu1 & Hn1)]. by eapply wp_d_release.
Qed.
End release.

(** ** A lookup *)

(** What the kernel does: a dentry is made, and it goes again when the lookup fails. *)
Definition vfs_lookup `{LowerFs} (S : ccfs_super) (dir u parent : Z) (name : list Z) : M Z :=
  m ← gets dents;
  modify (set_dents (<[u := mk_dentry name parent None false None]> m));;
  rc ← ccfs_lookup S dir u;
  when (negb (rc =? 0)) (kill_dentry u);;
  mret rc.

Section lookup.
Context `{LL : LowerFsLaws}.
Implicit Types (e : ext) (L : gset Z) (b : option Z) (w : world) (G : stop -> world -> Prop).

(** A dentry over nothing. *)
Lemma inv_new_dent e L b w u name parent :
  inv sb e L b w -> dents w !! u = None ->
  inv sb e L b (set_dents (<[u := mk_dentry name parent None false None]> (dents w)) w).
Proof.
  intros Hinv Hu. inv_fields Hinv.
  - intros a. rewrite mcount_new, inv_d0 by done. cbn. lia.
  - intros a. rewrite mcount_new, inv_m0 by done. cbn. lia.
  - intros v x i [[<- <-]|[Hne Hv]]%lookup_insert_Some; [done|eauto].
  - intros v x p [[<- <-]|[Hne Hv]]%lookup_insert_Some; [done|eauto].
  - intros f x Hx. destruct (inv_open0 f x Hx) as (y & j & m & lf & Hd & Hj & Hm & Hl & Hnf).
    exists y, j, m, lf. rewrite lookup_insert_ne by congruence. done.
Qed.

(** The dentry takes the references to its lower dentry and mount over. *)
Lemma inv_set_private e L b w u d a m :
  inv sb (xm_plus m 1 (xd_plus a 1 e)) L b w -> dents w !! u = Some d -> d_private d = None -> is_Some (l_dents (lo w) !! a) ->
  inv sb e L b (set_dents (<[u := d_set_private (Some (a, m)) d]> (dents w)) w).
Proof.
  intros Hinv Hu Hp Ha. inv_fields Hinv.
  - intros c. rewrite (mcount_insert _ _ _ d), inv_d0 by done. unfold on_dent. rewrite Hp. cbn. unfold plus.
    rewrite (Z.eqb_sym c). destruct (_ =? _); cbn; lia.
  - intros c. rewrite (mcount_insert _ _ _ d), inv_m0 by done. unfold on_mnt. rewrite Hp. cbn. unfold plus.
    rewrite (Z.eqb_sym c). destruct (_ =? _); cbn; lia.
  - intros v x i [[<- <-]|[Hne Hv]]%lookup_insert_Some; eauto.
  - intros v x p [[<- <-]|[Hne Hv]]%lookup_insert_Some Hx; [cbn in Hx; by simplify_eq|eauto].
  - intros f x Hx. destruct (inv_open0 f x Hx) as (y & j & n & lf & Hd & Hj & Hm & Hl & Hnf).
    destruct (decide (u_dentry x = u)) as [E|E].
    + rewrite E in *. simplify_eq. exists (d_set_private (Some (a, m)) d), j, n, lf. by rewrite lookup_insert_eq.
    + exists y, j, n, lf. by rewrite lookup_insert_ne.
Qed.

(** The dentry of a directory, over [a] with inode [i]. *)
Definition directory (w : world) (v a i : Z) : Prop :=
  exists d m x, dents w !! v = Some d /\ d_private d = Some (a, m) /\ l_dents (lo w) !! a = Some x /\ l_inode x = Some i.

(** The lower lookup: a reference to what was found. *)
Lemma wp_lookup_one_len e L b w name a G :
  inv sb e L b w ->
  wp (lookup_one_len name a) (fun r w' => dents w' = dents w /\ inodes w' = inodes w /\ files w' = files w /\ allocs w' = allocs w /\
    lower_step None [] (lo w) (lo w') /\
    match r with
    | inl _ => inv sb e L b w'
    | inr c => inv sb (xd_plus c 1 e) L b w' /\ is_Some (l_dents (lo w') !! c)
    end) G w.
Proof.
  intros Hinv. unfold lookup_one_len. run.
  destruct (lookup_step name a (lo w) (inv_lower _ _ _ _ _ Hinv)) as [Hw Hs].
  pose proof (lookup_found (sb := sb) name a (lo w)) as Hfound.
  assert (inv sb e L b (set_lo (lower_lookup name a (lo w)).2 w)) as I1 by (by eapply inv_lo).
  destruct ((lower_lookup name a (lo w)).1) as [er|c]; [by split_and!|].
  run. unfold dget, take_ref. run. split_and!; try done; [by apply inv_bump_d|]. by apply Hfound.
Qed.

(** There is memory for the private data of a dentry and for an inode. *)
Definition memory (w : world) : Prop := default true (head (allocs w)) = true /\ default true (head (tail (allocs w))) = true.

(** The lookup after the lower dentry [c] was found. *)
Lemma wp_lookup_found S e w u d c m G :
  nested_superblock S = sb -> inv sb (xm_plus m 1 (xd_plus c 1 e)) ∅ None w -> nonneg e -> memory w ->
  dents w !! u = Some d -> d_private d = None -> d_inode d = None -> is_Some (l_dents (lo w) !! c) ->
  wp (k ← gets d_count;
      if cnt k c =? 0 then fault else
      ok ← lookup_private u c m;
      if negb ok then lookup_out_dput u c (- ENOMEM) else
      ld ← ldent c;
      match l_inode ld with
      | None => d_add u None;; mret 0
      | Some _ =>
          rc ← ccfs_interpose S c u true;
          if negb (rc =? 0) then lookup_out_dput u c rc else mret rc
      end) (fun _ w' => inv sb e ∅ None w' /\ is_Some (dents w' !! u) /\ files w' = files w) G w.
Proof.
  intros HS Hinv He [Ha1 Ha2] Hu Hp Hn Hc. apply wp_bind. run.
  replace (cnt (d_count w) c =? 0) with false.
  2: { pose proof (cnt_lower _ _ _ _ c Hinv) as Hlow. cbn in Hlow. unfold plus in Hlow. rewrite Z.eqb_refl in Hlow.
       pose proof (mcount_nonneg (on_dent c) (dents w)). pose proof (proj1 He c). lia. }
  unfold lookup_private, alloc.
  apply wp_bind, wp_bind. run. rewrite Ha1. cbn [negb]. unfold upd_dent, dent. run. cbn [dents set_allocs]. rewrite Hu.
  pose proof (inv_set_private _ _ _ _ _ _ _ _ Hinv Hu Hp Hc) as I1. set (d1 := d_set_private (Some (c, m)) d) in *.
  set (w1 := set_dents _ (set_allocs _ _)).
  assert (inv sb e ∅ None w1) as I2 by (inv_fields I1).
  assert (dents w1 !! u = Some d1) as Hu1 by apply lookup_insert_eq.
  change (wp (ld ← ldent c; match l_inode ld with
      | None => d_add u None;; mret 0
      | Some _ => rc ← ccfs_interpose S c u true; if negb (rc =? 0) then lookup_out_dput u c rc else mret rc
      end) (fun _ w' => inv sb e ∅ None w' /\ is_Some (dents w' !! u) /\ files w' = files w) G w1).
  destruct Hc as [ld Hld]. apply wp_bind. eapply wp_ldent; [done|]. destruct (l_inode ld) as [li|] eqn:Eli.
  - wp_seq ltac:(eapply (wp_interpose sb S e ∅ w1 c u ld li d1 (c, m)); try done; apply He).
    intros rc w2 (I3 & G3 & Hrc). destruct (rc =? 0) eqn:Erc; cbn [negb].
    2: { destruct Hrc as [Hal _]. cbn [allocs w1 set_dents set_allocs] in Hal. congruence. }
    apply wp_ret. split_and!; [done|eapply grows_dent; [done|by eexists]|].
    by rewrite (g_files _ _ _ G3).
  - unfold d_add. apply wp_bind, wp_bind, wp_ret. eapply wp_upd_dent; [done|]. apply wp_ret.
    split_and!; [eapply inv_upd_dent; try done; by left|cbn; by rewrite lookup_insert_eq|done].
Qed.

Lemma wp_ccfs_lookup S e w dir u d parent a i G :
  nested_superblock S = sb -> inv sb e ∅ None w -> nonneg e -> memory w ->
  dents w !! u = Some d -> d_parent d = parent -> d_private d = None -> d_inode d = None ->
  is_Some (inodes w !! dir) -> directory w parent a i ->
  wp (ccfs_lookup S dir u) (fun _ w' => inv sb e ∅ None w' /\ is_Some (dents w' !! u) /\ files w' = files w) G w.
Proof.
  intros HS Hinv He Hmem Hu Hpa Hp Hn Hdir (pd & m & x & Hpar & Hpp & Hx & Hi).
  assert (forall (rc : Z) w1, inv sb e ∅ None w1 -> dents w1 = dents w -> files w1 = files w ->
    wp (d_drop u;; mret rc) (fun _ w' => inv sb e ∅ None w' /\ is_Some (dents w' !! u) /\ files w' = files w) G w1) as Hdrop.
  { intros rc w1 I1 D1 F1. wp_seq ltac:(eapply wp_d_drop; [exact I1|rewrite D1; by eexists]). intros _ w2 (I2 & G2 & _). apply wp_ret.
    split_and!; [done|eapply grows_dent; [done|rewrite D1; by eexists]|by rewrite (g_files _ _ _ G2)]. }
  unfold ccfs_lookup. apply wp_bind. eapply wp_dent; [done|]. rewrite Hpa. apply wp_bind. eapply wp_nested_dentry; [done|done|].
  cbn [fst]. destruct (_ || _); [by apply Hdrop|].
  apply wp_bind. eapply wp_linode_of; [done|done|].
  wp_seq ltac:(eapply wp_lock; [exact Hinv|set_solver]). intros _ w1 [I1 S1].
  wp_seq ltac:(by eapply wp_lookup_one_len). intros r w2 (D2 & J2 & F2 & A2 & L2 & Hr). rewrite (s_allocs _ _ S1) in A2.
  rewrite (s_dents _ _ S1) in D2. rewrite (s_inodes _ _ S1) in J2. rewrite (s_files _ _ S1) in F2. rewrite (s_lo _ _ S1) in L2.
  destruct r as [er|c].
  - wp_seq ltac:(eapply wp_unlock; [exact Hr|set_solver]). intros _ w3 [I3 S3].
    apply Hdrop; [done|by rewrite (s_dents _ _ S3)|by rewrite (s_files _ _ S3)].
  - destruct Hr as [I2 Hc]. wp_seq ltac:(eapply wp_unlock; [exact I2|set_solver]). intros _ w3 [I3 S3].
    apply wp_bind. eapply wp_nested_mnt; [by rewrite (s_dents _ _ S3), D2|done|]. cbn [snd].
    wp_seq ltac:(by eapply wp_mntget). intros _ w4 [I4 S4].
    assert (same w2 w4) as S24 by (by eapply same_trans).
    destruct (proj1 L2 a x Hx) as (x2 & Hx2 & _ & Ex2).
    apply wp_bind. eapply wp_linode_of; [by rewrite (s_lo _ _ S24)|rewrite Ex2; [done|set_solver]|].
    assert (is_Some (l_inodes (lo w4) !! i)) as Hli.
    { rewrite (s_lo _ _ S24). apply (proj2 L2). destruct (inv_lower _ _ _ _ _ Hinv a x Hx) as [_ Hnn].
      destruct (Hnn i Hi) as (? & ? & _). eauto. }
    wp_seq ltac:(eapply wp_copy; [exact I4|by rewrite (s_inodes _ _ S24), J2|done|done]). intros _ w5 [I5 Q5].
    eapply wp_mono; [eapply (wp_lookup_found S e w5 u d c m); try done| |done].
    + unfold memory. by rewrite (q_allocs _ _ Q5), (s_allocs _ _ S24), A2.
    + by rewrite (q_dents _ _ Q5), (s_dents _ _ S24), D2.
    + by rewrite (q_lo _ _ Q5), (s_lo _ _ S24).
    + intros r w6 (I6 & Hu6 & F6). split_and!; [done|done|]. by rewrite F6, (q_files _ _ Q5), (s_files _ _ S24), F2.
Qed.

Lemma wp_lookup S e w dir u parent name a i G :
  nested_superblock S = sb -> inv sb e ∅ None w -> nonneg e -> memory w -> dents w !! u = None -> is_Some (inodes w !! dir) ->
  directory w parent a i ->
  wp (vfs_lookup S dir u parent name) (fun _ w' => inv sb e ∅ None w') G w.
Proof.
  intros HS Hinv He Hmem Hu Hdir (pd & m & x & Hpar & Hpp & Hx & Hi). assert (parent <> u) as Hne by congruence.
  assert (unopened w u) as Hno.
  { intros f y Hy. destruct (inv_open _ _ _ _ _ Hinv f y Hy) as (? & ? & ? & ? & Hd & _). congruence. }
  unfold vfs_lookup. apply wp_bind. unfold gets, wp at 1. apply wp_bind. unfold modify, wp at 1.
  apply (inv_new_dent _ _ _ _ u name parent) in Hinv; [|done]. set (w0 := set_dents _ w) in *.
  wp_seq ltac:(eapply (wp_ccfs_lookup S e w0 dir u _ parent a i); try done; [apply lookup_insert_eq|done|done|done|]).
  { exists pd, m, x. split_and!; try done. cbn. by rewrite lookup_insert_ne. }
  intros rc w1 (I1 & [d1 Hu1] & F1).
  eapply wp_bind, wp_mono with (Q := fun _ w' => inv sb e ∅ None w'); [| |done]; cbv beta; [|by intros; apply wp_ret].
  apply wp_when; [intros _|done]. eapply wp_kill_dentry; [done|done|done|]. intros f y Hy. apply (Hno f y). by rewrite F1 in Hy.
Qed.
End lookup.
