(* ===== verification/CcfsRun.v ===== *)
(** Every sequence of operations of the caching file system keeps its references exact; what goes
    wrong outside of what the theorem asks for: renames between directories and lower files that
    cannot be opened; and what the cached attributes and link texts are good for. *)

From stdpp Require Import gmap.
From S2P Require Import Prelude Effect CcfsFilter Ccfs CcfsRefs CcfsDir CcfsLife.

Section attributes.
Context `{LL : LowerFsLaws}.
Implicit Types (e : ext) (L : gset Z) (b : option Z) (w : world) (G : stop -> world -> Prop).

(** An upper dentry with inode [j], over [a] with inode [i]. *)
Definition over (w : world) (u j a i : Z) : Prop :=
  exists d m x, dents w !! u = Some d /\ d_private d = Some (a, m) /\ d_inode d = Some j /\
    l_dents (lo w) !! a = Some x /\ l_inode x = Some i.

Lemma wp_alloc e L b w G : inv sb e L b w -> wp alloc (fun _ w' => inv sb e L b w' /\ kept w w') G w.
Proof. intros Hinv. unfold alloc. run. split; [|done]. inv_fields Hinv. Qed.

Lemma lower_inode e L b w a x i : inv sb e L b w -> l_dents (lo w) !! a = Some x -> l_inode x = Some i -> is_Some (l_inodes (lo w) !! i).
Proof. intros Hinv Hx Hi. destruct (inv_lower _ _ _ _ _ Hinv a x Hx) as [_ Hn]. destruct (Hn i Hi) as (? & ? & _). eauto. Qed.

Lemma wp_getattr e w u j a i G :
  inv sb e ∅ None w -> over w u j a i -> wp (ccfs_getattr u) (fun _ w' => inv sb e ∅ None w') G w.
Proof.
  intros Hinv (d & m & x & Hu & Hp & Hj & Hx & Hi). destruct (inv_dent _ _ _ _ _ Hinv u d j Hu Hj) as [n Hn].
  unfold ccfs_getattr. apply wp_bind. eapply wp_dent; [done|]. rewrite Hj. apply wp_bind, wp_ret, wp_bind.
  eapply wp_ino; [done|]. apply wp_bind. eapply wp_nested_mnt; [done|done|]. apply wp_bind.
  eapply wp_nested_dentry; [done|done|]. cbn [fst]. destruct (stat n); [by apply wp_ret|].
  apply wp_bind. eapply wp_linode_of; [done|done|]. wp_seq ltac:(eapply wp_lock; [exact Hinv|set_solver]). intros _ w1 [I1 S1].
  apply wp_bind. unfold gets, wp at 1. apply wp_bind. eapply wp_linode_of; [by rewrite (s_lo _ _ S1)|done|].
  wp_seq ltac:(eapply wp_unlock; [exact I1|set_solver]). intros _ w2 [I2 S2].
  assert (same w w2) as S02 by (by eapply same_trans).
  eapply wp_bind, wp_mono with (Q := fun _ w' => inv sb e ∅ None w'); [| |done]; cbv beta; [|by intros; apply wp_ret].
  destruct (_ && _); [|by apply wp_ret]. wp_seq ltac:(by eapply wp_alloc). intros [] w3 (I3 & (_ & _ & _ & E3)); [|by apply wp_ret].
  eapply wp_mono; [eapply wp_quiet_upd; [exact I3|rewrite E3, (s_inodes _ _ S02); by eexists|done]| |done].
  by intros _ w' [? _].
Qed.

Lemma wp_readlink e w copy_ok u j a i bufsiz G :
  inv sb e ∅ None w -> over w u j a i -> wp (ccfs_readlink copy_ok u bufsiz) (fun _ w' => inv sb e ∅ None w') G w.
Proof.
  intros Hinv (d & m & x & Hu & Hp & Hj & Hx & Hi). destruct (inv_dent _ _ _ _ _ Hinv u d j Hu Hj) as [n Hn].
  pose proof (lower_inode _ _ _ _ _ _ _ Hinv Hx Hi) as Hli.
  assert (forall w1 (m : M (Z * list Z)), inv sb e ∅ None w1 -> lo w1 = lo w -> is_Some (inodes w1 !! j) ->
    (forall w2, inv sb e ∅ None w2 -> wp m (fun _ w' => inv sb e ∅ None w') G w2) ->
    wp (fsstack_copy_attr_atime j i;; m) (fun _ w' => inv sb e ∅ None w') G w1) as Hatime.
  { intros w1 k I1 E1 Hj1 Hk. wp_seq ltac:(eapply wp_copy; [exact I1|done|by rewrite E1|done]).
    intros _ w2 [I2 _]. by apply Hk. }
  unfold ccfs_readlink. apply wp_bind. eapply wp_dent; [done|]. rewrite Hj. apply wp_bind, wp_ret, wp_bind.
  eapply wp_ino; [done|]. apply wp_bind. eapply wp_nested_dentry; [done|done|]. cbn [fst].
  apply wp_bind. eapply wp_linode_of; [done|done|]. apply wp_bind. unfold gets, wp at 1.
  destruct (readlink _ _ _) as [[rc buf]|]; [|by apply wp_ret]. destruct (link n).
  - apply Hatime; [done|done|by eexists|]. intros w2 I2. destruct copy_ok; by apply wp_ret.
  - wp_seq ltac:(by eapply wp_alloc). intros [] w1 (I1 & (El1 & _ & _ & Ei1)); [|by apply wp_ret].
    cbn [negb]. destruct (rc <? 0); [by apply wp_ret|].
    wp_seq ltac:(by eapply wp_alloc). intros ok w2 (I2 & (El2 & _ & _ & Ei2)).
    assert (is_Some (inodes w2 !! j)) as Hj2 by (rewrite Ei2, Ei1; by eexists).
    eapply wp_bind, wp_mono with (Q := fun _ w' => inv sb e ∅ None w' /\ lo w' = lo w /\ is_Some (inodes w' !! j)); [| |done]; cbv beta.
    { apply wp_when; [intros _|intros _; split_and!; [done|congruence|done]].
      eapply wp_mono; [by eapply wp_quiet_upd| |done]. intros _ w3 [I3 Q3].
      split_and!; [done|rewrite (q_lo _ _ Q3); congruence|by eapply quiet_some]. }
    intros _ w3 (I3 & E3 & Hj3). apply Hatime; [done|done|done|]. intros w4 I4. destruct copy_ok; by apply wp_ret.
Qed.

Lemma wp_truncate e w u j a i n len G :
  inv sb e ∅ None w -> over w u j a i -> inodes w !! j = Some n ->
  wp (ccfs_truncate u len) (fun rc w' => inv sb e ∅ None w' /\
    exists n', inodes w' !! j = Some n' /\ nested_inode n' = nested_inode n) G w.
Proof.
  intros Hinv (d & m & x & Hu & Hp & Hj & Hx & Hi) Hn.
  unfold ccfs_truncate. apply wp_bind. eapply wp_dent; [done|]. rewrite Hj. apply wp_bind, wp_ret, wp_bind.
  eapply wp_ino; [done|]. destruct (_ =? _); [apply wp_ret; eauto|]. apply wp_bind. eapply wp_nested_dentry; [done|done|]. cbn [fst].
  wp_seq ltac:(eapply wp_quiet_upd; [exact Hinv|by eexists|done]). intros _ w1 [I1 Q1].
  apply wp_bind. eapply wp_linode_of; [by rewrite (q_lo _ _ Q1)|done|].
  wp_seq ltac:(by eapply wp_do_vfs). intros rc w2 (I2 & D2 & J2 & _). apply wp_ret. split; [done|].
  rewrite J2. destruct (q_inodes _ _ Q1 j n Hn) as (n' & ? & ? & _). eauto.
Qed.

Lemma wp_setattr e w u j a i ia G :
  inv sb e ∅ None w -> over w u j a i -> wp (ccfs_setattr u ia) (fun _ w' => inv sb e ∅ None w') G w.
Proof.
  intros Hinv Hov. pose proof Hov as (d & m & x & Hu & Hp & Hj & Hx & Hi). destruct (inv_dent _ _ _ _ _ Hinv u d j Hu Hj) as [n Hn].
  unfold ccfs_setattr. apply wp_bind. eapply wp_dent; [done|]. rewrite Hj. apply wp_bind, wp_ret.
  unfold ccfs_get_nested_inode. apply wp_bind, wp_bind. eapply wp_ino; [done|]. apply wp_ret, wp_bind.
  eapply wp_nested_dentry; [done|done|]. cbn [fst]. cbv zeta.
  set (kept := fun w' => inv sb e ∅ None w' /\ exists n', inodes w' !! j = Some n' /\ nested_inode n' = nested_inode n).
  eapply wp_bind, wp_mono with (Q := fun _ => kept); [| |done]; cbv beta.
  { destruct (negb _); [by eapply wp_truncate|]. apply wp_ret. split; eauto. }
  intros rc w1 K1. eapply wp_bind, wp_mono with (Q := fun _ => kept); [| |done]; cbv beta.
  { destruct K1 as [I1 (n1 & Hn1 & En1)]. destruct (_ && _); [apply wp_ret; split; eauto|].
    eapply wp_mono; [by eapply wp_do_vfs| |done]. intros r w2 (I2 & D2 & J2 & _). split; [done|]. rewrite J2. eauto. }
  intros rc' w2 [I2 (n2 & Hn2 & En2)].
  wp_seq ltac:(eapply wp_copy; [exact I2|by eexists|rewrite <- En2; by eapply (inv_nested _ _ _ _ _ I2)|done]).
  intros _ w3 [I3 _]. by apply wp_ret.
Qed.

(** A file is opened over the lower file of its inode. *)
Lemma wp_open e w f u d j G :
  inv sb e ∅ None w -> files w !! f = None -> dents w !! u = Some d -> d_inode d = Some j ->
  wp (ccfs_open f u) (fun _ w' => inv sb e ∅ None w') G w.
Proof.
  intros Hinv Hf Hu Hj. destruct (inv_dent _ _ _ _ _ Hinv u d j Hu Hj) as [n Hn].
  unfold ccfs_open. apply wp_bind. eapply wp_dent; [done|]. rewrite Hj. apply wp_bind, wp_ret.
  wp_seq ltac:(by eapply wp_alloc). intros [] w1 (I1 & (_ & Ed1 & _ & Ei1)); [|by apply wp_ret]. cbn [negb]. apply wp_bind.
  eapply wp_ino; [by rewrite Ei1|]. destruct (lower_file n) as [lf|] eqn:El; [|by apply wp_ret].
  run. rewrite <- Ed1 in Hu. rewrite <- Ei1 in Hn. inv_fields I1.
  intros g x [[<- <-]|[Hne Hg]]%lookup_insert_Some; [|eauto]. exists d, j, n, lf. by repeat split.
Qed.

Lemma wp_ccfs_release e w f G :
  inv sb e ∅ None w -> is_Some (files w !! f) -> wp (ccfs_release f) (fun _ w' => inv sb e ∅ None w') G w.
Proof.
  intros Hinv [x Hf]. unfold ccfs_release. run. rewrite Hf. inv_fields Hinv. intros g y [_ Hg]%lookup_delete_Some. eauto.
Qed.
End attributes.

(** ** Sequences of operations *)

(** What the kernel calls, with the upper objects. *)
Inductive op :=
| Lookup (dir u parent : Z) (name : list Z)
| Create (dir u mode : Z)
| Link (old dir u : Z)
| Unlink (dir u : Z)
| Symlink (dir u : Z) (symname : list Z)
| Mkdir (dir u mode : Z)
| Mknod (dir u mode dev : Z)
| Rmdir (dir u : Z)
| Rename (old_dir ou new_dir nu : Z)
| Getattr (u : Z)
| Setattr (u : Z) (ia : iattr)
| Readlink (copy_ok : bool) (u bufsiz : Z)
| Open (f u : Z)
| Release (f : Z)
| Kill (u : Z).

Section run.
Context `{LL : LowerFsLaws} (S : ccfs_super).

Definition exec (o : op) : M unit :=
  match o with
  | Lookup dir u parent name => vfs_lookup S dir u parent name;; mret tt
  | Create dir u mode => ccfs_create S dir u mode;; mret tt
  | Link old dir u => ccfs_link S old dir u;; mret tt
  | Unlink dir u => ccfs_unlink dir u;; mret tt
  | Symlink dir u symname => ccfs_symlink S dir u symname;; mret tt
  | Mkdir dir u mode => ccfs_mkdir S dir u mode;; mret tt
  | Mknod dir u mode dev => ccfs_mknod S dir u mode dev;; mret tt
  | Rmdir dir u => ccfs_rmdir dir u;; mret tt
  | Rename old_dir ou new_dir nu => ccfs_rename old_dir ou new_dir nu;; mret tt
  | Getattr u => ccfs_getattr u;; mret tt
  | Setattr u ia => ccfs_setattr u ia;; mret tt
  | Readlink copy_ok u bufsiz => ccfs_readlink copy_ok u bufsiz;; mret tt
  | Open f u => ccfs_open f u;; mret tt
  | Release f => ccfs_release f;; mret tt
  | Kill u => kill_dentry u
  end.

(** When the kernel makes the call, and what the theorem asks for: memory and a new dentry for a lookup in a directory, a dentry without an
    inode to make something at, one with an inode for the others, one directory for both names of a
    rename, no open file on a dentry that goes. *)
Definition may (w : world) (o : op) : Prop :=
  match o with
  | Lookup dir u parent _ => memory w /\ dents w !! u = None /\ is_Some (inodes w !! dir) /\ exists a i, directory w parent a i
  | Create dir u _ | Symlink dir u _ | Mkdir dir u _ | Mknod dir u _ _ => exists a p i, negative_in w dir u a p i
  | Link old dir u => (exists a p i, negative_in w dir u a p i) /\ (exists j ao d m, dents w !! old = Some d /\ d_private d = Some (ao, m) /\ d_inode d = Some j)
  | Unlink dir u | Rmdir dir u => exists j a p i, positive_in w dir u j a p i
  | Rename old_dir ou new_dir nu => exists ao an p i, rename_ok w old_dir ou new_dir nu ao an p p i i
  | Getattr u | Setattr u _ | Readlink _ u _ => exists j a i, over w u j a i
  | Open f u => files w !! f = None /\ exists d j, dents w !! u = Some d /\ d_inode d = Some j
  | Release f => is_Some (files w !! f)
  | Kill u => is_Some (dents w !! u) /\ unopened w u
  end.

Lemma wp_done {A} (m : M A) e G w :
  wp m (fun _ w' => inv sb e ∅ None w') G w -> wp (m;; mret tt) (fun _ w' => inv sb e ∅ None w') G w.
Proof. intros Hm. apply wp_bind. eapply wp_mono; [exact Hm| |done]. intros a w' Hw. by apply wp_ret. Qed.

Lemma wp_exec e w o :
  nested_superblock S = sb -> inv sb e ∅ None w -> nonneg e -> may w o ->
  wp (exec o) (fun _ w' => inv sb e ∅ None w') (fun _ _ => False) w.
Proof.
  intros HS Hinv He Hmay. destruct o; cbn [exec may] in *; try apply wp_done.
  - destruct Hmay as (? & ? & ? & a & i & ?). by eapply wp_lookup.
  - destruct Hmay as (a & p & i & ?). by eapply wp_create.
  - destruct Hmay as [(a & p & i & ?) (j & ao & ?)]. by eapply wp_link.
  - destruct Hmay as (j & a & p & i & ?). by eapply wp_unlink.
  - destruct Hmay as (a & p & i & ?). by eapply wp_symlink.
  - destruct Hmay as (a & p & i & ?). by eapply wp_mkdir.
  - destruct Hmay as (a & p & i & ?). by eapply wp_mknod.
  - destruct Hmay as (j & a & p & i & ?). by eapply wp_rmdir.
  - destruct Hmay as (ao & an & p & i & ?). eapply wp_mono with (G := fun _ _ => False); [by eapply wp_rename| |done].
    intros rc w' I'. eapply inv_ext; [exact I'|..]; intros c; unfold renamed; destruct (rc =? 0); cbn; unfold plus;
      try case_goal; lia.
  - destruct Hmay as (j & a & i & ?). by eapply wp_getattr.
  - destruct Hmay as (j & a & i & ?). by eapply wp_setattr.
  - destruct Hmay as (j & a & i & ?). by eapply wp_readlink.
  - destruct Hmay as (? & d & j & ? & ?). by eapply wp_open.
  - by apply wp_ccfs_release.
  - destruct Hmay as ([d ?] & ?). by eapply wp_kill_dentry.
Qed.

(** A call that returns. *)
Inductive calls : world -> world -> Prop :=
| calls_exec w o w' : may w o -> exec o w = Ret tt w' -> calls w w'.

(** What the invariant says of a state between operations. *)
Definition exact_refs (e : ext) (w : world) : Prop :=
  (forall a, cnt (d_count w) a = xd e a + mcount (on_dent a) (dents w) + mcount (file_on a) (lfiles w)) /\
  (forall a, cnt (mnt_count w) a = xm e a + mcount (on_mnt a) (dents w) + mcount (file_mnt a) (lfiles w)) /\
  (forall i, cnt (i_count w) i = xi e i + mcount (nests i) (inodes w)) /\
  locked w = ∅ /\
  (forall f, is_Some (files w !! f) -> exists x, ccfs_get_nested_file f w = Ret x w).

Lemma inv_exact e w : inv sb e ∅ None w -> exact_refs e w.
Proof.
  intros Hinv. split_and!; try apply Hinv. intros f [x Hf].
  destruct (inv_open _ _ _ _ _ Hinv f x Hf) as (d & i & n & lf & _ & _ & Hn & Hl & Hnf).
  destruct (inv_file _ _ _ _ _ Hinv i n lf Hn Hl) as [y Hy]. exists y. unfold ccfs_get_nested_file. run. by rewrite Hf, Hnf, Hy.
Qed.

(** C17: Through any sequence of operations of the caching file system -- lookups, creations, links,
    removals, renames within a directory, attribute and link reads, opens, releases, and dentries
    that go -- whatever the calls of the lower file system return, every lower dentry, mount and inode has
    exactly the references of the upper dentries, lower files and inodes that hold it, no mutex is
    left taken, the lower file of every open file is there, and the next operation returns.  Allocations
    may fail, except in a lookup ([memory]), and so may the first open of a lower file, but not its
    second, for reading ([answers_ok]): a lookup for which one of these fails loses or puts twice a
    reference, and so does a rename to another directory, which [may] excludes. *)
Theorem ccfs_refs_exact e w0 w :
  nested_superblock S = sb -> nonneg e -> inv sb e ∅ None w0 -> star calls w0 w ->
  exact_refs e w /\ forall o, may w o -> exists w', exec o w = Ret tt w' /\ exact_refs e w'.
Proof.
  intros HS He H0 Hs. assert (inv sb e ∅ None w) as Hinv.
  { apply (star_invariant calls (inv sb e ∅ None)) with w0; [|done|done]. intros w1 w2 I1 Hc.
    revert I1. destruct Hc as [w1 o w2 Hm Hx]. intros I1. pose proof (wp_exec e w1 o HS I1 He Hm) as Hwp. unfold wp in Hwp. by rewrite Hx in Hwp. }
  split; [by apply inv_exact|]. intros o Hm. pose proof (wp_exec e w o HS Hinv He Hm) as Hwp. unfold wp in Hwp.
  destruct (exec o w) as [[] w'| |]; [|done|done]. exists w'. split; [done|by apply inv_exact].
Qed.

(** A rename to another directory that succeeds leaves the old directory with a reference too many
    and the new one with a reference too few. *)
Theorem rename_across_unbalanced e w old_dir ou new_dir nu ao an po pn io i_n w' :
  inv sb e ∅ None w -> nonneg e -> rename_ok w old_dir ou new_dir nu ao an po pn io i_n -> po <> pn ->
  ccfs_rename old_dir ou new_dir nu w = Ret 0 w' ->
  cnt (d_count w') po = xd e po + 1 + mcount (on_dent po) (dents w') + mcount (file_on po) (lfiles w') /\
  cnt (d_count w') pn = xd e pn - 1 + mcount (on_dent pn) (dents w') + mcount (file_on pn) (lfiles w').
Proof.
  intros Hinv He Hr Hne Hx. pose proof (wp_rename e w old_dir ou new_dir nu ao an po pn io i_n (fun _ _ => False) Hinv He Hr) as Hwp.
  unfold wp in Hwp. rewrite Hx in Hwp. rewrite !(inv_d _ _ _ _ _ Hwp). cbn. unfold plus.
  rewrite !Z.eqb_refl. replace (po =? pn) with false by lia. replace (pn =? po) with false by lia. lia.
Qed.
End run.

(** ** An example *)

(** A lower file system in which a file can be made, with inode 20, and nothing else changes; a
    lookup of the name of one byte [c] finds dentry [c]. *)
Module Example.
Definition file_inode : linode := mk_linode (mk_attrs 33188 0 0 0 (mk_timespec 0 0) (mk_timespec 0 0) (mk_timespec 0 0) 12 0 1) 5 20 7 false.
Definition dir_inode : linode := mk_linode (mk_attrs 16877 0 0 0 (mk_timespec 0 0) (mk_timespec 0 0) (mk_timespec 0 0) 12 0 2) 0 10 7 false.

Definition make (d : Z) (l : lower_fs) : Z * lower_fs :=
  match l_dents l !! d, l_inodes l !! 20 with
  | Some x, Some n =>
      if negb (l_freeing n) && (l_sb n =? 7) then (0, mk_lower (<[d := mk_ldentry (l_parent x) (Some 20) (l_hashed x)]> (l_dents l)) (l_inodes l))
      else (-5, l)
  | _, _ => (-5, l)
  end.
#[export] Instance small_fs : LowerFs := {|
  vfs := fun c _ l => match c with Vcreate _ d _ => make d l | _ => (-30, l) end;
  lower_lookup := fun name _ l =>
    match name with
    | [c] => match l_dents l !! c with Some _ => (inr c, l) | None => (inl (-2), l) end
    | _ => (inl (-2), l)
    end;
  vfs_getattr := fun a l => (0, mk_kstat zero_attrs 0);
  readlink := fun _ _ _ => None;
  xattr := fun _ _ _ => None;
  d_revalidate := fun _ _ => None;
  inode_permission := fun _ _ _ => 0
|}.

Lemma lower_step_refl mv subs l : lower_step mv subs l l.
Proof. split; [|done]. intros a d Ha. exists d. done. Qed.

Lemma make_step d l : lower_wf 7 l -> lower_wf 7 (make d l).2 /\ lower_step None [d] l (make d l).2.
Proof.
  intros Hw. unfold make. destruct (l_dents l !! d) as [x|] eqn:Ed; [|split; [done|apply lower_step_refl]].
  destruct (l_inodes l !! 20) as [n|] eqn:En; [|split; [done|apply lower_step_refl]].
  destruct (_ && _) eqn:Ef; [|split; [done|apply lower_step_refl]]. bool_hyps. simpl. split.
  - intros a y. cbn. intros [[<- <-]|[Hne Ha]]%lookup_insert_Some; cbn.
    + destruct (Hw _ _ Ed) as [(p & i & Hp & Hi) _]. split.
      * destruct (decide (l_parent x = d)) as [->|]; [eexists _, _; rewrite lookup_insert_eq; done|].
        exists p, i. by rewrite lookup_insert_ne.
      * intros i' [= <-]. exists n. done.
    + destruct (Hw _ _ Ha) as [(p & i & Hp & Hi) Hn]. split; [|done].
      destruct (decide (l_parent y = d)) as [->|]; [eexists _, _; rewrite lookup_insert_eq; done|].
      exists p, i. by rewrite lookup_insert_ne.
  - split; [|done]. cbn. intros a y Ha. destruct (decide (a = d)) as [->|Hne].
    + rewrite lookup_insert_eq. simplify_eq. eexists. split_and!; [done|done|set_solver].
    + rewrite lookup_insert_ne by done. eauto.
Qed.

#[export] Instance small_fs_laws : LowerFsLaws small_fs 7.
Proof.
  split; cbn.
  - intros c k l Hw. destruct c; try (split; [done|apply lower_step_refl]). by apply make_step.
  - intros dir d mode k l x. unfold make. destruct (l_dents l !! d) as [y|] eqn:Ed; [|done].
    destruct (l_inodes l !! 20); [|done]. destruct (_ && _); [|done]. cbn. intros _. rewrite lookup_insert_eq. by intros [= <-].
  - intros. apply lower_step_refl.
  - done.
  - intros name a l Hw. destruct name as [|c [|]]; try (split; [done|apply lower_step_refl]).
    destruct (l_dents l !! c); (split; [done|apply lower_step_refl]).
  - intros name a l b. destruct name as [|c [|]]; try done. destruct (l_dents l !! c) eqn:E; [|done].
    intros [= <-]. cbn. by rewrite E.
  - done.
Qed.

(** The root of the mount, dentry 100 over dentry 1, and a lower dentry 97 without inode. *)
Definition sb7 : ccfs_super := mk_super 7 false None.
Definition lower0 : lower_fs :=
  mk_lower (<[1 := mk_ldentry 1 (Some 10) true]> (<[97 := mk_ldentry 1 None true]> ∅)) (<[10 := dir_inode]> (<[20 := file_inode]> ∅)).
Definition root_inode : inode := mk_inode 10 (Some 102) false true None None (l_attrs dir_inode) 0 10 1 ccfs_dir_iops ccfs_dir_fops false.
Definition world0 : world :=
  mk_world lower0 (<[1 := 2]> ∅) (<[10 := 1]> ∅) (<[5 := 2]> ∅) ∅ (<[100 := mk_dentry [47] 100 (Some 101) true (Some (1, 5))]> ∅)
    (<[101 := root_inode]> ∅) (<[102 := mk_lfile 1 5 false]> ∅) ∅ 200 [] [].
Definition nobody : ext := mk_ext (fun _ => 0) (fun _ => 0) (fun _ => 0).

Lemma mcount_empty {A} (P : A -> bool) : mcount P ∅ = 0.
Proof. done. Qed.

Lemma world0_inv : inv 7 nobody ∅ None world0.
Proof.
  assert (forall (m : Z) a n, cnt (<[m := n]> ∅) a = if m =? a then n else 0) as Hcnt.
  { intros m a n. unfold cnt. destruct (Z.eqb_spec m a) as [->|]; [by rewrite lookup_insert_eq|by rewrite lookup_insert_ne]. }
  constructor; cbn -[cnt mcount insert lookup]; try done.
  - intros a. rewrite Hcnt, !mcount_new, !mcount_empty by done. unfold on_dent, file_on. cbn -[Z.eqb]. destruct (1 =? a); done.
  - intros a. rewrite Hcnt, !mcount_new, !mcount_empty by done. unfold on_mnt, file_mnt. cbn -[Z.eqb]. destruct (5 =? a); done.
  - intros a. rewrite Hcnt, !mcount_new, !mcount_empty by done. unfold nests. cbn -[Z.eqb]. destruct (10 =? a); done.
  - intros u d i [[<- <-]|[_ ?]]%lookup_insert_Some; [|done]. intros [= <-]. done.
  - intros u d p [[<- <-]|[_ ?]]%lookup_insert_Some; [|done]. intros [= <-]. done.
  - intros i n [[<- <-]|[_ ?]]%lookup_insert_Some; done.
  - intros i n [[<- <-]|[_ ?]]%lookup_insert_Some; done.
  - intros i n f [[<- <-]|[_ ?]]%lookup_insert_Some; [|done]. intros [= <-]. done.
  - intros i j n m f [[<- <-]|[_ ?]]%lookup_insert_Some [[<- <-]|[_ ?]]%lookup_insert_Some; done.
  - intros f x [[<- <-]|[_ ?]]%lookup_insert_Some; done.
  - intros i [n [[<- _]|[_ ?]]%lookup_insert_Some]; done.
  - intros i [n [[<- _]|[_ ?]]%lookup_insert_Some]; done.
  - intros a d. unfold lower0 at 1. cbn [l_dents].
    intros [[<- <-]|[_ [[<- <-]|[_ ?]]%lookup_insert_Some]]%lookup_insert_Some; [..|done]; (split; [by eexists _, _|]);
      intros i [= <-]; by eexists.
  - constructor.
Qed.

(** The states after a lookup of the name [a], the creation of the file and its opening. *)
Definition result (o : op) (w : world) : world := match exec sb7 o w with Ret _ w' => w' | _ => w end.
Definition lookup_a : op := Lookup 101 300 100 [97].
Definition create_a : op := Create 101 300 420.
Definition open_a : op := Open 400 300.
Definition world1 : world := Eval vm_compute in result lookup_a world0.
Definition world2 : world := Eval vm_compute in result create_a world1.

Lemma world2_reached : star (calls sb7) world0 world2.
Proof.
  eapply star_step; [eapply star_step; [apply star_refl|]|].
  - apply (calls_exec _ world0 lookup_a world1); [|vm_compute; reflexivity].
    split; [done|]. split; [done|]. split; [by eexists|]. exists 1, 10. eexists _, _, _. done.
  - apply (calls_exec _ world1 create_a world2); [|vm_compute; reflexivity].
    exists 97, 1, 10. split; [by eexists|]. split; [eexists _, _; done|]. split; [done|]. eexists _, _. done.
Qed.

Lemma ccfs_refs_exact_witness :
  exact_refs nobody world2 /\ exists w', exec sb7 open_a world2 = Ret tt w' /\ exact_refs nobody w'.
Proof.
  destruct (ccfs_refs_exact sb7 nobody world0 world2 eq_refl ltac:(by split_and!) world0_inv world2_reached) as [He Hnext].
  split; [exact He|]. apply Hnext. split; [done|]. eexists _, _. done.
Defined.

(** A file that can only be opened for reading is looked up and used. *)
Lemma read_only_lookup :
  exists w', vfs_lookup sb7 101 300 100 [97] (set_opens [-30] (set_lo (make 97 lower0).2 world0)) = Ret 0 w' /\
    cnt (d_count w') 97 = 2.
Proof. eexists. split; [vm_compute; reflexivity|]. vm_compute. reflexivity. Qed.

(** A lookup without memory for the inode: the lower dentry is put twice. *)
Lemma failed_alloc_puts_twice :
  vfs_lookup sb7 101 300 100 [97] (set_allocs [true; false] (set_lo (make 97 lower0).2 world0)) = Fault.
Proof. vm_compute. reflexivity. Qed.

(** A lookup of a file that cannot be opened: the lower dentry is put twice. *)
Lemma failed_open_puts_twice :
  vfs_lookup sb7 101 300 100 [97] (set_opens [-13; -13] (set_lo (make 97 lower0).2 world0)) = Fault.
Proof. vm_compute. reflexivity. Qed.
End Example.

(** ** What is cached of an inode

    The attributes and the text of a link are cached, and neither is ever refreshed. *)

Section cache.
Context `{LowerFs}.

(** Upper dentry [u] with inode [j], over [a] with inode [i]. *)
Definition sees (w : world) (u j a i : Z) (n : inode) : Prop :=
  exists d m x ln, dents w !! u = Some d /\ d_private d = Some (a, m) /\ d_inode d = Some j /\ inodes w !! j = Some n /\
    l_dents (lo w) !! a = Some x /\ l_inode x = Some i /\ l_inodes (lo w) !! i = Some ln.

Ltac look Hs := destruct Hs as (d & m & x & ln & Hu & Hp & Hj & Hn & Hx & Hi & Hl).
Ltac go := unfold upd_ino; unfold linode_of, ccfs_get_nested_dentry, ccfs_dentry_to_nested_mnt, ccfs_get_nested_inode, dent, ino, ldent, lino,
  alloc; run.
Ltac sim Hu Hp Hj Hn Hx Hi Hl :=
  repeat (progress (rewrite ?Hu, ?Hp, ?Hj, ?Hn, ?Hx, ?Hi, ?Hl; cbn -[insert lookup strlen ztake zlen Z.ltb])).

(** The bytes of a link text are not NUL. *)
Lemma strlen_text t : Forall (fun c => c <> 0) t -> strlen t = zlen t.
Proof.
  induction 1 as [|c t Hc _ IH]; [done|]. cbn [strlen]. rewrite zlen_cons, <- IH. by replace (c =? 0) with false by lia.
Qed.

(** A text that is cached is copied whole, whatever the size of the buffer. *)
Lemma readlink_cached w u j a i n t r bufsiz :
  sees w u j a i n -> link n = Some t -> Forall (fun c => c <> 0) t -> readlink i bufsiz (lo w) = Some r ->
  exists w', ccfs_readlink true u bufsiz w = Ret (zlen t, t) w'.
Proof.
  intros Hs Ht Hnul Hr. look Hs. unfold ccfs_readlink, fsstack_copy_attr_atime. go. sim Hu Hp Hj Hn Hx Hi Hl.
  rewrite Hr, Ht. destruct r as [rc buf]. sim Hu Hp Hj Hn Hx Hi Hl. rewrite strlen_text, ztake_all by done. by eexists.
Qed.

(** The first [readlink] decides what every later one returns: a buffer that was too small for the
    text truncates it for all, and one that is too small later is overrun. *)
Theorem first_readlink_decides w u j a i n bufsiz buf bufsiz' r :
  sees w u j a i n -> link n = None -> allocs w = [] ->
  readlink i bufsiz (lo w) = Some (zlen buf, buf) -> Forall (fun c => c <> 0) buf ->
  readlink i bufsiz' (lo w) = Some r ->
  exists w' w'', ccfs_readlink true u bufsiz w = Ret (zlen buf, buf) w' /\ ccfs_readlink true u bufsiz' w' = Ret (zlen buf, buf) w''.
Proof.
  intros Hs Ht Ha Hr Hnul Hr'. pose proof Hs as Hs'. look Hs'.
  pose proof (zlen_nonneg buf). 
  assert (exists w' n', ccfs_readlink true u bufsiz w = Ret (zlen buf, buf) w' /\ lo w' = lo w /\ sees w' u j a i n' /\ link n' = Some buf)
    as (w1 & n1 & Hrun & Hlo & Hs1 & Hl1).
  { unfold ccfs_readlink, fsstack_copy_attr_atime. go. sim Hu Hp Hj Hn Hx Hi Hl. rewrite Hr, Ht, Ha.
    cbn -[insert lookup strlen ztake zlen Z.ltb]. replace (zlen buf <? 0) with false by lia. sim Hu Hp Hj Hn Hx Hi Hl.
    rewrite lookup_insert_eq, ztake_all by done. eexists _, _. split; [done|]. split; [done|]. split.
    - exists d, m, x, ln. cbn -[insert lookup]. rewrite insert_insert_eq, lookup_insert_eq. done.
    - done. }
  destruct (readlink_cached w1 u j a i n1 buf r bufsiz' Hs1 Hl1 Hnul) as [w2 H2]; [by rewrite Hlo|]. by exists w1, w2.
Qed.

(** The inode has these attributes in its cache. *)
Definition holds_stat (ds : gmap Z dentry) (j : Z) (st : kstat) (w : world) : Prop :=
  dents w = ds /\ exists n, inodes w !! j = Some n /\ stat n = Some st.

Lemma keeps_upd_ino ds j st k f : (forall n, stat (f n) = stat n) -> keeps (holds_stat ds j st) (upd_ino k f).
Proof.
  intros Hf w [Hd (n & Hn & Hst)]. unfold wlp, upd_ino, ino. run. destruct (inodes w !! k) as [nk|] eqn:Ek; [|done].
  split; [done|]. cbn. destruct (decide (k = j)) as [->|].
  - exists (f n). simplify_eq. by rewrite lookup_insert_eq, Hf.
  - exists n. by rewrite lookup_insert_ne.
Qed.
Lemma keeps_set_lo ds j st l : keeps (holds_stat ds j st) (modify (set_lo l)).
Proof. apply keeps_modify. by intros w Hw. Qed.
#[local] Hint Resolve keeps_set_lo : keeps.

Ltac keep := unfold fsstack_copy_attr_all, do_vfs, ccfs_get_nested_inode, ccfs_get_nested_dentry, linode_of, dent, ino, lino, ldent;
  repeat first [by apply keeps_upd_ino | apply keeps_bind; [|intros ?] | apply keeps_if | by auto with keeps].

Lemma setattr_keeps ds j st u ia : keeps (holds_stat ds j st) (ccfs_setattr u ia).
Proof. unfold ccfs_setattr, ccfs_truncate. cbv zeta. keep. Qed.

(** Attributes that were cached are returned from then on, also after they were changed. *)
Theorem getattr_stale w u j a i n st ia rc w' :
  sees w u j a i n -> stat n = Some st -> ccfs_setattr u ia w = Ret rc w' -> ccfs_getattr u w' = Ret (0, st) w'.
Proof.
  intros Hs Hst Hrun. look Hs. pose proof (setattr_keeps (dents w) j st u ia w) as Hk. unfold wlp in Hk. rewrite Hrun in Hk.
  destruct Hk as [Hd (n' & Hn' & Hst')]; [by split; eauto|]. rewrite <- Hd in Hu. unfold ccfs_getattr. go.
  sim Hu Hp Hj Hn' Hx Hi Hl. by rewrite Hst'.
Qed.
End cache.
