(* ===== verification/CcfsPrefetch.v ===== *)
(** The prefetcher of the caching file system (src/src/ccfs/prefetcher.c): which pages of a file it
    reads, in which order, and the queue of its requests. *)

From S2P Require Import Prelude.

(** ** One file *)

(** [radix_tree_lookup] finds a page of this index: [cached]; [allocs]: the answers of
    [page_cache_alloc_cold], after which it succeeds.  The pool is a list with the newest page
    first. *)
Fixpoint prefetch_loop (rounds : nat) (index : Z) (cached : Z -> bool) (allocs : list bool) (page_pool : list Z) : list Z :=
  match rounds with
  | O => page_pool
  | S rounds =>
      if cached index then prefetch_loop rounds (index + 1) cached allocs page_pool
      else if negb (default true (head allocs)) then page_pool
      else prefetch_loop rounds (index + 1) cached (tail allocs) (index :: page_pool)
  end.

(** The loop over the pool: a page is taken from its end, added to the page cache, and read when it
    could be added.  [readpages] is not among the operations of the file system. *)
Fixpoint read_pages (nr_pages : nat) (add : Z -> bool) (pages : list Z) : list Z :=
  match nr_pages with
  | O => []
  | S nr_pages =>
      match last pages with
      | None => []
      | Some p => (if add p then [p] else []) ++ read_pages nr_pages add (removelast pages)
      end
  end.

Definition end_index (isize : Z) : Z := u64[Z.shiftr (isize - 1) 12].

(** The indices of the pages that are read, in order. *)
Definition do_file_prefetch (isize : Z) (cached : Z -> bool) (allocs : list bool) (add : Z -> bool) : list Z :=
  let page_pool := prefetch_loop (Z.to_nat (end_index isize)) 0 cached allocs [] in
  read_pages (length page_pool) add page_pool.

(** ** The queue *)

(** [requests]: the files, the first of the list first; [f_count] has the references of the files
    that the queue and the prefetcher hold. *)
Record prefetcher_data := mk_prefetcher { requests : list Z; f_count : Z -> Z }.
Definition fput (f : Z) (c : Z -> Z) : Z -> Z := fun g => if g =? f then c g - 1 else c g.

Definition is_prefetch_requested (p : prefetcher_data) : bool := match requests p with [] => false | _ => true end.
Definition get_next_prefetch_info (p : prefetcher_data) : option Z * prefetcher_data :=
  match requests p with
  | [] => (None, p)
  | f :: rest => (Some f, mk_prefetcher rest (f_count p))
  end.
Definition submit_for_prefetch (kmalloc_ok : bool) (filp : Z) (p : prefetcher_data) : prefetcher_data :=
  if negb kmalloc_ok then mk_prefetcher (requests p) (fput filp (f_count p))
  else mk_prefetcher (filp :: requests p) (f_count p).

(** A round of [prefetcher_run] with a request: the file that is prefetched, and then put. *)
Definition perform_prefetch (info : Z) (p : prefetcher_data) : prefetcher_data :=
  mk_prefetcher (requests p) (fput info (f_count p)).
Fixpoint prefetcher_run (rounds : nat) (p : prefetcher_data) : list Z * prefetcher_data :=
  match rounds with
  | O => ([], p)
  | S rounds =>
      match get_next_prefetch_info p with
      | (None, p) => ([], p)
      | (Some f, p) => let '(done, p) := prefetcher_run rounds (perform_prefetch f p) in (f :: done, p)
      end
  end.

(** ** What is prefetched *)

(** The indices from [lo] on, [n] of them. *)
Fixpoint indices (lo : Z) (n : nat) : list Z := match n with O => [] | S n => lo :: indices (lo + 1) n end.

Lemma prefetch_loop_pool cached n : forall lo pool,
  prefetch_loop n lo cached [] pool = rev (List.filter (fun k => negb (cached k)) (indices lo n)) ++ pool.
Proof.
  induction n as [|n IH]; intros lo pool; [done|]. cbn. destruct (cached lo); cbn; rewrite IH; [done|].
  by rewrite <- List.app_assoc.
Qed.

(** A pool is read from its oldest page on. *)
Lemma read_pages_rev add l : read_pages (length l) add (rev l) = List.filter add l.
Proof.
  induction l as [|x l IH]; [done|]. cbn [length rev read_pages]. rewrite last_snoc, removelast_last, IH.
  cbn. by destruct (add x).
Qed.

(** With memory for its pages a prefetch reads every page below [end_index] that is not cached, once
    and in order; so the last page of the file is never read. *)
Theorem prefetch_reads isize cached add :
  do_file_prefetch isize cached [] add =
  List.filter add (List.filter (fun k => negb (cached k)) (indices 0 (Z.to_nat (end_index isize)))).
Proof.
  unfold do_file_prefetch. rewrite prefetch_loop_pool, app_nil_r, length_rev. apply read_pages_rev.
Qed.

Lemma indices_range lo n k : In k (indices lo n) <-> lo <= k < lo + Z.of_nat n.
Proof. revert lo. induction n as [|n IH]; intros lo; cbn; [lia|]. rewrite IH. lia. Qed.

Theorem last_page_not_prefetched isize cached add :
  0 < isize < 2 ^ 63 -> ~ In (Z.shiftr (isize - 1) 12) (do_file_prefetch isize cached [] add).
Proof.
  intros Hs. rewrite prefetch_reads. intros [[Hin _]%filter_In _]%filter_In. apply indices_range in Hin. revert Hin. unfold end_index.
  rewrite Z.shiftr_div_pow2 by lia. change (2 ^ 12) with 4096.
  assert (0 <= (isize - 1) / 4096 < 2 ^ 64) by (split; [apply Z.div_pos|apply Z.div_lt_upper_bound]; lia).
  rewrite uwrap_id by (unfold urange; lia). lia.
Qed.

(** An empty file counts as one of 2^64 - 1 pages. *)
Lemma empty_file_end : end_index 0 = 2 ^ 64 - 1.
Proof. reflexivity. Qed.

(** Requests are served from the newest on, and each file is put once. *)
Theorem prefetcher_serves reqs c :
  let '(done, p) := prefetcher_run (length reqs) (mk_prefetcher reqs c) in
  done = reqs /\ requests p = [] /\ forall f, f_count p f = c f - Z.of_nat (count_occ Z.eq_dec reqs f).
Proof.
  revert c. induction reqs as [|r reqs IH]; intros c; cbn -[count_occ].
  - split_and!; [done..|]. intros f. cbn. lia.
  - specialize (IH (fput r c)). change (perform_prefetch r _) with (mk_prefetcher reqs (fput r c)).
    destruct (prefetcher_run (length reqs) (mk_prefetcher reqs (fput r c))) as [done p]. destruct IH as (-> & Hr & Hc).
    split_and!; [done..|]. intros f. rewrite Hc. unfold fput. cbn. destruct (Z.eq_dec r f) as [->|Hne].
    + rewrite Z.eqb_refl. lia.
    + replace (f =? r) with false by lia. lia.
Qed.
